(* ===== verification/_CoqProject ===== *)
-Q . S2P
Prelude.v
Ident.v
Endian.v
Buffer.v
NetAddress.v
OpenSSL.v
Proto.v
ProtoSpec.v
NetText.v
KeyValue.v
Pow.v
PowThreads.v
PowThreadsSpec.v
Base58.v
Address.v
Outgoings.v
Ecc.v
Keys.v
Base64.v
QuotedPrintable.v
EncodedWords.v
HashTable.v
ParseContentType.v
ParseAddresses.v
MailParser.v
MailParserSpec.v
Connection.v
Crypto.v
CryptoSpec.v
CryptoQueue.v
CryptoQueueSpec.v
CryptoThreadCalls.v
CryptoQueueTheorems.v
ConnectionSpec.v
Network.v
AddressBook.v
NetworkSpec.v
InventorySpec.v
NetworkInv.v
Handshake.v
NetworkObjects.v
StoreFiles.v
StoreFilesSpec.v
SaveMessage.v
Maildir.v
Store.v
StoreSpec.v
Keyring.v
KeyringMessage.v
KeyringPubkeys.v
KeyringInv.v
KeyringSteps.v
KeyringHandlers.v
KeyringCallbacks.v
KeyringNetwork.v
KeyringCalls.v
KeyringSpec.v
KeyringTheorems.v
IpcProto.v
IpcProtoSpec.v
Ipc.v
IpcMail.v
IpcInv.v
IpcHandlers.v
IpcSpec.v
IpcKeygen.v
IpcKeyring.v
IpcTheorems.v
