(* ===== verification/Prelude.v ===== *)
(** * A verification of the core of notbit

    Notbit is a client of the Bitmessage network: a daemon that talks to peers
    over TCP, keeps the objects they exchange, and turns messages into mails and
    mails into messages. The program is written in C (src/src). This development
    models its data formats, its text codecs, its containers, the connection to a
    peer, the network component that drives the connections, the keys and their
    encryption, the store, the proof of work and the cryptography with their
    threads, the key ring that sends and receives messages, and the local socket
    that other programs give mails to and ask for keys, as executable functions,
    and proves what makes them correct.

    ** How C code is modelled

    A function of the program is a Rocq function with the name it has in the
    source. Its outcome is a [result]: [Ok] with what it returns and stores, [Err]
    for an error it reports, [UB] for an access the language leaves undefined (a
    byte outside an object, an uninitialised byte, a failed [assert]) and
    [OutOfFuel] when a loop does not end within its fuel. Integers are in [Z] and
    wrap where the source relies on the width of the type (below). Memory that
    matters for safety is a list of cells, read and written at an index; a pointer
    into the data of a command is the list of the bytes from there to the end of
    the object, together with the length the code believes in. What the code
    obtains from elsewhere (digests, big numbers, curves and ciphers of OpenSSL,
    the clock, the environment, the contents of unwritten heap memory, what a
    system call returned) is a parameter or an argument. The laws such a parameter
    is assumed to obey are a class of their own, with an instance that satisfies
    them.

    ** The files

    - [Prelude]: outcomes, machine integers, byte strings, big-endian numbers,
      lemmas on lists and the tactics of the development. [Ident]: lists of
      objects with an identity, which stand for linked structures.
    - [Endian]: ntb-endian.h, for hosts of either byte order.
    - [Buffer]: ntb-buffer.c. A buffer is the cells of its heap block, its length
      and its size.
    - [NetAddress], [NetText]: ntb-netaddress.c, the socket addresses and the
      text of addresses.
    - [OpenSSL]: the interface of the digests and big numbers the program takes
      from OpenSSL ([Digests], [BigNum]) with the laws it relies on ([DigestLaws],
      [BigNumLaws]), and instances that satisfy them.
    - [Proto], [ProtoSpec]: ntb-proto.c and ntb-proto.h. The variadic functions
      take a list of argument types and a list of values. [ProtoSpec] has the
      encodings as pure functions and the theorems.
    - [Pow]: the check of a proof of work and the test of a nonce (ntb-pow.c).
      [PowThreads], [PowThreadsSpec]: the queue of calculations and the threads
      that search for nonces; what a thread does between two stops at the mutex is
      one step, and traces of calls, callbacks and steps are the executions.
    - [Base58], [Address]: ntb-base58.c and ntb-address.c.
    - [KeyValue]: the files of sections of ntb-key-value.c, with the specification
      that reads them line by line. [Outgoings], [Keys]: the two such files of the
      program, written by ntb-store.c and read by ntb-load-outgoings.c and
      ntb-load-keys.c, and the keys themselves (ntb-key.c).
    - [Ecc]: ntb-ecc.c over the classes [Elliptic] and [Symmetric]. [Crypto],
      [CryptoSpec]: what the thread of ntb-crypto.c does for each kind of task, over
      the class [Ecdsa]: keys, objects of public keys, signed and encrypted
      messages, checks and decryption. [CryptoQueue], [CryptoQueueSpec],
      [CryptoThreadCalls], [CryptoQueueTheorems]: its queue, the cookies and what
      they own, the thread as steps between its stops at the mutex, the callbacks in
      the main loop and those that the thread makes itself.
    - [Base64], [QuotedPrintable], [EncodedWords]: the codecs of mails. The
      incremental decoders keep the state record of the source.
    - [ParseContentType], [ParseAddresses], [MailParser], [MailParserSpec]:
      ntb-parse-content-type.c, ntb-parse-addresses.c and ntb-mail-parser.c. The
      address parser works in the buffer that holds its input. The client of the
      mail parser is the class [MailClient].
    - [HashTable]: ntb-hash-table.c, an array of chains.
    - [Connection], [ConnectionSpec]: ntb-connection.c. A connection is its two
      buffers, its queue, its load from the store and its event source; the
      listener of its events is an argument that may change the connection, as
      the network does.
    - [Network]: ntb-network.c, all of its handlers and entry points.
      [AddressBook] is the abstract machine of addresses and peers, [NetworkSpec]
      the step relation of the component and its refinement of that machine,
      [InventorySpec] and [NetworkInv] the invariant of the inventory in every
      reachable state, [Handshake] the state machine of a peer, [NetworkObjects]
      what becomes of an object.
    - [StoreFiles], [StoreFilesSpec]: the files of ntb-store.c. The file system is
      a finite map; each of the calls that can fail does so as a record of faults
      says. [SaveMessage]: ntb-save-message.c. [Maildir]: the directories of the
      store and of the mail, and saving a message there.
    - [Store], [StoreSpec]: the queue, the cookies and the thread of ntb-store.c.
      A state has the memory of the task slices, the queue, the cookies and where
      the thread is, blocked on the condition variable or not; the main thread's
      calls, which signal it, its wake-ups and its steps interleave.

    - [Keyring]: ntb-keyring.c. The records of the source are in maps from
      identities, the linked lists are lists of identities, and what is asked of
      the threads and of the store are maps of requests. [KeyringMessage] is what
      the objects it builds contain, [KeyringPubkeys] the list and the table of
      objects with public keys, [KeyringInv] the invariant, [KeyringSteps],
      [KeyringHandlers], [KeyringCallbacks] and [KeyringCalls] its preservation by
      the helpers, the handlers of objects, the callbacks and the entry points,
      [KeyringSpec] the events and the states they lead to, [KeyringTheorems] the
      properties. The network is the class [ObjectNetwork] with its laws
      [ObjectNetworkLaws]; [KeyringNetwork] is the instance for [Network], whose
      function that adds an object is cut where it calls the key ring.

    - [IpcProto], [IpcProtoSpec]: ntb-ipc-proto.c, ntb-ipc-client.c and
      ntb-keygen.c. Commands on the local socket, the client that reads responses,
      what is asked for a key and what is printed. [Ipc]: ntb-ipc.c. Connections,
      emails and tasks are in maps from identities, so that using a freed one is
      undefined; the key ring is the class [KeyringService] and what a system call
      returns is an argument of the handler that makes it. [IpcMail] is what the
      client of the mail parser collects, [IpcInv] the invariant and the laws
      [KeyringServiceLaws], [IpcHandlers] what the handlers do to it, [IpcSpec] the
      events and the states they lead to, [IpcKeygen] both ends of a request for a
      key, [IpcKeyring] the instance for [Keyring] with the events of the two
      together, [IpcTheorems] the properties.

    ** How the parts interact

    A connection reads bytes into its input buffer, cuts them into commands,
    parses each with the getters of the protocol and emits events to its listener.
    The listener answers by appending commands to the output buffer with the
    adders of the protocol or by queueing objects, which the connection loads from
    the store one after the other. What a listener may do is the class
    [ListenerOk]: theorems about connections hold for every listener of the class.
    The network is that listener: it keeps the inventory in the hash table, hands
    new objects to the store and reports them. The store queues what it is asked
    for and its thread carries it out; its answer to a load is reported in the
    main thread. The key ring is told of every new object; it asks the threads for
    keys, proofs of work and encrypted messages, the store for the contents of
    messages, and gives what it has built to the network. An event of the key ring
    is the answer to one of its requests, an object, a timer or a command, and the
    answers may come in any order. The callback of a new key comes twice, as in the
    program: from the thread ([EventKeyMade]), which is handled, and from the main
    loop ([EventCrypto]), which then reads a freed cookie
    ([created_key_called_again]); the theorems on reachable states leave out the
    second call, and the thread's for a request that was cancelled. The thread's call
    is a step of its own here; in the program it runs beside the main loop without a
    lock. The local socket gives mails to the mail parser
    and its result to the key ring, asks it for keys, and answers its clients when
    the key ring calls back. Keys and outgoing messages reach the store as lists, which it
    writes with the functions whose inverses the loaders are. The codecs are
    called by the mail parser; a message that is saved is written with the base64
    encoder, and its encoded words are what the decoder of headers reads.

    ** What the theorems show

    - Connections: no input makes a connection access memory outside its objects
      ([connection_read_safe]); commands are delivered in order and exactly once
      ([connection_stream_framing]); what is announced is what the peer is given
      ([connection_inv_roundtrip]); whatever its owner, the store, the socket and
      the timer do, a connection never waits for a load or a write that was not
      asked for, and only the null answer of a failed load breaks it
      ([connection_queue_invariant]).
    - Network: the component refines its address book
      ([network_refines_address_book]), its inventory is consistent in every
      reachable state ([network_inventory_ok]), a connected peer went through the
      handshake ([network_handshake]), shutting down succeeds
      ([network_free_ok]), and an object is stored, announced and reported once
      and only when it is new and valid ([network_object_spec]).
    - Store: in every interleaving in which no load is cancelled after it is done
      ([cancel_after_completion]) and no file fails it behaves like a map on which
      each call takes effect at once ([store_linearizable]); no signal to its thread
      is lost, which always catches up ([store_drains]); saving is atomic under every failure ([save_blob_atomic]);
      what is saved is found again at start-up ([for_each_blob_visits],
      [addr_list_roundtrip], [keys_roundtrip], [outgoings_roundtrip]); a file that
      was written by this program or by hand is read as its lines say
      ([key_value_load_lines]); a saved message has only the headers it is meant
      to have ([save_message_headers]).
    - Key ring: no event that [event_ok] admits breaks its references or fails
      ([keyring_safe]; [decrypt_msg_overflows] and [created_key_called_again] are
      the events that do); a message has exactly the request its state says
      ([keyring_one_request]); it is delivered ([keyring_msg_delivered]), is
      removed when its acknowledgement arrives ([keyring_acknowledgement]), and
      survives a restart while its sender's key does ([keyring_restart]); the objects of public keys are a map of sequences
      ([keyring_pubkeys_map]); requests for keys are answered, but not too often
      ([keyring_getpubkey_answered]); freeing releases everything
      ([keyring_free_releases]).
    - Local socket: no client, descriptor or event of the key ring makes the daemon
      use what was freed, and freeing both releases everything ([socket_safe], over
      any key ring [ipc_safe]); a mail is sent or refused and answered once
      ([ipc_mail_sent]); the client reads its response from any pieces
      ([ipc_client_reads]); a key is asked for with the options of the command line
      or refused ([ipc_keygen_asked]) and its address printed
      ([ipc_key_answered]).
    - Proof of work: in every interleaving of the threads no cookie is lost or used
      after it is freed ([pow_threads_safe]), what is reported passes the check of
      received objects ([pow_callback_valid]) and a solution is reported under
      every schedule that lets the thread that reaches it run
      ([pow_solution_reported]); shutting down ends ([pow_free_terminates]).
    - Cryptography: what is encrypted is decrypted ([ecc_encrypt_decrypt]), also
      as a signed message ([msg_roundtrip]); only signed messages are reported
      ([decrypted_msg_signed]); keys have the digest that was searched for
      ([handle_create_key_spec]). In every interleaving of the thread and the main
      loop cookies and what they own are freed once and not used after
      ([crypto_queue_safe]), callbacks of the main loop are for outstanding tasks
      and those of the thread for new keys only ([crypto_callbacks_valid]), and the queue drains in order ([crypto_drains]);
      freeing loses what the remaining cookies own ([crypto_free_leaks]).
    - Protocol: reading typed arguments stays inside the data
      ([proto_get_command_safe], [proto_decrypted_msg_safe],
      [proto_pubkey_safe]) and inverts writing them ([proto_command_roundtrip]).
    - Codecs: the two incremental decoders accept exactly their languages, however
      the input is cut ([base64_decode_iff_encoding],
      [quoted_printable_iff_text]), their output is bounded, and decoding a header
      in place agrees with decoding into a fresh list ([encoded_words_in_place]).
    - Mails: the parser gives the same calls and the same outcome however a mail is
      cut, those of a machine on single bytes ([mail_parser_pieces]); lists of
      addresses are read in place as in separate memory
      ([parse_addresses_in_place]); content types follow a grammar
      ([content_type_grammar]).
    - Containers: the buffer refines a list and the hash table a finite map
      ([buffer_refines_list], [hash_table_refines_map]).
    - Addresses: round trips of base58 and of address texts, safety of decoding,
      socket addresses and the filter of reserved blocks.
    - Defects: accesses behind the end of received data, digests and base64 words
      that overflow their memory, a length check that wraps, a freed inventory
      entry that stays in the table, a cancelled load that hits another task, a
      list that is replaced by a truncated one, a command of the local socket that
      is handled again with the next bytes ([keygen_handled_again]) or for ever
      ([commands_loop_endless]). Each is a theorem that the code reaches [UB] or
      the wrong result on a class of inputs.

    ** Bounds and fuel

    Loops that are not structural take their fuel from the length of what they
    consume (the remaining input, the bytes of a number, the size of the table
    that is grown), and the theorems state [Ok] or exclude [OutOfFuel], so the
    fuel is enough for every input in their range. Sizes are bounded where the C
    code computes in [size_t] or [int] and would overflow ([2 ^ 63] for buffers,
    [2 ^ 60] operations on a table or identities of a network, [2 ^ 58] bytes for
    a header, [2 ^ 31] bytes for a key-value file, [2 ^ 20] bytes for the names of
    directories); no object of the program comes near these bounds. The thread of
    the store has one step of fuel for each stop at its mutex. The counter of the
    loop that moves the chains of a growing table is an [int] in the source and a
    number here; they differ from [2 ^ 31] chains on. The bytes of an input buffer
    that nothing has written have one arbitrary value, an argument of the reading
    functions.

    ** What is not modelled

    Allocation failure, which aborts the process; freeing memory; reference
    counts; logging and error objects, of which only the kind of the error is
    kept; sockets, descriptors and the main loop, which appear as the arguments
    and the order of the calls of the handlers; the default store. The main loop is
    not modelled either, nor is the set-up of the local socket; the remaining files
    are the process's own input and output. *)

From Stdlib Require Export ZArith Lia Bool.
From stdpp Require Export base tactics decidable option list numbers gmap strings.

#[global] Open Scope Z_scope.
(* stdpp marks [Z.of_nat] and friends as [simpl never]-style in places; the
   development always computes with [vm_compute] or [cbn]. *)

(** ** Outcomes of C code

    A C function of the program returns, reports an error through its return
    value, performs an access that the language leaves undefined (reading or
    writing outside an object, an uninitialised byte, a failed [assert]), or
    runs a loop longer than the fuel the model gives it. *)

Inductive result (E A : Type) : Type :=
| Ok (a : A)
| Err (e : E)
| UB
| OutOfFuel.
Arguments Ok {E A} a.
Arguments Err {E A} e.
Arguments UB {E A}.
Arguments OutOfFuel {E A}.

#[global] Instance result_ret E : MRet (result E) := fun A a => Ok a.
#[global] Instance result_bind E : MBind (result E) := fun A B f m =>
  match m with
  | Ok a => f a
  | Err e => Err e
  | UB => UB
  | OutOfFuel => OutOfFuel
  end.
#[global] Instance result_fmap E : FMap (result E) := fun A B f m =>
  match m with
  | Ok a => Ok (f a)
  | Err e => Err e
  | UB => UB
  | OutOfFuel => OutOfFuel
  end.

#[global] Instance result_eq_dec {E A} `{EqDecision E, EqDecision A} :
  EqDecision (result E A).
Proof. solve_decision. Defined.

(** The outcome is one the C standard defines (it may be an error value). *)
Definition defined {E A} (r : result E A) : Prop :=
  match r with Ok _ | Err _ => True | UB | OutOfFuel => False end.

#[global] Instance defined_dec {E A} (r : result E A) : Decision (defined r).
Proof. destruct r; unfold defined; solve [left; exact I | right; tauto]. Defined.

Definition is_Ok {E A} (r : result E A) : bool :=
  match r with Ok _ => true | _ => false end.

(** Change of the error type, used where a caller maps a callee's failure to
    its own. *)
Definition map_err {E F A} (f : E -> F) (r : result E A) : result F A :=
  match r with
  | Ok a => Ok a
  | Err e => Err (f e)
  | UB => UB
  | OutOfFuel => OutOfFuel
  end.

(** [if (!c) return e;] *)
Definition guard_err {E} (c : bool) (e : E) : result E unit :=
  if c then Ok tt else Err e.

(** [assert(c)] *)
Definition c_assert {E} (c : bool) : result E unit :=
  if c then Ok tt else UB.

(** A loop over a list that changes a state. *)
Fixpoint for_each {E A S} (f : A -> S -> result E S) (l : list A) (s : S) : result E S :=
  match l with [] => Ok s | x :: l => s ← f x s; for_each f l s end.

Section result_lemmas.
Context {E : Type}.

Lemma bind_Ok {A B} (m : result E A) (f : A -> result E B) b :
  m ≫= f = Ok b <-> exists a, m = Ok a /\ f a = Ok b.
Proof.
  destruct m; unfold mbind, result_bind; split;
    [eauto | intros (?&?&?); congruence | discriminate
    | intros (?&?&?); congruence | discriminate | intros (?&?&?); congruence
    | discriminate | intros (?&?&?); congruence].
Qed.

Lemma bind_Err {A B} (m : result E A) (f : A -> result E B) e :
  m ≫= f = Err e <-> m = Err e \/ exists a, m = Ok a /\ f a = Err e.
Proof.
  destruct m as [a| | |]; unfold mbind, result_bind; split.
  1: { intros H. right. by exists a. }
  1: { intros [H|(? & [= <-] & ?)]; [discriminate H|done]. }
  all: try (intros H; left; congruence).
  all: intros [H|(? & H & ?)]; [|discriminate H].
  1: { injection H as ->. reflexivity. }
  all: discriminate H.
Qed.

Lemma bind_defined {A B} (m : result E A) (f : A -> result E B) :
  defined m -> (forall a, m = Ok a -> defined (f a)) -> defined (m ≫= f).
Proof. destruct m; simpl; auto. Qed.

Lemma bind_ret_l {A B} (a : A) (f : A -> result E B) : (Ok a : result E A) ≫= f = f a.
Proof. reflexivity. Qed.

Lemma bind_assoc {A B C} (m : result E A) (f : A -> result E B) (g : B -> result E C) :
  (m ≫= f) ≫= g = m ≫= (fun x => f x ≫= g).
Proof. by destruct m. Qed.

Lemma defined_Ok {A} (a : A) : defined (Ok a : result E A).
Proof. exact I. Qed.

Lemma defined_Err {A} (e : E) : defined (Err e : result E A).
Proof. exact I. Qed.

(** The two ways to use an invariant of the steps of a loop. *)
Lemma for_each_spec {A S} (P : S -> Prop) (f : A -> S -> result E S) l :
  (forall x s, x ∈ l -> P s -> exists s', f x s = Ok s' /\ P s') -> forall s, P s -> exists s', for_each f l s = Ok s' /\ P s'.
Proof.
  induction l as [|x l IH]; intros Hf s Hp; cbn [for_each]; [by exists s|]. destruct (Hf x s ltac:(by left) Hp) as (s1 & -> & Hp1). rewrite bind_ret_l.
  apply IH; [|done]. intros y s' Hy. apply Hf. by right.
Qed.
Lemma for_each_trans {A S} (R : S -> S -> Prop) `{!PreOrder R} (f : A -> S -> result E S) l s s' :
  (forall x s1 s2, f x s1 = Ok s2 -> R s1 s2) -> for_each f l s = Ok s' -> R s s'.
Proof.
  intros Hf. revert s. induction l as [|x l IH]; intros s Hl; cbn [for_each] in Hl; [by injection Hl as <-|].
  apply bind_Ok in Hl as (s1 & H1 & Hl). etrans; [by eapply Hf|by apply IH].
Qed.
End result_lemmas.

(** ** Fixed-width integers *)

Definition u8 (z : Z) : Z := z mod 2 ^ 8.
Definition u16 (z : Z) : Z := z mod 2 ^ 16.
Definition u32 (z : Z) : Z := z mod 2 ^ 32.
Definition u64 (z : Z) : Z := z mod 2 ^ 64.
(** Conversion to a signed type as gcc and clang do it (modulo 2^w). *)
Definition s8 (z : Z) : Z := (z + 2 ^ 7) mod 2 ^ 8 - 2 ^ 7.
Definition s32 (z : Z) : Z := (z + 2 ^ 31) mod 2 ^ 32 - 2 ^ 31.
Definition s64 (z : Z) : Z := (z + 2 ^ 63) mod 2 ^ 64 - 2 ^ 63.

Lemma u8_small z : 0 <= z < 256 -> u8 z = z.
Proof. intros. apply Z.mod_small. lia. Qed.
Lemma u16_small z : 0 <= z < 2 ^ 16 -> u16 z = z.
Proof. intros. apply Z.mod_small. lia. Qed.
Lemma u32_small z : 0 <= z < 2 ^ 32 -> u32 z = z.
Proof. intros. apply Z.mod_small. lia. Qed.
Lemma u64_small z : 0 <= z < 2 ^ 64 -> u64 z = z.
Proof. intros. apply Z.mod_small. lia. Qed.
Lemma s32_small z : - 2 ^ 31 <= z < 2 ^ 31 -> s32 z = z.
Proof. intros. unfold s32. rewrite Z.mod_small; lia. Qed.
Lemma s64_small z : - 2 ^ 63 <= z < 2 ^ 63 -> s64 z = z.
Proof. intros. unfold s64. rewrite Z.mod_small; lia. Qed.
Lemma u8_range z : 0 <= u8 z < 256.
Proof. apply Z.mod_pos_bound. lia. Qed.
Lemma u16_range z : 0 <= u16 z < 2 ^ 16.
Proof. apply Z.mod_pos_bound. lia. Qed.
Lemma u32_range z : 0 <= u32 z < 2 ^ 32.
Proof. apply Z.mod_pos_bound. lia. Qed.
Lemma u64_range z : 0 <= u64 z < 2 ^ 64.
Proof. apply Z.mod_pos_bound. lia. Qed.

(** ** Bytes and pointers

    A byte is a [Z] in [0, 256). A [const uint8_t *] is modelled by the bytes
    from the pointer to the end of the object it points into, so that advancing
    it is [drop] and the difference of two pointers into one object is a
    difference of lengths. *)

Definition is_byte (b : Z) : Prop := 0 <= b < 256.
#[global] Instance is_byte_dec b : Decision (is_byte b).
Proof. unfold is_byte. apply _. Defined.

Definition bytes (l : list Z) : Prop := Forall is_byte l.
#[global] Instance bytes_dec l : Decision (bytes l).
Proof. unfold bytes. apply _. Defined.

Abbreviation ptr := (list Z).

Definition zlen {A} (l : list A) : Z := Z.of_nat (length l).

Section memory.
Context {E : Type}.

(** [*p] *)
Definition deref (p : ptr) : result E Z :=
  match p with [] => UB | b :: _ => Ok b end.

(** [memcpy(dst, p, n)] as a read of [n] bytes *)
Definition read_bytes (n : nat) (p : ptr) : result E (list Z) :=
  if decide (n <= length p)%nat then Ok (take n p) else UB.

Lemma deref_Ok p : p <> [] -> exists b q, p = b :: q /\ deref p = Ok b.
Proof. destruct p; naive_solver. Qed.

Lemma read_bytes_Ok n p : (n <= length p)%nat -> read_bytes n p = Ok (take n p).
Proof. intros. unfold read_bytes. by rewrite decide_True. Qed.

Lemma read_bytes_app n p q : length p = n -> read_bytes n (p ++ q) = Ok p.
Proof.
  intros <-. rewrite read_bytes_Ok by (rewrite length_app; lia).
  by rewrite take_app_length.
Qed.
End memory.

(** ** Big-endian numbers *)

Definition be_combine (l : list Z) : Z := fold_left (fun acc b => acc * 256 + b) l 0.

Fixpoint be_split (n : nat) (v : Z) : list Z :=
  match n with
  | O => []
  | S n => be_split n (v / 256) ++ [v mod 256]
  end.

(** [memcmp(a, b, n) == 0] on equally long byte sequences *)
Definition bytes_eqb (a b : list Z) : bool := bool_decide (a = b).

(** C string literals as bytes *)
Definition str_bytes (s : string) : list Z :=
  (fun c => Z.of_N (Ascii.N_of_ascii c)) <$> String.list_ascii_of_string s.

(** ** Generic lemmas *)

Lemma zlen_nonneg {A} (l : list A) : 0 <= zlen l.
Proof. unfold zlen. lia. Qed.
Lemma zlen_nil {A} : zlen (@nil A) = 0.
Proof. done. Qed.
Lemma zlen_cons {A} (x : A) l : zlen (x :: l) = 1 + zlen l.
Proof. unfold zlen. simpl length. lia. Qed.
Lemma zlen_app {A} (l k : list A) : zlen (l ++ k) = zlen l + zlen k.
Proof. unfold zlen. rewrite length_app. lia. Qed.
Lemma zlen_drop {A} n (l : list A) : zlen (drop n l) = Z.max 0 (zlen l - Z.of_nat n).
Proof. unfold zlen. rewrite length_drop. lia. Qed.
Lemma zlen_take {A} n (l : list A) : zlen (take n l) = Z.min (Z.of_nat n) (zlen l).
Proof. unfold zlen. rewrite length_take. lia. Qed.
Lemma zlen_fmap {A B} (f : A -> B) l : zlen (f <$> l) = zlen l.
Proof. unfold zlen. by rewrite length_fmap. Qed.
Lemma zlen_replicate {A} n (x : A) : zlen (replicate n x) = Z.of_nat n.
Proof. unfold zlen. by rewrite length_replicate. Qed.
Lemma zlen_zero {A} (l : list A) : zlen l = 0 -> l = [].
Proof. destruct l; [done|]. rewrite zlen_cons. pose proof (zlen_nonneg l). lia. Qed.

Lemma bytes_nil : bytes [].
Proof. constructor. Qed.
Lemma bytes_cons b l : bytes (b :: l) <-> is_byte b /\ bytes l.
Proof. apply Forall_cons. Qed.
Lemma bytes_app l k : bytes (l ++ k) <-> bytes l /\ bytes k.
Proof. apply Forall_app. Qed.
Lemma bytes_singleton b : bytes [b] <-> is_byte b.
Proof. apply Forall_singleton. Qed.
Lemma bytes_take n l : bytes l -> bytes (take n l).
Proof. apply Forall_take. Qed.
Lemma bytes_drop n l : bytes l -> bytes (drop n l).
Proof. apply Forall_drop. Qed.
Lemma is_byte_u8 z : is_byte (u8 z).
Proof. apply u8_range. Qed.
Lemma bytes_replicate n b : is_byte b -> bytes (replicate n b).
Proof. intros. by apply Forall_replicate. Qed.

Lemma bytes_eqb_true a b : bytes_eqb a b = true <-> a = b.
Proof. unfold bytes_eqb. apply bool_decide_eq_true. Qed.
Lemma bytes_eqb_refl a : bytes_eqb a a = true.
Proof. by apply bytes_eqb_true. Qed.

Lemma drop_drop_comm {A} i j (l : list A) : drop i (drop j l) = drop (i + j) l.
Proof. rewrite drop_drop. f_equal. lia. Qed.

Section big_endian.
Lemma be_combine_acc l a :
  fold_left (fun acc b => acc * 256 + b) l a = a * 256 ^ zlen l + be_combine l.
Proof.
  revert a. induction l as [|b l IH]; intros a; cbn [fold_left be_combine].
  - rewrite zlen_nil. unfold be_combine. simpl. lia.
  - unfold be_combine. cbn [fold_left]. rewrite !IH.
    rewrite zlen_cons, Z.pow_add_r by (pose proof (zlen_nonneg l); lia). lia.
Qed.

Lemma be_combine_cons b l : be_combine (b :: l) = b * 256 ^ zlen l + be_combine l.
Proof. unfold be_combine at 1. cbn [fold_left]. rewrite be_combine_acc. lia. Qed.

Lemma be_combine_snoc l b : be_combine (l ++ [b]) = be_combine l * 256 + b.
Proof. unfold be_combine. by rewrite fold_left_app. Qed.

Lemma be_combine_app l k :
  be_combine (l ++ k) = be_combine l * 256 ^ zlen k + be_combine k.
Proof. unfold be_combine at 1. by rewrite fold_left_app, be_combine_acc. Qed.

Lemma be_combine_range l : bytes l -> 0 <= be_combine l < 256 ^ zlen l.
Proof.
  induction 1 as [|b l Hb _ IH].
  { vm_compute. split; congruence. }
  rewrite be_combine_cons, zlen_cons, Z.pow_add_r
    by (pose proof (zlen_nonneg l); lia).
  unfold is_byte in Hb. nia.
Qed.

Lemma length_be_split n v : length (be_split n v) = n.
Proof.
  revert v. induction n as [|n IH]; intros v; simpl; [done|].
  rewrite length_app, IH. simpl. lia.
Qed.

Lemma zlen_be_split n v : zlen (be_split n v) = Z.of_nat n.
Proof. unfold zlen. by rewrite length_be_split. Qed.

Lemma bytes_be_split n v : bytes (be_split n v).
Proof.
  revert v. induction n as [|n IH]; intros v; simpl; [constructor|].
  apply bytes_app. split; [done|]. apply bytes_cons. split; [|constructor].
  apply Z.mod_pos_bound. lia.
Qed.

Lemma be_combine_split n v : be_combine (be_split n v) = v mod 256 ^ Z.of_nat n.
Proof.
  revert v. induction n as [|n IH]; intros v; cbn [be_split].
  - by rewrite Z.mod_1_r.
  - rewrite be_combine_snoc, IH.
    replace (256 ^ Z.of_nat (S n)) with (256 * 256 ^ Z.of_nat n)
      by (rewrite Nat2Z.inj_succ, Z.pow_succ_r; lia).
    rewrite Z.rem_mul_r by lia. lia.
Qed.

Lemma be_split_combine l : bytes l -> be_split (length l) (be_combine l) = l.
Proof.
  induction l as [|b l IH] using rev_ind; [done|].
  intros [Hl Hb%bytes_singleton]%bytes_app. unfold is_byte in Hb.
  rewrite length_app, Nat.add_1_r. cbn [be_split].
  rewrite be_combine_snoc.
  replace ((be_combine l * 256 + b) / 256) with (be_combine l)
    by (apply (Z.div_unique _ _ _ b); lia).
  rewrite IH by done. f_equal. f_equal.
  rewrite Z.add_comm, Z.mod_add by lia. apply Z.mod_small. lia.
Qed.
End big_endian.

(** A decidable fact about bytes, checked on all of them. *)
Definition byte_forallb (P : Z -> bool) : bool :=
  forallb P (seqZ 0 256).

Lemma byte_forallb_spec P : byte_forallb P = true -> forall b, is_byte b -> P b = true.
Proof.
  unfold byte_forallb. rewrite forallb_forall. intros H b Hb. apply H.
  rewrite <- list_elem_of_In, elem_of_seqZ. unfold is_byte in Hb. lia.
Qed.

(** ** Automation *)

Create HintDb ntb.
Create Rewrite HintDb zlen.
#[export] Hint Resolve zlen_nonneg bytes_nil bytes_take bytes_drop is_byte_u8
  bytes_replicate bytes_be_split defined_Ok defined_Err u8_range u16_range
  u32_range u64_range : ntb.
#[export] Hint Rewrite @zlen_nil @zlen_cons @zlen_app @zlen_drop @zlen_take
  @zlen_fmap @zlen_replicate zlen_be_split : zlen.

(** Normalise every [zlen] of the context and the goal. *)
Ltac zlen_simpl := autorewrite with zlen in *.

(** Add the non-negativity of every length that occurs, then [lia]. *)
Ltac zlen_pose :=
  repeat match goal with
  | |- context [zlen ?l] =>
      lazymatch goal with
      | H : 0 <= zlen l |- _ => fail
      | _ => pose proof (zlen_nonneg l)
      end
  | _ : context [zlen ?l] |- _ =>
      lazymatch goal with
      | H : 0 <= zlen l |- _ => fail
      | _ => pose proof (zlen_nonneg l)
      end
  end.
Ltac zlia := zlen_simpl; zlen_pose; lia.

(** Split a successful or failing monadic chain into its steps. *)
Ltac bind_inv :=
  repeat match goal with
  | H : _ ≫= _ = Ok _ |- _ => apply bind_Ok in H as (? & ? & ?)
  | H : Ok _ = Ok _ |- _ => injection H as H; try subst
  | H : Err _ = Ok _ |- _ => discriminate H
  | H : UB = Ok _ |- _ => discriminate H
  | H : OutOfFuel = Ok _ |- _ => discriminate H
  end.

(** Case analysis on the boolean comparisons of the code. *)
Ltac case_bool :=
  match goal with
  | |- context [?a <? ?b] => destruct (Z.ltb_spec a b)
  | |- context [?a <=? ?b] => destruct (Z.leb_spec a b)
  | |- context [?a =? ?b] => destruct (Z.eqb_spec a b)
  end.
Ltac case_bool_in H :=
  match type of H with
  | context [?a <? ?b] => destruct (Z.ltb_spec a b)
  | context [?a <=? ?b] => destruct (Z.leb_spec a b)
  | context [?a =? ?b] => destruct (Z.eqb_spec a b)
  end.

(** Evaluate the powers with literal exponents, which [lia] needs under [/]. *)
Ltac pow_lits :=
  repeat match goal with
  | |- context [?a ^ ?n] =>
      let v := eval vm_compute in (a ^ n) in
      lazymatch v with Z0 => idtac | Zpos _ => idtac end;
      change (a ^ n) with v
  end.

(** [lia] that also understands [/] and [mod] by literals. *)
Ltac dlia := pow_lits; Z.to_euclidean_division_equations; lia.
