(* ===== verification/Ident.v ===== *)
(** * Ident: lists of objects with an identity

    The program links structures into lists and points at them from elsewhere. A
    list of such structures is a list of pairs of an identity (the address) and
    the contents; a pointer is an identity, and it dangles when no list has it.
    Inserting at the head is [cons]. *)

From S2P Require Import Prelude.

Section ident.
Context {A : Type}.
Implicit Types (l : list (nat * A)) (i : nat) (x : A) (P : A -> bool).

Definition lookup_id i l : option A :=
  snd <$> List.find (fun p => Nat.eqb (fst p) i) l.

Definition update_id i (f : A -> A) l : list (nat * A) :=
  (fun p => (fst p, if Nat.eqb (fst p) i then f (snd p) else snd p)) <$> l.

Definition remove_id i l : list (nat * A) :=
  List.filter (fun p => negb (Nat.eqb (fst p) i)) l.

(** The number of objects of a kind. *)
Definition count P l : Z := zlen (List.filter (fun p => P (snd p)) l).

(** The contribution of one object to a count. *)
Definition one (b : bool) : Z := if b then 1 else 0.

Lemma lookup_id_elem i l x : lookup_id i l = Some x -> (i, x) ∈ l.
Proof.
  unfold lookup_id. intros ([j y] & Hf & ->)%fmap_Some. apply find_some in Hf as [Hin E%Nat.eqb_eq]. cbn in E. subst.
  by apply list_elem_of_In.
Qed.

Lemma lookup_id_cons i j y l :
  lookup_id i ((j, y) :: l) = if Nat.eqb j i then Some y else lookup_id i l.
Proof. unfold lookup_id. cbn [List.find fst]. by destruct (Nat.eqb j i). Qed.

Lemma lookup_id_Some i l x : NoDup l.*1 -> lookup_id i l = Some x <-> (i, x) ∈ l.
Proof.
  intros Hn. split; [apply lookup_id_elem|]. induction l as [|[j y] l IH]; [by intros ?%elem_of_nil|].
  rewrite fmap_cons, NoDup_cons in Hn. destruct Hn as [Hj Hn]. rewrite lookup_id_cons.
  intros [[= <- <-]|Hin]%elem_of_cons; [by rewrite Nat.eqb_refl|].
  destruct (Nat.eqb_spec j i) as [->|]; [|by apply IH].
  exfalso. apply Hj. apply list_elem_of_fmap. by exists (i, x).
Qed.

Lemma lookup_id_None i l : lookup_id i l = None <-> i ∉ l.*1.
Proof.
  induction l as [|[j y] l IH]; [split; [intros _; apply not_elem_of_nil|done]|].
  rewrite lookup_id_cons, fmap_cons, not_elem_of_cons. cbn [fst].
  destruct (Nat.eqb_spec j i) as [->|]; [|naive_solver]. split; [done|naive_solver].
Qed.

Lemma lookup_id_key i l x : lookup_id i l = Some x -> i ∈ l.*1.
Proof. intros Hl%lookup_id_elem. apply list_elem_of_fmap. by exists (i, x). Qed.

Lemma update_id_keys i f l : (update_id i f l).*1 = l.*1.
Proof. unfold update_id. rewrite <- list_fmap_compose. by apply list_fmap_ext. Qed.

Lemma lookup_update_id i j f l :
  lookup_id j (update_id i f l) = (if Nat.eqb j i then f else fun x => x) <$> lookup_id j l.
Proof.
  induction l as [|[k y] l IH]; [done|]. unfold update_id. rewrite fmap_cons. cbn [fst snd].
  rewrite !lookup_id_cons. destruct (Nat.eqb_spec k j) as [->|]; [by destruct (Nat.eqb j i)|exact IH].
Qed.

Lemma elem_of_update_id i f l j x :
  (j, x) ∈ update_id i f l <->
  exists y, (j, y) ∈ l /\ x = if Nat.eqb j i then f y else y.
Proof.
  unfold update_id. rewrite list_elem_of_fmap. split.
  - intros ([k y] & [= -> ->] & Hin). by exists y.
  - intros (y & Hin & ->). by exists (j, y).
Qed.

Lemma elem_of_remove_id i l j x : (j, x) ∈ remove_id i l <-> (j, x) ∈ l /\ j <> i.
Proof.
  unfold remove_id. rewrite !list_elem_of_In, filter_In. cbn [fst].
  destruct (Nat.eqb_spec j i); naive_solver.
Qed.

Lemma remove_id_keys i l : forall j, j ∈ (remove_id i l).*1 <-> j ∈ l.*1 /\ j <> i.
Proof.
  intros j. rewrite !list_elem_of_fmap. split.
  - intros ([k x] & -> & Hin). apply elem_of_remove_id in Hin as [? ?]. eauto.
  - intros [([k x] & -> & Hin) Hne]. exists (k, x). split; [done|]. by apply elem_of_remove_id.
Qed.

Lemma remove_id_NoDup i l : NoDup l.*1 -> NoDup (remove_id i l).*1.
Proof.
  induction l as [|[j y] l IH]; [done|]. rewrite fmap_cons, NoDup_cons. intros [Hj Hn].
  unfold remove_id. cbn [List.filter fst]. destruct (Nat.eqb_spec j i); cbn [negb]; [by apply IH|].
  rewrite fmap_cons, NoDup_cons. split; [|by apply IH].
  intros Hin. apply Hj. by apply (remove_id_keys i) in Hin as [? _].
Qed.

Lemma lookup_remove_id i j l :
  lookup_id j (remove_id i l) = if Nat.eqb j i then None else lookup_id j l.
Proof.
  induction l as [|[k y] l IH]; [by destruct (Nat.eqb j i)|].
  unfold remove_id. cbn [List.filter fst]. rewrite lookup_id_cons.
  destruct (Nat.eqb_spec k i) as [->|]; cbn [negb].
  - fold (remove_id i l). rewrite IH. destruct (Nat.eqb_spec j i) as [->|]; [done|].
    by destruct (Nat.eqb_spec i j) as [->|].
  - fold (remove_id i l). rewrite lookup_id_cons, IH.
    destruct (Nat.eqb_spec k j) as [->|]; [|done]. by destruct (Nat.eqb_spec j i).
Qed.

Lemma remove_id_fresh i l : i ∉ l.*1 -> remove_id i l = l.
Proof.
  induction l as [|[j y] l IH]; [done|]. rewrite fmap_cons, not_elem_of_cons. intros [? Hn].
  unfold remove_id. cbn [List.filter fst]. destruct (Nat.eqb_spec j i); [by subst|]. cbn [negb].
  f_equal. by apply IH.
Qed.

Lemma count_nil P : count P [] = 0.
Proof. done. Qed.
Lemma count_cons P i x l : count P ((i, x) :: l) = one (P x) + count P l.
Proof.
  unfold count. cbn [List.filter snd]. destruct (P x); [rewrite zlen_cons; cbn [one]|cbn [one]]; lia.
Qed.
Lemma count_nonneg P l : 0 <= count P l.
Proof. apply zlen_nonneg. Qed.

Lemma count_remove P i l x :
  NoDup l.*1 -> lookup_id i l = Some x -> count P (remove_id i l) = count P l - one (P x).
Proof.
  intros Hn. induction l as [|[j y] l IH]; [done|]. rewrite fmap_cons, NoDup_cons in Hn.
  destruct Hn as [Hj Hn]. rewrite lookup_id_cons. unfold remove_id. cbn [List.filter fst].
  destruct (Nat.eqb_spec j i) as [->|]; cbn [negb].
  - intros [= ->]. fold (remove_id i l). rewrite remove_id_fresh, count_cons by done. lia.
  - intros Hl. fold (remove_id i l). rewrite !count_cons, (IH Hn Hl). lia.
Qed.

Lemma count_update P i f l x :
  NoDup l.*1 -> lookup_id i l = Some x ->
  count P (update_id i f l) = count P l - one (P x) + one (P (f x)).
Proof.
  intros Hn. induction l as [|[j y] l IH]; [done|]. rewrite fmap_cons, NoDup_cons in Hn.
  destruct Hn as [Hj Hn]. rewrite lookup_id_cons. unfold update_id. rewrite fmap_cons. cbn [fst snd].
  fold (update_id i f l). rewrite !count_cons. destruct (Nat.eqb_spec j i) as [->|].
  - intros [= ->]. enough (update_id i f l = l) as -> by lia.
    clear IH. unfold update_id. induction l as [|[k z] l IH]; [done|]. rewrite !fmap_cons in *. cbn [fst snd] in *.
    rewrite not_elem_of_cons in Hj. rewrite NoDup_cons in Hn. destruct (Nat.eqb_spec k i); [naive_solver|].
    f_equal. apply IH; naive_solver.
  - intros Hl. rewrite (IH Hn Hl). lia.
Qed.

Lemma count_pos P i l x : lookup_id i l = Some x -> P x = true -> 1 <= count P l.
Proof.
  intros Hl%lookup_id_elem HP. unfold count, zlen.
  enough (List.filter (fun p => P (snd p)) l <> []) by (destruct (List.filter _ _); [done|cbn [length]; lia]).
  intros E. apply list_elem_of_In in Hl. assert (Hf : In (i, x) (List.filter (fun p => P (snd p)) l)) by (by apply filter_In).
  by rewrite E in Hf.
Qed.

Lemma count_ext P Q l : (forall i x, (i, x) ∈ l -> P x = Q x) -> count P l = count Q l.
Proof.
  induction l as [|[i x] l IH]; [done|]. intros He. rewrite !count_cons, (He i x) by left.
  rewrite IH; [done|]. intros j y Hin. apply (He j). by right.
Qed.

(** No object contributes: the count is zero. *)
Lemma count_zero P l : (forall i x, (i, x) ∈ l -> P x = false) -> count P l = 0.
Proof.
  induction l as [|[i x] l IH]; [done|]. intros He. rewrite count_cons, (He i x) by left. cbn [one].
  rewrite IH; [done|]. intros j y Hin. apply (He j). by right.
Qed.
End ident.

(** A part of every object. *)
Section map.
Context {A B : Type}.
Implicit Types (g : A -> B) (l : list (nat * A)).

Definition map_id g l : list (nat * B) := (fun p => (fst p, g (snd p))) <$> l.

Lemma map_id_cons g i x l : map_id g ((i, x) :: l) = (i, g x) :: map_id g l.
Proof. reflexivity. Qed.

Lemma map_id_keys g l : (map_id g l).*1 = l.*1.
Proof. unfold map_id. rewrite <- list_fmap_compose. by apply list_fmap_ext. Qed.

Lemma lookup_map_id g i l : lookup_id i (map_id g l) = g <$> lookup_id i l.
Proof.
  induction l as [|[j x] l IH]; [done|]. rewrite map_id_cons, !lookup_id_cons, IH.
  by destruct (Nat.eqb j i).
Qed.

Lemma remove_map_id g i l : map_id g (remove_id i l) = remove_id i (map_id g l).
Proof.
  induction l as [|[j x] l IH]; [done|]. unfold remove_id. rewrite map_id_cons. cbn [List.filter fst].
  destruct (negb (Nat.eqb j i)); [|exact IH]. rewrite map_id_cons. by f_equal.
Qed.

(** An update of the whole is an update of the part. *)
Lemma map_update_id g i f h l :
  (forall x, lookup_id i l = Some x -> g (f x) = h (g x)) -> NoDup l.*1 ->
  map_id g (update_id i f l) = update_id i h (map_id g l).
Proof.
  induction l as [|[j x] l IH]; [done|]. rewrite fmap_cons, NoDup_cons. cbn [fst]. intros Hg [Hj Hn].
  assert (Hg' : forall y, lookup_id i l = Some y -> g (f y) = h (g y)).
  { intros y Hy. apply Hg. rewrite lookup_id_cons. destruct (Nat.eqb_spec j i) as [->|]; [|done].
    by apply lookup_id_key in Hy. }
  unfold update_id in *. rewrite map_id_cons, !fmap_cons. cbn [fst snd]. rewrite map_id_cons.
  rewrite IH by done. do 2 f_equal. rewrite lookup_id_cons in Hg.
  destruct (Nat.eqb j i); [|done]. by apply Hg.
Qed.

Lemma map_update_id_same g i f l :
  (forall x, g (f x) = g x) -> map_id g (update_id i f l) = map_id g l.
Proof.
  intros Hg. unfold map_id, update_id. rewrite <- list_fmap_compose. apply list_fmap_ext.
  intros k [j x] _. cbn. by destruct (Nat.eqb j i); rewrite ?Hg.
Qed.
End map.

Lemma map_map_id {A B C} (g : A -> B) (h : B -> C) l : map_id h (map_id g l) = map_id (fun x => h (g x)) l.
Proof. unfold map_id. rewrite <- list_fmap_compose. by apply list_fmap_ext. Qed.

Lemma map_id_ext {A B} (g h : A -> B) l : (forall i x, (i, x) ∈ l -> g x = h x) -> map_id g l = map_id h l.
Proof.
  induction l as [|[i x] l IH]; [done|]. intros He. rewrite !map_id_cons, (He i x) by left.
  f_equal. apply IH. intros j y Hin. apply (He j). by right.
Qed.

Lemma count_map_id {A B} (g : A -> B) P l : count P (map_id g l) = count (fun x => P (g x)) l.
Proof.
  induction l as [|[i x] l IH]; [done|]. by rewrite map_id_cons, !count_cons, IH.
Qed.

Lemma update_id_fresh {A} i (f : A -> A) l : i ∉ l.*1 -> update_id i f l = l.
Proof.
  induction l as [|[j x] l IH]; [done|]. rewrite fmap_cons, not_elem_of_cons. intros [? Hn].
  unfold update_id in *. rewrite fmap_cons. cbn [fst snd]. destruct (Nat.eqb_spec j i); [by subst|].
  by rewrite IH.
Qed.

Lemma update_id_head {A} i (f : A -> A) x l : i ∉ l.*1 -> update_id i f ((i, x) :: l) = (i, f x) :: l.
Proof.
  intros Hn. unfold update_id. rewrite fmap_cons. cbn [fst snd]. rewrite Nat.eqb_refl.
  fold (update_id i f l). by rewrite update_id_fresh.
Qed.
