(* ===== verification/Endian.v ===== *)
(** * Endian: the byte-order macros (ntb-endian.h)

    [native_load]/[native_store] are the [memcpy] between bytes and an integer
    variable on a host of either byte order; the macros [NTB_UINTn_FROM_BE] and
    [NTB_UINTn_TO_BE] are the swap on a little-endian host and the identity on a
    big-endian one. The lemmas show that both configurations read and write
    network order. *)

From S2P Require Import Prelude.

Inductive endianness := HAVE_BIG_ENDIAN | HAVE_LITTLE_ENDIAN.

(** [memcpy(&value, p, sizeof value)] *)
Definition native_load (host : endianness) (bs : list Z) : Z :=
  match host with
  | HAVE_BIG_ENDIAN => be_combine bs
  | HAVE_LITTLE_ENDIAN => be_combine (reverse bs)
  end.

(** the bytes of an [n]-byte variable in memory *)
Definition native_store (host : endianness) (n : nat) (v : Z) : list Z :=
  match host with
  | HAVE_BIG_ENDIAN => be_split n v
  | HAVE_LITTLE_ENDIAN => reverse (be_split n v)
  end.

Definition NTB_SWAP_UINT16 (x : Z) : Z :=
  u16 (Z.lor (Z.shiftr (u16 x) 8) (Z.shiftl (u16 x) 8)).

Definition NTB_SWAP_UINT32 (x : Z) : Z :=
  u32 (Z.lor (Z.lor (Z.lor
    (Z.shiftl (Z.land (u32 x) 0x000000ff) 24)
    (Z.shiftl (Z.land (u32 x) 0x0000ff00) 8))
    (Z.shiftr (Z.land (u32 x) 0x00ff0000) 8))
    (Z.shiftr (Z.land (u32 x) 0xff000000) 24)).

Definition NTB_SWAP_UINT64 (x : Z) : Z :=
  u64 (Z.lor (Z.lor (Z.lor (Z.lor (Z.lor (Z.lor (Z.lor
    (Z.shiftl (Z.land (u64 x) 0x00000000000000ff) 56)
    (Z.shiftl (Z.land (u64 x) 0x000000000000ff00) 40))
    (Z.shiftl (Z.land (u64 x) 0x0000000000ff0000) 24))
    (Z.shiftl (Z.land (u64 x) 0x00000000ff000000) 8))
    (Z.shiftr (Z.land (u64 x) 0x000000ff00000000) 8))
    (Z.shiftr (Z.land (u64 x) 0x0000ff0000000000) 24))
    (Z.shiftr (Z.land (u64 x) 0x00ff000000000000) 40))
    (Z.shiftr (Z.land (u64 x) 0xff00000000000000) 56)).

Definition NTB_UINT16_FROM_BE (host : endianness) (x : Z) : Z :=
  match host with HAVE_BIG_ENDIAN => x | HAVE_LITTLE_ENDIAN => NTB_SWAP_UINT16 x end.
Definition NTB_UINT32_FROM_BE (host : endianness) (x : Z) : Z :=
  match host with HAVE_BIG_ENDIAN => x | HAVE_LITTLE_ENDIAN => NTB_SWAP_UINT32 x end.
Definition NTB_UINT64_FROM_BE (host : endianness) (x : Z) : Z :=
  match host with HAVE_BIG_ENDIAN => x | HAVE_LITTLE_ENDIAN => NTB_SWAP_UINT64 x end.

Definition NTB_UINT16_TO_BE := NTB_UINT16_FROM_BE.
Definition NTB_UINT32_TO_BE := NTB_UINT32_FROM_BE.
Definition NTB_UINT64_TO_BE := NTB_UINT64_FROM_BE.

(** ** Correctness of the swaps *)

Lemma land_byte_mask x i :
  0 <= i -> Z.land x (255 * 2 ^ i) = x / 2 ^ i mod 256 * 2 ^ i.
Proof.
  intros Hi. rewrite <- !Z.shiftl_mul_pow2, <- Z.shiftr_div_pow2 by lia.
  change 256 with (2 ^ 8). rewrite <- Z.land_ones by lia.
  change (Z.ones 8) with 255.
  apply Z.bits_inj'. intros n Hn.
  rewrite Z.land_spec. destruct (Z.ltb_spec n i).
  - rewrite !Z.shiftl_spec_low by lia. apply andb_false_r.
  - rewrite !Z.shiftl_spec_high, Z.land_spec, Z.shiftr_spec by lia.
    by replace (n - i + i) with n by lia.
Qed.

Lemma lor_disjoint_add a b k :
  0 <= k -> 0 <= b < 2 ^ k -> Z.lor (a * 2 ^ k) b = a * 2 ^ k + b.
Proof.
  intros Hk Hb. rewrite <- Z.shiftl_mul_pow2 by lia.
  rewrite <- Z.lxor_lor, Z.add_nocarry_lxor; [done| |].
  all: apply Z.bits_inj'; intros n Hn; rewrite Z.land_spec, Z.bits_0.
  all: destruct (Z.ltb_spec n k);
    [rewrite Z.shiftl_spec_low by lia; done|].
  all: rewrite <- (Z.mod_small b (2 ^ k)), Z.mod_pow2_bits_high by lia;
    apply andb_false_r.
Qed.

(** One more byte below an already assembled prefix. *)
Lemma lor_byte_step a b k j :
  0 <= k -> j = k + 8 -> is_byte b ->
  Z.lor (a * 2 ^ j) (b * 2 ^ k) = (a * 256 + b) * 2 ^ k.
Proof.
  intros Hk -> Hb. unfold is_byte in Hb.
  rewrite lor_disjoint_add; rewrite ?Z.pow_add_r by lia; nia.
Qed.

Ltac destruct_bytes :=
  repeat match goal with
  | H : bytes (_ :: _) |- _ => apply bytes_cons in H as [? ?]
  end; unfold is_byte in *.

(** A masked byte, moved left or right. *)
Lemma mask_shl x m i s b :
  m = 255 * 2 ^ i -> 0 <= i -> 0 <= s -> x / 2 ^ i mod 256 = b ->
  Z.shiftl (Z.land x m) s = b * 2 ^ (i + s).
Proof.
  intros -> Hi Hs <-. rewrite land_byte_mask, Z.shiftl_mul_pow2, Z.pow_add_r by lia. lia.
Qed.

Lemma mask_shr x m i s b :
  m = 255 * 2 ^ i -> 0 <= s <= i -> x / 2 ^ i mod 256 = b ->
  Z.shiftr (Z.land x m) s = b * 2 ^ (i - s).
Proof.
  intros -> Hs <-. rewrite land_byte_mask, Z.shiftr_div_pow2 by lia.
  replace (2 ^ i) with (2 ^ (i - s) * 2 ^ s) at 2
    by (rewrite <- Z.pow_add_r by lia; f_equal; lia).
  rewrite Z.mul_assoc, Z.div_mul by lia. done.
Qed.

Lemma be_combine_2 a b : be_combine [a; b] = a * 256 + b.
Proof. unfold be_combine. cbn. lia. Qed.
Lemma be_combine_4 a b c d :
  be_combine [a; b; c; d] = ((a * 256 + b) * 256 + c) * 256 + d.
Proof. unfold be_combine. cbn. lia. Qed.
Lemma be_combine_8 a b c d e f g h :
  be_combine [a; b; c; d; e; f; g; h] =
  ((((((a * 256 + b) * 256 + c) * 256 + d) * 256 + e) * 256 + f) * 256 + g) * 256 + h.
Proof. unfold be_combine. cbn. lia. Qed.

Lemma swap16_load a b :
  bytes [a; b] -> NTB_SWAP_UINT16 (be_combine [b; a]) = be_combine [a; b].
Proof.
  intros. destruct_bytes. unfold NTB_SWAP_UINT16. rewrite !be_combine_2.
  rewrite (u16_small (b * 256 + a)) by lia.
  rewrite Z.shiftl_mul_pow2, Z.shiftr_div_pow2, Z.lor_comm by lia.
  replace ((b * 256 + a) / 2 ^ 8) with b by (dlia).
  rewrite lor_disjoint_add by lia. unfold u16. dlia.
Qed.

Lemma swap32_load a b c d :
  bytes [a; b; c; d] ->
  NTB_SWAP_UINT32 (be_combine [d; c; b; a]) = be_combine [a; b; c; d].
Proof.
  intros. destruct_bytes. unfold NTB_SWAP_UINT32. rewrite !be_combine_4.
  set (x := ((d * 256 + c) * 256 + b) * 256 + a).
  rewrite (u32_small x) by (unfold x; dlia).
  rewrite (mask_shl x 0xff 0 24 a), (mask_shl x 0xff00 8 8 b), (mask_shr x 0xff0000 16 8 c),
    (mask_shr x 0xff000000 24 24 d) by (unfold x; dlia).
  rewrite !lor_byte_step by (unfold is_byte; lia).
  rewrite u32_small; lia.
Qed.

Lemma swap64_load a b c d e f g h :
  bytes [a; b; c; d; e; f; g; h] ->
  NTB_SWAP_UINT64 (be_combine [h; g; f; e; d; c; b; a])
  = be_combine [a; b; c; d; e; f; g; h].
Proof.
  intros. destruct_bytes. unfold NTB_SWAP_UINT64. rewrite !be_combine_8.
  set (x := _ * 256 + a).
  rewrite (u64_small x) by (unfold x; dlia).
  rewrite (mask_shl x 0xff 0 56 a), (mask_shl x 0xff00 8 40 b), (mask_shl x 0xff0000 16 24 c),
    (mask_shl x 0xff000000 24 8 d), (mask_shr x 0xff00000000 32 8 e), (mask_shr x 0xff0000000000 40 24 f),
    (mask_shr x 0xff000000000000 48 40 g), (mask_shr x 0xff00000000000000 56 56 h) by (unfold x; dlia).
  rewrite !lor_byte_step by (unfold is_byte; lia).
  rewrite u64_small; lia.
Qed.

Lemma bytes_reverse l : bytes l -> bytes (reverse l).
Proof. apply Forall_reverse. Qed.

(** The three widths at once: a swap reverses the bytes of the number. *)
Class SwapOk (n : nat) (swap : Z -> Z) : Prop :=
  swap_reverse : forall bs, length bs = n -> bytes bs ->
    swap (be_combine (reverse bs)) = be_combine bs.

#[export] Instance swap16_ok : SwapOk 2 NTB_SWAP_UINT16.
Proof. intros [|a [|b [|]]] Hl Hb; try discriminate Hl. by apply swap16_load. Qed.
#[export] Instance swap32_ok : SwapOk 4 NTB_SWAP_UINT32.
Proof.
  intros [|a [|b [|c [|d [|]]]]] Hl Hb; try discriminate Hl. by apply swap32_load.
Qed.
#[export] Instance swap64_ok : SwapOk 8 NTB_SWAP_UINT64.
Proof.
  intros [|a [|b [|c [|d [|e [|f [|g [|h [|]]]]]]]]] Hl Hb; try discriminate Hl.
  by apply swap64_load.
Qed.

Section swap.
Context {n : nat} {swap : Z -> Z} `{Hswap : !SwapOk n swap}.

Definition from_be (host : endianness) (x : Z) : Z :=
  match host with HAVE_BIG_ENDIAN => x | HAVE_LITTLE_ENDIAN => swap x end.

Lemma from_be_load host bs :
  length bs = n -> bytes bs -> from_be host (native_load host bs) = be_combine bs.
Proof. intros. destruct host; simpl; [done|]. by apply swap_reverse. Qed.

Lemma store_to_be host v :
  native_store host n (from_be host v) = be_split n v \/ ~ (0 <= v < 256 ^ Z.of_nat n).
Proof.
  destruct (decide (0 <= v < 256 ^ Z.of_nat n)) as [Hv|]; [left|by right].
  destruct host; simpl; [done|].
  set (bs := be_split n v).
  assert (Hbs : length (reverse bs) = n /\ bytes (reverse bs)).
  { split; [rewrite length_reverse; apply length_be_split|].
    apply bytes_reverse, bytes_be_split. }
  destruct Hbs as [Hl Hb].
  replace v with (be_combine (reverse (reverse bs)))
    by (rewrite reverse_involutive; unfold bs; rewrite be_combine_split;
        apply Z.mod_small; lia).
  rewrite swap_reverse by done. rewrite <- Hl at 1.
  rewrite be_split_combine by done. apply reverse_involutive.
Qed.
End swap.

(** Reading a big-endian field is independent of the host. *)
Lemma uint16_from_be_load host bs :
  length bs = 2%nat -> bytes bs ->
  NTB_UINT16_FROM_BE host (native_load host bs) = be_combine bs.
Proof. apply (from_be_load (swap := NTB_SWAP_UINT16)). Qed.
Lemma uint32_from_be_load host bs :
  length bs = 4%nat -> bytes bs ->
  NTB_UINT32_FROM_BE host (native_load host bs) = be_combine bs.
Proof. apply (from_be_load (swap := NTB_SWAP_UINT32)). Qed.
Lemma uint64_from_be_load host bs :
  length bs = 8%nat -> bytes bs ->
  NTB_UINT64_FROM_BE host (native_load host bs) = be_combine bs.
Proof. apply (from_be_load (swap := NTB_SWAP_UINT64)). Qed.

Lemma uint16_store_to_be host v :
  0 <= v < 2 ^ 16 -> native_store host 2 (NTB_UINT16_TO_BE host v) = be_split 2 v.
Proof. destruct (store_to_be (swap := NTB_SWAP_UINT16) host v); [done|lia]. Qed.
Lemma uint32_store_to_be host v :
  0 <= v < 2 ^ 32 -> native_store host 4 (NTB_UINT32_TO_BE host v) = be_split 4 v.
Proof. destruct (store_to_be (swap := NTB_SWAP_UINT32) host v); [done|lia]. Qed.
Lemma uint64_store_to_be host v :
  0 <= v < 2 ^ 64 -> native_store host 8 (NTB_UINT64_TO_BE host v) = be_split 8 v.
Proof. destruct (store_to_be (swap := NTB_SWAP_UINT64) host v); [done|lia]. Qed.
