(* ===== verification/Buffer.v ===== *)
(** * Buffer: the growable byte buffer (ntb-buffer.c, ntb-buffer.h)

    The allocation is a list of cells, [None] being an indeterminate byte of a
    fresh or grown allocation; [ntb_realloc] is taken to succeed (it aborts the
    process otherwise). Sizes are [size_t] values and wrap at 2^64. The abstract
    view of a buffer is [cells], the bytes below [length]; each operation is
    shown to act on it as the corresponding list operation. *)

From S2P Require Import Prelude.

Record ntb_buffer := Buf {
  buf_data : list (option Z);
  buf_length : Z;
  buf_size : Z
}.

(** [NTB_BUFFER_STATIC_INIT] *)
Definition ntb_buffer_init : ntb_buffer := Buf [] 0 0.

(** Any state of a buffer the operations below can produce. *)
Definition buf_wf (b : ntb_buffer) : Prop :=
  zlen (buf_data b) = buf_size b /\ 0 <= buf_length b <= buf_size b /\ buf_size b < 2 ^ 64.

#[global] Instance buf_wf_dec b : Decision (buf_wf b).
Proof. unfold buf_wf. apply _. Defined.

(** The contents. *)
Definition cells (b : ntb_buffer) : list (option Z) :=
  take (Z.to_nat (buf_length b)) (buf_data b).

(** The bytes of initialised cells, [None] when one is indeterminate. *)
Fixpoint all_some {A} (l : list (option A)) : option (list A) :=
  match l with
  | [] => Some []
  | Some x :: l => cons x <$> all_some l
  | None :: _ => None
  end.

Section operations.
Context {E : Type}.

(** [while (new_size < size) new_size *= 2;] *)
Fixpoint grow_size (fuel : nat) (new_size size : Z) : result E Z :=
  if new_size <? size then
    match fuel with
    | O => OutOfFuel
    | S fuel => grow_size fuel (u64 (new_size * 2)) size
    end
  else Ok new_size.

(** A [size_t] can be doubled at most 64 times before it is zero. *)
Definition grow_fuel : nat := 64.

Definition ntb_buffer_ensure_size (b : ntb_buffer) (size : Z) : result E ntb_buffer :=
  new_size ← grow_size grow_fuel (Z.max (buf_size b) 1) size;
  if new_size =? buf_size b then Ok b
  else Ok (Buf (take (Z.to_nat new_size) (buf_data b) ++
                replicate (Z.to_nat (new_size - buf_size b)) None)
               (buf_length b) new_size).

Definition ntb_buffer_set_length (b : ntb_buffer) (length : Z) : result E ntb_buffer :=
  b ← ntb_buffer_ensure_size b length;
  Ok (Buf (buf_data b) length (buf_size b)).

(** [memcpy(data + off, l, n)] into an allocation *)
Definition write_cells (off : Z) (l : list Z) (d : list (option Z)) :
    result E (list (option Z)) :=
  if (0 <=? off) && (off + zlen l <=? zlen d) then
    Ok (take (Z.to_nat off) d ++ (Some <$> l) ++ drop (Z.to_nat (off + zlen l)) d)
  else UB.

Definition buf_write (b : ntb_buffer) (off : Z) (l : list Z) : result E ntb_buffer :=
  d ← write_cells off l (buf_data b);
  Ok (Buf d (buf_length b) (buf_size b)).

Definition add_length (b : ntb_buffer) (n : Z) : ntb_buffer :=
  Buf (buf_data b) (u64 (buf_length b + n)) (buf_size b).

Definition ntb_buffer_append (b : ntb_buffer) (l : list Z) : result E ntb_buffer :=
  b ← ntb_buffer_ensure_size b (u64 (buf_length b + zlen l));
  b ← buf_write b (buf_length b) l;
  Ok (add_length b (zlen l)).

Definition ntb_buffer_append_c (b : ntb_buffer) (c : Z) : result E ntb_buffer :=
  if buf_length b <? buf_size b then
    b ← buf_write b (buf_length b) [u8 c];
    Ok (add_length b 1)
  else ntb_buffer_append b [u8 c].

(** [str] without its terminator; the terminator is written and not counted. *)
Definition ntb_buffer_append_string (b : ntb_buffer) (str : list Z) : result E ntb_buffer :=
  b ← ntb_buffer_append b (str ++ [0]);
  Ok (add_length b (-1)).

(** [vsnprintf(data + off, n, ...)] where the formatted text is [out]: at most
    [n - 1] bytes of it and a terminator are written, nothing when [n] is 0. *)
Definition vsnprintf (b : ntb_buffer) (off n : Z) (out : list Z) : result E ntb_buffer :=
  if n =? 0 then Ok b
  else buf_write b off (take (Z.to_nat (n - 1)) out ++ [0]).

(** [out] is the text the format and its arguments print. *)
Definition ntb_buffer_append_vprintf (b : ntb_buffer) (out : list Z) : result E ntb_buffer :=
  b ← ntb_buffer_ensure_size b (u64 (buf_length b + 16));
  b ← vsnprintf b (buf_length b) (u64 (buf_size b - buf_length b)) out;
  b ← (if u64 (buf_size b - buf_length b) <=? zlen out then
         b ← ntb_buffer_ensure_size b (u64 (buf_length b + zlen out + 1));
         vsnprintf b (buf_length b) (u64 (buf_size b - buf_length b)) out
       else Ok b);
  Ok (add_length b (zlen out)).

(** Reading [n] bytes at [off]: every cell must exist and be initialised. *)
Definition buf_read (b : ntb_buffer) (off n : Z) : result E (list Z) :=
  if (0 <=? off) && (0 <=? n) && (off + n <=? zlen (buf_data b)) then
    match all_some (take (Z.to_nat n) (drop (Z.to_nat off) (buf_data b))) with
    | Some l => Ok l
    | None => UB
    end
  else UB.
End operations.

(** ** The doubling loop *)

Section specification.
Context {E : Type}.
Implicit Types b : ntb_buffer.

Lemma grow_size_spec fuel s size :
  1 <= s -> s < 2 ^ 64 -> size <= 2 ^ 63 -> size <= s * 2 ^ Z.of_nat fuel ->
  exists r, grow_size (E := E) fuel s size = Ok r /\
    s <= r < 2 ^ 64 /\ size <= r /\ (r = s \/ r < 2 * size).
Proof.
  revert s. induction fuel as [|fuel IH]; intros s H1 H2 H3 H4; simpl.
  - replace (2 ^ Z.of_nat 0) with 1 in H4 by done.
    destruct (Z.ltb_spec s size); [lia|]. eexists. split; [done|]. lia.
  - destruct (Z.ltb_spec s size).
    + rewrite Nat2Z.inj_succ, Z.pow_succ_r in H4 by lia.
      rewrite u64_small by lia.
      destruct (IH (s * 2)) as (r & -> & ? & ? & ?); [lia..|nia|].
      eexists. split; [done|]. lia.
    + eexists. split; [done|]. lia.
Qed.

(** [ensure_size] keeps the contents, reaches the requested size, and at most
    doubles it. *)
Lemma ensure_size_spec b size :
  buf_wf b -> size <= 2 ^ 63 ->
  exists b', ntb_buffer_ensure_size (E := E) b size = Ok b' /\ buf_wf b' /\
    buf_length b' = buf_length b /\ cells b' = cells b /\
    buf_size b <= buf_size b' /\ size <= buf_size b' /\
    (buf_size b' <= Z.max 1 (buf_size b) \/ buf_size b' < 2 * size).
Proof.
  intros (Hd & Hl & Hs) Hsize. unfold ntb_buffer_ensure_size, grow_fuel.
  destruct (grow_size_spec 64 (Z.max (buf_size b) 1) size) as (r & -> & ? & ? & ?);
    [lia..|]. rewrite bind_ret_l.
  destruct (Z.eqb_spec r (buf_size b)) as [->|]; eexists; (split; [reflexivity|]).
  - repeat split; lia.
  - assert (Z.of_nat (length (buf_data b)) = buf_size b) by done.
    unfold buf_wf, cells. cbn [buf_data buf_length buf_size].
    rewrite (take_ge (buf_data b)) by lia. zlen_simpl.
    repeat split; try lia. rewrite take_app_le by lia. done.
Qed.

Lemma write_cells_spec off l d :
  0 <= off -> off + zlen l <= zlen d ->
  exists d', write_cells (E := E) off l d = Ok d' /\ zlen d' = zlen d /\
    take (Z.to_nat off) d' = take (Z.to_nat off) d /\
    take (Z.to_nat (off + zlen l)) d' = take (Z.to_nat off) d ++ (Some <$> l).
Proof.
  intros Ho Hf. unfold write_cells.
  destruct (Z.leb_spec 0 off), (Z.leb_spec (off + zlen l) (zlen d)); try lia.
  pose proof (zlen_nonneg l). unfold zlen in *.
  eexists. split; [reflexivity|].
  split; [rewrite !length_app, length_take, length_fmap, length_drop; lia|].
  split; [rewrite take_app_le by (rewrite length_take; lia);
          rewrite take_take; f_equal; lia|].
  rewrite app_assoc, take_app_le by (rewrite length_app, length_take, length_fmap; lia).
  apply take_ge. rewrite length_app, length_take, length_fmap. lia.
Qed.

Lemma buf_write_end b l :
  buf_wf b -> buf_length b + zlen l <= buf_size b ->
  exists b', buf_write (E := E) b (buf_length b) l = Ok b' /\
    buf_wf b' /\ buf_wf (add_length b' (zlen l)) /\
    buf_length b' = buf_length b /\ buf_size b' = buf_size b /\
    cells b' = cells b /\ cells (add_length b' (zlen l)) = cells b ++ (Some <$> l).
Proof.
  intros (Hd & Hl & Hs) Hfit. unfold buf_write.
  destruct (write_cells_spec (buf_length b) l (buf_data b)) as (d' & -> & ? & ? & ?);
    [lia..|]. rewrite bind_ret_l. eexists. split; [reflexivity|].
  pose proof (zlen_nonneg l).
  unfold buf_wf, cells, add_length in *; cbn [buf_data buf_length buf_size].
  rewrite u64_small by lia. split_and!; try done; lia.
Qed.

(** Appending bytes appends them to the contents, never fails to fit them and
    grows the allocation geometrically. *)
Lemma append_spec b l :
  buf_wf b -> buf_length b + zlen l <= 2 ^ 63 ->
  exists b', ntb_buffer_append (E := E) b l = Ok b' /\ buf_wf b' /\
    buf_length b' = buf_length b + zlen l /\
    cells b' = cells b ++ (Some <$> l) /\
    (buf_size b' <= Z.max 1 (buf_size b) \/ buf_size b' < 2 * buf_length b').
Proof.
  intros Hwf Hfit. pose proof (zlen_nonneg l).
  assert (0 <= buf_length b) by (destruct Hwf as (_ & ? & _); lia).
  unfold ntb_buffer_append. rewrite u64_small by lia.
  destruct (ensure_size_spec b (buf_length b + zlen l))
    as (b1 & -> & Hwf1 & Hl1 & Hc1 & ? & ? & ?); [done|lia|]. rewrite bind_ret_l.
  destruct (buf_write_end b1 l)
    as (b2 & -> & ? & Hwf2 & Hl2 & Hs2 & ? & Hc2); [done|lia|]. rewrite bind_ret_l.
  eexists. split; [reflexivity|]. split; [done|].
  rewrite Hc2, Hc1. unfold add_length in *. cbn [buf_length buf_size].
  rewrite Hl2, Hl1, Hs2. rewrite u64_small by lia. split_and!; [done..|lia].
Qed.

Lemma append_c_spec b c :
  buf_wf b -> buf_length b + 1 <= 2 ^ 63 -> is_byte c ->
  exists b', ntb_buffer_append_c (E := E) b c = Ok b' /\ buf_wf b' /\
    buf_length b' = buf_length b + 1 /\ cells b' = cells b ++ [Some c].
Proof.
  intros Hwf Hfit Hc. unfold ntb_buffer_append_c. rewrite (u8_small c) by done.
  destruct (Z.ltb_spec (buf_length b) (buf_size b)).
  - destruct (buf_write_end b [c]) as (b2 & -> & ? & ? & Hl2 & ? & ? & ?);
      [done|rewrite zlen_cons, zlen_nil; lia|].
    rewrite bind_ret_l. eexists. split; [reflexivity|]. split_and!; [done| |done].
    unfold add_length. cbn [buf_length]. rewrite Hl2. apply u64_small.
    destruct Hwf as (_ & ? & ?). lia.
  - destruct (append_spec b [c]) as (b' & -> & ? & ? & ? & _); [done|zlia|].
    eexists. split; [reflexivity|]. split_and!; [done|zlia|done].
Qed.

Lemma zlen_cells b : buf_wf b -> zlen (cells b) = buf_length b.
Proof. intros (Hd & Hl & Hs). unfold cells. zlia. Qed.

(** Counting fewer of the bytes just written behind the contents. *)
Lemma add_length_prefix b l k :
  buf_wf b -> buf_wf (add_length b (zlen (l ++ k))) ->
  buf_length b + zlen (l ++ k) < 2 ^ 64 ->
  cells (add_length b (zlen (l ++ k))) = cells b ++ (Some <$> (l ++ k)) ->
  buf_wf (add_length b (zlen l)) /\
  buf_length (add_length b (zlen l)) = buf_length b + zlen l /\
  cells (add_length b (zlen l)) = cells b ++ (Some <$> l).
Proof.
  intros Hwf Hwf' Hfit Hc. pose proof (zlen_cells b Hwf) as Hzc.
  unfold buf_wf, cells, add_length in *. cbn [buf_data buf_length buf_size] in *.
  rewrite zlen_app in *. pose proof (zlen_nonneg l). pose proof (zlen_nonneg k).
  rewrite !u64_small in * by lia. split_and!; try lia.
  apply (f_equal (take (Z.to_nat (buf_length b + zlen l)))) in Hc.
  rewrite take_take, Nat.min_l, fmap_app, app_assoc in Hc by lia. rewrite Hc.
  apply take_app_length'. rewrite length_app, length_fmap.
  unfold zlen in *. lia.
Qed.

Lemma append_string_spec b str :
  buf_wf b -> buf_length b + zlen str + 1 <= 2 ^ 63 ->
  exists b', ntb_buffer_append_string (E := E) b str = Ok b' /\ buf_wf b' /\
    buf_length b' = buf_length b + zlen str /\ cells b' = cells b ++ (Some <$> str).
Proof.
  intros Hwf Hfit. pose proof (proj1 (proj2 Hwf)). pose proof (zlen_nonneg str).
  unfold ntb_buffer_append_string, ntb_buffer_append. zlen_simpl.
  rewrite u64_small by lia.
  destruct (ensure_size_spec b (buf_length b + (zlen str + (1 + 0))))
    as (b1 & -> & Hwf1 & Hl1 & Hc1 & ? & ? & ?); [done|lia|]. rewrite bind_ret_l.
  destruct (buf_write_end b1 (str ++ [0]))
    as (b2 & -> & Hwf2 & Hwf3 & Hl2 & Hs2 & Hc2 & Hc3); [done|zlia|]. rewrite !bind_ret_l.
  destruct (add_length_prefix b2 str [0]) as (? & ? & ?);
    [done|done|zlia|by rewrite Hc3, Hc2|].
  eexists. split; [reflexivity|].
  replace (add_length (add_length b2 _) (-1)) with (add_length b2 (zlen str)).
  { split_and!; [done|lia|congruence]. }
  unfold add_length. cbn [buf_data buf_length buf_size]. f_equal.
  rewrite !u64_small by (rewrite ?u64_small; lia). lia.
Qed.

(** One [vsnprintf] into the space behind the contents. *)
Lemma vsnprintf_spec b out :
  buf_wf b -> buf_length b < buf_size b ->
  exists b', vsnprintf (E := E) b (buf_length b) (u64 (buf_size b - buf_length b)) out = Ok b' /\
    buf_wf b' /\ buf_length b' = buf_length b /\ buf_size b' = buf_size b /\
    cells b' = cells b /\
    (zlen out < buf_size b - buf_length b ->
     buf_wf (add_length b' (zlen out)) /\
     buf_length (add_length b' (zlen out)) = buf_length b + zlen out /\
     cells (add_length b' (zlen out)) = cells b ++ (Some <$> out)).
Proof.
  intros Hwf Hlt. destruct Hwf as (Hd & Hl & Hs) eqn:Heq; clear Heq.
  unfold vsnprintf. rewrite u64_small by lia.
  destruct (Z.eqb_spec (buf_size b - buf_length b) 0); [lia|].
  set (t := take _ out).
  destruct (buf_write_end b (t ++ [0]))
    as (b2 & -> & Hwf2 & Hwf3 & Hl2 & Hs2 & Hc2 & Hc3); [done|unfold t; zlia|].
  eexists. split; [reflexivity|]. split_and!; try done. intros Hfits.
  assert (t = out) as Ht by (apply take_ge; unfold zlen in *; lia).
  rewrite Ht in *. destruct (add_length_prefix b2 out [0]) as (? & ? & ?);
    [done|done|zlia|by rewrite Hc3, Hc2|]. split_and!; [done|lia|congruence].
Qed.

(** [append_vprintf] appends exactly the formatted text, whether or not the
    first attempt had room for it. *)
Lemma append_vprintf_spec b out :
  buf_wf b -> buf_length b + zlen out + 17 <= 2 ^ 63 ->
  exists b', ntb_buffer_append_vprintf (E := E) b out = Ok b' /\ buf_wf b' /\
    buf_length b' = buf_length b + zlen out /\ cells b' = cells b ++ (Some <$> out).
Proof.
  intros Hwf Hfit. pose proof (zlen_nonneg out). pose proof (proj1 (proj2 Hwf)).
  unfold ntb_buffer_append_vprintf. rewrite u64_small by lia.
  destruct (ensure_size_spec b (buf_length b + 16))
    as (b1 & -> & Hwf1 & Hl1 & Hc1 & ? & ? & _); [done|lia|]. rewrite bind_ret_l.
  destruct (vsnprintf_spec b1 out) as (b2 & -> & Hwf2 & Hl2 & Hs2 & Hc2 & Hok);
    [done|lia|]. rewrite bind_ret_l.
  rewrite (u64_small (buf_size b2 - _)) by (destruct Hwf2 as (?&?&?); lia).
  destruct (Z.leb_spec (buf_size b2 - buf_length b2) (zlen out)).
  - rewrite (u64_small (_ + 1)) by lia.
    destruct (ensure_size_spec b2 (buf_length b2 + zlen out + 1))
      as (b3 & -> & Hwf3 & Hl3 & Hc3 & ? & ? & _); [done|lia|]. rewrite bind_ret_l.
    destruct (vsnprintf_spec b3 out) as (b4 & -> & Hwf4 & Hl4 & Hs4 & Hc4 & Hok4);
      [done|lia|]. rewrite bind_ret_l. destruct Hok4 as (? & ? & ?); [lia|].
    eexists. split; [reflexivity|]. split_and!; [done|lia|congruence].
  - rewrite bind_ret_l. destruct Hok as (? & ? & ?); [lia|].
    eexists. split; [reflexivity|]. split_and!; [done|lia|congruence].
Qed.
End specification.

(** ** Refinement

    A client sees a buffer as the list of bytes it has put there. *)

Inductive buf_op :=
| OpAppend (l : list Z)
| OpAppendC (c : Z)
| OpAppendString (str : list Z)
| OpAppendVprintf (out : list Z)
| OpEnsureSize (size : Z)
| OpTruncate (n : Z).

(** What each operation writes or asks for is within the width of its type. *)
Definition op_ok (o : buf_op) : Prop :=
  match o with
  | OpAppendC c => is_byte c
  | OpEnsureSize size => size <= 2 ^ 63
  | OpTruncate n => 0 <= n
  | _ => True
  end.
#[global] Instance op_ok_dec o : Decision (op_ok o).
Proof. destruct o; simpl; apply _. Defined.

(** The room an operation may ask for beyond the present length. *)
Definition op_cost (o : buf_op) : Z :=
  match o with
  | OpAppend l => zlen l
  | OpAppendC _ => 1
  | OpAppendString str => zlen str + 1
  | OpAppendVprintf out => zlen out + 17
  | _ => 0
  end.

Definition run_op {E} (b : ntb_buffer) (o : buf_op) : result E ntb_buffer :=
  match o with
  | OpAppend l => ntb_buffer_append b l
  | OpAppendC c => ntb_buffer_append_c b c
  | OpAppendString str => ntb_buffer_append_string b str
  | OpAppendVprintf out => ntb_buffer_append_vprintf b out
  | OpEnsureSize size => ntb_buffer_ensure_size b size
  | OpTruncate n => if n <=? buf_length b then ntb_buffer_set_length b n else Ok b
  end.

Definition spec_op (l : list Z) (o : buf_op) : list Z :=
  match o with
  | OpAppend k | OpAppendString k | OpAppendVprintf k => l ++ k
  | OpAppendC c => l ++ [c]
  | OpEnsureSize _ => l
  | OpTruncate n => take (Z.to_nat n) l
  end.

Fixpoint run_ops {E} (b : ntb_buffer) (os : list buf_op) : result E ntb_buffer :=
  match os with
  | [] => Ok b
  | o :: os => b ← run_op b o; run_ops b os
  end.

Definition repr (b : ntb_buffer) (l : list Z) : Prop :=
  buf_wf b /\ cells b = Some <$> l.

Section refinement.
Context {E : Type}.

Lemma repr_length b l : repr b l -> buf_length b = zlen l.
Proof. intros [Hwf Hc]. rewrite <- (zlen_cells b Hwf), Hc. apply zlen_fmap. Qed.

Lemma truncate_spec b n :
  buf_wf b -> 0 <= n <= buf_length b ->
  exists b', ntb_buffer_set_length (E := E) b n = Ok b' /\ buf_wf b' /\
    buf_length b' = n /\ cells b' = take (Z.to_nat n) (cells b).
Proof.
  intros (Hd & Hl & Hs) Hn. unfold ntb_buffer_set_length, ntb_buffer_ensure_size.
  unfold grow_fuel. cbn [grow_size].
  destruct (Z.ltb_spec (Z.max (buf_size b) 1) n); [lia|]. rewrite bind_ret_l.
  destruct (Z.eqb_spec (Z.max (buf_size b) 1) (buf_size b)); rewrite bind_ret_l;
    (eexists; split; [reflexivity|]).
  - unfold buf_wf, cells. cbn [buf_data buf_length buf_size].
    split_and!; try lia. rewrite take_take. f_equal. lia.
  - assert (buf_size b = 0) as Hz by lia. assert (n = 0) as -> by lia.
    unfold buf_wf, cells. cbn [buf_data buf_length buf_size].
    rewrite Hz in *. apply zlen_zero in Hd. rewrite Hd.
    replace (Z.max 0 1) with 1 by lia. simpl. zlen_simpl. split_and!; try done; lia.
Qed.

Lemma run_op_spec b l o :
  repr b l -> op_ok o -> zlen l + op_cost o <= 2 ^ 63 ->
  exists b', run_op (E := E) b o = Ok b' /\ repr b' (spec_op l o) /\
    zlen (spec_op l o) <= zlen l + op_cost o.
Proof.
  intros Hr Hok Hfit. pose proof (repr_length b l Hr) as Hlen.
  destruct Hr as [Hwf Hc]. unfold repr. pose proof (zlen_nonneg l).
  destruct o as [k|c|str|out|size|n]; cbn [run_op spec_op op_cost op_ok] in *.
  - destruct (append_spec (E := E) b k) as (b' & -> & ? & ? & Hc' & _); [done|lia|].
    eexists. split; [reflexivity|]. rewrite Hc', Hc, fmap_app. split_and!; [done..|zlia].
  - destruct (append_c_spec (E := E) b c) as (b' & -> & ? & ? & Hc'); [done|lia|done|].
    eexists. split; [reflexivity|]. rewrite Hc', Hc, fmap_app. split_and!; [done..|zlia].
  - destruct (append_string_spec (E := E) b str) as (b' & -> & ? & ? & Hc'); [done|lia|].
    eexists. split; [reflexivity|]. rewrite Hc', Hc, fmap_app. split_and!; [done..|zlia].
  - destruct (append_vprintf_spec (E := E) b out) as (b' & -> & ? & ? & Hc'); [done|lia|].
    eexists. split; [reflexivity|]. rewrite Hc', Hc, fmap_app. split_and!; [done..|zlia].
  - destruct (ensure_size_spec (E := E) b size) as (b' & -> & ? & ? & Hc' & _); [done|lia|].
    eexists. split; [reflexivity|]. rewrite Hc', Hc. split_and!; [done..|lia].
  - destruct (Z.leb_spec n (buf_length b)).
    + destruct (truncate_spec b n) as (b' & -> & ? & ? & Hc'); [done|lia|].
      eexists. split; [reflexivity|]. rewrite Hc', Hc, fmap_take. split_and!; [done..|zlia].
    + rewrite take_ge by (unfold zlen in *; lia). eexists. split_and!; [done..|lia].
Qed.

Lemma op_costs_nonneg os : 0 <= foldr Z.add 0 (op_cost <$> os).
Proof.
  induction os as [|o os IH]; csimpl; [lia|].
  assert (0 <= op_cost o) by (destruct o; simpl; zlia). lia.
Qed.

Lemma run_ops_spec b l os :
  repr b l -> Forall op_ok os -> zlen l + foldr Z.add 0 (op_cost <$> os) <= 2 ^ 63 ->
  exists b', run_ops (E := E) b os = Ok b' /\ repr b' (fold_left spec_op os l).
Proof.
  revert b l. induction os as [|o os IH]; intros b l Hr Hok Hfit;
    cbn [run_ops fold_left]; [by eexists|].
  apply Forall_cons in Hok as [Ho Hos]. csimpl in Hfit.
  pose proof (op_costs_nonneg os).
  destruct (run_op_spec b l o) as (b' & -> & Hr' & ?); [done|done|lia|].
  rewrite bind_ret_l. apply IH; [done|done|lia].
Qed.
End refinement.

(** Starting from [ntb_buffer_init], any sequence of appends (of bytes, of a
    character, of a string, of formatted text), size reservations and
    truncations that asks for less than 2^63 bytes in total succeeds, leaves a
    well-formed buffer, and its contents are the list obtained by running the
    same operations on a plain list of bytes. *)
Theorem buffer_refines_list (os : list buf_op) :
  Forall op_ok os -> foldr Z.add 0 (op_cost <$> os) <= 2 ^ 63 ->
  exists b, run_ops (E := unit) ntb_buffer_init os = Ok b /\
    buf_wf b /\ cells b = Some <$> fold_left spec_op os [].
Proof.
  intros Hok Hfit.
  destruct (run_ops_spec (E := unit) ntb_buffer_init [] os) as (b & ? & ? & ?);
    [split; [by apply (bool_decide_unpack _)|done]|done|rewrite zlen_nil; lia|eauto].
Qed.

Definition buffer_example : list buf_op :=
  [OpAppend [1; 2; 3]; OpAppendC 4; OpEnsureSize 100; OpAppendString [65; 66];
   OpAppendVprintf (replicate 200 48); OpTruncate 7; OpAppend [9]].

Lemma buffer_refines_list_witness :
  exists b, run_ops (E := unit) ntb_buffer_init buffer_example = Ok b /\
    buf_wf b /\ cells b = Some <$> [1; 2; 3; 4; 65; 66; 48; 9].
Proof.
  refine (buffer_refines_list buffer_example _ _).
  - apply (bool_decide_unpack _). vm_compute. exact I.
  - vm_compute. congruence.
Defined.
