(* ===== verification/NetAddress.v ===== *)
(** * NetAddress: IPv4 and IPv6 endpoints (ntb-netaddress.c, ntb-netaddress.h)

    A host is always kept as the 16 bytes of an IPv6 address, IPv4 addresses
    being mapped below ::ffff:0:0. The socket structures of the system are the
    type [ntb_netaddress_native]; their ports are in network byte order. *)

From S2P Require Import Prelude Endian.

Record ntb_netaddress := NetAddr { na_host : list Z; na_port : Z }.

#[global] Instance ntb_netaddress_eq_dec : EqDecision ntb_netaddress.
Proof. solve_decision. Defined.

(** The declared types of the fields. *)
Definition na_wf (a : ntb_netaddress) : Prop :=
  length (na_host a) = 16%nat /\ bytes (na_host a) /\ 0 <= na_port a < 2 ^ 16.
#[global] Instance na_wf_dec a : Decision (na_wf a).
Proof. unfold na_wf. apply _. Defined.

Definition ipv4_magic : list Z := [0; 0; 0; 0; 0; 0; 0; 0; 0; 0; 0xff; 0xff].

Definition ipv6_localhost : list Z :=
  [0; 0; 0; 0; 0; 0; 0; 0; 0; 0; 0; 0; 0; 0; 0; 1].

(** The union of socket addresses: the family selects the constructor. *)
Inductive ntb_netaddress_native :=
| sockaddr_in (sin_addr : list Z) (sin_port : Z)
| sockaddr_in6 (sin6_addr : list Z) (sin6_flowinfo sin6_scope_id : Z) (sin6_port : Z)
| sockaddr_other (sa_family : Z).

(** [htons]/[ntohs]: the value whose bytes in memory are the big-endian port. *)
Definition htons (host : endianness) (port : Z) : Z := NTB_UINT16_TO_BE host port.
Definition ntohs (host : endianness) (port : Z) : Z := NTB_UINT16_FROM_BE host port.

Section native.
Variable host : endianness.

Definition ntb_netaddress_to_native_ipv4 (a : ntb_netaddress) : ntb_netaddress_native :=
  sockaddr_in (take 4 (drop (length ipv4_magic) (na_host a))) (htons host (na_port a)).

Definition ntb_netaddress_to_native_ipv6 (a : ntb_netaddress) : ntb_netaddress_native :=
  sockaddr_in6 (na_host a) 0 0 (htons host (na_port a)).

Definition ntb_netaddress_to_native (a : ntb_netaddress) : ntb_netaddress_native :=
  if bytes_eqb (take 12 (na_host a)) ipv4_magic
  then ntb_netaddress_to_native_ipv4 a
  else ntb_netaddress_to_native_ipv6 a.

Definition ntb_netaddress_from_native_ipv4 (sin_addr : list Z) (sin_port : Z) : ntb_netaddress :=
  NetAddr (ipv4_magic ++ sin_addr) (ntohs host sin_port).

Definition ntb_netaddress_from_native_ipv6 (sin6_addr : list Z) (sin6_port : Z) : ntb_netaddress :=
  NetAddr sin6_addr (ntohs host sin6_port).

Definition ntb_netaddress_from_native (n : ntb_netaddress_native) : ntb_netaddress :=
  match n with
  | sockaddr_in a p => ntb_netaddress_from_native_ipv4 a p
  | sockaddr_in6 a _ _ p => ntb_netaddress_from_native_ipv6 a p
  | sockaddr_other _ => NetAddr (replicate 16 0) 0
  end.
End native.

(** [host[i]] of a 16-byte array *)
Definition host_byte (l : list Z) (i : nat) : Z := default 0 (l !! i).

Definition ntb_netaddress_is_allowed (a : ntb_netaddress) : bool :=
  let h := na_host a in
  if negb (bytes_eqb (take 12 h) ipv4_magic) then
    if bytes_eqb h ipv6_localhost then false
    else if (host_byte h 0 =? 0xfe) && (Z.land (host_byte h 1) 0xc0 =? 0x80) then false
    else if Z.land (host_byte h 0) 0xfe =? 0xfc then false
    else true
  else
    let v4 := drop 12 h in
    if host_byte v4 0 =? 127 then false
    else if host_byte v4 0 =? 10 then false
    else if (host_byte v4 0 =? 172) && (16 <=? host_byte v4 1) && (host_byte v4 1 <=? 31) then false
    else if (host_byte v4 0 =? 192) && (host_byte v4 1 =? 168) then false
    else true.

(** ** The native conversion is a round trip *)

Lemma swap16_involutive p : 0 <= p < 2 ^ 16 -> NTB_SWAP_UINT16 (NTB_SWAP_UINT16 p) = p.
Proof.
  intros Hp. set (bs := be_split 2 p).
  assert (Hbs : be_combine bs = p).
  { unfold bs. rewrite be_combine_split. apply Z.mod_small. simpl. lia. }
  assert (Hb : bytes bs) by apply bytes_be_split.
  rewrite <- Hbs at 1. rewrite <- (reverse_involutive bs).
  rewrite (swap_reverse (n := 2)); [|done|by apply bytes_reverse].
  rewrite (swap_reverse (n := 2)); [done..].
Qed.

Lemma ntohs_htons host p : 0 <= p < 2 ^ 16 -> ntohs host (htons host p) = p.
Proof. destruct host; [done|]. apply swap16_involutive. Qed.

(** On hosts of either byte order, converting an address to the socket
    structure of its family and back returns the same address and port. *)
Theorem netaddress_native_roundtrip host a :
  na_wf a -> ntb_netaddress_from_native host (ntb_netaddress_to_native host a) = a.
Proof.
  destruct a as [h p]. intros (Hl & Hb & Hp); simpl in *.
  unfold ntb_netaddress_to_native. cbn [na_host].
  destruct (bytes_eqb (take 12 h) ipv4_magic) eqn:Hm; simpl.
  - apply bytes_eqb_true in Hm.
    unfold ntb_netaddress_from_native_ipv4. f_equal; [|by apply ntohs_htons].
    rewrite <- Hm, (take_ge (drop _ _)) by (rewrite length_drop; lia).
    apply take_drop.
  - unfold ntb_netaddress_from_native_ipv6. f_equal. by apply ntohs_htons.
Qed.

Lemma netaddress_native_roundtrip_witness :
  ntb_netaddress_from_native HAVE_LITTLE_ENDIAN
    (ntb_netaddress_to_native HAVE_LITTLE_ENDIAN
       (NetAddr (ipv4_magic ++ [176; 31; 246; 114]) 8444))
  = NetAddr (ipv4_magic ++ [176; 31; 246; 114]) 8444.
Proof.
  apply netaddress_native_roundtrip. apply (bool_decide_unpack _). vm_compute. exact I.
Defined.

(** ** The address filter *)

(** Membership of an [n]-byte address in a CIDR block [base/len]. *)
Definition in_cidr (n : nat) (addr base len : Z) : bool :=
  addr / 2 ^ (8 * Z.of_nat n - len) =? base / 2 ^ (8 * Z.of_nat n - len).

(** The blocks a node must not advertise: loopback and RFC 1918 for IPv4,
    loopback, link-local and unique local for IPv6. *)
Definition reserved_v4 (addr : Z) : bool :=
  in_cidr 4 addr (be_combine [127; 0; 0; 0]) 8 ||
  in_cidr 4 addr (be_combine [10; 0; 0; 0]) 8 ||
  in_cidr 4 addr (be_combine [172; 16; 0; 0]) 12 ||
  in_cidr 4 addr (be_combine [192; 168; 0; 0]) 16.

Definition reserved_v6 (addr : Z) : bool :=
  in_cidr 16 addr 1 128 ||
  in_cidr 16 addr (0xfe80 * 2 ^ 112) 10 ||
  in_cidr 16 addr (0xfc00 * 2 ^ 112) 7.

(** The block test only looks at the leading bits. *)
Lemma in_cidr_prefix n addr base len q r k :
  2 ^ (8 * Z.of_nat n - len) = k -> 0 < k ->
  q * k <= addr < (q + 1) * k -> base / k = r ->
  in_cidr n addr base len = (q =? r).
Proof.
  intros Hk Hpos Hq <-. unfold in_cidr. rewrite Hk. f_equal.
  symmetry. apply (Z.div_unique addr k q (addr - q * k)); lia.
Qed.

Lemma reserved_v4_spec a b c d :
  bytes [a; b; c; d] ->
  reserved_v4 (be_combine [a; b; c; d]) =
  (a =? 127) || (a =? 10) || ((a =? 172) && (16 <=? b) && (b <=? 31))
  || ((a =? 192) && (b =? 168)).
Proof.
  intros. destruct_bytes. unfold reserved_v4.
  rewrite (be_combine_4 a b c d).
  set (x := ((a * 256 + b) * 256 + c) * 256 + d).
  assert (16 * (b / 16) <= b < 16 * (b / 16) + 16) by dlia.
  rewrite (in_cidr_prefix 4 x _ 8 a 127 (2 ^ 24)) by (reflexivity || (unfold x; lia)).
  rewrite (in_cidr_prefix 4 x _ 8 a 10 (2 ^ 24)) by (reflexivity || (unfold x; lia)).
  rewrite (in_cidr_prefix 4 x _ 12 (a * 16 + b / 16) 2753 (2 ^ 20))
    by (reflexivity || (unfold x; lia)).
  rewrite (in_cidr_prefix 4 x _ 16 (a * 256 + b) 49320 (2 ^ 16))
    by (reflexivity || (unfold x; lia)).
  clear x. apply eq_true_iff_eq. rewrite !orb_true_iff, !andb_true_iff,
    !Z.eqb_eq, !Z.leb_le. lia.
Qed.

(** The two masks of the IPv6 tests select the leading bits of a byte. *)
Lemma link_local_mask b : is_byte b -> (Z.land b 0xc0 =? 0x80) = (b / 64 =? 2).
Proof.
  intros Hb. apply eqb_prop. revert b Hb. apply byte_forallb_spec. vm_compute. done.
Qed.
Lemma unique_local_mask b : is_byte b -> (Z.land b 0xfe =? 0xfc) = (b / 2 =? 126).
Proof.
  intros Hb. apply eqb_prop. revert b Hb. apply byte_forallb_spec. vm_compute. done.
Qed.

Lemma reserved_v6_spec h0 h1 t :
  bytes (h0 :: h1 :: t) -> length t = 14%nat ->
  reserved_v6 (be_combine (h0 :: h1 :: t)) =
  bytes_eqb (h0 :: h1 :: t) ipv6_localhost
  || ((h0 =? 0xfe) && (Z.land h1 0xc0 =? 0x80)) || (Z.land h0 0xfe =? 0xfc).
Proof.
  intros Hb Ht. pose proof Hb as Hb'.
  apply bytes_cons in Hb as [H0 Hb]. apply bytes_cons in Hb as [H1 Hb].
  pose proof (be_combine_range t Hb) as Hr.
  assert (Hzt : zlen t = 14) by (unfold zlen; lia). rewrite Hzt in Hr.
  assert (Hc : be_combine (h0 :: h1 :: t) = (h0 * 256 + h1) * 2 ^ 112 + be_combine t).
  { rewrite !be_combine_cons, zlen_cons, Hzt. lia. }
  unfold reserved_v6. rewrite link_local_mask, unique_local_mask by done.
  assert (in_cidr 16 (be_combine (h0 :: h1 :: t)) 1 128
          = bytes_eqb (h0 :: h1 :: t) ipv6_localhost) as ->.
  { unfold in_cidr. change (2 ^ (8 * Z.of_nat 16 - 128)) with 1. rewrite !Z.div_1_r.
    apply eq_true_iff_eq. rewrite Z.eqb_eq, bytes_eqb_true. split; intros H.
    - rewrite <- (be_split_combine _ Hb'), H. cbn [length]. rewrite Ht. reflexivity.
    - rewrite H. reflexivity. }
  rewrite Hc. set (r := be_combine t) in *. unfold is_byte in *.
  assert (64 * (h1 / 64) <= h1 < 64 * (h1 / 64) + 64) by dlia.
  assert (2 * (h0 / 2) <= h0 < 2 * (h0 / 2) + 2) by dlia.
  rewrite (in_cidr_prefix 16 _ _ 10 (h0 * 4 + h1 / 64) 1018 (2 ^ 118))
    by (reflexivity || lia).
  rewrite (in_cidr_prefix 16 _ _ 7 (h0 / 2) 126 (2 ^ 121)) by (reflexivity || lia).
  f_equal. f_equal. apply eq_true_iff_eq. rewrite andb_true_iff, !Z.eqb_eq. lia.
Qed.

(** A well-formed address is allowed exactly when it is outside the reserved
    blocks of its family, read as CIDR prefixes of the numeric address: for a
    mapped IPv4 address 127.0.0.0/8, 10.0.0.0/8, 172.16.0.0/12, 192.168.0.0/16,
    for any other address ::1/128, fe80::/10 and fc00::/7. *)
Theorem netaddress_is_allowed_spec a :
  na_wf a ->
  ntb_netaddress_is_allowed a =
    if bytes_eqb (take 12 (na_host a)) ipv4_magic
    then negb (reserved_v4 (be_combine (drop 12 (na_host a))))
    else negb (reserved_v6 (be_combine (na_host a))).
Proof.
  destruct a as [h p]. intros (Hl & Hb & _); cbn [na_host na_port] in *.
  unfold ntb_netaddress_is_allowed. cbn [na_host].
  destruct (bytes_eqb (take 12 h) ipv4_magic) eqn:Hm; cbn [negb].
  - pose proof (bytes_drop 12 h Hb) as Hd.
    assert (Hld : length (drop 12 h) = 4%nat) by (rewrite length_drop; lia).
    destruct (drop 12 h) as [|a [|b [|c [|d [|]]]]]; try discriminate Hld.
    rewrite reserved_v4_spec by done. unfold host_byte. simpl.
    by destruct (a =? 127), (a =? 10), ((a =? 172) && (16 <=? b) && (b <=? 31)).
  - destruct h as [|h0 [|h1 t]]; try discriminate Hl. injection Hl as Hl.
    rewrite reserved_v6_spec by done. 
    change (host_byte (h0 :: h1 :: t) 0) with h0.
    change (host_byte (h0 :: h1 :: t) 1) with h1.
    by destruct (bytes_eqb _ ipv6_localhost), ((h0 =? 0xfe) && (Z.land h1 0xc0 =? 0x80)),
      (Z.land h0 0xfe =? 0xfc).
Qed.

Lemma netaddress_is_allowed_spec_witness :
  ntb_netaddress_is_allowed (NetAddr (ipv4_magic ++ [172; 31; 255; 1]) 8444) = false /\
  ntb_netaddress_is_allowed (NetAddr (ipv4_magic ++ [172; 32; 0; 1]) 8444) = true.
Proof.
  split; rewrite netaddress_is_allowed_spec;
    first [reflexivity | apply (bool_decide_unpack _); vm_compute; exact I].
Defined.
