(* ===== verification/OpenSSL.v ===== *)
(** * OpenSSL: the interface of libcrypto the program relies on

    libcrypto is not part of the repository. Its functions are the operations of
    a class, an argument of every definition that uses them, and the behaviour
    documented in its manual pages is a second class of laws. Instances exist
    (at the end of the file), so the laws can hold. *)

From S2P Require Import Prelude.

(** ** Digests *)

Class Digests := {
  SHA512 : list Z -> list Z;
  RIPEMD160 : list Z -> list Z
}.

Definition SHA512_DIGEST_LENGTH : nat := 64.
Definition RIPEMD160_DIGEST_LENGTH : nat := 20.
Definition SHA_DIGEST_LENGTH : nat := 20.

(** A digest has a fixed size whatever the message. *)
Class DigestLaws `{Digests} : Prop := {
  SHA512_length l : length (SHA512 l) = SHA512_DIGEST_LENGTH;
  SHA512_bytes l : bytes (SHA512 l);
  RIPEMD160_length l : length (RIPEMD160 l) = RIPEMD160_DIGEST_LENGTH;
  RIPEMD160_bytes l : bytes (RIPEMD160 l)
}.

(** ** Big numbers (the BN_* functions of the base58 codec) *)

Class BigNum := {
  BIGNUM : Type;
  BN_init : BIGNUM;
  BN_bin2bn : list Z -> BIGNUM;
  BN_is_zero : BIGNUM -> bool;
  (** quotient left in the number, remainder returned *)
  BN_div_word : BIGNUM -> Z -> BIGNUM * Z;
  BN_mul_word : BIGNUM -> Z -> BIGNUM;
  BN_add_word : BIGNUM -> Z -> BIGNUM;
  BN_num_bytes : BIGNUM -> Z;
  BN_bn2bin : BIGNUM -> list Z
}.

(** The number of significant bytes of a number. *)
Definition num_bytes (v : Z) : Z := if v =? 0 then 0 else Z.log2 v / 8 + 1.

(** The value a BIGNUM stands for, and each function's documented effect on it. *)
Class BigNumLaws `{BigNum} := {
  bn_val : BIGNUM -> Z;
  bn_val_nonneg v : 0 <= bn_val v;
  bn_init_val : bn_val BN_init = 0;
  bn_bin2bn_val l : bytes l -> bn_val (BN_bin2bn l) = be_combine l;
  bn_is_zero_val v : BN_is_zero v = (bn_val v =? 0);
  bn_div_word_quot v w : 0 < w -> bn_val (fst (BN_div_word v w)) = bn_val v / w;
  bn_div_word_rem v w : 0 < w -> snd (BN_div_word v w) = bn_val v mod w;
  bn_mul_word_val v w : 0 <= w -> bn_val (BN_mul_word v w) = bn_val v * w;
  bn_add_word_val v w : 0 <= w -> bn_val (BN_add_word v w) = bn_val v + w;
  bn_num_bytes_val v : BN_num_bytes v = num_bytes (bn_val v);
  bn_bn2bin_val v : BN_bn2bin v = be_split (Z.to_nat (num_bytes (bn_val v))) (bn_val v)
}.

(** ** The laws can hold *)

(** Numbers as non-negative integers. *)
#[local] Instance BigNum_N : BigNum := {|
  BIGNUM := N;
  BN_init := 0%N;
  BN_bin2bn l := Z.to_N (be_combine l);
  BN_is_zero v := N.eqb v 0;
  BN_div_word v w := (Z.to_N (Z.of_N v / w), Z.of_N v mod w);
  BN_mul_word v w := Z.to_N (Z.of_N v * w);
  BN_add_word v w := Z.to_N (Z.of_N v + w);
  BN_num_bytes v := num_bytes (Z.of_N v);
  BN_bn2bin v := be_split (Z.to_nat (num_bytes (Z.of_N v))) (Z.of_N v)
|}.

#[local] Instance BigNumLaws_N : BigNumLaws (H := BigNum_N).
Proof.
  refine (Build_BigNumLaws BigNum_N Z.of_N _ _ _ _ _ _ _ _ _ _); cbn; intros;
    try reflexivity; try lia.
  - pose proof (be_combine_range l H). lia.
  - apply eq_true_iff_eq. rewrite N.eqb_eq, Z.eqb_eq. lia.
  - apply Z2N.id, Z.div_pos; lia.
Defined.

(** A digest that satisfies the size laws, for evaluation. *)
Definition toy_digest (n : nat) (l : list Z) : list Z :=
  be_split n (be_combine l * 31 + zlen l + 1).

#[local] Instance Digests_toy : Digests := {|
  SHA512 := toy_digest SHA512_DIGEST_LENGTH;
  RIPEMD160 := toy_digest RIPEMD160_DIGEST_LENGTH
|}.

#[local] Instance DigestLaws_toy : DigestLaws (H := Digests_toy).
Proof.
  constructor; intros l;
    first [exact (length_be_split _ _) | exact (bytes_be_split _ _)].
Qed.
