(* ===== verification/Proto.v ===== *)
(** * Proto: reading and writing Bitmessage protocol data (ntb-proto.c, ntb-proto.h)

    Parsers take a cursor: the pointer (the bytes from it to the end of the
    object, see the prelude) and the remaining [uint32_t] length the caller
    claims; they return the advanced cursor. A [va_list] of typed destinations is
    a list of [ntb_proto_argument] and the values read are the nested pair
    [args_ty]; the end of the list is [NTB_PROTO_ARGUMENT_END]. The host is the
    little-endian configuration; Endian shows that the other one agrees. *)

From S2P Require Import Prelude Endian Buffer NetAddress OpenSSL.

Inductive ntb_proto_inv_type :=
| NTB_PROTO_INV_TYPE_GETPUBKEY
| NTB_PROTO_INV_TYPE_PUBKEY
| NTB_PROTO_INV_TYPE_MSG
| NTB_PROTO_INV_TYPE_BROADCAST.

#[global] Instance inv_type_eq_dec : EqDecision ntb_proto_inv_type.
Proof. solve_decision. Defined.

Inductive ntb_proto_argument :=
| NTB_PROTO_ARGUMENT_8
| NTB_PROTO_ARGUMENT_16
| NTB_PROTO_ARGUMENT_32
| NTB_PROTO_ARGUMENT_64
| NTB_PROTO_ARGUMENT_BOOL
| NTB_PROTO_ARGUMENT_VAR_INT
| NTB_PROTO_ARGUMENT_TIMESTAMP
| NTB_PROTO_ARGUMENT_NETADDRESS
| NTB_PROTO_ARGUMENT_VAR_STR
| NTB_PROTO_ARGUMENT_VAR_INT_LIST.

Record ntb_proto_var_str := VarStr { vs_length : Z; vs_data : ptr }.
Record ntb_proto_var_int_list := VarIntList { vil_n_ints : Z; vil_values : ptr }.

Record ntb_proto_decrypted_msg := DecryptedMsg {
  dm_sender_signing_key : ptr;
  dm_sender_encryption_key : ptr;
  dm_message_version : Z;
  dm_sender_address_version : Z;
  dm_sender_stream_number : Z;
  dm_sender_behaviors : Z;
  dm_nonce_trials_per_byte : Z;
  dm_extra_bytes : Z;
  dm_destination_ripe : ptr;
  dm_encoding : Z;
  dm_message : ptr;
  dm_ack : ptr;
  dm_sig : ptr;
  dm_message_length : Z;
  dm_ack_length : Z;
  dm_sig_length : Z;
  dm_signed_data_length : Z
}.

(** [None] is a null pointer. *)
Record ntb_proto_pubkey := PubKey {
  pk_nonce : Z;
  pk_timestamp : Z;
  pk_stream : Z;
  pk_version : Z;
  pk_behaviours : Z;
  pk_public_signing_key : option ptr;
  pk_public_encryption_key : option ptr;
  pk_nonce_trials_per_byte : Z;
  pk_extra_bytes : Z;
  pk_signature_length : Z;
  pk_signature : option ptr;
  pk_signed_data_length : Z;
  pk_signed_data : option ptr;
  pk_tag : option ptr;
  pk_encrypted_data_length : Z;
  pk_encrypted_data : option ptr
}.

Definition NTB_PROTO_HEADER_SIZE : Z := 4 + 12 + 4 + 4.
Definition NTB_PROTO_VERSION : Z := 2.
Definition NTB_PROTO_SERVICES : Z := 1.
Definition NTB_PROTO_HASH_LENGTH : Z := 32.
Definition NTB_PROTO_MIN_NONCE_TRIALS_PER_BYTE : Z := 320.
Definition NTB_PROTO_MIN_EXTRA_BYTES : Z := 14000.
Definition NTB_PROTO_EXTRA_AGE : Z := 6 * 60 * 60.
Definition NTB_PROTO_DEFAULT_PORT : Z := 8444.
Definition NTB_ECC_PUBLIC_KEY_SIZE : Z := 65.

Definition ntb_proto_magic : list Z := [0xe9; 0xbe; 0xb4; 0xd9].

Definition ntb_proto_get_max_age_for_type (type : ntb_proto_inv_type) : Z :=
  match type with
  | NTB_PROTO_INV_TYPE_PUBKEY => 4 * 7 * 24 * 60 * 60
  | NTB_PROTO_INV_TYPE_MSG | NTB_PROTO_INV_TYPE_GETPUBKEY
  | NTB_PROTO_INV_TYPE_BROADCAST => 24 * 60 * 60 * 5 / 2
  end.

Definition ntb_proto_get_command_name_for_type (type : ntb_proto_inv_type) : string :=
  match type with
  | NTB_PROTO_INV_TYPE_GETPUBKEY => "getpubkey"
  | NTB_PROTO_INV_TYPE_MSG => "msg"
  | NTB_PROTO_INV_TYPE_BROADCAST => "broadcast"
  | NTB_PROTO_INV_TYPE_PUBKEY => "pubkey"
  end.

Section digests.
Context `{Digests}.

Definition ntb_proto_double_hash (data : list Z) : list Z :=
  take (Z.to_nat NTB_PROTO_HASH_LENGTH) (SHA512 (SHA512 data)).

Definition ntb_proto_address_hash (data : list Z) : list Z :=
  RIPEMD160 (SHA512 data).
End digests.

(** [memchr(s, c, n)] as an offset *)
Fixpoint memchr_off (c : Z) (n : nat) (s : list Z) : result unit (option nat) :=
  match n with
  | O => Ok None
  | S n =>
      b ← deref s;
      if b =? c then Ok (Some O)
      else r ← memchr_off c n (drop 1 s); Ok (option_map S r)
  end.

(** The command must end with a zero within 12 bytes and be padded with zeroes. *)
Definition ntb_proto_check_command_string (command_string : ptr) : result unit bool :=
  command_end ← memchr_off 0 12 command_string;
  match command_end with
  | None => Ok false
  | Some e =>
      rest ← read_bytes (12 - (e + 1)) (drop (e + 1) command_string);
      Ok (forallb (fun b => b =? 0) rest)
  end.

(** ** Fixed-width fields *)

Definition host : endianness := HAVE_LITTLE_ENDIAN.

Definition ntb_proto_get_8 (p : ptr) : result unit Z := deref p.
Definition ntb_proto_get_16 (p : ptr) : result unit Z :=
  bs ← read_bytes 2 p; Ok (NTB_UINT16_FROM_BE host (native_load host bs)).
Definition ntb_proto_get_32 (p : ptr) : result unit Z :=
  bs ← read_bytes 4 p; Ok (NTB_UINT32_FROM_BE host (native_load host bs)).
Definition ntb_proto_get_64 (p : ptr) : result unit Z :=
  bs ← read_bytes 8 p; Ok (NTB_UINT64_FROM_BE host (native_load host bs)).

(** ** Variable-length fields *)

(** The remaining data: pointer and length. *)
Abbreviation cursor := (ptr * Z)%type.

(** [*length_ptr -= n; *p_ptr += n;] *)
Definition advance (c : cursor) (n : Z) : cursor :=
  (drop (Z.to_nat n) (fst c), u32 (snd c - n)).

Definition ntb_proto_get_var_int (c : cursor) : result unit (Z * cursor) :=
  let p := fst c in
  let length := s32 (snd c) in
  if length <? 0 then Err tt
  else
    b ← deref p;
    if b <? 0xfd then
      if length <? 1 then Err tt
      else Ok (b, advance c 1)
    else if b =? 0xfd then
      if length <? 3 then Err tt
      else v ← ntb_proto_get_16 (drop 1 p); Ok (v, advance c 3)
    else if b =? 0xfe then
      if length <? 5 then Err tt
      else v ← ntb_proto_get_32 (drop 1 p); Ok (v, advance c 5)
    else
      if length <? 9 then Err tt
      else v ← ntb_proto_get_64 (drop 1 p); Ok (v, advance c 9).

(** Zero in the first 32 bits announces a 64-bit value. *)
Definition ntb_proto_get_timestamp (c : cursor) : result unit (Z * cursor) :=
  if snd c <? 4 then Err tt
  else
    result ← ntb_proto_get_32 (fst c);
    let c := advance c 4 in
    if result =? 0 then
      if snd c <? 4 then Err tt
      else result ← ntb_proto_get_32 (fst c); Ok (result, advance c 4)
    else Ok (result, c).

Definition ntb_proto_get_var_str (c : cursor) : result unit (ntb_proto_var_str * cursor) :=
  '(length, c) ← ntb_proto_get_var_int c;
  if snd c <? length then Err tt
  else Ok (VarStr length (fst c), advance c length).

(** [for (i = 0; i < n_ints; i++) if (!get_var_int(...)) return false;]
    Every round takes at least one byte off the length. *)
Fixpoint skip_var_ints (fuel : nat) (n : Z) (c : cursor) : result unit cursor :=
  if n <=? 0 then Ok c
  else match fuel with
       | O => OutOfFuel
       | S fuel => '(_, c) ← ntb_proto_get_var_int c; skip_var_ints fuel (n - 1) c
       end.

Definition ntb_proto_get_var_int_list (c : cursor) :
    result unit (ntb_proto_var_int_list * cursor) :=
  '(n_ints, c) ← ntb_proto_get_var_int c;
  let values := fst c in
  c ← skip_var_ints (S (Z.to_nat (snd c))) n_ints c;
  Ok (VarIntList n_ints values, c).

(** ** Commands *)

Definition arg_ty (a : ntb_proto_argument) : Type :=
  match a with
  | NTB_PROTO_ARGUMENT_8 | NTB_PROTO_ARGUMENT_16 | NTB_PROTO_ARGUMENT_32
  | NTB_PROTO_ARGUMENT_64 | NTB_PROTO_ARGUMENT_VAR_INT
  | NTB_PROTO_ARGUMENT_TIMESTAMP => Z
  | NTB_PROTO_ARGUMENT_BOOL => bool
  | NTB_PROTO_ARGUMENT_NETADDRESS => ntb_netaddress
  | NTB_PROTO_ARGUMENT_VAR_STR => ntb_proto_var_str
  | NTB_PROTO_ARGUMENT_VAR_INT_LIST => ntb_proto_var_int_list
  end.

Fixpoint args_ty (l : list ntb_proto_argument) : Type :=
  match l with
  | [] => unit
  | a :: l => (arg_ty a * args_ty l)%type
  end.

(** A field of [n] bytes read by [get]. *)
Definition get_fixed {A} (n : Z) (get : ptr -> result unit A) (c : cursor) :
    result unit (A * cursor) :=
  if snd c <? n then Err tt
  else v ← get (fst c); Ok (v, advance c n).

Definition get_netaddress (p : ptr) : result unit ntb_netaddress :=
  h ← read_bytes 16 p;
  port ← ntb_proto_get_16 (drop 16 p);
  Ok (NetAddr h port).

Definition get_argument (a : ntb_proto_argument) (c : cursor) :
    result unit (arg_ty a * cursor) :=
  match a with
  | NTB_PROTO_ARGUMENT_8 => get_fixed 1 ntb_proto_get_8 c
  | NTB_PROTO_ARGUMENT_16 => get_fixed 2 ntb_proto_get_16 c
  | NTB_PROTO_ARGUMENT_32 => get_fixed 4 ntb_proto_get_32 c
  | NTB_PROTO_ARGUMENT_64 => get_fixed 8 ntb_proto_get_64 c
  | NTB_PROTO_ARGUMENT_BOOL =>
      get_fixed 1 (fun p => b ← ntb_proto_get_8 p; Ok (negb (b =? 0))) c
  | NTB_PROTO_ARGUMENT_VAR_INT => ntb_proto_get_var_int c
  | NTB_PROTO_ARGUMENT_TIMESTAMP => ntb_proto_get_timestamp c
  | NTB_PROTO_ARGUMENT_NETADDRESS => get_fixed 18 get_netaddress c
  | NTB_PROTO_ARGUMENT_VAR_STR => ntb_proto_get_var_str c
  | NTB_PROTO_ARGUMENT_VAR_INT_LIST => ntb_proto_get_var_int_list c
  end.

Fixpoint get_arguments (l : list ntb_proto_argument) (c : cursor) :
    result unit (args_ty l * cursor) :=
  match l with
  | [] => Ok (tt, c)
  | a :: l =>
      '(v, c) ← get_argument a c;
      '(vs, c) ← get_arguments l c;
      Ok ((v, vs), c)
  end.

(** The number of bytes read, [data - data_start], comes with the values. *)
Definition ntb_proto_get_command (l : list ntb_proto_argument) (p : ptr) (length : Z) :
    result unit (args_ty l * Z) :=
  '(vs, c) ← get_arguments l (p, length);
  Ok (vs, zlen p - zlen (fst c)).

(** [data += n; data_length -= n;] after a header was read *)
Definition ntb_proto_get_decrypted_msg (data : ptr) (data_length : Z) :
    result unit ntb_proto_decrypted_msg :=
  let data_start := data in
  '((message_version, (sender_address_version, (sender_stream_number,
     (sender_behaviors, _)))), header_size) ←
    ntb_proto_get_command
      [NTB_PROTO_ARGUMENT_VAR_INT; NTB_PROTO_ARGUMENT_VAR_INT;
       NTB_PROTO_ARGUMENT_VAR_INT; NTB_PROTO_ARGUMENT_32] data data_length;
  let '(data, data_length) := advance (data, data_length) header_size in
  if data_length <? (NTB_ECC_PUBLIC_KEY_SIZE - 1) * 2 then Err tt else
  let sender_signing_key := data in
  let sender_encryption_key := drop (Z.to_nat (NTB_ECC_PUBLIC_KEY_SIZE - 1)) data in
  let '(data, data_length) :=
    advance (data, data_length) ((NTB_ECC_PUBLIC_KEY_SIZE - 1) * 2) in
  '(nonce_trials_per_byte, extra_bytes, (data, data_length)) ←
    (if 3 <=? sender_address_version then
       '((nonce_trials_per_byte, (extra_bytes, _)), header_size) ←
         ntb_proto_get_command
           [NTB_PROTO_ARGUMENT_VAR_INT; NTB_PROTO_ARGUMENT_VAR_INT] data data_length;
       Ok (nonce_trials_per_byte, extra_bytes, advance (data, data_length) header_size)
     else
       Ok (NTB_PROTO_MIN_NONCE_TRIALS_PER_BYTE, NTB_PROTO_MIN_EXTRA_BYTES,
           (data, data_length)));
  if data_length <? Z.of_nat RIPEMD160_DIGEST_LENGTH then Err tt else
  let destination_ripe := data in
  let '(data, data_length) :=
    advance (data, data_length) (Z.of_nat RIPEMD160_DIGEST_LENGTH) in
  '((encoding, (message_length, _)), header_size) ←
    ntb_proto_get_command
      [NTB_PROTO_ARGUMENT_VAR_INT; NTB_PROTO_ARGUMENT_VAR_INT] data data_length;
  let '(data, data_length) := advance (data, data_length) header_size in
  if data_length <? message_length then Err tt else
  let message := data in
  let '(data, data_length) := advance (data, data_length) message_length in
  '(ack_length, (data, data_length)) ← ntb_proto_get_var_int (data, data_length);
  if data_length <? ack_length then Err tt else
  let ack := data in
  let '(data, data_length) := advance (data, data_length) ack_length in
  let signed_data_length := zlen data_start - zlen data in
  '(sig_length, (data, data_length)) ← ntb_proto_get_var_int (data, data_length);
  let sig := data in
  if negb (data_length =? sig_length) then Err tt else
  Ok (DecryptedMsg sender_signing_key sender_encryption_key message_version
        sender_address_version sender_stream_number sender_behaviors
        nonce_trials_per_byte extra_bytes destination_ripe encoding message ack sig
        message_length ack_length sig_length signed_data_length).

(** [memset(pubkey, 0, sizeof *pubkey)] and the header fields *)
Definition pubkey_header (nonce timestamp version stream : Z) : ntb_proto_pubkey :=
  PubKey nonce timestamp stream version 0 None None 0 0 0 None 0 None None 0 None.

Definition process_v2_pubkey_parts (data : ptr) (message_length : Z)
    (pk : ntb_proto_pubkey) : result unit ntb_proto_pubkey :=
  if message_length <? 64 * 2 + 4 then Err tt else
  behaviours ← ntb_proto_get_32 data;
  Ok (PubKey (pk_nonce pk) (pk_timestamp pk) (pk_stream pk) (pk_version pk)
        behaviours (Some (drop 4 data)) (Some (drop (4 + 64) data))
        NTB_PROTO_MIN_NONCE_TRIALS_PER_BYTE NTB_PROTO_MIN_EXTRA_BYTES
        (pk_signature_length pk) (pk_signature pk) (pk_signed_data_length pk)
        (pk_signed_data pk) (pk_tag pk) (pk_encrypted_data_length pk)
        (pk_encrypted_data pk)).

(** [signed_data] is the pointer [pubkey->signed_data] set by the caller. *)
Definition process_v3_pubkey_parts (data : ptr) (message_length : Z) (signed_data : ptr)
    (pk : ntb_proto_pubkey) : result unit ntb_proto_pubkey :=
  if message_length <? 4 + 64 * 2 then Err tt else
  behaviours ← ntb_proto_get_32 data;
  let public_signing_key := drop 4 data in
  let public_encryption_key := drop (4 + 64) data in
  let '(data, message_length) := advance (data, message_length) (4 + 64 * 2) in
  '((nonce_trials_per_byte, (extra_bytes, _)), header_length) ←
    ntb_proto_get_command
      [NTB_PROTO_ARGUMENT_VAR_INT; NTB_PROTO_ARGUMENT_VAR_INT] data message_length;
  let '(data, message_length) := advance (data, message_length) header_length in
  let signed_data_length := zlen signed_data - zlen data in
  '(signature_length, (data, message_length)) ←
    ntb_proto_get_var_int (data, message_length);
  if negb (message_length =? signature_length) then Err tt else
  Ok (PubKey (pk_nonce pk) (pk_timestamp pk) (pk_stream pk) (pk_version pk)
        behaviours (Some public_signing_key) (Some public_encryption_key)
        nonce_trials_per_byte extra_bytes signature_length (Some data)
        signed_data_length (Some signed_data) (pk_tag pk)
        (pk_encrypted_data_length pk) (pk_encrypted_data pk)).

Definition process_v4_pubkey_parts (data : ptr) (message_length : Z)
    (pk : ntb_proto_pubkey) : result unit ntb_proto_pubkey :=
  if message_length <? 32 then Err tt else
  Ok (PubKey (pk_nonce pk) (pk_timestamp pk) (pk_stream pk) (pk_version pk)
        (pk_behaviours pk) (pk_public_signing_key pk) (pk_public_encryption_key pk)
        (pk_nonce_trials_per_byte pk) (pk_extra_bytes pk) (pk_signature_length pk)
        (pk_signature pk) (pk_signed_data_length pk) (pk_signed_data pk)
        (Some data) (message_length - 32) (Some (drop 32 data))).

Definition ntb_proto_get_pubkey (decrypted : bool) (data_start : ptr)
    (message_length : Z) : result unit ntb_proto_pubkey :=
  '((nonce, (timestamp, (version, (stream, _)))), header_length) ←
    ntb_proto_get_command
      [NTB_PROTO_ARGUMENT_64; NTB_PROTO_ARGUMENT_TIMESTAMP;
       NTB_PROTO_ARGUMENT_VAR_INT; NTB_PROTO_ARGUMENT_VAR_INT]
      data_start message_length;
  let '(data, message_length) := advance (data_start, message_length) header_length in
  let pk := pubkey_header nonce timestamp version stream in
  if version =? 2 then process_v2_pubkey_parts data message_length pk
  else if (version =? 4) && negb decrypted then
    process_v4_pubkey_parts data message_length pk
  else if (version =? 4) || (version =? 3) then
    process_v3_pubkey_parts data message_length (drop 8 data_start) pk
  else Err tt.

(** ** Writing *)

Definition ntb_proto_add_8 (b : ntb_buffer) (v : Z) : result unit ntb_buffer :=
  ntb_buffer_append_c b (u8 v).
Definition ntb_proto_add_16 (b : ntb_buffer) (v : Z) : result unit ntb_buffer :=
  ntb_buffer_append b (native_store host 2 (NTB_UINT16_TO_BE host (u16 v))).
Definition ntb_proto_add_32 (b : ntb_buffer) (v : Z) : result unit ntb_buffer :=
  ntb_buffer_append b (native_store host 4 (NTB_UINT32_TO_BE host (u32 v))).
Definition ntb_proto_add_64 (b : ntb_buffer) (v : Z) : result unit ntb_buffer :=
  ntb_buffer_append b (native_store host 8 (NTB_UINT64_TO_BE host (u64 v))).
Definition ntb_proto_add_bool (b : ntb_buffer) (v : Z) : result unit ntb_buffer :=
  ntb_proto_add_8 b (if v =? 0 then 0 else 1).

Definition ntb_proto_add_var_int (b : ntb_buffer) (value : Z) : result unit ntb_buffer :=
  if value <? 0xfd then ntb_proto_add_8 b value
  else if value <=? 0xffff then
    b ← ntb_proto_add_8 b 0xfd; ntb_proto_add_16 b value
  else if value <=? 0xffffffff then
    b ← ntb_proto_add_8 b 0xfe; ntb_proto_add_32 b value
  else
    b ← ntb_proto_add_8 b 0xff; ntb_proto_add_64 b value.

(** [now] is what [time] reports. *)
Definition ntb_proto_add_timestamp (b : ntb_buffer) (now : Z) : result unit ntb_buffer :=
  ntb_proto_add_64 b (u64 now).

Definition ntb_proto_add_netaddress (b : ntb_buffer) (a : ntb_netaddress) :
    result unit ntb_buffer :=
  b ← ntb_buffer_append b (na_host a);
  ntb_proto_add_16 b (na_port a).

(** [str] is the string without its terminator; its length is a [uint8_t]. *)
Definition ntb_proto_add_var_str (b : ntb_buffer) (str : list Z) : result unit ntb_buffer :=
  let len := u8 (zlen str) in
  b ← ntb_buffer_append b [len];
  ntb_buffer_append b (take (Z.to_nat len) str).

(** [oct] is the uncompressed point [EC_POINT_point2oct] writes. *)
Definition ntb_proto_add_public_key (b : ntb_buffer) (oct : list Z) : result unit ntb_buffer :=
  b ← ntb_buffer_ensure_size b (u64 (buf_length b + NTB_ECC_PUBLIC_KEY_SIZE));
  b ← buf_write b (buf_length b) oct;
  _ ← c_assert (zlen oct =? NTB_ECC_PUBLIC_KEY_SIZE);
  key ← buf_read b (buf_length b + 1) (NTB_ECC_PUBLIC_KEY_SIZE - 1);
  b ← buf_write b (buf_length b) key;
  Ok (add_length b (NTB_ECC_PUBLIC_KEY_SIZE - 1)).

Definition ntb_proto_begin_command (b : ntb_buffer) (command : list Z) :
    result unit ntb_buffer :=
  b ← ntb_buffer_ensure_size b (u64 (buf_length b + NTB_PROTO_HEADER_SIZE));
  let header := buf_length b in
  b ← buf_write b header ntb_proto_magic;
  let command_length := zlen command in
  b ← buf_write b (header + 4) command;
  (* memset of a negative count *)
  _ ← c_assert (command_length <=? 12);
  b ← buf_write b (header + 4 + command_length) (replicate (Z.to_nat (12 - command_length)) 0);
  Ok (add_length b NTB_PROTO_HEADER_SIZE).

Section frames.
Context `{Digests}.

Definition ntb_proto_end_command (b : ntb_buffer) (command_start : Z) :
    result unit ntb_buffer :=
  let header := command_start in
  let payload_length := u32 (buf_length b - command_start - NTB_PROTO_HEADER_SIZE) in
  b ← buf_write b (header + 16) (native_store host 4 (NTB_UINT32_TO_BE host payload_length));
  payload ← buf_read b (header + NTB_PROTO_HEADER_SIZE) payload_length;
  buf_write b (header + 20) (take 4 (SHA512 payload)).

(** What the caller passes for each argument. *)
Definition arg_in_ty (a : ntb_proto_argument) : Type :=
  match a with
  | NTB_PROTO_ARGUMENT_8 | NTB_PROTO_ARGUMENT_16 | NTB_PROTO_ARGUMENT_32
  | NTB_PROTO_ARGUMENT_64 | NTB_PROTO_ARGUMENT_VAR_INT
  | NTB_PROTO_ARGUMENT_BOOL => Z
  | NTB_PROTO_ARGUMENT_TIMESTAMP => unit
  | NTB_PROTO_ARGUMENT_NETADDRESS => ntb_netaddress
  | NTB_PROTO_ARGUMENT_VAR_STR => list Z
  | NTB_PROTO_ARGUMENT_VAR_INT_LIST => unit
  end.

Fixpoint args_in_ty (l : list ntb_proto_argument) : Type :=
  match l with
  | [] => unit
  | a :: l => (arg_in_ty a * args_in_ty l)%type
  end.

Definition add_argument (now : Z) (b : ntb_buffer) (a : ntb_proto_argument) :
    arg_in_ty a -> result unit ntb_buffer :=
  match a with
  | NTB_PROTO_ARGUMENT_8 => ntb_proto_add_8 b
  | NTB_PROTO_ARGUMENT_16 => ntb_proto_add_16 b
  | NTB_PROTO_ARGUMENT_32 => ntb_proto_add_32 b
  | NTB_PROTO_ARGUMENT_64 => ntb_proto_add_64 b
  | NTB_PROTO_ARGUMENT_BOOL => ntb_proto_add_bool b
  | NTB_PROTO_ARGUMENT_VAR_INT => ntb_proto_add_var_int b
  | NTB_PROTO_ARGUMENT_TIMESTAMP => fun _ => ntb_proto_add_timestamp b now
  | NTB_PROTO_ARGUMENT_NETADDRESS => ntb_proto_add_netaddress b
  | NTB_PROTO_ARGUMENT_VAR_STR => ntb_proto_add_var_str b
  | NTB_PROTO_ARGUMENT_VAR_INT_LIST => fun _ => UB
  end.

Fixpoint add_arguments (now : Z) (b : ntb_buffer) (l : list ntb_proto_argument) :
    args_in_ty l -> result unit ntb_buffer :=
  match l with
  | [] => fun _ => Ok b
  | a :: l => fun vs => b ← add_argument now b a (fst vs); add_arguments now b l (snd vs)
  end.

Definition ntb_proto_add_command (now : Z) (b : ntb_buffer) (command : list Z)
    (l : list ntb_proto_argument) (vs : args_in_ty l) : result unit ntb_buffer :=
  let command_start := buf_length b in
  b ← ntb_proto_begin_command b command;
  b ← add_arguments now b l vs;
  ntb_proto_end_command b command_start.
End frames.

(** ** Reference encodings *)

Definition enc_var_int (v : Z) : list Z :=
  if v <? 0xfd then [v]
  else if v <=? 0xffff then 0xfd :: be_split 2 v
  else if v <=? 0xffffffff then 0xfe :: be_split 4 v
  else 0xff :: be_split 8 v.

Definition enc_argument (now : Z) (a : ntb_proto_argument) : arg_in_ty a -> list Z :=
  match a with
  | NTB_PROTO_ARGUMENT_8 => fun v => be_split 1 v
  | NTB_PROTO_ARGUMENT_16 => fun v => be_split 2 v
  | NTB_PROTO_ARGUMENT_32 => fun v => be_split 4 v
  | NTB_PROTO_ARGUMENT_64 => fun v => be_split 8 v
  | NTB_PROTO_ARGUMENT_BOOL => fun v => [if v =? 0 then 0 else 1]
  | NTB_PROTO_ARGUMENT_VAR_INT => enc_var_int
  | NTB_PROTO_ARGUMENT_TIMESTAMP => fun _ => be_split 8 now
  | NTB_PROTO_ARGUMENT_NETADDRESS => fun a => na_host a ++ be_split 2 (na_port a)
  | NTB_PROTO_ARGUMENT_VAR_STR => fun s => zlen s :: s
  | NTB_PROTO_ARGUMENT_VAR_INT_LIST => fun _ => []
  end.

Fixpoint enc_arguments (now : Z) (l : list ntb_proto_argument) : args_in_ty l -> list Z :=
  match l with
  | [] => fun _ => []
  | a :: l => fun vs => enc_argument now a (fst vs) ++ enc_arguments now l (snd vs)
  end.

(** The range each argument has to be in for its encoding to be faithful. *)
Definition arg_ok (now : Z) (a : ntb_proto_argument) : arg_in_ty a -> Prop :=
  match a with
  | NTB_PROTO_ARGUMENT_8 => fun v => 0 <= v < 2 ^ 8
  | NTB_PROTO_ARGUMENT_16 => fun v => 0 <= v < 2 ^ 16
  | NTB_PROTO_ARGUMENT_32 => fun v => 0 <= v < 2 ^ 32
  | NTB_PROTO_ARGUMENT_64 | NTB_PROTO_ARGUMENT_VAR_INT => fun v => 0 <= v < 2 ^ 64
  | NTB_PROTO_ARGUMENT_BOOL => fun _ => True
  | NTB_PROTO_ARGUMENT_TIMESTAMP => fun _ => 0 <= now < 2 ^ 32
  | NTB_PROTO_ARGUMENT_NETADDRESS => na_wf
  | NTB_PROTO_ARGUMENT_VAR_STR => fun s => bytes s /\ zlen s < 0xfd
  | NTB_PROTO_ARGUMENT_VAR_INT_LIST => fun _ => False
  end.

Fixpoint args_ok (now : Z) (l : list ntb_proto_argument) : args_in_ty l -> Prop :=
  match l with
  | [] => fun _ => True
  | a :: l => fun vs => arg_ok now a (fst vs) /\ args_ok now l (snd vs)
  end.

#[global] Instance arg_ok_dec now a v : Decision (arg_ok now a v).
Proof. destruct a; simpl in *; apply _. Defined.
#[global] Instance args_ok_dec now l vs : Decision (args_ok now l vs).
Proof. revert vs. induction l; intros vs; simpl; apply _. Defined.
