(* ===== verification/ProtoSpec.v ===== *)
(** * ProtoSpec: what the protocol readers and writers guarantee

    Memory safety of every reader on data that has one readable byte behind its
    claimed length, the round trip of a command through the writers and the
    readers, and the shape of the frames [ntb_proto_add_command] produces. *)

From S2P Require Import Prelude Endian Buffer NetAddress OpenSSL Proto.

(** ** Fixed-width fields *)

Lemma get_16_spec p q :
  length p = 2%nat -> bytes p -> ntb_proto_get_16 (p ++ q) = Ok (be_combine p).
Proof.
  intros Hl Hb. unfold ntb_proto_get_16. rewrite read_bytes_app, bind_ret_l by done.
  by rewrite uint16_from_be_load.
Qed.
Lemma get_32_spec p q :
  length p = 4%nat -> bytes p -> ntb_proto_get_32 (p ++ q) = Ok (be_combine p).
Proof.
  intros Hl Hb. unfold ntb_proto_get_32. rewrite read_bytes_app, bind_ret_l by done.
  by rewrite uint32_from_be_load.
Qed.
Lemma get_64_spec p q :
  length p = 8%nat -> bytes p -> ntb_proto_get_64 (p ++ q) = Ok (be_combine p).
Proof.
  intros Hl Hb. unfold ntb_proto_get_64. rewrite read_bytes_app, bind_ret_l by done.
  by rewrite uint64_from_be_load.
Qed.

Lemma get_16_split v q : 0 <= v < 2 ^ 16 -> ntb_proto_get_16 (be_split 2 v ++ q) = Ok v.
Proof.
  intros Hv. rewrite get_16_spec, be_combine_split; auto with ntb. f_equal.
  apply Z.mod_small. done.
Qed.
Lemma get_32_split v q : 0 <= v < 2 ^ 32 -> ntb_proto_get_32 (be_split 4 v ++ q) = Ok v.
Proof.
  intros Hv. rewrite get_32_spec, be_combine_split; auto with ntb. f_equal.
  apply Z.mod_small. done.
Qed.
Lemma get_64_split v q : 0 <= v < 2 ^ 64 -> ntb_proto_get_64 (be_split 8 v ++ q) = Ok v.
Proof.
  intros Hv. rewrite get_64_spec, be_combine_split; auto with ntb. f_equal.
  apply Z.mod_small. done.
Qed.

(** Enough bytes make a fixed-width read succeed, with a value of its width. *)
Lemma get_16_range p :
  2 <= zlen p -> bytes p -> exists v, ntb_proto_get_16 p = Ok v /\ 0 <= v < 2 ^ 16.
Proof.
  intros Hl Hb. rewrite <- (take_drop 2 p). unfold zlen in Hl.
  assert (length (take 2 p) = 2%nat) by (rewrite length_take; lia).
  rewrite get_16_spec by auto with ntb. eexists. split; [done|].
  pose proof (be_combine_range (take 2 p) ltac:(auto with ntb)) as Hr.
  unfold zlen in Hr. rewrite H in Hr. exact Hr.
Qed.
Lemma get_32_range p :
  4 <= zlen p -> bytes p -> exists v, ntb_proto_get_32 p = Ok v /\ 0 <= v < 2 ^ 32.
Proof.
  intros Hl Hb. rewrite <- (take_drop 4 p). unfold zlen in Hl.
  assert (length (take 4 p) = 4%nat) by (rewrite length_take; lia).
  rewrite get_32_spec by auto with ntb. eexists. split; [done|].
  pose proof (be_combine_range (take 4 p) ltac:(auto with ntb)) as Hr.
  unfold zlen in Hr. rewrite H in Hr. exact Hr.
Qed.
Lemma get_64_range p :
  8 <= zlen p -> bytes p -> exists v, ntb_proto_get_64 p = Ok v /\ 0 <= v < 2 ^ 64.
Proof.
  intros Hl Hb. rewrite <- (take_drop 8 p). unfold zlen in Hl.
  assert (length (take 8 p) = 8%nat) by (rewrite length_take; lia).
  rewrite get_64_spec by auto with ntb. eexists. split; [done|].
  pose proof (be_combine_range (take 8 p) ltac:(auto with ntb)) as Hr.
  unfold zlen in Hr. rewrite H in Hr. exact Hr.
Qed.

(** ** Safety *)

(** A cursor whose length lies inside the object, with at least one readable
    byte behind it. *)
Definition cur_ok (c : cursor) : Prop :=
  0 <= snd c < 2 ^ 32 /\ snd c < zlen (fst c) /\ bytes (fst c).

#[global] Instance cur_ok_dec c : Decision (cur_ok c).
Proof. unfold cur_ok. apply _. Defined.

(** [c'] is [c] moved forward by [k] bytes that belong to its length. *)
Definition moved (c c' : cursor) : Prop :=
  exists k, 0 <= k <= snd c /\ c' = (drop (Z.to_nat k) (fst c), snd c - k).

(** A reader that is safe: on a good cursor it either reports an error or
    returns a value in [P] and a cursor further along the same data. *)
Definition safe {A} (P : A -> Prop) (c : cursor) (r : result unit (A * cursor)) : Prop :=
  match r with
  | Ok (v, c') => P v /\ moved c c'
  | Err _ => True
  | UB | OutOfFuel => False
  end.

Lemma moved_refl c : 0 <= snd c -> moved c c.
Proof. intros. exists 0. destruct c as [p l]; simpl in *. split; [lia|]. f_equal; lia. Qed.

Lemma moved_trans c1 c2 c3 : moved c1 c2 -> moved c2 c3 -> moved c1 c3.
Proof.
  intros (k & ? & ->) (j & ? & ->). simpl in *. exists (k + j). split; [lia|].
  f_equal; [|lia]. rewrite drop_drop. f_equal. lia.
Qed.

Lemma cur_ok_moved c c' : cur_ok c -> moved c c' -> cur_ok c'.
Proof.
  intros (? & ? & ?) (k & ? & ->). unfold cur_ok. simpl.
  split_and!; [lia|lia| |by apply bytes_drop]. zlia.
Qed.

Lemma advance_moved c n : cur_ok c -> 0 <= n <= snd c -> moved c (advance c n).
Proof.
  intros (? & ? & ?) ?. exists n. split; [done|]. unfold advance.
  rewrite u32_small by lia. done.
Qed.

Lemma safe_ok {A} (P : A -> Prop) c v n :
  P v -> cur_ok c -> 0 <= n <= snd c -> safe P c (Ok (v, advance c n)).
Proof. intros. split; [done|]. by apply advance_moved. Qed.

Lemma safe_bind {A B} (P : A -> Prop) (Q : B -> Prop) c (m : result unit (A * cursor)) f :
  cur_ok c -> safe P c m ->
  (forall v c', P v -> cur_ok c' -> moved c c' -> safe Q c' (f (v, c'))) ->
  safe Q c (m ≫= f).
Proof.
  intros Hc Hm Hf. destruct m as [[v c']| | |]; simpl in *; try done.
  destruct Hm as [Hv Hmv]. specialize (Hf v c' Hv (cur_ok_moved _ _ Hc Hmv) Hmv).
  destruct (f (v, c')) as [[w c'']| | |]; simpl in *; try done.
  destruct Hf. split; [done|]. by eapply moved_trans.
Qed.

Lemma safe_impl {A} (P Q : A -> Prop) c r :
  (forall v, P v -> Q v) -> safe P c r -> safe Q c r.
Proof. destruct r as [[]| | |]; simpl; [|done..]. intros ? []. auto. Qed.

Lemma get_fixed_safe {A} (P : A -> Prop) n get c :
  cur_ok c -> 0 <= n ->
  (n <= zlen (fst c) -> exists v, get (fst c) = Ok v /\ P v) ->
  safe P c (get_fixed n get c).
Proof.
  intros Hc Hn Hget. unfold get_fixed. pose proof Hc as (? & ? & ?).
  destruct (Z.ltb_spec (snd c) n); [done|].
  destruct Hget as (v & -> & Hv); [lia|]. rewrite bind_ret_l. apply safe_ok; [done..|lia].
Qed.

Lemma s32_le z : 0 <= z < 2 ^ 32 -> s32 z <= z.
Proof. intros. unfold s32. pow_lits. Z.to_euclidean_division_equations. lia. Qed.

Lemma get_var_int_safe c :
  cur_ok c -> safe (fun v => 0 <= v < 2 ^ 64) c (ntb_proto_get_var_int c).
Proof.
  intros Hc. pose proof Hc as (Hl & Hz & Hb). unfold ntb_proto_get_var_int.
  pose proof (s32_le (snd c) Hl) as Hs.
  destruct (Z.ltb_spec (s32 (snd c)) 0); [done|].
  destruct (fst c) as [|b q] eqn:Hp; [rewrite zlen_nil in Hz; lia|].
  rewrite zlen_cons in Hz. apply bytes_cons in Hb as [Hb Hq]. unfold is_byte in Hb.
  change (drop 1 (b :: q)) with q. cbn [deref mbind result_bind].
  destruct (Z.ltb_spec b 0xfd).
  { destruct (Z.ltb_spec (s32 (snd c)) 1); [done|]. apply safe_ok; [lia|done|lia]. }
  destruct (Z.eqb_spec b 0xfd).
  { destruct (Z.ltb_spec (s32 (snd c)) 3); [done|].
    destruct (get_16_range q) as (v & -> & ?); [lia|done|]. apply safe_ok; [lia|done|lia]. }
  destruct (Z.eqb_spec b 0xfe).
  { destruct (Z.ltb_spec (s32 (snd c)) 5); [done|].
    destruct (get_32_range q) as (v & -> & ?); [lia|done|]. apply safe_ok; [lia|done|lia]. }
  destruct (Z.ltb_spec (s32 (snd c)) 9); [done|].
  destruct (get_64_range q) as (v & -> & ?); [lia|done|]. apply safe_ok; [lia|done|lia].
Qed.

(** A variable-length integer takes at least one byte. *)
Lemma get_var_int_progress c v c' :
  cur_ok c -> ntb_proto_get_var_int c = Ok (v, c') -> snd c' < snd c.
Proof.
  intros Hc Hg. pose proof (get_var_int_safe c Hc) as Hs. rewrite Hg in Hs.
  destruct Hs as [_ (k & Hk & ->)]. simpl.
  enough (k <> 0) by lia. intros ->. revert Hg. unfold ntb_proto_get_var_int.
  pose proof Hc as (Hl & Hz & Hb). pose proof (s32_le (snd c) Hl).
  case_bool; [done|]. destruct (deref (fst c)) as [b| | |]; try done. simpl.
  repeat case_bool; try done; intros Hg; bind_inv;
    match goal with
    | Hu : u32 (snd c - _) = _ |- _ => rewrite u32_small in Hu by lia; lia
    end.
Qed.

Lemma get_timestamp_safe c :
  cur_ok c -> safe (fun v => 0 <= v < 2 ^ 32) c (ntb_proto_get_timestamp c).
Proof.
  intros Hc. pose proof Hc as (Hl & Hz & Hb). unfold ntb_proto_get_timestamp.
  destruct (Z.ltb_spec (snd c) 4); [done|].
  destruct (get_32_range (fst c)) as (v & -> & ?); [lia|done|]. rewrite bind_ret_l.
  assert (Hm : moved c (advance c 4)) by (apply advance_moved; [done|lia]).
  pose proof (cur_ok_moved _ _ Hc Hm) as Hc'. pose proof Hc' as (Hl' & Hz' & Hb').
  destruct (v =? 0); [|done].
  destruct (Z.ltb_spec (snd (advance c 4)) 4); [done|].
  destruct (get_32_range (fst (advance c 4))) as (w & -> & ?); [lia|done|].
  split; [done|]. eapply moved_trans; [exact Hm|]. apply advance_moved; [done|lia].
Qed.

Lemma get_var_str_safe c :
  cur_ok c ->
  safe (fun s => 0 <= vs_length s < zlen (vs_data s)) c (ntb_proto_get_var_str c).
Proof.
  intros Hc. unfold ntb_proto_get_var_str.
  eapply safe_bind; [done|by apply get_var_int_safe|].
  intros n c' Hn Hc' _. cbn beta in *. pose proof Hc' as (? & ? & ?).
  destruct (Z.ltb_spec (snd c') n); [done|]. apply safe_ok; [simpl; lia|done|lia].
Qed.

Lemma skip_var_ints_safe fuel n c :
  cur_ok c -> snd c < Z.of_nat fuel ->
  match skip_var_ints fuel n c with
  | Ok c' => moved c c'
  | Err _ => True
  | UB | OutOfFuel => False
  end.
Proof.
  revert n c. induction fuel as [|fuel IH]; intros n c Hc Hf; simpl.
  - destruct Hc as (? & _). lia.
  - destruct (Z.leb_spec n 0); [apply moved_refl; apply Hc|].
    pose proof (get_var_int_safe c Hc) as Hs.
    destruct (ntb_proto_get_var_int c) as [[v c']| | |] eqn:Hg; simpl in *; try done.
    destruct Hs as [_ Hm]. pose proof (get_var_int_progress _ _ _ Hc Hg).
    specialize (IH (n - 1) c' (cur_ok_moved _ _ Hc Hm) ltac:(lia)).
    destruct (skip_var_ints fuel (n - 1) c'); try done. by eapply moved_trans.
Qed.

Lemma get_var_int_list_safe c :
  cur_ok c -> safe (fun v => 0 <= vil_n_ints v < 2 ^ 64) c (ntb_proto_get_var_int_list c).
Proof.
  intros Hc. unfold ntb_proto_get_var_int_list.
  eapply safe_bind; [done|by apply get_var_int_safe|].
  intros n c' Hn Hc' _. cbn beta in *. pose proof Hc' as (? & ? & ?).
  pose proof (skip_var_ints_safe (S (Z.to_nat (snd c'))) n c' Hc' ltac:(lia)) as Hs.
  destruct (skip_var_ints _ n c') as [c''| | |]; simpl in *; try done.
Qed.

(** The range of the value an argument is read into. *)
Definition arg_range (a : ntb_proto_argument) : arg_ty a -> Prop :=
  match a with
  | NTB_PROTO_ARGUMENT_8 => fun v => 0 <= v < 2 ^ 8
  | NTB_PROTO_ARGUMENT_16 => fun v => 0 <= v < 2 ^ 16
  | NTB_PROTO_ARGUMENT_32 | NTB_PROTO_ARGUMENT_TIMESTAMP => fun v => 0 <= v < 2 ^ 32
  | NTB_PROTO_ARGUMENT_64 | NTB_PROTO_ARGUMENT_VAR_INT => fun v => 0 <= v < 2 ^ 64
  | NTB_PROTO_ARGUMENT_BOOL => fun _ => True
  | NTB_PROTO_ARGUMENT_NETADDRESS => na_wf
  | NTB_PROTO_ARGUMENT_VAR_STR => fun s => 0 <= vs_length s < zlen (vs_data s)
  | NTB_PROTO_ARGUMENT_VAR_INT_LIST => fun v => 0 <= vil_n_ints v < 2 ^ 64
  end.

Fixpoint args_range (l : list ntb_proto_argument) : args_ty l -> Prop :=
  match l with
  | [] => fun _ => True
  | a :: l => fun vs => arg_range a (fst vs) /\ args_range l (snd vs)
  end.

Lemma get_argument_safe a c : cur_ok c -> safe (arg_range a) c (get_argument a c).
Proof.
  intros Hc. pose proof Hc as (? & ? & Hb).
  destruct a; cbn [get_argument arg_range];
    try first [by apply get_var_int_safe | by apply get_timestamp_safe
      | by apply get_var_str_safe | by apply get_var_int_list_safe];
    (apply get_fixed_safe; [done|lia|]; intros).
  - destruct (fst c) as [|b q]; [rewrite zlen_nil in *; lia|].
    apply bytes_cons in Hb as [Hb _]. unfold is_byte in Hb. exists b. split; [done|lia].
  - apply get_16_range; [lia|done].
  - apply get_32_range; [lia|done].
  - apply get_64_range; [lia|done].
  - destruct (fst c) as [|b q]; [rewrite zlen_nil in *; lia|]. by eexists.
  - unfold get_netaddress. rewrite read_bytes_Ok by (unfold zlen in *; lia).
    rewrite bind_ret_l.
    destruct (get_16_range (drop 16 (fst c))) as (v & -> & ?);
      [zlia|by apply bytes_drop|]. eexists. split; [reflexivity|].
    unfold na_wf. cbn [na_host na_port]. split_and!; [|by apply bytes_take|lia..].
    rewrite length_take. unfold zlen in *. lia.
Qed.

Lemma get_arguments_safe l c : cur_ok c -> safe (args_range l) c (get_arguments l c).
Proof.
  revert c. induction l as [|a l IH]; intros c Hc; simpl.
  - split; [done|]. apply moved_refl. apply Hc.
  - eapply safe_bind; [done|by apply get_argument_safe|]. intros v c' Hv Hc' _. cbn beta.
    eapply safe_bind; [done|by apply IH|]. intros vs c'' Hvs Hc'' _.
    split; [done|]. apply moved_refl. apply Hc''.
Qed.

(** A command read from a good cursor is an error or a number of bytes within
    the length, with every value in the range of its type. *)
Lemma get_command_safe l p len :
  cur_ok (p, len) ->
  match ntb_proto_get_command l p len with
  | Ok (vs, n) => args_range l vs /\ 0 <= n <= len
  | Err _ => True
  | UB | OutOfFuel => False
  end.
Proof.
  intros Hc. unfold ntb_proto_get_command.
  pose proof (get_arguments_safe l (p, len) Hc) as Hs.
  destruct (get_arguments l (p, len)) as [[vs c']| | |]; simpl in *; try done.
  destruct Hs as [? (k & Hk & ->)]. simpl in *. destruct Hc as (? & ? & ?); simpl in *.
  split; [done|]. zlen_simpl. lia.
Qed.

(** ** Round trip *)

(** Equality of two results up to the remaining length. *)
Ltac cur_eq :=
  match goal with
  | |- Ok (?a, (?b, ?c)) = Ok (_, (_, ?d)) =>
      refine (f_equal (fun z => Ok (a, (b, z))) (_ : c = d)); zlia
  | |- Ok (?a, ?c) = Ok (_, ?d) => refine (f_equal (fun z => Ok (a, z)) (_ : c = d)); zlia
  end.

(** The value read back for an argument, [rest] being the bytes behind it. *)
Definition arg_out (now : Z) (a : ntb_proto_argument) (rest : ptr) : arg_in_ty a -> arg_ty a :=
  match a with
  | NTB_PROTO_ARGUMENT_8 | NTB_PROTO_ARGUMENT_16 | NTB_PROTO_ARGUMENT_32
  | NTB_PROTO_ARGUMENT_64 | NTB_PROTO_ARGUMENT_VAR_INT => fun v => v
  | NTB_PROTO_ARGUMENT_BOOL => fun v => negb (v =? 0)
  | NTB_PROTO_ARGUMENT_TIMESTAMP => fun _ => now
  | NTB_PROTO_ARGUMENT_NETADDRESS => fun a => a
  | NTB_PROTO_ARGUMENT_VAR_STR => fun s => VarStr (zlen s) (s ++ rest)
  | NTB_PROTO_ARGUMENT_VAR_INT_LIST => fun _ => VarIntList 0 []
  end.

Fixpoint args_out (now : Z) (l : list ntb_proto_argument) (rest : ptr) :
    args_in_ty l -> args_ty l :=
  match l with
  | [] => fun _ => tt
  | a :: l => fun vs =>
      (arg_out now a (enc_arguments now l (snd vs) ++ rest) (fst vs),
       args_out now l rest (snd vs))
  end.

Lemma advance_app p q len n :
  zlen p = n -> n <= len < 2 ^ 32 -> advance (p ++ q, len) n = (q, len - n).
Proof.
  intros <- ?. unfold advance. simpl. zlen_pose. rewrite u32_small by lia.
  unfold zlen. by rewrite Nat2Z.id, drop_app_length.
Qed.

Lemma advance_cons b q len :
  1 <= len < 2 ^ 32 -> advance (b :: q, len) 1 = (q, len - 1).
Proof. intros. by apply (advance_app [b] q). Qed.

Lemma get_fixed_app {A} n (get : ptr -> result unit A) p q len v :
  zlen p = n -> n <= len < 2 ^ 32 -> get (p ++ q) = Ok v ->
  get_fixed n get (p ++ q, len) = Ok (v, (q, len - n)).
Proof.
  intros Hn Hl Hg. unfold get_fixed. simpl.
  destruct (Z.ltb_spec len n); [lia|]. rewrite Hg, bind_ret_l. by rewrite advance_app.
Qed.

(** One of the three tagged forms: the tag selects the width. *)
Lemma tagged_roundtrip (get : ptr -> result unit Z) tag bs q len v k :
  zlen bs = k - 1 -> 1 <= k <= len -> len < 2 ^ 31 -> get (bs ++ q) = Ok v ->
  (if len <? k then Err tt
   else v ← get (drop 1 ((tag :: bs) ++ q)); Ok (v, advance ((tag :: bs) ++ q, len) k))
  = Ok (v, (q, len - k)).
Proof.
  intros Hk Hl Hr Hg. destruct (Z.ltb_spec len k); [lia|].
  change (drop 1 ((tag :: bs) ++ q)) with (bs ++ q). rewrite Hg, bind_ret_l.
  rewrite advance_app by zlia. done.
Qed.

Lemma var_int_roundtrip v q len :
  0 <= v < 2 ^ 64 -> zlen (enc_var_int v) <= len < 2 ^ 31 ->
  ntb_proto_get_var_int (enc_var_int v ++ q, len)
  = Ok (v, (q, len - zlen (enc_var_int v))).
Proof.
  intros Hv Hl. unfold ntb_proto_get_var_int. cbn [fst snd].
  assert (0 < zlen (enc_var_int v))
    by (unfold enc_var_int; repeat case_bool; zlia).
  rewrite s32_small by lia. destruct (Z.ltb_spec len 0); [lia|].
  unfold enc_var_int in *.
  destruct (Z.ltb_spec v 0xfd); [|destruct (Z.leb_spec v 0xffff);
    [|destruct (Z.leb_spec v 0xffffffff)]]; cbn [app deref mbind result_bind].
  - zlen_simpl. destruct (Z.ltb_spec v 0xfd); [|lia]. destruct (Z.ltb_spec len 1); [lia|].
    rewrite advance_cons by lia. cur_eq.
  - rewrite zlen_cons, zlen_be_split in *.
    apply (tagged_roundtrip ntb_proto_get_16 0xfd (be_split 2 v));
      [zlia|lia|lia|apply get_16_split; lia].
  - rewrite zlen_cons, zlen_be_split in *.
    apply (tagged_roundtrip ntb_proto_get_32 0xfe (be_split 4 v));
      [zlia|lia|lia|apply get_32_split; lia].
  - rewrite zlen_cons, zlen_be_split in *.
    apply (tagged_roundtrip ntb_proto_get_64 0xff (be_split 8 v));
      [zlia|lia|lia|apply get_64_split; lia].
Qed.

Lemma be_split_8_halves v :
  0 <= v < 2 ^ 32 -> be_split 8 v = be_split 4 0 ++ be_split 4 v.
Proof.
  intros Hv. rewrite <- (be_split_combine (be_split 4 0 ++ be_split 4 v))
    by (apply bytes_app; auto with ntb).
  rewrite length_app, !length_be_split. f_equal.
  rewrite be_combine_app, !be_combine_split. zlen_simpl. simpl (Z.of_nat 4).
  rewrite (Z.mod_small v) by lia. reflexivity.
Qed.

Lemma timestamp_roundtrip now q len :
  0 <= now < 2 ^ 32 -> 8 <= len < 2 ^ 31 ->
  ntb_proto_get_timestamp (be_split 8 now ++ q, len) = Ok (now, (q, len - 8)).
Proof.
  intros Hn Hl. rewrite be_split_8_halves, <- app_assoc by done.
  unfold ntb_proto_get_timestamp. cbn [fst snd].
  destruct (Z.ltb_spec len 4); [lia|].
  rewrite get_32_split, bind_ret_l by lia. cbn [Z.eqb].
  rewrite advance_app by (rewrite ?zlen_be_split; lia). cbn [fst snd].
  destruct (Z.ltb_spec (len - 4) 4); [lia|].
  rewrite get_32_split, bind_ret_l by lia.
  rewrite advance_app by (rewrite ?zlen_be_split; lia). cur_eq.
Qed.

Lemma be_split_1 v : be_split 1 v = [v mod 256].
Proof. done. Qed.

Lemma argument_roundtrip now a v q len :
  arg_ok now a v -> zlen (enc_argument now a v) <= len < 2 ^ 31 ->
  get_argument a (enc_argument now a v ++ q, len)
  = Ok (arg_out now a q v, (q, len - zlen (enc_argument now a v))).
Proof.
  intros Hok Hl.
  destruct a; simpl in v, Hok; cbn [enc_argument arg_out get_argument] in *.
  - rewrite be_split_1, Z.mod_small in * by lia. rewrite zlen_cons, zlen_nil in *.
    change (1 + 0) with 1 in *. apply (get_fixed_app 1 ntb_proto_get_8 [v] q); [done|lia|done].
  - rewrite zlen_be_split in *. apply get_fixed_app; [apply zlen_be_split|lia|].
    by apply get_16_split.
  - rewrite zlen_be_split in *. apply get_fixed_app; [apply zlen_be_split|lia|].
    by apply get_32_split.
  - rewrite zlen_be_split in *. apply get_fixed_app; [apply zlen_be_split|lia|].
    by apply get_64_split.
  - rewrite zlen_cons, zlen_nil in *. change (1 + 0) with 1 in *.
    apply (get_fixed_app 1 _ [_] q); [done|lia|].
    simpl. by destruct (Z.eqb_spec v 0).
  - by apply var_int_roundtrip.
  - rewrite zlen_be_split in *. by apply timestamp_roundtrip.
  - destruct Hok as (Hh & Hb & Hp). rewrite zlen_app, zlen_be_split in *.
    assert (zlen (na_host v) = 16) by (unfold zlen; lia).
    replace (zlen (na_host v) + Z.of_nat 2) with 18 in * by lia.
    apply get_fixed_app; [zlia|lia|]. unfold get_netaddress. rewrite <- app_assoc.
    rewrite read_bytes_app, bind_ret_l by done.
    rewrite drop_app_length' by done. rewrite get_16_split by done. by destruct v.
  - destruct Hok as (Hb & Hs). rewrite zlen_cons in *. zlen_pose.
    unfold ntb_proto_get_var_str.
    assert (He : zlen v :: v = enc_var_int (zlen v) ++ v).
    { unfold enc_var_int. by destruct (Z.ltb_spec (zlen v) 0xfd); [|lia]. }
    assert (Hz : zlen (enc_var_int (zlen v)) = 1).
    { unfold enc_var_int. by destruct (Z.ltb_spec (zlen v) 0xfd); [|lia]. }
    rewrite He, <- app_assoc, var_int_roundtrip by lia. rewrite Hz, bind_ret_l. cbn [snd].
    destruct (Z.ltb_spec (len - 1) (zlen v)); [lia|]. cbn [fst].
    rewrite advance_app by lia. cur_eq.
  - done.
Qed.

Lemma arguments_roundtrip now l vs q len :
  args_ok now l vs -> zlen (enc_arguments now l vs) <= len < 2 ^ 31 ->
  get_arguments l (enc_arguments now l vs ++ q, len)
  = Ok (args_out now l q vs, (q, len - zlen (enc_arguments now l vs))).
Proof.
  revert len. induction l as [|a l IH]; intros len Hok Hl; simpl in *.
  - rewrite zlen_nil. cur_eq.
  - destruct Hok as [Ha Hargs]. rewrite zlen_app in *. zlen_pose.
    rewrite <- app_assoc, argument_roundtrip, bind_ret_l by (done || lia).
    rewrite IH, bind_ret_l by (done || lia). cur_eq.
Qed.

(** Reading a command from its own encoding. *)
Lemma command_roundtrip now l vs q len :
  args_ok now l vs -> zlen (enc_arguments now l vs) <= len < 2 ^ 31 ->
  ntb_proto_get_command l (enc_arguments now l vs ++ q) len
  = Ok (args_out now l q vs, zlen (enc_arguments now l vs)).
Proof.
  intros. unfold ntb_proto_get_command. rewrite arguments_roundtrip, bind_ret_l by done.
  cbn [fst]. cur_eq.
Qed.

(** ** Writers *)

(** The outcome of a writer that appends [l] to the contents. *)
Definition appends (b : ntb_buffer) (r : result unit ntb_buffer) (l : list Z) : Prop :=
  exists b', r = Ok b' /\ buf_wf b' /\ buf_length b' = buf_length b + zlen l /\
    cells b' = cells b ++ (Some <$> l).

(** Every append below stays clear of the doubling limit. *)
Definition fits (b : ntb_buffer) (n : Z) : Prop := buf_wf b /\ buf_length b + n <= 2 ^ 62.
#[global] Instance fits_dec b n : Decision (fits b n).
Proof. unfold fits. apply _. Defined.

Lemma appends_bind b m f l k :
  appends b m l ->
  (forall b', m = Ok b' -> buf_wf b' -> buf_length b' = buf_length b + zlen l ->
     appends b' (f b') k) ->
  appends b (m ≫= f) (l ++ k).
Proof.
  intros (b1 & -> & ? & ? & Hc1) Hf. rewrite bind_ret_l.
  destruct (Hf b1) as (b2 & -> & ? & ? & Hc2); [done..|].
  exists b2. split_and!; [done..|zlia|]. by rewrite Hc2, Hc1, fmap_app, app_assoc.
Qed.

Lemma appends_append b l : fits b (zlen l) -> appends b (ntb_buffer_append b l) l.
Proof.
  intros [? ?]. destruct (append_spec (E := unit) b l) as (b' & ? & ? & ? & ? & _);
    [done|lia|]. by exists b'.
Qed.

Lemma appends_add_8 b v : fits b 1 -> 0 <= v < 256 -> appends b (ntb_proto_add_8 b v) [v].
Proof.
  intros [? ?] ?. unfold ntb_proto_add_8. rewrite u8_small by done.
  destruct (append_c_spec (E := unit) b v) as (b' & ? & ? & ? & ?); [done|lia|done|].
  exists b'. split_and!; [done..|zlia|done].
Qed.
Lemma appends_add_16 b v :
  fits b 2 -> 0 <= v < 2 ^ 16 -> appends b (ntb_proto_add_16 b v) (be_split 2 v).
Proof.
  intros ? ?. unfold ntb_proto_add_16. rewrite u16_small, uint16_store_to_be by done.
  apply appends_append. by rewrite zlen_be_split.
Qed.
Lemma appends_add_32 b v :
  fits b 4 -> 0 <= v < 2 ^ 32 -> appends b (ntb_proto_add_32 b v) (be_split 4 v).
Proof.
  intros ? ?. unfold ntb_proto_add_32. rewrite u32_small, uint32_store_to_be by done.
  apply appends_append. by rewrite zlen_be_split.
Qed.
Lemma appends_add_64 b v :
  fits b 8 -> 0 <= v < 2 ^ 64 -> appends b (ntb_proto_add_64 b v) (be_split 8 v).
Proof.
  intros ? ?. unfold ntb_proto_add_64. rewrite u64_small, uint64_store_to_be by done.
  apply appends_append. by rewrite zlen_be_split.
Qed.

Lemma fits_after b b' n m :
  buf_wf b' -> buf_length b' = buf_length b + n -> fits b (n + m) -> fits b' m.
Proof. intros ? ? [? ?]. split; [done|lia]. Qed.

Lemma appends_add_var_int b v :
  0 <= v < 2 ^ 64 -> fits b 9 -> appends b (ntb_proto_add_var_int b v) (enc_var_int v).
Proof.
  intros Hv [Hwf Hf]. unfold ntb_proto_add_var_int, enc_var_int.
  case_bool; [apply appends_add_8; [by split; [|lia]|lia]|].
  repeat case_bool;
    (apply (appends_bind _ _ _ [_]); [apply appends_add_8; [by split; [|lia]|lia]|];
     intros b' _ ? Hl; rewrite zlen_cons, zlen_nil in Hl).
  - apply appends_add_16; [split; [done|lia]|lia].
  - apply appends_add_32; [split; [done|lia]|lia].
  - apply appends_add_64; [split; [done|lia]|lia].
Qed.

Lemma zlen_enc_var_int v : zlen (enc_var_int v) <= 9.
Proof. unfold enc_var_int. repeat case_bool; zlia. Qed.

Lemma appends_add_argument now b a v :
  arg_ok now a v -> fits b (zlen (enc_argument now a v) + 9) ->
  appends b (add_argument now b a v) (enc_argument now a v).
Proof.
  intros Hok [Hwf Hf].
  destruct a; simpl in v, Hok; cbn [add_argument enc_argument] in *; zlen_simpl.
  - rewrite be_split_1, Z.mod_small by lia. apply appends_add_8; [by split; [|lia]|lia].
  - apply appends_add_16; [by split; [|lia]|lia].
  - apply appends_add_32; [by split; [|lia]|lia].
  - apply appends_add_64; [by split; [|lia]|lia].
  - unfold ntb_proto_add_bool. apply appends_add_8; [by split; [|lia]|case_bool; lia].
  - apply appends_add_var_int; [done|]. split; [done|]. zlen_pose. lia.
  - unfold ntb_proto_add_timestamp. rewrite u64_small by lia.
    apply appends_add_64; [by split; [|lia]|lia].
  - destruct Hok as (Hh & Hb & Hp). apply appends_bind.
    { apply appends_append. split; [done|lia]. }
    intros b' _ ? ?. apply appends_add_16; [split; [done|lia]|done].
  - destruct Hok as [Hb Hs]. unfold ntb_proto_add_var_str. zlen_pose.
    rewrite u8_small by lia. apply (appends_bind _ _ _ [_]).
    { apply appends_append. split; [done|zlia]. }
    intros b' _ ? Hl. rewrite zlen_cons, zlen_nil in Hl.
    rewrite take_ge by (unfold zlen; lia). apply appends_append. split; [done|lia].
  - done.
Qed.

Lemma appends_add_arguments now b l vs :
  args_ok now l vs -> fits b (zlen (enc_arguments now l vs) + 9) ->
  appends b (add_arguments now b l vs) (enc_arguments now l vs).
Proof.
  revert b. induction l as [|a l IH]; intros b Hok Hf; simpl in *.
  - destruct Hf. exists b. split_and!; [done..|zlia|by rewrite app_nil_r].
  - destruct Hok as [Ha Hl]. destruct Hf as [Hwf Hf]. rewrite zlen_app in Hf. zlen_pose.
    apply appends_bind; [apply appends_add_argument; [done|split; [done|lia]]|].
    intros b' _ ? ?. apply IH; [done|]. split; [done|lia].
Qed.

(** Overwriting a known part of an allocation. *)
Lemma buf_write_mid b A B C l off :
  buf_data b = A ++ B ++ C -> off = zlen A -> zlen l = zlen B ->
  buf_write (E := unit) b off l = Ok (Buf (A ++ (Some <$> l) ++ C) (buf_length b) (buf_size b)).
Proof.
  intros Hd -> Hl. unfold buf_write, write_cells. rewrite Hd. zlen_simpl. zlen_pose.
  destruct (Z.leb_spec 0 (zlen A)), (Z.leb_spec (zlen A + zlen l) (zlen A + (zlen B + zlen C)));
    try lia. cbn [andb mbind result_bind]. do 3 f_equal.
  - unfold zlen. by rewrite Nat2Z.id, take_app_length.
  - f_equal. rewrite Hl. unfold zlen. rewrite app_assoc. apply drop_app_length'.
    rewrite length_app. lia.
Qed.

Lemma all_some_fmap {A} (l : list A) : all_some (Some <$> l) = Some l.
Proof. induction l as [|x l IH]; [done|]. csimpl. by rewrite IH. Qed.

Lemma buf_read_mid b A l C off :
  buf_data b = A ++ (Some <$> l) ++ C -> off = zlen A ->
  buf_read (E := unit) b off (zlen l) = Ok l.
Proof.
  intros Hd ->. unfold buf_read. rewrite Hd. zlen_simpl. zlen_pose.
  destruct (Z.leb_spec 0 (zlen A)), (Z.leb_spec 0 (zlen l)),
    (Z.leb_spec (zlen A + zlen l) (zlen A + (zlen l + zlen C))); try lia. cbn [andb].
  unfold zlen. rewrite !Nat2Z.id, drop_app_length.
  rewrite <- (length_fmap Some l) at 1. rewrite take_app_length. by rewrite all_some_fmap.
Qed.

(** [b'] is [b] with [l] appended. *)
Definition extends (b b' : ntb_buffer) (l : list Z) : Prop :=
  buf_wf b' /\ buf_length b' = buf_length b + zlen l /\ cells b' = cells b ++ (Some <$> l).

Lemma extends_trans b b1 b2 l k : extends b b1 l -> extends b1 b2 k -> extends b b2 (l ++ k).
Proof.
  intros (_ & L1 & C1) (W2 & L2 & C2). split_and!; [done|rewrite zlen_app; lia|]. by rewrite C2, C1, fmap_app, app_assoc.
Qed.

(** Buffers with cells that are not set. *)
Definition grows (b b' : ntb_buffer) (cs : list (option Z)) : Prop :=
  buf_wf b' /\ buf_length b' = buf_length b + zlen cs /\ cells b' = cells b ++ cs.

Lemma grows_trans b b1 b2 cs ds : grows b b1 cs -> grows b1 b2 ds -> grows b b2 (cs ++ ds).
Proof. intros (_ & L1 & C1) (W2 & L2 & C2). split_and!; [done|rewrite zlen_app; lia|by rewrite C2, C1, app_assoc]. Qed.
Lemma extends_grows b b' l : extends b b' l -> grows b b' (Some <$> l).
Proof. intros (W & L & C). split_and!; [done|by rewrite zlen_fmap|done]. Qed.
Lemma appends_grows b r l : appends b r l -> exists b', r = Ok b' /\ grows b b' (Some <$> l).
Proof. intros (b' & E & Hx). exists b'. split; [done|by apply extends_grows]. Qed.

(** One more step of a writer, with the length that follows. *)
Lemma grow_step b (f : ntb_buffer -> result unit ntb_buffer) l n :
  (fits b n -> appends b (f b) l) -> buf_wf b -> buf_length b + n <= 2 ^ 62 ->
  exists b', f b = Ok b' /\ grows b b' (Some <$> l) /\ buf_wf b' /\ buf_length b' = buf_length b + zlen l.
Proof. intros Ha Hwf Hn. destruct (Ha (conj Hwf Hn)) as (b' & E & W & L & C). exists b'. split_and!; [done|by apply extends_grows|done|done]. Qed.

Lemma room_spec b n : fits b n -> 0 <= n ->
  exists b' junk, ntb_buffer_set_length (E := unit) b (u64 (buf_length b + n)) = Ok b' /\ grows b b' junk /\ zlen junk = n.
Proof.
  intros [Hwf Hf] Hn. pose proof (proj1 (proj2 Hwf)). unfold ntb_buffer_set_length. rewrite u64_small by lia.
  destruct (ensure_size_spec (E := unit) b (buf_length b + n)) as (b1 & -> & (Hd & Hl0 & Hs) & Hl1 & Hc1 & _ & Hs1 & _); [done|lia|].
  rewrite bind_ret_l. exists (Buf (buf_data b1) (buf_length b + n) (buf_size b1)).
  exists (take (Z.to_nat n) (drop (Z.to_nat (buf_length b)) (buf_data b1))).
  assert (Hz : zlen (take (Z.to_nat n) (drop (Z.to_nat (buf_length b)) (buf_data b1))) = n)
    by (unfold zlen in *; rewrite length_take, length_drop; lia).
  split; [done|]. split; [|done]. unfold grows, buf_wf, cells. cbn [buf_data buf_length buf_size]. rewrite Hz.
  split_and!; [lia..|]. fold (cells b). rewrite <- Hc1. unfold cells. rewrite Hl1, take_take_drop. f_equal. lia.
Qed.

(** Writing over cells. *)
Lemma buf_write_cells b A B C l off :
  buf_wf b -> cells b = A ++ B ++ C -> off = zlen A -> zlen l = zlen B ->
  exists b', buf_write (E := unit) b off l = Ok b' /\ buf_wf b' /\ buf_length b' = buf_length b /\ cells b' = A ++ (Some <$> l) ++ C.
Proof.
  intros (Hd & Hl0 & Hs) Hc Ho Hl. set (T := drop (Z.to_nat (buf_length b)) (buf_data b)).
  assert (HT : buf_data b = A ++ B ++ C ++ T).
  { rewrite <- (take_drop (Z.to_nat (buf_length b)) (buf_data b)). fold (cells b) T. by rewrite Hc, <- !app_assoc. }
  rewrite (buf_write_mid b A B (C ++ T)) by done. eexists. split; [reflexivity|].
  assert (Hzc : zlen (A ++ (Some <$> l) ++ C) = buf_length b).
  { rewrite <- (zlen_cells b) by done. rewrite Hc, !zlen_app, zlen_fmap. lia. }
  unfold buf_wf, cells. cbn [buf_data buf_length buf_size]. split_and!; try lia.
  - rewrite <- Hd, HT, !zlen_app, zlen_fmap. lia.
  - replace (A ++ (Some <$> l) ++ C ++ T) with ((A ++ (Some <$> l) ++ C) ++ T) by (by rewrite <- !app_assoc).
    apply take_app_length'. unfold zlen in Hzc. lia.
Qed.

Lemma cells_Buf d l s : cells (Buf d l s) = take (Z.to_nat l) d.
Proof. done. Qed.

Definition padded_command (command : list Z) : list Z :=
  command ++ replicate (Z.to_nat (12 - zlen command)) 0.

(** An allocation with room for [n] more cells, cut at that room. *)
Lemma split_room {A} (R : list A) n :
  n <= zlen R -> 0 <= n ->
  exists R1 R2, R = R1 ++ R2 /\ zlen R1 = n.
Proof.
  intros. exists (take (Z.to_nat n) R), (drop (Z.to_nat n) R).
  split; [by rewrite take_drop|zlia].
Qed.

(** A header was begun: 16 known bytes and 8 bytes to be filled in. *)
Lemma begin_command_spec b command :
  fits b 24 -> zlen command <= 12 ->
  exists b' junk, ntb_proto_begin_command b command = Ok b' /\ buf_wf b' /\
    buf_length b' = buf_length b + 24 /\ zlen junk = 8 /\
    cells b' = cells b ++ (Some <$> (ntb_proto_magic ++ padded_command command)) ++ junk.
Proof.
  intros [Hwf Hf] Hc. unfold ntb_proto_begin_command, NTB_PROTO_HEADER_SIZE.
  pose proof (proj1 (proj2 Hwf)). zlen_pose. rewrite u64_small by lia.
  destruct (ensure_size_spec (E := unit) b (buf_length b + (4 + 12 + 4 + 4)))
    as (b1 & -> & Hwf1 & Hl1 & Hc1 & ? & ? & _); [done|lia|]. rewrite bind_ret_l.
  pose proof (zlen_cells b1 Hwf1) as Hz1. destruct Hwf1 as (Hd1 & ? & ?).
  set (T := drop (Z.to_nat (buf_length b1)) (buf_data b1)).
  assert (HT : buf_data b1 = cells b1 ++ T) by (unfold cells, T; by rewrite take_drop).
  assert (zlen T = buf_size b1 - buf_length b1) by (unfold T; zlia).
  destruct (split_room T 24) as (R & T' & HR & HzR); [lia..|].
  destruct (split_room R 4) as (R4 & R20 & -> & ?); [lia..|]. rewrite zlen_app in HzR.
  destruct (split_room R20 (zlen command)) as (Rc & Rp & -> & ?); [lia..|]. rewrite zlen_app in HzR.
  destruct (split_room Rp (12 - zlen command)) as (Rz & junk & -> & ?); [lia..|].
  rewrite zlen_app in HzR. rewrite HR in HT. rewrite <- !app_assoc in HT.
  assert (Hm : zlen ntb_proto_magic = 4) by done.
  pose proof Hd1 as Hd1'. rewrite HT in Hd1'. zlen_simpl.
  rewrite (buf_write_mid b1 (cells b1) R4 (Rc ++ Rz ++ junk ++ T') ntb_proto_magic)
    by (done || lia). rewrite bind_ret_l. cbn [buf_length buf_size].
  rewrite (buf_write_mid (Buf _ _ _) (cells b1 ++ (Some <$> ntb_proto_magic)) Rc
             (Rz ++ junk ++ T') command)
    by (cbn [buf_data]; rewrite ?app_assoc; zlen_simpl; (done || lia)).
  rewrite bind_ret_l. cbn [buf_length buf_size].
  unfold c_assert. destruct (Z.leb_spec (zlen command) 12); [|lia]. rewrite bind_ret_l.
  rewrite (buf_write_mid (Buf _ _ _)
    (cells b1 ++ (Some <$> ntb_proto_magic) ++ (Some <$> command)) Rz (junk ++ T'))
    by (cbn [buf_data]; rewrite ?app_assoc; zlen_simpl; (done || lia)).
  rewrite bind_ret_l. eexists _, junk. split; [reflexivity|].
  unfold padded_command. rewrite !fmap_app. unfold add_length, buf_wf.
  cbn [buf_data buf_length buf_size]. rewrite u64_small, cells_Buf by lia.
  split_and!; try (zlen_simpl; lia). rewrite Hc1, !app_assoc. apply take_app_length'.
  apply Nat2Z.inj. rewrite <- Hc1.
  match goal with |- _ = Z.of_nat (length ?l) => change (Z.of_nat (length l)) with (zlen l) end.
  zlen_simpl. lia.
Qed.

Section frames.
Context `{Digests}.

(** The bytes of a complete command on the wire. *)
Definition frame (command payload : list Z) : list Z :=
  ntb_proto_magic ++ padded_command command ++ be_split 4 (zlen payload) ++
  take 4 (SHA512 payload) ++ payload.

Context `{!DigestLaws}.

Lemma zlen_padded_command command : zlen command <= 12 -> zlen (padded_command command) = 12.
Proof. intros. unfold padded_command. zlen_simpl. zlen_pose. lia. Qed.

Lemma zlen_checksum payload : zlen (take 4 (SHA512 payload)) = 4.
Proof. unfold zlen. rewrite length_take, SHA512_length. done. Qed.

(** Filling in the length and the checksum. *)
Lemma end_command_spec b c0 h16 junk payload :
  buf_wf b -> cells b = c0 ++ (Some <$> h16) ++ junk ++ (Some <$> payload) ->
  zlen h16 = 16 -> zlen junk = 8 -> zlen payload < 2 ^ 32 ->
  exists b', ntb_proto_end_command b (zlen c0) = Ok b' /\ buf_wf b' /\
    buf_length b' = buf_length b /\
    cells b' = c0 ++ (Some <$> (h16 ++ be_split 4 (zlen payload) ++
                                take 4 (SHA512 payload) ++ payload)).
Proof.
  intros Hwf Hc Hh Hj Hp. pose proof (zlen_cells b Hwf) as Hz.
  destruct (split_room junk 4) as (j4 & k4 & -> & Hj4); [lia..|].
  rewrite Hc in Hz. rewrite <- (app_assoc j4) in Hc. zlen_simpl. zlen_pose.
  set (T := drop (Z.to_nat (buf_length b)) (buf_data b)).
  assert (HT : buf_data b = cells b ++ T) by (unfold cells, T; by rewrite take_drop).
  rewrite Hc in HT. pose proof Hwf as (Hd & ? & ?).
  pose proof Hd as Hd'. rewrite HT in Hd'. zlen_simpl.
  unfold ntb_proto_end_command, NTB_PROTO_HEADER_SIZE.
  rewrite u32_small by lia. rewrite uint32_store_to_be by lia.
  replace (buf_length b - zlen c0 - (4 + 12 + 4 + 4)) with (zlen payload) by lia.
  rewrite (buf_write_mid b (c0 ++ (Some <$> h16)) j4 (k4 ++ (Some <$> payload) ++ T))
    by (rewrite ?HT, ?app_assoc; zlen_simpl; (done || lia)). rewrite bind_ret_l.
  rewrite (buf_read_mid (Buf _ _ _)
    (c0 ++ (Some <$> h16) ++ (Some <$> be_split 4 (zlen payload)) ++ k4) payload T)
    by (cbn [buf_data]; rewrite ?app_assoc; zlen_simpl; (done || lia)).
  rewrite bind_ret_l.
  rewrite (buf_write_mid (Buf _ _ _)
    (c0 ++ (Some <$> h16) ++ (Some <$> be_split 4 (zlen payload))) k4 ((Some <$> payload) ++ T))
    by (cbn [buf_data]; rewrite ?zlen_checksum, ?app_assoc; zlen_simpl; (done || lia)).
  eexists. split; [reflexivity|]. pose proof (zlen_checksum payload) as Hck.
  unfold buf_wf. cbn [buf_data buf_length buf_size]. rewrite cells_Buf.
  assert (Hck' : Z.min (Z.of_nat 4) (zlen (SHA512 payload)) = 4) by (rewrite <- zlen_take; done).
  split_and!; try lia; try (zlen_simpl; lia).
  rewrite !fmap_app, !app_assoc. apply take_app_length'. apply Nat2Z.inj.
  match goal with |- _ = Z.of_nat (length ?l) => change (Z.of_nat (length l)) with (zlen l) end.
  zlen_simpl. lia.
Qed.

(** A command is appended to the buffer as one complete frame. *)
Lemma add_command_frame now b command l vs :
  args_ok now l vs -> zlen command <= 12 ->
  fits b (zlen (enc_arguments now l vs) + 33) -> zlen (enc_arguments now l vs) < 2 ^ 32 ->
  appends b (ntb_proto_add_command now b command l vs)
    (frame command (enc_arguments now l vs)).
Proof.
  intros Hok Hc [Hwf Hf] Hp. zlen_pose. unfold ntb_proto_add_command.
  destruct (begin_command_spec b command) as (b1 & junk & -> & Hwf1 & Hl1 & Hj & Hc1);
    [by split; [|lia]|done|]. rewrite bind_ret_l.
  destruct (appends_add_arguments now b1 l vs) as (b2 & -> & Hwf2 & Hl2 & Hc2);
    [done|split; [done|lia]|]. rewrite bind_ret_l.
  rewrite <- (zlen_cells b Hwf).
  destruct (end_command_spec b2 (cells b) (ntb_proto_magic ++ padded_command command)
              junk (enc_arguments now l vs)) as (b3 & -> & ? & Hl3 & Hc3);
    [done|by rewrite Hc2, Hc1, <- !app_assoc| |done|done|].
  { rewrite zlen_app, zlen_padded_command; done. }
  unfold frame. exists b3. split_and!; [done..| |by rewrite Hc3, <- !app_assoc].
  rewrite Hl3, Hl2, Hl1, !zlen_app, zlen_padded_command, zlen_checksum, zlen_be_split by done.
  change (zlen ntb_proto_magic) with 4. lia.
Qed.
End frames.

(** ** Message structures *)

(** [c] was reached from [c0] by moving forward, and is good. *)
Definition reached (c0 c : cursor) : Prop := cur_ok c /\ moved c0 c.

Lemma reached_refl c : cur_ok c -> reached c c.
Proof. intros Hc. split; [done|]. apply moved_refl. apply Hc. Qed.

Lemma reached_advance c0 c n : reached c0 c -> 0 <= n <= snd c -> reached c0 (advance c n).
Proof.
  intros [Hc Hm] Hn. pose proof (advance_moved c n Hc Hn) as Hm'.
  split; [by eapply cur_ok_moved|by eapply moved_trans].
Qed.

(** Case analysis on one header read from a reached cursor. *)
Lemma command_cases {l c0 p len} (P : result unit (args_ty l * Z) -> Prop) :
  reached c0 (p, len) ->
  (forall vs n, args_range l vs -> 0 <= n <= len ->
     reached c0 (advance (p, len) n) -> P (Ok (vs, n))) ->
  P (Err tt) -> P (ntb_proto_get_command l p len).
Proof.
  intros Hr Hok Herr. pose proof (get_command_safe l p len (proj1 Hr)) as Hs.
  destruct (ntb_proto_get_command l p len) as [[vs n]|[]| |]; try done.
  destruct Hs. apply Hok; [done..|]. by apply reached_advance.
Qed.

Lemma var_int_cases {c0 c} (P : result unit (Z * cursor) -> Prop) :
  reached c0 c ->
  (forall v c', 0 <= v < 2 ^ 64 -> reached c0 c' -> snd c' < snd c -> P (Ok (v, c'))) ->
  P (Err tt) -> P (ntb_proto_get_var_int c).
Proof.
  intros [Hc Hm] Hok Herr. pose proof (get_var_int_safe c Hc) as Hs.
  destruct (ntb_proto_get_var_int c) as [[v c']|[]| |] eqn:Hg; try done.
  destruct Hs as [? Hm']. apply Hok; [done| |by eapply get_var_int_progress].
  split; [by eapply cur_ok_moved|by eapply moved_trans].
Qed.

(** The pointer and the length of a reached cursor determine each other. *)
Lemma reached_facts p0 len0 p len :
  cur_ok (p0, len0) -> reached (p0, len0) (p, len) ->
  p = drop (Z.to_nat (len0 - len)) p0 /\ 0 <= len <= len0 /\
  zlen p = zlen p0 - (len0 - len) /\ len < zlen p.
Proof.
  intros (? & ? & ?) [(? & ? & ?) (k & ? & [= -> ->])]. cbn [fst snd] in *.
  split; [f_equal; lia|]. zlia.
Qed.

Lemma advance_len c n : cur_ok c -> 0 <= n <= snd c -> snd (advance c n) = snd c - n.
Proof. intros (? & ? & ?) ?. unfold advance. simpl. apply u32_small. lia. Qed.

(** Continue behind the [n] bytes of a reached cursor that were just checked. *)
Ltac step_advance c0 p len :=
  match goal with
  | |- context [advance ?c ?n] =>
      let H := fresh "Hreach" in
      assert (reached c0 (advance c n)) as H
        by (first [assumption | apply reached_advance; [assumption|cbn [snd]; lia]]);
      try (let L := fresh "Hlen" in
           assert (snd (advance c n) = snd c - n) as L
             by (apply advance_len; [match goal with R : reached _ c |- _ => apply R end
                                    |cbn [snd]; lia]);
           cbn [snd] in L);
      destruct (advance c n) as [p len]; cbn [snd] in *
  end.

(** Where the parts of a decrypted message lie. *)
Definition decrypted_msg_ok (data : ptr) (data_length : Z) (m : ntb_proto_decrypted_msg) : Prop :=
  128 <= zlen (dm_sender_signing_key m) /\
  64 <= zlen (dm_sender_encryption_key m) /\
  20 <= zlen (dm_destination_ripe m) /\
  0 <= dm_message_length m <= zlen (dm_message m) /\
  0 <= dm_ack_length m <= zlen (dm_ack m) /\
  dm_sig m = drop (Z.to_nat (data_length - dm_sig_length m)) data /\
  0 <= dm_signed_data_length m < data_length - dm_sig_length m /\
  0 <= dm_sig_length m.

Lemma decrypted_msg_safe data data_length :
  cur_ok (data, data_length) ->
  match ntb_proto_get_decrypted_msg data data_length with
  | Ok m => decrypted_msg_ok data data_length m
  | Err _ => True
  | UB | OutOfFuel => False
  end.
Proof.
  intros Hc. pose proof (reached_refl _ Hc) as Hr0. set (c0 := (data, data_length)) in *.
  pose proof (reached_facts data data_length) as Hfacts.
  unfold ntb_proto_get_decrypted_msg, NTB_ECC_PUBLIC_KEY_SIZE.
  apply (command_cases (c0 := c0)); [done| |done].
  intros (mv & av & sn & bh & []) n1 _ _ Hr1. rewrite bind_ret_l.
  step_advance c0 p1 l1. case_bool; [done|]. step_advance c0 p2 l2.
  set (mid := if 3 <=? av then _ else _).
  assert (Hmid : match mid with Ok (_, _, c3) => reached c0 c3 | Err _ => True | _ => False end).
  { unfold mid. case_bool; [|done].
    apply (command_cases (c0 := c0)); [done| |done]. intros (? & ? & []) ? _ _ ?. done. }
  destruct mid as [[[nt eb] [p3 l3]]| | |]; try done. rewrite bind_ret_l.
  change (Z.of_nat RIPEMD160_DIGEST_LENGTH) with 20.
  case_bool; [done|]. step_advance c0 p4 l4.
  apply (command_cases (c0 := c0)); [done| |done].
  intros (enc & ml & []) n5 (_ & Hml & _) _ Hr5. cbn in Hml. rewrite bind_ret_l.
  step_advance c0 p5 l5. case_bool; [done|]. step_advance c0 p6 l6.
  apply (var_int_cases (c0 := c0)); [done| |done].
  intros al [p7 l7] Hal Hr7 _. rewrite bind_ret_l. case_bool; [done|]. step_advance c0 p8 l8.
  apply (var_int_cases (c0 := c0)); [done| |done].
  intros sl [p9 l9] Hsl Hr9 Hlt. rewrite bind_ret_l. cbn [snd] in Hlt.
  destruct (Z.eqb_spec l9 sl) as [->|]; [|done]. cbn [negb].
  repeat match goal with H : reached c0 _ |- _ => apply (Hfacts _ _ Hc) in H as (? & ? & ? & ?) end.
  unfold decrypted_msg_ok; cbn. split_and!; try done; try lia. zlen_simpl. lia.
Qed.

(** Every pointer that is set points at enough data, the signature is the tail of
    the message and the signed data precedes it. *)
Definition pubkey_ok (decrypted : bool) (data : ptr) (len : Z) (pk : ntb_proto_pubkey) : Prop :=
  (pk_version pk = 2 \/ pk_version pk = 3 \/ pk_version pk = 4) /\
  (forall k, pk_public_signing_key pk = Some k -> 128 <= zlen k) /\
  (forall k, pk_public_encryption_key pk = Some k -> 64 <= zlen k) /\
  (forall s, pk_signature pk = Some s ->
     s = drop (Z.to_nat (len - pk_signature_length pk)) data /\
     pk_signed_data pk = Some (drop 8 data) /\
     0 <= pk_signed_data_length pk < len - 8 - pk_signature_length pk /\
     0 <= pk_signature_length pk) /\
  (forall t, pk_tag pk = Some t -> 32 <= zlen t) /\
  (forall e, pk_encrypted_data pk = Some e -> 0 <= pk_encrypted_data_length pk <= zlen e) /\
  (* an undecrypted version 4 key has a tag, every other one has its keys *)
  (if (pk_version pk =? 4) && negb decrypted then is_Some (pk_tag pk)
   else is_Some (pk_public_signing_key pk) /\ is_Some (pk_public_encryption_key pk)).

Definition pubkey_result_ok decrypted data len (r : result unit ntb_proto_pubkey) : Prop :=
  match r with
  | Ok pk => pubkey_ok decrypted data len pk
  | Err _ => True
  | UB | OutOfFuel => False
  end.

Section pubkey.
Variables (data0 : ptr) (len0 : Z).
Hypothesis Hc0 : cur_ok (data0, len0).

(** Close the parts of [pubkey_ok] that only speak of unset pointers. *)
Ltac unset := try solve [by left | by right; left | by right; right | discriminate | eauto].

Lemma v2_parts_safe dec p len nonce ts stream :
  reached (data0, len0) (p, len) ->
  pubkey_result_ok dec data0 len0
    (process_v2_pubkey_parts p len (pubkey_header nonce ts 2 stream)).
Proof.
  intros Hr. unfold process_v2_pubkey_parts. case_bool; [done|].
  pose proof (reached_facts _ _ _ _ Hc0 Hr) as (_ & ? & ? & ?).
  destruct (get_32_range p) as (v & -> & _); [lia|apply Hr|]. rewrite bind_ret_l.
  unfold pubkey_result_ok, pubkey_ok. cbn. split_and!; unset; intros k [= <-]; zlia.
Qed.

Lemma v3_parts_safe dec p len nonce ts version stream :
  reached (data0, len0) (p, len) -> version = 3 \/ version = 4 /\ dec = true ->
  pubkey_result_ok dec data0 len0
    (process_v3_pubkey_parts p len (drop 8 data0) (pubkey_header nonce ts version stream)).
Proof.
  intros Hr Hv. unfold process_v3_pubkey_parts. case_bool; [done|].
  destruct (reached_facts _ _ _ _ Hc0 Hr) as (_ & ? & ? & ?).
  destruct (get_32_range p) as (bh & -> & _); [lia|apply Hr|]. rewrite bind_ret_l.
  step_advance (data0, len0) p1 l1. apply (command_cases (c0 := (data0, len0))); [done| |done].
  intros (nt & eb & []) n2 _ Hn2 Hr2. rewrite bind_ret_l. step_advance (data0, len0) p2 l2.
  apply (var_int_cases (c0 := (data0, len0))); [done| |done].
  intros sl [p3 l3] Hsl Hr3 Hlt. rewrite bind_ret_l. cbn [snd] in Hlt.
  destruct (Z.eqb_spec l3 sl) as [->|]; [|done]. cbn [negb].
  repeat match goal with
  | H : reached _ _ |- _ => apply (reached_facts _ _ _ _ Hc0) in H as (? & ? & ? & ?)
  end.
  unfold pubkey_result_ok, pubkey_ok. cbn.
  split_and!; unset; try (intros k [= <-]; zlia).
  - tauto.
  - intros s [= <-]. split_and!; [done..| | |lia]; zlen_simpl; lia.
  - destruct Hv as [->|[-> ->]]; simpl; unset.
Qed.

Lemma v4_parts_safe p len nonce ts stream :
  reached (data0, len0) (p, len) ->
  pubkey_result_ok false data0 len0
    (process_v4_pubkey_parts p len (pubkey_header nonce ts 4 stream)).
Proof.
  intros Hr. unfold process_v4_pubkey_parts. case_bool; [done|].
  pose proof (reached_facts _ _ _ _ Hc0 Hr) as (_ & ? & ? & ?).
  unfold pubkey_result_ok, pubkey_ok. cbn.
  split_and!; unset; intros k [= <-]; zlia.
Qed.

Lemma pubkey_safe decrypted :
  pubkey_result_ok decrypted data0 len0 (ntb_proto_get_pubkey decrypted data0 len0).
Proof.
  unfold ntb_proto_get_pubkey.
  apply (command_cases (c0 := (data0, len0))); [by apply reached_refl| |done].
  intros (nonce & ts & version & stream & []) n _ _ Hr. rewrite bind_ret_l.
  destruct (advance (data0, len0) n) as [p len].
  destruct (Z.eqb_spec version 2) as [->|]; [by apply v2_parts_safe|].
  destruct (Z.eqb_spec version 4) as [->|]; destruct decrypted; simpl;
    try (apply v3_parts_safe; [done|tauto]); try by apply v4_parts_safe.
  all: destruct (Z.eqb_spec version 3) as [->|]; [|done];
    apply v3_parts_safe; [done|tauto].
Qed.
End pubkey.

(** ** Properties *)

(** On data that has at least one readable byte behind its claimed length,
    reading any list of typed arguments never reads outside the object: it
    reports an error, or returns a value of the declared range for every
    argument together with a byte count within the claimed length. *)
Theorem proto_get_command_safe l p len :
  0 <= len < 2 ^ 32 -> len < zlen p -> bytes p ->
  match ntb_proto_get_command l p len with
  | Ok (vs, n) => args_range l vs /\ 0 <= n <= len
  | Err _ => True
  | UB | OutOfFuel => False
  end.
Proof. intros. by apply get_command_safe. Qed.

Lemma proto_get_command_safe_witness :
  match ntb_proto_get_command [NTB_PROTO_ARGUMENT_VAR_INT; NTB_PROTO_ARGUMENT_VAR_STR]
          [0xfd; 1; 0; 2; 65; 66; 0] 6 with
  | Ok (vs, n) => args_range _ vs /\ 0 <= n <= 6
  | Err _ => True
  | UB | OutOfFuel => False
  end.
Proof.
  apply proto_get_command_safe; [lia|vm_compute; reflexivity|].
  apply (bool_decide_unpack _). vm_compute. exact I.
Defined.

(** The slack byte is needed. After any sequence of encoded integers, asking
    for one more integer when the claimed length and the object are both used up
    reads the byte behind the object before it looks at the length. *)
Theorem proto_get_var_int_reads_past_end vs :
  Forall (fun v => 0 <= v < 2 ^ 64) vs ->
  zlen (mjoin (enc_var_int <$> vs)) < 2 ^ 31 ->
  ntb_proto_get_command (replicate (S (length vs)) NTB_PROTO_ARGUMENT_VAR_INT)
    (mjoin (enc_var_int <$> vs)) (zlen (mjoin (enc_var_int <$> vs))) = UB.
Proof.
  intros Hvs Hl. unfold ntb_proto_get_command.
  enough (get_arguments (replicate (S (length vs)) NTB_PROTO_ARGUMENT_VAR_INT)
    (mjoin (enc_var_int <$> vs), zlen (mjoin (enc_var_int <$> vs))) = UB) as -> by done.
  induction Hvs as [|v vs Hv _ IH]; [done|]. csimpl in *. rewrite zlen_app in *. zlen_pose.
  cbn [get_argument] in *.
  rewrite var_int_roundtrip, bind_ret_l by (done || lia).
  replace (zlen (enc_var_int v) + _ - _) with (zlen (mjoin (enc_var_int <$> vs))) by lia.
  rewrite IH by lia. done.
Qed.

Lemma proto_get_var_int_reads_past_end_witness :
  ntb_proto_get_command [NTB_PROTO_ARGUMENT_VAR_INT; NTB_PROTO_ARGUMENT_VAR_INT]
    [0xfd; 1; 0] 3 = UB.
Proof.
  refine (proto_get_var_int_reads_past_end [256] _ _).
  - constructor; [lia|constructor].
  - vm_compute. reflexivity.
Defined.

(** C35: a command written with [ntb_proto_add_command] is appended to the buffer
    as one frame (magic, zero-padded name, big-endian payload length, first four
    bytes of the SHA-512 of the payload, payload), and reading the payload of
    that frame with the same argument list returns every value that was written
    and consumes exactly the payload, whatever follows it. The integers are in the
    range of their type, and the strings are shorter than 253 bytes: the length of
    a longer one does not fit the byte it is written in. *)
Theorem proto_command_roundtrip `{DigestLaws} now b command l vs q :
  args_ok now l vs -> zlen command <= 12 -> buf_wf b ->
  buf_length b + zlen (enc_arguments now l vs) < 2 ^ 31 ->
  exists b' payload, ntb_proto_add_command now b command l vs = Ok b' /\ buf_wf b' /\
    cells b' = cells b ++ (Some <$> frame command payload) /\
    ntb_proto_get_command l (payload ++ q) (zlen payload)
    = Ok (args_out now l q vs, zlen payload).
Proof.
  intros Hok Hc Hwf Hl. zlen_pose. pose proof (proj1 (proj2 Hwf)).
  destruct (add_command_frame now b command l vs) as (b' & ? & ? & _ & ?);
    [done..|split; [done|lia]|lia|].
  exists b', (enc_arguments now l vs). split_and!; [done..|].
  apply command_roundtrip; [done|lia].
Qed.

(** A version-like argument list and values for it. *)
Definition example_args : list ntb_proto_argument :=
  [NTB_PROTO_ARGUMENT_32; NTB_PROTO_ARGUMENT_TIMESTAMP; NTB_PROTO_ARGUMENT_NETADDRESS;
   NTB_PROTO_ARGUMENT_VAR_STR; NTB_PROTO_ARGUMENT_VAR_INT].
Definition example_values : args_in_ty example_args :=
  (2, (tt, (NetAddr (ipv4_magic ++ [5; 45; 99; 75]) 8444,
   (str_bytes "/notbit:0.1/", (70000, tt))))).

Lemma proto_command_roundtrip_witness :
  exists b' payload,
    ntb_proto_add_command (H := Digests_toy) 1400000000 ntb_buffer_init
      (str_bytes "version") example_args example_values = Ok b' /\ buf_wf b' /\
    cells b' = [] ++ (Some <$> frame (H := Digests_toy) (str_bytes "version") payload) /\
    ntb_proto_get_command example_args (payload ++ []) (zlen payload)
    = Ok (args_out 1400000000 example_args [] example_values, zlen payload).
Proof.
  apply (proto_command_roundtrip (H0 := DigestLaws_toy) 1400000000 ntb_buffer_init).
  - apply (bool_decide_unpack _). vm_compute. exact I.
  - vm_compute. congruence.
  - apply (bool_decide_unpack _). vm_compute. exact I.
  - vm_compute. reflexivity.
Defined.

(** A decrypted message is parsed without reading outside the data; when it
    is accepted, both keys, the ripe, the message and the acknowledgement lie
    inside the data for their stated lengths, the signature is exactly the tail
    of the data and the signed part ends before it. *)
Theorem proto_decrypted_msg_safe data data_length :
  0 <= data_length < 2 ^ 32 -> data_length < zlen data -> bytes data ->
  match ntb_proto_get_decrypted_msg data data_length with
  | Ok m => decrypted_msg_ok data data_length m
  | Err _ => True
  | UB | OutOfFuel => False
  end.
Proof. intros. by apply decrypted_msg_safe. Qed.

(** A version 4 message with an empty body, no acknowledgement and a one-byte
    signature; the last byte is the slack. *)
Definition small_msg : list Z :=
  [1; 4; 1; 0; 0; 0; 1] ++ replicate 128 7 ++ [1; 1] ++ replicate 20 9 ++
  [1; 0; 0; 1; 77] ++ [0].

Lemma proto_decrypted_msg_safe_witness :
  exists m, ntb_proto_get_decrypted_msg small_msg 162 = Ok m /\
    dm_sig_length m = 1 /\ decrypted_msg_ok small_msg 162 m.
Proof.
  eexists. split; [vm_compute; reflexivity|]. split; [reflexivity|].
  refine (proto_decrypted_msg_safe small_msg 162 _ _ _).
  - lia.
  - vm_compute. reflexivity.
  - apply (bool_decide_unpack _). vm_compute. exact I.
Defined.

(** A public key object is parsed without reading outside the data whether or
    not it is taken as decrypted; only versions 2, 3 and 4 are accepted, every
    pointer that is set has the bytes its field needs, an encrypted version 4
    key has its tag, every other accepted key has both public keys, and the
    signature of versions 3 and 4 is the tail behind the signed data. *)
Theorem proto_pubkey_safe decrypted data len :
  0 <= len < 2 ^ 32 -> len < zlen data -> bytes data ->
  pubkey_result_ok decrypted data len (ntb_proto_get_pubkey decrypted data len).
Proof. intros. by apply pubkey_safe. Qed.

Definition small_pubkey : list Z :=
  replicate 8 1 ++ [0; 0; 0; 0; 83; 0; 0; 1] ++ [3; 1] ++ [0; 0; 0; 1] ++
  replicate 128 5 ++ [0xfd; 1; 64; 10] ++ [2; 8; 9] ++ [0].

Lemma proto_pubkey_safe_witness :
  exists pk, ntb_proto_get_pubkey false small_pubkey 157 = Ok pk /\
    pk_signature_length pk = 2 /\ pubkey_result_ok false small_pubkey 157 (Ok pk).
Proof.
  eexists. split; [vm_compute; reflexivity|]. split; [reflexivity|].
  refine (proto_pubkey_safe false small_pubkey 157 _ _ _).
  - lia.
  - vm_compute. reflexivity.
  - apply (bool_decide_unpack _). vm_compute. exact I.
Defined.
