(* ===== verification/NetText.v ===== *)
(** * NetText: the textual form of network addresses (ntb-netaddress.c)

    A C string is the bytes from its pointer to the end of the object, the
    terminator included. The conversions of the system, [inet_pton] and
    [inet_ntop], are the operations of a class; the laws are what their manual
    pages document. *)

From S2P Require Import Prelude Endian Buffer NetAddress OpenSSL Proto.

(** ** The address conversions of the C library *)

Class Inet := {
  (** [AF_INET] and [AF_INET6]: the bytes of a valid text, the text of the bytes *)
  inet_pton4 : list Z -> option (list Z);
  inet_pton6 : list Z -> option (list Z);
  inet_ntop4 : list Z -> list Z;
  inet_ntop6 : list Z -> list Z
}.

(** Decimal digits, most significant first. *)
Fixpoint dec_digits (fuel : nat) (n : Z) : list Z :=
  match fuel with
  | O => []
  | S fuel => if n <? 10 then [48 + n] else dec_digits fuel (n / 10) ++ [48 + n mod 10]
  end.
Definition dec (n : Z) : list Z := dec_digits 20 n.

(** Dotted decimal notation. *)
Definition dotted (a b c d : Z) : list Z := dec a ++ 46 :: dec b ++ 46 :: dec c ++ 46 :: dec d.

(** The characters of an IPv6 address: hexadecimal digits, colons and dots. *)
Definition inet6_char (c : Z) : bool :=
  ((48 <=? c) && (c <=? 57)) || ((97 <=? c) && (c <=? 102)) || (c =? 58) || (c =? 46).

Definition INET6_ADDRSTRLEN : Z := 46.

Class InetLaws `{Inet} : Prop := {
  inet_ntop4_dotted a b c d : bytes [a; b; c; d] -> inet_ntop4 [a; b; c; d] = dotted a b c d;
  inet_pton4_ntop4 l : length l = 4%nat -> bytes l -> inet_pton4 (inet_ntop4 l) = Some l;
  inet_pton4_size t l : inet_pton4 t = Some l -> length l = 4%nat /\ bytes l;
  inet_ntop6_chars l : length l = 16%nat -> bytes l -> Forall (fun c => inet6_char c = true) (inet_ntop6 l);
  inet_ntop6_size l : length l = 16%nat -> bytes l -> zlen (inet_ntop6 l) < INET6_ADDRSTRLEN;
  inet_pton6_ntop6 l : length l = 16%nat -> bytes l -> inet_pton6 (inet_ntop6 l) = Some l;
  inet_pton6_size t l : inet_pton6 t = Some l -> length l = 16%nat /\ bytes l
}.

(** ** String functions of the C library *)

(** [strchr(p, c)] as an offset *)
Fixpoint strchr_off (c : Z) (p : ptr) : result unit (option nat) :=
  match p with
  | [] => UB
  | b :: p =>
      if b =? c then Ok (Some O)
      else if b =? 0 then Ok None
      else r ← strchr_off c p; Ok (option_map S r)
  end.

Fixpoint strlen (p : ptr) : result unit nat :=
  match p with
  | [] => UB
  | b :: p => if b =? 0 then Ok O else n ← strlen p; Ok (S n)
  end.

(** The characters before the first terminator. *)
Fixpoint c_text (l : list Z) : list Z :=
  match l with
  | [] => []
  | b :: l => if b =? 0 then [] else b :: c_text l
  end.

Definition is_digit (c : Z) : bool := (48 <=? c) && (c <=? 57).
Definition is_space (c : Z) : bool := (c =? 32) || ((9 <=? c) && (c <=? 13)).

Fixpoint span_digits (acc : Z) (p : ptr) : result unit (Z * nat) :=
  match p with
  | [] => UB
  | c :: p =>
      if is_digit c then '(v, n) ← span_digits (acc * 10 + (c - 48)) p; Ok (v, S n)
      else Ok (acc, O)
  end.

Fixpoint span_spaces (p : ptr) : result unit nat :=
  match p with
  | [] => UB
  | c :: p => if is_space c then n ← span_spaces p; Ok (S n) else Ok O
  end.

(** [strtoul(p, &end, 10)]: the value, the offset of [end] and whether [errno] was
    set. Without a digit [end] is [p]. *)
Definition strtoul (p : ptr) : result unit (Z * nat * bool) :=
  spaces ← span_spaces p;
  c ← deref (drop spaces p);
  let sign := if (c =? 43) || (c =? 45) then 1%nat else 0%nat in
  '(v, digits) ← span_digits 0 (drop (spaces + sign) p);
  if bool_decide (digits = 0%nat) then Ok (0, 0%nat, false)
  else if 2 ^ 64 <=? v then Ok (2 ^ 64 - 1, (spaces + sign + digits)%nat, true)
  else Ok (if c =? 45 then u64 (- v) else v, (spaces + sign + digits)%nat, false).

(** ** Addresses as text *)

Section text.
Context `{Inet}.

(** [snprintf(buf + len, buffer_length - len, ":%u", port)] keeps what fits the
    buffer of 65 bytes with its terminator. *)
Definition ntb_netaddress_to_string (a : ntb_netaddress) : list Z :=
  let text :=
    if bytes_eqb (take 12 (na_host a)) ipv4_magic
    then inet_ntop4 (drop 12 (na_host a))
    else 91 :: inet_ntop6 (na_host a) ++ [93] in
  text ++ take (64 - length text) (58 :: dec (na_port a)).

(** [*addr_end] and what follows: the port, if there is one. *)
Definition port_from_string (addr_end : ptr) : result unit Z :=
  c ← deref addr_end;
  if c =? 58 then
    '(port, n, errno) ← strtoul (drop 1 addr_end);
    c ← deref (drop (1 + n) addr_end);
    if errno || (0xffff <? port) || bool_decide (n = 0%nat) || negb (c =? 0) then Err tt
    else Ok port
  else if negb (c =? 0) then Err tt
  else Ok NTB_PROTO_DEFAULT_PORT.

Definition ntb_netaddress_from_string (str : ptr) : result unit ntb_netaddress :=
  first ← deref str;
  '(host, addr_end) ←
    (if first =? 91 then
       r ← strchr_off 93 (drop 1 str);
       match r with
       | None => Err tt
       | Some n =>
           buffer ← read_bytes n (drop 1 str);
           match inet_pton6 (c_text buffer) with
           | None => Err tt
           | Some host => Ok (host, drop (2 + n) str)
           end
       end
     else
       r ← strchr_off 58 (drop 1 str);
       n ← match r with Some n => Ok (S n) | None => strlen str end;
       buffer ← read_bytes n str;
       match inet_pton4 (c_text buffer) with
       | None => Err tt
       | Some host => Ok (ipv4_magic ++ host, drop n str)
       end);
  port ← port_from_string addr_end;
  Ok (NetAddr host port).
End text.

(** ** Decimal numbers *)

Lemma span_digits_dec f n acc rest :
  0 <= n < 10 ^ Z.of_nat f ->
  span_digits acc (dec_digits f n ++ rest) =
  '(v, k) ← span_digits (acc * 10 ^ zlen (dec_digits f n) + n) rest;
  Ok (v, (length (dec_digits f n) + k)%nat).
Proof.
  revert n acc rest. induction f as [|f IH]; intros n acc rest Hn.
  { cbn [dec_digits app]. rewrite zlen_nil. replace (acc * 10 ^ 0 + n) with acc by lia.
    by destruct (span_digits acc rest) as [[v k]| | |]. }
  rewrite Nat2Z.inj_succ, Z.pow_succ_r in Hn by lia. cbn [dec_digits].
  destruct (Z.ltb_spec n 10) as [Hlt|Hge].
  - cbn [app span_digits length]. unfold is_digit.
    rewrite (proj2 (Z.leb_le _ _)), (proj2 (Z.leb_le _ _)) by lia. cbn [andb].
    rewrite zlen_cons, zlen_nil. replace (acc * 10 + (48 + n - 48)) with (acc * 10 ^ (1 + 0) + n) by lia.
    done.
  - rewrite <- app_assoc. rewrite IH by dlia. cbn [app span_digits].
    pose proof (Z.mod_pos_bound n 10). unfold is_digit.
    rewrite (proj2 (Z.leb_le _ _)), (proj2 (Z.leb_le _ _)) by lia. cbn [andb].
    rewrite zlen_app, zlen_cons, zlen_nil, Z.pow_add_r by (try apply zlen_nonneg; lia).
    match goal with |- context [span_digits ?a rest] => match goal with |- _ = mbind _ (span_digits ?b rest) =>
      replace a with b by (pose proof (Z.div_mod n 10); nia) end end.
    destruct (span_digits _ rest) as [[v k]| | |]; [|done..].
    rewrite !bind_ret_l, length_app. cbn [length]. do 2 f_equal. lia.
Qed.

Lemma dec_digits_chars f n : 0 <= n -> Forall (fun c => is_digit c = true) (dec_digits f n).
Proof.
  revert n. induction f as [|f IH]; intros n Hn; [constructor|]. cbn [dec_digits].
  destruct (Z.ltb_spec n 10).
  - constructor; [|constructor]. unfold is_digit. by rewrite !(proj2 (Z.leb_le _ _)) by lia.
  - apply Forall_app. split; [apply IH; apply Z.div_pos; lia|].
    constructor; [|constructor]. unfold is_digit. pose proof (Z.mod_pos_bound n 10).
    by rewrite !(proj2 (Z.leb_le _ _)) by lia.
Qed.

Lemma dec_chars n : 0 <= n -> Forall (fun c => is_digit c = true) (dec n).
Proof. apply dec_digits_chars. Qed.

Lemma dec_digits_length f n k :
  0 <= n < 10 ^ Z.of_nat k -> (1 <= k)%nat -> (length (dec_digits f n) <= k)%nat.
Proof.
  revert n k. induction f as [|f IH]; intros n k Hn Hk; cbn [dec_digits]; [cbn [length]; lia|].
  destruct (Z.ltb_spec n 10); [cbn [length]; lia|].
  destruct k as [|[|k]]; [lia|simpl in Hn; lia|]. rewrite length_app. cbn [length].
  rewrite Nat2Z.inj_succ, Z.pow_succ_r in Hn by lia.
  specialize (IH (n / 10) (S k) ltac:(dlia) ltac:(lia)). lia.
Qed.

Lemma dec_nonempty n : exists c l, dec n = c :: l.
Proof.
  unfold dec. cbn [dec_digits]. destruct (n <? 10); [eauto|].
  destruct (if _ <? _ then _ else _); simpl; eauto.
Qed.

Lemma strtoul_dec n e q :
  0 <= n < 2 ^ 64 -> is_digit e = false -> strtoul (dec n ++ e :: q) = Ok (n, length (dec n), false).
Proof.
  intros Hn He. unfold strtoul. pose proof (dec_chars n ltac:(lia)) as Hc.
  pose proof (span_digits_dec 20 n 0 (e :: q) ltac:(lia)) as Hs. fold (dec n) in Hs.
  destruct (dec_nonempty n) as (c & l & E). rewrite E in *. apply Forall_cons_1 in Hc as [Hc _].
  assert (Hr : 48 <= c <= 57) by (unfold is_digit in Hc; lia).
  cbn [app span_spaces]. unfold is_space.
  rewrite (proj2 (Z.eqb_neq c 32)), (proj2 (Z.leb_gt c 13)), andb_false_r by lia. cbn [orb].
  rewrite bind_ret_l. cbn [drop deref]. rewrite bind_ret_l.
  rewrite (proj2 (Z.eqb_neq c 43)), (proj2 (Z.eqb_neq c 45)) by lia. cbn [orb Nat.add].
  rewrite ?drop_0. cbn [app] in Hs. rewrite Hs. cbn [span_digits].
  rewrite He, !bind_ret_l.
  rewrite Nat.add_0_r, bool_decide_eq_false_2 by done.
  rewrite Z.mul_0_l, Z.add_0_l, (proj2 (Z.leb_gt _ n)) by lia. done.
Qed.

(** ** Searching a string *)

Lemma strchr_off_app c t q :
  c ∉ t -> 0 ∉ t -> strchr_off c (t ++ c :: q) = Ok (Some (length t)).
Proof.
  induction t as [|b t IH]; intros Hc H0; cbn [app strchr_off].
  - by rewrite Z.eqb_refl.
  - apply not_elem_of_cons in Hc as [? ?]. apply not_elem_of_cons in H0 as [? ?].
    rewrite (proj2 (Z.eqb_neq b c)), (proj2 (Z.eqb_neq b 0)) by done. by rewrite IH.
Qed.

Lemma c_text_id t : 0 ∉ t -> c_text t = t.
Proof.
  induction t as [|b t IH]; [done|]. intros [? ?]%not_elem_of_cons. cbn [c_text].
  rewrite (proj2 (Z.eqb_neq b 0)) by done. by rewrite IH.
Qed.

(** Positions inside a string leave its terminator ahead. *)
Lemma strchr_off_spec c p :
  0 ∈ p -> c <> 0 ->
  match strchr_off c p with
  | Ok (Some n) => (n < length p)%nat /\ 0 ∈ drop (S n) p
  | Ok None => True
  | Err _ | UB | OutOfFuel => False
  end.
Proof.
  intros Hp Hc. induction p as [|b p IH]; [by apply elem_of_nil in Hp|]. cbn [strchr_off].
  destruct (Z.eqb_spec b c) as [->|Hbc].
  - apply elem_of_cons in Hp as [?|Hp]; [by subst c|]. cbn [length drop]. rewrite ?drop_0. split; [lia|done].
  - destruct (Z.eqb_spec b 0) as [->|Hb0]; [done|].
    apply elem_of_cons in Hp as [?|Hp]; [by subst b|]. specialize (IH Hp).
    destruct (strchr_off c p) as [[n|]| | |]; try done. cbn [option_map drop length]. cbn.
    destruct IH. split; [lia|done].
Qed.

Lemma strlen_spec p : 0 ∈ p -> exists n q, strlen p = Ok n /\ drop n p = 0 :: q /\ (n < length p)%nat.
Proof.
  intros Hp. induction p as [|b p IH]; [by apply elem_of_nil in Hp|]. cbn [strlen].
  destruct (Z.eqb_spec b 0) as [->|Hb0]; [exists 0%nat, p; cbn [length]; split_and!; [done|done|lia]|].
  apply elem_of_cons in Hp as [?|Hp]; [by subst b|].
  destruct (IH Hp) as (n & q & -> & Hd & Hl). exists (S n), q. cbn [length]. split_and!; [done|done|lia].
Qed.

Lemma span_digits_spec acc p :
  0 ∈ p -> 0 <= acc ->
  exists v n, span_digits acc p = Ok (v, n) /\ 0 <= v /\ 0 ∈ drop n p.
Proof.
  revert acc. induction p as [|c p IH]; intros acc Hp Ha; [by apply elem_of_nil in Hp|].
  cbn [span_digits]. destruct (is_digit c) eqn:E; [|by exists acc, 0%nat].
  unfold is_digit in E. apply elem_of_cons in Hp as [?|Hp]; [lia|].
  destruct (IH (acc * 10 + (c - 48)) Hp ltac:(lia)) as (v & n & -> & ? & ?). by exists v, (S n).
Qed.

Lemma span_spaces_spec p : 0 ∈ p -> exists n, span_spaces p = Ok n /\ 0 ∈ drop n p.
Proof.
  intros Hp. induction p as [|c p IH]; [by apply elem_of_nil in Hp|].
  cbn [span_spaces]. destruct (is_space c) eqn:E; [|by exists 0%nat].
  unfold is_space in E. apply elem_of_cons in Hp as [?|Hp]; [lia|].
  destruct (IH Hp) as (n & -> & ?). by exists (S n).
Qed.

Lemma strtoul_spec p :
  0 ∈ p -> exists v n e, strtoul p = Ok (v, n, e) /\ 0 <= v /\ 0 ∈ drop n p.
Proof.
  intros Hp. unfold strtoul. destruct (span_spaces_spec p Hp) as (k & -> & Hk). rewrite bind_ret_l.
  destruct (drop k p) as [|c q] eqn:E; [by apply elem_of_nil in Hk|]. cbn [deref]. rewrite bind_ret_l.
  set (sign := if (c =? 43) || (c =? 45) then 1%nat else 0%nat).
  assert (Hs : 0 ∈ drop (k + sign) p).
  { rewrite <- drop_drop, E. unfold sign. destruct (Z.eqb_spec c 43), (Z.eqb_spec c 45); cbn [orb drop];
      rewrite ?drop_0; try done; (apply elem_of_cons in Hk as [?|?]; [lia|done]). }
  destruct (span_digits_spec 0 _ Hs ltac:(lia)) as (v & n & -> & Hv & Hn). rewrite bind_ret_l.
  rewrite drop_drop in Hn. case_bool_decide; [by exists 0, 0%nat, false|].
  destruct (2 ^ 64 <=? v); [by eexists _, _, _; split_and!; [reflexivity|lia|]|].
  eexists _, _, _. split_and!; [reflexivity| |done].
  destruct (c =? 45); [apply u64_range|done].
Qed.

Lemma elem_of_drop_cons (x : Z) n l : x ∈ drop n l -> exists c q, drop n l = c :: q.
Proof. destruct (drop n l); [by intros ?%elem_of_nil|eauto]. Qed.

Lemma port_from_string_spec p :
  0 ∈ p ->
  match port_from_string p with
  | Ok port => 0 <= port < 2 ^ 16
  | Err _ => True
  | UB | OutOfFuel => False
  end.
Proof.
  intros Hp. unfold port_from_string.
  destruct p as [|c p]; [by apply elem_of_nil in Hp|]. cbn [deref]. rewrite bind_ret_l.
  destruct (Z.eqb_spec c 58) as [->|Hc].
  - cbn [drop Nat.add]. rewrite ?drop_0. apply elem_of_cons in Hp as [?|Hp]; [done|].
    destruct (strtoul_spec p Hp) as (v & n & e & -> & Hv & Hn). rewrite bind_ret_l.
    destruct (elem_of_drop_cons _ _ _ Hn) as (d & q & ->). cbn [deref]. rewrite bind_ret_l.
    destruct e; [done|]. destruct (Z.ltb_spec 0xffff v); [done|].
    destruct (bool_decide _); [done|]. destruct (negb _); [done|]. cbn [orb]. lia.
  - destruct (negb (c =? 0)); [done|]. vm_compute. split; congruence.
Qed.

(** ** Round trip and safety *)

Section laws.
Context `{InetLaws}.

Lemma inet_ntop4_chars l :
  length l = 4%nat -> bytes l -> Forall (fun c => is_digit c = true \/ c = 46) (inet_ntop4 l).
Proof.
  intros Hl Hb. destruct l as [|a [|b [|c [|d [|? ?]]]]]; try discriminate Hl.
  rewrite inet_ntop4_dotted by done. unfold dotted.
  unfold bytes in Hb. rewrite !Forall_cons in Hb. destruct Hb as ([? _] & [? _] & [? _] & [? _] & _).
  repeat first [apply Forall_app; split | apply Forall_cons; split]; try by right.
  all: (eapply Forall_impl; [by apply dec_chars|]; intros; by left).
Qed.

Lemma inet_ntop4_size l : length l = 4%nat -> bytes l -> (length (inet_ntop4 l) <= 15)%nat.
Proof.
  intros Hl Hb. destruct l as [|a [|b [|c [|d [|? ?]]]]]; try discriminate Hl.
  rewrite inet_ntop4_dotted by done. unfold dotted. rewrite !length_app. cbn [length].
  rewrite !length_app. cbn [length]. rewrite !length_app. cbn [length].
  unfold bytes, is_byte in Hb. rewrite !Forall_cons in Hb.
  assert (Hd : forall n, 0 <= n < 256 -> (length (dec n) <= 3)%nat).
  { intros n Hn. apply dec_digits_length; [simpl; lia|lia]. }
  destruct Hb as (Ha & Hb & Hc & Hd' & _). pose proof (Hd a Ha). pose proof (Hd b Hb).
  pose proof (Hd c Hc). pose proof (Hd d Hd'). lia.
Qed.

Lemma dec_port_length n : 0 <= n < 2 ^ 16 -> (length (dec n) <= 5)%nat.
Proof. intros. apply dec_digits_length; [simpl; lia|lia]. Qed.

Lemma not_in_Forall {A} (P : A -> Prop) x l : Forall P l -> ~ P x -> x ∉ l.
Proof. intros Hf Hx Hin. rewrite Forall_forall in Hf. by apply Hx, Hf. Qed.

Lemma port_from_string_dec n q :
  0 <= n < 2 ^ 16 -> port_from_string (58 :: dec n ++ 0 :: q) = Ok n.
Proof.
  intros Hn. unfold port_from_string. cbn [deref]. rewrite bind_ret_l. cbn [drop Nat.add]. rewrite ?drop_0.
  change (58 =? 58) with true. cbn iota. rewrite strtoul_dec, bind_ret_l by (done || lia).
  rewrite drop_app_length. cbn [deref]. rewrite bind_ret_l.
  destruct (dec_nonempty n) as (c & l & E). rewrite E, bool_decide_eq_false_2 by done.
  rewrite (proj2 (Z.ltb_ge _ _)) by lia. done.
Qed.

Lemma from_to_string a q :
  na_wf a -> ntb_netaddress_from_string (ntb_netaddress_to_string a ++ 0 :: q) = Ok a.
Proof.
  intros (Hl & Hb & Hp). unfold ntb_netaddress_to_string, ntb_netaddress_from_string.
  pose proof (dec_port_length _ Hp) as Hd.
  destruct (bytes_eqb (take 12 (na_host a)) ipv4_magic) eqn:E4.
  - apply bytes_eqb_true in E4.
    assert (Hl4 : length (drop 12 (na_host a)) = 4%nat) by (rewrite length_drop; lia).
    assert (Hb4 : bytes (drop 12 (na_host a))) by (by apply bytes_drop).
    pose proof (inet_ntop4_chars _ Hl4 Hb4) as Hc. pose proof (inet_ntop4_size _ Hl4 Hb4) as Hs.
    rewrite take_ge by (cbn [length]; lia).
    destruct (inet_ntop4 (drop 12 (na_host a))) as [|c t] eqn:Et.
    { exfalso. pose proof (inet_pton4_ntop4 _ Hl4 Hb4) as Hpt. revert Et.
      destruct (drop 12 (na_host a)) as [|x [|y [|z [|w [|? ?]]]]]; try discriminate Hl4.
      rewrite inet_ntop4_dotted by done. unfold dotted. by destruct (dec x). }
    assert (Hnc : 58 ∉ c :: t) by (apply (not_in_Forall _ _ _ Hc); intros [?|?]; done).
    assert (Hn0 : 0 ∉ c :: t) by (apply (not_in_Forall _ _ _ Hc); intros [?|?]; done).
    assert (Hn9 : c <> 91) by (apply Forall_cons_1 in Hc as [[?|?] _]; [|lia]; intros ->; done).
    rewrite <- app_assoc. cbn [app deref]. rewrite bind_ret_l.
    rewrite (proj2 (Z.eqb_neq c 91)) by done. cbn [drop]. rewrite ?drop_0.
    rewrite strchr_off_app by (apply not_elem_of_cons in Hnc, Hn0; tauto). rewrite !bind_ret_l.
    change (c :: t ++ 58 :: dec (na_port a) ++ 0 :: q) with ((c :: t) ++ 58 :: dec (na_port a) ++ 0 :: q).
    change (S (length t)) with (length (c :: t)).
    rewrite read_bytes_app, bind_ret_l, c_text_id, drop_app_length by done.
    rewrite <- Et, inet_pton4_ntop4 by done. rewrite bind_ret_l, port_from_string_dec, bind_ret_l by done.
    rewrite <- E4, take_drop. by destruct a.
  - pose proof (inet_ntop6_chars _ Hl Hb) as Hc. pose proof (inet_ntop6_size _ Hl Hb) as Hs.
    unfold INET6_ADDRSTRLEN, zlen in Hs.
    rewrite take_ge by (cbn [length]; rewrite length_app; cbn [length]; lia).
    set (t := inet_ntop6 (na_host a)) in *.
    assert (Hnc : 93 ∉ t) by (by apply (not_in_Forall _ _ _ Hc)).
    assert (Hn0 : 0 ∉ t) by (by apply (not_in_Forall _ _ _ Hc)).
    cbn [app deref]. rewrite bind_ret_l. change (91 =? 91) with true. cbn iota.
    cbn [drop]. rewrite ?drop_0. rewrite <- !app_assoc. cbn [app].
    rewrite strchr_off_app by done. rewrite bind_ret_l, read_bytes_app, bind_ret_l, c_text_id by done.
    unfold t. rewrite inet_pton6_ntop6 by done. fold t. cbn [drop Nat.add]. rewrite bind_ret_l.
    replace (S (length t)) with (length t + 1)%nat by lia.
    rewrite <- drop_drop, drop_app_length. cbn [drop]. rewrite ?drop_0.
    rewrite port_from_string_dec, bind_ret_l by done. by destruct a.
Qed.

Lemma to_string_v4 a b c d port :
  bytes [a; b; c; d] -> 0 <= port < 2 ^ 16 ->
  ntb_netaddress_to_string (NetAddr (ipv4_magic ++ [a; b; c; d]) port) = dotted a b c d ++ 58 :: dec port.
Proof.
  intros Hb Hp. unfold ntb_netaddress_to_string. cbn [na_host na_port].
  change (take 12 (ipv4_magic ++ [a; b; c; d])) with ipv4_magic. rewrite bytes_eqb_refl.
  change (drop 12 (ipv4_magic ++ [a; b; c; d])) with [a; b; c; d].
  pose proof (inet_ntop4_size [a; b; c; d] eq_refl Hb). pose proof (dec_port_length _ Hp).
  rewrite inet_ntop4_dotted in * by done. rewrite take_ge; [done|]. cbn [length]. lia.
Qed.

Lemma ipv4_host host :
  length host = 4%nat -> bytes host -> length (ipv4_magic ++ host) = 16%nat /\ bytes (ipv4_magic ++ host).
Proof.
  intros Hl Hb. rewrite length_app, Hl. split; [done|]. apply bytes_app. split; [|done].
  by apply (bool_decide_unpack _).
Qed.

Lemma from_string_spec str :
  0 ∈ str -> hd 0 str <> 0 ->
  match ntb_netaddress_from_string str with
  | Ok a => na_wf a
  | Err _ => True
  | UB | OutOfFuel => False
  end.
Proof.
  intros Hstr Hne. unfold ntb_netaddress_from_string.
  destruct str as [|c p]; [by apply elem_of_nil in Hstr|]. cbn [deref hd] in *. rewrite bind_ret_l.
  assert (Hp : 0 ∈ p) by (apply elem_of_cons in Hstr as [?|?]; [by subst|done]).
  enough (Hm : forall r : result unit (list Z * ptr),
    match r with
    | Ok (host, rest) => length host = 16%nat /\ bytes host /\ 0 ∈ rest
    | Err _ => True | UB | OutOfFuel => False end ->
    match ('(host, addr_end) ← r; port ← port_from_string addr_end; Ok (NetAddr host port)) with
    | Ok a => na_wf a | Err _ => True | UB | OutOfFuel => False end).
  { apply Hm. clear Hm. cbn [drop]. rewrite ?drop_0. destruct (c =? 91).
    - pose proof (strchr_off_spec 93 p Hp ltac:(done)) as Hs.
      destruct (strchr_off 93 p) as [[n|]| | |]; try done. rewrite bind_ret_l. destruct Hs as [Hn Hr].
      rewrite read_bytes_Ok, bind_ret_l by lia.
      destruct (inet_pton6 _) as [host|] eqn:E; [|done]. apply inet_pton6_size in E as [? ?].
      split_and!; try done.
    - pose proof (strchr_off_spec 58 p Hp ltac:(done)) as Hs.
      destruct (strchr_off 58 p) as [[n|]| | |]; try done; rewrite bind_ret_l.
      + rewrite bind_ret_l. destruct Hs as [Hn Hr]. rewrite read_bytes_Ok, bind_ret_l by (cbn [length]; lia).
        destruct (inet_pton4 _) as [host|] eqn:E; [|done]. apply inet_pton4_size in E as [? ?].
        destruct (ipv4_host host) as [? ?]; [done..|]. split_and!; [done..|].
        cbn [drop]. rewrite <- (take_drop 1 (drop n p)), drop_drop. apply elem_of_app. right.
        by rewrite Nat.add_1_r.
      + destruct (strlen_spec (c :: p)) as (n & q & -> & Hd & Hn); [by right|]. rewrite bind_ret_l.
        rewrite read_bytes_Ok, bind_ret_l by lia.
        destruct (inet_pton4 _) as [host|] eqn:E; [|done]. apply inet_pton4_size in E as [? ?].
        destruct (ipv4_host host) as [? ?]; [done..|]. split_and!; [done..|].
        rewrite Hd. left. }
  intros r Hr. destruct r as [[host rest]| | |]; try done. destruct Hr as (Hl & Hb & Hz).
  rewrite bind_ret_l. pose proof (port_from_string_spec rest Hz).
  by destruct (port_from_string rest).
Qed.
End laws.

(** ** The laws can hold *)

(** The numbers of a dotted text: [acc] is the one being read. *)
Fixpoint parse_dotted (acc : option Z) (t : list Z) : option (list Z) :=
  match t with
  | [] => match acc with Some v => Some [v] | None => None end
  | c :: t =>
      if is_digit c then
        let v := default 0 acc * 10 + (c - 48) in
        if v <? 256 then parse_dotted (Some v) t else None
      else if c =? 46 then
        match acc, parse_dotted None t with Some v, Some l => Some (v :: l) | _, _ => None end
      else None
  end.

(** A fixed-width text of an IPv6 address, without the short forms. *)
Definition hex_char (d : Z) : Z := if d <? 10 then 48 + d else 87 + d.
Definition hex_digit (c : Z) : option Z :=
  if is_digit c then Some (c - 48) else if (97 <=? c) && (c <=? 102) then Some (c - 87) else None.

Fixpoint parse_hex (t : list Z) : option (list Z) :=
  match t with
  | [] => Some []
  | [_] => None
  | a :: b :: t =>
      match hex_digit a, hex_digit b, parse_hex t with
      | Some x, Some y, Some l => Some (x * 16 + y :: l)
      | _, _, _ => None
      end
  end.

Definition sized (n : nat) (r : option (list Z)) : option (list Z) :=
  match r with Some l => if bool_decide (length l = n /\ bytes l) then Some l else None | None => None end.

#[local] Instance Inet_toy : Inet := {|
  inet_pton4 t := sized 4 (parse_dotted None t);
  inet_pton6 t := sized 16 (parse_hex t);
  inet_ntop4 l := match l with [a; b; c; d] => dotted a b c d | _ => [] end;
  inet_ntop6 l := concat ((fun b => [hex_char (b / 16); hex_char (b mod 16)]) <$> l)
|}.

Lemma sized_Some n r l : sized n r = Some l -> length l = n /\ bytes l.
Proof. destruct r; [|done]. cbn [sized]. case_bool_decide; [by intros [= <-]|done]. Qed.

(** The bytes below 256, to check a statement on each of them by evaluation. *)
Definition all_bytes : list Z := Z.of_nat <$> seq 0 256.
Lemma all_bytes_spec b : is_byte b -> b ∈ all_bytes.
Proof.
  intros Hb. unfold is_byte in Hb. apply list_elem_of_fmap. exists (Z.to_nat b). split; [lia|].
  apply elem_of_seq. lia.
Qed.

Lemma parse_dotted_dec a t : is_byte a -> parse_dotted None (dec a ++ t) = parse_dotted (Some a) t.
Proof.
  intros Ha. revert t.
  assert (Hf : Forall (fun a => forall t, parse_dotted None (dec a ++ t) = parse_dotted (Some a) t) all_bytes).
  { cbv [all_bytes seq fmap list_fmap Z.of_nat Pos.of_succ_nat Pos.succ].
    repeat (apply Forall_cons; split; [intros; reflexivity|]). constructor. }
  rewrite Forall_forall in Hf. by apply Hf, all_bytes_spec.
Qed.

Lemma parse_dotted_dot a t :
  parse_dotted (Some a) (46 :: t) =
  match parse_dotted None t with Some l => Some (a :: l) | None => None end.
Proof. reflexivity. Qed.

Lemma hex_pair b : is_byte b ->
  exists x y, hex_digit (hex_char (b / 16)) = Some x /\ hex_digit (hex_char (b mod 16)) = Some y /\
    x * 16 + y = b /\ inet6_char (hex_char (b / 16)) = true /\ inet6_char (hex_char (b mod 16)) = true.
Proof.
  intros Hb. exists (b / 16), (b mod 16).
  assert (Hx : 0 <= b / 16 < 16) by (unfold is_byte in Hb; dlia).
  assert (Hy : 0 <= b mod 16 < 16) by dlia.
  assert (Hh : forall d, 0 <= d < 16 -> hex_digit (hex_char d) = Some d /\ inet6_char (hex_char d) = true).
  { intros d Hd. assert (Hc : d ∈ Z.of_nat <$> seq 0 16).
    { apply list_elem_of_fmap. exists (Z.to_nat d). split; [lia|]. apply elem_of_seq. lia. }
    revert Hc. cbn. rewrite !elem_of_cons, elem_of_nil. clear. intros Hc.
    repeat (destruct Hc as [->|Hc]; [done|]). done. }
  destruct (Hh _ Hx) as [-> ->]. destruct (Hh _ Hy) as [-> ->]. split_and!; try done. dlia.
Qed.

#[local] Instance InetLaws_toy : InetLaws (H := Inet_toy).
Proof.
  split; cbn [inet_pton4 inet_pton6 inet_ntop4 inet_ntop6 Inet_toy].
  - done.
  - intros l Hl Hb. destruct l as [|a [|b [|c [|d [|? ?]]]]]; try discriminate Hl.
    pose proof Hb as Hbs. unfold bytes in Hbs. rewrite !Forall_cons in Hbs.
    destruct Hbs as (? & ? & ? & ? & _). unfold dotted.
    rewrite (parse_dotted_dec a), parse_dotted_dot, (parse_dotted_dec b), parse_dotted_dot by done.
    rewrite (parse_dotted_dec c), parse_dotted_dot by done.
    rewrite <- (app_nil_r (dec d)), (parse_dotted_dec d) by done. cbn [parse_dotted sized].
    by rewrite bool_decide_eq_true_2.
  - intros t l. apply sized_Some.
  - intros l Hl Hb. clear Hl. induction Hb as [|b l Hb _ IH]; [constructor|].
    destruct (hex_pair b Hb) as (x & y & _ & _ & _ & Hx & Hy). cbn. by repeat constructor.
  - intros l Hl Hb. unfold zlen, INET6_ADDRSTRLEN.
    enough (length (concat ((fun b => [hex_char (b / 16); hex_char (b mod 16)]) <$> l)) = (2 * length l)%nat) by lia.
    clear. induction l as [|b l IH]; [done|]. rewrite fmap_cons. cbn [concat app length] in *. lia.
  - intros l Hl Hb.
    enough (E : parse_hex (concat ((fun b => [hex_char (b / 16); hex_char (b mod 16)]) <$> l)) = Some l).
    { rewrite E. cbn [sized]. by rewrite bool_decide_eq_true_2. }
    clear Hl. induction Hb as [|b l Hb _ IH]; [done|]. rewrite fmap_cons. cbn [concat app parse_hex].
    destruct (hex_pair b Hb) as (x & y & -> & -> & <- & _). by rewrite IH.
  - intros t l. apply sized_Some.
Qed.

(** An address written as text, with its port and in square brackets when it
    is an IPv6 address, reads back as the same address. *)
Theorem netaddress_string_roundtrip `{InetLaws} a q :
  na_wf a -> ntb_netaddress_from_string (ntb_netaddress_to_string a ++ 0 :: q) = Ok a.
Proof. apply from_to_string. Qed.

Definition example_address : ntb_netaddress :=
  NetAddr [0x20; 1; 0xd; 0xb8; 0; 0; 0; 0; 0; 0; 0; 0; 0; 0; 0; 1] 8444.

Lemma netaddress_string_roundtrip_witness :
  ntb_netaddress_from_string (ntb_netaddress_to_string example_address ++ [0]) = Ok example_address.
Proof. apply netaddress_string_roundtrip. apply (bool_decide_unpack _). vm_compute. exact I. Defined.

(** Any text that is not empty is rejected or read as a well-formed address
    without an access outside the string; on the empty string the search for the
    colon starts behind the terminator. *)
Theorem netaddress_from_string_safe `{InetLaws} str :
  0 ∈ str ->
  (hd 0 str <> 0 ->
   match ntb_netaddress_from_string str with
   | Ok a => na_wf a
   | Err _ => True
   | UB | OutOfFuel => False
   end) /\
  ntb_netaddress_from_string [0] = UB.
Proof. intros Hs. split; [by apply from_string_spec|done]. Qed.

Lemma netaddress_from_string_safe_witness :
  match ntb_netaddress_from_string (str_bytes "5.19.255.216:7829" ++ [0]) with
  | Ok a => na_wf a | Err _ => True | UB | OutOfFuel => False end.
Proof.
  apply netaddress_from_string_safe; [apply elem_of_app; right; left|vm_compute; congruence].
Defined.
