(* ===== verification/KeyValue.v ===== *)
(** * KeyValue: files of sections with keys and values (ntb-key-value.c)

    The loader reads a file byte by byte through a state machine and calls a
    function for every section header and every property. The function and its user
    data are parameters; the strings it is given are the bytes before the terminator
    that the loader puts behind them. *)

From S2P Require Import Prelude Endian Buffer NetAddress OpenSSL Proto ProtoSpec NetText.

Inductive ntb_key_value_event :=
| NTB_KEY_VALUE_EVENT_HEADER (line_number : Z) (value : list Z)
| NTB_KEY_VALUE_EVENT_PROPERTY (line_number : Z) (key value : list Z).

Inductive ntb_key_value_state :=
| NTB_KEY_VALUE_STATE_HEADER_START
| NTB_KEY_VALUE_STATE_BAD_HEADER_START
| NTB_KEY_VALUE_STATE_READING_HEADER
| NTB_KEY_VALUE_STATE_END_HEADER_LINE
| NTB_KEY_VALUE_STATE_END_HEADER_LINE2
| NTB_KEY_VALUE_STATE_FIELD_START
| NTB_KEY_VALUE_STATE_READING_FIELD_NAME
| NTB_KEY_VALUE_STATE_WAITING_EQUALS
| NTB_KEY_VALUE_STATE_BAD_FIELD
| NTB_KEY_VALUE_STATE_WAITING_VALUE_START
| NTB_KEY_VALUE_STATE_READING_VALUE.

Section load.
Context {U : Type} (func : ntb_key_value_event -> U -> U).

Record ntb_key_value_data := KvData {
  kv_state : ntb_key_value_state;
  kv_user_data : U;
  kv_key_buffer : ntb_buffer;
  kv_value_buffer : ntb_buffer;
  kv_line_num : Z
}.

Definition kv_set_state (v : ntb_key_value_state) (d : ntb_key_value_data) : ntb_key_value_data :=
  KvData v (kv_user_data d) (kv_key_buffer d) (kv_value_buffer d) (kv_line_num d).
Definition kv_set_key (v : ntb_buffer) (d : ntb_key_value_data) : ntb_key_value_data :=
  KvData (kv_state d) (kv_user_data d) v (kv_value_buffer d) (kv_line_num d).
Definition kv_set_value (v : ntb_buffer) (d : ntb_key_value_data) : ntb_key_value_data :=
  KvData (kv_state d) (kv_user_data d) (kv_key_buffer d) v (kv_line_num d).
Definition kv_call (e : ntb_key_value_event) (d : ntb_key_value_data) : ntb_key_value_data :=
  KvData (kv_state d) (func e (kv_user_data d)) (kv_key_buffer d) (kv_value_buffer d) (kv_line_num d).
Definition kv_set_line (v : Z) (d : ntb_key_value_data) : ntb_key_value_data :=
  KvData (kv_state d) (kv_user_data d) (kv_key_buffer d) (kv_value_buffer d) v.

Definition ensure_null_buffer (b : ntb_buffer) : result unit ntb_buffer :=
  b ← ntb_buffer_ensure_size b (u64 (buf_length b + 1));
  buf_write b (buf_length b) [0].

(** The string in a buffer that was terminated. *)
Definition buffer_string (b : ntb_buffer) : result unit (list Z) := buf_read b 0 (buf_length b).

Definition process_header (d : ntb_key_value_data) : result unit ntb_key_value_data :=
  b ← ensure_null_buffer (kv_value_buffer d);
  value ← buffer_string b;
  Ok (kv_call (NTB_KEY_VALUE_EVENT_HEADER (kv_line_num d) value) (kv_set_value b d)).

(** [while (length > 0 && data[length - 1] == ' ') length--;] *)
Fixpoint strip_spaces (fuel : nat) (b : ntb_buffer) : result unit ntb_buffer :=
  if buf_length b <=? 0 then Ok b
  else match fuel with
       | O => OutOfFuel
       | S fuel =>
           c ← buf_read b (buf_length b - 1) 1;
           if bytes_eqb c [32] then strip_spaces fuel (Buf (buf_data b) (buf_length b - 1) (buf_size b))
           else Ok b
       end.

Definition process_value (d : ntb_key_value_data) : result unit ntb_key_value_data :=
  k ← ensure_null_buffer (kv_key_buffer d);
  v ← strip_spaces (Z.to_nat (buf_length (kv_value_buffer d))) (kv_value_buffer d);
  v ← ensure_null_buffer v;
  key ← buffer_string k;
  value ← buffer_string v;
  Ok (kv_call (NTB_KEY_VALUE_EVENT_PROPERTY (kv_line_num d) key value) (kv_set_value v (kv_set_key k d))).

(** [ntb_buffer_set_length(b, 1); b->data[0] = ch;] *)
Definition set_first (b : ntb_buffer) (ch : Z) : result unit ntb_buffer :=
  b ← ntb_buffer_set_length b 1;
  buf_write b 0 [u8 ch].

(** [b->length = 0;] *)
Definition set_empty (b : ntb_buffer) : ntb_buffer := Buf (buf_data b) 0 (buf_size b).

Definition handle_byte (d : ntb_key_value_data) (ch : Z) : result unit ntb_key_value_data :=
  match kv_state d with
  | NTB_KEY_VALUE_STATE_HEADER_START =>
      if ch =? 91 then
        Ok (kv_set_value (set_empty (kv_value_buffer d)) (kv_set_state NTB_KEY_VALUE_STATE_READING_HEADER d))
      else if negb (ch =? 32) && negb (ch =? 10) then
        Ok (kv_set_state NTB_KEY_VALUE_STATE_BAD_HEADER_START d)
      else Ok d
  | NTB_KEY_VALUE_STATE_BAD_HEADER_START =>
      if ch =? 10 then Ok (kv_set_state NTB_KEY_VALUE_STATE_HEADER_START d) else Ok d
  | NTB_KEY_VALUE_STATE_READING_HEADER =>
      if ch =? 10 then Ok (kv_set_state NTB_KEY_VALUE_STATE_FIELD_START d)
      else if ch =? 93 then
        d ← process_header d;
        Ok (kv_set_state NTB_KEY_VALUE_STATE_END_HEADER_LINE d)
      else b ← ntb_buffer_append_c (kv_value_buffer d) ch; Ok (kv_set_value b d)
  | NTB_KEY_VALUE_STATE_END_HEADER_LINE =>
      if ch =? 10 then Ok (kv_set_state NTB_KEY_VALUE_STATE_FIELD_START d)
      else if negb (ch =? 32) then Ok (kv_set_state NTB_KEY_VALUE_STATE_END_HEADER_LINE2 d)
      else Ok d
  | NTB_KEY_VALUE_STATE_END_HEADER_LINE2 =>
      if ch =? 10 then Ok (kv_set_state NTB_KEY_VALUE_STATE_FIELD_START d) else Ok d
  | NTB_KEY_VALUE_STATE_FIELD_START =>
      if ch =? 91 then
        Ok (kv_set_value (set_empty (kv_value_buffer d)) (kv_set_state NTB_KEY_VALUE_STATE_READING_HEADER d))
      else if negb (ch =? 32) && negb (ch =? 10) then
        b ← set_first (kv_key_buffer d) ch;
        Ok (kv_set_state NTB_KEY_VALUE_STATE_READING_FIELD_NAME (kv_set_key b d))
      else Ok d
  | NTB_KEY_VALUE_STATE_READING_FIELD_NAME =>
      if ch =? 32 then Ok (kv_set_state NTB_KEY_VALUE_STATE_WAITING_EQUALS d)
      else if ch =? 61 then Ok (kv_set_state NTB_KEY_VALUE_STATE_WAITING_VALUE_START d)
      else if ch =? 10 then Ok (kv_set_state NTB_KEY_VALUE_STATE_FIELD_START d)
      else b ← ntb_buffer_append_c (kv_key_buffer d) ch; Ok (kv_set_key b d)
  | NTB_KEY_VALUE_STATE_WAITING_EQUALS =>
      if ch =? 61 then Ok (kv_set_state NTB_KEY_VALUE_STATE_WAITING_VALUE_START d)
      else if ch =? 10 then Ok (kv_set_state NTB_KEY_VALUE_STATE_FIELD_START d)
      else if negb (ch =? 32) then Ok (kv_set_state NTB_KEY_VALUE_STATE_BAD_FIELD d)
      else Ok d
  | NTB_KEY_VALUE_STATE_WAITING_VALUE_START =>
      if ch =? 10 then
        b ← ntb_buffer_set_length (kv_value_buffer d) 0;
        d ← process_value (kv_set_value b d);
        Ok (kv_set_state NTB_KEY_VALUE_STATE_FIELD_START d)
      else if negb (ch =? 32) then
        b ← set_first (kv_value_buffer d) ch;
        Ok (kv_set_state NTB_KEY_VALUE_STATE_READING_VALUE (kv_set_value b d))
      else Ok d
  | NTB_KEY_VALUE_STATE_READING_VALUE =>
      if ch =? 10 then
        d ← process_value d;
        Ok (kv_set_state NTB_KEY_VALUE_STATE_FIELD_START d)
      else b ← ntb_buffer_append_c (kv_value_buffer d) ch; Ok (kv_set_value b d)
  | NTB_KEY_VALUE_STATE_BAD_FIELD =>
      if ch =? 10 then Ok (kv_set_state NTB_KEY_VALUE_STATE_FIELD_START d) else Ok d
  end.

(** [while ((ch = fgetc(file)) != EOF)] *)
Fixpoint kv_loop (file : list Z) (d : ntb_key_value_data) : result unit ntb_key_value_data :=
  match file with
  | [] => Ok d
  | ch :: file =>
      d ← handle_byte d ch;
      kv_loop file (if ch =? 10 then kv_set_line (s32 (kv_line_num d + 1)) d else d)
  end.

Definition ntb_key_value_load (file : list Z) (user_data : U) : result unit U :=
  let d := KvData NTB_KEY_VALUE_STATE_HEADER_START user_data ntb_buffer_init ntb_buffer_init 1 in
  d ← kv_loop file d;
  d ← handle_byte d 10;
  Ok (kv_user_data d).
End load.
Arguments ntb_key_value_data : clear implicits.

(** ** Values *)

Definition ntb_key_value_parse_bool_value (value : list Z) : option bool :=
  if bytes_eqb (c_text value) (str_bytes "true") then Some true
  else if bytes_eqb (c_text value) (str_bytes "false") then Some false
  else None.

(** [strtoll(p, &tail, 10)]: the value, the offset of [tail] and whether [errno] was
    set. *)
Definition strtoll (p : ptr) : result unit (Z * nat * bool) :=
  spaces ← span_spaces p;
  c ← deref (drop spaces p);
  let sign := if (c =? 43) || (c =? 45) then 1%nat else 0%nat in
  '(v, digits) ← span_digits 0 (drop (spaces + sign) p);
  let v := if c =? 45 then - v else v in
  if bool_decide (digits = 0%nat) then Ok (0, 0%nat, false)
  else if v <? - 2 ^ 63 then Ok (- 2 ^ 63, (spaces + sign + digits)%nat, true)
  else if 2 ^ 63 <=? v then Ok (2 ^ 63 - 1, (spaces + sign + digits)%nat, true)
  else Ok (v, (spaces + sign + digits)%nat, false).

(** The test [value < 0] compares the pointer and is never true. *)
Definition ntb_key_value_parse_int_value (value : ptr) (max : Z) : result unit Z :=
  '(int_value, tail, errno) ← strtoll value;
  c ← deref (drop tail value);
  if errno || bool_decide (tail = 0%nat) || negb (c =? 0) then Err tt
  else if max <? int_value then Err tt
  else Ok int_value.

(** ** Reference: a file line by line *)

Fixpoint skip_spaces (l : list Z) : list Z :=
  match l with 32 :: l => skip_spaces l | _ => l end.

(** Up to the first byte with [P]. *)
Fixpoint split_when (P : Z -> bool) (l : list Z) : list Z * list Z :=
  match l with
  | [] => ([], [])
  | c :: l => if P c then ([], c :: l) else let '(a, b) := split_when P l in (c :: a, b)
  end.

Definition trim_end (l : list Z) : list Z := reverse (skip_spaces (reverse l)).

Definition header_line (n : Z) (line : list Z) : option ntb_key_value_event :=
  match split_when (fun c => c =? 93) line with
  | (_, []) => None
  | (name, _) => Some (NTB_KEY_VALUE_EVENT_HEADER n name)
  end.

(** [first] starts the key; it may be any byte that is neither a space nor a
    bracket. *)
Definition property_line (n first : Z) (line : list Z) : option ntb_key_value_event :=
  let '(name, rest) := split_when (fun c => (c =? 32) || (c =? 61)) line in
  match skip_spaces rest with
  | 61 :: value => Some (NTB_KEY_VALUE_EVENT_PROPERTY n (first :: name) (trim_end (skip_spaces value)))
  | _ => None
  end.

(** The event of line [n] and whether a section header was seen; before the first
    header there are no properties. *)
Definition kv_line (n : Z) (section : bool) (line : list Z) : option ntb_key_value_event * bool :=
  match skip_spaces line with
  | [] => (None, section)
  | c :: rest =>
      if c =? 91 then (header_line n rest, true)
      else if section then (property_line n c rest, true)
      else (None, false)
  end.

Fixpoint kv_lines (n : Z) (section : bool) (lines : list (list Z)) : list ntb_key_value_event :=
  match lines with
  | [] => []
  | line :: lines =>
      let '(e, section) := kv_line n section line in
      option_list e ++ kv_lines (n + 1) section lines
  end.

(** The lines of a text; the text behind the last end of line is a line too. *)
Fixpoint text_lines (l : list Z) : list (list Z) :=
  match l with
  | [] => [[]]
  | c :: l =>
      if c =? 10 then [] :: text_lines l
      else match text_lines l with [] => [[c]] | line :: lines => (c :: line) :: lines end
  end.

Definition kv_events (file : list Z) : list ntb_key_value_event := kv_lines 1 false (text_lines file).

(** ** Buffers of the loader *)

Lemma repr_empty b : buf_wf b -> repr (set_empty b) [].
Proof. intros (Hd & Hl & Hs). split; [|done]. split_and!; cbn; lia. Qed.

Lemma repr_append_c b l c :
  repr b l -> is_byte c -> zlen l + 1 <= 2 ^ 62 ->
  exists b', ntb_buffer_append_c (E := unit) b c = Ok b' /\ repr b' (l ++ [c]).
Proof.
  intros Hr Hc Hl. pose proof (repr_length b l Hr) as E. destruct Hr as [Hwf Hr].
  destruct (append_c_spec (E := unit) b c) as (b' & -> & Hb' & _ & Hc'); [done|lia|done|].
  exists b'. split; [done|]. split; [done|]. by rewrite Hc', Hr, fmap_app.
Qed.

Lemma repr_data b l : repr b l -> exists r, buf_data b = (Some <$> l) ++ r.
Proof. intros [_ Hc]. unfold cells in Hc. exists (drop (Z.to_nat (buf_length b)) (buf_data b)). by rewrite <- Hc, take_drop. Qed.

Lemma repr_append b l t : repr b l -> zlen l + zlen t <= 2 ^ 62 ->
  exists b', ntb_buffer_append (E := unit) b t = Ok b' /\ repr b' (l ++ t).
Proof.
  intros Hr Hz. pose proof (repr_length _ _ Hr) as Hl. destruct Hr as [Hwf Hc].
  destruct (append_spec (E := unit) b t) as (b' & -> & W & _ & C & _); [done|lia|]. exists b'. split; [done|]. split; [done|].
  by rewrite C, Hc, fmap_app.
Qed.

Lemma set_first_spec b c :
  buf_wf b -> is_byte c -> exists b', set_first b c = Ok b' /\ repr b' [c].
Proof.
  intros Hwf Hc. unfold set_first, ntb_buffer_set_length.
  destruct (ensure_size_spec (E := unit) b 1) as (b1 & -> & (Hd & Hl & Hs) & _ & _ & _ & Hs1 & _); [done|lia|].
  rewrite !bind_ret_l. unfold buf_write. cbn [buf_data buf_length buf_size]. rewrite u8_small by done.
  destruct (write_cells_spec (E := unit) 0 [c] (buf_data b1)) as (d & -> & Hz & _ & Ht); [lia|zlia|].
  rewrite bind_ret_l. eexists. split; [reflexivity|]. split; [split_and!; cbn; lia|]. exact Ht.
Qed.

Lemma set_length_0 b :
  buf_wf b -> exists b', ntb_buffer_set_length (E := unit) b 0 = Ok b' /\ repr b' [].
Proof.
  intros Hwf. pose proof (proj1 (proj2 Hwf)).
  destruct (truncate_spec (E := unit) b 0) as (b' & -> & Hb & Hl & Hc); [done|lia|].
  exists b'. split; [done|]. split; [done|]. by rewrite Hc.
Qed.

Lemma buffer_string_spec b l : repr b l -> buffer_string b = Ok l.
Proof.
  intros Hr. pose proof (repr_length b l Hr) as E. destruct Hr as [(Hd & Hl & Hs) Hc].
  unfold buffer_string, buf_read. cbn [Z.leb].
  rewrite (proj2 (Z.leb_le 0 (buf_length b))), (proj2 (Z.leb_le (0 + buf_length b) _)) by lia.
  cbn [andb]. rewrite drop_0. unfold cells in Hc. by rewrite Hc, all_some_fmap.
Qed.

Lemma ensure_null_spec b l :
  repr b l -> zlen l + 1 <= 2 ^ 62 -> exists b', ensure_null_buffer b = Ok b' /\ repr b' l.
Proof.
  intros Hr Hl. pose proof (repr_length b l Hr) as E. destruct Hr as [Hwf Hc]. zlen_pose.
  unfold ensure_null_buffer. rewrite u64_small by lia.
  destruct (ensure_size_spec (E := unit) b (buf_length b + 1)) as (b1 & -> & Hb1 & Hl1 & Hc1 & _ & Hs1 & _);
    [done|lia|]. rewrite bind_ret_l.
  destruct (buf_write_end (E := unit) b1 [0]) as (b2 & -> & Hb2 & _ & Hl2 & _ & Hc2 & _); [done|rewrite zlen_cons, zlen_nil; lia|].
  exists b2. split; [done|]. split; [done|]. by rewrite Hc2, Hc1.
Qed.

Lemma skip_spaces_cons c l : c <> 32 -> skip_spaces (c :: l) = c :: l.
Proof. intros Hc. destruct c as [|p|]; try done. do 7 (destruct p as [p|p|]; try done). Qed.

Lemma trim_end_snoc l c : trim_end (l ++ [c]) = if c =? 32 then trim_end l else l ++ [c].
Proof.
  unfold trim_end. rewrite reverse_app, reverse_singleton. cbn [app].
  destruct (Z.eqb_spec c 32) as [->|Hc]; [done|]. rewrite skip_spaces_cons by done.
  by rewrite reverse_cons, reverse_involutive.
Qed.

(** The last byte can be read and dropped. *)
Lemma repr_snoc b l c :
  repr b (l ++ [c]) ->
  buf_read (E := unit) b (buf_length b - 1) 1 = Ok [c] /\ repr (Buf (buf_data b) (buf_length b - 1) (buf_size b)) l.
Proof.
  intros Hr. pose proof (repr_length _ _ Hr) as El. rewrite zlen_app in El. change (zlen [c]) with 1 in El.
  destruct Hr as [(Hd & Hl & Hs) Hc]. zlen_pose.
  assert (Ecell : take 1 (drop (length l) (buf_data b)) = [Some c]).
  { unfold cells in Hc. rewrite El, fmap_app in Hc.
    apply (f_equal (drop (length l))) in Hc. rewrite drop_app_length' in Hc by by rewrite length_fmap.
    change [Some c] with (Some <$> [c]). rewrite <- Hc, take_drop_commute. do 2 f_equal. unfold zlen. lia. }
  rewrite El. split.
  - unfold buf_read. replace (Z.to_nat (zlen l + 1 - 1)) with (length l) by (unfold zlen; lia).
    change (Z.to_nat 1) with 1%nat. rewrite Ecell.
    by rewrite (proj2 (Z.leb_le 0 (zlen l + 1 - 1))), (proj2 (Z.leb_le (zlen l + 1 - 1 + 1) (zlen (buf_data b)))) by lia.
  - split; [split_and!; cbn; lia|]. unfold cells in *. cbn [buf_data buf_length].
    rewrite El, fmap_app in Hc. apply (f_equal (take (length l))) in Hc.
    rewrite take_app_length' in Hc by by rewrite length_fmap. rewrite <- Hc, take_take. f_equal. unfold zlen. lia.
Qed.

Lemma strip_spaces_spec fuel b l :
  repr b l -> (length l <= fuel)%nat -> exists b', strip_spaces fuel b = Ok b' /\ repr b' (trim_end l).
Proof.
  revert b l. induction fuel as [|fuel IH]; intros b l Hr Hf; cbn [strip_spaces]; pose proof (repr_length b l Hr) as El;
    (destruct l as [|c l _] using rev_ind; [rewrite El; by exists b|]).
  - rewrite length_app in Hf. cbn in Hf. lia.
  - rewrite zlen_app in El. change (zlen [c]) with 1 in El. zlen_pose. rewrite (proj2 (Z.leb_gt (buf_length b) 0)) by lia.
    destruct (repr_snoc b l c Hr) as [-> Hrl]. rewrite bind_ret_l, trim_end_snoc.
    destruct (Z.eqb_spec c 32) as [->|Hne].
    + cbn. apply IH; [done|]. rewrite length_app in Hf. cbn in Hf. lia.
    + unfold bytes_eqb. rewrite bool_decide_eq_false_2 by congruence. by exists b.
Qed.

(** ** The loader reads line by line *)

Section lines.
Context {U : Type} (func : ntb_key_value_event -> U -> U).
Implicit Types (d : ntb_key_value_data U) (l : list Z).

Definition call_opt (e : option ntb_key_value_event) (u : U) : U :=
  match e with Some e => func e u | None => u end.

(** Between two lines: the buffers are well-formed and the state says whether a
    header was seen. *)
Definition at_start (section : bool) (n : Z) (u : U) d : Prop :=
  kv_state d = (if section then NTB_KEY_VALUE_STATE_FIELD_START else NTB_KEY_VALUE_STATE_HEADER_START) /\
  kv_user_data d = u /\ kv_line_num d = n /\ buf_wf (kv_key_buffer d) /\ buf_wf (kv_value_buffer d).

(** The bytes of one line, without its end. *)
Definition in_line l : Prop := bytes l /\ Forall (fun c => c <> 10) l.

(** Running over the rest of a line and its end. *)
Definition run_line l d : result unit (ntb_key_value_data U) := d ← kv_loop func l d; handle_byte func d 10.

Lemma run_line_cons c l d :
  c <> 10 -> run_line (c :: l) d = d ← handle_byte func d c; run_line l d.
Proof.
  intros Hc. unfold run_line. cbn [kv_loop]. rewrite (proj2 (Z.eqb_neq c 10)) by done. by rewrite bind_assoc.
Qed.

(** What is left of the line leads to the event [e] and to the start of the next
    line. *)
Definition ends l d (e : option ntb_key_value_event) (section : bool) : Prop :=
  exists d', run_line l d = Ok d' /\ at_start section (kv_line_num d) (call_opt e (kv_user_data d)) d'.

Definition kv_wf d : Prop := buf_wf (kv_key_buffer d) /\ buf_wf (kv_value_buffer d).

Lemma ends_step c l d d' e section :
  c <> 10 -> handle_byte func d c = Ok d' -> kv_line_num d' = kv_line_num d ->
  kv_user_data d' = kv_user_data d -> ends l d' e section -> ends (c :: l) d e section.
Proof.
  intros Hc Hb En Eu (d2 & E & Ha). exists d2. rewrite En, Eu in Ha. split; [|done].
  by rewrite run_line_cons, Hb, bind_ret_l.
Qed.

Lemma ends_nil d d' e section :
  handle_byte func d 10 = Ok d' -> at_start section (kv_line_num d) (call_opt e (kv_user_data d)) d' ->
  ends [] d e section.
Proof. intros E Ha. by exists d'. Qed.

(** The induction over a line in a state [st] that a byte does not change. *)
Ltac line_step Hst :=
  eapply ends_step; [done|unfold handle_byte; rewrite Hst; reflexivity|done|done|].

Lemma ends_bad_header l d :
  in_line l -> kv_wf d -> kv_state d = NTB_KEY_VALUE_STATE_BAD_HEADER_START -> ends l d None false.
Proof.
  intros [_ Hl] [Hk Hv] Hst. induction Hl as [|c l Hc _ IH].
  - eapply ends_nil; [unfold handle_byte; by rewrite Hst|done].
  - eapply ends_step; [done| |done|done|exact IH]. unfold handle_byte.
    by rewrite Hst, (proj2 (Z.eqb_neq c 10)).
Qed.

Lemma ends_junk l d :
  in_line l -> kv_wf d ->
  kv_state d = NTB_KEY_VALUE_STATE_END_HEADER_LINE2 \/ kv_state d = NTB_KEY_VALUE_STATE_BAD_FIELD ->
  ends l d None true.
Proof.
  intros [_ Hl] [Hk Hv] Hst. induction Hl as [|c l Hc _ IH].
  - eapply ends_nil; [unfold handle_byte; by destruct Hst as [-> | ->]|done].
  - eapply ends_step; [done| |done|done|exact IH]. unfold handle_byte.
    by destruct Hst as [-> | ->]; rewrite (proj2 (Z.eqb_neq c 10)).
Qed.

Lemma in_line_cons c l : in_line (c :: l) -> is_byte c /\ c <> 10 /\ in_line l.
Proof. intros [[? ?]%Forall_cons [? ?]%Forall_cons]. done. Qed.

Lemma ends_after_header l d :
  in_line l -> kv_wf d -> kv_state d = NTB_KEY_VALUE_STATE_END_HEADER_LINE -> ends l d None true.
Proof.
  induction l as [|c l IH]; intros Hl Hw Hst.
  - eapply ends_nil; [unfold handle_byte; by rewrite Hst|]. by destruct Hw.
  - apply in_line_cons in Hl as (Hb & Hc & Hl). destruct (Z.eqb_spec c 32) as [->|Hne].
    + line_step Hst. by apply IH.
    + eapply ends_step; [done|unfold handle_byte; rewrite Hst, (proj2 (Z.eqb_neq c 10)), (proj2 (Z.eqb_neq c 32)) by done; reflexivity|done|done|].
      apply ends_junk; [done|by destruct Hw|by left].
Qed.

Lemma ends_header l d v :
  in_line l -> kv_wf d -> kv_state d = NTB_KEY_VALUE_STATE_READING_HEADER -> repr (kv_value_buffer d) v ->
  zlen v + zlen l + 1 <= 2 ^ 62 ->
  ends l d (match split_when (fun c => c =? 93) l with
            | (_, []) => None
            | (name, _) => Some (NTB_KEY_VALUE_EVENT_HEADER (kv_line_num d) (v ++ name))
            end) true.
Proof.
  revert d v. induction l as [|c l IH]; intros d v Hl Hw Hst Hr Hz.
  - eapply ends_nil; [unfold handle_byte; by rewrite Hst|]. by destruct Hw.
  - apply in_line_cons in Hl as (Hb & Hc & Hl). rewrite zlen_cons in Hz. zlen_pose. cbn [split_when].
    destruct (Z.eqb_spec c 93) as [->|Hne].
    + destruct (ensure_null_spec _ _ Hr ltac:(lia)) as (b & Eb & Hrb).
      set (d1 := kv_set_state NTB_KEY_VALUE_STATE_END_HEADER_LINE
        (kv_call func (NTB_KEY_VALUE_EVENT_HEADER (kv_line_num d) v) (kv_set_value b d))).
      assert (E1 : handle_byte func d 93 = Ok d1).
      { unfold handle_byte. rewrite Hst. cbn [Z.eqb Pos.eqb]. unfold process_header.
        by rewrite Eb, !bind_ret_l, (buffer_string_spec _ _ Hrb), !bind_ret_l. }
      destruct (ends_after_header l d1) as (d2 & E2 & Ha); [done|split; [apply Hw|apply Hrb]|done|].
      exists d2. rewrite run_line_cons, E1, bind_ret_l by done. split; [done|]. by rewrite app_nil_r.
    + destruct (repr_append_c _ _ c Hr Hb ltac:(lia)) as (b & Eb & Hrb).
      apply (ends_step c l d (kv_set_value b d)); [done| |done|done|].
      { unfold handle_byte. rewrite Hst, (proj2 (Z.eqb_neq c 10)), (proj2 (Z.eqb_neq c 93)), Eb, bind_ret_l by done. reflexivity. }
      specialize (IH (kv_set_value b d) (v ++ [c]) Hl ltac:(split; [apply Hw|apply Hrb]) Hst Hrb ltac:(zlia)).
      destruct (split_when _ l) as [name [|x rest]]; [done|]. by rewrite <- app_assoc in IH.
Qed.

Lemma process_value_spec d k v :
  repr (kv_key_buffer d) k -> repr (kv_value_buffer d) v -> zlen k + 1 <= 2 ^ 62 -> zlen v + 1 <= 2 ^ 62 ->
  exists d', process_value func d = Ok d' /\ kv_line_num d' = kv_line_num d /\ kv_wf d' /\
    kv_user_data d' = func (NTB_KEY_VALUE_EVENT_PROPERTY (kv_line_num d) k (trim_end v)) (kv_user_data d).
Proof.
  intros Hk Hv Hzk Hzv. unfold process_value.
  destruct (ensure_null_spec _ _ Hk Hzk) as (kb & -> & Hkb). rewrite bind_ret_l, (repr_length _ _ Hv).
  destruct (strip_spaces_spec (Z.to_nat (zlen v)) _ _ Hv) as (vb & -> & Hvb); [unfold zlen; lia|]. rewrite bind_ret_l.
  assert (zlen (trim_end v) <= zlen v).
  { clear. induction v as [|c v IH] using rev_ind; [done|]. rewrite trim_end_snoc. destruct (c =? 32); zlia. }
  destruct (ensure_null_spec _ _ Hvb ltac:(lia)) as (vb' & -> & Hvb').
  rewrite bind_ret_l, (buffer_string_spec _ _ Hkb), bind_ret_l, (buffer_string_spec _ _ Hvb'), bind_ret_l.
  eexists. split; [reflexivity|]. split; [done|]. split; [split; [apply Hkb|apply Hvb']|done].
Qed.

Lemma ends_value l d k v :
  in_line l -> kv_state d = NTB_KEY_VALUE_STATE_READING_VALUE ->
  repr (kv_key_buffer d) k -> repr (kv_value_buffer d) v -> zlen k + zlen v + zlen l + 1 <= 2 ^ 62 ->
  ends l d (Some (NTB_KEY_VALUE_EVENT_PROPERTY (kv_line_num d) k (trim_end (v ++ l)))) true.
Proof.
  revert d v. induction l as [|c l IH]; intros d v Hl Hst Hk Hv Hz; zlen_pose.
  - destruct (process_value_spec d k v) as (d' & E & En & Hw & Eu); [done|done|lia|lia|].
    exists (kv_set_state NTB_KEY_VALUE_STATE_FIELD_START d'). rewrite app_nil_r. split.
    { unfold run_line. cbn [kv_loop]. rewrite bind_ret_l. unfold handle_byte. rewrite Hst. cbn [Z.eqb Pos.eqb].
      by rewrite E. }
    by destruct Hw.
  - apply in_line_cons in Hl as (Hb & Hc & Hl). rewrite zlen_cons in Hz.
    destruct (repr_append_c _ _ c Hv Hb ltac:(lia)) as (b & Eb & Hrb).
    apply (ends_step c l d (kv_set_value b d)); [done| |done|done|].
    { unfold handle_byte. rewrite Hst, (proj2 (Z.eqb_neq c 10)), Eb, bind_ret_l by done. reflexivity. }
    specialize (IH (kv_set_value b d) (v ++ [c]) Hl Hst Hk Hrb ltac:(zlia)). by rewrite <- app_assoc in IH.
Qed.

Lemma ends_value_start l d k :
  in_line l -> kv_wf d -> kv_state d = NTB_KEY_VALUE_STATE_WAITING_VALUE_START ->
  repr (kv_key_buffer d) k -> zlen k + zlen l + 1 <= 2 ^ 62 ->
  ends l d (Some (NTB_KEY_VALUE_EVENT_PROPERTY (kv_line_num d) k (trim_end (skip_spaces l)))) true.
Proof.
  induction l as [|c l IH]; intros Hl Hw Hst Hk Hz; zlen_pose.
  - destruct (set_length_0 _ (proj2 Hw)) as (b & Eb & Hb).
    destruct (process_value_spec (kv_set_value b d) k []) as (d' & E & En & Hw' & Eu); [done|done|lia|done|].
    exists (kv_set_state NTB_KEY_VALUE_STATE_FIELD_START d'). split.
    { unfold run_line. cbn [kv_loop]. rewrite bind_ret_l. unfold handle_byte. rewrite Hst. cbn [Z.eqb Pos.eqb].
      by rewrite Eb, bind_ret_l, E. }
    by destruct Hw'.
  - apply in_line_cons in Hl as (Hb & Hc & Hl). rewrite zlen_cons in Hz.
    destruct (Z.eqb_spec c 32) as [->|Hne].
    + line_step Hst. apply IH; try done. lia.
    + destruct (set_first_spec _ _ (proj2 Hw) Hb) as (b & Eb & Hrb).
      apply (ends_step c l d (kv_set_state NTB_KEY_VALUE_STATE_READING_VALUE (kv_set_value b d))); [done| |done|done|].
      { unfold handle_byte. rewrite Hst, (proj2 (Z.eqb_neq c 10)), (proj2 (Z.eqb_neq c 32)), Eb, bind_ret_l by done. reflexivity. }
      rewrite skip_spaces_cons by done. change (c :: l) with ([c] ++ l).
      apply (ends_value l (kv_set_state NTB_KEY_VALUE_STATE_READING_VALUE (kv_set_value b d)) k [c]); try done. zlia.
Qed.

(** The event of a property with the key [k], given what follows the key. *)
Definition after_key (n : Z) (k l : list Z) : option ntb_key_value_event :=
  match skip_spaces l with
  | 61 :: value => Some (NTB_KEY_VALUE_EVENT_PROPERTY n k (trim_end (skip_spaces value)))
  | _ => None
  end.

Lemma after_key_other n k c l : c <> 32 -> c <> 61 -> after_key n k (c :: l) = None.
Proof.
  intros H1 H2. unfold after_key. rewrite skip_spaces_cons by done.
  destruct c as [|p|]; try done. do 7 (destruct p as [p|p|]; try done).
Qed.

Lemma ends_equals l d k :
  in_line l -> kv_wf d -> kv_state d = NTB_KEY_VALUE_STATE_WAITING_EQUALS ->
  repr (kv_key_buffer d) k -> zlen k + zlen l + 1 <= 2 ^ 62 ->
  ends l d (after_key (kv_line_num d) k l) true.
Proof.
  induction l as [|c l IH]; intros Hl Hw Hst Hk Hz; zlen_pose.
  - eapply ends_nil; [unfold handle_byte; by rewrite Hst|]. by destruct Hw.
  - apply in_line_cons in Hl as (Hb & Hc & Hl). rewrite zlen_cons in Hz.
    destruct (Z.eqb_spec c 61) as [->|Hn61]; [|destruct (Z.eqb_spec c 32) as [->|Hn32]].
    + line_step Hst.
      apply (ends_value_start l (kv_set_state NTB_KEY_VALUE_STATE_WAITING_VALUE_START d) k); try done. lia.
    + line_step Hst. apply IH; try done. lia.
    + rewrite after_key_other by done.
      apply (ends_step c l d (kv_set_state NTB_KEY_VALUE_STATE_BAD_FIELD d)); [done| |done|done|].
      { unfold handle_byte. rewrite Hst, (proj2 (Z.eqb_neq c 61)), (proj2 (Z.eqb_neq c 10)), (proj2 (Z.eqb_neq c 32)) by done.
        reflexivity. }
      apply ends_junk; [done|by destruct Hw|by right].
Qed.

Lemma ends_key l d k :
  in_line l -> kv_wf d -> kv_state d = NTB_KEY_VALUE_STATE_READING_FIELD_NAME ->
  repr (kv_key_buffer d) k -> zlen k + zlen l + 1 <= 2 ^ 62 ->
  ends l d (let '(name, rest) := split_when (fun c => (c =? 32) || (c =? 61)) l in
            after_key (kv_line_num d) (k ++ name) rest) true.
Proof.
  revert d k. induction l as [|c l IH]; intros d k Hl Hw Hst Hk Hz; zlen_pose.
  - eapply ends_nil; [unfold handle_byte; by rewrite Hst|]. by destruct Hw.
  - apply in_line_cons in Hl as (Hb & Hc & Hl). rewrite zlen_cons in Hz. cbn [split_when].
    destruct (Z.eqb_spec c 32) as [->|Hn32]; [|destruct (Z.eqb_spec c 61) as [->|Hn61]]; cbn [orb].
    + line_step Hst. rewrite app_nil_r.
      apply (ends_equals l (kv_set_state NTB_KEY_VALUE_STATE_WAITING_EQUALS d) k); try done. lia.
    + line_step Hst. rewrite app_nil_r.
      apply (ends_value_start l (kv_set_state NTB_KEY_VALUE_STATE_WAITING_VALUE_START d) k); try done. lia.
    + destruct (repr_append_c _ _ c Hk Hb ltac:(lia)) as (b & Eb & Hrb).
      apply (ends_step c l d (kv_set_key b d)); [done| |done|done|].
      { unfold handle_byte. rewrite Hst, (proj2 (Z.eqb_neq c 32)), (proj2 (Z.eqb_neq c 61)), (proj2 (Z.eqb_neq c 10)), Eb by done.
        reflexivity. }
      specialize (IH (kv_set_key b d) (k ++ [c]) Hl ltac:(split; [apply Hrb|apply Hw]) Hst Hrb ltac:(zlia)).
      destruct (split_when _ l) as [name rest]. by rewrite <- app_assoc in IH.
Qed.

Lemma kv_line_spaces n section l : kv_line n section (32 :: l) = kv_line n section l.
Proof. done. Qed.

Lemma ends_start section l d n u :
  in_line l -> at_start section n u d -> zlen l + 2 <= 2 ^ 62 ->
  ends l d (kv_line n section l).1 (kv_line n section l).2.
Proof.
  induction l as [|c l IH]; intros Hl Ha Hz; destruct Ha as (Hst & Hu & Hn & Hk & Hv); zlen_pose.
  - eapply ends_nil; [unfold handle_byte; rewrite Hst; by destruct section|]. cbn [kv_line skip_spaces fst snd]. by split_and!.
  - apply in_line_cons in Hl as (Hb & Hc & Hl). rewrite zlen_cons in Hz.
    destruct (Z.eqb_spec c 32) as [->|Hn32].
    { rewrite kv_line_spaces. eapply (ends_step 32 l d d); [done|unfold handle_byte; rewrite Hst; by destruct section|done|done|].
      apply IH; [done|by split_and!|lia]. }
    unfold kv_line. rewrite skip_spaces_cons by done. destruct (Z.eqb_spec c 91) as [->|Hn91].
    + eapply ends_step; [done|unfold handle_byte; rewrite Hst; destruct section; reflexivity|by destruct section|by destruct section|].
      unfold header_line. cbn [fst snd]. subst n.
      by apply (ends_header l (kv_set_value (set_empty (kv_value_buffer d)) (kv_set_state NTB_KEY_VALUE_STATE_READING_HEADER d)) []);
        [done|split; [done|]; apply repr_empty|done|apply repr_empty|zlia].
    + destruct section; cbn [fst snd].
      * destruct (set_first_spec _ _ Hk Hb) as (b & Eb & Hrb).
        apply (ends_step c l d (kv_set_state NTB_KEY_VALUE_STATE_READING_FIELD_NAME (kv_set_key b d))); [done| |done|done|].
        { unfold handle_byte. rewrite Hst, (proj2 (Z.eqb_neq c 91)), (proj2 (Z.eqb_neq c 32)), (proj2 (Z.eqb_neq c 10)), Eb by done.
          reflexivity. }
        subst n. apply (ends_key l (kv_set_state NTB_KEY_VALUE_STATE_READING_FIELD_NAME (kv_set_key b d)) [c]);
          [done|split; [apply Hrb|done]|done|done|zlia].
      * apply (ends_step c l d (kv_set_state NTB_KEY_VALUE_STATE_BAD_HEADER_START d)); [done| |done|done|by apply ends_bad_header].
        { unfold handle_byte. rewrite Hst, (proj2 (Z.eqb_neq c 91)), (proj2 (Z.eqb_neq c 32)), (proj2 (Z.eqb_neq c 10)) by done.
          reflexivity. }
Qed.

(** ** Whole files *)

Definition call_all (es : list ntb_key_value_event) (u : U) : U := fold_left (fun u e => func e u) es u.

Lemma kv_loop_app l k d : kv_loop func (l ++ k) d = d ← kv_loop func l d; kv_loop func k d.
Proof.
  revert d. induction l as [|c l IH]; intros d; cbn [app kv_loop]; [done|].
  destruct (handle_byte func d c) as [d1| | |]; [|done..]. by rewrite !bind_ret_l, IH.
Qed.

Lemma text_lines_one l : Forall (fun c => c <> 10) l -> text_lines l = [l].
Proof.
  induction 1 as [|c l Hc _ IH]; [done|]. cbn [text_lines]. by rewrite (proj2 (Z.eqb_neq c 10)), IH.
Qed.
Lemma text_lines_app l k :
  Forall (fun c => c <> 10) l -> text_lines (l ++ 10 :: k) = l :: text_lines k.
Proof.
  induction 1 as [|c l Hc _ IH]; [done|]. cbn [app text_lines]. by rewrite (proj2 (Z.eqb_neq c 10)), IH.
Qed.

(** The first line of a text and what follows its end. *)
Lemma first_line l :
  Forall (fun c => c <> 10) l \/ exists a b, l = a ++ 10 :: b /\ Forall (fun c => c <> 10) a.
Proof.
  induction l as [|c l IH]; [by left|]. destruct (decide (c = 10)) as [->|Hc].
  { right. by exists [], l. }
  destruct IH as [IH|(a & b & -> & Ha)]; [left; by constructor|]. right. exists (c :: a), b. split; [done|by constructor].
Qed.

Lemma load_lines m : forall file section n u d,
  (length file <= m)%nat -> bytes file -> zlen file + 2 <= 2 ^ 62 ->
  1 <= n -> n + zlen file < 2 ^ 31 -> at_start section n u d ->
  exists d', run_line file d = Ok d' /\ kv_user_data d' = call_all (kv_lines n section (text_lines file)) u.
Proof.
  induction m as [|m IH]; intros file section n u d Hm Hb Hz Hn Hs Ha; zlen_pose.
  all: destruct (first_line file) as [Hl|(l & rest & -> & Hl)].
  3: { destruct (ends_start section file d n u) as (d' & E & Ha'); [done|done|lia|].
       exists d'. split; [done|]. destruct Ha' as (_ & -> & _). rewrite text_lines_one by done. cbn [kv_lines].
       destruct Ha as (_ & -> & _). destruct (kv_line n section file) as [[e|] s']; done. }
  1: { destruct file; [|cbn in Hm; lia]. destruct (ends_start section [] d n u) as (d' & E & Ha'); [done|done|lia|].
       exists d'. split; [done|]. by destruct Ha' as (_ & -> & _), Ha as (_ & -> & _). }
  1: { rewrite length_app in Hm. cbn in Hm. lia. }
  apply bytes_app in Hb as [Hbl [_ Hbr]%bytes_cons]. rewrite zlen_app, zlen_cons in *. zlen_pose.
  destruct (ends_start section l d n u) as (d1 & E & Ha1); [done|done|lia|].
  rewrite text_lines_app by done. cbn [kv_lines]. destruct (kv_line n section l) as [e s'] eqn:Ekv. cbn [fst snd] in Ha1.
  destruct Ha1 as (Hst & Hu & Hn1 & Hk & Hv).
  assert (Hd : kv_line_num d = n /\ kv_user_data d = u) by (by destruct Ha as (_ & -> & -> & _)).
  destruct Hd as [Hdn Hdu].
  destruct (IH rest s' (n + 1) (call_opt e u) (kv_set_line (s32 (kv_line_num d1 + 1)) d1)) as (d' & E' & Eu).
  { rewrite length_app in Hm. cbn in Hm. lia. }
  { done. } { lia. } { lia. } { lia. }
  { rewrite Hdu in Hu. split_and!; try done. cbn. rewrite Hn1, Hdn. apply s32_small. lia. }
  exists d'. split.
  - rewrite <- E'. unfold run_line in *. rewrite kv_loop_app, !bind_assoc.
    destruct (kv_loop func l d) as [dl| | |]; [|done..]. rewrite bind_ret_l in E. rewrite !bind_ret_l.
    cbn [kv_loop Z.eqb Pos.eqb]. by rewrite E, bind_ret_l.
  - rewrite Eu. by destruct e.
Qed.
End lines.

Lemma load_events {U} (func : ntb_key_value_event -> U -> U) file u :
  bytes file -> zlen file < 2 ^ 31 - 2 ->
  ntb_key_value_load func file u = Ok (fold_left (fun u e => func e u) (kv_events file) u).
Proof.
  intros Hb Hz. unfold ntb_key_value_load.
  set (d := KvData NTB_KEY_VALUE_STATE_HEADER_START u ntb_buffer_init ntb_buffer_init 1).
  destruct (load_lines func (length file) file false 1 u d) as (d' & E & Eu); [done|done|lia|lia|lia| |].
  { split_and!; try done; apply (bool_decide_unpack _); done. }
  unfold run_line in E. rewrite <- bind_assoc, E, bind_ret_l, Eu. done.
Qed.

(** ** Files as they are written *)

(** [[name]] and [key = value] on lines of their own. *)
Definition header_text (name : list Z) : list Z := 91 :: name ++ [93; 10].
Definition property_text (key value : list Z) : list Z := key ++ [32; 61; 32] ++ value ++ [10].

(** A key of letters and digits. *)
Definition key_ok (key : list Z) : Prop :=
  key <> [] /\ Forall (fun c => c <> 10 /\ c <> 32 /\ c <> 61 /\ c <> 91) key.
Definition name_text_ok (name : list Z) : Prop := Forall (fun c => c <> 10 /\ c <> 93) name.
(** A value on one line that neither starts nor ends with a space. *)
Definition value_ok (value : list Z) : Prop :=
  Forall (fun c => c <> 10) value /\ skip_spaces value = value /\ trim_end value = value.

#[global] Instance key_ok_dec key : Decision (key_ok key).
Proof. unfold key_ok. apply _. Defined.
#[global] Instance name_text_ok_dec name : Decision (name_text_ok name).
Proof. unfold name_text_ok. apply _. Defined.
#[global] Instance value_ok_dec value : Decision (value_ok value).
Proof. unfold value_ok. apply _. Defined.

Lemma value_ok_plain value : Forall (fun c => c <> 10 /\ c <> 32) value -> value_ok value.
Proof.
  intros Hv. split_and!.
  - eapply Forall_impl; [exact Hv|]. by intros c [? _].
  - destruct Hv as [|c value [_ Hc] _]; [done|]. by apply skip_spaces_cons.
  - destruct value as [|c value _] using rev_ind; [done|]. rewrite trim_end_snoc.
    apply Forall_app in Hv as [_ [[_ Hc] _]%Forall_cons]. by rewrite (proj2 (Z.eqb_neq c 32)).
Qed.

Lemma split_when_app (P : Z -> bool) l c k :
  Forall (fun x => P x = false) l -> P c = true -> split_when P (l ++ c :: k) = (l, c :: k).
Proof.
  intros Hl Hc. induction Hl as [|x l Hx _ IH]; cbn [app split_when]; [by rewrite Hc|]. by rewrite Hx, IH.
Qed.

Lemma lines_header n section name rest :
  name_text_ok name ->
  kv_lines n section (text_lines (header_text name ++ rest)) =
  NTB_KEY_VALUE_EVENT_HEADER n name :: kv_lines (n + 1) true (text_lines rest).
Proof.
  intros Hn. unfold header_text.
  replace ((91 :: name ++ [93; 10]) ++ rest) with ((91 :: name ++ [93]) ++ 10 :: rest)
    by (cbn [app]; by rewrite <- !app_assoc).
  rewrite text_lines_app.
  2: { constructor; [done|]. apply Forall_app. split; [|by constructor].
       eapply Forall_impl; [exact Hn|]. by intros c [? _]. }
  cbn [kv_lines]. unfold kv_line. rewrite skip_spaces_cons by done. cbn [Z.eqb Pos.eqb]. unfold header_line.
  rewrite split_when_app; [done| |done]. eapply Forall_impl; [exact Hn|]. intros c [_ Hc]. by apply Z.eqb_neq.
Qed.

Lemma lines_property n key value rest :
  key_ok key -> value_ok value ->
  kv_lines n true (text_lines (property_text key value ++ rest)) =
  NTB_KEY_VALUE_EVENT_PROPERTY n key value :: kv_lines (n + 1) true (text_lines rest).
Proof.
  intros [Hne Hk] (Hv & Hs & Ht). unfold property_text.
  replace ((key ++ [32; 61; 32] ++ value ++ [10]) ++ rest) with ((key ++ 32 :: 61 :: 32 :: value) ++ 10 :: rest)
    by (cbn [app]; rewrite <- !app_assoc; cbn [app]; by rewrite <- !app_assoc).
  rewrite text_lines_app.
  2: { apply Forall_app. split; [eapply Forall_impl; [exact Hk|]; by intros c [? _]|]. by repeat constructor. }
  destruct key as [|c key]; [done|]. apply Forall_cons in Hk as [(Hc1 & Hc2 & Hc3 & Hc4) Hk].
  cbn [kv_lines app]. unfold kv_line. rewrite skip_spaces_cons by done. rewrite (proj2 (Z.eqb_neq c 91)) by done.
  unfold property_line. rewrite split_when_app; [|eapply Forall_impl; [exact Hk|]; intros x (? & ? & ? & ?)|done].
  - cbn [skip_spaces]. by rewrite Hs, Ht.
  - cbn beta. by rewrite (proj2 (Z.eqb_neq x 32)), (proj2 (Z.eqb_neq x 61)).
Qed.

Lemma lines_blank n section rest :
  kv_lines n section (text_lines (10 :: rest)) = kv_lines (n + 1) section (text_lines rest).
Proof. done. Qed.

(** ** Integers as they are written *)

(** [%i] and its kin *)
Definition dec_signed (n : Z) : list Z := if n <? 0 then 45 :: dec (- n) else dec n.

Lemma dec_signed_chars n : Forall (fun c => is_digit c = true \/ c = 45) (dec_signed n).
Proof.
  unfold dec_signed. destruct (Z.ltb_spec n 0); [constructor; [by right|]|];
    (eapply Forall_impl; [apply dec_chars; lia|]; by left).
Qed.

Lemma strtoll_dec n e q :
  - 2 ^ 63 <= n < 2 ^ 63 -> is_digit e = false -> strtoll (dec_signed n ++ e :: q) = Ok (n, length (dec_signed n), false).
Proof.
  intros Hn He. unfold strtoll, dec_signed.
  assert (Hd : forall m, 0 <= m <= 2 ^ 63 -> exists c l, dec m = c :: l /\ 48 <= c <= 57 /\
    span_digits 0 (dec m ++ e :: q) = Ok (m, length (dec m))).
  { intros m Hm. pose proof (dec_chars m ltac:(lia)) as Hc. destruct (dec_nonempty m) as (c & l & E).
    pose proof (span_digits_dec 20 m 0 (e :: q) ltac:(lia)) as Hs. fold (dec m) in Hs.
    exists c, l. split; [done|]. rewrite E in Hc. apply Forall_cons_1 in Hc as [Hc _].
    split; [unfold is_digit in Hc; lia|]. rewrite Hs. cbn [span_digits]. rewrite He.
    rewrite !bind_ret_l. by rewrite Z.mul_0_l, Z.add_0_l, Nat.add_0_r. }
  destruct (Z.ltb_spec n 0) as [Hneg|Hpos].
  - destruct (Hd (- n) ltac:(lia)) as (c & l & E & Hc & Hs). rewrite <- app_comm_cons. cbn [span_spaces]. change (is_space 45) with false. cbn iota.
    rewrite bind_ret_l. cbn [drop deref]. rewrite bind_ret_l. change ((45 =? 43) || (45 =? 45)) with true. cbn iota.
    cbn [Nat.add drop]. rewrite ?drop_0, Hs, bind_ret_l. cbn [Z.eqb Pos.eqb].
    rewrite bool_decide_eq_false_2 by (rewrite E; done). rewrite Z.opp_involutive.
    destruct (Z.ltb_spec n (- 2 ^ 63)); [lia|]. destruct (Z.leb_spec (2 ^ 63) n); [lia|]. done.
  - destruct (Hd n ltac:(lia)) as (c & l & E & Hc & Hs). rewrite E in *. cbn [app span_spaces]. unfold is_space.
    rewrite (proj2 (Z.eqb_neq c 32)), (proj2 (Z.leb_gt c 13)), andb_false_r by lia. cbn [orb].
    rewrite bind_ret_l. cbn [drop deref]. rewrite bind_ret_l.
    rewrite (proj2 (Z.eqb_neq c 43)), (proj2 (Z.eqb_neq c 45)) by lia. cbn [orb Nat.add].
    rewrite ?drop_0. cbn [app] in Hs. rewrite Hs, bind_ret_l. rewrite bool_decide_eq_false_2 by done.
    destruct (Z.ltb_spec n (- 2 ^ 63)); [lia|]. destruct (Z.leb_spec (2 ^ 63) n); [lia|]. done.
Qed.

Lemma parse_int_dec n max q :
  - 2 ^ 63 <= n < 2 ^ 63 -> n <= max ->
  ntb_key_value_parse_int_value (dec_signed n ++ 0 :: q) max = Ok n.
Proof.
  intros Hn Hm. unfold ntb_key_value_parse_int_value. rewrite strtoll_dec, bind_ret_l by done.
  rewrite drop_app_length. cbn [deref]. rewrite bind_ret_l. cbn [orb negb Z.eqb].
  rewrite bool_decide_eq_false_2.
  - cbn [orb]. by destruct (Z.ltb_spec max n); [lia|].
  - unfold dec_signed. destruct (n <? 0); [done|]. destruct (dec_nonempty n) as (c & l & ->). done.
Qed.

(** C37: loading a file reports, whatever its bytes are, exactly the events of
    reading it line by line: a header for every line with a bracketed name, a
    property for every line with an equals sign behind a key once a header was
    seen, the value without the spaces around it, each with its line number and in
    order; other lines are skipped. *)
Theorem key_value_load_lines {U} (func : ntb_key_value_event -> U -> U) file u :
  bytes file -> zlen file < 2 ^ 31 - 2 ->
  ntb_key_value_load func file u = Ok (fold_left (fun u e => func e u) (kv_events file) u).
Proof. apply load_events. Qed.

Lemma key_value_load_lines_witness :
  ntb_key_value_load (fun e u => u ++ [e]) (str_bytes "[a]x=y") [] = Ok [NTB_KEY_VALUE_EVENT_HEADER 1 (str_bytes "a")].
Proof.
  apply (key_value_load_lines (fun e u => u ++ [e]) (str_bytes "[a]x=y") []).
  - apply (bool_decide_unpack _). vm_compute. exact I.
  - vm_compute. reflexivity.
Defined.
