(* ===== verification/Pow.v ===== *)
(** * Pow: the proof of work of an object (ntb-pow.c)

    The target of an object of some length, the check of a received object and
    the test a worker makes for a nonce. The threads that search for nonces are in
    [PowThreads]. *)

From S2P Require Import Prelude Endian Buffer NetAddress OpenSSL Proto.

(** Unsigned 64-bit arithmetic throughout; a zero divisor traps. *)
Definition calculate_target (length payload_extra_bytes average_trials_per_byte : Z) :
    result unit Z :=
  let two_63 := 0x8000000000000000 in
  let divisor := u64 (u64 (length + u64 payload_extra_bytes) * u64 average_trials_per_byte) in
  if divisor =? 0 then UB
  else
    let target := u64 (two_63 / divisor * 2) in
    Ok (if divisor <=? u64 (two_63 mod divisor * 2) then u64 (target + 1) else target).

Section pow.
Context `{Digests}.

(** The first eight bytes of a digest as a big-endian number. *)
Definition pow_value (hash2 : list Z) : Z :=
  NTB_UINT64_FROM_BE host (native_load host (take 8 hash2)).

Definition ntb_pow_check (payload : ptr) (length payload_extra_bytes average_trials_per_byte : Z) :
    result unit bool :=
  _ ← c_assert (8 <=? length);
  nonce ← read_bytes 8 payload;
  rest ← read_bytes (Z.to_nat (u64 (length - 8))) (drop 8 payload);
  let hash1 := SHA512 (nonce ++ SHA512 rest) in
  let hash2 := SHA512 hash1 in
  target ← calculate_target length payload_extra_bytes average_trials_per_byte;
  Ok (pow_value hash2 <=? target).

(** The body of the search loop: the test of one nonce against the hash of the
    payload. *)
Definition try_nonce (hash : list Z) (target nonce : Z) : bool :=
  let nonce_be := native_store host 8 (NTB_UINT64_TO_BE host nonce) in
  let hash1 := SHA512 (nonce_be ++ hash) in
  let hash2 := SHA512 hash1 in
  pow_value hash2 <=? target.
End pow.

Lemma calculate_target_spec len extra trials :
  0 <= len -> 0 <= extra < 2 ^ 31 -> 0 <= trials < 2 ^ 31 ->
  1 < (len + extra) * trials <= 2 ^ 63 ->
  calculate_target len extra trials = Ok (2 ^ 64 / ((len + extra) * trials)).
Proof.
  intros Hl He Ht Hd. unfold calculate_target.
  assert (1 <= trials) by (destruct (Z.eq_dec trials 0); [subst; lia|lia]).
  assert (Hs : len + extra <= 2 ^ 63) by nia.
  rewrite (u64_small extra), (u64_small trials), (u64_small (len + extra)), u64_small by lia.
  set (d := (len + extra) * trials) in *. change 0x8000000000000000 with (2 ^ 63).
  rewrite (proj2 (Z.eqb_neq d 0)) by lia.
  pose proof (Z.div_mod (2 ^ 63) d ltac:(lia)) as Hdm.
  pose proof (Z.mod_pos_bound (2 ^ 63) d ltac:(lia)) as Hm.
  assert (Hq : 2 ^ 63 / d <= 2 ^ 62) by (apply Z.div_le_upper_bound; lia).
  assert (0 <= 2 ^ 63 / d) by (apply Z.div_pos; lia).
  rewrite (u64_small (2 ^ 63 / d * 2)), (u64_small (2 ^ 63 mod d * 2)) by lia.
  destruct (Z.leb_spec d (2 ^ 63 mod d * 2)) as [Hc|Hc].
  - rewrite u64_small by lia. f_equal.
    rewrite (Z.div_unique_pos (2 ^ 64) d (2 ^ 63 / d * 2 + 1) (2 ^ 63 mod d * 2 - d)); lia.
  - f_equal. rewrite (Z.div_unique_pos (2 ^ 64) d (2 ^ 63 / d * 2) (2 ^ 63 mod d * 2)); lia.
Qed.

Section laws.
Context `{DigestLaws}.

Lemma pow_value_spec l : pow_value (SHA512 l) = be_combine (take 8 (SHA512 l)).
Proof.
  apply uint64_from_be_load.
  - rewrite length_take, SHA512_length. done.
  - apply bytes_take, SHA512_bytes.
Qed.

Lemma pow_check_run payload length extra trials :
  8 <= length <= zlen payload -> length < 2 ^ 64 ->
  ntb_pow_check payload length extra trials =
  target ← calculate_target length extra trials;
  Ok (be_combine (take 8 (SHA512 (SHA512 (take 8 payload ++
        SHA512 (take (Z.to_nat (length - 8)) (drop 8 payload)))))) <=? target).
Proof.
  unfold zlen. intros Hl Hr. unfold ntb_pow_check. rewrite (proj2 (Z.leb_le 8 length)) by lia.
  unfold c_assert. cbn iota. rewrite bind_ret_l, (read_bytes_Ok 8), bind_ret_l by lia.
  rewrite (u64_small (length - 8)), read_bytes_Ok, bind_ret_l by (rewrite ?length_drop; lia).
  by rewrite pow_value_spec.
Qed.

(** A nonce the search accepts makes an object the check accepts. *)
Lemma try_nonce_check payload nonce extra trials target :
  0 <= nonce < 2 ^ 64 -> zlen payload + 8 < 2 ^ 64 ->
  calculate_target (zlen payload + 8) extra trials = Ok target ->
  ntb_pow_check (be_split 8 nonce ++ payload) (zlen payload + 8) extra trials =
  Ok (try_nonce (SHA512 payload) target nonce).
Proof.
  intros Hn Hl Ht. pose proof (zlen_nonneg payload).
  assert (Hs : length (be_split 8 nonce) = 8%nat) by apply length_be_split.
  rewrite pow_check_run by zlia. rewrite Ht, bind_ret_l.
  rewrite (take_app_length' _ _ 8), (drop_app_length' _ _ 8) by done. unfold try_nonce.
  rewrite uint64_store_to_be, pow_value_spec by done. do 3 f_equal.
  replace (Z.to_nat (zlen payload + 8 - 8)) with (length payload) by (unfold zlen; lia).
  by rewrite firstn_all.
Qed.
End laws.

(** An object of at least eight bytes passes the check exactly when the
    first 64 bits of the double SHA-512 of its nonce and the digest of the rest,
    read as a big-endian number, do not exceed 2^64 divided by the demanded number
    of trials; the two divisions of 2^63 in the code compute this quotient. *)
Theorem pow_check_spec `{DigestLaws} payload length extra trials :
  8 <= length <= zlen payload -> 0 <= extra < 2 ^ 31 -> 0 <= trials < 2 ^ 31 ->
  1 < (length + extra) * trials <= 2 ^ 63 ->
  ntb_pow_check payload length extra trials =
  Ok (be_combine (take 8 (SHA512 (SHA512 (take 8 payload ++
        SHA512 (take (Z.to_nat (length - 8)) (drop 8 payload))))))
      <=? 2 ^ 64 / ((length + extra) * trials)).
Proof.
  intros Hl He Ht Hd.
  assert (1 <= trials) by (destruct (Z.eq_dec trials 0); [subst; lia|lia]).
  rewrite pow_check_run by nia.
  by rewrite calculate_target_spec, bind_ret_l by lia.
Qed.

#[local] Existing Instances Digests_toy DigestLaws_toy.

Lemma pow_check_spec_witness :
  let payload := replicate 20 7 in
  ntb_pow_check payload 20 NTB_PROTO_MIN_EXTRA_BYTES NTB_PROTO_MIN_NONCE_TRIALS_PER_BYTE =
  Ok (be_combine (take 8 (SHA512 (SHA512 (take 8 payload ++
        SHA512 (take (Z.to_nat (20 - 8)) (drop 8 payload))))))
      <=? 2 ^ 64 / ((20 + NTB_PROTO_MIN_EXTRA_BYTES) * NTB_PROTO_MIN_NONCE_TRIALS_PER_BYTE)).
Proof. apply pow_check_spec; vm_compute; split; congruence. Defined.
