(* ===== verification/PowThreads.v ===== *)
(** * PowThreads: the threads that search for proofs of work (ntb-pow.c)

    The state has the memory of the cookies, the queue of the cookies that wait for a
    thread, the idle sources of the main loop and where each thread is. A thread is a
    step function that stops where the mutex is released or taken; the functions of
    the main thread hold the mutex throughout. *)

From S2P Require Import Prelude Endian Buffer NetAddress OpenSSL Proto Pow.

Definition NTB_POW_NONCES_PER_CHECK : nat := 4096.

Section pow_threads.
Context `{Digests}.

(** The function and the data of a cookie are its identity here. *)
Record ntb_pow_cookie := PowCookie {
  pc_ref_count : Z;
  pc_next_nonce_offset : Z;
  pc_hash : list Z;
  pc_target : Z;
  (** Not set before the cookie is done. *)
  pc_nonce : option Z;
  pc_done : bool;
  (** [idle_source] is not [NULL] *)
  pc_idle : bool
}.

Definition pc_add_ref (n : Z) (ck : ntb_pow_cookie) : ntb_pow_cookie :=
  PowCookie (pc_ref_count ck + n) (pc_next_nonce_offset ck) (pc_hash ck) (pc_target ck) (pc_nonce ck) (pc_done ck) (pc_idle ck).
Definition pc_next_offset (ck : ntb_pow_cookie) : ntb_pow_cookie :=
  PowCookie (pc_ref_count ck) (pc_next_nonce_offset ck + 1) (pc_hash ck) (pc_target ck) (pc_nonce ck) (pc_done ck) (pc_idle ck).
Definition pc_solved (nonce : Z) (ck : ntb_pow_cookie) : ntb_pow_cookie :=
  PowCookie (pc_ref_count ck) (pc_next_nonce_offset ck) (pc_hash ck) (pc_target ck) (Some nonce) true true.
Definition pc_set_idle (v : bool) (ck : ntb_pow_cookie) : ntb_pow_cookie :=
  PowCookie (pc_ref_count ck) (pc_next_nonce_offset ck) (pc_hash ck) (pc_target ck) (pc_nonce ck) (pc_done ck) v.
Definition pc_set_done (v : bool) (ck : ntb_pow_cookie) : ntb_pow_cookie :=
  PowCookie (pc_ref_count ck) (pc_next_nonce_offset ck) (pc_hash ck) (pc_target ck) (pc_nonce ck) v (pc_idle ck).

(** Where a thread is. *)
Inductive pow_thread :=
(** about to take the mutex at the head of its loop, or holding it there *)
| PowReady
(** in [pthread_cond_wait] *)
| PowWaiting
(** before the loop over the next nonces, without the mutex *)
| PowSearching (c : nat) (nonce : Z)
(** before [set_solution] takes the mutex *)
| PowFound (c : nat) (nonce : Z)
(** before the condition of the loop of [find_nonce] *)
| PowSearched (c : nat) (nonce : Z)
| PowExited.

Record ntb_pow := NtbPow {
  pw_n_threads : Z;
  pw_threads : list pow_thread;
  pw_queue : list nat;
  pw_quit : bool;
  pw_cookies : gmap nat ntb_pow_cookie;
  pw_n_cookies : nat;
  (** the cookies of the idle sources that the main loop has *)
  pw_sources : list nat
}.

Definition pw_set_threads (v : list pow_thread) (s : ntb_pow) : ntb_pow :=
  NtbPow (pw_n_threads s) v (pw_queue s) (pw_quit s) (pw_cookies s) (pw_n_cookies s) (pw_sources s).
Definition pw_set_queue (v : list nat) (s : ntb_pow) : ntb_pow :=
  NtbPow (pw_n_threads s) (pw_threads s) v (pw_quit s) (pw_cookies s) (pw_n_cookies s) (pw_sources s).
Definition pw_set_quit (v : bool) (s : ntb_pow) : ntb_pow :=
  NtbPow (pw_n_threads s) (pw_threads s) (pw_queue s) v (pw_cookies s) (pw_n_cookies s) (pw_sources s).
Definition pw_set_cookies (v : gmap nat ntb_pow_cookie) (s : ntb_pow) : ntb_pow :=
  NtbPow (pw_n_threads s) (pw_threads s) (pw_queue s) (pw_quit s) v (pw_n_cookies s) (pw_sources s).
Definition pw_set_n_cookies (v : nat) (s : ntb_pow) : ntb_pow :=
  NtbPow (pw_n_threads s) (pw_threads s) (pw_queue s) (pw_quit s) (pw_cookies s) v (pw_sources s).
Definition pw_set_sources (v : list nat) (s : ntb_pow) : ntb_pow :=
  NtbPow (pw_n_threads s) (pw_threads s) (pw_queue s) (pw_quit s) (pw_cookies s) (pw_n_cookies s) v.

Definition pw_at (i : nat) (t : pow_thread) (s : ntb_pow) : ntb_pow := pw_set_threads (<[i := t]> (pw_threads s)) s.

(** [ntb_cpus_count] is the argument. *)
Definition ntb_pow_new (n_threads : nat) : ntb_pow :=
  NtbPow (Z.of_nat n_threads) (replicate n_threads PowReady) [] false ∅ 0 [].

(** ** Cookies *)

(** An access to a cookie that was freed is undefined. *)
Definition pow_cookie (c : nat) (s : ntb_pow) : result unit ntb_pow_cookie :=
  match pw_cookies s !! c with Some ck => Ok ck | None => UB end.
Definition pow_update (c : nat) (ck : ntb_pow_cookie) (s : ntb_pow) : ntb_pow := pw_set_cookies (<[c := ck]> (pw_cookies s)) s.

Definition unref_cookie (c : nat) (s : ntb_pow) : result unit ntb_pow :=
  ck ← pow_cookie c s;
  let ck := pc_add_ref (-1) ck in
  Ok (if pc_ref_count ck <=? 0 then pw_set_cookies (delete c (pw_cookies s)) s else pow_update c ck s).

(** The links of a cookie that is not in the queue are [NULL]. *)
Definition remove_queued_cookie (c : nat) (s : ntb_pow) : result unit ntb_pow :=
  if decide (c ∈ pw_queue s) then unref_cookie c (pw_set_queue (filter (.≠ c) (pw_queue s)) s) else UB.

(** [pthread_cond_broadcast]: the threads that wait compete for the mutex. *)
Definition pow_broadcast (s : ntb_pow) : ntb_pow :=
  pw_set_threads ((fun t => match t with PowWaiting => PowReady | _ => t end) <$> pw_threads s) s.

Definition ntb_main_context_add_idle (c : nat) (s : ntb_pow) : ntb_pow := pw_set_sources (pw_sources s ++ [c]) s.
(** A source that was removed is freed. *)
Definition ntb_main_context_remove_source (c : nat) (s : ntb_pow) : result unit ntb_pow :=
  if decide (c ∈ pw_sources s) then Ok (pw_set_sources (filter (.≠ c) (pw_sources s)) s) else UB.

(** ** The main thread *)

(** A new cookie is inserted behind the first of the queue. *)
Definition ntb_list_insert_second (c : nat) (queue : list nat) : list nat :=
  match queue with [] => [c] | first :: queue => first :: c :: queue end.

Definition ntb_pow_calculate (payload : list Z) (payload_extra_bytes average_trials_per_byte : Z) (s : ntb_pow) :
    result unit (nat * ntb_pow) :=
  target ← calculate_target (u64 (zlen payload + 8)) payload_extra_bytes average_trials_per_byte;
  let c := pw_n_cookies s in
  let s := pow_update c (PowCookie 2 0 (SHA512 payload) target None false false) s in
  Ok (c, pow_broadcast (pw_set_queue (ntb_list_insert_second c (pw_queue s)) (pw_set_n_cookies (S c) s))).

Definition ntb_pow_cancel (c : nat) (s : ntb_pow) : result unit ntb_pow :=
  ck ← pow_cookie c s;
  s ← (if pc_next_nonce_offset ck <? pw_n_threads s then remove_queued_cookie c s else Ok s);
  ck ← pow_cookie c s;
  s ← (if pc_idle ck
       then s ← ntb_main_context_remove_source c s; unref_cookie c (pow_update c (pc_set_idle false ck) s)
       else Ok s);
  ck ← pow_cookie c s;
  unref_cookie c (pow_update c (pc_set_done true ck) s).

(** The main loop calls this for an idle source; the result is what the function of
    the cookie is called with. An indeterminate nonce is undefined. *)
Definition idle_cb (c : nat) (s : ntb_pow) : result unit (Z * ntb_pow) :=
  ck ← pow_cookie c s;
  nonce ← (match pc_nonce ck with Some nonce => Ok nonce | None => UB end);
  s ← ntb_main_context_remove_source c s;
  s ← unref_cookie c (pow_update c (pc_set_idle false ck) s);
  s ← unref_cookie c s;
  Ok (nonce, s).

(** [ntb_pow_free] before and after it has joined the threads. *)
Definition ntb_pow_free_begin (s : ntb_pow) : ntb_pow := pow_broadcast (pw_set_quit true s).

Fixpoint remove_queued_cookies (queue : list nat) (s : ntb_pow) : result unit ntb_pow :=
  match queue with
  | [] => Ok s
  | c :: queue => s ← remove_queued_cookie c s; remove_queued_cookies queue s
  end.
Definition ntb_pow_free_end (s : ntb_pow) : result unit ntb_pow := remove_queued_cookies (pw_queue s) s.

(** ** The threads *)

Definition set_solution (c : nat) (nonce : Z) (s : ntb_pow) : result unit ntb_pow :=
  ck ← pow_cookie c s;
  Ok (if pc_done ck then s
      else ntb_main_context_add_idle c (pow_update c (pc_add_ref 1 (pc_solved nonce ck)) s)).

(** The loop over [n] nonces: the nonce that solves the task, or the next to try. *)
Fixpoint try_nonces (n : nat) (hash : list Z) (target n_threads nonce : Z) : bool * Z :=
  match n with
  | O => (false, nonce)
  | S n =>
      if try_nonce hash target nonce then (true, nonce)
      else try_nonces n hash target n_threads (u64 (nonce + n_threads))
  end.

(** The condition of the loop of [find_nonce]. *)
Definition find_nonce_continues (c : nat) (s : ntb_pow) : result unit bool :=
  ck ← pow_cookie c s; Ok (negb (pc_done ck) && negb (pw_quit s)).

(** The start of a thread's pass: the first cookie of the queue and the nonce of
    its next offset. *)
Definition take_cookie (i c : nat) (s : ntb_pow) : result unit (Z * ntb_pow) :=
  ck ← pow_cookie c s;
  let nonce := u64 (pc_next_nonce_offset ck) in
  let ck := pc_next_offset (pc_add_ref 1 ck) in
  let s := pw_at i (PowSearched c nonce) (pow_update c ck s) in
  s ← (if pw_n_threads s <=? pc_next_nonce_offset ck then remove_queued_cookie c s else Ok s);
  Ok (nonce, s).

(** The loop of [thread_func] while it holds the mutex. *)
Fixpoint thread_loop (fuel : nat) (i : nat) (s : ntb_pow) : result unit ntb_pow :=
  match fuel with
  | O => OutOfFuel
  | S fuel =>
      if pw_quit s then Ok (pw_at i PowExited s)
      else
        match pw_queue s with
        | [] => Ok (pw_at i PowWaiting s)
        | c :: _ =>
            '(nonce, s) ← take_cookie i c s;
            continues ← find_nonce_continues c s;
            if continues : bool then Ok (pw_at i (PowSearching c nonce) s)
            else s ← unref_cookie c (pw_at i PowReady s); thread_loop fuel i s
        end
  end.

(** Each cookie of the queue is taken at most once per thread. *)
Definition loop_fuel (s : ntb_pow) : nat := S (length (pw_queue s) * Z.to_nat (pw_n_threads s)).
Definition thread_func (i : nat) (s : ntb_pow) : result unit ntb_pow := thread_loop (loop_fuel s) i s.

(** A step of the thread [i]; [None] when it waits or has returned. *)
Definition pow_thread_step (i : nat) (s : ntb_pow) : result unit (option ntb_pow) :=
  match pw_threads s !! i with
  | Some PowReady => s ← thread_func i s; Ok (Some s)
  | Some (PowSearching c nonce) =>
      ck ← pow_cookie c s;
      Ok (Some (match try_nonces NTB_POW_NONCES_PER_CHECK (pc_hash ck) (pc_target ck) (pw_n_threads s) nonce with
                | (true, nonce) => pw_at i (PowFound c nonce) s
                | (false, nonce) => pw_at i (PowSearched c nonce) s
                end))
  | Some (PowFound c nonce) => s ← set_solution c nonce s; Ok (Some (pw_at i (PowSearched c nonce) s))
  | Some (PowSearched c nonce) =>
      continues ← find_nonce_continues c s;
      if continues : bool then Ok (Some (pw_at i (PowSearching c nonce) s))
      else s ← unref_cookie c (pw_at i PowReady s); s ← thread_func i s; Ok (Some s)
  | Some PowWaiting | Some PowExited | None => Ok None
  end.

(** The threads run in the order [sched], each to its next stop. *)
Fixpoint pow_run (sched : list nat) (s : ntb_pow) : result unit ntb_pow :=
  match sched with
  | [] => Ok s
  | i :: sched => r ← pow_thread_step i s; pow_run sched (default s r)
  end.
End pow_threads.
