(* ===== verification/PowThreadsSpec.v ===== *)
(** * PowThreadsSpec: cookies, nonces and the end of the threads (for [PowThreads])

    A run interleaves calls of the main thread, idle callbacks and steps of the
    threads. The invariant says that the reference count of a cookie is the number of
    its references, and what the threads know about the nonces they have tried. *)

From S2P Require Import Prelude Endian Buffer NetAddress OpenSSL Proto Pow PowThreads.

(** ** Runs *)

Inductive pow_event :=
| PowCalculate (c : nat) (payload : list Z) (payload_extra_bytes average_trials_per_byte : Z)
| PowCancel (c : nat)
| PowCallback (c : nat) (nonce : Z).

(** The cookies the main thread holds after a history, the latest event first. *)
Fixpoint outstanding (tr : list pow_event) : gset nat :=
  match tr with
  | [] => ∅
  | PowCalculate c _ _ _ :: tr => {[c]} ∪ outstanding tr
  | (PowCancel c | PowCallback c _) :: tr => outstanding tr ∖ {[c]}
  end.

(** The cookies that were given back, by a call or by the callback. *)
Definition ended (tr : list pow_event) : list nat :=
  omap (fun e => match e with PowCancel c | PowCallback c _ => Some c | PowCalculate _ _ _ _ => None end) tr.

Section pow_threads.
Context `{DigestLaws}.

(** The main thread may cancel the cookies it holds; the main loop runs the idle
    sources it has; a thread runs whenever it does not wait, and one that waits may
    be woken without a reason. *)
Inductive pow_exec (n : nat) : list pow_event -> ntb_pow -> Prop :=
| exec_new : pow_exec n [] (ntb_pow_new n)
| exec_calculate tr s payload extra trials c s' :
    pow_exec n tr s -> zlen payload + 8 < 2 ^ 64 -> ntb_pow_calculate payload extra trials s = Ok (c, s') ->
    pow_exec n (PowCalculate c payload extra trials :: tr) s'
| exec_cancel tr s c s' :
    pow_exec n tr s -> c ∈ outstanding tr -> ntb_pow_cancel c s = Ok s' -> pow_exec n (PowCancel c :: tr) s'
| exec_idle tr s c nonce s' :
    pow_exec n tr s -> c ∈ pw_sources s -> idle_cb c s = Ok (nonce, s') -> pow_exec n (PowCallback c nonce :: tr) s'
| exec_thread tr s i s' :
    pow_exec n tr s -> pow_thread_step i s = Ok (Some s') -> pow_exec n tr s'
| exec_spurious tr s i :
    pow_exec n tr s -> pw_threads s !! i = Some PowWaiting -> pow_exec n tr (pw_at i PowReady s).

(** What a thread with some offset has tried: the first nonces of its sequence. *)
Definition nonce_of (n k j : Z) : Z := u64 (k + j * n).
Definition tried (hash : list Z) (target n nonce : Z) : Prop :=
  exists k j, 0 <= k < n /\ 0 <= j /\ nonce = nonce_of n k j /\
    forall j', 0 <= j' < j -> try_nonce hash target (nonce_of n k j') = false.
Definition solved (hash : list Z) (target n nonce : Z) : Prop :=
  tried hash target n nonce /\ try_nonce hash target nonce = true.

Lemma exec_run n tr sched : forall s s', pow_exec n tr s -> pow_run sched s = Ok s' -> pow_exec n tr s'.
Proof.
  induction sched as [|i sched IH]; intros s s' He; cbn [pow_run]; [by intros [= <-]|].
  destruct (pow_thread_step i s) as [[s1|]| | |] eqn:E; rewrite ?bind_ret_l; try discriminate; apply IH; [|done].
  by eapply exec_thread.
Qed.

(** ** References *)

Definition at_cookie (c : nat) (t : pow_thread) : Z :=
  match t with
  | PowSearching c' _ | PowFound c' _ | PowSearched c' _ => if decide (c' = c) then 1 else 0
  | _ => 0
  end.
Fixpoint thread_refs (c : nat) (ts : list pow_thread) : Z :=
  match ts with [] => 0 | t :: ts => at_cookie c t + thread_refs c ts end.

Lemma at_cookie_range c t : 0 <= at_cookie c t <= 1.
Proof. destruct t; cbn; try case_decide; lia. Qed.
Lemma thread_refs_nonneg c ts : 0 <= thread_refs c ts.
Proof. induction ts as [|t ts IH]; cbn; [lia|]. pose proof (at_cookie_range c t). lia. Qed.
Lemma thread_refs_insert c ts : forall i t t',
  ts !! i = Some t -> thread_refs c (<[i := t']> ts) = thread_refs c ts - at_cookie c t + at_cookie c t'.
Proof.
  induction ts as [|u ts IH]; intros [|i] t t' E; [done..| |]; cbn in *.
  - simplify_eq. lia.
  - rewrite (IH _ _ _ E). lia.
Qed.
Lemma thread_refs_lookup c ts : forall i t, ts !! i = Some t -> at_cookie c t <= thread_refs c ts.
Proof.
  induction ts as [|u ts IH]; intros [|i] t E; [done..| |]; cbn in *.
  - simplify_eq. pose proof (thread_refs_nonneg c ts). lia.
  - specialize (IH _ _ E). pose proof (at_cookie_range c u). lia.
Qed.
Definition wake (t : pow_thread) : pow_thread := match t with PowWaiting => PowReady | _ => t end.
Lemma thread_refs_wake c ts : thread_refs c (wake <$> ts) = thread_refs c ts.
Proof. induction ts as [|[] ts IH]; cbn; rewrite ?IH; done. Qed.
Lemma thread_refs_ready c n : thread_refs c (replicate n PowReady) = 0.
Proof. induction n as [|n IH]; [done|]. exact IH. Qed.

Lemma thread_refs_exited c ts : Forall (eq PowExited) ts -> thread_refs c ts = 0.
Proof. induction 1 as [|t ts <- _ IH]; [done|]. exact IH. Qed.

(** One cookie: [held] by the main thread, [queued], with a [source], referred to by
    [refs] threads and [asked] for with a hash and a target. *)
Definition cookie_ok (n : Z) (asked : list Z -> Z -> Prop) (held queued source : bool) (refs : Z) (mck : option ntb_pow_cookie) : Prop :=
  match mck with
  | Some ck =>
      pc_ref_count ck = Z.b2z held + Z.b2z queued + Z.b2z source + refs /\ 0 < pc_ref_count ck /\
      (0 <= pc_next_nonce_offset ck <= n) /\
      (queued = true -> pc_next_nonce_offset ck < n) /\ (held = true -> pc_next_nonce_offset ck < n -> queued = true) /\
      (pc_done ck = false -> held = true /\ source = false) /\ (held = true -> pc_done ck = true -> source = true) /\
      (source = true -> held = true) /\
      pc_idle ck = source /\ asked (pc_hash ck) (pc_target ck) /\
      (source = true -> exists nonce, pc_nonce ck = Some nonce /\ solved (pc_hash ck) (pc_target ck) n nonce)
  | None => held = false /\ queued = false /\ source = false /\ refs = 0
  end.

Definition thread_ok (s : ntb_pow) (t : pow_thread) : Prop :=
  match t with
  | PowWaiting => pw_queue s = [] /\ pw_quit s = false
  | PowSearching c nonce => forall ck, pw_cookies s !! c = Some ck -> tried (pc_hash ck) (pc_target ck) (pw_n_threads s) nonce
  | PowFound c nonce => forall ck, pw_cookies s !! c = Some ck -> solved (pc_hash ck) (pc_target ck) (pw_n_threads s) nonce
  | PowSearched c nonce => forall ck, pw_cookies s !! c = Some ck ->
      pc_done ck = true \/ tried (pc_hash ck) (pc_target ck) (pw_n_threads s) nonce
  | PowReady | PowExited => True
  end.

Implicit Types (s : ntb_pow) (c i : nat).
Notation asks := (nat -> list Z -> Z -> Prop).

Definition cookie_inv (hs : gset nat) (A : asks) s c : Prop :=
  cookie_ok (pw_n_threads s) (A c) (bool_decide (c ∈ hs)) (bool_decide (c ∈ pw_queue s)) (bool_decide (c ∈ pw_sources s))
    (thread_refs c (pw_threads s)) (pw_cookies s !! c).

Record pow_inv (n : nat) (hs : gset nat) (A : asks) s : Prop := PowInv {
  pi_n : pw_n_threads s = Z.of_nat n;
  pi_length : length (pw_threads s) = n;
  pi_queue : NoDup (pw_queue s);
  pi_cookies : forall c, cookie_inv hs A s c;
  pi_threads : forall i t, pw_threads s !! i = Some t -> thread_ok s t;
  pi_new : forall c, (pw_n_cookies s <= c)%nat -> pw_cookies s !! c = None;
  pi_used : forall c h tg, A c h tg -> (c < pw_n_cookies s)%nat
}.

Lemma pow_inv_new n (A : asks) : (forall c h tg, ~ A c h tg) -> pow_inv n ∅ A (ntb_pow_new n).
Proof.
  intros HA. split; cbn; [done|apply length_replicate|constructor| |intros i t E|done|intros c h tg HA'; by destruct (HA c h tg)].
  - intros c. unfold cookie_inv. cbn. rewrite thread_refs_ready, !bool_decide_eq_false_2 by set_solver. done.
  - apply lookup_replicate in E as [-> _]. done.
Qed.

(** A step that touches one cookie. *)
Lemma inv_change c n hs hs' A A' s s' :
  pow_inv n hs A s ->
  pw_n_threads s' = pw_n_threads s -> length (pw_threads s') = length (pw_threads s) -> NoDup (pw_queue s') ->
  (forall c', c' <> c -> pw_cookies s' !! c' = pw_cookies s !! c' /\ (c' ∈ hs' <-> c' ∈ hs) /\
     (c' ∈ pw_queue s' <-> c' ∈ pw_queue s) /\ (c' ∈ pw_sources s' <-> c' ∈ pw_sources s) /\
     thread_refs c' (pw_threads s') = thread_refs c' (pw_threads s)) ->
  (forall c' h tg, A c' h tg -> A' c' h tg) ->
  cookie_inv hs' A' s' c ->
  (forall i t, pw_threads s' !! i = Some t -> thread_ok s' t) ->
  (forall c', (pw_n_cookies s' <= c')%nat -> pw_cookies s' !! c' = None) ->
  (forall c h tg, A' c h tg -> (c < pw_n_cookies s')%nat) ->
  pow_inv n hs' A' s'.
Proof.
  intros [En El Hq Hc Ht Hn _] En' El' Hq' Hf HA Hc' Ht' Hn' Hu'. split; [congruence..|done| |done|done|done].
  intros c'. destruct (decide (c' = c)) as [->|Hne]; [done|]. destruct (Hf c' Hne) as (E1 & E2 & E3 & E4 & E5).
  specialize (Hc c'). unfold cookie_inv in *. rewrite En', E1, E5, (bool_decide_ext _ _ E2), (bool_decide_ext _ _ E3), (bool_decide_ext _ _ E4).
  unfold cookie_ok in *. destruct (pw_cookies s !! c'); [|done]. naive_solver.
Qed.

(** The same for a cookie in memory, when no cookie is new. *)
Lemma inv_step c ck n hs hs' A s s' :
  pow_inv n hs A s -> pw_cookies s !! c = Some ck ->
  pw_n_threads s' = pw_n_threads s -> length (pw_threads s') = length (pw_threads s) -> pw_n_cookies s' = pw_n_cookies s ->
  NoDup (pw_queue s') ->
  (forall c', c' <> c -> pw_cookies s' !! c' = pw_cookies s !! c' /\ (c' ∈ hs' <-> c' ∈ hs) /\
     (c' ∈ pw_queue s' <-> c' ∈ pw_queue s) /\ (c' ∈ pw_sources s' <-> c' ∈ pw_sources s) /\
     thread_refs c' (pw_threads s') = thread_refs c' (pw_threads s)) ->
  cookie_inv hs' A s' c ->
  (forall i t, pw_threads s' !! i = Some t -> thread_ok s' t) ->
  pow_inv n hs' A s'.
Proof.
  intros Hi Ec En El Enc Hq Hf Hc Ht. apply (inv_change c n hs hs' A A s); try done.
  - intros c'. rewrite Enc. intros Hl. destruct (decide (c' = c)) as [->|Hne]; [by rewrite (pi_new _ _ _ _ Hi c Hl) in Ec|].
    destruct (Hf c' Hne) as [-> _]. by apply Hi.
  - intros c' h tg. rewrite Enc. apply Hi.
Qed.

(** The threads that a step leaves where they are. *)
Lemma thread_ok_kept c s s' t :
  thread_ok s t -> pw_n_threads s' = pw_n_threads s ->
  (forall c', c' <> c -> pw_cookies s' !! c' = pw_cookies s !! c') ->
  (forall ck', pw_cookies s' !! c = Some ck' -> at_cookie c t = 0 \/
     exists ck, pw_cookies s !! c = Some ck /\ pc_hash ck' = pc_hash ck /\ pc_target ck' = pc_target ck /\ (pc_done ck = true -> pc_done ck' = true)) ->
  (t = PowWaiting -> thread_ok s' t) -> thread_ok s' t.
Proof.
  intros Ht En Hf Hc Hw. destruct t as [| |c' v|c' v|c' v|]; cbn [thread_ok at_cookie] in *; try done; [by apply Hw|..];
    rewrite En; intros ck' E; (destruct (decide (c' = c)) as [->|Hne]; [|rewrite Hf in E by done; by apply Ht]);
    destruct (Hc _ E) as [?|(ck & E' & -> & -> & Hd)]; [done|by apply Ht|done|by apply Ht|done|];
    destruct (Ht _ E'); auto.
Qed.

(** ** Dropping references *)

Lemma pow_cookie_ok c ck s : pw_cookies s !! c = Some ck -> pow_cookie c s = Ok ck.
Proof. unfold pow_cookie. by intros ->. Qed.

(** The memory of the cookies after the last step of [unref_cookie]. *)
Definition dropped c (ck : ntb_pow_cookie) s : ntb_pow :=
  if pc_ref_count ck - 1 <=? 0 then pw_set_cookies (delete c (pw_cookies s)) s else pow_update c (pc_add_ref (-1) ck) s.

Lemma unref_dropped c ck s : pw_cookies s !! c = Some ck -> unref_cookie c s = Ok (dropped c ck s).
Proof. intros E. unfold unref_cookie, pow_cookie. by rewrite E, bind_ret_l. Qed.
Lemma unref_kept c ck s :
  pw_cookies s !! c = Some ck -> 1 < pc_ref_count ck -> unref_cookie c s = Ok (pow_update c (pc_add_ref (-1) ck) s).
Proof. intros E Hr. rewrite (unref_dropped c ck) by done. unfold dropped. by rewrite (proj2 (Z.leb_gt _ _)) by lia. Qed.

Lemma dropped_fields c ck s :
  pw_n_threads (dropped c ck s) = pw_n_threads s /\ pw_threads (dropped c ck s) = pw_threads s /\
  pw_queue (dropped c ck s) = pw_queue s /\ pw_quit (dropped c ck s) = pw_quit s /\
  pw_n_cookies (dropped c ck s) = pw_n_cookies s /\ pw_sources (dropped c ck s) = pw_sources s.
Proof. unfold dropped. by case_match. Qed.
Lemma dropped_other c ck s c' : c' <> c -> pw_cookies (dropped c ck s) !! c' = pw_cookies s !! c'.
Proof. intros Hne. unfold dropped. case_match; cbn; [by rewrite lookup_delete_ne|by rewrite lookup_insert_ne]. Qed.
Lemma dropped_lookup c ck s :
  pw_cookies (dropped c ck s) !! c = if pc_ref_count ck - 1 <=? 0 then None else Some (pc_add_ref (-1) ck).
Proof. unfold dropped. case_match; cbn; [by rewrite lookup_delete_eq|by rewrite lookup_insert_eq]. Qed.

(** The cookie is released with its last reference. *)
Lemma dropped_ok n A h q src refs (ck : ntb_pow_cookie) :
  0 <= refs -> pc_ref_count ck - 1 = Z.b2z h + Z.b2z q + Z.b2z src + refs ->
  (0 < pc_ref_count ck - 1 -> cookie_ok n A h q src refs (Some (pc_add_ref (-1) ck))) ->
  cookie_ok n A h q src refs (if pc_ref_count ck - 1 <=? 0 then None else Some (pc_add_ref (-1) ck)).
Proof.
  intros Hr Er Hk. destruct (Z.leb_spec (pc_ref_count ck - 1) 0) as [Hle|Hlt]; [|by apply Hk].
  unfold cookie_ok. destruct h, q, src; cbn in Er; split_and!; done || lia.
Qed.

Lemma inv_held n hs A s c : pow_inv n hs A s -> c ∈ hs -> exists ck, pw_cookies s !! c = Some ck.
Proof.
  intros [_ _ _ Hc _ _] Hin. specialize (Hc c). unfold cookie_inv in Hc. rewrite (bool_decide_eq_true_2 (c ∈ hs)) in Hc by done.
  destruct (pw_cookies s !! c) as [ck|]; [by exists ck|]. by destruct Hc.
Qed.
Lemma inv_queued n hs A s c : pow_inv n hs A s -> c ∈ pw_queue s -> exists ck, pw_cookies s !! c = Some ck.
Proof.
  intros [_ _ _ Hc _ _] Hin. specialize (Hc c). unfold cookie_inv in Hc. rewrite (bool_decide_eq_true_2 (c ∈ pw_queue s)) in Hc by done.
  destruct (pw_cookies s !! c) as [ck|]; [by exists ck|]. by destruct Hc as (_ & ? & _).
Qed.
Lemma inv_source n hs A s c : pow_inv n hs A s -> c ∈ pw_sources s -> exists ck, pw_cookies s !! c = Some ck.
Proof.
  intros [_ _ _ Hc _ _] Hin. specialize (Hc c). unfold cookie_inv in Hc. rewrite (bool_decide_eq_true_2 (c ∈ pw_sources s)) in Hc by done.
  destruct (pw_cookies s !! c) as [ck|]; [by exists ck|]. by destruct Hc as (_ & _ & ? & _).
Qed.
Lemma inv_thread n hs A s c i t :
  pow_inv n hs A s -> pw_threads s !! i = Some t -> at_cookie c t = 1 -> exists ck, pw_cookies s !! c = Some ck.
Proof.
  intros [_ _ _ Hc _ _] Ei Et. specialize (Hc c). unfold cookie_inv in Hc. pose proof (thread_refs_lookup c _ _ _ Ei).
  destruct (pw_cookies s !! c) as [ck|]; [by exists ck|]. destruct Hc as (_ & _ & _ & ?). lia.
Qed.

(** ** The calls of the main thread *)

Lemma elem_of_insert_second c c' q : c' ∈ ntb_list_insert_second c q <-> c' = c \/ c' ∈ q.
Proof. destruct q as [|x q]; cbn; set_solver. Qed.
Lemma nodup_insert_second c q : c ∉ q -> NoDup q -> NoDup (ntb_list_insert_second c q).
Proof.
  destruct q as [|x q]; cbn; intros Hc Hq; [apply NoDup_singleton|]. apply NoDup_cons in Hq as [Hx Hq].
  apply NoDup_cons. split; [set_solver|]. apply NoDup_cons. split; [set_solver|done].
Qed.

Lemma lookup_wake i (ts : list pow_thread) t : (wake <$> ts) !! i = Some t -> t <> PowWaiting /\ (ts !! i = Some t \/ t = PowReady).
Proof. rewrite list_lookup_fmap. destruct (ts !! i) as [[]|]; cbn; intros [= <-]; auto. Qed.

Lemma calculate_spec n hs A A' s payload extra trials target :
  pow_inv n hs A s -> (0 < n)%nat -> calculate_target (u64 (zlen payload + 8)) extra trials = Ok target ->
  (forall c' h tg, A c' h tg -> A' c' h tg) -> (forall c' h tg, A' c' h tg -> A c' h tg \/ c' = pw_n_cookies s) ->
  A' (pw_n_cookies s) (SHA512 payload) target ->
  exists s', ntb_pow_calculate payload extra trials s = Ok (pw_n_cookies s, s') /\ pow_inv n ({[pw_n_cookies s]} ∪ hs) A' s'.
Proof.
  intros Hi Hn Et HA HA2 HA'. unfold ntb_pow_calculate. rewrite Et, bind_ret_l. eexists. split; [reflexivity|].
  set (c := pw_n_cookies s) in *. pose proof (pi_cookies _ _ _ _ Hi c) as Hc. unfold cookie_inv in Hc.
  rewrite (pi_new _ _ _ _ Hi c) in Hc by (subst c; lia). destruct Hc as (Hh%bool_decide_eq_false_1 & Hq%bool_decide_eq_false_1 & Hs%bool_decide_eq_false_1 & Hr).
  apply (inv_change c n hs _ A A' s); cbn; try done.
  - apply length_fmap.
  - apply nodup_insert_second; [done|apply Hi].
  - intros c' Hne. rewrite lookup_insert_ne, elem_of_insert_second by done.
    split_and!; [done|set_solver|split; [by intros [?|?]|by right]|done|apply thread_refs_wake].
  - unfold cookie_inv. cbn. rewrite lookup_insert_eq. fold wake. rewrite thread_refs_wake, Hr, (pi_n _ _ _ _ Hi).
    rewrite (bool_decide_eq_true_2 (c ∈ _ ∪ _)), (bool_decide_eq_true_2 (c ∈ ntb_list_insert_second _ _)), (bool_decide_eq_false_2 (c ∈ pw_sources s))
      by (done || (apply elem_of_insert_second; by left) || set_solver).
    cbn. split_and!; done || lia.
  - intros i t Ei. apply lookup_wake in Ei as [Hw [Ei| ->]]; [|done].
    apply (thread_ok_kept c s); [by apply (pi_threads _ _ _ _ Hi i)|done| | |done].
    + intros c' Hne. cbn. by apply lookup_insert_ne.
    + intros ck' _. left. pose proof (thread_refs_lookup c _ _ _ Ei). pose proof (at_cookie_range c t). lia.
  - intros c' Hl. rewrite lookup_insert_ne by (subst c; lia). apply Hi. subst c. lia.
  - intros c' h tg [Hl%(pi_used _ _ _ _ Hi)| ->]%HA2; subst c; lia.
Qed.

(** Other cookies are not touched by the removals of [c]. *)
Lemma elem_of_without c c' (l : list nat) : c' <> c -> c' ∈ filter (.≠ c) l <-> c' ∈ l.
Proof. intros Hne. rewrite list_elem_of_filter. naive_solver. Qed.
Lemma not_elem_of_without c (l : list nat) : c ∉ filter (.≠ c) l.
Proof. rewrite list_elem_of_filter. naive_solver. Qed.

Lemma without_not_in c (l : list nat) : c ∉ l -> filter (.≠ c) l = l.
Proof.
  induction l as [|x l IH]; intros Hl; [done|]. apply not_elem_of_cons in Hl as [Hx Hl]. rewrite filter_cons_True by done.
  by rewrite IH.
Qed.

(** What an operation on the cookie [c] leaves alone, from [s0] to [s]. *)
Record touched c (s0 s : ntb_pow) : Prop := Touched {
  to_n : pw_n_threads s = pw_n_threads s0;
  to_threads : pw_threads s = pw_threads s0;
  to_quit : pw_quit s = pw_quit s0;
  to_n_cookies : pw_n_cookies s = pw_n_cookies s0;
  to_cookies : forall c', c' <> c -> pw_cookies s !! c' = pw_cookies s0 !! c';
  to_queue : forall c', c' <> c -> c' ∈ pw_queue s <-> c' ∈ pw_queue s0;
  to_empty : pw_queue s0 = [] -> pw_queue s = [];
  to_nodup : NoDup (pw_queue s0) -> NoDup (pw_queue s);
  to_sources : forall c', c' <> c -> c' ∈ pw_sources s <-> c' ∈ pw_sources s0
}.

Lemma touched_refl c s : touched c s s.
Proof. by split. Qed.
Lemma touched_trans c s0 s1 s2 : touched c s0 s1 -> touched c s1 s2 -> touched c s0 s2.
Proof.
  intros [En Et Eq Ec Hc Hq He Hd Hs] [En' Et' Eq' Ec' Hc' Hq' He' Hd' Hs'].
  split; [congruence..| | |auto|auto|]; intros c' Hne; [by rewrite Hc', Hc|by rewrite Hq', Hq|by rewrite Hs', Hs].
Qed.
Lemma touched_update c ck s : touched c s (pow_update c ck s).
Proof. split; cbn; try done. intros c' Hne. by apply lookup_insert_ne. Qed.
Lemma touched_dropped c ck s : touched c s (dropped c ck s).
Proof.
  destruct (dropped_fields c ck s) as (E1 & E2 & E3 & E4 & E5 & E6). split; rewrite ?E1, ?E2, ?E3, ?E4, ?E5, ?E6; try done.
  apply dropped_other.
Qed.
Lemma touched_unqueue c s : touched c s (pw_set_queue (filter (.≠ c) (pw_queue s)) s).
Proof.
  split; cbn; try done.
  - intros c' Hne. by apply elem_of_without.
  - by intros ->.
  - intros Hd. by apply NoDup_filter.
Qed.
Lemma touched_unsource c s : touched c s (pw_set_sources (filter (.≠ c) (pw_sources s)) s).
Proof. split; cbn; try done. intros c' Hne. by apply elem_of_without. Qed.

(** The two removals, with the references they give back. *)
Lemma unqueue_spec c ck s :
  pw_cookies s !! c = Some ck -> c ∈ pw_queue s -> 1 < pc_ref_count ck ->
  exists s', remove_queued_cookie c s = Ok s' /\ touched c s s' /\ pw_cookies s' !! c = Some (pc_add_ref (-1) ck) /\
    c ∉ pw_queue s' /\ pw_sources s' = pw_sources s /\ pw_queue s' = filter (.≠ c) (pw_queue s).
Proof.
  intros Ec Hq Hr. unfold remove_queued_cookie. rewrite decide_True by done. rewrite (unref_kept c ck) by done. eexists.
  split; [reflexivity|]. split_and!.
  - eapply touched_trans; [apply touched_unqueue|apply touched_update].
  - cbn. by rewrite lookup_insert_eq.
  - apply not_elem_of_without.
  - done.
  - done.
Qed.
Lemma unsource_spec c ck s :
  pw_cookies s !! c = Some ck -> c ∈ pw_sources s -> 1 < pc_ref_count ck ->
  exists s', (s ← ntb_main_context_remove_source c s; unref_cookie c (pow_update c (pc_set_idle false ck) s)) = Ok s' /\
    touched c s s' /\ pw_cookies s' !! c = Some (pc_add_ref (-1) (pc_set_idle false ck)) /\
    c ∉ pw_sources s' /\ pw_queue s' = pw_queue s.
Proof.
  intros Ec Hs Hr. unfold ntb_main_context_remove_source. rewrite decide_True, bind_ret_l by done.
  rewrite (unref_kept c (pc_set_idle false ck)) by (cbn; by rewrite ?lookup_insert_eq). eexists.
  split; [reflexivity|]. split_and!.
  - eapply touched_trans; [apply touched_unsource|]. eapply touched_trans; apply touched_update.
  - cbn. by rewrite lookup_insert_eq.
  - apply not_elem_of_without.
  - done.
Qed.

(** The main thread gives up its reference last. *)
Lemma given_up_inv n hs A s s' c ck ck' :
  pow_inv n hs A s -> touched c s s' -> pw_cookies s !! c = Some ck -> pw_cookies s' !! c = Some ck' ->
  pc_hash ck' = pc_hash ck -> pc_target ck' = pc_target ck -> pc_done ck' = true -> pc_idle ck' = false ->
  pc_next_nonce_offset ck' = pc_next_nonce_offset ck -> c ∉ pw_sources s' ->
  pc_ref_count ck' - 1 = Z.b2z (bool_decide (c ∈ pw_queue s')) + thread_refs c (pw_threads s) ->
  (c ∈ pw_queue s' -> c ∈ pw_queue s) ->
  pow_inv n (hs ∖ {[c]}) A (dropped c ck' s').
Proof.
  intros Hi Hto Ec Ec' Eh Et Ed Ei En Hs Er Hq. pose proof (touched_trans _ _ _ _ Hto (touched_dropped c ck' s')) as Hto'.
  destruct (dropped_fields c ck' s') as (_ & _ & F3 & _ & _ & F6).
  apply (inv_step c ck n hs _ A s); try done.
  - apply Hto'.
  - by rewrite (to_threads _ _ _ Hto').
  - apply Hto'.
  - by apply (to_nodup _ _ _ Hto'), Hi.
  - intros c' Hne. rewrite (to_threads _ _ _ Hto'). split_and!; [by apply Hto'|set_solver|by apply Hto'|by apply Hto'|done].
  - pose proof (pi_cookies _ _ _ _ Hi c) as Hc. unfold cookie_inv in *. rewrite Ec in Hc.
    rewrite (to_threads _ _ _ Hto'), (to_n _ _ _ Hto'), dropped_lookup, F3, F6.
    rewrite (bool_decide_eq_false_2 (c ∈ hs ∖ _)), (bool_decide_eq_false_2 (c ∈ pw_sources s')) by (done || set_solver).
    destruct Hc as (_ & _ & Hn & Hqn & _ & _ & _ & _ & _ & HA & _). apply dropped_ok; [apply thread_refs_nonneg|cbn; lia|].
    intros Hlt. unfold cookie_ok. cbn. rewrite Eh, Et, Ed, Ei, En. split_and!; try (done || lia).
    intros Hq'%bool_decide_eq_true. apply Hqn. by apply bool_decide_eq_true, Hq.
  - intros i t. rewrite (to_threads _ _ _ Hto'). intros Hl. pose proof (pi_threads _ _ _ _ Hi i t Hl) as Ht.
    apply (thread_ok_kept c s); [done|apply Hto'|apply Hto'| |].
    + intros ck2. rewrite dropped_lookup. case_match; [done|]. intros [= <-]. right. exists ck. cbn. by rewrite Eh, Et, Ed.
    + intros ->. destruct Ht as [Hqe Hquit]. split; [by apply Hto'|by rewrite (to_quit _ _ _ Hto')].
Qed.

(** A cookie the main thread holds. *)
Lemma held_cookie n hs A s c :
  pow_inv n hs A s -> c ∈ hs -> exists ck, pw_cookies s !! c = Some ck /\
  pc_ref_count ck = 1 + Z.b2z (bool_decide (c ∈ pw_queue s)) + Z.b2z (bool_decide (c ∈ pw_sources s)) + thread_refs c (pw_threads s) /\
  (c ∈ pw_queue s <-> pc_next_nonce_offset ck < pw_n_threads s) /\ pc_idle ck = bool_decide (c ∈ pw_sources s).
Proof.
  intros Hi Hin. destruct (inv_held _ _ _ _ _ Hi Hin) as [ck Ec]. exists ck. split; [done|].
  pose proof (pi_cookies _ _ _ _ Hi c) as Hc. unfold cookie_inv in Hc. rewrite Ec, (bool_decide_eq_true_2 (c ∈ hs)) in Hc by done.
  destruct Hc as (Er & _ & _ & Hq & Hhq & _ & _ & _ & Ei & _). split; [done|split; [split; [|intros Hl]|done]].
  - intros Hin'. by apply Hq, bool_decide_eq_true.
  - by apply (bool_decide_eq_true (c ∈ pw_queue s)), Hhq.
Qed.

Lemma pow_cancel_spec n hs A s c :
  pow_inv n hs A s -> c ∈ hs -> exists s', ntb_pow_cancel c s = Ok s' /\ pow_inv n (hs ∖ {[c]}) A s'.
Proof.
  intros Hi Hin. destruct (held_cookie _ _ _ _ _ Hi Hin) as (ck & Ec & Er & Hq & Ei).
  pose proof (thread_refs_nonneg c (pw_threads s)) as Hrefs.
  unfold ntb_pow_cancel. rewrite (pow_cookie_ok c ck s), bind_ret_l by done.
  assert (exists s1 ck1, (if pc_next_nonce_offset ck <? pw_n_threads s then remove_queued_cookie c s else Ok s) = Ok s1 /\
    touched c s s1 /\ pw_cookies s1 !! c = Some ck1 /\ c ∉ pw_queue s1 /\ pw_sources s1 = pw_sources s /\ pc_idle ck1 = pc_idle ck /\
    pc_hash ck1 = pc_hash ck /\ pc_target ck1 = pc_target ck /\ pc_next_nonce_offset ck1 = pc_next_nonce_offset ck /\
    pc_ref_count ck1 = 1 + Z.b2z (bool_decide (c ∈ pw_sources s)) + thread_refs c (pw_threads s)) as
    (s1 & ck1 & -> & T1 & Ec1 & Hq1 & Es1 & Ei1 & Eh1 & Et1 & En1 & Er1).
  { destruct (Z.ltb_spec (pc_next_nonce_offset ck) (pw_n_threads s)) as [Hlt|Hge].
    - apply Hq in Hlt. rewrite (bool_decide_eq_true_2 (c ∈ pw_queue s)) in Er by done.
      destruct (unqueue_spec c ck s) as (s1 & E & T & Ec1 & Hq1 & Es1 & _); [done|done|case_bool_decide; cbn in *; lia|].
      exists s1, (pc_add_ref (-1) ck). cbn. split_and!; try done. cbn in Er. lia.
    - exists s, ck. assert (c ∉ pw_queue s) as Hnq by (intros ?%Hq; lia).
      rewrite (bool_decide_eq_false_2 (c ∈ pw_queue s)) in Er by done. split_and!; done. }
  rewrite bind_ret_l, (pow_cookie_ok c ck1 s1), bind_ret_l by done.
  assert (exists s2 ck2, (if pc_idle ck1 then s ← ntb_main_context_remove_source c s1; unref_cookie c (pow_update c (pc_set_idle false ck1) s) else Ok s1) = Ok s2 /\
    touched c s1 s2 /\ pw_cookies s2 !! c = Some ck2 /\ c ∉ pw_sources s2 /\ pw_queue s2 = pw_queue s1 /\ pc_idle ck2 = false /\
    pc_hash ck2 = pc_hash ck /\ pc_target ck2 = pc_target ck /\ pc_next_nonce_offset ck2 = pc_next_nonce_offset ck /\
    pc_ref_count ck2 = 1 + thread_refs c (pw_threads s)) as
    (s2 & ck2 & -> & T2 & Ec2 & Hs2 & Eq2 & Ei2 & Eh2 & Et2 & En2 & Er2).
  { rewrite Ei1, Ei. case_bool_decide as Hs.
    - destruct (unsource_spec c ck1 s1) as (s2 & E & T & Ec2 & Hs2 & Eq2); [done|by rewrite Es1|cbn in Er1; lia|].
      exists s2, (pc_add_ref (-1) (pc_set_idle false ck1)). cbn. split_and!; try done. cbn in Er1. lia.
    - exists s1, ck1. split_and!; try done; [by rewrite Es1|by rewrite Ei1, Ei]. }
  rewrite bind_ret_l, (pow_cookie_ok c ck2 s2), bind_ret_l by done.
  rewrite (unref_dropped c (pc_set_done true ck2)) by (cbn; by rewrite lookup_insert_eq).
  eexists. split; [reflexivity|]. eapply given_up_inv; [exact Hi| |exact Ec|cbn; by rewrite lookup_insert_eq|done..| |].
  - eapply touched_trans; [exact T1|]. eapply touched_trans; [exact T2|]. apply touched_update.
  - cbn. rewrite Eq2, (bool_decide_eq_false_2 (c ∈ pw_queue s1)) by done. cbn. lia.
  - cbn. by rewrite Eq2.
Qed.

Lemma idle_spec n hs A s c :
  pow_inv n hs A s -> c ∈ pw_sources s ->
  exists nonce s' hash target, idle_cb c s = Ok (nonce, s') /\ pow_inv n (hs ∖ {[c]}) A s' /\
    c ∈ hs /\ A c hash target /\ solved hash target (Z.of_nat n) nonce.
Proof.
  intros Hi Hs. destruct (inv_source _ _ _ _ _ Hi Hs) as [ck Ec].
  pose proof (pi_cookies _ _ _ _ Hi c) as Hc. unfold cookie_inv in Hc. rewrite Ec, (bool_decide_eq_true_2 (c ∈ pw_sources s)) in Hc by done.
  destruct Hc as (Er & _ & _ & _ & _ & Hd & _ & Hh & Ei & HA & Hsol). specialize (Hh eq_refl). rewrite Hh in Er.
  apply bool_decide_eq_true in Hh. destruct (Hsol eq_refl) as (nonce & En & Hsv). rewrite (pi_n _ _ _ _ Hi) in Hsv.
  pose proof (thread_refs_nonneg c (pw_threads s)) as Hrefs.
  assert (1 < pc_ref_count ck) as Hr by (change (Z.b2z true) with 1 in Er; destruct (bool_decide (c ∈ pw_queue s)); cbn in Er; lia).
  destruct (unsource_spec c ck s) as (s1 & E & T1 & Ec1 & Hs1 & Eq1); [done..|].
  unfold idle_cb, pow_cookie. rewrite Ec, bind_ret_l, En, bind_ret_l.
  assert (forall k : ntb_pow -> result unit (Z * ntb_pow),
    (s0 ← ntb_main_context_remove_source c s; s2 ← unref_cookie c (pow_update c (pc_set_idle false ck) s0); k s2) = k s1) as ->.
  { intros k. destruct (ntb_main_context_remove_source c s) as [s0| | |]; cbn in *; [|done..]. by rewrite E. }
  rewrite (unref_dropped c _ _ Ec1), bind_ret_l. eexists nonce, _, _, _. split; [reflexivity|]. split_and!; try done.
  eapply given_up_inv; [exact Hi|exact T1|exact Ec|exact Ec1|done|done| |done..| |].
  - cbn. destruct (pc_done ck) eqn:E'; [done|]. by destruct (Hd eq_refl).
  - cbn in *. rewrite Eq1. lia.
  - by rewrite Eq1.
Qed.

(** ** The threads *)

Lemma lookup_at i (ts : list pow_thread) t j t' : <[i := t]> ts !! j = Some t' -> (j = i /\ t' = t) \/ (j <> i /\ ts !! j = Some t').
Proof. intros [(-> & -> & _)|[Hne E]]%list_lookup_insert_Some; [by left|by right]. Qed.

(** A thread moves on with the reference it has. *)
Lemma move_spec n hs A s i t t' :
  pow_inv n hs A s -> pw_threads s !! i = Some t -> (forall c, at_cookie c t' = at_cookie c t) -> thread_ok s t' ->
  pow_inv n hs A (pw_at i t' s).
Proof.
  intros Hi Ei Ht Hok.
  assert (Hr : forall c, thread_refs c (<[i := t']> (pw_threads s)) = thread_refs c (pw_threads s))
    by (intros c; rewrite (thread_refs_insert c _ _ _ _ Ei), Ht; lia).
  destruct Hi as [En El Hq Hc Hth Hnew Hused]. split; cbn; [done|by rewrite length_insert|done| | |done|done].
  - intros c. specialize (Hc c). unfold cookie_inv in *. cbn. by rewrite Hr.
  - intros j u Ej. apply lookup_at in Ej as [[-> ->]|[Hne Ej]]; [|apply Hth in Ej as Hu; by destruct u].
    by destruct t'.
Qed.

(** A thread leaves a cookie. *)
Lemma leave_spec n hs A s i c nonce :
  pow_inv n hs A s -> pw_threads s !! i = Some (PowSearched c nonce) ->
  exists ck, pw_cookies s !! c = Some ck /\ unref_cookie c (pw_at i PowReady s) = Ok (dropped c ck (pw_at i PowReady s)) /\
    pow_inv n hs A (dropped c ck (pw_at i PowReady s)).
Proof.
  intros Hi Ei. assert (at_cookie c (PowSearched c nonce) = 1) as Hat by (cbn; by rewrite decide_True).
  destruct (inv_thread _ _ _ _ _ _ _ Hi Ei Hat) as [ck Ec]. exists ck. split; [done|]. split; [by apply unref_dropped|].
  destruct (dropped_fields c ck (pw_at i PowReady s)) as (F1 & F2 & F3 & _ & F5 & F6). cbn in F1, F2, F3, F5, F6.
  apply (inv_step c ck n hs hs A s); try done.
  - rewrite F2. apply length_insert.
  - rewrite F3. apply Hi.
  - intros c' Hne. rewrite dropped_other, F2, F3, F6, (thread_refs_insert _ _ _ _ _ Ei) by done.
    split_and!; try done. cbn. rewrite decide_False by done. lia.
  - pose proof (pi_cookies _ _ _ _ Hi c) as Hc. unfold cookie_inv in *. rewrite dropped_lookup, F1, F2, F3, F6, (thread_refs_insert _ _ _ _ _ Ei), Hat.
    rewrite Ec in Hc. cbn [at_cookie]. pose proof (thread_refs_lookup c _ _ _ Ei) as Hle. rewrite Hat in Hle. destruct Hc as (Er & Hp & Hrest).
    apply dropped_ok; [lia|lia|]. intros Hlt. cbn. split_and!; try lia; apply Hrest.
  - intros j t. rewrite F2. intros Ej. apply lookup_at in Ej as [[-> ->]|[Hne Ej]]; [done|].
    pose proof (pi_threads _ _ _ _ Hi j t Ej) as Ht. apply (thread_ok_kept c s); [done|by rewrite F1| | |].
    + intros c' Hne'. by rewrite dropped_other.
    + intros ck'. rewrite dropped_lookup. case_match; [done|]. intros [= <-]. right. by exists ck.
    + intros ->. destruct (dropped_fields c ck (pw_at i PowReady s)) as (_ & _ & _ & F4 & _). cbn in F4 |- *. by rewrite F3, F4.
Qed.

Lemma set_solution_spec n hs A s i c nonce :
  pow_inv n hs A s -> pw_threads s !! i = Some (PowFound c nonce) ->
  exists s', set_solution c nonce s = Ok s' /\ pow_inv n hs A (pw_at i (PowSearched c nonce) s') /\
    exists ck, pw_cookies s' !! c = Some ck /\ pc_done ck = true.
Proof.
  intros Hi Ei. assert (at_cookie c (PowFound c nonce) = 1) as Hat by (cbn; by rewrite decide_True).
  destruct (inv_thread _ _ _ _ _ _ _ Hi Ei Hat) as [ck Ec].
  pose proof (pi_threads _ _ _ _ Hi i _ Ei ck Ec) as Hsv. pose proof (pi_cookies _ _ _ _ Hi c) as Hc. unfold cookie_inv in Hc.
  rewrite Ec in Hc. unfold set_solution. rewrite (pow_cookie_ok c ck s), bind_ret_l by done. destruct (pc_done ck) eqn:Ed.
  { eexists. split; [done|]. split; [|by exists ck]. apply (move_spec _ _ _ s i _ _ Hi Ei); [done|]. cbn. intros ck'. rewrite Ec. intros [= <-]. by left. }
  destruct Hc as (Er & Hp & Hn & Hq & Hhq & Hnd & Hhd & Hsh & Eidle & HA & Hsol). destruct (Hnd Ed) as [Hh Hs].
  eexists. split; [done|]. split; [|eexists; split; [cbn; by rewrite lookup_insert_eq|done]].
  assert (Hrefs : forall c', thread_refs c' (<[i := PowSearched c nonce]> (pw_threads s)) = thread_refs c' (pw_threads s))
    by (intros c'; rewrite (thread_refs_insert c' _ _ _ _ Ei); cbn; case_decide; lia).
  apply (inv_step c ck n hs hs A s); cbn; try done.
  - apply length_insert.
  - apply Hi.
  - intros c' Hne. rewrite lookup_insert_ne, Hrefs by done. split_and!; set_solver.
  - unfold cookie_inv. cbn. rewrite lookup_insert_eq, Hrefs. rewrite Hh, Hs in *. rewrite (bool_decide_eq_true_2 (c ∈ pw_sources s ++ [c])) by set_solver.
    cbn in *. split_and!; try (done || lia || auto). intros _. by exists nonce.
  - intros j t Ej. apply lookup_at in Ej as [[-> ->]|[Hne Ej]].
    + cbn. intros ck'. rewrite lookup_insert_eq. intros [= <-]. by left.
    + pose proof (pi_threads _ _ _ _ Hi j t Ej) as Ht. apply (thread_ok_kept c s); [done|done| | |by intros ->].
      * intros c' Hne'. cbn. by rewrite lookup_insert_ne.
      * cbn. intros ck'. rewrite lookup_insert_eq. intros [= <-]. right. by exists ck.
Qed.

(** How often the cookies of the queue can still be taken. *)
Fixpoint passes (n : Z) (cookies : gmap nat ntb_pow_cookie) (queue : list nat) : nat :=
  match queue with
  | [] => 0
  | c :: queue => match cookies !! c with Some ck => Z.to_nat (n - pc_next_nonce_offset ck) | None => 0 end + passes n cookies queue
  end.
Definition passes_left s : nat := passes (pw_n_threads s) (pw_cookies s) (pw_queue s).

Lemma passes_ext n (m m' : gmap nat ntb_pow_cookie) queue :
  (forall c, c ∈ queue -> pc_next_nonce_offset <$> m' !! c = pc_next_nonce_offset <$> m !! c) ->
  passes n m' queue = passes n m queue.
Proof.
  induction queue as [|c queue IH]; intros Hq; cbn; [done|]. rewrite IH by (intros c' Hc'; apply Hq; by right). f_equal.
  specialize (Hq c ltac:(by left)). destruct (m !! c), (m' !! c); cbn in Hq; congruence.
Qed.
Lemma passes_bound n hs A s : pow_inv n hs A s -> (passes_left s < loop_fuel s)%nat.
Proof.
  intros Hi. unfold passes_left, loop_fuel.
  assert (forall l, (passes (pw_n_threads s) (pw_cookies s) l <= length l * Z.to_nat (pw_n_threads s))%nat) as Hl; [|specialize (Hl (pw_queue s)); lia].
  intros l. induction l as [|c l IH]; cbn; [lia|]. destruct (pw_cookies s !! c) as [ck|] eqn:Ec; [|lia].
  pose proof (pi_cookies _ _ _ _ Hi c) as Hc. unfold cookie_inv in Hc. rewrite Ec in Hc. destruct Hc as (_ & _ & Hn & _). lia.
Qed.

Lemma tried_start hash target n k : 0 <= k < n -> tried hash target n (u64 k).
Proof. intros Hk. exists k, 0. split_and!; try lia. unfold nonce_of. f_equal. lia. Qed.

(** The cookie that is taken leaves the queue when every thread has seen it. *)
Lemma take_unqueue i c q nonce s ck :
  pw_queue s = c :: q -> c ∉ q -> pw_cookies s !! c = Some ck -> pc_next_nonce_offset ck < pw_n_threads s -> 0 < pc_ref_count ck ->
  let ck1 := pc_next_offset (pc_add_ref 1 ck) in
  let s1 := pw_at i (PowSearched c nonce) (pow_update c ck1 s) in
  exists s2 ck2, (if pw_n_threads s1 <=? pc_next_nonce_offset ck1 then remove_queued_cookie c s1 else Ok s1) = Ok s2 /\
    touched c s1 s2 /\ pw_cookies s2 !! c = Some ck2 /\ pw_sources s2 = pw_sources s /\
    (c ∈ pw_queue s2 <-> pc_next_nonce_offset ck + 1 < pw_n_threads s) /\ (passes_left s2 < passes_left s)%nat /\
    pc_ref_count ck2 = pc_ref_count ck + Z.b2z (bool_decide (c ∈ pw_queue s2)) /\
    ck2 = PowCookie (pc_ref_count ck2) (pc_next_nonce_offset ck + 1) (pc_hash ck) (pc_target ck) (pc_nonce ck) (pc_done ck) (pc_idle ck).
Proof.
  intros Eq Hcq Ec Hq Hp ck1 s1. assert (Hin : c ∈ pw_queue s) by (rewrite Eq; by left).
  assert (Hpq : passes_left s = (Z.to_nat (pw_n_threads s - pc_next_nonce_offset ck) + passes (pw_n_threads s) (pw_cookies s) q)%nat)
    by (unfold passes_left; rewrite Eq; cbn; by rewrite Ec).
  cbn [pw_n_threads pc_next_nonce_offset s1 ck1 pw_at pow_update pw_set_cookies pw_set_threads pc_next_offset pc_add_ref].
  destruct (Z.leb_spec (pw_n_threads s) (pc_next_nonce_offset ck + 1)) as [Hge|Hle].
  - destruct (unqueue_spec c ck1 s1) as (s2 & E & T & Ec2 & Hq2 & Es2 & Eq2); [cbn; by rewrite lookup_insert_eq|done|change (1 < pc_ref_count ck + 1); lia|].
    exists s2, (pc_add_ref (-1) ck1). cbn. rewrite (bool_decide_eq_false_2 (c ∈ pw_queue s2)) by done. cbn. split_and!; try done; try lia.
    + split; [done|lia].
    + assert (passes_left s2 = passes (pw_n_threads s) (pw_cookies s) q); [|lia]. unfold passes_left. rewrite Eq2. cbn [pw_queue s1 pw_at pow_update pw_set_cookies pw_set_threads].
      rewrite Eq. rewrite filter_cons_False, (without_not_in c q) by (done || naive_solver).
      rewrite (to_n _ _ _ T). apply passes_ext. intros c' Hc'. assert (c' <> c) by (by intros ->).
      rewrite (to_cookies _ _ _ T) by done. cbn. by rewrite lookup_insert_ne.
  - exists s1, ck1. rewrite (bool_decide_eq_true_2 (c ∈ pw_queue s1)) by done. split_and!; try done.
    + cbn. by rewrite lookup_insert_eq.
    + unfold passes_left in Hpq |- *. cbn. rewrite Eq in Hpq |- *. cbn in Hpq |- *. rewrite lookup_insert_eq. cbn. rewrite Hpq, (passes_ext _ (pw_cookies s)); [lia|].
      intros c' Hc'. rewrite lookup_insert_ne; [done|]. by intros <-.
Qed.

Lemma take_cookie_spec n hs A s i c q :
  pow_inv n hs A s -> pw_threads s !! i = Some PowReady -> pw_queue s = c :: q ->
  exists nonce s' ck, take_cookie i c s = Ok (nonce, s') /\ pow_inv n hs A s' /\ pw_threads s' !! i = Some (PowSearched c nonce) /\
    pw_cookies s' !! c = Some ck /\ tried (pc_hash ck) (pc_target ck) (pw_n_threads s') nonce /\
    (passes_left s' < passes_left s)%nat /\ pw_quit s' = pw_quit s.
Proof.
  intros Hi Ei Eq. assert (Hin : c ∈ pw_queue s) by (rewrite Eq; by left).
  destruct (inv_queued _ _ _ _ _ Hi Hin) as [ck Ec].
  pose proof (pi_cookies _ _ _ _ Hi c) as Hc. unfold cookie_inv in Hc. rewrite Ec, (bool_decide_eq_true_2 (c ∈ pw_queue s)) in Hc by done.
  destruct Hc as (Er & Hp & Hn & Hq & Hhq & Hnd & Hhd & Hsh & Eidle & HA & Hsol). specialize (Hq eq_refl).
  pose proof (pi_queue _ _ _ _ Hi) as Hdup. pose proof (lookup_lt_Some _ _ _ Ei) as Hlt.
  unfold take_cookie. rewrite (pow_cookie_ok c ck s), bind_ret_l by done. cbn zeta.
  set (nonce := u64 (pc_next_nonce_offset ck)). set (ck1 := pc_next_offset (pc_add_ref 1 ck)).
  set (s1 := pw_at i (PowSearched c nonce) (pow_update c ck1 s)).
  rewrite Eq in Hdup. apply NoDup_cons in Hdup as [Hcq _].
  destruct (take_unqueue i c q nonce s ck) as (s2 & ck2 & E2 & T & Ec2 & Es2 & Hq2 & Hps & Er2 & Eck2); [done..|].
  fold ck1 s1 in E2, T. rewrite E2.
  rewrite bind_ret_l. exists nonce, s2, ck2. split; [done|].
  assert (Eth : pw_threads s2 = <[i := PowSearched c nonce]> (pw_threads s)) by (by rewrite (to_threads _ _ _ T)).
  assert (En2 : pw_n_threads s2 = pw_n_threads s) by (by rewrite (to_n _ _ _ T)).
  assert (Hoth : forall c', c' <> c -> pw_cookies s2 !! c' = pw_cookies s !! c') by (intros c' Hne; rewrite (to_cookies _ _ _ T) by done; cbn; by apply lookup_insert_ne).
  assert (Htr : tried (pc_hash ck2) (pc_target ck2) (pw_n_threads s2) nonce) by (rewrite En2; apply tried_start; lia).
  split_and!; [|by rewrite Eth, list_lookup_insert_eq|done|done|done|by rewrite (to_quit _ _ _ T)].
  apply (inv_step c ck n hs hs A s); try done.
  - rewrite Eth. apply length_insert.
  - by rewrite (to_n_cookies _ _ _ T).
  - by apply (to_nodup _ _ _ T), Hi.
  - intros c' Hne. rewrite Hoth, Es2, Eth, (thread_refs_insert _ _ _ _ _ Ei) by done.
    split_and!; try done; [by rewrite (to_queue _ _ _ T)|]. cbn. rewrite decide_False by done. lia.
  - unfold cookie_inv. rewrite Ec2, Eck2, Eth, (thread_refs_insert _ _ _ _ _ Ei), Es2, En2. cbn. rewrite decide_True by done. rewrite Er2.
    change (Z.b2z true) with 1 in Er. assert (Hb : bool_decide (c ∈ pw_queue s2) = true <-> pc_next_nonce_offset ck + 1 < pw_n_threads s) by (by rewrite bool_decide_eq_true).
    split_and!; try done; try lia; try tauto. destruct (bool_decide (c ∈ pw_queue s2)); cbn; lia.
  - intros j t. rewrite Eth. intros Ej. apply lookup_at in Ej as [[-> ->]|[Hne Ej]].
    + cbn. intros ck'. rewrite Ec2. intros [= <-]. by right.
    + pose proof (pi_threads _ _ _ _ Hi j t Ej) as Ht. apply (thread_ok_kept c s); [done|done|done| |].
      * intros ck'. rewrite Ec2. intros [= <-]. right. exists ck. by rewrite Eck2.
      * intros ->. destruct Ht as [He _]. by rewrite Eq in He.
Qed.

(** The loop ends while it holds the mutex. *)
Lemma thread_loop_spec n hs A i fuel : forall s,
  pow_inv n hs A s -> pw_threads s !! i = Some PowReady -> (passes_left s < fuel)%nat ->
  exists s', thread_loop fuel i s = Ok s' /\ pow_inv n hs A s'.
Proof.
  induction fuel as [|fuel IH]; intros s Hi Ei Hl; [lia|]. cbn [thread_loop].
  destruct (pw_quit s) eqn:Eq; [eexists; split; [done|]; by apply (move_spec _ _ _ s i _ _ Hi Ei)|].
  destruct (pw_queue s) as [|c q] eqn:Equeue; [eexists; split; [done|]; by apply (move_spec _ _ _ s i _ _ Hi Ei)|].
  destruct (take_cookie_spec _ _ _ _ _ _ _ Hi Ei Equeue) as (nonce & s1 & ck & -> & Hi1 & Ei1 & Ec1 & Htr & Hl1 & Eq1).
  rewrite bind_ret_l. unfold find_nonce_continues. rewrite (pow_cookie_ok c ck s1), bind_ret_l by done.
  rewrite bind_ret_l, Eq1, Eq. destruct (pc_done ck); cbn [negb andb].
  - destruct (leave_spec _ _ _ _ _ _ _ Hi1 Ei1) as (ck' & Ec' & -> & Hi2). simplify_eq. rewrite bind_ret_l. apply IH; [done| |].
    + destruct (dropped_fields c ck (pw_at i PowReady s1)) as (_ & -> & _). cbn. apply list_lookup_insert_eq. by eapply lookup_lt_Some.
    + destruct (dropped_fields c ck (pw_at i PowReady s1)) as (F1 & _ & F3 & _). unfold passes_left in *. rewrite F1, F3. cbn [pw_queue pw_n_threads pw_at pw_set_threads].
      rewrite (passes_ext _ (pw_cookies s1)); [lia|]. intros c' Hc'. destruct (decide (c' = c)) as [->|Hne]; [|by rewrite dropped_other].
      destruct (inv_queued _ _ _ _ c Hi2) as [ck2 Eck2]; [by rewrite F3|]. rewrite dropped_lookup in *. case_match; [done|]. by rewrite Ec1.
  - eexists. split; [done|]. apply (move_spec _ _ _ s1 i _ _ Hi1 Ei1); [done|]. cbn. intros ck'. rewrite Ec1. by intros [= <-].
Qed.

Lemma thread_func_spec n hs A i s :
  pow_inv n hs A s -> pw_threads s !! i = Some PowReady -> exists s', thread_func i s = Ok s' /\ pow_inv n hs A s'.
Proof. intros Hi Ei. apply thread_loop_spec; [done..|]. by eapply passes_bound. Qed.

(** The loop over the nonces of a thread. *)
Lemma nonce_of_next n k j : u64 (nonce_of n k j + n) = nonce_of n k (j + 1).
Proof. unfold nonce_of, u64. rewrite Zplus_mod_idemp_l. f_equal. lia. Qed.
Lemma tried_next hash target n nonce :
  tried hash target n nonce -> try_nonce hash target nonce = false -> tried hash target n (u64 (nonce + n)).
Proof.
  intros (k & j & Hk & Hj & -> & Ht) Hf. exists k, (j + 1). rewrite nonce_of_next. split_and!; try (done || lia).
  intros j' Hj'. destruct (decide (j' = j)) as [->|Hne]; [done|]. apply Ht. lia.
Qed.
Lemma try_nonces_spec hash target n m : forall nonce,
  tried hash target n nonce ->
  let '(found, nonce) := try_nonces m hash target n nonce in
  if found then solved hash target n nonce else tried hash target n nonce.
Proof.
  induction m as [|m IH]; intros nonce Ht; cbn [try_nonces]; [done|].
  destruct (try_nonce hash target nonce) eqn:E; [done|]. by apply IH, tried_next.
Qed.

Lemma step_spec n hs A s i :
  pow_inv n hs A s -> exists r, pow_thread_step i s = Ok r /\ match r with Some s' => pow_inv n hs A s' | None => True end.
Proof.
  intros Hi. unfold pow_thread_step. destruct (pw_threads s !! i) as [[| |c nonce|c nonce|c nonce|]|] eqn:Ei; try by eexists.
  - destruct (thread_func_spec _ _ _ _ _ Hi Ei) as (s' & -> & Hi'). rewrite bind_ret_l. by eexists.
  - destruct (inv_thread _ _ _ _ c _ _ Hi Ei) as [ck Ec]; [cbn; by rewrite decide_True|].
    rewrite (pow_cookie_ok c ck s), bind_ret_l by done. eexists. split; [done|].
    pose proof (try_nonces_spec (pc_hash ck) (pc_target ck) (pw_n_threads s) NTB_POW_NONCES_PER_CHECK nonce (pi_threads _ _ _ _ Hi i _ Ei ck Ec)) as Ht.
    destruct (try_nonces _ _ _ _ _) as [[] nonce']; apply (move_spec _ _ _ s i _ _ Hi Ei); try done; cbn; intros ck'; rewrite Ec; intros [= <-]; auto.
  - destruct (set_solution_spec _ _ _ _ _ _ _ Hi Ei) as (s' & -> & Hi' & _). rewrite bind_ret_l. by eexists.
  - destruct (leave_spec _ _ _ _ _ _ _ Hi Ei) as (ck & Ec & E & Hi'). unfold find_nonce_continues.
    rewrite (pow_cookie_ok c ck s), !bind_ret_l by done. destruct (negb (pc_done ck) && negb (pw_quit s)) eqn:Eb.
    + eexists. split; [done|]. apply (move_spec _ _ _ s i _ _ Hi Ei); [done|]. cbn. intros ck'. rewrite Ec. intros [= <-].
      apply andb_prop in Eb as [Hd _]. destruct (pi_threads _ _ _ _ Hi i _ Ei ck Ec) as [Hd'|?]; [by rewrite Hd' in Hd|done].
    + rewrite E, bind_ret_l. destruct (thread_func_spec _ _ _ i _ Hi') as (s' & -> & Hi''); [|rewrite bind_ret_l; by eexists].
      destruct (dropped_fields c ck (pw_at i PowReady s)) as (_ & -> & _). cbn. apply list_lookup_insert_eq. by eapply lookup_lt_Some.
Qed.

(** ** Every run *)

Definition asked (tr : list pow_event) c (hash : list Z) (target : Z) : Prop :=
  exists payload extra trials, PowCalculate c payload extra trials ∈ tr /\ zlen payload + 8 < 2 ^ 64 /\
    hash = SHA512 payload /\ calculate_target (zlen payload + 8) extra trials = Ok target.

Lemma asked_cons e tr c hash target : asked tr c hash target -> asked (e :: tr) c hash target.
Proof. intros (payload & extra & trials & Hin & Hr). exists payload, extra, trials. split; [by right|done]. Qed.
Lemma asked_other e tr c hash target :
  match e with PowCalculate _ _ _ _ => False | _ => True end -> asked (e :: tr) c hash target -> asked tr c hash target.
Proof.
  intros He (payload & extra & trials & Hin & Hr). exists payload, extra, trials. split; [|done].
  apply elem_of_cons in Hin as [<-|Hin]; done.
Qed.

Lemma inv_asked n hs (A A' : asks) s :
  (forall c h tg, A c h tg <-> A' c h tg) -> pow_inv n hs A s -> pow_inv n hs A' s.
Proof.
  intros HA [En El Hq Hc Ht Hn Hused]. split; try done; [|intros c h tg ?%HA; by eapply Hused]. intros c. specialize (Hc c).
  unfold cookie_inv, cookie_ok in *. destruct (pw_cookies s !! c); [|done].
  destruct Hc as (?&?&?&?&?&?&?&?&?&?%HA&?). by repeat (split; [assumption|]).
Qed.

Lemma calculate_target_ok payload extra trials s c s' :
  ntb_pow_calculate payload extra trials s = Ok (c, s') ->
  c = pw_n_cookies s /\ exists target, calculate_target (u64 (zlen payload + 8)) extra trials = Ok target.
Proof.
  unfold ntb_pow_calculate. destruct (calculate_target _ _ _) as [target| | |]; cbn; try discriminate. intros [= <- <-]. by split; [|exists target].
Qed.

Lemma pow_exec_inv n tr s : (0 < n)%nat -> pow_exec n tr s -> pow_inv n (outstanding tr) (asked tr) s.
Proof.
  intros Hn He. induction He as [|tr s payload extra trials c s' He Hi Hl E|tr s c s' He Hi Hc E|tr s c nonce s' He Hi Hc E|tr s i s' He Hi E|tr s i He Hi E].
  - apply pow_inv_new. intros c h tg (payload & extra & trials & Hin & _). by apply elem_of_nil in Hin.
  - pose proof (zlen_nonneg payload) as Hz. destruct (calculate_target_ok _ _ _ _ _ _ E) as [-> [target Et]].
    set (c := pw_n_cookies s). destruct (calculate_spec _ _ _ (asked (PowCalculate c payload extra trials :: tr)) _ _ _ _ _ Hi Hn Et) as (s1 & E1 & Hi1).
    + intros c' h tg. apply asked_cons.
    + intros c' h tg (p & e & t & Hin & Hr). apply elem_of_cons in Hin as [[= -> -> -> ->]|Hin]; [by right|left]. by exists p, e, t.
    + exists payload, extra, trials. rewrite u64_small in Et by lia. split; [by left|done].
    + rewrite E in E1. by simplify_eq.
  - destruct (pow_cancel_spec _ _ _ _ _ Hi Hc) as (s1 & E1 & Hi1). rewrite E in E1. simplify_eq. eapply inv_asked; [|exact Hi1].
    intros c' h tg. split; [apply asked_cons|by apply asked_other].
  - destruct (idle_spec _ _ _ _ _ Hi Hc) as (nonce1 & s1 & h & tg & E1 & Hi1 & _). rewrite E in E1. simplify_eq. eapply inv_asked; [|exact Hi1].
    intros c' h' tg'. split; [apply asked_cons|by apply asked_other].
  - destruct (step_spec _ _ _ _ i Hi) as (r & E1 & Hr). rewrite E in E1. by simplify_eq.
  - by apply (move_spec _ _ _ s i _ _ Hi E).
Qed.

(** The number of references to a cookie: of the main thread, of the queue, of the idle
    source and of the threads. *)
Definition references (tr : list pow_event) c s : Z :=
  Z.b2z (bool_decide (c ∈ outstanding tr)) + Z.b2z (bool_decide (c ∈ pw_queue s)) +
  Z.b2z (bool_decide (c ∈ pw_sources s)) + thread_refs c (pw_threads s).

Lemma inv_references n tr s c :
  pow_inv n (outstanding tr) (asked tr) s ->
  match pw_cookies s !! c with Some ck => pc_ref_count ck = references tr c s /\ 0 < references tr c s | None => references tr c s = 0 end.
Proof.
  intros Hi. pose proof (pi_cookies _ _ _ _ Hi c) as Hc. unfold cookie_inv, cookie_ok, references in *.
  destruct (pw_cookies s !! c) as [ck|].
  - destruct Hc as (Er & Hp & _). lia.
  - destruct Hc as (-> & -> & -> & ->). done.
Qed.

(** ** What is reported *)

(** A call back [c] [nonce] after the history [tr] is right. *)
Definition callback_ok (n : nat) (tr : list pow_event) c nonce : Prop :=
  c ∈ outstanding tr /\
  exists payload extra trials, PowCalculate c payload extra trials ∈ tr /\
    let check v := ntb_pow_check (be_split 8 v ++ payload) (zlen payload + 8) extra trials in
    check nonce = Ok true /\
    exists k j, 0 <= k < Z.of_nat n /\ 0 <= j /\ nonce = nonce_of (Z.of_nat n) k j /\
      forall j', 0 <= j' < j -> check (nonce_of (Z.of_nat n) k j') = Ok false.

Lemma callback_spec n tr s c nonce s' :
  (0 < n)%nat -> pow_exec n tr s -> c ∈ pw_sources s -> idle_cb c s = Ok (nonce, s') -> callback_ok n tr c nonce.
Proof.
  intros Hn He Hc E. destruct (idle_spec _ _ _ _ _ (pow_exec_inv _ _ _ Hn He) Hc) as (nonce' & s1 & h & tg & E' & _ & Hin & HA & Hs).
  rewrite E in E'. simplify_eq. split; [done|]. destruct HA as (payload & extra & trials & Hp & Hl & -> & Et). exists payload, extra, trials. split; [done|].
  assert (Hu : forall k j, 0 <= nonce_of (Z.of_nat n) k j < 2 ^ 64) by (intros; apply Z.mod_pos_bound; lia).
  destruct Hs as [(k & j & Hk & Hj & -> & Ht) Hv]. cbn zeta. split.
  - by rewrite (try_nonce_check payload _ extra trials tg), Hv by done.
  - exists k, j. split_and!; try (done || lia). intros j' Hj'. by rewrite (try_nonce_check payload _ extra trials tg), Ht by done.
Qed.

Lemma exec_callbacks n tr s :
  (0 < n)%nat -> pow_exec n tr s -> forall tr1 tr2 c nonce, tr = tr1 ++ PowCallback c nonce :: tr2 -> callback_ok n tr2 c nonce.
Proof.
  intros Hn He. induction He as [|tr s payload extra trials c s' He IH Hl E|tr s c s' He IH Hc E|tr s c nonce s' He IH Hc E|tr s i s' He IH E|tr s i He IH E];
    intros tr1 tr2 c1 nonce1 Et; try (by eapply IH).
  - by destruct tr1.
  - destruct tr1 as [|e tr1]; [done|]. injection Et as _ Et. by eapply IH.
  - destruct tr1 as [|e tr1]; [done|]. injection Et as _ Et. by eapply IH.
  - destruct tr1 as [|e tr1]; injection Et as E1 E2; [|by eapply IH]. intros. subst. by eapply callback_spec.
Qed.

Lemma outstanding_asked n tr s c : pow_inv n (outstanding tr) (asked tr) s -> c ∈ outstanding tr -> exists h tg, asked tr c h tg.
Proof.
  intros Hi Hc. destruct (inv_held _ _ _ _ _ Hi Hc) as [ck Ec]. pose proof (pi_cookies _ _ _ _ Hi c) as Hok.
  unfold cookie_inv in Hok. rewrite Ec in Hok. destruct Hok as (_&_&_&_&_&_&_&_&_&HA&_). by eexists _, _.
Qed.

(** No cookie is given back twice. *)
Lemma exec_ended n tr s :
  (0 < n)%nat -> pow_exec n tr s ->
  NoDup (ended tr) /\ forall c, c ∈ ended tr -> c ∉ outstanding tr /\ exists h tg, asked tr c h tg.
Proof.
  intros Hn He. induction He as [|tr s payload extra trials c s' He IH Hl E|tr s c s' He IH Hc E|tr s c nonce s' He IH Hc E|tr s i s' He IH E|tr s i He IH E];
    try done; try pose proof (pow_exec_inv _ _ _ Hn He) as Hi; cbn [ended omap list_omap outstanding].
  - split; [constructor|]. intros c Hc. by apply elem_of_nil in Hc.
  - destruct IH as [Hd Hc]. split; [done|]. destruct (calculate_target_ok _ _ _ _ _ _ E) as [-> _].
    intros c' Hin. destruct (Hc c' Hin) as (Ho & h & tg & HA). pose proof (pi_used _ _ _ _ Hi _ _ _ HA) as Hlt.
    split; [|exists h, tg; by apply asked_cons]. apply not_elem_of_union. split; [|done]. rewrite elem_of_singleton. lia.
  - destruct IH as [Hd Hc']. split.
    + constructor; [|done]. intros Hin. by destruct (Hc' _ Hin).
    + intros c' [->|Hin]%elem_of_cons; [split; [set_solver|]|].
      * destruct (outstanding_asked _ _ _ _ Hi Hc) as (h & tg & HA). exists h, tg. by apply asked_cons.
      * destruct (Hc' _ Hin) as (Ho & h & tg & HA). split; [set_solver|]. exists h, tg. by apply asked_cons.
  - destruct (callback_spec _ _ _ _ _ _ Hn He Hc E) as [Hout _]. destruct IH as [Hd Hc']. split.
    + constructor; [|done]. intros Hin. by destruct (Hc' _ Hin).
    + intros c' [->|Hin]%elem_of_cons; [split; [set_solver|]|].
      * destruct (outstanding_asked _ _ _ _ Hi Hout) as (h & tg & HA). exists h, tg. by apply asked_cons.
      * destruct (Hc' _ Hin) as (Ho & h & tg & HA). split; [set_solver|]. exists h, tg. by apply asked_cons.
Qed.

(** ** Shutting down *)

Definition rank (t : pow_thread) : nat :=
  match t with PowSearching _ _ => 3 | PowFound _ _ => 2 | PowSearched _ _ | PowReady => 1 | PowWaiting | PowExited => 0 end.
Definition no_waiting s : Prop := forall i, pw_threads s !! i <> Some PowWaiting.

Lemma quit_step n hs A s i :
  pow_inv n hs A s -> pw_quit s = true ->
  exists r t', pow_thread_step i s = Ok r /\ pow_inv n hs A (default s r) /\ pw_quit (default s r) = true /\
    pw_threads (default s r) = <[i := t']> (pw_threads s) /\ forall t, pw_threads s !! i = Some t -> (rank t' <= rank t - 1)%nat /\ t' <> PowWaiting.
Proof.
  intros Hi Hq. destruct (step_spec _ _ _ _ i Hi) as (r & E & Hr). exists r. revert E. unfold pow_thread_step.
  assert (Hw : pw_threads s !! i <> Some PowWaiting) by (intros Ei; destruct (pi_threads _ _ _ _ Hi i _ Ei) as [_ Hf]; by rewrite Hq in Hf).
  assert (Hfunc : forall s1, pw_quit s1 = true -> thread_func i s1 = Ok (pw_at i PowExited s1)) by (intros s1 E1; unfold thread_func, loop_fuel; cbn [thread_loop]; by rewrite E1).
  destruct (pw_threads s !! i) as [[| |c nonce|c nonce|c nonce|]|] eqn:Ei; try done.
  - rewrite Hfunc, bind_ret_l by done. intros [= <-]. exists PowExited. split_and!; try done. intros t [= <-]. cbn. by split.
  - destruct (pow_cookie c s) as [ck| | |]; cbn [mbind result_bind]; try discriminate.
    destruct (try_nonces _ _ _ _ _) as [[] nonce']; intros [= <-]; eexists; (split_and!; try done); intros t [= <-]; cbn; by split; [lia|].
  - destruct (set_solution_spec _ _ _ _ _ _ _ Hi Ei) as (s1 & E1 & _). rewrite E1, bind_ret_l. intros [= <-]. exists (PowSearched c nonce).
    split_and!; try done.
    + revert E1. unfold set_solution. destruct (pow_cookie c s) as [ck| | |]; cbn; try discriminate. intros [= <-]. by case_match.
    + revert E1. unfold set_solution. destruct (pow_cookie c s) as [ck| | |]; cbn; try discriminate. intros [= <-]. by case_match.
    + intros t [= <-]. cbn. by split; [lia|].
  - destruct (leave_spec _ _ _ _ _ _ _ Hi Ei) as (ck & Ec & E1 & _). unfold find_nonce_continues.
    rewrite (pow_cookie_ok c ck s), !bind_ret_l, Hq, andb_false_r by done. rewrite E1, bind_ret_l.
    destruct (dropped_fields c ck (pw_at i PowReady s)) as (_ & F2 & _ & F4 & _). rewrite Hfunc, bind_ret_l by (by rewrite F4).
    intros [= <-]. exists PowExited. cbn. rewrite F2, F4. cbn. rewrite list_insert_insert_eq. split_and!; try done. intros t [= <-]. cbn. by split; [lia|].
  - intros [= <-]. exists PowExited. cbn. split_and!; try done; [by rewrite list_insert_id|]. intros t [= <-]. cbn. by split; [lia|].
  - intros [= <-]. exists PowExited. cbn. split_and!; try done. by rewrite list_insert_ge by (by apply lookup_ge_None).
Qed.

(** Steps that each thread has; the rest of a schedule does nothing. *)
Definition steps_of i (sched : list nat) : nat := count_occ Nat.eq_dec sched i.

Lemma quit_run n hs A sched : forall s,
  pow_inv n hs A s -> pw_quit s = true ->
  exists s', pow_run sched s = Ok s' /\ pow_inv n hs A s' /\
    forall i t, pw_threads s !! i = Some t -> exists t', pw_threads s' !! i = Some t' /\ t' <> PowWaiting /\ (rank t' <= rank t - steps_of i sched)%nat.
Proof.
  induction sched as [|i sched IH]; intros s Hi Hq; cbn [pow_run].
  - exists s. split_and!; try done. intros i t Ei. exists t. split_and!; [done| |unfold steps_of; cbn; lia].
    intros ->. destruct (pi_threads _ _ _ _ Hi i _ Ei) as [_ Hf]. by rewrite Hq in Hf.
  - destruct (quit_step _ _ _ _ i Hi Hq) as (r & t1 & -> & Hi1 & Hq1 & Et & Hr). rewrite bind_ret_l.
    destruct (IH _ Hi1 Hq1) as (s' & E & Hi' & Hall). exists s'. split_and!; try done. intros j t Ej.
    destruct (decide (j = i)) as [->|Hne].
    + destruct (Hr t Ej) as [Hle _]. destruct (Hall i t1) as (t' & Et' & Hw & Hr').
      { rewrite Et. apply list_lookup_insert_eq. by eapply lookup_lt_Some. }
      exists t'. split_and!; [done|done|]. unfold steps_of in *. rewrite count_occ_cons_eq by done. lia.
    + destruct (Hall j t) as (t' & Et' & Hw & Hr'); [by rewrite Et, list_lookup_insert_ne|].
      exists t'. split_and!; [done|done|]. unfold steps_of in *. rewrite count_occ_cons_neq by done. lia.
Qed.

Lemma free_begin_inv n hs A s : pow_inv n hs A s -> pow_inv n hs A (ntb_pow_free_begin s).
Proof.
  intros [En El Hq Hc Ht Hn Hused]. split; cbn; [done|by rewrite length_fmap|done| | |done|done].
  - intros c. specialize (Hc c). unfold cookie_inv in *. cbn. fold wake. by rewrite thread_refs_wake.
  - intros i t Ei. apply lookup_wake in Ei as [Hw [Ei| ->]]; [|done]. apply Ht in Ei. by destruct t.
Qed.

(** The references that the queue still has are dropped. *)
Lemma remove_all_spec (hs : gset nat) l : forall s,
  pw_queue s = l -> NoDup l ->
  (forall c, match pw_cookies s !! c with
     | Some ck => pc_ref_count ck = Z.b2z (bool_decide (c ∈ hs)) + Z.b2z (bool_decide (c ∈ l)) + Z.b2z (bool_decide (c ∈ pw_sources s)) /\ 0 < pc_ref_count ck
     | None => c ∉ hs /\ c ∉ l end) ->
  (forall c, c ∈ pw_sources s -> c ∈ hs) ->
  exists s', remove_queued_cookies l s = Ok s' /\ pw_queue s' = [] /\ forall c, is_Some (pw_cookies s' !! c) <-> c ∈ hs.
Proof.
  induction l as [|c l IH]; intros s Eq Hd Hc Hs; cbn [remove_queued_cookies].
  - exists s. split_and!; [done|done|]. intros c. specialize (Hc c). destruct (pw_cookies s !! c) as [ck|].
    + split; [intros _|by eexists]. destruct Hc as [Er Hp]. rewrite (bool_decide_eq_false_2 (c ∈ [])) in Er by apply not_elem_of_nil.
      destruct (decide (c ∈ hs)) as [?|Hn]; [done|]. rewrite (bool_decide_eq_false_2 (c ∈ hs)), bool_decide_eq_false_2 in Er by auto. cbn in Er. lia.
    + split; [by intros [? ?]|by intros ?%Hc].
  - apply NoDup_cons in Hd as [Hcl Hd]. pose proof (Hc c) as Hcc. destruct (pw_cookies s !! c) as [ck|] eqn:Ec; [|destruct Hcc as [_ Hf]; by destruct Hf; left].
    unfold remove_queued_cookie. rewrite decide_True by (rewrite Eq; by left). rewrite (unref_dropped c ck) by done. rewrite bind_ret_l.
    set (s1 := pw_set_queue _ s). destruct (dropped_fields c ck s1) as (_ & _ & F3 & _ & _ & F6).
    rewrite (bool_decide_eq_true_2 (c ∈ c :: l)) in Hcc by (by left). change (Z.b2z true) with 1 in Hcc. apply IH; [|done| |].
    + rewrite F3. cbn. rewrite Eq, filter_cons_False by naive_solver. by apply without_not_in.
    + intros c'. rewrite F6. change (pw_sources s1) with (pw_sources s). destruct (decide (c' = c)) as [->|Hne].
      * rewrite dropped_lookup, (bool_decide_eq_false_2 (c ∈ l)) by done. destruct (Z.leb_spec (pc_ref_count ck - 1) 0) as [Hle|Hgt]; cbn; [|lia].
        split; [|done]. intros Hin. rewrite (bool_decide_eq_true_2 (c ∈ hs)) in Hcc by done. destruct (bool_decide (c ∈ pw_sources s)); cbn in Hcc; lia.
      * rewrite dropped_other by done. specialize (Hc c'). change (pw_cookies s1) with (pw_cookies s).
        assert (E : bool_decide (c' ∈ c :: l) = bool_decide (c' ∈ l)) by (apply bool_decide_ext; rewrite elem_of_cons; naive_solver).
        rewrite E in Hc. destruct (pw_cookies s !! c'); [done|]. rewrite not_elem_of_cons in Hc. naive_solver.
    + intros c'. rewrite F6. apply Hs.
Qed.

(** ** Progress of a search *)

#[local] Opaque NTB_POW_NONCES_PER_CHECK.

Lemma try_nonces_found hash target n m : forall nonce k,
  (k < m)%nat -> (forall j, (j < k)%nat -> try_nonce hash target (u64 (nonce + Z.of_nat j * n)) = false) ->
  try_nonce hash target (u64 (nonce + Z.of_nat k * n)) = true -> 0 <= nonce < 2 ^ 64 ->
  try_nonces m hash target n nonce = (true, u64 (nonce + Z.of_nat k * n)).
Proof.
  induction m as [|m IH]; intros nonce k Hk Hf Ht Hr; [lia|]. cbn [try_nonces]. destruct k as [|k].
  - replace (nonce + Z.of_nat 0 * n) with nonce in * by lia. rewrite (u64_small nonce) in * by lia. by rewrite Ht.
  - specialize (Hf 0%nat ltac:(lia)) as Hf0. replace (nonce + Z.of_nat 0 * n) with nonce in Hf0 by lia. rewrite (u64_small nonce) in Hf0 by lia.
    rewrite Hf0.
    assert (Hsh : forall j, u64 (u64 (nonce + n) + Z.of_nat j * n) = u64 (nonce + Z.of_nat (S j) * n)) by (intros j; unfold u64; rewrite Zplus_mod_idemp_l; f_equal; lia).
    rewrite <- Hsh. apply IH; [lia| |by rewrite Hsh|apply Z.mod_pos_bound; lia]. intros j Hj. rewrite Hsh. apply Hf. lia.
Qed.

Lemma try_nonces_none hash target n m : forall nonce,
  (forall j, (j < m)%nat -> try_nonce hash target (u64 (nonce + Z.of_nat j * n)) = false) -> 0 <= nonce < 2 ^ 64 ->
  try_nonces m hash target n nonce = (false, u64 (nonce + Z.of_nat m * n)).
Proof.
  induction m as [|m IH]; intros nonce Hf Hr; cbn [try_nonces].
  - replace (nonce + Z.of_nat 0 * n) with nonce by lia. by rewrite u64_small by lia.
  - specialize (Hf 0%nat ltac:(lia)) as Hf0. replace (nonce + Z.of_nat 0 * n) with nonce in Hf0 by lia. rewrite (u64_small nonce) in Hf0 by lia.
    rewrite Hf0.
    assert (Hsh : forall j, u64 (u64 (nonce + n) + Z.of_nat j * n) = u64 (nonce + Z.of_nat (S j) * n)) by (intros j; unfold u64; rewrite Zplus_mod_idemp_l; f_equal; lia).
    rewrite IH; [by rewrite Hsh| |apply Z.mod_pos_bound; lia]. intros j Hj. rewrite Hsh. apply Hf. lia.
Qed.

Lemma pow_run_app l1 : forall l2 s, pow_run (l1 ++ l2) s = (s ← pow_run l1 s; pow_run l2 s).
Proof.
  induction l1 as [|i l1 IH]; intros l2 s; cbn [pow_run app]; [done|]. destruct (pow_thread_step i s) as [r| | |]; [|done..].
  by rewrite !bind_ret_l.
Qed.

Lemma searching_range n hs A s i c nonce ck :
  pow_inv n hs A s -> pw_threads s !! i = Some (PowSearching c nonce) -> pw_cookies s !! c = Some ck -> 0 <= nonce < 2 ^ 64.
Proof.
  intros Hi Ei Ec. destruct (pi_threads _ _ _ _ Hi i _ Ei ck Ec) as (k & j & _ & _ & -> & _). apply Z.mod_pos_bound. lia.
Qed.

Lemma run_inv n hs A sched : forall s s', pow_inv n hs A s -> pow_run sched s = Ok s' -> pow_inv n hs A s'.
Proof.
  induction sched as [|i sched IH]; intros s s' Hi; cbn [pow_run]; [by intros [= <-]|].
  destruct (step_spec _ _ _ _ i Hi) as (r & -> & Hr). rewrite bind_ret_l. apply IH. by destruct r.
Qed.

Lemma step_searching s i c nonce ck :
  pw_threads s !! i = Some (PowSearching c nonce) -> pw_cookies s !! c = Some ck ->
  pow_thread_step i s = Ok (Some (match try_nonces NTB_POW_NONCES_PER_CHECK (pc_hash ck) (pc_target ck) (pw_n_threads s) nonce with
                | (true, nonce) => pw_at i (PowFound c nonce) s
                | (false, nonce) => pw_at i (PowSearched c nonce) s
                end)).
Proof. intros Ei Ec. unfold pow_thread_step. rewrite Ei, (pow_cookie_ok c ck s) by done. by rewrite bind_ret_l. Qed.

(** What a step of the thread [j] leaves alone, whatever it does. *)
Record pow_frame (j : nat) s s' : Prop := PowFrame {
  fr_n : pw_n_threads s' = pw_n_threads s;
  fr_quit : pw_quit s' = pw_quit s;
  fr_threads : forall i, i <> j -> pw_threads s' !! i = pw_threads s !! i;
  fr_sources : forall c, c ∈ pw_sources s -> c ∈ pw_sources s';
  fr_cookies : forall c ck', pw_cookies s' !! c = Some ck' ->
    exists ck, pw_cookies s !! c = Some ck /\ pc_hash ck' = pc_hash ck /\ pc_target ck' = pc_target ck
}.

Lemma pow_frame_refl j s : pow_frame j s s.
Proof. split; try done. intros c ck E. by exists ck. Qed.
Lemma pow_frame_trans j s s1 s2 : pow_frame j s s1 -> pow_frame j s1 s2 -> pow_frame j s s2.
Proof.
  intros [En Eq Et Hs Hc] [En' Eq' Et' Hs' Hc']. split; [congruence|congruence| |auto|].
  - intros i Hne. by rewrite Et', Et.
  - intros c ck2 (ck1 & (ck & E & Eh & Etg)%Hc & Eh' & Etg')%Hc'. exists ck. by rewrite Eh', Etg', Eh, Etg.
Qed.
Lemma pow_frame_at j t s : pow_frame j s (pw_at j t s).
Proof. split; try done; cbn; [|intros c ck E; by exists ck]. intros i Hne. by apply list_lookup_insert_ne. Qed.
Lemma pow_frame_queue j q s : pow_frame j s (pw_set_queue q s).
Proof. split; try done. intros c ck E. by exists ck. Qed.
Lemma pow_frame_update j c ck ck' s :
  pw_cookies s !! c = Some ck -> pc_hash ck' = pc_hash ck -> pc_target ck' = pc_target ck -> pow_frame j s (pow_update c ck' s).
Proof.
  intros Ec Eh Et. split; try done. cbn. intros c' ck1 [[<- <-]|[_ E]]%lookup_insert_Some; [by exists ck|by exists ck1].
Qed.
Lemma pow_cookie_inv c s ck : pow_cookie c s = Ok ck -> pw_cookies s !! c = Some ck.
Proof. unfold pow_cookie. by destruct (pw_cookies s !! c); intros [= ->]. Qed.
Lemma pow_frame_unref j c s s' : unref_cookie c s = Ok s' -> pow_frame j s s'.
Proof.
  unfold unref_cookie. intros (ck & Ec%pow_cookie_inv & [= <-])%bind_Ok. case_match; [|by eapply pow_frame_update].
  split; try done. cbn. intros c' ck' [_ E]%lookup_delete_Some. by exists ck'.
Qed.
Lemma pow_frame_unqueue j c s s' : remove_queued_cookie c s = Ok s' -> pow_frame j s s'.
Proof. unfold remove_queued_cookie. case_decide; [|done]. intros E%(pow_frame_unref j). eapply pow_frame_trans; [apply pow_frame_queue|exact E]. Qed.
Lemma pow_frame_solution j c nonce s s' : set_solution c nonce s = Ok s' -> pow_frame j s s'.
Proof.
  unfold set_solution. intros (ck & Ec%pow_cookie_inv & [= <-])%bind_Ok. case_match; [apply pow_frame_refl|].
  eapply pow_frame_trans; [by eapply (pow_frame_update j c ck (pc_add_ref 1 (pc_solved nonce ck)))|].
  split; try done; cbn; [|intros c' ck' E; by exists ck']. intros c' Hin. apply elem_of_app. by left.
Qed.
Lemma pow_frame_take j c s nonce s' : take_cookie j c s = Ok (nonce, s') -> pow_frame j s s'.
Proof.
  unfold take_cookie. intros (ck & Ec%pow_cookie_inv & E)%bind_Ok. cbv zeta in E.
  apply bind_Ok in E as (s2 & E & [= _ <-]).
  eapply pow_frame_trans; [eapply pow_frame_trans; [by eapply (pow_frame_update j c ck (pc_next_offset (pc_add_ref 1 ck)))|apply pow_frame_at]|].
  case_match; [by eapply pow_frame_unqueue|]. injection E as <-. apply pow_frame_refl.
Qed.
Lemma pow_frame_leave j c s s' : unref_cookie c (pw_at j PowReady s) = Ok s' -> pow_frame j s s'.
Proof. intros E. eapply pow_frame_trans; [apply pow_frame_at|by eapply pow_frame_unref]. Qed.
Lemma pow_frame_loop j fuel : forall s s', thread_loop fuel j s = Ok s' -> pow_frame j s s'.
Proof.
  induction fuel as [|fuel IH]; intros s s'; cbn [thread_loop]; [done|]. case_match; [intros [= <-]; apply pow_frame_at|].
  destruct (pw_queue s) as [|c q]; [intros [= <-]; apply pow_frame_at|]. intros ([nonce s1] & E1%pow_frame_take & E)%bind_Ok.
  apply bind_Ok in E as (continues & _ & E). eapply pow_frame_trans; [exact E1|]. destruct continues.
  - injection E as <-. apply pow_frame_at.
  - apply bind_Ok in E as (s2 & E2%pow_frame_leave & E). eapply pow_frame_trans; [exact E2|by apply IH].
Qed.
Lemma pow_frame_step j s r : pow_thread_step j s = Ok r -> pow_frame j s (default s r).
Proof.
  unfold pow_thread_step. destruct (pw_threads s !! j) as [[| |c nonce|c nonce|c nonce|]|]; try (intros [= <-]; apply pow_frame_refl).
  - intros (s1 & E%pow_frame_loop & [= <-])%bind_Ok. exact E.
  - intros (ck & _ & [= <-])%bind_Ok. destruct (try_nonces _ _ _ _ _) as [[] nonce']; apply pow_frame_at.
  - intros (s1 & E%(pow_frame_solution j) & [= <-])%bind_Ok. eapply pow_frame_trans; [exact E|apply pow_frame_at].
  - intros (continues & _ & E)%bind_Ok. destruct continues; [injection E as <-; apply pow_frame_at|].
    apply bind_Ok in E as (s1 & E1%pow_frame_leave & E). apply bind_Ok in E as (s2 & E2%pow_frame_loop & [= <-]).
    by eapply pow_frame_trans.
Qed.

(** The first nonce from [nonce] on that solves the cookie [c] is the [k]-th. *)
Definition first_at s c (nonce : Z) (k : nat) : Prop :=
  exists ck, pw_cookies s !! c = Some ck /\
    (forall j, (j < k)%nat -> try_nonce (pc_hash ck) (pc_target ck) (nonce_of (pw_n_threads s) nonce (Z.of_nat j)) = false) /\
    try_nonce (pc_hash ck) (pc_target ck) (nonce_of (pw_n_threads s) nonce (Z.of_nat k)) = true.

(** The cookie [c] is reported after at most [b] steps of the thread [i]. *)
Definition towards i c (b : nat) s : Prop :=
  c ∈ pw_sources s \/
  (exists nonce k, pw_threads s !! i = Some (PowSearching c nonce) /\ first_at s c nonce k /\ (2 + 2 * (k / NTB_POW_NONCES_PER_CHECK) <= b)%nat) \/
  (exists nonce k, pw_threads s !! i = Some (PowSearched c nonce) /\ first_at s c nonce k /\ (3 + 2 * (k / NTB_POW_NONCES_PER_CHECK) <= b)%nat) \/
  (exists nonce, pw_threads s !! i = Some (PowFound c nonce) /\ (1 <= b)%nat).

Lemma first_at_kept j s s' c ck nonce k :
  pow_frame j s s' -> pw_cookies s' !! c = Some ck -> first_at s c nonce k -> first_at s' c nonce k.
Proof.
  intros [En _ _ _ Hc] Ec (ck0 & Ec0 & Hf & Ht). destruct (Hc c ck Ec) as (ck1 & Ec1 & Eh & Et). simplify_eq.
  exists ck. rewrite En, Eh, Et. by split_and!.
Qed.

Lemma done_source n hs A s c ck :
  pow_inv n hs A s -> c ∈ hs -> pw_cookies s !! c = Some ck -> c ∉ pw_sources s -> pc_done ck = false.
Proof.
  intros Hi Hc Ec Hs. pose proof (pi_cookies _ _ _ _ Hi c) as Hok. unfold cookie_inv in Hok.
  rewrite Ec, (bool_decide_eq_true_2 (c ∈ hs)), (bool_decide_eq_false_2 (c ∈ pw_sources s)) in Hok by done.
  destruct Hok as (_&_&_&_&_&_&Hf&_). destruct (pc_done ck); [|done]. by discriminate (Hf eq_refl eq_refl).
Qed.

(** A step of another thread. *)
Lemma towards_other n hs A i c b j s s' :
  pow_inv n hs A s' -> c ∈ hs -> pow_frame j s s' -> i <> j -> towards i c b s -> towards i c b s'.
Proof.
  intros Hi Hc Hf Hne Ht. destruct (inv_held _ _ _ _ c Hi Hc) as [ck Ec]. unfold towards. rewrite (fr_threads _ _ _ Hf i) by done.
  destruct Ht as [Hs|[(nonce & k & Ei & Hk & Hb)|[(nonce & k & Ei & Hk & Hb)|Hx]]]; [left; by apply Hf|right; left|right; right; left|by do 3 right];
    exists nonce, k; split_and!; try done; by eapply first_at_kept.
Qed.

(** A step of the thread itself. *)
Lemma towards_self n hs A i c b s r :
  pow_inv n hs A s -> c ∈ hs -> pw_quit s = false -> pow_thread_step i s = Ok r -> towards i c b s ->
  towards i c (b - 1) (default s r).
Proof.
  intros Hi Hc Hq E Ht. destruct (decide (c ∈ pw_sources s)) as [Hs|Hs]; [left; by apply (fr_sources _ _ _ (pow_frame_step _ _ _ E))|].
  destruct (inv_held _ _ _ _ c Hi Hc) as [ck Ec]. pose proof (done_source _ _ _ _ _ _ Hi Hc Ec Hs) as Hd.
  assert (Hm : (0 < NTB_POW_NONCES_PER_CHECK)%nat) by (apply Nat.ltb_lt; vm_compute; reflexivity).
  destruct Ht as [?|[(nonce & k & Ei & Hk & Hb)|[(nonce & k & Ei & Hk & Hb)|(nonce & Ei & Hb)]]]; [done|..].
  - rewrite (step_searching _ _ _ _ ck) in E by done. injection E as <-.
    pose proof (searching_range _ _ _ _ _ _ _ _ Hi Ei Ec) as Hr. destruct Hk as (ck0 & Ec0 & Hf & Ht). rewrite Ec in Ec0. injection Ec0 as <-.
    pose proof (lookup_lt_Some _ _ _ Ei) as Hlt. set (m := NTB_POW_NONCES_PER_CHECK) in *.
    destruct (decide (k < m)%nat) as [Hkm|Hkm].
    + rewrite (try_nonces_found _ _ _ _ _ k) by done. do 3 right. eexists. split; [by apply list_lookup_insert_eq|lia].
    + rewrite try_nonces_none by (done || (intros j Hj; apply Hf; lia)). right. right. left.
      exists (nonce_of (pw_n_threads s) nonce (Z.of_nat m)), (k - m)%nat. split; [by apply list_lookup_insert_eq|].
      assert (Hsh : forall j, nonce_of (pw_n_threads s) (nonce_of (pw_n_threads s) nonce (Z.of_nat m)) (Z.of_nat j) = nonce_of (pw_n_threads s) nonce (Z.of_nat (m + j)))
        by (intros j; unfold nonce_of, u64; rewrite Zplus_mod_idemp_l; f_equal; lia).
      split.
      * exists ck. cbn. split; [done|]. split; [intros j Hj; rewrite Hsh; apply Hf; lia|]. rewrite Hsh. by replace (m + (k - m))%nat with k by lia.
      * replace k with ((k - m) + 1 * m)%nat in Hb by lia. rewrite Nat.div_add in Hb by lia. fold m. lia.
  - unfold pow_thread_step in E. rewrite Ei in E. unfold find_nonce_continues in E. rewrite (pow_cookie_ok c ck s), !bind_ret_l, Hd, Hq in E by done.
    injection E as <-. right. left. exists nonce, k. split; [by apply list_lookup_insert_eq, (lookup_lt_Some _ _ _ Ei)|]. split; [|lia].
    by eapply (first_at_kept i); [apply pow_frame_at| |].
  - unfold pow_thread_step in E. rewrite Ei in E. unfold set_solution in E. rewrite (pow_cookie_ok c ck s), !bind_ret_l, Hd in E by done.
    injection E as <-. left. cbn. apply elem_of_app. right. by left.
Qed.

Lemma search_run n hs A i c sched : forall s b,
  pow_inv n hs A s -> c ∈ hs -> pw_quit s = false -> towards i c b s -> (b <= steps_of i sched)%nat ->
  exists s', pow_run sched s = Ok s' /\ c ∈ pw_sources s'.
Proof.
  induction sched as [|j sched IH]; intros s b Hi Hc Hq Ht Hb; cbn [pow_run].
  - exists s. split; [done|]. change (b <= 0)%nat in Hb.
    destruct Ht as [?|[(? & ? & _ & _ & ?)|[(? & ? & _ & _ & ?)|(? & _ & ?)]]]; [done|lia..].
  - destruct (step_spec _ _ _ _ j Hi) as (r & E & Hr). rewrite E, bind_ret_l. pose proof (pow_frame_step _ _ _ E) as Hf.
    assert (Hi' : pow_inv n hs A (default s r)) by by destruct r.
    assert (Hq' : pw_quit (default s r) = false) by (by rewrite (fr_quit _ _ _ Hf)).
    unfold steps_of in *. destruct (decide (j = i)) as [->|Hne].
    + rewrite count_occ_cons_eq in Hb by done. eapply (IH _ (b - 1)%nat); try done; [by eapply towards_self|lia].
    + rewrite count_occ_cons_neq in Hb by done. eapply (IH _ b); try done. by eapply towards_other.
Qed.
End pow_threads.

(** ** The properties *)

(** C13: in every run, however the calls of the main thread, the idle callbacks and
    the steps of the threads interleave, no cookie is used after it is freed, no
    source is removed twice, no loop runs with the mutex for ever and every call
    succeeds; a cookie is in memory exactly while something refers to it, and its
    reference count is the number of its references. *)
Theorem pow_threads_safe `{DigestLaws} n tr s :
  (0 < n)%nat -> pow_exec n tr s ->
  (forall i, exists r, pow_thread_step i s = Ok r) /\
  (forall c, c ∈ outstanding tr -> exists s', ntb_pow_cancel c s = Ok s') /\
  (forall c, c ∈ pw_sources s -> exists nonce s', idle_cb c s = Ok (nonce, s')) /\
  (forall payload extra trials target, calculate_target (u64 (zlen payload + 8)) extra trials = Ok target ->
     exists c s', ntb_pow_calculate payload extra trials s = Ok (c, s')) /\
  (forall c, match pw_cookies s !! c with
     | Some ck => pc_ref_count ck = references tr c s /\ 0 < references tr c s
     | None => references tr c s = 0
     end).
Proof.
  intros Hn He. pose proof (pow_exec_inv _ _ _ Hn He) as Hi. split_and!.
  - intros i. destruct (step_spec _ _ _ _ i Hi) as (r & E & _). by exists r.
  - intros c Hc. destruct (pow_cancel_spec _ _ _ _ _ Hi Hc) as (s' & E & _). by exists s'.
  - intros c Hc. destruct (idle_spec _ _ _ _ _ Hi Hc) as (nonce & s' & _ & _ & E & _). by exists nonce, s'.
  - intros payload extra trials target E. unfold ntb_pow_calculate. rewrite E, bind_ret_l. by eexists _, _.
  - intros c. by eapply inv_references.
Qed.

(** A callback of the proof of work is for a calculation that was asked for
    before and was neither cancelled nor reported; the payload with the reported nonce
    in front passes the check of received objects, and it is the first nonce of the
    sequence of some thread that does. No calculation ends twice. *)
Theorem pow_callback_valid `{DigestLaws} n tr s :
  (0 < n)%nat -> pow_exec n tr s ->
  NoDup (ended tr) /\
  forall tr1 tr2 c nonce, tr = tr1 ++ PowCallback c nonce :: tr2 ->
    c ∈ outstanding tr2 /\
    exists payload extra trials, PowCalculate c payload extra trials ∈ tr2 /\
      let check v := ntb_pow_check (be_split 8 v ++ payload) (zlen payload + 8) extra trials in
      check nonce = Ok true /\
      exists k j, 0 <= k < Z.of_nat n /\ 0 <= j /\ nonce = nonce_of (Z.of_nat n) k j /\
        forall j', 0 <= j' < j -> check (nonce_of (Z.of_nat n) k j') = Ok false.
Proof.
  intros Hn He. split; [by eapply exec_ended|]. intros tr1 tr2 c nonce Et. by eapply exec_callbacks.
Qed.

(** C27: shutting down ends: once [ntb_pow_free] has set the flag, every thread
    returns after at most three of its steps in whatever order they run; joining them
    and emptying the queue then succeeds, and what is left in memory are the cookies
    the main thread still holds. *)
Theorem pow_free_terminates `{DigestLaws} n tr s sched :
  (0 < n)%nat -> pow_exec n tr s -> (forall i, (i < n)%nat -> (3 <= steps_of i sched)%nat) ->
  exists s1 s2, pow_run sched (ntb_pow_free_begin s) = Ok s1 /\ Forall (eq PowExited) (pw_threads s1) /\
    ntb_pow_free_end s1 = Ok s2 /\ pw_queue s2 = [] /\ forall c, is_Some (pw_cookies s2 !! c) <-> c ∈ outstanding tr.
Proof.
  intros Hn He Hsched. pose proof (free_begin_inv _ _ _ _ (pow_exec_inv _ _ _ Hn He)) as Hi.
  destruct (quit_run _ _ _ sched _ Hi eq_refl) as (s1 & E1 & Hi1 & Hall). exists s1.
  assert (Hex : Forall (eq PowExited) (pw_threads s1)).
  { apply Forall_lookup_2. intros i t Ei. assert (Hl : (i < n)%nat) by (rewrite <- (pi_length _ _ _ _ Hi1); by eapply lookup_lt_Some).
    destruct (lookup_lt_is_Some_2 (pw_threads (ntb_pow_free_begin s)) i) as [t0 E0]; [by rewrite (pi_length _ _ _ _ Hi)|].
    destruct (Hall i t0 E0) as (t' & Et' & Hw & Hr). rewrite Ei in Et'. injection Et' as <-. specialize (Hsched i Hl).
    destruct t0, t; cbn in Hr; done || lia. }
  assert (Hz : forall c, thread_refs c (pw_threads s1) = 0).
  { intros c. by apply thread_refs_exited. }
  destruct (remove_all_spec (outstanding tr) (pw_queue s1) s1) as (s2 & E2 & Hq & Hc); [done|apply Hi1| | |by exists s2].
  - intros c. pose proof (pi_cookies _ _ _ _ Hi1 c) as Hok. unfold cookie_inv in Hok. rewrite Hz in Hok. destruct (pw_cookies s1 !! c) as [ck|].
    + destruct Hok as (Er & Hp & _). lia.
    + destruct Hok as (?%bool_decide_eq_false & ?%bool_decide_eq_false & _). done.
  - intros c Hs. destruct (idle_spec _ _ _ _ _ Hi1 Hs) as (_ & _ & _ & _ & _ & _ & Hin & _). done.
Qed.

(** C14: a search makes progress, however the threads are scheduled: when a thread has
    an unsolved calculation and the first nonce from here that solves it is its [k]-th,
    the report of the calculation is installed in every schedule of the threads that
    gives this thread two steps, and two more for every [NTB_POW_NONCES_PER_CHECK]
    nonces before [k]. (Another thread may have found a solution earlier. The main
    thread does not cancel or quit meanwhile.) *)
Theorem pow_solution_reported `{DigestLaws} n tr s i c nonce ck k sched :
  (0 < n)%nat -> pow_exec n tr s -> pw_quit s = false -> pw_threads s !! i = Some (PowSearching c nonce) ->
  c ∈ outstanding tr -> pw_cookies s !! c = Some ck ->
  (forall j, (j < k)%nat -> try_nonce (pc_hash ck) (pc_target ck) (nonce_of (Z.of_nat n) nonce (Z.of_nat j)) = false) ->
  try_nonce (pc_hash ck) (pc_target ck) (nonce_of (Z.of_nat n) nonce (Z.of_nat k)) = true ->
  (2 + 2 * (k / NTB_POW_NONCES_PER_CHECK) <= steps_of i sched)%nat ->
  exists s', pow_run sched s = Ok s' /\ c ∈ pw_sources s'.
Proof.
  intros Hn He Hq Ei Hc Ec Hf Ht Hb. pose proof (pow_exec_inv _ _ _ Hn He) as Hi.
  eapply search_run; [exact Hi|exact Hc|exact Hq| |exact Hb]. right. left. exists nonce, k. split_and!; try done.
  exists ck. by rewrite (pi_n _ _ _ _ Hi).
Qed.

(** ** Two threads that work on one payload *)

#[local] Existing Instances Digests_toy DigestLaws_toy.

Definition demo_get {A} (d : A) (r : result unit A) : A := match r with Ok a => a | _ => d end.
Definition demo_asked : ntb_pow := snd (demo_get (0%nat, ntb_pow_new 2) (ntb_pow_calculate [1; 2; 3] 0 1 (ntb_pow_new 2))).
(** both threads search *)
Definition demo_searching : ntb_pow := demo_get demo_asked (pow_run [0; 1]%nat demo_asked).
(** both have a solution, the second one was faster *)
Definition demo_found : ntb_pow := demo_get demo_asked (pow_run [0; 1; 1; 0]%nat demo_searching).
Definition demo_reported : Z * ntb_pow := demo_get (0, demo_asked) (idle_cb 0 demo_found).

Lemma demo_exec_asked : pow_exec 2 [PowCalculate 0 [1; 2; 3] 0 1] demo_asked.
Proof. apply (exec_calculate 2 [] (ntb_pow_new 2)); [apply exec_new|reflexivity|vm_compute; reflexivity]. Qed.
Lemma demo_exec_searching : pow_exec 2 [PowCalculate 0 [1; 2; 3] 0 1] demo_searching.
Proof. apply (exec_run 2 _ [0; 1]%nat demo_asked); [apply demo_exec_asked|vm_compute; reflexivity]. Qed.
Lemma demo_exec_found : pow_exec 2 [PowCalculate 0 [1; 2; 3] 0 1] demo_found.
Proof. apply (exec_run 2 _ [0; 1; 1; 0]%nat demo_searching); [apply demo_exec_searching|vm_compute; reflexivity]. Qed.
Lemma demo_exec_reported : pow_exec 2 [PowCallback 0 1; PowCalculate 0 [1; 2; 3] 0 1] (snd demo_reported).
Proof.
  apply (exec_idle 2 _ demo_found 0 1); [apply demo_exec_found|apply (bool_decide_unpack _); vm_compute; exact I|vm_compute; reflexivity].
Qed.

Lemma pow_threads_safe_witness :
  (exists r, pow_thread_step 0 demo_found = Ok r) /\ (exists s', ntb_pow_cancel 0 demo_found = Ok s') /\
  exists nonce s', idle_cb 0 demo_found = Ok (nonce, s').
Proof.
  destruct (pow_threads_safe 2 [PowCalculate 0 [1; 2; 3] 0 1] demo_found ltac:(lia) demo_exec_found) as (Hs & Hc & Hi & _).
  split; [apply Hs|]. split; [apply Hc|apply Hi]; apply (bool_decide_unpack _); vm_compute; exact I.
Defined.

Lemma pow_callback_valid_witness :
  NoDup (ended [PowCallback 0 1; PowCalculate 0 [1; 2; 3] 0 1]) /\
  exists payload extra trials, PowCalculate 0 payload extra trials ∈ [PowCalculate 0 [1; 2; 3] 0 1] /\
    ntb_pow_check (be_split 8 1 ++ payload) (zlen payload + 8) extra trials = Ok true.
Proof.
  destruct (pow_callback_valid 2 _ (snd demo_reported) ltac:(lia) demo_exec_reported) as [Hd Hc]. split; [exact Hd|].
  destruct (Hc [] [PowCalculate 0 [1; 2; 3] 0 1] 0%nat 1 eq_refl) as (_ & payload & extra & trials & Hin & Hck & _).
  exists payload, extra, trials. split; [exact Hin|exact Hck].
Defined.

Lemma pow_free_terminates_witness :
  exists s1 s2, pow_run [0; 0; 0; 1; 1; 1]%nat (ntb_pow_free_begin demo_searching) = Ok s1 /\ ntb_pow_free_end s1 = Ok s2 /\ pw_queue s2 = [].
Proof.
  destruct (pow_free_terminates 2 _ demo_searching [0; 0; 0; 1; 1; 1]%nat ltac:(lia) demo_exec_searching) as (s1 & s2 & E1 & _ & E2 & Hq & _).
  { intros [|[|i]] Hi; [reflexivity..|lia]. }
  exists s1, s2. split; [exact E1|]. split; [exact E2|exact Hq].
Defined.

(** The other thread is scheduled too, and is the first to find a solution. *)
Lemma pow_solution_reported_witness :
  exists s', pow_run [1; 1; 0; 1; 0]%nat demo_searching = Ok s' /\ 0%nat ∈ pw_sources s'.
Proof.
  apply (pow_solution_reported 2 [PowCalculate 0 [1; 2; 3] 0 1] demo_searching 0 0 0
           (PowCookie 3 2 (SHA512 [1; 2; 3]) 1676976733973595601 None false false) 0 _ ltac:(lia) demo_exec_searching).
  - vm_compute. reflexivity.
  - vm_compute. reflexivity.
  - apply (bool_decide_unpack _). vm_compute. exact I.
  - vm_compute. reflexivity.
  - intros j Hj. lia.
  - vm_compute. reflexivity.
  - vm_compute. lia.
Defined.
