(* ===== verification/Base58.v ===== *)
(** * Base58: the base58 codec (ntb-base58.c)

    The BIGNUM operations are those of the class of OpenSSL.v. The encoder's
    digit loop runs on fuel; two digits per input byte and one more are enough,
    since 58^2 > 256. *)

From S2P Require Import Prelude OpenSSL.

(** The 58 digits and the terminator of the string literal. *)
Definition alphabet : list Z :=
  str_bytes "123456789ABCDEFGHJKLMNPQRSTUVWXYZabcdefghijkmnopqrstuvwxyz" ++ [0].

(** [tmp = data[i]; data[i] = data[n - 1 - i]; data[n - 1 - i] = tmp;] *)
Definition swap_ends (i : nat) (data : list Z) : list Z :=
  match data !! i, data !! (length data - 1 - i)%nat with
  | Some a, Some b => <[(length data - 1 - i)%nat := a]> (<[i := b]> data)
  | _, _ => data
  end.

(** [for (i = 0; i < length / 2; i++)], [k] rounds left *)
Fixpoint reverse_loop (k i : nat) (data : list Z) : list Z :=
  match k with
  | O => data
  | S k => reverse_loop k (S i) (swap_ends i data)
  end.

Definition reverse_bytes (data : list Z) : list Z :=
  reverse_loop (length data / 2) 0 data.

(** The bisection; [char] is signed. *)
Fixpoint digit_search (fuel : nat) (min max : Z) (digit : Z) : result unit Z :=
  if min <? max then
    match fuel with
    | O => OutOfFuel
    | S fuel =>
        let mid := (min + max) / 2 in
        match alphabet !! Z.to_nat mid with
        | None => UB
        | Some c =>
            if c <? s8 digit then digit_search fuel (mid + 1) max digit
            else digit_search fuel min mid digit
        end
    end
  else Ok min.

(** [max] starts at [sizeof alphabet - 1], the index of the terminator. *)
Definition get_digit_value (digit : Z) : result unit Z :=
  min ← digit_search 8 0 (zlen alphabet - 1) digit;
  match alphabet !! Z.to_nat min with
  | None => UB
  | Some c => Ok (if c =? s8 digit then min else -1)
  end.

Section codec.
Context `{BigNum}.

(** [while (!BN_is_zero(&val)) *(p++) = alphabet[BN_div_word(&val, 58)];] *)
Fixpoint encode_loop (fuel : nat) (val : BIGNUM) : result unit (list Z) :=
  if BN_is_zero val then Ok []
  else match fuel with
       | O => OutOfFuel
       | S fuel =>
           let '(val, part) := BN_div_word val 58 in
           _ ← c_assert ((0 <=? part) && (part <? 58));
           match alphabet !! Z.to_nat part with
           | None => UB
           | Some c => rest ← encode_loop fuel val; Ok (c :: rest)
           end
       end.

(** The characters written to [output]; their number is the return value. *)
Definition ntb_base58_encode (input : list Z) : result unit (list Z) :=
  let val := BN_bin2bn input in
  p ← (if BN_is_zero val then
         match alphabet !! 0%nat with Some c => Ok [c] | None => UB end
       else encode_loop (2 * length input + 1) val);
  Ok (reverse_bytes p).

(** [for (i = 0; i < input_length; i++)] *)
Fixpoint decode_loop (val : BIGNUM) (input : list Z) : result unit BIGNUM :=
  match input with
  | [] => Ok val
  | c :: input =>
      digit_value ← get_digit_value c;
      if digit_value =? -1 then Err tt
      else decode_loop (BN_add_word (BN_mul_word val 58) digit_value) input
  end.

(** The bytes written to [output]; [Err] is the return value -1. *)
Definition ntb_base58_decode (input : list Z) (output_length : Z) : result unit (list Z) :=
  val ← decode_loop BN_init input;
  let n_bytes := BN_num_bytes val in
  if output_length <? n_bytes then Err tt
  else if (n_bytes =? 0) && bool_decide (input = [default 0 (alphabet !! 0%nat)]) then
    _ ← c_assert (1 <=? output_length);
    Ok [0]
  else Ok (BN_bn2bin val).
End codec.

(** ** The digit search *)

(** The position of a character among the digits. *)
Fixpoint index_of (c : Z) (l : list Z) (i : Z) : Z :=
  match l with
  | [] => -1
  | d :: l => if d =? c then i else index_of c l (i + 1)
  end.

Definition digits : list Z := take 58 alphabet.

(** The bisection finds exactly the digits. *)
Lemma get_digit_value_spec c :
  is_byte c -> get_digit_value c = Ok (index_of c digits 0).
Proof.
  intros Hc.
  assert (H : (fun b => bool_decide (get_digit_value b = Ok (index_of b digits 0))) c = true);
    [|by apply bool_decide_eq_true in H].
  revert c Hc. apply byte_forallb_spec. vm_compute. done.
Qed.

(** ** Reversal *)

Lemma swap_ends_lookup i data j :
  (2 * i < length data)%nat ->
  swap_ends i data !! j =
    if decide (j = i \/ j = length data - 1 - i)%nat
    then data !! (length data - 1 - j)%nat else data !! j.
Proof.
  intros Hi. unfold swap_ends. set (n := length data) in *.
  destruct (lookup_lt_is_Some_2 data i) as [a Ha]; [lia|].
  destruct (lookup_lt_is_Some_2 data (n - 1 - i)) as [b Hb]; [lia|].
  rewrite Ha, Hb.
  destruct (decide (j = n - 1 - i)%nat) as [->|Hj1].
  { rewrite list_lookup_insert_eq by (rewrite length_insert; lia).
    rewrite decide_True by tauto. replace (n - 1 - (n - 1 - i))%nat with i by lia. done. }
  rewrite list_lookup_insert_ne by done.
  destruct (decide (j = i)) as [->|Hj2].
  { rewrite list_lookup_insert_eq by lia. by rewrite decide_True by tauto. }
  rewrite list_lookup_insert_ne by done. by rewrite decide_False by tauto.
Qed.

Lemma length_swap_ends i data : length (swap_ends i data) = length data.
Proof. unfold swap_ends. repeat case_match; rewrite ?length_insert; done. Qed.

Lemma reverse_loop_lookup k i data j :
  (2 * (i + k) <= length data)%nat -> (j < length data)%nat ->
  reverse_loop k i data !! j =
    if decide (i <= j < i + k \/ i <= length data - 1 - j < i + k)%nat
    then data !! (length data - 1 - j)%nat else data !! j.
Proof.
  revert i data. induction k as [|k IH]; intros i data Hk Hj; cbn [reverse_loop].
  - by rewrite decide_False by lia.
  - rewrite IH by (rewrite length_swap_ends; lia). rewrite length_swap_ends.
    rewrite !swap_ends_lookup by lia.
    repeat case_decide; try done; try lia; try (exfalso; lia).
    all: replace (length data - 1 - (length data - 1 - j))%nat with j by lia;
      try done; exfalso; lia.
Qed.

Lemma length_reverse_loop k i data : length (reverse_loop k i data) = length data.
Proof.
  revert i data. induction k as [|k IH]; intros; cbn [reverse_loop]; [done|].
  by rewrite IH, length_swap_ends.
Qed.

Lemma reverse_bytes_spec data : reverse_bytes data = reverse data.
Proof.
  unfold reverse_bytes. apply list_eq_same_length with (length data);
    [apply length_reverse|apply length_reverse_loop|].
  intros j x y Hj Hx Hy.
  pose proof (Nat.div_mod_eq (length data) 2). pose proof (Nat.mod_upper_bound (length data) 2).
  rewrite reverse_loop_lookup in Hx by lia. rewrite reverse_lookup in Hy by done.
  case_decide; [replace (length data - 1 - j)%nat with (length data - S j)%nat in Hx by lia;
                congruence|].
  replace (length data - S j)%nat with j in Hy by lia. congruence.
Qed.

(** ** Digits and values *)

(** The character of a digit. *)
Definition dig (d : Z) : Z := default 0 (alphabet !! Z.to_nat d).

Definition is_digit (d : Z) : Prop := 0 <= d < 58.

Lemma dig_spec d :
  is_digit d ->
  alphabet !! Z.to_nat d = Some (dig d) /\ is_byte (dig d) /\
  get_digit_value (dig d) = Ok d.
Proof.
  intros Hd.
  assert (Hall : forallb (fun d => bool_decide (alphabet !! Z.to_nat d = Some (dig d) /\
    is_byte (dig d) /\ get_digit_value (dig d) = Ok d)) (seqZ 0 58) = true)
    by (vm_compute; done).
  rewrite forallb_forall in Hall. specialize (Hall d).
  rewrite <- list_elem_of_In, elem_of_seqZ in Hall. unfold is_digit in Hd.
  specialize (Hall ltac:(lia)). by apply bool_decide_eq_true in Hall.
Qed.

Lemma dig_inj d e : is_digit d -> is_digit e -> dig d = dig e -> d = e.
Proof.
  intros (_ & _ & Hd)%dig_spec (_ & _ & He)%dig_spec Heq. rewrite Heq in Hd. congruence.
Qed.

Fixpoint to_digits (fuel : nat) (v : Z) : list Z :=
  if v =? 0 then []
  else match fuel with
       | O => []
       | S fuel => v mod 58 :: to_digits fuel (v / 58)
       end.

(** Value of a little-endian digit sequence. *)
Definition of_digits (ds : list Z) : Z := foldr (fun d acc => d + 58 * acc) 0 ds.

Lemma to_digits_ok fuel v : Forall is_digit (to_digits fuel v).
Proof.
  revert v. induction fuel as [|fuel IH]; intros v; cbn [to_digits];
    destruct (v =? 0); constructor; [|done].
  apply Z.mod_pos_bound. lia.
Qed.

Lemma of_to_digits fuel v : 0 <= v < 58 ^ Z.of_nat fuel -> of_digits (to_digits fuel v) = v.
Proof.
  revert v. induction fuel as [|fuel IH]; intros v Hv; cbn [to_digits].
  - assert (v = 0) as -> by (change (58 ^ Z.of_nat 0) with 1 in Hv; lia). done.
  - rewrite Nat2Z.inj_succ, Z.pow_succ_r in Hv by lia.
    destruct (Z.eqb_spec v 0) as [->|]; [done|]. cbn [of_digits foldr].
    fold (of_digits (to_digits fuel (v / 58))).
    pose proof (Z.div_mod v 58). pose proof (Z.mod_pos_bound v 58).
    rewrite IH by (split; [apply Z.div_pos|apply Z.div_lt_upper_bound]; lia). lia.
Qed.

Lemma length_to_digits fuel v n :
  0 <= v < 58 ^ Z.of_nat n -> (length (to_digits fuel v) <= n)%nat.
Proof.
  revert v n. induction fuel as [|fuel IH]; intros v n Hv; cbn [to_digits];
    destruct (Z.eqb_spec v 0); cbn [length]; try lia.
  destruct n as [|n]; [change (58 ^ Z.of_nat 0) with 1 in Hv; lia|].
  rewrite Nat2Z.inj_succ, Z.pow_succ_r in Hv by lia.
  apply le_n_S, IH. split; [apply Z.div_pos|apply Z.div_lt_upper_bound]; lia.
Qed.

Lemma fold_digits_reverse ds a :
  fold_left (fun acc d => acc * 58 + d) (reverse ds) a
  = a * 58 ^ zlen ds + of_digits ds.
Proof.
  revert a. induction ds as [|d ds IH]; intros a.
  - cbn. rewrite Z.pow_0_r. lia.
  - rewrite reverse_cons, fold_left_app, IH, zlen_cons, Z.pow_add_r
      by (pose proof (zlen_nonneg ds); lia). cbn [fold_left of_digits foldr].
    fold (of_digits ds). lia.
Qed.

(** A most significant digit that is not zero makes the representation unique. *)
Lemma to_of_digits fuel ds :
  Forall is_digit ds -> (length ds <= fuel)%nat -> last ds <> Some 0 ->
  to_digits fuel (of_digits ds) = ds.
Proof.
  intros Hds. revert fuel. induction Hds as [|d ds Hd Hds IH]; intros fuel Hl Hn.
  { by destruct fuel. }
  unfold is_digit in Hd. cbn [length] in Hl. destruct fuel as [|fuel]; [lia|].
  change (of_digits (d :: ds)) with (d + 58 * of_digits ds).
  assert (Hpos : 0 <= of_digits ds /\ (ds <> [] -> of_digits ds <> 0)).
  { clear -Hds Hn. destruct ds as [|e ds]; [split; [done|congruence]|].
    change (last (d :: e :: ds)) with (last (e :: ds)) in Hn.
    revert e Hds Hn. induction ds as [|f ds IH]; intros e Hds Hn.
    - apply Forall_cons in Hds as [Hds _]. unfold is_digit in Hds. cbn in *.
      split; [lia|]. intros _ ?. apply Hn. f_equal. lia.
    - apply Forall_cons in Hds as [He Hds].
      change (last (e :: f :: ds)) with (last (f :: ds)) in Hn.
      destruct (IH f Hds Hn) as [? Hnz]. specialize (Hnz ltac:(done)).
      change (of_digits (e :: f :: ds)) with (e + 58 * of_digits (f :: ds)).
      unfold is_digit in He. split; [lia|]. intros _. lia. }
  destruct Hpos as [Hpos Hnz]. cbn [to_digits].
  destruct (Z.eqb_spec (d + 58 * of_digits ds) 0) as [Hz|].
  { destruct ds as [|e ds]; [|exfalso; apply Hnz; [done|lia]].
    exfalso. apply Hn. cbn in *. f_equal. lia. }
  rewrite (Z.mul_comm 58), Z.mod_add, Z.div_add, Z.mod_small, Z.div_small by lia.
  rewrite Z.add_0_l, IH; [done|lia|]. destruct ds; [done|]. exact Hn.
Qed.

(** ** Bytes without leading zeroes *)

Fixpoint strip_zeros (l : list Z) : list Z :=
  match l with
  | b :: l' => if b =? 0 then strip_zeros l' else l
  | [] => []
  end.

Lemma strip_zeros_combine l : be_combine (strip_zeros l) = be_combine l.
Proof.
  induction l as [|b l IH]; [done|]. cbn [strip_zeros].
  destruct (Z.eqb_spec b 0) as [->|]; [|done]. rewrite IH, be_combine_cons. lia.
Qed.

Lemma strip_zeros_bytes l : bytes l -> bytes (strip_zeros l).
Proof.
  induction 1 as [|b l Hb Hl IH]; [constructor|]. cbn [strip_zeros].
  destruct (b =? 0); [done|]. by constructor.
Qed.

Lemma length_strip_zeros l : zlen (strip_zeros l) <= zlen l.
Proof.
  induction l as [|b l IH]; [done|]. cbn [strip_zeros]. rewrite zlen_cons.
  destruct (b =? 0); rewrite ?zlen_cons; lia.
Qed.

Lemma strip_zeros_head l : hd 1 (strip_zeros l) <> 0.
Proof. induction l as [|b l IH]; [done|]. cbn [strip_zeros]. by destruct (Z.eqb_spec b 0). Qed.

Lemma num_bytes_exact l :
  bytes l -> hd 1 l <> 0 -> num_bytes (be_combine l) = zlen l.
Proof.
  intros Hb Hh. destruct l as [|b l]; [done|]. cbn [hd] in Hh.
  apply bytes_cons in Hb as [Hb Hl]. unfold is_byte in Hb.
  pose proof (be_combine_range l Hl) as Hr. pose proof (zlen_nonneg l).
  rewrite be_combine_cons, zlen_cons. set (v := b * 256 ^ zlen l + be_combine l).
  assert (Hv : 2 ^ (8 * zlen l) <= v < 2 ^ (8 * zlen l + 8)).
  { change 256 with (2 ^ 8) in Hr. rewrite <- Z.pow_mul_r in Hr by lia.
    unfold v. change 256 with (2 ^ 8). rewrite <- Z.pow_mul_r by lia.
    rewrite Z.pow_add_r by lia. change (2 ^ 8) with 256. nia. }
  assert (0 < 2 ^ (8 * zlen l)) by (apply Z.pow_pos_nonneg; lia).
  unfold num_bytes. destruct (Z.eqb_spec v 0); [lia|].
  assert (8 * zlen l <= Z.log2 v < 8 * zlen l + 8).
  { split; [apply Z.log2_le_pow2; lia|]. apply Z.log2_lt_pow2; lia. }
  enough (Z.log2 v / 8 = zlen l) by lia.
  symmetry. apply (Z.div_unique _ _ _ (Z.log2 v - 8 * zlen l)); lia.
Qed.

(** The bytes [BN_bn2bin] writes for the value of [l]. *)
Lemma bn2bin_strip l :
  bytes l ->
  be_split (Z.to_nat (num_bytes (be_combine l))) (be_combine l) = strip_zeros l.
Proof.
  intros Hb. rewrite <- strip_zeros_combine.
  rewrite num_bytes_exact by (auto using strip_zeros_bytes, strip_zeros_head).
  unfold zlen. rewrite Nat2Z.id. apply be_split_combine. by apply strip_zeros_bytes.
Qed.

(** ** The codec *)

Section codec_spec.
Context `{BigNumLaws}.

Lemma encode_loop_spec fuel val :
  bn_val val < 58 ^ Z.of_nat fuel ->
  encode_loop fuel val = Ok (dig <$> to_digits fuel (bn_val val)).
Proof.
  revert val. induction fuel as [|fuel IH]; intros val Hv; cbn [encode_loop to_digits].
  - pose proof (bn_val_nonneg val). change (58 ^ Z.of_nat 0) with 1 in Hv.
    rewrite bn_is_zero_val. by replace (bn_val val) with 0 by lia.
  - rewrite bn_is_zero_val. destruct (Z.eqb_spec (bn_val val) 0); [done|].
    pose proof (bn_val_nonneg val).
    pose proof (bn_div_word_quot val 58 ltac:(lia)) as Hq.
    pose proof (bn_div_word_rem val 58 ltac:(lia)) as Hr.
    destruct (BN_div_word val 58) as [q r]. cbn [fst snd] in *. subst r.
    pose proof (Z.mod_pos_bound (bn_val val) 58 ltac:(lia)).
    unfold c_assert. destruct (Z.leb_spec 0 (bn_val val mod 58)); [|lia].
    destruct (Z.ltb_spec (bn_val val mod 58) 58); [|lia]. cbn [andb]. rewrite bind_ret_l.
    destruct (dig_spec (bn_val val mod 58)) as (-> & _); [done|].
    rewrite Nat2Z.inj_succ, Z.pow_succ_r in Hv by lia.
    rewrite IH by (rewrite Hq; apply Z.div_lt_upper_bound; lia).
    rewrite bind_ret_l, Hq. done.
Qed.

(** The text of a byte sequence: the digits of its value, most significant first. *)
Definition base58_text (l : list Z) : list Z :=
  if be_combine l =? 0 then [dig 0]
  else dig <$> reverse (to_digits (2 * length l + 1) (be_combine l)).

Lemma value_fits_fuel l : bytes l -> be_combine l < 58 ^ Z.of_nat (2 * length l + 1).
Proof.
  intros Hb. pose proof (be_combine_range l Hb) as [_ Hr].
  eapply Z.lt_le_trans; [exact Hr|].
  replace (Z.of_nat (2 * length l + 1)) with (2 * zlen l + 1) by (unfold zlen; lia).
  pose proof (zlen_nonneg l).
  rewrite Z.pow_add_r, Z.pow_mul_r by lia.
  assert (256 ^ zlen l <= (58 ^ 2) ^ zlen l) by (apply Z.pow_le_mono_l; lia).
  assert (0 < 256 ^ zlen l) by (apply Z.pow_pos_nonneg; lia). lia.
Qed.

Lemma encode_spec l : bytes l -> ntb_base58_encode l = Ok (base58_text l).
Proof.
  intros Hb. unfold ntb_base58_encode, base58_text.
  rewrite bn_is_zero_val, bn_bin2bn_val by done.
  destruct (Z.eqb_spec (be_combine l) 0).
  - change (alphabet !! 0%nat) with (Some (dig 0)). cbn [mbind result_bind].
    by rewrite reverse_bytes_spec.
  - rewrite encode_loop_spec by (rewrite bn_bin2bn_val by done; by apply value_fits_fuel).
    rewrite bind_ret_l, reverse_bytes_spec, bn_bin2bn_val by done.
    by rewrite fmap_reverse.
Qed.

Lemma decode_loop_spec val ds :
  Forall is_digit ds ->
  exists val', decode_loop val (dig <$> ds) = Ok val' /\
    bn_val val' = fold_left (fun acc d => acc * 58 + d) ds (bn_val val).
Proof.
  intros Hds. revert val. induction Hds as [|d ds Hd Hds IH]; intros val; [by eexists|].
  csimpl. destruct (dig_spec d Hd) as (_ & _ & ->). rewrite bind_ret_l.
  unfold is_digit in Hd. destruct (Z.eqb_spec d (-1)); [lia|].
  destruct (IH (BN_add_word (BN_mul_word val 58) d)) as (val' & -> & Hv).
  eexists. split; [done|]. by rewrite Hv, bn_add_word_val, bn_mul_word_val by lia.
Qed.

(** What the decoder makes of any sequence of digits. *)
Lemma decode_spec ds cap :
  Forall is_digit ds ->
  let v := fold_left (fun acc d => acc * 58 + d) ds 0 in
  num_bytes v <= cap -> 1 <= cap ->
  ntb_base58_decode (dig <$> ds) cap =
    Ok (if (v =? 0) && bool_decide (ds = [0]) then [0]
        else be_split (Z.to_nat (num_bytes v)) v).
Proof.
  intros Hds v Hn Hcap. unfold ntb_base58_decode.
  destruct (decode_loop_spec BN_init ds Hds) as (val & -> & Hval). rewrite bind_ret_l.
  rewrite bn_init_val in Hval. fold v in Hval. rewrite bn_num_bytes_val, bn_bn2bin_val, Hval.
  destruct (Z.ltb_spec cap (num_bytes v)); [lia|].
  assert (Hz : (num_bytes v =? 0) = (v =? 0)).
  { unfold num_bytes. destruct (Z.eqb_spec v 0); [done|]. apply Z.eqb_neq.
    pose proof (Z.log2_nonneg v). pose proof (Z.div_pos (Z.log2 v) 8). lia. }
  assert (Hd : bool_decide (dig <$> ds = [default 0 (alphabet !! 0%nat)])
               = bool_decide (ds = [0])).
  { apply bool_decide_ext. split; [|by intros ->].
    destruct ds as [|d [|]]; try done. intros [= Hd]. f_equal.
    apply Forall_cons in Hds as [Hds _]. apply dig_inj; [done|unfold is_digit; lia|]. exact Hd. }
  rewrite Hz, Hd. destruct ((v =? 0) && bool_decide (ds = [0])); [|done].
  unfold c_assert. by destruct (Z.leb_spec 1 cap); [|lia].
Qed.

(** The digits of a text, and its value. *)
Lemma base58_text_digits l :
  bytes l -> exists ds, base58_text l = dig <$> ds /\ Forall is_digit ds /\
    fold_left (fun acc d => acc * 58 + d) ds 0 = be_combine l /\
    (be_combine l = 0 -> ds = [0]).
Proof.
  intros Hb. unfold base58_text. destruct (Z.eqb_spec (be_combine l) 0) as [Hz|].
  - exists [0]. split_and!; [done| |by rewrite Hz|done]. constructor; [|done].
    unfold is_digit. lia.
  - eexists. split; [done|]. split_and!; [|..|done].
    + apply Forall_reverse, to_digits_ok.
    + rewrite fold_digits_reverse, Z.mul_0_l, Z.add_0_l. apply of_to_digits.
      split; [apply be_combine_range, Hb|by apply value_fits_fuel].
Qed.

(** Decoding the text of [l] gives [l] up to its leading zeroes. *)
Lemma decode_encode l cap :
  bytes l -> zlen (strip_zeros l) <= cap -> 1 <= cap ->
  ntb_base58_decode (base58_text l) cap =
    Ok (if be_combine l =? 0 then [0] else strip_zeros l).
Proof.
  intros Hb Hl Hcap.
  destruct (base58_text_digits l Hb) as (ds & -> & Hds & Hv & Hzero).
  rewrite decode_spec; [|done| |done].
  - rewrite Hv, bn2bin_strip by done. destruct (Z.eqb_spec (be_combine l) 0) as [Hz|]; [|done].
    by rewrite Hzero.
  - rewrite Hv, <- strip_zeros_combine, num_bytes_exact;
      auto using strip_zeros_bytes, strip_zeros_head.
Qed.
End codec_spec.

(** ** Accepted texts *)

Lemma get_digit_value_cases c :
  is_byte c ->
  get_digit_value c = Ok (-1) \/ exists d, is_digit d /\ c = dig d /\ get_digit_value c = Ok d.
Proof.
  intros Hc. rewrite get_digit_value_spec by done.
  assert (H : (fun b => (index_of b digits 0 =? -1) ||
    ((0 <=? index_of b digits 0) && (index_of b digits 0 <? 58) &&
     (dig (index_of b digits 0) =? b))) c = true).
  { revert c Hc. apply byte_forallb_spec. vm_compute. done. }
  cbn beta in H. apply orb_true_iff in H as [H|H]; [left; f_equal; lia|right].
  rewrite !andb_true_iff in H. destruct H as [[? ?] ?].
  exists (index_of c digits 0). unfold is_digit. split_and!; [lia..|done].
Qed.

Section accepted.
Context `{BigNumLaws}.

Lemma decode_loop_digits val s val' :
  bytes s -> decode_loop val s = Ok val' -> exists ds, Forall is_digit ds /\ s = dig <$> ds.
Proof.
  intros Hs. revert val. induction Hs as [|c s Hc Hs IH]; intros val Hd; [by exists []|].
  cbn [decode_loop] in Hd.
  destruct (get_digit_value_cases c Hc) as [Hg|(d & Hdig & -> & Hg)];
    rewrite Hg, bind_ret_l in Hd; [done|].
  destruct (d =? -1); [done|]. destruct (IH _ Hd) as (ds & ? & ->).
  exists (d :: ds). split; [by constructor|done].
Qed.

(** The only text that decodes to zero bytes worth of value and is canonical. *)
Lemma decode_accepts s cap l :
  bytes s -> ntb_base58_decode s cap = Ok l ->
  exists ds, Forall is_digit ds /\ s = dig <$> ds /\
    let v := fold_left (fun acc d => acc * 58 + d) ds 0 in
    num_bytes v <= cap /\
    (l = be_split (Z.to_nat (num_bytes v)) v \/ ds = [0] /\ l = [0]).
Proof.
  intros Hs Hd. unfold ntb_base58_decode in Hd.
  apply bind_Ok in Hd as (val & Hloop & Hd).
  destruct (decode_loop_digits _ _ _ Hs Hloop) as (ds & Hds & ->).
  exists ds. split_and!; [done..|].
  destruct (decode_loop_spec BN_init ds Hds) as (val' & Hloop' & Hval).
  rewrite Hloop in Hloop'. injection Hloop' as <-.
  rewrite bn_init_val in Hval. rewrite bn_num_bytes_val, bn_bn2bin_val, Hval in Hd.
  set (v := fold_left _ ds 0) in *.
  destruct (Z.ltb_spec cap (num_bytes v)); [done|]. split; [done|].
  destruct ((num_bytes v =? 0) && bool_decide _) eqn:Hb.
  - right. apply andb_true_iff in Hb as [_ Hb%bool_decide_eq_true].
    unfold c_assert in Hd. destruct (1 <=? cap); [|done]. injection Hd as <-. split; [|done].
    destruct ds as [|d [|]]; try done. injection Hb as Hb. f_equal.
    apply Forall_cons in Hds as [Hds _]. apply dig_inj; [done|unfold is_digit; lia|exact Hb].
  - left. by injection Hd as <-.
Qed.

Lemma num_bytes_bound v : 0 <= v -> v < 256 ^ num_bytes v.
Proof.
  intros Hv. unfold num_bytes. destruct (Z.eqb_spec v 0) as [->|]; [done|].
  pose proof (Z.log2_spec v ltac:(lia)) as [_ Hlog]. pose proof (Z.log2_nonneg v).
  change 256 with (2 ^ 8). rewrite <- Z.pow_mul_r
    by (pose proof (Z.div_pos (Z.log2 v) 8); lia).
  eapply Z.lt_le_trans; [exact Hlog|]. apply Z.pow_le_mono_r; [lia|].
  pose proof (Z.div_mod (Z.log2 v) 8). pose proof (Z.mod_pos_bound (Z.log2 v) 8). lia.
Qed.

Lemma fold_digits_nonneg ds a :
  Forall is_digit ds -> 0 <= a -> 0 <= fold_left (fun acc d => acc * 58 + d) ds a.
Proof.
  intros Hds. revert a. induction Hds as [|d ds Hd _ IH]; intros a Ha; [done|].
  cbn [fold_left]. apply IH. unfold is_digit in Hd. lia.
Qed.

(** The digits of the value of a canonical sequence are that sequence. *)
Lemma to_digits_canonical ds n :
  Forall is_digit ds -> hd 0 ds <> 0 ->
  let v := fold_left (fun acc d => acc * 58 + d) ds 0 in
  v < 58 ^ Z.of_nat n -> v <> 0 /\ to_digits n v = reverse ds.
Proof.
  intros Hds Hh v Hn.
  assert (Hof : of_digits (reverse ds) = v).
  { pose proof (fold_digits_reverse (reverse ds) 0) as Hf.
    rewrite reverse_involutive in Hf. fold v in Hf. lia. }
  assert (Hrev : Forall is_digit (reverse ds)) by by apply Forall_reverse.
  assert (Hlast : last (reverse ds) <> Some 0).
  { rewrite last_reverse. destruct ds as [|d ds]; [done|]. intros [= ->]. by apply Hh. }
  pose proof (to_of_digits (length ds) (reverse ds) Hrev
    ltac:(by rewrite length_reverse) Hlast) as Hself.
  rewrite Hof in Hself. split.
  - intros Hz. rewrite Hz in Hself. destruct ds as [|d ds]; [done|].
    cbn [to_digits length Z.eqb] in Hself.
    apply (f_equal length) in Hself. rewrite length_reverse in Hself. done.
  - rewrite <- Hof. apply to_of_digits; [done| |done]. rewrite <- Hself.
    apply length_to_digits. split; [|done]. by apply fold_digits_nonneg.
Qed.

Lemma num_bytes_nonneg v : 0 <= num_bytes v.
Proof.
  unfold num_bytes. destruct (v =? 0); [lia|].
  pose proof (Z.div_pos (Z.log2 v) 8 (Z.log2_nonneg v)). lia.
Qed.

(** Re-encoding what was decoded gives the text back when it is canonical. *)
Lemma encode_decode s cap l :
  bytes s -> hd (dig 0) s <> dig 0 \/ s = [dig 0] ->
  ntb_base58_decode s cap = Ok l -> ntb_base58_encode l = Ok s.
Proof.
  intros Hs Hcanon Hd. destruct (decode_accepts s cap l Hs Hd) as (ds & Hds & -> & Hn & Hl).
  pose proof (fold_digits_nonneg ds 0 Hds ltac:(lia)) as Hnn.
  set (v := fold_left _ ds 0) in *.
  destruct Hcanon as [Hh|Hone].
  - destruct Hl as [->|[-> ->]]; [|by cbn in Hh].
    pose proof (num_bytes_bound v Hnn) as Hvb. pose proof (num_bytes_nonneg v).
    set (l := be_split (Z.to_nat (num_bytes v)) v).
    assert (Hcomb : be_combine l = v).
    { unfold l. rewrite be_combine_split, Z2Nat.id by done. apply Z.mod_small. lia. }
    assert (Hb : bytes l) by apply bytes_be_split.
    pose proof (value_fits_fuel l Hb) as Hfuel. rewrite Hcomb in Hfuel.
    destruct (to_digits_canonical ds (2 * length l + 1) Hds) as [Hnz Hdig]; [|done|].
    { destruct ds as [|d ds]; [by cbn in Hh|]. cbn [hd]. intros Hd0. apply Hh. by rewrite <- Hd0 at 2. }
    rewrite encode_spec by done. unfold base58_text. rewrite Hcomb.
    destruct (Z.eqb_spec v 0); [done|]. fold v in Hdig. by rewrite Hdig, reverse_involutive.
  - destruct ds as [|d [|]]; try done. injection Hone as Hone.
    apply Forall_cons in Hds as [Hd0 _].
    apply dig_inj in Hone; [subst d|done|unfold is_digit; lia].
    destruct Hl as [->|[_ ->]]; rewrite encode_spec
      by first [apply bytes_be_split | apply bytes_singleton; unfold is_byte; lia]; done.
Qed.
End accepted.

(** ** Properties *)

(** Encoding bytes and decoding the text into a large enough output returns
    the bytes without their leading zeroes (a single zero byte for a zero
    value), so it is the identity on sequences that do not start with zero. *)
Theorem base58_decode_encode `{BigNumLaws} l cap :
  bytes l -> zlen l <= cap -> 1 <= cap ->
  exists text, ntb_base58_encode l = Ok text /\
    ntb_base58_decode text cap = Ok (if be_combine l =? 0 then [0] else strip_zeros l).
Proof.
  intros Hb Hl Hcap. exists (base58_text l). split; [by apply encode_spec|].
  apply decode_encode; [done| |done]. pose proof (length_strip_zeros l). lia.
Qed.

Lemma base58_decode_encode_witness :
  exists text, ntb_base58_encode (H := BigNum_N) [0; 255; 240; 15; 17; 15] = Ok text /\
    ntb_base58_decode (H := BigNum_N) text 26 = Ok [255; 240; 15; 17; 15].
Proof.
  apply (base58_decode_encode (H0 := BigNumLaws_N) [0; 255; 240; 15; 17; 15] 26).
  - apply (bool_decide_unpack _). vm_compute. exact I.
  - vm_compute. congruence.
  - lia.
Defined.

(** A text that is accepted by the decoder and does not start with the zero
    digit (or is that digit alone) is the only canonical text of its bytes:
    encoding the decoded bytes returns it. *)
Theorem base58_encode_decode `{BigNumLaws} s cap l :
  bytes s -> hd (dig 0) s <> dig 0 \/ s = [dig 0] ->
  ntb_base58_decode s cap = Ok l -> ntb_base58_encode l = Ok s.
Proof. apply encode_decode. Qed.

Lemma base58_encode_decode_witness :
  ntb_base58_encode (H := BigNum_N) [35; 24; 16] = Ok (str_bytes "Cngo").
Proof.
  apply (base58_encode_decode (H0 := BigNumLaws_N) (str_bytes "Cngo") 26).
  - apply (bool_decide_unpack _). vm_compute. exact I.
  - left. vm_compute. congruence.
  - vm_compute. reflexivity.
Defined.
