(* ===== verification/Address.v ===== *)
(** * Address: Bitmessage addresses (ntb-address.c, ntb-address.h) *)

From S2P Require Import Prelude Endian Buffer NetAddress OpenSSL Proto ProtoSpec Base58.

Record ntb_address := Address { addr_version : Z; addr_stream : Z; addr_ripe : list Z }.

#[global] Instance ntb_address_eq_dec : EqDecision ntb_address.
Proof. solve_decision. Defined.

(** The declared types of the fields. *)
Definition address_wf (a : ntb_address) : Prop :=
  is_byte (addr_version a) /\ is_byte (addr_stream a) /\
  length (addr_ripe a) = RIPEMD160_DIGEST_LENGTH /\ bytes (addr_ripe a).
#[global] Instance address_wf_dec a : Decision (address_wf a).
Proof. unfold address_wf. apply _. Defined.

Definition NTB_ADDRESS_MAX_LENGTH : Z := 39.
Definition NTB_ADDRESS_TAG_SIZE : nat := 32.
Definition NTB_ECC_PRIVATE_KEY_SIZE : nat := 32.

(** [sizeof bin_address] *)
Definition bin_address_size : Z := 1 + 1 + Z.of_nat RIPEMD160_DIGEST_LENGTH + 4.

Definition address_prefix : list Z := str_bytes "BM-".

Section address.
Context `{Digests} `{BigNum}.

Definition calc_checksum (version stream : Z) (ripe : list Z) : list Z :=
  let hash1 := SHA512 (version :: stream :: ripe) in
  let hash2 := SHA512 hash1 in
  take 4 hash2.

(** [for (i = 0; i < max_trim && *ripe == 0; i++) { ripe++; ripe_length--; }] *)
Fixpoint trim_ripe (max_trim : nat) (ripe : list Z) : result unit (list Z) :=
  match max_trim with
  | O => Ok ripe
  | S max_trim =>
      b ← deref ripe;
      if b =? 0 then trim_ripe max_trim (drop 1 ripe) else Ok ripe
  end.

(** The characters of the address, without the terminator. *)
Definition ntb_address_encode (a : ntb_address) : result unit (list Z) :=
  let max_trim := if 4 <=? addr_version a then RIPEMD160_DIGEST_LENGTH else 2%nat in
  ripe ← trim_ripe max_trim (addr_ripe a);
  let checksum := calc_checksum (addr_version a) (addr_stream a) ripe in
  let bin_address := addr_version a :: addr_stream a :: ripe ++ checksum in
  _ ← c_assert (zlen bin_address <=? bin_address_size);
  text ← ntb_base58_encode bin_address;
  Ok (address_prefix ++ text).

(** [address_string] is the string up to its terminator. *)
Definition ntb_address_decode (address_string : list Z) : result unit ntb_address :=
  let address_string :=
    if bytes_eqb (take 3 address_string) address_prefix then drop 3 address_string
    else address_string in
  bin_address ← ntb_base58_decode address_string bin_address_size;
  let ripe_length := zlen bin_address - 1 - 1 - 4 in
  if ripe_length <? 0 then Err tt
  else
    version ← deref bin_address;
    stream ← deref (drop 1 bin_address);
    let ripe_start := drop 2 bin_address in
    let ripe := take (Z.to_nat ripe_length) ripe_start in
    let checksum := calc_checksum version stream ripe in
    if negb (bytes_eqb checksum (take 4 (drop (Z.to_nat ripe_length) ripe_start))) then Err tt
    else
      _ ← c_assert (ripe_length <=? Z.of_nat RIPEMD160_DIGEST_LENGTH);
      Ok (Address version stream
            (replicate (RIPEMD160_DIGEST_LENGTH - Z.to_nat ripe_length) 0 ++ ripe)).

Definition ntb_address_equal (a b : ntb_address) : bool :=
  (addr_version a =? addr_version b) && (addr_stream a =? addr_stream b) &&
  bytes_eqb (addr_ripe a) (addr_ripe b).

(** A digest stored into a local array of the given size. *)
Definition store_digest (size : nat) (digest : list Z) : result unit (list Z) :=
  if decide (length digest <= size)%nat then Ok digest else UB.

(** The array [sha_hash] has [SHA_DIGEST_LENGTH] elements. *)
Definition ntb_address_from_network_keys (version stream : Z)
    (public_signing_key public_encryption_key : ptr) : result unit ntb_address :=
  signing ← read_bytes (Z.to_nat (NTB_ECC_PUBLIC_KEY_SIZE - 1)) public_signing_key;
  encryption ← read_bytes (Z.to_nat (NTB_ECC_PUBLIC_KEY_SIZE - 1)) public_encryption_key;
  sha_hash ← store_digest SHA_DIGEST_LENGTH (SHA512 ((4 :: signing) ++ (4 :: encryption)));
  Ok (Address version stream (RIPEMD160 sha_hash)).

(** The tag and the private key of the tag. *)
Definition ntb_address_get_tag (a : ntb_address) : result unit (list Z * list Z) :=
  buffer ← ntb_proto_add_var_int ntb_buffer_init (addr_version a);
  buffer ← ntb_proto_add_var_int buffer (addr_stream a);
  header ← buf_read buffer 0 (buf_length buffer);
  let hash1 := SHA512 (header ++ addr_ripe a) in
  let hash2 := SHA512 hash1 in
  Ok (take NTB_ADDRESS_TAG_SIZE (drop NTB_ECC_PRIVATE_KEY_SIZE hash2),
      take NTB_ECC_PRIVATE_KEY_SIZE hash2).
End address.

(** ** Trimming *)

Lemma trim_ripe_spec n ripe :
  (n <= length ripe)%nat ->
  exists k, trim_ripe n ripe = Ok (drop k ripe) /\ (k <= n)%nat /\
    take k ripe = replicate k 0.
Proof.
  revert ripe. induction n as [|n IH]; intros ripe Hn; cbn [trim_ripe].
  - exists O. by rewrite drop_0.
  - destruct ripe as [|b ripe]; [simpl in Hn; lia|]. cbn [deref mbind result_bind].
    destruct (Z.eqb_spec b 0) as [->|].
    + simpl in Hn. destruct (IH ripe) as (k & Hk & ? & Ht); [lia|].
      exists (S k). change (drop 1 (0 :: ripe)) with ripe. rewrite Hk.
      split_and!; [done|lia|]. simpl. by rewrite Ht.
    + exists O. split_and!; [done|lia|done].
Qed.

Lemma replicate_drop_ripe k ripe :
  take k ripe = replicate k 0 -> (k <= length ripe)%nat ->
  replicate (length ripe - length (drop k ripe)) 0 ++ drop k ripe = ripe.
Proof.
  intros Ht Hk. rewrite length_drop. replace (length ripe - (length ripe - k))%nat with k by lia.
  rewrite <- Ht. apply take_drop.
Qed.

(** ** Encoding and decoding *)

Section address_spec.
Context `{DigestLaws} `{BigNumLaws}.

Lemma checksum_bytes v s r : bytes (calc_checksum v s r) /\ length (calc_checksum v s r) = 4%nat.
Proof.
  unfold calc_checksum. split; [apply bytes_take, SHA512_bytes|].
  rewrite length_take, SHA512_length. done.
Qed.

(** The binary form of an address, for the ripe that is left after trimming. *)
Definition bin_form (a : ntb_address) (ripe : list Z) : list Z :=
  addr_version a :: addr_stream a :: ripe ++ calc_checksum (addr_version a) (addr_stream a) ripe.

Lemma encode_address_spec a :
  address_wf a ->
  exists k, (k <= 20)%nat /\ take k (addr_ripe a) = replicate k 0 /\
    bytes (bin_form a (drop k (addr_ripe a))) /\
    zlen (bin_form a (drop k (addr_ripe a))) = 26 - Z.of_nat k /\
    ntb_address_encode a =
      Ok (address_prefix ++ base58_text (bin_form a (drop k (addr_ripe a)))).
Proof.
  intros (Hv & Hs & Hl & Hb). unfold RIPEMD160_DIGEST_LENGTH in *. unfold ntb_address_encode.
  set (n := if 4 <=? addr_version a then _ else _).
  destruct (trim_ripe_spec n (addr_ripe a)) as (k & -> & Hk & Ht).
  { unfold n. unfold RIPEMD160_DIGEST_LENGTH. destruct (4 <=? _); lia. }
  rewrite bind_ret_l. set (ripe := drop k (addr_ripe a)).
  destruct (checksum_bytes (addr_version a) (addr_stream a) ripe) as [Hcb Hcl].
  assert (Hk20 : (k <= 20)%nat).
  { unfold n, RIPEMD160_DIGEST_LENGTH in Hk. destruct (4 <=? addr_version a); lia. }
  assert (Hbin : bytes (bin_form a ripe)).
  { repeat (apply bytes_cons; split; [done|]). apply bytes_app. split; [by apply bytes_drop|done]. }
  assert (Hz : zlen (bin_form a ripe) = 26 - Z.of_nat k).
  { unfold bin_form, ripe. rewrite !zlen_cons, zlen_app. unfold zlen.
    fold ripe. rewrite Hcl. unfold ripe. rewrite length_drop. lia. }
  exists k. split_and!; try done. fold (bin_form a ripe).
  unfold c_assert, bin_address_size, RIPEMD160_DIGEST_LENGTH. rewrite Hz.
  destruct (Z.leb_spec (26 - Z.of_nat k) (1 + 1 + Z.of_nat 20 + 4)); [|lia].
  rewrite bind_ret_l, encode_spec by done. done.
Qed.

(** What the decoder does with the binary form of an address. *)
Lemma decode_bin_form a k text :
  address_wf a -> (k <= 20)%nat -> take k (addr_ripe a) = replicate k 0 ->
  ntb_base58_decode text bin_address_size = Ok (bin_form a (drop k (addr_ripe a))) ->
  ntb_address_decode (address_prefix ++ text) = Ok a.
Proof.
  intros (Hv & Hs & Hl & Hb) Hk Ht Hdec. unfold RIPEMD160_DIGEST_LENGTH in Hl.
  unfold ntb_address_decode. change (take 3 (address_prefix ++ text)) with address_prefix.
  rewrite bytes_eqb_refl. change (drop 3 (address_prefix ++ text)) with text.
  rewrite Hdec, bind_ret_l. set (ripe := drop k (addr_ripe a)).
  destruct (checksum_bytes (addr_version a) (addr_stream a) ripe) as [Hcb Hcl].
  assert (Hrl : length ripe = (20 - k)%nat) by (unfold ripe; rewrite length_drop; lia).
  unfold bin_form. rewrite !zlen_cons, zlen_app.
  replace (1 + (1 + (zlen ripe + zlen (calc_checksum (addr_version a) (addr_stream a) ripe)))
           - 1 - 1 - 4) with (zlen ripe) by (unfold zlen; lia).
  pose proof (zlen_nonneg ripe).
  destruct (Z.ltb_spec (zlen ripe) 0); [lia|].
  match goal with |- context [drop 2 (?x :: ?y :: ?l)] => change (drop 2 (x :: y :: l)) with l end.
  cbn [deref mbind result_bind drop skipn]. unfold zlen. rewrite Nat2Z.id.
  rewrite take_app_length, drop_app_length, take_ge by lia.
  rewrite bytes_eqb_refl. cbn [negb].
  unfold c_assert, RIPEMD160_DIGEST_LENGTH.
  destruct (Z.leb_spec (Z.of_nat (length ripe)) (Z.of_nat 20)); [|lia].
  cbn [mbind result_bind]. f_equal. destruct a as [v s r]. cbn [addr_version addr_stream addr_ripe] in *.
  f_equal. rewrite <- Hl. apply replicate_drop_ripe; [done|lia].
Qed.

Lemma address_roundtrip_core a :
  address_wf a -> addr_version a <> 0 ->
  exists text, ntb_address_encode a = Ok text /\ ntb_address_decode text = Ok a /\
    zlen text <= NTB_ADDRESS_MAX_LENGTH.
Proof.
  intros Hwf Hv. destruct (encode_address_spec a Hwf) as (k & Hk & Ht & Hbin & Hz & ->).
  set (l := bin_form a (drop k (addr_ripe a))) in *.
  eexists. split; [reflexivity|].
  assert (Hstrip : strip_zeros l = l).
  { unfold l, bin_form. cbn [strip_zeros]. by destruct (Z.eqb_spec (addr_version a) 0). }
  assert (Hnz : be_combine l <> 0).
  { unfold l, bin_form. rewrite be_combine_cons.
    apply bytes_cons in Hbin as [Hb0 Hrest]. pose proof (be_combine_range _ Hrest).
    unfold is_byte in Hb0.
    match goal with |- context [256 ^ ?e] => pose proof (Z.pow_pos_nonneg 256 e) end.
    pose proof (zlen_nonneg (addr_stream a :: drop k (addr_ripe a) ++
      calc_checksum (addr_version a) (addr_stream a) (drop k (addr_ripe a)))). nia. }
  split.
  - eapply decode_bin_form; [done|exact Hk|done|]. rewrite decode_encode; [|done| |done].
    + destruct (Z.eqb_spec (be_combine l) 0); [done|]. by rewrite Hstrip.
    + rewrite Hstrip, Hz. unfold bin_address_size, RIPEMD160_DIGEST_LENGTH. lia.
  - rewrite zlen_app. change (zlen address_prefix) with 3. unfold base58_text.
    destruct (Z.eqb_spec (be_combine l) 0); [done|].
    unfold zlen. rewrite length_fmap, length_reverse. unfold NTB_ADDRESS_MAX_LENGTH.
    enough (length (to_digits (2 * length l + 1) (be_combine l)) <= 36)%nat by lia.
    apply length_to_digits. pose proof (be_combine_range l Hbin) as Hr.
    split; [lia|]. eapply Z.lt_le_trans; [apply Hr|]. rewrite Hz.
    transitivity (256 ^ 26); [apply Z.pow_le_mono_r; lia|]. vm_compute. congruence.
Qed.
End address_spec.

(** ** Decoding untrusted text *)

Section address_safe.
Context `{DigestLaws} `{BigNumLaws}.

Lemma index_decode_safe val s :
  bytes s -> match decode_loop val s with Ok _ | Err _ => True | _ => False end.
Proof.
  intros Hs. revert val. induction Hs as [|c s Hc Hs IH]; intros val; [done|].
  cbn [decode_loop].
  destruct (get_digit_value_cases c Hc) as [->|(d & Hd & _ & ->)]; rewrite bind_ret_l; [done|].
  destruct (d =? -1); [done|]. apply IH.
Qed.

(** The decoder's output is a sequence of bytes that fits. *)
Lemma base58_decode_safe s cap :
  bytes s -> 1 <= cap ->
  match ntb_base58_decode s cap with
  | Ok l => bytes l /\ zlen l <= cap
  | Err _ => True
  | UB | OutOfFuel => False
  end.
Proof.
  intros Hs Hcap. unfold ntb_base58_decode. pose proof (index_decode_safe BN_init s Hs) as Hsafe.
  destruct (decode_loop BN_init s) as [val| | |]; try done. rewrite bind_ret_l.
  rewrite bn_num_bytes_val, bn_bn2bin_val.
  destruct (Z.ltb_spec cap (num_bytes (bn_val val))); [done|].
  destruct (_ && _).
  - unfold c_assert. destruct (Z.leb_spec 1 cap); [|lia]. rewrite bind_ret_l.
    split; [apply bytes_singleton; unfold is_byte; lia|zlia].
  - split; [apply bytes_be_split|]. rewrite zlen_be_split.
    pose proof (num_bytes_nonneg (bn_val val)). lia.
Qed.

Lemma address_decode_total s :
  bytes s ->
  match ntb_address_decode s with
  | Ok a => address_wf a
  | Err _ => True
  | UB | OutOfFuel => False
  end.
Proof.
  intros Hs. unfold ntb_address_decode.
  set (t := if bytes_eqb _ _ then _ else s).
  assert (Ht : bytes t) by (unfold t; destruct (bytes_eqb _ _); auto with ntb).
  pose proof (base58_decode_safe t bin_address_size Ht ltac:(done)) as Hd.
  destruct (ntb_base58_decode t bin_address_size) as [l| | |]; try done.
  destruct Hd as [Hb Hl]. rewrite bind_ret_l.
  unfold bin_address_size, RIPEMD160_DIGEST_LENGTH in *.
  destruct (Z.ltb_spec (zlen l - 1 - 1 - 4) 0) as [|Hr]; [done|].
  destruct l as [|v [|st l]]; [zlia|zlia|]. rewrite !zlen_cons in *.
  apply bytes_cons in Hb as [Hv Hb]. apply bytes_cons in Hb as [Hst Hb].
  cbn [deref mbind result_bind drop skipn].
  destruct (bytes_eqb _ (take 4 _)); cbn [negb]; [|exact I]. unfold c_assert.
  destruct (Z.leb_spec (1 + (1 + zlen l) - 1 - 1 - 4) (Z.of_nat 20)); [|lia].
  rewrite bind_ret_l, drop_0.
  unfold address_wf, RIPEMD160_DIGEST_LENGTH. cbn [addr_version addr_stream addr_ripe].
  split_and!; try done.
  - rewrite length_app, length_replicate, length_take. unfold zlen in *. lia.
  - apply bytes_app. split; [apply bytes_replicate; unfold is_byte; lia|by apply bytes_take].
Qed.
End address_safe.

(** ** Properties *)

(** Every address whose version is not zero survives being written as a
    "BM-" text and read back, and the text never exceeds the 39 characters of
    [NTB_ADDRESS_MAX_LENGTH]. *)
Theorem address_roundtrip `{DigestLaws} `{BigNumLaws} a :
  address_wf a -> addr_version a <> 0 ->
  exists text, ntb_address_encode a = Ok text /\ ntb_address_decode text = Ok a /\
    zlen text <= NTB_ADDRESS_MAX_LENGTH.
Proof. apply address_roundtrip_core. Qed.

Definition example_address : ntb_address := Address 4 1 (0 :: 0 :: 0 :: replicate 17 200).

Lemma address_roundtrip_witness :
  exists text, ntb_address_encode (H := Digests_toy) (H0 := BigNum_N) example_address = Ok text /\
    ntb_address_decode (H := Digests_toy) (H0 := BigNum_N) text = Ok example_address /\
    zlen text <= NTB_ADDRESS_MAX_LENGTH.
Proof.
  apply (address_roundtrip (H0 := DigestLaws_toy) (H2 := BigNumLaws_N) example_address).
  - apply (bool_decide_unpack _). vm_compute. exact I.
  - vm_compute. congruence.
Defined.

(** Decoding any text, whatever bytes it holds, never leaves the bounds of
    the local arrays: it is rejected or gives an address with a 20-byte ripe. *)
Theorem address_decode_safe `{DigestLaws} `{BigNumLaws} s :
  bytes s ->
  match ntb_address_decode s with
  | Ok a => address_wf a
  | Err _ => True
  | UB | OutOfFuel => False
  end.
Proof. apply address_decode_total. Qed.

Lemma address_decode_safe_witness :
  match ntb_address_decode (H := Digests_toy) (H0 := BigNum_N) (str_bytes "BM-zzzzzzzzzzzzzzzz") with
  | Ok a => address_wf a
  | Err _ => True
  | UB | OutOfFuel => False
  end.
Proof.
  apply (address_decode_safe (H0 := DigestLaws_toy) (H2 := BigNumLaws_N)).
  apply (bool_decide_unpack _). vm_compute. exact I.
Defined.

(** Computing an address from two network keys always writes the 64 bytes of
    a SHA-512 digest into a local array of 20 bytes. *)
Theorem address_from_network_keys_overflows `{DigestLaws} version stream sk ek :
  64 <= zlen sk -> 64 <= zlen ek ->
  ntb_address_from_network_keys version stream sk ek = UB.
Proof.
  intros Hs He. unfold ntb_address_from_network_keys, zlen in *.
  rewrite !read_bytes_Ok by (change (Z.to_nat _) with 64%nat; lia). rewrite !bind_ret_l.
  unfold store_digest. rewrite decide_False; [done|].
  rewrite SHA512_length. unfold SHA512_DIGEST_LENGTH, SHA_DIGEST_LENGTH. lia.
Qed.

Lemma address_from_network_keys_overflows_witness :
  ntb_address_from_network_keys (H := Digests_toy) 4 1 (replicate 64 1) (replicate 64 2) = UB.
Proof.
  apply (address_from_network_keys_overflows (H0 := DigestLaws_toy)); vm_compute; congruence.
Defined.

(** The tag of an address and its private key are the upper and the lower
    half of the double SHA-512 of the variable-length version, the
    variable-length stream and the whole ripe. *)
Theorem address_get_tag_spec `{DigestLaws} a :
  address_wf a ->
  exists tag key, ntb_address_get_tag a = Ok (tag, key) /\
    length tag = NTB_ADDRESS_TAG_SIZE /\ length key = NTB_ECC_PRIVATE_KEY_SIZE /\
    key ++ tag = SHA512 (SHA512 (enc_var_int (addr_version a) ++ enc_var_int (addr_stream a)
                                 ++ addr_ripe a)).
Proof.
  intros (Hv & Hs & Hl & Hb). unfold is_byte in *. unfold ntb_address_get_tag.
  destruct (appends_add_var_int ntb_buffer_init (addr_version a)) as (b1 & -> & ? & Hl1 & Hc1);
    [lia|by split; [apply (bool_decide_unpack _)|]|]. rewrite bind_ret_l.
  pose proof (zlen_enc_var_int (addr_version a)). cbn [buf_length ntb_buffer_init] in Hl1.
  destruct (appends_add_var_int b1 (addr_stream a)) as (b2 & -> & Hwf2 & Hl2 & Hc2);
    [lia|split; [done|lia]|]. rewrite bind_ret_l.
  rewrite Hc1 in Hc2. change (cells ntb_buffer_init) with (@nil (option Z)) in Hc2.
  rewrite app_nil_l, <- fmap_app in Hc2.
  set (hdr := enc_var_int (addr_version a) ++ enc_var_int (addr_stream a)) in *.
  assert (Hz : buf_length b2 = zlen hdr) by (unfold hdr; zlia). rewrite Hz.
  rewrite (buf_read_mid b2 [] hdr (drop (Z.to_nat (buf_length b2)) (buf_data b2)));
    [|rewrite <- Hc2; unfold cells; by rewrite take_drop|done].
  rewrite bind_ret_l. eexists _, _. split; [reflexivity|].
  unfold hdr. rewrite <- app_assoc. set (h := SHA512 (SHA512 _)).
  assert (Hh : length h = 64%nat) by apply SHA512_length.
  split_and!; [rewrite length_take, length_drop, Hh; done|rewrite length_take, Hh; done|].
  rewrite (take_ge (drop _ _)); [apply take_drop|].
  rewrite length_drop. unfold NTB_ECC_PRIVATE_KEY_SIZE, NTB_ADDRESS_TAG_SIZE. lia.
Qed.

Lemma address_get_tag_spec_witness :
  exists tag key, ntb_address_get_tag (H := Digests_toy) example_address = Ok (tag, key) /\
    length tag = NTB_ADDRESS_TAG_SIZE /\ length key = NTB_ECC_PRIVATE_KEY_SIZE /\
    key ++ tag = SHA512 (Digests := Digests_toy) (SHA512 (Digests := Digests_toy)
      (enc_var_int 4 ++ enc_var_int 1 ++ addr_ripe example_address)).
Proof.
  apply (address_get_tag_spec (H0 := DigestLaws_toy) example_address).
  apply (bool_decide_unpack _). vm_compute. exact I.
Defined.
