(* ===== verification/Outgoings.v ===== *)
(** * Outgoings: the file of messages that are being sent (ntb-load-outgoings.c, and
    [write_outgoing] and the writing loop of [handle_save_outgoings] of ntb-store.c)

    The store writes a section per message; the loader parses the file into a struct
    that it reuses for all of them and reports the struct whenever a section ends and
    the four required keys were seen. *)

From S2P Require Import Prelude Endian Buffer NetAddress OpenSSL Proto ProtoSpec NetText KeyValue Base58 Address.

Definition NTB_PROTO_ACKDATA_SIZE : nat := 32.
Definition NTB_STORE_MAX_ACKDATA_LENGTH : Z := 44.
Definition INT_MAX : Z := 2 ^ 31 - 1.
Definition INT64_MAX : Z := 2 ^ 63 - 1.

Record ntb_store_outgoing := StoreOutgoing {
  out_from_address : ntb_address;
  out_to_address : ntb_address;
  out_ackdata : list Z;
  out_content_id : Z;
  out_content_encoding : Z;
  out_last_getpubkey_send_time : Z;
  out_last_msg_send_time : Z
}.

Definition out_set_from (v : ntb_address) (o : ntb_store_outgoing) : ntb_store_outgoing :=
  StoreOutgoing v (out_to_address o) (out_ackdata o) (out_content_id o) (out_content_encoding o)
    (out_last_getpubkey_send_time o) (out_last_msg_send_time o).
Definition out_set_to (v : ntb_address) (o : ntb_store_outgoing) : ntb_store_outgoing :=
  StoreOutgoing (out_from_address o) v (out_ackdata o) (out_content_id o) (out_content_encoding o)
    (out_last_getpubkey_send_time o) (out_last_msg_send_time o).
Definition out_set_ackdata (v : list Z) (o : ntb_store_outgoing) : ntb_store_outgoing :=
  StoreOutgoing (out_from_address o) (out_to_address o) v (out_content_id o) (out_content_encoding o)
    (out_last_getpubkey_send_time o) (out_last_msg_send_time o).
Definition out_set_content_id (v : Z) (o : ntb_store_outgoing) : ntb_store_outgoing :=
  StoreOutgoing (out_from_address o) (out_to_address o) (out_ackdata o) v (out_content_encoding o)
    (out_last_getpubkey_send_time o) (out_last_msg_send_time o).
Definition out_set_encoding (v : Z) (o : ntb_store_outgoing) : ntb_store_outgoing :=
  StoreOutgoing (out_from_address o) (out_to_address o) (out_ackdata o) (out_content_id o) v
    (out_last_getpubkey_send_time o) (out_last_msg_send_time o).
Definition out_set_getpubkey (v : Z) (o : ntb_store_outgoing) : ntb_store_outgoing :=
  StoreOutgoing (out_from_address o) (out_to_address o) (out_ackdata o) (out_content_id o) (out_content_encoding o)
    v (out_last_msg_send_time o).
Definition out_set_msg (v : Z) (o : ntb_store_outgoing) : ntb_store_outgoing :=
  StoreOutgoing (out_from_address o) (out_to_address o) (out_ackdata o) (out_content_id o) (out_content_encoding o)
    (out_last_getpubkey_send_time o) v.

Section outgoings.
Context `{Digests} `{BigNum}.

(** ** Writing *)

(** The text that is printed for one message. *)
Definition write_outgoing (o : ntb_store_outgoing) : result unit (list Z) :=
  from_address ← ntb_address_encode (out_from_address o);
  to_address ← ntb_address_encode (out_to_address o);
  ackdata ← ntb_base58_encode (out_ackdata o);
  _ ← c_assert (zlen ackdata <=? NTB_STORE_MAX_ACKDATA_LENGTH);
  Ok (header_text (str_bytes "message") ++
      property_text (str_bytes "fromaddress") from_address ++
      property_text (str_bytes "toaddress") to_address ++
      property_text (str_bytes "ackdata") ackdata ++
      property_text (str_bytes "contentid") (dec (out_content_id o)) ++
      property_text (str_bytes "contentencoding") (dec_signed (out_content_encoding o)) ++
      property_text (str_bytes "lastgetpubkeysendtime") (dec_signed (out_last_getpubkey_send_time o)) ++
      property_text (str_bytes "lastmsgsendtime") (dec_signed (out_last_msg_send_time o)) ++
      [10]).

(** [for (i = 0; i < blob->size / sizeof *outgoings; i++) write_outgoing(outgoings + i, out);] *)
Fixpoint write_outgoings (outgoings : list ntb_store_outgoing) : result unit (list Z) :=
  match outgoings with
  | [] => Ok []
  | o :: outgoings =>
      text ← write_outgoing o;
      rest ← write_outgoings outgoings;
      Ok (text ++ rest)
  end.

(** ** Loading *)

Section load.
Context {U : Type} (func : ntb_store_outgoing -> U -> U).

Record ntb_load_outgoings_data := LoadOutgoings {
  lo_user_data : U;
  lo_outgoing : ntb_store_outgoing;
  lo_has_from_address : bool;
  lo_has_to_address : bool;
  lo_has_ackdata : bool;
  lo_has_content_id : bool
}.

Definition lo_set (o : ntb_store_outgoing) (d : ntb_load_outgoings_data) : ntb_load_outgoings_data :=
  LoadOutgoings (lo_user_data d) o (lo_has_from_address d) (lo_has_to_address d) (lo_has_ackdata d) (lo_has_content_id d).

Definition reset_data (d : ntb_load_outgoings_data) : ntb_load_outgoings_data :=
  LoadOutgoings (lo_user_data d)
    (out_set_msg 0 (out_set_getpubkey 0 (out_set_encoding 1 (lo_outgoing d)))) false false false false.

Definition flush_outgoing (d : ntb_load_outgoings_data) : ntb_load_outgoings_data :=
  let d :=
    if lo_has_from_address d && lo_has_to_address d && lo_has_ackdata d && lo_has_content_id d then
      LoadOutgoings (func (lo_outgoing d) (lo_user_data d)) (lo_outgoing d)
        (lo_has_from_address d) (lo_has_to_address d) (lo_has_ackdata d) (lo_has_content_id d)
    else d in
  reset_data d.

(** The bytes of [value] are those before its terminator. *)
Definition parse_ackdata (value : list Z) : result unit (list Z) :=
  ackdata ← ntb_base58_decode value (Z.of_nat NTB_PROTO_ACKDATA_SIZE);
  Ok (replicate (NTB_PROTO_ACKDATA_SIZE - length ackdata) 0 ++ ackdata).

(** A call whose failure is only logged. *)
Definition or_keep {A} (r : result unit A) (d : ntb_load_outgoings_data)
    (f : A -> ntb_load_outgoings_data) : result unit ntb_load_outgoings_data :=
  match r with Ok a => Ok (f a) | Err _ => Ok d | UB => UB | OutOfFuel => OutOfFuel end.

Definition process_property (d : ntb_load_outgoings_data) (key value : list Z) : result unit ntb_load_outgoings_data :=
  let o := lo_outgoing d in
  let key := c_text key in
  let text := c_text value in
  if bytes_eqb key (str_bytes "fromaddress") then
    or_keep (ntb_address_decode text) d (fun a =>
      LoadOutgoings (lo_user_data d) (out_set_from a o) true (lo_has_to_address d) (lo_has_ackdata d) (lo_has_content_id d))
  else if bytes_eqb key (str_bytes "toaddress") then
    or_keep (ntb_address_decode text) d (fun a =>
      LoadOutgoings (lo_user_data d) (out_set_to a o) (lo_has_from_address d) true (lo_has_ackdata d) (lo_has_content_id d))
  else if bytes_eqb key (str_bytes "ackdata") then
    or_keep (parse_ackdata text) d (fun a =>
      LoadOutgoings (lo_user_data d) (out_set_ackdata a o) (lo_has_from_address d) (lo_has_to_address d) true (lo_has_content_id d))
  else if bytes_eqb key (str_bytes "contentid") then
    or_keep (ntb_key_value_parse_int_value (value ++ [0]) INT_MAX) d (fun v =>
      LoadOutgoings (lo_user_data d) (out_set_content_id (u64 v) o) (lo_has_from_address d) (lo_has_to_address d) (lo_has_ackdata d) true)
  else if bytes_eqb key (str_bytes "contentencoding") then
    or_keep (ntb_key_value_parse_int_value (value ++ [0]) INT_MAX) d (fun v => lo_set (out_set_encoding (s32 v) o) d)
  else if bytes_eqb key (str_bytes "lastgetpubkeysendtime") then
    or_keep (ntb_key_value_parse_int_value (value ++ [0]) INT64_MAX) d (fun v => lo_set (out_set_getpubkey v o) d)
  else if bytes_eqb key (str_bytes "lastmsgsendtime") then
    or_keep (ntb_key_value_parse_int_value (value ++ [0]) INT64_MAX) d (fun v => lo_set (out_set_msg v o) d)
  else Ok d.

Definition key_value_event_cb (event : ntb_key_value_event) (d : result unit ntb_load_outgoings_data) :
    result unit ntb_load_outgoings_data :=
  d ← d;
  match event with
  | NTB_KEY_VALUE_EVENT_HEADER _ _ => Ok (flush_outgoing d)
  | NTB_KEY_VALUE_EVENT_PROPERTY _ key value => process_property d key value
  end.

(** [garbage] is what the struct on the stack holds before it is filled. *)
Definition ntb_load_outgoings (file : list Z) (garbage : ntb_store_outgoing) (u : U) : result unit U :=
  let d := reset_data (LoadOutgoings u garbage false false false false) in
  d ← ntb_key_value_load key_value_event_cb file (Ok d);
  d ← d;
  Ok (lo_user_data (flush_outgoing d)).
End load.
End outgoings.

(** ** Texts that survive a key-value file *)

(** Printable characters other than the bracket that ends a header. *)
Definition plain_text (t : list Z) : Prop := Forall (fun c => 32 < c < 128 /\ c <> 93) t.

Lemma plain_value_ok t : plain_text t -> value_ok t.
Proof. intros Ht. apply value_ok_plain. eapply Forall_impl; [exact Ht|]. cbn. lia. Qed.
Lemma plain_name_ok t : plain_text t -> name_text_ok t.
Proof. intros Ht. eapply Forall_impl; [exact Ht|]. cbn. lia. Qed.
Lemma plain_c_text t : plain_text t -> c_text t = t.
Proof. intros Ht. apply c_text_id. eapply not_in_Forall; [exact Ht|]. cbn. lia. Qed.
Lemma plain_bytes t : plain_text t -> bytes t.
Proof. intros Ht. eapply Forall_impl; [exact Ht|]. unfold is_byte. cbn. lia. Qed.
Lemma plain_app t s : plain_text t -> plain_text s -> plain_text (t ++ s).
Proof. intros. by apply Forall_app. Qed.

Lemma plain_dec_signed n : plain_text (dec_signed n).
Proof.
  eapply Forall_impl; [apply dec_signed_chars|]. cbn. intros c [Hc| ->]; [|lia].
  unfold NetText.is_digit in Hc. lia.
Qed.

Lemma zlen_dec n : 0 <= n < 2 ^ 64 -> zlen (dec n) <= 20.
Proof. intros Hn. unfold zlen. pose proof (dec_digits_length 20 n 20). unfold dec. cbn in *. lia. Qed.
Lemma zlen_dec_signed n : - 2 ^ 63 <= n < 2 ^ 63 -> zlen (dec_signed n) <= 21.
Proof.
  intros Hn. unfold dec_signed. pose proof (zlen_dec (- n)). pose proof (zlen_dec n).
  destruct (Z.ltb_spec n 0); rewrite ?zlen_cons; lia.
Qed.

Lemma plain_dig d : Base58.is_digit d -> 32 < dig d < 128 /\ dig d <> 93.
Proof.
  intros Hd. assert (Hf : Forall (fun i => 32 < dig (Z.of_nat i) < 128 /\ dig (Z.of_nat i) <> 93) (seq 0 58)).
  { apply (bool_decide_unpack _). vm_compute. exact I. }
  rewrite Forall_forall in Hf. unfold Base58.is_digit in Hd.
  replace d with (Z.of_nat (Z.to_nat d)) by lia. apply Hf, elem_of_seq. lia.
Qed.

Lemma plain_base58 l : bytes l -> plain_text (base58_text l).
Proof.
  intros Hb. destruct (base58_text_digits l Hb) as (ds & -> & Hds & _).
  apply Forall_fmap. eapply Forall_impl; [exact Hds|]. apply plain_dig.
Qed.

Lemma zlen_base58 l n :
  bytes l -> (1 <= n)%nat -> 256 ^ zlen l <= 58 ^ Z.of_nat n -> zlen (base58_text l) <= Z.of_nat n.
Proof.
  intros Hb H1 Hn. unfold base58_text. destruct (Z.eqb_spec (be_combine l) 0); [zlia|].
  unfold zlen. rewrite length_fmap, length_reverse. apply inj_le, length_to_digits.
  pose proof (be_combine_range l Hb). lia.
Qed.

Lemma replicate_strip l :
  replicate (length l - length (strip_zeros l)) 0 ++ strip_zeros l = l.
Proof.
  induction l as [|b l IH]; [done|]. cbn [strip_zeros]. destruct (Z.eqb_spec b 0) as [->|].
  - cbn [length]. pose proof (length_strip_zeros l) as Hl. unfold zlen in Hl. rewrite Nat.sub_succ_l by lia.
    cbn [replicate app]. by rewrite IH.
  - cbn [length]. by rewrite Nat.sub_diag.
Qed.

(** ** The loader on what the store writes *)

(** The fields as the loader can read them back: the version of an address is not
    zero, the identifier of the content does not exceed an [int]. *)
Definition outgoing_ok (o : ntb_store_outgoing) : Prop :=
  (address_wf (out_from_address o) /\ addr_version (out_from_address o) <> 0) /\
  (address_wf (out_to_address o) /\ addr_version (out_to_address o) <> 0) /\
  (length (out_ackdata o) = NTB_PROTO_ACKDATA_SIZE /\ bytes (out_ackdata o)) /\
  0 <= out_content_id o <= INT_MAX /\
  - 2 ^ 31 <= out_content_encoding o <= INT_MAX /\
  - 2 ^ 63 <= out_last_getpubkey_send_time o <= INT64_MAX /\
  - 2 ^ 63 <= out_last_msg_send_time o <= INT64_MAX.

#[global] Instance outgoing_ok_dec o : Decision (outgoing_ok o).
Proof. unfold outgoing_ok. apply _. Defined.

Section outgoings_spec.
Context `{DigestLaws} `{BigNumLaws} {U : Type} (func : ntb_store_outgoing -> U -> U).

Lemma address_text a :
  address_wf a -> addr_version a <> 0 ->
  exists t, ntb_address_encode a = Ok t /\ ntb_address_decode t = Ok a /\ plain_text t /\ zlen t <= 39.
Proof.
  intros Hwf Hv. destruct (address_roundtrip_core a Hwf Hv) as (t & E & D & Hz).
  exists t. split_and!; [done|done| |done].
  destruct (encode_address_spec a Hwf) as (k & _ & _ & Hb & _ & E'). rewrite E' in E.
  assert (Et : t = address_prefix ++ base58_text (bin_form a (drop k (addr_ripe a)))) by congruence. rewrite Et.
  apply plain_app; [|by apply plain_base58]. apply (bool_decide_unpack _). vm_compute. exact I.
Qed.

Lemma ackdata_text l :
  length l = NTB_PROTO_ACKDATA_SIZE -> bytes l ->
  exists t, ntb_base58_encode l = Ok t /\ parse_ackdata t = Ok l /\ plain_text t /\ zlen t <= 44.
Proof.
  intros Hl Hb. exists (base58_text l). split_and!; [by apply encode_spec| |by apply plain_base58|].
  - unfold parse_ackdata. rewrite decode_encode; [|done|pose proof (length_strip_zeros l); unfold zlen in *; lia|done].
    rewrite bind_ret_l. f_equal. destruct (Z.eqb_spec (be_combine l) 0) as [Hz|].
    + assert (E : l = replicate 32 0).
      { rewrite <- (be_split_combine l Hb), Hl, Hz. done. }
      by rewrite E.
    + rewrite <- Hl at 1. apply replicate_strip.
  - apply (zlen_base58 l 44 Hb); [lia|]. unfold zlen. rewrite Hl. vm_compute. congruence.
Qed.

(** The struct after all keys of [o] were seen. *)
Definition full (o : ntb_store_outgoing) (u : U) : ntb_load_outgoings_data := LoadOutgoings u o true true true true.

Lemma flush_full o u : lo_user_data (flush_outgoing func (full o u)) = func o u.
Proof. done. Qed.

Lemma cb_header n name d :
  key_value_event_cb func (NTB_KEY_VALUE_EVENT_HEADER n name) (Ok d) = Ok (flush_outgoing func d).
Proof. done. Qed.
Lemma cb_property n key value d :
  key_value_event_cb func (NTB_KEY_VALUE_EVENT_PROPERTY n key value) (Ok d) = process_property d key value.
Proof. done. Qed.

(** The next property event, whose key is a literal and whose value is the plain text
    [t] or a number. *)
Ltac property_step t :=
  rewrite cb_property; unfold process_property at 1;
  repeat match goal with
  | |- context [bytes_eqb (c_text (str_bytes ?a)) (str_bytes ?b)] =>
      let v := eval vm_compute in (bytes_eqb (c_text (str_bytes a)) (str_bytes b)) in
      let E := fresh in
      assert (E : bytes_eqb (c_text (str_bytes a)) (str_bytes b) = v) by (vm_compute; reflexivity); rewrite E; clear E; cbn iota
  end;
  rewrite ?(plain_c_text t) by done;
  cbn [lo_user_data lo_outgoing lo_has_from_address lo_has_to_address lo_has_ackdata lo_has_content_id lo_set].

(** One message in the file: what it adds to the text and what the loader does there. *)
Lemma outgoing_text o :
  outgoing_ok o ->
  exists text, write_outgoing o = Ok text /\ bytes text /\ zlen text <= 400 /\
    forall n section rest d,
      fold_left (fun d e => key_value_event_cb func e d) (kv_lines n section (text_lines (text ++ rest))) (Ok d) =
      fold_left (fun d e => key_value_event_cb func e d) (kv_lines (n + 9) true (text_lines rest))
        (Ok (full o (lo_user_data (flush_outgoing func d)))).
Proof.
  intros ([Hf Hfv] & [Ht Htv] & [Hal Hab] & Hci & Hce & Hgp & Hms).
  destruct (address_text _ Hf Hfv) as (tf & Ef & Df & Pf & Lf).
  destruct (address_text _ Ht Htv) as (tt & Et & Dt & Pt & Lt).
  destruct (ackdata_text _ Hal Hab) as (ta & Ea & Da & Pa & La).
  unfold INT_MAX, INT64_MAX in *. unfold write_outgoing.
  replace (dec (out_content_id o)) with (dec_signed (out_content_id o))
    by (unfold dec_signed; by destruct (Z.ltb_spec (out_content_id o) 0); [lia|]).
  rewrite Ef, Et, Ea, !bind_ret_l. unfold c_assert.
  rewrite (proj2 (Z.leb_le (zlen ta) NTB_STORE_MAX_ACKDATA_LENGTH)) by done. rewrite bind_ret_l.
  eexists. split; [reflexivity|]. split_and!.
  - unfold header_text, property_text.
    rewrite !bytes_app; repeat split; try (apply plain_bytes; done || apply plain_dec_signed); by apply (bool_decide_unpack _).
  - pose proof (zlen_dec_signed (out_content_id o)). pose proof (zlen_dec_signed (out_content_encoding o)).
    pose proof (zlen_dec_signed (out_last_getpubkey_send_time o)). pose proof (zlen_dec_signed (out_last_msg_send_time o)).
    unfold header_text, property_text. rewrite !zlen_app.
    repeat match goal with
    | |- context [zlen (str_bytes ?s)] =>
        let v := eval vm_compute in (zlen (str_bytes s)) in
        let E := fresh in assert (E : zlen (str_bytes s) = v) by (vm_compute; reflexivity); rewrite E; clear E
    end.
    rewrite !zlen_cons, zlen_app, !zlen_cons, !zlen_nil. change (zlen (str_bytes "message")) with 7. lia.
  - intros n section rest d. rewrite <- !app_assoc.
    rewrite lines_header by by apply (bool_decide_unpack _).
    rewrite !lines_property by (by apply (bool_decide_unpack _)) || (apply plain_value_ok; done || apply plain_dec_signed).
    change ([10] ++ rest) with (10 :: rest). rewrite lines_blank.
    replace (n + 1 + 1 + 1 + 1 + 1 + 1 + 1 + 1 + 1) with (n + 9) by lia. cbn [fold_left]. do 2 f_equal.
    rewrite cb_header.
    property_step tf. rewrite Df. cbn [or_keep]. property_step tt. rewrite Dt. cbn [or_keep].
    property_step ta. rewrite Da. cbn [or_keep].
    do 4 (property_step tf; rewrite parse_int_dec by (unfold INT_MAX, INT64_MAX; lia); cbn [or_keep]).
    rewrite u64_small, s32_small by lia. unfold full. by destruct o, (flush_outgoing func d) as [? []].
Qed.

Lemma outgoings_text os :
  Forall outgoing_ok os ->
  exists text, write_outgoings os = Ok text /\ bytes text /\ zlen text <= 400 * zlen os /\
    forall n section d, exists d',
      fold_left (fun d e => key_value_event_cb func e d) (kv_lines n section (text_lines text)) (Ok d) = Ok d' /\
      lo_user_data (flush_outgoing func d') = fold_left (fun u o => func o u) os (lo_user_data (flush_outgoing func d)).
Proof.
  induction 1 as [|o os Ho _ (rest & Er & Hrb & Hrz & Hr)].
  { exists []. split_and!; [done|constructor|done|]. intros n section d. by exists d. }
  destruct (outgoing_text o Ho) as (text & Et & Htb & Htz & Ht). cbn [write_outgoings].
  rewrite Et, bind_ret_l, Er, bind_ret_l. eexists. split; [reflexivity|]. split_and!.
  - by apply bytes_app.
  - rewrite zlen_app, zlen_cons. lia.
  - intros n section d. rewrite Ht.
    destruct (Hr (n + 9) true (full o (lo_user_data (flush_outgoing func d)))) as (d' & -> & E).
    exists d'. split; [done|]. by rewrite E, flush_full.
Qed.

Lemma outgoings_roundtrip_core os garbage u :
  Forall outgoing_ok os -> zlen os <= 2 ^ 22 ->
  exists file, write_outgoings os = Ok file /\
    ntb_load_outgoings func file garbage u = Ok (fold_left (fun u o => func o u) os u).
Proof.
  intros Hos Hz. destruct (outgoings_text os Hos) as (file & E & Hb & Hl & Hf). exists file. split; [done|].
  unfold ntb_load_outgoings. rewrite load_events by (done || lia). rewrite bind_ret_l.
  set (d := reset_data _). destruct (Hf 1 false d) as (d' & E' & Eu). unfold kv_events. rewrite E', bind_ret_l. by rewrite Eu.
Qed.
End outgoings_spec.

(** ** Properties *)

(** The messages that the store writes to its file of outgoing messages are
    reported again by the loader: all of them, in order, each with the same addresses,
    acknowledgement, content and times, whatever the struct on the stack held. *)
Theorem outgoings_roundtrip `{DigestLaws} `{BigNumLaws} {U} (func : ntb_store_outgoing -> U -> U) os garbage u :
  Forall outgoing_ok os -> zlen os <= 2 ^ 22 ->
  exists file, write_outgoings os = Ok file /\
    ntb_load_outgoings func file garbage u = Ok (fold_left (fun u o => func o u) os u).
Proof. apply outgoings_roundtrip_core. Qed.

Definition example_outgoing : ntb_store_outgoing :=
  StoreOutgoing example_address (Address 3 1 (0 :: replicate 19 7)) (0 :: 0 :: replicate 30 9) 12 2 0 (-5).

Lemma outgoings_roundtrip_witness :
  exists file, write_outgoings (H := Digests_toy) (H0 := BigNum_N) [example_outgoing; example_outgoing] = Ok file /\
    ntb_load_outgoings (H := Digests_toy) (H0 := BigNum_N) (fun o u => u ++ [o]) file example_outgoing [] =
    Ok [example_outgoing; example_outgoing].
Proof.
  apply (outgoings_roundtrip (H0 := DigestLaws_toy) (H2 := BigNumLaws_N) (fun o u => u ++ [o])
           [example_outgoing; example_outgoing] example_outgoing []).
  - apply (bool_decide_unpack _). vm_compute. exact I.
  - vm_compute. congruence.
Defined.
