(* ===== verification/Ecc.v ===== *)
(** * Ecc: keys and encryption on the elliptic curve (ntb-ecc.c)

    The curve, the cipher and the message authentication code are libcrypto's: they
    are operations of the classes [Elliptic] and [Symmetric] with documented laws.
    What [RAND_bytes] writes is an argument of the definitions that call it. The
    scratch numbers of [struct ntb_ecc] are written before every use and are not part
    of the state; a point, a number or a context that libcrypto fails to produce
    makes the [assert] behind the call fail. *)

From S2P Require Import Prelude Endian Buffer NetAddress OpenSSL Proto ProtoSpec Base58 Address.

(** ** libcrypto *)

Class Elliptic `{BigNum} := {
  EC_POINT : Type;
  EC_POINT_new : EC_POINT;
  EC_GROUP_get_curve_name : Z;
  (** the multiple of the generator *)
  EC_POINT_mul : BIGNUM -> option EC_POINT;
  (** the uncompressed form *)
  EC_POINT_point2oct : EC_POINT -> list Z;
  EC_POINT_oct2point : list Z -> option EC_POINT;
  EC_POINT_get_affine_coordinates_GFp : EC_POINT -> option (BIGNUM * BIGNUM);
  EC_POINT_set_affine_coordinates_GFp : BIGNUM -> BIGNUM -> option EC_POINT;
  (** the octets of the shared secret that [ECDH_compute_key] gives to the key
      derivation function *)
  ECDH_secret : EC_POINT -> BIGNUM -> option (list Z)
}.

(** AES-256-CBC and HMAC-SHA256 *)
Class Symmetric := {
  EVP_CIPHER_CTX : Type;
  EVP_EncryptInit_ex : list Z -> list Z -> option EVP_CIPHER_CTX;
  EVP_EncryptUpdate : EVP_CIPHER_CTX -> list Z -> option (EVP_CIPHER_CTX * list Z);
  EVP_EncryptFinal_ex : EVP_CIPHER_CTX -> option (list Z);
  EVP_DecryptInit_ex : list Z -> list Z -> option EVP_CIPHER_CTX;
  EVP_DecryptUpdate : EVP_CIPHER_CTX -> list Z -> option (EVP_CIPHER_CTX * list Z);
  EVP_DecryptFinal_ex : EVP_CIPHER_CTX -> option (list Z);
  HMAC : list Z -> list Z -> list Z
}.

Definition SHA256_DIGEST_LENGTH : nat := 32.
Definition EVP_CIPHER_block_size : Z := 16.
Definition EVP_CIPHER_iv_length : Z := 16.

(** [assert(result)] *)
Definition need {A} (o : option A) : result unit A := match o with Some a => Ok a | None => UB end.

(** Reading [n] bytes where [n] is a [size_t]. *)
Definition zread (n : Z) (p : ptr) : result unit (list Z) :=
  if n <=? zlen p then Ok (take (Z.to_nat n) p) else UB.

Section ecc.
Context `{Digests} `{BigNum} `{!Elliptic} `{Symmetric}.

Record EC_KEY := EcKey {
  EC_KEY_get0_private_key : option BIGNUM;
  EC_KEY_get0_public_key : EC_POINT
}.

Record ntb_ecc := Ecc {
  ecc_pub_key_point : EC_POINT;
  ecc_ciphertext_offset : Z;
  ecc_ecdh_keybuffer : list Z;
  (** [None] before the context was initialised *)
  ecc_cipher_ctx : option EVP_CIPHER_CTX
}.

Definition ecc_set_point (v : EC_POINT) (e : ntb_ecc) : ntb_ecc :=
  Ecc v (ecc_ciphertext_offset e) (ecc_ecdh_keybuffer e) (ecc_cipher_ctx e).
Definition ecc_set_ctx (v : option EVP_CIPHER_CTX) (e : ntb_ecc) : ntb_ecc :=
  Ecc (ecc_pub_key_point e) (ecc_ciphertext_offset e) (ecc_ecdh_keybuffer e) v.

Definition ntb_ecc_new : ntb_ecc := Ecc EC_POINT_new 0 [] None.

(** ** Keys *)

Definition make_pub_key_in_point (private_key : ptr) : result unit EC_POINT :=
  key ← read_bytes NTB_ECC_PRIVATE_KEY_SIZE private_key;
  need (EC_POINT_mul (BN_bin2bn key)).

Definition ntb_ecc_make_pub_key_point (private_key : ptr) : result unit EC_POINT :=
  make_pub_key_in_point private_key.

(** The octets, with room for [NTB_ECC_PUBLIC_KEY_SIZE] of them. *)
Definition pub_key_octets (point : EC_POINT) : result unit (list Z) :=
  let oct := EC_POINT_point2oct point in
  _ ← c_assert (zlen oct =? NTB_ECC_PUBLIC_KEY_SIZE);
  Ok oct.

Definition ntb_ecc_make_pub_key_bin (e : ntb_ecc) (private_key : ptr) : result unit (ntb_ecc * list Z) :=
  point ← make_pub_key_in_point private_key;
  oct ← pub_key_octets point;
  Ok (ecc_set_point point e, oct).

(** The public half is the point the caller left in the context. *)
Definition create_key (e : ntb_ecc) (private_key : option ptr) : result unit EC_KEY :=
  private ← match private_key with
            | None => Ok None
            | Some p => key ← read_bytes NTB_ECC_PRIVATE_KEY_SIZE p; Ok (Some (BN_bin2bn key))
            end;
  Ok (EcKey private (ecc_pub_key_point e)).

Definition ntb_ecc_create_key_with_public (e : ntb_ecc) (private_key : option ptr) (public_key : ptr) :
    result unit (ntb_ecc * EC_KEY) :=
  oct ← read_bytes (Z.to_nat NTB_ECC_PUBLIC_KEY_SIZE) public_key;
  point ← need (EC_POINT_oct2point oct);
  let e := ecc_set_point point e in
  key ← create_key e private_key;
  Ok (e, key).

Definition ntb_ecc_create_key (e : ntb_ecc) (private_key : ptr) : result unit (ntb_ecc * EC_KEY) :=
  point ← make_pub_key_in_point private_key;
  let e := ecc_set_point point e in
  key ← create_key e (Some private_key);
  Ok (e, EcKey (EC_KEY_get0_private_key key) (ecc_pub_key_point e)).

(** [random] is what [RAND_bytes] writes. *)
Definition ntb_ecc_create_random_key (random : list Z) (e : ntb_ecc) : result unit (ntb_ecc * EC_KEY) :=
  ntb_ecc_create_key e random.

Definition ntb_ecc_get_pub_key (key : EC_KEY) : result unit (list Z) :=
  pub_key_octets (EC_KEY_get0_public_key key).

(** ** Encryption *)

Definition kdf_sha512 (data : list Z) (hash_length : Z) : option (list Z * Z) :=
  if hash_length <? Z.of_nat SHA512_DIGEST_LENGTH then None
  else Some (SHA512 data, Z.of_nat SHA512_DIGEST_LENGTH).

(** [ECDH_compute_key(out, outlen, point, key, kdf)]: what is written to [out], and
    its length. *)
Definition ECDH_compute_key (outlen : Z) (point : EC_POINT) (key : EC_KEY)
    (kdf : list Z -> Z -> option (list Z * Z)) : option (list Z * Z) :=
  private ← EC_KEY_get0_private_key key;
  secret ← ECDH_secret point private;
  kdf secret outlen.

(** The call and the assertion on the length. *)
Definition ecdh_key (point : EC_POINT) (key : EC_KEY) : result unit (list Z) :=
  '(keybuffer, keylen) ← need (ECDH_compute_key (Z.of_nat SHA512_DIGEST_LENGTH) point key kdf_sha512);
  _ ← c_assert (keylen =? Z.of_nat SHA512_DIGEST_LENGTH);
  Ok keybuffer.

Definition encode_bignumber (bn : BIGNUM) (data_out : ntb_buffer) : result unit ntb_buffer :=
  let num_bytes := BN_num_bytes bn in
  b ← ntb_proto_add_16 data_out num_bytes;
  b ← ntb_buffer_ensure_size b (u64 (buf_length b + num_bytes));
  b ← buf_write b (buf_length b) (BN_bn2bin bn);
  Ok (add_length b num_bytes).

Definition encode_pubkey (public_key : EC_POINT) (data_out : ntb_buffer) : result unit ntb_buffer :=
  '(x, y) ← need (EC_POINT_get_affine_coordinates_GFp public_key);
  b ← ntb_proto_add_16 data_out EC_GROUP_get_curve_name;
  b ← encode_bignumber x b;
  encode_bignumber y b.

(** [random] and [iv] are what the two calls of [RAND_bytes] write. *)
Definition ntb_ecc_encrypt_with_point_begin (random iv : list Z) (e : ntb_ecc) (public_key : EC_POINT)
    (data_out : ntb_buffer) : result unit (ntb_ecc * ntb_buffer) :=
  '(e, ephemeral_key) ← ntb_ecc_create_random_key random e;
  keybuffer ← ecdh_key public_key ephemeral_key;
  let iv_offset := buf_length data_out in
  b ← ntb_buffer_set_length data_out (u64 (iv_offset + EVP_CIPHER_iv_length));
  b ← buf_write b iv_offset iv;
  b ← encode_pubkey (EC_KEY_get0_public_key ephemeral_key) b;
  let ciphertext_offset := buf_length b in
  iv ← buf_read b iv_offset EVP_CIPHER_iv_length;
  ctx ← need (EVP_EncryptInit_ex (take 32 keybuffer) iv);
  Ok (Ecc (ecc_pub_key_point e) ciphertext_offset keybuffer (Some ctx), b).

Definition ntb_ecc_encrypt_update (e : ntb_ecc) (data_in : list Z) (data_out : ntb_buffer) :
    result unit (ntb_ecc * ntb_buffer) :=
  let out_length := s32 (zlen data_in + EVP_CIPHER_block_size) in
  b ← ntb_buffer_ensure_size data_out (u64 (buf_length data_out + out_length));
  ctx ← need (ecc_cipher_ctx e);
  '(ctx, out) ← need (EVP_EncryptUpdate ctx data_in);
  b ← buf_write b (buf_length b) out;
  Ok (ecc_set_ctx (Some ctx) e, add_length b (zlen out)).

Definition ntb_ecc_encrypt_end (e : ntb_ecc) (data_out : ntb_buffer) : result unit (ntb_ecc * ntb_buffer) :=
  b ← ntb_buffer_ensure_size data_out (u64 (buf_length data_out + EVP_CIPHER_block_size));
  ctx ← need (ecc_cipher_ctx e);
  out ← need (EVP_EncryptFinal_ex ctx);
  b ← buf_write b (buf_length b) out;
  let b := add_length b (zlen out) in
  b ← ntb_buffer_ensure_size b (u64 (buf_length b + Z.of_nat SHA256_DIGEST_LENGTH));
  ciphertext ← buf_read b (ecc_ciphertext_offset e) (buf_length b - ecc_ciphertext_offset e);
  let hmac := HMAC (drop 32 (ecc_ecdh_keybuffer e)) ciphertext in
  b ← buf_write b (buf_length b) hmac;
  _ ← c_assert (zlen hmac =? Z.of_nat SHA256_DIGEST_LENGTH);
  Ok (ecc_set_ctx None e, add_length b (Z.of_nat SHA256_DIGEST_LENGTH)).

Definition ntb_ecc_encrypt_with_point (random iv : list Z) (e : ntb_ecc) (public_key : EC_POINT)
    (data_in : list Z) (data_out : ntb_buffer) : result unit (ntb_ecc * ntb_buffer) :=
  '(e, b) ← ntb_ecc_encrypt_with_point_begin random iv e public_key data_out;
  '(e, b) ← ntb_ecc_encrypt_update e data_in b;
  ntb_ecc_encrypt_end e b.

(** ** Decryption *)

(** [Err] is [return false]; [n] is [*data_in_length]. The length that precedes the
    number is not compared with [n]. *)
Definition decode_big_number (p : ptr) (n : Z) : result unit (BIGNUM * ptr * Z) :=
  if n <? 2 then Err tt
  else
    num_bytes ← ntb_proto_get_16 p;
    l ← zread num_bytes (drop 2 p);
    Ok (BN_bin2bn l, drop (Z.to_nat (2 + num_bytes)) p, u64 (n - (2 + num_bytes))).

Definition decode_pub_key (p : ptr) (n : Z) : result unit (EC_POINT * ptr * Z) :=
  if n <? 6 then Err tt
  else
    curve ← ntb_proto_get_16 p;
    if negb (curve =? EC_GROUP_get_curve_name) then Err tt
    else
      '(x, p, n) ← decode_big_number (drop 2 p) (u64 (n - 2));
      '(y, p, n) ← decode_big_number p n;
      point ← need (EC_POINT_set_affine_coordinates_GFp x y);
      Ok (point, p, n).

(** The two calls of the cipher and what they append. *)
Definition decrypt_body (ctx : EVP_CIPHER_CTX) (data_in : list Z) (data_out : ntb_buffer) :
    result unit (bool * ntb_buffer) :=
  let out_length := s32 (zlen data_in + EVP_CIPHER_block_size) in
  b ← ntb_buffer_ensure_size data_out (u64 (buf_length data_out + out_length));
  match EVP_DecryptUpdate ctx data_in with
  | None => Ok (false, b)
  | Some (ctx, out) =>
      b ← buf_write b (buf_length b) out;
      let b := add_length b (zlen out) in
      b ← ntb_buffer_ensure_size b (u64 (buf_length b + EVP_CIPHER_block_size));
      match EVP_DecryptFinal_ex ctx with
      | None => Ok (false, b)
      | Some out =>
          b ← buf_write b (buf_length b) out;
          Ok (true, add_length b (zlen out))
      end
  end.

(** [data_in] is everything from the pointer to the end of the object it points into,
    [data_in_length] what the caller says it may use of it. *)
Definition ntb_ecc_decrypt (e : ntb_ecc) (key : EC_KEY) (data_in : ptr) (data_in_length : Z) (data_out : ntb_buffer) :
    result unit (bool * ntb_ecc * ntb_buffer) :=
  if data_in_length <? EVP_CIPHER_iv_length then Ok (false, e, data_out)
  else
    let iv := data_in in
    match decode_pub_key (drop (Z.to_nat EVP_CIPHER_iv_length) data_in) (data_in_length - EVP_CIPHER_iv_length) with
    | Err _ => Ok (false, e, data_out)
    | UB => UB
    | OutOfFuel => OutOfFuel
    | Ok (point, p, n) =>
        let e := ecc_set_point point e in
        keybuffer ← ecdh_key point key;
        if n <? Z.of_nat SHA256_DIGEST_LENGTH then Ok (false, e, data_out)
        else
          let n := n - Z.of_nat SHA256_DIGEST_LENGTH in
          body ← zread n p;
          mac ← zread (Z.of_nat SHA256_DIGEST_LENGTH) (drop (Z.to_nat n) p);
          let hmac_buf := HMAC (drop 32 keybuffer) body in
          _ ← c_assert (zlen hmac_buf =? Z.of_nat SHA256_DIGEST_LENGTH);
          if negb (bytes_eqb hmac_buf mac) then Ok (false, e, data_out)
          else
            iv ← zread EVP_CIPHER_iv_length iv;
            ctx ← need (EVP_DecryptInit_ex (take 32 keybuffer) iv);
            '(result, data_out) ← decrypt_body ctx body data_out;
            Ok (result, e, data_out)
    end.
End ecc.

(** ** What libcrypto documents *)

(** The points are the multiples of a generator of known order; a private key is the
    multiple and two keys agree on a secret. *)
Class EllipticLaws `{BigNumLaws} `{!Elliptic} := {
  ec_order : Z;
  ec_multiple : Z -> EC_POINT;
  ec_order_range : 1 < ec_order <= 2 ^ 256;
  ec_curve_name_range : 0 <= EC_GROUP_get_curve_name < 2 ^ 16;
  ec_mul_val d : 0 < bn_val d < ec_order -> EC_POINT_mul d = Some (ec_multiple (bn_val d));
  ec_octets d : 0 < d < ec_order ->
    zlen (EC_POINT_point2oct (ec_multiple d)) = NTB_ECC_PUBLIC_KEY_SIZE /\
    bytes (EC_POINT_point2oct (ec_multiple d)) /\ hd 0 (EC_POINT_point2oct (ec_multiple d)) = 4 /\
    EC_POINT_oct2point (EC_POINT_point2oct (ec_multiple d)) = Some (ec_multiple d);
  ec_affine d : 0 < d < ec_order -> exists x y,
    EC_POINT_get_affine_coordinates_GFp (ec_multiple d) = Some (x, y) /\
    bn_val x < 2 ^ 256 /\ bn_val y < 2 ^ 256 /\
    forall x' y', bn_val x' = bn_val x -> bn_val y' = bn_val y ->
      EC_POINT_set_affine_coordinates_GFp x' y' = Some (ec_multiple d);
  ec_agree d e : 0 < bn_val d < ec_order -> 0 < bn_val e < ec_order -> exists s,
    ECDH_secret (ec_multiple (bn_val e)) d = Some s /\ ECDH_secret (ec_multiple (bn_val d)) e = Some s
}.

(** A message given to the cipher in pieces. *)
Fixpoint cipher_updates `{Symmetric} (ctx : EVP_CIPHER_CTX) (chunks : list (list Z)) :
    option (EVP_CIPHER_CTX * list (list Z)) :=
  match chunks with
  | [] => Some (ctx, [])
  | c :: chunks =>
      '(ctx, out) ← EVP_EncryptUpdate ctx c;
      '(ctx, outs) ← cipher_updates ctx chunks;
      Some (ctx, out :: outs)
  end.

Class SymmetricLaws `{Symmetric} : Prop := {
  hmac_length k l : zlen (HMAC k l) = Z.of_nat SHA256_DIGEST_LENGTH;
  hmac_bytes k l : bytes (HMAC k l);
  (** an update adds less than a block, the end at most one *)
  cipher_encrypt key iv chunks : length key = 32%nat -> length iv = 16%nat -> Forall bytes chunks ->
    exists ctx ctx' outs final, EVP_EncryptInit_ex key iv = Some ctx /\
      cipher_updates ctx chunks = Some (ctx', outs) /\
      Forall2 (fun c o => zlen o <= zlen c + EVP_CIPHER_block_size - 1) chunks outs /\
      EVP_EncryptFinal_ex ctx' = Some final /\ zlen final <= EVP_CIPHER_block_size /\
      bytes (concat outs ++ final) /\
      exists dctx dctx' out last, EVP_DecryptInit_ex key iv = Some dctx /\
        EVP_DecryptUpdate dctx (concat outs ++ final) = Some (dctx', out) /\
        EVP_DecryptFinal_ex dctx' = Some last /\ out ++ last = concat chunks /\
        zlen out <= zlen (concat outs ++ final) + EVP_CIPHER_block_size /\ zlen last <= EVP_CIPHER_block_size
}.

(** ** Appending to the output *)

(** [ntb_buffer_ensure_size] followed by a write of at most that much behind the
    contents. *)
Lemma appends_reserve b n l k :
  buf_wf b -> buf_length b + n <= 2 ^ 62 -> zlen l <= n -> k = zlen l ->
  appends b (b ← ntb_buffer_ensure_size b (u64 (buf_length b + n));
             b ← buf_write b (buf_length b) l; Ok (add_length b k)) l.
Proof.
  intros Hwf Hn Hl ->. pose proof (proj1 (proj2 Hwf)). zlen_pose. rewrite u64_small by lia.
  destruct (ensure_size_spec (E := unit) b (buf_length b + n)) as (b1 & -> & Hb1 & Hl1 & Hc1 & _ & Hs1 & _); [done|lia|].
  rewrite bind_ret_l.
  destruct (buf_write_end (E := unit) b1 l) as (b2 & -> & Hb2 & Hb2' & Hl2 & Hs2 & Hc2 & Hc2'); [done|lia|].
  rewrite bind_ret_l. exists (add_length b2 (zlen l)). split_and!; [done|done| |by rewrite Hc2', Hc1].
  cbn. rewrite u64_small by lia. lia.
Qed.

(** [ntb_buffer_set_length] to make room, then a write into it. *)
Lemma appends_room b n l :
  buf_wf b -> buf_length b + n <= 2 ^ 62 -> zlen l = n ->
  appends b (b' ← ntb_buffer_set_length b (u64 (buf_length b + n)); buf_write b' (buf_length b) l) l.
Proof.
  intros Hwf Hn Hl. pose proof (proj1 (proj2 Hwf)). zlen_pose. rewrite u64_small by lia.
  unfold ntb_buffer_set_length.
  destruct (ensure_size_spec (E := unit) b (buf_length b + n)) as (b1 & -> & (Hd & Hl0 & Hs) & Hl1 & Hc1 & _ & Hs1 & _); [done|lia|].
  rewrite !bind_ret_l. unfold buf_write. cbn [buf_data buf_length buf_size].
  destruct (write_cells_spec (E := unit) (buf_length b) l (buf_data b1)) as (d & -> & Hz & _ & Ht); [lia|lia|].
  rewrite bind_ret_l. eexists. split; [reflexivity|]. rewrite Hl in Ht. unfold buf_wf, cells in *.
  cbn [buf_data buf_length buf_size] in *. split_and!; [lia|lia|lia|lia|lia|]. rewrite Ht. f_equal. by rewrite <- Hc1, Hl1.
Qed.

Lemma zlen_concat_le {A} (l : list (list A)) k :
  Forall2 (fun c o => zlen (A := A) o <= zlen (A := A) c + EVP_CIPHER_block_size - 1) l k ->
  zlen (concat k) <= zlen (concat l) + 16 * zlen l.
Proof.
  induction 1 as [|c o l k Hc _ IH]; [done|]. unfold EVP_CIPHER_block_size in *. cbn [concat]. rewrite !zlen_app, zlen_cons. lia.
Qed.

Lemma num_bytes_le v n : 0 <= v < 256 ^ n -> 0 <= n -> num_bytes v <= n.
Proof.
  intros Hv Hn. unfold num_bytes. destruct (Z.eqb_spec v 0); [lia|].
  replace (256 ^ n) with (2 ^ (8 * n)) in Hv by (rewrite Z.pow_mul_r by lia; done).
  assert (Z.log2 v < 8 * n) by (apply Z.log2_lt_pow2; lia).
  assert (Z.log2 v / 8 < n) by (apply Z.div_lt_upper_bound; lia). lia.
Qed.

Lemma bin2bn_bn2bin `{BigNumLaws} v : bn_val (BN_bin2bn (BN_bn2bin v)) = bn_val v.
Proof.
  rewrite bn_bn2bin_val, bn_bin2bn_val by apply bytes_be_split. rewrite be_combine_split.
  pose proof (bn_val_nonneg v). pose proof (num_bytes_bound (bn_val v) ltac:(done)). pose proof (num_bytes_nonneg (bn_val v)).
  rewrite Z2Nat.id by lia. apply Z.mod_small. lia.
Qed.

Lemma zread_app n l p : n = zlen l -> zread n (l ++ p) = Ok l.
Proof.
  intros ->. unfold zread. rewrite zlen_app. zlen_pose. destruct (Z.leb_spec (zlen l) (zlen l + zlen p)); [|lia].
  unfold zlen. rewrite Nat2Z.id. by rewrite take_app_length.
Qed.
Lemma zdrop_app {A} n (l p : list A) : n = zlen l -> drop (Z.to_nat n) (l ++ p) = p.
Proof. intros ->. unfold zlen. rewrite Nat2Z.id. apply drop_app_length. Qed.

Section ecc_spec.
Context `{DigestLaws} `{BigNumLaws} `{!Elliptic} `{!EllipticLaws} `{SymmetricLaws}.

(** A number as it is sent: its length and its bytes. *)
Definition bn_text (v : BIGNUM) : list Z := be_split 2 (BN_num_bytes v) ++ BN_bn2bin v.

Lemma bn_text_size v : bn_val v < 2 ^ 256 -> 0 <= BN_num_bytes v <= 32 /\ zlen (BN_bn2bin v) = BN_num_bytes v.
Proof.
  intros Hv. pose proof (bn_val_nonneg v). rewrite bn_num_bytes_val, bn_bn2bin_val, zlen_be_split.
  pose proof (num_bytes_nonneg (bn_val v)). pose proof (num_bytes_le (bn_val v) 32). change (256 ^ 32) with (2 ^ 256) in *. lia.
Qed.

Lemma appends_bignumber v b :
  bn_val v < 2 ^ 256 -> fits b 64 -> appends b (encode_bignumber v b) (bn_text v).
Proof.
  intros Hv [Hwf Hf]. destruct (bn_text_size v Hv) as [Hn Hz]. unfold encode_bignumber, bn_text.
  eapply appends_bind; [apply appends_add_16; [split; [done|]|]; lia|]. intros b1 _ Hwf1 Hl1. rewrite zlen_be_split in Hl1.
  apply appends_reserve; [done|lia|lia|by rewrite Hz].
Qed.

(** The public key of a message: the curve and the two coordinates. *)
Definition point_text (x y : BIGNUM) : list Z := be_split 2 EC_GROUP_get_curve_name ++ bn_text x ++ bn_text y.

Lemma decode_bignumber_text v p n :
  bn_val v < 2 ^ 256 -> zlen (bn_text v) <= n < 2 ^ 64 ->
  exists v', decode_big_number (bn_text v ++ p) n = Ok (v', p, n - zlen (bn_text v)) /\ bn_val v' = bn_val v.
Proof.
  intros Hv Hn. destruct (bn_text_size v Hv) as [Hb Hz]. unfold decode_big_number, bn_text in *.
  rewrite zlen_app, zlen_be_split in *. rewrite (proj2 (Z.ltb_ge n 2)) by lia.
  rewrite <- app_assoc, get_16_split by lia. rewrite bind_ret_l.
  change 2%nat with (Z.to_nat 2) at 2. rewrite (zdrop_app 2) by by rewrite zlen_be_split.
  rewrite zread_app, bind_ret_l by done. exists (BN_bin2bn (BN_bn2bin v)). split; [|apply bin2bn_bn2bin].
  rewrite app_assoc, zdrop_app by (rewrite zlen_app, zlen_be_split; lia). rewrite u64_small by lia. do 2 f_equal. lia.
Qed.

Lemma decode_point_text d x y p n :
  0 < d < ec_order -> EC_POINT_get_affine_coordinates_GFp (ec_multiple d) = Some (x, y) ->
  zlen (point_text x y) <= n < 2 ^ 64 ->
  decode_pub_key (point_text x y ++ p) n = Ok (ec_multiple d, p, n - zlen (point_text x y)).
Proof.
  intros Hd Ha Hn. destruct (ec_affine d Hd) as (x0 & y0 & Ha' & Hx & Hy & Hset). rewrite Ha in Ha'. injection Ha' as <- <-.
  pose proof ec_curve_name_range. unfold decode_pub_key, point_text in *. rewrite !zlen_app, zlen_be_split in *.
  assert (2 <= zlen (bn_text x) /\ 2 <= zlen (bn_text y)) as [].
  { unfold bn_text. rewrite !zlen_app, !zlen_be_split. zlen_pose. lia. }
  rewrite (proj2 (Z.ltb_ge n 6)) by lia. rewrite <- app_assoc, get_16_split by lia. rewrite bind_ret_l, Z.eqb_refl. cbn [negb].
  change 2%nat with (Z.to_nat 2) at 2. rewrite (zdrop_app 2) by by rewrite zlen_be_split.
  rewrite u64_small by lia. rewrite <- app_assoc.
  destruct (decode_bignumber_text x (bn_text y ++ p) (n - 2) Hx ltac:(lia)) as (x' & -> & Ex). rewrite bind_ret_l.
  destruct (decode_bignumber_text y p (n - 2 - zlen (bn_text x)) Hy ltac:(lia)) as (y' & -> & Ey). rewrite bind_ret_l.
  rewrite (Hset x' y' Ex Ey). cbn [need]. rewrite bind_ret_l. do 2 f_equal. lia.
Qed.

Lemma extends_read b b' l k m off n :
  buf_wf b -> extends b b' (l ++ k ++ m) -> off = buf_length b + zlen l -> n = zlen k ->
  buf_read (E := unit) b' off n = Ok k.
Proof.
  intros Hwf (_ & _ & Hc) -> ->.
  apply (buf_read_mid _ (cells b ++ (Some <$> l)) k ((Some <$> m) ++ drop (Z.to_nat (buf_length b')) (buf_data b'))).
  - rewrite <- (take_drop (Z.to_nat (buf_length b')) (buf_data b')) at 1. fold (cells b'). rewrite Hc.
    rewrite !fmap_app, <- !app_assoc. done.
  - rewrite zlen_app, zlen_cells, zlen_fmap by done. done.
Qed.

(** A private key that the curve accepts. *)
Definition private_ok (l : list Z) : Prop :=
  length l = NTB_ECC_PRIVATE_KEY_SIZE /\ bytes l /\ 0 < be_combine l < ec_order.

Lemma create_key_spec l e :
  private_ok l ->
  ntb_ecc_create_key e l =
  Ok (ecc_set_point (ec_multiple (be_combine l)) e, EcKey (Some (BN_bin2bn l)) (ec_multiple (be_combine l))).
Proof.
  intros (Hl & Hb & Hr). unfold ntb_ecc_create_key, make_pub_key_in_point, create_key.
  rewrite read_bytes_Ok by lia. rewrite take_ge by lia. rewrite !bind_ret_l, ec_mul_val by by rewrite bn_bin2bn_val.
  cbn [need]. rewrite !bind_ret_l. by rewrite bn_bin2bn_val.
Qed.

(** The key of both sides. *)
Lemma ecdh_key_spec d e :
  0 < bn_val d < ec_order -> 0 < bn_val e < ec_order -> exists k, length k = 64%nat /\
    ecdh_key (ec_multiple (bn_val e)) (EcKey (Some d) (ec_multiple (bn_val d))) = Ok k /\
    ecdh_key (ec_multiple (bn_val d)) (EcKey (Some e) (ec_multiple (bn_val e))) = Ok k.
Proof.
  intros Hd He. destruct (ec_agree d e Hd He) as (s & E1 & E2). exists (SHA512 s). split; [apply SHA512_length|].
  assert (Hk : forall q k, ECDH_secret q k = Some s -> ecdh_key q (EcKey (Some k) (ec_multiple (bn_val k))) = Ok (SHA512 s)).
  { intros q k E. unfold ecdh_key, ECDH_compute_key. cbn [EC_KEY_get0_private_key]. cbn [mbind option_bind]. rewrite E. done. }
  split; by apply Hk.
Qed.

Lemma encrypt_begin_spec random iv e d b :
  private_ok random -> length iv = 16%nat -> 0 < bn_val d < ec_order -> fits b 256 ->
  exists k x y e' b' ctx, length k = 64%nat /\
    ecdh_key (ec_multiple (be_combine random)) (EcKey (Some d) (ec_multiple (bn_val d))) = Ok k /\
    EC_POINT_get_affine_coordinates_GFp (ec_multiple (be_combine random)) = Some (x, y) /\
    EVP_EncryptInit_ex (take 32 k) iv = Some ctx /\
    ntb_ecc_encrypt_with_point_begin random iv e (ec_multiple (bn_val d)) b = Ok (e', b') /\
    e' = Ecc (ec_multiple (be_combine random)) (buf_length b + zlen (iv ++ point_text x y)) k (Some ctx) /\
    extends b b' (iv ++ point_text x y) /\ zlen (point_text x y) <= 70.
Proof.
  intros Hr Hiv Hd [Hwf Hf]. unfold ntb_ecc_encrypt_with_point_begin, ntb_ecc_create_random_key.
  rewrite create_key_spec, bind_ret_l by done. destruct Hr as (Hl & Hb & Hr). pose proof (bn_bin2bn_val random Hb) as Ev.
  assert (He : 0 < bn_val (BN_bin2bn random) < ec_order) by by rewrite Ev.
  destruct (ecdh_key_spec d (BN_bin2bn random) Hd He) as (k & Hk & E1 & E2). rewrite Ev in E1, E2. rewrite E2, bind_ret_l.
  destruct (ec_affine (be_combine random) ltac:(done)) as (x & y & Ha & Hx & Hy & _).
  assert (Hzx := bn_text_size x Hx). assert (Hzy := bn_text_size y Hy).
  assert (Hpz : zlen (point_text x y) <= 70).
  { unfold point_text, bn_text. rewrite !zlen_app, !zlen_be_split. lia. }
  assert (zlen iv = 16) as Hivz by (unfold zlen; lia).
  destruct (appends_room b EVP_CIPHER_iv_length iv) as (b1 & E3 & Hb1); [done|unfold EVP_CIPHER_iv_length; lia|done|].
  destruct (cipher_encrypt (take 32 k) iv []) as (ctx & _ & _ & _ & Ectx & _); [rewrite length_take; lia|done|constructor|].
  exists k, x, y.
  assert (Hap : appends b1 (encode_pubkey (ec_multiple (be_combine random)) b1) (point_text x y)).
  { pose proof ec_curve_name_range. destruct Hb1 as (W1 & L1 & _). unfold encode_pubkey, point_text. rewrite Ha. cbn [need]. rewrite bind_ret_l.
    apply appends_bind; [apply appends_add_16; [split; [done|lia]|done]|]. intros b2 _ W2 L2. rewrite zlen_be_split in L2.
    apply appends_bind; [apply appends_bignumber; [done|split; [done|lia]]|]. intros b3 _ W3 L3.
    unfold bn_text in L3. rewrite zlen_app, zlen_be_split in L3. apply appends_bignumber; [done|split; [done|lia]]. }
  destruct Hap as (b2 & E4 & Hb2). pose proof (extends_trans _ _ _ _ _ Hb1 Hb2) as Hb12.
  eexists _, b2, ctx. split_and!; [done|done|done|done| |reflexivity|done|done].
  rewrite <- bind_assoc, E3, bind_ret_l. cbn [EC_KEY_get0_public_key]. rewrite E4, bind_ret_l.
  rewrite (extends_read b b2 [] iv (point_text x y)); [|done|done|rewrite zlen_nil; lia|done]. rewrite bind_ret_l, Ectx. cbn [need].
  rewrite bind_ret_l. do 3 f_equal. by destruct Hb12 as (_ & -> & _).
Qed.

(** The message given in pieces. *)
Fixpoint encrypt_chunks (e : ntb_ecc) (chunks : list (list Z)) (b : ntb_buffer) : result unit (ntb_ecc * ntb_buffer) :=
  match chunks with
  | [] => Ok (e, b)
  | c :: chunks => '(e, b) ← ntb_ecc_encrypt_update e c b; encrypt_chunks e chunks b
  end.

Lemma encrypt_chunks_spec chunks : forall outs e b ctx ctx',
  cipher_updates ctx chunks = Some (ctx', outs) -> ecc_cipher_ctx e = Some ctx ->
  Forall2 (fun c o => zlen o <= zlen c + EVP_CIPHER_block_size - 1) chunks outs ->
  Forall (fun c => zlen c < 2 ^ 30) chunks ->
  buf_wf b -> buf_length b + zlen (concat chunks) + 16 * zlen chunks <= 2 ^ 62 - 64 ->
  exists b', encrypt_chunks e chunks b = Ok (ecc_set_ctx (Some ctx') e, b') /\ extends b b' (concat outs).
Proof.
  induction chunks as [|c chunks IH]; intros outs e b ctx ctx' Hu He Ho Hc Hwf Hz.
  - injection Hu as <- <-. exists b. split; [destruct e; cbn in *; by subst|].
    split_and!; [done|cbn; rewrite zlen_nil; lia|]. by rewrite app_nil_r.
  - apply Forall2_cons_inv_l in Ho as (o & outs' & Ho & Hos & ->). apply Forall_cons in Hc as [Hc Hcs].
    cbn [cipher_updates] in Hu. destruct (EVP_EncryptUpdate ctx c) as [[ctx1 out]|] eqn:E1; [|done]. cbn [mbind option_bind] in Hu.
    destruct (cipher_updates ctx1 chunks) as [[ctx2 outs2]|] eqn:E2; [|done]. injection Hu as -> -> ->.
    cbn [concat] in Hz. rewrite zlen_app, zlen_cons in Hz. zlen_pose. pose proof (proj1 (proj2 Hwf)).
    cbn [encrypt_chunks concat]. unfold EVP_CIPHER_block_size in *.
    destruct (appends_reserve b (zlen c + 16) o (zlen o)) as (b1 & Ea & Hb1); [done|lia|lia|done|].
    assert (Eu : ntb_ecc_encrypt_update e c b = Ok (ecc_set_ctx (Some ctx1) e, b1)).
    { unfold ntb_ecc_encrypt_update, EVP_CIPHER_block_size. rewrite s32_small by lia.
      destruct (ntb_buffer_ensure_size _ _) as [b0| | |]; [|done..]. rewrite bind_ret_l in Ea. rewrite bind_ret_l, He. cbn [need].
      rewrite bind_ret_l, E1. cbn [need]. rewrite bind_ret_l.
      destruct (buf_write b0 _ o) as [b0'| | |]; [|done..]. rewrite bind_ret_l in Ea. rewrite bind_ret_l. by injection Ea as ->. }
    rewrite Eu, bind_ret_l. destruct (IH outs' (ecc_set_ctx (Some ctx1) e) b1 ctx1 ctx') as (b' & -> & Hb'); try done.
    { apply Hb1. } { destruct Hb1 as (_ & L1 & _). lia. }
    exists b'. split; [done|]. by eapply extends_trans.
Qed.

Lemma encrypt_end_spec e b0 b l ctx final :
  ecc_cipher_ctx e = Some ctx -> EVP_EncryptFinal_ex ctx = Some final -> zlen final <= EVP_CIPHER_block_size ->
  buf_wf b0 -> extends b0 b l -> ecc_ciphertext_offset e = buf_length b0 -> buf_length b <= 2 ^ 62 - 64 ->
  exists b', ntb_ecc_encrypt_end e b = Ok (ecc_set_ctx None e, b') /\
    extends b0 b' (l ++ final ++ HMAC (drop 32 (ecc_ecdh_keybuffer e)) (l ++ final)).
Proof.
  intros He Hf Hz Hwf0 Hb Ho Hl. unfold EVP_CIPHER_block_size in *. pose proof Hb as (Hwf & Hl0 & _). zlen_pose.
  pose proof (proj1 (proj2 Hwf0)). unfold ntb_ecc_encrypt_end, EVP_CIPHER_block_size.
  destruct (appends_reserve b 16 final (zlen final)) as (b1 & E1 & Hb1); [done|lia|lia|done|].
  destruct (ntb_buffer_ensure_size b _) as [b2| | |]; [|done..]. rewrite bind_ret_l in E1. rewrite bind_ret_l, He. cbn [need].
  rewrite bind_ret_l, Hf. cbn [need]. rewrite bind_ret_l. destruct (buf_write b2 _ final) as [b3| | |]; [|done..].
  rewrite bind_ret_l in E1. rewrite bind_ret_l. injection E1 as ->. pose proof (extends_trans _ _ _ _ _ Hb Hb1) as Hb01.
  pose proof Hb1 as (Hwf1 & Hl1 & _). pose proof Hb01 as (_ & Hl01 & _).
  set (mac := HMAC (drop 32 (ecc_ecdh_keybuffer e)) (l ++ final)). pose proof (hmac_length (drop 32 (ecc_ecdh_keybuffer e)) (l ++ final)) as Hm.
  fold mac in Hm. unfold SHA256_DIGEST_LENGTH in *.
  destruct (appends_reserve b1 32 mac (Z.of_nat 32)) as (b4 & E4 & Hb4); [done|lia|lia|done|].
  rewrite !app_assoc. rewrite <- (app_assoc l final mac).
  assert (Hrd : forall b', extends b1 b' [] -> buf_read (E := unit) b' (ecc_ciphertext_offset e) (buf_length b' - ecc_ciphertext_offset e) = Ok (l ++ final)).
  { intros b' Hb'. pose proof (extends_trans _ _ _ _ _ Hb01 Hb') as Hx.
    apply (extends_read b0 b' [] (l ++ final) []); [done|done|rewrite zlen_nil; lia|].
    destruct Hb' as (_ & L' & _). rewrite zlen_nil in L'. lia. }
  destruct (ensure_size_spec (E := unit) b1 (buf_length b1 + 32)) as (b5 & E5 & W5 & L5 & C5 & _ & S5 & _); [done|lia|].
  change (Z.of_nat 32) with 32 in *. rewrite u64_small in * by lia. rewrite E5, bind_ret_l in E4. rewrite E5, bind_ret_l.
  rewrite Hrd; [|split_and!; [done|rewrite zlen_nil; lia|by rewrite C5, app_nil_r]]. rewrite bind_ret_l. fold mac.
  destruct (buf_write b5 _ mac) as [b6| | |]; [|done..]. rewrite bind_ret_l in E4. rewrite bind_ret_l. unfold c_assert.
  rewrite Hm. cbn [Z.eqb Pos.eqb]. rewrite bind_ret_l. injection E4 as ->. exists b4. split; [done|].
  rewrite app_assoc. by eapply extends_trans.
Qed.

Lemma decrypt_body_spec dctx dctx' body out last b :
  EVP_DecryptUpdate dctx body = Some (dctx', out) -> EVP_DecryptFinal_ex dctx' = Some last ->
  zlen out <= zlen body + EVP_CIPHER_block_size -> zlen last <= EVP_CIPHER_block_size ->
  zlen body < 2 ^ 30 -> fits b (2 ^ 31) ->
  exists b', decrypt_body dctx body b = Ok (true, b') /\ extends b b' (out ++ last).
Proof.
  unfold EVP_CIPHER_block_size. intros Eu Ef Ho Hl Hz [Hwf Hf]. pose proof (proj1 (proj2 Hwf)). zlen_pose.
  unfold decrypt_body, EVP_CIPHER_block_size. rewrite s32_small by lia.
  destruct (appends_reserve b (zlen body + 16) out (zlen out)) as (b1 & E1 & Hb1); [done|lia|lia|done|].
  destruct (ntb_buffer_ensure_size b _) as [b2| | |]; [|done..]. rewrite bind_ret_l in E1. rewrite bind_ret_l, Eu.
  destruct (buf_write b2 _ out) as [b3| | |]; [|done..]. rewrite bind_ret_l in E1. rewrite bind_ret_l. injection E1 as ->.
  pose proof Hb1 as (W1 & L1 & _).
  destruct (appends_reserve b1 16 last (zlen last)) as (b4 & E4 & Hb4); [done|lia|lia|done|].
  destruct (ntb_buffer_ensure_size b1 _) as [b5| | |]; [|done..]. rewrite bind_ret_l in E4. rewrite bind_ret_l, Ef.
  destruct (buf_write b5 _ last) as [b6| | |]; [|done..]. rewrite bind_ret_l in E4. rewrite bind_ret_l. injection E4 as ->.
  exists b4. split; [done|]. by eapply extends_trans.
Qed.

Lemma decrypt_message k x y d r iv dctx dctx' c out last rest e b :
  length k = 64%nat -> length iv = 16%nat -> 0 < r < ec_order ->
  ecdh_key (ec_multiple r) (EcKey (Some d) (ec_multiple (bn_val d))) = Ok k ->
  EC_POINT_get_affine_coordinates_GFp (ec_multiple r) = Some (x, y) -> zlen (point_text x y) <= 70 ->
  EVP_DecryptInit_ex (take 32 k) iv = Some dctx ->
  EVP_DecryptUpdate dctx c = Some (dctx', out) -> EVP_DecryptFinal_ex dctx' = Some last ->
  zlen out <= zlen c + EVP_CIPHER_block_size -> zlen last <= EVP_CIPHER_block_size ->
  zlen c < 2 ^ 30 -> fits b (2 ^ 31) ->
  let m := iv ++ point_text x y ++ c ++ HMAC (drop 32 k) c in
  exists b', ntb_ecc_decrypt e (EcKey (Some d) (ec_multiple (bn_val d))) (m ++ rest) (zlen m) b =
    Ok (true, ecc_set_point (ec_multiple r) e, b') /\ extends b b' (out ++ last).
Proof.
  intros Hk Hiv Hr Ek Ha Hp Ei Eu Ef Ho Hl Hz Hf m. zlen_pose. assert (Hivz : zlen iv = 16) by (unfold zlen; lia).
  pose proof (hmac_length (drop 32 k) c) as Hm. unfold SHA256_DIGEST_LENGTH in Hm.
  assert (Hmz : zlen m = 16 + zlen (point_text x y) + zlen c + 32) by (unfold m; rewrite !zlen_app; lia).
  destruct (decrypt_body_spec dctx dctx' c out last b) as (b' & Eb & Hb'); try done. exists b'. split; [|done].
  unfold ntb_ecc_decrypt, EVP_CIPHER_iv_length. rewrite (proj2 (Z.ltb_ge (zlen m) 16)) by lia.
  replace (m ++ rest) with (iv ++ point_text x y ++ c ++ HMAC (drop 32 k) c ++ rest) by (unfold m; by rewrite <- !app_assoc).
  rewrite (zdrop_app 16), (zread_app 16) by done.
  rewrite (decode_point_text r x y) by (done || lia). rewrite Ek, bind_ret_l. unfold SHA256_DIGEST_LENGTH. change (Z.of_nat 32) with 32.
  rewrite (proj2 (Z.ltb_ge _ 32)) by lia.
  replace (zlen m - 16 - zlen (point_text x y) - 32) with (zlen c) by lia.
  rewrite zread_app, bind_ret_l by done. rewrite zdrop_app, zread_app, bind_ret_l by done. unfold c_assert. rewrite Hm.
  change (Z.of_nat 32 =? 32) with true. cbn iota. rewrite bind_ret_l, bytes_eqb_refl. cbn [negb]. rewrite bind_ret_l, Ei. cbn [need].
  by rewrite bind_ret_l, Eb, bind_ret_l.
Qed.

(** Encrypting in pieces and decrypting the bytes that were appended. *)
Lemma encrypt_decrypt random iv d chunks rest e e' b out :
  private_ok random -> length iv = 16%nat -> bytes iv -> 0 < bn_val d < ec_order ->
  Forall bytes chunks -> zlen (concat chunks) + 16 * zlen chunks < 2 ^ 29 -> fits b (2 ^ 31) -> fits out (2 ^ 31) ->
  exists e1 b' m out',
    ('(e, b) ← ntb_ecc_encrypt_with_point_begin random iv e (ec_multiple (bn_val d)) b;
     '(e, b) ← encrypt_chunks e chunks b;
     ntb_ecc_encrypt_end e b) = Ok (e1, b') /\ extends b b' m /\
    ntb_ecc_decrypt e' (EcKey (Some d) (ec_multiple (bn_val d))) (m ++ rest) (zlen m) out =
      Ok (true, ecc_set_point (ec_multiple (be_combine random)) e', out') /\
    extends out out' (concat chunks) /\ zlen m < 2 ^ 30.
Proof.
  intros Hr Hiv Hivb Hd Hch Hz [Hwf Hf] Hout. zlen_pose.
  destruct (encrypt_begin_spec random iv e d b Hr Hiv Hd) as (k & x & y & e0 & b1 & ctx & Hk & Ek & Ha & Ectx & Eb & -> & Hb1 & Hp);
    [split; [done|lia]|].
  destruct (cipher_encrypt (take 32 k) iv chunks) as (ctx0 & ctx' & outs & final & Ectx' & Eup & Hlens & Efin & Hfz & Hcb & dctx & dctx' & o & last & Ed & Edu & Edf & Edata & Hoz & Hlz);
    [rewrite length_take; lia|done|done|]. rewrite Ectx in Ectx'. injection Ectx' as <-.
  pose proof (zlen_concat_le _ _ Hlens) as Hcz. pose proof Hb1 as (W1 & L1 & _).
  assert (zlen iv = 16) as Hivz by (unfold zlen; lia). rewrite zlen_app in L1. unfold EVP_CIPHER_block_size in Hfz.
  rewrite Eb, bind_ret_l.
  destruct (encrypt_chunks_spec chunks outs (Ecc (ec_multiple (be_combine random)) (buf_length b + zlen (iv ++ point_text x y)) k (Some ctx)) b1 ctx ctx')
    as (b2 & E2 & Hb2); [done|done|done| |done|lia|].
  { apply Forall_forall. intros c Hc. apply list_elem_of_split in Hc as (l1 & l2 & ->).
    rewrite concat_app in Hz. cbn [concat] in Hz. rewrite !zlen_app in Hz. zlen_pose. lia. }
  rewrite E2, bind_ret_l. pose proof Hb2 as (W2 & L2 & _).
  destruct (encrypt_end_spec (ecc_set_ctx (Some ctx') (Ecc (ec_multiple (be_combine random)) (buf_length b + zlen (iv ++ point_text x y)) k (Some ctx)))
    b1 b2 (concat outs) ctx' final) as (b3 & E3 & Hb3); [done|done|done|done|done| |lia|].
  { destruct Hb1 as (_ & -> & _). done. }
  cbn [ecc_ecdh_keybuffer ecc_set_ctx] in Hb3. rewrite app_assoc in Hb3.
  destruct (decrypt_message k x y d (be_combine random) iv dctx dctx' (concat outs ++ final) o last rest e' out)
    as (out' & Edec & Hout'); try done; [apply Hr|rewrite zlen_app; lia|].
  eexists _, b3, _, out'. split_and!; [exact E3| |exact Edec| |].
  - rewrite app_assoc. by eapply extends_trans.
  - by rewrite <- Edata.
  - rewrite !zlen_app, hmac_length. unfold SHA256_DIGEST_LENGTH. lia.
Qed.
End ecc_spec.

(** ** The laws can hold *)

(** Points as numbers below 2^256 whose coordinates are the number itself. *)
#[local] Instance Elliptic_toy : @Elliptic BigNum_N :=
  @Build_Elliptic BigNum_N N 0%N 714
    (fun d => Some d)
    (fun p => 4 :: be_split 64 (Z.of_N p))
    (fun l => Some (Z.to_N (be_combine (drop 1 l))))
    (fun p => Some (p, p))
    (fun x y => if N.eqb x y then Some x else None)
    (fun p d => Some (be_split 32 (Z.of_N p * Z.of_N d))).

#[local] Instance EllipticLaws_toy : @EllipticLaws BigNum_N BigNumLaws_N Elliptic_toy.
Proof.
  refine (Build_EllipticLaws BigNum_N BigNumLaws_N Elliptic_toy (2 ^ 256) Z.to_N _ _ _ _ _ _); cbn [EC_POINT_mul EC_POINT_point2oct
    EC_POINT_oct2point EC_POINT_get_affine_coordinates_GFp EC_POINT_set_affine_coordinates_GFp ECDH_secret Elliptic_toy bn_val BigNumLaws_N
    EC_GROUP_get_curve_name EC_POINT].
  - lia.
  - lia.
  - intros d _. by rewrite N2Z.id.
  - intros d Hd. split_and!.
    + rewrite zlen_cons, zlen_be_split. done.
    + apply bytes_cons. split; [unfold is_byte; lia|apply bytes_be_split].
    + done.
    + cbn [drop]. rewrite drop_0, be_combine_split, Z2N.id, Z.mod_small by lia. done.
  - intros d Hd. exists (Z.to_N d), (Z.to_N d). split_and!; [done|lia|lia|].
    intros x y Hx Hy. assert (x = y) as -> by lia. rewrite N.eqb_refl. f_equal. lia.
  - intros d e _ _. exists (be_split 32 (Z.of_N d * Z.of_N e)). rewrite !N2Z.id. split; [|done]. do 2 f_equal. lia.
Defined.

(** A cipher that passes its input through. *)
#[local] Instance Symmetric_toy : Symmetric := {|
  EVP_CIPHER_CTX := unit;
  EVP_EncryptInit_ex _ _ := Some tt;
  EVP_EncryptUpdate c l := Some (c, l);
  EVP_EncryptFinal_ex _ := Some [];
  EVP_DecryptInit_ex _ _ := Some tt;
  EVP_DecryptUpdate c l := Some (c, l);
  EVP_DecryptFinal_ex _ := Some [];
  HMAC k l := toy_digest 32 (k ++ l)
|}.

#[local] Instance SymmetricLaws_toy : SymmetricLaws (H := Symmetric_toy).
Proof.
  constructor.
  - intros k l. exact (zlen_be_split 32 _).
  - intros k l. exact (bytes_be_split 32 _).
  - cbn. intros key iv chunks _ _ Hb.
    assert (E : forall ctx, cipher_updates (H := Symmetric_toy) ctx chunks = Some (ctx, chunks)).
    { clear Hb. induction chunks as [|c chunks IH]; intros ctx; [done|]. cbn [cipher_updates]. cbn. by rewrite IH. }
    exists tt, tt, chunks, []. rewrite app_nil_r. split_and!; [done|apply E| |done|done| |].
    + clear E Hb. induction chunks; constructor; [unfold EVP_CIPHER_block_size; lia|done].
    + by apply Forall_concat.
    + exists tt, tt, (concat chunks), []. rewrite app_nil_r. unfold EVP_CIPHER_block_size. split_and!; [done|done|done|done|lia|done].
Qed.

(** ** Properties *)

(** C36: what is encrypted for a public key, in as many pieces as the caller likes,
    is appended to the output and is decrypted by the holder of the private key to the
    concatenation of the pieces, whatever the buffers held before and whatever follows
    the message in memory. *)
Theorem ecc_encrypt_decrypt `{DigestLaws} `{BigNumLaws} `{!Elliptic} `{!EllipticLaws} `{SymmetricLaws}
    random iv d chunks rest e e' b out :
  private_ok random -> length iv = 16%nat -> bytes iv -> 0 < bn_val d < ec_order ->
  Forall bytes chunks -> zlen (concat chunks) + 16 * zlen chunks < 2 ^ 29 -> fits b (2 ^ 31) -> fits out (2 ^ 31) ->
  exists e1 b' m out',
    ('(e, b) ← ntb_ecc_encrypt_with_point_begin random iv e (ec_multiple (bn_val d)) b;
     '(e, b) ← encrypt_chunks e chunks b;
     ntb_ecc_encrypt_end e b) = Ok (e1, b') /\ extends b b' m /\
    ntb_ecc_decrypt e' (EcKey (Some d) (ec_multiple (bn_val d))) (m ++ rest) (zlen m) out =
      Ok (true, ecc_set_point (ec_multiple (be_combine random)) e', out') /\
    extends out out' (concat chunks).
Proof.
  intros Hr Hiv Hb Hd Hc Hz Hf Ho. destruct (encrypt_decrypt random iv d chunks rest e e' b out) as (e1 & b' & m & out' & E & X & D & Y & _); [done..|].
  by exists e1, b', m, out'.
Qed.

Section ecc_witness.
#[local] Existing Instances Digests_toy DigestLaws_toy BigNum_N BigNumLaws_N Elliptic_toy EllipticLaws_toy Symmetric_toy SymmetricLaws_toy.

Lemma ecc_encrypt_decrypt_witness :
  exists e1 b' m out',
    ('(e, b) ← ntb_ecc_encrypt_with_point_begin (replicate 32 3) (replicate 16 9) ntb_ecc_new (ec_multiple (bn_val (BN_bin2bn [5]))) ntb_buffer_init;
     '(e, b) ← encrypt_chunks e [[1; 2; 3]; []; [4]] b;
     ntb_ecc_encrypt_end e b) = Ok (e1, b') /\ extends ntb_buffer_init b' m /\
    ntb_ecc_decrypt ntb_ecc_new (EcKey (Some (BN_bin2bn [5])) (ec_multiple (bn_val (BN_bin2bn [5])))) (m ++ [77]) (zlen m) ntb_buffer_init =
      Ok (true, ecc_set_point (ec_multiple (be_combine (replicate 32 3))) ntb_ecc_new, out') /\
    extends ntb_buffer_init out' [1; 2; 3; 4].
Proof.
  apply (ecc_encrypt_decrypt (replicate 32 3) (replicate 16 9) (BN_bin2bn [5]) [[1; 2; 3]; []; [4]] [77] ntb_ecc_new ntb_ecc_new
           ntb_buffer_init ntb_buffer_init).
  - split_and!; [done|apply (bool_decide_unpack _); vm_compute; exact I|vm_compute; done|vm_compute; done].
  - done.
  - apply (bool_decide_unpack _). vm_compute. exact I.
  - vm_compute. done.
  - apply (bool_decide_unpack _). vm_compute. exact I.
  - vm_compute. done.
  - apply (bool_decide_unpack _). vm_compute. exact I.
  - apply (bool_decide_unpack _). vm_compute. exact I.
Defined.
End ecc_witness.

(** A message for the right curve whose first length exceeds what is left of
    the object makes the decryption read outside it: the length is not compared with
    the size of the message. *)
Theorem ecc_decrypt_overread `{Digests} `{BigNumLaws} `{!Elliptic} `{!EllipticLaws} `{Symmetric}
    e key iv rest num_bytes out :
  length iv = 16%nat -> 0 <= num_bytes < 2 ^ 16 -> 2 <= zlen rest < num_bytes ->
  let m := iv ++ be_split 2 EC_GROUP_get_curve_name ++ be_split 2 num_bytes ++ rest in
  ntb_ecc_decrypt e key m (zlen m) out = UB.
Proof.
  intros Hiv Hn Hr m. pose proof ec_curve_name_range.
  assert (Hmz : zlen m = 16 + 2 + 2 + zlen rest) by (unfold m; rewrite !zlen_app, !zlen_be_split; unfold zlen at 1; lia).
  unfold ntb_ecc_decrypt, EVP_CIPHER_iv_length. rewrite Hmz. rewrite (proj2 (Z.ltb_ge _ 16)) by lia.
  unfold m. rewrite (zdrop_app 16) by (unfold zlen; lia). unfold decode_pub_key. rewrite (proj2 (Z.ltb_ge _ 6)) by lia.
  rewrite get_16_split, bind_ret_l, Z.eqb_refl by done. cbn [negb]. change 2%nat with (Z.to_nat 2) at 1.
  rewrite zdrop_app by by rewrite zlen_be_split. unfold decode_big_number. rewrite u64_small by lia.
  rewrite (proj2 (Z.ltb_ge _ 2)) by lia. rewrite get_16_split, bind_ret_l by done.
  change (drop 2 (be_split 2 num_bytes ++ rest)) with rest. unfold zread. by rewrite (proj2 (Z.leb_gt _ _)) by lia.
Qed.

Section overread_witness.
#[local] Existing Instances Digests_toy BigNum_N BigNumLaws_N Elliptic_toy EllipticLaws_toy Symmetric_toy.

Lemma ecc_decrypt_overread_witness :
  let m := replicate 16 0 ++ be_split 2 EC_GROUP_get_curve_name ++ be_split 2 65535 ++ replicate 40 0 in
  ntb_ecc_decrypt ntb_ecc_new (EcKey None EC_POINT_new) m (zlen m) ntb_buffer_init = UB.
Proof.
  apply (ecc_decrypt_overread ntb_ecc_new (EcKey None EC_POINT_new) (replicate 16 0) (replicate 40 0) 65535 ntb_buffer_init).
  - done.
  - lia.
  - vm_compute. split; congruence.
Defined.
End overread_witness.
