(* ===== verification/Keys.v ===== *)
(** * Keys: keys and the file they are kept in (ntb-key.c, ntb-load-keys.c, and
    [encode_wif], [encode_public_key], [write_key] and the writing loop of
    [handle_save_keys] of ntb-store.c)

    [load_keys_with] is the loader with the constructor of keys as an argument, so that
    what it reads from a file can be stated apart from what the constructor does with
    it; [ntb_load_keys] calls it with [ntb_key_new]. *)

From S2P Require Import Prelude Endian Buffer NetAddress OpenSSL Proto ProtoSpec NetText KeyValue Base58 Address Outgoings Ecc.

Class Digest256 := { SHA256 : list Z -> list Z }.
Class Digest256Laws `{Digest256} : Prop := {
  SHA256_length l : length (SHA256 l) = SHA256_DIGEST_LENGTH;
  SHA256_bytes l : bytes (SHA256 l)
}.

Definition NTB_KEY_PARAM_LABEL : Z := Z.shiftl 1 0.
Definition NTB_KEY_PARAM_VERSION : Z := Z.shiftl 1 1.
Definition NTB_KEY_PARAM_STREAM : Z := Z.shiftl 1 2.
Definition NTB_KEY_PARAM_PRIVATE_KEYS : Z := Z.shiftl 1 3.
Definition NTB_KEY_PARAM_PUBLIC_KEYS : Z := Z.shiftl 1 4.
Definition NTB_KEY_PARAM_POW_DIFFICULTY : Z := Z.shiftl 1 5.
Definition NTB_KEY_PARAM_LAST_PUBKEY_SEND_TIME : Z := Z.shiftl 1 6.
Definition NTB_KEY_PARAM_ENABLED : Z := Z.shiftl 1 7.
Definition NTB_KEY_PARAM_DECOY : Z := Z.shiftl 1 8.
Definition NTB_KEY_PARAM_RIPE : Z := Z.shiftl 1 9.

(** Strings are the bytes before the terminator. *)
Record ntb_key_params := KeyParams {
  kp_flags : Z;
  kp_label : list Z;
  kp_version : Z;
  kp_stream : Z;
  kp_private_signing_key : ptr;
  kp_private_encryption_key : ptr;
  kp_public_signing_key : ptr;
  kp_public_encryption_key : ptr;
  kp_nonce_trials_per_byte : Z;
  kp_payload_length_extra_bytes : Z;
  kp_ripe : ptr;
  kp_last_pubkey_send_time : Z;
  kp_enabled : bool;
  kp_decoy : bool
}.

(** [params->flags & flag] *)
Definition has_flag (p : ntb_key_params) (flag : Z) : bool := negb (Z.land (kp_flags p) flag =? 0).

Definition NTB_STORE_MAX_WIF_LENGTH : Z := 51.
Definition NTB_STORE_MAX_PUBLIC_KEY_LENGTH : Z := 89.

Section keys.
Context `{Digests} `{BigNum} `{!Elliptic} `{Symmetric} `{Digest256}.

Record ntb_key := Key {
  key_address : ntb_address;
  key_tag : list Z;
  key_tag_private_key : list Z;
  key_label : list Z;
  key_nonce_trials_per_byte : Z;
  key_payload_length_extra_bytes : Z;
  key_last_pubkey_send_time : Z;
  key_signing_key : EC_KEY;
  key_encryption_key : EC_KEY;
  key_enabled : bool;
  key_decoy : bool
}.

(** The array [sha_hash] has [SHA_DIGEST_LENGTH] elements. *)
Definition generate_ripe (signing_key encryption_key : EC_KEY) : result unit (list Z) :=
  signing ← ntb_ecc_get_pub_key signing_key;
  encryption ← ntb_ecc_get_pub_key encryption_key;
  sha_hash ← store_digest SHA_DIGEST_LENGTH (SHA512 (signing ++ encryption));
  Ok (RIPEMD160 sha_hash).

Definition ntb_key_new (ecc : ntb_ecc) (params : ntb_key_params) : result unit (ntb_ecc * ntb_key) :=
  _ ← c_assert (has_flag params (Z.lor NTB_KEY_PARAM_PRIVATE_KEYS NTB_KEY_PARAM_PUBLIC_KEYS));
  let label := if has_flag params NTB_KEY_PARAM_LABEL then kp_label params else [] in
  let version := if has_flag params NTB_KEY_PARAM_VERSION then u8 (kp_version params) else 4 in
  let stream := if has_flag params NTB_KEY_PARAM_STREAM then u8 (kp_stream params) else 1 in
  let '(nonce_trials, extra_bytes) :=
    if has_flag params NTB_KEY_PARAM_POW_DIFFICULTY
    then (kp_nonce_trials_per_byte params, kp_payload_length_extra_bytes params)
    else (NTB_PROTO_MIN_NONCE_TRIALS_PER_BYTE, NTB_PROTO_MIN_EXTRA_BYTES) in
  let last_pubkey_send_time :=
    if has_flag params NTB_KEY_PARAM_LAST_PUBKEY_SEND_TIME then kp_last_pubkey_send_time params else 0 in
  let enabled := if has_flag params NTB_KEY_PARAM_ENABLED then kp_enabled params else true in
  let decoy := if has_flag params NTB_KEY_PARAM_DECOY then kp_decoy params else false in
  let '(private_signing_key, private_encryption_key) :=
    if has_flag params NTB_KEY_PARAM_PRIVATE_KEYS
    then (Some (kp_private_signing_key params), Some (kp_private_encryption_key params))
    else (None, None) in
  '(ecc, signing_key, encryption_key) ←
    (if has_flag params NTB_KEY_PARAM_PUBLIC_KEYS then
       '(ecc, signing_key) ← ntb_ecc_create_key_with_public ecc private_signing_key (kp_public_signing_key params);
       '(ecc, encryption_key) ← ntb_ecc_create_key_with_public ecc private_encryption_key (kp_public_encryption_key params);
       Ok (ecc, signing_key, encryption_key)
     else
       (* without public keys the private ones are there *)
       '(ecc, signing_key) ← ntb_ecc_create_key ecc (default [] private_signing_key);
       '(ecc, encryption_key) ← ntb_ecc_create_key ecc (default [] private_encryption_key);
       Ok (ecc, signing_key, encryption_key));
  ripe ← (if has_flag params NTB_KEY_PARAM_RIPE
          then read_bytes RIPEMD160_DIGEST_LENGTH (kp_ripe params)
          else generate_ripe signing_key encryption_key);
  let address := Address version stream ripe in
  '(tag, tag_private_key) ← ntb_address_get_tag address;
  Ok (ecc, Key address tag tag_private_key label nonce_trials extra_bytes last_pubkey_send_time
             signing_key encryption_key enabled decoy).

Definition ntb_key_has_private (key : ntb_key) : bool :=
  match EC_KEY_get0_private_key (key_signing_key key), EC_KEY_get0_private_key (key_encryption_key key) with
  | Some _, Some _ => true
  | _, _ => false
  end.

(** ** Writing *)

(** The checksummed form of a private key. *)
Definition wif_checksum (key : list Z) : list Z := take 4 (SHA256 (SHA256 key)).

(** A number of more than 32 bytes would be written before the array. *)
Definition encode_wif (key : EC_KEY) : result unit (list Z) :=
  private_key ← need (EC_KEY_get0_private_key key);
  let n_bytes := BN_num_bytes private_key in
  if Z.of_nat NTB_ECC_PRIVATE_KEY_SIZE <? n_bytes then UB
  else
    let address_bytes :=
      0x80 :: replicate (Z.to_nat (Z.of_nat NTB_ECC_PRIVATE_KEY_SIZE - n_bytes)) 0 ++ BN_bn2bin private_key in
    wif ← ntb_base58_encode (address_bytes ++ wif_checksum address_bytes);
    _ ← c_assert (zlen wif <=? NTB_STORE_MAX_WIF_LENGTH);
    Ok wif.

Definition encode_public_key (key : EC_KEY) : result unit (list Z) :=
  buf ← pub_key_octets (EC_KEY_get0_public_key key);
  text ← ntb_base58_encode buf;
  _ ← c_assert (zlen text <=? NTB_STORE_MAX_PUBLIC_KEY_LENGTH);
  Ok text.

Definition bool_text (b : bool) : list Z := if b then str_bytes "true" else str_bytes "false".

Definition write_key (key : ntb_key) : result unit (list Z) :=
  address ← ntb_address_encode (key_address key);
  let head :=
    header_text address ++
    property_text (str_bytes "label") (key_label key) ++
    property_text (str_bytes "noncetrialsperbyte") (dec_signed (key_nonce_trials_per_byte key)) ++
    property_text (str_bytes "payloadlengthextrabytes") (dec_signed (key_payload_length_extra_bytes key)) in
  body ←
    (if ntb_key_has_private key then
       signing_key_wif ← encode_wif (key_signing_key key);
       encryption_key_wif ← encode_wif (key_encryption_key key);
       Ok (property_text (str_bytes "privsigningkey") signing_key_wif ++
           property_text (str_bytes "privencryptionkey") encryption_key_wif ++
           property_text (str_bytes "lastpubkeysendtime") (dec_signed (key_last_pubkey_send_time key)) ++
           property_text (str_bytes "enabled") (bool_text (key_enabled key)) ++
           property_text (str_bytes "decoy") (bool_text (key_decoy key)))
     else
       public_signing_key ← encode_public_key (key_signing_key key);
       public_encryption_key ← encode_public_key (key_encryption_key key);
       Ok (property_text (str_bytes "pubsigningkey") public_signing_key ++
           property_text (str_bytes "pubencryptionkey") public_encryption_key));
  Ok (head ++ body ++ [10]).

(** [for (i = 0; i < n_keys; i++) write_key(keys[i], out);] *)
Fixpoint write_keys (keys : list ntb_key) : result unit (list Z) :=
  match keys with
  | [] => Ok []
  | key :: keys =>
      text ← write_key key;
      rest ← write_keys keys;
      Ok (text ++ rest)
  end.

(** ** Parsing values *)

(** The bytes of [value] are those before its terminator. *)
Definition parse_wif (value : list Z) : result unit (list Z) :=
  key_buf ← ntb_base58_decode value (1 + Z.of_nat NTB_ECC_PRIVATE_KEY_SIZE + 4);
  let key_buf := replicate (1 + NTB_ECC_PRIVATE_KEY_SIZE + 4 - length key_buf) 0 ++ key_buf in
  prefix ← deref key_buf;
  if negb (prefix =? 0x80) then Err tt
  else if negb (bytes_eqb (drop (1 + NTB_ECC_PRIVATE_KEY_SIZE) key_buf)
                          (wif_checksum (take (1 + NTB_ECC_PRIVATE_KEY_SIZE) key_buf))) then Err tt
  else Ok (take NTB_ECC_PRIVATE_KEY_SIZE (drop 1 key_buf)).

(** The key is decoded into the caller's array, which it overwrites from its start
    even when it is then rejected. *)
Definition parse_public_key (value : list Z) (old : list Z) : result unit (bool * list Z) :=
  match ntb_base58_decode value NTB_ECC_PUBLIC_KEY_SIZE with
  | Err _ => Ok (false, old)
  | UB => UB
  | OutOfFuel => OutOfFuel
  | Ok key =>
      let new := key ++ drop (length key) old in
      if negb (zlen key =? NTB_ECC_PUBLIC_KEY_SIZE) then Ok (false, new)
      else
        prefix ← deref new;
        Ok (prefix =? 4, new)
  end.

(** The C string at the start of an allocation. *)
Fixpoint cells_string (l : list (option Z)) : result unit (list Z) :=
  match l with
  | [] | None :: _ => UB
  | Some c :: l => if c =? 0 then Ok [] else s ← cells_string l; Ok (c :: s)
  end.

(** ** Loading *)

Section load.
Context {S K U : Type} (key_new : S -> ntb_key_params -> result unit (S * K)) (func : K -> U -> U).

Record ntb_load_keys_data := LoadKeys {
  lk_ecc : S;
  lk_user_data : U;
  lk_label : ntb_buffer;
  lk_address : ntb_buffer;
  lk_nonce_trials_per_byte : Z;
  lk_payload_length_extra_bytes : Z;
  lk_last_pubkey_send_time : Z;
  lk_enabled : bool;
  lk_decoy : bool;
  lk_has_private_signing_key : bool;
  lk_has_private_encryption_key : bool;
  lk_has_public_signing_key : bool;
  lk_has_public_encryption_key : bool;
  lk_private_signing_key : list Z;
  lk_private_encryption_key : list Z;
  lk_public_signing_key : list Z;
  lk_public_encryption_key : list Z
}.

Definition lk_set_called (v0 : S) (v1 : U) (d : ntb_load_keys_data) : ntb_load_keys_data :=
  LoadKeys v0 v1 (lk_label d) (lk_address d) (lk_nonce_trials_per_byte d) (lk_payload_length_extra_bytes d)
    (lk_last_pubkey_send_time d) (lk_enabled d) (lk_decoy d) (lk_has_private_signing_key d)
    (lk_has_private_encryption_key d) (lk_has_public_signing_key d) (lk_has_public_encryption_key d)
    (lk_private_signing_key d) (lk_private_encryption_key d) (lk_public_signing_key d)
    (lk_public_encryption_key d).
Definition lk_set_label (v0 : ntb_buffer) (d : ntb_load_keys_data) : ntb_load_keys_data :=
  LoadKeys (lk_ecc d) (lk_user_data d) v0 (lk_address d) (lk_nonce_trials_per_byte d)
    (lk_payload_length_extra_bytes d) (lk_last_pubkey_send_time d) (lk_enabled d) (lk_decoy d)
    (lk_has_private_signing_key d) (lk_has_private_encryption_key d) (lk_has_public_signing_key d)
    (lk_has_public_encryption_key d) (lk_private_signing_key d) (lk_private_encryption_key d)
    (lk_public_signing_key d) (lk_public_encryption_key d).
Definition lk_set_address (v0 : ntb_buffer) (d : ntb_load_keys_data) : ntb_load_keys_data :=
  LoadKeys (lk_ecc d) (lk_user_data d) (lk_label d) v0 (lk_nonce_trials_per_byte d)
    (lk_payload_length_extra_bytes d) (lk_last_pubkey_send_time d) (lk_enabled d) (lk_decoy d)
    (lk_has_private_signing_key d) (lk_has_private_encryption_key d) (lk_has_public_signing_key d)
    (lk_has_public_encryption_key d) (lk_private_signing_key d) (lk_private_encryption_key d)
    (lk_public_signing_key d) (lk_public_encryption_key d).
Definition lk_set_nonce (v0 : Z) (d : ntb_load_keys_data) : ntb_load_keys_data :=
  LoadKeys (lk_ecc d) (lk_user_data d) (lk_label d) (lk_address d) v0 (lk_payload_length_extra_bytes d)
    (lk_last_pubkey_send_time d) (lk_enabled d) (lk_decoy d) (lk_has_private_signing_key d)
    (lk_has_private_encryption_key d) (lk_has_public_signing_key d) (lk_has_public_encryption_key d)
    (lk_private_signing_key d) (lk_private_encryption_key d) (lk_public_signing_key d)
    (lk_public_encryption_key d).
Definition lk_set_extra (v0 : Z) (d : ntb_load_keys_data) : ntb_load_keys_data :=
  LoadKeys (lk_ecc d) (lk_user_data d) (lk_label d) (lk_address d) (lk_nonce_trials_per_byte d) v0
    (lk_last_pubkey_send_time d) (lk_enabled d) (lk_decoy d) (lk_has_private_signing_key d)
    (lk_has_private_encryption_key d) (lk_has_public_signing_key d) (lk_has_public_encryption_key d)
    (lk_private_signing_key d) (lk_private_encryption_key d) (lk_public_signing_key d)
    (lk_public_encryption_key d).
Definition lk_set_time (v0 : Z) (d : ntb_load_keys_data) : ntb_load_keys_data :=
  LoadKeys (lk_ecc d) (lk_user_data d) (lk_label d) (lk_address d) (lk_nonce_trials_per_byte d)
    (lk_payload_length_extra_bytes d) v0 (lk_enabled d) (lk_decoy d) (lk_has_private_signing_key d)
    (lk_has_private_encryption_key d) (lk_has_public_signing_key d) (lk_has_public_encryption_key d)
    (lk_private_signing_key d) (lk_private_encryption_key d) (lk_public_signing_key d)
    (lk_public_encryption_key d).
Definition lk_set_enabled (v0 : bool) (d : ntb_load_keys_data) : ntb_load_keys_data :=
  LoadKeys (lk_ecc d) (lk_user_data d) (lk_label d) (lk_address d) (lk_nonce_trials_per_byte d)
    (lk_payload_length_extra_bytes d) (lk_last_pubkey_send_time d) v0 (lk_decoy d)
    (lk_has_private_signing_key d) (lk_has_private_encryption_key d) (lk_has_public_signing_key d)
    (lk_has_public_encryption_key d) (lk_private_signing_key d) (lk_private_encryption_key d)
    (lk_public_signing_key d) (lk_public_encryption_key d).
Definition lk_set_decoy (v0 : bool) (d : ntb_load_keys_data) : ntb_load_keys_data :=
  LoadKeys (lk_ecc d) (lk_user_data d) (lk_label d) (lk_address d) (lk_nonce_trials_per_byte d)
    (lk_payload_length_extra_bytes d) (lk_last_pubkey_send_time d) (lk_enabled d) v0
    (lk_has_private_signing_key d) (lk_has_private_encryption_key d) (lk_has_public_signing_key d)
    (lk_has_public_encryption_key d) (lk_private_signing_key d) (lk_private_encryption_key d)
    (lk_public_signing_key d) (lk_public_encryption_key d).
Definition lk_set_private_signing (v0 : bool) (v1 : list Z) (d : ntb_load_keys_data) : ntb_load_keys_data :=
  LoadKeys (lk_ecc d) (lk_user_data d) (lk_label d) (lk_address d) (lk_nonce_trials_per_byte d)
    (lk_payload_length_extra_bytes d) (lk_last_pubkey_send_time d) (lk_enabled d) (lk_decoy d) v0
    (lk_has_private_encryption_key d) (lk_has_public_signing_key d) (lk_has_public_encryption_key d) v1
    (lk_private_encryption_key d) (lk_public_signing_key d) (lk_public_encryption_key d).
Definition lk_set_private_encryption (v0 : bool) (v1 : list Z) (d : ntb_load_keys_data) : ntb_load_keys_data :=
  LoadKeys (lk_ecc d) (lk_user_data d) (lk_label d) (lk_address d) (lk_nonce_trials_per_byte d)
    (lk_payload_length_extra_bytes d) (lk_last_pubkey_send_time d) (lk_enabled d) (lk_decoy d)
    (lk_has_private_signing_key d) v0 (lk_has_public_signing_key d) (lk_has_public_encryption_key d)
    (lk_private_signing_key d) v1 (lk_public_signing_key d) (lk_public_encryption_key d).
Definition lk_set_public_signing (v0 : bool) (v1 : list Z) (d : ntb_load_keys_data) : ntb_load_keys_data :=
  LoadKeys (lk_ecc d) (lk_user_data d) (lk_label d) (lk_address d) (lk_nonce_trials_per_byte d)
    (lk_payload_length_extra_bytes d) (lk_last_pubkey_send_time d) (lk_enabled d) (lk_decoy d)
    (lk_has_private_signing_key d) (lk_has_private_encryption_key d) v0 (lk_has_public_encryption_key d)
    (lk_private_signing_key d) (lk_private_encryption_key d) v1 (lk_public_encryption_key d).
Definition lk_set_public_encryption (v0 : bool) (v1 : list Z) (d : ntb_load_keys_data) : ntb_load_keys_data :=
  LoadKeys (lk_ecc d) (lk_user_data d) (lk_label d) (lk_address d) (lk_nonce_trials_per_byte d)
    (lk_payload_length_extra_bytes d) (lk_last_pubkey_send_time d) (lk_enabled d) (lk_decoy d)
    (lk_has_private_signing_key d) (lk_has_private_encryption_key d) (lk_has_public_signing_key d) v0
    (lk_private_signing_key d) (lk_private_encryption_key d) (lk_public_signing_key d) v1.

Definition reset_keys_data (d : ntb_load_keys_data) : ntb_load_keys_data :=
  LoadKeys (lk_ecc d) (lk_user_data d) (set_empty (lk_label d)) (set_empty (lk_address d))
    NTB_PROTO_MIN_NONCE_TRIALS_PER_BYTE NTB_PROTO_MIN_EXTRA_BYTES 0 true false false false false false
    (lk_private_signing_key d) (lk_private_encryption_key d) (lk_public_signing_key d) (lk_public_encryption_key d).

(** The ripe of the key is compared with the one of the address, which is indeterminate
    when the address is invalid; the outcome only decides on a line of the log. *)
Definition flush_key (d : ntb_load_keys_data) : result unit ntb_load_keys_data :=
  let has_private_keys := lk_has_private_signing_key d && lk_has_private_encryption_key d in
  if negb has_private_keys && (negb (lk_has_public_signing_key d) || negb (lk_has_public_encryption_key d)) then
    Ok (reset_keys_data d)
  else
    text ← cells_string (buf_data (lk_address d));
    '(version, stream) ← match ntb_address_decode text with
                         | Ok a => Ok (addr_version a, addr_stream a)
                         | Err _ => Ok (4, 1)
                         | UB => UB
                         | OutOfFuel => OutOfFuel
                         end;
    label ← cells_string (buf_data (lk_label d));
    let flags :=
      Z.lor NTB_KEY_PARAM_LABEL (Z.lor NTB_KEY_PARAM_VERSION (Z.lor NTB_KEY_PARAM_STREAM
        (Z.lor NTB_KEY_PARAM_POW_DIFFICULTY (Z.lor NTB_KEY_PARAM_LAST_PUBKEY_SEND_TIME
          (Z.lor NTB_KEY_PARAM_ENABLED NTB_KEY_PARAM_DECOY))))) in
    let params :=
      if has_private_keys then
        KeyParams (Z.lor flags NTB_KEY_PARAM_PRIVATE_KEYS) label version stream
          (lk_private_signing_key d) (lk_private_encryption_key d) [] []
          (lk_nonce_trials_per_byte d) (lk_payload_length_extra_bytes d) [] (lk_last_pubkey_send_time d)
          (lk_enabled d) (lk_decoy d)
      else
        KeyParams (Z.lor flags NTB_KEY_PARAM_PUBLIC_KEYS) label version stream [] []
          (lk_public_signing_key d) (lk_public_encryption_key d)
          (lk_nonce_trials_per_byte d) (lk_payload_length_extra_bytes d) [] (lk_last_pubkey_send_time d)
          (lk_enabled d) (lk_decoy d) in
    '(ecc, key) ← key_new (lk_ecc d) params;
    Ok (reset_keys_data (lk_set_called ecc (func key (lk_user_data d)) d)).

(** A call whose failure is only logged. *)
Definition or_keep_key {A} (r : result unit A) (d : ntb_load_keys_data)
    (f : A -> ntb_load_keys_data) : result unit ntb_load_keys_data :=
  match r with Ok a => Ok (f a) | Err _ => Ok d | UB => UB | OutOfFuel => OutOfFuel end.

Definition process_key_property (d : ntb_load_keys_data) (key value : list Z) : result unit ntb_load_keys_data :=
  let key := c_text key in
  let text := c_text value in
  if bytes_eqb key (str_bytes "label") then
    b ← ntb_buffer_set_length (lk_label d) 0;
    b ← ntb_buffer_append_string b text;
    Ok (lk_set_label b d)
  else if bytes_eqb key (str_bytes "enabled") then
    Ok (match ntb_key_value_parse_bool_value value with Some v => lk_set_enabled v d | None => d end)
  else if bytes_eqb key (str_bytes "decoy") then
    Ok (match ntb_key_value_parse_bool_value value with Some v => lk_set_decoy v d | None => d end)
  else if bytes_eqb key (str_bytes "noncetrialsperbyte") then
    or_keep_key (ntb_key_value_parse_int_value (value ++ [0]) INT_MAX) d (fun v => lk_set_nonce (s32 v) d)
  else if bytes_eqb key (str_bytes "payloadlengthextrabytes") then
    or_keep_key (ntb_key_value_parse_int_value (value ++ [0]) INT_MAX) d (fun v => lk_set_extra (s32 v) d)
  else if bytes_eqb key (str_bytes "privsigningkey") then
    or_keep_key (parse_wif text) d (fun k => lk_set_private_signing true k d)
  else if bytes_eqb key (str_bytes "privencryptionkey") then
    or_keep_key (parse_wif text) d (fun k => lk_set_private_encryption true k d)
  else if bytes_eqb key (str_bytes "pubsigningkey") then
    '(ok, k) ← parse_public_key text (lk_public_signing_key d);
    Ok (lk_set_public_signing (lk_has_public_signing_key d || ok) k d)
  else if bytes_eqb key (str_bytes "pubencryptionkey") then
    '(ok, k) ← parse_public_key text (lk_public_encryption_key d);
    Ok (lk_set_public_encryption (lk_has_public_encryption_key d || ok) k d)
  else if bytes_eqb key (str_bytes "lastpubkeysendtime") then
    or_keep_key (ntb_key_value_parse_int_value (value ++ [0]) INT64_MAX) d (fun v => lk_set_time v d)
  else Ok d.

Definition keys_event_cb (event : ntb_key_value_event) (d : result unit ntb_load_keys_data) : result unit ntb_load_keys_data :=
  d ← d;
  match event with
  | NTB_KEY_VALUE_EVENT_HEADER _ value =>
      d ← flush_key d;
      b ← ntb_buffer_append_string (set_empty (lk_address d)) (c_text value);
      Ok (lk_set_address b d)
  | NTB_KEY_VALUE_EVENT_PROPERTY _ key value => process_key_property d key value
  end.

(** [ps], [pe], [us] and [ue] are what the arrays on the stack hold before they are
    filled. *)
Definition load_keys_with (file : list Z) (ps pe us ue : list Z) (ecc : S) (u : U) : result unit (S * U) :=
  let d := reset_keys_data (LoadKeys ecc u ntb_buffer_init ntb_buffer_init 0 0 0 true false
                              false false false false ps pe us ue) in
  d ← ntb_key_value_load keys_event_cb file (Ok d);
  d ← d;
  d ← flush_key d;
  Ok (lk_ecc d, lk_user_data d).
End load.

Definition ntb_load_keys {U} (func : ntb_key -> U -> U) (file : list Z) (ps pe us ue : list Z) (ecc : ntb_ecc) (u : U) :
    result unit (ntb_ecc * U) :=
  load_keys_with ntb_key_new func file ps pe us ue ecc u.
End keys.

(** ** Strings in buffers *)

Lemma cells_string_app s l : 0 ∉ s -> cells_string ((Some <$> s) ++ Some 0 :: l) = Ok s.
Proof.
  induction s as [|c s IH]; [done|]. intros [Hc Hs]%not_elem_of_cons. csimpl.
  rewrite (proj2 (Z.eqb_neq c 0)) by done. by rewrite IH, bind_ret_l.
Qed.

(** An empty buffer after [ntb_buffer_append_string]. *)
Definition holds_string (b : ntb_buffer) (s : list Z) : Prop := buf_wf b /\ cells_string (buf_data b) = Ok s.

Lemma append_string_holds b s :
  buf_wf b -> buf_length b = 0 -> 0 ∉ s -> zlen s + 1 <= 2 ^ 62 ->
  exists b', ntb_buffer_append_string (E := unit) b s = Ok b' /\ holds_string b' s.
Proof.
  intros Hwf Hl Hs Hz. zlen_pose.
  destruct (append_string_spec (E := unit) b s) as (b' & E & Hb' & _); [done|lia|]. exists b'. split; [done|]. split; [done|].
  unfold ntb_buffer_append_string in E.
  destruct (append_spec (E := unit) b (s ++ [0])) as (b1 & E1 & Hb1 & Hl1 & Hc1 & _); [done|rewrite zlen_app; zlia|].
  rewrite E1, bind_ret_l in E. injection E as <-. cbn [add_length buf_data].
  assert (Hc0 : cells b = []) by (unfold cells; by rewrite Hl). rewrite Hc0, app_nil_l, fmap_app in Hc1.
  rewrite <- (take_drop (Z.to_nat (buf_length b1)) (buf_data b1)). fold (cells b1). rewrite Hc1, <- app_assoc.
  by apply cells_string_app.
Qed.

(** ** Private and public keys as text *)

Section key_texts.
Context `{DigestLaws} `{BigNumLaws} `{!Elliptic} `{Digest256Laws}.

(** The 32 bytes of a private key. *)
Definition private_bytes (v : BIGNUM) : list Z := be_split 32 (bn_val v).

Lemma private_bytes_text v :
  BN_num_bytes v <= 32 -> replicate (Z.to_nat (Z.of_nat NTB_ECC_PRIVATE_KEY_SIZE - BN_num_bytes v)) 0 ++ BN_bn2bin v = private_bytes v.
Proof.
  intros Hn. unfold private_bytes, NTB_ECC_PRIVATE_KEY_SIZE. change (Z.of_nat 32) with 32. rewrite bn_bn2bin_val.
  rewrite bn_num_bytes_val in *. pose proof (num_bytes_nonneg (bn_val v)) as Hn0.
  pose proof (num_bytes_bound (bn_val v) (bn_val_nonneg v)) as Hb. pose proof (bn_val_nonneg v) as Hv.
  set (r := replicate _ 0 ++ _).
  assert (Hr : length r = 32%nat) by (unfold r; rewrite length_app, length_replicate, length_be_split; lia).
  assert (Hrb : bytes r).
  { unfold r. apply bytes_app. split; [apply bytes_replicate; unfold is_byte; lia|apply bytes_be_split]. }
  rewrite <- (be_split_combine r Hrb), Hr. f_equal. unfold r.
  rewrite be_combine_app, be_combine_split. rewrite Z2Nat.id by lia.
  rewrite (Z.mod_small (bn_val v)) by lia. enough (be_combine (replicate (Z.to_nat (32 - num_bytes (bn_val v))) 0) = 0) as -> by lia.
  clear. induction (Z.to_nat _) as [|n IH]; [done|]. cbn [replicate]. rewrite be_combine_cons, IH. lia.
Qed.

Lemma wif_text key v :
  EC_KEY_get0_private_key key = Some v -> BN_num_bytes v <= 32 ->
  exists t, encode_wif key = Ok t /\ parse_wif t = Ok (private_bytes v) /\ plain_text t.
Proof.
  intros Hk Hn. unfold encode_wif. rewrite Hk. cbn [need]. rewrite bind_ret_l.
  rewrite (proj2 (Z.ltb_ge _ (BN_num_bytes v))) by (unfold NTB_ECC_PRIVATE_KEY_SIZE; lia). rewrite private_bytes_text by done.
  set (key_bytes := 0x80 :: private_bytes v). set (sum := wif_checksum key_bytes).
  assert (Hkl : length key_bytes = 33%nat) by (unfold key_bytes, private_bytes; cbn [length]; by rewrite length_be_split).
  assert (Hsl : length sum = 4%nat).
  { unfold sum, wif_checksum. rewrite length_take, SHA256_length. unfold SHA256_DIGEST_LENGTH. lia. }
  assert (Hb : bytes (key_bytes ++ sum)).
  { apply bytes_app. split; [apply bytes_cons; split; [unfold is_byte; lia|apply bytes_be_split]|]. apply bytes_take, SHA256_bytes. }
  assert (Hz : zlen (key_bytes ++ sum) = 37) by (unfold zlen; rewrite length_app; lia).
  rewrite encode_spec, bind_ret_l by done. unfold c_assert.
  assert (Ht : zlen (base58_text (key_bytes ++ sum)) <= NTB_STORE_MAX_WIF_LENGTH).
  { apply (zlen_base58 _ 51); [done|lia|]. rewrite Hz. vm_compute. congruence. }
  rewrite (proj2 (Z.leb_le _ _) Ht), bind_ret_l. eexists. split; [reflexivity|]. split; [|by apply plain_base58].
  assert (Hs : strip_zeros (key_bytes ++ sum) = key_bytes ++ sum) by done.
  assert (Hnz : be_combine (key_bytes ++ sum) <> 0).
  { unfold key_bytes. cbn [app]. rewrite be_combine_cons.
    assert (Hb' : bytes (private_bytes v ++ sum)).
    { apply bytes_app in Hb as [[_ Hb1]%bytes_cons Hb2]. by apply bytes_app. }
    pose proof (be_combine_range _ Hb'). pose proof (zlen_nonneg (private_bytes v ++ sum)).
    pose proof (Z.pow_pos_nonneg 256 (zlen (private_bytes v ++ sum))). unfold is_byte in *. nia. }
  unfold parse_wif. rewrite decode_encode by (rewrite ?Hs, ?Hz; unfold NTB_ECC_PRIVATE_KEY_SIZE; done || lia).
  rewrite (proj2 (Z.eqb_neq _ 0)), Hs, bind_ret_l by done.
  unfold NTB_ECC_PRIVATE_KEY_SIZE. replace (1 + 32 + 4 - length (key_bytes ++ sum))%nat with O by (rewrite length_app; lia).
  cbn [replicate app]. change (1 + 32)%nat with 33%nat.
  rewrite (drop_app_length' key_bytes), (take_app_length' key_bytes) by done. fold sum. rewrite bytes_eqb_refl.
  unfold key_bytes. cbn [app deref]. rewrite bind_ret_l. cbn [Z.eqb Pos.eqb negb drop]. rewrite drop_0.
  rewrite take_app_length' by (unfold private_bytes; by rewrite length_be_split). done.
Qed.

Lemma public_text key :
  let oct := EC_POINT_point2oct (EC_KEY_get0_public_key key) in
  zlen oct = NTB_ECC_PUBLIC_KEY_SIZE -> bytes oct -> hd 0 oct = 4 ->
  exists t, encode_public_key key = Ok t /\ plain_text t /\
    forall old, zlen old = NTB_ECC_PUBLIC_KEY_SIZE -> parse_public_key t old = Ok (true, oct).
Proof.
  intros oct Hz Hb Hh. unfold encode_public_key, pub_key_octets. fold oct. unfold c_assert. rewrite Hz. cbn [Z.eqb Pos.eqb NTB_ECC_PUBLIC_KEY_SIZE].
  rewrite !bind_ret_l, encode_spec, bind_ret_l by done.
  assert (Ht : zlen (base58_text oct) <= NTB_STORE_MAX_PUBLIC_KEY_LENGTH).
  { apply (zlen_base58 _ 89); [done|lia|]. rewrite Hz. vm_compute. congruence. }
  rewrite (proj2 (Z.leb_le _ _) Ht), bind_ret_l. eexists. split; [reflexivity|]. split; [by apply plain_base58|].
  intros old Ho. unfold parse_public_key.
  assert (Hs : strip_zeros oct = oct) by (destruct oct as [|c oct']; [done|]; cbn in Hh; subst c; done).
  assert (Hnz : be_combine oct <> 0).
  { destruct oct as [|c oct']; [done|]. cbn in Hh. subst c. rewrite be_combine_cons. apply bytes_cons in Hb as [_ Hb].
    pose proof (be_combine_range _ Hb). pose proof (zlen_nonneg oct'). pose proof (Z.pow_pos_nonneg 256 (zlen oct')). nia. }
  rewrite decode_encode by (rewrite ?Hs, ?Hz; done). rewrite (proj2 (Z.eqb_neq _ 0)), Hs by done.
  rewrite drop_ge, app_nil_r by (unfold zlen in *; lia). rewrite Hz, Z.eqb_refl. cbn [negb].
  destruct oct as [|c oct']; [done|]. cbn in Hh. subst c. done.
Qed.
End key_texts.

(** ** The loader on what the store writes *)

Definition load_flags : Z :=
  Z.lor NTB_KEY_PARAM_LABEL (Z.lor NTB_KEY_PARAM_VERSION (Z.lor NTB_KEY_PARAM_STREAM
    (Z.lor NTB_KEY_PARAM_POW_DIFFICULTY (Z.lor NTB_KEY_PARAM_LAST_PUBKEY_SEND_TIME
      (Z.lor NTB_KEY_PARAM_ENABLED NTB_KEY_PARAM_DECOY))))).

(** Two outcomes that agree, up to a relation on what is returned. *)
Definition outcome {A B} (R : A -> B -> Prop) (r : result unit A) (q : result unit B) : Prop :=
  match r, q with
  | Ok a, Ok b => R a b
  | Err _, Err _ | UB, UB | OutOfFuel, OutOfFuel => True
  | _, _ => False
  end.

Section load_spec.
Context `{DigestLaws} `{BigNumLaws} `{!Elliptic} `{Symmetric} `{Digest256Laws}.

(** What the file keeps of a key: the parameters its constructor is called with. A key
    without private halves has no times and switches of its own in the file. *)
Definition params_of (key : ntb_key) : ntb_key_params :=
  match EC_KEY_get0_private_key (key_signing_key key), EC_KEY_get0_private_key (key_encryption_key key) with
  | Some signing, Some encryption =>
      KeyParams (Z.lor load_flags NTB_KEY_PARAM_PRIVATE_KEYS) (key_label key)
        (addr_version (key_address key)) (addr_stream (key_address key))
        (private_bytes signing) (private_bytes encryption) [] []
        (key_nonce_trials_per_byte key) (key_payload_length_extra_bytes key) [] (key_last_pubkey_send_time key)
        (key_enabled key) (key_decoy key)
  | _, _ =>
      KeyParams (Z.lor load_flags NTB_KEY_PARAM_PUBLIC_KEYS) (key_label key)
        (addr_version (key_address key)) (addr_stream (key_address key)) [] []
        (EC_POINT_point2oct (EC_KEY_get0_public_key (key_signing_key key)))
        (EC_POINT_point2oct (EC_KEY_get0_public_key (key_encryption_key key)))
        (key_nonce_trials_per_byte key) (key_payload_length_extra_bytes key) [] 0 true false
  end.

(** The two halves of a key can be written: numbers of at most 32 bytes, or points in
    uncompressed form. *)
Definition halves_ok (key : ntb_key) : Prop :=
  match EC_KEY_get0_private_key (key_signing_key key), EC_KEY_get0_private_key (key_encryption_key key) with
  | Some signing, Some encryption => BN_num_bytes signing <= 32 /\ BN_num_bytes encryption <= 32
  | _, _ =>
      Forall (fun k => let oct := EC_POINT_point2oct (EC_KEY_get0_public_key k) in
                       zlen oct = NTB_ECC_PUBLIC_KEY_SIZE /\ bytes oct /\ hd 0 oct = 4)
        [key_signing_key key; key_encryption_key key]
  end.

(** The label is one line without spaces around it. *)
Definition key_file_ok (key : ntb_key) : Prop :=
  (address_wf (key_address key) /\ addr_version (key_address key) <> 0) /\
  (bytes (key_label key) /\ value_ok (key_label key) /\ (0 ∉ key_label key) /\ zlen (key_label key) < 2 ^ 31) /\
  - 2 ^ 31 <= key_nonce_trials_per_byte key <= INT_MAX /\
  - 2 ^ 31 <= key_payload_length_extra_bytes key <= INT_MAX /\
  - 2 ^ 63 <= key_last_pubkey_send_time key <= INT64_MAX /\
  halves_ok key.

Context {S K U : Type} (key_new : S -> ntb_key_params -> result unit (S * K)) (func : K -> U -> U).

(** What the loader does for one key. *)
Definition load_key (r : result unit (S * U)) (p : ntb_key_params) : result unit (S * U) :=
  '(s, u) ← r; '(s, k) ← key_new s p; Ok (s, func k u).

(** The data after a reset. *)
Definition fresh (d : ntb_load_keys_data) (su : S * U) : Prop :=
  exists label address ps pe us ue,
    d = LoadKeys su.1 su.2 label address NTB_PROTO_MIN_NONCE_TRIALS_PER_BYTE NTB_PROTO_MIN_EXTRA_BYTES 0 true false
          false false false false ps pe us ue /\
    buf_wf label /\ buf_wf address /\ zlen us = NTB_ECC_PUBLIC_KEY_SIZE /\ zlen ue = NTB_ECC_PUBLIC_KEY_SIZE.

(** The calls of the key-value loader. *)
Definition call_events (es : list ntb_key_value_event) (r : result unit ntb_load_keys_data) : result unit ntb_load_keys_data :=
  fold_left (fun d e => keys_event_cb key_new func e d) es r.

Lemma call_events_stuck es r : (forall d, r <> Ok d) -> call_events es r = r.
Proof.
  intros Hr. unfold call_events. induction es as [|e es IH]; [done|]. cbn [fold_left].
  assert (E : keys_event_cb key_new func e r = r) by (destruct r; [by edestruct Hr|done..]). by rewrite E.
Qed.

Lemma key_header d d1 su name n :
  flush_key key_new func d = Ok d1 -> fresh d1 su -> 0 ∉ name -> zlen name + 1 <= 2 ^ 62 ->
  exists label address ps pe us ue,
    keys_event_cb key_new func (NTB_KEY_VALUE_EVENT_HEADER n name) (Ok d) =
    Ok (LoadKeys su.1 su.2 label address NTB_PROTO_MIN_NONCE_TRIALS_PER_BYTE NTB_PROTO_MIN_EXTRA_BYTES 0 true false
          false false false false ps pe us ue) /\
    buf_wf label /\ holds_string address name /\ zlen us = NTB_ECC_PUBLIC_KEY_SIZE /\ zlen ue = NTB_ECC_PUBLIC_KEY_SIZE.
Proof.
  intros Ef (label & address & ps & pe & us & ue & -> & Hl & Ha & Hus & Hue) Hn Hz.
  unfold keys_event_cb. rewrite bind_ret_l, Ef, bind_ret_l. cbn [lk_address]. rewrite c_text_id by done.
  destruct (append_string_holds (set_empty address) name) as (b & -> & Hb); [by apply repr_empty|done|done|done|].
  rewrite bind_ret_l. by exists label, b, ps, pe, us, ue.
Qed.

Lemma cb_key_property n k v d :
  keys_event_cb key_new func (NTB_KEY_VALUE_EVENT_PROPERTY n k v) (Ok d) = process_key_property d k v.
Proof. done. Qed.

Lemma label_property (d : @ntb_load_keys_data S U) label :
  buf_wf (lk_label d) -> 0 ∉ label -> zlen label + 1 <= 2 ^ 62 ->
  exists b, process_key_property d (str_bytes "label") label = Ok (lk_set_label b d) /\ holds_string b label.
Proof.
  intros Hwf Hn Hz. destruct (set_length_0 _ Hwf) as (b0 & E0 & Hr0).
  destruct (append_string_holds b0 label) as (b & E & Hb); [apply Hr0|by rewrite (repr_length _ _ Hr0)|done|done|].
  exists b. split; [|done]. unfold process_key_property. rewrite (c_text_id label) by done.
  assert (Ek : bytes_eqb (c_text (str_bytes "label")) (str_bytes "label") = true) by (vm_compute; reflexivity).
  by rewrite Ek, E0, bind_ret_l, E, bind_ret_l.
Qed.
End load_spec.

(** The next property event, whose key is a literal. *)
Ltac key_property :=
  rewrite cb_key_property; unfold process_key_property at 1;
  repeat match goal with
  | |- context [bytes_eqb (c_text (str_bytes ?a)) (str_bytes ?b)] =>
      let v := eval vm_compute in (bytes_eqb (c_text (str_bytes a)) (str_bytes b)) in
      let E := fresh in
      assert (E : bytes_eqb (c_text (str_bytes a)) (str_bytes b) = v) by (vm_compute; reflexivity); rewrite E; clear E; cbn iota
  end.

Section load_keys.
Context `{DigestLaws} `{BigNumLaws} `{!Elliptic} `{Symmetric} `{Digest256Laws}.
Context {S K U : Type} (key_new : S -> ntb_key_params -> result unit (S * K)) (func : K -> U -> U).

(** The struct when all lines of a key were read. *)
Lemma flush_filled key text label address ps pe us ue (s : S) (u : U) (private : bool) :
  ntb_address_decode text = Ok (key_address key) ->
  holds_string label (key_label key) -> holds_string address text ->
  zlen us = NTB_ECC_PUBLIC_KEY_SIZE -> zlen ue = NTB_ECC_PUBLIC_KEY_SIZE ->
  (if private
   then exists a b, EC_KEY_get0_private_key (key_signing_key key) = Some a /\
          EC_KEY_get0_private_key (key_encryption_key key) = Some b /\ ps = private_bytes a /\ pe = private_bytes b
   else ntb_key_has_private key = false /\ us = EC_POINT_point2oct (EC_KEY_get0_public_key (key_signing_key key)) /\
        ue = EC_POINT_point2oct (EC_KEY_get0_public_key (key_encryption_key key))) ->
  outcome fresh
    (flush_key key_new func
       (LoadKeys s u label address (key_nonce_trials_per_byte key) (key_payload_length_extra_bytes key)
          (if private then key_last_pubkey_send_time key else 0) (if private then key_enabled key else true)
          (if private then key_decoy key else false) private private (negb private) (negb private) ps pe us ue))
    (load_key key_new func (Ok (s, u)) (params_of key)).
Proof.
  intros Hd [Hlw Hl] [Haw Ha] Hus Hue Hk. unfold flush_key, load_key. rewrite bind_ret_l.
  cbn [lk_has_private_signing_key lk_has_private_encryption_key lk_has_public_signing_key lk_has_public_encryption_key
       lk_address lk_label lk_ecc lk_user_data lk_private_signing_key lk_private_encryption_key lk_public_signing_key
       lk_public_encryption_key lk_nonce_trials_per_byte lk_payload_length_extra_bytes lk_last_pubkey_send_time lk_enabled lk_decoy].
  assert (Hc : negb (private && private) && (negb (negb private) || negb (negb private)) = false) by by destruct private.
  rewrite Hc, Ha, bind_ret_l, Hd, bind_ret_l, Hl, bind_ret_l.
  match goal with |- context [key_new s ?p] => assert (E : p = params_of key) end.
  { unfold params_of. destruct private.
    - destruct Hk as (a & b & -> & -> & -> & ->). done.
    - destruct Hk as (Hp & -> & ->). unfold ntb_key_has_private in Hp. cbn [negb andb].
      by destruct (EC_KEY_get0_private_key (key_signing_key key)), (EC_KEY_get0_private_key (key_encryption_key key)). }
  rewrite E. destruct (key_new s (params_of key)) as [[s' k]| | |]; [|exact I..]. rewrite !bind_ret_l. cbn [outcome].
  exists (set_empty label), (set_empty address), ps, pe, us, ue. split_and!; [done|by apply repr_empty|by apply repr_empty|done|done].
Qed.

Lemma property_bytes key value : bytes key -> bytes value -> bytes (property_text key value).
Proof. intros Hk Hv. unfold property_text. rewrite !bytes_app. split_and!; try done; by apply (bool_decide_unpack _). Qed.
Lemma header_bytes name : bytes name -> bytes (header_text name).
Proof.
  intros Hn. apply bytes_cons. split; [unfold is_byte; lia|]. apply bytes_app. split; [done|]. by apply (bool_decide_unpack _).
Qed.
Lemma bool_text_plain b : plain_text (bool_text b).
Proof. destruct b; apply (bool_decide_unpack _); vm_compute; exact I. Qed.
Lemma bool_text_parse b : ntb_key_value_parse_bool_value (bool_text b) = Some b.
Proof. by destruct b. Qed.

(** What a text of the file does to the loader, for the outcome of one key. *)
Definition loads (text : list Z) (p : ntb_key_params) : Prop :=
  exists m, forall n section rest d,
    match flush_key key_new func d with
    | Ok d1 => forall su, fresh d1 su -> exists d',
        call_events key_new func (kv_lines n section (text_lines (text ++ rest))) (Ok d) =
        call_events key_new func (kv_lines (n + m) true (text_lines rest)) (Ok d') /\
        outcome fresh (flush_key key_new func d') (load_key key_new func (Ok su) p)
    | r => call_events key_new func (kv_lines n section (text_lines (text ++ rest))) (Ok d) = r
    end.

(** The first three lines are common to all keys. *)
Definition key_head (address : list Z) (key : ntb_key) : list Z :=
  header_text address ++
  property_text (str_bytes "label") (key_label key) ++
  property_text (str_bytes "noncetrialsperbyte") (dec_signed (key_nonce_trials_per_byte key)) ++
  property_text (str_bytes "payloadlengthextrabytes") (dec_signed (key_payload_length_extra_bytes key)).

Lemma loads_head key address body p m :
  key_file_ok key -> plain_text address -> zlen address < 2 ^ 31 ->
  (forall n rest (su : S * U) label ab ps pe us ue,
     holds_string label (key_label key) -> holds_string ab address ->
     zlen us = NTB_ECC_PUBLIC_KEY_SIZE -> zlen ue = NTB_ECC_PUBLIC_KEY_SIZE -> exists d',
     call_events key_new func (kv_lines n true (text_lines (body ++ rest)))
       (Ok (LoadKeys su.1 su.2 label ab (key_nonce_trials_per_byte key) (key_payload_length_extra_bytes key) 0 true false
          false false false false ps pe us ue)) =
     call_events key_new func (kv_lines (n + m) true (text_lines rest)) (Ok d') /\
     outcome fresh (flush_key key_new func d') (load_key key_new func (Ok su) p)) ->
  loads (key_head address key ++ body) p.
Proof.
  intros (_ & (Hlb & Hlv & Hl0 & Hlz) & Hn & He & _) Pa Za Hbody. unfold INT_MAX in *. exists (4 + m).
  assert (Ha0 : 0 ∉ address) by (eapply not_in_Forall; [exact Pa|cbn; lia]).
  intros n section rest d. unfold key_head. rewrite <- !app_assoc, lines_header by by apply plain_name_ok.
  destruct (flush_key key_new func d) as [d1|e| |] eqn:Ef;
    [|change (call_events key_new func ?es ?r) with (call_events key_new func es r); unfold call_events; cbn [fold_left];
      match goal with |- context [keys_event_cb key_new func ?e (Ok d)] =>
        assert (Ecb : keys_event_cb key_new func e (Ok d) = flush_key key_new func d) by (unfold keys_event_cb; by rewrite bind_ret_l, Ef) end;
      rewrite Ecb, Ef; by apply call_events_stuck..].
  intros su Hsu.
  destruct (key_header key_new func d d1 su address n Ef Hsu Ha0 ltac:(lia)) as (label & ab & ps & pe & us & ue & Eh & Hlw & Had & Hus & Hue).
  rewrite !lines_property by (by apply (bool_decide_unpack _)) || done || (apply plain_value_ok, plain_dec_signed).
  unfold call_events at 1. cbn [fold_left]. rewrite Eh, cb_key_property.
  match goal with |- context [process_key_property ?d (str_bytes "label") _] =>
    destruct (label_property d (key_label key)) as (bl & -> & Hbl); [exact Hlw|exact Hl0|lia|] end. unfold lk_set_label. cbn [lk_ecc lk_user_data].
  do 2 (key_property; rewrite parse_int_dec by (unfold INT_MAX; lia); cbn [or_keep_key]). rewrite !s32_small by lia.
  destruct (Hbody (n + 1 + 1 + 1 + 1) rest su bl ab ps pe us ue Hbl Had Hus Hue) as (d' & E & Ho).
  exists d'. split; [|done]. replace (n + (4 + m)) with (n + 1 + 1 + 1 + 1 + m) by lia. exact E.
Qed.

Lemma private_key_text key :
  key_file_ok key -> ntb_key_has_private key = true ->
  exists text, write_key key = Ok text /\ bytes text /\ loads text (params_of key).
Proof.
  intros Hok Hp. pose proof Hok as ([Hf Hfv] & (Hlb & _) & _ & _ & Ht & Hh).
  destruct (address_text _ Hf Hfv) as (ta & Ea & Da & Pa & La). unfold INT_MAX, INT64_MAX in *.
  unfold write_key. rewrite Hp, Ea, bind_ret_l. unfold halves_ok, ntb_key_has_private in *.
  destruct (EC_KEY_get0_private_key (key_signing_key key)) as [a|] eqn:E1; [|done].
  destruct (EC_KEY_get0_private_key (key_encryption_key key)) as [b|] eqn:E2; [|done]. destruct Hh as [Hna Hnb].
  destruct (wif_text _ a E1 Hna) as (ts & Es & Ds & Ps). destruct (wif_text _ b E2 Hnb) as (te & Ee & De & Pe).
  rewrite Es, bind_ret_l, Ee, !bind_ret_l. eexists. split; [reflexivity|]. split.
  { rewrite !bytes_app. split_and!; first [apply header_bytes; by apply plain_bytes
      |apply property_bytes; [by apply (bool_decide_unpack _)|done || (apply plain_bytes; done || apply plain_dec_signed || apply bool_text_plain)]
      |by apply (bool_decide_unpack _)]. }
  fold (key_head ta key).
  apply (loads_head key ta _ _ 6); [done|done|lia|].
  intros n rest [s u] label ab ps pe us ue Hl Hab Hus Hue. rewrite <- !app_assoc. cbn [fst snd].
  rewrite !lines_property by (by apply (bool_decide_unpack _)) || (apply plain_value_ok; done || apply plain_dec_signed || apply bool_text_plain).
  change ([10] ++ rest) with (10 :: rest). rewrite lines_blank. unfold call_events at 1. cbn [fold_left]. eexists. split.
  - key_property. rewrite (plain_c_text ts), Ds by done. cbn [or_keep_key].
    key_property. rewrite (plain_c_text te), De by done. cbn [or_keep_key].
    key_property. rewrite parse_int_dec by (unfold INT64_MAX; lia). cbn [or_keep_key].
    do 2 (key_property; rewrite bool_text_parse).
    replace (n + 1 + 1 + 1 + 1 + 1 + 1) with (n + 6) by lia. reflexivity.
  - apply (flush_filled key ta label ab (private_bytes a) (private_bytes b) us ue s u true); try done. by exists a, b.
Qed.

Lemma public_key_text key :
  key_file_ok key -> ntb_key_has_private key = false ->
  exists text, write_key key = Ok text /\ bytes text /\ loads text (params_of key).
Proof.
  intros Hok Hp. pose proof Hok as ([Hf Hfv] & (Hlb & _) & _ & _ & _ & Hh).
  destruct (address_text _ Hf Hfv) as (ta & Ea & Da & Pa & La).
  assert (Hh' : Forall (fun k => let oct := EC_POINT_point2oct (EC_KEY_get0_public_key k) in
                       zlen oct = NTB_ECC_PUBLIC_KEY_SIZE /\ bytes oct /\ hd 0 oct = 4) [key_signing_key key; key_encryption_key key]).
  { unfold halves_ok, ntb_key_has_private in *. by repeat case_match. }
  apply Forall_cons in Hh' as [(Hz1 & Hb1 & Hh1) [(Hz2 & Hb2 & Hh2) _]%Forall_cons].
  destruct (public_text _ Hz1 Hb1 Hh1) as (ts & Es & Ps & Ds). destruct (public_text _ Hz2 Hb2 Hh2) as (te & Ee & Pe & De).
  unfold write_key. rewrite Hp, Ea, bind_ret_l, Es, bind_ret_l, Ee, !bind_ret_l. eexists. split; [reflexivity|]. split.
  { rewrite !bytes_app. split_and!; first [apply header_bytes; by apply plain_bytes
      |apply property_bytes; [by apply (bool_decide_unpack _)|done || (apply plain_bytes; done || apply plain_dec_signed || apply bool_text_plain)]
      |by apply (bool_decide_unpack _)]. }
  fold (key_head ta key).
  apply (loads_head key ta _ _ 3); [done|done|lia|].
  intros n rest [s u] label ab ps pe us ue Hl Hab Hus Hue. rewrite <- !app_assoc. cbn [fst snd].
  rewrite !lines_property by (by apply (bool_decide_unpack _)) || (by apply plain_value_ok).
  change ([10] ++ rest) with (10 :: rest). rewrite lines_blank. unfold call_events at 1. cbn [fold_left]. eexists. split.
  - key_property. rewrite (plain_c_text ts) by done. cbn [lk_public_signing_key]. rewrite Ds, bind_ret_l by done.
    key_property. rewrite (plain_c_text te) by done. unfold lk_set_public_signing at 1. cbn [lk_public_encryption_key]. rewrite De, bind_ret_l by done.
    replace (n + 1 + 1 + 1) with (n + 3) by lia. reflexivity.
  - apply (flush_filled key ta label ab ps pe (EC_POINT_point2oct (EC_KEY_get0_public_key (key_signing_key key)))
             (EC_POINT_point2oct (EC_KEY_get0_public_key (key_encryption_key key))) s u false); done.
Qed.

Lemma key_text key :
  key_file_ok key -> exists text, write_key key = Ok text /\ bytes text /\ loads text (params_of key).
Proof.
  intros Hok. destruct (ntb_key_has_private key) eqn:Hp; [by apply private_key_text|by apply public_key_text].
Qed.

Lemma load_key_stuck ps r : (forall su, r <> Ok su) -> fold_left (load_key key_new func) ps r = r.
Proof.
  intros Hr. induction ps as [|p ps IH]; [done|]. cbn [fold_left].
  assert (E : load_key key_new func r p = r) by (destruct r; [by edestruct Hr|done..]). by rewrite E.
Qed.

(** The outcome of the rest of the file, for the outcome of what is pending. *)
Lemma keys_text keys :
  Forall key_file_ok keys ->
  exists text, write_keys keys = Ok text /\ bytes text /\
    forall n section d r, outcome fresh (flush_key key_new func d) r ->
      outcome fresh (d ← call_events key_new func (kv_lines n section (text_lines text)) (Ok d); flush_key key_new func d)
        (fold_left (load_key key_new func) (params_of <$> keys) r).
Proof.
  induction 1 as [|key keys Hk _ (rest & Er & Hrb & Hr)].
  { exists []. split_and!; [done|constructor|]. intros n section d r Hd. exact Hd. }
  destruct (key_text key Hk) as (text & Et & Htb & m & Ht). cbn [write_keys].
  rewrite Et, bind_ret_l, Er, bind_ret_l. eexists. split; [reflexivity|]. split; [by apply bytes_app|].
  intros n section d r Hd. specialize (Ht n section rest d). rewrite fmap_cons. cbn [fold_left].
  destruct (flush_key key_new func d) as [d1|e| |]; destruct r as [su|e'| |]; try done.
  - destruct (Ht su Hd) as (d' & -> & Ho). by apply Hr.
  - rewrite Ht. change (load_key key_new func (Err e') (params_of key)) with (@Err unit (S * U) e'). by rewrite load_key_stuck.
  - rewrite Ht. change (load_key key_new func UB (params_of key)) with (@UB unit (S * U)). by rewrite load_key_stuck.
  - rewrite Ht. change (load_key key_new func OutOfFuel (params_of key)) with (@OutOfFuel unit (S * U)). by rewrite load_key_stuck.
Qed.

Lemma keys_roundtrip_core keys ps pe us ue s u :
  Forall key_file_ok keys -> zlen us = NTB_ECC_PUBLIC_KEY_SIZE -> zlen ue = NTB_ECC_PUBLIC_KEY_SIZE ->
  exists file, write_keys keys = Ok file /\
    (zlen file < 2 ^ 31 - 2 ->
     load_keys_with key_new func file ps pe us ue s u = fold_left (load_key key_new func) (params_of <$> keys) (Ok (s, u))).
Proof.
  intros Hk Hus Hue. destruct (keys_text keys Hk) as (file & E & Hb & Hf). exists file. split; [done|]. intros Hz.
  unfold load_keys_with. rewrite load_events by done. rewrite bind_ret_l. fold (call_events key_new func).
  set (d := reset_keys_data _).
  assert (Hd : outcome fresh (flush_key key_new func d) (Ok (s, u))).
  { exists ntb_buffer_init, ntb_buffer_init, ps, pe, us, ue. split_and!; try done; apply (bool_decide_unpack _); done. }
  specialize (Hf 1 false d _ Hd). unfold kv_events. fold (call_events key_new func (kv_lines 1 false (text_lines file)) (Ok d)).
  destruct (call_events _ _ _ _) as [d'|[]| |]; cbn [mbind result_bind] in *.
  - destruct (flush_key key_new func d') as [d2|[]| |], (fold_left _ _ _) as [[s' u']|[]| |]; try done.
    destruct Hf as (? & ? & ? & ? & ? & ? & -> & _). done.
  - by destruct (fold_left _ _ _) as [|[]| |].
  - by destruct (fold_left _ _ _).
  - by destruct (fold_left _ _ _).
Qed.
End load_keys.

(** ** The constructor on what the loader reads *)

(** A key with private halves that the curve accepts. *)
Definition private_halves `{BigNumLaws} `{!Elliptic} `{!EllipticLaws} (key : ntb_key) : Prop :=
  exists signing encryption,
    EC_KEY_get0_private_key (key_signing_key key) = Some signing /\ 0 < bn_val signing < ec_order /\
    EC_KEY_get0_private_key (key_encryption_key key) = Some encryption /\ 0 < bn_val encryption < ec_order.

(** The digest is longer than the array it is stored in. *)
Lemma key_new_overflow `{DigestLaws} `{BigNumLaws} `{!Elliptic} `{!EllipticLaws} `{Symmetric} ecc params :
  has_flag params NTB_KEY_PARAM_PRIVATE_KEYS = true -> has_flag params NTB_KEY_PARAM_PUBLIC_KEYS = false ->
  has_flag params NTB_KEY_PARAM_RIPE = false ->
  private_ok (kp_private_signing_key params) -> private_ok (kp_private_encryption_key params) ->
  ntb_key_new ecc params = UB.
Proof.
  intros Hp Hu Hr Hs He. unfold ntb_key_new.
  assert (Hb : has_flag params (Z.lor NTB_KEY_PARAM_PRIVATE_KEYS NTB_KEY_PARAM_PUBLIC_KEYS) = true).
  { unfold has_flag in *. rewrite Z.land_lor_distr_r. apply negb_true_iff, Z.eqb_neq. apply negb_true_iff, Z.eqb_neq in Hp.
    intros Hz. apply Hp. by apply Z.lor_eq_0_iff in Hz as [? _]. }
  unfold c_assert. rewrite Hb, bind_ret_l, Hp, Hu, Hr. destruct (if has_flag params NTB_KEY_PARAM_POW_DIFFICULTY then _ else _).
  cbn [default from_option id]. rewrite create_key_spec, bind_ret_l by done. rewrite create_key_spec, !bind_ret_l by done.
  destruct Hs as (_ & _ & Hs), He as (_ & _ & He).
  unfold generate_ripe, ntb_ecc_get_pub_key, pub_key_octets. cbn [EC_KEY_get0_public_key].
  destruct (ec_octets _ Hs) as (Ls & _), (ec_octets _ He) as (Le & _). unfold c_assert. rewrite Ls, Le, Z.eqb_refl, !bind_ret_l.
  unfold store_digest. rewrite decide_False; [done|]. rewrite SHA512_length. unfold SHA512_DIGEST_LENGTH, SHA_DIGEST_LENGTH. lia.
Qed.

(** The first key of the file is never constructed. *)
Lemma first_key_overflows `{DigestLaws} `{BigNumLaws} `{!Elliptic} `{!EllipticLaws} `{Symmetric} `{Digest256Laws} {U}
    (func : ntb_key -> U -> U) key keys ecc u :
  key_file_ok key -> private_halves key ->
  fold_left (load_key ntb_key_new func) (params_of <$> key :: keys) (Ok (ecc, u)) = UB.
Proof.
  intros (_ & _ & _ & _ & _ & Hh) (a & b & Ea & Ha & Eb & Hb). unfold halves_ok in Hh. rewrite Ea, Eb in Hh. destruct Hh as [Hna Hnb].
  rewrite fmap_cons. cbn [fold_left].
  assert (E : load_key ntb_key_new func (Ok (ecc, u)) (params_of key) = UB); [|rewrite E; by apply load_key_stuck].
  assert (Hpr : forall v, BN_num_bytes v <= 32 -> 0 < bn_val v < ec_order -> private_ok (private_bytes v)).
  { intros v Hv Hr. unfold private_bytes. rewrite bn_num_bytes_val in Hv.
    pose proof (num_bytes_bound (bn_val v) (bn_val_nonneg v)) as Hb'. pose proof (num_bytes_nonneg (bn_val v)) as Hn.
    assert (256 ^ num_bytes (bn_val v) <= 256 ^ 32) by (apply Z.pow_le_mono_r; lia).
    split; [by rewrite length_be_split|]. split; [apply bytes_be_split|].
    by rewrite be_combine_split, Z.mod_small by (change (Z.of_nat 32) with 32; lia). }
  unfold load_key. rewrite bind_ret_l, key_new_overflow; [done|..]; unfold params_of; rewrite Ea, Eb;
    [reflexivity..|by apply Hpr|by apply Hpr].
Qed.

(** ** Properties *)

(** C38: the loader reads from the key file what the store wrote to it. For each key
    of the file, in order, the constructor is called with the label, the version and the
    stream of the address, the difficulty, the private or public halves, and, for keys
    with private halves, the time and the switches that were written; its result is
    reported. The labels have no line breaks, zero bytes or outer spaces. With the
    constructor of the program, [ntb_key_new], this ends at the first key with private
    halves: what it is called with is right, and it overflows an array. *)
Theorem keys_roundtrip `{DigestLaws} `{BigNumLaws} `{!Elliptic} `{!EllipticLaws} `{Symmetric} `{Digest256Laws} keys ps pe us ue :
  Forall key_file_ok keys -> zlen us = NTB_ECC_PUBLIC_KEY_SIZE -> zlen ue = NTB_ECC_PUBLIC_KEY_SIZE ->
  exists file, write_keys keys = Ok file /\
    (zlen file < 2 ^ 31 - 2 ->
     (forall {S K U} (key_new : S -> ntb_key_params -> result unit (S * K)) (func : K -> U -> U) s u,
        load_keys_with key_new func file ps pe us ue s u = fold_left (load_key key_new func) (params_of <$> keys) (Ok (s, u))) /\
     (forall key rest {U} (func : ntb_key -> U -> U) ecc u, keys = key :: rest -> private_halves key ->
        ntb_load_keys func file ps pe us ue ecc u = UB)).
Proof.
  intros Hk Hus Hue. destruct (keys_text (fun s p => Ok (s, p)) (fun p (_ : unit) => tt) keys (S := unit) Hk) as (file & E & _).
  exists file. split; [done|]. intros Hz.
  assert (Hl : forall {S K U} (key_new : S -> ntb_key_params -> result unit (S * K)) (func : K -> U -> U) s u,
    load_keys_with key_new func file ps pe us ue s u = fold_left (load_key key_new func) (params_of <$> keys) (Ok (s, u))).
  { intros S K U key_new func s u.
    destruct (keys_roundtrip_core key_new func keys ps pe us ue s u Hk Hus Hue) as (file' & E' & Hf).
    rewrite E in E'. injection E' as <-. by apply Hf. }
  split; [exact Hl|]. intros key rest U func ecc u -> Hp. unfold ntb_load_keys. rewrite Hl.
  apply Forall_cons in Hk as [Hk _]. by apply first_key_overflows.
Qed.

(** A digest of the right size. *)
#[local] Instance Digest256_toy : Digest256 := {| SHA256 := toy_digest 32 |}.
#[local] Instance Digest256Laws_toy : Digest256Laws (H := Digest256_toy).
Proof. constructor; intros l; first [exact (length_be_split 32 _)|exact (bytes_be_split 32 _)]. Qed.

Section keys_witness.
#[local] Existing Instances Digests_toy DigestLaws_toy BigNum_N BigNumLaws_N Elliptic_toy EllipticLaws_toy Symmetric_toy.

Definition example_key (private : option BIGNUM) : ntb_key :=
  Key example_address [] [] (str_bytes "me") 320 14000 77 (EcKey private EC_POINT_new) (EcKey private EC_POINT_new) false true.

(** A key with private halves and one without, and what the loader does with them. *)
Lemma keys_roundtrip_witness :
  exists file, write_keys [example_key (Some (BN_bin2bn [1; 2])); example_key None] = Ok file /\ zlen file < 2 ^ 31 - 2 /\
     load_keys_with (fun s p => Ok (s, p)) (fun p u => u ++ [p]) file [] [] (replicate 65 0) (replicate 65 0) tt [] =
     Ok (tt, [params_of (example_key (Some (BN_bin2bn [1; 2]))); params_of (example_key None)]) /\
     ntb_load_keys (fun k u => u ++ [k]) file [] [] (replicate 65 0) (replicate 65 0) ntb_ecc_new [] = UB.
Proof.
  refine (match keys_roundtrip [example_key (Some (BN_bin2bn [1; 2])); example_key None] [] [] (replicate 65 0) (replicate 65 0)
    _ eq_refl eq_refl with ex_intro _ file (conj E H) => ex_intro _ file _ end).
  - repeat constructor; try (apply (bool_decide_unpack _); vm_compute; exact I); vm_compute; congruence.
  - assert (Hz : zlen file < 2 ^ 31 - 2).
    { assert (Hw : match write_keys [example_key (Some (BN_bin2bn [1; 2])); example_key None] with Ok f => (zlen f <? 2 ^ 31 - 2) = true | _ => False end)
        by (vm_compute; reflexivity). rewrite E in Hw. by apply Z.ltb_lt. }
    destruct (H Hz) as [H1 H2]. split; [exact E|]. split; [exact Hz|]. split; [exact (H1 _ _ _ _ _ tt [])|].
    eapply H2; [reflexivity|]. exists (BN_bin2bn [1; 2]), (BN_bin2bn [1; 2]). split_and!; vm_compute; reflexivity.
Defined.
End keys_witness.

(** Constructing a key from two private keys without giving its ripe always
    writes the 64 bytes of a SHA-512 digest into a local array of 20 bytes. *)
Theorem key_new_overflows `{DigestLaws} `{BigNumLaws} `{!Elliptic} `{!EllipticLaws} `{Symmetric} ecc params :
  has_flag params NTB_KEY_PARAM_PRIVATE_KEYS = true -> has_flag params NTB_KEY_PARAM_PUBLIC_KEYS = false ->
  has_flag params NTB_KEY_PARAM_RIPE = false ->
  private_ok (kp_private_signing_key params) -> private_ok (kp_private_encryption_key params) ->
  ntb_key_new ecc params = UB.
Proof. apply key_new_overflow. Qed.

Section overflow_witness.
#[local] Existing Instances Digests_toy DigestLaws_toy BigNum_N BigNumLaws_N Elliptic_toy EllipticLaws_toy Symmetric_toy.

Definition example_params : ntb_key_params :=
  KeyParams NTB_KEY_PARAM_PRIVATE_KEYS [] 4 1 (replicate 32 1) (replicate 32 2) [] [] 0 0 [] 0 true false.

Lemma key_new_overflows_witness : ntb_key_new ntb_ecc_new example_params = UB.
Proof.
  apply (key_new_overflows ntb_ecc_new example_params); try reflexivity.
  all: split_and!; [done|apply (bool_decide_unpack _); vm_compute; exact I|vm_compute; done|vm_compute; done].
Defined.
End overflow_witness.
