(* ===== verification/Base64.v ===== *)
(** * Base64: the streaming decoder and the encoder (ntb-base64.c, ntb-base64.h)

    The decoder keeps its state between calls so that a text can arrive in
    pieces; the bytes it stores through [out] are the second component of the
    result. [int value] is shifted left without ever being reset, which the
    model evaluates modulo 2^32 as the compilers of the project do. *)

From S2P Require Import Prelude Endian.

Inductive ntb_base64_error := NTB_BASE64_ERROR_INVALID_PADDING.

Record ntb_base64_data := B64 { b64_n_padding : Z; b64_n_chars : Z; b64_value : Z }.

Abbreviation b64_result := (result ntb_base64_error).

Definition NTB_BASE64_MAX_INPUT_FOR_SIZE (input_size : Z) : Z := u64 (input_size * 4) / 3.

(** Character constants of the source. *)
Definition c_slash : Z := 47.
Definition c_plus : Z := 43.
Definition c_eq : Z := 61.

Definition alphabet_value (ch : Z) : Z :=
  if ch =? c_slash then 63
  else if ch =? c_plus then 62
  else if ch <=? 57 then
    if ch <? 48 then -1 else ch - 48 + 26 * 2
  else if ch <=? 90 then
    if ch <? 65 then -1 else ch - 65
  else if ch <=? 122 then
    if ch <? 97 then -1 else ch - 97 + 26
  else -1.

Definition ntb_base64_decode_start : ntb_base64_data := B64 0 0 0.

Definition padding_error {A} : b64_result A := Err NTB_BASE64_ERROR_INVALID_PADDING.

Fixpoint handle_padding (data : ntb_base64_data) (input : list Z) : b64_result ntb_base64_data :=
  match input with
  | [] => Ok data
  | c :: input =>
      if c =? c_eq then
        let data := B64 (b64_n_padding data + 1) (b64_n_chars data) (b64_value data) in
        if 2 <? b64_n_padding data then padding_error else handle_padding data input
      else if negb (alphabet_value c =? -1) then padding_error
      else handle_padding data input
  end.

(** [(data->value << 6) | ch_value] *)
Definition push_sextet (value s : Z) : Z := s32 (Z.lor (Z.shiftl value 6) s).

(** The [for] loop of [ntb_base64_decode]. *)
Fixpoint b64_decode_loop (data : ntb_base64_data) (input : list Z) :
    b64_result (ntb_base64_data * list Z) :=
  match input with
  | [] => Ok (data, [])
  | c :: rest =>
      let ch_value := alphabet_value c in
      if 0 <=? ch_value then
        let value := push_sextet (b64_value data) ch_value in
        let n_chars := b64_n_chars data + 1 in
        if 4 <=? n_chars then
          '(data, out) ← b64_decode_loop (B64 (b64_n_padding data) 0 value) rest;
          Ok (data, u8 (Z.shiftr value 16) :: u8 (Z.shiftr value 8) :: u8 value :: out)
        else b64_decode_loop (B64 (b64_n_padding data) n_chars value) rest
      else if c =? c_eq then
        data ← handle_padding data input;
        Ok (data, [])
      else b64_decode_loop data rest
  end.

Definition ntb_base64_decode (data : ntb_base64_data) (in_buffer : list Z) :
    b64_result (ntb_base64_data * list Z) :=
  if 0 <? b64_n_padding data then
    data ← handle_padding data in_buffer;
    Ok (data, [])
  else b64_decode_loop data in_buffer.

Definition ntb_base64_decode_end (data : ntb_base64_data) : b64_result (list Z) :=
  let value := b64_value data in
  if b64_n_padding data =? 0 then
    if negb (b64_n_chars data =? 0) then padding_error else Ok []
  else if b64_n_padding data =? 1 then
    if negb (b64_n_chars data =? 3) || negb (Z.land value 3 =? 0) then padding_error
    else Ok [u8 (Z.shiftr value 10); u8 (Z.shiftr value 2)]
  else if b64_n_padding data =? 2 then
    if negb (b64_n_chars data =? 2) || negb (Z.land value 15 =? 0) then padding_error
    else Ok [u8 (Z.shiftr value 4)]
  else UB.

Definition to_alphabet_value (value : Z) : Z :=
  if value <? 26 then value + 65
  else if value <? 52 then value - 26 + 97
  else if value <? 62 then value - 52 + 48
  else if value =? 62 then c_plus
  else c_slash.

Fixpoint ntb_base64_encode (data_in : list Z) : list Z :=
  match data_in with
  | d0 :: d1 :: d2 :: rest =>
      let value := Z.lor (Z.lor (Z.shiftl d0 16) (Z.shiftl d1 8)) d2 in
      to_alphabet_value (Z.shiftr value 18)
      :: to_alphabet_value (Z.land (Z.shiftr value 12) 63)
      :: to_alphabet_value (Z.land (Z.shiftr value 6) 63)
      :: to_alphabet_value (Z.land value 63)
      :: ntb_base64_encode rest
  | [d0; d1] =>
      let value := Z.lor (Z.shiftl d0 16) (Z.shiftl d1 8) in
      [to_alphabet_value (Z.shiftr value 18);
       to_alphabet_value (Z.land (Z.shiftr value 12) 63);
       to_alphabet_value (Z.land (Z.shiftr value 6) 63); c_eq]
  | [d0] =>
      let value := Z.shiftl d0 16 in
      [to_alphabet_value (Z.shiftr value 18);
       to_alphabet_value (Z.land (Z.shiftr value 12) 63); c_eq; c_eq]
  | [] => []
  end.

(** A text given in any number of pieces: the calls a client makes between
    [ntb_base64_decode_start] and [ntb_base64_decode_end]. *)
Fixpoint decode_pieces (data : ntb_base64_data) (pieces : list (list Z)) :
    b64_result (list Z) :=
  match pieces with
  | [] => ntb_base64_decode_end data
  | p :: pieces =>
      '(data, out) ← ntb_base64_decode data p;
      rest ← decode_pieces data pieces;
      Ok (out ++ rest)
  end.

(** Everything but the alphabet and the padding sign is skipped. *)
Definition significant (c : Z) : bool := (0 <=? alphabet_value c) || (c =? c_eq).

(** ** The alphabet *)

Lemma alphabet_value_range c : -1 <= alphabet_value c < 64.
Proof.
  unfold alphabet_value, c_slash, c_plus. repeat (case_bool; try lia).
Qed.

Lemma to_alphabet_value_value c :
  0 <= alphabet_value c -> to_alphabet_value (alphabet_value c) = c.
Proof.
  unfold alphabet_value, c_slash, c_plus, to_alphabet_value, c_plus, c_slash.
  repeat (case_bool; try lia).
Qed.

Lemma alphabet_value_to s :
  0 <= s < 64 -> alphabet_value (to_alphabet_value s) = s.
Proof.
  intros Hs. unfold to_alphabet_value, alphabet_value, c_plus, c_slash.
  destruct (Z.eqb_spec s 62); repeat (case_bool; try lia).
Qed.

Lemma to_alphabet_not_eq s : 0 <= s < 64 -> to_alphabet_value s <> c_eq.
Proof. unfold to_alphabet_value, c_eq, c_plus, c_slash. repeat (case_bool; try lia). Qed.

Lemma alphabet_value_eq : alphabet_value c_eq = -1.
Proof. reflexivity. Qed.

(** ** Bits *)

Lemma push_sextet_mod v s :
  0 <= s < 64 -> exists k, push_sextet v s = v * 64 + s + k * 4294967296.
Proof.
  intros Hs. unfold push_sextet. rewrite Z.shiftl_mul_pow2 by lia.
  rewrite lor_disjoint_add by lia. unfold s32. change (2 ^ 6) with 64.
  change (2 ^ 31) with 2147483648. change (2 ^ 32) with 4294967296.
  exists (- ((v * 64 + s + 2147483648) / 4294967296)).
  pose proof (Z.div_mod (v * 64 + s + 2147483648) 4294967296 ltac:(lia)). lia.
Qed.

Lemma u8_shiftr v n : 0 <= n -> u8 (Z.shiftr v n) = v / 2 ^ n mod 256.
Proof. intros. unfold u8. by rewrite Z.shiftr_div_pow2. Qed.

Lemma land_low v n k : 0 <= n -> k = 2 ^ n - 1 -> Z.land v k = v mod 2 ^ n.
Proof. intros ? ->. rewrite <- Z.land_ones, Z.ones_equiv by lia. done. Qed.

(** ** A text may be cut anywhere *)

Lemma handle_padding_app d a b :
  handle_padding d (a ++ b) = handle_padding d a ≫= fun d => handle_padding d b.
Proof.
  revert d. induction a as [|c a IH]; intros d; [done|]. cbn [app handle_padding].
  destruct (c =? c_eq); [destruct (2 <? _)|destruct (negb _)]; try done; apply IH.
Qed.

Lemma handle_padding_mono d a d' :
  handle_padding d a = Ok d' -> b64_n_padding d <= b64_n_padding d'.
Proof.
  revert d. induction a as [|c a IH]; intros d; cbn [handle_padding].
  - by intros [= ->].
  - destruct (c =? c_eq).
    + destruct (2 <? _); [done|]. intros Hd%IH. cbn [b64_n_padding] in Hd. lia.
    + destruct (negb _); [done|]. apply IH.
Qed.

Lemma handle_padding_eq d a d' :
  0 <= b64_n_padding d -> handle_padding d (c_eq :: a) = Ok d' -> 0 < b64_n_padding d'.
Proof.
  intros Hd. cbn [handle_padding]. rewrite Z.eqb_refl. destruct (2 <? _); [done|].
  intros Hp%handle_padding_mono. cbn [b64_n_padding] in Hp. lia.
Qed.

Lemma loop_app d a b :
  b64_n_padding d = 0 ->
  b64_decode_loop d (a ++ b) =
  '(d, o1) ← b64_decode_loop d a; '(d, o2) ← ntb_base64_decode d b; Ok (d, o1 ++ o2).
Proof.
  revert d. induction a as [|c a IH]; intros d Hd.
  - cbn [app b64_decode_loop]. rewrite bind_ret_l. unfold ntb_base64_decode. rewrite Hd.
    change (0 <? 0) with false. cbv iota.
    destruct (b64_decode_loop d b) as [[? ?]| | |]; done.
  - cbn [app b64_decode_loop]. destruct (0 <=? _).
    + destruct (4 <=? _); [|by apply IH]. rewrite IH by done. rewrite !bind_assoc.
      destruct (b64_decode_loop _ a) as [[d1 o1]| | |]; try done. rewrite !bind_ret_l.
      destruct (ntb_base64_decode d1 b) as [[d2 o2]| | |]; done.
    + destruct (Z.eqb_spec c c_eq) as [->|]; [|by apply IH].
      change (c_eq :: a ++ b) with ((c_eq :: a) ++ b). rewrite handle_padding_app, !bind_assoc.
      destruct (handle_padding d (c_eq :: a)) as [d1| | |] eqn:Hp; try done.
      rewrite !bind_ret_l. unfold ntb_base64_decode.
      apply handle_padding_eq in Hp; [|lia].
      destruct (Z.ltb_spec 0 (b64_n_padding d1)); [|lia].
      destruct (handle_padding d1 b); done.
Qed.

Lemma loop_padding d a d' o :
  0 <= b64_n_padding d -> b64_decode_loop d a = Ok (d', o) -> 0 <= b64_n_padding d'.
Proof.
  revert d o. induction a as [|c a IH]; intros d o Hd; cbn [b64_decode_loop].
  - by intros [= <- <-].
  - destruct (0 <=? alphabet_value c).
    + destruct (4 <=? _); [|by apply IH].
      intros ([d1 o1] & Hr & [= -> <-])%bind_Ok. by apply IH in Hr.
    + destruct (c =? c_eq); [|by apply IH].
      intros (d1 & Hr & [= -> <-])%bind_Ok. apply handle_padding_mono in Hr. lia.
Qed.

Lemma decode_padding d a d' o :
  0 <= b64_n_padding d -> ntb_base64_decode d a = Ok (d', o) -> 0 <= b64_n_padding d'.
Proof.
  intros Hd. unfold ntb_base64_decode. destruct (0 <? _); [|by apply loop_padding].
  intros (d1 & Hr & [= -> <-])%bind_Ok. apply handle_padding_mono in Hr. lia.
Qed.

Lemma decode_padded d t :
  0 < b64_n_padding d ->
  ntb_base64_decode d t = d ← handle_padding d t; Ok (d, []).
Proof. intros. unfold ntb_base64_decode. by destruct (Z.ltb_spec 0 (b64_n_padding d)); [|lia]. Qed.

Lemma decode_unpadded d t : b64_n_padding d = 0 -> ntb_base64_decode d t = b64_decode_loop d t.
Proof. intros Hd. unfold ntb_base64_decode. by rewrite Hd. Qed.

Lemma decode_app d a b :
  0 <= b64_n_padding d ->
  ntb_base64_decode d (a ++ b) =
  '(d, o1) ← ntb_base64_decode d a; '(d, o2) ← ntb_base64_decode d b; Ok (d, o1 ++ o2).
Proof.
  intros Hd. destruct (Z.ltb_spec 0 (b64_n_padding d)).
  - rewrite !(decode_padded d), handle_padding_app, !bind_assoc by done.
    destruct (handle_padding d a) as [d1| | |] eqn:Hp; try done. rewrite !bind_ret_l.
    apply handle_padding_mono in Hp. rewrite decode_padded by lia.
    by destruct (handle_padding d1 b).
  - rewrite !(decode_unpadded d) by lia. apply loop_app. lia.
Qed.

(** What the pieces decode to only depends on the text they form. *)
Lemma decode_pieces_concat d ps :
  0 <= b64_n_padding d ->
  decode_pieces d ps =
  '(d, o) ← ntb_base64_decode d (concat ps); e ← ntb_base64_decode_end d; Ok (o ++ e).
Proof.
  revert d. induction ps as [|p ps IH]; intros d Hd; cbn [decode_pieces concat].
  - unfold ntb_base64_decode. cbn [handle_padding b64_decode_loop].
    destruct (0 <? _); rewrite !bind_ret_l; by destruct (ntb_base64_decode_end d).
  - rewrite decode_app by done. rewrite !bind_assoc.
    destruct (ntb_base64_decode d p) as [[d1 o1]| | |] eqn:Hp; try done. rewrite !bind_ret_l.
    apply decode_padding in Hp; [|done]. rewrite IH by done. rewrite !bind_assoc.
    destruct (ntb_base64_decode d1 (concat ps)) as [[d2 o2]| | |]; try done.
    rewrite !bind_ret_l. destruct (ntb_base64_decode_end d2); try done.
    rewrite !bind_ret_l. by rewrite app_assoc.
Qed.

(** ** Everything outside the alphabet is skipped *)

Lemma significant_false c :
  significant c = false -> alphabet_value c = -1 /\ (c =? c_eq) = false.
Proof.
  unfold significant. pose proof (alphabet_value_range c).
  destruct (Z.leb_spec 0 (alphabet_value c)); [done|]. cbn [orb]. intros ->. split; [lia|done].
Qed.

Lemma handle_padding_filter d t :
  handle_padding d (List.filter significant t) = handle_padding d t.
Proof.
  revert d. induction t as [|c t IH]; intros d; [done|]. cbn [List.filter].
  destruct (significant c) eqn:Hc; cbn [handle_padding].
  - destruct (c =? c_eq); [destruct (2 <? _)|destruct (negb _)]; try done; apply IH.
  - apply significant_false in Hc as [-> ->]. cbn [negb Z.eqb]. apply IH.
Qed.

Lemma loop_filter d t :
  b64_decode_loop d (List.filter significant t) = b64_decode_loop d t.
Proof.
  revert d. induction t as [|c t IH]; intros d; [done|]. cbn [List.filter].
  destruct (significant c) eqn:Hc; cbn [b64_decode_loop].
  - rewrite !IH. pose proof (handle_padding_filter d (c :: t)) as Hp. cbn [List.filter] in Hp.
    rewrite Hc in Hp. by rewrite Hp.
  - apply significant_false in Hc as [-> ->]. cbn [Z.leb Z.compare]. apply IH.
Qed.

(** ** Groups of four characters *)

(** The three bytes four sextets stand for. *)
Definition triple (s0 s1 s2 s3 : Z) : list Z :=
  [s0 * 4 + s1 / 16; s1 mod 16 * 16 + s2 / 4; s2 mod 4 * 64 + s3].

Lemma loop_char_more n m v c t :
  0 <= alphabet_value c -> m = n + 1 -> m < 4 ->
  b64_decode_loop (B64 0 n v) (c :: t) =
  b64_decode_loop (B64 0 m (push_sextet v (alphabet_value c))) t.
Proof.
  intros Hc -> Hn. cbn [b64_decode_loop b64_n_padding b64_n_chars b64_value].
  destruct (Z.leb_spec 0 (alphabet_value c)); [|lia].
  by destruct (Z.leb_spec 4 (n + 1)); [lia|].
Qed.

Lemma loop_char_4th v c t :
  0 <= alphabet_value c ->
  b64_decode_loop (B64 0 3 v) (c :: t) =
  '(d, o) ← b64_decode_loop (B64 0 0 (push_sextet v (alphabet_value c))) t;
  Ok (d, u8 (Z.shiftr (push_sextet v (alphabet_value c)) 16)
         :: u8 (Z.shiftr (push_sextet v (alphabet_value c)) 8)
         :: u8 (push_sextet v (alphabet_value c)) :: o).
Proof.
  intros Hc. cbn [b64_decode_loop b64_n_padding b64_n_chars b64_value].
  by destruct (Z.leb_spec 0 (alphabet_value c)); [|lia].
Qed.

(** Reading four characters when no character is pending. *)
Lemma loop_quad v c0 c1 c2 c3 t :
  0 <= alphabet_value c0 -> 0 <= alphabet_value c1 ->
  0 <= alphabet_value c2 -> 0 <= alphabet_value c3 ->
  exists v', b64_decode_loop (B64 0 0 v) (c0 :: c1 :: c2 :: c3 :: t) =
    '(d, o) ← b64_decode_loop (B64 0 0 v') t;
    Ok (d, triple (alphabet_value c0) (alphabet_value c1) (alphabet_value c2)
             (alphabet_value c3) ++ o).
Proof.
  intros H0 H1 H2 H3. rewrite (loop_char_more 0 1), (loop_char_more 1 2), (loop_char_more 2 3),
    loop_char_4th by done.
  unfold triple. rewrite !u8_shiftr by lia. unfold u8.
  pose proof (alphabet_value_range c0). pose proof (alphabet_value_range c1).
  pose proof (alphabet_value_range c2). pose proof (alphabet_value_range c3).
  set (s0 := alphabet_value c0) in *. set (s1 := alphabet_value c1) in *.
  set (s2 := alphabet_value c2) in *. set (s3 := alphabet_value c3) in *.
  destruct (push_sextet_mod v s0) as [k0 E0]; [lia|].
  destruct (push_sextet_mod (push_sextet v s0) s1) as [k1 E1]; [lia|].
  destruct (push_sextet_mod (push_sextet (push_sextet v s0) s1) s2) as [k2 E2]; [lia|].
  destruct (push_sextet_mod (push_sextet (push_sextet (push_sextet v s0) s1) s2) s3)
    as [k3 E3]; [lia|].
  set (w := push_sextet _ s3) in *.
  assert (Hw : exists k, w = s0 * 262144 + s1 * 4096 + s2 * 64 + s3 + k * 16777216).
  { exists (v + 64 * 64 * 64 * k0 * 256 + 64 * 64 * k1 * 256 + 64 * k2 * 256 + k3 * 256). lia. }
  clear E0 E1 E2 E3. clearbody w s0 s1 s2 s3. destruct Hw as [k Hw].
  exists w. replace (w / 2 ^ 16 mod 256) with (s0 * 4 + s1 / 16) by dlia.
  replace (w / 2 ^ 8 mod 256) with (s1 mod 16 * 16 + s2 / 4) by dlia.
  replace (w mod 2 ^ 8) with (s2 mod 4 * 64 + s3) by dlia.
  reflexivity.
Qed.

Lemma triple_sextets a b c :
  is_byte a -> is_byte b -> is_byte c ->
  triple (a / 4) (a mod 4 * 16 + b / 16) (b mod 16 * 4 + c / 64) (c mod 64) = [a; b; c].
Proof. unfold is_byte, triple. intros. f_equal; [dlia|]. f_equal; [dlia|]. f_equal. dlia. Qed.

(** The encoder in terms of sextets. *)
Lemma encode_triple a b c l :
  is_byte a -> is_byte b -> is_byte c ->
  ntb_base64_encode (a :: b :: c :: l) =
  (to_alphabet_value <$> [a / 4; a mod 4 * 16 + b / 16; b mod 16 * 4 + c / 64; c mod 64])
    ++ ntb_base64_encode l.
Proof.
  unfold is_byte. intros. cbn [ntb_base64_encode fmap list_fmap app].
  rewrite !Z.shiftl_mul_pow2 by lia. rewrite (lor_byte_step a b 8 16) by (unfold is_byte; lia).
  rewrite lor_disjoint_add by lia. rewrite !(land_low _ 6 63), !Z.shiftr_div_pow2 by lia.
  f_equal; [f_equal; dlia|]. f_equal; [f_equal; dlia|]. f_equal; [f_equal; dlia|].
  f_equal. f_equal. dlia.
Qed.

Lemma encode_pair a b :
  is_byte a -> is_byte b ->
  ntb_base64_encode [a; b] =
  (to_alphabet_value <$> [a / 4; a mod 4 * 16 + b / 16; b mod 16 * 4]) ++ [c_eq].
Proof.
  unfold is_byte. intros. cbn [ntb_base64_encode fmap list_fmap app].
  rewrite !Z.shiftl_mul_pow2 by lia. rewrite (lor_byte_step a b 8 16) by (unfold is_byte; lia).
  rewrite !(land_low _ 6 63), !Z.shiftr_div_pow2 by lia.
  f_equal; [f_equal; dlia|]. f_equal; [f_equal; dlia|]. f_equal. f_equal. dlia.
Qed.

Lemma encode_single a :
  is_byte a ->
  ntb_base64_encode [a] = (to_alphabet_value <$> [a / 4; a mod 4 * 16]) ++ [c_eq; c_eq].
Proof.
  unfold is_byte. intros. cbn [ntb_base64_encode fmap list_fmap app].
  rewrite !Z.shiftl_mul_pow2 by lia. rewrite !(land_low _ 6 63), !Z.shiftr_div_pow2 by lia.
  f_equal; [f_equal; dlia|]. f_equal. f_equal. dlia.
Qed.

(** ** Decoding inverts encoding *)

Definition b64_run (v : Z) (t : list Z) : b64_result (list Z) :=
  decode_pieces (B64 0 0 v) [t].

Lemma run_unfold v t :
  b64_run v t = '(d, o) ← b64_decode_loop (B64 0 0 v) t; e ← ntb_base64_decode_end d; Ok (o ++ e).
Proof.
  unfold b64_run. rewrite decode_pieces_concat by done. cbn [concat].
  by rewrite app_nil_r, decode_unpadded.
Qed.

Lemma run_quad v c0 c1 c2 c3 t :
  0 <= alphabet_value c0 -> 0 <= alphabet_value c1 ->
  0 <= alphabet_value c2 -> 0 <= alphabet_value c3 ->
  exists v', b64_run v (c0 :: c1 :: c2 :: c3 :: t) =
    o ← b64_run v' t;
    Ok (triple (alphabet_value c0) (alphabet_value c1) (alphabet_value c2)
          (alphabet_value c3) ++ o).
Proof.
  intros H0 H1 H2 H3. destruct (loop_quad v c0 c1 c2 c3 t H0 H1 H2 H3) as [v' E].
  exists v'. rewrite !run_unfold, E, !bind_assoc.
  destruct (b64_decode_loop (B64 0 0 v') t) as [[d o]| | |]; try done. rewrite !bind_ret_l.
  by destruct (ntb_base64_decode_end d).
Qed.

(** The incomplete group before the padding. *)
Lemma run_pair v c0 c1 c2 :
  0 <= alphabet_value c0 -> 0 <= alphabet_value c1 -> 0 <= alphabet_value c2 ->
  b64_run v [c0; c1; c2; c_eq] =
  if alphabet_value c2 mod 4 =? 0 then
    Ok [alphabet_value c0 * 4 + alphabet_value c1 / 16;
        alphabet_value c1 mod 16 * 16 + alphabet_value c2 / 4]
  else padding_error.
Proof.
  intros H0 H1 H2. rewrite run_unfold.
  rewrite (loop_char_more 0 1), (loop_char_more 1 2), (loop_char_more 2 3) by done.
  pose proof (alphabet_value_range c0). pose proof (alphabet_value_range c1).
  pose proof (alphabet_value_range c2).
  set (s0 := alphabet_value c0) in *. set (s1 := alphabet_value c1) in *.
  set (s2 := alphabet_value c2) in *.
  destruct (push_sextet_mod v s0) as [k0 E0]; [lia|].
  destruct (push_sextet_mod (push_sextet v s0) s1) as [k1 E1]; [lia|].
  destruct (push_sextet_mod (push_sextet (push_sextet v s0) s1) s2) as [k2 E2]; [lia|].
  set (w := push_sextet _ s2) in *.
  assert (Hw : exists k, w = s0 * 4096 + s1 * 64 + s2 + k * 262144).
  { exists (v + 64 * 64 * k0 * 16384 + 64 * k1 * 16384 + k2 * 16384). lia. }
  clear E0 E1 E2. clearbody w s0 s1 s2. destruct Hw as [k Hw].
  change (b64_decode_loop (B64 0 3 w) [c_eq])
    with (Ok (B64 1 3 w, []) : b64_result (ntb_base64_data * list Z)).
  rewrite bind_ret_l. unfold ntb_base64_decode_end.
  cbn [b64_n_padding b64_n_chars b64_value Z.eqb Pos.eqb].
  rewrite (land_low w 2 3) by lia. change (2 ^ 2) with 4.
  replace (w mod 4) with (s2 mod 4) by dlia. destruct (Z.eqb_spec (s2 mod 4) 0); [|done].
  cbn [negb orb mbind result_bind app]. rewrite !u8_shiftr by lia. do 2 f_equal; [dlia|].
  f_equal. dlia.
Qed.

Lemma run_single v c0 c1 :
  0 <= alphabet_value c0 -> 0 <= alphabet_value c1 ->
  b64_run v [c0; c1; c_eq; c_eq] =
  if alphabet_value c1 mod 16 =? 0 then
    Ok [alphabet_value c0 * 4 + alphabet_value c1 / 16]
  else padding_error.
Proof.
  intros H0 H1. rewrite run_unfold.
  rewrite (loop_char_more 0 1), (loop_char_more 1 2) by done.
  pose proof (alphabet_value_range c0). pose proof (alphabet_value_range c1).
  set (s0 := alphabet_value c0) in *. set (s1 := alphabet_value c1) in *.
  destruct (push_sextet_mod v s0) as [k0 E0]; [lia|].
  destruct (push_sextet_mod (push_sextet v s0) s1) as [k1 E1]; [lia|].
  set (w := push_sextet _ s1) in *.
  assert (Hw : exists k, w = s0 * 64 + s1 + k * 4096).
  { exists (v + 64 * k0 * 1048576 + k1 * 1048576). lia. }
  clear E0 E1. clearbody w s0 s1. destruct Hw as [k Hw].
  change (b64_decode_loop (B64 0 2 w) [c_eq; c_eq])
    with (Ok (B64 2 2 w, []) : b64_result (ntb_base64_data * list Z)).
  rewrite bind_ret_l. unfold ntb_base64_decode_end.
  cbn [b64_n_padding b64_n_chars b64_value Z.eqb Pos.eqb].
  rewrite (land_low w 4 15) by lia. change (2 ^ 4) with 16.
  replace (w mod 16) with (s1 mod 16) by dlia. destruct (Z.eqb_spec (s1 mod 16) 0); [|done].
  cbn [negb orb mbind result_bind app]. rewrite !u8_shiftr by lia. do 2 f_equal. dlia.
Qed.

(** Three bytes at a time. *)
Lemma bytes_ind3 (P : list Z -> Prop) :
  P [] -> (forall a, P [a]) -> (forall a b, P [a; b]) ->
  (forall a b c l, P l -> P (a :: b :: c :: l)) -> forall l, P l.
Proof.
  intros P0 P1 P2 P3. fix IH 1. intros [|a [|b [|c l]]]; [done..|]. apply P3. apply IH.
Qed.

Lemma run_encode v l : bytes l -> b64_run v (ntb_base64_encode l) = Ok l.
Proof.
  revert v. induction l as [|a|a b|a b c l IH] using bytes_ind3; intros v Hl.
  - done.
  - apply bytes_singleton in Hl. rewrite encode_single by done. unfold is_byte in Hl.
    cbn [fmap list_fmap app]. rewrite run_single by (rewrite alphabet_value_to; dlia).
    rewrite !alphabet_value_to by dlia. rewrite Z.mod_mul by lia. cbn [Z.eqb].
    do 2 f_equal. dlia.
  - destruct_bytes. rewrite encode_pair by (unfold is_byte; lia).
    cbn [fmap list_fmap app]. rewrite run_pair by (rewrite alphabet_value_to; dlia).
    rewrite !alphabet_value_to by dlia. rewrite Z.mod_mul by lia. cbn [Z.eqb].
    f_equal. f_equal; [dlia|]. f_equal. dlia.
  - apply bytes_cons in Hl as [Ha Hl]. apply bytes_cons in Hl as [Hb Hl].
    apply bytes_cons in Hl as [Hc Hl]. rewrite encode_triple by done.
    pose proof (triple_sextets a b c Ha Hb Hc) as Ht. unfold is_byte in *.
    cbn [fmap list_fmap app].
    edestruct (run_quad v) as [v' ->]; [rewrite alphabet_value_to; dlia..|].
    rewrite !alphabet_value_to by dlia. by rewrite Ht, IH, bind_ret_l.
Qed.

(** ** Only encodings are accepted *)

Definition all_significant (t : list Z) : Prop := Forall (fun c => significant c = true) t.

Lemma significant_cases c :
  significant c = true -> 0 <= alphabet_value c \/ c = c_eq.
Proof.
  unfold significant. destruct (Z.leb_spec 0 (alphabet_value c)); [by left|].
  cbn [orb]. intros ->%Z.eqb_eq. by right.
Qed.

Lemma handle_padding_significant p n v t d :
  all_significant t -> handle_padding (B64 p n v) t = Ok d ->
  exists k, t = replicate k c_eq /\ d = B64 (p + Z.of_nat k) n v /\ (k = O \/ p + Z.of_nat k <= 2).
Proof.
  intros Ht. revert p. induction Ht as [|c t Hc Ht IH]; intros p; cbn [handle_padding].
  - intros [= <-]. exists O. split_and!; [done|f_equal; lia|by left].
  - destruct (significant_cases c Hc) as [Ha| ->].
    + destruct (Z.eqb_spec c c_eq) as [->|]; [rewrite alphabet_value_eq in Ha; lia|].
      destruct (Z.eqb_spec (alphabet_value c) (-1)); [lia|done].
    + rewrite Z.eqb_refl. cbn [b64_n_padding b64_n_chars b64_value].
      destruct (Z.ltb_spec 2 (p + 1)); [done|].
      intros (k & -> & -> & Hk)%IH. exists (S k). split_and!; [done|f_equal; lia|lia].
Qed.

Lemma padding_position n v t l :
  all_significant t ->
  ('(d, o) ← b64_decode_loop (B64 0 n v) (c_eq :: t); e ← ntb_base64_decode_end d; Ok (o ++ e))
    = Ok l ->
  n = 3 /\ t = [] \/ n = 2 /\ t = [c_eq].
Proof.
  intros Ht. cbn [b64_decode_loop]. rewrite alphabet_value_eq, Z.eqb_refl.
  change (0 <=? -1) with false. cbv iota. rewrite bind_assoc.
  destruct (handle_padding _ _) as [d| | |] eqn:Hp; try done. rewrite !bind_ret_l.
  apply handle_padding_significant in Hp as (k & Hk & -> & Hle);
    [|by constructor].
  destruct k as [|[|[|k]]]; [discriminate Hk| | |lia].
  - injection Hk as ->. unfold ntb_base64_decode_end. cbn -[Z.land].
    destruct (Z.eqb_spec n 3); [by left|done].
  - injection Hk as ->. unfold ntb_base64_decode_end. cbn -[Z.land].
    destruct (Z.eqb_spec n 2); [by right|done].
Qed.

Lemma encode_of_single s0 s1 :
  0 <= s0 < 64 -> 0 <= s1 < 64 -> s1 mod 16 = 0 ->
  ntb_base64_encode [s0 * 4 + s1 / 16] =
  [to_alphabet_value s0; to_alphabet_value s1; c_eq; c_eq].
Proof.
  intros. rewrite encode_single by (unfold is_byte; dlia). cbn [fmap list_fmap app].
  f_equal; [f_equal; dlia|]. f_equal. f_equal. dlia.
Qed.

Lemma encode_of_pair s0 s1 s2 :
  0 <= s0 < 64 -> 0 <= s1 < 64 -> 0 <= s2 < 64 -> s2 mod 4 = 0 ->
  ntb_base64_encode [s0 * 4 + s1 / 16; s1 mod 16 * 16 + s2 / 4] =
  [to_alphabet_value s0; to_alphabet_value s1; to_alphabet_value s2; c_eq].
Proof.
  intros. rewrite encode_pair by (unfold is_byte; dlia). cbn [fmap list_fmap app].
  f_equal; [f_equal; dlia|]. f_equal; [f_equal; dlia|]. f_equal. f_equal. dlia.
Qed.

Lemma encode_of_triple s0 s1 s2 s3 l :
  0 <= s0 < 64 -> 0 <= s1 < 64 -> 0 <= s2 < 64 -> 0 <= s3 < 64 ->
  ntb_base64_encode (triple s0 s1 s2 s3 ++ l) =
  to_alphabet_value s0 :: to_alphabet_value s1 :: to_alphabet_value s2 :: to_alphabet_value s3
  :: ntb_base64_encode l.
Proof.
  intros. unfold triple. cbn [app]. rewrite encode_triple by (unfold is_byte; dlia).
  cbn [fmap list_fmap app].
  f_equal; [f_equal; dlia|]. f_equal; [f_equal; dlia|]. f_equal; [f_equal; dlia|].
  f_equal. f_equal. dlia.
Qed.

Lemma bytes_triple s0 s1 s2 s3 :
  0 <= s0 < 64 -> 0 <= s1 < 64 -> 0 <= s2 < 64 -> 0 <= s3 < 64 -> bytes (triple s0 s1 s2 s3).
Proof. intros. repeat constructor; unfold is_byte; dlia. Qed.

(** Consume a character that is in the alphabet, or find the padding misplaced. *)
Ltac sextet Hc :=
  let Ha := fresh "Ha" in
  destruct (significant_cases _ Hc) as [Ha| ->];
  [let Hr := fresh "Hr" in
   match type of Ha with 0 <= alphabet_value ?c => pose proof (alphabet_value_range c) as Hr end|].

Lemma run_Ok_encode t : forall v l,
  all_significant t -> b64_run v t = Ok l -> bytes l /\ t = ntb_base64_encode l.
Proof.
  remember (length t) as n eqn:Hn. revert t Hn.
  induction (lt_wf n) as [n _ IH]. intros t -> v l Ht Hr. pose proof Hr as Hr'.
  rewrite run_unfold in Hr'.
  destruct t as [|c0 t]; [injection Hr' as <-; by split; [constructor|]|].
  apply Forall_cons in Ht as [H0 Ht]. sextet H0;
    [|by apply padding_position in Hr' as [[? ?]|[? ?]]].
  rewrite (loop_char_more 0 1) in Hr' by done.
  destruct t as [|c1 t]; [discriminate Hr'|].
  apply Forall_cons in Ht as [H1 Ht]. sextet H1;
    [|by apply padding_position in Hr' as [[? ?]|[? ?]]].
  rewrite (loop_char_more 1 2) in Hr' by done.
  destruct t as [|c2 t]; [discriminate Hr'|].
  apply Forall_cons in Ht as [H2 Ht]. sextet H2.
  2: { apply padding_position in Hr' as [[? ?]|[? ->]]; [done| |done].
       rewrite run_single in Hr by done. destruct (Z.eqb_spec (alphabet_value c1 mod 16) 0); [|done].
       injection Hr as <-. rewrite encode_of_single, !to_alphabet_value_value by lia.
       split; [apply bytes_singleton; unfold is_byte; dlia|done]. }
  rewrite (loop_char_more 2 3) in Hr' by done.
  destruct t as [|c3 t]; [discriminate Hr'|].
  apply Forall_cons in Ht as [H3 Ht]. sextet H3.
  2: { apply padding_position in Hr' as [[? ->]|[? ?]]; [|done..].
       rewrite run_pair in Hr by done. destruct (Z.eqb_spec (alphabet_value c2 mod 4) 0); [|done].
       injection Hr as <-. rewrite encode_of_pair, !to_alphabet_value_value by lia.
       split; [|done]. repeat constructor; unfold is_byte; dlia. }
  destruct (run_quad v c0 c1 c2 c3 t Ha Ha0 Ha1 Ha2) as [v' E]. rewrite E in Hr.
  apply bind_Ok in Hr as (o & Ho & Hr).
  apply (f_equal (fun r => match r with Ok x => x | _ => [] end)) in Hr. cbv iota in Hr. subst l.
  destruct (IH (length t) ltac:(cbn; lia) t eq_refl v' o Ht Ho) as [Hb Et].
  rewrite encode_of_triple, !to_alphabet_value_value, <- Et by lia.
  split; [|done]. apply bytes_app. split; [apply bytes_triple; lia|done].
Qed.

(** Each call stores at most three bytes for every four characters it has seen. *)
Lemma loop_output_bound d t d' o :
  0 <= b64_n_chars d < 4 -> b64_decode_loop d t = Ok (d', o) ->
  zlen o <= 3 * ((b64_n_chars d + zlen t) / 4) /\ bytes o.
Proof.
  revert d o. induction t as [|c t IH]; intros [p n v] o; cbn [b64_n_chars b64_decode_loop
    b64_n_padding b64_value]; intros Hn.
  - intros [= <- <-]. rewrite !zlen_nil. split; [dlia|constructor].
  - rewrite zlen_cons. destruct (0 <=? alphabet_value c).
    + destruct (Z.leb_spec 4 (n + 1)).
      * intros ([d1 o1] & Hr & [= -> <-])%bind_Ok. apply IH in Hr as [Hl Hb]; [|cbn; lia].
        cbn [b64_n_chars] in Hl. rewrite !zlen_cons.
        replace (n + (1 + zlen t)) with (0 + zlen t + 1 * 4) by lia. rewrite Z.div_add by lia.
        split; [lia|]. repeat (apply bytes_cons; split; [apply is_byte_u8|]). done.
      * intros Hr%IH; [|cbn; lia]. cbn [b64_n_chars] in Hr.
        by replace (n + (1 + zlen t)) with (n + 1 + zlen t) by lia.
    + destruct (c =? c_eq).
      * intros (d1 & Hr & [= -> <-])%bind_Ok. rewrite zlen_nil. split; [|constructor].
        pose proof (zlen_nonneg t). pose proof (Z.div_pos (n + (1 + zlen t)) 4). lia.
      * intros [Hl Hb]%IH; [|cbn; lia]. cbn [b64_n_chars] in Hl. split; [|done].
        etrans; [exact Hl|]. apply Z.mul_le_mono_nonneg_l; [lia|]. apply Z.div_le_mono; lia.
Qed.

(** The state every call leaves behind. *)
Definition b64_wf (d : ntb_base64_data) : Prop :=
  0 <= b64_n_padding d <= 2 /\ 0 <= b64_n_chars d < 4.

#[global] Instance b64_wf_dec d : Decision (b64_wf d).
Proof. unfold b64_wf. apply _. Defined.

Lemma handle_padding_wf d t d' : b64_wf d -> handle_padding d t = Ok d' -> b64_wf d'.
Proof.
  revert d. induction t as [|c t IH]; intros d Hd; cbn [handle_padding]; [by intros [= <-]|].
  destruct (c =? c_eq).
  - destruct (Z.ltb_spec 2 (b64_n_padding (B64 (b64_n_padding d + 1) (b64_n_chars d) (b64_value d))))
      as [|Hle]; [done|]. apply IH. unfold b64_wf in *. cbn [b64_n_padding b64_n_chars] in *. lia.
  - destruct (negb _); [done|]. by apply IH.
Qed.

Lemma loop_wf d t d' o : b64_wf d -> b64_decode_loop d t = Ok (d', o) -> b64_wf d'.
Proof.
  revert d o. induction t as [|c t IH]; intros d o Hd; cbn [b64_decode_loop]; [by intros [= <- _]|].
  unfold b64_wf in Hd. destruct (0 <=? alphabet_value c).
  - destruct (Z.leb_spec 4 (b64_n_chars d + 1)).
    + intros ([d1 o1] & Hr & [= -> _])%bind_Ok. apply IH in Hr; [done|]. by split; cbn; lia.
    + apply IH. split; cbn; lia.
  - destruct (c =? c_eq); [|by apply IH].
    intros (d1 & Hr & [= -> _])%bind_Ok. by apply handle_padding_wf in Hr.
Qed.

Lemma handle_padding_defined d t : defined (handle_padding d t).
Proof.
  revert d. induction t as [|c t IH]; intros d; cbn [handle_padding]; [done|].
  destruct (c =? c_eq); [destruct (2 <? _)|destruct (negb _)]; done.
Qed.

Lemma loop_defined d t : defined (b64_decode_loop d t).
Proof.
  revert d. induction t as [|c t IH]; intros d; cbn [b64_decode_loop]; [done|].
  destruct (0 <=? _); [destruct (4 <=? _)|destruct (c =? c_eq)]; try done.
  - apply bind_defined; [done|]. by intros [? ?] _.
  - apply bind_defined; [apply handle_padding_defined|done].
Qed.

Lemma decode_total d t :
  b64_wf d ->
  match ntb_base64_decode d t with
  | Ok (d', out) => b64_wf d' /\ bytes out /\ zlen out <= 3 * ((b64_n_chars d + zlen t) / 4)
  | Err _ => True
  | UB | OutOfFuel => False
  end.
Proof.
  intros Hd. unfold ntb_base64_decode. destruct (0 <? _).
  - pose proof (handle_padding_defined d t).
    destruct (handle_padding d t) as [d'| | |] eqn:Hp; try done. rewrite bind_ret_l.
    split_and!; [by apply handle_padding_wf in Hp|constructor|].
    rewrite zlen_nil. unfold b64_wf in Hd. pose proof (zlen_nonneg t).
    pose proof (Z.div_pos (b64_n_chars d + zlen t) 4). lia.
  - pose proof (loop_defined d t).
    destruct (b64_decode_loop d t) as [[d' o]| | |] eqn:Hp; try done.
    split; [by apply loop_wf in Hp|]. apply loop_output_bound in Hp as [? ?]; [done|apply Hd].
Qed.

Lemma decode_pieces_spec ps l :
  decode_pieces ntb_base64_decode_start ps = Ok l <->
  bytes l /\ List.filter significant (concat ps) = ntb_base64_encode l.
Proof.
  assert (E : decode_pieces ntb_base64_decode_start ps
              = b64_run 0 (List.filter significant (concat ps))).
  { rewrite run_unfold, loop_filter, decode_pieces_concat by done.
    by rewrite decode_unpadded. }
  rewrite E. split.
  - intros Hr. apply run_Ok_encode in Hr; [done|]. apply List.Forall_forall.
    intros c [_ Hc]%filter_In. done.
  - intros [Hl ->]. by apply run_encode.
Qed.

(** ** Properties *)

(** C33: however a text is cut into pieces, decoding it gives the bytes [l] exactly
    when the text, with everything outside the alphabet and the padding sign left
    out, is the encoding of [l]. So decoding inverts encoding, accepts line breaks
    and other junk anywhere, and rejects every wrong padding and every non-zero
    trailing bit. *)
Theorem base64_decode_iff_encoding ps l :
  decode_pieces ntb_base64_decode_start ps = Ok l <->
  bytes l /\ List.filter significant (concat ps) = ntb_base64_encode l.
Proof. apply decode_pieces_spec. Qed.

(** Every call of the decoder in a state an earlier call left behind keeps the
    state within its ranges and stores at most three bytes for every four
    characters counted from the pending ones, and the final call never reaches the
    [assert(false)] of [ntb_base64_decode_end]. *)
Theorem base64_decode_bounds d t :
  b64_wf d ->
  match ntb_base64_decode d t with
  | Ok (d', out) =>
      b64_wf d' /\ bytes out /\ zlen out <= 3 * ((b64_n_chars d + zlen t) / 4) /\
      match ntb_base64_decode_end d' with
      | Ok tail => zlen tail <= 2
      | Err _ => True
      | UB | OutOfFuel => False
      end
  | Err _ => True
  | UB | OutOfFuel => False
  end.
Proof.
  intros Hd. pose proof (decode_total d t Hd) as Ht.
  destruct (ntb_base64_decode d t) as [[d' o]| | |]; try done.
  destruct Ht as (Hw & Hb & Hl). split_and!; try done. destruct Hw as [Hp _].
  unfold ntb_base64_decode_end. repeat (case_bool; cbn [negb orb]; try done; try lia).
Qed.

Lemma base64_decode_bounds_witness :
  b64_wf (B64 0 3 5) /\
  match ntb_base64_decode (B64 0 3 5) (str_bytes "Zm9v=") with
  | Ok (d', out) =>
      b64_wf d' /\ bytes out /\ zlen out <= 3 * ((3 + 5) / 4) /\
      match ntb_base64_decode_end d' with
      | Ok tail => zlen tail <= 2
      | Err _ => True
      | UB | OutOfFuel => False
      end
  | Err _ => True
  | UB | OutOfFuel => False
  end.
Proof.
  assert (H : b64_wf (B64 0 3 5)) by (apply (bool_decide_unpack _); vm_compute; exact I).
  split; [exact H|]. exact (base64_decode_bounds (B64 0 3 5) (str_bytes "Zm9v=") H).
Defined.

(** The bound [NTB_BASE64_MAX_INPUT_FOR_SIZE] computes is right for a fresh
    decoder only: with three characters pending one byte more is stored. *)
Lemma max_input_exceeded :
  exists d t, b64_wf d /\ zlen t = NTB_BASE64_MAX_INPUT_FOR_SIZE 512 /\
    match ntb_base64_decode d t with Ok (_, out) => zlen out = 513 | _ => False end.
Proof.
  exists (B64 0 3 0), (replicate 682 65).
  split_and!; [apply (bool_decide_unpack _); vm_compute; exact I|reflexivity|].
  vm_compute. reflexivity.
Qed.
