(* ===== verification/QuotedPrintable.v ===== *)
(** * QuotedPrintable: the streaming quoted-printable decoder
      (ntb-quoted-printable.c, ntb-quoted-printable.h)

    Each handler of the state machine returns the new state, the bytes it stores
    through [data->out] and the number of input bytes it processed; the main loop
    runs them on what is left of the input. The language the decoder accepts is
    specified by the relation [qp_text], without states. *)

From S2P Require Import Prelude Endian.

Inductive ntb_quoted_printable_error := NTB_QUOTED_PRINTABLE_ERROR_INVALID_ESCAPE.

Inductive ntb_quoted_printable_state :=
| NTB_QUOTED_PRINTABLE_STATE_OCTET
| NTB_QUOTED_PRINTABLE_STATE_QUOTE_START
| NTB_QUOTED_PRINTABLE_STATE_SKIP_SPACES
| NTB_QUOTED_PRINTABLE_STATE_SOFT_CR
| NTB_QUOTED_PRINTABLE_STATE_ESCAPED_OCTET.

#[global] Instance qp_state_eq_dec : EqDecision ntb_quoted_printable_state.
Proof. solve_decision. Defined.

Record ntb_quoted_printable_data := QP {
  qp_state : ntb_quoted_printable_state;
  qp_nibble : Z;
  qp_underscore_is_space : bool
}.

Abbreviation qp_result := (result ntb_quoted_printable_error).

Definition qp_set_state (s : ntb_quoted_printable_state) (data : ntb_quoted_printable_data) :=
  QP s (qp_nibble data) (qp_underscore_is_space data).

(** The nibble is left uninitialised; it is written before every read. *)
Definition ntb_quoted_printable_decode_start (underscore_is_space : bool) :=
  QP NTB_QUOTED_PRINTABLE_STATE_OCTET 0 underscore_is_space.

Definition hex_value (ch : Z) : Z :=
  if ch <=? 57 then
    if ch <? 48 then -1 else ch - 48
  else if ch <=? 70 then
    if ch <? 65 then -1 else ch - 65 + 10
  else if ch <=? 102 then
    if ch <? 97 then -1 else ch - 97 + 10
  else -1.

Definition invalid_escape_error {A} : qp_result A := Err NTB_QUOTED_PRINTABLE_ERROR_INVALID_ESCAPE.

Definition output_octet (underscore_is_space : bool) (c : Z) : Z :=
  if underscore_is_space && (c =? 95) then 32 else c.

Definition output_octets (data : ntb_quoted_printable_data) (octets : list Z) : list Z :=
  output_octet (qp_underscore_is_space data) <$> octets.

(** [memchr(in, c, length)] as the offset of the first match *)
Fixpoint find_byte (c : Z) (l : list Z) : option nat :=
  match l with
  | [] => None
  | x :: l => if x =? c then Some O else S <$> find_byte c l
  end.

(** What a handler returns: the state, the bytes stored, the bytes processed. *)
Abbreviation handled := (ntb_quoted_printable_data * list Z * nat)%type.

Definition handle_octet (data : ntb_quoted_printable_data) (in_buffer : list Z) :
    qp_result handled :=
  match find_byte 61 in_buffer with
  | None => Ok (data, output_octets data in_buffer, length in_buffer)
  | Some equals =>
      Ok (qp_set_state NTB_QUOTED_PRINTABLE_STATE_QUOTE_START data,
          output_octets data (take equals in_buffer), (equals + 1)%nat)
  end.

Definition handle_quote_start (data : ntb_quoted_printable_data) (in_buffer : list Z) :
    qp_result handled :=
  c ← deref in_buffer;
  let nibble := hex_value c in
  if 0 <=? nibble then
    Ok (QP NTB_QUOTED_PRINTABLE_STATE_ESCAPED_OCTET nibble (qp_underscore_is_space data), [], 1%nat)
  else if (c =? 32) || (c =? 9) then
    Ok (qp_set_state NTB_QUOTED_PRINTABLE_STATE_SKIP_SPACES data, [], 1%nat)
  else if c =? 13 then Ok (qp_set_state NTB_QUOTED_PRINTABLE_STATE_SOFT_CR data, [], 1%nat)
  else if c =? 10 then Ok (qp_set_state NTB_QUOTED_PRINTABLE_STATE_OCTET data, [], 1%nat)
  else invalid_escape_error.

(** [in] is what remains from [in_buffer + skip] on. *)
Fixpoint skip_spaces_loop (data : ntb_quoted_printable_data) (input : list Z) (skip : nat) :
    qp_result handled :=
  match input with
  | [] => Ok (data, [], skip)
  | c :: input =>
      if (c =? 32) || (c =? 9) then skip_spaces_loop data input (skip + 1)
      else if c =? 13 then
        Ok (qp_set_state NTB_QUOTED_PRINTABLE_STATE_SOFT_CR data, [], (skip + 1)%nat)
      else if c =? 10 then
        Ok (qp_set_state NTB_QUOTED_PRINTABLE_STATE_OCTET data, [], (skip + 1)%nat)
      else invalid_escape_error
  end.

Definition handle_skip_spaces (data : ntb_quoted_printable_data) (in_buffer : list Z) :
    qp_result handled :=
  skip_spaces_loop data in_buffer 0.

Definition handle_soft_cr (data : ntb_quoted_printable_data) (in_buffer : list Z) :
    qp_result handled :=
  c ← deref in_buffer;
  if negb (c =? 10) then invalid_escape_error
  else Ok (qp_set_state NTB_QUOTED_PRINTABLE_STATE_OCTET data, [], 1%nat).

Definition handle_escaped_octet (data : ntb_quoted_printable_data) (in_buffer : list Z) :
    qp_result handled :=
  c ← deref in_buffer;
  let nibble := hex_value c in
  if nibble =? -1 then invalid_escape_error
  else Ok (qp_set_state NTB_QUOTED_PRINTABLE_STATE_OCTET data,
           [u8 (Z.lor (Z.shiftl (qp_nibble data) 4) nibble)], 1%nat).

Definition qp_handle (data : ntb_quoted_printable_data) (in_buffer : list Z) : qp_result handled :=
  match qp_state data with
  | NTB_QUOTED_PRINTABLE_STATE_OCTET => handle_octet data in_buffer
  | NTB_QUOTED_PRINTABLE_STATE_QUOTE_START => handle_quote_start data in_buffer
  | NTB_QUOTED_PRINTABLE_STATE_SKIP_SPACES => handle_skip_spaces data in_buffer
  | NTB_QUOTED_PRINTABLE_STATE_SOFT_CR => handle_soft_cr data in_buffer
  | NTB_QUOTED_PRINTABLE_STATE_ESCAPED_OCTET => handle_escaped_octet data in_buffer
  end.

(** [while (length > 0)]: every iteration processes at least one byte, so the
    length of the input is fuel enough. *)
Fixpoint qp_loop (fuel : nat) (data : ntb_quoted_printable_data) (input : list Z) :
    qp_result (ntb_quoted_printable_data * list Z) :=
  match input with
  | [] => Ok (data, [])
  | _ :: _ =>
      match fuel with
      | O => OutOfFuel
      | S fuel =>
          '(data, out, processed) ← qp_handle data input;
          '(data, out') ← qp_loop fuel data (drop processed input);
          Ok (data, out ++ out')
      end
  end.

Definition ntb_quoted_printable_decode (data : ntb_quoted_printable_data) (in_buffer : list Z) :
    qp_result (ntb_quoted_printable_data * list Z) :=
  qp_loop (length in_buffer) data in_buffer.

Definition ntb_quoted_printable_decode_end (data : ntb_quoted_printable_data) : qp_result unit :=
  if decide (qp_state data <> NTB_QUOTED_PRINTABLE_STATE_OCTET) then invalid_escape_error
  else Ok tt.

(** The calls a client makes for a text that arrives in pieces. *)
Fixpoint qp_decode_pieces (data : ntb_quoted_printable_data) (pieces : list (list Z)) :
    qp_result (list Z) :=
  match pieces with
  | [] => ntb_quoted_printable_decode_end data;; Ok []
  | p :: pieces =>
      '(data, out) ← ntb_quoted_printable_decode data p;
      rest ← qp_decode_pieces data pieces;
      Ok (out ++ rest)
  end.

(** ** Specification *)

Definition is_blank (c : Z) : Prop := c = 32 \/ c = 9.

(** [qp_text u t l]: the text [t] stands for the bytes [l]; [u] tells whether an
    underscore stands for a space. *)
Inductive qp_text (u : bool) : list Z -> list Z -> Prop :=
| qp_nil : qp_text u [] []
| qp_literal c t l :
    c <> 61 -> qp_text u t l -> qp_text u (c :: t) (output_octet u c :: l)
| qp_escape h1 h2 t l :
    0 <= hex_value h1 -> 0 <= hex_value h2 -> qp_text u t l ->
    qp_text u (61 :: h1 :: h2 :: t) (hex_value h1 * 16 + hex_value h2 :: l)
| qp_soft_break blanks cr t l :
    Forall is_blank blanks -> cr = [] \/ cr = [13] -> qp_text u t l ->
    qp_text u (61 :: blanks ++ cr ++ 10 :: t) l.

(** ** The state machine one byte at a time *)

Definition qp_step (d : ntb_quoted_printable_data) (c : Z) :
    qp_result (ntb_quoted_printable_data * list Z) :=
  '(d, o, _) ← qp_handle d [c]; Ok (d, o).

Fixpoint qp_steps (d : ntb_quoted_printable_data) (t : list Z) :
    qp_result (ntb_quoted_printable_data * list Z) :=
  match t with
  | [] => Ok (d, [])
  | c :: t => '(d, o) ← qp_step d c; '(d, o') ← qp_steps d t; Ok (d, o ++ o')
  end.

Lemma qp_steps_app d a b :
  qp_steps d (a ++ b) =
  '(d, o1) ← qp_steps d a; '(d, o2) ← qp_steps d b; Ok (d, o1 ++ o2).
Proof.
  revert d. induction a as [|c a IH]; intros d; cbn [app qp_steps].
  - rewrite bind_ret_l. by destruct (qp_steps d b) as [[? ?]| | |].
  - rewrite !bind_assoc. destruct (qp_step d c) as [[d1 o1]| | |]; try done. rewrite !bind_ret_l.
    rewrite IH, !bind_assoc. destruct (qp_steps d1 a) as [[d2 o2]| | |]; try done.
    rewrite !bind_ret_l. destruct (qp_steps d2 b) as [[d3 o3]| | |]; try done.
    rewrite !bind_ret_l. by rewrite app_assoc.
Qed.

Lemma qp_step_literal d c :
  qp_state d = NTB_QUOTED_PRINTABLE_STATE_OCTET -> c <> 61 ->
  qp_step d c = Ok (d, [output_octet (qp_underscore_is_space d) c]).
Proof.
  intros Hd Hc. unfold qp_step, qp_handle, handle_octet. rewrite Hd. cbn [find_byte].
  by destruct (Z.eqb_spec c 61).
Qed.

Lemma qp_step_equals d :
  qp_state d = NTB_QUOTED_PRINTABLE_STATE_OCTET ->
  qp_step d 61 = Ok (qp_set_state NTB_QUOTED_PRINTABLE_STATE_QUOTE_START d, []).
Proof. intros Hd. unfold qp_step, qp_handle, handle_octet. by rewrite Hd. Qed.

Lemma qp_steps_literals d t :
  qp_state d = NTB_QUOTED_PRINTABLE_STATE_OCTET -> Forall (fun c => c <> 61) t ->
  qp_steps d t = Ok (d, output_octets d t).
Proof.
  intros Hd. induction 1 as [|c t Hc _ IH]; [done|]. cbn [qp_steps].
  by rewrite qp_step_literal, bind_ret_l, IH.
Qed.

Lemma find_byte_None c t : find_byte c t = None -> Forall (fun x => x <> c) t.
Proof.
  induction t as [|x t IH]; cbn [find_byte]; [constructor|].
  destruct (Z.eqb_spec x c); [done|]. destruct (find_byte c t); [done|]. constructor; auto.
Qed.

Lemma find_byte_Some c t n :
  find_byte c t = Some n ->
  Forall (fun x => x <> c) (take n t) /\ t = take n t ++ c :: drop (S n) t.
Proof.
  revert n. induction t as [|x t IH]; intros n; cbn [find_byte]; [done|].
  destruct (Z.eqb_spec x c) as [->|].
  - by intros [= <-].
  - intros (m & Hm & ->)%fmap_Some. destruct (IH m Hm) as [Hf Ht]. cbn [take].
    split; [by constructor|]. cbn [drop app]. by f_equal.
Qed.

(** A handler does on its input what the single steps do on the bytes it reports
    as processed, and fails only where they fail. *)
Definition handles (d : ntb_quoted_printable_data) (t : list Z) (r : qp_result handled) : Prop :=
  match r with
  | Ok (d', o, n) => (0 < n <= length t)%nat /\ qp_steps d (take n t) = Ok (d', o)
  | Err e => qp_steps d t = Err e
  | UB | OutOfFuel => False
  end.

Lemma handle_octet_handles d t :
  t <> [] -> qp_state d = NTB_QUOTED_PRINTABLE_STATE_OCTET -> handles d t (handle_octet d t).
Proof.
  intros Ht Hd. unfold handle_octet. destruct (find_byte 61 t) as [n|] eqn:Hf; cbn [handles].
  - apply find_byte_Some in Hf as [Hl E]. 
    assert (length t = n + 1 + length (drop (S n) t) /\ length (take n t) = n)%nat as [Hn Htn].
    { apply (f_equal length) in E. rewrite length_app in E. cbn [length] in E.
      rewrite length_take, length_drop in *. lia. }
    split; [lia|]. rewrite E at 1. rewrite take_app_ge, Htn by lia.
    replace (n + 1 - n)%nat with 1%nat by lia. cbn [take]. rewrite qp_steps_app.
    rewrite qp_steps_literals, bind_ret_l by done. cbn [qp_steps].
    rewrite qp_step_equals, bind_ret_l, take_0 by done. cbn [qp_steps]. rewrite !bind_ret_l.
    cbn [app]. by rewrite app_nil_r.
  - split; [destruct t; [done|cbn; lia]|]. rewrite firstn_all.
    by apply qp_steps_literals; [|apply find_byte_None].
Qed.

(** The other handlers but [handle_skip_spaces] look at one byte. *)
Lemma handle_first d c t :
  qp_state d <> NTB_QUOTED_PRINTABLE_STATE_OCTET ->
  qp_state d <> NTB_QUOTED_PRINTABLE_STATE_SKIP_SPACES ->
  handles d (c :: t) (qp_handle d (c :: t)).
Proof.
  intros Ho Hs.
  assert (E : qp_handle d (c :: t) = qp_handle d [c] /\
              match qp_handle d [c] with
              | Ok (_, _, n) => n = 1%nat | Err _ => True | UB | OutOfFuel => False
              end).
  { unfold qp_handle. destruct (qp_state d); try done; split; try done.
    - unfold handle_quote_start. cbn [deref]. rewrite bind_ret_l. by repeat case_bool.
    - unfold handle_soft_cr. cbn [deref]. rewrite bind_ret_l. by repeat case_bool.
    - unfold handle_escaped_octet. cbn [deref]. rewrite bind_ret_l. by repeat case_bool. }
  destruct E as [-> E]. unfold handles. cbn [qp_steps]. unfold qp_step.
  destruct (qp_handle d [c]) as [[[d' o] n]|e| |] eqn:H1; try done. subst n.
  split; [cbn; lia|]. cbn [take qp_steps]. unfold qp_step. rewrite H1, !bind_ret_l, take_0.
  cbn [qp_steps]. rewrite bind_ret_l. by rewrite app_nil_r.
Qed.

Lemma qp_step_skip d c :
  qp_state d = NTB_QUOTED_PRINTABLE_STATE_SKIP_SPACES ->
  qp_step d c =
  if (c =? 32) || (c =? 9) then Ok (d, [])
  else if c =? 13 then Ok (qp_set_state NTB_QUOTED_PRINTABLE_STATE_SOFT_CR d, [])
  else if c =? 10 then Ok (qp_set_state NTB_QUOTED_PRINTABLE_STATE_OCTET d, [])
  else invalid_escape_error.
Proof.
  intros Hd. unfold qp_step, qp_handle, handle_skip_spaces. rewrite Hd. cbn [skip_spaces_loop].
  destruct ((c =? 32) || (c =? 9)); [done|]. destruct (c =? 13); [done|]. by destruct (c =? 10).
Qed.

Lemma skip_spaces_handles d t k :
  qp_state d = NTB_QUOTED_PRINTABLE_STATE_SKIP_SPACES ->
  match skip_spaces_loop d t k with
  | Ok (d', o, n) =>
      (k <= n <= k + length t)%nat /\ (t <> [] -> k < n)%nat /\
      qp_steps d (take (n - k) t) = Ok (d', o)
  | Err e => qp_steps d t = Err e
  | UB | OutOfFuel => False
  end.
Proof.
  intros Hd. revert k. induction t as [|c t IH]; intros k; cbn [skip_spaces_loop qp_steps length].
  - split_and!; [lia|lia|done|]. by rewrite Nat.sub_diag.
  - rewrite qp_step_skip by done. destruct ((c =? 32) || (c =? 9)) eqn:Hb.
    + specialize (IH (k + 1)%nat). rewrite bind_ret_l.
      destruct (skip_spaces_loop d t (k + 1)) as [[[d' o] n]|e| |]; try done.
      * destruct IH as (Hn & _ & Hr). split_and!; [lia|lia|intros _; lia|].
        replace (n - k)%nat with (S (n - (k + 1))) by lia. cbn [take qp_steps].
        by rewrite qp_step_skip, Hb, bind_ret_l, Hr.
      * by rewrite IH.
    + destruct (c =? 13) eqn:H13; [|destruct (c =? 10) eqn:H10; [|done]].
      all: split_and!; [lia|lia|intros _; lia|].
      all: replace (k + 1 - k)%nat with 1%nat by lia; cbn [take qp_steps]; rewrite take_0.
      all: rewrite qp_step_skip, Hb by done; by rewrite H13, ?H10.
Qed.

Lemma qp_handle_handles d t : t <> [] -> handles d t (qp_handle d t).
Proof.
  intros Ht. destruct (decide (qp_state d = NTB_QUOTED_PRINTABLE_STATE_OCTET)) as [Hd|Ho].
  { unfold qp_handle. rewrite Hd. by apply handle_octet_handles. }
  destruct (decide (qp_state d = NTB_QUOTED_PRINTABLE_STATE_SKIP_SPACES)) as [Hd|Hs].
  - unfold qp_handle, handle_skip_spaces. rewrite Hd.
    pose proof (skip_spaces_handles d t 0 Hd) as Hr. unfold handles.
    destruct (skip_spaces_loop d t 0) as [[[d' o] n]|e| |]; try done.
    destruct Hr as (Hn & Hp & Hr). rewrite Nat.sub_0_r in Hr. specialize (Hp Ht).
    split; [lia|done].
  - destruct t as [|c t]; [done|]. by apply handle_first.
Qed.

(** The main loop is the byte-by-byte machine. *)
Lemma qp_loop_steps fuel d t :
  (length t <= fuel)%nat -> qp_loop fuel d t = qp_steps d t.
Proof.
  revert d t. induction fuel as [|fuel IH]; intros d t Hf.
  { destruct t; [done|cbn in Hf; lia]. }
  destruct t as [|c t]; [done|]. cbn [qp_loop].
  pose proof (qp_handle_handles d (c :: t) ltac:(done)) as Hh. unfold handles in Hh.
  destruct (qp_handle d (c :: t)) as [[[d' o] n]|e| |]; try done. destruct Hh as [Hn Hs].
  rewrite bind_ret_l, IH by (rewrite length_drop; cbn [length] in *; lia).
  rewrite <- (take_drop n (c :: t)) at 2. by rewrite qp_steps_app, Hs, bind_ret_l.
Qed.

Lemma qp_decode_steps d t : ntb_quoted_printable_decode d t = qp_steps d t.
Proof. by apply qp_loop_steps. Qed.

(** ** The accepted language *)

Definition qp_run (d : ntb_quoted_printable_data) (t : list Z) : qp_result (list Z) :=
  '(d, o) ← qp_steps d t; ntb_quoted_printable_decode_end d;; Ok o.

Lemma qp_run_app d a b :
  qp_run d (a ++ b) = '(d, o) ← qp_steps d a; l ← qp_run d b; Ok (o ++ l).
Proof.
  unfold qp_run. rewrite qp_steps_app, !bind_assoc.
  destruct (qp_steps d a) as [[d1 o1]| | |]; try done. rewrite !bind_ret_l, !bind_assoc.
  destruct (qp_steps d1 b) as [[d2 o2]| | |]; try done. rewrite !bind_ret_l.
  by destruct (ntb_quoted_printable_decode_end d2).
Qed.

Lemma qp_run_cons d c t :
  qp_run d (c :: t) = '(d, o) ← qp_step d c; l ← qp_run d t; Ok (o ++ l).
Proof.
  change (c :: t) with ([c] ++ t). rewrite qp_run_app. cbn [qp_steps]. rewrite bind_assoc.
  destruct (qp_step d c) as [[d1 o1]| | |]; try done. rewrite !bind_ret_l. by rewrite app_nil_r.
Qed.

Lemma qp_decode_pieces_run d ps : qp_decode_pieces d ps = qp_run d (concat ps).
Proof.
  revert d. induction ps as [|p ps IH]; intros d; cbn [qp_decode_pieces concat]; [done|].
  rewrite qp_run_app, qp_decode_steps.
  destruct (qp_steps d p) as [[d1 o1]| | |]; try done. by rewrite !bind_ret_l, IH.
Qed.

Lemma hex_value_range c : -1 <= hex_value c < 16.
Proof. unfold hex_value. repeat (case_bool; try lia). Qed.

Section machine.
Context (u : bool).
Implicit Types (t l : list Z) (n : Z).

Abbreviation OCTET := NTB_QUOTED_PRINTABLE_STATE_OCTET.
Abbreviation QUOTE_START := NTB_QUOTED_PRINTABLE_STATE_QUOTE_START.
Abbreviation SKIP_SPACES := NTB_QUOTED_PRINTABLE_STATE_SKIP_SPACES.
Abbreviation SOFT_CR := NTB_QUOTED_PRINTABLE_STATE_SOFT_CR.
Abbreviation ESCAPED_OCTET := NTB_QUOTED_PRINTABLE_STATE_ESCAPED_OCTET.

(** One equation per state. *)
Lemma run_octet n c t :
  qp_run (QP OCTET n u) (c :: t) =
  if c =? 61 then qp_run (QP QUOTE_START n u) t
  else l ← qp_run (QP OCTET n u) t; Ok (output_octet u c :: l).
Proof.
  rewrite qp_run_cons. destruct (Z.eqb_spec c 61) as [->|].
  - rewrite qp_step_equals, bind_ret_l by done. cbn [qp_set_state qp_nibble qp_underscore_is_space].
    by destruct (qp_run _ t).
  - by rewrite qp_step_literal, bind_ret_l.
Qed.

Lemma run_quote_start n c t :
  qp_run (QP QUOTE_START n u) (c :: t) =
  if 0 <=? hex_value c then qp_run (QP ESCAPED_OCTET (hex_value c) u) t
  else if (c =? 32) || (c =? 9) then qp_run (QP SKIP_SPACES n u) t
  else if c =? 13 then qp_run (QP SOFT_CR n u) t
  else if c =? 10 then qp_run (QP OCTET n u) t
  else invalid_escape_error.
Proof.
  rewrite qp_run_cons. unfold qp_step, qp_handle. cbn [qp_state].
  unfold handle_quote_start. cbn [deref]. rewrite bind_ret_l.
  destruct (0 <=? hex_value c); [|destruct (_ || _); [|destruct (c =? 13); [|destruct (c =? 10)]]];
    try done; rewrite !bind_ret_l; by destruct (qp_run _ t).
Qed.

Lemma run_skip_spaces n c t :
  qp_run (QP SKIP_SPACES n u) (c :: t) =
  if (c =? 32) || (c =? 9) then qp_run (QP SKIP_SPACES n u) t
  else if c =? 13 then qp_run (QP SOFT_CR n u) t
  else if c =? 10 then qp_run (QP OCTET n u) t
  else invalid_escape_error.
Proof.
  rewrite qp_run_cons, qp_step_skip by done.
  destruct (_ || _); [|destruct (c =? 13); [|destruct (c =? 10)]];
    try done; rewrite !bind_ret_l; by destruct (qp_run _ t).
Qed.

Lemma run_soft_cr n c t :
  qp_run (QP SOFT_CR n u) (c :: t) =
  if c =? 10 then qp_run (QP OCTET n u) t else invalid_escape_error.
Proof.
  rewrite qp_run_cons. unfold qp_step, qp_handle. cbn [qp_state].
  unfold handle_soft_cr. cbn [deref]. rewrite bind_ret_l.
  destruct (c =? 10); [|done]. cbn [negb]. rewrite !bind_ret_l. by destruct (qp_run _ t).
Qed.

Lemma run_escaped n c t :
  0 <= n < 16 ->
  qp_run (QP ESCAPED_OCTET n u) (c :: t) =
  if hex_value c =? -1 then invalid_escape_error
  else l ← qp_run (QP OCTET n u) t; Ok (n * 16 + hex_value c :: l).
Proof.
  intros Hn. rewrite qp_run_cons. unfold qp_step, qp_handle. cbn [qp_state].
  unfold handle_escaped_octet. cbn [deref]. rewrite bind_ret_l.
  pose proof (hex_value_range c). destruct (Z.eqb_spec (hex_value c) (-1)); [done|].
  rewrite !bind_ret_l. cbn [qp_nibble qp_set_state qp_underscore_is_space].
  rewrite Z.shiftl_mul_pow2, lor_disjoint_add, u8_small by lia.
  by destruct (qp_run _ t).
Qed.

(** What is left to read in each state. *)
Definition rest_of (d : ntb_quoted_printable_data) t l : Prop :=
  match qp_state d with
  | OCTET => qp_text u t l
  | QUOTE_START => qp_text u (61 :: t) l
  | SKIP_SPACES => exists blanks cr t',
      t = blanks ++ cr ++ 10 :: t' /\ Forall is_blank blanks /\ (cr = [] \/ cr = [13]) /\
      qp_text u t' l
  | SOFT_CR => exists t', t = 10 :: t' /\ qp_text u t' l
  | ESCAPED_OCTET => exists h t' l',
      t = h :: t' /\ 0 <= hex_value h /\ l = qp_nibble d * 16 + hex_value h :: l' /\ qp_text u t' l'
  end.

Lemma qp_run_sound s n t l :
  (s = ESCAPED_OCTET -> 0 <= n < 16) -> qp_run (QP s n u) t = Ok l -> rest_of (QP s n u) t l.
Proof.
  revert s n l. induction t as [|c t IH]; intros s n l Hn.
  { unfold qp_run. cbn [qp_steps]. rewrite bind_ret_l. unfold ntb_quoted_printable_decode_end.
    destruct s; cbn [qp_state]; [|by rewrite decide_True..].
    rewrite decide_False by naive_solver. intros [= <-]. constructor. }
  unfold rest_of. cbn [qp_state qp_nibble]. destruct s.
  - rewrite run_octet. destruct (Z.eqb_spec c 61) as [->|]; [by intros ?%IH|].
    intros (l' & Hr & [= <-])%bind_Ok. apply IH in Hr; [|done]. by constructor.
  - rewrite run_quote_start. destruct (Z.leb_spec 0 (hex_value c)).
    { pose proof (hex_value_range c). intros Hr%IH; [|lia].
      destruct Hr as (h & t' & l' & -> & Hh & -> & Ht). by constructor. }
    destruct ((c =? 32) || (c =? 9)) eqn:Hb.
    { intros Hr%IH; [|done]. destruct Hr as (bl & cr & t' & -> & Hbl & Hcr & Ht).
      apply (qp_soft_break u (c :: bl) cr t' l); [|done..]. constructor; [|done].
      unfold is_blank. lia. }
    destruct (Z.eqb_spec c 13) as [->|].
    { intros Hr%IH; [|done]. destruct Hr as (t' & -> & Ht).
      apply (qp_soft_break u [] [13] t' l); auto. }
    destruct (Z.eqb_spec c 10) as [->|]; [|done].
    intros Hr%IH; [|done]. apply (qp_soft_break u [] [] t l); auto.
  - rewrite run_skip_spaces. destruct ((c =? 32) || (c =? 9)) eqn:Hb.
    { intros Hr%IH; [|done]. destruct Hr as (bl & cr & t' & -> & Hbl & Hcr & Ht).
      exists (c :: bl), cr, t'. split_and!; try done. constructor; [|done]. unfold is_blank. lia. }
    destruct (Z.eqb_spec c 13) as [->|].
    { intros Hr%IH; [|done]. destruct Hr as (t' & -> & Ht). exists [], [13], t'. split_and!; auto. }
    destruct (Z.eqb_spec c 10) as [->|]; [|done].
    intros Hr%IH; [|done]. exists [], [], t. split_and!; auto.
  - rewrite run_soft_cr. destruct (Z.eqb_spec c 10) as [->|]; [|done].
    intros Hr%IH; [|done]. by exists t.
  - rewrite run_escaped by auto. destruct (Z.eqb_spec (hex_value c) (-1)); [done|].
    intros (l' & Hr & [= <-])%bind_Ok. apply IH in Hr; [|done].
    pose proof (hex_value_range c). exists c, t, l'. split_and!; try done; lia.
Qed.

Lemma run_blanks n blanks t :
  Forall is_blank blanks ->
  qp_run (QP SKIP_SPACES n u) (blanks ++ t) = qp_run (QP SKIP_SPACES n u) t.
Proof.
  induction 1 as [|c bl Hc _ IH]; [done|]. cbn [app]. rewrite run_skip_spaces, IH.
  destruct ((c =? 32) || (c =? 9)) eqn:Hb; [done|]. unfold is_blank in Hc. lia.
Qed.

(** A soft line break is the same from [QUOTE_START] and after more blanks. *)
Lemma run_soft_break n blanks cr t :
  Forall is_blank blanks -> cr = [] \/ cr = [13] ->
  qp_run (QP QUOTE_START n u) (blanks ++ cr ++ 10 :: t) = qp_run (QP OCTET n u) t.
Proof.
  intros Hb Hcr.
  assert (Hs : forall s, (s = QUOTE_START \/ s = SKIP_SPACES) ->
    qp_run (QP s n u) (cr ++ 10 :: t) = qp_run (QP OCTET n u) t).
  { intros s [->| ->]; destruct Hcr as [->| ->]; cbn [app];
      rewrite ?run_quote_start, ?run_skip_spaces, ?run_soft_cr; done. }
  destruct Hb as [|c bl Hc Hb]; cbn [app]; [auto|].
  rewrite run_quote_start. assert (hex_value c = -1) as -> by (by destruct Hc as [->| ->]).
  destruct ((c =? 32) || (c =? 9)) eqn:Hbl; [|unfold is_blank in Hc; lia].
  cbn [Z.leb Z.compare]. rewrite run_blanks by done. auto.
Qed.

Lemma qp_run_complete t l : qp_text u t l -> forall n, qp_run (QP OCTET n u) t = Ok l.
Proof.
  induction 1 as [|c t l Hc Ht IH|h1 h2 t l H1 H2 Ht IH|bl cr t l Hb Hcr Ht IH]; intros n.
  - done.
  - rewrite run_octet, IH. by destruct (Z.eqb_spec c 61).
  - pose proof (hex_value_range h1). rewrite run_octet. cbn [Z.eqb Pos.eqb].
    rewrite run_quote_start. destruct (Z.leb_spec 0 (hex_value h1)); [|lia].
    rewrite run_escaped by lia. destruct (Z.eqb_spec (hex_value h2) (-1)); [lia|]. by rewrite IH.
  - rewrite run_octet. cbn [Z.eqb Pos.eqb]. by rewrite run_soft_break.
Qed.
End machine.

(** Each call stores no more bytes than it is given. *)
Lemma qp_step_output d c d' o : qp_step d c = Ok (d', o) -> zlen o <= 1.
Proof.
  unfold qp_step, qp_handle. destruct (qp_state d).
  - unfold handle_octet. cbn [find_byte]. destruct (c =? 61); intros [= <- <-]; vm_compute; congruence.
  - unfold handle_quote_start. cbn [deref]. rewrite bind_ret_l.
    repeat case_bool; cbn [orb]; try done; intros [= _ <-]; rewrite zlen_nil; lia.
  - unfold handle_skip_spaces. cbn [skip_spaces_loop].
    repeat case_bool; cbn [orb]; try done; intros [= _ <-]; rewrite zlen_nil; lia.
  - unfold handle_soft_cr. cbn [deref]. rewrite bind_ret_l.
    case_bool; try done; intros [= _ <-]; rewrite zlen_nil; lia.
  - unfold handle_escaped_octet. cbn [deref]. rewrite bind_ret_l.
    case_bool; try done; intros [= _ <-]; rewrite zlen_cons, zlen_nil; lia.
Qed.

Lemma qp_steps_output d t d' o : qp_steps d t = Ok (d', o) -> zlen o <= zlen t.
Proof.
  revert d o. induction t as [|c t IH]; intros d o; cbn [qp_steps]; [by intros [= <- <-]|].
  intros ([d1 o1] & H1 & H2)%bind_Ok. apply bind_Ok in H2 as ([d2 o2] & H2 & [= -> <-]).
  apply qp_step_output in H1. apply IH in H2. zlia.
Qed.

Lemma qp_steps_defined d t : defined (qp_steps d t).
Proof.
  revert d. induction t as [|c t IH]; intros d; cbn [qp_steps]; [done|].
  pose proof (qp_handle_handles d [c] ltac:(done)) as Hh. unfold qp_step, handles in *.
  destruct (qp_handle d [c]) as [[[d1 o1] n]|e| |]; try done. rewrite !bind_ret_l.
  apply bind_defined; [done|]. by intros [? ?] _.
Qed.

(** ** Properties *)

(** C34: however a text is cut into pieces, the state machine accepts it with the
    bytes [l] exactly when the text is a sequence of literal bytes, escaped octets
    and soft line breaks that stands for [l]. *)
Theorem quoted_printable_iff_text u ps l :
  qp_decode_pieces (ntb_quoted_printable_decode_start u) ps = Ok l <-> qp_text u (concat ps) l.
Proof.
  rewrite qp_decode_pieces_run. unfold ntb_quoted_printable_decode_start. split.
  - by apply qp_run_sound.
  - intros. by apply qp_run_complete.
Qed.

(** Every call terminates without an undefined access and stores no more
    bytes than it is given, whatever the state, so decoding into a buffer of the
    size of the input is safe. *)
Theorem quoted_printable_output_bound d t :
  match ntb_quoted_printable_decode d t with
  | Ok (_, out) => zlen out <= zlen t
  | Err _ => True
  | UB | OutOfFuel => False
  end.
Proof.
  rewrite qp_decode_steps. pose proof (qp_steps_defined d t).
  destruct (qp_steps d t) as [[d' o]| | |] eqn:Hs; try done. by apply qp_steps_output in Hs.
Qed.
