(* ===== verification/EncodedWords.v ===== *)
(** * EncodedWords: decoding of MIME encoded words in place (ntb-encoded-words.c)

    The decoder reads a mail header and writes the decoded header over it. The
    model keeps the one memory area and the offsets [in] and [out] into it, so
    that a write which reached bytes still to be read would be seen; the
    specification works on lists and has no memory. The bytes a codec stores
    before it reports an error are not modelled. *)

From S2P Require Import Prelude Buffer Base64 QuotedPrintable.

(** ** Memory *)

Definition mem_load (mem : list Z) (off n : nat) : result unit (list Z) :=
  if decide (off + n <= length mem)%nat then Ok (take n (drop off mem)) else UB.

Definition mem_store (mem : list Z) (off : nat) (l : list Z) : result unit (list Z) :=
  if decide (off + length l <= length mem)%nat
  then Ok (take off mem ++ l ++ drop (off + length l) mem)
  else UB.

(** [memmove(mem + dst, mem + src, n)] *)
Definition mem_move (mem : list Z) (dst src n : nat) : result unit (list Z) :=
  l ← mem_load mem src n; mem_store mem dst l.

(** ** The program *)

Record ntb_encoded_words_data := EW {
  ew_mem : list Z;
  ew_out : nat;
  ew_in : nat;
  ew_length : nat;
  ew_decode_buf : ntb_buffer
}.

Inductive ntb_encoded_words_encoding :=
| NTB_ENCODED_WORDS_ENCODING_QUOTED_PRINTABLE
| NTB_ENCODED_WORDS_ENCODING_BASE64.

Fixpoint find_string (haystack needle : list Z) : option nat :=
  if decide (length needle <= length haystack)%nat then
    if bytes_eqb (take (length needle) haystack) needle then Some O
    else match haystack with
         | [] => None
         | _ :: haystack => S <$> find_string haystack needle
         end
  else None.

Definition ntb_ascii_tolower (ch : Z) : Z :=
  if (65 <=? ch) && (ch <=? 90) then ch - 65 + 97 else ch.

(** The bytes after the match, when the input starts with the lower-case
    [string] in any case. The input is converted to [char]. *)
Definition looking_at (input string : list Z) : option (list Z) :=
  if decide (length input < length string)%nat then None
  else if bytes_eqb ((fun c => ntb_ascii_tolower (s8 c)) <$> take (length string) input) string
  then Some (drop (length string) input)
  else None.

(** One iteration of the codec loops stores [out] at the end of the buffer. *)
Definition store_decoded (b : ntb_buffer) (out : list Z) : result unit ntb_buffer :=
  b ← buf_write b (buf_length b) out; Ok (add_length b (zlen out)).

Fixpoint process_base64_loop (fuel : nat) (b : ntb_buffer) (d : ntb_base64_data)
    (input : list Z) : result unit (option ntb_base64_data * ntb_buffer) :=
  match input with
  | [] => Ok (Some d, b)
  | _ :: _ =>
      match fuel with
      | O => OutOfFuel
      | S fuel =>
          b ← ntb_buffer_ensure_size b (u64 (buf_length b + 8));
          let chunk_size :=
            Z.min (NTB_BASE64_MAX_INPUT_FOR_SIZE (u64 (buf_size b - buf_length b))) (zlen input) in
          match ntb_base64_decode d (take (Z.to_nat chunk_size) input) with
          | Ok (d, out) =>
              b ← store_decoded b out;
              process_base64_loop fuel b d (drop (Z.to_nat chunk_size) input)
          | Err _ => Ok (None, b)
          | UB => UB
          | OutOfFuel => OutOfFuel
          end
      end
  end.

Definition process_base64 (b : ntb_buffer) (input : list Z) : result unit (bool * ntb_buffer) :=
  '(d, b) ← process_base64_loop (length input) b ntb_base64_decode_start input;
  match d with
  | None => Ok (false, b)
  | Some d =>
      b ← ntb_buffer_ensure_size b (u64 (buf_length b + 3));
      match ntb_base64_decode_end d with
      | Ok out => b ← store_decoded b out; Ok (true, b)
      | Err _ => Ok (false, b)
      | UB => UB
      | OutOfFuel => OutOfFuel
      end
  end.

Fixpoint process_qp_loop (fuel : nat) (b : ntb_buffer) (d : ntb_quoted_printable_data)
    (input : list Z) : result unit (option ntb_quoted_printable_data * ntb_buffer) :=
  match input with
  | [] => Ok (Some d, b)
  | _ :: _ =>
      match fuel with
      | O => OutOfFuel
      | S fuel =>
          b ← ntb_buffer_ensure_size b (u64 (buf_length b + 8));
          let chunk_size := Z.min (u64 (buf_size b - buf_length b)) (zlen input) in
          match ntb_quoted_printable_decode d (take (Z.to_nat chunk_size) input) with
          | Ok (d, out) =>
              b ← store_decoded b out;
              process_qp_loop fuel b d (drop (Z.to_nat chunk_size) input)
          | Err _ => Ok (None, b)
          | UB => UB
          | OutOfFuel => OutOfFuel
          end
      end
  end.

Definition process_quoted_printable (b : ntb_buffer) (input : list Z) :
    result unit (bool * ntb_buffer) :=
  '(d, b) ← process_qp_loop (length input) b (ntb_quoted_printable_decode_start true) input;
  match d with
  | None => Ok (false, b)
  | Some d =>
      match ntb_quoted_printable_decode_end d with
      | Ok _ => Ok (true, b)
      | Err _ => Ok (false, b)
      | UB => UB
      | OutOfFuel => OutOfFuel
      end
  end.

(** The charset and the encoding in front of the encoded text. *)
Definition word_header (input : list Z) : option (ntb_encoded_words_encoding * list Z) :=
  match (match looking_at input (str_bytes "us-ascii?") with
         | Some input => Some input
         | None => looking_at input (str_bytes "utf-8?")
         end) with
  | None => None
  | Some input =>
      match looking_at input (str_bytes "q?") with
      | Some input => Some (NTB_ENCODED_WORDS_ENCODING_QUOTED_PRINTABLE, input)
      | None =>
          match looking_at input (str_bytes "b?") with
          | Some input => Some (NTB_ENCODED_WORDS_ENCODING_BASE64, input)
          | None => None
          end
      end
  end.

(** The part of [process_encoded_word] before anything is stored through [out]:
    [Some] holds the bytes from [in] to behind the closing mark; the decoded text
    is in the buffer. *)
Definition read_encoded_word (b : ntb_buffer) (input : list Z) :
    result unit (option nat * ntb_buffer) :=
  match word_header input with
  | None => Ok (None, b)
  | Some (encoding, text) =>
      match find_string text (str_bytes "?=") with
      | None => Ok (None, b)
      | Some ew_end =>
          let word := take ew_end text in
          if existsb (fun c => (c =? 32) || (c =? 63)) word then Ok (None, b)
          else
            let b := Buf (buf_data b) 0 (buf_size b) in
            '(ok, b) ← match encoding with
                       | NTB_ENCODED_WORDS_ENCODING_QUOTED_PRINTABLE => process_quoted_printable b word
                       | NTB_ENCODED_WORDS_ENCODING_BASE64 => process_base64 b word
                       end;
            if (ok : bool) then
              Ok (Some (length input - length text + ew_end + 2)%nat, b)
            else Ok (None, b)
      end
  end.

Definition process_encoded_word (data : ntb_encoded_words_data) :
    result unit (bool * ntb_encoded_words_data) :=
  input ← mem_load (ew_mem data) (ew_in data) (ew_length data);
  '(r, b) ← read_encoded_word (ew_decode_buf data) input;
  match r with
  | None => Ok (false, EW (ew_mem data) (ew_out data) (ew_in data) (ew_length data) b)
  | Some consumed =>
      decoded ← buf_read b 0 (buf_length b);
      mem ← mem_store (ew_mem data) (ew_out data) decoded;
      Ok (true, EW mem (ew_out data + length decoded) (ew_in data + consumed)
                   (ew_length data - consumed) b)
  end.

(** [ew_start[-1] == ' '] *)
Definition space_before (mem : list Z) (ew_start : nat) : result unit bool :=
  match ew_start with
  | O => UB
  | S i => match mem !! i with Some c => Ok (c =? 32) | None => UB end
  end.

(** The [while (true)] loop: every iteration consumes the two bytes of "=?". *)
Fixpoint ew_loop (fuel : nat) (had_ew : bool) (data : ntb_encoded_words_data) :
    result unit ntb_encoded_words_data :=
  input ← mem_load (ew_mem data) (ew_in data) (ew_length data);
  match find_string input (str_bytes "=?") with
  | None => Ok data
  | Some skip_size =>
      match fuel with
      | O => OutOfFuel
      | S fuel =>
          let ew_start := (ew_in data + skip_size)%nat in
          is_space ← (if had_ew && (skip_size =? 1)%nat then space_before (ew_mem data) ew_start
                      else Ok false : result unit bool);
          '(mem, out) ← (if (is_space : bool) then Ok (ew_mem data, ew_out data)
                         else mem ← mem_move (ew_mem data) (ew_out data) (ew_in data) skip_size;
                              Ok (mem, (ew_out data + skip_size)%nat)
                         : result unit (list Z * nat));
          let data := EW mem out (ew_start + 2) (ew_length data - (skip_size + 2))
                         (ew_decode_buf data) in
          starts ← (if (ew_start =? 0)%nat then Ok true else space_before mem ew_start);
          '(ok, data) ← (if (starts : bool) then process_encoded_word data else Ok (false, data));
          if (ok : bool) then ew_loop fuel true data
          else
            let mark := (if (is_space : bool) then [32] else []) ++ str_bytes "=?" in
            mem ← mem_store (ew_mem data) (ew_out data) mark;
            ew_loop fuel false (EW mem (ew_out data + length mark) (ew_in data) (ew_length data)
                                   (ew_decode_buf data))
      end
  end.

(** The memory after the call and the new length. *)
Definition ntb_encoded_words_decode (buffer : list Z) : result unit (list Z * nat) :=
  data ← ew_loop (length buffer) false (EW buffer 0 0 (length buffer) ntb_buffer_init);
  mem ← mem_move (ew_mem data) (ew_out data) (ew_in data) (ew_length data);
  Ok (mem, (ew_out data + ew_length data)%nat).

(** ** Specification on lists

    [prev] is the byte in front of [input], [None] at the start of the header. *)

Definition last_byte (prev : option Z) (l : list Z) : option Z :=
  match last l with Some c => Some c | None => prev end.

Fixpoint ew_spec (fuel : nat) (had_ew : bool) (prev : option Z) (b : ntb_buffer)
    (input : list Z) : result unit (list Z) :=
  match find_string input (str_bytes "=?") with
  | None => Ok input
  | Some k =>
      match fuel with
      | O => OutOfFuel
      | S fuel =>
          let skipped := take k input in
          let rest := drop (k + 2) input in
          let is_space := had_ew && bytes_eqb skipped [32] in
          let before := if is_space then [] else skipped in
          let prev := last_byte prev skipped in
          '(r, b) ← (if match prev with None => true | Some c => c =? 32 end
                     then read_encoded_word b rest
                     else Ok (None, b));
          match r with
          | Some consumed =>
              decoded ← buf_read b 0 (buf_length b);
              out ← ew_spec fuel true (Some 61) b (drop consumed rest);
              Ok (before ++ decoded ++ out)
          | None =>
              out ← ew_spec fuel false (Some 63) b rest;
              Ok (skipped ++ str_bytes "=?" ++ out)
          end
      end
  end.

(** ** The codec loops *)

(** A buffer small enough for the size computations not to wrap. *)
Definition ew_buf (b : ntb_buffer) : Prop := buf_wf b /\ buf_size b < 2 ^ 62.

#[global] Instance ew_buf_dec b : Decision (ew_buf b).
Proof. unfold ew_buf. apply _. Defined.

Lemma ew_ensure_size b n :
  ew_buf b -> 0 <= n <= 8 -> buf_length b <= 2 ^ 60 ->
  exists b', ntb_buffer_ensure_size (E := unit) b (u64 (buf_length b + n)) = Ok b' /\
    ew_buf b' /\ buf_length b' = buf_length b /\ cells b' = cells b /\
    buf_length b + n <= buf_size b'.
Proof.
  intros [Hwf Hs] Hn Hl. pose proof (proj1 (proj2 Hwf)). rewrite u64_small by lia.
  destruct (ensure_size_spec (E := unit) b (buf_length b + n))
    as (b' & -> & Hwf' & Hl' & Hc' & _ & Hsz & Hgrow); [done|lia|].
  exists b'. unfold ew_buf. split_and!; try done; lia.
Qed.

Lemma store_decoded_fits b out :
  ew_buf b -> buf_length b + zlen out <= buf_size b ->
  exists b', store_decoded b out = Ok b' /\ ew_buf b' /\
    buf_length b' = buf_length b + zlen out /\ cells b' = cells b ++ (Some <$> out).
Proof.
  intros [Hwf Hs] Hf. unfold store_decoded. pose proof (zlen_nonneg out).
  destruct (buf_write_end (E := unit) b out) as (b2 & -> & Hw2 & Hw3 & Hl2 & Hs2 & _ & Hc); [done..|].
  rewrite bind_ret_l. eexists. split; [reflexivity|]. pose proof (proj1 (proj2 Hwf)).
  unfold ew_buf. split_and!; try done.
  - unfold add_length. cbn [buf_size]. lia.
  - unfold add_length. cbn [buf_length]. rewrite u64_small; lia.
Qed.

(** A store behind the contents either fits or is undefined. *)
Lemma store_decoded_cases b out :
  ew_buf b ->
  store_decoded b out = UB \/
  exists b', store_decoded b out = Ok b' /\ ew_buf b' /\
    buf_length b' = buf_length b + zlen out /\ cells b' = cells b ++ (Some <$> out).
Proof.
  intros Hb. destruct (Z.le_gt_cases (buf_length b + zlen out) (buf_size b)).
  - right. by apply store_decoded_fits.
  - left. destruct Hb as [(Hd & ? & ?) _].
    unfold store_decoded, buf_write, write_cells.
    destruct (Z.leb_spec 0 (buf_length b)); [|lia].
    by destruct (Z.leb_spec (buf_length b + zlen out) (zlen (buf_data b))); [lia|].
Qed.

Lemma length_drop_lt {A} n (l : list A) fuel :
  (length l <= S fuel)%nat -> (0 < n)%nat -> (length (drop n l) <= fuel)%nat.
Proof. rewrite length_drop. lia. Qed.

(** A piece, then the rest. *)
Lemma qp_steps_split n d t :
  qp_steps d t =
  '(d, o1) ← qp_steps d (take n t); '(d, o2) ← qp_steps d (drop n t); Ok (d, o1 ++ o2).
Proof. by rewrite <- qp_steps_app, take_drop. Qed.

Lemma decode_split n d t :
  0 <= b64_n_padding d ->
  ntb_base64_decode d t =
  '(d, o1) ← ntb_base64_decode d (take n t); '(d, o2) ← ntb_base64_decode d (drop n t);
  Ok (d, o1 ++ o2).
Proof. intros. by rewrite <- decode_app, take_drop. Qed.

Lemma process_qp_loop_spec fuel b d input :
  ew_buf b -> (length input <= fuel)%nat -> buf_length b + zlen input <= 2 ^ 60 ->
  exists b', ew_buf b' /\
  match qp_steps d input with
  | Ok (d', out) =>
      process_qp_loop fuel b d input = Ok (Some d', b') /\
      cells b' = cells b ++ (Some <$> out) /\ buf_length b' = buf_length b + zlen out
  | _ => process_qp_loop fuel b d input = Ok (None, b')
  end.
Proof.
  revert b d input. induction fuel as [|fuel IH]; intros b d input Hb Hf Hl.
  { destruct input; [|cbn in Hf; lia]. exists b. cbn [qp_steps process_qp_loop].
    split_and!; try done; [by rewrite app_nil_r|zlia]. }
  destruct input as [|c input0].
  { exists b. cbn [qp_steps process_qp_loop]. split_and!; try done; [by rewrite app_nil_r|zlia]. }
  set (input := c :: input0) in *. pose proof (zlen_nonneg input).
  assert (0 < zlen input) by (unfold input; zlia).
  destruct (ew_ensure_size b 8) as (b1 & E1 & Hb1 & Hl1 & Hc1 & Hs1); [done|lia|lia|].
  assert (Hu : process_qp_loop (S fuel) b d input =
    match ntb_quoted_printable_decode d (take (Z.to_nat (Z.min (u64 (buf_size b1 - buf_length b1))
            (zlen input))) input) with
    | Ok (d, out) =>
        b ← store_decoded b1 out;
        process_qp_loop fuel b d (drop (Z.to_nat (Z.min (u64 (buf_size b1 - buf_length b1))
            (zlen input))) input)
    | Err _ => Ok (None, b1)
    | UB => UB
    | OutOfFuel => OutOfFuel
    end) by (unfold input; cbn [process_qp_loop]; by rewrite E1, bind_ret_l).
  rewrite Hu. clear Hu E1. pose proof (proj1 (proj2 (proj1 Hb1))). pose proof (proj2 Hb1).
  rewrite u64_small by lia. set (n := Z.min _ _).
  rewrite qp_decode_steps. rewrite (qp_steps_split (Z.to_nat n) d input).
  pose proof (qp_steps_defined d (take (Z.to_nat n) input)).
  destruct (qp_steps d (take (Z.to_nat n) input)) as [[d1 o1]|e| |] eqn:E; try done;
    [|by exists b1].
  apply qp_steps_output in E. rewrite !bind_ret_l. rewrite zlen_take in E.
  destruct (store_decoded_fits b1 o1) as (b2 & -> & Hb2 & Hl2 & Hc2); [done|lia|].
  rewrite bind_ret_l.
  destruct (IH b2 d1 (drop (Z.to_nat n) input)) as (b3 & Hb3 & Hr);
    [done|apply length_drop_lt; [done|lia]|rewrite zlen_drop; lia|].
  exists b3. split; [done|].
  destruct (qp_steps d1 (drop (Z.to_nat n) input)) as [[d2 o2]|e| |]; try done.
  rewrite bind_ret_l. destruct Hr as (-> & Hc3 & Hl3). split_and!; [done| |zlia].
  rewrite Hc3, Hc2, Hc1, fmap_app. by rewrite app_assoc.
Qed.

Lemma process_base64_loop_spec fuel b d input :
  ew_buf b -> b64_wf d -> (length input <= fuel)%nat -> buf_length b + 3 * zlen input <= 2 ^ 60 ->
  match process_base64_loop fuel b d input with
  | Ok (Some d', b') =>
      exists out, ew_buf b' /\ b64_wf d' /\ ntb_base64_decode d input = Ok (d', out) /\
        cells b' = cells b ++ (Some <$> out) /\ buf_length b' = buf_length b + zlen out /\
        zlen out <= 3 * zlen input
  | Ok (None, b') => ew_buf b' /\ ntb_base64_decode d input = padding_error
  | UB => True
  | Err _ | OutOfFuel => False
  end.
Proof.
  revert b d input. induction fuel as [|fuel IH]; intros b d input Hb Hd Hf Hl.
  { destruct input; [|cbn in Hf; lia]. cbn [process_base64_loop]. exists [].
    split_and!; try done; [|by rewrite app_nil_r|zlia].
    unfold ntb_base64_decode. by destruct (0 <? _). }
  destruct input as [|c input0].
  { cbn [process_base64_loop]. exists []. split_and!; try done; [|by rewrite app_nil_r|zlia].
    unfold ntb_base64_decode. by destruct (0 <? _). }
  set (input := c :: input0) in *. pose proof (zlen_nonneg input).
  assert (0 < zlen input) by (unfold input; zlia).
  destruct (ew_ensure_size b 8) as (b1 & E1 & Hb1 & Hl1 & Hc1 & Hs1); [done|lia|lia|].
  unfold input at 1. cbn [process_base64_loop]. fold input. rewrite E1, bind_ret_l. clear E1.
  pose proof (proj1 (proj2 (proj1 Hb1))). pose proof (proj2 Hb1).
  unfold NTB_BASE64_MAX_INPUT_FOR_SIZE. rewrite !u64_small by (rewrite ?u64_small; lia).
  set (n := Z.min _ _).
  assert (0 < n <= zlen input) by (unfold n; dlia).
  rewrite (decode_split (Z.to_nat n) d input) by apply Hd.
  pose proof (decode_total d (take (Z.to_nat n) input) Hd) as Ht.
  destruct (ntb_base64_decode d (take (Z.to_nat n) input)) as [[d1 o1]|e| |]; try done;
    [|destruct e; by split].
  destruct Ht as (Hd1 & _ & Ho1). rewrite !bind_ret_l. rewrite zlen_take in Ho1.
  assert (zlen o1 <= 3 * n) by (destruct Hd as [_ ?]; dlia).
  destruct (store_decoded_cases b1 o1) as [->|(b2 & -> & Hb2 & Hl2 & Hc2)]; [done|done|].
  rewrite bind_ret_l. pose proof (zlen_drop (Z.to_nat n) input) as Hz.
  specialize (IH b2 d1 (drop (Z.to_nat n) input) Hb2 Hd1).
  destruct (process_base64_loop fuel b2 d1 (drop (Z.to_nat n) input)) as [[[d2|] b3]|e| |];
    try done; (specialize (IH ltac:(apply length_drop_lt; [done|lia]) ltac:(lia))); try done.
  - destruct IH as (o2 & Hb3 & Hd2 & -> & Hc3 & Hl3 & Ho2). rewrite bind_ret_l.
    exists (o1 ++ o2). split_and!; try done; [|zlia|zlia].
    rewrite Hc3, Hc2, Hc1, fmap_app. by rewrite app_assoc.
  - destruct IH as [Hb3 ->]. done.
Qed.

Lemma cells_empty b : buf_length b = 0 -> cells b = [].
Proof. intros Hl. unfold cells. by rewrite Hl. Qed.

Lemma process_qp_spec b w :
  ew_buf b -> buf_length b = 0 -> zlen w <= 2 ^ 58 ->
  exists b', ew_buf b' /\
  match qp_decode_pieces (ntb_quoted_printable_decode_start true) [w] with
  | Ok l => process_quoted_printable b w = Ok (true, b') /\ cells b' = Some <$> l /\
            buf_length b' = zlen l
  | _ => process_quoted_printable b w = Ok (false, b')
  end.
Proof.
  intros Hb Hl Hw. rewrite qp_decode_pieces_run. unfold qp_run, process_quoted_printable.
  cbn [concat]. rewrite app_nil_r.
  set (d := ntb_quoted_printable_decode_start true).
  destruct (process_qp_loop_spec (length w) b d w) as (b' & Hb' & Hr); [done|done|lia|].
  exists b'. split; [done|]. pose proof (qp_steps_defined d w).
  destruct (qp_steps d w) as [[d' out]|e| |]; try done.
  - destruct Hr as (-> & Hc & Hl'). rewrite !bind_ret_l.
    rewrite (cells_empty b) in Hc by done.
    assert (ntb_quoted_printable_decode_end d' = Ok tt \/
            ntb_quoted_printable_decode_end d' = invalid_escape_error) as [->| ->].
    { unfold ntb_quoted_printable_decode_end. case_decide; auto. }
    + split_and!; [done..|lia].
    + done.
  - by rewrite Hr.
Qed.

Lemma zlen_encode l : zlen l <= zlen (ntb_base64_encode l).
Proof.
  induction l as [|a|a b|a b c l IH] using bytes_ind3; cbn [ntb_base64_encode]; zlia.
Qed.

Lemma zlen_filter {A} (f : A -> bool) l : zlen (List.filter f l) <= zlen l.
Proof. induction l as [|x l IH]; cbn [List.filter]; [done|]. destruct (f x); zlia. Qed.

Lemma decode_pieces_length ps l :
  decode_pieces ntb_base64_decode_start ps = Ok l -> zlen l <= zlen (concat ps).
Proof.
  intros [_ E]%decode_pieces_spec. pose proof (zlen_encode l) as H1.
  pose proof (zlen_filter significant (concat ps)) as H2. rewrite E in H2. lia.
Qed.

Lemma process_base64_spec b w :
  ew_buf b -> buf_length b = 0 -> zlen w <= 2 ^ 58 ->
  match process_base64 b w with
  | Ok (true, b') =>
      ew_buf b' /\ exists l, decode_pieces ntb_base64_decode_start [w] = Ok l /\
        cells b' = Some <$> l /\ buf_length b' = zlen l
  | Ok (false, b') => ew_buf b' /\ decode_pieces ntb_base64_decode_start [w] = padding_error
  | UB => True
  | Err _ | OutOfFuel => False
  end.
Proof.
  intros Hb Hl Hw. unfold process_base64. rewrite decode_pieces_concat by done.
  cbn [concat]. rewrite app_nil_r.
  pose proof (process_base64_loop_spec (length w) b ntb_base64_decode_start w Hb) as Hs.
  specialize (Hs ltac:(by apply (bool_decide_unpack _)) ltac:(lia) ltac:(lia)).
  destruct (process_base64_loop _ b _ w) as [[[d'|] b']|e| |]; try done; rewrite bind_ret_l.
  - destruct Hs as (out & Hb' & Hd' & -> & Hc & Hl' & Ho). rewrite bind_ret_l.
    destruct (ew_ensure_size b' 3) as (b1 & -> & Hb1 & Hl1 & Hc1 & Hs1); [done|lia|lia|].
    rewrite bind_ret_l.
    assert (Hend : match ntb_base64_decode_end d' with
                   | Ok t => zlen t <= 2 | Err _ => True | UB | OutOfFuel => False end).
    { unfold ntb_base64_decode_end, b64_wf in *.
      repeat (case_bool; cbn [negb orb]; try done; try lia). }
    destruct (ntb_base64_decode_end d') as [t|e| |]; try done.
    + destruct (store_decoded_fits b1 t) as (b2 & -> & Hb2 & Hl2 & Hc2); [done|lia|].
      rewrite !bind_ret_l. split; [done|]. exists (out ++ t). split_and!; [done| |zlia].
      rewrite Hc2, Hc1, Hc, (cells_empty b), fmap_app by done. done.
    + by destruct e.
  - destruct Hs as [Hb' ->]. done.
Qed.

(** ** Reading one word *)

Lemma find_string_Some h n k :
  find_string h n = Some k -> exists a b, h = a ++ n ++ b /\ length a = k.
Proof.
  revert k. induction h as [|c h IH]; intros k; cbn [find_string].
  - destruct (decide _) as [Hl|]; [|done]. destruct (bytes_eqb _ _) eqn:E; [|done].
    intros [= <-]. apply bytes_eqb_true in E. exists [], []. rewrite app_nil_r.
    split; [|done]. rewrite <- E. by rewrite take_nil.
  - destruct (decide _); [|done]. destruct (bytes_eqb _ _) eqn:E.
    + intros [= <-]. apply bytes_eqb_true in E. exists [], (drop (length n) (c :: h)).
      split; [|done]. cbn [app]. rewrite <- E at 1. by rewrite take_drop.
    + intros (m & Hm & ->)%fmap_Some. apply IH in Hm as (a & b & -> & Ha).
      exists (c :: a), b. split; [done|]. cbn. lia.
Qed.

Lemma looking_at_Some i s r : looking_at i s = Some r -> r = drop (length s) i /\ (length s <= length i)%nat.
Proof.
  unfold looking_at. destruct (decide _); [done|]. destruct (bytes_eqb _ _); [|done].
  intros [= <-]. split; [done|lia].
Qed.

Lemma word_header_Some i e t :
  word_header i = Some (e, t) -> exists n, t = drop n i /\ (n <= length i)%nat.
Proof.
  unfold word_header.
  destruct (match looking_at i (str_bytes "us-ascii?") with
            | Some input => Some input
            | None => looking_at i (str_bytes "utf-8?") end) as [i1|] eqn:E1; [|done].
  assert (exists n, i1 = drop n i /\ (n <= length i)%nat) as (n & -> & Hn).
  { destruct (looking_at i (str_bytes "us-ascii?")) as [x|] eqn:E2.
    - injection E1 as ->. apply looking_at_Some in E2 as [-> ?]. eauto.
    - apply looking_at_Some in E1 as [-> ?]. eauto. }
  destruct (looking_at (drop n i) (str_bytes "q?")) as [x|] eqn:E2.
  - intros [= _ <-]. apply looking_at_Some in E2 as [-> Hl]. rewrite length_drop in Hl.
    rewrite drop_drop. eexists. split; [done|lia].
  - destruct (looking_at (drop n i) (str_bytes "b?")) as [x|] eqn:E3; [|done].
    intros [= _ <-]. apply looking_at_Some in E3 as [-> Hl]. rewrite length_drop in Hl.
    rewrite drop_drop. eexists. split; [done|lia].
Qed.

Lemma buf_read_all b l :
  ew_buf b -> cells b = Some <$> l -> buf_length b = zlen l ->
  buf_read (E := unit) b 0 (buf_length b) = Ok l.
Proof.
  intros [(Hd & Hl & _) _] Hc Hz. unfold buf_read. rewrite Z.add_0_l, Hd.
  destruct (Z.leb_spec 0 0), (Z.leb_spec 0 (buf_length b)), (Z.leb_spec (buf_length b) (buf_size b));
    try lia. cbn [andb]. rewrite drop_0. fold (cells b). rewrite Hc.
  clear. induction l as [|x l IH]; [done|]. cbn [fmap list_fmap all_some].
  change (list_fmap _ _ Some l) with (Some <$> l).
  by destruct (all_some (Some <$> l)); simplify_eq.
Qed.

(** What a successful word leaves: the closing mark is the last thing consumed,
    and the decoded text is shorter than the word. *)
Lemma read_encoded_word_spec b i :
  ew_buf b -> zlen i <= 2 ^ 58 ->
  match read_encoded_word b i with
  | Ok (Some consumed, b') =>
      ew_buf b' /\ (2 <= consumed <= length i)%nat /\ i !! (consumed - 1)%nat = Some 61 /\
      exists l, buf_read (E := unit) b' 0 (buf_length b') = Ok l /\ (length l + 2 <= consumed)%nat
  | Ok (None, b') => ew_buf b'
  | UB => True
  | Err _ | OutOfFuel => False
  end.
Proof.
  intros Hb Hi. unfold read_encoded_word.
  destruct (word_header i) as [[e t]|] eqn:Eh; [|done].
  destruct (find_string t (str_bytes "?=")) as [k|] eqn:Ef; [|done].
  destruct (existsb _ _); [done|].
  apply word_header_Some in Eh as (n & Ht & Hn).
  apply find_string_Some in Ef as (a & r & Et & Ha).
  set (b0 := Buf _ _ _).
  assert (Hb0 : ew_buf b0).
  { destruct Hb as [(? & ? & ?) ?]. unfold b0, ew_buf, buf_wf. cbn. split_and!; try done; lia. }
  assert (Hk : take k t = a) by (rewrite Et, take_app_le, take_ge by lia; done). rewrite Hk.
  assert (Hlen : length t = (length i - n)%nat) by (rewrite Ht, length_drop; lia).
  assert (Hkt : length t = (k + 2 + length r)%nat).
  { rewrite Et, !length_app. change (length (str_bytes "?=")) with 2%nat. lia. }
  assert (zlen a <= 2 ^ 58) by (unfold zlen in *; lia).
  assert (Hlast : i !! (length i - length t + k + 2 - 1)%nat = Some 61).
  { replace (length i - length t + k + 2 - 1)%nat with (n + (k + 1))%nat by lia.
    rewrite <- lookup_drop, <- Ht, Et, lookup_app_r by lia.
    by replace (k + 1 - length a)%nat with 1%nat by lia. }
  assert (Hfin : forall b' l, ew_buf b' -> cells b' = Some <$> l -> buf_length b' = zlen l ->
    zlen l <= zlen a ->
    ew_buf b' /\ (2 <= length i - length t + k + 2 <= length i)%nat /\
    i !! (length i - length t + k + 2 - 1)%nat = Some 61 /\
    exists l, buf_read (E := unit) b' 0 (buf_length b') = Ok l /\
      (length l + 2 <= length i - length t + k + 2)%nat).
  { intros b' l Hb' Hc Hl Hz. split_and!; [done|lia|lia|done|].
    exists l. split; [by apply buf_read_all|]. unfold zlen in Hz. lia. }
  destruct e.
  - destruct (process_qp_spec b0 a Hb0) as (b' & Hb' & Hr); [done|done|].
    destruct (qp_decode_pieces _ [a]) as [l|e| |] eqn:Eq; [|by rewrite Hr..].
    destruct Hr as (-> & Hc & Hl). rewrite bind_ret_l. apply (Hfin b' l); [done..|].
    rewrite qp_decode_pieces_run in Eq. unfold qp_run in Eq.
    apply bind_Ok in Eq as ([d o] & Hs & Eq). apply bind_Ok in Eq as (? & _ & [= ->]).
    apply qp_steps_output in Hs. cbn [concat] in Hs. by rewrite app_nil_r in Hs.
  - pose proof (process_base64_spec b0 a Hb0 eq_refl ltac:(done)) as Hr.
    destruct (process_base64 b0 a) as [[[|] b']| | |]; try done; rewrite bind_ret_l.
    + destruct Hr as (Hb' & l & Hd & Hc & Hl). apply (Hfin b' l); [done..|].
      apply decode_pieces_length in Hd. cbn [concat] in Hd. by rewrite app_nil_r in Hd.
    + apply Hr.
Qed.

(** ** Decoding in place *)

(** [mem'] is [mem] with the first [n] bytes replaced by [l]. *)
Definition overwritten (mem mem' : list Z) (n : nat) (l : list Z) : Prop :=
  length mem' = length mem /\ take n mem' = l /\ drop n mem' = drop n mem.

Lemma overwritten_lookup mem mem' n l i :
  overwritten mem mem' n l -> (n <= i)%nat -> mem' !! i = mem !! i.
Proof.
  intros (_ & _ & Hd) Hi. replace i with (n + (i - n))%nat by lia. by rewrite <- !lookup_drop, Hd.
Qed.

Lemma overwritten_drop mem mem' n l i :
  overwritten mem mem' n l -> (n <= i)%nat -> drop i mem' = drop i mem.
Proof.
  intros (_ & _ & Hd) Hi. replace i with (n + (i - n))%nat by lia.
  by rewrite <- !drop_drop, Hd.
Qed.

Lemma mem_store_spec mem off l :
  (off + length l <= length mem)%nat ->
  exists mem', mem_store mem off l = Ok mem' /\
    overwritten mem mem' (off + length l) (take off mem ++ l).
Proof.
  intros Hf. unfold mem_store. rewrite decide_True by done. eexists. split; [reflexivity|].
  assert (Ht : length (take off mem ++ l) = (off + length l)%nat)
    by (rewrite length_app, length_take; lia).
  unfold overwritten. rewrite app_assoc. split_and!.
  - rewrite length_app, Ht, length_drop. lia.
  - by rewrite take_app_length' by done.
  - by rewrite drop_app_length' by done.
Qed.

Lemma mem_store_twice mem mem1 mem2 out n l k :
  overwritten mem mem1 out (take n mem ++ l) -> overwritten mem1 mem2 (out + length k) (take out mem1 ++ k) ->
  overwritten mem mem2 (out + length k) (take n mem ++ l ++ k).
Proof.
  intros (Hl1 & Ht1 & Hd1) (Hl2 & Ht2 & Hd2). unfold overwritten. rewrite Hl2, Ht2, Ht1, app_assoc.
  split_and!; [done|done|]. rewrite Hd2, <- !drop_drop. by rewrite Hd1.
Qed.

Lemma mem_load_spec mem off n :
  (off + n <= length mem)%nat -> mem_load mem off n = Ok (take n (drop off mem)).
Proof. intros. unfold mem_load. by rewrite decide_True. Qed.

Lemma mem_load_rest mem off n :
  (n = length mem - off)%nat -> (off <= length mem)%nat -> mem_load mem off n = Ok (drop off mem).
Proof.
  intros -> Ho. rewrite mem_load_spec by lia. by rewrite take_ge by (rewrite length_drop; lia).
Qed.

(** The byte in front of offset [i]. *)
Definition byte_before (mem : list Z) (i : nat) : option Z :=
  match i with O => None | S i => mem !! i end.

(** Moving the skipped bytes down keeps the byte in front of the next word. *)
Lemma mem_move_spec mem out i a r :
  (out <= i <= length mem)%nat -> drop i mem = a ++ r ->
  exists mem', mem_move mem out i (length a) = Ok mem' /\
    overwritten mem mem' (out + length a) (take out mem ++ a) /\
    byte_before mem' (i + length a) = byte_before mem (i + length a).
Proof.
  intros Ho Hd. unfold mem_move.
  assert (Hl : (length mem = i + length a + length r)%nat).
  { apply (f_equal length) in Hd. rewrite length_drop, length_app in Hd. lia. }
  rewrite mem_load_spec by lia. rewrite Hd, take_app_length, bind_ret_l.
  destruct (mem_store_spec mem out a) as (m & -> & Hm); [lia|]. exists m. split_and!; [done..|].
  destruct (decide (out = i)) as [->|].
  - assert (m = mem) as ->; [|done]. destruct Hm as (_ & Ht & Hdm).
    rewrite <- (take_drop (i + length a) m), Ht, Hdm, <- drop_drop, Hd, drop_app_length.
    by rewrite <- app_assoc, <- Hd, take_drop.
  - destruct (i + length a)%nat as [|j] eqn:E; [done|]. cbn [byte_before].
    apply (overwritten_lookup _ _ _ _ _ Hm). lia.
Qed.

Definition ew_finish (data : ntb_encoded_words_data) : result unit (list Z * nat) :=
  mem ← mem_move (ew_mem data) (ew_out data) (ew_in data) (ew_length data);
  Ok (mem, (ew_out data + ew_length data)%nat).

(** The memory run [m], started with [out] bytes already written to [mem], ends
    with the bytes the list run [r] returns behind them. *)
Definition ew_refines (mem : list Z) (out : nat) (r : result unit (list Z))
    (m : result unit (list Z * nat)) : Prop :=
  match r with
  | Ok o => exists mem', m = Ok (mem', (out + length o)%nat) /\ length mem' = length mem /\
      take (out + length o) mem' = take out mem ++ o /\ (out + length o <= length mem)%nat
  | Err e => m = Err e
  | UB => m = UB
  | OutOfFuel => m = OutOfFuel
  end.

(** Bytes written before the rest of the run. *)
Lemma ew_refines_prepend mem mem' out l r m :
  overwritten mem mem' (out + length l) (take out mem ++ l) ->
  ew_refines mem' (out + length l) r m ->
  ew_refines mem out (o ← r; Ok (l ++ o)) m.
Proof.
  intros (Hl & Ht & _). destruct r as [o| | |]; try done. cbn [ew_refines mbind result_bind].
  intros (mem'' & -> & Hl' & Ht' & Hn). exists mem''. rewrite length_app, Nat.add_assoc.
  rewrite Ht', Ht, app_assoc. split_and!; [done|congruence|done|lia].
Qed.

Lemma ew_finish_refines mem out i b :
  (out <= i <= length mem)%nat ->
  ew_refines mem out (Ok (drop i mem)) (ew_finish (EW mem out i (length mem - i) b)).
Proof.
  intros Ho. unfold ew_finish. cbn [ew_mem ew_out ew_in ew_length].
  rewrite <- (length_drop mem i).
  destruct (mem_move_spec mem out i (drop i mem) []) as (m & -> & (Hl & Ht & _) & _);
    [done|by rewrite app_nil_r|].
  rewrite bind_ret_l. cbn [ew_refines]. exists m. split_and!; try done. rewrite length_drop. lia.
Qed.

Lemma byte_before_add mem i a r :
  drop i mem = a ++ r -> (i <= length mem)%nat ->
  byte_before mem (i + length a) = last_byte (byte_before mem i) a.
Proof.
  intros Hd Hi. destruct a as [|c a _] using rev_ind.
  - by rewrite Nat.add_0_r.
  - unfold last_byte. rewrite last_snoc, length_app. cbn [length].
    replace (i + (length a + 1))%nat with (S (i + length a)) by lia. cbn [byte_before].
    rewrite <- lookup_drop, Hd, <- app_assoc, lookup_app_r by lia. by rewrite Nat.sub_diag.
Qed.

Lemma space_before_spec mem i :
  (0 < i <= length mem)%nat ->
  space_before mem i =
  Ok match byte_before mem i with None => true | Some c => c =? 32 end.
Proof.
  destruct i as [|i]; [lia|]. intros Hi. cbn [space_before byte_before].
  destruct (lookup_lt_is_Some_2 mem i) as [c ->]; [lia|done].
Qed.

(** One word: the memory run stores the decoded text below the part still to be
    read, so the list run sees the same input afterwards. *)
Lemma process_encoded_word_spec mem out i b :
  ew_buf b -> zlen mem <= 2 ^ 58 -> (out <= i <= length mem)%nat ->
  match read_encoded_word b (drop i mem) with
  | Ok (Some consumed, b') =>
      exists mem' l, buf_read (E := unit) b' 0 (buf_length b') = Ok l /\ ew_buf b' /\
        process_encoded_word (EW mem out i (length mem - i) b) =
          Ok (true, EW mem' (out + length l) (i + consumed) (length mem' - (i + consumed)) b') /\
        overwritten mem mem' (out + length l) (take out mem ++ l) /\
        (out + length l <= i + consumed <= length mem)%nat /\
        drop (i + consumed) mem' = drop consumed (drop i mem) /\
        byte_before mem' (i + consumed) = Some 61
  | Ok (None, b') =>
      ew_buf b' /\
      process_encoded_word (EW mem out i (length mem - i) b) =
        Ok (false, EW mem out i (length mem - i) b')
  | Err e => process_encoded_word (EW mem out i (length mem - i) b) = Err e
  | UB => process_encoded_word (EW mem out i (length mem - i) b) = UB
  | OutOfFuel => process_encoded_word (EW mem out i (length mem - i) b) = OutOfFuel
  end.
Proof.
  intros Hb Hm Ho. unfold process_encoded_word. cbn [ew_mem ew_in ew_length ew_out ew_decode_buf].
  rewrite mem_load_rest, bind_ret_l by lia.
  pose proof (read_encoded_word_spec b (drop i mem) Hb) as Hr.
  rewrite zlen_drop in Hr. specialize (Hr ltac:(pose proof (zlen_nonneg mem); lia)).
  destruct (read_encoded_word b (drop i mem)) as [[[consumed|] b']| | |]; try done.
  destruct Hr as (Hb' & Hc & Hlast & l & Hl & Hll). rewrite length_drop in Hc.
  destruct (mem_store_spec mem out l) as (mem' & Hs & Hov); [lia|].
  exists mem', l. rewrite bind_ret_l, Hl, bind_ret_l, Hs, bind_ret_l.
  split_and!; try done; try lia.
  - destruct Hov as (-> & _). by rewrite Nat.sub_add_distr.
  - rewrite drop_drop. apply (overwritten_drop _ _ _ _ _ Hov). lia.
  - replace (i + consumed)%nat with (S (i + (consumed - 1))) by lia. cbn [byte_before].
    rewrite (overwritten_lookup _ _ _ _ _ Hov) by lia. by rewrite <- lookup_drop.
Qed.

(** The test for a single space between two words. *)
Lemma is_space_spec had mem i a r :
  drop i mem = a ++ r -> (i + length a <= length mem)%nat ->
  (if had && (length a =? 1)%nat then space_before mem (i + length a) else Ok false)
  = (Ok (had && bytes_eqb a [32]) : result unit bool).
Proof.
  intros Hd Hl. destruct had; [|done]. cbn [andb].
  destruct (Nat.eqb_spec (length a) 1) as [Ha|Ha].
  - destruct a as [|c [|? ?]]; try done.
    rewrite space_before_spec, (byte_before_add mem i [c] _ Hd) by (cbn [length] in *; lia).
    cbn [last_byte last]. unfold bytes_eqb. f_equal. destruct (Z.eqb_spec c 32) as [->|Hc].
    + by rewrite bool_decide_true.
    + rewrite bool_decide_false; [done|]. by intros [= ->].
  - f_equal. symmetry. apply not_true_is_false. intros ->%bytes_eqb_true. done.
Qed.

(** The skipped bytes are moved, or left out as the space between two words. *)
Definition kept (is_space : bool) (a : list Z) : list Z := if is_space then [] else a.

Lemma skip_spec (is_space : bool) mem out i a r :
  (out <= i <= length mem)%nat -> drop i mem = a ++ r ->
  exists mem1,
    (if is_space then Ok (mem, out)
     else mem ← mem_move mem out i (length a); Ok (mem, (out + length a)%nat))
    = (Ok (mem1, (out + length (kept is_space a))%nat) : result unit (list Z * nat)) /\
    overwritten mem mem1 (out + length (kept is_space a)) (take out mem ++ kept is_space a) /\
    byte_before mem1 (i + length a) = byte_before mem (i + length a).
Proof.
  intros Ho Hd. destruct is_space; cbn [kept].
  - exists mem. cbn [length]. by rewrite Nat.add_0_r, app_nil_r.
  - destruct (mem_move_spec mem out i a _ Ho Hd) as (m & -> & ? & ?). by exists m.
Qed.

Lemma starts_spec mem mem1 i a r :
  drop i mem = a ++ r -> (i + length a <= length mem)%nat -> length mem1 = length mem ->
  byte_before mem1 (i + length a) = byte_before mem (i + length a) ->
  (if (i + length a =? 0)%nat then Ok true else space_before mem1 (i + length a))
  = (Ok match last_byte (byte_before mem i) a with None => true | Some c => c =? 32 end
     : result unit bool).
Proof.
  intros Hd Hl Hl1 Hbb. rewrite <- (byte_before_add mem i a _ Hd), <- Hbb by lia.
  destruct (Nat.eqb_spec (i + length a) 0) as [->|]; [done|]. apply space_before_spec. lia.
Qed.

(** Copying the mark keeps the byte in front of what follows it. *)
Lemma mark_before mem mem2 out i a r :
  drop i mem = a ++ str_bytes "=?" ++ r -> (out <= i)%nat ->
  overwritten mem mem2 (out + length (a ++ str_bytes "=?")) (take out mem ++ a ++ str_bytes "=?") ->
  (i + length a + 2 <= length mem)%nat ->
  byte_before mem2 (i + length a + 2) = Some 63.
Proof.
  intros Hd Ho Hov Hl. assert (Hl2 : length mem2 = length mem) by apply Hov.
  assert (Hale : length (a ++ str_bytes "=?") = (length a + 2)%nat) by (rewrite length_app; done).
  destruct (decide (out = i)) as [->|].
  - replace (i + length a + 2)%nat with (S (i + length a + 1)) by lia. cbn [byte_before].
    destruct Hov as (_ & Ht & _).
    rewrite <- (lookup_take_lt mem2 (i + length (a ++ str_bytes "=?"))), Ht by lia.
    rewrite lookup_app_r by (rewrite length_take; lia). rewrite length_take, Nat.min_l by lia.
    rewrite lookup_app_r by lia. by replace (_ - _ - _)%nat with 1%nat by lia.
  - replace (i + length a + 2)%nat with (S (i + (length a + 1))) by lia. cbn [byte_before].
    rewrite (overwritten_lookup _ _ _ _ _ Hov) by lia. rewrite <- lookup_drop, Hd.
    rewrite lookup_app_r by lia. by replace (length a + 1 - length a)%nat with 1%nat by lia.
Qed.

Section induction_step.
Context (fuel : nat).
Hypothesis IH : forall had b mem out i,
  ew_buf b -> zlen mem <= 2 ^ 58 -> (out <= i <= length mem)%nat ->
  ew_refines mem out (ew_spec fuel had (byte_before mem i) b (drop i mem))
    (ew_loop fuel had (EW mem out i (length mem - i) b) ≫= ew_finish).

(** The mark starts no word: it is copied. *)
Lemma copy_mark_refines (is_space : bool) mem mem1 out i a r b :
  ew_buf b -> zlen mem <= 2 ^ 58 -> (out <= i)%nat -> (i + length a + 2 <= length mem)%nat ->
  drop i mem = a ++ str_bytes "=?" ++ r -> (is_space = true -> a = [32]) ->
  overwritten mem mem1 (out + length (kept is_space a)) (take out mem ++ kept is_space a) ->
  let mark := (if is_space then [32] else []) ++ str_bytes "=?" in
  ew_refines mem out
    (o ← ew_spec fuel false (Some 63) b (drop (i + length a + 2) mem);
     Ok (a ++ str_bytes "=?" ++ o))
    ((mem2 ← mem_store mem1 (out + length (kept is_space a)) mark;
      ew_loop fuel false (EW mem2 (out + length (kept is_space a) + length mark)
        (i + length a + 2) (length mem1 - (i + length a + 2)) b)) ≫= ew_finish).
Proof.
  intros Hb Hm Ho Hl Hd Hsp Hov1 mark. assert (Hl1 : length mem1 = length mem) by apply Hov1.
  assert (Hmark : kept is_space a ++ mark = a ++ str_bytes "=?").
  { unfold kept, mark. destruct is_space; [|done]. by rewrite Hsp. }
  assert (Hale : length (a ++ str_bytes "=?") = (length a + 2)%nat) by (rewrite length_app; done).
  assert (Hml : (length (kept is_space a) + length mark = length a + 2)%nat).
  { rewrite <- Hale, <- Hmark, length_app. done. }
  destruct (mem_store_spec mem1 (out + length (kept is_space a)) mark) as (mem2 & -> & Hov2); [lia|].
  rewrite bind_ret_l. pose proof (mem_store_twice _ _ _ _ _ _ _ Hov1 Hov2) as Hov.
  rewrite Hmark in Hov.
  replace (out + length (kept is_space a) + length mark)%nat
    with (out + length (a ++ str_bytes "=?"))%nat in * by lia.
  assert (Hl2 : length mem2 = length mem) by apply Hov.
  rewrite <- (overwritten_drop _ _ _ _ (i + length a + 2) Hov) by lia.
  rewrite <- (mark_before _ _ _ _ _ _ Hd Ho Hov Hl), Hl1, <- Hl2.
  pose proof (IH false b mem2 (out + length (a ++ str_bytes "=?")) (i + length a + 2) Hb) as H2.
  unfold zlen in *. rewrite Hl2 in H2 at 1. specialize (H2 Hm ltac:(lia)).
  apply (ew_refines_prepend _ _ _ _ _ _ Hov) in H2.
  destruct (ew_spec fuel false _ b _); try done.
  cbn [mbind result_bind] in *. by rewrite <- app_assoc in H2.
Qed.

(** The mark starts a word, or it turns out not to. *)
Lemma word_refines (is_space : bool) mem mem1 out i a r b :
  ew_buf b -> zlen mem <= 2 ^ 58 -> (out <= i)%nat -> (i + length a + 2 <= length mem)%nat ->
  drop i mem = a ++ str_bytes "=?" ++ r -> (is_space = true -> a = [32]) ->
  overwritten mem mem1 (out + length (kept is_space a)) (take out mem ++ kept is_space a) ->
  let data := EW mem1 (out + length (kept is_space a)) (i + length a + 2)
                 (length mem1 - (i + length a + 2)) b in
  ew_refines mem out
    ('(c, b) ← read_encoded_word b (drop (i + length a + 2) mem);
     match c with
     | Some consumed =>
         decoded ← buf_read b 0 (buf_length b);
         o ← ew_spec fuel true (Some 61) b (drop consumed (drop (i + length a + 2) mem));
         Ok (kept is_space a ++ decoded ++ o)
     | None =>
         o ← ew_spec fuel false (Some 63) b (drop (i + length a + 2) mem);
         Ok (a ++ str_bytes "=?" ++ o)
     end)
    (('(ok, data) ← process_encoded_word data;
      if (ok : bool) then ew_loop fuel true data
      else
        let mark := (if is_space then [32] else []) ++ str_bytes "=?" in
        mem ← mem_store (ew_mem data) (ew_out data) mark;
        ew_loop fuel false (EW mem (ew_out data + length mark) (ew_in data) (ew_length data)
                               (ew_decode_buf data))) ≫= ew_finish).
Proof.
  intros Hb Hm Ho Hl Hd Hsp Hov1 data. assert (Hl1 : length mem1 = length mem) by apply Hov1.
  assert (Hkl : (length (kept is_space a) <= length a)%nat)
    by (unfold kept; destruct is_space; cbn [length]; lia).
  assert (Hm1 : zlen mem1 <= 2 ^ 58) by (unfold zlen; by rewrite Hl1).
  pose proof (process_encoded_word_spec mem1 (out + length (kept is_space a)) (i + length a + 2) b
    Hb Hm1 ltac:(lia)) as Hp.
  rewrite (overwritten_drop _ _ _ _ (i + length a + 2) Hov1) in Hp by lia. fold data in Hp.
  destruct (read_encoded_word b (drop (i + length a + 2) mem)) as [[[consumed|] b']| | |];
    [| |by rewrite Hp..].
  - destruct Hp as (mem2 & l & Hbl & Hb' & -> & Hov2 & Hle & Hd2 & Hbb2).
    rewrite !bind_ret_l, Hbl, bind_ret_l.
    pose proof (mem_store_twice _ _ _ _ _ _ _ Hov1 Hov2) as Hov.
    assert (Hl2 : length mem2 = length mem) by apply Hov.
    rewrite <- Hd2, <- Hbb2.
    pose proof (IH true b' mem2 (out + length (kept is_space a) + length l)
      (i + length a + 2 + consumed) Hb') as H2.
    unfold zlen in *. rewrite Hl2 in H2 at 1. specialize (H2 Hm ltac:(lia)).
    replace (out + length (kept is_space a) + length l)%nat
      with (out + length (kept is_space a ++ l))%nat in * by (rewrite length_app; lia).
    apply (ew_refines_prepend _ _ _ _ _ _ Hov) in H2.
    destruct (ew_spec fuel true _ b' _); try done.
    cbn [mbind result_bind] in *. by rewrite <- app_assoc in H2.
  - destruct Hp as [Hb' ->]. rewrite !bind_ret_l.
    by apply (copy_mark_refines is_space mem mem1 out i a r b').
Qed.
End induction_step.

Lemma ew_loop_refines fuel : forall had b mem out i,
  ew_buf b -> zlen mem <= 2 ^ 58 -> (out <= i <= length mem)%nat ->
  ew_refines mem out (ew_spec fuel had (byte_before mem i) b (drop i mem))
    (ew_loop fuel had (EW mem out i (length mem - i) b) ≫= ew_finish).
Proof.
  induction fuel as [|fuel IH]; intros had b mem out i Hb Hm Ho.
  { cbn [ew_spec ew_loop ew_mem ew_in ew_length]. rewrite mem_load_rest, bind_ret_l by lia.
    destruct (find_string (drop i mem) (str_bytes "=?")); [done|]. by apply ew_finish_refines. }
  cbn [ew_spec ew_loop ew_mem ew_in ew_length ew_out ew_decode_buf].
  rewrite mem_load_rest, bind_ret_l by lia.
  destruct (find_string (drop i mem) (str_bytes "=?")) as [k|] eqn:Ef;
    [|by apply ew_finish_refines].
  apply find_string_Some in Ef as (a & r & Hd & Hk). subst k.
  assert (Hlen : (length mem = i + length a + 2 + length r)%nat).
  { apply (f_equal length) in Hd. rewrite length_drop, !length_app in Hd.
    change (length (str_bytes "=?")) with 2%nat in Hd. lia. }
  rewrite (is_space_spec _ _ _ _ _ Hd), bind_ret_l by lia.
  replace (take (length a) (drop i mem)) with a by (by rewrite Hd, take_app_length).
  replace (drop (length a + 2) (drop i mem)) with (drop (i + length a + 2) mem)
    by (rewrite drop_drop; f_equal; lia).
  set (is_space := had && bytes_eqb a [32]).
  assert (Hsp : is_space = true -> a = [32]).
  { unfold is_space. intros [_ E]%andb_true_iff. by apply bytes_eqb_true in E. }
  destruct (skip_spec is_space mem out i a _ Ho Hd) as (mem1 & -> & Hov1 & Hbb1).
  assert (Hl1 : length mem1 = length mem) by apply Hov1.
  rewrite bind_ret_l, (starts_spec _ mem1 _ _ _ Hd), bind_ret_l by (done || lia).
  replace (length mem - i - (length a + 2))%nat with (length mem1 - (i + length a + 2))%nat by lia.
  destruct (match last_byte _ a with None => true | Some c => c =? 32 end).
  - by apply (word_refines fuel IH is_space mem mem1 out i a r b); try done; lia.
  - rewrite !bind_ret_l. cbn [ew_mem ew_in ew_length ew_out ew_decode_buf].
    by apply (copy_mark_refines fuel IH is_space mem mem1 out i a r b); try done; lia.
Qed.

(** ** Totality *)

(** No suffix of the header looks like the start of a base64 word. *)
Definition no_base64 (h : list Z) : Prop :=
  forall n t, word_header (drop n h) <> Some (NTB_ENCODED_WORDS_ENCODING_BASE64, t).

Lemma no_base64_drop n h : no_base64 h -> no_base64 (drop n h).
Proof. intros Hh m t. rewrite drop_drop. apply Hh. Qed.

Lemma read_encoded_word_no_base64 b i :
  ew_buf b -> zlen i <= 2 ^ 58 -> no_base64 i -> read_encoded_word b i <> UB.
Proof.
  intros Hb Hi Hn. unfold read_encoded_word.
  destruct (word_header i) as [[e t]|] eqn:Eh; [|done].
  destruct (find_string t (str_bytes "?=")) as [k|]; [|done]. destruct (existsb _ _); [done|].
  destruct e; [|by destruct (Hn O t)]. set (b0 := Buf _ _ _).
  apply word_header_Some in Eh as (n & -> & _).
  destruct (process_qp_spec b0 (take k (drop n i))) as (b' & _ & Hr).
  - destruct Hb as [(? & ? & ?) ?]. unfold b0, ew_buf, buf_wf. cbn. split_and!; try done; lia.
  - done.
  - rewrite zlen_take, zlen_drop. pose proof (zlen_nonneg i). lia.
  - destruct (qp_decode_pieces _ _); [destruct Hr as [-> _]|rewrite Hr..]; done.
Qed.

Lemma ew_spec_total fuel had prev b h :
  ew_buf b -> zlen h <= 2 ^ 58 -> (length h <= fuel)%nat ->
  (exists o, ew_spec fuel had prev b h = Ok o) \/
  ew_spec fuel had prev b h = UB /\ ~ no_base64 h.
Proof.
  revert had prev b h. induction fuel as [|fuel IH]; intros had prev b h Hb Hz Hf.
  { destruct h; [|cbn in Hf; lia]. left. eexists. reflexivity. }
  cbn [ew_spec]. destruct (find_string h (str_bytes "=?")) as [k|] eqn:Ef; [|eauto].
  apply find_string_Some in Ef as (a & r & -> & <-).
  rewrite !length_app in Hf. change (length (str_bytes "=?")) with 2%nat in Hf.
  set (h := a ++ str_bytes "=?" ++ r) in *. set (rest := drop (length a + 2) h).
  assert (Hr : (length rest <= fuel)%nat).
  { unfold rest, h. rewrite length_drop, !length_app. cbn [length str_bytes]. 
    change (length (str_bytes "=?")) with 2%nat. lia. }
  assert (Hrz : zlen rest <= 2 ^ 58) by (unfold rest; rewrite zlen_drop; pose proof (zlen_nonneg h); lia).
  assert (Hw : match (if match last_byte prev (take (length a) h) with
                         | None => true | Some c => c =? 32 end
                      then read_encoded_word b rest else Ok (None, b)) with
    | Ok (Some consumed, b') => ew_buf b' /\
        exists l, buf_read (E := unit) b' 0 (buf_length b') = Ok l
    | Ok (None, b') => ew_buf b'
    | UB => ~ no_base64 rest
    | Err _ | OutOfFuel => False
    end).
  { destruct (match last_byte _ _ with None => true | Some c => c =? 32 end); [|done].
    pose proof (read_encoded_word_spec b rest Hb Hrz) as Hs.
    pose proof (read_encoded_word_no_base64 b rest Hb Hrz) as Hn.
    destruct (read_encoded_word b rest) as [[[c|] b']| | |]; try done; [|tauto].
    destruct Hs as (? & _ & _ & l & ? & _). eauto. }
  destruct (if match last_byte _ _ with None => true | Some c => c =? 32 end then _ else _)
    as [[[consumed|] b']| | |]; try done; rewrite ?bind_ret_l.
  - destruct Hw as (Hb' & l & ->). rewrite bind_ret_l.
    destruct (IH true (Some 61) b' (drop consumed rest)) as [[o ->]|[-> Hn]];
      [done|rewrite zlen_drop; pose proof (zlen_nonneg rest); lia|rewrite length_drop; lia| |].
    + left. eexists. reflexivity.
    + right. split; [done|]. intros Hh. apply Hn. by do 2 apply no_base64_drop.
  - destruct (IH false (Some 63) b' rest) as [[o ->]|[-> Hn]]; [done..| |].
    + left. eexists. reflexivity.
    + right. split; [done|]. intros Hh. apply Hn. by apply no_base64_drop.
  - right. split; [done|]. intros Hh. apply Hw. by apply no_base64_drop.
Qed.

Lemma ew_buf_init : ew_buf ntb_buffer_init.
Proof. by apply (bool_decide_unpack _). Qed.

(** Decoding in place refines decoding between lists. *)
Lemma encoded_words_core h :
  zlen h <= 2 ^ 58 ->
  match ew_spec (length h) false None ntb_buffer_init h with
  | Ok o => exists mem, ntb_encoded_words_decode h = Ok (mem, length o) /\
      take (length o) mem = o /\ (length o <= length h)%nat /\ length mem = length h
  | UB => ntb_encoded_words_decode h = UB /\ ~ no_base64 h
  | Err _ | OutOfFuel => False
  end.
Proof.
  intros Hz. pose proof (ew_loop_refines (length h) false ntb_buffer_init h 0 0 ew_buf_init Hz
    ltac:(lia)) as Hr.
  cbn [byte_before] in Hr. rewrite drop_0, Nat.sub_0_r in Hr.
  assert (E : ntb_encoded_words_decode h =
    ew_loop (length h) false (EW h 0 0 (length h) ntb_buffer_init) ≫= ew_finish) by done.
  rewrite E. destruct (ew_spec_total (length h) false None ntb_buffer_init h ew_buf_init Hz)
    as [[o Ho]|[Hu Hn]]; [done| |]; [rewrite Ho in *|rewrite Hu in *]; cbn [ew_refines] in Hr; [|done].
  destruct Hr as (mem & -> & Hl & Ht & Hle). by exists mem.
Qed.

(** ** Properties *)

(** Decoding a header in place gives what decoding it between two separate
    lists gives, and never reads or writes outside the header; the only way to an
    undefined access is a base64 word. The header never gets longer. *)
Theorem encoded_words_in_place h :
  zlen h <= 2 ^ 58 ->
  match ew_spec (length h) false None ntb_buffer_init h with
  | Ok o => exists mem, ntb_encoded_words_decode h = Ok (mem, length o) /\
      take (length o) mem = o /\ (length o <= length h)%nat /\ length mem = length h
  | UB => ntb_encoded_words_decode h = UB /\ ~ no_base64 h
  | Err _ | OutOfFuel => False
  end.
Proof. apply encoded_words_core. Qed.

Lemma encoded_words_in_place_witness :
  match ew_spec (length (str_bytes "a =?utf-8?q?=62_c?= d")) false None ntb_buffer_init
          (str_bytes "a =?utf-8?q?=62_c?= d") with
  | Ok o => exists mem,
      ntb_encoded_words_decode (str_bytes "a =?utf-8?q?=62_c?= d") = Ok (mem, length o) /\
      take (length o) mem = o /\ (length o <= length (str_bytes "a =?utf-8?q?=62_c?= d"))%nat /\
      length mem = length (str_bytes "a =?utf-8?q?=62_c?= d")
  | UB => ntb_encoded_words_decode (str_bytes "a =?utf-8?q?=62_c?= d") = UB /\
          ~ no_base64 (str_bytes "a =?utf-8?q?=62_c?= d")
  | Err _ | OutOfFuel => False
  end.
Proof. apply (encoded_words_in_place (str_bytes "a =?utf-8?q?=62_c?= d")). vm_compute. congruence. Defined.

Lemma find_string_absent w needle1 r :
  Forall (fun c => c <> needle1) w ->
  find_string (w ++ needle1 :: r) (needle1 :: take 1 r) = Some (length w) \/ r = [].
Proof.
  intros Hw. destruct r as [|x r]; [by right|]. left. cbn [take]. rewrite take_0.
  induction Hw as [|c w Hc Hw IH].
  - cbn [app find_string]. rewrite decide_True by (cbn [length]; lia).
    cbn [length take]. rewrite take_0, bytes_eqb_refl. done.
  - cbn [app find_string]. rewrite decide_True by (rewrite ?length_app; cbn [length]; rewrite ?length_app; cbn [length]; lia).
    replace (bytes_eqb _ _) with false; [by rewrite IH|]. symmetry. apply not_true_is_false.
    cbn [length take]. rewrite bytes_eqb_true. intros [= -> _]. done.
Qed.

Lemma looking_at_app s t r :
  (fun c => ntb_ascii_tolower (s8 c)) <$> t = s -> looking_at (t ++ r) s = Some r.
Proof.
  intros Hs. assert (Hl : length s = length t) by (by rewrite <- Hs, length_fmap).
  unfold looking_at. rewrite Hl, decide_False by (rewrite length_app; lia).
  by rewrite take_app_length, drop_app_length, Hs, bytes_eqb_refl.
Qed.

Lemma word_header_utf8_q r :
  word_header (str_bytes "utf-8?q?" ++ r) = Some (NTB_ENCODED_WORDS_ENCODING_QUOTED_PRINTABLE, r).
Proof.
  unfold word_header.
  assert (looking_at (str_bytes "utf-8?q?" ++ r) (str_bytes "us-ascii?") = None) as ->.
  { unfold looking_at. case_decide; [done|]. destruct (bytes_eqb _ _) eqn:E; [|done].
    apply bytes_eqb_true in E. discriminate E. }
  change (str_bytes "utf-8?q?" ++ r) with (str_bytes "utf-8?" ++ str_bytes "q?" ++ r).
  by rewrite !looking_at_app.
Qed.

Lemma ew_spec_one_word f w l :
  zlen w <= 2 ^ 57 -> Forall (fun c => c <> 32 /\ c <> 63) w -> qp_text true w l ->
  ew_spec (S (S f)) false None ntb_buffer_init (str_bytes "=?utf-8?q?" ++ w ++ str_bytes "?=") = Ok l.
Proof.
  intros Hz Hw Hq. set (h := str_bytes "=?utf-8?q?" ++ w ++ str_bytes "?=").
  assert (Hfind : find_string (w ++ str_bytes "?=") (str_bytes "?=") = Some (length w)).
  { destruct (find_string_absent w 63 [61]) as [E|E]; [|exact E|done].
    eapply Forall_impl; [exact Hw|]. by intros c [_ ?]. }
  assert (Hr : exists b, read_encoded_word ntb_buffer_init (drop (0 + 2) h)
      = Ok (Some (8 + length w + 2)%nat, b) /\ ew_buf b /\ cells b = Some <$> l /\
      buf_length b = zlen l).
  { unfold read_encoded_word.
    change (drop (0 + 2) h) with (str_bytes "utf-8?q?" ++ w ++ str_bytes "?=") at 1.
    rewrite word_header_utf8_q, Hfind. rewrite take_app_length.
    replace (existsb _ w) with false.
    2: { symmetry. apply not_true_is_false. intros (c & Hc & Ht)%existsb_exists.
         rewrite List.Forall_forall in Hw. destruct (Hw c Hc).
         apply orb_true_iff in Ht as [?%Z.eqb_eq|?%Z.eqb_eq]; lia. }
    destruct (process_qp_spec (Buf (buf_data ntb_buffer_init) 0 (buf_size ntb_buffer_init)) w)
      as (b & Hb & Hr); [apply ew_buf_init|done|lia|].
    assert (E : qp_decode_pieces (ntb_quoted_printable_decode_start true) [w] = Ok l).
    { rewrite qp_decode_pieces_run. cbn [concat]. rewrite app_nil_r.
      by apply qp_run_complete. }
    rewrite E in Hr. destruct Hr as (-> & Hc & Hl). rewrite bind_ret_l. exists b.
    split_and!; try done. do 3 f_equal. unfold h. rewrite length_drop, !length_app.
    change (length (str_bytes "=?utf-8?q?")) with 10%nat. lia. }
  destruct Hr as (b & Hr & Hb & Hc & Hl).
  change (ew_spec (S (S f)) false None ntb_buffer_init h) with
    ('(r, b) ← read_encoded_word ntb_buffer_init (drop (0 + 2) h);
     match r with
     | Some consumed =>
         decoded ← buf_read b 0 (buf_length b);
         out ← ew_spec (S f) true (Some 61) b (drop consumed (drop (0 + 2) h));
         Ok ([] ++ decoded ++ out)
     | None => out ← ew_spec (S f) false (Some 63) b (drop (0 + 2) h); Ok ([] ++ str_bytes "=?" ++ out)
     end).
  rewrite Hr, bind_ret_l, (buf_read_all b l), bind_ret_l by done.
  assert (drop (8 + length w + 2) (drop (0 + 2) h) = []) as ->.
  { apply drop_ge. unfold h. rewrite length_drop, !length_app.
    change (length (str_bytes "=?utf-8?q?")) with 10%nat.
    change (length (str_bytes "?=")) with 2%nat. lia. }
  change (ew_spec (S f) true (Some 61) b []) with (Ok [] : result unit (list Z)).
  rewrite bind_ret_l. cbn [app]. by rewrite app_nil_r.
Qed.

(** A header that is one quoted-printable word decodes to the bytes the text
    of the word stands for. *)
Theorem encoded_word_quoted_printable w l :
  zlen w <= 2 ^ 57 -> Forall (fun c => c <> 32 /\ c <> 63) w -> qp_text true w l ->
  exists mem,
    ntb_encoded_words_decode (str_bytes "=?utf-8?q?" ++ w ++ str_bytes "?=") = Ok (mem, length l) /\
    take (length l) mem = l.
Proof.
  intros Hz Hw Hq. set (h := str_bytes "=?utf-8?q?" ++ w ++ str_bytes "?=").
  assert (Hh : zlen h <= 2 ^ 58).
  { unfold h. rewrite !zlen_app. change (zlen (str_bytes "=?utf-8?q?")) with 10.
    change (zlen (str_bytes "?=")) with 2. lia. }
  pose proof (ew_loop_refines (length h) false ntb_buffer_init h 0 0 ew_buf_init Hh
    ltac:(lia)) as Hr.
  cbn [byte_before] in Hr. rewrite drop_0, Nat.sub_0_r in Hr.
  change (length h) with (S (S (length (drop 2 h)))) in Hr at 1.
  pose proof (ew_spec_one_word (length (drop 2 h)) w l Hz Hw Hq) as E1. fold h in E1.
  rewrite E1 in Hr.
  destruct Hr as (mem & E & _ & Ht & _). exists mem. split; [exact E|exact Ht].
Qed.

Lemma encoded_word_quoted_printable_witness :
  exists mem,
    ntb_encoded_words_decode (str_bytes "=?utf-8?q?" ++ str_bytes "a=C3_" ++ str_bytes "?=")
      = Ok (mem, 3%nat) /\ take 3 mem = [97; 195; 32].
Proof.
  apply (encoded_word_quoted_printable (str_bytes "a=C3_") [97; 195; 32]).
  - vm_compute. congruence.
  - apply (bool_decide_unpack _). vm_compute. exact I.
  - apply (qp_literal true 97); [lia|].
    apply (qp_escape true 67 51); [vm_compute; congruence..|].
    apply (qp_literal true 95); [lia|]. apply qp_nil.
Defined.

(** A base64 word of 44 characters, which is well within the limit for a mail
    header, makes the decoder store one byte behind the end of the heap block of its
    buffer, because the chunk size ignores the characters the codec has pending. *)
Theorem encoded_word_base64_overflows :
  ntb_encoded_words_decode (str_bytes "=?utf-8?b?" ++ replicate 44 65 ++ str_bytes "?=") = UB.
Proof. vm_compute. reflexivity. Qed.
