(* ===== verification/HashTable.v ===== *)
(** * HashTable: the table of objects indexed by their hash (ntb-hash-table.c)

    A value is the address of an object that holds its own hash at
    [hash_offset]; [hash_of] reads it and the address is what [remove] compares.
    A bucket is the list of the data pointers of its chain, first entry first.
    The abstract view is a finite map from hashes to addresses. *)

From S2P Require Import Prelude Endian Proto.

Section hash_table.
Context {V : Type} `{EqDecision V}.
(** [(const uint8_t * ) value + hash_table->hash_offset]: the hash does not change
    while the object is in the table. *)
Context (hash_of : V -> list Z).

Record ntb_hash_table := HashTable {
  ht_size : Z;
  ht_n_entries : Z;
  ht_entries : list (list V)
}.

(** The fields [alloc_entries] sets: [entries] and [size]. *)
Definition alloc_entries (n_entries size : Z) : ntb_hash_table :=
  HashTable size n_entries (replicate (Z.to_nat size) []).

Definition ntb_hash_table_new : ntb_hash_table := alloc_entries 0 8.

Definition get_index (t : ntb_hash_table) (hash : list Z) : Z :=
  let index := native_load host (take 4 hash) in
  u32 (Z.land index (u64 (ht_size t - 1))).

(** [hash_table->entries[index]] *)
Definition bucket (t : ntb_hash_table) (index : Z) : list V :=
  default [] (ht_entries t !! Z.to_nat index).

Definition ntb_hash_table_get (t : ntb_hash_table) (hash : list Z) : option V :=
  List.find (fun v => bytes_eqb hash (hash_of v)) (bucket t (get_index t hash)).

Definition insert_entry_at_index (t : ntb_hash_table) (value : V) (index : Z) : ntb_hash_table :=
  HashTable (ht_size t) (ht_n_entries t)
    (<[Z.to_nat index := value :: bucket t index]> (ht_entries t)).

(** The nested loops over the old entries. *)
Fixpoint reinsert (t : ntb_hash_table) (chain : list V) : ntb_hash_table :=
  match chain with
  | [] => t
  | v :: chain => reinsert (insert_entry_at_index t v (get_index t (hash_of v))) chain
  end.

Definition ntb_hash_table_grow (t : ntb_hash_table) : ntb_hash_table :=
  fold_left reinsert (ht_entries t) (alloc_entries (ht_n_entries t) (u64 (ht_size t * 2))).

(** Replacing the data of the first entry with the hash. *)
Fixpoint replace_in_chain (hash : list Z) (value : V) (chain : list V) : option (V * list V) :=
  match chain with
  | [] => None
  | v :: chain =>
      if bytes_eqb hash (hash_of v) then Some (v, value :: chain)
      else match replace_in_chain hash value chain with
           | Some (old, chain) => Some (old, v :: chain)
           | None => None
           end
  end.

Definition ntb_hash_table_set (t : ntb_hash_table) (value : V) : option V * ntb_hash_table :=
  let hash := hash_of value in
  let index := get_index t hash in
  match replace_in_chain hash value (bucket t index) with
  | Some (old_value, chain) =>
      (Some old_value,
       HashTable (ht_size t) (ht_n_entries t) (<[Z.to_nat index := chain]> (ht_entries t)))
  | None =>
      let t := if u64 (ht_size t * 3) / 4 <=? ht_n_entries t then ntb_hash_table_grow t else t in
      let t := insert_entry_at_index t value (get_index t hash) in
      (None, HashTable (ht_size t) (u64 (ht_n_entries t + 1)) (ht_entries t))
  end.

(** Unlinking the first entry whose data is [value]. *)
Fixpoint unlink (value : V) (chain : list V) : option (list V) :=
  match chain with
  | [] => None
  | v :: chain =>
      if bool_decide (v = value) then Some chain
      else match unlink value chain with Some chain => Some (v :: chain) | None => None end
  end.

Definition ntb_hash_table_remove (t : ntb_hash_table) (value : V) : bool * ntb_hash_table :=
  let index := get_index t (hash_of value) in
  match unlink value (bucket t index) with
  | Some chain =>
      (true, HashTable (ht_size t) (u64 (ht_n_entries t - 1))
               (<[Z.to_nat index := chain]> (ht_entries t)))
  | None => (false, t)
  end.

(** ** Invariant *)

Definition contents (t : ntb_hash_table) : list V := concat (ht_entries t).

(** The map the table stands for. *)
Definition ht_map (t : ntb_hash_table) : gmap (list Z) V :=
  list_to_map ((fun v => (hash_of v, v)) <$> contents t).

(** The array is a power of two and every entry is in the bucket of its hash. *)
Record ht_shape (t : ntb_hash_table) : Prop := {
  sh_size : exists k, 3 <= k <= 62 /\ ht_size t = 2 ^ k;
  sh_length : zlen (ht_entries t) = ht_size t;
  sh_place : forall i chain v, ht_entries t !! i = Some chain -> v ∈ chain ->
    Z.of_nat i = get_index t (hash_of v)
}.

(** Hashes are unique, the counter is right and at most three quarters of the
    array are used. *)
Record ht_wf (t : ntb_hash_table) : Prop := {
  wf_shape : ht_shape t;
  wf_unique : NoDup (hash_of <$> contents t);
  wf_count : ht_n_entries t = zlen (contents t);
  wf_load : ht_n_entries t <= ht_size t * 3 / 4
}.

Implicit Types (t : ntb_hash_table) (v : V) (h : list Z) (chain : list V).

(** ** Buckets *)

Lemma get_index_range t h :
  ht_shape t -> 0 <= get_index t h < ht_size t.
Proof.
  intros [(k & Hk & Hs) _ _]. unfold get_index. rewrite Hs.
  assert (2 ^ 3 <= 2 ^ k <= 2 ^ 62) by (split; apply Z.pow_le_mono_r; lia).
  rewrite u64_small by lia. replace (2 ^ k - 1) with (Z.ones k) by (rewrite Z.ones_equiv; lia).
  rewrite Z.land_ones by lia. set (x := native_load _ _).
  pose proof (Z.mod_pos_bound x (2 ^ k) ltac:(lia)). unfold u32.
  pose proof (Z.mod_le (x mod 2 ^ k) (2 ^ 32) ltac:(lia) ltac:(lia)).
  pose proof (Z.mod_pos_bound (x mod 2 ^ k) (2 ^ 32) ltac:(lia)). lia.
Qed.

Lemma bucket_lookup t i :
  ht_shape t -> 0 <= i < ht_size t -> ht_entries t !! Z.to_nat i = Some (bucket t i).
Proof.
  intros [_ Hl _] Hi. unfold bucket.
  destruct (lookup_lt_is_Some_2 (ht_entries t) (Z.to_nat i)) as [c ->]; [|done].
  unfold zlen in Hl. lia.
Qed.

Lemma contents_split t i :
  ht_shape t -> 0 <= i < ht_size t ->
  exists rest, contents t ≡ₚ bucket t i ++ rest /\
    forall chain, concat (<[Z.to_nat i := chain]> (ht_entries t)) ≡ₚ chain ++ rest.
Proof.
  intros Hs Hi. pose proof (bucket_lookup t i Hs Hi) as Hb.
  exists (concat (take (Z.to_nat i) (ht_entries t)) ++ concat (drop (S (Z.to_nat i)) (ht_entries t))).
  split.
  - unfold contents. rewrite <- (take_drop_middle _ _ _ Hb) at 1. rewrite concat_app. cbn [concat].
    by rewrite Permutation_app_swap_app.
  - intros chain. rewrite insert_take_drop by (by apply lookup_lt_Some in Hb).
    rewrite concat_app. cbn [concat]. by rewrite Permutation_app_swap_app.
Qed.

Lemma elem_of_bucket t v :
  ht_shape t -> v ∈ contents t <-> v ∈ bucket t (get_index t (hash_of v)).
Proof.
  intros Hs. pose proof (get_index_range t (hash_of v) Hs) as Hi. split.
  - unfold contents. rewrite list_elem_of_In, in_concat. intros (c & Hc & Hv).
    apply list_elem_of_In in Hc. apply list_elem_of_In in Hv. apply list_elem_of_lookup in Hc as [i Hc].
    pose proof (sh_place t Hs i c v Hc Hv) as E. unfold bucket. rewrite <- E, Nat2Z.id, Hc. done.
  - intros Hv. destruct (contents_split t _ Hs Hi) as (rest & -> & _). apply elem_of_app. by left.
Qed.

Lemma elem_of_bucket_index t v i :
  ht_shape t -> 0 <= i < ht_size t -> v ∈ bucket t i -> get_index t (hash_of v) = i.
Proof.
  intros Hs Hi Hv. rewrite <- (sh_place t Hs (Z.to_nat i) (bucket t i) v); [lia| |done].
  by apply bucket_lookup.
Qed.

(** Changing one bucket. *)
Lemma shape_update t n i chain :
  ht_shape t -> 0 <= i < ht_size t -> (forall v, v ∈ chain -> get_index t (hash_of v) = i) ->
  ht_shape (HashTable (ht_size t) n (<[Z.to_nat i := chain]> (ht_entries t))).
Proof.
  intros Hs Hi Hc. destruct Hs as [Hk Hl Hp]. split; cbn [ht_size ht_entries].
  - done.
  - unfold zlen. by rewrite length_insert.
  - intros j c v Hj Hv. change (get_index _ (hash_of v)) with (get_index t (hash_of v)).
    destruct (decide (j = Z.to_nat i)) as [->|Hne].
    + rewrite list_lookup_insert_eq in Hj by (unfold zlen in Hl; lia). injection Hj as <-.
      rewrite (Hc v Hv). lia.
    + rewrite list_lookup_insert_ne in Hj by done. by apply (Hp j c v).
Qed.

(** ** The map *)

Lemma ht_map_lookup t h v :
  NoDup (hash_of <$> contents t) ->
  ht_map t !! h = Some v <-> v ∈ contents t /\ hash_of v = h.
Proof.
  intros Hn. unfold ht_map. rewrite <- elem_of_list_to_map.
  - rewrite list_elem_of_fmap. naive_solver.
  - rewrite <- list_fmap_compose. exact Hn.
Qed.

(** The map only depends on which entries there are. *)
Lemma ht_map_perm t t' :
  contents t ≡ₚ contents t' -> NoDup (hash_of <$> contents t) -> ht_map t = ht_map t'.
Proof.
  intros Hp Hn. unfold ht_map. apply list_to_map_proper; [|by rewrite Hp].
  rewrite <- list_fmap_compose. exact Hn.
Qed.

Lemma get_spec t h :
  ht_wf t -> ntb_hash_table_get t h = ht_map t !! h.
Proof.
  intros [Hs Hn _ _]. unfold ntb_hash_table_get.
  destruct (List.find _ _) as [v|] eqn:E; symmetry.
  - apply find_some in E as [Hv ->%bytes_eqb_true]. apply ht_map_lookup; [done|].
    split; [|done]. apply elem_of_bucket; [done|]. by apply list_elem_of_In.
  - apply eq_None_not_Some. intros [v [Hv <-]%ht_map_lookup]; [|done].
    apply elem_of_bucket in Hv; [|done]. apply list_elem_of_In in Hv.
    pose proof (find_none _ _ E v Hv) as Hf. cbv beta in Hf. by rewrite bytes_eqb_refl in Hf.
Qed.

Lemma new_wf : ht_wf ntb_hash_table_new /\ ht_map ntb_hash_table_new = ∅.
Proof.
  split; [|done]. split; try done; [|constructor].
  split; [by exists 3|done|]. intros i c v Hi Hv. exfalso.
  apply (list_elem_of_lookup_2 (replicate 8 []) i) in Hi. apply elem_of_replicate in Hi as [-> _].
  by apply elem_of_nil in Hv.
Qed.

(** ** Growing *)

Lemma insert_entry_spec t v :
  ht_shape t ->
  let t' := insert_entry_at_index t v (get_index t (hash_of v)) in
  ht_shape t' /\ contents t' ≡ₚ v :: contents t /\ ht_size t' = ht_size t /\
  ht_n_entries t' = ht_n_entries t.
Proof.
  intros Hs t'. pose proof (get_index_range t (hash_of v) Hs) as Hi. split_and!; try done.
  - apply shape_update; [done..|]. intros w [->|Hw]%elem_of_cons; [done|].
    by apply elem_of_bucket_index.
  - destruct (contents_split t _ Hs Hi) as (rest & Hc & Hu).
    unfold t', insert_entry_at_index, contents. cbn [ht_entries]. rewrite Hu.
    fold (contents t). by rewrite Hc.
Qed.

Lemma reinsert_spec t chain :
  ht_shape t ->
  ht_shape (reinsert t chain) /\ contents (reinsert t chain) ≡ₚ chain ++ contents t /\
  ht_size (reinsert t chain) = ht_size t /\ ht_n_entries (reinsert t chain) = ht_n_entries t.
Proof.
  revert t. induction chain as [|v chain IH]; intros t Hs; [done|]. cbn [reinsert].
  destruct (insert_entry_spec t v Hs) as (Hs' & Hc' & Hz' & Hn').
  destruct (IH _ Hs') as (Hs2 & Hc2 & Hz2 & Hn2). split_and!; [done| |congruence..].
  rewrite Hc2, Hc'. cbn [app]. by rewrite <- Permutation_middle.
Qed.

Lemma reinsert_all_spec chains t :
  ht_shape t ->
  let t' := fold_left reinsert chains t in
  ht_shape t' /\ contents t' ≡ₚ concat chains ++ contents t /\
  ht_size t' = ht_size t /\ ht_n_entries t' = ht_n_entries t.
Proof.
  revert t. induction chains as [|c chains IH]; intros t Hs; [done|]. cbn [fold_left concat].
  destruct (reinsert_spec t c Hs) as (Hs' & Hc' & Hz' & Hn').
  destruct (IH _ Hs') as (Hs2 & Hc2 & Hz2 & Hn2). cbv zeta. split_and!; [done| |congruence..].
  rewrite Hc2, Hc'. rewrite <- app_assoc. apply Permutation_app_swap_app.
Qed.

Lemma contents_replicate n m k : contents (HashTable n m (replicate k [])) = [].
Proof. unfold contents. cbn [ht_entries]. induction k; done. Qed.

Lemma grow_spec t :
  ht_shape t -> ht_size t <= 2 ^ 61 ->
  ht_shape (ntb_hash_table_grow t) /\ contents (ntb_hash_table_grow t) ≡ₚ contents t /\
  ht_size (ntb_hash_table_grow t) = 2 * ht_size t /\
  ht_n_entries (ntb_hash_table_grow t) = ht_n_entries t.
Proof.
  intros Hs Hle. destruct (sh_size t Hs) as (k & Hk & E). unfold ntb_hash_table_grow.
  assert (k <= 61) by (apply (Z.pow_le_mono_r_iff 2); lia).
  pose proof (Z.pow_pos_nonneg 2 k). rewrite u64_small by lia.
  assert (Hs0 : ht_shape (alloc_entries (ht_n_entries t) (ht_size t * 2))).
  { split; cbn [alloc_entries ht_size ht_entries].
    - exists (k + 1). rewrite Z.pow_add_r by lia. lia.
    - rewrite zlen_replicate. lia.
    - intros i c v Hi Hv. apply list_elem_of_lookup_2, elem_of_replicate in Hi as [-> _].
      by apply elem_of_nil in Hv. }
  destruct (reinsert_all_spec (ht_entries t) _ Hs0) as (Hs' & Hc & Hz & Hn).
  split_and!; [done| |rewrite Hz; cbn; lia|done].
  rewrite Hc. unfold alloc_entries. by rewrite contents_replicate, app_nil_r.
Qed.
(** ** Setting and removing *)

Lemma replace_in_chain_spec h v chain :
  match replace_in_chain h v chain with
  | Some (old, chain') => exists a b, chain = a ++ old :: b /\ chain' = a ++ v :: b /\ hash_of old = h
  | None => forall w, w ∈ chain -> hash_of w <> h
  end.
Proof.
  induction chain as [|w chain IH]; cbn [replace_in_chain].
  - intros w Hw. by apply elem_of_nil in Hw.
  - destruct (bytes_eqb h (hash_of w)) eqn:E.
    + apply bytes_eqb_true in E. by exists [], chain.
    + destruct (replace_in_chain h v chain) as [[old c']|].
      * destruct IH as (a & b & -> & -> & Ho). by exists (w :: a), b.
      * intros x [->|Hx]%elem_of_cons; [|by apply IH]. intros <-. by rewrite bytes_eqb_refl in E.
Qed.

Lemma unlink_spec v chain :
  match unlink v chain with
  | Some chain' => exists a b, chain = a ++ v :: b /\ chain' = a ++ b
  | None => v ∉ chain
  end.
Proof.
  induction chain as [|w chain IH]; cbn [unlink].
  - apply not_elem_of_nil.
  - case_bool_decide as E.
    + subst. by exists [], chain.
    + destruct (unlink v chain) as [c'|].
      * destruct IH as (a & b & -> & ->). by exists (w :: a), b.
      * apply not_elem_of_cons. by split; [congruence|].
Qed.

Definition map_of (l : list V) : gmap (list Z) V := list_to_map ((fun v => (hash_of v, v)) <$> l).

Lemma map_of_perm l k : l ≡ₚ k -> NoDup (hash_of <$> l) -> map_of l = map_of k.
Proof.
  intros Hp Hn. unfold map_of. apply list_to_map_proper; [|by rewrite Hp].
  rewrite <- list_fmap_compose. exact Hn.
Qed.

Lemma map_of_cons v l : map_of (v :: l) = <[hash_of v := v]> (map_of l).
Proof. reflexivity. Qed.

Lemma map_of_None l h : h ∉ hash_of <$> l -> map_of l !! h = None.
Proof.
  intros Hn. apply not_elem_of_list_to_map_1. rewrite <- list_fmap_compose. exact Hn.
Qed.

(** A bucket that loses or exchanges one entry. *)
Lemma contents_update t v a b n :
  ht_shape t -> bucket t (get_index t (hash_of v)) = a ++ v :: b ->
  exists rest, contents t ≡ₚ v :: rest /\
    forall chain, chain = a ++ b \/ (exists w, chain = a ++ w :: b /\ hash_of w = hash_of v) ->
    let t' := HashTable (ht_size t) n
                (<[Z.to_nat (get_index t (hash_of v)) := chain]> (ht_entries t)) in
    ht_shape t' /\ (chain = a ++ b -> contents t' ≡ₚ rest) /\
    (forall w, chain = a ++ w :: b -> contents t' ≡ₚ w :: rest).
Proof.
  intros Hs Hb. pose proof (get_index_range t (hash_of v) Hs) as Hi.
  destruct (contents_split t _ Hs Hi) as (rest & Hc & Hu). exists (a ++ b ++ rest). split.
  { rewrite Hc, Hb. rewrite <- app_assoc. cbn [app]. symmetry. apply Permutation_middle. }
  intros chain Hch t'. split_and!.
  - apply shape_update; [done..|]. intros x Hx.
    assert (Hin : x ∈ bucket t (get_index t (hash_of v)) \/ hash_of x = hash_of v).
    { rewrite Hb. destruct Hch as [->|(w & -> & Hw)]; set_solver. }
    destruct Hin as [Hin|Hin]; [|by rewrite Hin]. by apply elem_of_bucket_index.
  - intros ->. unfold t', contents. cbn [ht_entries]. by rewrite Hu, <- app_assoc.
  - intros w ->. unfold t', contents. cbn [ht_entries].
    rewrite Hu, <- app_assoc. cbn [app]. symmetry. apply Permutation_middle.
Qed.

Lemma zlen_perm {A} (l k : list A) : l ≡ₚ k -> zlen l = zlen k.
Proof. intros Hp. unfold zlen. by rewrite (Permutation_length Hp). Qed.

Lemma set_spec t v :
  ht_wf t -> ht_n_entries t < 2 ^ 60 ->
  let r := ntb_hash_table_set t v in
  r.1 = ht_map t !! hash_of v /\ ht_wf r.2 /\ ht_map r.2 = <[hash_of v := v]> (ht_map t).
Proof.
  intros Hwf Hlt. destruct Hwf as [Hs Hn Hcnt Hld] eqn:E0. clear E0.
  unfold ntb_hash_table_set. cbv zeta.
  pose proof (replace_in_chain_spec (hash_of v) v (bucket t (get_index t (hash_of v)))) as Hr.
  destruct (replace_in_chain _ _ _) as [[old chain']|].
  - destruct Hr as (a & b & Hb & -> & Ho). rewrite <- Ho in Hb |- *. cbn [fst snd].
    destruct (contents_update t old a b (ht_n_entries t) Hs Hb) as (rest & Hc & Hu).
    destruct (Hu (a ++ v :: b) ltac:(right; by exists v)) as (Hs' & _ & Hc').
    specialize (Hc' v eq_refl). set (t' := HashTable _ _ _) in *.
    assert (Hn1 : NoDup (hash_of <$> (old :: rest))) by (by rewrite <- Hc).
    assert (Hn2 : NoDup (hash_of <$> contents t')).
    { rewrite Hc'. cbn [fmap list_fmap] in *. by rewrite <- Ho. }
    split_and!.
    + symmetry. apply ht_map_lookup; [done|]. split; [|done]. rewrite Hc. by left.
    + split; [done|done| |done]. change (ht_n_entries t') with (ht_n_entries t). rewrite Hcnt.
      rewrite (zlen_perm _ _ Hc), (zlen_perm _ _ Hc'). zlia.
    + change (ht_map t') with (map_of (contents t')). change (ht_map t) with (map_of (contents t)).
      rewrite (map_of_perm _ _ Hc'), (map_of_perm _ _ Hc), !map_of_cons by done.
      by rewrite Ho, insert_insert_eq.
  - set (t1 := if _ <=? _ then _ else t). cbn [fst snd].
    destruct (sh_size t Hs) as (k & Hk & Ek).
    assert (2 ^ 3 <= 2 ^ k <= 2 ^ 62) by (split; apply Z.pow_le_mono_r; lia).
    assert (Ht1 : ht_shape t1 /\ contents t1 ≡ₚ contents t /\ ht_n_entries t1 = ht_n_entries t /\
                  ht_n_entries t + 1 <= ht_size t1 * 3 / 4).
    { unfold t1. rewrite u64_small by lia.
      destruct (Z.leb_spec (ht_size t * 3 / 4) (ht_n_entries t)) as [Hg|Hg]; [|split_and!; try done; lia].
      destruct (grow_spec t Hs) as (? & ? & -> & ?); [dlia|]. split_and!; try done. dlia. }
    clearbody t1. destruct Ht1 as (Hs1 & Hc1 & Hn1 & Hl1).
    destruct (insert_entry_spec t1 v Hs1) as (Hs2 & Hc2 & Hz2 & Hn2).
    set (t2 := insert_entry_at_index _ _ _) in *. rewrite Hc1 in Hc2.
    assert (Hnew : hash_of v ∉ hash_of <$> contents t).
    { intros (w & Hw & Hin)%list_elem_of_fmap. apply (Hr w); [|done].
      rewrite Hw. by apply elem_of_bucket. }
    assert (Hnd : NoDup (hash_of <$> (v :: contents t))) by (by constructor).
    change (ht_map t) with (map_of (contents t)). rewrite map_of_None by done. split_and!; [done| |].
    + split; cbn [ht_n_entries ht_size ht_entries].
      * destruct Hs2 as [? ? ?]. by split.
      * change (contents (HashTable _ _ _)) with (contents t2). by rewrite Hc2.
      * change (contents (HashTable _ _ _)) with (contents t2).
        rewrite (zlen_perm _ _ Hc2), Hn2, Hn1, u64_small by (pose proof (zlen_nonneg (contents t)); lia).
        rewrite zlen_cons. lia.
      * rewrite Hn2, Hn1, Hz2, u64_small by (pose proof (zlen_nonneg (contents t)); lia). lia.
    + change (ht_map (HashTable _ _ _)) with (map_of (contents t2)).
      by rewrite <- (map_of_perm _ _ (symmetry Hc2)).
Qed.

Lemma remove_spec t v :
  ht_wf t ->
  let r := ntb_hash_table_remove t v in
  if decide (ht_map t !! hash_of v = Some v) then
    r.1 = true /\ ht_wf r.2 /\ ht_map r.2 = delete (hash_of v) (ht_map t)
  else r = (false, t).
Proof.
  intros Hwf. destruct Hwf as [Hs Hn Hcnt Hld] eqn:E0. clear E0.
  unfold ntb_hash_table_remove. cbv zeta.
  pose proof (unlink_spec v (bucket t (get_index t (hash_of v)))) as Hr.
  destruct (unlink _ _) as [chain'|].
  - destruct Hr as (a & b & Hb & ->). 
    destruct (contents_update t v a b (u64 (ht_n_entries t - 1)) Hs Hb) as (rest & Hc & Hu).
    destruct (Hu (a ++ b) ltac:(by left)) as (Hs' & Hc' & _). specialize (Hc' eq_refl).
    set (t' := HashTable _ _ _) in *.
    assert (Hn1 : NoDup (hash_of <$> (v :: rest))) by (by rewrite <- Hc).
    cbn [fmap list_fmap] in Hn1. apply NoDup_cons in Hn1 as [Hni Hn1].
    rewrite decide_True.
    2: { apply ht_map_lookup; [done|]. split; [|done]. rewrite Hc. by left. }
    cbn [fst snd]. pose proof (zlen_perm _ _ Hc) as Hz. rewrite zlen_cons in Hz.
    pose proof (zlen_nonneg rest). destruct (sh_size t Hs) as (k & Hk & Ek).
    assert (2 ^ k <= 2 ^ 62) by (apply Z.pow_le_mono_r; lia).
    assert (ht_size t * 3 / 4 <= 2 ^ 62) by dlia.
    split_and!; [done| |].
    + split; [done|by rewrite Hc'| |]; cbn [t' ht_n_entries ht_size].
      * rewrite (zlen_perm _ _ Hc'), u64_small; lia.
      * rewrite u64_small; lia.
    + change (ht_map t') with (map_of (contents t')). change (ht_map t) with (map_of (contents t)).
      rewrite (map_of_perm _ _ Hc), map_of_cons by done. rewrite delete_insert_id.
      * by rewrite <- (map_of_perm _ _ (symmetry Hc')).
      * by apply map_of_None.
  - rewrite decide_False; [done|]. intros [Hv _]%ht_map_lookup; [|done].
    by apply elem_of_bucket in Hv.
Qed.

(** ** Sequences of operations *)

Inductive ht_op := HtGet (h : list Z) | HtSet (v : V) | HtRemove (v : V).

Inductive ht_result := RValue (v : option V) | RBool (b : bool).

Definition ht_run (t : ntb_hash_table) (o : ht_op) : ht_result * ntb_hash_table :=
  match o with
  | HtGet h => (RValue (ntb_hash_table_get t h), t)
  | HtSet v => let r := ntb_hash_table_set t v in (RValue r.1, r.2)
  | HtRemove v => let r := ntb_hash_table_remove t v in (RBool r.1, r.2)
  end.

(** The same operations on a map. *)
Definition map_run (m : gmap (list Z) V) (o : ht_op) : ht_result * gmap (list Z) V :=
  match o with
  | HtGet h => (RValue (m !! h), m)
  | HtSet v => (RValue (m !! hash_of v), <[hash_of v := v]> m)
  | HtRemove v =>
      if decide (m !! hash_of v = Some v) then (RBool true, delete (hash_of v) m)
      else (RBool false, m)
  end.

Fixpoint run_all {S : Type} (f : S -> ht_op -> ht_result * S) (s : S) (os : list ht_op) :
    list ht_result * S :=
  match os with
  | [] => ([], s)
  | o :: os => let '(r, s) := f s o in let '(rs, s) := run_all f s os in (r :: rs, s)
  end.

Lemma n_entries_run t o :
  ht_wf t -> ht_n_entries t < 2 ^ 60 ->
  ht_wf (ht_run t o).2 /\ ht_n_entries (ht_run t o).2 <= ht_n_entries t + 1 /\
  (ht_run t o).1 = (map_run (ht_map t) o).1 /\
  ht_map (ht_run t o).2 = (map_run (ht_map t) o).2.
Proof.
  intros Hwf Hlt. 
  assert (Hsz : forall t, ht_wf t -> ht_n_entries t = Z.of_nat (size (ht_map t))).
  { intros t' [_ Hn Hc _]. rewrite Hc. unfold ht_map, zlen.
    rewrite map_size_list_to_map, length_fmap; [done|]. rewrite <- list_fmap_compose. exact Hn. }
  destruct o as [h|v|v]; cbn [ht_run map_run fst snd].
  - split_and!; try done; [lia|]. by rewrite get_spec.
  - destruct (set_spec t v Hwf Hlt) as (-> & Hwf' & Hm). split_and!; try done.
    rewrite (Hsz _ Hwf'), (Hsz _ Hwf), Hm, map_size_insert. destruct (ht_map t !! _); unfold id; lia.
  - pose proof (remove_spec t v Hwf) as Hr. cbv zeta in Hr. destruct (decide _).
    + destruct Hr as (-> & Hwf' & Hm). split_and!; try done.
      rewrite (Hsz _ Hwf'), (Hsz _ Hwf), Hm, map_size_delete. destruct (ht_map t !! _); unfold id; lia.
    + rewrite Hr. cbn [fst snd]. split_and!; try done. lia.
Qed.

Lemma run_all_spec os t :
  ht_wf t -> ht_n_entries t + zlen os <= 2 ^ 60 ->
  (run_all ht_run t os).1 = (run_all map_run (ht_map t) os).1 /\
  ht_wf (run_all ht_run t os).2 /\
  ht_map (run_all ht_run t os).2 = (run_all map_run (ht_map t) os).2.
Proof.
  revert t. induction os as [|o os IH]; intros t Hwf Hlt; [done|]. cbn [run_all].
  rewrite zlen_cons in Hlt. pose proof (zlen_nonneg os).
  destruct (n_entries_run t o) as (Hwf' & Hle & Hr & Hm); [done|lia|].
  destruct (ht_run t o) as [r t'], (map_run (ht_map t) o) as [r' m']. cbn [fst snd] in *. subst r' m'.
  destruct (IH t') as (IH1 & IH2 & IH3); [done|lia|].
  destruct (run_all ht_run t' os), (run_all map_run (ht_map t') os). cbn [fst snd] in *.
  split_and!; congruence.
Qed.
End hash_table.

(** ** Properties *)

(** C32: any sequence of lookups, insertions and removals on a new table returns
    what the same sequence returns on a finite map, and leaves a table that stands
    for the resulting map, has no hash twice, keeps every entry in the bucket of its
    hash and is at most three quarters full. *)
Theorem hash_table_refines_map {V} `{EqDecision V} (hash_of : V -> list Z) (os : list (ht_op)) :
  zlen os <= 2 ^ 60 ->
  let r := run_all (ht_run hash_of) ntb_hash_table_new os in
  let s := run_all (map_run hash_of) ∅ os in
  r.1 = s.1 /\ ht_wf hash_of r.2 /\ ht_map hash_of r.2 = s.2.
Proof.
  intros Hz r s. destruct (new_wf hash_of) as [Hwf Hm]. unfold r, s. rewrite <- Hm.
  apply run_all_spec; [done|]. cbn. lia.
Qed.

Definition ht_example : list (ht_op (V := Z)) :=
  ((fun i => HtSet (Z.of_nat i)) <$> seq 0 20) ++ [HtRemove 3; HtSet 4; HtRemove 40; HtGet [5; 0; 0; 0]].

Lemma hash_table_refines_map_witness :
  let hash_of := fun v : Z => be_split 4 (v * 2 ^ 24) in
  let r := run_all (ht_run hash_of) ntb_hash_table_new ht_example in
  let s := run_all (map_run hash_of) ∅ ht_example in
  r.1 = s.1 /\ ht_wf hash_of r.2 /\ ht_map hash_of r.2 = s.2.
Proof. apply hash_table_refines_map. vm_compute. congruence. Defined.
