(* ===== verification/ParseContentType.v ===== *)
(** * ParseContentType: the value of a Content-Type header (ntb-parse-content-type.c)

    The value is a C string: the bytes from its pointer, the terminator included. The
    two callbacks and the data they share are parameters. *)

From S2P Require Import Prelude Endian Buffer NetAddress OpenSSL Proto ProtoSpec NetText KeyValue Keys.

Definition HTTP_TYPE_CHAR : Z := 2.
Definition HTTP_TYPE_LWS : Z := 512.
Definition HTTP_TYPE_TEXT : Z := 8192.
Definition HTTP_TYPE_TOKEN : Z := 16384.

Definition http_char_table : list Z := [
  0x040a; 0x040a; 0x040a; 0x040a; 0x040a; 0x040a; 0x040a; 0x040a;
  0x040a; 0x2e4a; 0x268a; 0x040a; 0x040a; 0x260e; 0x040a; 0x040a;
  0x040a; 0x040a; 0x040a; 0x040a; 0x040a; 0x040a; 0x040a; 0x040a;
  0x040a; 0x040a; 0x040a; 0x040a; 0x040a; 0x040a; 0x040a; 0x040a;
  0x3e02; 0x6402; 0x2c02; 0x6402; 0x6402; 0x6402; 0x6402; 0x6402;
  0x2c02; 0x2c02; 0x6402; 0x6402; 0x2c02; 0x6402; 0x6402; 0x2c02;
  0x6432; 0x6432; 0x6432; 0x6432; 0x6432; 0x6432; 0x6432; 0x6432;
  0x6432; 0x6432; 0x2c02; 0x2c02; 0x2c02; 0x2c02; 0x2c02; 0x2c02;
  0x2c02; 0xe523; 0xe523; 0xe523; 0xe523; 0xe523; 0xe523; 0xe503;
  0xe503; 0xe503; 0xe503; 0xe503; 0xe503; 0xe503; 0xe503; 0xe503;
  0xe503; 0xe503; 0xe503; 0xe503; 0xe503; 0xe503; 0xe503; 0xe503;
  0xe503; 0xe503; 0xe503; 0x2c02; 0x2c02; 0x2c02; 0x6402; 0x6402;
  0x6402; 0x6422; 0x6422; 0x6422; 0x6422; 0x6422; 0x6422; 0x6402;
  0x6402; 0x6402; 0x6402; 0x6402; 0x6402; 0x6402; 0x6402; 0x6402;
  0x6402; 0x6402; 0x6402; 0x6402; 0x6402; 0x6402; 0x6402; 0x6402;
  0x6402; 0x6402; 0x6402; 0x2c02; 0x6402; 0x2c02; 0x6402; 0x040a
] ++ replicate 128 0x2400.

(** The index is converted to [uint8_t]; the table has 256 entries. *)
Definition http_is (mask ch : Z) : bool := negb (Z.land (default 0 (http_char_table !! Z.to_nat (u8 ch))) mask =? 0).
Definition HTTP_IS_TOKEN : Z -> bool := http_is HTTP_TYPE_TOKEN.
Definition HTTP_IS_LWS : Z -> bool := http_is HTTP_TYPE_LWS.
Definition HTTP_IS_TEXT : Z -> bool := http_is HTTP_TYPE_TEXT.
Definition HTTP_IS_CHAR : Z -> bool := http_is HTTP_TYPE_CHAR.

(** [while (HTTP_IS_LWS( *p)) p++;] *)
Fixpoint skip_lws (p : ptr) : result unit ptr :=
  match p with
  | [] => UB
  | c :: q => if HTTP_IS_LWS c then skip_lws q else Ok p
  end.

(** [for (end = p + 1; HTTP_IS_TOKEN( *end); end++);] where [*p] is a token character. *)
Fixpoint span_token (p : ptr) : result unit (list Z * ptr) :=
  match p with
  | [] => UB
  | c :: q => if HTTP_IS_TOKEN c then '(t, r) ← span_token q; Ok (c :: t, r) else Ok ([], p)
  end.

(** The loop over a quoted value, behind its first quote. *)
Fixpoint quoted_value (b : ntb_buffer) (p : ptr) : result unit (option (ntb_buffer * ptr)) :=
  match p with
  | [] => UB
  | c :: p =>
      if c =? 34 then Ok (Some (b, p))
      else if c =? 92 then
        match p with
        | [] => UB
        | d :: p =>
            if (d =? 0) || negb (HTTP_IS_CHAR d) then Ok None
            else b ← ntb_buffer_append_c b d; quoted_value b p
        end
      else if HTTP_IS_TEXT c then b ← ntb_buffer_append_c b c; quoted_value b p
      else Ok None
  end.

(** The value of an attribute, quoted or a token. *)
Definition value_code (b : ntb_buffer) (p : ptr) : result unit (option (ntb_buffer * ptr)) :=
  c ← deref p;
  if c =? 34 then quoted_value b (drop 1 p)
  else if HTTP_IS_TOKEN c then
    '(t, p) ← span_token p;
    b ← ntb_buffer_append b t;
    Ok (Some (b, p))
  else Ok None.

(** An attribute behind its semicolon, up to the call. *)
Definition attribute_code (buf : ntb_buffer) (p : ptr) : result unit (option (ntb_buffer * list Z * list Z * ptr)) :=
  p ← skip_lws p;
  c ← deref p;
  if negb (HTTP_IS_TOKEN c) then Ok None
  else
    '(t, p) ← span_token p;
    b ← ntb_buffer_append (set_empty buf) t;
    b ← ntb_buffer_append_c b 0;
    let value_start := u32 (buf_length b) in
    c ← deref p;
    if negb (c =? 61) then Ok None
    else
      r ← value_code b (drop 1 p);
      match r with
      | None => Ok None
      | Some (b, p) =>
          b ← ntb_buffer_append_c b 0;
          name ← cells_string (buf_data b);
          value ← cells_string (drop (Z.to_nat value_start) (buf_data b));
          Ok (Some (b, name, value, p))
      end.

Section callbacks.
Context {U : Type} (type_cb : list Z -> U -> bool * U) (attribute_cb : list Z -> list Z -> U -> bool * U).

Fixpoint attributes_loop (fuel : nat) (buf : ntb_buffer) (p : ptr) (u : U) : result unit (bool * U) :=
  p ← skip_lws p;
  c ← deref p;
  if c =? 0 then Ok (true, u)
  else if negb (c =? 59) then Ok (false, u)
  else
    match fuel with
    | O => OutOfFuel
    | S fuel =>
        r ← attribute_code buf (drop 1 p);
        match r with
        | None => Ok (false, u)
        | Some (b, name, value, p) =>
            let '(ok, u) := attribute_cb name value u in
            if (ok : bool) then attributes_loop fuel b p u else Ok (false, u)
        end
    end.

Definition ntb_parse_content_type (header_value : ptr) (u : U) : result unit (bool * U) :=
  p ← skip_lws header_value;
  c ← deref p;
  if negb (HTTP_IS_TOKEN c) then Ok (false, u)
  else
    '(t, p) ← span_token p;
    b ← ntb_buffer_append ntb_buffer_init t;
    c ← deref p;
    if negb (c =? 47) then Ok (false, u)
    else
      b ← ntb_buffer_append_c b 47;
      let p := drop 1 p in
      c ← deref p;
      if negb (HTTP_IS_TOKEN c) then Ok (false, u)
      else
        '(t, p) ← span_token p;
        b ← ntb_buffer_append b t;
        b ← ntb_buffer_append_c b 0;
        type ← cells_string (buf_data b);
        let '(ok, u) := type_cb type u in
        if (ok : bool) then attributes_loop (length p) b p u else Ok (false, u).
End callbacks.

(** ** Reference: the grammar on lists *)

(** The longest prefix of white space is skipped, a token is the longest prefix of
    token characters. *)
Definition skip_white (t : list Z) : list Z := (split_when (fun c => negb (HTTP_IS_LWS c)) t).2.
Definition token (t : list Z) : list Z * list Z := split_when (fun c => negb (HTTP_IS_TOKEN c)) t.

Fixpoint quoted_text (t : list Z) : option (list Z * list Z) :=
  match t with
  | [] => None
  | c :: t =>
      if c =? 34 then Some ([], t)
      else if c =? 92 then
        match t with
        | [] => None
        | d :: t => if HTTP_IS_CHAR d then '(v, r) ← quoted_text t; Some (d :: v, r) else None
        end
      else if HTTP_IS_TEXT c then '(v, r) ← quoted_text t; Some (c :: v, r)
      else None
  end.

Definition nonempty_token (t : list Z) : option (list Z * list Z) :=
  match token t with ([], _) => None | vr => Some vr end.

Definition expect (c : Z) (t : list Z) : option (list Z) :=
  match t with x :: t => if x =? c then Some t else None | [] => None end.

Definition value_text (t : list Z) : option (list Z * list Z) :=
  match expect 34 t with Some t => quoted_text t | None => nonempty_token t end.

(** [name=value] *)
Definition attribute (t : list Z) : option (list Z * list Z * list Z) :=
  '(name, t) ← nonempty_token (skip_white t);
  t ← expect 61 t;
  '(value, t) ← value_text t;
  Some (name, value, t).

Section reference.
Context {U : Type} (type_cb : list Z -> U -> bool * U) (attribute_cb : list Z -> list Z -> U -> bool * U).

Fixpoint attributes_spec (fuel : nat) (t : list Z) (u : U) : bool * U :=
  match skip_white t with
  | [] => (true, u)
  | c :: t =>
      match fuel, (if c =? 59 then attribute t else None) with
      | S fuel, Some (name, value, t) =>
          let '(ok, u) := attribute_cb name value u in
          if (ok : bool) then attributes_spec fuel t u else (false, u)
      | _, _ => (false, u)
      end
  end.

(** [type/subtype] and the attributes behind semicolons *)
Definition content_type_spec (t : list Z) (u : U) : bool * U :=
  match ('(type, t) ← nonempty_token (skip_white t);
         t ← expect 47 t;
         '(subtype, t) ← nonempty_token t;
         Some (type ++ [47] ++ subtype, t)) with
  | None => (false, u)
  | Some (type, t) =>
      let '(ok, u) := type_cb type u in
      if (ok : bool) then attributes_spec (length t) t u else (false, u)
  end.
End reference.

(** ** The parser implements the grammar *)

Lemma skip_lws_spec t rest : skip_lws (t ++ 0 :: rest) = Ok (skip_white t ++ 0 :: rest).
Proof.
  unfold skip_white. induction t as [|c t IH]; [done|]. cbn [app skip_lws split_when].
  destruct (HTTP_IS_LWS c); cbn [negb]; [|done]. rewrite IH. by destruct (split_when _ t).
Qed.

Lemma span_token_spec t rest : span_token (t ++ 0 :: rest) = Ok ((token t).1, (token t).2 ++ 0 :: rest).
Proof.
  unfold token. induction t as [|c t IH]; [done|]. cbn [app span_token split_when].
  destruct (HTTP_IS_TOKEN c); cbn [negb]; [|done]. rewrite IH. by destruct (split_when _ t).
Qed.

Lemma split_when_parts P t : t = (split_when P t).1 ++ (split_when P t).2.
Proof.
  induction t as [|c t IH]; [done|]. cbn [split_when]. destruct (P c); [done|].
  destruct (split_when P t) as [a b]. cbn in *. by rewrite IH.
Qed.

(** The rest of a text: a suffix of it. *)
Definition text_ok (t : list Z) : Prop := bytes t /\ 0 ∉ t.

Lemma text_ok_nil : text_ok [].
Proof. split; [constructor|apply not_elem_of_nil]. Qed.
#[global] Instance text_ok_dec t : Decision (text_ok t).
Proof. unfold text_ok. apply _. Defined.
Lemma text_ok_app a b : text_ok (a ++ b) <-> text_ok a /\ text_ok b.
Proof. unfold text_ok, bytes. rewrite Forall_app, not_elem_of_app. tauto. Qed.
Lemma text_ok_cons c t : text_ok (c :: t) <-> (is_byte c /\ c <> 0) /\ text_ok t.
Proof. unfold text_ok, bytes. rewrite Forall_cons, not_elem_of_cons. split; intros; split_and!; naive_solver. Qed.

Lemma skip_white_ok t : text_ok t -> text_ok (skip_white t) /\ zlen (skip_white t) <= zlen t.
Proof.
  intros Ht. rewrite (split_when_parts (fun c => negb (HTTP_IS_LWS c)) t) in Ht. apply text_ok_app in Ht as [_ Ht].
  split; [exact Ht|]. pose proof (f_equal zlen (split_when_parts (fun c => negb (HTTP_IS_LWS c)) t)) as E.
  rewrite zlen_app in E. unfold skip_white. zlia.
Qed.

Lemma nonempty_token_ok t v r :
  text_ok t -> nonempty_token t = Some (v, r) ->
  text_ok v /\ text_ok r /\ zlen t = zlen v + zlen r /\ token t = (v, r) /\ v <> [].
Proof.
  unfold nonempty_token, token. intros Ht E. rewrite (split_when_parts (fun c => negb (HTTP_IS_TOKEN c)) t) in Ht.
  pose proof (f_equal zlen (split_when_parts (fun c => negb (HTTP_IS_TOKEN c)) t)) as Hz. rewrite zlen_app in Hz.
  destruct (split_when _ t) as [[|c a] b]; [done|]. injection E as <- <-. cbn [fst snd] in *.
  apply text_ok_app in Ht as [? ?]. done.
Qed.

Lemma expect_ok c t r : text_ok t -> expect c t = Some r -> text_ok r /\ zlen t = zlen r + 1 /\ t = c :: r.
Proof.
  destruct t as [|x t]; [done|]. cbn [expect]. destruct (Z.eqb_spec x c) as [->|]; [|done]. intros [_ Ht]%text_ok_cons [= <-].
  rewrite zlen_cons. split_and!; [done|lia|done].
Qed.

Definition found {A} (o : option A) : bool := match o with Some _ => true | None => false end.

(** What the code tests at the head of the remaining text. *)
Lemma head_spec E t rest : text_ok t ->
  exists c, deref (E := E) (t ++ 0 :: rest) = Ok c /\ (c =? 0) = match t with [] => true | _ => false end /\
    HTTP_IS_TOKEN c = found (nonempty_token t) /\ (forall x, x <> 0 -> (c =? x) = found (expect x t)).
Proof.
  intros Ht. destruct t as [|c t].
  - exists 0. split_and!; [done..|]. intros x Hx. cbn [expect found]. apply Z.eqb_neq. lia.
  - exists c. apply text_ok_cons in Ht as [[_ Hc] _]. split_and!; [done|by apply Z.eqb_neq| |].
    + unfold nonempty_token, token. cbn [split_when]. destruct (HTTP_IS_TOKEN c); cbn [negb]; [|done]. by destruct (split_when _ t).
    + intros x _. cbn [expect]. by destruct (c =? x).
Qed.

Lemma quoted_value_spec t : forall b l rest, repr b l -> text_ok t -> zlen l + zlen t <= 2 ^ 60 ->
  match quoted_text t with
  | None => quoted_value b (t ++ 0 :: rest) = Ok None
  | Some (v, r) => exists b', quoted_value b (t ++ 0 :: rest) = Ok (Some (b', r ++ 0 :: rest)) /\
      repr b' (l ++ v) /\ text_ok v /\ text_ok r /\ zlen v + zlen r <= zlen t
  end.
Proof.
  induction t as [t IH] using (induction_ltof1 _ (@length Z)). unfold ltof in IH. intros b l rest Hr Ht Hz.
  assert (step : forall c t', (length t' < length t)%nat -> is_byte c /\ c <> 0 -> text_ok t' -> zlen t' + 1 <= zlen t ->
    match ('(v, r) ← quoted_text t'; Some (c :: v, r)) with
    | None => (b ← ntb_buffer_append_c b c; quoted_value b (t' ++ 0 :: rest)) = Ok None
    | Some (v, r) => exists b', (b ← ntb_buffer_append_c b c; quoted_value b (t' ++ 0 :: rest)) = Ok (Some (b', r ++ 0 :: rest)) /\
        repr b' (l ++ v) /\ text_ok v /\ text_ok r /\ zlen v + zlen r <= zlen t
    end).
  { intros c t' Hlen [Hc Hc0] Ht' Hz'. pose proof (zlen_nonneg l). pose proof (zlen_nonneg t').
    destruct (repr_append_c b l c Hr Hc) as (b1 & -> & Hr1); [lia|]. rewrite bind_ret_l.
    assert (Hz1 : zlen (l ++ [c]) = zlen l + 1) by zlia.
    specialize (IH t' Hlen b1 (l ++ [c]) rest Hr1 Ht' ltac:(lia)).
    destruct (quoted_text t') as [[v r]|]; [|exact IH]. destruct IH as (b' & E & Hr' & Hv & Hrr & Hl'). csimpl.
    exists b'. rewrite <- app_assoc in Hr'. split_and!; [done|done|by apply text_ok_cons|done|rewrite zlen_cons; lia]. }
  destruct t as [|c t]; [done|]. apply text_ok_cons in Ht as [Hc Ht]. rewrite zlen_cons in *.
  cbn [app quoted_value quoted_text]. cbn [length] in step.
  destruct (c =? 34); [exists b; rewrite app_nil_r; split_and!; [done..|apply text_ok_nil|done|change (zlen (@nil Z)) with 0; lia]|].
  destruct (c =? 92); [|destruct (HTTP_IS_TEXT c); [apply step; [lia|done|done|lia]|done]].
  destruct t as [|d t]; [done|]. apply text_ok_cons in Ht as [Hd Ht]. cbn [app]. rewrite zlen_cons in *. cbn [length] in step.
  destruct (Z.eqb_spec d 0) as [|_]; [by destruct Hd|]. cbn [orb].
  destruct (HTTP_IS_CHAR d); cbn [negb]; [apply step; [lia|done|done|lia]|done].
Qed.

(** ** Strings in the buffer *)

Lemma repr_string_at b a s t : repr b (a ++ s ++ 0 :: t) -> 0 ∉ s -> cells_string (drop (length a) (buf_data b)) = Ok s.
Proof.
  intros Hr Hs. destruct (repr_data _ _ Hr) as [r ->]. rewrite !fmap_app, <- !app_assoc.
  rewrite drop_app_length' by (by rewrite length_fmap). rewrite fmap_cons, <- app_comm_cons. by apply cells_string_app.
Qed.

Lemma repr_string b s t : repr b (s ++ 0 :: t) -> 0 ∉ s -> cells_string (buf_data b) = Ok s.
Proof. intros Hr Hs. by apply (repr_string_at b [] s t). Qed.

Lemma repr_append_bytes b l c :
  repr b l -> is_byte c -> zlen l <= 2 ^ 61 ->
  exists b', ntb_buffer_append_c (E := unit) b c = Ok b' /\ repr b' (l ++ [c]).
Proof. intros Hr Hc Hz. apply repr_append_c; [done..|lia]. Qed.

Lemma value_code_spec b l t rest : repr b l -> text_ok t -> zlen l + zlen t <= 2 ^ 60 ->
  match value_text t with
  | None => value_code b (t ++ 0 :: rest) = Ok None
  | Some (v, r) => exists b', value_code b (t ++ 0 :: rest) = Ok (Some (b', r ++ 0 :: rest)) /\
      repr b' (l ++ v) /\ text_ok v /\ text_ok r /\ zlen v + zlen r <= zlen t
  end.
Proof.
  intros Hr Ht Hz. unfold value_code, value_text.
  destruct (head_spec unit t rest Ht) as (c & -> & _ & Htok & Hx). rewrite bind_ret_l, Htok, (Hx 34) by lia.
  destruct (expect 34 t) as [q|] eqn:Eq; cbn [found].
  - destruct (expect_ok _ _ _ Ht Eq) as (Hq & Hzq & ->). cbn [app drop].
    pose proof (quoted_value_spec q b l rest Hr Hq ltac:(lia)) as Hs. destruct (quoted_text q) as [[v r]|]; [|exact Hs].
    destruct Hs as (b' & ? & ? & ? & ? & ?). exists b'. split_and!; [done..|lia].
  - destruct (nonempty_token t) as [[v r]|] eqn:En; cbn [found]; [|done].
    destruct (nonempty_token_ok _ _ _ Ht En) as (Hv & Hrr & Hzz & Et & _). rewrite span_token_spec, Et, bind_ret_l. cbn [fst snd].
    zlen_pose. destruct (repr_append b l v Hr) as (b' & -> & Hr'); [lia|]. exists b'. split_and!; [done..|lia].
Qed.

Lemma found_head {A} (t : list A) : negb (found (head t)) = match t with [] => true | _ => false end.
Proof. by destruct t. Qed.

Lemma attribute_code_spec b t rest : buf_wf b -> text_ok t -> zlen t <= 2 ^ 31 ->
  match attribute t with
  | None => attribute_code b (t ++ 0 :: rest) = Ok None
  | Some (n, v, r) => exists b', attribute_code b (t ++ 0 :: rest) = Ok (Some (b', n, v, r ++ 0 :: rest)) /\
      buf_wf b' /\ text_ok r /\ zlen r < zlen t
  end.
Proof.
  intros Hb Ht Hz. unfold attribute_code, attribute. rewrite skip_lws_spec, bind_ret_l.
  destruct (skip_white_ok t Ht) as [Ht1 Hz1]. set (t1 := skip_white t) in *.
  destruct (head_spec unit t1 rest Ht1) as (c & -> & _ & Htok & _). rewrite bind_ret_l, Htok.
  destruct (nonempty_token t1) as [[n t2]|] eqn:En; cbn [found negb]; [|done].
  destruct (nonempty_token_ok _ _ _ Ht1 En) as (Hn & Ht2 & Hz2 & Et & Hne). rewrite span_token_spec, Et, bind_ret_l. cbn [fst snd].
  pose proof (zlen_nonneg n). pose proof (zlen_nonneg t2).
  destruct (repr_append (set_empty b) [] n (repr_empty b Hb)) as (b1 & -> & Hr1); [change (zlen (@nil Z)) with 0; lia|]. cbn [app] in Hr1.
  rewrite bind_ret_l. destruct (repr_append_bytes b1 n 0 Hr1) as (b2 & -> & Hr2); [done|lia|]. rewrite !bind_ret_l.
  destruct (head_spec unit t2 rest Ht2) as (c2 & -> & _ & _ & Hx). rewrite bind_ret_l, (Hx 61) by lia.
  csimpl. destruct (expect 61 t2) as [t3|] eqn:Ee; cbn [found negb]; [|done].
  destruct (expect_ok _ _ _ Ht2 Ee) as (Ht3 & Hz3 & ->). cbn [app drop]. rewrite drop_0. csimpl.
  assert (Hzn : zlen (n ++ [0]) = zlen n + 1) by zlia. pose proof (zlen_nonneg t3).
  pose proof (value_code_spec b2 _ t3 rest Hr2 Ht3 ltac:(lia)) as Hv. destruct (value_text t3) as [[v t4]|]; [|by rewrite Hv, bind_ret_l].
  destruct Hv as (b3 & -> & Hr3 & Hvok & Ht4 & Hz4). rewrite bind_ret_l. pose proof (zlen_nonneg v). pose proof (zlen_nonneg t4).
  assert (Hzv : zlen ((n ++ [0]) ++ v) = zlen n + 1 + zlen v) by (rewrite zlen_app; lia).
  destruct (repr_append_bytes b3 _ 0 Hr3) as (b4 & -> & Hr4); [done|lia|]. rewrite bind_ret_l.
  assert (Hr5 := Hr4). rewrite <- !app_assoc in Hr5. rewrite (repr_string b4 n _ Hr5) by apply Hn. rewrite bind_ret_l.
  rewrite (repr_length _ _ Hr2), u32_small by lia. rewrite Hzn.
  replace (Z.to_nat (zlen n + 1)) with (length (n ++ [0])) by (unfold zlen in *; rewrite length_app; cbn [length]; lia).
  rewrite (repr_string_at b4 (n ++ [0]) v []) by (rewrite ?app_assoc in *; first [done | apply Hvok]). rewrite bind_ret_l.
  exists b4. split_and!; [done|apply Hr4|done|lia].
Qed.

Section correctness.
Context {U : Type} (type_cb : list Z -> U -> bool * U) (attribute_cb : list Z -> list Z -> U -> bool * U).

Lemma attributes_loop_spec fuel1 : forall fuel2 b t u rest,
  buf_wf b -> text_ok t -> zlen t <= 2 ^ 31 -> (length t <= fuel1)%nat -> (length t <= fuel2)%nat ->
  attributes_loop attribute_cb fuel1 b (t ++ 0 :: rest) u = Ok (attributes_spec attribute_cb fuel2 t u).
Proof.
  induction fuel1 as [|fuel1 IH]; intros fuel2 b t u rest Hb Ht Hz H1 H2.
  { destruct t; [|cbn in H1; lia]. by destruct fuel2. }
  cbn [attributes_loop]. rewrite skip_lws_spec, bind_ret_l. destruct (skip_white_ok t Ht) as [Ht1 Hz1].
  destruct fuel2 as [|fuel2]; [destruct t; [done|cbn in H2; lia]|]. cbn [attributes_spec].
  destruct (skip_white t) as [|c t1]; [done|]. apply text_ok_cons in Ht1 as [[_ Hc] Ht1]. cbn [app deref]. rewrite bind_ret_l, zlen_cons in *.
  rewrite (proj2 (Z.eqb_neq c 0)) by done. destruct (c =? 59); cbn [negb]; [|done]. cbn [drop]. rewrite drop_0.
  pose proof (attribute_code_spec b t1 rest Hb Ht1 ltac:(lia)) as Ha.
  destruct (attribute t1) as [[[n v] r]|]; [|by rewrite Ha].
  destruct Ha as (b' & -> & Hb' & Hr & Hzr). rewrite bind_ret_l. destruct (attribute_cb n v u) as [[] u']; [|done].
  unfold zlen in *. apply IH; [done|done|unfold zlen; lia|lia|lia].
Qed.

Lemma content_type_core t u rest :
  text_ok t -> zlen t <= 2 ^ 31 ->
  ntb_parse_content_type type_cb attribute_cb (t ++ 0 :: rest) u = Ok (content_type_spec type_cb attribute_cb t u).
Proof.
  intros Ht Hz. unfold ntb_parse_content_type, content_type_spec. rewrite skip_lws_spec, bind_ret_l.
  destruct (skip_white_ok t Ht) as [Ht1 Hz1]. set (t1 := skip_white t) in *.
  destruct (head_spec unit t1 rest Ht1) as (c & -> & _ & Htok & _). rewrite bind_ret_l, Htok.
  destruct (nonempty_token t1) as [[n t2]|] eqn:En; cbn [found negb]; [|done].
  destruct (nonempty_token_ok _ _ _ Ht1 En) as (Hn & Ht2 & Hz2 & Et & _). rewrite span_token_spec, Et, bind_ret_l. cbn [fst snd].
  pose proof (zlen_nonneg n). pose proof (zlen_nonneg t2).
  assert (Hr0 : repr ntb_buffer_init []) by (split; [by apply (bool_decide_unpack _)|done]).
  destruct (repr_append _ [] n Hr0) as (b1 & -> & Hr1); [change (zlen (@nil Z)) with 0; lia|]. cbn [app] in Hr1. rewrite bind_ret_l.
  destruct (head_spec unit t2 rest Ht2) as (c2 & -> & _ & _ & Hx). rewrite bind_ret_l, (Hx 47) by lia. csimpl.
  destruct (expect 47 t2) as [t3|] eqn:Ee; cbn [found negb]; [|done].
  destruct (expect_ok _ _ _ Ht2 Ee) as (Ht3 & Hz3 & ->). cbn [app drop]. rewrite drop_0.
  destruct (repr_append_bytes b1 n 47 Hr1) as (b2 & -> & Hr2); [done|lia|]. rewrite bind_ret_l. pose proof (zlen_nonneg t3).
  destruct (head_spec unit t3 rest Ht3) as (c3 & -> & _ & Htok3 & _). rewrite bind_ret_l, Htok3. csimpl.
  destruct (nonempty_token t3) as [[v t4]|] eqn:En3; cbn [found negb]; [|done].
  destruct (nonempty_token_ok _ _ _ Ht3 En3) as (Hv & Ht4 & Hz4 & Et3 & _). rewrite span_token_spec, Et3, bind_ret_l. cbn [fst snd].
  pose proof (zlen_nonneg v). pose proof (zlen_nonneg t4). assert (Hzn : zlen (n ++ [47]) = zlen n + 1) by zlia.
  destruct (repr_append b2 _ v Hr2) as (b3 & -> & Hr3); [lia|]. rewrite bind_ret_l.
  assert (Hzv : zlen ((n ++ [47]) ++ v) = zlen n + 1 + zlen v) by (rewrite zlen_app; lia).
  destruct (repr_append_bytes b3 _ 0 Hr3) as (b4 & -> & Hr4); [done|lia|]. rewrite bind_ret_l.
  assert (Hs : text_ok ((n ++ [47]) ++ v)) by (rewrite !text_ok_app; split_and!; [done|by apply (bool_decide_unpack _)|done]).
  rewrite (repr_string b4 _ [] Hr4) by apply Hs.
  rewrite bind_ret_l, <- app_assoc. csimpl. cbn [app]. destruct (type_cb (n ++ 47 :: v) u) as [[] u']; [|done].
  apply attributes_loop_spec; [apply Hr4|done|lia|rewrite length_app; lia|done].
Qed.
End correctness.

(** ** Properties *)

(** On every C string the parser makes the calls of the grammar and returns
    what it says; it never reads behind the terminator, and white space, quoted
    values and escapes are read as in the reference. *)
Theorem content_type_grammar {U} (type_cb : list Z -> U -> bool * U) (attribute_cb : list Z -> list Z -> U -> bool * U) t u rest :
  text_ok t -> zlen t <= 2 ^ 31 ->
  ntb_parse_content_type type_cb attribute_cb (t ++ 0 :: rest) u = Ok (content_type_spec type_cb attribute_cb t u).
Proof. apply content_type_core. Qed.

Definition log_type (t : list Z) (l : list (list Z)) : bool * list (list Z) := (true, l ++ [t]).
Definition log_attribute (n v : list Z) (l : list (list Z)) : bool * list (list Z) := (true, l ++ [n; v]).

Lemma content_type_grammar_witness :
  ntb_parse_content_type log_type log_attribute ((str_bytes " text/plain ; a=b;c=" ++ [34; 120; 92; 34; 34]) ++ [0]) []
  = Ok (true, (str_bytes <$> ["text/plain"; "a"; "b"; "c"]%string) ++ [[120; 34]]).
Proof.
  rewrite (content_type_grammar log_type log_attribute _ [] []);
    [vm_compute; reflexivity|apply (bool_decide_unpack _); vm_compute; exact I|vm_compute; congruence].
Defined.
