(* ===== verification/ParseAddresses.v ===== *)
(** * ParseAddresses: lists of mail addresses (ntb-parse-addresses.c)

    The buffer holds the list and receives the addresses at its front while the list
    is read. The pointer [in] is an offset into the allocation; appending in a way
    that reallocates would leave it dangling and is [UB] here. The specification reads
    a list and collects each address in a list of its own. *)

From S2P Require Import Prelude Endian Buffer NetAddress OpenSSL Proto ProtoSpec NetText KeyValue Pow Base58 Address Base64 QuotedPrintable EncodedWords Keys ParseContentType.

Definition bitmessage_domain : list Z := str_bytes "bitmessage".

Section program.
Context `{!Digests} `{!BigNum} {E U : Type}.
(** [NTB_PARSE_ADDRESSES_ERROR_INVALID], and the callback with its user data *)
Context (invalid : E) (cb : ntb_address -> U -> result E U).

(** [struct ntb_parse_addresses_data] with the user data *)
Record ntb_parse_addresses_data := PaData { pa_buffer : ntb_buffer; pa_had_address : bool; pa_user_data : U }.

Definition reset_pa_data (d : ntb_parse_addresses_data) : ntb_parse_addresses_data :=
  PaData (set_empty (pa_buffer d)) false (pa_user_data d).

(** The result of a callee without error values of its own. *)
Definition lift {A} (r : result unit A) : result E A := map_err (fun _ => invalid) r.

Definition process_address (d : ntb_parse_addresses_data) : result E ntb_parse_addresses_data :=
  let b := pa_buffer d in
  data ← lift (buffer_string b);
  match find_byte 64 data with
  | None => Err invalid
  | Some end_ =>
      if negb (buf_length b - Z.of_nat end_ - 1 =? 10) || negb (bytes_eqb (drop (end_ + 1) data) bitmessage_domain)
      then Err invalid
      else
        b ← lift (buf_write b (Z.of_nat end_) [0]);
        s ← lift (cells_string (buf_data b));
        address ← lift (ntb_address_decode s);
        u ← cb address (pa_user_data d);
        Ok (PaData b (pa_had_address d) u)
  end.

Definition end_address (d : ntb_parse_addresses_data) : result E ntb_parse_addresses_data :=
  d ← (if negb (pa_had_address d) then process_address d else Ok d);
  Ok (reset_pa_data d).

(** [ntb_buffer_append_c] while [in] points into the buffer *)
Definition append_below_in (d : ntb_parse_addresses_data) (c : Z) : result E ntb_parse_addresses_data :=
  let b := pa_buffer d in
  _ ← c_assert (buf_length b <? buf_size b);
  b ← lift (ntb_buffer_append_c b c);
  Ok (PaData b (pa_had_address d) (pa_user_data d)).

(** [*in] *)
Definition read_in (d : ntb_parse_addresses_data) (i : nat) : result E Z :=
  l ← lift (buf_read (pa_buffer d) (Z.of_nat i) 1);
  deref l.

(** The loops return the new [in] and [in_length]. *)
Definition parsed : Type := ntb_parse_addresses_data * nat * nat.

Fixpoint quotes_loop (d : ntb_parse_addresses_data) (i n : nat) : result E parsed :=
  match n with
  | O => Err invalid
  | S n =>
      c ← read_in d i;
      if c =? 34 then Ok (d, S i, n)
      else if c =? 92 then
        match n with
        | O => Err invalid
        | S n =>
            c ← read_in d (S i);
            d ← append_below_in d c;
            quotes_loop d (S (S i)) n
        end
      else
        d ← append_below_in d c;
        quotes_loop d (S i) n
  end.

Definition parse_quotes (d : ntb_parse_addresses_data) (i n : nat) : result E parsed :=
  c ← read_in d i;
  _ ← c_assert (c =? 34);
  quotes_loop d (S i) (n - 1).

Fixpoint brackets_loop (d : ntb_parse_addresses_data) (i n : nat) : result E parsed :=
  match n with
  | O => Err invalid
  | S n =>
      c ← read_in d i;
      if c =? 62 then
        d ← process_address d;
        Ok (d, S i, n)
      else
        d ← append_below_in d c;
        brackets_loop d (S i) n
  end.

Definition parse_brackets (d : ntb_parse_addresses_data) (i n : nat) : result E parsed :=
  c ← read_in d i;
  _ ← c_assert (c =? 60);
  if pa_had_address d then Err invalid
  else brackets_loop (PaData (set_empty (pa_buffer d)) true (pa_user_data d)) (S i) (n - 1).

(** [while (in_length > 0)]: every iteration consumes at least a byte. *)
Fixpoint addresses_loop (fuel : nat) (d : ntb_parse_addresses_data) (i n : nat) : result E ntb_parse_addresses_data :=
  match n with
  | O => Ok d
  | S n1 =>
      match fuel with
      | O => OutOfFuel
      | S fuel =>
          c ← read_in d i;
          '(d, i, n) ← (if c =? 44 then d ← end_address d; Ok (reset_pa_data d, S i, n1)
                        else if c =? 34 then parse_quotes d i n
                        else if c =? 60 then parse_brackets d i n
                        else if c =? 32 then Ok (d, S i, n1)
                        else d ← append_below_in d c; Ok (d, S i, n1));
          addresses_loop fuel d i n
      end
  end.

Definition ntb_parse_addresses (b : ntb_buffer) (u : U) : result E (ntb_buffer * U) :=
  let in_length := Z.to_nat (buf_length b) in
  d ← addresses_loop in_length (reset_pa_data (PaData b false u)) 0 in_length;
  d ← end_address d;
  Ok (pa_buffer d, pa_user_data d).
End program.
Arguments ntb_parse_addresses_data U : clear implicits.

(** ** Specification *)

(** Inside what the next byte is. *)
Inductive address_mode := Plain | Quotes | Escape | Brackets.

Section reference.
Context `{!Digests} `{!BigNum} {E U : Type} (invalid : E) (cb : ntb_address -> U -> result E U).

(** [address@bitmessage]; a C string ends at its first zero byte. *)
Definition mail_address (text : list Z) (u : U) : result E U :=
  let '(local, domain) := split_when (fun c => c =? 64) text in
  if bytes_eqb domain (64 :: bitmessage_domain) then
    address ← lift invalid (ntb_address_decode (split_when (fun c => c =? 0) local).1);
    cb address u
  else Err invalid.

(** [text] is the address so far, [had] tells that one in brackets was seen. *)
Fixpoint addresses_spec (m : address_mode) (text : list Z) (had : bool) (u : U) (t : list Z) : result E U :=
  match t with
  | [] =>
      match m with
      | Plain => if had then Ok u else mail_address text u
      | _ => Err invalid
      end
  | c :: t =>
      match m with
      | Plain =>
          if c =? 44 then
            u ← (if had then Ok u else mail_address text u);
            addresses_spec Plain [] false u t
          else if c =? 34 then addresses_spec Quotes text had u t
          else if c =? 60 then
            if had then Err invalid else addresses_spec Brackets [] true u t
          else if c =? 32 then addresses_spec Plain text had u t
          else addresses_spec Plain (text ++ [c]) had u t
      | Quotes =>
          if c =? 34 then addresses_spec Plain text had u t
          else if c =? 92 then addresses_spec Escape text had u t
          else addresses_spec Quotes (text ++ [c]) had u t
      | Escape => addresses_spec Quotes (text ++ [c]) had u t
      | Brackets =>
          if c =? 62 then
            u ← mail_address text u;
            addresses_spec Plain [] had u t
          else addresses_spec Brackets (text ++ [c]) had u t
      end
  end.

Definition parse_addresses_spec (l : list Z) (u : U) : result E U := addresses_spec Plain [] false u l.
End reference.

(** ** Results that agree *)

(** Every outcome of [y] is the outcome of [x], values related by [P]. *)
Definition agrees {E A B} (P : A -> B -> Prop) (x : result E A) (y : result E B) : Prop :=
  match y with
  | Ok b => exists a, x = Ok a /\ P a b
  | Err e => x = Err e
  | UB => x = UB
  | OutOfFuel => x = OutOfFuel
  end.

Lemma agrees_bind {E A B C D} (P : A -> B -> Prop) (Q : C -> D -> Prop) (x : result E A) (y : result E B) f g :
  agrees P x y -> (forall a b, x = Ok a -> y = Ok b -> P a b -> agrees Q (f a) (g b)) -> agrees Q (x ≫= f) (y ≫= g).
Proof.
  destruct y; cbn [agrees]; intros Hx Hf; [|by rewrite Hx..]. destruct Hx as (a' & -> & HP). rewrite !bind_ret_l. by apply Hf.
Qed.

Lemma agrees_impl {E A B} (P Q : A -> B -> Prop) (x : result E A) (y : result E B) :
  agrees P x y -> (forall a b, P a b -> Q a b) -> agrees Q x y.
Proof. destruct y; cbn [agrees]; intros Hx Hf; [|done..]. destruct Hx as (a' & -> & HP). eauto. Qed.

Lemma agrees_ok {E A B} (P : A -> B -> Prop) a b : P a b -> agrees (E := E) P (Ok a) (Ok b).
Proof. exists a. done. Qed.

(** ** Lists and cells *)

Lemma find_byte_split x l :
  match find_byte x l with
  | None => split_when (fun c => c =? x) l = (l, [])
  | Some k => split_when (fun c => c =? x) l = (take k l, x :: drop (k + 1) l) /\ (k < length l)%nat
  end.
Proof.
  induction l as [|c l IH]; [done|]. cbn [find_byte split_when]. destruct (Z.eqb_spec c x) as [->|].
  - split; [done|cbn; lia].
  - destruct (find_byte x l) as [k|]; csimpl; [|by rewrite IH]. destruct IH as [-> ?]. split; [done|lia].
Qed.

Lemma cells_string_split s l : cells_string ((Some <$> s) ++ Some 0 :: l) = Ok (split_when (fun c => c =? 0) s).1.
Proof.
  induction s as [|c s IH]; [done|]. csimpl. destruct (c =? 0); [done|]. rewrite IH, bind_ret_l.
  by destruct (split_when _ s).
Qed.

Lemma drop_write_cells {E} (d d' : list (option Z)) off l i :
  write_cells (E := E) off l d = Ok d' -> 0 <= off -> off + zlen l <= Z.of_nat i -> drop i d' = drop i d.
Proof.
  unfold write_cells. destruct (_ && _) eqn:Ec; [|done]. intros [= <-] Ho Hi.
  apply andb_prop in Ec as [_ Hl%Z.leb_le]. unfold zlen in *.
  rewrite app_assoc, drop_app_ge by (rewrite length_app, length_take, length_fmap; lia).
  rewrite drop_drop, length_app, length_take, length_fmap. f_equal. lia.
Qed.

(** ** The parser in place *)

(** [t] is what is left from the offset [i] on; the address lies in front of it. *)
Definition ahead (b : ntb_buffer) (i : nat) (t : list Z) : Prop :=
  buf_wf b /\ buf_length b <= Z.of_nat i /\ exists post, drop i (buf_data b) = (Some <$> t) ++ post.

Lemma ahead_room b i c t : ahead b i (c :: t) -> Z.of_nat i < buf_size b.
Proof.
  intros ((Hd & _) & _ & post & Hp). apply (f_equal length) in Hp. rewrite length_drop, length_app in Hp. cbn in Hp.
  unfold zlen in Hd. lia.
Qed.

Lemma ahead_next b i c t : ahead b i (c :: t) -> ahead b (S i) t.
Proof.
  intros (Hwf & Hl & post & Hp). split_and!; [done|lia|]. exists post.
  by rewrite <- Nat.add_1_r, <- drop_drop, Hp.
Qed.

Lemma ahead_empty b i t : ahead b i t -> ahead (set_empty b) i t.
Proof. intros ((? & ? & ?) & Hl & Hp). split_and!; cbn; [split_and!; cbn; lia|lia|done]. Qed.

Lemma ahead_write {E} b b' k l i t :
  ahead b i t -> buf_write (E := E) b k l = Ok b' -> 0 <= k -> k + zlen l <= Z.of_nat i ->
  drop i (buf_data b') = drop i (buf_data b).
Proof.
  intros _ (d & Hw & [= <-])%bind_Ok Hk Hi. cbn [buf_data]. by eapply drop_write_cells.
Qed.

Section in_place.
Context `{DigestLaws} `{BigNumLaws} {E U : Type} (invalid : E) (cb : ntb_address -> U -> result E U).
Implicit Types (d : ntb_parse_addresses_data U) (u : U).

Lemma read_in_spec d i c t : ahead (pa_buffer d) i (c :: t) -> read_in invalid d i = Ok c.
Proof.
  intros Ha. pose proof (ahead_room _ _ _ _ Ha). destruct Ha as ((Hd & _) & _ & post & Hp). unfold read_in, buf_read.
  rewrite (proj2 (Z.leb_le 0 (Z.of_nat i))), (proj2 (Z.leb_le (Z.of_nat i + 1) _)) by lia. cbn [andb Z.leb Z.compare].
  by rewrite Nat2Z.id, Hp.
Qed.

Lemma append_below_in_spec b had u i c t x :
  ahead b i (c :: t) -> is_byte x ->
  exists b', append_below_in invalid (PaData b had u) x = Ok (PaData b' had u) /\ ahead b' (S i) t /\
    buf_size b' = buf_size b /\ forall text, repr b text -> repr b' (text ++ [x]).
Proof.
  intros Ha Hx. pose proof (ahead_room _ _ _ _ Ha) as Hroom. destruct (ahead_next _ _ _ _ Ha) as (Hwf & _ & post & Hp).
  destruct Ha as (_ & Hl & _). unfold append_below_in, ntb_buffer_append_c. cbn [pa_buffer pa_had_address pa_user_data].
  rewrite (proj2 (Z.ltb_lt (buf_length b) _)), u8_small by (first [lia | exact Hx]). cbn [c_assert]. rewrite bind_ret_l.
  assert (Hz1 : zlen [x] = 1) by done.
  destruct (buf_write_end (E := unit) b [x]) as (b1 & E1 & Hb1 & Hb2 & Hl1 & Hs1 & _ & Hc1); [done|lia|].
  rewrite E1, bind_ret_l. cbn [lift map_err]. rewrite bind_ret_l. rewrite Hz1 in *. pose proof (proj1 (proj2 Hwf)).
  exists (add_length b1 1). split_and!; [done| |done|].
  - split; [done|]. split; [destruct Hwf as (_ & ? & ?); unfold add_length; cbn [buf_length]; rewrite Hl1, u64_small by lia; lia|].
    exists post. rewrite <- Hp. cbn [add_length buf_data]. apply (ahead_write (E := unit) b b1 (buf_length b) [x] (S i) t);
      [split_and!; [done|lia|by exists post]|done|lia|lia].
  - intros text [_ Ht]. split; [done|]. by rewrite Hc1, Ht, fmap_app.
Qed.

Lemma process_address_spec b had u i t text :
  ahead b i t -> repr b text -> bytes text ->
  agrees (fun d' u' => exists b', d' = PaData b' had u' /\ ahead b' i t /\ buf_size b' = buf_size b)
    (process_address invalid cb (PaData b had u)) (mail_address invalid cb text u).
Proof.
  intros Ha Hr Hb. unfold process_address, mail_address. cbn [pa_buffer pa_had_address pa_user_data].
  rewrite (buffer_string_spec _ _ Hr). cbn [lift map_err]. rewrite bind_ret_l. pose proof (repr_length _ _ Hr) as Hl.
  pose proof (find_byte_split 64 text) as Hf. destruct (find_byte 64 text) as [k|]; [|by rewrite Hf].
  destruct Hf as [-> Hk]. set (dom := drop (k + 1) text).
  assert (Hdom : negb (buf_length b - Z.of_nat k - 1 =? 10) || negb (bytes_eqb dom bitmessage_domain)
    = negb (bytes_eqb (64 :: dom) (64 :: bitmessage_domain))).
  { destruct (bytes_eqb (64 :: dom) _) eqn:Ed.
    - apply bytes_eqb_true in Ed. injection Ed as Ed. rewrite Ed, bytes_eqb_refl. apply (f_equal length) in Ed.
      unfold dom in Ed. rewrite length_drop in Ed. change (length bitmessage_domain) with 10%nat in Ed. unfold zlen in Hl.
      destruct (Z.eqb_spec (buf_length b - Z.of_nat k - 1) 10); [done|lia].
    - apply orb_true_intro. right. destruct (bytes_eqb dom _) eqn:Ed'; [|done]. apply bytes_eqb_true in Ed'. rewrite Ed' in Ed.
      by rewrite bytes_eqb_refl in Ed. }
  rewrite Hdom. destruct (bytes_eqb (64 :: dom) _); cbn [negb]; [|done].
  destruct Ha as (Hwf & Hli & post & Hp). unfold zlen in Hl. assert (Hz1 : zlen [0] = 1) by done.
  destruct (write_cells_spec (E := unit) (Z.of_nat k) [0] (buf_data b)) as (dt & Ew & Hzd & Htk & Htk1); [lia|destruct Hwf as (? & ? & ?); lia|].
  assert (Hbw : buf_write b (Z.of_nat k) [0] = (Ok (Buf dt (buf_length b) (buf_size b)) : result unit _)) by (unfold buf_write; by rewrite Ew).
  rewrite Hbw. cbn [lift map_err]. rewrite bind_ret_l. cbn [buf_data].
  assert (Hdt : dt = (Some <$> take k text) ++ Some 0 :: drop (k + 1) dt).
  { rewrite <- (take_drop (k + 1) dt) at 1. replace (Z.to_nat (Z.of_nat k + zlen [0])) with (k + 1)%nat in Htk1 by lia.
    rewrite Htk1, Nat2Z.id, <- app_assoc. f_equal. destruct Hr as [_ Hc]. unfold cells in Hc.
    rewrite fmap_take, <- Hc, take_take. f_equal. lia. }
  rewrite Hdt at 1. rewrite cells_string_split. cbn [lift map_err]. rewrite bind_ret_l.
  set (s := (split_when _ _).1). pose proof (address_decode_total s) as Ht.
  destruct (ntb_address_decode s) as [a| | |]; cbn [lift map_err]; try done. rewrite !bind_ret_l.
  destruct (cb a u) as [u'| | |]; try done. rewrite bind_ret_l. cbn [agrees]. eexists. split; [done|]. eexists. split; [done|].
  split; [|done]. split_and!; cbn [buf_data buf_length buf_size]; [destruct Hwf as (? & ? & ?); split_and!; cbn; lia|done|].
  exists post. rewrite <- Hp. by eapply (drop_write_cells (E := unit)); [exact Ew|lia|lia].
Qed.

(** The rest of the call from the main loop on. *)
Definition finish (r : result E (ntb_parse_addresses_data U)) : result E (ntb_buffer * U) :=
  d ← r; d ← end_address invalid cb d; Ok (pa_buffer d, pa_user_data d).

Lemma finish_parsed (r : result E (@parsed U)) fuel :
  finish ('(d, i, n) ← r; addresses_loop invalid cb fuel d i n) = '(d, i, n) ← r; finish (addresses_loop invalid cb fuel d i n).
Proof. by destruct r as [[[? ?] ?]| | |]. Qed.

(** The buffer is well formed and its allocation is the one it was. *)
Definition kept_buffer (size : Z) (bu : ntb_buffer * U) (u : U) : Prop := buf_wf bu.1 /\ buf_size bu.1 = size /\ bu.2 = u.

Lemma end_address_spec b had u i t text :
  ahead b i t -> bytes text -> (had = false -> repr b text) ->
  agrees (fun d' u' => exists b', d' = PaData b' false u' /\ ahead b' i t /\ buf_size b' = buf_size b /\ repr b' [])
    (end_address invalid cb (PaData b had u)) (if had then Ok u else mail_address invalid cb text u).
Proof.
  intros Ha Hb Hr. unfold end_address. cbn [pa_had_address]. destruct had; cbn [negb].
  - rewrite bind_ret_l. apply agrees_ok. exists (set_empty b). split_and!; [done|by apply ahead_empty|done|by apply repr_empty; destruct Ha].
  - specialize (Hr eq_refl). pose proof (process_address_spec b false u i t text Ha Hr Hb) as Hp.
    destruct (mail_address invalid cb text u) as [u'| | |]; cbn [agrees] in *; [|by rewrite Hp..].
    destruct Hp as (d' & -> & b' & -> & Ha' & Hs). rewrite bind_ret_l. eexists. split; [done|]. exists (set_empty b').
    split_and!; [done|by apply ahead_empty|done|by apply repr_empty; destruct Ha'].
Qed.

Definition plain_ok (t : list Z) : Prop := forall fuel b had u i text,
  (length t <= fuel)%nat -> ahead b i t -> bytes text -> (had = false -> repr b text) ->
  agrees (kept_buffer (buf_size b)) (finish (addresses_loop invalid cb fuel (PaData b had u) i (length t)))
    (addresses_spec invalid cb Plain text had u t).

Definition quotes_ok (t : list Z) : Prop := forall fuel b had u i text,
  (length t <= fuel)%nat -> ahead b i t -> bytes text -> (had = false -> repr b text) ->
  agrees (kept_buffer (buf_size b))
    ('(d, i, n) ← quotes_loop invalid (PaData b had u) i (length t); finish (addresses_loop invalid cb fuel d i n))
    (addresses_spec invalid cb Quotes text had u t).

Definition brackets_ok (t : list Z) : Prop := forall fuel b u i text,
  (length t <= fuel)%nat -> ahead b i t -> bytes text -> repr b text ->
  agrees (kept_buffer (buf_size b))
    ('(d, i, n) ← brackets_loop invalid cb (PaData b true u) i (length t); finish (addresses_loop invalid cb fuel d i n))
    (addresses_spec invalid cb Brackets text true u t).

Lemma append_agrees b had u i c t x text (k : ntb_parse_addresses_data U -> result E (ntb_buffer * U)) spec :
  ahead b i (c :: t) -> is_byte x -> bytes text -> (had = false -> repr b text) ->
  (forall b', ahead b' (S i) t -> buf_size b' = buf_size b -> bytes (text ++ [x]) -> (had = false -> repr b' (text ++ [x])) ->
     (repr b text -> repr b' (text ++ [x])) -> agrees (kept_buffer (buf_size b')) (k (PaData b' had u)) spec) ->
  agrees (kept_buffer (buf_size b)) (append_below_in invalid (PaData b had u) x ≫= k) spec.
Proof.
  intros Ha Hx Hb Hr Hk. destruct (append_below_in_spec b had u i c t x Ha Hx) as (b' & -> & Ha' & Hs & Hr').
  rewrite bind_ret_l, <- Hs. apply Hk; [done|done|apply bytes_app; split; [done|by apply bytes_singleton]|auto|auto].
Qed.

Lemma quotes_step c t : bytes (c :: t) -> plain_ok t -> quotes_ok t -> (forall c' t', t = c' :: t' -> quotes_ok t') -> quotes_ok (c :: t).
Proof.
  intros [Hc Hb]%bytes_cons Hp Hq Hq2 fuel b had u i text Hf Ha Ht Hr. cbn [length quotes_loop addresses_spec] in *.
  rewrite (read_in_spec (PaData b had u) i c t Ha), bind_ret_l.
  destruct (c =? 34); [rewrite bind_ret_l; apply Hp; [lia|by eapply ahead_next|done|done]|].
  destruct (c =? 92).
  - destruct t as [|c' t']; [done|]. cbn [length addresses_spec]. pose proof (ahead_next _ _ _ _ Ha) as Ha1.
    apply bytes_cons in Hb as [Hc' Hb]. rewrite (read_in_spec (PaData b had u) (S i) c' t' Ha1), bind_ret_l, bind_assoc. cbn [length] in Hf.
    apply (append_agrees b had u (S i) c' t' c' text); [done..|]. intros b' ? ? ? ? _. apply (Hq2 c' t' eq_refl); [lia|done..].
  - rewrite bind_assoc. apply (append_agrees b had u i c t c text); [done..|]. intros b' ? ? ? ? _. apply Hq; [lia|done..].
Qed.

Lemma brackets_step c t : bytes (c :: t) -> plain_ok t -> brackets_ok t -> brackets_ok (c :: t).
Proof.
  intros [Hc Hb]%bytes_cons Hp Hq fuel b u i text Hf Ha Ht Hr. cbn [length brackets_loop addresses_spec] in *.
  rewrite (read_in_spec (PaData b true u) i c t Ha), bind_ret_l. destruct (c =? 62).
  - rewrite bind_assoc. eapply agrees_bind; [by apply (process_address_spec b true u (S i) t text); [eapply ahead_next|..]|].
    intros d' u' _ _ (b' & -> & Ha' & <-). rewrite bind_ret_l. apply Hp; [lia|done|by constructor|done].
  - rewrite bind_assoc. apply (append_agrees b true u i c t c text); [done..|]. intros b' ? ? ? ? Hr'. apply Hq; [lia|done|done|auto].
Qed.

Lemma plain_step c t : bytes (c :: t) -> plain_ok t -> quotes_ok t -> brackets_ok t -> plain_ok (c :: t).
Proof.
  intros [Hc Hb]%bytes_cons Hp Hq Hbr fuel b had u i text Hf Ha Ht Hr. destruct fuel as [|fuel]; [cbn in Hf; lia|].
  cbn [length addresses_loop addresses_spec] in *. pose proof (read_in_spec (PaData b had u) i c t Ha) as Hread.
  pose proof (ahead_next _ _ _ _ Ha) as Ha1. rewrite Hread, bind_ret_l, finish_parsed.
  destruct (Z.eqb_spec c 44) as [->|].
  { rewrite bind_assoc. eapply agrees_bind; [by apply (end_address_spec b had u (S i) t text)|].
    intros d' u' _ _ (b' & -> & Ha' & <- & Hr'). cbn [reset_pa_data pa_buffer pa_user_data]. rewrite bind_ret_l.
    apply (Hp fuel (set_empty b') false u' (S i) []); [lia|by apply ahead_empty|by constructor|].
    intros _. apply repr_empty. apply Ha'. }
  destruct (Z.eqb_spec c 34) as [->|].
  { unfold parse_quotes. rewrite Hread, !bind_ret_l. cbn [c_assert Z.eqb Pos.eqb]. rewrite bind_ret_l. cbn [Nat.sub]. rewrite Nat.sub_0_r.
    apply Hq; [lia|done..]. }
  destruct (Z.eqb_spec c 60) as [->|].
  { unfold parse_brackets. rewrite Hread, !bind_ret_l. cbn [c_assert Z.eqb Pos.eqb pa_had_address pa_buffer pa_user_data]. rewrite bind_ret_l.
    destruct had; [done|]. cbn [Nat.sub]. rewrite Nat.sub_0_r.
    apply (Hbr fuel (set_empty b) u (S i) []); [lia|by apply ahead_empty|by constructor|apply repr_empty, Ha]. }
  destruct (c =? 32); [rewrite bind_ret_l; apply Hp; [lia|done..]|].
  rewrite bind_assoc. apply (append_agrees b had u i c t c text); [done..|]. intros b' ? ? ? ? _. rewrite bind_ret_l.
  apply Hp; [lia|done..].
Qed.

Lemma plain_nil : plain_ok [].
Proof.
  intros fuel b had u i text _ Ha Ht Hr. destruct fuel; cbn [length addresses_loop addresses_spec]; unfold finish; rewrite bind_ret_l.
  all: pose proof (end_address_spec b had u i [] text Ha Ht Hr) as He.
  all: destruct (if had then Ok u else mail_address invalid cb text u) as [u'| | |]; cbn [agrees] in *; [|by rewrite He..].
  all: destruct He as (d' & -> & b' & -> & Ha' & <- & _); rewrite bind_ret_l; eexists; split; [done|]; by split_and!; [apply Ha'|..].
Qed.

Lemma modes_ok t : bytes t -> plain_ok t /\ quotes_ok t /\ brackets_ok t.
Proof.
  induction t as [t IH] using (induction_ltof1 _ (@length Z)). unfold ltof in IH. intros Hb.
  destruct t as [|c t].
  - split_and!; [apply plain_nil|intros fuel b had u i text _ _ _ _; exact eq_refl|intros fuel b u i text _ _ _ _; exact eq_refl].
  - destruct (IH t) as (Hp & Hq & Hbr); [cbn; lia|by apply bytes_cons in Hb as [_ Hb]|].
    split_and!; [by apply plain_step|apply quotes_step; [done..|]|by apply brackets_step].
    intros c' t' ->. apply IH; [cbn; lia|]. by apply bytes_cons in Hb as [_ [_ ?]%bytes_cons].
Qed.

(** Parsing in place is parsing the list; no append reallocates the buffer. *)
Lemma parse_addresses_core b l u :
  repr b l -> bytes l ->
  agrees (kept_buffer (buf_size b)) (ntb_parse_addresses invalid cb b u) (parse_addresses_spec invalid cb l u).
Proof.
  intros Hr Hb. pose proof (repr_length _ _ Hr) as Hl. destruct (repr_data _ _ Hr) as [post Hp].
  unfold ntb_parse_addresses, parse_addresses_spec. replace (Z.to_nat (buf_length b)) with (length l) by (unfold zlen in Hl; lia).
  destruct (modes_ok l Hb) as [Hplain _]. cbn [reset_pa_data pa_buffer pa_user_data].
  apply (Hplain (length l) (set_empty b) false u 0%nat []); [lia| |by constructor|intros _; apply repr_empty, Hr].
  split_and!; [apply repr_empty, Hr|done|]. exists post. by rewrite drop_0.
Qed.
End in_place.

(** The parser does not look at the user data. *)
Lemma addresses_spec_fmap `{!Digests} `{!BigNum} {E U V} (invalid : E) (f : U -> V)
    (cb1 : ntb_address -> U -> result E U) (cb2 : ntb_address -> V -> result E V) :
  (forall a u, cb2 a (f u) = f <$> cb1 a u) ->
  forall t m text had u, addresses_spec invalid cb2 m text had (f u) t = f <$> addresses_spec invalid cb1 m text had u t.
Proof.
  intros Hcb. assert (Hm : forall text u, mail_address invalid cb2 text (f u) = f <$> mail_address invalid cb1 text u).
  { intros text u. unfold mail_address. destruct (split_when _ text). destruct (bytes_eqb _ _); [|done].
    destruct (lift invalid _); try done. rewrite !bind_ret_l. apply Hcb. }
  induction t as [|c t IH]; intros m text had u; cbn [addresses_spec].
  - destruct m; try done. by destruct had.
  - destruct m.
    + destruct (c =? 44).
      { destruct had; [by rewrite !bind_ret_l, IH|]. rewrite Hm.
        by destruct (mail_address invalid cb1 text u) as [u'| | |]; cbn [fmap result_fmap]; rewrite ?bind_ret_l, ?IH. }
      repeat (match goal with |- context [if ?x then _ else _] => destruct x end; rewrite ?IH; try done).
    + repeat (match goal with |- context [if ?x then _ else _] => destruct x end; rewrite ?IH; try done).
    + apply IH.
    + destruct (c =? 62); [|apply IH]. rewrite Hm.
      by destruct (mail_address invalid cb1 text u) as [u'| | |]; cbn [fmap result_fmap]; rewrite ?bind_ret_l, ?IH.
Qed.

(** ** Properties *)

(** Reading the list in the buffer that also receives the addresses gives what
    reading it into separate memory gives, for every text and every callback, errors
    included. Nothing behind the list is read, no byte is overwritten before it was
    read, and the buffer is never reallocated while the list in it is read. *)
Theorem parse_addresses_in_place `{DigestLaws} `{BigNumLaws} {E U} (invalid : E) (cb : ntb_address -> U -> result E U) b l u :
  repr b l -> bytes l ->
  match parse_addresses_spec invalid cb l u with
  | Ok u' => exists b', ntb_parse_addresses invalid cb b u = Ok (b', u') /\ buf_wf b' /\ buf_size b' = buf_size b
  | r => ntb_parse_addresses invalid cb b u = (u' ← r; Ok (b, u'))
  end.
Proof.
  intros Hr Hb. pose proof (parse_addresses_core invalid cb b l u Hr Hb) as Ha.
  destruct (parse_addresses_spec invalid cb l u) as [u'| | |]; cbn [agrees] in Ha; [|done..].
  destruct Ha as ([b' ?] & -> & ? & ? & <-). by exists b'.
Qed.

(** A buffer with a list in two forms: one address in brackets behind a quoted name,
    one bare. *)
Definition example_list : list Z :=
  [34] ++ str_bytes "A, B" ++ [34; 60] ++ str_bytes "BM-5oQjPzx4EkoMDHyZogNuEA5wfgmxkto@bitmessage> , "
    ++ str_bytes "BM-5oQjPzx4EkoMDHyZogNuEA5wfgmxkto@bitmessage".
Definition collect (a : ntb_address) (l : list ntb_address) : result unit (list ntb_address) := Ok (l ++ [a]).
Definition list_buffer (l : list Z) : ntb_buffer := Buf (Some <$> l) (zlen l) (zlen l).

Section witness.
#[local] Existing Instances Digests_toy DigestLaws_toy BigNum_N BigNumLaws_N.
Lemma parse_addresses_in_place_witness :
  exists b', ntb_parse_addresses tt collect (list_buffer example_list) [] = Ok (b', [example_address; example_address]) /\
    buf_wf b' /\ buf_size b' = zlen example_list.
Proof.
  assert (Hr : repr (list_buffer example_list) example_list) by (split; [split_and!; vm_compute; congruence|vm_compute; reflexivity]).
  assert (Hb : bytes example_list) by (apply (bool_decide_unpack _); vm_compute; exact I).
  pose proof (parse_addresses_in_place tt collect (list_buffer example_list) example_list [] Hr Hb) as W.
  assert (Hs : parse_addresses_spec tt collect example_list [] = Ok [example_address; example_address]) by (vm_compute; reflexivity).
  rewrite Hs in W. exact W.
Defined.
End witness.
