(* ===== verification/MailParser.v ===== *)
(** * MailParser: the incremental mail parser (ntb-mail-parser.c, ntb-mail-parser.h)

    A mail arrives in pieces of any size; each handler consumes a part of the piece
    and returns how much. The parser is a record over the type of its buffer, so that
    the specification, which reads one byte at a time into a list, shares the parts
    that do not touch it. What it reports goes to a client through two callbacks. *)

From S2P Require Import Prelude Endian Buffer NetAddress OpenSSL Proto ProtoSpec NetText KeyValue Pow Base58 Address Base64 QuotedPrintable EncodedWords Keys ParseContentType ParseAddresses.

Inductive ntb_mail_parser_error :=
| NTB_MAIL_PARSER_ERROR_INVALID_HEADER
| NTB_MAIL_PARSER_ERROR_INVALID_CONTENT_TYPE
| NTB_MAIL_PARSER_ERROR_INVALID_TRANSFER_ENCODING
| NTB_MAIL_PARSER_ERROR_INVALID_ADDRESS
| NTB_MAIL_PARSER_ERROR_MISSING_HEADER.

Inductive ntb_mail_parser_event :=
| NTB_MAIL_PARSER_EVENT_SUBJECT
| NTB_MAIL_PARSER_EVENT_SOURCE
| NTB_MAIL_PARSER_EVENT_DESTINATION
| NTB_MAIL_PARSER_EVENT_CONTENT.

Inductive ntb_mail_parser_state :=
| NTB_MAIL_PARSER_HEADER_NAME
| NTB_MAIL_PARSER_HEADER_VALUE_START
| NTB_MAIL_PARSER_HEADER_VALUE
| NTB_MAIL_PARSER_CHECK_EOL
| NTB_MAIL_PARSER_CHECK_CONTINUATION
| NTB_MAIL_PARSER_CONTENT.

Inductive ntb_mail_parser_header :=
| NTB_MAIL_PARSER_SKIP
| NTB_MAIL_PARSER_TO
| NTB_MAIL_PARSER_CC
| NTB_MAIL_PARSER_BCC
| NTB_MAIL_PARSER_FROM
| NTB_MAIL_PARSER_SUBJECT
| NTB_MAIL_PARSER_CONTENT_TYPE
| NTB_MAIL_PARSER_TRANSFER_ENCODING.

Definition ntb_mail_parser_headers : list (list Z * ntb_mail_parser_header) :=
  [(str_bytes "skip", NTB_MAIL_PARSER_SKIP);
   (str_bytes "to", NTB_MAIL_PARSER_TO);
   (str_bytes "cc", NTB_MAIL_PARSER_CC);
   (str_bytes "bcc", NTB_MAIL_PARSER_BCC);
   (str_bytes "from", NTB_MAIL_PARSER_FROM);
   (str_bytes "subject", NTB_MAIL_PARSER_SUBJECT);
   (str_bytes "content-type", NTB_MAIL_PARSER_CONTENT_TYPE);
   (str_bytes "content-transfer-encoding", NTB_MAIL_PARSER_TRANSFER_ENCODING)].

Inductive ntb_mail_parser_encoding :=
| NTB_MAIL_PARSER_ENCODING_RAW
| NTB_MAIL_PARSER_ENCODING_BASE64
| NTB_MAIL_PARSER_ENCODING_QUOTED_PRINTABLE.

(** The member of the union that was written last. *)
Inductive content_decoder :=
| Decoder_none
| Decoder_base64 (data : ntb_base64_data)
| Decoder_qp (data : ntb_quoted_printable_data).

(** Every error domain a failure can come from. *)
Inductive mail_error (C : Type) :=
| Mail_error (e : ntb_mail_parser_error)
| Addresses_error
| Base64_error (e : ntb_base64_error)
| Quoted_printable_error (e : ntb_quoted_printable_error)
| Client_error (e : C).
Arguments Mail_error {C} e.
Arguments Addresses_error {C}.
Arguments Base64_error {C} e.
Arguments Quoted_printable_error {C} e.
Arguments Client_error {C} e.

(** The two callbacks with the client's data and its errors. After a failure the
    client gives the mail up, so its data then is not kept. *)
Class MailClient (U C : Type) := {
  address_cb : ntb_mail_parser_event -> ntb_address -> U -> result C U;
  data_cb : ntb_mail_parser_event -> list Z -> U -> result C U
}.

(** Content may be handed over in pieces and is always taken. *)
Class MailClientLaws `{MailClient U C} : Prop := {
  content_taken l u : exists u', data_cb NTB_MAIL_PARSER_EVENT_CONTENT l u = Ok u';
  content_nil u : data_cb NTB_MAIL_PARSER_EVENT_CONTENT [] u = Ok u;
  content_app a b u : data_cb NTB_MAIL_PARSER_EVENT_CONTENT (a ++ b) u =
    data_cb NTB_MAIL_PARSER_EVENT_CONTENT a u ≫= data_cb NTB_MAIL_PARSER_EVENT_CONTENT b
}.

(** The [had_] members. *)
Record mail_flags := MailFlags {
  had_from : bool; had_to : bool; had_cc : bool; had_bcc : bool;
  had_subject : bool; had_content_type : bool; had_transfer_encoding : bool
}.

(** [struct ntb_mail_parser]; [mp_current_header] is indeterminate at first. *)
Record mail_parser (B U : Type) := MailParser {
  mp_state : ntb_mail_parser_state;
  mp_current_header : option ntb_mail_parser_header;
  mp_buffer : B;
  mp_flags : mail_flags;
  mp_encoding : ntb_mail_parser_encoding;
  mp_decoder : content_decoder;
  mp_user_data : U
}.
Arguments MailParser {B U}.
Arguments mp_state {B U}.
Arguments mp_current_header {B U}.
Arguments mp_buffer {B U}.
Arguments mp_flags {B U}.
Arguments mp_encoding {B U}.
Arguments mp_decoder {B U}.
Arguments mp_user_data {B U}.

Section setters.
Context {B U : Type}.
Implicit Type p : mail_parser B U.

Definition mp_set_state s p : mail_parser B U :=
  MailParser s (mp_current_header p) (mp_buffer p) (mp_flags p) (mp_encoding p) (mp_decoder p) (mp_user_data p).
Definition mp_set_current_header h p : mail_parser B U :=
  MailParser (mp_state p) (Some h) (mp_buffer p) (mp_flags p) (mp_encoding p) (mp_decoder p) (mp_user_data p).
Definition mp_set_buffer b p : mail_parser B U :=
  MailParser (mp_state p) (mp_current_header p) b (mp_flags p) (mp_encoding p) (mp_decoder p) (mp_user_data p).
Definition mp_set_flags f p : mail_parser B U :=
  MailParser (mp_state p) (mp_current_header p) (mp_buffer p) (f (mp_flags p)) (mp_encoding p) (mp_decoder p) (mp_user_data p).
Definition mp_set_encoding e p : mail_parser B U :=
  MailParser (mp_state p) (mp_current_header p) (mp_buffer p) (mp_flags p) e (mp_decoder p) (mp_user_data p).
Definition mp_set_decoder d p : mail_parser B U :=
  MailParser (mp_state p) (mp_current_header p) (mp_buffer p) (mp_flags p) (mp_encoding p) d (mp_user_data p).
Definition mp_set_user_data u p : mail_parser B U :=
  MailParser (mp_state p) (mp_current_header p) (mp_buffer p) (mp_flags p) (mp_encoding p) (mp_decoder p) u.
End setters.

Definition set_had_from (f : mail_flags) :=
  MailFlags true (had_to f) (had_cc f) (had_bcc f) (had_subject f) (had_content_type f) (had_transfer_encoding f).
Definition set_had_to (f : mail_flags) :=
  MailFlags (had_from f) true (had_cc f) (had_bcc f) (had_subject f) (had_content_type f) (had_transfer_encoding f).
Definition set_had_cc (f : mail_flags) :=
  MailFlags (had_from f) (had_to f) true (had_bcc f) (had_subject f) (had_content_type f) (had_transfer_encoding f).
Definition set_had_bcc (f : mail_flags) :=
  MailFlags (had_from f) (had_to f) (had_cc f) true (had_subject f) (had_content_type f) (had_transfer_encoding f).
Definition set_had_subject (f : mail_flags) :=
  MailFlags (had_from f) (had_to f) (had_cc f) (had_bcc f) true (had_content_type f) (had_transfer_encoding f).
Definition set_had_content_type (f : mail_flags) :=
  MailFlags (had_from f) (had_to f) (had_cc f) (had_bcc f) (had_subject f) true (had_transfer_encoding f).
Definition set_had_transfer_encoding (f : mail_flags) :=
  MailFlags (had_from f) (had_to f) (had_cc f) (had_bcc f) (had_subject f) (had_content_type f) true.

Definition no_flags : mail_flags := MailFlags false false false false false false false.

(** ** Characters and strings *)

Definition ascii_islwsp (ch : Z) : bool := (ch =? 32) || (ch =? 9).

(** Of two C strings, without their terminators. *)
Fixpoint ascii_casecmp (a b : list Z) : Z :=
  match a, b with
  | x :: a, y :: b =>
      let cmp := ntb_ascii_tolower (s8 x) - ntb_ascii_tolower (s8 y) in
      if cmp =? 0 then ascii_casecmp a b else cmp
  | _ :: _, [] => 1
  | [], _ :: _ => -1
  | [], [] => 0
  end.

(** [data] are the bytes of the buffer; [name] points to a C string. *)
Fixpoint is_header (data : list Z) (name : ptr) : result unit bool :=
  match data with
  | [] => Ok true
  | c :: data =>
      n ← deref name;
      if negb (ntb_ascii_tolower (s8 c) =? n) then Ok false else is_header data (drop 1 name)
  end.

Fixpoint find_header (data : list Z) (headers : list (list Z * ntb_mail_parser_header)) : result unit ntb_mail_parser_header :=
  match headers with
  | [] => Ok NTB_MAIL_PARSER_SKIP
  | (name, value) :: headers =>
      found ← is_header data (name ++ [0]);
      if (found : bool) then Ok value else find_header data headers
  end.

(** ** The handlers that do not touch the buffer *)

Section program.
Context `{!Digests} `{!BigNum} `{MailClient U C}.

Abbreviation mail_result := (result (mail_error C)).

Definition header_error {A} : mail_result A := Err (Mail_error NTB_MAIL_PARSER_ERROR_INVALID_HEADER).

(** A callee without error values. *)
Definition no_error {A} (r : result unit A) : mail_result A := lift (Mail_error NTB_MAIL_PARSER_ERROR_INVALID_HEADER) r.

Section any_buffer.
Context {B : Type}.
Implicit Type p : mail_parser B U.

Definition call_address (event : ntb_mail_parser_event) (address : ntb_address) p : mail_result (mail_parser B U) :=
  u ← map_err Client_error (address_cb event address (mp_user_data p));
  Ok (mp_set_user_data u p).

Definition call_data (event : ntb_mail_parser_event) (data : list Z) p : mail_result (mail_parser B U) :=
  u ← map_err Client_error (data_cb event data (mp_user_data p));
  Ok (mp_set_user_data u p).

Definition destination_address_cb (address : ntb_address) p : mail_result (mail_parser B U) :=
  call_address NTB_MAIL_PARSER_EVENT_DESTINATION address p.

Definition from_address_cb (address : ntb_address) p : mail_result (mail_parser B U) :=
  if had_from (mp_flags p) then header_error
  else call_address NTB_MAIL_PARSER_EVENT_SOURCE address (mp_set_flags set_had_from p).

Definition handle_headers_end p : mail_result (mail_parser B U) :=
  let f := mp_flags p in
  if negb (had_from f) then Err (Mail_error NTB_MAIL_PARSER_ERROR_MISSING_HEADER)
  else if negb (had_to f) && negb (had_cc f) && negb (had_bcc f) then
    Err (Mail_error NTB_MAIL_PARSER_ERROR_MISSING_HEADER)
  else
    let p := mp_set_state NTB_MAIL_PARSER_CONTENT p in
    Ok (match mp_encoding p with
        | NTB_MAIL_PARSER_ENCODING_BASE64 => mp_set_decoder (Decoder_base64 ntb_base64_decode_start) p
        | NTB_MAIL_PARSER_ENCODING_QUOTED_PRINTABLE =>
            mp_set_decoder (Decoder_qp (ntb_quoted_printable_decode_start false)) p
        | NTB_MAIL_PARSER_ENCODING_RAW => p
        end).

(** The error the callbacks of the content type parser leave. *)
Definition content_type_type_cb (type : list Z) (error : option (mail_error C)) : bool * option (mail_error C) :=
  if negb (ascii_casecmp type (str_bytes "text/plain") =? 0) then
    (false, Some (Mail_error NTB_MAIL_PARSER_ERROR_INVALID_CONTENT_TYPE))
  else (true, error).

Definition content_type_attribute_cb (attribute value : list Z) (error : option (mail_error C)) : bool * option (mail_error C) :=
  if (ascii_casecmp attribute (str_bytes "charset") =? 0)
     && negb (ascii_casecmp value (str_bytes "utf-8") =? 0)
     && negb (ascii_casecmp value (str_bytes "us-ascii") =? 0)
  then (false, Some (Mail_error NTB_MAIL_PARSER_ERROR_INVALID_CONTENT_TYPE))
  else (true, error).

(** What the handler makes of the parser's answer. *)
Definition content_type_answer (r : bool * option (mail_error C)) p : mail_result (mail_parser B U) :=
  match r with
  | (true, _) => Ok p
  | (false, Some e) => Err e
  | (false, None) => header_error
  end.

(** [data] are the bytes of the buffer. *)
Definition choose_encoding (data : list Z) p : mail_result (mail_parser B U) :=
  base64 ← no_error (is_header data (str_bytes "base64" ++ [0]));
  if (base64 : bool) then Ok (mp_set_encoding NTB_MAIL_PARSER_ENCODING_BASE64 p)
  else
    qp ← no_error (is_header data (str_bytes "quoted-printable" ++ [0]));
    if (qp : bool) then Ok (mp_set_encoding NTB_MAIL_PARSER_ENCODING_QUOTED_PRINTABLE p)
    else
      raw ← no_error (is_header data (str_bytes "7bit" ++ [0]));
      raw ← (if (raw : bool) then Ok true else no_error (is_header data (str_bytes "8bit" ++ [0])));
      if (raw : bool) then Ok (mp_set_encoding NTB_MAIL_PARSER_ENCODING_RAW p)
      else Err (Mail_error NTB_MAIL_PARSER_ERROR_INVALID_TRANSFER_ENCODING).

(** The handlers return what they processed. *)
Definition handle_content_raw p (data : list Z) : mail_result (mail_parser B U * nat) :=
  p ← call_data NTB_MAIL_PARSER_EVENT_CONTENT data p;
  Ok (p, length data).

(** [uint8_t buf[512]] *)
Definition content_buf_size : Z := 512.

Fixpoint content_base64_loop (fuel : nat) p (data : list Z) : mail_result (mail_parser B U) :=
  match data, fuel with
  | [], _ => Ok p
  | _ :: _, O => OutOfFuel
  | _ :: _, S fuel =>
      let chunk_size := Z.to_nat (Z.min (NTB_BASE64_MAX_INPUT_FOR_SIZE content_buf_size) (zlen data)) in
      match mp_decoder p with
      | Decoder_base64 d =>
          '(d, got) ← map_err Base64_error (ntb_base64_decode d (take chunk_size data));
          _ ← c_assert (zlen got <=? content_buf_size);
          p ← call_data NTB_MAIL_PARSER_EVENT_CONTENT got (mp_set_decoder (Decoder_base64 d) p);
          content_base64_loop fuel p (drop chunk_size data)
      | _ => UB
      end
  end.

Definition handle_content_base64 p (data : list Z) : mail_result (mail_parser B U * nat) :=
  p ← content_base64_loop (length data) p data;
  Ok (p, length data).

Fixpoint content_qp_loop (fuel : nat) p (data : list Z) : mail_result (mail_parser B U) :=
  match data, fuel with
  | [], _ => Ok p
  | _ :: _, O => OutOfFuel
  | _ :: _, S fuel =>
      let chunk_size := Z.to_nat (Z.min content_buf_size (zlen data)) in
      match mp_decoder p with
      | Decoder_qp d =>
          '(d, got) ← map_err Quoted_printable_error (ntb_quoted_printable_decode d (take chunk_size data));
          _ ← c_assert (zlen got <=? content_buf_size);
          p ← call_data NTB_MAIL_PARSER_EVENT_CONTENT got (mp_set_decoder (Decoder_qp d) p);
          content_qp_loop fuel p (drop chunk_size data)
      | _ => UB
      end
  end.

Definition handle_content_quoted_printable p (data : list Z) : mail_result (mail_parser B U * nat) :=
  p ← content_qp_loop (length data) p data;
  Ok (p, length data).

Definition handle_content p (data : list Z) : mail_result (mail_parser B U * nat) :=
  match mp_encoding p with
  | NTB_MAIL_PARSER_ENCODING_BASE64 => handle_content_base64 p data
  | NTB_MAIL_PARSER_ENCODING_QUOTED_PRINTABLE => handle_content_quoted_printable p data
  | NTB_MAIL_PARSER_ENCODING_RAW => handle_content_raw p data
  end.

(** [uint8_t buf[3]] *)
Definition ntb_mail_parser_end p : mail_result U :=
  match mp_state p with
  | NTB_MAIL_PARSER_CONTENT =>
      match mp_encoding p with
      | NTB_MAIL_PARSER_ENCODING_BASE64 =>
          match mp_decoder p with
          | Decoder_base64 d =>
              got ← map_err Base64_error (ntb_base64_decode_end d);
              _ ← c_assert (zlen got <=? 3);
              p ← call_data NTB_MAIL_PARSER_EVENT_CONTENT got p;
              Ok (mp_user_data p)
          | _ => UB
          end
      | NTB_MAIL_PARSER_ENCODING_QUOTED_PRINTABLE =>
          match mp_decoder p with
          | Decoder_qp d =>
              _ ← map_err Quoted_printable_error (ntb_quoted_printable_decode_end d);
              Ok (mp_user_data p)
          | _ => UB
          end
      | NTB_MAIL_PARSER_ENCODING_RAW => Ok (mp_user_data p)
      end
  | _ => header_error
  end.
End any_buffer.

(** ** The handlers on the buffer *)

Abbreviation ntb_mail_parser := (mail_parser ntb_buffer U).
Implicit Type p : ntb_mail_parser.

Definition ntb_mail_parser_new (user_data : U) : ntb_mail_parser :=
  MailParser NTB_MAIL_PARSER_HEADER_NAME None ntb_buffer_init no_flags NTB_MAIL_PARSER_ENCODING_RAW Decoder_none user_data.

Definition set_header p : mail_result ntb_mail_parser :=
  data ← no_error (buffer_string (mp_buffer p));
  h ← no_error (find_header data ntb_mail_parser_headers);
  Ok (mp_set_current_header h p).

Definition handle_subject p : mail_result ntb_mail_parser :=
  if had_subject (mp_flags p) then header_error
  else
    let p := mp_set_flags set_had_subject p in
    let b := mp_buffer p in
    data ← no_error (buffer_string b);
    '(mem, n) ← no_error (ntb_encoded_words_decode data);
    b ← no_error (buf_write b 0 mem);
    let b := Buf (buf_data b) (Z.of_nat n) (buf_size b) in
    data ← no_error (buffer_string b);
    call_data NTB_MAIL_PARSER_EVENT_SUBJECT data (mp_set_buffer b p).

(** [ntb_parse_addresses] on the parser's buffer; the callbacks change the rest. *)
Definition parse_header_addresses (cb : ntb_address -> ntb_mail_parser -> mail_result ntb_mail_parser) p : mail_result ntb_mail_parser :=
  '(b, p) ← ntb_parse_addresses Addresses_error cb (mp_buffer p) p;
  Ok (mp_set_buffer b p).

Definition handle_to p : mail_result ntb_mail_parser :=
  if had_to (mp_flags p) then header_error
  else parse_header_addresses destination_address_cb (mp_set_flags set_had_to p).
Definition handle_cc p : mail_result ntb_mail_parser :=
  if had_cc (mp_flags p) then header_error
  else parse_header_addresses destination_address_cb (mp_set_flags set_had_cc p).
Definition handle_bcc p : mail_result ntb_mail_parser :=
  if had_bcc (mp_flags p) then header_error
  else parse_header_addresses destination_address_cb (mp_set_flags set_had_bcc p).
Definition handle_from p : mail_result ntb_mail_parser := parse_header_addresses from_address_cb p.

Definition handle_content_type p : mail_result ntb_mail_parser :=
  if had_content_type (mp_flags p) then header_error
  else
    let p := mp_set_flags set_had_content_type p in
    b ← no_error (ntb_buffer_append_c (mp_buffer p) 0);
    header_value ← no_error (cells_string (buf_data b));
    '(ok, error) ← no_error (ntb_parse_content_type content_type_type_cb content_type_attribute_cb (header_value ++ [0]) None);
    content_type_answer (ok, error) (mp_set_buffer b p).

Definition handle_transfer_encoding p : mail_result ntb_mail_parser :=
  if had_transfer_encoding (mp_flags p) then header_error
  else
    data ← no_error (buffer_string (mp_buffer p));
    choose_encoding data (mp_set_flags set_had_transfer_encoding p).

(** [data[length - 1] == ' '] *)
Definition ends_with_space (b : ntb_buffer) : result unit bool :=
  c ← buf_read b (buf_length b - 1) 1;
  Ok (bytes_eqb c [32]).

Definition handle_header_end p : mail_result ntb_mail_parser :=
  let b := mp_buffer p in
  space ← (if 0 <? buf_length b then no_error (ends_with_space b) else Ok false);
  let p := if (space : bool) then mp_set_buffer (Buf (buf_data b) (buf_length b - 1) (buf_size b)) p else p in
  match mp_current_header p with
  | None => UB
  | Some NTB_MAIL_PARSER_TO => handle_to p
  | Some NTB_MAIL_PARSER_CC => handle_cc p
  | Some NTB_MAIL_PARSER_BCC => handle_bcc p
  | Some NTB_MAIL_PARSER_FROM => handle_from p
  | Some NTB_MAIL_PARSER_SUBJECT => handle_subject p
  | Some NTB_MAIL_PARSER_CONTENT_TYPE => handle_content_type p
  | Some NTB_MAIL_PARSER_TRANSFER_ENCODING => handle_transfer_encoding p
  | Some NTB_MAIL_PARSER_SKIP => Ok p
  end.

Definition handle_header_name p (data : list Z) : mail_result (ntb_mail_parser * nat) :=
  let '(name, rest) := split_when (fun c => (c =? 10) || (c =? 58)) data in
  b ← no_error (ntb_buffer_append (mp_buffer p) name);
  let p := mp_set_buffer b p in
  match rest with
  | [] => Ok (p, length name)
  | end_ :: _ =>
      if end_ =? 10 then
        if buf_length b =? 0 then
          p ← handle_headers_end p;
          Ok (p, S (length name))
        else header_error
      else
        p ← set_header p;
        Ok (mp_set_state NTB_MAIL_PARSER_HEADER_VALUE_START p, S (length name))
  end.

Definition handle_header_value_start p (data : list Z) : mail_result (ntb_mail_parser * nat) :=
  let '(spaces, rest) := split_when (fun c => negb (ascii_islwsp c)) data in
  match rest with
  | [] => Ok (p, length spaces)
  | _ :: _ =>
      Ok (mp_set_buffer (set_empty (mp_buffer p)) (mp_set_state NTB_MAIL_PARSER_HEADER_VALUE p), length spaces)
  end.

Definition add_space (b : ntb_buffer) : result unit ntb_buffer :=
  space ← (if buf_length b =? 0 then Ok false else ends_with_space b);
  if (space : bool) then Ok b else ntb_buffer_append_c b 32.

(** [processed] bytes of the piece were consumed before [data]. *)
Fixpoint header_value_loop (processed : nat) p (data : list Z) : mail_result (ntb_mail_parser * nat) :=
  match data with
  | [] => Ok (p, processed)
  | c :: data =>
      if ascii_islwsp c then
        b ← no_error (add_space (mp_buffer p));
        header_value_loop (S processed) (mp_set_buffer b p) data
      else if c =? 0 then header_error
      else if c =? 13 then Ok (mp_set_state NTB_MAIL_PARSER_CHECK_EOL p, S processed)
      else if c =? 10 then Ok (mp_set_state NTB_MAIL_PARSER_CHECK_CONTINUATION p, S processed)
      else
        b ← no_error (ntb_buffer_append_c (mp_buffer p) c);
        header_value_loop (S processed) (mp_set_buffer b p) data
  end.

Definition handle_header_value p (data : list Z) : mail_result (ntb_mail_parser * nat) := header_value_loop 0 p data.

Definition handle_check_eol p (data : list Z) : mail_result (ntb_mail_parser * nat) :=
  c ← deref data;
  if negb (c =? 10) then header_error
  else Ok (mp_set_state NTB_MAIL_PARSER_CHECK_CONTINUATION p, 1%nat).

Definition handle_check_continuation p (data : list Z) : mail_result (ntb_mail_parser * nat) :=
  c ← deref data;
  if ascii_islwsp c then Ok (mp_set_state NTB_MAIL_PARSER_HEADER_VALUE p, 0%nat)
  else
    p ← handle_header_end p;
    Ok (mp_set_state NTB_MAIL_PARSER_HEADER_NAME (mp_set_buffer (set_empty (mp_buffer p)) p), 0%nat).

Definition handle_state p (data : list Z) : mail_result (ntb_mail_parser * nat) :=
  match mp_state p with
  | NTB_MAIL_PARSER_HEADER_NAME => handle_header_name p data
  | NTB_MAIL_PARSER_HEADER_VALUE_START => handle_header_value_start p data
  | NTB_MAIL_PARSER_HEADER_VALUE => handle_header_value p data
  | NTB_MAIL_PARSER_CHECK_EOL => handle_check_eol p data
  | NTB_MAIL_PARSER_CHECK_CONTINUATION => handle_check_continuation p data
  | NTB_MAIL_PARSER_CONTENT => handle_content p data
  end.

Fixpoint parse_loop (fuel : nat) p (data : list Z) : mail_result ntb_mail_parser :=
  match data, fuel with
  | [], _ => Ok p
  | _ :: _, O => OutOfFuel
  | _ :: _, S fuel =>
      '(p, processed) ← handle_state p data;
      parse_loop fuel p (drop processed data)
  end.

(** A handler that consumes nothing changes to a state whose handler does, so two
    iterations for each byte and one more are enough. *)
Definition ntb_mail_parser_parse p (data : list Z) : mail_result ntb_mail_parser :=
  parse_loop (2 * length data + 1) p data.

(** A mail that arrives in pieces, up to the end of the file. *)
Fixpoint mail_pieces p (pieces : list (list Z)) : mail_result U :=
  match pieces with
  | [] => ntb_mail_parser_end p
  | piece :: pieces =>
      p ← ntb_mail_parser_parse p piece;
      mail_pieces p pieces
  end.

(** ** Specification: one byte at a time into a list *)

Abbreviation spec_parser := (mail_parser (list Z) U).
Implicit Type a : spec_parser.

Definition spec_new (user_data : U) : spec_parser :=
  MailParser NTB_MAIL_PARSER_HEADER_NAME None [] no_flags NTB_MAIL_PARSER_ENCODING_RAW Decoder_none user_data.

(** A header may appear once. *)
Definition once (had : mail_flags -> bool) (set_had : mail_flags -> mail_flags)
    (handle : spec_parser -> mail_result spec_parser) a : mail_result spec_parser :=
  if had (mp_flags a) then header_error else handle (mp_set_flags set_had a).

Definition trim_space (l : list Z) : list Z := if decide (last l = Some 32) then take (length l - 1) l else l.

Definition spec_header (h : ntb_mail_parser_header) (line : list Z) a : mail_result spec_parser :=
  let destinations := parse_addresses_spec Addresses_error destination_address_cb line in
  match h with
  | NTB_MAIL_PARSER_SKIP => Ok a
  | NTB_MAIL_PARSER_TO => once had_to set_had_to destinations a
  | NTB_MAIL_PARSER_CC => once had_cc set_had_cc destinations a
  | NTB_MAIL_PARSER_BCC => once had_bcc set_had_bcc destinations a
  | NTB_MAIL_PARSER_FROM => parse_addresses_spec Addresses_error from_address_cb line a
  | NTB_MAIL_PARSER_SUBJECT =>
      once had_subject set_had_subject (fun a =>
        subject ← no_error (ew_spec (length line) false None ntb_buffer_init line);
        call_data NTB_MAIL_PARSER_EVENT_SUBJECT subject a) a
  | NTB_MAIL_PARSER_CONTENT_TYPE =>
      once had_content_type set_had_content_type
        (content_type_answer (content_type_spec content_type_type_cb content_type_attribute_cb line None)) a
  | NTB_MAIL_PARSER_TRANSFER_ENCODING =>
      once had_transfer_encoding set_had_transfer_encoding (choose_encoding line) a
  end.

Definition spec_header_end a : mail_result spec_parser :=
  match mp_current_header a with
  | None => UB
  | Some h => spec_header h (trim_space (mp_buffer a)) a
  end.

Definition spec_name (c : Z) a : mail_result spec_parser :=
  if c =? 10 then match mp_buffer a with [] => handle_headers_end a | _ => header_error end
  else if c =? 58 then
    h ← no_error (find_header (mp_buffer a) ntb_mail_parser_headers);
    Ok (mp_set_state NTB_MAIL_PARSER_HEADER_VALUE_START (mp_set_current_header h a))
  else Ok (mp_set_buffer (mp_buffer a ++ [c]) a).

(** Runs of white space become one space. *)
Definition spec_value (c : Z) a : mail_result spec_parser :=
  if ascii_islwsp c then
    Ok (if decide (last (mp_buffer a) = Some 32) then a else mp_set_buffer (mp_buffer a ++ [32]) a)
  else if c =? 0 then header_error
  else if c =? 13 then Ok (mp_set_state NTB_MAIL_PARSER_CHECK_EOL a)
  else if c =? 10 then Ok (mp_set_state NTB_MAIL_PARSER_CHECK_CONTINUATION a)
  else Ok (mp_set_buffer (mp_buffer a ++ [c]) a).

Definition spec_content (c : Z) a : mail_result spec_parser :=
  match mp_encoding a, mp_decoder a with
  | NTB_MAIL_PARSER_ENCODING_RAW, _ => call_data NTB_MAIL_PARSER_EVENT_CONTENT [c] a
  | NTB_MAIL_PARSER_ENCODING_BASE64, Decoder_base64 d =>
      '(d, got) ← map_err Base64_error (ntb_base64_decode d [c]);
      call_data NTB_MAIL_PARSER_EVENT_CONTENT got (mp_set_decoder (Decoder_base64 d) a)
  | NTB_MAIL_PARSER_ENCODING_QUOTED_PRINTABLE, Decoder_qp d =>
      '(d, got) ← map_err Quoted_printable_error (qp_step d c);
      call_data NTB_MAIL_PARSER_EVENT_CONTENT got (mp_set_decoder (Decoder_qp d) a)
  | _, _ => UB
  end.

Definition spec_step (c : Z) a : mail_result spec_parser :=
  match mp_state a with
  | NTB_MAIL_PARSER_HEADER_NAME => spec_name c a
  | NTB_MAIL_PARSER_HEADER_VALUE_START =>
      if ascii_islwsp c then Ok a
      else spec_value c (mp_set_buffer [] (mp_set_state NTB_MAIL_PARSER_HEADER_VALUE a))
  | NTB_MAIL_PARSER_HEADER_VALUE => spec_value c a
  | NTB_MAIL_PARSER_CHECK_EOL =>
      if c =? 10 then Ok (mp_set_state NTB_MAIL_PARSER_CHECK_CONTINUATION a) else header_error
  | NTB_MAIL_PARSER_CHECK_CONTINUATION =>
      if ascii_islwsp c then spec_value c (mp_set_state NTB_MAIL_PARSER_HEADER_VALUE a)
      else
        a ← spec_header_end a;
        spec_name c (mp_set_state NTB_MAIL_PARSER_HEADER_NAME (mp_set_buffer [] a))
  | NTB_MAIL_PARSER_CONTENT => spec_content c a
  end.

Fixpoint spec_steps (l : list Z) a : mail_result spec_parser :=
  match l with
  | [] => Ok a
  | c :: l => a ← spec_step c a; spec_steps l a
  end.

Definition mail_spec (mail : list Z) (user_data : U) : mail_result U :=
  a ← spec_steps mail (spec_new user_data); ntb_mail_parser_end a.
End program.
