(* ===== verification/MailParserSpec.v ===== *)
(** * MailParserSpec: the mail parser does not depend on how the mail is cut

    The handlers on pieces and the specification on single bytes are related by the
    contents of the buffer. The theorem holds for every client of the class and covers
    every outcome, failures and undefined accesses included. *)

From S2P Require Import Prelude Endian Buffer NetAddress OpenSSL Proto ProtoSpec NetText KeyValue Pow Base58 Address Base64 QuotedPrintable EncodedWords Keys ParseContentType ParseAddresses MailParser.

(** The parser with another buffer. *)
Definition mp_with {B B' U} (b : B') (p : mail_parser B U) : mail_parser B' U :=
  MailParser (mp_state p) (mp_current_header p) b (mp_flags p) (mp_encoding p) (mp_decoder p) (mp_user_data p).

Definition with_fst {B B' U} (b : B') (r : mail_parser B U * nat) : mail_parser B' U * nat := (mp_with b r.1, r.2).

Section simulation.
Context `{DigestLaws} `{BigNumLaws} `{MailClientLaws U C}.

(** ** Handlers that do not touch the buffer *)

Section any_buffer.
Context {B B' : Type} (b : B').
Implicit Type p : mail_parser B U.

Lemma call_address_with event address p : call_address (C := C) event address (mp_with b p) = mp_with b <$> call_address event address p.
Proof. unfold call_address, mp_with. cbn [mp_user_data]. by destruct (address_cb event address (mp_user_data p)). Qed.

Lemma call_data_with event data p : call_data (C := C) event data (mp_with b p) = mp_with b <$> call_data event data p.
Proof. unfold call_data, mp_with. cbn [mp_user_data]. by destruct (data_cb event data (mp_user_data p)). Qed.

Lemma from_address_with address p : from_address_cb (C := C) address (mp_with b p) = mp_with b <$> from_address_cb address p.
Proof. unfold from_address_cb. cbn [mp_with mp_flags]. destruct (had_from (mp_flags p)); [done|]. apply (call_address_with _ address (mp_set_flags set_had_from p)). Qed.

Lemma headers_end_with p : handle_headers_end (C := C) (mp_with b p) = mp_with b <$> handle_headers_end p.
Proof.
  unfold handle_headers_end. cbn [mp_with mp_flags mp_encoding mp_set_state]. destruct (negb _); [done|]. destruct (_ && _); [done|].
  by destruct (mp_encoding p).
Qed.

Lemma content_type_answer_with r p : content_type_answer (C := C) r (mp_with b p) = mp_with b <$> content_type_answer r p.
Proof. by destruct r as [[] [e|]]. Qed.

Lemma choose_encoding_with data p : choose_encoding (C := C) data (mp_with b p) = mp_with b <$> choose_encoding data p.
Proof.
  unfold choose_encoding. repeat (destruct (no_error _) as [[]| | |]; rewrite ?bind_ret_l; try done).
Qed.

Lemma base64_loop_with fuel : forall data p,
  content_base64_loop (C := C) fuel (mp_with b p) data = mp_with b <$> content_base64_loop fuel p data.
Proof.
  induction fuel as [|fuel IH]; intros [|c data] p; cbn [content_base64_loop]; try done.
  cbn [mp_with mp_decoder]. destruct (mp_decoder p) as [|d|d]; try done.
  destruct (ntb_base64_decode d _) as [[d' got]| | |]; try done. cbn [map_err]. rewrite !bind_ret_l.
  destruct (c_assert _) as [[]| | |]; try done. rewrite !bind_ret_l.
  rewrite (call_data_with _ got (mp_set_decoder (Decoder_base64 d') p) : call_data _ got (mp_set_decoder _ (mp_with b p)) = _).
  destruct (call_data _ got _) as [p'| | |]; try done. cbn [fmap result_fmap]. rewrite !bind_ret_l. apply IH.
Qed.

Lemma qp_loop_with fuel : forall data p,
  content_qp_loop (C := C) fuel (mp_with b p) data = mp_with b <$> content_qp_loop fuel p data.
Proof.
  induction fuel as [|fuel IH]; intros [|c data] p; cbn [content_qp_loop]; try done.
  cbn [mp_with mp_decoder]. destruct (mp_decoder p) as [|d|d]; try done.
  destruct (ntb_quoted_printable_decode d _) as [[d' got]| | |]; try done. cbn [map_err]. rewrite !bind_ret_l.
  destruct (c_assert _) as [[]| | |]; try done. rewrite !bind_ret_l.
  rewrite (call_data_with _ got (mp_set_decoder (Decoder_qp d') p) : call_data _ got (mp_set_decoder _ (mp_with b p)) = _).
  destruct (call_data _ got _) as [p'| | |]; try done. cbn [fmap result_fmap]. rewrite !bind_ret_l. apply IH.
Qed.

Lemma handle_content_with data p : handle_content (C := C) (mp_with b p) data = with_fst b <$> handle_content p data.
Proof.
  unfold handle_content, handle_content_base64, handle_content_quoted_printable, handle_content_raw. cbn [mp_with mp_encoding].
  destruct (mp_encoding p).
  - rewrite call_data_with. by destruct (call_data _ data p).
  - rewrite base64_loop_with. by destruct (content_base64_loop _ p data).
  - rewrite qp_loop_with. by destruct (content_qp_loop _ p data).
Qed.

Lemma parser_end_with p : ntb_mail_parser_end (C := C) (mp_with b p) = ntb_mail_parser_end p.
Proof.
  unfold ntb_mail_parser_end. cbn [mp_with mp_state mp_encoding mp_decoder mp_user_data]. destruct (mp_state p); try done.
  destruct (mp_encoding p); [done| |done]. destruct (mp_decoder p); try done.
  destruct (map_err _ _); try done. rewrite !bind_ret_l. destruct (c_assert _); try done. rewrite !bind_ret_l, call_data_with.
  by destruct (call_data _ a p).
Qed.
End any_buffer.

(** ** Content *)

Section content.
Context {B : Type}.
Implicit Type p : mail_parser B U.

Lemma call_content_taken l p : exists u,
  data_cb NTB_MAIL_PARSER_EVENT_CONTENT l (mp_user_data p) = Ok u /\
  call_data (C := C) NTB_MAIL_PARSER_EVENT_CONTENT l p = Ok (mp_set_user_data u p).
Proof. unfold call_data. destruct (content_taken l (mp_user_data p)) as [u Hu]. rewrite Hu. by exists u. Qed.

Lemma call_content_ok l p u :
  data_cb NTB_MAIL_PARSER_EVENT_CONTENT l (mp_user_data p) = Ok u ->
  call_data (C := C) NTB_MAIL_PARSER_EVENT_CONTENT l p = Ok (mp_set_user_data u p).
Proof. unfold call_data. by intros ->. Qed.

Lemma call_content_nil p : call_data (C := C) NTB_MAIL_PARSER_EVENT_CONTENT [] p = Ok p.
Proof. unfold call_data. rewrite content_nil. cbn [map_err]. rewrite bind_ret_l. by destruct p. Qed.

Lemma call_content_app l k p :
  call_data (C := C) NTB_MAIL_PARSER_EVENT_CONTENT (l ++ k) p =
  call_data NTB_MAIL_PARSER_EVENT_CONTENT l p ≫= call_data NTB_MAIL_PARSER_EVENT_CONTENT k.
Proof.
  unfold call_data. rewrite content_app. destruct (content_taken l (mp_user_data p)) as [u ->]. cbn [map_err]. rewrite !bind_ret_l.
  cbn [mp_set_user_data mp_user_data]. by destruct (data_cb _ k u).
Qed.

(** What a decoder makes of a text at once. *)
Definition base64_content (d : ntb_base64_data) (data : list Z) p : result (mail_error C) (mail_parser B U) :=
  '(d, o) ← map_err Base64_error (ntb_base64_decode d data);
  call_data NTB_MAIL_PARSER_EVENT_CONTENT o (mp_set_decoder (Decoder_base64 d) p).

Definition qp_content (d : ntb_quoted_printable_data) (data : list Z) p : result (mail_error C) (mail_parser B U) :=
  '(d, o) ← map_err Quoted_printable_error (qp_steps d data);
  call_data NTB_MAIL_PARSER_EVENT_CONTENT o (mp_set_decoder (Decoder_qp d) p).

Lemma base64_content_app d x y p :
  b64_wf d ->
  base64_content d (x ++ y) p =
  '(d, o) ← map_err Base64_error (ntb_base64_decode d x);
  p ← call_data NTB_MAIL_PARSER_EVENT_CONTENT o (mp_set_decoder (Decoder_base64 d) p);
  base64_content d y p.
Proof.
  intros Hd. unfold base64_content. rewrite decode_app by apply Hd. destruct (ntb_base64_decode d x) as [[d1 o1]| | |]; try done.
  rewrite bind_ret_l. cbn [map_err]. rewrite bind_ret_l.
  destruct (call_content_taken o1 (mp_set_decoder (Decoder_base64 d1) p)) as (u & Eu & ->). rewrite bind_ret_l.
  destruct (ntb_base64_decode d1 y) as [[d2 o2]| | |]; try done. rewrite !bind_ret_l. cbn [map_err]. rewrite !bind_ret_l, call_content_app.
  by rewrite (call_content_ok o1 (mp_set_decoder (Decoder_base64 d2) p) u Eu).
Qed.

Lemma qp_content_app d x y p :
  qp_content d (x ++ y) p =
  '(d, o) ← map_err Quoted_printable_error (qp_steps d x);
  p ← call_data NTB_MAIL_PARSER_EVENT_CONTENT o (mp_set_decoder (Decoder_qp d) p);
  qp_content d y p.
Proof.
  unfold qp_content. rewrite qp_steps_app. destruct (qp_steps d x) as [[d1 o1]| | |]; try done.
  rewrite bind_ret_l. cbn [map_err]. rewrite bind_ret_l.
  destruct (call_content_taken o1 (mp_set_decoder (Decoder_qp d1) p)) as (u & Eu & ->). rewrite bind_ret_l.
  destruct (qp_steps d1 y) as [[d2 o2]| | |]; try done. rewrite !bind_ret_l. cbn [map_err]. rewrite !bind_ret_l, call_content_app.
  by rewrite (call_content_ok o1 (mp_set_decoder (Decoder_qp d2) p) u Eu).
Qed.

Lemma base64_content_nil d p : mp_decoder p = Decoder_base64 d -> base64_content d [] p = Ok p.
Proof.
  intros Hd. unfold base64_content, ntb_base64_decode. cbn [handle_padding b64_decode_loop].
  destruct (0 <? _); cbn [mbind result_bind map_err]; rewrite call_content_nil; destruct p; cbn in *; by subst.
Qed.

Lemma qp_content_nil d p : mp_decoder p = Decoder_qp d -> qp_content d [] p = Ok p.
Proof. intros Hd. unfold qp_content. cbn [qp_steps map_err]. rewrite bind_ret_l, call_content_nil. destruct p; cbn in *; by subst. Qed.

(** The pieces a mail is read in are small enough for the array. *)
Lemma base64_loop_content d data p :
  mp_decoder p = Decoder_base64 d -> b64_wf d -> 0 < zlen data <= 680 ->
  content_base64_loop (length data) p data = base64_content d data p.
Proof.
  intros Hd Hw Hz. destruct data as [|c data].
  { exfalso. unfold zlen in Hz; cbn in Hz; lia. }
  cbn [length content_base64_loop]. rewrite Hd.
  change (NTB_BASE64_MAX_INPUT_FOR_SIZE content_buf_size) with 682. rewrite Z.min_r by lia.
  replace (Z.to_nat (zlen (c :: data))) with (length (c :: data)) by (unfold zlen; lia). rewrite firstn_all, drop_all.
  unfold base64_content. pose proof (decode_total d (c :: data) Hw) as Ht.
  destruct (ntb_base64_decode d (c :: data)) as [[d' o]| | |]; try done. cbn [map_err]. rewrite !bind_ret_l.
  destruct Ht as (_ & _ & Ho). unfold c_assert, content_buf_size. destruct Hw as [_ Hn].
  rewrite (proj2 (Z.leb_le (zlen o) 512)) by (pose proof (Z.div_le_mono (b64_n_chars d + zlen (c :: data)) 683 4); change (683 / 4) with 170 in *; lia).
  rewrite bind_ret_l. destruct (call_data _ o _) as [p'| | |]; try done. rewrite bind_ret_l. by destruct (length data).
Qed.

Lemma qp_loop_content fuel : forall d data p,
  mp_decoder p = Decoder_qp d -> (length data <= fuel)%nat -> content_qp_loop fuel p data = qp_content d data p.
Proof.
  induction fuel as [|fuel IH]; intros d [|c data] p Hd Hf; cbn [content_qp_loop]; try (by rewrite qp_content_nil); [cbn in Hf; lia|].
  rewrite Hd. set (k := Z.to_nat (Z.min content_buf_size (zlen (c :: data)))).
  transitivity (qp_content d (take k (c :: data) ++ drop k (c :: data)) p); [|by rewrite take_drop].
  rewrite qp_content_app, qp_decode_steps.
  pose proof (qp_steps_output d (take k (c :: data))) as Ho. destruct (qp_steps d (take k (c :: data))) as [[d' o]| | |]; try done.
  specialize (Ho _ _ eq_refl). cbn [map_err]. rewrite !bind_ret_l.
  assert (Hk : (1 <= k <= 512)%nat) by (unfold k, content_buf_size; rewrite zlen_cons; pose proof (zlen_nonneg data); lia).
  unfold c_assert. rewrite (proj2 (Z.leb_le (zlen o) content_buf_size)) by (unfold content_buf_size, zlen in *; rewrite length_take in Ho; lia).
  rewrite bind_ret_l. destruct (call_content_taken o (mp_set_decoder (Decoder_qp d') p)) as (u & _ & ->). rewrite !bind_ret_l.
  apply IH; [done|]. rewrite length_drop. cbn [length] in *. lia.
Qed.
End content.

(** ** The specification on a piece of content *)

Implicit Type a : mail_parser (list Z) U.

Lemma spec_steps_app (l k : list Z) a : spec_steps (C := C) (l ++ k) a = spec_steps l a ≫= spec_steps k.
Proof.
  revert a. induction l as [|c l IH]; intros a; [done|]. cbn [app spec_steps]. rewrite bind_assoc.
  destruct (spec_step c a); try done. rewrite !bind_ret_l. apply IH.
Qed.

Lemma spec_steps_raw data : forall a,
  mp_state a = NTB_MAIL_PARSER_CONTENT -> mp_encoding a = NTB_MAIL_PARSER_ENCODING_RAW ->
  spec_steps (C := C) data a = call_data NTB_MAIL_PARSER_EVENT_CONTENT data a.
Proof.
  induction data as [|c data IH]; intros a Hs He; [by rewrite call_content_nil|].
  cbn [spec_steps]. unfold spec_step, spec_content. rewrite Hs, He. change (c :: data) with ([c] ++ data). rewrite call_content_app.
  destruct (call_content_taken [c] a) as (u & _ & ->). rewrite !bind_ret_l. by apply IH.
Qed.

Lemma spec_steps_base64 data : forall d a,
  mp_state a = NTB_MAIL_PARSER_CONTENT -> mp_encoding a = NTB_MAIL_PARSER_ENCODING_BASE64 ->
  mp_decoder a = Decoder_base64 d -> b64_wf d -> spec_steps (C := C) data a = base64_content d data a.
Proof.
  induction data as [|c data IH]; intros d a Hs He Hd Hw; [by rewrite base64_content_nil|].
  cbn [spec_steps]. unfold spec_step, spec_content. rewrite Hs, He, Hd. change (c :: data) with ([c] ++ data).
  rewrite base64_content_app by done. pose proof (decode_total d [c] Hw) as Ht.
  destruct (ntb_base64_decode d [c]) as [[d1 o1]| | |]; try done. cbn [map_err]. rewrite !bind_ret_l.
  destruct (call_content_taken o1 (mp_set_decoder (Decoder_base64 d1) a)) as (u & _ & ->). rewrite !bind_ret_l. apply (IH d1); [done..|apply Ht].
Qed.

Lemma spec_steps_qp data : forall d a,
  mp_state a = NTB_MAIL_PARSER_CONTENT -> mp_encoding a = NTB_MAIL_PARSER_ENCODING_QUOTED_PRINTABLE ->
  mp_decoder a = Decoder_qp d -> spec_steps (C := C) data a = qp_content d data a.
Proof.
  induction data as [|c data IH]; intros d a Hs He Hd; [by rewrite qp_content_nil|].
  cbn [spec_steps]. unfold spec_step, spec_content. rewrite Hs, He, Hd. change (c :: data) with ([c] ++ data).
  rewrite qp_content_app. cbn [qp_steps].
  destruct (qp_step d c) as [[d1 o1]| | |]; try done. cbn [map_err]. rewrite !bind_ret_l, app_nil_r. cbn [map_err]. rewrite !bind_ret_l.
  destruct (call_content_taken o1 (mp_set_decoder (Decoder_qp d1) a)) as (u & _ & ->). rewrite !bind_ret_l. by apply IH.
Qed.

(** In the content the decoder is the one of the encoding. *)
Definition decoder_ok a : Prop :=
  mp_state a = NTB_MAIL_PARSER_CONTENT ->
  match mp_encoding a with
  | NTB_MAIL_PARSER_ENCODING_RAW => True
  | NTB_MAIL_PARSER_ENCODING_BASE64 => exists d, mp_decoder a = Decoder_base64 d /\ b64_wf d
  | NTB_MAIL_PARSER_ENCODING_QUOTED_PRINTABLE => exists d, mp_decoder a = Decoder_qp d
  end.

Lemma handle_content_steps data a :
  mp_state a = NTB_MAIL_PARSER_CONTENT -> decoder_ok a -> 0 < zlen data <= 680 ->
  handle_content a data = (fun a' => (a', length data)) <$> spec_steps (C := C) data a.
Proof.
  intros Hs Hd Hz. specialize (Hd Hs). unfold handle_content. destruct (mp_encoding a) eqn:He.
  - rewrite spec_steps_raw by done. unfold handle_content_raw. by destruct (call_data _ data a).
  - destruct Hd as (d & Hd & Hw). rewrite (spec_steps_base64 data d) by done. unfold handle_content_base64.
    rewrite (base64_loop_content d) by done. by destruct (base64_content d data a).
  - destruct Hd as (d & Hd). rewrite (spec_steps_qp data d) by done. unfold handle_content_quoted_printable.
    rewrite (qp_loop_content _ d) by done. by destruct (qp_content d data a).
Qed.

Lemma content_steps_keep data a a' :
  mp_state a = NTB_MAIL_PARSER_CONTENT -> decoder_ok a -> spec_steps (C := C) data a = Ok a' ->
  mp_state a' = NTB_MAIL_PARSER_CONTENT /\ decoder_ok a' /\ mp_buffer a' = mp_buffer a.
Proof.
  intros Hs Hd. specialize (Hd Hs). unfold decoder_ok. destruct (mp_encoding a) eqn:He.
  - rewrite spec_steps_raw by done. destruct (call_content_taken data a) as (u & _ & ->). intros [= <-]. cbn. by rewrite He.
  - destruct Hd as (d & Hd & Hw). rewrite (spec_steps_base64 data d) by done. unfold base64_content.
    pose proof (decode_total d data Hw) as Ht. destruct (ntb_base64_decode d data) as [[d1 o1]| | |]; try done.
    destruct Ht as [Hw1 _]. cbn [map_err]. rewrite bind_ret_l. destruct (call_content_taken o1 (mp_set_decoder (Decoder_base64 d1) a)) as (u & _ & ->).
    intros [= <-]. cbn. rewrite He. split_and!; [done|by exists d1|done].
  - destruct Hd as (d & Hd). rewrite (spec_steps_qp data d) by done. unfold qp_content.
    destruct (qp_steps d data) as [[d1 o1]| | |]; try done.
    cbn [map_err]. rewrite bind_ret_l. destruct (call_content_taken o1 (mp_set_decoder (Decoder_qp d1) a)) as (u & _ & ->).
    intros [= <-]. cbn. rewrite He. split_and!; [done|by exists d1|done].
Qed.

(** ** The end of a header *)

(** The parser with some well-formed buffer. *)
Definition same_parser (p : mail_parser ntb_buffer U) a : Prop := exists b, p = mp_with b a /\ buf_wf b.

Lemma ends_with_space_spec b l : repr b l -> l <> [] -> ends_with_space b = Ok (bool_decide (last l = Some 32)).
Proof.
  intros Hr Hl. destruct l as [|c l _] using rev_ind; [done|]. unfold ends_with_space.
  destruct (repr_snoc b l c Hr) as [-> _]. rewrite bind_ret_l, last_snoc. f_equal. unfold bytes_eqb.
  apply bool_decide_ext. split; [by intros [= ->]|by intros [= ->]].
Qed.

Lemma repr_room b l : repr b l -> (0 <? buf_length b) = bool_decide (l <> []).
Proof.
  intros Hr. rewrite (repr_length _ _ Hr). destruct l as [|c l]; [done|]. rewrite zlen_cons, bool_decide_eq_true_2 by done.
  apply Z.ltb_lt. zlen_pose. lia.
Qed.

(** The space the header may end in is dropped. *)
Lemma trim_space_spec b l : repr b l ->
  exists space, (if 0 <? buf_length b then ends_with_space b else Ok false) = Ok space /\
    repr (if (space : bool) then Buf (buf_data b) (buf_length b - 1) (buf_size b) else b) (trim_space l).
Proof.
  intros Hr. rewrite (repr_room _ _ Hr). unfold trim_space. destruct l as [|c l _] using rev_ind; [by exists false|].
  rewrite bool_decide_eq_true_2 by (by destruct l). rewrite (ends_with_space_spec _ _ Hr) by (by destruct l).
  rewrite last_snoc. eexists. split; [done|]. destruct (decide (Some c = Some 32)) as [E|E].
  - rewrite bool_decide_eq_true_2 by done. rewrite length_app, Nat.add_sub, take_app_length. by apply (repr_snoc b l c).
  - by rewrite bool_decide_eq_false_2.
Qed.

Lemma trim_space_text l : text_ok l -> text_ok (trim_space l).
Proof.
  unfold trim_space. destruct (decide _); [|done]. rewrite <- (take_drop (length l - 1) l) at 1. by intros [? _]%text_ok_app.
Qed.

Lemma trim_space_zlen l : zlen (trim_space l) <= zlen l.
Proof. unfold trim_space, zlen. destruct (decide _); [|lia]. rewrite length_take. lia. Qed.

Lemma same_parser_with b a : buf_wf b -> same_parser (mp_with b a) a.
Proof. by exists b. Qed.

Lemma agrees_same b (r : result (mail_error C) (mail_parser (list Z) U)) : buf_wf b -> agrees same_parser (mp_with b <$> r) r.
Proof. intros Hb. destruct r; try done. by apply agrees_ok, same_parser_with. Qed.

Lemma header_addresses_spec cb1 cb2 b l a :
  (forall x a b, cb1 x (mp_with b a) = mp_with b <$> cb2 x a) -> repr b l -> bytes l ->
  agrees same_parser (parse_header_addresses (C := C) cb1 (mp_with b a)) (parse_addresses_spec Addresses_error cb2 l a).
Proof.
  intros Hcb Hr Hb. unfold parse_header_addresses. cbn [mp_with mp_buffer].
  pose proof (parse_addresses_core Addresses_error cb1 b l (mp_with b a) Hr Hb) as Ha.
  unfold parse_addresses_spec in *. rewrite (addresses_spec_fmap _ (mp_with b) cb2 cb1) in Ha by auto.
  destruct (addresses_spec _ cb2 Plain [] false a l) as [a'| | |]; cbn [agrees fmap result_fmap] in *; [|by rewrite Ha..].
  destruct Ha as ([b' p'] & -> & Hw & _ & Hp). cbn [fst snd] in *. subst. rewrite bind_ret_l. eexists. split; [done|]. by exists b'.
Qed.

Lemma subject_spec b l a :
  repr b l -> zlen l <= 2 ^ 58 -> had_subject (mp_flags a) = false ->
  agrees same_parser (handle_subject (C := C) (mp_with b a))
    (subject ← no_error (ew_spec (length l) false None ntb_buffer_init l);
     call_data NTB_MAIL_PARSER_EVENT_SUBJECT subject (mp_set_flags set_had_subject a)).
Proof.
  intros Hr Hz Hs. unfold handle_subject. cbn [mp_with mp_flags]. rewrite Hs. cbn [mp_set_flags mp_with mp_buffer].
  rewrite (buffer_string_spec _ _ Hr). cbn [no_error lift map_err]. rewrite bind_ret_l.
  pose proof (encoded_words_core l Hz) as He. destruct (ew_spec (length l) false None ntb_buffer_init l) as [o| | |]; try done.
  2: { destruct He as [-> _]. done. }
  destruct He as (mem & -> & Ho & Hlo & Hlm). cbn [no_error lift map_err]. rewrite !bind_ret_l.
  pose proof (repr_length _ _ Hr) as El. destruct Hr as [(Hd & Hl & Hsz) Hc]. unfold zlen in El.
  destruct (write_cells_spec (E := unit) 0 mem (buf_data b)) as (dt & Ew & Hzd & _ & Ht); [lia|unfold zlen in *; lia|].
  unfold buf_write. rewrite Ew, bind_ret_l. cbn [no_error lift map_err]. rewrite bind_ret_l. cbn [buf_data buf_size].
  set (b' := Buf dt (Z.of_nat (length o)) (buf_size b)).
  assert (Hr' : repr b' o).
  { split; [split_and!; cbn; lia|]. unfold cells. cbn [buf_data buf_length b']. rewrite Nat2Z.id. transitivity (Some <$> take (length o) mem); [|by rewrite Ho].
    rewrite take_0, app_nil_l in Ht. rewrite fmap_take, <- Ht, take_take. f_equal. unfold zlen. lia. }
  rewrite (buffer_string_spec _ _ Hr'). cbn [no_error lift map_err]. rewrite bind_ret_l.
  set (a1 := mp_set_flags set_had_subject a).
  change (agrees same_parser (call_data (C := C) NTB_MAIL_PARSER_EVENT_SUBJECT o (mp_with b' a1)) (call_data NTB_MAIL_PARSER_EVENT_SUBJECT o a1)).
  rewrite call_data_with.
  apply agrees_same, Hr'.
Qed.

Lemma content_type_handler_spec b l a :
  repr b l -> text_ok l -> zlen l <= 2 ^ 30 -> had_content_type (mp_flags a) = false ->
  agrees same_parser (handle_content_type (C := C) (mp_with b a))
    (content_type_answer (content_type_spec content_type_type_cb content_type_attribute_cb l None) (mp_set_flags set_had_content_type a)).
Proof.
  intros Hr Hl Hz Hs. unfold handle_content_type. cbn [mp_with mp_flags]. rewrite Hs. cbn [mp_set_flags mp_with mp_buffer].
  destruct (repr_append_bytes b l 0 Hr) as (b' & -> & Hr'); [done|lia|]. cbn [no_error lift map_err]. rewrite bind_ret_l.
  rewrite (repr_string b' l [] Hr') by apply Hl. cbn [no_error lift map_err]. rewrite bind_ret_l.
  rewrite content_type_core by (first [done | lia]). cbn [no_error lift map_err]. rewrite bind_ret_l.
  destruct (content_type_spec _ _ l None) as [ok e].
  set (a1 := mp_set_flags set_had_content_type a).
  change (agrees same_parser (content_type_answer (C := C) (ok, e) (mp_with b' a1)) (content_type_answer (ok, e) a1)).
  rewrite content_type_answer_with.
  apply agrees_same, Hr'.
Qed.

Lemma transfer_encoding_spec b l a :
  repr b l -> had_transfer_encoding (mp_flags a) = false ->
  agrees same_parser (handle_transfer_encoding (C := C) (mp_with b a)) (choose_encoding l (mp_set_flags set_had_transfer_encoding a)).
Proof.
  intros Hr Hs. unfold handle_transfer_encoding. cbn [mp_with mp_flags mp_buffer]. rewrite Hs, (buffer_string_spec _ _ Hr).
  cbn [no_error lift map_err]. rewrite bind_ret_l.
  set (a1 := mp_set_flags set_had_transfer_encoding a).
  change (agrees same_parser (choose_encoding (C := C) l (mp_with b a1)) (choose_encoding l a1)). rewrite choose_encoding_with.
  apply agrees_same, Hr.
Qed.

Lemma header_end_spec b a :
  repr b (mp_buffer a) -> text_ok (mp_buffer a) -> zlen (mp_buffer a) <= 2 ^ 30 ->
  agrees same_parser (handle_header_end (C := C) (mp_with b a)) (spec_header_end a).
Proof.
  intros Hr Ht Hz. unfold handle_header_end, spec_header_end. cbn [mp_with mp_buffer mp_current_header].
  destruct (trim_space_spec b _ Hr) as (space & Es & Hr1). pose proof (trim_space_text _ Ht) as Ht1.
  pose proof (trim_space_zlen (mp_buffer a)). set (l := trim_space (mp_buffer a)) in *.
  assert (E : (if 0 <? buf_length b then no_error (ends_with_space b) else Ok false) = (Ok space : result (mail_error C) bool)).
  { destruct (0 <? buf_length b); [by rewrite Es|by injection Es as ->]. }
  rewrite E, bind_ret_l. clear E. set (b1 := if space then _ else b) in *.
  assert (Ep : (if space then mp_set_buffer (Buf (buf_data b) (buf_length b - 1) (buf_size b)) (mp_with b a) else mp_with b a) = mp_with b1 a)
    by (unfold b1; by destruct space).
  rewrite Ep. cbn [mp_with mp_current_header]. destruct (mp_current_header a) as [h|]; [|done]. unfold spec_header, once.
  assert (Hdest : forall a, agrees same_parser (parse_header_addresses (C := C) destination_address_cb (mp_with b1 a))
    (parse_addresses_spec Addresses_error destination_address_cb l a))
    by (intros; apply header_addresses_spec; [intros; apply call_address_with|done|apply Ht1]).
  destruct h.
  - apply agrees_ok, same_parser_with, Hr1.
  - unfold handle_to. cbn [mp_with mp_flags]. destruct (had_to _); [done|]. apply (Hdest (mp_set_flags set_had_to a)).
  - unfold handle_cc. cbn [mp_with mp_flags]. destruct (had_cc _); [done|]. apply (Hdest (mp_set_flags set_had_cc a)).
  - unfold handle_bcc. cbn [mp_with mp_flags]. destruct (had_bcc _); [done|]. apply (Hdest (mp_set_flags set_had_bcc a)).
  - apply header_addresses_spec; [intros; apply from_address_with|done|apply Ht1].
  - destruct (had_subject (mp_flags a)) eqn:Ef; [unfold handle_subject; cbn [mp_with mp_flags]; by rewrite Ef|]. apply subject_spec; [done|lia|done].
  - destruct (had_content_type (mp_flags a)) eqn:Ef; [unfold handle_content_type; cbn [mp_with mp_flags]; by rewrite Ef|].
    apply content_type_handler_spec; [done..|lia|done].
  - destruct (had_transfer_encoding (mp_flags a)) eqn:Ef; [unfold handle_transfer_encoding; cbn [mp_with mp_flags]; by rewrite Ef|].
    by apply transfer_encoding_spec.
Qed.

(** ** The handlers on a piece *)

Definition in_value (s : ntb_mail_parser_state) : bool :=
  match s with
  | NTB_MAIL_PARSER_HEADER_VALUE | NTB_MAIL_PARSER_CHECK_EOL | NTB_MAIL_PARSER_CHECK_CONTINUATION => true
  | _ => false
  end.

(** The parser [p] is the specification's state [a] with its line in a buffer; the line
    has at most [room] bytes. *)
Definition simulates (room : Z) (p : mail_parser ntb_buffer U) a : Prop :=
  exists b, p = mp_with b a /\ repr b (mp_buffer a) /\ bytes (mp_buffer a) /\ zlen (mp_buffer a) <= room /\
    (in_value (mp_state a) = true -> text_ok (mp_buffer a)) /\ decoder_ok a.

(** A handler that consumes nothing leads to one that does. *)
Definition waits (s : ntb_mail_parser_state) : nat :=
  match s with NTB_MAIL_PARSER_HEADER_VALUE_START | NTB_MAIL_PARSER_CHECK_CONTINUATION => 1 | _ => 0 end.

Definition handled_to (room : Z) (s : ntb_mail_parser_state) (n : nat) (x : mail_parser ntb_buffer U * nat) (y : mail_parser (list Z) U * nat) : Prop :=
  x.2 = y.2 /\ (y.2 <= n)%nat /\ (2 * (n - y.2) + waits (mp_state y.1) < 2 * n + waits s)%nat /\
  simulates (room + Z.of_nat y.2) x.1 y.1.

Lemma handled_intro room s n p a k :
  (0 < k <= n)%nat \/ k = 0%nat /\ waits s = 1%nat /\ waits (mp_state a) = 0%nat ->
  simulates (room + Z.of_nat k) p a -> handled_to room s n (p, k) (a, k).
Proof.
  intros Hk Hs. unfold handled_to. cbn [fst snd]. assert (waits (mp_state a) <= 1)%nat by (destruct (mp_state a); cbn; lia).
  split_and!; [done|lia|lia|done].
Qed.

(** The handler does what the specification does on the bytes it consumes. *)
Definition handles_piece (room : Z) (s : ntb_mail_parser_state) (n : nat) (data : list Z) (x : result (mail_error C) (mail_parser ntb_buffer U * nat)) a : Prop :=
  exists y, spec_steps (C := C) data a = ('(a, k) ← y; spec_steps (drop k data) a) /\ agrees (handled_to room s n) x y.

Definition header_name_char (c : Z) : Prop := (c =? 10) || (c =? 58) = false.

Lemma spec_names name : forall a k,
  Forall header_name_char name -> mp_state a = NTB_MAIL_PARSER_HEADER_NAME ->
  spec_steps (C := C) (name ++ k) a = spec_steps k (mp_set_buffer (mp_buffer a ++ name) a).
Proof.
  induction name as [|c name IH]; intros a k Hn Hs; [rewrite app_nil_r; by destruct a|].
  apply Forall_cons in Hn as [Hc Hn]. apply orb_false_elim in Hc as [H10 H58].
  cbn [app spec_steps]. unfold spec_step, spec_name. rewrite Hs, H10, H58, bind_ret_l, IH by done.
  cbn [mp_set_buffer mp_buffer]. by rewrite <- app_assoc.
Qed.

Lemma split_when_before P l : Forall (fun c => P c = false) (split_when P l).1.
Proof.
  induction l as [|c l IH]; [constructor|]. cbn [split_when]. destruct (P c) eqn:E; [constructor|].
  destruct (split_when P l). by constructor.
Qed.

Lemma split_when_after P l : match (split_when P l).2 with [] => True | c :: _ => P c = true end.
Proof. induction l as [|c l IH]; [done|]. cbn [split_when]. destruct (P c) eqn:E; [done|]. by destruct (split_when P l). Qed.

Lemma drop_all_eq {A} (l : list A) k : (length l <= k)%nat -> drop k l = [].
Proof. intros. by apply drop_ge. Qed.

Lemma decoder_ok_header a : mp_state a <> NTB_MAIL_PARSER_CONTENT -> decoder_ok a.
Proof. intros Hs Hs'. by destruct Hs. Qed.

Lemma headers_end_ok a a' :
  handle_headers_end (C := C) a = Ok a' -> mp_state a' = NTB_MAIL_PARSER_CONTENT /\ mp_buffer a' = mp_buffer a /\ decoder_ok a'.
Proof.
  unfold handle_headers_end. destruct (negb _); [done|]. destruct (_ && _); [done|]. intros [= <-]. unfold decoder_ok.
  cbn [mp_set_state mp_encoding]. destruct (mp_encoding a) eqn:He; cbn; rewrite He; split_and!; try done; intros _; eauto.
  exists ntb_base64_decode_start. split; [done|]. by apply (bool_decide_unpack _).
Qed.

Lemma name_piece room b a data :
  mp_state a = NTB_MAIL_PARSER_HEADER_NAME -> repr b (mp_buffer a) -> bytes (mp_buffer a) -> zlen (mp_buffer a) <= room ->
  bytes data -> (0 < length data)%nat -> room + zlen data <= 2 ^ 30 ->
  handles_piece room NTB_MAIL_PARSER_HEADER_NAME (length data) data (handle_header_name (C := C) (mp_with b a) data) a.
Proof.
  intros Hs Hr Hb Hz Hd Hpos Hroom. unfold handle_header_name. set (P := fun c => (c =? 10) || (c =? 58)).
  pose proof (split_when_parts P data) as Hparts. pose proof (split_when_before P data) as Hbefore.
  pose proof (split_when_after P data) as Hafter. destruct (split_when P data) as [name rest]. cbn [fst snd] in *.
  rewrite Hparts in Hd. apply bytes_app in Hd as [Hname Hrest]. pose proof (f_equal zlen Hparts) as Hlen. rewrite zlen_app in Hlen.
  pose proof (zlen_nonneg name). pose proof (zlen_nonneg rest).
  cbn [mp_with mp_buffer]. destruct (repr_append b _ name Hr) as (b1 & -> & Hr1); [lia|]. cbn [no_error lift map_err]. rewrite bind_ret_l.
  set (a1 := mp_set_buffer (mp_buffer a ++ name) a). change (mp_set_buffer b1 (mp_with b a)) with (mp_with b1 a1).
  assert (Hz1 : zlen (mp_buffer a ++ name) <= room + Z.of_nat (length name)) by (rewrite zlen_app; unfold zlen in *; lia).
  assert (Hb1 : bytes (mp_buffer a1)) by (by apply bytes_app).
  assert (Hspec : spec_steps (C := C) data a = spec_steps rest a1) by (rewrite Hparts; by apply spec_names).
  unfold zlen in Hlen. destruct rest as [|c rest].
  - exists (Ok (a1, length name)). split.
    + rewrite bind_ret_l, Hspec. cbn [length] in Hlen. by rewrite drop_all_eq by lia.
    + apply agrees_ok, handled_intro; [cbn [length] in Hlen; lia|]. exists b1.
      split_and!; [done|done|done|done|cbn; by rewrite Hs|apply decoder_ok_header; cbn; by rewrite Hs].
  - exists (a2 ← spec_name c a1; Ok (a2, S (length name))). cbn [length] in Hlen. split.
    + rewrite Hspec, Hparts, bind_assoc. cbn [spec_steps]. unfold spec_step. change (mp_state a1) with (mp_state a). rewrite Hs.
      destruct (spec_name c a1) as [a2| | |]; try done. rewrite !bind_ret_l. f_equal.
      change (S (length name)) with (1 + length name)%nat. rewrite Nat.add_comm, <- drop_drop, drop_app_length. done.
    + unfold spec_name. change (mp_buffer a1) with (mp_buffer a ++ name). unfold P in Hafter.
      destruct (c =? 10) eqn:H10; cbn [orb] in Hafter.
      * rewrite (repr_length _ _ Hr1). destruct (mp_buffer a ++ name) as [|x l] eqn:El.
        2: { rewrite zlen_cons. pose proof (zlen_nonneg l). by rewrite (proj2 (Z.eqb_neq _ 0)) by lia. }
        change (zlen (@nil Z) =? 0) with true. cbv iota. rewrite headers_end_with.
        destruct (handle_headers_end a1) as [a2| | |] eqn:Ee; try done. cbn [fmap result_fmap]. rewrite !bind_ret_l.
        apply headers_end_ok in Ee as (Hs2 & Hb2 & Hd2). apply agrees_ok, handled_intro; [lia|].
        exists b1. rewrite Hs2, Hb2. cbn [a1 mp_set_buffer mp_buffer]. rewrite ?El. split_and!; [done|done|constructor|zlia|done|done].
      * rewrite Hafter. unfold set_header. cbn [mp_with mp_buffer]. rewrite (buffer_string_spec _ _ Hr1). cbn [no_error lift map_err].
        rewrite bind_ret_l. destruct (find_header _ _) as [h| | |]; cbn [no_error lift map_err]; try done. rewrite !bind_ret_l.
        apply agrees_ok, handled_intro; [lia|]. exists b1. cbn. split_and!; [done|done|done|lia|done|by apply decoder_ok_header].
Qed.

Lemma spec_spaces spaces : forall a k,
  Forall (fun c => negb (ascii_islwsp c) = false) spaces -> mp_state a = NTB_MAIL_PARSER_HEADER_VALUE_START ->
  spec_steps (C := C) (spaces ++ k) a = spec_steps k a.
Proof.
  induction spaces as [|c l IH]; intros a k Hl Hs; [done|]. apply Forall_cons in Hl as [Hc Hl]. apply negb_false_iff in Hc.
  cbn [app spec_steps]. unfold spec_step. rewrite Hs, Hc, bind_ret_l. by apply IH.
Qed.

Lemma value_start_piece room b a data :
  mp_state a = NTB_MAIL_PARSER_HEADER_VALUE_START -> repr b (mp_buffer a) -> bytes (mp_buffer a) -> zlen (mp_buffer a) <= room -> 0 <= room ->
  (0 < length data)%nat ->
  handles_piece room NTB_MAIL_PARSER_HEADER_VALUE_START (length data) data (handle_header_value_start (C := C) (mp_with b a) data) a.
Proof.
  intros Hs Hr Hb Hz Hroom Hpos. unfold handle_header_value_start. set (P := fun c => negb (ascii_islwsp c)).
  pose proof (split_when_parts P data) as Hparts. pose proof (split_when_before P data) as Hbefore.
  pose proof (split_when_after P data) as Hafter. destruct (split_when P data) as [spaces rest]. cbn [fst snd] in *.
  assert (Hspec : spec_steps (C := C) data a = spec_steps rest a) by (rewrite Hparts; by apply spec_spaces).
  pose proof (f_equal length Hparts) as Hlen. rewrite length_app in Hlen. destruct rest as [|c rest]; cbn [length] in Hlen.
  - exists (Ok (a, length spaces)). rewrite bind_ret_l, Hspec, drop_all_eq by lia. split; [done|].
    apply agrees_ok, handled_intro; [lia|]. exists b. rewrite Hs. split_and!; [done|done|done|lia|done|by apply decoder_ok_header; rewrite Hs].
  - set (a1 := mp_set_buffer [] (mp_set_state NTB_MAIL_PARSER_HEADER_VALUE a)). exists (Ok (a1, length spaces)). split.
    + rewrite bind_ret_l, Hspec, Hparts, drop_app_length. cbn [spec_steps]. unfold spec_step at 1 2. rewrite Hs.
      unfold P in Hafter. apply negb_true_iff in Hafter. by rewrite Hafter.
    + apply agrees_ok, handled_intro; [cbn; lia|]. exists (set_empty b).
      split_and!; [done|by apply repr_empty, Hr|exact (List.Forall_nil _)|change (0 <= room + Z.of_nat (length spaces)); lia|intros _; apply text_ok_nil|by apply decoder_ok_header].
Qed.

Lemma add_space_spec b l :
  repr b l -> zlen l <= 2 ^ 61 -> exists b', add_space b = Ok b' /\ repr b' (if decide (last l = Some 32) then l else l ++ [32]).
Proof.
  intros Hr Hz. unfold add_space. pose proof (repr_length _ _ Hr) as El. destruct (decide (l = [])) as [->|Hl].
  - rewrite El. change (zlen (@nil Z) =? 0) with true. cbv iota. rewrite bind_ret_l. destruct (repr_append_bytes b [] 32 Hr) as (b' & -> & Hr'); [done|lia|].
    by exists b'.
  - rewrite (proj2 (Z.eqb_neq _ 0)) by (rewrite El; destruct l; [done|rewrite zlen_cons; pose proof (zlen_nonneg l); lia]).
    rewrite (ends_with_space_spec b l) by done. rewrite bind_ret_l. destruct (decide _) as [E|E].
    + rewrite bool_decide_eq_true_2 by done. by exists b.
    + rewrite bool_decide_eq_false_2 by done. by apply repr_append_bytes.
Qed.

(** A byte of a value, or the end of its line. *)
Lemma value_loop_spec data : forall room n b a,
  mp_state a = NTB_MAIL_PARSER_HEADER_VALUE -> repr b (mp_buffer a) -> text_ok (mp_buffer a) -> zlen (mp_buffer a) <= room ->
  bytes data -> room + zlen data <= 2 ^ 30 ->
  exists y, spec_steps (C := C) data a = ('(a, k) ← y; spec_steps (drop k data) a) /\
    agrees (fun x y => x.2 = (n + y.2)%nat /\ (y.2 <= length data)%nat /\ (data <> [] -> 0 < y.2)%nat /\
                       simulates (room + Z.of_nat y.2) x.1 y.1)
      (header_value_loop n (mp_with b a) data) y.
Proof.
  induction data as [|c data IH]; intros room n b a Hs Hr Ht Hz Hd Hroom.
  { exists (Ok (a, 0%nat)). rewrite bind_ret_l. split; [done|]. apply agrees_ok. cbn [fst snd]. split_and!; [lia|lia|done|].
    exists b. rewrite Hs. split_and!; [done|done|apply Ht|lia|done|by apply decoder_ok_header; rewrite Hs]. }
  apply bytes_cons in Hd as [Hc Hd]. rewrite zlen_cons in Hroom. pose proof (zlen_nonneg data).
  assert (Hstop : forall s, in_value s = true -> s <> NTB_MAIL_PARSER_CONTENT ->
    exists y, spec_steps data (mp_set_state s a) = ('(a, k) ← y; spec_steps (C := C) (drop k (c :: data)) a) /\
      agrees (fun x y => x.2 = (n + y.2)%nat /\ (y.2 <= S (length data))%nat /\ (c :: data <> [] -> 0 < y.2)%nat /\ simulates (room + Z.of_nat y.2) x.1 y.1)
        (Ok (mp_set_state s (mp_with b a), S n)) y).
  { intros s Hv Hn. exists (Ok (mp_set_state s a, 1%nat)). rewrite bind_ret_l. split; [done|]. apply agrees_ok. cbn [fst snd].
    split_and!; [lia|lia|lia|]. exists b. cbn. split_and!; [done|done|apply Ht|lia|done|by apply decoder_ok_header]. }
  assert (Hnext : forall a' b', mp_state a' = NTB_MAIL_PARSER_HEADER_VALUE -> repr b' (mp_buffer a') -> text_ok (mp_buffer a') -> zlen (mp_buffer a') <= room + 1 ->
    exists y, spec_steps data a' = ('(a, k) ← y; spec_steps (C := C) (drop k (c :: data)) a) /\
      agrees (fun x y => x.2 = (n + y.2)%nat /\ (y.2 <= S (length data))%nat /\ (c :: data <> [] -> 0 < y.2)%nat /\ simulates (room + Z.of_nat y.2) x.1 y.1)
        (header_value_loop (S n) (mp_with b' a') data) y).
  { intros a' b' Hs' Hr' Ht' Hz'. destruct (IH (room + 1) (S n) b' a') as (y & Ey & Hy); [done..|lia|].
    exists ('(a, k) ← y; Ok (a, S k)). rewrite Ey. destruct y as [[a1 k]| | |]; try done. split; [done|].
    destruct Hy as (x & -> & Hx & Hk & _ & Hsim). cbn [fst snd] in *. rewrite bind_ret_l. exists x. cbn [fst snd]. split; [done|].
    split_and!; [lia|lia|lia|]. by replace (room + Z.of_nat (S k)) with (room + 1 + Z.of_nat k) by lia. }
  cbn [spec_steps header_value_loop length]. unfold spec_step, spec_value. rewrite Hs. cbn [mp_with mp_buffer].
  destruct (ascii_islwsp c).
  - rewrite bind_ret_l. destruct (add_space_spec b _ Hr) as (b' & -> & Hr'); [lia|]. cbn [no_error lift map_err]. rewrite bind_ret_l.
    destruct (decide (last (mp_buffer a) = Some 32)).
    + apply (Hnext a b'); [done|done|done|lia].
    + apply (Hnext (mp_set_buffer (mp_buffer a ++ [32]) a) b'); [done|done| |cbn [mp_set_buffer mp_buffer]; zlia].
      apply text_ok_app. split; [done|]. apply (bool_decide_unpack (text_ok [32])). exact I.
  - destruct (Z.eqb_spec c 0) as [|Hc0]; [by exists header_error|].
    destruct (c =? 13); [rewrite bind_ret_l; by apply Hstop|]. destruct (c =? 10); [rewrite bind_ret_l; by apply Hstop|].
    rewrite bind_ret_l. destruct (repr_append_bytes b _ c Hr) as (b' & -> & Hr'); [done|lia|]. cbn [no_error lift map_err]. rewrite bind_ret_l.
    apply (Hnext (mp_set_buffer (mp_buffer a ++ [c]) a) b'); [done|done| |cbn [mp_set_buffer mp_buffer]; zlia].
    apply text_ok_app. split; [done|]. apply text_ok_cons. split; [done|apply text_ok_nil].
Qed.

Lemma check_continuation_piece room b a data :
  mp_state a = NTB_MAIL_PARSER_CHECK_CONTINUATION -> repr b (mp_buffer a) -> text_ok (mp_buffer a) ->
  zlen (mp_buffer a) <= room -> 0 <= room <= 2 ^ 30 -> (0 < length data)%nat ->
  handles_piece room NTB_MAIL_PARSER_CHECK_CONTINUATION (length data) data (handle_check_continuation (C := C) (mp_with b a) data) a.
Proof.
  intros Hs Hr Ht Hz Hroom Hpos. destruct data as [|c data]; [cbn in Hpos; lia|]. unfold handle_check_continuation. cbn [deref].
  rewrite bind_ret_l. unfold handles_piece. cbn [spec_steps]. unfold spec_step at 1. rewrite Hs. destruct (ascii_islwsp c) eqn:Hc.
  - set (a1 := mp_set_state NTB_MAIL_PARSER_HEADER_VALUE a). exists (Ok (a1, 0%nat)). rewrite bind_ret_l, drop_0. split; [done|].
    apply agrees_ok, handled_intro; [by right|]. exists b. split_and!; [done|done|apply Ht|cbn; lia|done|by apply decoder_ok_header].
  - exists (a1 ← spec_header_end a; Ok (mp_set_state NTB_MAIL_PARSER_HEADER_NAME (mp_set_buffer [] a1), 0%nat)).
    pose proof (header_end_spec b a Hr Ht ltac:(lia)) as He. destruct (spec_header_end a) as [a1| | |]; cbn [agrees] in He; [|by rewrite He..].
    destruct He as (p' & -> & b' & -> & Hw). rewrite !bind_ret_l, drop_0. split; [done|].
    apply agrees_ok, handled_intro; [by right|]. exists (set_empty b').
    split_and!; [done|by apply repr_empty|exact (List.Forall_nil _)|change (0 <= room + 0); lia|done|by apply decoder_ok_header].
Qed.

Lemma content_piece room b a data :
  mp_state a = NTB_MAIL_PARSER_CONTENT -> repr b (mp_buffer a) -> bytes (mp_buffer a) -> zlen (mp_buffer a) <= room ->
  decoder_ok a -> 0 < zlen data <= 680 ->
  handles_piece room NTB_MAIL_PARSER_CONTENT (length data) data (handle_content (C := C) (mp_with b a) data) a.
Proof.
  intros Hs Hr Hb Hz Hd Hlen. exists (handle_content a data). rewrite handle_content_with, handle_content_steps by done.
  pose proof (content_steps_keep data a) as Hkeep. destruct (spec_steps data a) as [a1| | |]; cbn [fmap result_fmap]; [|done..].
  rewrite bind_ret_l, drop_all. split; [done|]. destruct (Hkeep a1) as (Hs1 & Hd1 & Hb1); [done..|].
  apply agrees_ok, handled_intro; [unfold zlen in Hlen; lia|]. exists b. rewrite Hs1, Hb1. split_and!; [done|done|done|lia|done|done].
Qed.

Lemma state_piece room p a data :
  simulates room p a -> bytes data -> 0 < zlen data <= 680 -> 0 <= room -> room + zlen data <= 2 ^ 30 ->
  handles_piece room (mp_state a) (length data) data (handle_state (C := C) p data) a.
Proof.
  intros (b & -> & Hr & Hb & Hz & Hv & Hd) Hdata Hlen Hroom Hroom2. assert (Hpos : (0 < length data)%nat) by (unfold zlen in Hlen; lia).
  unfold handle_state. cbn [mp_with mp_state]. destruct (mp_state a) eqn:Hs.
  - by apply name_piece.
  - by apply value_start_piece.
  - destruct (value_loop_spec data room 0 b a) as (y & Ey & Hy); [done|done|by apply Hv|done..|]. exists y. split; [done|].
    eapply agrees_impl; [exact Hy|]. intros [p' k'] [a' k] (Hk & Hle & Hk0 & Hsim). cbn [fst snd] in *. subst k'.
    apply handled_intro; [|done]. left. split; [|done]. apply Hk0. destruct data; [cbn in Hpos; lia|done].
  - destruct data as [|c data]; [cbn in Hpos; lia|]. unfold handle_check_eol. cbn [deref]. rewrite bind_ret_l. unfold handles_piece.
    cbn [spec_steps]. unfold spec_step at 1. rewrite Hs. destruct (c =? 10); [|by exists header_error]. cbn [negb].
    set (a1 := mp_set_state NTB_MAIL_PARSER_CHECK_CONTINUATION a). exists (Ok (a1, 1%nat)). rewrite !bind_ret_l. split; [done|].
    apply agrees_ok, handled_intro; [cbn; lia|]. exists b. split_and!; [done|done|done|cbn; lia|intros _; by apply Hv|by apply decoder_ok_header].
  - apply check_continuation_piece; [done|done|by apply Hv|done|lia|done].
  - by apply content_piece.
Qed.

(** ** The main loop *)

Lemma parse_loop_spec fuel : forall room p a data,
  simulates room p a -> bytes data -> zlen data <= 680 -> 0 <= room -> room + zlen data <= 2 ^ 30 ->
  (2 * length data + waits (mp_state a) <= fuel)%nat ->
  agrees (simulates (room + zlen data)) (parse_loop fuel p data) (spec_steps (C := C) data a).
Proof.
  induction fuel as [|fuel IH]; intros room p a [|c data] Hsim Hb Hz Hroom Hroom2 Hf; cbn [parse_loop].
  - apply agrees_ok. by replace (room + zlen (@nil Z)) with room by (unfold zlen; cbn; lia).
  - cbn [length] in Hf. lia.
  - apply agrees_ok. by replace (room + zlen (@nil Z)) with room by (unfold zlen; cbn; lia).
  - assert (Hpos : 0 < zlen (c :: data)) by (rewrite zlen_cons; pose proof (zlen_nonneg data); lia).
    destruct (state_piece room p a (c :: data)) as (y & -> & Hy); [done|done|lia|lia|lia|].
    eapply agrees_bind; [exact Hy|]. intros [p1 k1] [a1 k] _ _ (Hk & Hle & Hlt & Hsim1). cbn [fst snd] in *. subst k1.
    set (n := length (c :: data)) in *. assert (Hzd : zlen (drop k (c :: data)) = zlen (c :: data) - Z.of_nat k)
      by (unfold zlen; rewrite length_drop; fold n; lia).
    replace (room + zlen (c :: data)) with (room + Z.of_nat k + zlen (drop k (c :: data))) by lia.
    apply IH; [done|by apply bytes_drop|lia|lia|lia|]. rewrite length_drop. fold n. lia.
Qed.

Lemma parse_spec room p a data :
  simulates room p a -> bytes data -> zlen data <= 680 -> 0 <= room -> room + zlen data <= 2 ^ 30 ->
  agrees (simulates (room + zlen data)) (ntb_mail_parser_parse p data) (spec_steps (C := C) data a).
Proof.
  intros. apply parse_loop_spec; [done..|]. destruct (mp_state a); cbn [waits]; lia.
Qed.

Lemma mail_pieces_spec pieces : forall room p a,
  simulates room p a -> Forall bytes pieces -> Forall (fun l => zlen l <= 680) pieces -> 0 <= room ->
  room + zlen (concat pieces) <= 2 ^ 30 ->
  mail_pieces p pieces = (a ← spec_steps (C := C) (concat pieces) a; ntb_mail_parser_end a).
Proof.
  induction pieces as [|l pieces IH]; intros room p a Hsim Hb Hl Hroom Hz; cbn [mail_pieces concat].
  - cbn [spec_steps]. rewrite bind_ret_l. destruct Hsim as (b & -> & _). apply parser_end_with.
  - apply Forall_cons in Hb as [Hb1 Hb], Hl as [Hl1 Hl]. cbn [concat] in Hz. rewrite zlen_app in Hz.
    pose proof (zlen_nonneg l). pose proof (zlen_nonneg (concat pieces)).
    rewrite spec_steps_app, bind_assoc. pose proof (parse_spec room p a l) as Hp. specialize (Hp Hsim Hb1 Hl1 Hroom ltac:(lia)).
    destruct (spec_steps l a) as [a1| | |]; cbn [agrees] in Hp; [|by rewrite Hp..].
    destruct Hp as (p1 & -> & Hsim1). rewrite !bind_ret_l. apply (IH (room + zlen l)); [done|done|done|lia|lia].
Qed.
End simulation.

Lemma simulates_new `{!Digests} `{!BigNum} {U} (u : U) : simulates 0 (ntb_mail_parser_new u) (spec_new u).
Proof.
  exists ntb_buffer_init. split_and!; [done|split; [by apply (bool_decide_unpack _)|done]|exact (List.Forall_nil _)|done|done|].
  by apply decoder_ok_header.
Qed.

(** ** What it accepts and where it fails *)

(** A blank line with a carriage return does not end the headers, although the lines
    before it may end in one. *)
Lemma crlf_blank_line `{MailClient U C} (u : U) h b f e d :
  handle_header_name (C := C) (MailParser NTB_MAIL_PARSER_HEADER_NAME h (set_empty b) f e d u) [13; 10] = header_error \/
  ~ buf_wf b.
Proof.
  destruct (decide (buf_wf b)) as [Hb|]; [left|by right]. unfold handle_header_name. cbn [split_when Z.eqb Pos.eqb orb mp_buffer].
  destruct (repr_append (set_empty b) [] [13] (repr_empty b Hb)) as (b' & -> & Hr); [done|].
  cbn [no_error lift map_err]. rewrite bind_ret_l. by rewrite (repr_length _ _ Hr).
Qed.

(** The name of a header is found by a prefix. *)
Lemma find_header_prefix :
  find_header (str_bytes "T") ntb_mail_parser_headers = Ok NTB_MAIL_PARSER_TO /\
  find_header (str_bytes "Content") ntb_mail_parser_headers = Ok NTB_MAIL_PARSER_CONTENT_TYPE.
Proof. split; vm_compute; reflexivity. Qed.

(** A name with a zero byte reads behind the names it is compared with. *)
Lemma find_header_zero_byte : find_header (str_bytes "to" ++ [0; 120]) ntb_mail_parser_headers = UB.
Proof. vm_compute. reflexivity. Qed.

(** A long piece of base64 behind three pending characters decodes to more bytes than
    the array on the stack holds. *)
Lemma base64_loop_overflows `{MailClient U C} {B} (p : mail_parser B U) d data d' got :
  mp_encoding p = NTB_MAIL_PARSER_ENCODING_BASE64 -> mp_decoder p = Decoder_base64 d -> zlen data = 682 ->
  ntb_base64_decode d data = Ok (d', got) -> 512 < zlen got -> handle_content (C := C) p data = UB.
Proof.
  intros He Hd Hz Hdec Hgot. unfold handle_content, handle_content_base64. rewrite He. destruct data as [|c data]; [done|].
  cbn [length content_base64_loop]. rewrite Hd.
  change (NTB_BASE64_MAX_INPUT_FOR_SIZE content_buf_size) with 682. rewrite Z.min_r by lia.
  replace (Z.to_nat (zlen (c :: data))) with (length (c :: data)) by (unfold zlen; lia). rewrite firstn_all, Hdec.
  cbn [map_err]. rewrite bind_ret_l. unfold c_assert, content_buf_size. by rewrite (proj2 (Z.leb_gt (zlen got) 512)).
Qed.

Lemma base64_content_overflows `{MailClient U C} {B} (p : mail_parser B U) :
  mp_encoding p = NTB_MAIL_PARSER_ENCODING_BASE64 -> mp_decoder p = Decoder_base64 (B64 0 3 0) ->
  handle_content (C := C) p (replicate 682 65) = UB.
Proof.
  intros He Hd.
  assert (Hdec : match ntb_base64_decode (B64 0 3 0) (replicate 682 65) with Ok (_, got) => (512 <? zlen got) = true | _ => False end)
    by (vm_compute; reflexivity).
  destruct (ntb_base64_decode (B64 0 3 0) (replicate 682 65)) as [[d' got]| | |] eqn:E; [|exfalso; exact Hdec..].
  apply Z.ltb_lt in Hdec. apply (base64_loop_overflows p _ _ d' got He Hd); [vm_compute; reflexivity|exact E|exact Hdec].
Qed.

(** ** Properties *)

(** C16: a mail gives the same calls, in the same order and with the content joined,
    and the same success or failure however it is cut into pieces of at most 680 bytes
    (the daemon reads 512): what the specification gives on one byte after the other.
    The handlers take every byte exactly once, the loop always ends, no fixed array
    overflows and nothing outside the buffers is accessed unless the specification
    says so (a zero byte in the name of a header, a base64 word in a subject). *)
Theorem mail_parser_pieces `{DigestLaws} `{BigNumLaws} `{MailClientLaws U C} pieces user_data :
  Forall bytes pieces -> Forall (fun l => zlen l <= 680) pieces -> zlen (concat pieces) <= 2 ^ 30 ->
  mail_pieces (C := C) (ntb_mail_parser_new user_data) pieces = mail_spec (concat pieces) user_data.
Proof. intros Hb Hl Hz. apply (mail_pieces_spec pieces 0 _ _ (simulates_new user_data) Hb Hl); lia. Qed.

(** A client that keeps what it is told. *)
Record mail_log := MailLog { ml_source : option ntb_address; ml_destinations : list ntb_address; ml_subject : list Z; ml_content : list Z }.

Section witness.
#[local] Instance log_client : MailClient mail_log unit := {|
  address_cb e a l :=
    match e with
    | NTB_MAIL_PARSER_EVENT_SOURCE => Ok (MailLog (Some a) (ml_destinations l) (ml_subject l) (ml_content l))
    | NTB_MAIL_PARSER_EVENT_DESTINATION => Ok (MailLog (ml_source l) (ml_destinations l ++ [a]) (ml_subject l) (ml_content l))
    | _ => UB
    end;
  data_cb e d l :=
    match e with
    | NTB_MAIL_PARSER_EVENT_SUBJECT => Ok (MailLog (ml_source l) (ml_destinations l) d (ml_content l))
    | NTB_MAIL_PARSER_EVENT_CONTENT => Ok (MailLog (ml_source l) (ml_destinations l) (ml_subject l) (ml_content l ++ d))
    | _ => UB
    end
|}.
#[local] Instance log_client_laws : MailClientLaws (H := log_client).
Proof.
  split; cbn.
  - eauto.
  - intros [? ? ? ?]. cbn. by rewrite app_nil_r.
  - intros a b [? ? ? ?]. cbn. by rewrite app_assoc.
Qed.
#[local] Existing Instances Digests_toy DigestLaws_toy BigNum_N BigNumLaws_N.

Definition example_mail : list (list Z) :=
  [str_bytes "From: BM-5oQjPzx4EkoMDHyZogNuEA5wfgmxkto@bitm";
   str_bytes "essage" ++ [13; 10] ++ str_bytes "To: x <BM-5oQjPzx4EkoMDHyZogNuEA5wfgmxkto@bitmessage>" ++ [10] ++ str_bytes "Subject: a";
   [10; 9] ++ str_bytes "b" ++ [10] ++ str_bytes "Content-Transfer-Encoding: base64" ++ [10];
   [10] ++ str_bytes "Z"; str_bytes "m9" ++ [10] ++ str_bytes "v"].

Lemma mail_parser_pieces_witness :
  mail_pieces (C := unit) (ntb_mail_parser_new (MailLog None [] [] [])) example_mail
  = Ok (MailLog (Some example_address) [example_address] (str_bytes "a b") (str_bytes "foo")).
Proof.
  assert (Hb : Forall bytes example_mail) by (apply (bool_decide_unpack _); vm_compute; exact I).
  assert (Hl : Forall (fun l => zlen l <= 680) example_mail) by (apply (bool_decide_unpack _); vm_compute; exact I).
  assert (Hz : zlen (concat example_mail) <= 2 ^ 30) by (vm_compute; congruence).
  rewrite (mail_parser_pieces example_mail (MailLog None [] [] []) Hb Hl Hz). vm_compute. reflexivity.
Defined.
End witness.
