(* ===== verification/Connection.v ===== *)
(** * Connection: one peer connection (ntb-connection.c, ntb-connection.h)

    The connection cuts the byte stream of its socket into commands, checks and
    parses each of them and emits an event for it; in the other direction it
    queues commands and objects and writes them out. The listener of the event
    signal is a parameter that may change the connection (it calls back into the
    sending functions) and its own state [L]; when it returns [false] the
    connection has been freed and is not touched again. System calls are
    parameters of the handlers: the bytes a read returns, the count a write
    returns, the clock. *)

From S2P Require Import Prelude Endian Buffer NetAddress OpenSSL Proto.

Definition NTB_CONNECTION_MAX_MESSAGE_SIZE : Z := 128 * 1024 * 1024.
Definition NTB_CONNECTION_PONG_CHECK_INTERVAL : Z := 3.
Definition NTB_CONNECTION_PONG_INTERVAL : Z := 5 * 60.
Definition NTB_CONNECTION_TIMEOUT : Z := 10 * 60.

(** The part of a [struct ntb_blob] a connection uses. *)
Record ntb_blob := Blob { blob_type : ntb_proto_inv_type; blob_data : list Z }.

Record ntb_connection_version_event := VersionEvent {
  ve_version : Z;
  ve_services : Z;
  ve_timestamp : Z;
  ve_addr_recv : ntb_netaddress;
  ve_addr_from : ntb_netaddress;
  ve_nonce : Z;
  ve_user_agent : ntb_proto_var_str;
  ve_stream_numbers : ntb_proto_var_int_list
}.

Record ntb_connection_object_event := ObjectEvent {
  oe_type : ntb_proto_inv_type;
  oe_nonce : Z;
  oe_timestamp : Z;
  oe_stream_number : Z;
  oe_object_data : ptr;
  oe_object_data_length : Z
}.

Record ntb_connection_addr_event := AddrEvent {
  ae_timestamp : Z;
  ae_stream : Z;
  ae_services : Z;
  ae_address : ntb_netaddress
}.

Inductive ntb_connection_event :=
| NTB_CONNECTION_EVENT_CONNECT_FAILED
| NTB_CONNECTION_EVENT_ERROR
| NTB_CONNECTION_EVENT_VERSION (e : ntb_connection_version_event)
| NTB_CONNECTION_EVENT_INV (n_inventories : Z) (inventories : ptr)
| NTB_CONNECTION_EVENT_ADDR (e : ntb_connection_addr_event)
| NTB_CONNECTION_EVENT_OBJECT (e : ntb_connection_object_event)
| NTB_CONNECTION_EVENT_GETDATA (n_hashes : Z) (hashes : ptr)
| NTB_CONNECTION_EVENT_VERACK.

(** The socket source is [None] once it was removed, else whether it polls for
    writing; a queue entry of [objects_to_load] has no blob yet. *)
Record ntb_connection := Conn {
  conn_remote_address : ntb_netaddress;
  conn_socket_source : option bool;
  conn_timer_source : bool;
  conn_in_buf : ntb_buffer;
  conn_out_buf : ntb_buffer;
  conn_connect_succeeded : bool;
  conn_command_start : Z;
  conn_load_cookie : option (list Z);
  conn_ready_objects : list (list Z * ntb_blob);
  conn_objects_to_load : list (list Z);
  conn_last_write_time : Z;
  conn_last_read_time : Z;
  conn_n_bytes_received : Z;
  conn_n_bytes_send : Z
}.

(** ** Field updates *)

Definition set_in_buf (b : ntb_buffer) (c : ntb_connection) : ntb_connection :=
  Conn (conn_remote_address c) (conn_socket_source c) (conn_timer_source c) b (conn_out_buf c)
    (conn_connect_succeeded c) (conn_command_start c) (conn_load_cookie c) (conn_ready_objects c)
    (conn_objects_to_load c) (conn_last_write_time c) (conn_last_read_time c)
    (conn_n_bytes_received c) (conn_n_bytes_send c).
Definition set_out_buf (b : ntb_buffer) (c : ntb_connection) : ntb_connection :=
  Conn (conn_remote_address c) (conn_socket_source c) (conn_timer_source c) (conn_in_buf c) b
    (conn_connect_succeeded c) (conn_command_start c) (conn_load_cookie c) (conn_ready_objects c)
    (conn_objects_to_load c) (conn_last_write_time c) (conn_last_read_time c)
    (conn_n_bytes_received c) (conn_n_bytes_send c).
Definition set_sources (s : option bool) (t : bool) (c : ntb_connection) : ntb_connection :=
  Conn (conn_remote_address c) s t (conn_in_buf c) (conn_out_buf c)
    (conn_connect_succeeded c) (conn_command_start c) (conn_load_cookie c) (conn_ready_objects c)
    (conn_objects_to_load c) (conn_last_write_time c) (conn_last_read_time c)
    (conn_n_bytes_received c) (conn_n_bytes_send c).
Definition set_connect_succeeded (v : bool) (c : ntb_connection) : ntb_connection :=
  Conn (conn_remote_address c) (conn_socket_source c) (conn_timer_source c) (conn_in_buf c)
    (conn_out_buf c) v (conn_command_start c) (conn_load_cookie c) (conn_ready_objects c)
    (conn_objects_to_load c) (conn_last_write_time c) (conn_last_read_time c)
    (conn_n_bytes_received c) (conn_n_bytes_send c).
Definition set_command_start (v : Z) (c : ntb_connection) : ntb_connection :=
  Conn (conn_remote_address c) (conn_socket_source c) (conn_timer_source c) (conn_in_buf c)
    (conn_out_buf c) (conn_connect_succeeded c) v (conn_load_cookie c) (conn_ready_objects c)
    (conn_objects_to_load c) (conn_last_write_time c) (conn_last_read_time c)
    (conn_n_bytes_received c) (conn_n_bytes_send c).
Definition set_queues (cookie : option (list Z)) (ready : list (list Z * ntb_blob))
    (to_load : list (list Z)) (c : ntb_connection) : ntb_connection :=
  Conn (conn_remote_address c) (conn_socket_source c) (conn_timer_source c) (conn_in_buf c)
    (conn_out_buf c) (conn_connect_succeeded c) (conn_command_start c) cookie ready to_load
    (conn_last_write_time c) (conn_last_read_time c) (conn_n_bytes_received c) (conn_n_bytes_send c).
Definition note_read (now got : Z) (c : ntb_connection) : ntb_connection :=
  Conn (conn_remote_address c) (conn_socket_source c) (conn_timer_source c) (conn_in_buf c)
    (conn_out_buf c) (conn_connect_succeeded c) (conn_command_start c) (conn_load_cookie c)
    (conn_ready_objects c) (conn_objects_to_load c) (conn_last_write_time c) now
    (u64 (conn_n_bytes_received c + got)) (conn_n_bytes_send c).
Definition note_write (now wrote : Z) (c : ntb_connection) : ntb_connection :=
  Conn (conn_remote_address c) (conn_socket_source c) (conn_timer_source c) (conn_in_buf c)
    (conn_out_buf c) (conn_connect_succeeded c) (conn_command_start c) (conn_load_cookie c)
    (conn_ready_objects c) (conn_objects_to_load c) now (conn_last_read_time c)
    (conn_n_bytes_received c) (u64 (conn_n_bytes_send c + wrote)).

Section connection.
Context `{Digests} {L : Type}.

(** The connection together with the state of its listener. *)
Abbreviation state := (ntb_connection * L)%type.

(** The listener of [event_signal]; [false] when the connection was freed. *)
Context (listener : ntb_connection_event -> state -> bool * state).

(** What an allocated byte holds that was never written. *)
Context (indet : Z).

(** ** Events and poll flags *)

Definition emit_event (e : ntb_connection_event) (s : state) : result unit (bool * state) :=
  Ok (listener e s).

Definition remove_sources (c : ntb_connection) : ntb_connection := set_sources None false c.

Definition set_error_state (s : state) : state :=
  let c := remove_sources (fst s) in
  snd (listener (if conn_connect_succeeded c then NTB_CONNECTION_EVENT_ERROR
                 else NTB_CONNECTION_EVENT_CONNECT_FAILED) (c, snd s)).

(** [set_error_state(conn); return false;] *)
Definition fail_command (s : state) : result unit (bool * state) := Ok (false, set_error_state s).

Definition connection_is_ready_to_write (c : ntb_connection) : bool :=
  (0 <? buf_length (conn_out_buf c)) ||
  match conn_ready_objects c with [] => false | _ => true end.

(** Without a source this would follow a null pointer. *)
Definition update_poll_flags (c : ntb_connection) : result unit ntb_connection :=
  match conn_socket_source c with
  | None => UB
  | Some _ => Ok (set_sources (Some (connection_is_ready_to_write c)) (conn_timer_source c) c)
  end.

(** ** Command handlers *)

(** A parsing function that reports failure with [Err]. *)
Definition parse {A} (r : result unit A) : result unit (option A) :=
  match r with
  | Ok a => Ok (Some a)
  | Err _ => Ok None
  | UB => UB
  | OutOfFuel => OutOfFuel
  end.

Definition addr_arguments : list ntb_proto_argument :=
  [NTB_PROTO_ARGUMENT_TIMESTAMP; NTB_PROTO_ARGUMENT_32; NTB_PROTO_ARGUMENT_64;
   NTB_PROTO_ARGUMENT_NETADDRESS].

(** [while (n_addresses--)]: every address takes bytes off the command, so its
    length is fuel enough. *)
Fixpoint addr_loop (fuel : nat) (n_addresses : Z) (data : ptr) (command_length : Z) (s : state) :
    result unit (bool * state) :=
  if n_addresses =? 0 then Ok (true, s)
  else match fuel with
       | O => OutOfFuel
       | S fuel =>
           r ← parse (ntb_proto_get_command addr_arguments data command_length);
           match r with
           | None => fail_command s
           | Some ((timestamp, (stream, (services, (address, _)))), addr_length) =>
               '(ok, s) ← emit_event (NTB_CONNECTION_EVENT_ADDR
                            (AddrEvent timestamp stream services address)) s;
               if (ok : bool) then
                 addr_loop fuel (n_addresses - 1) (drop (Z.to_nat addr_length) data)
                   (u32 (command_length - addr_length)) s
               else Ok (false, s)
           end
       end.

Definition addr_command_handler (s : state) (data : ptr) (command_length : Z) :
    result unit (bool * state) :=
  r ← parse (ntb_proto_get_var_int (data, command_length));
  match r with
  | None => fail_command s
  | Some (n_addresses, (data, command_length)) =>
      addr_loop (S (Z.to_nat command_length)) n_addresses data command_length s
  end.

Definition getdata_command_handler (s : state) (data : ptr) (command_length : Z) :
    result unit (bool * state) :=
  r ← parse (ntb_proto_get_var_int (data, command_length));
  match r with
  | None => fail_command s
  | Some (n_hashes, (data, command_length)) =>
      if command_length <? u64 (n_hashes * NTB_PROTO_HASH_LENGTH) then fail_command s
      else emit_event (NTB_CONNECTION_EVENT_GETDATA n_hashes data) s
  end.

Definition version_arguments : list ntb_proto_argument :=
  [NTB_PROTO_ARGUMENT_32; NTB_PROTO_ARGUMENT_64; NTB_PROTO_ARGUMENT_TIMESTAMP;
   NTB_PROTO_ARGUMENT_64; NTB_PROTO_ARGUMENT_NETADDRESS;
   NTB_PROTO_ARGUMENT_64; NTB_PROTO_ARGUMENT_NETADDRESS;
   NTB_PROTO_ARGUMENT_64; NTB_PROTO_ARGUMENT_VAR_STR; NTB_PROTO_ARGUMENT_VAR_INT_LIST].

Definition version_command_handler (s : state) (data : ptr) (command_length : Z) :
    result unit (bool * state) :=
  r ← parse (ntb_proto_get_command version_arguments data command_length);
  match r with
  | None => fail_command s
  | Some ((version, (services, (timestamp, (_, (addr_recv, (_, (addr_from, (nonce,
          (user_agent, (stream_numbers, _)))))))))), _) =>
      emit_event (NTB_CONNECTION_EVENT_VERSION
        (VersionEvent version services timestamp addr_recv addr_from nonce user_agent
           stream_numbers)) s
  end.

Definition verack_command_handler (s : state) (data : ptr) (command_length : Z) :
    result unit (bool * state) :=
  emit_event NTB_CONNECTION_EVENT_VERACK s.

(** The objects with a version number in front of the stream number. *)
Definition versioned_arguments : list ntb_proto_argument :=
  [NTB_PROTO_ARGUMENT_64; NTB_PROTO_ARGUMENT_TIMESTAMP; NTB_PROTO_ARGUMENT_VAR_INT;
   NTB_PROTO_ARGUMENT_VAR_INT].

Definition versioned_command_handler (type : ntb_proto_inv_type) (s : state) (data : ptr)
    (command_length : Z) : result unit (bool * state) :=
  r ← parse (ntb_proto_get_command versioned_arguments data command_length);
  match r with
  | None => fail_command s
  | Some ((nonce, (timestamp, (_, (stream_number, _)))), _) =>
      emit_event (NTB_CONNECTION_EVENT_OBJECT
        (ObjectEvent type nonce timestamp stream_number data command_length)) s
  end.

Definition getpubkey_command_handler := versioned_command_handler NTB_PROTO_INV_TYPE_GETPUBKEY.
Definition pubkey_command_handler := versioned_command_handler NTB_PROTO_INV_TYPE_PUBKEY.
Definition broadcast_command_handler := versioned_command_handler NTB_PROTO_INV_TYPE_BROADCAST.

Definition msg_arguments : list ntb_proto_argument :=
  [NTB_PROTO_ARGUMENT_64; NTB_PROTO_ARGUMENT_TIMESTAMP; NTB_PROTO_ARGUMENT_VAR_INT].

Definition msg_command_handler (s : state) (data : ptr) (command_length : Z) :
    result unit (bool * state) :=
  r ← parse (ntb_proto_get_command msg_arguments data command_length);
  match r with
  | None => fail_command s
  | Some ((nonce, (timestamp, (stream_number, _))), _) =>
      emit_event (NTB_CONNECTION_EVENT_OBJECT
        (ObjectEvent NTB_PROTO_INV_TYPE_MSG nonce timestamp stream_number data command_length)) s
  end.

Definition inv_command_handler (s : state) (data : ptr) (command_length : Z) :
    result unit (bool * state) :=
  r ← parse (ntb_proto_get_var_int (data, command_length));
  match r with
  | None => fail_command s
  | Some (n_inventories, (data, command_length)) =>
      if command_length <? u64 (n_inventories * NTB_PROTO_HASH_LENGTH) then fail_command s
      else emit_event (NTB_CONNECTION_EVENT_INV n_inventories data) s
  end.

Definition send_pong (c : ntb_connection) : result unit ntb_connection :=
  b ← ntb_proto_add_command 0 (conn_out_buf c) (str_bytes "pong") [] tt;
  update_poll_flags (set_out_buf b c).

Definition ping_command_handler (s : state) (data : ptr) (command_length : Z) :
    result unit (bool * state) :=
  c ← send_pong (fst s); Ok (true, (c, snd s)).

Definition command_handlers : list (list Z * (state -> ptr -> Z -> result unit (bool * state))) :=
  [(str_bytes "getpubkey", getpubkey_command_handler);
   (str_bytes "pubkey", pubkey_command_handler);
   (str_bytes "msg", msg_command_handler);
   (str_bytes "broadcast", broadcast_command_handler);
   (str_bytes "inv", inv_command_handler);
   (str_bytes "version", version_command_handler);
   (str_bytes "addr", addr_command_handler);
   (str_bytes "getdata", getdata_command_handler);
   (str_bytes "verack", verack_command_handler);
   (str_bytes "ping", ping_command_handler)].

(** The characters of the string [p] points to. *)
Fixpoint c_string (p : ptr) : result unit (list Z) :=
  match p with
  | [] => UB
  | b :: p => if b =? 0 then Ok [] else s ← c_string p; Ok (b :: s)
  end.

Definition dispatch (s : state) (name : list Z) (data : ptr) (command_length : Z) :
    result unit (bool * state) :=
  match List.find (fun h => bytes_eqb name (fst h)) command_handlers with
  | Some (_, func) => func s data command_length
  | None => Ok (true, s)
  end.

Definition process_command (s : state) (data : ptr) (command_length : Z) :
    result unit (bool * state) :=
  magic ← read_bytes 4 data;
  if negb (bytes_eqb magic ntb_proto_magic) then fail_command s
  else
    valid ← ntb_proto_check_command_string (drop 4 data);
    if negb valid then fail_command s
    else
      payload ← read_bytes (Z.to_nat command_length) (drop (Z.to_nat NTB_PROTO_HEADER_SIZE) data);
      checksum ← read_bytes 4 (drop 20 data);
      if negb (bytes_eqb (take 4 (SHA512 payload)) checksum) then fail_command s
      else
        name ← c_string (drop 4 data);
        dispatch s name (drop (Z.to_nat NTB_PROTO_HEADER_SIZE) data) command_length.

(** The bytes of an allocation as a read sees them. *)
Definition readable (b : ntb_buffer) : list Z := default indet <$> buf_data b.

(** [while (true)]: [None] when the function returned from inside the loop, else
    what is left of the data. Every round consumes a header. *)
Fixpoint process_commands_loop (fuel : nat) (s : state) (data : ptr) (length : Z) :
    result unit (option (ptr * Z) * state) :=
  if length <? NTB_PROTO_HEADER_SIZE then Ok (Some (data, length), s)
  else match fuel with
       | O => OutOfFuel
       | S fuel =>
           command_length ← ntb_proto_get_32 (drop 16 data);
           if NTB_CONNECTION_MAX_MESSAGE_SIZE <? command_length then
             Ok (None, set_error_state s)
           else if length <? NTB_PROTO_HEADER_SIZE + command_length then
             Ok (Some (data, length), s)
           else
             '(ok, s) ← process_command s data command_length;
             if (ok : bool) then
               process_commands_loop fuel s
                 (drop (Z.to_nat (command_length + NTB_PROTO_HEADER_SIZE)) data)
                 (length - (command_length + NTB_PROTO_HEADER_SIZE))
             else Ok (None, s)
       end.

Definition process_commands (s : state) : result unit state :=
  let in_buf := conn_in_buf (fst s) in
  '(rest, s) ← process_commands_loop (Z.to_nat (buf_length in_buf)) s (readable in_buf)
                 (buf_length in_buf);
  match rest with
  | None => Ok s
  | Some (data, length) =>
      let in_buf := conn_in_buf (fst s) in
      l ← read_bytes (Z.to_nat length) data;
      b ← buf_write in_buf 0 l;
      Ok (set_in_buf (Buf (buf_data b) length (buf_size b)) (fst s), snd s)
  end.

(** What [read] reports once it is not interrupted. *)
Inductive read_result := ReadBytes (l : list Z) | ReadEnd | ReadAgain | ReadError.

Definition handle_read (now : Z) (got : read_result) (s : state) : result unit state :=
  b ← ntb_buffer_ensure_size (conn_in_buf (fst s)) (u64 (buf_length (conn_in_buf (fst s)) + 1024));
  let s := (set_in_buf b (fst s), snd s) in
  match got with
  | ReadEnd => Ok (set_error_state s)
  | ReadAgain => Ok s
  | ReadError => Ok (set_error_state s)
  | ReadBytes l =>
      (* the system call stores into the free part of the buffer *)
      b ← buf_write b (buf_length b) l;
      process_commands (note_read now (zlen l) (set_in_buf (add_length b (zlen l)) (fst s)), snd s)
  end.

(** ** Objects on request *)

Definition maybe_queue_load (c : ntb_connection) : ntb_connection :=
  match conn_load_cookie c, conn_ready_objects c, conn_objects_to_load c with
  | None, [], hash :: _ => set_queues (Some hash) [] (conn_objects_to_load c) c
  | _, _, _ => c
  end.

(** The store calls back with the blob, or with a null pointer when it could not
    be loaded. *)
Definition load_cb (blob : option ntb_blob) (c : ntb_connection) : result unit ntb_connection :=
  match conn_objects_to_load c with
  | [] => UB
  | hash :: to_load =>
      match blob with
      | None => UB
      | Some blob =>
          update_poll_flags
            (set_queues None (conn_ready_objects c ++ [(hash, blob)]) to_load c)
      end
  end.

Definition ntb_connection_send_blob (c : ntb_connection) (hash : list Z) (blob : option ntb_blob) :
    result unit ntb_connection :=
  match blob with
  | Some blob =>
      update_poll_flags (set_queues (conn_load_cookie c) (conn_ready_objects c ++ [(hash, blob)])
                           (conn_objects_to_load c) c)
  | None =>
      Ok (maybe_queue_load (set_queues (conn_load_cookie c) (conn_ready_objects c)
                              (conn_objects_to_load c ++ [hash]) c))
  end.

(** Every round takes an entry off the queue; the call to [maybe_queue_load] does
    not add one. *)
Fixpoint add_ready_loop (entries : list (list Z * ntb_blob)) (c : ntb_connection) :
    result unit ntb_connection :=
  match entries with
  | [] => Ok c
  | (_, blob) :: entries =>
      if buf_length (conn_out_buf c) <? 1024 then
        let command_start := buf_length (conn_out_buf c) in
        let name := str_bytes (ntb_proto_get_command_name_for_type (blob_type blob)) in
        b ← ntb_proto_begin_command (conn_out_buf c) name;
        b ← ntb_buffer_append b (blob_data blob);
        b ← ntb_proto_end_command b command_start;
        add_ready_loop entries
          (maybe_queue_load (set_queues (conn_load_cookie c) entries (conn_objects_to_load c)
                               (set_out_buf b c)))
      else Ok c
  end.

Definition add_ready_objects (c : ntb_connection) : result unit ntb_connection :=
  add_ready_loop (conn_ready_objects c) c.

(** What [write] reports once it is not interrupted. *)
Inductive write_result := Wrote (n : Z) | WriteAgain | WriteError.

Definition handle_write (now : Z) (wrote : write_result) (s : state) : result unit state :=
  c ← add_ready_objects (fst s);
  match wrote with
  | WriteError => Ok (set_error_state (c, snd s))
  | WriteAgain => Ok (c, snd s)
  | Wrote n =>
      let b := conn_out_buf c in
      rest ← buf_read b n (buf_length b - n);
      b ← buf_write b 0 rest;
      let b := Buf (buf_data b) (u64 (buf_length b - n)) (buf_size b) in
      c ← update_poll_flags (note_write now n (set_out_buf b c));
      Ok (c, snd s)
  end.

(** [flags] as the three conditions the callback tests. *)
Definition connection_poll_cb (now : Z) (flag_in flag_out flag_error : bool)
    (got : read_result) (wrote : write_result) (s : state) : result unit state :=
  let s := if flag_out && negb flag_error && negb (conn_connect_succeeded (fst s))
           then (set_connect_succeeded true (fst s), snd s) else s in
  if flag_error then Ok (set_error_state s)
  else if flag_in then handle_read now got s
  else if flag_out then handle_write now wrote s
  else Ok s.

Definition pong_check_cb (now : Z) (s : state) : result unit state :=
  let c := fst s in
  if NTB_CONNECTION_TIMEOUT <=? u64 (now - conn_last_read_time c) / 1000000 then
    Ok (set_error_state s)
  else if (NTB_CONNECTION_PONG_INTERVAL <=? u64 (now - conn_last_write_time c) / 1000000) &&
          negb (connection_is_ready_to_write c) then
    c ← send_pong c; Ok (c, snd s)
  else Ok s.

(** ** Creation and sending *)

Definition ntb_connection_new_for_socket (remote_address : ntb_netaddress) (now : Z) :
    ntb_connection :=
  Conn remote_address (Some false) true ntb_buffer_init ntb_buffer_init false 0 None [] []
    now now 0 0.

Definition ntb_connection_send_verack (c : ntb_connection) : result unit ntb_connection :=
  b ← ntb_proto_add_command 0 (conn_out_buf c) (str_bytes "verack") [] tt;
  update_poll_flags (set_out_buf b c).

Definition version_sent : list ntb_proto_argument :=
  [NTB_PROTO_ARGUMENT_32; NTB_PROTO_ARGUMENT_64; NTB_PROTO_ARGUMENT_TIMESTAMP;
   NTB_PROTO_ARGUMENT_64; NTB_PROTO_ARGUMENT_NETADDRESS;
   NTB_PROTO_ARGUMENT_64; NTB_PROTO_ARGUMENT_NETADDRESS;
   NTB_PROTO_ARGUMENT_64; NTB_PROTO_ARGUMENT_VAR_STR;
   NTB_PROTO_ARGUMENT_VAR_INT; NTB_PROTO_ARGUMENT_VAR_INT].

(** [agent] is "/notbit:" VERSION "/". *)
Definition version_values (c : ntb_connection) (nonce local_port : Z) (agent : list Z) :
    args_in_ty version_sent :=
  (NTB_PROTO_VERSION, (NTB_PROTO_SERVICES, (tt, (NTB_PROTO_SERVICES, (conn_remote_address c,
   (NTB_PROTO_SERVICES, (NetAddr (replicate 16 0) (u16 local_port), (nonce, (agent,
   (1, (1, tt))))))))))).

Definition ntb_connection_send_version (c : ntb_connection) (now nonce local_port : Z)
    (agent : list Z) : result unit ntb_connection :=
  b ← ntb_proto_add_command now (conn_out_buf c) (str_bytes "version") version_sent
        (version_values c nonce local_port agent);
  update_poll_flags (set_out_buf b c).

(** ** Commands that carry a list *)

(** Reserves the byte for the number of items. *)
Definition begin_list_command (command : list Z) (c : ntb_connection) :
    result unit ntb_connection :=
  let c := set_command_start (buf_length (conn_out_buf c)) c in
  b ← ntb_proto_begin_command (conn_out_buf c) command;
  b ← ntb_buffer_ensure_size b (u64 (buf_length b + 1));
  Ok (set_out_buf (add_length b 1) c).

(** The number of items of [item_size] bytes behind the header. *)
Definition get_n_items (item_size : Z) (c : ntb_connection) : Z :=
  s32 (u64 (buf_length (conn_out_buf c) - conn_command_start c - 1 - NTB_PROTO_HEADER_SIZE)
       / item_size).

Definition end_list_command (item_size : Z) (c : ntb_connection) : result unit ntb_connection :=
  let n_items := get_n_items item_size c in
  b ← (if n_items =? 0 then
         let b := conn_out_buf c in Ok (Buf (buf_data b) (conn_command_start c) (buf_size b))
       else
         b ← buf_write (conn_out_buf c) (conn_command_start c + NTB_PROTO_HEADER_SIZE) [u8 n_items];
         ntb_proto_end_command b (conn_command_start c));
  update_poll_flags (set_out_buf b c).

(** Starts another command when the next item would not fit a 1-byte count. *)
Definition split_list_command (command : list Z) (item_size : Z) (c : ntb_connection) :
    result unit ntb_connection :=
  if 0xfc <=? get_n_items item_size c then
    c ← end_list_command item_size c;
    begin_list_command command c
  else Ok c.

Definition get_n_hashes_for_command := get_n_items NTB_PROTO_HASH_LENGTH.
Definition begin_hash_command := begin_list_command.
Definition end_hash_command := end_list_command NTB_PROTO_HASH_LENGTH.

Definition add_hash_for_command (command : list Z) (hash : list Z) (c : ntb_connection) :
    result unit ntb_connection :=
  c ← split_list_command command NTB_PROTO_HASH_LENGTH c;
  b ← ntb_buffer_append (conn_out_buf c) hash;
  Ok (set_out_buf b c).

Definition ntb_connection_begin_getdata := begin_hash_command (str_bytes "getdata").
Definition ntb_connection_add_getdata_hash := add_hash_for_command (str_bytes "getdata").
Definition ntb_connection_end_getdata := end_hash_command.
Definition ntb_connection_begin_inv := begin_hash_command (str_bytes "inv").
Definition ntb_connection_add_inv_hash := add_hash_for_command (str_bytes "inv").
Definition ntb_connection_end_inv := end_hash_command.

Definition addr_item_size : Z := 8 + 4 + 8 + 16 + 2.
Definition get_n_hashes_for_addr := get_n_items addr_item_size.
Definition ntb_connection_begin_addr := begin_list_command (str_bytes "addr").
Definition ntb_connection_end_addr := end_list_command addr_item_size.

Definition ntb_connection_add_addr_address (timestamp stream services : Z)
    (address : ntb_netaddress) (c : ntb_connection) : result unit ntb_connection :=
  c ← split_list_command (str_bytes "addr") addr_item_size c;
  b ← ntb_proto_add_64 (conn_out_buf c) (u64 timestamp);
  b ← ntb_proto_add_32 b stream;
  b ← ntb_proto_add_64 b services;
  b ← ntb_proto_add_netaddress b address;
  Ok (set_out_buf b c).
End connection.
