(* ===== verification/Crypto.v ===== *)
(** * Crypto: the tasks of the cryptography thread (ntb-crypto.c, ntb-blob.c)

    What each task computes from its arguments: new keys, the objects of public keys,
    the check of such an object, messages and their decryption. Signatures and SHA-1
    are libcrypto's, in the class [Ecdsa]. What [RAND_bytes] and [ECDSA_sign] draw is an
    argument, [entropy]. A blob that is built in a buffer has cells, since the nonce in
    front of an object is not set before the proof of work is known. *)

From S2P Require Import Prelude Endian Buffer NetAddress OpenSSL Proto ProtoSpec NetText KeyValue Base58 Address Outgoings Ecc Keys HashTable Connection.

Definition NTB_PROTO_PUBKEY_BEHAVIORS : Z := 1.
Definition NTB_PROTO_ACKDATA_SIZE : nat := 32.

(** ** Blobs that are built in a buffer *)

Record dyn_blob := DynBlob { db_type : ntb_proto_inv_type; db_cells : list (option Z) }.

(** [NTB_STRUCT_OFFSET(struct ntb_blob, data)] *)
Definition blob_data_offset : Z := 4 + 4 + 8.

Definition ntb_blob_dynamic_init : result unit ntb_buffer := ntb_buffer_set_length ntb_buffer_init blob_data_offset.
(** The type was stored by [ntb_blob_dynamic_init]. *)
Definition ntb_blob_dynamic_end (type : ntb_proto_inv_type) (b : ntb_buffer) : dyn_blob :=
  DynBlob type (drop (Z.to_nat blob_data_offset) (cells b)).

(** Reading all bytes of a blob. *)
Definition blob_bytes (blob : dyn_blob) : result unit (list Z) := need (all_some (db_cells blob)).

(** ** Signatures *)

Section ecdsa.
Context `{BigNum} `{!Elliptic}.

Class Ecdsa := {
  SHA1 : list Z -> list Z;
  ECDSA_size : EC_KEY -> Z;
  (** the random number, the digest and the key *)
  ECDSA_sign : list Z -> list Z -> EC_KEY -> option (list Z);
  (** 1, 0 or -1 *)
  ECDSA_verify : list Z -> list Z -> EC_KEY -> Z
}.

(** A signature fits the announced size and is verified with the public half. *)
Class EcdsaLaws `{!BigNumLaws} `{!EllipticLaws} `{!Ecdsa} : Prop := {
  SHA1_length l : length (SHA1 l) = SHA_DIGEST_LENGTH;
  SHA1_bytes l : bytes (SHA1 l);
  ecdsa_size_range k : 0 <= ECDSA_size k < 2 ^ 16;
  ecdsa_sign_verify d random digest : 0 < bn_val d < ec_order -> length digest = SHA_DIGEST_LENGTH -> bytes digest ->
    exists sig, ECDSA_sign random digest (EcKey (Some d) (ec_multiple (bn_val d))) = Some sig /\
      zlen sig <= ECDSA_size (EcKey (Some d) (ec_multiple (bn_val d))) /\ bytes sig /\
      ECDSA_verify digest sig (EcKey None (ec_multiple (bn_val d))) = 1
}.
End ecdsa.

Section crypto.
Context `{Digests} `{BigNum} `{!Elliptic} `{Symmetric} `{Digest256} `{!Ecdsa}.

Record entropy := Entropy {
  (** the private keys that [handle_create_key] draws *)
  en_keys : list (list Z);
  (** the key and the initialisation vector of an encryption *)
  en_ephemeral : list Z;
  en_iv : list Z;
  en_sign : list Z;
  en_ackdata : list Z
}.

(** ** Creating keys *)

Fixpoint count_zeroes (fuel : nat) (hash : ptr) (count : Z) : result unit Z :=
  match fuel with
  | O => OutOfFuel
  | S fuel =>
      b ← deref (drop (Z.to_nat count) hash);
      if (b =? 0) && (count <? Z.of_nat RIPEMD160_DIGEST_LENGTH) then count_zeroes fuel hash (count + 1)
      else Ok count
  end.
Definition count_leading_zeroes (hash : ptr) : result unit Z := count_zeroes (S (S RIPEMD160_DIGEST_LENGTH)) hash 0.

(** The loop of [handle_create_key]; it ends with the draws of this model when none of
    them makes an address with enough zeroes. *)
Fixpoint create_key_loop (draws : list (list Z)) (pub_signing_key : list Z) (leading_zeroes : Z) (ecc : ntb_ecc) :
    result unit (ntb_ecc * list Z * list Z * list Z) :=
  match draws with
  | [] => OutOfFuel
  | private_encryption_key :: draws =>
      '(ecc, pub_encryption_key) ← ntb_ecc_make_pub_key_bin ecc private_encryption_key;
      let sha_hash := SHA512 (pub_signing_key ++ pub_encryption_key) in
      let ripe := RIPEMD160 sha_hash in
      count ← count_leading_zeroes ripe;
      if count <? leading_zeroes then create_key_loop draws pub_signing_key leading_zeroes ecc
      else Ok (ecc, private_encryption_key, pub_encryption_key, ripe)
  end.

(** The result is the key; the function of the cookie is called with it here, in the
    thread. The address is only logged. *)
Definition handle_create_key (en : entropy) (params : ntb_key_params) (leading_zeroes : Z) (ecc : ntb_ecc) :
    result unit (ntb_ecc * ntb_key) :=
  match en_keys en with
  | [] => OutOfFuel
  | private_signing_key :: draws =>
      '(ecc, pub_signing_key) ← ntb_ecc_make_pub_key_bin ecc private_signing_key;
      '(ecc, private_encryption_key, pub_encryption_key, ripe) ← create_key_loop draws pub_signing_key leading_zeroes ecc;
      let flags := Z.lor (Z.lor (Z.lor (kp_flags params) NTB_KEY_PARAM_RIPE) NTB_KEY_PARAM_PRIVATE_KEYS) NTB_KEY_PARAM_PUBLIC_KEYS in
      let params := KeyParams flags (kp_label params) (kp_version params) (kp_stream params)
        private_signing_key private_encryption_key pub_signing_key pub_encryption_key
        (kp_nonce_trials_per_byte params) (kp_payload_length_extra_bytes params) ripe
        (kp_last_pubkey_send_time params) (kp_enabled params) (kp_decoy params) in
      '(ecc, key) ← ntb_key_new ecc params;
      address_string ← ntb_address_encode (key_address key);
      if NTB_ADDRESS_MAX_LENGTH <? zlen address_string then UB else Ok (ecc, key)
  end.

(** The parameters point into the cookie. *)
Definition handle_create_public_key (params : ntb_key_params) (ecc : ntb_ecc) : result unit (ntb_ecc * ntb_key) :=
  ntb_key_new ecc params.

(** ** Objects of public keys *)

Definition public_octets (key : EC_KEY) : list Z := EC_POINT_point2oct (EC_KEY_get0_public_key key).

(** The buffer and [*behaviors_offset]. *)
Definition append_key_base (key : ntb_key) (b : ntb_buffer) : result unit (ntb_buffer * Z) :=
  b ← ntb_buffer_set_length b (u64 (buf_length b + 8));
  b ← ntb_proto_add_64 b (u64 (key_last_pubkey_send_time key));
  b ← ntb_proto_add_var_int b (addr_version (key_address key));
  b ← ntb_proto_add_var_int b (addr_stream (key_address key));
  let behaviors_offset := buf_length b in
  b ← ntb_proto_add_32 b NTB_PROTO_PUBKEY_BEHAVIORS;
  b ← ntb_proto_add_public_key b (public_octets (key_signing_key key));
  b ← ntb_proto_add_public_key b (public_octets (key_encryption_key key));
  Ok (b, behaviors_offset).

(** [sig] has [ECDSA_size] bytes. *)
Definition append_signature (en : entropy) (b : ntb_buffer) (key : ntb_key) (data : list Z) : result unit ntb_buffer :=
  let digest := SHA1 data in
  sig ← need (ECDSA_sign (en_sign en) digest (key_signing_key key));
  if ECDSA_size (key_signing_key key) <? zlen sig then UB
  else
    b ← ntb_proto_add_var_int b (zlen sig);
    ntb_buffer_append b sig.

(** The signature is of what follows the first eight bytes of the memory of the
    buffer. *)
Definition append_v34_key_base (en : entropy) (key : ntb_key) (b : ntb_buffer) : result unit (ntb_buffer * Z) :=
  '(b, behaviors_offset) ← append_key_base key b;
  b ← ntb_proto_add_var_int b (u64 (key_nonce_trials_per_byte key));
  b ← ntb_proto_add_var_int b (u64 (key_payload_length_extra_bytes key));
  data ← buf_read b 8 (buf_length b - 8);
  b ← append_signature en b key data;
  Ok (b, behaviors_offset).

(** [ntb_buffer_append] of cells of another buffer. *)
Definition append_cells (b : ntb_buffer) (l : list (option Z)) : result unit ntb_buffer :=
  b' ← ntb_buffer_append b (replicate (length l) 0);
  Ok (Buf (take (Z.to_nat (buf_length b)) (buf_data b') ++ l ++ drop (Z.to_nat (buf_length b) + length l) (buf_data b'))
        (buf_length b') (buf_size b')).

Definition create_v4_key (en : entropy) (key : ntb_key) (ecc : ntb_ecc) : result unit (ntb_ecc * dyn_blob) :=
  encrypted_buffer ← ntb_blob_dynamic_init;
  '(b, behaviors_offset) ← append_v34_key_base en key ntb_buffer_init;
  tag_public_key_point ← ntb_ecc_make_pub_key_point (key_tag_private_key key);
  encrypted_buffer ← append_cells encrypted_buffer (take (Z.to_nat behaviors_offset) (cells b));
  tag ← read_bytes NTB_ADDRESS_TAG_SIZE (key_tag key);
  encrypted_buffer ← ntb_buffer_append encrypted_buffer tag;
  data ← buf_read b behaviors_offset (buf_length b - behaviors_offset);
  '(ecc, encrypted_buffer) ← ntb_ecc_encrypt_with_point (en_ephemeral en) (en_iv en) ecc tag_public_key_point data encrypted_buffer;
  Ok (ecc, ntb_blob_dynamic_end NTB_PROTO_INV_TYPE_PUBKEY encrypted_buffer).

Definition create_v3_key (en : entropy) (key : ntb_key) : result unit dyn_blob :=
  b ← ntb_blob_dynamic_init;
  '(b, _) ← append_v34_key_base en key b;
  Ok (ntb_blob_dynamic_end NTB_PROTO_INV_TYPE_PUBKEY b).

Definition create_v2_key (key : ntb_key) : result unit dyn_blob :=
  b ← ntb_blob_dynamic_init;
  '(b, _) ← append_key_base key b;
  Ok (ntb_blob_dynamic_end NTB_PROTO_INV_TYPE_PUBKEY b).

Definition handle_create_pubkey_blob (en : entropy) (key : ntb_key) (ecc : ntb_ecc) : result unit (ntb_ecc * dyn_blob) :=
  if addr_version (key_address key) =? 4 then create_v4_key en key ecc
  else if addr_version (key_address key) =? 3 then blob ← create_v3_key en key; Ok (ecc, blob)
  else blob ← create_v2_key key; Ok (ecc, blob).

(** ** Checking *)

(** The prefix of a key that the network strips. *)
Definition full_public_key (network_public_key : ptr) (n : Z) : result unit (list Z) :=
  key ← read_bytes (Z.to_nat n) network_public_key;
  if NTB_ECC_PUBLIC_KEY_SIZE <? 1 + n then UB else Ok (4 :: key).

Definition check_signature_for_data (ecc : ntb_ecc) (network_public_key : ptr) (data : ptr) (data_length : Z)
    (signature : ptr) (signature_length : Z) : result unit (ntb_ecc * bool) :=
  data ← zread data_length data;
  let digest := SHA1 data in
  public_key ← full_public_key network_public_key (NTB_ECC_PUBLIC_KEY_SIZE - 1);
  '(ecc, key) ← ntb_ecc_create_key_with_public ecc None public_key;
  signature ← zread signature_length signature;
  Ok (ecc, ECDSA_verify digest signature key =? 1).

(** A null pointer. *)
Definition non_null {A} (p : option A) : result unit A := need p.

(** The result is the key, if there is one. The two copies of the keys have
    [NTB_ECC_PUBLIC_KEY_SIZE] bytes, one more than there is room for. *)
Definition handle_check_unencrypted_pubkey (address : ntb_address) (pubkey : ntb_proto_pubkey) (ecc : ntb_ecc) :
    result unit (ntb_ecc * option ntb_key) :=
  signing_key ← non_null (pk_public_signing_key pubkey);
  encryption_key ← non_null (pk_public_encryption_key pubkey);
  '(ecc, signed) ←
    match pk_signature pubkey with
    | None => Ok (ecc, true)
    | Some signature =>
        signed_data ← non_null (pk_signed_data pubkey);
        check_signature_for_data ecc signing_key signed_data (pk_signed_data_length pubkey) signature (pk_signature_length pubkey)
    end;
  if negb signed then Ok (ecc, None)
  else
    from_keys ← ntb_address_from_network_keys (pk_version pubkey) (pk_stream pubkey) signing_key encryption_key;
    if negb (ntb_address_equal from_keys address) then Ok (ecc, None)
    else
      full_signing_key ← full_public_key signing_key NTB_ECC_PUBLIC_KEY_SIZE;
      full_encryption_key ← full_public_key encryption_key NTB_ECC_PUBLIC_KEY_SIZE;
      let flags := Z.lor (Z.lor (Z.lor (Z.lor NTB_KEY_PARAM_VERSION NTB_KEY_PARAM_STREAM) NTB_KEY_PARAM_PUBLIC_KEYS)
                     NTB_KEY_PARAM_POW_DIFFICULTY) NTB_KEY_PARAM_RIPE in
      let params := KeyParams flags [] (addr_version from_keys) (addr_stream from_keys) [] [] full_signing_key full_encryption_key
        (s32 (pk_nonce_trials_per_byte pubkey)) (s32 (pk_extra_bytes pubkey)) (addr_ripe from_keys) 0 false false in
      '(ecc, key) ← ntb_key_new ecc params;
      Ok (ecc, Some key).

(** [pubkey->tag - blob->data] bytes of the object precede the tag. *)
Definition handle_check_encrypted_pubkey (address : ntb_address) (blob : list Z) (pubkey : ntb_proto_pubkey) (ecc : ntb_ecc) :
    result unit (ntb_ecc * option ntb_key) :=
  '(tag, tag_private_key) ← ntb_address_get_tag address;
  pk_tag_data ← non_null (pk_tag pubkey);
  pubkey_tag ← read_bytes NTB_ADDRESS_TAG_SIZE pk_tag_data;
  if negb (bytes_eqb tag pubkey_tag) then Ok (ecc, None)
  else
    '(ecc, key) ← ntb_ecc_create_key ecc tag_private_key;
    b ← ntb_buffer_append ntb_buffer_init (take (length blob - length pk_tag_data) blob);
    encrypted_data ← non_null (pk_encrypted_data pubkey);
    '(decrypted, ecc, b) ← ntb_ecc_decrypt ecc key encrypted_data (pk_encrypted_data_length pubkey) b;
    if negb decrypted then Ok (ecc, None)
    else
      data ← buf_read b 0 (buf_length b);
      match ntb_proto_get_pubkey true data (zlen data) with
      | Ok decrypted_pubkey => handle_check_unencrypted_pubkey address decrypted_pubkey ecc
      | Err _ => Ok (ecc, None)
      | UB => UB
      | OutOfFuel => OutOfFuel
      end.

Definition handle_check_pubkey (address : ntb_address) (blob : ntb_blob) (ecc : ntb_ecc) : result unit (ntb_ecc * option ntb_key) :=
  match blob_type blob with
  | NTB_PROTO_INV_TYPE_PUBKEY =>
      match ntb_proto_get_pubkey false (blob_data blob) (zlen (blob_data blob)) with
      | Ok pubkey =>
          match pk_encrypted_data pubkey with
          | Some _ => handle_check_encrypted_pubkey address (blob_data blob) pubkey ecc
          | None => handle_check_unencrypted_pubkey address pubkey ecc
          end
      | Err _ => Ok (ecc, None)
      | UB => UB
      | OutOfFuel => OutOfFuel
      end
  | _ => Ok (ecc, None)
  end.

(** ** Messages *)

Definition handle_create_msg_blob (en : entropy) (timestamp : Z) (from_key to_key : ntb_key) (content : list Z) (ecc : ntb_ecc) :
    result unit (ntb_ecc * dyn_blob) :=
  b ← ntb_blob_dynamic_init;
  b ← ntb_buffer_set_length b (u64 (buf_length b + 8));
  b ← ntb_proto_add_64 b (u64 timestamp);
  b ← ntb_proto_add_var_int b (addr_stream (key_address to_key));
  let encryption_key := EC_KEY_get0_public_key (key_encryption_key to_key) in
  '(ecc, b) ← ntb_ecc_encrypt_with_point_begin (en_ephemeral en) (en_iv en) ecc encryption_key b;
  '(ecc, b) ← ntb_ecc_encrypt_update ecc content b;
  signature ← append_signature en ntb_buffer_init from_key content;
  signature_data ← buf_read signature 0 (buf_length signature);
  '(ecc, b) ← ntb_ecc_encrypt_update ecc signature_data b;
  '(ecc, b) ← ntb_ecc_encrypt_end ecc b;
  Ok (ecc, ntb_blob_dynamic_end NTB_PROTO_INV_TYPE_MSG b).

(** Whether the message keeps its chosen key and result. *)
Definition check_signature_in_decrypted_msg (data : list Z) (ecc : ntb_ecc) : result unit (ntb_ecc * bool) :=
  match ntb_proto_get_decrypted_msg data (zlen data) with
  | Ok msg =>
      check_signature_for_data ecc (dm_sender_signing_key msg) data (dm_signed_data_length msg) (dm_sig msg) (dm_sig_length msg)
  | Err _ => Ok (ecc, false)
  | UB => UB
  | OutOfFuel => OutOfFuel
  end.

(** The loop over the keys; [b] is the buffer of the result. *)
Fixpoint decrypt_msg_loop (keys : list ntb_key) (data : ptr) (b : ntb_buffer) (ecc : ntb_ecc) :
    result unit (ntb_ecc * option (ntb_key * dyn_blob)) :=
  match keys with
  | [] => Ok (ecc, None)
  | key :: keys =>
      if negb (ntb_key_has_private key) then decrypt_msg_loop keys data b ecc
      else
        '(decrypted, ecc, b') ← ntb_ecc_decrypt ecc (key_encryption_key key) data (zlen data) b;
        if decrypted : bool then
          let result := ntb_blob_dynamic_end NTB_PROTO_INV_TYPE_MSG b' in
          text ← blob_bytes result;
          '(ecc, valid) ← check_signature_in_decrypted_msg text ecc;
          Ok (ecc, if valid : bool then Some (key, result) else None)
        else decrypt_msg_loop keys data (Buf (buf_data b') (buf_length b) (buf_size b')) ecc
  end.

(** An object that is too short for its header fails the assertion. *)
Definition handle_decrypt_msg (keys : list ntb_key) (blob : list Z) (ecc : ntb_ecc) :
    result unit (ntb_ecc * option (ntb_key * dyn_blob)) :=
  match ntb_proto_get_command [NTB_PROTO_ARGUMENT_64; NTB_PROTO_ARGUMENT_TIMESTAMP; NTB_PROTO_ARGUMENT_VAR_INT] blob (zlen blob) with
  | Ok (_, header_size) =>
      b ← ntb_blob_dynamic_init;
      decrypt_msg_loop keys (drop (Z.to_nat header_size) blob) b ecc
  | Err _ => UB
  | UB => UB
  | OutOfFuel => OutOfFuel
  end.

Definition handle_generate_ackdata (en : entropy) : list Z := take NTB_PROTO_ACKDATA_SIZE (en_ackdata en).
End crypto.
