(* ===== verification/CryptoSpec.v ===== *)
(** * CryptoSpec: what the tasks of the cryptography thread guarantee (for [Crypto]) *)

From S2P Require Import Prelude Endian Buffer NetAddress OpenSSL Proto ProtoSpec NetText KeyValue Base58 Address Outgoings Ecc Keys HashTable Connection Crypto.

(** ** The text of a message *)

(** What the sender signs and encrypts. *)
Record msg_text := MsgText {
  mt_message_version : Z;
  mt_address_version : Z;
  mt_stream : Z;
  mt_behaviors : Z;
  mt_signing_key : list Z;
  mt_encryption_key : list Z;
  mt_nonce_trials : Z;
  mt_extra_bytes : Z;
  mt_ripe : list Z;
  mt_encoding : Z;
  mt_message : list Z;
  mt_ack : list Z
}.

Definition msg_text_ok (m : msg_text) : Prop :=
  0 <= mt_message_version m < 2 ^ 64 /\ 0 <= mt_address_version m < 2 ^ 64 /\ 0 <= mt_stream m < 2 ^ 64 /\
  0 <= mt_behaviors m < 2 ^ 32 /\ zlen (mt_signing_key m) = 64 /\ zlen (mt_encryption_key m) = 64 /\
  0 <= mt_nonce_trials m < 2 ^ 64 /\ 0 <= mt_extra_bytes m < 2 ^ 64 /\ zlen (mt_ripe m) = 20 /\
  0 <= mt_encoding m < 2 ^ 64.

Definition head_args : list ntb_proto_argument :=
  [NTB_PROTO_ARGUMENT_VAR_INT; NTB_PROTO_ARGUMENT_VAR_INT; NTB_PROTO_ARGUMENT_VAR_INT; NTB_PROTO_ARGUMENT_32].
Definition two_ints : list ntb_proto_argument := [NTB_PROTO_ARGUMENT_VAR_INT; NTB_PROTO_ARGUMENT_VAR_INT].

Definition head_text (m : msg_text) : list Z :=
  enc_arguments 0 head_args (mt_message_version m, (mt_address_version m, (mt_stream m, (mt_behaviors m, tt)))).
(** Keys of version 3 and later demand their own difficulty. *)
Definition difficulty_text (m : msg_text) : list Z :=
  if 3 <=? mt_address_version m then enc_arguments 0 two_ints (mt_nonce_trials m, (mt_extra_bytes m, tt)) else [].
Definition body_text (m : msg_text) : list Z := enc_arguments 0 two_ints (mt_encoding m, (zlen (mt_message m), tt)).

Definition signed_text (m : msg_text) : list Z :=
  head_text m ++ (mt_signing_key m ++ mt_encryption_key m) ++ difficulty_text m ++ mt_ripe m ++ body_text m ++ mt_message m ++
  enc_var_int (zlen (mt_ack m)) ++ mt_ack m.

Definition msg_difficulty (m : msg_text) : Z * Z :=
  if 3 <=? mt_address_version m then (mt_nonce_trials m, mt_extra_bytes m)
  else (NTB_PROTO_MIN_NONCE_TRIALS_PER_BYTE, NTB_PROTO_MIN_EXTRA_BYTES).

(** A pointer and a length that are not at the end wrap nowhere. *)
Lemma advance_zlen p q n L : n = zlen p -> L = zlen p + zlen q -> L < 2 ^ 31 -> advance (p ++ q, L) n = (q, zlen q).
Proof. intros -> -> Hl. zlen_pose. rewrite advance_app by lia. f_equal. lia. Qed.

Lemma advance_to d p q n : d = p ++ q -> n = zlen p -> zlen d < 2 ^ 31 -> advance (d, zlen d) n = (q, zlen q).
Proof. intros -> -> Hl. apply advance_zlen; [done|apply zlen_app|by rewrite zlen_app in *]. Qed.

Lemma head_roundtrip m q L :
  msg_text_ok m -> zlen (head_text m) <= L < 2 ^ 31 ->
  ntb_proto_get_command head_args (head_text m ++ q) L =
  Ok ((mt_message_version m, (mt_address_version m, (mt_stream m, (mt_behaviors m, tt)))), zlen (head_text m)).
Proof.
  intros (Hv & Hav & Hs & Hb & _) Hl.
  apply (command_roundtrip 0 head_args (mt_message_version m, (mt_address_version m, (mt_stream m, (mt_behaviors m, tt))))); [done|exact Hl].
Qed.
Lemma two_ints_roundtrip d a b q :
  d = enc_arguments 0 two_ints (a, (b, tt)) ++ q -> 0 <= a < 2 ^ 64 -> 0 <= b < 2 ^ 64 -> zlen d < 2 ^ 31 ->
  ntb_proto_get_command two_ints d (zlen d) = Ok ((a, (b, tt)), zlen (enc_arguments 0 two_ints (a, (b, tt)))).
Proof.
  intros -> Ha Hb Hl. apply (command_roundtrip 0 two_ints (a, (b, tt))); [done|]. rewrite zlen_app in *. zlen_pose. lia.
Qed.
Lemma var_int_to d v q :
  d = enc_var_int v ++ q -> 0 <= v < 2 ^ 64 -> zlen d < 2 ^ 31 -> ntb_proto_get_var_int (d, zlen d) = Ok (v, (q, zlen q)).
Proof.
  intros -> Hv Hl. rewrite zlen_app in *. zlen_pose. rewrite var_int_roundtrip by lia. do 3 f_equal. lia.
Qed.

Lemma decrypted_msg_text m sig :
  msg_text_ok m -> zlen (signed_text m) + 9 + zlen sig < 2 ^ 31 ->
  let data := signed_text m ++ enc_var_int (zlen sig) ++ sig in
  exists msg, ntb_proto_get_decrypted_msg data (zlen data) = Ok msg /\
    (exists rest, dm_sender_signing_key msg = mt_signing_key m ++ rest) /\
    (exists rest, dm_sender_encryption_key msg = mt_encryption_key m ++ rest) /\
    dm_sender_address_version msg = mt_address_version m /\ dm_sender_stream_number msg = mt_stream m /\
    (dm_nonce_trials_per_byte msg, dm_extra_bytes msg) = msg_difficulty m /\
    (exists rest, dm_destination_ripe msg = mt_ripe m ++ rest) /\ dm_encoding msg = mt_encoding m /\
    (exists rest, dm_message msg = mt_message m ++ rest) /\ dm_message_length msg = zlen (mt_message m) /\
    (exists rest, dm_ack msg = mt_ack m ++ rest) /\ dm_ack_length msg = zlen (mt_ack m) /\
    dm_sig msg = sig /\ dm_sig_length msg = zlen sig /\ dm_signed_data_length msg = zlen (signed_text m).
Proof.
  intros Hok Hl data. pose proof Hok as (Hv & Hav & Hs & Hb & Hsk & Hek & Hnt & Heb & Hr & Henc).
  pose proof (zlen_enc_var_int (zlen sig)) as Hsz. zlen_pose.
  remember (enc_var_int (zlen sig) ++ sig) as tail eqn:E6.
  remember (enc_var_int (zlen (mt_ack m)) ++ mt_ack m ++ tail) as d5 eqn:E5.
  remember (body_text m ++ mt_message m ++ d5) as d4 eqn:E4. remember (mt_ripe m ++ d4) as d3 eqn:E3.
  remember (difficulty_text m ++ d3) as d2 eqn:E2. remember ((mt_signing_key m ++ mt_encryption_key m) ++ d2) as d1 eqn:E1.
  assert (Ed : data = head_text m ++ d1).
  { unfold data, signed_text. by rewrite E1, E2, E3, E4, E5, <- !app_assoc, E6. }
  assert (Hz : zlen data < 2 ^ 31) by (unfold data; rewrite E6, !zlen_app; lia).
  assert (Hz1 : zlen data = zlen (head_text m) + zlen d1) by (by rewrite Ed, zlen_app).
  assert (Hz2 : zlen d1 = 128 + zlen d2) by (rewrite E1, !zlen_app; lia).
  assert (Hz3 : zlen d2 = zlen (difficulty_text m) + zlen d3) by (rewrite E2, zlen_app; lia).
  assert (Hz4 : zlen d3 = 20 + zlen d4) by (rewrite E3, zlen_app; lia).
  assert (Hz5 : zlen d4 = zlen (body_text m) + (zlen (mt_message m) + zlen d5)) by (rewrite E4, !zlen_app; lia).
  assert (Hz6 : zlen d5 = zlen (enc_var_int (zlen (mt_ack m))) + (zlen (mt_ack m) + zlen tail)) by (rewrite E5, !zlen_app; lia).
  assert (Hz7 : zlen tail = zlen (enc_var_int (zlen sig)) + zlen sig) by (rewrite E6, !zlen_app; lia).
  assert (Hsd : zlen (signed_text m) = zlen data - zlen tail) by (unfold data; rewrite !zlen_app, Hz7; lia).
  zlen_pose. clearbody data. unfold ntb_proto_get_decrypted_msg. fold head_args two_ints.
  remember (zlen data) as L eqn:EL. rewrite Ed. clear Ed EL data.
  rewrite head_roundtrip, bind_ret_l by (done || lia). rewrite (advance_zlen (head_text m) d1) by lia. cbn iota.
  change ((NTB_ECC_PUBLIC_KEY_SIZE - 1) * 2) with 128. rewrite (proj2 (Z.ltb_ge _ 128)) by lia.
  rewrite (advance_to d1 _ d2 128 E1) by (rewrite ?zlen_app; lia). cbn iota.
  match goal with |- context [if 3 <=? mt_address_version m then ?a else ?b] =>
    assert (Hd : (if 3 <=? mt_address_version m then a else b) = Ok (fst (msg_difficulty m), snd (msg_difficulty m), (d3, zlen d3))) end.
  { unfold msg_difficulty, difficulty_text in *. destruct (3 <=? mt_address_version m); cbn [fst snd].
    - rewrite (two_ints_roundtrip d2 _ _ d3 E2), bind_ret_l by (done || lia). by rewrite (advance_to d2 _ d3 _ E2) by (done || lia).
    - by rewrite E2. }
  rewrite Hd, bind_ret_l. cbn iota. change (Z.of_nat RIPEMD160_DIGEST_LENGTH) with 20. rewrite (proj2 (Z.ltb_ge _ 20)) by lia.
  rewrite (advance_to d3 _ d4 20 E3) by lia. cbn iota.
  rewrite (two_ints_roundtrip d4 _ _ _ E4), bind_ret_l by (done || lia). cbn iota. fold (body_text m).
  rewrite (advance_to d4 _ _ _ E4) by (done || lia). cbn iota. rewrite zlen_app, (proj2 (Z.ltb_ge _ (zlen (mt_message m)))) by lia.
  rewrite (advance_zlen (mt_message m) d5) by (done || lia). cbn iota.
  rewrite (var_int_to d5 _ _ E5), bind_ret_l by lia. cbn iota. rewrite zlen_app, (proj2 (Z.ltb_ge _ (zlen (mt_ack m)))) by lia.
  rewrite (advance_zlen (mt_ack m) tail) by lia. cbn iota.
  rewrite (var_int_to tail _ _ E6), bind_ret_l by lia. cbn iota. rewrite Z.eqb_refl. cbn [negb].
  eexists. split; [reflexivity|]. cbn. rewrite <- surjective_pairing. split_and!; try done; try (by eexists).
  - exists (mt_encryption_key m ++ d2). by rewrite E1, app_assoc.
  - exists d2. rewrite E1, <- app_assoc. apply drop_app_length'. apply Nat2Z.inj. unfold zlen in Hsk. rewrite Hsk. vm_compute. reflexivity.
Qed.

Lemma bytes_enc_var_int v : 0 <= v < 2 ^ 64 -> bytes (enc_var_int v).
Proof.
  intros Hv. unfold enc_var_int. repeat case_match; apply bytes_cons; (split; [unfold is_byte; lia|]); auto with ntb.
Qed.

(** ** Writing public keys *)

(** The point is written with its prefix and moved down by one byte. *)
Lemma appends_public_key b oct : zlen oct = NTB_ECC_PUBLIC_KEY_SIZE -> fits b 65 -> appends b (ntb_proto_add_public_key b oct) (drop 1 oct).
Proof.
  unfold NTB_ECC_PUBLIC_KEY_SIZE. intros Hz [Hwf Hf]. pose proof (proj1 (proj2 Hwf)) as Hl0. unfold ntb_proto_add_public_key, NTB_ECC_PUBLIC_KEY_SIZE.
  rewrite u64_small by lia. destruct (ensure_size_spec (E := unit) b (buf_length b + 65)) as (b1 & -> & W1 & L1 & C1 & _ & S1 & _); [done|lia|].
  rewrite bind_ret_l. destruct (buf_write_end (E := unit) b1 oct) as (b2 & -> & W2 & W2' & L2 & S2 & C2 & C2'); [done|lia|]. rewrite bind_ret_l.
  unfold c_assert. rewrite Hz. change (65 =? 65) with true. cbn iota. rewrite bind_ret_l.
  destruct oct as [|x key]; [done|]. rewrite zlen_cons in Hz. cbn [drop]. rewrite drop_0. change (65 - 1) with 64.
  assert (Hk : zlen key = 64) by lia.
  assert (Er : buf_read (E := unit) (add_length b2 (zlen (x :: key))) (buf_length b2 + 1) 64 = Ok key).
  { apply (extends_read b2 (add_length b2 (zlen (x :: key))) [x] key []); rewrite ?app_nil_r, ?zlen_cons, ?zlen_nil; [done| |lia..].
    rewrite zlen_cons in W2', C2'. split; [done|]. split; [|by rewrite C2', C2]. unfold add_length. cbn [buf_length].
    rewrite zlen_app, zlen_cons, zlen_nil. apply u64_small. lia. }
  change (buf_read (E := unit) (add_length b2 (zlen (x :: key)))) with (buf_read (E := unit) b2) in Er. rewrite Er, bind_ret_l.
  destruct (buf_write_end (E := unit) b2 key) as (b3 & -> & W3 & W3' & L3 & S3 & C3 & C3'); [done|lia|]. rewrite bind_ret_l, <- Hk.
  eexists. split_and!; [done|done| |by rewrite C3', C2, C1]. unfold add_length. cbn [buf_length]. rewrite L3, L2, L1. apply u64_small. lia.
Qed.

(** ** Signing and checking *)

Section crypto_spec.
Context `{DigestLaws} `{BigNumLaws} `{!Elliptic} `{!EllipticLaws} `{SymmetricLaws} `{Digest256} `{!Ecdsa} `{!EcdsaLaws}.

(** A key with its private half. *)
Definition key_pair (d : BIGNUM) (k : EC_KEY) : Prop := k = EcKey (Some d) (ec_multiple (bn_val d)) /\ 0 < bn_val d < ec_order.

(** The form in which a key is sent. *)
Definition network_key (k : EC_KEY) : list Z := drop 1 (public_octets k).

Lemma network_key_spec d k : key_pair d k -> zlen (network_key k) = 64 /\ bytes (network_key k) /\ 4 :: network_key k = public_octets k.
Proof.
  intros [-> Hd]. destruct (ec_octets _ Hd) as (Hz & Hb & Hh & _). unfold network_key, public_octets. cbn [EC_KEY_get0_public_key].
  unfold NTB_ECC_PUBLIC_KEY_SIZE in Hz. destruct (EC_POINT_point2oct _) as [|x l]; [discriminate Hz|]. cbn [hd drop] in *. subst x.
  rewrite zlen_cons in Hz. apply bytes_cons in Hb as [_ Hb]. split_and!; [rewrite drop_0; lia|by rewrite drop_0|by rewrite drop_0].
Qed.

Lemma append_signature_spec en b key d data :
  key_pair d (key_signing_key key) -> fits b (2 ^ 20) ->
  exists sig, appends b (append_signature en b key data) (enc_var_int (zlen sig) ++ sig) /\ zlen sig < 2 ^ 16 /\ bytes sig /\
    ECDSA_verify (SHA1 data) sig (EcKey None (ec_multiple (bn_val d))) = 1.
Proof.
  intros [Ek Hd] Hf. destruct (ecdsa_sign_verify d (en_sign en) (SHA1 data) Hd (SHA1_length data) (SHA1_bytes data)) as (sig & Es & Hz & Hb & Hv).
  pose proof (ecdsa_size_range (EcKey (Some d) (ec_multiple (bn_val d)))) as Hsz. exists sig. zlen_pose. split_and!; [|lia|done|done].
  unfold append_signature. rewrite Ek, Es. cbn [need]. rewrite bind_ret_l, (proj2 (Z.ltb_ge _ (zlen sig))) by done.
  pose proof (zlen_enc_var_int (zlen sig)). destruct Hf as [Hwf Hl].
  eapply appends_bind; [apply appends_add_var_int; [lia|split; [done|lia]]|]. intros b1 _ W1 L1. apply appends_append. split; [done|lia].
Qed.

(** The part of a public key that every version has. *)
Definition key_base_text (key : ntb_key) : list Z :=
  be_split 8 (u64 (key_last_pubkey_send_time key)) ++ enc_var_int (addr_version (key_address key)) ++
  enc_var_int (addr_stream (key_address key)) ++ be_split 4 NTB_PROTO_PUBKEY_BEHAVIORS ++
  network_key (key_signing_key key) ++ network_key (key_encryption_key key).

Definition key_ok (key : ntb_key) : Prop :=
  address_wf (key_address key) /\ (exists d, key_pair d (key_signing_key key)) /\ (exists d, key_pair d (key_encryption_key key)).

Lemma public_octets_length d k : key_pair d k -> zlen (public_octets k) = NTB_ECC_PUBLIC_KEY_SIZE.
Proof. intros Hk. destruct (network_key_spec d k Hk) as (Hz & _ & <-). rewrite zlen_cons, Hz. done. Qed.

Lemma append_key_base_spec key b room :
  key_ok key -> ntb_buffer_set_length (E := unit) b (u64 (buf_length b + 8)) = Ok room -> fits room 1024 ->
  exists b' off, append_key_base key b = Ok (b', off) /\ extends room b' (key_base_text key).
Proof.
  intros (Hwf & (ds & Hs) & (de & He)) E [W L]. destruct Hwf as ((Hv & Hv') & (Hst & Hst') & _). unfold append_key_base. rewrite E, bind_ret_l.
  destruct (network_key_spec _ _ Hs) as (Hsz & _), (network_key_spec _ _ He) as (Hez & _).
  pose proof (zlen_enc_var_int (addr_version (key_address key))). pose proof (zlen_enc_var_int (addr_stream (key_address key))).
  destruct (appends_add_64 room (u64 (key_last_pubkey_send_time key))) as (b1 & -> & W1 & L1 & C1); [split; [done|lia]|apply u64_range|]. rewrite bind_ret_l.
  rewrite zlen_be_split in L1.
  destruct (appends_add_var_int b1 (addr_version (key_address key))) as (b2 & -> & W2 & L2 & C2); [lia|split; [done|lia]|]. rewrite bind_ret_l.
  destruct (appends_add_var_int b2 (addr_stream (key_address key))) as (b3 & -> & W3 & L3 & C3); [lia|split; [done|lia]|]. rewrite bind_ret_l.
  destruct (appends_add_32 b3 NTB_PROTO_PUBKEY_BEHAVIORS) as (b4 & -> & W4 & L4 & C4); [split; [done|lia]|unfold NTB_PROTO_PUBKEY_BEHAVIORS; lia|].
  rewrite bind_ret_l. rewrite zlen_be_split in L4.
  destruct (appends_public_key b4 _ (public_octets_length _ _ Hs)) as (b5 & -> & W5 & L5 & C5); [split; [done|lia]|]. rewrite bind_ret_l.
  fold (network_key (key_signing_key key)) in L5, C5.
  destruct (appends_public_key b5 _ (public_octets_length _ _ He)) as (b6 & -> & W6 & L6 & C6); [split; [done|lia]|]. rewrite bind_ret_l.
  fold (network_key (key_encryption_key key)) in L6, C6.
  eexists _, _. split; [reflexivity|]. unfold key_base_text. split_and!; [done|rewrite !zlen_app, !zlen_be_split; lia|].
  by rewrite C6, C5, C4, C3, C2, C1, !fmap_app, <- !app_assoc.
Qed.

Lemma key_base_text_length key : key_ok key -> 140 <= zlen (key_base_text key) <= 160.
Proof.
  intros (_ & (ds & Hs) & (de & He)). destruct (network_key_spec _ _ Hs) as (Hsz & _), (network_key_spec _ _ He) as (Hez & _).
  pose proof (zlen_enc_var_int (addr_version (key_address key))). pose proof (zlen_enc_var_int (addr_stream (key_address key))).
  unfold key_base_text. rewrite !zlen_app, !zlen_be_split.
  zlen_pose. lia.
Qed.

(** Reading a cell that was never written. *)
Lemma buf_read_indeterminate b l1 l2 off n :
  cells b = l1 ++ None :: l2 -> off <= zlen l1 < off + n -> buf_read (E := unit) b off n = UB.
Proof.
  intros Hc Hr. unfold buf_read. destruct (_ && _ && _) eqn:Eb; [|done]. apply andb_true_iff in Eb as [[Eo%Z.leb_le _]%andb_true_iff _].
  assert (Hd : buf_data b = l1 ++ None :: l2 ++ drop (Z.to_nat (buf_length b)) (buf_data b)).
  { rewrite <- (take_drop (Z.to_nat (buf_length b)) (buf_data b)) at 1. fold (cells b). by rewrite Hc, <- app_assoc. }
  set (R := l2 ++ _) in Hd. rewrite Hd. assert (Hn : forall p q : list (option Z), all_some (p ++ None :: q) = None).
  { induction p as [|[x|] p IH]; intros q; cbn; [done|by rewrite IH|done]. }
  rewrite drop_app_le by (unfold zlen in *; lia).
  replace (Z.to_nat n) with (length (drop (Z.to_nat off) l1) + S (Z.to_nat n - S (length (drop (Z.to_nat off) l1))))%nat
    by (rewrite length_drop; unfold zlen in *; lia).
  rewrite take_app_add. cbn [take]. by rewrite Hn.
Qed.

Lemma check_signature_spec ecc d k rest data rest1 sig rest2 :
  key_pair d k -> ECDSA_verify (SHA1 data) sig (EcKey None (ec_multiple (bn_val d))) = 1 ->
  check_signature_for_data ecc (network_key k ++ rest) (data ++ rest1) (zlen data) (sig ++ rest2) (zlen sig) =
  Ok (ecc_set_point (ec_multiple (bn_val d)) ecc, true).
Proof.
  intros Hk Hv. destruct (network_key_spec d k Hk) as (Hz & _ & Eo). destruct Hk as [-> Hd]. destruct (ec_octets _ Hd) as (Hoz & _ & _ & Eoct).
  unfold check_signature_for_data, full_public_key. rewrite (zread_app (zlen data) data), bind_ret_l by done. change (NTB_ECC_PUBLIC_KEY_SIZE - 1) with 64.
  rewrite read_bytes_app, bind_ret_l by (unfold zlen in Hz; lia). change (NTB_ECC_PUBLIC_KEY_SIZE <? 1 + 64) with false. cbn iota. rewrite bind_ret_l.
  unfold public_octets in Eo. cbn [EC_KEY_get0_public_key] in Eo. rewrite Eo. unfold ntb_ecc_create_key_with_public, create_key.
  unfold NTB_ECC_PUBLIC_KEY_SIZE in *. rewrite read_bytes_Ok by (unfold zlen in Hoz; lia). rewrite take_ge by (unfold zlen in Hoz; lia).
  rewrite bind_ret_l, Eoct. cbn [need]. rewrite !bind_ret_l. cbn [ecc_pub_key_point ecc_set_point]. rewrite (zread_app (zlen sig) sig), bind_ret_l by done.
  by rewrite Hv.
Qed.

(** ** Encrypting for every reader *)

Lemma extends_inj b b' l k : extends b b' l -> extends b b' k -> l = k.
Proof. intros (_ & _ & C1) (_ & _ & C2). rewrite C1 in C2. apply app_inv_head in C2. by apply (inj (fmap Some)) in C2. Qed.

Lemma encrypt_decrypt_all random iv d chunks e b :
  private_ok random -> length iv = 16%nat -> bytes iv -> 0 < bn_val d < ec_order ->
  Forall bytes chunks -> zlen (concat chunks) + 16 * zlen chunks < 2 ^ 29 -> fits b (2 ^ 31) ->
  exists e1 b' m,
    ('(e, b) ← ntb_ecc_encrypt_with_point_begin random iv e (ec_multiple (bn_val d)) b;
     '(e, b) ← encrypt_chunks e chunks b;
     ntb_ecc_encrypt_end e b) = Ok (e1, b') /\ extends b b' m /\ zlen m < 2 ^ 30 /\
    forall e' out, fits out (2 ^ 31) -> exists out',
      ntb_ecc_decrypt e' (EcKey (Some d) (ec_multiple (bn_val d))) m (zlen m) out =
        Ok (true, ecc_set_point (ec_multiple (be_combine random)) e', out') /\ extends out out' (concat chunks).
Proof.
  intros Hr Hiv Hib Hd Hc Hz Hf.
  destruct (encrypt_decrypt random iv d chunks [] e e b b Hr Hiv Hib Hd Hc Hz Hf Hf) as (e1 & b' & m & _ & E & Hx & _ & _ & Hz').
  exists e1, b', m. split_and!; [done|done|done|]. intros e' out Hout.
  destruct (encrypt_decrypt random iv d chunks [] e e' b out Hr Hiv Hib Hd Hc Hz Hf Hout) as (e2 & b2 & m2 & out' & E2 & Hx2 & Ed & Ho & _).
  rewrite E in E2. injection E2 as <- <-. rewrite <- (extends_inj _ _ _ _ Hx Hx2), app_nil_r in Ed. by exists out'.
Qed.

(** ** Messages *)

(** The key is tried without success. *)
Definition fails_on (data : list Z) (key : ntb_key) : Prop :=
  ntb_key_has_private key = false \/
  forall ecc b, exists ecc', ntb_ecc_decrypt ecc (key_encryption_key key) data (zlen data) b = Ok (false, ecc', b).

Lemma decrypt_loop_skip keys1 keys2 data b : forall ecc,
  Forall (fails_on data) keys1 -> exists ecc', decrypt_msg_loop (keys1 ++ keys2) data b ecc = decrypt_msg_loop keys2 data b ecc'.
Proof.
  induction keys1 as [|key keys1 IH]; intros ecc Hk; [by exists ecc|]. apply Forall_cons in Hk as [Hkey Hk]. cbn [app decrypt_msg_loop].
  destruct (ntb_key_has_private key) eqn:E; cbn [negb]; [|by apply IH]. destruct Hkey as [?|Hfail]; [congruence|].
  destruct (Hfail ecc b) as [ecc' ->]. rewrite bind_ret_l. cbn iota. replace (Buf (buf_data b) (buf_length b) (buf_size b)) with b by (by destruct b).
  by apply IH.
Qed.

(** The buffer of a blob: the header of [struct ntb_blob]. *)
Lemma dynamic_init_spec : ntb_blob_dynamic_init = Ok (Buf (replicate 16 None) 16 16).
Proof. vm_compute. reflexivity. Qed.
Definition nonce_room : ntb_buffer := Buf (replicate 32 None) 24 32.
Lemma nonce_room_spec : ntb_buffer_set_length (E := unit) (Buf (replicate 16 None) 16 16) (u64 (16 + 8)) = Ok nonce_room.
Proof. vm_compute. reflexivity. Qed.
Lemma nonce_room_fits : fits nonce_room (2 ^ 61).
Proof. vm_compute. repeat split; congruence. Qed.

Lemma all_some_bytes b b' l : extends b b' l -> cells b = replicate 16 None -> blob_bytes (ntb_blob_dynamic_end NTB_PROTO_INV_TYPE_MSG b') = Ok l.
Proof.
  intros (_ & _ & C) C0. unfold blob_bytes, ntb_blob_dynamic_end. cbn [db_cells]. rewrite C, C0.
  change (Z.to_nat blob_data_offset) with (length (replicate 16 (@None Z))). rewrite drop_app_length, all_some_fmap. done.
Qed.

Lemma decrypt_msg_loop_found ecc key keys data text e' d :
  ntb_key_has_private key = true ->
  (forall e out, fits out (2 ^ 31) -> exists out', ntb_ecc_decrypt e (key_encryption_key key) data (zlen data) out = Ok (true, ecc_set_point d e, out') /\
     extends out out' text) ->
  (forall e, check_signature_in_decrypted_msg text e = Ok (e' e, true)) ->
  exists ecc', decrypt_msg_loop (key :: keys) data (Buf (replicate 16 None) 16 16) ecc =
    Ok (ecc', Some (key, DynBlob NTB_PROTO_INV_TYPE_MSG (Some <$> text))).
Proof.
  intros Hp Hd Hs. cbn [decrypt_msg_loop]. rewrite Hp. cbn [negb].
  destruct (Hd ecc (Buf (replicate 16 None) 16 16)) as (out & -> & Hx); [vm_compute; repeat split; congruence|]. rewrite bind_ret_l. cbn iota.
  rewrite (all_some_bytes _ _ _ Hx) by done. rewrite bind_ret_l, Hs, bind_ret_l. eexists. do 3 f_equal.
  unfold ntb_blob_dynamic_end. f_equal. destruct Hx as (_ & _ & ->).
  change (cells (Buf (replicate 16 None) 16 16)) with (replicate 16 (@None Z)).
  change (Z.to_nat blob_data_offset) with (length (replicate 16 (@None Z))). by rewrite drop_app_length.
Qed.

(** What is random is what the functions ask for. *)
Definition entropy_ok (en : entropy) : Prop := private_ok (en_ephemeral en) /\ length (en_iv en) = 16%nat /\ bytes (en_iv en).

(** The two updates around the signature are two pieces of one message. *)
Lemma create_msg_chunks en ecc point b content from sig sb :
  append_signature en ntb_buffer_init from content = Ok sb -> buf_read (E := unit) sb 0 (buf_length sb) = Ok sig ->
  ('(ecc, b) ← ntb_ecc_encrypt_with_point_begin (en_ephemeral en) (en_iv en) ecc point b;
   '(ecc, b) ← ntb_ecc_encrypt_update ecc content b;
   signature ← append_signature en ntb_buffer_init from content;
   signature_data ← buf_read signature 0 (buf_length signature);
   '(ecc, b) ← ntb_ecc_encrypt_update ecc signature_data b;
   '(ecc, b) ← ntb_ecc_encrypt_end ecc b;
   Ok (ecc, ntb_blob_dynamic_end NTB_PROTO_INV_TYPE_MSG b)) =
  '(ecc, b) ← ('(e, b) ← ntb_ecc_encrypt_with_point_begin (en_ephemeral en) (en_iv en) ecc point b;
     '(e, b) ← encrypt_chunks e [content; sig] b;
     ntb_ecc_encrypt_end e b);
  Ok (ecc, ntb_blob_dynamic_end NTB_PROTO_INV_TYPE_MSG b).
Proof.
  intros Es Er. destruct (ntb_ecc_encrypt_with_point_begin _ _ _ _ _) as [[e1 b1]| | |]; [|done..]. rewrite !bind_ret_l. cbn [encrypt_chunks].
  destruct (ntb_ecc_encrypt_update e1 content b1) as [[e2 b2]| | |]; [|done..]. rewrite !bind_ret_l, Es, bind_ret_l, Er, bind_ret_l.
  destruct (ntb_ecc_encrypt_update e2 sig b2) as [[e3 b3]| | |]; [|done..]. rewrite !bind_ret_l.
  by destruct (ntb_ecc_encrypt_end e3 b3) as [[e4 b4]| | |].
Qed.

Lemma dynamic_end_extends type b l : extends nonce_room b l -> ntb_blob_dynamic_end type b = DynBlob type (replicate 8 None ++ (Some <$> l)).
Proof. intros (_ & _ & C). unfold ntb_blob_dynamic_end. by rewrite C. Qed.

Lemma msg_head_spec timestamp stream : 0 <= timestamp < 2 ^ 32 -> 0 <= stream < 2 ^ 64 ->
  exists b1 b2, ntb_proto_add_64 nonce_room (u64 timestamp) = Ok b1 /\ ntb_proto_add_var_int b1 stream = Ok b2 /\
    extends nonce_room b2 (be_split 8 timestamp ++ enc_var_int stream) /\ fits b2 (2 ^ 32).
Proof.
  intros Ht Hs. rewrite (u64_small timestamp) by lia. pose proof (zlen_enc_var_int stream) as Hz. pose proof nonce_room_fits as [W0 L0].
  destruct (appends_add_64 nonce_room timestamp) as (b1 & E1 & W1 & L1 & C1); [split; [done|cbn; lia]|lia|]. rewrite zlen_be_split in L1.
  destruct (appends_add_var_int b1 stream) as (b2 & E2 & W2 & L2 & C2); [done|split; [done|cbn in *; lia]|].
  exists b1, b2. split_and!; [done|done| |split; [done|cbn in *; lia]]. apply (extends_trans _ b1); split_and!; done.
Qed.

Lemma decrypt_header nonce timestamp stream rest :
  length nonce = 8%nat -> bytes nonce -> 0 <= timestamp < 2 ^ 32 -> 0 <= stream < 2 ^ 64 ->
  zlen (nonce ++ be_split 8 timestamp ++ enc_var_int stream ++ rest) < 2 ^ 31 ->
  exists vs, ntb_proto_get_command [NTB_PROTO_ARGUMENT_64; NTB_PROTO_ARGUMENT_TIMESTAMP; NTB_PROTO_ARGUMENT_VAR_INT]
    (nonce ++ be_split 8 timestamp ++ enc_var_int stream ++ rest) (zlen (nonce ++ be_split 8 timestamp ++ enc_var_int stream ++ rest)) =
  Ok (vs, zlen (nonce ++ be_split 8 timestamp ++ enc_var_int stream)).
Proof.
  intros Hn Hb Ht Hs Hl. pose proof (be_combine_range nonce Hb) as Hr. unfold zlen in Hr. rewrite Hn in Hr. change (256 ^ Z.of_nat 8) with (2 ^ 64) in Hr.
  assert (En : nonce = be_split 8 (be_combine nonce)) by (rewrite <- Hn; symmetry; by apply be_split_combine). eexists.
  pose proof (command_roundtrip timestamp [NTB_PROTO_ARGUMENT_64; NTB_PROTO_ARGUMENT_TIMESTAMP; NTB_PROTO_ARGUMENT_VAR_INT]
    (be_combine nonce, (tt, (stream, tt))) rest) as Hc. cbn [enc_arguments enc_argument fst snd args_ok arg_ok] in Hc. rewrite <- En in Hc.
  rewrite app_nil_r in Hc. rewrite <- !app_assoc in Hc. apply Hc; [done|]. rewrite !zlen_app in *. zlen_pose. lia.
Qed.

Lemma msg_roundtrip_core en timestamp from to ds de m ecc :
  entropy_ok en -> 0 <= timestamp < 2 ^ 32 -> 0 <= addr_stream (key_address to) < 2 ^ 64 ->
  key_pair ds (key_signing_key from) -> key_pair de (key_encryption_key to) -> ntb_key_has_private to = true ->
  msg_text_ok m -> mt_signing_key m = network_key (key_signing_key from) -> bytes (signed_text m) -> zlen (signed_text m) < 2 ^ 28 ->
  exists ecc1 cipher sig, zlen sig < 2 ^ 16 /\
    handle_create_msg_blob en timestamp from to (signed_text m) ecc =
      Ok (ecc1, DynBlob NTB_PROTO_INV_TYPE_MSG (replicate 8 None ++
        (Some <$> be_split 8 timestamp ++ enc_var_int (addr_stream (key_address to)) ++ cipher))) /\
    forall nonce keys1 keys2 ecc2, length nonce = 8%nat -> bytes nonce -> Forall (fails_on cipher) keys1 ->
      exists ecc3, handle_decrypt_msg (keys1 ++ to :: keys2)
        (nonce ++ be_split 8 timestamp ++ enc_var_int (addr_stream (key_address to)) ++ cipher) ecc2 =
      Ok (ecc3, Some (to, DynBlob NTB_PROTO_INV_TYPE_MSG (Some <$> signed_text m ++ enc_var_int (zlen sig) ++ sig))).
Proof.
  intros (He & Hiv & Hivb) Ht Hst Hs [Ede Hde] Hp Hm Esk Hb Hz. set (content := signed_text m) in *.
  destruct (append_signature_spec en ntb_buffer_init from ds content Hs) as (sig & (sb & Esb & Wsb & Lsb & Csb) & Hsz & Hsb & Hv); [vm_compute; repeat split; congruence|].
  set (sigdata := enc_var_int (zlen sig) ++ sig) in *. pose proof (zlen_enc_var_int (zlen sig)) as Hvz. zlen_pose.
  assert (Hsd : zlen sigdata < 2 ^ 17) by (unfold sigdata; rewrite zlen_app; lia).
  assert (Er : buf_read (E := unit) sb 0 (buf_length sb) = Ok sigdata).
  { apply (extends_read ntb_buffer_init sb [] sigdata []); rewrite ?app_nil_r; done. }
  destruct (msg_head_spec timestamp _ Ht Hst) as (b1 & b2 & E1 & E2 & X2 & F2).
  destruct (encrypt_decrypt_all (en_ephemeral en) (en_iv en) de [content; sigdata] ecc b2 He Hiv Hivb Hde) as (ecc1 & b3 & cipher & E3 & X3 & Hcz & Hdec).
  { constructor; [done|constructor; [|constructor]]. unfold sigdata. apply bytes_app. split; [apply bytes_enc_var_int; lia|done]. }
  { cbn [concat]. rewrite !zlen_app, !zlen_cons, ?zlen_nil. change (zlen (@nil (list Z))) with 0. lia. }
  { destruct F2. split; [done|lia]. }
  exists ecc1, cipher, sig. split; [lia|]. split.
  - unfold handle_create_msg_blob. rewrite dynamic_init_spec, bind_ret_l. cbn [buf_length]. rewrite nonce_room_spec, bind_ret_l, E1, bind_ret_l, E2, bind_ret_l.
    rewrite Ede. cbn [EC_KEY_get0_public_key]. rewrite (create_msg_chunks _ _ _ _ _ _ sigdata sb Esb Er), E3, bind_ret_l.
    rewrite (dynamic_end_extends _ b3 _ (extends_trans _ _ _ _ _ X2 X3)), <- app_assoc. done.
  - intros nonce keys1 keys2 ecc2 Hn Hnb Hk. unfold handle_decrypt_msg.
    destruct (decrypt_header nonce timestamp (addr_stream (key_address to)) cipher Hn Hnb Ht Hst) as (vs & ->).
    { pose proof (zlen_enc_var_int (addr_stream (key_address to))). rewrite !zlen_app, zlen_be_split. unfold zlen at 1. lia. }
    rewrite dynamic_init_spec, bind_ret_l.
    replace (drop _ _) with cipher by (symmetry; rewrite !app_assoc; by apply zdrop_app).
    destruct (decrypt_loop_skip keys1 (to :: keys2) cipher (Buf (replicate 16 None) 16 16) ecc2 Hk) as (ecc3 & ->).
    apply (decrypt_msg_loop_found ecc3 to keys2 cipher (content ++ sigdata) (ecc_set_point (ec_multiple (bn_val ds))) (ec_multiple (be_combine (en_ephemeral en)))); [done| |].
    + intros e out Hout. destruct (Hdec e out Hout) as (out' & E & Hx). rewrite Ede. cbn [concat] in Hx. rewrite app_nil_r in Hx. by exists out'.
    + intros e. unfold check_signature_in_decrypted_msg.
      destruct (decrypted_msg_text m sig Hm) as (msg & Eg & (rest & Esk') & _ & _ & _ & _ & _ & _ & _ & _ & _ & _ & Esig & Esl & Esd); [fold content; lia|].
      fold content in Eg, Esd. fold sigdata in Eg. rewrite Eg, Esk', Esk, Esig, Esl, Esd, <- (app_nil_r sig) at 1.
      by apply (check_signature_spec e ds).
Qed.

(** ** Only signed messages are reported *)

(** The signature of [data] is one of the given key. *)
Definition signed_by (network_public_key data sig : list Z) : Prop :=
  exists point, EC_POINT_oct2point (4 :: network_public_key) = Some point /\ ECDSA_verify (SHA1 data) sig (EcKey None point) = 1.

Lemma zread_inv n p l : zread n p = Ok l -> l = take (Z.to_nat n) p.
Proof. unfold zread. case_match; [|done]. by intros [= <-]. Qed.
Lemma full_key_inv nk l : full_public_key nk (NTB_ECC_PUBLIC_KEY_SIZE - 1) = Ok l -> l = 4 :: take 64 nk /\ zlen nk >= 64.
Proof.
  unfold full_public_key, read_bytes. change (Z.to_nat (NTB_ECC_PUBLIC_KEY_SIZE - 1)) with 64%nat. destruct (decide _) as [Hl|]; [|done].
  rewrite bind_ret_l. intros [= <-]. split; [done|]. unfold zlen. lia.
Qed.
Lemma create_public_inv e pk e' k :
  ntb_ecc_create_key_with_public e None pk = Ok (e', k) ->
  exists point, EC_POINT_oct2point (take 65 pk) = Some point /\ k = EcKey None point.
Proof.
  unfold ntb_ecc_create_key_with_public, create_key. intros (oct & E1 & E)%bind_Ok. apply bind_Ok in E as (point & E2 & E).
  cbn in E. injection E as _ <-. exists point. split; [|done]. unfold read_bytes in E1. destruct (decide _); [|done]. injection E1 as <-.
  change (Z.to_nat NTB_ECC_PUBLIC_KEY_SIZE) with 65%nat in E2. destruct (EC_POINT_oct2point _); [|done]. by injection E2 as ->.
Qed.

Lemma check_signature_inv ecc nk data n sig sn ecc' :
  check_signature_for_data ecc nk data n sig sn = Ok (ecc', true) ->
  zlen nk >= 64 /\ signed_by (take 64 nk) (take (Z.to_nat n) data) (take (Z.to_nat sn) sig).
Proof.
  unfold check_signature_for_data. intros (text & ->%zread_inv & E)%bind_Ok. apply bind_Ok in E as (pk & [-> Hl]%full_key_inv & E).
  apply bind_Ok in E as ([e k] & (point & Ep & ->)%create_public_inv & E). apply bind_Ok in E as (sg & ->%zread_inv & E).
  injection E as _ Hv%Z.eqb_eq. split; [done|]. exists point. split; [|done].
  rewrite take_ge in Ep; [done|]. cbn [length]. rewrite length_take. unfold zlen in Hl. lia.
Qed.

Lemma blob_bytes_inv blob text : blob_bytes blob = Ok text -> db_cells blob = Some <$> text.
Proof.
  unfold blob_bytes. destruct (all_some (db_cells blob)) as [l|] eqn:E; [|done]. cbn [need]. intros [= <-].
  revert l E. induction (db_cells blob) as [|[x|] cs IH]; intros l E; cbn in E; try done; [by injection E as <-|].
  destruct (all_some cs) as [l'|]; [|done]. injection E as <-. cbn. by rewrite <- IH.
Qed.

Lemma decrypt_loop_signed keys data b : forall ecc ecc' key result,
  decrypt_msg_loop keys data b ecc = Ok (ecc', Some (key, result)) ->
  key ∈ keys /\ ntb_key_has_private key = true /\ exists text msg, db_cells result = Some <$> text /\
    ntb_proto_get_decrypted_msg text (zlen text) = Ok msg /\
    signed_by (take 64 (dm_sender_signing_key msg)) (take (Z.to_nat (dm_signed_data_length msg)) text)
      (take (Z.to_nat (dm_sig_length msg)) (dm_sig msg)).
Proof.
  revert b. induction keys as [|k keys IH]; intros b ecc ecc' key result; cbn [decrypt_msg_loop]; [done|].
  destruct (ntb_key_has_private k) eqn:Ep; cbn [negb]; [|intros E; destruct (IH _ _ _ _ _ E) as (? & ?); split; [by right|done]].
  intros ([[[|] e1] b1] & _ & E)%bind_Ok; cbn iota in E; [|destruct (IH _ _ _ _ _ E) as (? & ?); split; [by right|done]].
  apply bind_Ok in E as (text & Et & E). apply bind_Ok in E as ([e2 [|]] & Ec & E); [|done]. injection E as _ <- <-.
  split; [by left|]. split; [done|]. unfold check_signature_in_decrypted_msg in Ec.
  destruct (ntb_proto_get_decrypted_msg text (zlen text)) as [msg| | |] eqn:Eg; [|done..]. exists text, msg.
  split_and!; [by apply blob_bytes_inv|done|]. by apply check_signature_inv in Ec as [_ ?].
Qed.

(** ** New keys *)

(** The zero bytes at the start of a digest. *)
Fixpoint leading_zero_bytes (l : list Z) : Z :=
  match l with 0 :: l => 1 + leading_zero_bytes l | _ => 0 end.

Lemma count_zeroes_spec l : forall fuel skipped,
  (length l < fuel)%nat -> zlen skipped + zlen l = Z.of_nat RIPEMD160_DIGEST_LENGTH -> Exists (.≠ 0) l ->
  count_zeroes fuel (skipped ++ l) (zlen skipped) = Ok (zlen skipped + leading_zero_bytes l).
Proof.
  induction l as [|x l IH]; intros fuel skipped Hf Hz Hx; [by inversion Hx|]. destruct fuel as [|fuel]; [cbn in Hf; lia|].
  cbn [count_zeroes]. rewrite zdrop_app by done. cbn [deref]. rewrite bind_ret_l. rewrite zlen_cons in Hz. zlen_pose.
  rewrite (proj2 (Z.ltb_lt _ _)) by lia. rewrite andb_true_r. destruct (Z.eqb_spec x 0) as [->|Hne].
  - rewrite cons_middle, app_assoc. replace (zlen skipped + 1) with (zlen (skipped ++ [0])) by (rewrite zlen_app, zlen_cons, zlen_nil; lia).
    apply Exists_cons in Hx as [?|Hx]; [done|]. rewrite IH; [|cbn in Hf; lia|rewrite zlen_app, zlen_cons, zlen_nil; lia|done].
    f_equal. rewrite zlen_app, zlen_cons, zlen_nil. cbn [leading_zero_bytes]. lia.
  - f_equal. destruct x; [done|cbn; lia..].
Qed.

Lemma count_leading_zeroes_spec ripe :
  length ripe = RIPEMD160_DIGEST_LENGTH -> Exists (.≠ 0) ripe -> count_leading_zeroes ripe = Ok (leading_zero_bytes ripe).
Proof.
  intros Hl Hx. unfold count_leading_zeroes. change 0 with (zlen (@nil Z)) at 1. change ripe with ([] ++ ripe) at 1.
  rewrite count_zeroes_spec; [done|rewrite Hl; unfold RIPEMD160_DIGEST_LENGTH; lia|unfold zlen at 2; by rewrite Hl|done].
Qed.

(** An address of zeroes only: the byte behind the digest is read. *)
Lemma count_leading_zeroes_overread : count_leading_zeroes (replicate RIPEMD160_DIGEST_LENGTH 0) = UB.
Proof. vm_compute. reflexivity. Qed.

(** The octets of the public key of a draw. *)
Definition draw_octets (draw : list Z) : list Z := EC_POINT_point2oct (ec_multiple (be_combine draw)).
Definition draw_ripe (signing encryption : list Z) : list Z := RIPEMD160 (SHA512 (draw_octets signing ++ draw_octets encryption)).
Definition draw_key (draw : list Z) : EC_KEY := EcKey (Some (BN_bin2bn draw)) (ec_multiple (be_combine draw)).

Lemma draw_octets_spec draw : private_ok draw ->
  length (draw_octets draw) = 65%nat /\ EC_POINT_oct2point (draw_octets draw) = Some (ec_multiple (be_combine draw)).
Proof. intros (_ & _ & Hd). destruct (ec_octets _ Hd) as (Hz & _ & _ & E). split; [|done]. unfold zlen, NTB_ECC_PUBLIC_KEY_SIZE in Hz. unfold draw_octets. lia. Qed.

Lemma make_pub_key_bin_spec e draw : private_ok draw ->
  ntb_ecc_make_pub_key_bin e draw = Ok (ecc_set_point (ec_multiple (be_combine draw)) e, draw_octets draw).
Proof.
  intros Hp. destruct (draw_octets_spec draw Hp) as [Hz _]. destruct Hp as (Hl & Hb & Hd). unfold ntb_ecc_make_pub_key_bin, make_pub_key_in_point.
  rewrite read_bytes_Ok by lia. rewrite take_ge by lia. rewrite bind_ret_l, ec_mul_val by by rewrite bn_bin2bn_val. cbn [need].
  rewrite bind_ret_l, bn_bin2bn_val by done. unfold pub_key_octets, draw_octets, c_assert, zlen in *. rewrite Hz. change (Z.of_nat 65 =? NTB_ECC_PUBLIC_KEY_SIZE) with true.
  cbn iota. by rewrite !bind_ret_l.
Qed.

Lemma create_public_spec e signing draw : private_ok draw -> length signing = NTB_ECC_PRIVATE_KEY_SIZE ->
  ntb_ecc_create_key_with_public e (Some signing) (draw_octets draw) =
  Ok (ecc_set_point (ec_multiple (be_combine draw)) e, EcKey (Some (BN_bin2bn signing)) (ec_multiple (be_combine draw))).
Proof.
  intros Hp Hl. destruct (draw_octets_spec draw Hp) as [Hz E]. unfold ntb_ecc_create_key_with_public, create_key.
  change (Z.to_nat NTB_ECC_PUBLIC_KEY_SIZE) with 65%nat. rewrite (read_bytes_Ok 65), (take_ge (draw_octets draw)) by lia. rewrite bind_ret_l, E. cbn [need].
  rewrite bind_ret_l, (read_bytes_Ok NTB_ECC_PRIVATE_KEY_SIZE), (take_ge signing) by lia. by rewrite !bind_ret_l.
Qed.

Lemma create_key_loop_spec signing n skipped draw rest : forall ecc,
  Forall private_ok (skipped ++ [draw]) -> Forall (fun d => Exists (.≠ 0) (draw_ripe signing d)) (skipped ++ [draw]) ->
  Forall (fun d => leading_zero_bytes (draw_ripe signing d) < n) skipped -> n <= leading_zero_bytes (draw_ripe signing draw) ->
  exists ecc', create_key_loop (skipped ++ draw :: rest) (draw_octets signing) n ecc = Ok (ecc', draw, draw_octets draw, draw_ripe signing draw).
Proof.
  induction skipped as [|d skipped IH]; intros ecc Hp Hx Hs Hn; cbn [app create_key_loop] in *.
  - apply Forall_cons in Hp as [Hp _]. apply Forall_cons in Hx as [Hx _]. rewrite make_pub_key_bin_spec, bind_ret_l by done. fold (draw_ripe signing draw).
    rewrite count_leading_zeroes_spec, bind_ret_l by (done || apply RIPEMD160_length). rewrite (proj2 (Z.ltb_ge _ _)) by done. by eexists.
  - apply Forall_cons in Hp as [Hp Hps]. apply Forall_cons in Hx as [Hx Hxs]. apply Forall_cons in Hs as [Hs Hss].
    rewrite make_pub_key_bin_spec, bind_ret_l by done. fold (draw_ripe signing d).
    rewrite count_leading_zeroes_spec, bind_ret_l by (done || apply RIPEMD160_length). rewrite (proj2 (Z.ltb_lt _ _)) by done. by apply IH.
Qed.

Lemma has_flag_lor params flags flag : has_flag params flag = true \/ negb (Z.land flags flag =? 0) = true ->
  negb (Z.land (Z.lor (kp_flags params) flags) flag =? 0) = true.
Proof.
  unfold has_flag. rewrite !negb_true_iff, !Z.eqb_neq, Z.land_lor_distr_l. intros Hf Hz. apply Z.lor_eq_0_iff in Hz. tauto.
Qed.

(** The version and the stream that the parameters ask for. *)
Definition asked_version (params : ntb_key_params) : Z := if has_flag params NTB_KEY_PARAM_VERSION then u8 (kp_version params) else 4.
Definition asked_stream (params : ntb_key_params) : Z := if has_flag params NTB_KEY_PARAM_STREAM then u8 (kp_stream params) else 1.

Definition generated_flags : Z := Z.lor (Z.lor NTB_KEY_PARAM_RIPE NTB_KEY_PARAM_PRIVATE_KEYS) NTB_KEY_PARAM_PUBLIC_KEYS.

Lemma flag_other flags flag : Z.land generated_flags flag = 0 -> Z.land (Z.lor flags generated_flags) flag = Z.land flags flag.
Proof. intros E. by rewrite Z.land_lor_distr_l, E, Z.lor_0_r. Qed.

Lemma key_new_generated ecc params signing draw :
  private_ok signing -> private_ok draw ->
  exists ecc' key, ntb_key_new ecc (KeyParams (Z.lor (kp_flags params) generated_flags) (kp_label params) (kp_version params) (kp_stream params)
    signing draw (draw_octets signing) (draw_octets draw) (kp_nonce_trials_per_byte params) (kp_payload_length_extra_bytes params)
    (draw_ripe signing draw) (kp_last_pubkey_send_time params) (kp_enabled params) (kp_decoy params)) = Ok (ecc', key) /\
  key_address key = Address (asked_version params) (asked_stream params) (draw_ripe signing draw) /\
  key_signing_key key = draw_key signing /\ key_encryption_key key = draw_key draw /\ address_wf (key_address key).
Proof.
  intros Hs Hd. unfold ntb_key_new. set (p := KeyParams _ _ _ _ _ _ _ _ _ _ _ _ _ _).
  assert (Hf : forall flag, negb (Z.land generated_flags flag =? 0) = true -> has_flag p flag = true)
    by (intros flag E; apply has_flag_lor; by right).
  assert (Ho : forall flag, Z.land generated_flags flag = 0 -> has_flag p flag = has_flag params flag)
    by (intros flag E; unfold has_flag, p; cbn [kp_flags]; by rewrite flag_other).
  rewrite (Hf (Z.lor NTB_KEY_PARAM_PRIVATE_KEYS NTB_KEY_PARAM_PUBLIC_KEYS)), (Hf NTB_KEY_PARAM_PRIVATE_KEYS), (Hf NTB_KEY_PARAM_PUBLIC_KEYS), (Hf NTB_KEY_PARAM_RIPE) by reflexivity. unfold c_assert. rewrite bind_ret_l. rewrite !Ho by reflexivity.
  fold (asked_version params) (asked_stream params).
  destruct (if has_flag params NTB_KEY_PARAM_POW_DIFFICULTY then _ else _) as [trials extra].
  cbn [kp_private_signing_key kp_private_encryption_key kp_public_signing_key kp_public_encryption_key kp_version kp_stream kp_ripe p].
  rewrite create_public_spec, bind_ret_l by (done || apply Hs). rewrite create_public_spec, !bind_ret_l by (done || apply Hd).
  unfold draw_ripe at 1. rewrite read_bytes_Ok by (rewrite RIPEMD160_length; lia). rewrite take_ge by (rewrite RIPEMD160_length; lia).
  rewrite bind_ret_l. fold (draw_ripe signing draw).
  change (if has_flag params NTB_KEY_PARAM_VERSION then u8 (kp_version params) else 4) with (asked_version params).
  change (if has_flag params NTB_KEY_PARAM_STREAM then u8 (kp_stream params) else 1) with (asked_stream params).
  assert (Hwf : address_wf (Address (asked_version params) (asked_stream params) (draw_ripe signing draw))).
  { split_and!; cbn [addr_version addr_stream addr_ripe]; [..|apply RIPEMD160_length|apply RIPEMD160_bytes];
      unfold asked_version, asked_stream, is_byte, u8; case_match; lia || apply Z.mod_pos_bound; lia. }
  destruct (address_get_tag_spec _ Hwf) as (tag & tag_key & -> & _). rewrite bind_ret_l. by eexists _, _.
Qed.

Lemma create_key_spec_core en params n ecc signing skipped draw rest :
  en_keys en = signing :: skipped ++ draw :: rest -> asked_version params <> 0 ->
  private_ok signing -> Forall private_ok (skipped ++ [draw]) ->
  Forall (fun d => Exists (.≠ 0) (draw_ripe signing d)) (skipped ++ [draw]) ->
  Forall (fun d => leading_zero_bytes (draw_ripe signing d) < n) skipped -> n <= leading_zero_bytes (draw_ripe signing draw) ->
  exists ecc' key, handle_create_key en params n ecc = Ok (ecc', key) /\
    key_address key = Address (asked_version params) (asked_stream params) (draw_ripe signing draw) /\
    key_signing_key key = draw_key signing /\ key_encryption_key key = draw_key draw.
Proof.
  intros Een Hv Hs Hp Hx Hl Hn. unfold handle_create_key. rewrite Een, make_pub_key_bin_spec, bind_ret_l by done.
  destruct (create_key_loop_spec signing n skipped draw rest (ecc_set_point (ec_multiple (be_combine signing)) ecc)) as (ecc1 & ->); [done..|].
  rewrite bind_ret_l. assert (Hd : private_ok draw) by (apply Forall_app in Hp as [_ Hd]; by apply Forall_cons in Hd as [? _]).
  destruct (key_new_generated ecc1 params signing draw Hs Hd) as (ecc2 & key & E & Ea & Es & Ee & Hwf).
  replace (Z.lor (Z.lor (Z.lor (kp_flags params) _) _) _) with (Z.lor (kp_flags params) generated_flags) by (unfold generated_flags; by rewrite !Z.lor_assoc).
  rewrite E, bind_ret_l. destruct (address_roundtrip_core (key_address key) Hwf) as (text & -> & _ & Hz); [by rewrite Ea|].
  rewrite bind_ret_l, (proj2 (Z.ltb_ge _ _)) by done. by exists ecc2, key.
Qed.

(** ** Public keys of version 3 *)

(** The signature of a public key of version 3 is computed from the second half of the
    header of [struct ntb_blob], whose [size] is not set yet, and the room of the
    nonce: indeterminate bytes. *)
Lemma create_v3_key_indeterminate en key : key_ok key -> create_v3_key en key = UB.
Proof.
  intros Hk. unfold create_v3_key. rewrite dynamic_init_spec, bind_ret_l. unfold append_v34_key_base.
  destruct (append_key_base_spec key (Buf (replicate 16 None) 16 16) nonce_room Hk nonce_room_spec) as (b1 & off & -> & W1 & L1 & C1).
  { pose proof nonce_room_fits as [? Hf]. split; [done|lia]. }
  pose proof (key_base_text_length key Hk) as Hz. change (buf_length nonce_room) with 24 in L1. zlen_pose.
  rewrite bind_ret_l. destruct (appends_add_var_int b1 (u64 (key_nonce_trials_per_byte key))) as (b2 & -> & W2 & L2 & C2); [apply u64_range|split; [done|lia]|].
  pose proof (zlen_enc_var_int (u64 (key_nonce_trials_per_byte key))). pose proof (zlen_enc_var_int (u64 (key_payload_length_extra_bytes key))).
  rewrite bind_ret_l. destruct (appends_add_var_int b2 (u64 (key_payload_length_extra_bytes key))) as (b3 & -> & W3 & L3 & C3); [apply u64_range|split; [done|lia]|].
  rewrite bind_ret_l. rewrite C2, C1 in C3. change (cells nonce_room) with (replicate 8 None ++ None :: replicate 15 (@None Z)) in C3.
  rewrite <- !app_assoc in C3. rewrite (buf_read_indeterminate b3 (replicate 8 None) _ 8 _ C3); [done|].
  change (zlen (replicate 8 (@None Z))) with 8. zlen_pose. lia.
Qed.
End crypto_spec.

(** ** The laws can hold *)

#[local] Instance Ecdsa_toy : @Ecdsa BigNum_N Elliptic_toy := {|
  SHA1 := toy_digest SHA_DIGEST_LENGTH;
  ECDSA_size _ := 72;
  ECDSA_sign _ digest _ := Some digest;
  ECDSA_verify digest sig _ := if bytes_eqb digest sig then 1 else 0
|}.
#[local] Instance EcdsaLaws_toy : @EcdsaLaws BigNum_N Elliptic_toy BigNumLaws_N EllipticLaws_toy Ecdsa_toy.
Proof.
  constructor.
  - intros l. exact (length_be_split _ _).
  - intros l. exact (bytes_be_split _ _).
  - intros k. cbn. lia.
  - intros d random digest Hd Hl Hb. exists digest. cbn [ECDSA_sign ECDSA_size ECDSA_verify Ecdsa_toy]. rewrite bytes_eqb_refl.
    split_and!; [done|unfold zlen; rewrite Hl; unfold SHA_DIGEST_LENGTH; lia|done|done].
Qed.

(** ** Properties *)

(** C26: a message that is created for a key with some content reaches its reader:
    however the nonce in front of it is filled in, among any keys the one it was
    created for decrypts it, unless an earlier key does, the signature that was added
    is verified, and what is reported is the content followed by the signature. *)
Theorem msg_roundtrip `{DigestLaws} `{BigNumLaws} `{!Elliptic} `{!EllipticLaws} `{SymmetricLaws} `{Digest256} `{!Ecdsa} `{!EcdsaLaws}
    en timestamp from to ds de m ecc :
  entropy_ok en -> 0 <= timestamp < 2 ^ 32 -> 0 <= addr_stream (key_address to) < 2 ^ 64 ->
  key_pair ds (key_signing_key from) -> key_pair de (key_encryption_key to) -> ntb_key_has_private to = true ->
  msg_text_ok m -> mt_signing_key m = network_key (key_signing_key from) -> bytes (signed_text m) -> zlen (signed_text m) < 2 ^ 28 ->
  exists ecc1 cipher sig, zlen sig < 2 ^ 16 /\
    handle_create_msg_blob en timestamp from to (signed_text m) ecc =
      Ok (ecc1, DynBlob NTB_PROTO_INV_TYPE_MSG (replicate 8 None ++
        (Some <$> be_split 8 timestamp ++ enc_var_int (addr_stream (key_address to)) ++ cipher))) /\
    forall nonce keys1 keys2 ecc2, length nonce = 8%nat -> bytes nonce -> Forall (fails_on cipher) keys1 ->
      exists ecc3, handle_decrypt_msg (keys1 ++ to :: keys2)
        (nonce ++ be_split 8 timestamp ++ enc_var_int (addr_stream (key_address to)) ++ cipher) ecc2 =
      Ok (ecc3, Some (to, DynBlob NTB_PROTO_INV_TYPE_MSG (Some <$> signed_text m ++ enc_var_int (zlen sig) ++ sig))).
Proof. apply msg_roundtrip_core. Qed.

(** C25: only signed messages are reported: whatever object arrives, a message that
    is reported was decrypted with one of the given private keys, parses, and carries
    a signature of its signed part that is verified with the sender's key in it. *)
Theorem decrypted_msg_signed `{Digests} `{BigNum} `{!Elliptic} `{Symmetric} `{Digest256} `{!Ecdsa} keys blob ecc ecc' key result :
  handle_decrypt_msg keys blob ecc = Ok (ecc', Some (key, result)) ->
  key ∈ keys /\ ntb_key_has_private key = true /\ exists text msg, db_cells result = Some <$> text /\
    ntb_proto_get_decrypted_msg text (zlen text) = Ok msg /\
    signed_by (take 64 (dm_sender_signing_key msg)) (take (Z.to_nat (dm_signed_data_length msg)) text)
      (take (Z.to_nat (dm_sig_length msg)) (dm_sig msg)).
Proof.
  unfold handle_decrypt_msg. destruct (ntb_proto_get_command _ _ _) as [[vs n]| | |]; try done.
  intros (b & _ & E)%bind_Ok. by eapply decrypt_loop_signed.
Qed.

(** Creating a key ends with the first draw whose address has enough leading
    zero bytes, and the key has the two halves that were drawn, the address of the
    asked version and stream and that digest. *)
Theorem handle_create_key_spec `{DigestLaws} `{BigNumLaws} `{!Elliptic} `{!EllipticLaws} `{SymmetricLaws} `{Digest256} `{!Ecdsa}
    en params n ecc signing skipped draw rest :
  en_keys en = signing :: skipped ++ draw :: rest -> asked_version params <> 0 ->
  private_ok signing -> Forall private_ok (skipped ++ [draw]) ->
  Forall (fun d => Exists (.≠ 0) (draw_ripe signing d)) (skipped ++ [draw]) ->
  Forall (fun d => leading_zero_bytes (draw_ripe signing d) < n) skipped -> n <= leading_zero_bytes (draw_ripe signing draw) ->
  exists ecc' key, handle_create_key en params n ecc = Ok (ecc', key) /\
    key_address key = Address (asked_version params) (asked_stream params) (draw_ripe signing draw) /\
    key_signing_key key = draw_key signing /\ key_encryption_key key = draw_key draw.
Proof. apply create_key_spec_core. Qed.

(** No object of a public key is ever accepted: the address is computed from the keys
    with a digest that overflows its array (see [Address]). *)
Theorem check_pubkey_never_accepts `{DigestLaws} `{BigNum} `{!Elliptic} `{Symmetric} `{Digest256} `{!Ecdsa} address blob ecc ecc' key :
  handle_check_pubkey address blob ecc <> Ok (ecc', Some key).
Proof.
  assert (Hu : forall pk e, handle_check_unencrypted_pubkey address pk e <> Ok (ecc', Some key)).
  { intros pk e. unfold handle_check_unencrypted_pubkey, ntb_address_from_network_keys, store_digest. intros E.
    apply bind_Ok in E as (sk & _ & E). apply bind_Ok in E as (ek & _ & E). apply bind_Ok in E as ([e1 [|]] & _ & E); [|done]. cbn [negb] in E.
    apply bind_Ok in E as (a & E1 & _). apply bind_Ok in E1 as (s1 & _ & E1). apply bind_Ok in E1 as (s2 & _ & E1). apply bind_Ok in E1 as (s3 & E1 & _).
    rewrite SHA512_length in E1. case_decide as Hl; [|done]. unfold SHA512_DIGEST_LENGTH, SHA_DIGEST_LENGTH in Hl. lia. }
  unfold handle_check_pubkey. destruct (blob_type blob); try done. destruct (ntb_proto_get_pubkey _ _ _) as [pk| | |]; try done.
  destruct (pk_encrypted_data pk); [|apply Hu]. unfold handle_check_encrypted_pubkey. intros E.
  apply bind_Ok in E as ([tag tk] & _ & E). apply bind_Ok in E as (d1 & _ & E). apply bind_Ok in E as (d2 & _ & E).
  destruct (negb (bytes_eqb tag d2)); [done|]. apply bind_Ok in E as ([e1 k] & _ & E). apply bind_Ok in E as (b & _ & E). apply bind_Ok in E as (d3 & _ & E).
  apply bind_Ok in E as ([[[] e2] b2] & _ & E); [|done]. cbn [negb] in E. apply bind_Ok in E as (data & _ & E).
  destruct (ntb_proto_get_pubkey _ _ _) as [pk2| | |]; try done. by apply (Hu pk2 e2).
Qed.

(** ** The hypotheses can hold *)

Section crypto_witness.
#[local] Existing Instances Digests_toy DigestLaws_toy BigNum_N BigNumLaws_N Elliptic_toy EllipticLaws_toy Symmetric_toy SymmetricLaws_toy Digest256_toy.

Definition demo_crypto_key (n : Z) : EC_KEY := EcKey (Some (BN_bin2bn [n])) (ec_multiple n).
Definition demo_crypto_ntb_key (signing encryption : Z) : ntb_key :=
  Key (Address 4 1 (replicate 20 signing)) [] [] [] 1000 1000 0 (demo_crypto_key signing) (demo_crypto_key encryption) true false.
Definition demo_entropy : entropy :=
  Entropy [replicate 32 1; replicate 32 2] (replicate 32 3) (replicate 16 9) [] (replicate 32 8).
Definition demo_text : msg_text :=
  MsgText 1 4 1 1 (network_key (demo_crypto_key 5)) (network_key (demo_crypto_key 6)) 1000 1000 (replicate 20 7) 2 [104; 105] [].

(** The object, when its nonce is set. *)
Definition demo_object : list Z :=
  match handle_create_msg_blob demo_entropy 1000 (demo_crypto_ntb_key 5 6) (demo_crypto_ntb_key 7 8) (signed_text demo_text) ntb_ecc_new with
  | Ok (_, blob) => replicate 8 0 ++ default [] (all_some (drop 8 (db_cells blob)))
  | _ => []
  end.

Lemma msg_roundtrip_witness :
  exists ecc1 cipher sig,
    handle_create_msg_blob demo_entropy 1000 (demo_crypto_ntb_key 5 6) (demo_crypto_ntb_key 7 8) (signed_text demo_text) ntb_ecc_new =
      Ok (ecc1, DynBlob NTB_PROTO_INV_TYPE_MSG (replicate 8 None ++ (Some <$> be_split 8 1000 ++ enc_var_int 1 ++ cipher))) /\
    exists ecc3, handle_decrypt_msg [demo_crypto_ntb_key 7 8] (replicate 8 0 ++ be_split 8 1000 ++ enc_var_int 1 ++ cipher) ntb_ecc_new =
      Ok (ecc3, Some (demo_crypto_ntb_key 7 8, DynBlob NTB_PROTO_INV_TYPE_MSG (Some <$> signed_text demo_text ++ enc_var_int (zlen sig) ++ sig))).
Proof.
  destruct (msg_roundtrip demo_entropy 1000 (demo_crypto_ntb_key 5 6) (demo_crypto_ntb_key 7 8) (BN_bin2bn [5]) (BN_bin2bn [8]) demo_text ntb_ecc_new)
    as (ecc1 & cipher & sig & _ & E1 & E2).
  - unfold entropy_ok, private_ok. split_and!; [done|apply (bool_decide_unpack _); vm_compute; exact I|vm_compute; done|vm_compute; done|done|apply (bool_decide_unpack _); vm_compute; exact I].
  - lia.
  - cbn. lia.
  - split; [reflexivity|vm_compute; done].
  - split; [reflexivity|vm_compute; done].
  - reflexivity.
  - split_and!; vm_compute; done.
  - reflexivity.
  - apply (bool_decide_unpack _). vm_compute. exact I.
  - vm_compute. done.
  - exists ecc1, cipher, sig. split; [exact E1|].
    apply (E2 (replicate 8 0) [] [] ntb_ecc_new); [done|apply (bool_decide_unpack _); vm_compute; exact I|constructor].
Defined.

Lemma decrypted_msg_signed_witness :
  exists ecc' key result, handle_decrypt_msg [demo_crypto_ntb_key 7 8] demo_object ntb_ecc_new = Ok (ecc', Some (key, result)) /\
  exists text, db_cells result = Some <$> text.
Proof.
  assert (E : match handle_decrypt_msg [demo_crypto_ntb_key 7 8] demo_object ntb_ecc_new with Ok (_, Some _) => true | _ => false end = true)
    by (vm_compute; reflexivity).
  destruct (handle_decrypt_msg [demo_crypto_ntb_key 7 8] demo_object ntb_ecc_new) as [[ecc' [[key result]|]]| | |] eqn:E1; try discriminate E.
  destruct (decrypted_msg_signed [demo_crypto_ntb_key 7 8] demo_object ntb_ecc_new ecc' key result E1) as (_ & _ & text & _ & Et & _).
  exists ecc', key, result. split; [reflexivity|]. exists text. exact Et.
Defined.

Lemma handle_create_key_spec_witness :
  exists ecc' key, handle_create_key demo_entropy example_params 0 ntb_ecc_new = Ok (ecc', key) /\
    key_address key = Address 4 1 (draw_ripe (replicate 32 1) (replicate 32 2)) /\
    key_signing_key key = draw_key (replicate 32 1) /\ key_encryption_key key = draw_key (replicate 32 2).
Proof.
  apply (handle_create_key_spec demo_entropy example_params 0 ntb_ecc_new (replicate 32 1) [] (replicate 32 2) []).
  - reflexivity.
  - vm_compute. done.
  - split_and!; [done|apply (bool_decide_unpack _); vm_compute; exact I|vm_compute; done|vm_compute; done].
  - constructor; [|constructor]. split_and!; [done|apply (bool_decide_unpack _); vm_compute; exact I|vm_compute; done|vm_compute; done].
  - apply (bool_decide_unpack _). vm_compute. exact I.
  - constructor.
  - apply (bool_decide_unpack _). vm_compute. exact I.
Defined.
End crypto_witness.
