(* ===== verification/CryptoQueue.v ===== *)
(** * CryptoQueue: the queue and the thread of ntb-crypto.c

    The state has the memory of the cookies, the queue, the idle sources of the main
    loop, where the thread is and the references to keys, blobs and copies that the
    cookies own. What the thread does for a task is in [Crypto]. The functions of the
    main thread hold the mutex throughout, except that the callback of an idle source
    is called before it is taken: [crypto_idle_begin] and [crypto_idle_end] are the
    parts of [idle_cb] around that call. *)

From S2P Require Import Prelude Endian Buffer NetAddress OpenSSL Proto ProtoSpec NetText KeyValue Base58 Address Outgoings Ecc Keys HashTable Connection Crypto.

(** What a callback is called with. *)
Inductive crypto_answer `{BigNum} `{!Elliptic} :=
| AnswerKey (key : ntb_key)
| AnswerBlob (blob : dyn_blob)
| AnswerCheck (key : option ntb_key)
| AnswerDecrypt (decrypted : option (ntb_key * dyn_blob))
| AnswerAckdata (ackdata : list Z).

(** What a cookie owns, by the name of its field. *)
Inductive crypto_reference :=
| CryptoKey
| CryptoBlob
| CryptoFromKey
| CryptoToKey
| CryptoContent
| CryptoResult
| CryptoLabel
| CryptoKeys
| CryptoKeysAt (i : nat)
| CryptoChosenKey.
#[global] Instance crypto_reference_eq : EqDecision crypto_reference.
Proof. solve_decision. Defined.

(** Where the thread is. *)
Inductive crypto_thread :=
(** about to take the mutex at the head of its loop, or holding it there *)
| CryptoReady
(** in [pthread_cond_wait] *)
| CryptoWaiting
(** working on a task, without the mutex *)
| CryptoWorking (c : nat)
| CryptoExited.
#[global] Instance crypto_thread_eq : EqDecision crypto_thread.
Proof. solve_decision. Defined.

Section crypto_queue.
Context `{Digests} `{BigNum} `{!Elliptic} `{Symmetric} `{Digest256} `{!Ecdsa}.

(** The type of a cookie with the fields that are set when it is queued. *)
Inductive ntb_crypto_cookie_type :=
| NTB_CRYPTO_COOKIE_CREATE_KEY (params : ntb_key_params) (leading_zeroes : Z)
| NTB_CRYPTO_COOKIE_CREATE_PUBKEY_BLOB (key : ntb_key)
| NTB_CRYPTO_COOKIE_CHECK_PUBKEY (address : ntb_address) (blob : ntb_blob)
| NTB_CRYPTO_COOKIE_CREATE_MSG_BLOB (timestamp : Z) (from_key to_key : ntb_key) (content : dyn_blob)
| NTB_CRYPTO_COOKIE_CREATE_PUBLIC_KEY (params : ntb_key_params)
| NTB_CRYPTO_COOKIE_DECRYPT_MSG (blob : ntb_blob) (keys : list ntb_key)
| NTB_CRYPTO_COOKIE_GENERATE_ACKDATA.

(** The function and the data of a cookie are its identity here. *)
Record ntb_crypto_cookie := CryptoCookie {
  cc_ref_count : Z;
  cc_type : ntb_crypto_cookie_type;
  (** [idle_source] is not [NULL] *)
  cc_idle : bool;
  cc_in_queue : bool;
  cc_cancelled : bool;
  cc_answer : option crypto_answer
}.

Definition cc_add_ref (n : Z) (ck : ntb_crypto_cookie) : ntb_crypto_cookie :=
  CryptoCookie (cc_ref_count ck + n) (cc_type ck) (cc_idle ck) (cc_in_queue ck) (cc_cancelled ck) (cc_answer ck).
Definition cc_set_idle (v : bool) (ck : ntb_crypto_cookie) : ntb_crypto_cookie :=
  CryptoCookie (cc_ref_count ck) (cc_type ck) v (cc_in_queue ck) (cc_cancelled ck) (cc_answer ck).
Definition cc_set_in_queue (v : bool) (ck : ntb_crypto_cookie) : ntb_crypto_cookie :=
  CryptoCookie (cc_ref_count ck) (cc_type ck) (cc_idle ck) v (cc_cancelled ck) (cc_answer ck).
Definition cc_set_cancelled (v : bool) (ck : ntb_crypto_cookie) : ntb_crypto_cookie :=
  CryptoCookie (cc_ref_count ck) (cc_type ck) (cc_idle ck) (cc_in_queue ck) v (cc_answer ck).
Definition cc_set_answer (v : option crypto_answer) (ck : ntb_crypto_cookie) : ntb_crypto_cookie :=
  CryptoCookie (cc_ref_count ck) (cc_type ck) (cc_idle ck) (cc_in_queue ck) (cc_cancelled ck) v.

Record ntb_crypto := NtbCrypto {
  cs_thread : crypto_thread;
  cs_quit : bool;
  cs_queue : list nat;
  cs_ecc : ntb_ecc;
  cs_cookies : gmap nat ntb_crypto_cookie;
  cs_n_cookies : nat;
  (** the cookies of the idle sources that the main loop has *)
  cs_sources : list nat;
  cs_references : list (nat * crypto_reference);
  (** the callbacks that were called by the thread *)
  cs_thread_calls : list (nat * crypto_answer)
}.

Definition cs_set_thread (v : crypto_thread) (s : ntb_crypto) : ntb_crypto :=
  NtbCrypto v (cs_quit s) (cs_queue s) (cs_ecc s) (cs_cookies s) (cs_n_cookies s) (cs_sources s) (cs_references s) (cs_thread_calls s).
Definition cs_set_quit (v : bool) (s : ntb_crypto) : ntb_crypto :=
  NtbCrypto (cs_thread s) v (cs_queue s) (cs_ecc s) (cs_cookies s) (cs_n_cookies s) (cs_sources s) (cs_references s) (cs_thread_calls s).
Definition cs_set_queue (v : list nat) (s : ntb_crypto) : ntb_crypto :=
  NtbCrypto (cs_thread s) (cs_quit s) v (cs_ecc s) (cs_cookies s) (cs_n_cookies s) (cs_sources s) (cs_references s) (cs_thread_calls s).
Definition cs_set_ecc (v : ntb_ecc) (s : ntb_crypto) : ntb_crypto :=
  NtbCrypto (cs_thread s) (cs_quit s) (cs_queue s) v (cs_cookies s) (cs_n_cookies s) (cs_sources s) (cs_references s) (cs_thread_calls s).
Definition cs_set_cookies (v : gmap nat ntb_crypto_cookie) (s : ntb_crypto) : ntb_crypto :=
  NtbCrypto (cs_thread s) (cs_quit s) (cs_queue s) (cs_ecc s) v (cs_n_cookies s) (cs_sources s) (cs_references s) (cs_thread_calls s).
Definition cs_set_n_cookies (v : nat) (s : ntb_crypto) : ntb_crypto :=
  NtbCrypto (cs_thread s) (cs_quit s) (cs_queue s) (cs_ecc s) (cs_cookies s) v (cs_sources s) (cs_references s) (cs_thread_calls s).
Definition cs_set_sources (v : list nat) (s : ntb_crypto) : ntb_crypto :=
  NtbCrypto (cs_thread s) (cs_quit s) (cs_queue s) (cs_ecc s) (cs_cookies s) (cs_n_cookies s) v (cs_references s) (cs_thread_calls s).
Definition cs_set_references (v : list (nat * crypto_reference)) (s : ntb_crypto) : ntb_crypto :=
  NtbCrypto (cs_thread s) (cs_quit s) (cs_queue s) (cs_ecc s) (cs_cookies s) (cs_n_cookies s) (cs_sources s) v (cs_thread_calls s).
Definition cs_set_thread_calls (v : list (nat * crypto_answer)) (s : ntb_crypto) : ntb_crypto :=
  NtbCrypto (cs_thread s) (cs_quit s) (cs_queue s) (cs_ecc s) (cs_cookies s) (cs_n_cookies s) (cs_sources s) (cs_references s) v.

Definition ntb_crypto_new : ntb_crypto := NtbCrypto CryptoReady false [] ntb_ecc_new ∅ 0 [] [] [].

(** ** Memory *)

(** An access to a cookie that was freed is undefined. *)
Definition crypto_cookie (c : nat) (s : ntb_crypto) : result unit ntb_crypto_cookie :=
  match cs_cookies s !! c with Some ck => Ok ck | None => UB end.
Definition crypto_update (c : nat) (ck : ntb_crypto_cookie) (s : ntb_crypto) : ntb_crypto := cs_set_cookies (<[c := ck]> (cs_cookies s)) s.

Definition acquire (c : nat) (rs : list crypto_reference) (s : ntb_crypto) : ntb_crypto :=
  cs_set_references (cs_references s ++ ((c,.) <$> rs)) s.
(** Giving up what is not owned is undefined. *)
Definition release (c : nat) (r : crypto_reference) (s : ntb_crypto) : result unit ntb_crypto :=
  if decide ((c, r) ∈ cs_references s) then Ok (cs_set_references (filter (.≠ (c, r)) (cs_references s)) s) else UB.
Fixpoint release_all (c : nat) (rs : list crypto_reference) (s : ntb_crypto) : result unit ntb_crypto :=
  match rs with [] => Ok s | r :: rs => s ← release c r s; release_all c rs s end.

Definition has_label (params : ntb_key_params) : bool := negb (Z.land (kp_flags params) NTB_KEY_PARAM_LABEL =? 0).

(** The fields that are not [NULL]. *)
Definition answered_key (ck : ntb_crypto_cookie) : bool :=
  match cc_answer ck with Some (AnswerKey _) | Some (AnswerCheck (Some _)) => true | _ => false end.
Definition answered_blob (ck : ntb_crypto_cookie) : bool := match cc_answer ck with Some (AnswerBlob _) => true | _ => false end.
Definition answered_message (ck : ntb_crypto_cookie) : bool := match cc_answer ck with Some (AnswerDecrypt (Some _)) => true | _ => false end.

Definition free_create_key_cookie (c : nat) (params : ntb_key_params) (ck : ntb_crypto_cookie) (s : ntb_crypto) : result unit ntb_crypto :=
  s ← (if answered_key ck then release c CryptoKey s else Ok s);
  if has_label params then release c CryptoLabel s else Ok s.
Definition free_create_pubkey_blob_cookie (c : nat) (ck : ntb_crypto_cookie) (s : ntb_crypto) : result unit ntb_crypto :=
  s ← release c CryptoKey s;
  if answered_blob ck then release c CryptoBlob s else Ok s.
Definition free_check_pubkey_cookie (c : nat) (ck : ntb_crypto_cookie) (s : ntb_crypto) : result unit ntb_crypto :=
  s ← (if answered_key ck then release c CryptoKey s else Ok s);
  release c CryptoBlob s.
Definition free_create_msg_blob_cookie (c : nat) (ck : ntb_crypto_cookie) (s : ntb_crypto) : result unit ntb_crypto :=
  s ← release c CryptoFromKey s;
  s ← release c CryptoToKey s;
  s ← release c CryptoContent s;
  if answered_blob ck then release c CryptoResult s else Ok s.
Definition free_create_public_key_cookie (c : nat) (params : ntb_key_params) (ck : ntb_crypto_cookie) (s : ntb_crypto) : result unit ntb_crypto :=
  s ← (if answered_key ck then release c CryptoKey s else Ok s);
  if has_label params then release c CryptoLabel s else Ok s.
Definition free_decrypt_msg_cookie (c : nat) (n_keys : nat) (ck : ntb_crypto_cookie) (s : ntb_crypto) : result unit ntb_crypto :=
  s ← release_all c (CryptoKeysAt <$> seq 0 n_keys) s;
  s ← release c CryptoKeys s;
  s ← (if answered_message ck then release c CryptoResult s else Ok s);
  s ← (if answered_message ck then release c CryptoChosenKey s else Ok s);
  release c CryptoBlob s.
Definition free_generate_ackdata_cookie (s : ntb_crypto) : ntb_crypto := s.

Definition ntb_crypto_unref_cookie (c : nat) (s : ntb_crypto) : result unit ntb_crypto :=
  ck ← crypto_cookie c s;
  let ck := cc_add_ref (-1) ck in
  if cc_ref_count ck <=? 0 then
    s ← (match cc_type ck with
         | NTB_CRYPTO_COOKIE_CREATE_KEY params _ => free_create_key_cookie c params ck s
         | NTB_CRYPTO_COOKIE_CREATE_PUBKEY_BLOB _ => free_create_pubkey_blob_cookie c ck s
         | NTB_CRYPTO_COOKIE_CHECK_PUBKEY _ _ => free_check_pubkey_cookie c ck s
         | NTB_CRYPTO_COOKIE_CREATE_MSG_BLOB _ _ _ _ => free_create_msg_blob_cookie c ck s
         | NTB_CRYPTO_COOKIE_CREATE_PUBLIC_KEY params => free_create_public_key_cookie c params ck s
         | NTB_CRYPTO_COOKIE_DECRYPT_MSG _ keys => free_decrypt_msg_cookie c (length keys) ck s
         | NTB_CRYPTO_COOKIE_GENERATE_ACKDATA => Ok (free_generate_ackdata_cookie s)
         end);
    Ok (cs_set_cookies (delete c (cs_cookies s)) s)
  else Ok (crypto_update c ck s).

Definition crypto_add_idle (c : nat) (s : ntb_crypto) : ntb_crypto := cs_set_sources (cs_sources s ++ [c]) s.
(** A source that was removed is freed. *)
Definition crypto_remove_source (c : nat) (s : ntb_crypto) : result unit ntb_crypto :=
  if decide (c ∈ cs_sources s) then Ok (cs_set_sources (filter (.≠ c) (cs_sources s)) s) else UB.

(** [pthread_cond_signal] and [pthread_cond_broadcast]: there is one thread. *)
Definition crypto_signal (s : ntb_crypto) : ntb_crypto :=
  match cs_thread s with CryptoWaiting => cs_set_thread CryptoReady s | _ => s end.

(** ** The main thread *)

Definition new_cookie (type : ntb_crypto_cookie_type) (s : ntb_crypto) : nat * ntb_crypto :=
  let c := cs_n_cookies s in
  let s := crypto_update c (CryptoCookie 2 type false true false None) (cs_set_n_cookies (S c) s) in
  (c, crypto_signal (cs_set_queue (cs_queue s ++ [c]) s)).

(** [c_assert] with the flags that may not be set, and the one that must be. *)
Definition NTB_KEY_PARAM_KEYS : Z := Z.lor (Z.lor NTB_KEY_PARAM_PRIVATE_KEYS NTB_KEY_PARAM_PUBLIC_KEYS) NTB_KEY_PARAM_RIPE.

Definition ntb_crypto_create_key (params : ntb_key_params) (leading_zeroes : Z) (s : ntb_crypto) : result unit (nat * ntb_crypto) :=
  _ ← c_assert (Z.land (kp_flags params) NTB_KEY_PARAM_KEYS =? 0);
  let '(c, s) := new_cookie (NTB_CRYPTO_COOKIE_CREATE_KEY params leading_zeroes) s in
  Ok (c, if has_label params then acquire c [CryptoLabel] s else s).
Definition ntb_crypto_create_pubkey_blob (key : ntb_key) (s : ntb_crypto) : nat * ntb_crypto :=
  let '(c, s) := new_cookie (NTB_CRYPTO_COOKIE_CREATE_PUBKEY_BLOB key) s in (c, acquire c [CryptoKey] s).
Definition ntb_crypto_create_msg_blob (timestamp : Z) (from_key to_key : ntb_key) (content : dyn_blob) (s : ntb_crypto) : nat * ntb_crypto :=
  let '(c, s) := new_cookie (NTB_CRYPTO_COOKIE_CREATE_MSG_BLOB timestamp from_key to_key content) s in
  (c, acquire c [CryptoFromKey; CryptoToKey; CryptoContent] s).
(** The keys are copied to the cookie. *)
Definition ntb_crypto_create_public_key (params : ntb_key_params) (s : ntb_crypto) : result unit (nat * ntb_crypto) :=
  _ ← c_assert (Z.land (kp_flags params) NTB_KEY_PARAM_KEYS =? NTB_KEY_PARAM_PUBLIC_KEYS);
  signing_key ← read_bytes (Z.to_nat NTB_ECC_PUBLIC_KEY_SIZE) (kp_public_signing_key params);
  encryption_key ← read_bytes (Z.to_nat NTB_ECC_PUBLIC_KEY_SIZE) (kp_public_encryption_key params);
  let params := KeyParams (kp_flags params) (kp_label params) (kp_version params) (kp_stream params) (kp_private_signing_key params)
    (kp_private_encryption_key params) signing_key encryption_key (kp_nonce_trials_per_byte params) (kp_payload_length_extra_bytes params)
    (kp_ripe params) (kp_last_pubkey_send_time params) (kp_enabled params) (kp_decoy params) in
  Ok (new_cookie (NTB_CRYPTO_COOKIE_CREATE_PUBLIC_KEY params) s).
Definition ntb_crypto_check_pubkey (address : ntb_address) (blob : ntb_blob) (s : ntb_crypto) : nat * ntb_crypto :=
  let '(c, s) := new_cookie (NTB_CRYPTO_COOKIE_CHECK_PUBKEY address blob) s in (c, acquire c [CryptoBlob] s).
Definition ntb_crypto_decrypt_msg (blob : ntb_blob) (keys : list ntb_key) (s : ntb_crypto) : nat * ntb_crypto :=
  let '(c, s) := new_cookie (NTB_CRYPTO_COOKIE_DECRYPT_MSG blob keys) s in
  (c, acquire c (CryptoBlob :: CryptoKeys :: (CryptoKeysAt <$> seq 0 (length keys))) s).
Definition ntb_crypto_generate_ackdata (s : ntb_crypto) : nat * ntb_crypto := new_cookie NTB_CRYPTO_COOKIE_GENERATE_ACKDATA s.

Definition ntb_crypto_cancel_task (c : nat) (s : ntb_crypto) : result unit ntb_crypto :=
  ck ← crypto_cookie c s;
  s ← (if cc_in_queue ck
       then if decide (c ∈ cs_queue s) then ntb_crypto_unref_cookie c (cs_set_queue (filter (.≠ c) (cs_queue s)) s) else UB
       else Ok s);
  ck ← crypto_cookie c s;
  let s := crypto_update c (cc_set_cancelled true ck) s in
  s ← (if cc_idle ck then crypto_remove_source c s else Ok s);
  ntb_crypto_unref_cookie c s.

(** The result is what the callback is called with, before [crypto_idle_end]. *)
Definition crypto_idle_begin (c : nat) (s : ntb_crypto) : result unit crypto_answer :=
  ck ← crypto_cookie c s; need (cc_answer ck).
Definition crypto_idle_end (c : nat) (s : ntb_crypto) : result unit ntb_crypto :=
  s ← ntb_crypto_unref_cookie c s; crypto_remove_source c s.

(** [ntb_crypto_free] before and after it has joined the thread. *)
Definition ntb_crypto_free_begin (s : ntb_crypto) : ntb_crypto := crypto_signal (cs_set_quit true s).
Definition ntb_crypto_free_end (s : ntb_crypto) : ntb_crypto := cs_set_cookies ∅ s.

(** ** The thread *)

Definition run_task (en : entropy) (type : ntb_crypto_cookie_type) (ecc : ntb_ecc) : result unit (ntb_ecc * crypto_answer) :=
  match type with
  | NTB_CRYPTO_COOKIE_CREATE_KEY params leading_zeroes => '(ecc, key) ← handle_create_key en params leading_zeroes ecc; Ok (ecc, AnswerKey key)
  | NTB_CRYPTO_COOKIE_CREATE_PUBKEY_BLOB key => '(ecc, blob) ← handle_create_pubkey_blob en key ecc; Ok (ecc, AnswerBlob blob)
  | NTB_CRYPTO_COOKIE_CHECK_PUBKEY address blob => '(ecc, key) ← handle_check_pubkey address blob ecc; Ok (ecc, AnswerCheck key)
  | NTB_CRYPTO_COOKIE_CREATE_MSG_BLOB timestamp from_key to_key content =>
      content ← blob_bytes content;
      '(ecc, blob) ← handle_create_msg_blob en timestamp from_key to_key content ecc; Ok (ecc, AnswerBlob blob)
  | NTB_CRYPTO_COOKIE_CREATE_PUBLIC_KEY params => '(ecc, key) ← handle_create_public_key params ecc; Ok (ecc, AnswerKey key)
  | NTB_CRYPTO_COOKIE_DECRYPT_MSG blob keys => '(ecc, decrypted) ← handle_decrypt_msg keys (blob_data blob) ecc; Ok (ecc, AnswerDecrypt decrypted)
  | NTB_CRYPTO_COOKIE_GENERATE_ACKDATA => Ok (ecc, AnswerAckdata (handle_generate_ackdata en))
  end.

(** What the cookie gets with its answer. *)
Definition answer_references (type : ntb_crypto_cookie_type) (answer : crypto_answer) : list crypto_reference :=
  match type, answer with
  | NTB_CRYPTO_COOKIE_CREATE_PUBKEY_BLOB _, AnswerBlob _ => [CryptoBlob]
  | _, AnswerBlob _ => [CryptoResult]
  | _, AnswerKey _ | _, AnswerCheck (Some _) => [CryptoKey]
  | _, AnswerDecrypt (Some _) => [CryptoChosenKey; CryptoResult]
  | _, AnswerCheck None | _, AnswerDecrypt None | _, AnswerAckdata _ => []
  end.

(** The call of the handler; the one for a new key calls the callback as well. *)
Definition work (en : entropy) (c : nat) (s : ntb_crypto) : result unit ntb_crypto :=
  ck ← crypto_cookie c s;
  '(ecc, answer) ← run_task en (cc_type ck) (cs_ecc s);
  let s := acquire c (answer_references (cc_type ck) answer) (crypto_update c (cc_set_answer (Some answer) ck) (cs_set_ecc ecc s)) in
  Ok (match cc_type ck with
      | NTB_CRYPTO_COOKIE_CREATE_KEY _ _ => cs_set_thread_calls (cs_thread_calls s ++ [(c, answer)]) s
      | _ => s
      end).

(** The loop of [thread_func] while it holds the mutex. *)
Fixpoint crypto_thread_loop (fuel : nat) (s : ntb_crypto) : result unit ntb_crypto :=
  match fuel with
  | O => OutOfFuel
  | S fuel =>
      if cs_quit s then Ok (cs_set_thread CryptoExited s)
      else
        match cs_queue s with
        | [] => Ok (cs_set_thread CryptoWaiting s)
        | c :: queue =>
            ck ← crypto_cookie c s;
            let s := crypto_update c (cc_set_in_queue false ck) (cs_set_queue queue s) in
            if cc_cancelled ck then s ← ntb_crypto_unref_cookie c s; crypto_thread_loop fuel s
            else Ok (cs_set_thread (CryptoWorking c) s)
        end
  end.
Definition crypto_thread_func (s : ntb_crypto) : result unit ntb_crypto := crypto_thread_loop (S (length (cs_queue s))) s.

(** The end of a task: the mutex is taken again. *)
Definition finish_task (c : nat) (s : ntb_crypto) : result unit ntb_crypto :=
  ck ← crypto_cookie c s;
  let s := if cc_cancelled ck then s else crypto_add_idle c (crypto_update c (cc_set_idle true ck) s) in
  ntb_crypto_unref_cookie c s.

(** A step of the thread; [None] when it waits or has returned. *)
Definition crypto_thread_step (en : entropy) (s : ntb_crypto) : result unit (option ntb_crypto) :=
  match cs_thread s with
  | CryptoReady => s ← crypto_thread_func s; Ok (Some s)
  | CryptoWorking c =>
      s ← work en c s;
      s ← finish_task c (cs_set_thread CryptoReady s);
      s ← crypto_thread_func s; Ok (Some s)
  | CryptoWaiting | CryptoExited => Ok None
  end.

Fixpoint crypto_run (ens : list entropy) (s : ntb_crypto) : result unit ntb_crypto :=
  match ens with
  | [] => Ok s
  | en :: ens => r ← crypto_thread_step en s; crypto_run ens (default s r)
  end.
End crypto_queue.
