(* ===== verification/CryptoQueueSpec.v ===== *)
(** * CryptoQueueSpec: the life of a task of the cryptography thread (for [CryptoQueue])

    A run interleaves calls of the main thread, callbacks and steps of the thread. The
    invariant says which of four phases a cookie is in, and that it owns exactly the
    references of its phase. *)

From Stdlib Require Import Sorted.
From S2P Require Import Prelude Endian Buffer NetAddress OpenSSL Proto ProtoSpec NetText KeyValue Base58 Address Outgoings Ecc Keys HashTable Connection Crypto CryptoSpec CryptoQueue.

Section crypto_queue_spec.
Context `{Digests} `{BigNum} `{!Elliptic} `{Symmetric} `{Digest256} `{!Ecdsa}.
Implicit Types (s : ntb_crypto) (ck : ntb_crypto_cookie) (c : nat) (L : gset nat) (A : nat -> ntb_crypto_cookie_type -> Prop).

(** ** What a cookie owns *)

Definition asked_references (type : ntb_crypto_cookie_type) : list crypto_reference :=
  match type with
  | NTB_CRYPTO_COOKIE_CREATE_KEY params _ => if has_label params then [CryptoLabel] else []
  | NTB_CRYPTO_COOKIE_CREATE_PUBKEY_BLOB _ => [CryptoKey]
  | NTB_CRYPTO_COOKIE_CHECK_PUBKEY _ _ => [CryptoBlob]
  | NTB_CRYPTO_COOKIE_CREATE_MSG_BLOB _ _ _ _ => [CryptoFromKey; CryptoToKey; CryptoContent]
  | NTB_CRYPTO_COOKIE_CREATE_PUBLIC_KEY _ => []
  | NTB_CRYPTO_COOKIE_DECRYPT_MSG _ keys => CryptoBlob :: CryptoKeys :: (CryptoKeysAt <$> seq 0 (length keys))
  | NTB_CRYPTO_COOKIE_GENERATE_ACKDATA => []
  end.
Definition owned ck : list crypto_reference :=
  asked_references (cc_type ck) ++ match cc_answer ck with Some answer => answer_references (cc_type ck) answer | None => [] end.

(** An answer of the kind that the task has. *)
Definition answer_fits (type : ntb_crypto_cookie_type) (answer : crypto_answer) : Prop :=
  match type, answer with
  | NTB_CRYPTO_COOKIE_CREATE_KEY _ _, AnswerKey _ | NTB_CRYPTO_COOKIE_CREATE_PUBLIC_KEY _, AnswerKey _
  | NTB_CRYPTO_COOKIE_CREATE_PUBKEY_BLOB _, AnswerBlob _ | NTB_CRYPTO_COOKIE_CREATE_MSG_BLOB _ _ _ _, AnswerBlob _
  | NTB_CRYPTO_COOKIE_CHECK_PUBKEY _ _, AnswerCheck _ | NTB_CRYPTO_COOKIE_DECRYPT_MSG _ _, AnswerDecrypt _
  | NTB_CRYPTO_COOKIE_GENERATE_ACKDATA, AnswerAckdata _ => True
  | _, _ => False
  end.
Lemma run_task_fits en type ecc ecc' answer : run_task en type ecc = Ok (ecc', answer) -> answer_fits type answer.
Proof.
  destruct type; cbn [run_task]; try (intros ([ecc1 x] & _ & [= <- <-])%bind_Ok; done).
  - intros (content' & _ & ([ecc1 x] & _ & [= <- <-])%bind_Ok)%bind_Ok. done.
  - by intros [= <- <-].
Qed.

(** A public key is asked for without a label: the cookie does not copy it. *)
Definition label_ok (type : ntb_crypto_cookie_type) : Prop :=
  match type with NTB_CRYPTO_COOKIE_CREATE_PUBLIC_KEY params => has_label params = false | _ => True end.

(** What the cookie gives up when it is freed, in order. *)
Definition freed_references ck : list crypto_reference :=
  match cc_type ck with
  | NTB_CRYPTO_COOKIE_CREATE_KEY params _ | NTB_CRYPTO_COOKIE_CREATE_PUBLIC_KEY params =>
      (if answered_key ck then [CryptoKey] else []) ++ (if has_label params then [CryptoLabel] else [])
  | NTB_CRYPTO_COOKIE_CREATE_PUBKEY_BLOB _ => CryptoKey :: (if answered_blob ck then [CryptoBlob] else [])
  | NTB_CRYPTO_COOKIE_CHECK_PUBKEY _ _ => (if answered_key ck then [CryptoKey] else []) ++ [CryptoBlob]
  | NTB_CRYPTO_COOKIE_CREATE_MSG_BLOB _ _ _ _ => [CryptoFromKey; CryptoToKey; CryptoContent] ++ (if answered_blob ck then [CryptoResult] else [])
  | NTB_CRYPTO_COOKIE_DECRYPT_MSG _ keys =>
      (CryptoKeysAt <$> seq 0 (length keys)) ++ [CryptoKeys] ++ (if answered_message ck then [CryptoResult; CryptoChosenKey] else []) ++ [CryptoBlob]
  | NTB_CRYPTO_COOKIE_GENERATE_ACKDATA => []
  end.

Lemma NoDup_keys_at n : NoDup (CryptoKeysAt <$> seq 0 n).
Proof. apply NoDup_fmap_2; [intros ?? [= ->]; done|apply NoDup_seq]. Qed.
Lemma keys_at n r : r ∈ CryptoKeysAt <$> seq 0 n -> exists i, r = CryptoKeysAt i.
Proof. intros (i & -> & _)%list_elem_of_fmap. by exists i. Qed.

Lemma freed_owned ck : label_ok (cc_type ck) -> (forall answer, cc_answer ck = Some answer -> answer_fits (cc_type ck) answer) ->
  NoDup (freed_references ck) /\ forall r, r ∈ freed_references ck <-> r ∈ owned ck.
Proof.
  intros Hl Hf. unfold freed_references, owned, answered_key, answered_blob, answered_message. destruct ck as [n type idle q cn answer]. cbn in *.
  assert (Hd : NoDup [CryptoKey; CryptoBlob] /\ NoDup [CryptoFromKey; CryptoToKey; CryptoContent; CryptoResult] /\ NoDup [CryptoKey; CryptoLabel])
    by (split_and!; apply (bool_decide_unpack _); vm_compute; exact I). destruct Hd as (Hd1 & Hd2 & Hd3).
  destruct type as [params lz|key|address blob|t from to content|params|blob keys|]; cbn in *.
  5: rewrite Hl.
  all: destruct answer as [answer|]; [specialize (Hf answer eq_refl); destruct answer as [k|b|[k|]|[[k b]|]|a]; try done|].
  all: cbn [answer_references]; rewrite ?app_nil_r; try (destruct (has_label params)); cbn [app].
  all: try (split; [apply (bool_decide_unpack _); vm_compute; exact I|]; set_solver).
  - split; [|set_solver]. apply NoDup_app. split; [apply NoDup_keys_at|]. split; [|apply (bool_decide_unpack _); vm_compute; exact I].
    intros r [i ->]%keys_at. set_solver.
  - split; [|set_solver]. apply NoDup_app. split; [apply NoDup_keys_at|]. split; [|apply (bool_decide_unpack _); vm_compute; exact I].
    intros r [i ->]%keys_at. set_solver.
  - split; [|set_solver]. apply NoDup_app. split; [apply NoDup_keys_at|]. split; [|apply (bool_decide_unpack _); vm_compute; exact I].
    intros r [i ->]%keys_at. set_solver.
Qed.

Lemma release_all_app c l1 l2 : forall s, release_all c (l1 ++ l2) s = (s ← release_all c l1 s; release_all c l2 s).
Proof. induction l1 as [|r l1 IH]; intros s; cbn [app release_all]; [by rewrite bind_ret_l|]. rewrite bind_assoc. destruct (release c r s); [|done..]. by rewrite !bind_ret_l, IH. Qed.

(** Only the references change, and the ones of the cookie are gone. *)
Definition references_without c (rs : list crypto_reference) (l l' : list (nat * crypto_reference)) : Prop :=
  forall c' r, (c', r) ∈ l' <-> (c', r) ∈ l /\ ~ (c' = c /\ r ∈ rs).

Lemma release_all_spec c rs : forall s, NoDup rs -> (forall r, r ∈ rs -> (c, r) ∈ cs_references s) ->
  exists l, release_all c rs s = Ok (cs_set_references l s) /\ references_without c rs (cs_references s) l.
Proof.
  induction rs as [|r rs IH]; intros s Hn Hin; cbn [release_all].
  - exists (cs_references s). split; [by destruct s|]. intros c' r'. set_solver.
  - apply NoDup_cons in Hn as [Hr Hn]. unfold release. rewrite decide_True by (apply Hin; by left). rewrite bind_ret_l.
    set (l1 := filter _ _). destruct (IH (cs_set_references l1 s) Hn) as (l & -> & Hl).
    { intros r' Hr'. cbn. apply list_elem_of_filter. split; [intros [= ->]; done|]. apply Hin. by right. }
    exists l. split; [done|]. intros c' r'. specialize (Hl c' r'). cbn [cs_references cs_set_references] in Hl. rewrite Hl. unfold l1. rewrite list_elem_of_filter, elem_of_cons. destruct (decide ((c', r') = (c, r))); naive_solver.
Qed.

(** Whatever the type, freeing gives up [freed_references]. *)
Lemma unref_free c ck s : cs_cookies s !! c = Some ck -> cc_ref_count ck <= 1 ->
  ntb_crypto_unref_cookie c s = (s ← release_all c (freed_references ck) s; Ok (cs_set_cookies (delete c (cs_cookies s)) s)).
Proof.
  intros E Hn. unfold ntb_crypto_unref_cookie, crypto_cookie. rewrite E, bind_ret_l. cbn zeta. cbn [cc_add_ref cc_ref_count cc_type]. rewrite (proj2 (Z.leb_le _ _)) by lia.
  assert (Eif : forall (b : bool) r s, (if b then release c r s else Ok s) = release_all c (if b then [r] else []) s).
  { intros [] r s0; cbn [release_all]; [|done]. destruct (release c r s0); by rewrite ?bind_ret_l. }
  assert (E1 : forall r s, release c r s = release_all c [r] s) by (intros r s0; exact (Eif true r s0)).
  unfold freed_references. destruct (cc_type ck) eqn:Et; cbn [release_all].
  - unfold free_create_key_cookie. change (answered_key (cc_add_ref (-1) ck)) with (answered_key ck). rewrite release_all_app, Eif. destruct (release_all _ _ s); rewrite ?bind_ret_l; [|done..]. by rewrite Eif.
  - unfold free_create_pubkey_blob_cookie. change (answered_blob (cc_add_ref (-1) ck)) with (answered_blob ck). rewrite bind_assoc. destruct (release _ _ s); rewrite ?bind_ret_l; [|done..]. by rewrite Eif.
  - unfold free_check_pubkey_cookie. change (answered_key (cc_add_ref (-1) ck)) with (answered_key ck). rewrite release_all_app, Eif. destruct (release_all _ _ s); rewrite ?bind_ret_l; [|done..]. by rewrite E1.
  - unfold free_create_msg_blob_cookie. change (answered_blob (cc_add_ref (-1) ck)) with (answered_blob ck). cbn [app release_all].
    destruct (release c CryptoFromKey s); rewrite ?bind_ret_l; [|done..]. destruct (release c CryptoToKey _); rewrite ?bind_ret_l; [|done..].
    destruct (release c CryptoContent _); rewrite ?bind_ret_l; [|done..]. by rewrite Eif.
  - unfold free_create_public_key_cookie. change (answered_key (cc_add_ref (-1) ck)) with (answered_key ck). rewrite release_all_app, Eif. destruct (release_all _ _ s); rewrite ?bind_ret_l; [|done..]. by rewrite Eif.
  - unfold free_decrypt_msg_cookie. change (answered_message (cc_add_ref (-1) ck)) with (answered_message ck). rewrite !release_all_app.
    destruct (release_all c (CryptoKeysAt <$> _) s); rewrite ?bind_ret_l; [|done..]. cbn [app release_all].
    destruct (release c CryptoKeys _); rewrite ?bind_ret_l; [|done..]. rewrite release_all_app. destruct (answered_message ck); cbn [release_all]; rewrite ?bind_ret_l; [|by destruct (release _ _ _); rewrite ?bind_ret_l].
    destruct (release c CryptoResult _); rewrite ?bind_ret_l; [|done..]. destruct (release c CryptoChosenKey _); rewrite ?bind_ret_l; [|done..].
    by destruct (release _ _ _); rewrite ?bind_ret_l.
  - unfold free_generate_ackdata_cookie. done.
Qed.

Lemma unref_keep c ck s : cs_cookies s !! c = Some ck -> 1 < cc_ref_count ck -> ntb_crypto_unref_cookie c s = Ok (crypto_update c (cc_add_ref (-1) ck) s).
Proof.
  intros E Hn. unfold ntb_crypto_unref_cookie, crypto_cookie. rewrite E, bind_ret_l. cbn zeta. cbn [cc_add_ref cc_ref_count]. by rewrite (proj2 (Z.leb_gt _ _)) by lia.
Qed.

(** ** The invariant *)

(** The cookie waits in the queue, is worked on, is worked on although it was
    cancelled, or has an idle source. *)
Definition phase_ok (live queued working source : bool) : bool :=
  match live, queued, working, source with
  | true, true, false, false | true, false, true, false | false, false, true, false | true, false, false, true => true
  | _, _, _, _ => false
  end.

Section invariant.
(** What is known of the random bytes that the thread draws. *)
Context (drawn : entropy -> Prop).

Definition answered (type : ntb_crypto_cookie_type) (answer : crypto_answer) : Prop :=
  exists en ecc ecc', drawn en /\ run_task en type ecc = Ok (ecc', answer).
Lemma answered_fits type answer : answered type answer -> answer_fits type answer.
Proof. intros (en & ecc & ecc' & _ & Er). by eapply run_task_fits. Qed.

(** One cookie: [live] while its caller has it, [refs] are the references it owns. *)
Definition cookie_ok (live queued working source : bool) (asked : ntb_crypto_cookie_type -> Prop) (refs : crypto_reference -> Prop)
    (mck : option ntb_crypto_cookie) : Prop :=
  match mck with
  | Some ck =>
      phase_ok live queued working source = true /\
      cc_ref_count ck = Z.b2z live + Z.b2z queued + Z.b2z working /\ cc_idle ck = source /\ cc_in_queue ck = queued /\
      cc_cancelled ck = negb live /\ (is_Some (cc_answer ck) <-> source = true) /\
      (forall answer, cc_answer ck = Some answer -> answered (cc_type ck) answer) /\
      label_ok (cc_type ck) /\ asked (cc_type ck) /\ forall r, refs r <-> r ∈ owned ck
  | None => live = false /\ queued = false /\ working = false /\ source = false /\ forall r, ~ refs r
  end.

Definition cookie_inv L A s c : Prop :=
  cookie_ok (bool_decide (c ∈ L)) (bool_decide (c ∈ cs_queue s)) (bool_decide (cs_thread s = CryptoWorking c)) (bool_decide (c ∈ cs_sources s)) (A c)
    (fun r => (c, r) ∈ cs_references s) (cs_cookies s !! c).

(** The tasks in the order in which they end: they were asked for in this order. *)
Definition working s : list nat := match cs_thread s with CryptoWorking c => [c] | _ => [] end.
Definition task_order s : list nat := cs_sources s ++ working s ++ cs_queue s.

Record crypto_inv L A s : Prop := CryptoInv {
  ci_cookies : forall c, cookie_inv L A s c;
  ci_order : StronglySorted lt (task_order s);
  ci_waiting : cs_thread s = CryptoWaiting -> cs_queue s = [] /\ cs_quit s = false;
  ci_new : forall c, (cs_n_cookies s <= c)%nat -> cs_cookies s !! c = None
}.

Lemma sorted_nodup (l : list nat) : StronglySorted lt l -> NoDup l.
Proof. induction 1 as [|x l _ IH Hx]; constructor; [|done]. intros Hin. rewrite Forall_forall in Hx. specialize (Hx x Hin). lia. Qed.

Lemma ci_queue L A s : crypto_inv L A s -> NoDup (cs_queue s).
Proof. intros Hi. pose proof (sorted_nodup _ (ci_order _ _ _ Hi)) as Hn. unfold task_order in Hn. by apply NoDup_app in Hn as (_ & _ & (_ & _ & Hn)%NoDup_app). Qed.

(** What another cookie sees of a change. *)
Definition same_cookie c s s' : Prop :=
  (c ∈ cs_queue s' <-> c ∈ cs_queue s) /\ (cs_thread s' = CryptoWorking c <-> cs_thread s = CryptoWorking c) /\ (c ∈ cs_sources s' <-> c ∈ cs_sources s) /\
  (forall r, (c, r) ∈ cs_references s' <-> (c, r) ∈ cs_references s) /\ cs_cookies s' !! c = cs_cookies s !! c.

Lemma cookie_ok_ext l q w src asked asked' (refs refs' : crypto_reference -> Prop) mck : (forall t, asked t -> asked' t) -> (forall r, refs' r <-> refs r) ->
  cookie_ok l q w src asked refs mck -> cookie_ok l q w src asked' refs' mck.
Proof.
  intros Ha Hr. destruct mck as [ck|]; cbn.
  - intros (H1' & H2' & H3' & H4' & H5' & H6' & H7' & H8' & H9' & Ho). do 8 (split; [done|]). split; [by apply Ha|]. intros r. by rewrite Hr.
  - intros (H1' & H2' & H3' & H4' & Ho). do 4 (split; [done|]). intros r. by rewrite Hr.
Qed.

Lemma cookie_inv_same L L' A A' s s' c : (c ∈ L' <-> c ∈ L) -> (forall t, A c t -> A' c t) -> same_cookie c s s' -> cookie_inv L A s c -> cookie_inv L' A' s' c.
Proof.
  intros HL HA (Hq & Hw & Hs & Hr & Ec). unfold cookie_inv. rewrite Ec, (bool_decide_ext _ _ HL), (bool_decide_ext _ _ Hq), (bool_decide_ext _ _ Hw), (bool_decide_ext _ _ Hs).
  by apply cookie_ok_ext.
Qed.

(** The phase of a cookie, from where it is. *)
Lemma phase_of L A s c ck : crypto_inv L A s -> cs_cookies s !! c = Some ck ->
  phase_ok (bool_decide (c ∈ L)) (bool_decide (c ∈ cs_queue s)) (bool_decide (cs_thread s = CryptoWorking c)) (bool_decide (c ∈ cs_sources s)) = true.
Proof. intros Hi Ec. pose proof (ci_cookies _ _ _ Hi c) as Hc. unfold cookie_inv in Hc. rewrite Ec in Hc. by destruct Hc. Qed.
Lemma crypto_inv_live L A s c : crypto_inv L A s -> c ∈ L -> exists ck, cs_cookies s !! c = Some ck.
Proof.
  intros Hi Hc. pose proof (ci_cookies _ _ _ Hi c) as Hk. unfold cookie_inv in Hk. destruct (cs_cookies s !! c) as [ck|]; [by exists ck|].
  destruct Hk as [Hk _]. by apply bool_decide_eq_false_1 in Hk.
Qed.
Lemma crypto_inv_queued L A s c : crypto_inv L A s -> c ∈ cs_queue s -> exists ck, cs_cookies s !! c = Some ck.
Proof.
  intros Hi Hc. pose proof (ci_cookies _ _ _ Hi c) as Hk. unfold cookie_inv in Hk. destruct (cs_cookies s !! c) as [ck|]; [by exists ck|].
  destruct Hk as (_ & Hk & _). by apply bool_decide_eq_false_1 in Hk.
Qed.
Lemma crypto_inv_working L A s c : crypto_inv L A s -> cs_thread s = CryptoWorking c -> exists ck, cs_cookies s !! c = Some ck.
Proof.
  intros Hi Hc. pose proof (ci_cookies _ _ _ Hi c) as Hk. unfold cookie_inv in Hk. destruct (cs_cookies s !! c) as [ck|]; [by exists ck|].
  destruct Hk as (_ & _ & Hk & _). by apply bool_decide_eq_false_1 in Hk.
Qed.
Lemma crypto_inv_source L A s c : crypto_inv L A s -> c ∈ cs_sources s -> exists ck, cs_cookies s !! c = Some ck.
Proof.
  intros Hi Hc. pose proof (ci_cookies _ _ _ Hi c) as Hk. unfold cookie_inv in Hk. destruct (cs_cookies s !! c) as [ck|]; [by exists ck|].
  destruct Hk as (_ & _ & _ & Hk & _). by apply bool_decide_eq_false_1 in Hk.
Qed.

(** Freeing a cookie that owns what its fields say. *)
Lemma unref_frees c ck s : cs_cookies s !! c = Some ck -> cc_ref_count ck <= 1 -> label_ok (cc_type ck) ->
  (forall answer, cc_answer ck = Some answer -> answered (cc_type ck) answer) -> (forall r, (c, r) ∈ cs_references s <-> r ∈ owned ck) ->
  exists l, ntb_crypto_unref_cookie c s = Ok (cs_set_cookies (delete c (cs_cookies s)) (cs_set_references l s)) /\
    (forall r, (c, r) ∉ l) /\ forall c' r, c' <> c -> (c', r) ∈ l <-> (c', r) ∈ cs_references s.
Proof.
  intros Ec Hn Hl Ha Hr. rewrite (unref_free c ck s Ec Hn). destruct (freed_owned ck Hl) as [Hnd Hfo]; [intros answer Eq; apply answered_fits, Ha, Eq|].
  destruct (release_all_spec c (freed_references ck) s Hnd) as (l & -> & Hrl); [intros r Hin; by apply Hr, Hfo|]. rewrite bind_ret_l. exists l. split; [done|]. split.
  - intros r Hin. apply Hrl in Hin as [Hin Hno]. apply Hno. split; [done|]. by apply Hfo, Hr.
  - intros c' r Hne. rewrite (Hrl c' r). naive_solver.
Qed.

Lemma sorted_sublist (l l' : list nat) : l' `sublist_of` l -> StronglySorted lt l -> StronglySorted lt l'.
Proof.
  intros Hl Hs. revert l' Hl. induction Hs as [|x l Hs IH Hx]; intros l' Hl.
  - apply sublist_nil_r in Hl as ->. constructor.
  - apply sublist_cons_r in Hl as [Hl|(l2 & -> & Hl)]; [by apply IH|]. constructor; [by apply IH|]. rewrite Forall_forall in *. intros y Hy. apply Hx. by eapply elem_of_sublist.
Qed.

(** ** Steps of the invariant *)

(** One cookie changes; what remains in the order stays in its place. *)
Lemma crypto_inv_step c L L' A A' s s' :
  crypto_inv L A s -> (forall c', c' <> c -> c' ∈ L' <-> c' ∈ L) -> (forall c' t, A c' t -> A' c' t) -> (forall c', c' <> c -> same_cookie c' s s') ->
  cookie_inv L' A' s' c -> StronglySorted lt (task_order s') -> (cs_thread s' = CryptoWaiting -> cs_queue s' = [] /\ cs_quit s' = false) ->
  (cs_n_cookies s <= cs_n_cookies s')%nat -> (is_Some (cs_cookies s' !! c) -> (c < cs_n_cookies s')%nat) -> crypto_inv L' A' s'.
Proof.
  intros Hi HL HA Hs Hc Ho Hw Hn Hnc. split; [|done|done|].
  - intros c'. destruct (decide (c' = c)) as [->|Hne]; [done|]. apply (cookie_inv_same L L' A A' s s' c'); [by apply HL|apply HA|by apply Hs|]. by apply Hi.
  - intros c' Hc'. destruct (decide (c' = c)) as [->|Hne].
    + destruct (cs_cookies s' !! c) eqn:Ec; [|done]. specialize (Hnc ltac:(by eexists)). lia.
    + destruct (Hs c' Hne) as (_ & _ & _ & _ & ->). apply (ci_new _ _ _ Hi). lia.
Qed.

Lemma lookup_bound L A s c : crypto_inv L A s -> is_Some (cs_cookies s !! c) -> (c < cs_n_cookies s)%nat.
Proof. intros Hi [ck Ec]. destruct (decide (c < cs_n_cookies s)%nat); [done|]. rewrite (ci_new _ _ _ Hi) in Ec by lia. done. Qed.

Lemma elem_of_removed c c' (l : list nat) : c' <> c -> c' ∈ filter (.≠ c) l <-> c' ∈ l.
Proof. intros Hne. rewrite list_elem_of_filter. tauto. Qed.
Lemma not_elem_of_removed c (l : list nat) : c ∉ filter (.≠ c) l.
Proof. rewrite list_elem_of_filter. tauto. Qed.

(** The parts of a cookie that is in memory. *)
Record cookie_facts L A s c ck : Prop := CookieFacts {
  cf_phase : phase_ok (bool_decide (c ∈ L)) (bool_decide (c ∈ cs_queue s)) (bool_decide (cs_thread s = CryptoWorking c)) (bool_decide (c ∈ cs_sources s)) = true;
  cf_refs : cc_ref_count ck = Z.b2z (bool_decide (c ∈ L)) + Z.b2z (bool_decide (c ∈ cs_queue s)) + Z.b2z (bool_decide (cs_thread s = CryptoWorking c));
  cf_idle : cc_idle ck = bool_decide (c ∈ cs_sources s);
  cf_in_queue : cc_in_queue ck = bool_decide (c ∈ cs_queue s);
  cf_cancelled : cc_cancelled ck = negb (bool_decide (c ∈ L));
  cf_answer : is_Some (cc_answer ck) <-> bool_decide (c ∈ cs_sources s) = true;
  cf_answered answer : cc_answer ck = Some answer -> answered (cc_type ck) answer;
  cf_label : label_ok (cc_type ck);
  cf_asked : A c (cc_type ck);
  cf_owned r : (c, r) ∈ cs_references s <-> r ∈ owned ck
}.
Lemma crypto_inv_facts L A s c ck : crypto_inv L A s -> cs_cookies s !! c = Some ck -> cookie_facts L A s c ck.
Proof. intros Hi Ec. pose proof (ci_cookies _ _ _ Hi c) as Hc. unfold cookie_inv in Hc. rewrite Ec in Hc. destruct Hc as (h1 & h2 & h3 & h4 & h5 & h6 & h7 & h8 & h9 & h10). by split. Qed.
Lemma facts_inv L A s c ck : cs_cookies s !! c = Some ck -> cookie_facts L A s c ck -> cookie_inv L A s c.
Proof. intros Ec []. unfold cookie_inv. rewrite Ec. by split_and!. Qed.

Lemma crypto_new_inv A : crypto_inv ∅ A ntb_crypto_new.
Proof.
  split; cbn.
  - intros c. unfold cookie_inv. cbn. rewrite lookup_empty. split_and!; try done; try (intros r; apply not_elem_of_nil).
  - constructor.
  - done.
  - intros c _. apply lookup_empty.
Qed.

Lemma crypto_inv_bound L A s c : crypto_inv L A s -> c ∈ task_order s -> (c < cs_n_cookies s)%nat.
Proof.
  intros Hi Hc. apply (lookup_bound _ _ _ _ Hi). unfold task_order, working in Hc. rewrite !elem_of_app in Hc. destruct Hc as [Hc|[Hc|Hc]].
  - destruct (crypto_inv_source _ _ _ _ Hi Hc) as [ck E]. by exists ck.
  - destruct (cs_thread s) eqn:Et; try (by apply not_elem_of_nil in Hc). apply list_elem_of_singleton in Hc as ->. destruct (crypto_inv_working _ _ _ _ Hi Et) as [ck E]. by exists ck.
  - destruct (crypto_inv_queued _ _ _ _ Hi Hc) as [ck E]. by exists ck.
Qed.

Lemma sorted_snoc (l : list nat) x : StronglySorted lt l -> (forall y, y ∈ l -> (y < x)%nat) -> StronglySorted lt (l ++ [x]).
Proof.
  induction 1 as [|y l Hs IH Hy]; intros Hx; cbn [app]; [by repeat constructor|]. constructor; [apply IH; intros z Hz; apply Hx; by right|].
  apply Forall_app. split; [done|]. constructor; [apply Hx; by left|constructor].
Qed.

(** A new cookie: [rs] is what it acquires. *)
Lemma new_cookie_spec L A A' s type rs :
  crypto_inv L A s -> (forall c t, A c t -> A' c t) -> A' (cs_n_cookies s) type -> label_ok type -> asked_references type = rs ->
  forall c s1, new_cookie type s = (c, s1) -> c = cs_n_cookies s /\ crypto_inv ({[c]} ∪ L) A' (acquire c rs s1).
Proof.
  intros Hi HA Ha Hl Hrs c s1 [= <- <-]. split; [done|]. set (c := cs_n_cookies s) in *.
  assert (Hno : forall x, x ∈ task_order s -> x <> c) by (intros x Hx ->; pose proof (crypto_inv_bound _ _ _ _ Hi Hx); lia).
  pose proof (ci_cookies _ _ _ Hi c) as Hc. unfold cookie_inv in Hc. rewrite (ci_new _ _ _ Hi) in Hc by done. destruct Hc as (C1 & C2 & C3 & C4 & C5).
  apply bool_decide_eq_false_1 in C1, C2, C3, C4. set (s2 := acquire _ _ _).
  assert (Et : cs_thread s2 = match cs_thread s with CryptoWaiting => CryptoReady | t => t end) by (unfold s2, acquire, crypto_signal; cbn; by destruct (cs_thread s) eqn:Et; cbn; rewrite ?Et).
  assert (Eq : cs_queue s2 = cs_queue s ++ [c]) by (unfold s2, acquire, crypto_signal; cbn; by destruct (cs_thread s)).
  assert (Es : cs_sources s2 = cs_sources s) by (unfold s2, acquire, crypto_signal; cbn; by destruct (cs_thread s)).
  assert (Er : cs_references s2 = cs_references s ++ ((c,.) <$> rs)) by (unfold s2, acquire, crypto_signal; cbn; by destruct (cs_thread s)).
  assert (Ec : cs_cookies s2 = <[c := CryptoCookie 2 type false true false None]> (cs_cookies s)) by (unfold s2, acquire, crypto_signal; cbn; by destruct (cs_thread s)).
  assert (En : cs_n_cookies s2 = S c) by (unfold s2, acquire, crypto_signal; cbn; by destruct (cs_thread s)).
  assert (Hw : forall c', cs_thread s2 = CryptoWorking c' <-> cs_thread s = CryptoWorking c') by (intros c'; rewrite Et; by destruct (cs_thread s)).
  apply (crypto_inv_step c L ({[c]} ∪ L) A A' s s2 Hi).
  - set_solver.
  - done.
  - intros c' Hne. split; [rewrite Eq; set_solver|]. split; [apply Hw|]. split; [by rewrite Es|]. split; [|by rewrite Ec, lookup_insert_ne].
    intros r. rewrite Er, elem_of_app, list_elem_of_fmap. naive_solver.
  - apply (facts_inv _ _ _ _ (CryptoCookie 2 type false true false None)); [by rewrite Ec, lookup_insert_eq|].
    assert (B1 : bool_decide (c ∈ ({[c]} ∪ L : gset nat)) = true) by (apply bool_decide_eq_true_2; set_solver).
    assert (B2 : bool_decide (c ∈ cs_queue s2) = true) by (apply bool_decide_eq_true_2; rewrite Eq; set_solver).
    assert (B3 : bool_decide (cs_thread s2 = CryptoWorking c) = false) by (apply bool_decide_eq_false_2; by rewrite Hw).
    assert (B4 : bool_decide (c ∈ cs_sources s2) = false) by (apply bool_decide_eq_false_2; by rewrite Es).
    split; rewrite ?B1, ?B2, ?B3, ?B4; try done.
    + cbn. split; [by intros [? ?]|done].
    + intros r. unfold owned. cbn [cc_type cc_answer]. rewrite app_nil_r, Hrs, Er, elem_of_app, list_elem_of_fmap. specialize (C5 r). naive_solver.
  - unfold task_order. rewrite Es, Eq. replace (working s2) with (working s) by (unfold working; rewrite Et; by destruct (cs_thread s)).
    rewrite !app_assoc. apply sorted_snoc; [rewrite <- app_assoc; apply Hi|]. intros y Hy. apply (crypto_inv_bound _ _ _ _ Hi). by rewrite <- app_assoc in Hy.
  - rewrite Et. by destruct (cs_thread s).
  - rewrite En. fold c. lia.
  - rewrite En. lia.
Qed.

(** A cookie that is gone. *)
Lemma freed_inv c L A s s' :
  crypto_inv L A s -> cs_cookies s' !! c = None -> (forall r, (c, r) ∉ cs_references s') -> c ∉ cs_queue s' -> cs_thread s' <> CryptoWorking c -> c ∉ cs_sources s' ->
  (forall c', c' <> c -> same_cookie c' s s') -> task_order s' `sublist_of` task_order s ->
  (cs_thread s' = CryptoWaiting -> cs_queue s' = [] /\ cs_quit s' = false) -> cs_n_cookies s' = cs_n_cookies s -> crypto_inv (L ∖ {[c]}) A s'.
Proof.
  intros Hi E3 Hr Hq Hw Hs Hsame Ho Hwt En. apply (crypto_inv_step c L (L ∖ {[c]}) A A s s' Hi); [set_solver|done|done| | |done|lia|rewrite E3; by intros [? ?]].
  - unfold cookie_inv. rewrite E3. split_and!; try (apply bool_decide_eq_false_2); try done. set_solver.
  - eapply sorted_sublist; [exact Ho|apply (ci_order _ _ _ Hi)].
Qed.

(** Giving up the last reference of a cookie that is nowhere but in the state [s2],
    which is [s] for the other cookies. *)
Lemma last_unref_inv c ck2 L A s s2 :
  crypto_inv L A s -> cs_cookies s2 !! c = Some ck2 -> cc_ref_count ck2 <= 1 -> label_ok (cc_type ck2) ->
  (forall answer, cc_answer ck2 = Some answer -> answered (cc_type ck2) answer) -> (forall r, (c, r) ∈ cs_references s2 <-> r ∈ owned ck2) ->
  c ∉ cs_queue s2 -> cs_thread s2 <> CryptoWorking c ->
  (forall c', c' <> c -> same_cookie c' s s2) -> task_order s2 `sublist_of` task_order s ->
  (cs_thread s2 = CryptoWaiting -> cs_queue s2 = [] /\ cs_quit s2 = false) -> cs_n_cookies s2 = cs_n_cookies s ->
  exists s3, ntb_crypto_unref_cookie c s2 = Ok s3 /\ cs_thread s3 = cs_thread s2 /\ cs_queue s3 = cs_queue s2 /\ cs_sources s3 = cs_sources s2 /\ cs_quit s3 = cs_quit s2 /\
    (c ∉ cs_sources s2 -> crypto_inv (L ∖ {[c]}) A s3) /\
    (c ∈ cs_sources s2 -> crypto_inv (L ∖ {[c]}) A (cs_set_sources (filter (.≠ c) (cs_sources s2)) s3)).
Proof.
  intros Hi Ec Hn Hl Ha Hr Hq Hw Hsame Ho Hwt En. destruct (unref_frees c ck2 s2 Ec Hn Hl Ha Hr) as (l & -> & Hl1 & Hl2). eexists. split; [reflexivity|]. do 4 (split; [done|]).
  assert (Hs : forall c', c' <> c -> same_cookie c' s (cs_set_cookies (delete c (cs_cookies s2)) (cs_set_references l s2))).
  { intros c' Hne. destruct (Hsame c' Hne) as (S1 & S2 & S3 & S4 & S5). split; [done|]. split; [done|]. split; [done|]. split.
    - intros r. rewrite <- S4. apply (Hl2 c' r Hne).
    - cbn [cs_set_cookies cs_cookies]. by rewrite lookup_delete_ne. }
  assert (E3 : cs_cookies (cs_set_cookies (delete c (cs_cookies s2)) (cs_set_references l s2)) !! c = None) by (cbn [cs_set_cookies cs_cookies]; apply lookup_delete_eq).
  split; intros Hsrc.
  - by apply (freed_inv c L A s).
  - apply (freed_inv c L A s); try done; [apply not_elem_of_removed| |].
    + intros c' Hne. destruct (Hs c' Hne) as (S1 & S2 & S3 & S4 & S5). split; [done|]. split; [done|]. split; [|done]. rewrite <- S3. by apply elem_of_removed.
    + etrans; [|exact Ho]. unfold task_order. cbn. apply sublist_app; [|done]. apply sublist_filter.
Qed.

(** Another reference stays: the cookie is one that was cancelled. *)
Lemma crypto_cancel_working L A s c ck : crypto_inv L A s -> c ∈ L -> cs_cookies s !! c = Some ck -> cs_thread s = CryptoWorking c ->
  exists s', ntb_crypto_cancel_task c s = Ok s' /\ crypto_inv (L ∖ {[c]}) A s'.
Proof.
  intros Hi HL Ec Hw. destruct (crypto_inv_facts _ _ _ _ _ Hi Ec) as [Fp Fr Fi Fq Fc Fa Fd Fl Fk Fo]. pose proof (bool_decide_eq_true_2 _ HL) as B1. pose proof (bool_decide_eq_true_2 _ Hw) as B3.
  rewrite B1, B3 in *. destruct (bool_decide (c ∈ cs_queue s)) eqn:B2; [done|]. destruct (bool_decide (c ∈ cs_sources s)) eqn:B4; [done|].
  cbn in Fr. unfold ntb_crypto_cancel_task, crypto_cookie. rewrite Ec, bind_ret_l, Fq, bind_ret_l, Ec, bind_ret_l. cbn zeta. rewrite Fi, bind_ret_l.
  set (ck2 := cc_set_cancelled true ck). rewrite (unref_keep c ck2) by (cbn; try apply lookup_insert_eq; lia). eexists. split; [reflexivity|].
  set (s' := crypto_update _ _ _). assert (Ecs : cs_cookies s' = <[c := cc_add_ref (-1) ck2]> (cs_cookies s)) by (unfold s'; cbn; by rewrite insert_insert_eq).
  apply (crypto_inv_step c L (L ∖ {[c]}) A A s s' Hi); [set_solver|done| | |apply Hi|apply (ci_waiting _ _ _ Hi)|done|].
  - intros c' Hne. do 4 (split; [done|]). by rewrite Ecs, lookup_insert_ne.
  - apply (facts_inv _ _ _ _ (cc_add_ref (-1) ck2)); [by rewrite Ecs, lookup_insert_eq|].
    assert (B1' : bool_decide (c ∈ L ∖ {[c]}) = false) by (apply bool_decide_eq_false_2; set_solver).
    split; change (cs_queue s') with (cs_queue s); change (cs_thread s') with (cs_thread s); change (cs_sources s') with (cs_sources s); rewrite ?B1', ?B2, ?B3, ?B4; try done.
    cbn. lia.
  - intros _. exact (lookup_bound _ _ _ _ Hi ltac:(by eexists)).
Qed.

Lemma crypto_cancel_spec L A s c : crypto_inv L A s -> c ∈ L -> exists s', ntb_crypto_cancel_task c s = Ok s' /\ crypto_inv (L ∖ {[c]}) A s'.
Proof.
  intros Hi HL. destruct (crypto_inv_live _ _ _ _ Hi HL) as [ck Ec]. destruct (decide (cs_thread s = CryptoWorking c)) as [Hw|Hw]; [by eapply crypto_cancel_working|].
  destruct (crypto_inv_facts _ _ _ _ _ Hi Ec) as [Fp Fr Fi Fq Fc Fa Fd Fl Fk Fo]. pose proof (bool_decide_eq_true_2 _ HL) as B1. pose proof (bool_decide_eq_false_2 _ Hw) as B3. rewrite B1, B3 in *.
  unfold ntb_crypto_cancel_task, crypto_cookie. rewrite Ec, bind_ret_l, Fq. destruct (decide (c ∈ cs_queue s)) as [Hq|Hq].
  - pose proof (bool_decide_eq_true_2 _ Hq) as B2. rewrite B2 in *. destruct (bool_decide (c ∈ cs_sources s)) eqn:B4; [done|]. apply bool_decide_eq_false_1 in B4. cbn in Fr.
    set (s1 := cs_set_queue _ s). rewrite (unref_keep c ck s1) by (done || lia). rewrite bind_ret_l. cbn [crypto_update cs_set_cookies cs_cookies]. rewrite lookup_insert_eq, bind_ret_l. cbn zeta.
    change (cc_idle (cc_add_ref (-1) ck)) with (cc_idle ck). rewrite Fi, bind_ret_l. set (ck2 := cc_set_cancelled true _). set (s2 := crypto_update c ck2 _).
    destruct (last_unref_inv c ck2 L A s s2 Hi) as (s3 & -> & _ & _ & _ & _ & Hi3 & _); try done.
    + unfold s2. cbn. apply lookup_insert_eq.
    + unfold ck2. cbn. lia.
    + apply not_elem_of_removed.
    + intros c' Hne. split; [by apply elem_of_removed|]. do 3 (split; [done|]). unfold s2, s1. cbn. by rewrite !lookup_insert_ne.
    + unfold task_order, s2, s1. cbn. apply sublist_app; [done|]. apply sublist_app; [done|]. apply sublist_filter.
    + unfold s2, s1. cbn. intros Ew. by destruct (ci_waiting _ _ _ Hi Ew) as [-> ->].
    + exists s3. split; [done|]. by apply Hi3.
  - pose proof (bool_decide_eq_false_2 _ Hq) as B2. rewrite B2 in *. destruct (bool_decide (c ∈ cs_sources s)) eqn:B4; [|done]. apply bool_decide_eq_true_1 in B4. cbn in Fr.
    rewrite bind_ret_l, Ec, bind_ret_l. cbn zeta. rewrite Fi. unfold crypto_remove_source. rewrite decide_True, bind_ret_l by done.
    set (ck2 := cc_set_cancelled true ck). match goal with |- context [ntb_crypto_unref_cookie c ?st] => set (s2 := st) end.
    destruct (last_unref_inv c ck2 L A s s2 Hi) as (s3 & -> & _ & _ & _ & _ & Hi3 & _); try done.
    + unfold s2. cbn. apply lookup_insert_eq.
    + unfold ck2. cbn. lia.
    + intros c' Hne. do 2 (split; [done|]). split; [by apply elem_of_removed|]. split; [done|]. unfold s2. cbn. by rewrite lookup_insert_ne.
    + unfold task_order, s2. cbn. apply sublist_app; [|done]. apply sublist_filter.
    + exact (ci_waiting _ _ _ Hi).
    + exists s3. split; [done|]. apply Hi3. apply not_elem_of_removed.
Qed.

(** The callback is over. *)
Lemma idle_end_spec L A s c : crypto_inv L A s -> c ∈ cs_sources s -> c ∈ L /\ exists s', crypto_idle_end c s = Ok s' /\ crypto_inv (L ∖ {[c]}) A s'.
Proof.
  intros Hi Hs. destruct (crypto_inv_source _ _ _ _ Hi Hs) as [ck Ec]. destruct (crypto_inv_facts _ _ _ _ _ Hi Ec) as [Fp Fr Fi Fq Fc Fa Fd Fl Fk Fo]. pose proof (bool_decide_eq_true_2 _ Hs) as B4. rewrite B4 in *.
  destruct (bool_decide (c ∈ L)) eqn:B1, (bool_decide (c ∈ cs_queue s)) eqn:B2, (bool_decide (cs_thread s = CryptoWorking c)) eqn:B3; try done.
  apply bool_decide_eq_true_1 in B1. apply bool_decide_eq_false_1 in B2, B3. split; [done|]. cbn in Fr. unfold crypto_idle_end.
  destruct (last_unref_inv c ck L A s s Hi Ec) as (s3 & -> & _ & _ & Es & _ & _ & Hi3); try done; [lia|exact (ci_waiting _ _ _ Hi)|].
  rewrite bind_ret_l. unfold crypto_remove_source. rewrite Es, decide_True by done. eexists. split; [reflexivity|]. by apply Hi3.
Qed.
Lemma idle_begin_spec L A s c : crypto_inv L A s -> c ∈ cs_sources s ->
  exists answer type, crypto_idle_begin c s = Ok answer /\ answered type answer /\ A c type.
Proof.
  intros Hi Hs. destruct (crypto_inv_source _ _ _ _ Hi Hs) as [ck Ec]. destruct (crypto_inv_facts _ _ _ _ _ Hi Ec) as [Fp Fr Fi Fq Fc Fa Fd Fl Fk Fo]. pose proof (bool_decide_eq_true_2 _ Hs) as B4.
  apply Fa in B4 as [answer Ea]. exists answer, (cc_type ck). unfold crypto_idle_begin, crypto_cookie. rewrite Ec, bind_ret_l, Ea. split; [done|]. by split; [apply Fd|].
Qed.

(** ** The thread *)

(** A change of where the thread is, when it works on nothing. *)
Lemma crypto_inv_set_thread L A s t : crypto_inv L A s -> working s = [] -> (forall c, t <> CryptoWorking c) ->
  (t = CryptoWaiting -> cs_queue s = [] /\ cs_quit s = false) -> crypto_inv L A (cs_set_thread t s).
Proof.
  intros Hi Hw Ht Hwt. assert (Hn : forall c, cs_thread s <> CryptoWorking c) by (intros c Ew; unfold working in Hw; by rewrite Ew in Hw).
  assert (Ew : working (cs_set_thread t s) = working s) by (rewrite Hw; unfold working; cbn; destruct t; try done; exfalso; by eapply Ht).
  split; [|unfold task_order; rewrite Ew; apply Hi|exact Hwt|apply (ci_new _ _ _ Hi)].
  intros c. apply (cookie_inv_same L L A A s); [done|done| |by apply Hi]. split; [done|]. split; [|done]. cbn. split; intros Ew2; exfalso; [by eapply Ht|by eapply Hn].
Qed.

Lemma crypto_take_spec L A s : crypto_inv L A s -> cs_thread s = CryptoReady ->
  exists s', crypto_thread_func s = Ok s' /\ crypto_inv L A s' /\ cs_sources s' = cs_sources s /\ cs_quit s' = cs_quit s /\ cs_ecc s' = cs_ecc s /\
    match cs_quit s, cs_queue s with
    | true, _ => cs_thread s' = CryptoExited /\ cs_queue s' = cs_queue s
    | false, [] => cs_thread s' = CryptoWaiting /\ cs_queue s' = []
    | false, c :: queue => cs_thread s' = CryptoWorking c /\ cs_queue s' = queue /\ c ∈ L
    end.
Proof.
  intros Hi Et. assert (Hw : working s = []) by (unfold working; by rewrite Et). unfold crypto_thread_func. cbn [crypto_thread_loop].
  destruct (cs_quit s) eqn:Eq; [eexists; split; [reflexivity|]; split; [by apply crypto_inv_set_thread|]; by rewrite <- Eq|].
  destruct (cs_queue s) as [|c queue] eqn:Equeue; [eexists; split; [reflexivity|]; split; [by apply crypto_inv_set_thread|]; by cbn|].
  assert (Hq : c ∈ cs_queue s) by (rewrite Equeue; by left). destruct (crypto_inv_queued _ _ _ _ Hi Hq) as [ck Ec].
  destruct (crypto_inv_facts _ _ _ _ _ Hi Ec) as [Fp Fr Fi Fq Fc Fa Fd Fl Fk Fo]. pose proof (bool_decide_eq_true_2 _ Hq) as B2. rewrite B2 in *.
  destruct (bool_decide (c ∈ L)) eqn:B1, (bool_decide (cs_thread s = CryptoWorking c)) eqn:B3, (bool_decide (c ∈ cs_sources s)) eqn:B4; try done. cbn in Fr.
  unfold crypto_cookie. rewrite Ec, bind_ret_l. cbn zeta. rewrite Fc. cbn [negb]. eexists. split; [reflexivity|]. apply bool_decide_eq_true_1 in B1.
  split; [|by split_and!]. set (s' := cs_set_thread _ _).
  pose proof (ci_queue _ _ _ Hi) as Hnd. rewrite Equeue in Hnd. apply NoDup_cons in Hnd as [Hcq _].
  apply (crypto_inv_step c L L A A s s' Hi); [done|done| | | |done|done|].
  - intros c' Hne. split; [cbn; rewrite Equeue, elem_of_cons; tauto|]. split; [cbn; rewrite Et; split; [intros [= ->]; done|done]|]. split; [done|]. split; [done|]. cbn. by rewrite lookup_insert_ne.
  - apply (facts_inv _ _ _ _ (cc_set_in_queue false ck)); [cbn; apply lookup_insert_eq|].
    assert (B2' : bool_decide (c ∈ cs_queue s') = false) by (by apply bool_decide_eq_false_2). assert (B3' : bool_decide (cs_thread s' = CryptoWorking c) = true) by (by apply bool_decide_eq_true_2).
    assert (B1' : bool_decide (c ∈ L) = true) by (by apply bool_decide_eq_true_2).
    split; change (cs_sources s') with (cs_sources s); rewrite ?B1', ?B2', ?B3', ?B4; try done.
  - pose proof (ci_order _ _ _ Hi) as Ho. unfold task_order in *. by rewrite Hw, Equeue in Ho.
  - intros _. exact (lookup_bound _ _ _ _ Hi ltac:(by eexists)).
Qed.

(** The task ends; when its cookie was not cancelled it gets an idle source. *)
Lemma crypto_finish_spec L A s c ck en ecc answer :
  crypto_inv L A s -> cs_thread s = CryptoWorking c -> cs_cookies s !! c = Some ck -> drawn en -> run_task en (cc_type ck) (cs_ecc s) = Ok (ecc, answer) ->
  exists s1 s2, work en c s = Ok s1 /\ finish_task c (cs_set_thread CryptoReady s1) = Ok s2 /\ crypto_inv L A s2 /\ cs_thread s2 = CryptoReady /\ cs_queue s2 = cs_queue s /\
    cs_sources s2 = cs_sources s ++ (if decide (c ∈ L) then [c] else []) /\ cs_quit s2 = cs_quit s.
Proof.
  intros Hi Ht Ec Hen Er. destruct (crypto_inv_facts _ _ _ _ _ Hi Ec) as [Fp Fr Fi Fq Fc Fa Fd Fl Fk Fo]. pose proof (bool_decide_eq_true_2 _ Ht) as B3. rewrite B3 in *.
  destruct (bool_decide (c ∈ cs_queue s)) eqn:B2, (bool_decide (c ∈ cs_sources s)) eqn:B4; try (by destruct (bool_decide (c ∈ L))).
  assert (Ean : cc_answer ck = None) by (destruct (cc_answer ck); [by destruct Fa as [Fa _]; specialize (Fa ltac:(by eexists))|done]).
  assert (Hans : answered (cc_type ck) answer) by (by exists en, (cs_ecc s), ecc). pose proof (bool_decide_eq_false_1 _ B2) as Hq. pose proof (bool_decide_eq_false_1 _ B4) as Hsrc.
  set (ck1 := cc_set_answer (Some answer) ck).
  assert (Hwk : exists calls, work en c s = Ok (cs_set_thread_calls calls (acquire c (answer_references (cc_type ck) answer) (crypto_update c ck1 (cs_set_ecc ecc s))))).
  { unfold work, crypto_cookie. rewrite Ec, bind_ret_l, Er, bind_ret_l. cbn zeta. destruct (cc_type ck); eexists; try reflexivity; instantiate (1 := cs_thread_calls s); by destruct s. }
  destruct Hwk as [calls ->]. set (s1 := cs_set_thread_calls _ _). exists s1.
  assert (E1 : cs_cookies s1 !! c = Some ck1) by (unfold s1; cbn; apply lookup_insert_eq).
  assert (Ho1 : forall r, (c, r) ∈ cs_references s1 <-> r ∈ owned ck1).
  { intros r. unfold s1, owned. cbn. rewrite !elem_of_app, list_elem_of_fmap. specialize (Fo r). unfold owned in Fo. rewrite Ean, app_nil_r in Fo. naive_solver. }
  assert (Hd1 : forall a, cc_answer ck1 = Some a -> answered (cc_type ck1) a) by (by intros a [= <-]).
  assert (Hs1 : forall c', c' <> c -> same_cookie c' s (cs_set_thread CryptoReady s1)).
  { intros c' Hne. split; [done|]. split; [cbn; rewrite Ht; split; [done|intros [= ->]; done]|]. split; [done|]. split; [|unfold s1; cbn; by rewrite lookup_insert_ne].
    intros r. unfold s1. cbn. rewrite elem_of_app, list_elem_of_fmap. naive_solver. }
  assert (Ho : task_order s = cs_sources s ++ c :: cs_queue s) by (unfold task_order, working; by rewrite Ht).
  unfold finish_task, crypto_cookie. change (cs_cookies (cs_set_thread CryptoReady s1)) with (cs_cookies s1). rewrite E1, bind_ret_l. cbn zeta.
  change (cc_cancelled ck1) with (cc_cancelled ck). rewrite Fc. destruct (decide (c ∈ L)) as [HL|HL].
  - pose proof (bool_decide_eq_true_2 _ HL) as B1. rewrite B1 in *. cbn [negb]. cbn in Fr. set (s1' := crypto_add_idle _ _).
    assert (E1' : cs_cookies s1' !! c = Some (cc_set_idle true ck1)) by (unfold s1'; cbn; apply lookup_insert_eq).
    rewrite (unref_keep c _ s1' E1') by (cbn; lia). eexists. split; [done|]. split; [reflexivity|]. set (s2 := crypto_update _ _ _). split; [|by split_and!].
    assert (B1' : bool_decide (c ∈ L) = true) by done. assert (B2' : bool_decide (c ∈ cs_queue s2) = false) by done.
    assert (B3' : bool_decide (cs_thread s2 = CryptoWorking c) = false) by (by apply bool_decide_eq_false_2).
    assert (B4' : bool_decide (c ∈ cs_sources s2) = true) by (apply bool_decide_eq_true_2; unfold s2, s1'; cbn; apply elem_of_app; right; by left).
    apply (crypto_inv_step c L L A A s s2 Hi); [done|done| | | |done|done|].
    + intros c' Hne. destruct (Hs1 c' Hne) as (S1 & S2 & S3 & S4 & S5). split; [done|]. split; [done|]. split; [unfold s2, s1'; cbn; rewrite elem_of_app; set_solver|]. split; [exact S4|].
      unfold s2, s1'. cbn. rewrite !lookup_insert_ne by done. done.
    + apply (facts_inv _ _ _ _ (cc_add_ref (-1) (cc_set_idle true ck1))); [unfold s2; cbn; apply lookup_insert_eq|].
      split; rewrite ?B1', ?B2', ?B3', ?B4'; try done. cbn. lia.
    + unfold task_order, working, s2, s1'. cbn. rewrite <- app_assoc. cbn. rewrite <- Ho. apply Hi.
    + intros _. exact (lookup_bound _ _ _ _ Hi ltac:(by eexists)).
  - pose proof (bool_decide_eq_false_2 _ HL) as B1. rewrite B1 in *. cbn [negb]. cbn in Fr.
    destruct (last_unref_inv c ck1 L A s (cs_set_thread CryptoReady s1) Hi E1) as (s3 & E3 & F1 & F2 & F3 & F4 & Hi3 & _); try done.
    + unfold ck1. cbn. lia.
    + unfold task_order, working. cbn. rewrite Ht. apply sublist_app; [done|]. by constructor.
    + exists s3. split; [done|]. split; [exact E3|]. split; [|rewrite F1, F2, F3, F4, app_nil_r; done].
      replace L with (L ∖ {[c]}) by set_solver. by apply Hi3.
Qed.

(** The handler of the task at hand ends with an answer. *)
Definition runs en s : Prop :=
  forall c ck, cs_thread s = CryptoWorking c -> cs_cookies s !! c = Some ck -> exists ecc answer, run_task en (cc_type ck) (cs_ecc s) = Ok (ecc, answer).

Lemma crypto_step_spec L A s en : crypto_inv L A s -> drawn en -> runs en s ->
  exists r, crypto_thread_step en s = Ok r /\ forall s', r = Some s' -> crypto_inv L A s'.
Proof.
  intros Hi Hen Hr. unfold crypto_thread_step. destruct (cs_thread s) as [| |c|] eqn:Et; try (by eexists).
  - destruct (crypto_take_spec L A s Hi Et) as (s' & -> & Hi' & _). rewrite bind_ret_l. eexists. split; [reflexivity|]. by intros ? [= <-].
  - destruct (crypto_inv_working _ _ _ _ Hi Et) as [ck Ec]. destruct (Hr c ck Et Ec) as (ecc & answer & Ea).
    destruct (crypto_finish_spec L A s c ck en ecc answer Hi Et Ec Hen Ea) as (s1 & s2 & -> & E2 & Hi2 & Et2 & _). rewrite bind_ret_l, E2, bind_ret_l.
    destruct (crypto_take_spec L A s2 Hi2 Et2) as (s' & -> & Hi' & _). rewrite bind_ret_l. eexists. split; [reflexivity|]. by intros ? [= <-].
Qed.

(** ** Runs *)

Inductive crypto_call :=
| CallCreateKey (params : ntb_key_params) (leading_zeroes : Z)
| CallCreatePubkeyBlob (key : ntb_key)
| CallCreateMsgBlob (timestamp : Z) (from_key to_key : ntb_key) (content : dyn_blob)
| CallCreatePublicKey (params : ntb_key_params)
| CallCheckPubkey (address : ntb_address) (blob : ntb_blob)
| CallDecryptMsg (blob : ntb_blob) (keys : list ntb_key)
| CallGenerateAckdata.

Definition make_call (call : crypto_call) s : result unit (nat * ntb_crypto) :=
  match call with
  | CallCreateKey params leading_zeroes => ntb_crypto_create_key params leading_zeroes s
  | CallCreatePubkeyBlob key => Ok (ntb_crypto_create_pubkey_blob key s)
  | CallCreateMsgBlob timestamp from_key to_key content => Ok (ntb_crypto_create_msg_blob timestamp from_key to_key content s)
  | CallCreatePublicKey params => ntb_crypto_create_public_key params s
  | CallCheckPubkey address blob => Ok (ntb_crypto_check_pubkey address blob s)
  | CallDecryptMsg blob keys => Ok (ntb_crypto_decrypt_msg blob keys s)
  | CallGenerateAckdata => Ok (ntb_crypto_generate_ackdata s)
  end.
(** What the caller has to keep to. *)
Definition call_ok (call : crypto_call) : Prop :=
  match call with
  | CallCreateKey params _ => Z.land (kp_flags params) NTB_KEY_PARAM_KEYS = 0
  | CallCreatePublicKey params =>
      Z.land (kp_flags params) NTB_KEY_PARAM_KEYS = NTB_KEY_PARAM_PUBLIC_KEYS /\ has_label params = false /\
      NTB_ECC_PUBLIC_KEY_SIZE <= zlen (kp_public_signing_key params) /\ NTB_ECC_PUBLIC_KEY_SIZE <= zlen (kp_public_encryption_key params)
  | _ => True
  end.

Inductive crypto_event :=
| CryptoAsked (c : nat) (type : ntb_crypto_cookie_type)
| CryptoCancelled (c : nat)
| CryptoCallback (c : nat) (answer : crypto_answer).

(** The cookies that may still be cancelled after a history, the latest event first. *)
Fixpoint crypto_outstanding (tr : list crypto_event) : gset nat :=
  match tr with
  | [] => ∅
  | CryptoAsked c _ :: tr => {[c]} ∪ crypto_outstanding tr
  | (CryptoCancelled c | CryptoCallback c _) :: tr => crypto_outstanding tr ∖ {[c]}
  end.
Definition crypto_ended (tr : list crypto_event) : list nat :=
  omap (fun e => match e with CryptoCancelled c | CryptoCallback c _ => Some c | CryptoAsked _ _ => None end) tr.
Definition crypto_asked (tr : list crypto_event) (c : nat) (type : ntb_crypto_cookie_type) : Prop := CryptoAsked c type ∈ tr.

(** [cur] is the cookie whose callback runs: it may make calls, but not cancel that
    cookie. The main loop runs one callback after the other. *)
Inductive crypto_exec : list crypto_event -> option nat -> ntb_crypto -> Prop :=
| crypto_exec_new : crypto_exec [] None ntb_crypto_new
| crypto_exec_call tr cur s call c s' ck :
    crypto_exec tr cur s -> call_ok call -> make_call call s = Ok (c, s') -> cs_cookies s' !! c = Some ck -> crypto_exec (CryptoAsked c (cc_type ck) :: tr) cur s'
| crypto_exec_cancel tr cur s c s' :
    crypto_exec tr cur s -> c ∈ crypto_outstanding tr -> ntb_crypto_cancel_task c s = Ok s' -> crypto_exec (CryptoCancelled c :: tr) cur s'
| crypto_exec_begin tr s c answer :
    crypto_exec tr None s -> c ∈ cs_sources s -> crypto_idle_begin c s = Ok answer -> crypto_exec (CryptoCallback c answer :: tr) (Some c) s
| crypto_exec_end tr s c s' : crypto_exec tr (Some c) s -> crypto_idle_end c s = Ok s' -> crypto_exec tr None s'
| crypto_exec_thread tr cur s en s' : crypto_exec tr cur s -> drawn en -> crypto_thread_step en s = Ok (Some s') -> crypto_exec tr cur s'
| crypto_exec_spurious tr cur s : crypto_exec tr cur s -> cs_thread s = CryptoWaiting -> crypto_exec tr cur (cs_set_thread CryptoReady s).

Lemma call_spec L A A' s call :
  crypto_inv L A s -> call_ok call -> (forall c t, A c t -> A' c t) ->
  exists c s' ck, make_call call s = Ok (c, s') /\ c = cs_n_cookies s /\ cs_cookies s' !! c = Some ck /\ cs_sources s' = cs_sources s /\ cs_quit s' = cs_quit s /\
    (A' c (cc_type ck) -> crypto_inv ({[c]} ∪ L) A' s').
Proof.
  intros Hi Hc HA.
  assert (Hnew : forall type rs, label_ok type -> asked_references type = rs ->
    let '(c, s1) := new_cookie type s in c = cs_n_cookies s /\ (exists ck, cs_cookies (acquire c rs s1) !! c = Some ck /\ cc_type ck = type) /\
      cs_sources (acquire c rs s1) = cs_sources s /\ cs_quit (acquire c rs s1) = cs_quit s /\ (A' c type -> crypto_inv ({[c]} ∪ L) A' (acquire c rs s1))).
  { intros type rs Hl Hrs. unfold new_cookie. cbn zeta. split; [done|]. unfold crypto_signal, crypto_update. cbn [cs_thread cs_set_queue cs_set_cookies cs_set_n_cookies].
    split; [eexists; split; [destruct (cs_thread s); apply lookup_insert_eq|done]|]. split; [by destruct (cs_thread s)|]. split; [by destruct (cs_thread s)|].
    intros Ha. exact (proj2 (new_cookie_spec L A A' s type rs Hi HA Ha Hl Hrs _ _ eq_refl)). }
  assert (Hnil : forall c s1, acquire c [] s1 = s1) by (intros c s1; unfold acquire; cbn; rewrite app_nil_r; by destruct s1).
  destruct call as [params lz|key|t from to content|params|address blob|blob keys|]; cbn [make_call].
  - unfold ntb_crypto_create_key. rewrite Hc. cbn [c_assert Z.eqb]. rewrite bind_ret_l.
    specialize (Hnew (NTB_CRYPTO_COOKIE_CREATE_KEY params lz) _ I eq_refl). destruct (new_cookie _ s) as [c s1]. destruct Hnew as (-> & (ck & Ec & Et) & Es & Eq & Hn).
    cbn [asked_references] in *. destruct (has_label params); rewrite ?Hnil in *; (eexists _, _, ck; rewrite Et; by split_and!).
  - unfold ntb_crypto_create_pubkey_blob. specialize (Hnew (NTB_CRYPTO_COOKIE_CREATE_PUBKEY_BLOB key) _ I eq_refl). destruct (new_cookie _ s) as [c s1]. destruct Hnew as (-> & (ck & Ec & Et) & Es & Eq & Hn).
    eexists _, _, ck. rewrite Et. by split_and!.
  - unfold ntb_crypto_create_msg_blob. specialize (Hnew (NTB_CRYPTO_COOKIE_CREATE_MSG_BLOB t from to content) _ I eq_refl). destruct (new_cookie _ s) as [c s1]. destruct Hnew as (-> & (ck & Ec & Et) & Es & Eq & Hn).
    eexists _, _, ck. rewrite Et. by split_and!.
  - destruct Hc as (Hf & Hl & Hz1 & Hz2). unfold ntb_crypto_create_public_key. rewrite Hf, Z.eqb_refl. cbn [c_assert]. rewrite bind_ret_l.
    rewrite (read_bytes_Ok (E := unit) _ (kp_public_signing_key params)), bind_ret_l by (unfold zlen in *; lia).
    rewrite (read_bytes_Ok (E := unit) _ (kp_public_encryption_key params)), bind_ret_l by (unfold zlen in *; lia). cbn zeta.
    set (params' := KeyParams _ _ _ _ _ _ _ _ _ _ _ _ _ _). specialize (Hnew (NTB_CRYPTO_COOKIE_CREATE_PUBLIC_KEY params') [] Hl eq_refl). destruct (new_cookie _ s) as [c s1]. rewrite Hnil in Hnew.
    destruct Hnew as (-> & (ck & Ec & Et) & Es & Eq & Hn). eexists _, _, ck. rewrite Et. by split_and!.
  - unfold ntb_crypto_check_pubkey. specialize (Hnew (NTB_CRYPTO_COOKIE_CHECK_PUBKEY address blob) _ I eq_refl). destruct (new_cookie _ s) as [c s1]. destruct Hnew as (-> & (ck & Ec & Et) & Es & Eq & Hn).
    eexists _, _, ck. rewrite Et. by split_and!.
  - unfold ntb_crypto_decrypt_msg. specialize (Hnew (NTB_CRYPTO_COOKIE_DECRYPT_MSG blob keys) _ I eq_refl). destruct (new_cookie _ s) as [c s1]. destruct Hnew as (-> & (ck & Ec & Et) & Es & Eq & Hn).
    eexists _, _, ck. rewrite Et. by split_and!.
  - unfold ntb_crypto_generate_ackdata. specialize (Hnew NTB_CRYPTO_COOKIE_GENERATE_ACKDATA [] I eq_refl). destruct (new_cookie _ s) as [c s1]. rewrite Hnil in Hnew. destruct Hnew as (-> & (ck & Ec & Et) & Es & Eq & Hn).
    eexists _, _, ck. rewrite Et. by split_and!.
Qed.

(** Neither freeing nor counting touches the sources or makes a cookie. *)
Lemma release_all_fields c rs : forall s s', release_all c rs s = Ok s' -> cs_sources s' = cs_sources s /\ cs_n_cookies s' = cs_n_cookies s /\ cs_quit s' = cs_quit s /\ cs_thread s' = cs_thread s.
Proof.
  induction rs as [|r rs IH]; intros s s'; cbn [release_all]; [by intros [= <-]|]. intros (s2 & E2 & (-> & -> & -> & ->)%IH)%bind_Ok.
  unfold release in E2. case_decide; [|done]. by injection E2 as <-.
Qed.
Lemma unref_fields c s s' : ntb_crypto_unref_cookie c s = Ok s' -> cs_sources s' = cs_sources s /\ cs_n_cookies s' = cs_n_cookies s /\ cs_quit s' = cs_quit s /\ cs_thread s' = cs_thread s.
Proof.
  intros Eu. destruct (cs_cookies s !! c) as [ck|] eqn:Ec; [|unfold ntb_crypto_unref_cookie, crypto_cookie in Eu; by rewrite Ec in Eu].
  destruct (decide (cc_ref_count ck <= 1)) as [Hn|Hn]; [|rewrite (unref_keep c ck s Ec) in Eu by lia; by injection Eu as <-].
  rewrite (unref_free c ck s Ec Hn) in Eu. apply bind_Ok in Eu as (s1 & Er & [= <-]). by apply release_all_fields in Er.
Qed.
Lemma thread_loop_n fuel : forall s s', crypto_thread_loop fuel s = Ok s' -> cs_n_cookies s' = cs_n_cookies s.
Proof.
  induction fuel as [|fuel IH]; intros s s'; cbn [crypto_thread_loop]; [done|]. destruct (cs_quit s); [by intros [= <-]|].
  destruct (cs_queue s) as [|c queue]; [by intros [= <-]|]. intros (ck & _ & E)%bind_Ok. cbn zeta in E.
  destruct (cc_cancelled ck); [|by injection E as <-]. apply bind_Ok in E as (s1 & (_ & En & _)%unref_fields & ->%IH). exact En.
Qed.
Lemma cancel_fields c s s' : ntb_crypto_cancel_task c s = Ok s' -> cs_n_cookies s' = cs_n_cookies s /\ cs_quit s' = cs_quit s /\ cs_thread s' = cs_thread s.
Proof.
  unfold ntb_crypto_cancel_task. intros (ck & _ & (s1 & E1 & (ck1 & _ & (s2 & E2 & (_ & -> & -> & ->)%unref_fields)%bind_Ok)%bind_Ok)%bind_Ok)%bind_Ok.
  assert (Es : cs_n_cookies s1 = cs_n_cookies s /\ cs_quit s1 = cs_quit s /\ cs_thread s1 = cs_thread s).
  { destruct (cc_in_queue ck); [|by injection E1 as <-]. case_decide; [|done]. by apply unref_fields in E1 as (_ & -> & -> & ->). }
  destruct Es as (<- & <- & <-). destruct (cc_idle ck1); [|by injection E2 as <-]. unfold crypto_remove_source in E2. case_decide; [|done]. by injection E2 as <-.
Qed.
Lemma idle_end_fields c s s' : crypto_idle_end c s = Ok s' -> cs_n_cookies s' = cs_n_cookies s /\ cs_quit s' = cs_quit s /\ cs_thread s' = cs_thread s.
Proof. unfold crypto_idle_end. intros (s1 & (E1 & <- & <- & <-)%unref_fields & E2)%bind_Ok. unfold crypto_remove_source in E2. case_decide; [|done]. by injection E2 as <-. Qed.
Lemma step_n en s s' : crypto_thread_step en s = Ok (Some s') -> cs_n_cookies s' = cs_n_cookies s.
Proof.
  unfold crypto_thread_step, crypto_thread_func. destruct (cs_thread s) as [| |c|]; try done.
  - intros (s1 & E1 & [= <-])%bind_Ok. by apply thread_loop_n in E1.
  - intros (s1 & E1 & (s2 & E2 & (s3 & E3%thread_loop_n & [= <-])%bind_Ok)%bind_Ok)%bind_Ok. rewrite E3.
    unfold finish_task in E2. apply bind_Ok in E2 as (ck & _ & (_ & -> & _)%unref_fields).
    unfold work in E1. apply bind_Ok in E1 as (ck1 & _ & ([ecc answer] & _ & [= <-])%bind_Ok). by destruct (cc_cancelled ck), (cc_type ck1).
Qed.

Definition live (tr : list crypto_event) (cur : option nat) : gset nat := crypto_outstanding tr ∪ match cur with Some c => {[c]} | None => ∅ end.

(** A step of the thread appends to the sources. *)
Lemma step_sources L A s en s' : crypto_inv L A s -> drawn en -> crypto_thread_step en s = Ok (Some s') ->
  crypto_inv L A s' /\ (exists l, cs_sources s' = cs_sources s ++ l) /\ cs_quit s' = cs_quit s.
Proof.
  intros Hi Hen E. unfold crypto_thread_step in E. destruct (cs_thread s) as [| |c|] eqn:Et; try done.
  - destruct (crypto_take_spec L A s Hi Et) as (s1 & E1 & Hi1 & Es & Eq & _). rewrite E1, bind_ret_l in E. injection E as <-. split; [done|]. split; [exists []; by rewrite app_nil_r|done].
  - destruct (crypto_inv_working _ _ _ _ Hi Et) as [ck Ec].
    destruct (run_task en (cc_type ck) (cs_ecc s)) as [[ecc answer]| | |] eqn:Er; try (unfold work, crypto_cookie in E; rewrite Ec, bind_ret_l, Er in E; done).
    destruct (crypto_finish_spec L A s c ck en ecc answer Hi Et Ec Hen Er) as (s1 & s2 & E1 & E2 & Hi2 & Et2 & _ & Es2 & Eq2). rewrite E1, bind_ret_l, E2, bind_ret_l in E.
    destruct (crypto_take_spec L A s2 Hi2 Et2) as (s3 & E3 & Hi3 & Es & Eq & _). rewrite E3, bind_ret_l in E. injection E as <-. split; [done|]. rewrite Es, Es2, Eq, Eq2. split; [by eexists|done].
Qed.

Lemma cancel_sources c s s' : ntb_crypto_cancel_task c s = Ok s' -> forall c', c' <> c -> c' ∈ cs_sources s -> c' ∈ cs_sources s'.
Proof.
  intros Eu c' Hne Hin. unfold ntb_crypto_cancel_task, crypto_cookie in Eu. destruct (cs_cookies s !! c) as [ck|]; [|done]. rewrite bind_ret_l in Eu.
  apply bind_Ok in Eu as (s1 & E1 & (ck1 & _ & (s2 & E2 & E3)%bind_Ok)%bind_Ok). destruct (unref_fields _ _ _ E3) as (-> & _).
  assert (Es : cs_sources s1 = cs_sources s).
  { destruct (cc_in_queue ck); [|by injection E1 as <-]. case_decide; [|done]. by destruct (unref_fields _ _ _ E1) as (-> & _). }
  destruct (cc_idle ck1); [|injection E2 as <-; cbn; by rewrite Es]. unfold crypto_remove_source in E2. case_decide; [|done]. injection E2 as <-. cbn. rewrite Es. by apply elem_of_removed.
Qed.

Lemma asked_outstanding tr c : c ∈ crypto_outstanding tr -> exists type, crypto_asked tr c type.
Proof.
  unfold crypto_asked. induction tr as [|[c' t'|c'|c' a] tr IH]; cbn.
  - set_solver.
  - intros [->%elem_of_singleton|[t Ht]%IH]%elem_of_union; [exists t'; by left|exists t; by right].
  - intros [[t Ht]%IH _]%elem_of_difference. exists t. by right.
  - intros [[t Ht]%IH _]%elem_of_difference. exists t. by right.
Qed.

Lemma asked_weaken A A' L s : (forall c t, A c t -> A' c t) -> crypto_inv L A s -> crypto_inv L A' s.
Proof.
  intros HA Hi. split; [|apply Hi|apply (ci_waiting _ _ _ Hi)|apply (ci_new _ _ _ Hi)]. intros c.
  apply (cookie_inv_same L L A A' s s c); [done|apply HA|done|by apply Hi].
Qed.

(** What the invariant is of a run. *)
Lemma crypto_exec_inv tr cur s : crypto_exec tr cur s ->
  crypto_inv (live tr cur) (crypto_asked tr) s /\ cs_quit s = false /\
  (forall c type, crypto_asked tr c type -> (c < cs_n_cookies s)%nat) /\ (forall c, cur = Some c -> c ∈ cs_sources s /\ c ∉ crypto_outstanding tr).
Proof.
  induction 1 as [|tr cur s call c s' ck _ (Hi & Hq & Ha & Hc) Hok Ecall Ec|tr cur s c s' _ (Hi & Hq & Ha & Hc) Ho Ec|tr s c answer _ (Hi & Hq & Ha & Hc) Hs Eb
    |tr s c s' _ (Hi & Hq & Ha & Hc) Ee|tr cur s en s' _ (Hi & Hq & Ha & Hc) Hen Es|tr cur s _ (Hi & Hq & Ha & Hc) Et].
  - split_and!; try done.
    + unfold live. cbn. rewrite (left_id_L _ _). apply crypto_new_inv.
    + intros c type. unfold crypto_asked. set_solver.
  - destruct (call_spec _ _ (crypto_asked (CryptoAsked c (cc_type ck) :: tr)) _ call Hi Hok) as (c0 & s0 & ck0 & E0 & Ec0 & Ek0 & Es0 & Eq0 & Hi0); [intros c' t Ht; by right|].
    rewrite Ecall in E0. injection E0 as <- <-. rewrite Ec in Ek0. injection Ek0 as <-. specialize (Hi0 ltac:(by left)).
    replace (live (CryptoAsked c (cc_type ck) :: tr) cur) with ({[c]} ∪ live tr cur) by (unfold live; cbn; by rewrite (assoc_L _)).
    pose proof (lookup_bound _ _ _ _ Hi0 ltac:(by eexists)) as Hlt. split_and!; [done|by rewrite Eq0| |].
    + intros c' type [[= -> ->]|Hin]%elem_of_cons; [done|]. specialize (Ha _ _ Hin). lia.
    + intros c' Ecur. destruct (Hc c' Ecur) as [Hs Hno]. rewrite Es0. split; [done|]. cbn. apply not_elem_of_union. split; [|done].
      assert (Hin : c' ∈ task_order s) by (unfold task_order; apply elem_of_app; by left). pose proof (crypto_inv_bound _ _ _ _ Hi Hin). apply not_elem_of_singleton. lia.
  - assert (HL : c ∈ live tr cur) by (unfold live; set_solver). destruct (crypto_cancel_spec _ _ _ _ Hi HL) as (s0 & E0 & Hi0). rewrite Ec in E0. injection E0 as <-.
    split_and!.
    + apply (asked_weaken (crypto_asked tr)); [intros c' t Ht; by right|]. replace (live (CryptoCancelled c :: tr) cur) with (live tr cur ∖ {[c]}); [done|].
      unfold live. cbn. rewrite difference_union_distr_l_L. f_equal. destruct cur as [c'|]; [|set_solver]. destruct (Hc c' eq_refl) as [_ Hno]. set_solver.
    + by destruct (cancel_fields _ _ _ Ec) as (_ & -> & _).
    + intros c' type [?|Hin]%elem_of_cons; [done|]. destruct (cancel_fields _ _ _ Ec) as (-> & _). by eapply Ha.
    + intros c' Ecur. destruct (Hc c' Ecur) as [Hs Hno]. split; [|cbn; set_solver]. apply (cancel_sources _ _ _ Ec); [set_solver|done].
  - destruct (idle_end_spec _ _ _ _ Hi Hs) as [HL _]. unfold live in HL. rewrite (right_id_L _ _) in HL. split_and!.
    + apply (asked_weaken (crypto_asked tr)); [intros c' t Ht; by right|]. replace (live (CryptoCallback c answer :: tr) (Some c)) with (live tr None); [done|].
      unfold live. cbn. rewrite (right_id_L _ _), (comm_L (∪)). apply union_difference_L. set_solver.
    + done.
    + intros c' type [?|Hin]%elem_of_cons; [done|]. by eapply Ha.
    + intros c' [= <-]. split; [done|]. cbn. set_solver.
  - destruct (Hc c eq_refl) as [Hs Hno]. destruct (idle_end_spec _ _ _ _ Hi Hs) as (_ & s0 & E0 & Hi0). rewrite Ee in E0. injection E0 as <-.
    destruct (idle_end_fields _ _ _ Ee) as (En & Eq' & _). split_and!.
    + replace (live tr None) with (live tr (Some c) ∖ {[c]}); [done|]. unfold live. set_solver.
    + by rewrite Eq'.
    + intros c' type Hin. rewrite En. by eapply Ha.
    + done.
  - destruct (step_sources _ _ _ _ _ Hi Hen Es) as (Hi' & [l El] & Eq). split_and!; [done|by rewrite Eq| |].
    + intros c type Hin. rewrite (step_n _ _ _ Es). by eapply Ha.
    + intros c Ecur. destruct (Hc c Ecur) as [Hs Hno]. split; [|done]. rewrite El. apply elem_of_app. by left.
  - split_and!; try done. apply crypto_inv_set_thread; [done|unfold working; by rewrite Et|done|done].
Qed.

(** The thread runs until it is told to quit. *)
Lemma crypto_exec_thread_runs tr cur s : crypto_exec tr cur s -> cs_thread s <> CryptoExited.
Proof.
  induction 1 as [|tr cur s call c s' ck _ Ht Hok Ecall Ec|tr cur s c s' _ Ht Ho Ec|tr s c answer _ Ht Hs Eb|tr s c s' _ Ht Ee|tr cur s en s' He Ht Hen Es|tr cur s _ Ht Et]; try done.
  - assert (Hn : forall type, cs_thread (new_cookie type s).2 <> CryptoExited) by (intros type; unfold new_cookie, crypto_signal; cbn; destruct (cs_thread s) eqn:Et; cbn; rewrite ?Et; done).
    destruct call; cbn [make_call] in Ecall; try (injection Ecall as _ <-; apply Hn).
    + apply bind_Ok in Ecall as (_ & _ & E). unfold new_cookie in E. injection E as _ <-. specialize (Hn (NTB_CRYPTO_COOKIE_CREATE_KEY params leading_zeroes)). by destruct (has_label params).
    + apply bind_Ok in Ecall as (_ & _ & (k1 & _ & (k2 & _ & E)%bind_Ok)%bind_Ok). injection E as _ <-. apply Hn.
  - by destruct (cancel_fields _ _ _ Ec) as (_ & _ & ->).
  - by destruct (idle_end_fields _ _ _ Ee) as (_ & _ & ->).
  - destruct (crypto_exec_inv _ _ _ He) as (Hi & Hq & _). unfold crypto_thread_step in Es. destruct (cs_thread s) as [| |c|] eqn:Et; try done.
    + destruct (crypto_take_spec _ _ s Hi Et) as (s1 & E1 & _ & _ & _ & _ & Ht1). rewrite E1, bind_ret_l in Es. injection Es as <-. rewrite Hq in Ht1. destruct (cs_queue s); by destruct Ht1 as [-> _].
    + destruct (crypto_inv_working _ _ _ _ Hi Et) as [ck Ec].
      destruct (run_task en (cc_type ck) (cs_ecc s)) as [[ecc answer]| | |] eqn:Er; try (unfold work, crypto_cookie in Es; rewrite Ec, bind_ret_l, Er in Es; done).
      destruct (crypto_finish_spec _ _ s c ck en ecc answer Hi Et Ec Hen Er) as (s1 & s2 & E1 & E2 & Hi2 & Et2 & _ & _ & Eq2). rewrite E1, bind_ret_l, E2, bind_ret_l in Es.
      destruct (crypto_take_spec _ _ s2 Hi2 Et2) as (s3 & E3 & _ & _ & _ & _ & Ht3). rewrite E3, bind_ret_l in Es. injection Es as <-. rewrite Eq2, Hq in Ht3. destruct (cs_queue s2); by destruct Ht3 as [-> _].
Qed.

(** No cookie ends twice, and one that has ended is not outstanding. *)
Lemma crypto_exec_ended tr cur s : crypto_exec tr cur s ->
  NoDup (crypto_ended tr) /\ forall c, c ∈ crypto_ended tr -> (exists type, crypto_asked tr c type) /\ c ∉ crypto_outstanding tr.
Proof.
  assert (Hend : forall tr c, c ∈ crypto_outstanding tr -> NoDup (crypto_ended tr) /\ (forall c, c ∈ crypto_ended tr -> (exists type, crypto_asked tr c type) /\ c ∉ crypto_outstanding tr) ->
    NoDup (c :: crypto_ended tr) /\ forall e, e = CryptoCancelled c \/ (exists a, e = CryptoCallback c a) -> forall c', c' ∈ c :: crypto_ended tr ->
      (exists type, crypto_asked (e :: tr) c' type) /\ c' ∉ crypto_outstanding tr ∖ {[c]}).
  { intros tr0 c Ho [Hn He]. split; [apply NoDup_cons; split; [intros Hin; by apply He in Hin as [_ ?]|done]|]. intros e _ c' [->|Hin]%elem_of_cons.
    - destruct (asked_outstanding _ _ Ho) as [t Ht]. split; [exists t; by right|set_solver].
    - destruct (He c' Hin) as [[t Ht] Hno]. split; [exists t; by right|set_solver]. }
  induction 1 as [|tr cur s call c s' ck He IH Hok Ecall Ec|tr cur s c s' _ IH Ho Ec|tr s c answer He IH Hs Eb|tr s c s' _ IH Ee|tr cur s en s' _ IH Hen Es|tr cur s _ IH Et]; try done.
  - split; [apply NoDup_nil_2|]. intros c Hin. by apply not_elem_of_nil in Hin.
  - destruct IH as [IHn IH]. split; [done|]. intros c' Hin. destruct (IH c' Hin) as [[t Ht] Hno]. split; [exists t; by right|]. cbn. apply not_elem_of_union. split; [|done].
    destruct (crypto_exec_inv _ _ _ He) as (Hi & _ & Ha & _). destruct (call_spec _ _ (crypto_asked tr) _ call Hi Hok ltac:(done)) as (c0 & s0 & ck0 & E0 & Ec0 & _).
    rewrite Ecall in E0. injection E0 as <- <-. specialize (Ha _ _ Ht). apply not_elem_of_singleton. lia.
  - destruct (Hend tr c Ho IH) as [Hn He]. split; [done|]. apply (He (CryptoCancelled c)). by left.
  - destruct (crypto_exec_inv _ _ _ He) as (Hi & _). destruct (idle_end_spec _ _ _ _ Hi Hs) as [HL _]. unfold live in HL. rewrite (right_id_L _ _) in HL.
    destruct (Hend tr c HL IH) as [Hn He2]. split; [done|]. apply (He2 (CryptoCallback c answer)). right. by exists answer.
Qed.

(** ** Draining the queue *)

(** The handlers of the tasks [pending] end with an answer. *)
Definition pending_run (ens : list entropy) (pending : list nat) A : Prop :=
  forall en c type ecc, en ∈ ens -> c ∈ pending -> A c type -> exists ecc' answer, run_task en type ecc = Ok (ecc', answer).
Lemma pending_run_sub ens ens' pending pending' A : ens' ⊆ ens -> pending' ⊆ pending -> pending_run ens pending A -> pending_run ens' pending' A.
Proof. intros He Hp Hr en c type ecc Hen Hc. by apply Hr; [apply He|apply Hp]. Qed.

Definition drained L s s' (ended : list nat) : Prop := cs_queue s' = [] /\ cs_thread s' = CryptoWaiting /\ cs_sources s' = cs_sources s ++ ended.

Lemma drain_ready L A : forall ens s, crypto_inv L A s -> cs_quit s = false -> cs_thread s = CryptoReady -> length ens = length (cs_queue s) ->
  Forall drawn ens -> pending_run ens (cs_queue s) A ->
  exists s', (s1 ← crypto_thread_func s; crypto_run ens s1) = Ok s' /\ crypto_inv L A s' /\ drained L s s' (cs_queue s).
Proof.
  induction ens as [|en ens IH]; intros s Hi Hq Ht Hlen Hd Hp; destruct (crypto_take_spec L A s Hi Ht) as (s1 & -> & Hi1 & Es1 & Eq1 & Ee1 & Hs1); rewrite bind_ret_l, Hq in *.
  - destruct (cs_queue s) as [|c queue]; [|done]. destruct Hs1 as [Ht1 Hq1]. exists s1. split_and!; [done|done|]. split_and!; [done|done|]. by rewrite Es1, app_nil_r.
  - destruct (cs_queue s) as [|c queue] eqn:Equeue; [done|]. destruct Hs1 as (Ht1 & Hq1 & HL). apply Forall_cons in Hd as [Hen Hd].
    destruct (crypto_inv_working _ _ _ _ Hi1 Ht1) as [ck Ec]. pose proof (cf_asked _ _ _ _ _ (crypto_inv_facts _ _ _ _ _ Hi1 Ec)) as Ha.
    destruct (Hp en c (cc_type ck) (cs_ecc s1) ltac:(by left) ltac:(by left) Ha) as (ecc & answer & Er).
    destruct (crypto_finish_spec _ _ s1 c ck en ecc answer Hi1 Ht1 Ec Hen Er) as (s2 & s3 & E2 & E3 & Hi3 & Ht3 & Hq3 & Es3 & Hquit3).
    rewrite decide_True in Es3 by done. cbn [length] in Hlen. destruct (IH s3 Hi3) as (s' & Er' & Hi' & Hqs & Hts & Hss); [congruence|done|rewrite Hq3, Hq1; lia|done| |].
    { rewrite Hq3, Hq1. eapply pending_run_sub; [..|exact Hp]; intros x Hx; by right. }
    exists s'. split_and!; [|done|].
    + cbn [crypto_run]. unfold crypto_thread_step. rewrite Ht1, E2, bind_ret_l, E3, bind_ret_l. destruct (crypto_thread_func s3); [|done..]. by rewrite !bind_ret_l in *.
    + split_and!; [done|done|]. rewrite Hss, Hq3, Hq1, Es3, Es1, <- app_assoc. done.
Qed.

Lemma drain_spec L A ens s : crypto_inv L A s -> cs_quit s = false -> cs_thread s <> CryptoExited -> length ens = S (length (cs_queue s)) ->
  Forall drawn ens -> pending_run ens (working s ++ cs_queue s) A ->
  exists s', crypto_run ens s = Ok s' /\ crypto_inv L A s' /\ drained L s s' (filter (.∈ L) (working s) ++ cs_queue s).
Proof.
  intros Hi Hq Hx Hlen Hd Hp. destruct ens as [|en ens]; [done|]. injection Hlen as Hlen. apply Forall_cons in Hd as [Hen Hd]. cbn [crypto_run]. unfold crypto_thread_step, working in *.
  destruct (cs_thread s) as [| |c|] eqn:Ht; [| | |done].
  - destruct (drain_ready L A ens s Hi Hq Ht Hlen Hd) as (s' & E & Hi' & Hs'); [eapply pending_run_sub; [..|exact Hp]; intros x Hx'; [by right|done]|].
    exists s'. split_and!; [|done|done]. destruct (crypto_thread_func s); [|done..]. by rewrite !bind_ret_l in *.
  - destruct (ci_waiting _ _ _ Hi Ht) as [Equeue _]. rewrite Equeue in *. destruct ens; [|done]. exists s. rewrite bind_ret_l. split_and!; [done|done|]. split_and!; [done|done|]. cbn. by rewrite app_nil_r.
  - destruct (crypto_inv_working _ _ _ _ Hi Ht) as [ck Ec]. pose proof (cf_asked _ _ _ _ _ (crypto_inv_facts _ _ _ _ _ Hi Ec)) as Ha.
    destruct (Hp en c (cc_type ck) (cs_ecc s) ltac:(by left) ltac:(by left) Ha) as (ecc & answer & Er).
    destruct (crypto_finish_spec _ _ s c ck en ecc answer Hi Ht Ec Hen Er) as (s2 & s3 & E2 & E3 & Hi3 & Ht3 & Hq3 & Es3 & Hquit3).
    destruct (drain_ready L A ens s3 Hi3) as (s' & E & Hi' & Hqs & Hts & Hss); [congruence|done|by rewrite Hq3|done| |].
    { rewrite Hq3. eapply pending_run_sub; [..|exact Hp]; intros x Hx'; by right. }
    exists s'. rewrite E2, bind_ret_l, E3, bind_ret_l. split_and!; [|done|].
    + destruct (crypto_thread_func s3); [|done..]. by rewrite !bind_ret_l in *.
    + split_and!; [done|done|]. rewrite Hss, Es3, Hq3, <- app_assoc. done.
Qed.

(** ** Freeing *)

(** A cookie that nothing works on is in memory while its caller has it. *)
Lemma live_cookie L A s c : crypto_inv L A s -> working s = [] -> is_Some (cs_cookies s !! c) <-> c ∈ L.
Proof.
  intros Hi Hw. split; [|intros HL; by destruct (crypto_inv_live _ _ _ _ Hi HL) as [ck ->]]. intros [ck Ec]. pose proof (phase_of _ _ _ _ _ Hi Ec) as Hp.
  rewrite (bool_decide_eq_false_2 (cs_thread s = CryptoWorking c)) in Hp by (intros Ew; unfold working in Hw; by rewrite Ew in Hw).
  destruct (decide (c ∈ L)) as [HL|HL]; [done|]. rewrite (bool_decide_eq_false_2 (c ∈ L)) in Hp by done. by destruct (bool_decide (c ∈ cs_queue s)), (bool_decide (c ∈ cs_sources s)).
Qed.
Lemma references_owned L A s c r : crypto_inv L A s -> (c, r) ∈ cs_references s <-> exists ck, cs_cookies s !! c = Some ck /\ r ∈ owned ck.
Proof.
  intros Hi. destruct (cs_cookies s !! c) as [ck|] eqn:Ec.
  - rewrite (cf_owned _ _ _ _ _ (crypto_inv_facts _ _ _ _ _ Hi Ec)). naive_solver.
  - pose proof (ci_cookies _ _ _ Hi c) as Hk. unfold cookie_inv in Hk. rewrite Ec in Hk. destruct Hk as (_ & _ & _ & _ & Hk). split; [intros Hin; by destruct (Hk r)|naive_solver].
Qed.

Lemma crypto_free_begin_inv L A s : crypto_inv L A s -> crypto_inv L A (ntb_crypto_free_begin s).
Proof.
  intros Hi. assert (Hq : cs_thread s <> CryptoWaiting -> crypto_inv L A (cs_set_quit true s)).
  { intros Hw. split; [apply Hi|apply Hi|done|apply (ci_new _ _ _ Hi)]. }
  unfold ntb_crypto_free_begin, crypto_signal. cbn [cs_thread cs_set_quit]. destruct (cs_thread s) eqn:Et; try (by apply Hq).
  pose proof (crypto_inv_set_thread _ _ s CryptoReady Hi ltac:(unfold working; by rewrite Et) ltac:(done) ltac:(done)) as Hi'.
  split; [apply Hi'|apply Hi'|done|apply (ci_new _ _ _ Hi)].
Qed.

Lemma free_spec L A s en : crypto_inv L A s -> cs_thread s <> CryptoExited -> drawn en -> runs en s ->
  exists s', crypto_thread_step en (ntb_crypto_free_begin s) = Ok (Some s') /\ cs_thread s' = CryptoExited /\ crypto_inv L A s'.
Proof.
  intros Hi Hx Hen Hr. pose proof (crypto_free_begin_inv _ _ _ Hi) as Hi1. set (s1 := ntb_crypto_free_begin s) in *.
  assert (Hq : cs_quit s1 = true) by (unfold s1, ntb_crypto_free_begin, crypto_signal; cbn; by destruct (cs_thread s)).
  assert (Ht : cs_thread s1 = match cs_thread s with CryptoWaiting => CryptoReady | t => t end) by (unfold s1, ntb_crypto_free_begin, crypto_signal; cbn; destruct (cs_thread s) eqn:Et; cbn; by rewrite ?Et).
  unfold crypto_thread_step. destruct (cs_thread s) as [| |c|] eqn:Et; try done; rewrite Ht.
  1-2: destruct (crypto_take_spec L A s1 Hi1 Ht) as (s' & -> & Hi' & _ & _ & _ & Hs'); rewrite bind_ret_l, Hq in *; exists s'; by destruct Hs'.
  destruct (crypto_inv_working _ _ _ _ Hi1 Ht) as [ck Ec].
  assert (Ec0 : cs_cookies s !! c = Some ck /\ cs_ecc s1 = cs_ecc s) by (revert Ec; unfold s1, ntb_crypto_free_begin, crypto_signal; cbn; by rewrite Et). destruct Ec0 as [Ec0 Ee].
  destruct (Hr c ck Et Ec0) as (ecc & answer & Er). rewrite <- Ee in Er.
  destruct (crypto_finish_spec _ _ s1 c ck en ecc answer Hi1 Ht Ec Hen Er) as (s2 & s3 & -> & E3 & Hi3 & Ht3 & _ & _ & Hq3). rewrite bind_ret_l, E3, bind_ret_l.
  destruct (crypto_take_spec L A s3 Hi3 Ht3) as (s' & -> & Hi' & _ & _ & _ & Hs'). rewrite bind_ret_l. rewrite Hq3, Hq in Hs'. exists s'. by destruct Hs'.
Qed.
End invariant.
End crypto_queue_spec.
