(* ===== verification/CryptoThreadCalls.v ===== *)
(** * CryptoThreadCalls: the callbacks that the thread of ntb-crypto.c calls itself (for [CryptoQueue])

    [handle_create_key] calls the callback of its task, although [idle_cb] calls it
    again. [calls_inv] ties the calls of the thread to the tasks: one for each key that
    was made, and none for any other task. *)

From Stdlib Require Import Sorted.
From S2P Require Import Prelude Endian Buffer NetAddress OpenSSL Proto ProtoSpec NetText KeyValue Base58 Address Outgoings Ecc Keys HashTable Connection Crypto CryptoSpec CryptoQueue CryptoQueueSpec.

Section crypto_thread_calls.
Context `{Digests} `{BigNum} `{!Elliptic} `{Symmetric} `{Digest256} `{!Ecdsa}.
Implicit Types (s : ntb_crypto) (ck : ntb_crypto_cookie) (c : nat) (L : gset nat) (A : nat -> ntb_crypto_cookie_type -> Prop).

Definition is_create_key (type : ntb_crypto_cookie_type) : bool := match type with NTB_CRYPTO_COOKIE_CREATE_KEY _ _ => true | _ => false end.

(** ** What no step but the end of a task changes *)

(** A cookie comes from before with its task and its answer, or is new. *)
Definition cookie_from s c ck' : Prop :=
  (exists ck, cs_cookies s !! c = Some ck /\ cc_type ck' = cc_type ck /\ cc_answer ck' = cc_answer ck) \/ ((cs_n_cookies s <= c)%nat /\ cc_answer ck' = None).
Record calls_frame s s' : Prop := CallsFrame {
  fr_calls : cs_thread_calls s' = cs_thread_calls s;
  fr_n : (cs_n_cookies s <= cs_n_cookies s')%nat;
  fr_queue c : c ∈ cs_queue s' -> c ∈ cs_queue s \/ (cs_n_cookies s <= c)%nat;
  fr_thread c : cs_thread s' = CryptoWorking c -> cs_thread s = CryptoWorking c \/ c ∈ cs_queue s \/ (cs_n_cookies s <= c)%nat;
  fr_cookies c ck' : cs_cookies s' !! c = Some ck' -> cookie_from s c ck'
}.

#[local] Instance calls_frame_preorder : PreOrder calls_frame.
Proof.
  split.
  - intros s. split; try done; [naive_solver|naive_solver|]. intros c ck Ec. left. by exists ck.
  - intros s1 s2 s3 [C1 N1 Q1 T1 K1] [C2 N2 Q2 T2 K2]. split.
    + congruence.
    + lia.
    + intros c [Hc|Hc]%Q2; [by apply Q1|]. right. lia.
    + intros c [Hc|[Hc|Hc]]%T2; [by apply T1|destruct (Q1 c Hc); naive_solver|]. right. right. lia.
    + intros c ck [(ck2 & Ec2 & Et2 & Ea2)|[Hn Ha]]%K2; [|right; split; [lia|done]]. destruct (K1 c ck2 Ec2) as [(ck1 & Ec1 & Et1 & Ea1)|[Hn Ha]].
      * left. exists ck1. split_and!; congruence.
      * right. split; [done|congruence].
Qed.

(** Nothing but fields of a cookie that is there, which keeps its task and its answer. *)
Lemma frame_update c ck ck' s : cs_cookies s !! c = Some ck -> cc_type ck' = cc_type ck -> cc_answer ck' = cc_answer ck -> calls_frame s (crypto_update c ck' s).
Proof.
  intros Ec Et Ea. split; try done; [cbn; naive_solver|cbn; naive_solver|]. intros c0 ck0. cbn. intros [[-> <-]|[Hne E0]]%lookup_insert_Some; left; [by exists ck|by exists ck0].
Qed.
Lemma frame_queue (q : list nat) s : q ⊆ cs_queue s -> calls_frame s (cs_set_queue q s).
Proof. intros Hq. split; try done; [cbn; intros c Hc; left; by apply Hq|cbn; naive_solver|]. intros c ck Ec. left. by exists ck. Qed.
Lemma frame_thread t s : (forall c, t = CryptoWorking c -> cs_thread s = CryptoWorking c \/ c ∈ cs_queue s) -> calls_frame s (cs_set_thread t s).
Proof. intros Ht. split; try done; [naive_solver|cbn; intros c Hc; destruct (Ht c Hc); naive_solver|]. intros c ck Ec. left. by exists ck. Qed.
(** Fields that nothing above looks at. *)
Lemma calls_frame_same s s' : cs_thread s' = cs_thread s -> cs_queue s' = cs_queue s -> cs_cookies s' = cs_cookies s -> cs_n_cookies s' = cs_n_cookies s ->
  cs_thread_calls s' = cs_thread_calls s -> calls_frame s s'.
Proof. intros Et Eq Ek En Ec. split; [done|by rewrite En|rewrite Eq; naive_solver|rewrite Et; naive_solver|]. rewrite Ek. intros c ck E. left. by exists ck. Qed.

Lemma frame_release_all c rs : forall s s', release_all c rs s = Ok s' -> calls_frame s s'.
Proof.
  induction rs as [|r rs IH]; intros s s'; cbn [release_all]; [by intros [= <-]|]. intros (s2 & E2 & Hf%IH)%bind_Ok. etrans; [|exact Hf].
  unfold release in E2. case_decide; [|done]. injection E2 as <-. by apply calls_frame_same.
Qed.
Lemma frame_delete c s : calls_frame s (cs_set_cookies (delete c (cs_cookies s)) s).
Proof. split; try done; [naive_solver|naive_solver|]. intros c0 ck0. cbn. intros [_ E0]%lookup_delete_Some. left. by exists ck0. Qed.
Lemma frame_unref c s s' : ntb_crypto_unref_cookie c s = Ok s' -> calls_frame s s'.
Proof.
  intros Eu. destruct (cs_cookies s !! c) as [ck|] eqn:Ec; [|unfold ntb_crypto_unref_cookie, crypto_cookie in Eu; by rewrite Ec in Eu].
  destruct (decide (cc_ref_count ck <= 1)) as [Hn|Hn].
  - rewrite (unref_free c ck s Ec Hn) in Eu. apply bind_Ok in Eu as (s1 & Hf%frame_release_all & [= <-]). etrans; [exact Hf|]. apply frame_delete.
  - rewrite (unref_keep c ck s Ec) in Eu by lia. injection Eu as <-. by apply (frame_update c ck).
Qed.

Lemma frame_remove_source c s s' : crypto_remove_source c s = Ok s' -> calls_frame s s'.
Proof. unfold crypto_remove_source. case_decide; [|done]. intros [= <-]. by apply calls_frame_same. Qed.
Lemma frame_cancel c s s' : ntb_crypto_cancel_task c s = Ok s' -> calls_frame s s'.
Proof.
  unfold ntb_crypto_cancel_task. intros (ck & _ & (s1 & E1 & (ck1 & Ec1 & (s2 & E2 & F3%frame_unref)%bind_Ok)%bind_Ok)%bind_Ok)%bind_Ok.
  assert (F1 : calls_frame s s1).
  { destruct (cc_in_queue ck); [|by injection E1 as <-]. case_decide; [|done]. apply frame_unref in E1. etrans; [|exact E1]. apply frame_queue. intros x Hx. by apply list_elem_of_filter in Hx as [_ ?]. }
  assert (F2 : calls_frame s1 s2).
  { unfold crypto_cookie in Ec1. destruct (cs_cookies s1 !! c) as [ck0|] eqn:Ek; [|done]. injection Ec1 as ->.
    assert (F : calls_frame s1 (crypto_update c (cc_set_cancelled true ck1) s1)) by (by apply (frame_update c ck1)).
    destruct (cc_idle ck1); [|by injection E2 as <-]. apply frame_remove_source in E2. by etrans. }
  etrans; [exact F1|]. by etrans.
Qed.
Lemma frame_idle_end c s s' : crypto_idle_end c s = Ok s' -> calls_frame s s'.
Proof. unfold crypto_idle_end. intros (s1 & F1%frame_unref & F2%frame_remove_source)%bind_Ok. by etrans. Qed.

Lemma frame_signal s : calls_frame s (crypto_signal s).
Proof. unfold crypto_signal. destruct (cs_thread s); [done| |done..]. by apply frame_thread. Qed.
Lemma frame_acquire c rs s : calls_frame s (acquire c rs s).
Proof. by apply calls_frame_same. Qed.
Lemma frame_new_cookie type s : calls_frame s (new_cookie type s).2.
Proof.
  unfold new_cookie. cbn [snd]. etrans; [|apply frame_signal]. split; try done; cbn.
  - lia.
  - intros c [Hc|Hc%list_elem_of_singleton]%elem_of_app; [by left|]. right. lia.
  - naive_solver.
  - intros c ck. cbn. intros [[<- <-]|[Hne E0]]%lookup_insert_Some; [by right|]. left. by exists ck.
Qed.
Lemma frame_call call c s s' : make_call call s = Ok (c, s') -> calls_frame s s'.
Proof.
  assert (Hn : forall type rs, calls_frame s (acquire c rs (new_cookie type s).2)) by (intros type rs; etrans; [apply frame_new_cookie|apply frame_acquire]).
  destruct call as [params lz|key|t from to content|params|address blob|blob keys|]; cbn [make_call].
  - unfold ntb_crypto_create_key. intros (_ & _ & E)%bind_Ok. pose proof (frame_new_cookie (NTB_CRYPTO_COOKIE_CREATE_KEY params lz) s) as Hf.
    destruct (new_cookie _ s) as [c1 s1]. injection E as -> <-. destruct (has_label params); [|exact Hf]. etrans; [exact Hf|apply frame_acquire].
  - intros [= <- <-]. apply Hn.
  - intros [= <- <-]. apply Hn.
  - unfold ntb_crypto_create_public_key. intros (_ & _ & (k1 & _ & (k2 & _ & E)%bind_Ok)%bind_Ok)%bind_Ok. cbn zeta in E.
    match type of E with Ok (new_cookie ?t _) = _ => pose proof (frame_new_cookie t s) as Hf end. injection E as _ <-. exact Hf.
  - intros [= <- <-]. apply Hn.
  - intros [= <- <-]. apply Hn.
  - intros [= _ <-]. apply frame_new_cookie.
Qed.

Lemma frame_loop fuel : forall s s', (forall c, cs_thread s <> CryptoWorking c) -> crypto_thread_loop fuel s = Ok s' -> calls_frame s s'.
Proof.
  induction fuel as [|fuel IH]; intros s s' Ht; cbn [crypto_thread_loop]; [done|]. destruct (cs_quit s); [intros [= <-]; by apply frame_thread|].
  destruct (cs_queue s) as [|c queue] eqn:Eq; [intros [= <-]; by apply frame_thread|]. intros (ck & Ec & E)%bind_Ok. cbn zeta in E.
  unfold crypto_cookie in Ec. destruct (cs_cookies s !! c) as [ck0|] eqn:Ek; [|done]. injection Ec as ->.
  set (s1 := crypto_update c _ _) in E.
  assert (F1 : calls_frame s s1).
  { etrans; [apply (frame_queue queue); rewrite Eq; by right|]. by apply (frame_update c ck). }
  destruct (cc_cancelled ck).
  - apply bind_Ok in E as (s2 & E2 & E3). pose proof (frame_unref _ _ _ E2) as F2. etrans; [exact F1|]. etrans; [exact F2|]. apply IH; [|exact E3].
    apply unref_fields in E2 as (_ & _ & _ & ->). exact Ht.
  - injection E as <-. destruct F1 as [G1 G2 G3 G4 G5]. split; try done. cbn. intros c' [= <-]. right. left. rewrite Eq. by left.
Qed.
Lemma frame_finish c s s' : finish_task c s = Ok s' -> calls_frame s s'.
Proof.
  unfold finish_task, crypto_cookie. destruct (cs_cookies s !! c) as [ck|] eqn:Ec; [|done]. rewrite bind_ret_l. intros E%frame_unref. etrans; [|exact E].
  destruct (cc_cancelled ck); [done|]. etrans; [by apply (frame_update c ck (cc_set_idle true ck))|]. by apply calls_frame_same.
Qed.

(** ** The invariant *)

Section invariant.
Context (drawn : entropy -> Prop).

Definition called_ok A s c (answer : crypto_answer) : Prop :=
  (c < cs_n_cookies s)%nat /\ c ∉ cs_queue s /\ cs_thread s <> CryptoWorking c /\
  (exists type, is_create_key type = true /\ A c type /\ answered drawn type answer) /\
  forall ck, cs_cookies s !! c = Some ck -> is_create_key (cc_type ck) = true /\ cc_answer ck = Some answer.
Record calls_inv A s : Prop := CallsInv {
  cv_nodup : NoDup (cs_thread_calls s).*1;
  cv_called c answer : (c, answer) ∈ cs_thread_calls s -> called_ok A s c answer;
  cv_answered c ck answer : cs_cookies s !! c = Some ck -> is_create_key (cc_type ck) = true -> cc_answer ck = Some answer -> (c, answer) ∈ cs_thread_calls s
}.

Lemma calls_inv_frame A A' s s' : calls_inv A s -> (forall c t, A c t -> A' c t) -> calls_frame s s' -> calls_inv A' s'.
Proof.
  intros [Hnd Hc Ha] HA [F1 F2 F3 F4 F5]. split; rewrite ?F1.
  - exact Hnd.
  - intros c answer Hin. destruct (Hc c answer Hin) as (C1 & C2 & C3 & (type & T1 & T2 & T3) & C5). split_and!.
    + lia.
    + intros [Hq|Hq]%F3; [done|lia].
    + intros [Hq|[Hq|Hq]]%F4; [done|done|lia].
    + exists type. split_and!; [done|by apply HA|done].
    + intros ck' [(ck & Ec & -> & ->)|[Hn _]]%F5; [by apply C5|lia].
  - intros c ck' answer Ec' Ht Hans. destruct (F5 c ck' Ec') as [(ck & Ec & Et & Ea)|[_ Hno]]; [|congruence]. apply (Ha c ck); congruence.
Qed.

(** The end of the handler: the thread calls back for a new key, once. *)
Lemma calls_inv_work L A s en c s' : crypto_inv drawn L A s -> calls_inv A s -> drawn en -> cs_thread s = CryptoWorking c -> work en c s = Ok s' ->
  calls_inv A (cs_set_thread CryptoReady s').
Proof.
  intros Hi [Hnd Hc Ha] Hen Et. unfold work, crypto_cookie. destruct (crypto_inv_working _ _ _ _ _ Hi Et) as [ck Ec]. rewrite Ec, bind_ret_l.
  intros ([ecc answer] & Er & [= <-])%bind_Ok. pose proof (crypto_inv_facts _ _ _ _ _ _ Hi Ec) as Hf. pose proof (phase_of _ _ _ _ _ _ Hi Ec) as Hp.
  rewrite (bool_decide_eq_true_2 (cs_thread s = _)) in Hp by done.
  assert (Hq : c ∉ cs_queue s) by (intros Hq; rewrite (bool_decide_eq_true_2 (c ∈ cs_queue s)) in Hp by done; by destruct (bool_decide (c ∈ L)), (bool_decide (c ∈ cs_sources s))).
  assert (Hno : forall a, (c, a) ∉ cs_thread_calls s) by (intros a Hin; by destruct (Hc c a Hin) as (_ & _ & ? & _)).
  assert (Hans : answered drawn (cc_type ck) answer) by (by exists en, (cs_ecc s), ecc).
  assert (Hlt : (c < cs_n_cookies s)%nat) by (apply (lookup_bound _ _ _ _ _ Hi); by eexists).
  assert (Hold : forall c' a, (c', a) ∈ cs_thread_calls s -> forall calls rs,
    called_ok A (cs_set_thread CryptoReady (cs_set_thread_calls calls (acquire c rs (crypto_update c (cc_set_answer (Some answer) ck) (cs_set_ecc ecc s))))) c' a).
  { intros c' a Hin calls rs. destruct (Hc c' a Hin) as (C1 & C2 & C3 & C4 & C5). split_and!; [done|done|done|done|]. cbn.
    intros ck' [[<- _]|[Hne E0]]%lookup_insert_Some; [by apply Hno in Hin|]. by apply C5. }
  destruct (is_create_key (cc_type ck)) eqn:Ek.
  - destruct (cc_type ck) as [params lz| | | | | |] eqn:Ety; try done. split.
    + cbn. rewrite fmap_app. apply NoDup_app. split; [exact Hnd|]. split; [|apply NoDup_singleton]. intros x (y & -> & Hy)%list_elem_of_fmap Hx%list_elem_of_singleton.
      destruct y as [y a]. cbn in Hx. subst y. by apply Hno in Hy.
    + intros c' a. cbn [cs_thread_calls cs_set_thread cs_set_thread_calls]. intros [Hin|Hin%list_elem_of_singleton]%elem_of_app; [by apply Hold|]. injection Hin as -> ->.
      split_and!; [done|done|done|exists (NTB_CRYPTO_COOKIE_CREATE_KEY params lz); split_and!; [done|rewrite <- Ety; by destruct Hf|done]|].
      cbn. intros ck'. rewrite lookup_insert_eq. intros [= <-]. cbn. by rewrite Ety.
    + intros c' ck' a. cbn. intros [[<- <-]|[Hne E0]]%lookup_insert_Some Hty Ha'; [cbn in Ha'; injection Ha' as <-; set_solver|]. apply elem_of_app. left. by apply (Ha c' ck').
  - assert (Es : (match cc_type ck with NTB_CRYPTO_COOKIE_CREATE_KEY _ _ =>
        cs_set_thread_calls (cs_thread_calls s ++ [(c, answer)]) (acquire c (answer_references (cc_type ck) answer) (crypto_update c (cc_set_answer (Some answer) ck) (cs_set_ecc ecc s)))
      | _ => acquire c (answer_references (cc_type ck) answer) (crypto_update c (cc_set_answer (Some answer) ck) (cs_set_ecc ecc s)) end) =
      cs_set_thread_calls (cs_thread_calls s) (acquire c (answer_references (cc_type ck) answer) (crypto_update c (cc_set_answer (Some answer) ck) (cs_set_ecc ecc s))))
      by (by destruct (cc_type ck)).
    cbn zeta. cbn [cs_thread_calls acquire cs_set_references crypto_update cs_set_cookies cs_set_ecc] in Es |- *. rewrite Es. split.
    + exact Hnd.
    + intros c' a Hin. by apply (Hold c' a Hin (cs_thread_calls s)).
    + intros c' ck' a. cbn. intros [[<- <-]|[Hne E0]]%lookup_insert_Some Hty Ha'; [cbn in Hty; congruence|]. by apply (Ha c' ck').
Qed.

Lemma calls_inv_step L A s en s' : crypto_inv drawn L A s -> calls_inv A s -> drawn en -> crypto_thread_step en s = Ok (Some s') -> calls_inv A s'.
Proof.
  intros Hi Hv Hen. unfold crypto_thread_step, crypto_thread_func. destruct (cs_thread s) as [| |c|] eqn:Et; try done.
  - intros (s1 & E1 & [= <-])%bind_Ok. apply frame_loop in E1; [by eapply calls_inv_frame|]. by rewrite Et.
  - intros (s1 & E1 & (s2 & E2 & (s3 & E3 & [= <-])%bind_Ok)%bind_Ok)%bind_Ok. pose proof (calls_inv_work _ _ _ _ _ _ Hi Hv Hen Et E1) as Hv1.
    pose proof (frame_finish _ _ _ E2) as F2. apply (calls_inv_frame A A) in F2; [|exact Hv1|done].
    apply frame_loop in E3; [by eapply calls_inv_frame|]. unfold finish_task in E2. apply bind_Ok in E2 as (ck & _ & (_ & _ & _ & ->)%unref_fields).
    by destruct (cc_cancelled ck).
Qed.

(** Of a run: only the end of a task adds a call of the thread. *)
Lemma crypto_exec_calls tr cur s : crypto_exec drawn tr cur s -> calls_inv (crypto_asked tr) s.
Proof.
  induction 1 as [|tr cur s call c s' ck _ IH Hok Ecall Ec|tr cur s c s' _ IH Ho Ec|tr s c answer _ IH Hs Eb|tr s c s' _ IH Ee|tr cur s en s' He IH Hen Es|tr cur s _ IH Et].
  - split; cbn; [constructor|intros c answer Hin; by apply not_elem_of_nil in Hin|intros c ck answer]. by rewrite lookup_empty.
  - eapply calls_inv_frame; [exact IH|intros c' t Ht; by right|by eapply frame_call].
  - eapply calls_inv_frame; [exact IH|intros c' t Ht; by right|by eapply frame_cancel].
  - eapply calls_inv_frame; [exact IH|intros c' t Ht; by right|done].
  - eapply calls_inv_frame; [exact IH|done|by eapply frame_idle_end].
  - destruct (crypto_exec_inv _ _ _ _ He) as (Hi & _). by eapply calls_inv_step.
  - eapply calls_inv_frame; [exact IH|done|by apply frame_thread].
Qed.
End invariant.
End crypto_thread_calls.
