(* ===== verification/CryptoQueueTheorems.v ===== *)
(** * CryptoQueueTheorems: the properties of the queue of ntb-crypto.c (for [CryptoQueue])

    What [CryptoQueueSpec] shows of the runs of the main loop and the thread. *)

From Stdlib Require Import Sorted.
From S2P Require Import Prelude Endian Buffer NetAddress OpenSSL Proto ProtoSpec NetText KeyValue Base58 Address Outgoings Ecc Keys HashTable Connection Crypto CryptoSpec CryptoQueue CryptoQueueSpec CryptoThreadCalls.

Section crypto_queue_theorems.
Context `{Digests} `{BigNum} `{!Elliptic} `{Symmetric} `{Digest256} `{!Ecdsa}.
Context (drawn : entropy -> Prop).

(** The cookie is gone after its callback. *)
Lemma idle_end_gone L A s c s' : crypto_inv drawn L A s -> c ∈ cs_sources s -> crypto_idle_end c s = Ok s' -> cs_cookies s' !! c = None.
Proof.
  intros Hi Hs Ee. destruct (idle_end_spec _ _ _ _ _ Hi Hs) as (HL & s0 & E0 & Hi0). rewrite Ee in E0. injection E0 as <-.
  destruct (cs_cookies s' !! c) as [ck|] eqn:Ec; [|done]. exfalso. destruct (crypto_inv_source _ _ _ _ _ Hi Hs) as [ck0 Ec0].
  pose proof (phase_of _ _ _ _ _ _ Hi0 Ec) as Hp. pose proof (phase_of _ _ _ _ _ _ Hi Ec0) as Hp0. destruct (idle_end_fields _ _ _ Ee) as (_ & _ & Et).
  rewrite (bool_decide_eq_false_2 (c ∈ _ ∖ _)), Et in Hp by set_solver. rewrite (bool_decide_eq_true_2 (c ∈ cs_sources s)) in Hp0 by done.
  by destruct (bool_decide (c ∈ L)), (bool_decide (c ∈ cs_queue s)), (bool_decide (cs_thread s = CryptoWorking c)), (bool_decide (c ∈ cs_queue s')), (bool_decide (c ∈ cs_sources s')).
Qed.

(** C10: whatever the order in which the main loop queues, cancels and is called back
    and the thread takes and ends tasks, no freed cookie is read, no source or
    reference is given up twice, and a reference is held exactly while the cookie that
    owns it is in memory. *)
Theorem crypto_queue_safe tr cur s : crypto_exec drawn tr cur s ->
  (forall call, call_ok call -> exists c s', make_call call s = Ok (c, s')) /\
  (forall c, c ∈ crypto_outstanding tr -> exists s', ntb_crypto_cancel_task c s = Ok s') /\
  (forall c, cur = None -> c ∈ cs_sources s -> exists answer, crypto_idle_begin c s = Ok answer) /\
  (forall c, cur = Some c -> exists s', crypto_idle_end c s = Ok s') /\
  (forall en, drawn en -> runs en s -> exists r, crypto_thread_step en s = Ok r) /\
  forall c r, (c, r) ∈ cs_references s <-> exists ck, cs_cookies s !! c = Some ck /\ r ∈ owned ck.
Proof.
  intros He. destruct (crypto_exec_inv _ _ _ _ He) as (Hi & _ & _ & Hc). split_and!.
  - intros call Hok. destruct (call_spec _ _ _ _ s call Hi Hok ltac:(done)) as (c & s' & _ & E & _). by exists c, s'.
  - intros c Ho. destruct (crypto_cancel_spec _ _ _ _ c Hi) as (s' & E & _); [unfold live; set_solver|by exists s'].
  - intros c _ Hs. destruct (idle_begin_spec _ _ _ _ _ Hi Hs) as (answer & _ & E & _). by exists answer.
  - intros c Ecur. destruct (Hc c Ecur) as [Hs _]. destruct (idle_end_spec _ _ _ _ _ Hi Hs) as (_ & s' & E & _). by exists s'.
  - intros en Hen Hr. destruct (crypto_step_spec _ _ _ _ en Hi Hen Hr) as (r & E & _). by exists r.
  - intros c r. by eapply references_owned.
Qed.

(** The callbacks of one cookie among the calls of the thread: none. *)
Lemma no_thread_calls_of c (l : list (nat * crypto_answer)) : (forall answer, (c, answer) ∉ l) -> filter (fun p => p.1 = c) l = [].
Proof.
  induction l as [|[c' a] l IH]; intros Hno; [done|]. rewrite filter_cons_False; [apply IH; intros answer Hin; apply (Hno answer); by right|].
  cbn. intros ->. apply (Hno a). by left.
Qed.

(** The callbacks of one cookie among the calls of the thread. *)
Lemma thread_calls_of c answer (l : list (nat * crypto_answer)) : NoDup l.*1 -> (c, answer) ∈ l -> filter (fun p => p.1 = c) l = [(c, answer)].
Proof.
  induction l as [|[c' a] l IH]; cbn [fmap list_fmap fst]; [by intros _ Hin%not_elem_of_nil|]. intros [Hno Hn]%NoDup_cons [[= <- <-]|Hin]%elem_of_cons.
  - rewrite filter_cons_True by done. f_equal. apply no_thread_calls_of. intros a2 Hin. apply Hno. apply list_elem_of_fmap. by exists (c, a2).
  - rewrite filter_cons_False; [by apply IH|]. cbn. intros ->. apply Hno. apply list_elem_of_fmap. by exists (c, answer).
Qed.

(** C12: a callback that the main loop makes is for a task that was asked for and has
    neither been cancelled nor called back by it, with an answer that its handler gives;
    no task ends twice there. It is the task's only callback, but for a new key: its
    callback has then been called exactly once before, by the thread, with the same key.
    The thread makes no other calls: one at most for each new key that was asked for,
    cancelled or not. *)
Theorem crypto_callbacks_valid tr s c answer s' :
  crypto_exec drawn tr None s -> c ∈ cs_sources s -> crypto_idle_begin c s = Ok answer -> crypto_idle_end c s = Ok s' ->
  c ∈ crypto_outstanding tr /\ c ∉ crypto_ended tr /\ NoDup (crypto_ended tr) /\ cs_cookies s' !! c = None /\
  (exists type, CryptoAsked c type ∈ tr /\ answered drawn type answer /\
    filter (fun p => p.1 = c) (cs_thread_calls s) = if is_create_key type then [(c, answer)] else []) /\
  NoDup (cs_thread_calls s).*1 /\
  forall c' a, (c', a) ∈ cs_thread_calls s -> exists type, is_create_key type = true /\ CryptoAsked c' type ∈ tr /\ answered drawn type a.
Proof.
  intros He Hs Eb Ee. destruct (crypto_exec_inv _ _ _ _ He) as (Hi & _). destruct (crypto_exec_ended _ _ _ _ He) as [Hn Hend].
  destruct (crypto_exec_calls _ _ _ _ He) as [Hnd Hcalled Hans].
  destruct (idle_end_spec _ _ _ _ _ Hi Hs) as (HL & s0 & E0 & Hi0). rewrite Ee in E0. injection E0 as <-. unfold live in HL. rewrite (right_id_L _ _) in HL.
  split_and!; [done|intros Hin; by apply Hend in Hin as [_ ?]|done| | |done|].
  - exact (idle_end_gone _ _ _ _ _ Hi Hs Ee).
  - destruct (crypto_inv_source _ _ _ _ _ Hi Hs) as [ck Ec]. unfold crypto_idle_begin, crypto_cookie in Eb. rewrite Ec, bind_ret_l in Eb.
    destruct (cc_answer ck) as [a|] eqn:Ea; [|done]. injection Eb as ->. pose proof (crypto_inv_facts _ _ _ _ _ _ Hi Ec) as Hf.
    exists (cc_type ck). split_and!; [exact (cf_asked _ _ _ _ _ _ Hf)|by apply (cf_answered _ _ _ _ _ _ Hf)|].
    destruct (is_create_key (cc_type ck)) eqn:Ek.
    + apply thread_calls_of; [done|]. by apply (Hans c ck).
    + apply no_thread_calls_of. intros a2 Hin. destruct (Hcalled c a2 Hin) as (_ & _ & _ & _ & Hck). destruct (Hck ck Ec). congruence.
  - intros c' a Hin. by destruct (Hcalled c' a Hin) as (_ & _ & _ & ? & _).
Qed.

(** C11: when the handlers of the waiting tasks end, one step of the thread for each
    and one more empty the queue, and their callbacks are ready in the order in which the
    tasks were asked for. *)
Theorem crypto_drains tr cur s ens :
  crypto_exec drawn tr cur s -> length ens = S (length (cs_queue s)) -> Forall drawn ens -> pending_run ens (working s ++ cs_queue s) (crypto_asked tr) ->
  exists s', crypto_run ens s = Ok s' /\ cs_queue s' = [] /\ cs_thread s' = CryptoWaiting /\
    cs_sources s' = cs_sources s ++ filter (.∈ crypto_outstanding tr) (working s) ++ cs_queue s /\ StronglySorted lt (cs_sources s').
Proof.
  intros He Hlen Hd Hp. destruct (crypto_exec_inv _ _ _ _ He) as (Hi & Hq & _ & Hc).
  destruct (drain_spec _ _ _ ens s Hi Hq (crypto_exec_thread_runs _ _ _ _ He) Hlen Hd Hp) as (s' & E & Hi' & Hqs & Hts & Hss).
  exists s'. split_and!; [done|done|done| |].
  - rewrite Hss. f_equal. f_equal. unfold working. destruct (cs_thread s) as [| |c|] eqn:Et; try done. unfold live. destruct cur as [c'|]; [|by rewrite (right_id_L _ _)].
    assert (Hne : c' <> c).
    { intros ->. destruct (Hc c eq_refl) as [Hs _]. destruct (crypto_inv_source _ _ _ _ _ Hi Hs) as [ck Ec]. pose proof (phase_of _ _ _ _ _ _ Hi Ec) as Hph.
      rewrite (bool_decide_eq_true_2 (c ∈ cs_sources s)), (bool_decide_eq_true_2 (cs_thread s = CryptoWorking c)) in Hph by done. by destruct (bool_decide _), (bool_decide _). }
    destruct (decide (c ∈ crypto_outstanding tr)); [rewrite !filter_cons_True by set_solver|rewrite !filter_cons_False by set_solver]; done.
  - pose proof (ci_order _ _ _ _ Hi') as Ho. unfold task_order, working in Ho. by rewrite Hts, Hqs, !app_nil_r in Ho.
Qed.

(** [ntb_crypto_free] ends the thread after at most the task at hand, and what was
    asked for and not cancelled or called back by then keeps its references to keys,
    blobs and labels: they are lost with the memory of the cookies. *)
Theorem crypto_free_leaks tr s en :
  crypto_exec drawn tr None s -> drawn en -> runs en s ->
  exists s', crypto_thread_step en (ntb_crypto_free_begin s) = Ok (Some s') /\ cs_thread s' = CryptoExited /\
    (forall c, is_Some (cs_cookies s' !! c) <-> c ∈ crypto_outstanding tr) /\
    forall c r, (c, r) ∈ cs_references (ntb_crypto_free_end s') <-> exists ck, cs_cookies s' !! c = Some ck /\ r ∈ owned ck.
Proof.
  intros He Hen Hr. destruct (crypto_exec_inv _ _ _ _ He) as (Hi & _).
  destruct (free_spec _ _ _ s en Hi (crypto_exec_thread_runs _ _ _ _ He) Hen Hr) as (s' & E & Ht & Hi'). exists s'. split_and!; [done|done| |].
  - intros c. rewrite (live_cookie _ _ _ s' c Hi') by (unfold working; by rewrite Ht). unfold live. set_solver.
  - intros c r. exact (references_owned _ _ _ s' c r Hi').
Qed.

(** The callback of a new key is called by the thread, before the main loop calls it. *)
Theorem create_key_calls_twice en c s ck params leading_zeroes s' :
  cs_cookies s !! c = Some ck -> cc_type ck = NTB_CRYPTO_COOKIE_CREATE_KEY params leading_zeroes -> work en c s = Ok s' ->
  exists answer, cs_thread_calls s' = cs_thread_calls s ++ [(c, answer)] /\ crypto_idle_begin c s' = Ok answer.
Proof.
  intros Ec Et. unfold work, crypto_cookie. rewrite Ec, bind_ret_l. intros ([ecc answer] & _ & [= <-])%bind_Ok. exists answer. rewrite Et. split; [done|].
  unfold crypto_idle_begin, crypto_cookie. cbn. by rewrite lookup_insert_eq, bind_ret_l.
Qed.
End crypto_queue_theorems.

(** ** Runs at concrete tasks *)

Section crypto_queue_witness.
#[local] Existing Instances Digests_toy BigNum_N Elliptic_toy Symmetric_toy Digest256_toy Ecdsa_toy.

Definition demo_key_params : ntb_key_params := KeyParams NTB_KEY_PARAM_LABEL [104; 105] 4 1 [] [] [] [] 1000 1000 [] 0 false false.
Definition demo_asked : list crypto_event :=
  [CryptoAsked 2 NTB_CRYPTO_COOKIE_GENERATE_ACKDATA; CryptoAsked 1 (NTB_CRYPTO_COOKIE_CREATE_KEY demo_key_params 0); CryptoAsked 0 NTB_CRYPTO_COOKIE_GENERATE_ACKDATA].
Definition demo_get {A} (d : A) (r : result unit A) : A := match r with Ok x => x | _ => d end.
Definition demo_some {A} (r : result unit (option A)) : result unit A := match r with Ok (Some x) => Ok x | _ => UB end.
Definition demo_ok {A} (r : result unit A) : bool := match r with Ok _ => true | _ => false end.
(** What an operation gives, when only the kind of its result is evaluated. *)
Lemma demo_get_ok {A} (d : A) r : demo_ok r = true -> r = Ok (demo_get d r).
Proof. by destruct r. Qed.
Lemma demo_some_ok {A} (d : A) r : demo_ok (demo_some r) = true -> r = Ok (Some (demo_get d (demo_some r))).
Proof. by destruct r as [[x|]| | |]. Qed.
Definition demo_after (call : crypto_call) (s : ntb_crypto) : ntb_crypto := (demo_get (0%nat, s) (make_call call s)).2.
Definition demo_queued : ntb_crypto := demo_after CallGenerateAckdata (demo_after (CallCreateKey demo_key_params 0) (demo_after CallGenerateAckdata ntb_crypto_new)).
(** The key is cancelled while the thread works on the first task. *)
Definition demo_taken : ntb_crypto := demo_get demo_queued (demo_some (crypto_thread_step demo_entropy demo_queued)).
Definition demo_cancelled : ntb_crypto := demo_get demo_taken (ntb_crypto_cancel_task 1 demo_taken).
Definition demo_drawn (en : entropy) : Prop := en = demo_entropy.

Ltac demo_compute := match goal with |- _ = ?x => exact_no_check (eq_refl x) end.

Lemma demo_queued_exec : crypto_exec demo_drawn demo_asked None demo_queued.
Proof.
  assert (Hcall : forall tr s call c type, crypto_exec demo_drawn tr None s -> call_ok call ->
    demo_ok (make_call call s) = true -> (demo_get (0%nat, s) (make_call call s)).1 = c -> cc_type <$> cs_cookies (demo_after call s) !! c = Some type ->
    crypto_exec demo_drawn (CryptoAsked c type :: tr) None (demo_after call s)).
  { intros tr s call c type He Hok E Ec0 Et. apply (demo_get_ok (0%nat, s)) in E. rewrite (surjective_pairing (demo_get _ _)), Ec0 in E. apply fmap_Some in Et as (ck & Ec & ->). by eapply crypto_exec_call. }
  unfold demo_asked, demo_queued.
  apply (Hcall _ _ CallGenerateAckdata); [|exact I|demo_compute..].
  apply (Hcall _ _ (CallCreateKey demo_key_params 0)); [|reflexivity|demo_compute..].
  apply (Hcall _ _ CallGenerateAckdata); [|exact I|demo_compute..]. apply crypto_exec_new.
Qed.
Lemma demo_taken_exec : crypto_exec demo_drawn demo_asked None demo_taken.
Proof. eapply (crypto_exec_thread demo_drawn _ _ demo_queued demo_entropy); [exact demo_queued_exec|reflexivity|apply demo_some_ok; demo_compute]. Qed.
Lemma demo_cancelled_exec : crypto_exec demo_drawn (CryptoCancelled 1 :: demo_asked) None demo_cancelled.
Proof. eapply (crypto_exec_cancel demo_drawn _ _ demo_taken 1%nat); [exact demo_taken_exec|set_solver|apply demo_get_ok; demo_compute]. Qed.
Definition demo_ready : ntb_crypto := demo_get demo_cancelled (demo_some (crypto_thread_step demo_entropy demo_cancelled)).
Lemma demo_ready_exec : crypto_exec demo_drawn (CryptoCancelled 1 :: demo_asked) None demo_ready.
Proof. eapply (crypto_exec_thread demo_drawn _ _ demo_cancelled demo_entropy); [exact demo_cancelled_exec|reflexivity|apply demo_some_ok; demo_compute]. Qed.
Definition demo_ended : ntb_crypto := demo_get demo_ready (crypto_idle_end 0 demo_ready).

Lemma demo_thread : cs_thread demo_taken = CryptoWorking 0 /\ cs_queue demo_taken = [1%nat; 2%nat] /\ cs_thread demo_cancelled = CryptoWorking 0 /\ cs_queue demo_cancelled = [2%nat].
Proof. split_and!; demo_compute. Qed.
Lemma demo_first : cc_type <$> cs_cookies demo_taken !! 0%nat = Some NTB_CRYPTO_COOKIE_GENERATE_ACKDATA /\ cc_type <$> cs_cookies demo_cancelled !! 0%nat = Some NTB_CRYPTO_COOKIE_GENERATE_ACKDATA.
Proof. split; demo_compute. Qed.
(** The handler of the first task ends. *)
Lemma demo_runs en : runs en demo_taken /\ runs en demo_cancelled.
Proof.
  destruct demo_thread as (E1 & _ & E2 & _), demo_first as [F1 F2].
  split; intros c ck Et Ec; rewrite ?E1, ?E2 in Et; injection Et as <-; [rewrite Ec in F1; injection F1 as ->|rewrite Ec in F2; injection F2 as ->]; by eexists _, _.
Qed.

Lemma crypto_queue_safe_witness :
  (exists s', ntb_crypto_cancel_task 0 demo_cancelled = Ok s') /\ (exists r, crypto_thread_step demo_entropy demo_cancelled = Ok r) /\
  exists ck, cs_cookies demo_taken !! 1%nat = Some ck /\ CryptoLabel ∈ owned ck.
Proof.
  destruct (crypto_queue_safe demo_drawn _ None demo_cancelled demo_cancelled_exec) as (_ & Hc & _ & _ & Hs & _).
  destruct (crypto_queue_safe demo_drawn _ None demo_taken demo_taken_exec) as (_ & _ & _ & _ & _ & Hr). split_and!.
  - apply Hc. apply (bool_decide_unpack _). vm_compute. exact I.
  - apply Hs; [reflexivity|apply demo_runs].
  - apply Hr. apply (bool_decide_unpack _). vm_compute. exact I.
Defined.

Lemma crypto_callbacks_valid_witness :
  cs_sources demo_ready = [0%nat] /\ cs_cookies demo_ended !! 0%nat = None /\ (exists type, CryptoAsked 0 type ∈ CryptoCancelled 1 :: demo_asked /\ answered demo_drawn type (AnswerAckdata (replicate 32 8)) /\
    filter (fun p => p.1 = 0%nat) (cs_thread_calls demo_ready) = if is_create_key type then [(0%nat, AnswerAckdata (replicate 32 8))] else []).
Proof.
  destruct (crypto_callbacks_valid demo_drawn _ demo_ready 0 (AnswerAckdata (replicate 32 8)) demo_ended demo_ready_exec) as (_ & _ & _ & Hn & Ht & _).
  - apply (bool_decide_unpack _). vm_compute. exact I.
  - demo_compute.
  - apply demo_get_ok. demo_compute.
  - split; [demo_compute|]. split; [exact Hn|exact Ht].
Defined.

Lemma crypto_drains_witness : exists s', crypto_run [demo_entropy; demo_entropy] demo_cancelled = Ok s' /\ cs_queue s' = [] /\ cs_sources s' = [0%nat; 2%nat].
Proof.
  destruct demo_thread as (_ & _ & E & Eq).
  destruct (crypto_drains demo_drawn _ None demo_cancelled [demo_entropy; demo_entropy] demo_cancelled_exec) as (s' & Er & Hq & _ & Hs & _).
  - rewrite Eq. reflexivity.
  - repeat constructor.
  - intros en c type ecc _ Hc Ht. unfold working in Hc. rewrite E, Eq in Hc. unfold crypto_asked, demo_asked in Ht. rewrite !elem_of_cons in Ht.
    assert (Hty : type = NTB_CRYPTO_COOKIE_GENERATE_ACKDATA).
    { destruct Ht as [Ht|[[= _ ->]|[[= -> _]|[[= _ ->]|Ht]]]]; [discriminate Ht|reflexivity| |reflexivity|by apply not_elem_of_nil in Ht].
      exfalso. revert Hc. apply (bool_decide_unpack _). vm_compute. exact I. }
    rewrite Hty. eexists _, _. reflexivity.
  - exists s'. split; [exact Er|]. split; [exact Hq|]. rewrite Hs. unfold working. rewrite E, Eq.
    assert (Es : cs_sources demo_cancelled = []) by demo_compute. rewrite Es. vm_compute. reflexivity.
Defined.

Lemma crypto_free_leaks_witness :
  exists s', crypto_thread_step demo_entropy (ntb_crypto_free_begin demo_taken) = Ok (Some s') /\ cs_thread s' = CryptoExited /\ is_Some (cs_cookies s' !! 1%nat).
Proof.
  destruct (crypto_free_leaks demo_drawn _ demo_taken demo_entropy demo_taken_exec) as (s' & E & Et & Hl & _); [reflexivity|apply demo_runs|].
  exists s'. split; [exact E|]. split; [exact Et|]. apply Hl. apply (bool_decide_unpack _). vm_compute. exact I.
Defined.
End crypto_queue_witness.
