(* ===== verification/ConnectionSpec.v ===== *)
(** * ConnectionSpec: properties of a peer connection

    Safety of the command handlers on every input, the framing of the byte
    stream, the splitting of long lists over several commands, and the queue of
    requested objects. *)

From S2P Require Import Prelude Endian Buffer NetAddress OpenSSL Proto ProtoSpec Connection.

(** ** Safety of the command handlers *)

(** A connection that is still polled and whose output can grow by [n] bytes. *)
Definition room (c : ntb_connection) (n : Z) : Prop :=
  is_Some (conn_socket_source c) /\ buf_wf (conn_out_buf c) /\
  buf_length (conn_out_buf c) + n <= 2 ^ 61.

Lemma room_le c n m : room c n -> m <= n -> room c m.
Proof. intros (? & ? & ?) ?. split_and!; try done. lia. Qed.

(** What a connection relies on: a listener that reports the connection alive has
    not touched the input and has added at most [G] bytes of output. *)
Class ListenerOk {L} (listener : ntb_connection_event -> ntb_connection * L ->
    bool * (ntb_connection * L)) (G : Z) : Prop := {
  listener_budget : 0 <= G;
  listener_alive e s s' n :
    room (fst s) (n + G) -> listener e s = (true, s') ->
    conn_in_buf (fst s') = conn_in_buf (fst s) /\ room (fst s') n
}.

Section safety.
Context `{DigestLaws} {L : Type}.
Context (listener : ntb_connection_event -> ntb_connection * L -> bool * (ntb_connection * L)).
Context (G : Z) `{!ListenerOk listener G}.
Implicit Types (s : ntb_connection * L) (data : ptr).

(** The outcome of a handler: it returns, and when the connection is still alive
    its input is untouched and [n] bytes of output remain allowed. *)
Definition handled s n (r : result unit (bool * (ntb_connection * L))) : Prop :=
  match r with
  | Ok (ok, s') =>
      ok = true -> conn_in_buf (fst s') = conn_in_buf (fst s) /\ room (fst s') n
  | Err _ | UB | OutOfFuel => False
  end.

Lemma handled_fail s n : handled s n (fail_command listener s).
Proof. by intros [=]. Qed.

Lemma handled_emit e s n :
  room (fst s) (n + G) -> handled s n (emit_event listener e s).
Proof.
  intros Hr. unfold emit_event, handled. destruct (listener e s) as [ok s'] eqn:E.
  intros ->. by apply (listener_alive e s).
Qed.

(** Parsing arguments on good data. *)
Lemma parse_cases {A} (P : A -> Z -> Prop) (r : result unit (A * Z)) len :
  match r with Ok (v, n) => P v n /\ 0 <= n <= len | Err _ => True | UB | OutOfFuel => False end ->
  parse r = Ok None \/ exists v n, parse r = Ok (Some (v, n)) /\ P v n /\ 0 <= n <= len.
Proof. destruct r as [[v n]| | |]; try done; [right; by exists v, n|by left]. Qed.

Lemma parse_Some {A} (r : result unit A) a : parse r = Ok (Some a) -> r = Ok a.
Proof. destruct r; try done. by intros [= ->]. Qed.

Lemma parse_command_cases l data len :
  cur_ok (data, len) ->
  parse (ntb_proto_get_command l data len) = Ok None \/
  exists vs n, parse (ntb_proto_get_command l data len) = Ok (Some (vs, n)) /\
    args_range l vs /\ 0 <= n <= len.
Proof.
  intros Hc. apply (parse_cases (fun vs _ => args_range l vs)). by apply get_command_safe.
Qed.

Lemma parse_var_int_cases data len :
  cur_ok (data, len) ->
  parse (ntb_proto_get_var_int (data, len)) = Ok None \/
  exists v data' len', parse (ntb_proto_get_var_int (data, len)) = Ok (Some (v, (data', len'))) /\
    0 <= v < 2 ^ 64 /\ cur_ok (data', len') /\ len' < len.
Proof.
  intros Hc. pose proof (get_var_int_safe _ Hc) as Hs. pose proof (get_var_int_progress (data, len)) as Hp.
  destruct (ntb_proto_get_var_int (data, len)) as [[v [d' l']]| | |]; try done; [right|by left].
  destruct Hs as [Hv Hm]. exists v, d', l'. split_and!; try done; try lia.
  - by eapply cur_ok_moved.
  - by apply (Hp v (d', l')).
Qed.

(** An address record takes at least the bytes of its timestamp. *)
Lemma get_timestamp_progress c v c' :
  cur_ok c -> ntb_proto_get_timestamp c = Ok (v, c') -> snd c' < snd c.
Proof.
  intros Hc Hg. pose proof (get_timestamp_safe c Hc) as Hs. rewrite Hg in Hs.
  destruct Hs as [_ (k & Hk & ->)]. cbn [snd]. enough (k <> 0) by lia. intros ->. revert Hg.
  unfold ntb_proto_get_timestamp. pose proof Hc as (Hl & Hz & Hb).
  destruct (Z.ltb_spec (snd c) 4); [done|].
  destruct (get_32_range (fst c)) as (w & -> & _); [lia|done|]. rewrite bind_ret_l.
  unfold advance. cbn [fst snd]. rewrite (u32_small (snd c - 4)) by lia.
  destruct (w =? 0).
  - destruct (Z.ltb_spec (snd c - 4) 4); [done|]. intros Hg. bind_inv.
    rewrite u32_small in * by lia. lia.
  - intros [= _ _ E]. lia.
Qed.

Lemma addr_progress data len vs n :
  cur_ok (data, len) -> ntb_proto_get_command addr_arguments data len = Ok (vs, n) -> 1 <= n.
Proof.
  intros Hc Hg. unfold ntb_proto_get_command, addr_arguments in Hg.
  apply bind_Ok in Hg as ([vs' c] & Hg & [= _ <-]). cbn [get_arguments] in Hg.
  apply bind_Ok in Hg as ([t c1] & Ht & Hg). apply bind_Ok in Hg as ([vs2 c2] & Hg & [= _ <-]).
  pose proof (get_timestamp_progress _ _ _ Hc Ht) as Hp.
  pose proof (get_timestamp_safe _ Hc) as Hs. cbn [get_argument] in Ht. rewrite Ht in Hs.
  destruct Hs as [_ Hm]. pose proof (cur_ok_moved _ _ Hc Hm) as Hc1.
  pose proof (get_arguments_safe [NTB_PROTO_ARGUMENT_32; NTB_PROTO_ARGUMENT_64;
    NTB_PROTO_ARGUMENT_NETADDRESS] c1 Hc1) as Hs.
  cbn [get_arguments] in Hs. rewrite Hg in Hs. destruct Hs as [_ Hm2].
  pose proof (moved_trans _ _ _ Hm Hm2) as (k & Hk & ->). destruct Hm2 as (j & Hj & E).
  cbn [fst snd] in *. apply (f_equal snd) in E. cbn [snd] in E.
  destruct Hc as (? & Hz & _). cbn [fst snd] in *. rewrite zlen_drop. lia.
Qed.

Lemma addr_loop_handled fuel n data len s m :
  cur_ok (data, len) -> len < Z.of_nat fuel -> 0 <= m ->
  room (fst s) (m + (len + 1) * G) -> handled s m (addr_loop listener fuel n data len s).
Proof.
  pose proof (listener_budget (listener := listener)) as HG.
  revert n data len s. induction fuel as [|fuel IH]; intros n data len s Hc Hf Hm Hr.
  { destruct Hc as ((? & ?) & _). cbn [snd] in *. lia. }
  pose proof Hc as ((? & ?) & ? & ?). cbn [fst snd] in *. cbn [addr_loop].
  assert (Hr' : room (fst s) m) by (eapply room_le; [exact Hr|nia]).
  destruct (n =? 0); [by intros _|].
  destruct (parse_command_cases addr_arguments data len Hc) as [->|(vs & k & E & Hrg & Hk)].
  { apply handled_fail. }
  rewrite E, bind_ret_l. destruct vs as (ts & st & sv & ad & []).
  assert (1 <= k).
  { apply (addr_progress data len (ts, (st, (sv, (ad, ()))))); [done|]. by apply parse_Some. }
  unfold emit_event. rewrite bind_ret_l.
  destruct (listener _ s) as [[|] s'] eqn:El; [|by intros [=]].
  destruct (listener_alive _ s s' (m + len * G) ltac:(eapply room_le; [exact Hr|nia]) El)
    as [Hin Hr2].
  rewrite u32_small by lia.
  assert (Hc2 : cur_ok (drop (Z.to_nat k) data, len - k)).
  { unfold cur_ok. cbn [fst snd]. split_and!; [lia|lia|rewrite zlen_drop; lia|auto with ntb]. }
  specialize (IH (n - 1) (drop (Z.to_nat k) data) (len - k) s' Hc2 ltac:(lia) Hm).
  unfold handled in *. destruct (addr_loop _ fuel _ _ _ s') as [[ok s'']| | |];
    try (apply IH; eapply room_le; [exact Hr2|nia]).
  intros Hok. destruct IH as [Hin2 Hr3]; [eapply room_le; [exact Hr2|nia]|done|].
  by rewrite Hin2.
Qed.

(** Every handler of the table is safe on good data. *)
Definition handler_ok (f : ntb_connection * L -> ptr -> Z -> result unit (bool * (ntb_connection * L))) :
    Prop :=
  forall s data len m, cur_ok (data, len) -> 0 <= m ->
    room (fst s) (m + (len + 24) * (G + 33)) -> handled s m (f s data len).

Lemma list_handler_ok f (ev : Z -> ptr -> ntb_connection_event) :
  (forall s data len, f s data len =
    r ← parse (ntb_proto_get_var_int (data, len));
    match r with
    | None => fail_command listener s
    | Some (n, (data, len)) =>
        if len <? u64 (n * NTB_PROTO_HASH_LENGTH) then fail_command listener s
        else emit_event listener (ev n data) s
    end) -> handler_ok f.
Proof.
  intros Hf s data len m Hc Hm Hr. rewrite Hf.
  pose proof (listener_budget (listener := listener)). pose proof Hc as ((? & ?) & _).
  destruct (parse_var_int_cases data len Hc) as [->|(v & d' & l' & -> & _)]; [apply handled_fail|].
  rewrite bind_ret_l. destruct (_ <? _); [apply handled_fail|].
  apply handled_emit. eapply room_le; [exact Hr|]. cbn [snd] in *. nia.
Qed.

Lemma object_handler_ok f l (ev : args_ty l -> ptr -> Z -> ntb_connection_event) :
  (forall s data len, f s data len =
    r ← parse (ntb_proto_get_command l data len);
    match r with
    | None => fail_command listener s
    | Some (vs, _) => emit_event listener (ev vs data len) s
    end) -> handler_ok f.
Proof.
  intros Hf s data len m Hc Hm Hr. rewrite Hf.
  pose proof (listener_budget (listener := listener)). pose proof Hc as ((? & ?) & _).
  destruct (parse_command_cases l data len Hc) as [->|(vs & n & -> & _)]; [apply handled_fail|].
  rewrite bind_ret_l. apply handled_emit. eapply room_le; [exact Hr|]. cbn [snd] in *. nia.
Qed.

Lemma send_pong_ok c m :
  0 <= m -> room c (m + 33) ->
  exists c', send_pong c = Ok c' /\ conn_in_buf c' = conn_in_buf c /\ room c' m.
Proof.
  intros Hm ([p Hp] & Hwf & Hl). unfold send_pong. pose proof (proj1 (proj2 Hwf)).
  destruct (add_command_frame 0 (conn_out_buf c) (str_bytes "pong") [] tt) as (b & -> & Hb & Hbl & _);
    [done|done|split; [done|]|done|].
  { change (zlen (enc_arguments 0 [] ())) with 0. lia. }
  rewrite bind_ret_l. unfold update_poll_flags. cbn [set_out_buf conn_socket_source].
  rewrite Hp. eexists. split; [reflexivity|]. split; [done|].
  unfold room. cbn. split_and!; [by eexists|done|].
  rewrite Hbl. unfold frame. rewrite !zlen_app, zlen_padded_command, zlen_checksum, zlen_be_split by done.
  change (zlen ntb_proto_magic) with 4. change (zlen (enc_arguments 0 [] ())) with 0. lia.
Qed.

Lemma ping_handler_ok : handler_ok ping_command_handler.
Proof.
  intros s data len m Hc Hm Hr. unfold ping_command_handler.
  pose proof (listener_budget (listener := listener)). pose proof Hc as ((? & ?) & _). cbn [snd] in *.
  destruct (send_pong_ok (fst s) m) as (c' & -> & Hin & Hr'); [done|eapply room_le; [exact Hr|nia]|].
  rewrite bind_ret_l. by intros _.
Qed.

Lemma addr_handler_ok : handler_ok (addr_command_handler listener).
Proof.
  intros s data len m Hc Hm Hr. unfold addr_command_handler.
  pose proof (listener_budget (listener := listener)). pose proof Hc as ((? & ?) & _). cbn [snd] in *.
  destruct (parse_var_int_cases data len Hc) as [->|(v & d' & l' & -> & _ & Hc' & Hlt)];
    [apply handled_fail|].
  rewrite bind_ret_l. apply addr_loop_handled; [done| |done|].
  - destruct Hc' as ((? & ?) & _). cbn [snd] in *. lia.
  - eapply room_le; [exact Hr|]. nia.
Qed.

Lemma verack_handler_ok : handler_ok (verack_command_handler listener).
Proof.
  intros s data len m Hc Hm Hr. apply handled_emit. eapply room_le; [exact Hr|].
  pose proof (listener_budget (listener := listener)). destruct Hc as ((? & ?) & _). cbn [snd] in *. nia.
Qed.

Lemma versioned_handler_ok type : handler_ok (versioned_command_handler listener type).
Proof.
  apply (object_handler_ok _ versioned_arguments (fun vs data len =>
    let '(nonce, (timestamp, (_, (stream_number, _)))) := vs in
    NTB_CONNECTION_EVENT_OBJECT (ObjectEvent type nonce timestamp stream_number data len))).
  intros s data len. unfold versioned_command_handler.
  by destruct (parse _) as [[[(? & ? & ? & ? & ?) ?]|]| | |].
Qed.

Lemma msg_handler_ok : handler_ok (msg_command_handler listener).
Proof.
  apply (object_handler_ok _ msg_arguments (fun vs data len =>
    let '(nonce, (timestamp, (stream_number, _))) := vs in
    NTB_CONNECTION_EVENT_OBJECT
      (ObjectEvent NTB_PROTO_INV_TYPE_MSG nonce timestamp stream_number data len))).
  intros s data len. unfold msg_command_handler.
  by destruct (parse _) as [[[(? & ? & ? & ?) ?]|]| | |].
Qed.

Lemma version_handler_ok : handler_ok (version_command_handler listener).
Proof.
  apply (object_handler_ok _ version_arguments (fun vs data len =>
    let '(version, (services, (timestamp, (_, (addr_recv, (_, (addr_from, (nonce,
          (user_agent, (stream_numbers, _)))))))))) := vs in
    NTB_CONNECTION_EVENT_VERSION (VersionEvent version services timestamp addr_recv addr_from
      nonce user_agent stream_numbers))).
  intros s data len. unfold version_command_handler.
  by destruct (parse _) as [[[(? & ? & ? & ? & ? & ? & ? & ? & ? & ? & ?) ?]|]| | |].
Qed.

Lemma command_handlers_ok : Forall (fun h => handler_ok (snd h)) (command_handlers listener).
Proof.
  repeat constructor; cbn [snd].
  - apply versioned_handler_ok.
  - apply versioned_handler_ok.
  - apply msg_handler_ok.
  - apply versioned_handler_ok.
  - by apply (list_handler_ok _ NTB_CONNECTION_EVENT_INV).
  - apply version_handler_ok.
  - apply addr_handler_ok.
  - by apply (list_handler_ok _ NTB_CONNECTION_EVENT_GETDATA).
  - apply verack_handler_ok.
  - apply ping_handler_ok.
Qed.

Lemma dispatch_ok s name data len m :
  cur_ok (data, len) -> 0 <= m -> room (fst s) (m + (len + 24) * (G + 33)) ->
  handled s m (dispatch listener s name data len).
Proof.
  intros Hc Hm Hr. pose proof (listener_budget (listener := listener)).
  pose proof Hc as ((? & ?) & _). cbn [snd] in *. unfold dispatch.
  destruct (List.find _ _) as [[n f]|] eqn:Ef.
  - apply find_some in Ef as [Hin _]. pose proof command_handlers_ok as Hf.
    rewrite List.Forall_forall in Hf. by apply (Hf (n, f) Hin).
  - intros _. split; [done|]. eapply room_le; [exact Hr|nia].
Qed.

(** ** The framing loop *)

Lemma memchr_off_total n p :
  (n <= length p)%nat -> exists r, memchr_off 0 n p = Ok r /\
    match r with Some e => (e < n)%nat | None => True end.
Proof.
  revert p. induction n as [|n IH]; intros p Hn; [by exists None|].
  destruct p as [|b p]; [cbn in Hn; lia|]. cbn [memchr_off deref]. rewrite bind_ret_l.
  destruct (b =? 0); [exists (Some O); split; [done|lia]|]. cbn [length] in Hn.
  destruct (IH p) as (r & E & Hr); [lia|]. change (drop 1 (b :: p)) with (drop 0 p).
  rewrite drop_0, E, bind_ret_l. exists (option_map S r). split; [done|]. destruct r; cbn; lia.
Qed.

Lemma check_command_string_total p :
  (12 <= length p)%nat ->
  exists ok, ntb_proto_check_command_string p = Ok ok /\ (ok = true -> 0 ∈ p).
Proof.
  intros Hp. unfold ntb_proto_check_command_string.
  destruct (memchr_off_total 12 p Hp) as (r & E & Hr). rewrite E, bind_ret_l.
  destruct r as [e|]; [|by exists false].
  rewrite read_bytes_Ok by (rewrite length_drop; lia). rewrite bind_ret_l. eexists. split; [done|].
  intros _. clear Hr Hp. revert p e E. generalize 12%nat as n. induction n as [|n IH]; [done|].
  intros p e. cbn [memchr_off]. destruct p as [|b p]; [done|]. cbn [deref]. rewrite bind_ret_l.
  destruct (Z.eqb_spec b 0) as [->|]; [intros _; by left|].
  intros (r & E & [= Hr])%bind_Ok. destruct r as [e'|]; [|done].
  right. by apply (IH (drop 1 (b :: p)) e').
Qed.

Lemma c_string_total p : 0 ∈ p -> exists str, c_string p = Ok str.
Proof.
  induction p as [|b p IH]; [by intros ?%elem_of_nil|]. cbn [c_string].
  destruct (Z.eqb_spec b 0); [by eexists|]. intros [?|Hp]%elem_of_cons; [done|].
  destruct (IH Hp) as [str ->]. by eexists.
Qed.

Lemma process_command_ok s data len m :
  0 <= len <= NTB_CONNECTION_MAX_MESSAGE_SIZE -> 24 + len < zlen data -> bytes data -> 0 <= m ->
  room (fst s) (m + (len + 24) * (G + 33)) -> handled s m (process_command listener s data len).
Proof.
  unfold NTB_CONNECTION_MAX_MESSAGE_SIZE. intros Hl Hz Hb Hm Hr. unfold process_command, zlen in *.
  change (Z.to_nat NTB_PROTO_HEADER_SIZE) with 24%nat.
  rewrite (read_bytes_Ok 4 data), bind_ret_l by lia. destruct (negb _); [apply handled_fail|].
  destruct (check_command_string_total (drop 4 data)) as (ok & -> & Hok);
    [rewrite length_drop; lia|]. rewrite bind_ret_l. destruct ok; cbn [negb]; [|apply handled_fail].
  rewrite (read_bytes_Ok (Z.to_nat len)), bind_ret_l by (rewrite length_drop; lia).
  rewrite (read_bytes_Ok 4 (drop 20 data)), bind_ret_l by (rewrite length_drop; lia).
  destruct (negb _); [apply handled_fail|].
  destruct (c_string_total (drop 4 data)) as [name ->]; [by apply Hok|]. rewrite bind_ret_l.
  apply dispatch_ok; [|done..]. unfold cur_ok. cbn [fst snd]. rewrite zlen_drop. unfold zlen.
  split_and!; [lia|lia|lia|auto with ntb].
Qed.

(** The loop ends, and leaves a suffix of the data that is not a whole command. *)
Lemma process_commands_loop_ok fuel s data len :
  0 <= len -> len < zlen data -> bytes data -> len <= Z.of_nat fuel ->
  room (fst s) (len * (G + 33)) ->
  match process_commands_loop listener fuel s data len with
  | Ok (Some (data', len'), s') =>
      conn_in_buf (fst s') = conn_in_buf (fst s) /\ 0 <= len' <= len /\
      data' = drop (Z.to_nat (len - len')) data /\
      (len' < 24 \/ exists command_length, ntb_proto_get_32 (drop 16 data') = Ok command_length /\
         command_length <= NTB_CONNECTION_MAX_MESSAGE_SIZE /\ len' < 24 + command_length)
  | Ok (None, _) => True
  | Err _ | UB | OutOfFuel => False
  end.
Proof.
  pose proof (listener_budget (listener := listener)) as HG.
  revert s data len. induction fuel as [|fuel IH]; intros s data len Hl Hz Hb Hf Hr;
    cbn [process_commands_loop]; unfold NTB_PROTO_HEADER_SIZE in *.
  { destruct (Z.ltb_spec len (4 + 12 + 4 + 4)); [|lia].
    split_and!; [done|lia|lia| |by left]. by rewrite Z.sub_diag, drop_0. }
  destruct (Z.ltb_spec len (4 + 12 + 4 + 4)).
  { split_and!; [done|lia|lia| |by left]. by rewrite Z.sub_diag, drop_0. }
  destruct (get_32_range (drop 16 data)) as (cl & E & Hcl); [zlia|auto with ntb|].
  rewrite E, bind_ret_l. destruct (Z.ltb_spec NTB_CONNECTION_MAX_MESSAGE_SIZE cl); [done|].
  destruct (Z.ltb_spec len (4 + 12 + 4 + 4 + cl)).
  { split_and!; [done|lia|lia| |right]; [by rewrite Z.sub_diag, drop_0|].
    exists cl. split_and!; [done|lia|lia]. }
  pose proof (process_command_ok s data cl ((len - (cl + 24)) * (G + 33))) as Hp.
  specialize (Hp ltac:(lia) ltac:(lia) Hb ltac:(nia) ltac:(eapply room_le; [exact Hr|nia])).
  destruct (process_command listener s data cl) as [[[|] s1]| | |]; try done. rewrite bind_ret_l.
  destruct (Hp eq_refl) as [Hin Hr1].
  specialize (IH s1 (drop (Z.to_nat (cl + 24)) data) (len - (cl + 24))).
  specialize (IH ltac:(lia) ltac:(rewrite zlen_drop; lia) ltac:(auto with ntb) ltac:(lia)
    ltac:(eapply room_le; [exact Hr1|nia])).
  change (cl + (4 + 12 + 4 + 4)) with (cl + 24).
  destruct (process_commands_loop listener fuel s1 _ _) as [[[[d' l']|] s2]| | |]; try done.
  destruct IH as (Hin2 & Hl' & -> & Hend).
  assert (Ed : drop (Z.to_nat (len - (cl + 24) - l')) (drop (Z.to_nat (cl + 24)) data)
               = drop (Z.to_nat (len - l')) data) by (rewrite drop_drop; f_equal; lia).
  rewrite Ed in *. split_and!; [congruence|lia|lia|done|done].
Qed.
End safety.

(** ** The input buffer *)

Definition in_ok (indet : Z) (b : ntb_buffer) : Prop :=
  buf_wf b /\ bytes (readable indet b).

#[global] Instance in_ok_dec indet b : Decision (in_ok indet b).
Proof. unfold in_ok. apply _. Defined.

Lemma zlen_readable indet b : zlen (readable indet b) = zlen (buf_data b).
Proof. unfold readable. apply zlen_fmap. Qed.

Lemma bytes_readable_replicate indet n :
  is_byte indet -> bytes (default indet <$> replicate n None).
Proof. intros. rewrite fmap_replicate. by apply bytes_replicate. Qed.

Lemma ensure_size_in_ok indet b size :
  is_byte indet -> in_ok indet b -> size <= 2 ^ 63 ->
  exists b', ntb_buffer_ensure_size (E := unit) b size = Ok b' /\ in_ok indet b' /\
    buf_length b' = buf_length b /\ size <= buf_size b'.
Proof.
  intros Hi [Hwf Hb] Hs.
  destruct (ensure_size_spec (E := unit) b size Hwf Hs) as (b' & E & Hwf' & Hl & _ & _ & Hsz & _).
  exists b'. split_and!; try done. split; [done|]. revert E. unfold ntb_buffer_ensure_size.
  intros (n & _ & E)%bind_Ok. destruct (n =? buf_size b); injection E as <-; [done|].
  unfold readable in *. cbn [buf_data]. rewrite fmap_app, bytes_app, fmap_take.
  split; [by apply bytes_take|by apply bytes_readable_replicate].
Qed.

Lemma write_in_ok indet b off l :
  in_ok indet b -> bytes l -> 0 <= off -> off + zlen l <= buf_size b ->
  exists d, buf_write (E := unit) b off l = Ok (Buf d (buf_length b) (buf_size b)) /\
    zlen d = buf_size b /\ bytes (default indet <$> d).
Proof.
  intros [(Hd & Hl & Hs) Hb] Hbl Ho Hf. unfold buf_write, write_cells. rewrite Hd.
  destruct (Z.leb_spec 0 off), (Z.leb_spec (off + zlen l) (buf_size b)); try lia. cbn [andb].
  rewrite bind_ret_l. eexists. split; [reflexivity|]. pose proof (zlen_nonneg l).
  split; [zlen_simpl; lia|]. unfold readable in Hb.
  rewrite !fmap_app, !bytes_app, fmap_take, fmap_drop, <- list_fmap_compose.
  split_and!; [by apply bytes_take| |by apply bytes_drop].
  change (bytes ((fun x => x) <$> l)). by rewrite list_fmap_id.
Qed.

Section reading.
Context `{DigestLaws} {L : Type}.
Context (listener : ntb_connection_event -> ntb_connection * L -> bool * (ntb_connection * L)).
Context (G : Z) `{!ListenerOk listener G}.
Context (indet : Z) (Hindet : is_byte indet).

(** The loop on the readable bytes of a buffer that has a byte to spare. *)
Lemma process_commands_ok s :
  in_ok indet (conn_in_buf (fst s)) ->
  buf_length (conn_in_buf (fst s)) < buf_size (conn_in_buf (fst s)) ->
  room (fst s) (buf_length (conn_in_buf (fst s)) * (G + 33)) ->
  exists s', process_commands listener indet s = Ok s'.
Proof.
  intros Hin Hlt Hr. pose proof Hin as [(Hd & Hl & Hs) Hb]. unfold process_commands.
  pose proof (process_commands_loop_ok listener G (Z.to_nat (buf_length (conn_in_buf (fst s)))) s
    (readable indet (conn_in_buf (fst s))) (buf_length (conn_in_buf (fst s)))) as Hp.
  rewrite zlen_readable in Hp. specialize (Hp ltac:(lia) ltac:(lia) Hb ltac:(lia) Hr).
  destruct (process_commands_loop _ _ s _ _) as [[[[d l]|] s']| | |]; try done;
    rewrite bind_ret_l; [|by eexists].
  destruct Hp as (Hin' & Hl' & -> & _). set (b := conn_in_buf (fst s)) in *.
  rewrite Hin'. pose proof (zlen_readable indet b) as Hzr. unfold zlen in Hzr, Hd.
  rewrite read_bytes_Ok, bind_ret_l by (rewrite length_drop; lia). set (rest := take _ _).
  assert (Hrl : zlen rest <= buf_size b)
    by (unfold rest; rewrite zlen_take, zlen_drop, zlen_readable; unfold zlen; lia).
  destruct (write_in_ok indet b 0 rest) as (d' & -> & _); [done| |lia|lia|by eexists].
  unfold rest. auto with ntb.
Qed.

Lemma handle_read_ok now l s :
  in_ok indet (conn_in_buf (fst s)) -> bytes l -> zlen l < 1024 ->
  buf_length (conn_in_buf (fst s)) <= 2 ^ 40 ->
  room (fst s) ((buf_length (conn_in_buf (fst s)) + zlen l) * (G + 33)) ->
  exists s', handle_read listener indet now (ReadBytes l) s = Ok s'.
Proof.
  intros Hin Hl Hz Hlen Hr. pose proof (proj1 (proj2 (proj1 Hin))). pose proof (zlen_nonneg l).
  unfold handle_read. rewrite u64_small by lia.
  destruct (ensure_size_in_ok indet (conn_in_buf (fst s))
    (buf_length (conn_in_buf (fst s)) + 1024)) as (b & -> & Hb & Hbl & Hbs); [done|done|lia|].
  rewrite bind_ret_l.
  destruct (write_in_ok indet b (buf_length b) l) as (d & -> & Hd & Hdb); [done|done|lia|lia|].
  rewrite bind_ret_l. apply process_commands_ok; cbn; rewrite ?u64_small by lia.
  - split; [|done]. destruct Hb as [(? & ? & ?) ?]. unfold buf_wf, add_length. cbn [buf_data buf_length buf_size].
    rewrite u64_small by lia. split_and!; try done; lia.
  - lia.
  - destruct Hr as (? & ? & Hr). split_and!; [done|done|]. cbn. rewrite Hbl. exact Hr.
Qed.
End reading.

(** ** Framing *)

Section framing.
Context `{DigestLaws} {L : Type}.
Context (listener : ntb_connection_event -> ntb_connection * L -> bool * (ntb_connection * L)).
Implicit Types (s : ntb_connection * L).

(** A command name fits its field with a terminator. *)
Definition name_ok (name : list Z) : Prop :=
  zlen name <= 11 /\ Forall (fun b => b <> 0) name.

Definition command_ok (c : list Z * list Z) : Prop :=
  name_ok c.1 /\ bytes c.2 /\ zlen c.2 <= NTB_CONNECTION_MAX_MESSAGE_SIZE.

#[global] Instance command_ok_dec c : Decision (command_ok c).
Proof. unfold command_ok, name_ok. apply _. Defined.

(** The bytes of some commands on the wire. *)
Definition stream (cmds : list (list Z * list Z)) : list Z :=
  concat ((fun c => frame c.1 c.2) <$> cmds).

(** The beginning of a command that has not arrived completely. *)
Definition incomplete (tail slack : list Z) : Prop :=
  zlen tail < 24 \/
  exists n, ntb_proto_get_32 (drop 16 (tail ++ slack)) = Ok n /\
    n <= NTB_CONNECTION_MAX_MESSAGE_SIZE /\ zlen tail < 24 + n.

(** Dispatching the commands one after the other. *)
Fixpoint deliver s (cmds : list (list Z * list Z)) (tail slack : list Z) :
    result unit (option (ptr * Z) * (ntb_connection * L)) :=
  match cmds with
  | [] => Ok (Some (tail ++ slack, zlen tail), s)
  | (name, payload) :: cmds =>
      '(ok, s) ← dispatch listener s name (payload ++ stream cmds ++ tail ++ slack) (zlen payload);
      if (ok : bool) then deliver s cmds tail slack else Ok (None, s)
  end.

Lemma memchr_off_name name q n :
  Forall (fun b => b <> 0) name -> (length name < n)%nat ->
  memchr_off 0 n (name ++ 0 :: q) = Ok (Some (length name)).
Proof.
  intros Hn. revert n. induction Hn as [|b name Hb _ IH]; intros [|n] Hl; cbn in Hl; try lia.
  - done.
  - cbn [app memchr_off deref]. rewrite bind_ret_l. destruct (Z.eqb_spec b 0); [done|].
    change (drop 1 (b :: name ++ 0 :: q)) with (drop 0 (name ++ 0 :: q)).
    rewrite drop_0, IH by lia. done.
Qed.

Lemma c_string_name name q :
  Forall (fun b => b <> 0) name -> c_string (name ++ 0 :: q) = Ok name.
Proof.
  induction 1 as [|b name Hb _ IH]; [done|]. cbn [app c_string].
  destruct (Z.eqb_spec b 0); [done|]. by rewrite IH.
Qed.

Lemma padded_command_zeros name :
  zlen name <= 11 ->
  padded_command name = name ++ 0 :: replicate (11 - length name) 0.
Proof.
  intros Hn. unfold padded_command, zlen in *.
  by replace (Z.to_nat (12 - Z.of_nat (length name))) with (S (11 - length name)) by lia.
Qed.

Lemma check_padded_command name q :
  name_ok name -> ntb_proto_check_command_string (padded_command name ++ q) = Ok true.
Proof.
  intros [Hl Hn]. rewrite padded_command_zeros by done. rewrite <- app_assoc. cbn [app].
  unfold ntb_proto_check_command_string, zlen in *. rewrite memchr_off_name, bind_ret_l by (done || lia).
  rewrite <- (Nat.add_1_r (length name)) at 1 || idtac.
  replace (drop (length name + 1) (name ++ 0 :: replicate (11 - length name) 0 ++ q))
    with (replicate (11 - length name) 0 ++ q).
  2: { rewrite drop_app_ge by lia. by replace (length name + 1 - length name)%nat with 1%nat by lia. }
  rewrite read_bytes_app by (rewrite length_replicate; lia). rewrite bind_ret_l. f_equal.
  by induction (11 - length name)%nat.
Qed.

Lemma process_command_frame s name payload q :
  command_ok (name, payload) ->
  process_command listener s (frame name payload ++ q) (zlen payload) =
  dispatch listener s name (payload ++ q) (zlen payload).
Proof.
  intros (Hn & Hp & Hz). cbn [fst snd] in *. pose proof Hn as [Hnl Hn0].
  pose proof (zlen_padded_command name ltac:(lia)) as Hpl.
  pose proof (zlen_checksum payload) as Hck. pose proof (zlen_be_split 4 (zlen payload)) as Hbl.
  unfold frame. rewrite <- !app_assoc. set (len4 := be_split 4 (zlen payload)) in *.
  set (ck := take 4 (SHA512 payload)) in *. unfold zlen in Hpl, Hck, Hbl. unfold process_command.
  set (data := ntb_proto_magic ++ padded_command name ++ len4 ++ ck ++ payload ++ q).
  assert (E4 : drop 4 data = padded_command name ++ len4 ++ ck ++ payload ++ q) by done.
  assert (E20 : drop 20 data = ck ++ payload ++ q).
  { replace data with ((ntb_proto_magic ++ padded_command name ++ len4) ++ ck ++ payload ++ q)
      by (unfold data; by rewrite <- !app_assoc).
    apply drop_app_length'. rewrite !length_app. change (length ntb_proto_magic) with 4%nat. lia. }
  assert (E24 : drop (Z.to_nat NTB_PROTO_HEADER_SIZE) data = payload ++ q).
  { change (Z.to_nat NTB_PROTO_HEADER_SIZE) with (20 + 4)%nat. rewrite <- drop_drop, E20.
    apply drop_app_length'. lia. }
  assert (Em : read_bytes (E := unit) 4 data = Ok ntb_proto_magic) by (by apply read_bytes_app).
  rewrite Em, bind_ret_l, bytes_eqb_refl. cbn [negb].
  rewrite E4, E20, E24, check_padded_command, bind_ret_l by done. cbn [negb].
  rewrite (read_bytes_app _ payload), bind_ret_l by (unfold zlen; lia).
  rewrite (read_bytes_app 4 ck), bind_ret_l by lia.
  fold ck. rewrite bytes_eqb_refl. cbn [negb].
  rewrite padded_command_zeros, <- app_assoc by done. cbn [app].
  by rewrite c_string_name, bind_ret_l.
Qed.

Lemma zlen_frame name payload :
  zlen name <= 12 -> zlen (frame name payload) = 24 + zlen payload.
Proof.
  intros. unfold frame. rewrite !zlen_app, zlen_padded_command, zlen_checksum, zlen_be_split by done.
  change (zlen ntb_proto_magic) with 4. lia.
Qed.

Lemma frame_length_field name payload q :
  zlen name <= 12 -> zlen payload < 2 ^ 32 ->
  ntb_proto_get_32 (drop 16 (frame name payload ++ q)) = Ok (zlen payload).
Proof.
  intros Hn Hp. pose proof (zlen_padded_command name ltac:(lia)) as Hpl. unfold zlen in Hpl.
  unfold frame. rewrite <- !app_assoc.
  replace (drop 16 _) with (be_split 4 (zlen payload) ++ take 4 (SHA512 payload) ++ payload ++ q).
  - apply get_32_split. split; [apply zlen_nonneg|done].
  - symmetry. rewrite app_assoc. apply drop_app_length'. rewrite length_app.
    change (length ntb_proto_magic) with 4%nat. lia.
Qed.

Lemma process_stream cmds tail slack s fuel :
  Forall command_ok cmds -> incomplete tail slack -> (length cmds < fuel)%nat ->
  process_commands_loop listener fuel s (stream cmds ++ tail ++ slack)
    (zlen (stream cmds) + zlen tail) = deliver s cmds tail slack.
Proof.
  intros Hc Ht. revert s fuel.
  induction Hc as [|[name payload] cmds Hok Hc IH]; intros s [|fuel] Hf; try (cbn in Hf; lia);
    cbn [process_commands_loop]; unfold NTB_PROTO_HEADER_SIZE.
  - change (stream []) with (@nil Z). rewrite zlen_nil, Z.add_0_l. cbn [app deliver].
    destruct (Z.ltb_spec (zlen tail) (4 + 12 + 4 + 4)) as [|Hlt]; [done|].
    destruct Ht as [?|(n & -> & Hn & Hlt')]; [lia|]. rewrite bind_ret_l.
    destruct (Z.ltb_spec NTB_CONNECTION_MAX_MESSAGE_SIZE n); [lia|].
    by destruct (Z.ltb_spec (zlen tail) (4 + 12 + 4 + 4 + n)); [|lia].
  - pose proof Hok as ((Hnl & _) & _ & Hz). cbn [fst snd] in *.
    change (stream ((name, payload) :: cmds)) with (frame name payload ++ stream cmds).
    rewrite zlen_app, zlen_frame by lia. zlen_pose.
    destruct (Z.ltb_spec (24 + zlen payload + zlen (stream cmds) + zlen tail) (4 + 12 + 4 + 4)); [lia|].
    rewrite <- app_assoc, frame_length_field, bind_ret_l
      by (unfold NTB_CONNECTION_MAX_MESSAGE_SIZE in *; lia).
    destruct (Z.ltb_spec NTB_CONNECTION_MAX_MESSAGE_SIZE (zlen payload)); [lia|].
    destruct (Z.ltb_spec (24 + zlen payload + zlen (stream cmds) + zlen tail)
      (4 + 12 + 4 + 4 + zlen payload)); [lia|].
    rewrite process_command_frame by done. cbn [deliver].
    destruct (dispatch _ s name _ _) as [[[|] s']| | |]; try done. rewrite !bind_ret_l.
    replace (drop _ _) with (stream cmds ++ tail ++ slack).
    + rewrite <- (IH s' fuel) by (cbn in Hf; lia). f_equal. lia.
    + symmetry. apply drop_app_length'. pose proof (zlen_frame name payload ltac:(lia)) as Hfl.
      unfold zlen in *. lia.
Qed.
End framing.

(** ** Lists split over several commands *)

Section lists.
Context `{DigestLaws}.
Context (command : list Z) (item_size : Z).
Context (Hcommand : zlen command <= 11) (Hitem : 1 <= item_size <= 64).
Implicit Types (c : ntb_connection) (items : list (list Z)).

(** A list command was begun behind [base] and holds [items]; the length, the
    checksum and the count are not filled in yet. *)
Definition open_list c (base : list (option Z)) items : Prop :=
  is_Some (conn_socket_source c) /\ buf_wf (conn_out_buf c) /\
  conn_command_start c = zlen base /\ Forall (fun i => zlen i = item_size) items /\
  exists junk x, zlen junk = 8 /\
    cells (conn_out_buf c) =
    base ++ (Some <$> (ntb_proto_magic ++ padded_command command)) ++ junk ++ [x] ++
    (Some <$> concat items).

(** The bytes of a list command. *)
Definition list_frame items : list Z := frame command (enc_var_int (zlen items) ++ concat items).

Lemma zlen_concat_items items :
  Forall (fun i => zlen i = item_size) items -> zlen (concat items) = item_size * zlen items.
Proof.
  induction 1 as [|i items Hi _ IH]; [by rewrite Z.mul_0_r|]. cbn [concat].
  rewrite zlen_app, zlen_cons, Hi, IH. lia.
Qed.

Lemma open_list_length c base items :
  open_list c base items ->
  buf_length (conn_out_buf c) = zlen base + 25 + item_size * zlen items.
Proof.
  intros (_ & Hwf & _ & Hi & junk & x & Hj & Hc). rewrite <- (zlen_cells _ Hwf), Hc.
  rewrite !zlen_app, !zlen_fmap, zlen_app, zlen_padded_command, zlen_concat_items, Hj, zlen_cons,
    zlen_nil by (done || lia). change (zlen ntb_proto_magic) with 4. lia.
Qed.

Lemma get_n_items_spec c base items :
  open_list c base items -> zlen items <= 2 ^ 20 -> get_n_items item_size c = zlen items.
Proof.
  intros Ho Hn. pose proof (open_list_length c base items Ho) as Hl.
  destruct Ho as (_ & _ & Hs & _). unfold get_n_items, NTB_PROTO_HEADER_SIZE.
  rewrite Hl, Hs. zlen_pose.
  replace (zlen base + 25 + item_size * zlen items - zlen base - 1 - (4 + 12 + 4 + 4))
    with (zlen items * item_size) by lia.
  rewrite u64_small by nia. rewrite Z.div_mul by lia. apply s32_small. lia.
Qed.

(** Counting one more allocated byte. *)
Lemma cells_add_one b :
  buf_wf b -> buf_length b + 1 <= buf_size b ->
  exists x, buf_wf (add_length b 1) /\ cells (add_length b 1) = cells b ++ [x] /\
    buf_length (add_length b 1) = buf_length b + 1.
Proof.
  intros (Hd & Hl & Hs) Hf. unfold buf_wf, cells, add_length. cbn [buf_data buf_length buf_size].
  rewrite u64_small by lia. unfold zlen in Hd.
  destruct (lookup_lt_is_Some_2 (buf_data b) (Z.to_nat (buf_length b))) as [x Hx]; [lia|].
  exists x. split_and!; try done; try lia.
  replace (Z.to_nat (buf_length b + 1)) with (S (Z.to_nat (buf_length b))) by lia.
  by apply take_S_r.
Qed.

Lemma begin_list_spec c n :
  room c (n + 64) -> 0 <= n ->
  exists c', begin_list_command command c = Ok c' /\ open_list c' (cells (conn_out_buf c)) [] /\
    room c' n.
Proof.
  intros (Hs & Hwf & Hl) Hn. unfold begin_list_command. cbn [set_command_start conn_out_buf].
  pose proof (proj1 (proj2 Hwf)).
  destruct (begin_command_spec (conn_out_buf c) command) as (b & junk & -> & Hb & Hbl & Hj & Hbc);
    [split; [done|lia]|lia|]. rewrite bind_ret_l, u64_small by lia.
  destruct (ensure_size_spec (E := unit) b (buf_length b + 1))
    as (b1 & -> & Hb1 & Hl1 & Hc1 & _ & Hs1 & _); [done|lia|]. rewrite bind_ret_l.
  destruct (cells_add_one b1 Hb1) as (x & Hb2 & Hc2 & Hl2); [lia|].
  eexists. split; [reflexivity|]. split.
  - unfold open_list. cbn. split_and!; [done|done|by rewrite zlen_cells|constructor|].
    exists junk, x. split; [done|]. rewrite Hc2, Hc1, Hbc, <- !app_assoc. done.
  - unfold room. cbn [set_out_buf conn_socket_source conn_out_buf]. split_and!; [done|done|lia].
Qed.

Lemma enc_var_int_small n : 0 <= n < 0xfd -> enc_var_int n = [n].
Proof. intros. unfold enc_var_int. by destruct (Z.ltb_spec n 0xfd); [|lia]. Qed.

Lemma zlen_list_frame items :
  zlen items < 0xfd -> Forall (fun i => zlen i = item_size) items ->
  zlen (list_frame items) = 25 + item_size * zlen items.
Proof.
  intros Hn Hi. zlen_pose. unfold list_frame. rewrite zlen_frame, zlen_app, enc_var_int_small,
    zlen_cons, zlen_nil, zlen_concat_items by (done || lia). lia.
Qed.

Lemma update_poll_flags_spec c :
  is_Some (conn_socket_source c) ->
  exists c', update_poll_flags c = Ok c' /\ conn_out_buf c' = conn_out_buf c /\
    is_Some (conn_socket_source c').
Proof.
  intros [p Hp]. unfold update_poll_flags. rewrite Hp. eexists. split; [reflexivity|].
  split; [done|by eexists].
Qed.

(** Ending a list command: an empty one is taken back, else it is completed. *)
Lemma end_list_spec c base items :
  open_list c base items -> zlen items < 0xfd ->
  exists c', end_list_command item_size c = Ok c' /\ is_Some (conn_socket_source c') /\
    buf_wf (conn_out_buf c') /\
    cells (conn_out_buf c') = base ++ (Some <$> match items with [] => [] | _ => list_frame items end).
Proof.
  intros Ho Hn. unfold end_list_command. rewrite (get_n_items_spec c base items Ho) by lia.
  pose proof (open_list_length c base items Ho) as Hlen. zlen_pose.
  destruct Ho as (Hs & Hwf & Hst & Hi & junk & x & Hj & Hc).
  destruct items as [|i0 items0].
  - rewrite zlen_nil. cbn [Z.eqb]. rewrite bind_ret_l.
    destruct (update_poll_flags_spec (set_out_buf (Buf (buf_data (conn_out_buf c))
      (conn_command_start c) (buf_size (conn_out_buf c))) c)) as (c' & -> & Hb & Hs'); [done|].
    exists c'. rewrite Hb. split_and!; try done.
    + destruct Hwf as (? & ? & ?). rewrite zlen_nil in Hlen. unfold buf_wf. cbn. lia.
    + cbn [set_out_buf conn_out_buf fmap list_fmap]. rewrite cells_Buf, app_nil_r, Hst.
      unfold cells in Hc. rewrite zlen_nil in Hlen.
      apply (f_equal (take (Z.to_nat (zlen base)))) in Hc. rewrite take_take, Nat.min_l in Hc by lia.
      rewrite Hc. apply take_app_length'. unfold zlen. lia.
  - set (items := i0 :: items0) in *. assert (0 < zlen items) by (unfold items; zlia).
    destruct (Z.eqb_spec (zlen items) 0); [lia|]. rewrite u8_small by lia.
    set (T := drop (Z.to_nat (buf_length (conn_out_buf c))) (buf_data (conn_out_buf c))).
    assert (HT : buf_data (conn_out_buf c) = (base ++ (Some <$> (ntb_proto_magic ++
        padded_command command)) ++ junk) ++ [x] ++ (Some <$> concat items) ++ T).
    { rewrite <- (take_drop (Z.to_nat (buf_length (conn_out_buf c))) (buf_data (conn_out_buf c))).
      fold T. unfold cells in Hc. rewrite Hc, <- !app_assoc. done. }
    assert (Hz16 : zlen (ntb_proto_magic ++ padded_command command) = 16)
      by (rewrite zlen_app, zlen_padded_command by lia; done).
    rewrite (buf_write_mid _ _ _ _ [zlen items] _ HT)
      by (rewrite ?zlen_app, ?zlen_fmap, ?Hz16, ?Hj, ?Hst; unfold NTB_PROTO_HEADER_SIZE; try lia; done).
    rewrite bind_ret_l. set (b := Buf _ _ _).
    assert (Hb : buf_wf b).
    { destruct Hwf as (Hd & ? & ?). unfold b, buf_wf. cbn [buf_data buf_length buf_size].
      rewrite HT in Hd. zlen_simpl. lia. }
    assert (Hbc : cells b = base ++ (Some <$> (ntb_proto_magic ++ padded_command command)) ++ junk ++
        (Some <$> (zlen items :: concat items))).
    { set (R := base ++ _). unfold b. rewrite cells_Buf.
      replace (_ ++ _) with (R ++ T) by (unfold R; rewrite <- !app_assoc; done).
      apply take_app_length'. apply Nat2Z.inj. change (Z.of_nat (length R)) with (zlen R). unfold R.
      rewrite !zlen_app, !zlen_fmap, Hz16, Hj, zlen_cons, zlen_concat_items by done.
      destruct Hwf as (? & ? & ?). lia. }
    rewrite Hst.
    destruct (end_command_spec b base (ntb_proto_magic ++ padded_command command) junk
      (zlen items :: concat items)) as (b' & -> & Hb' & Hbl' & Hbc'); [done|done|done|done| |].
    { rewrite zlen_cons, zlen_concat_items by done. nia. }
    rewrite bind_ret_l.
    destruct (update_poll_flags_spec (set_out_buf b' c)) as (c' & -> & Hcb & Hs'); [done|].
    exists c'. rewrite Hcb. split_and!; try done. cbn [set_out_buf conn_out_buf]. rewrite Hbc'.
    do 2 f_equal. unfold list_frame, frame. rewrite enc_var_int_small by lia.
    cbn [app]. by rewrite <- !app_assoc.
Qed.
(** Adding items one by one with a function that makes room and stores one item. *)
Context {A : Type} (add : A -> ntb_connection -> result unit ntb_connection)
  (put : A -> ntb_buffer -> result unit ntb_buffer) (enc : A -> list Z).
Context (Hadd : forall a c, add a c =
  c ← split_list_command command item_size c; b ← put a (conn_out_buf c); Ok (set_out_buf b c)).

(** The items that are stored as their encoding. *)
Context (item_ok : A -> Prop).
Context (Hput : forall a b, item_ok a -> fits b 64 -> appends b (put a b) (enc a)).
Context (Henc : forall a, item_ok a -> zlen (enc a) = item_size).

Fixpoint add_all (l : list A) (c : ntb_connection) : result unit ntb_connection :=
  match l with
  | [] => Ok c
  | a :: l => c ← add a c; add_all l c
  end.

Lemma put_item c base cur a n :
  item_ok a -> open_list c base cur -> room c (n + 64) -> 0 <= n ->
  exists c', (b ← put a (conn_out_buf c); Ok (set_out_buf b c)) = Ok c' /\
    open_list c' base (cur ++ [enc a]) /\ room c' n.
Proof.
  intros Ha (Hs & Hwf & Hst & Hi & junk & x & Hj & Hc) (_ & _ & Hl) Hn.
  destruct (Hput a (conn_out_buf c) Ha) as (b & -> & Hb & Hbl & Hbc); [split; [done|lia]|].
  rewrite bind_ret_l. eexists. split; [reflexivity|]. split.
  - unfold open_list. cbn [set_out_buf conn_socket_source conn_out_buf conn_command_start].
    split_and!; try done.
    + apply Forall_app. split; [done|]. constructor; [by apply Henc|constructor].
    + exists junk, x. split; [done|]. rewrite Hbc, Hc, concat_app. cbn [concat].
      rewrite app_nil_r, (fmap_app Some (concat cur)), <- !app_assoc. done.
  - unfold room. cbn. split_and!; [done|done|]. rewrite Hbl, Henc by done. lia.
Qed.

(** The list arrives complete and in order, in commands of at most 252 items. *)
Lemma add_all_spec l : forall c base cur,
  Forall item_ok l -> open_list c base cur -> zlen cur <= 252 ->
  room c ((zlen l + 1) * 192) ->
  exists c1 c' groups, add_all l c = Ok c1 /\ end_list_command item_size c1 = Ok c' /\
    is_Some (conn_socket_source c') /\ buf_wf (conn_out_buf c') /\
    concat groups = cur ++ (enc <$> l) /\ Forall (fun g => 1 <= zlen g <= 252) groups /\
    cells (conn_out_buf c') = base ++ (Some <$> concat (list_frame <$> groups)).
Proof.
  induction l as [|a l IH]; intros c base cur Hl Ho Hcur Hr.
  { destruct (end_list_spec c base cur Ho) as (c' & E & Hs & Hwf & Hc); [lia|].
    exists c, c', (match cur with [] => [] | _ => [cur] end). cbn [add_all fmap list_fmap].
    split_and!; try done.
    - destruct cur; cbn [concat]; by rewrite ?app_nil_r.
    - destruct cur as [|i cur]; constructor; [|constructor]. rewrite zlen_cons in *. zlen_pose. lia.
    - rewrite Hc. destruct cur; cbn [fmap list_fmap concat]; by rewrite ?app_nil_r. }
  apply Forall_cons in Hl as [Ha Hl]. rewrite zlen_cons in Hr. pose proof (zlen_nonneg l) as Hzl.
  cbn [add_all]. rewrite Hadd. unfold split_list_command.
  rewrite (get_n_items_spec c base cur Ho) by lia. destruct (Z.leb_spec 0xfc (zlen cur)).
  - destruct (end_list_spec c base cur Ho) as (c1 & -> & Hs1 & Hwf1 & Hc1); [lia|].
    rewrite bind_ret_l. destruct cur as [|i0 cur0] eqn:Ecur; [rewrite zlen_nil in *; lia|].
    rewrite <- Ecur in *. clear i0 cur0 Ecur. pose proof (open_list_length c base cur Ho) as Hlen.
    assert (Hi : Forall (fun i => zlen i = item_size) cur) by apply Ho.
    assert (Hr1 : room c1 ((zlen l + 1) * 192 + 64 + 64)).
    { destruct Hr as (_ & _ & Hr). split_and!; [done|done|].
      rewrite <- (zlen_cells _ Hwf1), Hc1, zlen_app, zlen_fmap, zlen_list_frame by (done || lia). lia. }
    destruct (begin_list_spec c1 _ Hr1) as (c2 & -> & Ho2 & Hr2); [lia|]. rewrite bind_ret_l.
    destruct (put_item c2 _ [] a ((zlen l + 1) * 192) Ha Ho2 Hr2) as (c3 & -> & Ho3 & Hr3); [lia|].
    rewrite bind_ret_l.
    destruct (IH c3 _ ([] ++ [enc a]) Hl Ho3) as (c4 & c5 & gs & E4 & E5 & Hs5 & Hw5 & Hg & Hgl & Hc5);
      [zlen_simpl; lia|done|].
    exists c4, c5, (cur :: gs). split_and!; try done.
    + cbn [concat]. by rewrite Hg.
    + constructor; [lia|done].
    + rewrite Hc5, Hc1. cbn [fmap list_fmap concat]. by rewrite fmap_app, app_assoc.
  - rewrite bind_ret_l.
    destruct (put_item c base cur a ((zlen l + 1) * 192) Ha Ho) as (c3 & -> & Ho3 & Hr3);
      [eapply room_le; [exact Hr|lia]|lia|]. rewrite bind_ret_l.
    destruct (IH c3 base (cur ++ [enc a]) Hl Ho3) as (c4 & c5 & gs & E4 & E5 & Hs5 & Hw5 & Hg & Hgl & Hc5);
      [zlen_simpl; lia|done|].
    exists c4, c5, gs. split_and!; try done. cbn [fmap list_fmap]. by rewrite Hg, <- app_assoc.
Qed.

(** A whole list, from begin to end. *)
Lemma list_command_spec l c :
  Forall item_ok l -> room c ((zlen l + 2) * 192) ->
  exists c', (c ← begin_list_command command c; c ← add_all l c; end_list_command item_size c) = Ok c' /\
    is_Some (conn_socket_source c') /\ buf_wf (conn_out_buf c') /\
    exists groups, concat groups = enc <$> l /\ Forall (fun g => 1 <= zlen g <= 252) groups /\
      cells (conn_out_buf c') =
      cells (conn_out_buf c) ++ (Some <$> concat (list_frame <$> groups)).
Proof.
  intros Hl Hr. pose proof (zlen_nonneg l).
  destruct (begin_list_spec c ((zlen l + 1) * 192)) as (c1 & -> & Ho & Hr1);
    [eapply room_le; [exact Hr|lia]|lia|]. rewrite bind_ret_l.
  destruct (add_all_spec l c1 _ [] Hl Ho) as (c2 & c3 & gs & -> & E & Hs & Hw & Hg & Hgl & Hc);
    [done|done|]. rewrite bind_ret_l. exists c3. split_and!; try done. by exists gs.
Qed.
End lists.

(** ** The queue of requested objects *)

(** While a load is pending it is for the first object waiting; when none is
    pending either nothing waits or something is ready to be written, whose
    removal starts the next load. *)
Definition queue_ok (c : ntb_connection) : Prop :=
  match conn_load_cookie c with
  | Some hash => head (conn_objects_to_load c) = Some hash
  | None => conn_objects_to_load c = [] \/ conn_ready_objects c <> []
  end.

(** While the socket is polled it is polled for writing whenever there is something
    to write. After an error it is no longer polled. *)
Definition awake (c : ntb_connection) : Prop :=
  connection_is_ready_to_write c = true -> forall out, conn_socket_source c = Some out -> out = true.

(** The two invariants, which the input side does not touch. *)
Definition queue_sound (c : ntb_connection) : Prop := queue_ok c /\ awake c.

Definition queues (c : ntb_connection) :=
  (conn_load_cookie c, conn_ready_objects c, conn_objects_to_load c).

Lemma queue_ok_queues c c' : queues c' = queues c -> queue_ok c -> queue_ok c'.
Proof. unfold queues, queue_ok. by intros [= -> -> ->]. Qed.

Lemma update_poll_flags_inv c c' :
  update_poll_flags c = Ok c' -> queues c' = queues c /\ awake c'.
Proof.
  unfold update_poll_flags. destruct (conn_socket_source c); [|done]. intros [= <-].
  split; [done|]. intros Hr out [= <-]. exact Hr.
Qed.

Lemma maybe_queue_load_ok c :
  (forall hash, conn_load_cookie c = Some hash -> head (conn_objects_to_load c) = Some hash) ->
  queue_ok (maybe_queue_load c) /\ conn_ready_objects (maybe_queue_load c) = conn_ready_objects c /\
  conn_out_buf (maybe_queue_load c) = conn_out_buf c /\
  conn_socket_source (maybe_queue_load c) = conn_socket_source c.
Proof.
  intros Hc. unfold maybe_queue_load, queue_ok.
  destruct (conn_load_cookie c) as [hash|] eqn:E1.
  { rewrite E1. split_and!; try done. by apply Hc. }
  destruct (conn_ready_objects c) as [|r rs] eqn:E2.
  - destruct (conn_objects_to_load c) as [|h hs] eqn:E3; cbn; rewrite ?E1, ?E2, ?E3;
      split_and!; try done. by left.
  - rewrite E1, E2. split_and!; try done. by right.
Qed.

Section queue_steps.
Context `{Digests}.

(** The buffer functions do not touch the queues. *)
Lemma begin_list_queues command c c' : begin_list_command command c = Ok c' -> queues c' = queues c.
Proof. unfold begin_list_command. intros Hb. bind_inv. done. Qed.

Lemma end_list_inv n c c' : end_list_command n c = Ok c' -> queues c' = queues c /\ awake c'.
Proof.
  unfold end_list_command. intros (b & _ & Hu)%bind_Ok. by apply update_poll_flags_inv in Hu.
Qed.

Lemma split_list_queues command n c c' :
  split_list_command command n c = Ok c' -> queues c' = queues c.
Proof.
  unfold split_list_command. destruct (_ <=? _); [|by intros [= ->]].
  intros (c1 & E1 & E2)%bind_Ok. apply end_list_inv in E1 as [E1 _].
  apply begin_list_queues in E2. congruence.
Qed.

Lemma add_hash_queues command hash c c' :
  add_hash_for_command command hash c = Ok c' -> queues c' = queues c.
Proof.
  unfold add_hash_for_command. intros (c1 & E1 & E2)%bind_Ok. apply split_list_queues in E1.
  apply bind_Ok in E2 as (b & _ & [= <-]). by rewrite <- E1.
Qed.

Lemma add_address_queues timestamp stream services address c c' :
  ntb_connection_add_addr_address timestamp stream services address c = Ok c' -> queues c' = queues c.
Proof.
  unfold ntb_connection_add_addr_address. intros (c1 & E1 & E2)%bind_Ok. apply split_list_queues in E1.
  rewrite <- E1. clear E1. by bind_inv.
Qed.

Lemma add_all_queues {A} (add : A -> ntb_connection -> result unit ntb_connection) l c c' :
  add_all add l c = Ok c' -> (forall a c c', add a c = Ok c' -> queues c' = queues c) ->
  queues c' = queues c.
Proof.
  intros E Hadd. revert c E. induction l as [|h l IH]; intros c; cbn [add_all]; [by intros [= ->]|].
  intros (c1 & E1 & E2)%bind_Ok. apply Hadd in E1. apply IH in E2. congruence.
Qed.

(** The writing loop keeps both invariants. *)
Lemma add_ready_loop_ok entries c c' :
  add_ready_loop entries c = Ok c' -> conn_ready_objects c = entries -> queue_ok c ->
  queue_ok c' /\ conn_socket_source c' = conn_socket_source c /\
  (connection_is_ready_to_write c' = true -> connection_is_ready_to_write c = true).
Proof.
  revert c. induction entries as [|[h blob] entries IH]; intros c; cbn [add_ready_loop].
  { by intros [= ->]. }
  destruct (_ <? _); [|by intros [= ->]]. intros Hl Hr Hq. bind_inv.
  assert (Hrw : connection_is_ready_to_write c = true).
  { unfold connection_is_ready_to_write. rewrite Hr. apply orb_true_r. }
  match goal with E : add_ready_loop entries ?c1 = Ok c' |- _ => 
    set (c0 := set_queues _ _ _ _) in *; apply IH in E end.
  - destruct (maybe_queue_load_ok c0) as (_ & _ & _ & Hs).
    { unfold c0. cbn. intros hash E. unfold queue_ok in Hq. by rewrite E in Hq. }
    match goal with E : queue_ok c' /\ _ |- _ => destruct E as (Hq' & Hs' & _) end.
    split_and!; try done. by rewrite Hs', Hs.
  - by destruct (maybe_queue_load_ok c0) as (_ & -> & _);
      [unfold c0; cbn; intros hash E; unfold queue_ok in Hq; rewrite E in Hq|].
  - apply maybe_queue_load_ok. unfold c0. cbn. intros hash E. unfold queue_ok in Hq.
    by rewrite E in Hq.
Qed.

Lemma send_blob_ok c hash blob c' :
  ntb_connection_send_blob c hash blob = Ok c' -> queue_ok c -> awake c -> queue_ok c' /\ awake c'.
Proof.
  unfold ntb_connection_send_blob. intros Hs Hq Ha. destruct blob as [blob|].
  - apply update_poll_flags_inv in Hs as [Hs Ha']. split; [|done].
    apply (queue_ok_queues _ _ Hs). unfold queue_ok in *. cbn.
    destruct (conn_load_cookie c); [done|]. right. by destruct (conn_ready_objects c).
  - injection Hs as <-. set (c1 := set_queues _ _ _ _).
    destruct (maybe_queue_load_ok c1) as (Hq' & Hr & Hb & Hs).
    { unfold c1. cbn. intros h E. unfold queue_ok in Hq. rewrite E in Hq.
      by destruct (conn_objects_to_load c). }
    split; [done|]. unfold awake, connection_is_ready_to_write in *. rewrite Hr, Hb, Hs. apply Ha.
Qed.

Lemma load_cb_inv c hash blob c' :
  conn_load_cookie c = Some hash -> load_cb blob c = Ok c' -> queue_ok c -> queue_sound c'.
Proof.
  intros Hc Hl Hq. unfold load_cb in Hl.
  destruct (conn_objects_to_load c) as [|h hs]; [done|]. destruct blob as [blob|]; [|done].
  apply update_poll_flags_inv in Hl as [E Ha]. split; [|done]. apply (queue_ok_queues _ _ E).
  unfold queue_ok. cbn. right. by destruct (conn_ready_objects c).
Qed.

(** The answer of the store to a pending load: a blob is queued behind the ready
    ones and its object no longer waits. *)
Lemma load_cb_blob c hash blob out :
  conn_load_cookie c = Some hash -> queue_ok c -> conn_socket_source c = Some out ->
  exists rest c', conn_objects_to_load c = hash :: rest /\ load_cb (Some blob) c = Ok c' /\
    queues c' = (None, conn_ready_objects c ++ [(hash, blob)], rest).
Proof.
  intros Hc Hq Hp. unfold queue_ok in Hq. rewrite Hc in Hq. unfold load_cb.
  destruct (conn_objects_to_load c) as [|h hs]; [done|]. injection Hq as ->.
  destruct (update_poll_flags_spec (set_queues None (conn_ready_objects c ++ [(hash, blob)]) hs c))
    as (c' & E & _); [by eexists|].
  exists hs, c'. split_and!; try done. by apply update_poll_flags_inv in E as [-> _].
Qed.
End queue_steps.

(** What the owner of a connection does with it: objects on request, the handshake
    and the commands that carry a list of hashes or of addresses. *)
Inductive owner_step `{Digests} : ntb_connection -> ntb_connection -> Prop :=
| owner_send_blob c hash blob c' :
    ntb_connection_send_blob c hash blob = Ok c' -> owner_step c c'
| owner_verack c c' : ntb_connection_send_verack c = Ok c' -> owner_step c c'
| owner_version c now nonce port agent c' :
    ntb_connection_send_version c now nonce port agent = Ok c' -> owner_step c c'
| owner_hashes c command hashes c' :
    (c ← begin_hash_command command c;
     c ← add_all (add_hash_for_command command) hashes c;
     end_hash_command c) = Ok c' -> owner_step c c'
| owner_addresses c addresses c' :
    (c ← ntb_connection_begin_addr c;
     c ← add_all (fun a => ntb_connection_add_addr_address (ae_timestamp a) (ae_stream a)
                             (ae_services a) (ae_address a)) addresses c;
     ntb_connection_end_addr c) = Ok c' -> owner_step c c'.

(** A listener that uses the connection through the calls of its owner only. *)
Definition owner_listener `{Digests} {L} (listener : ntb_connection_event ->
    ntb_connection * L -> bool * (ntb_connection * L)) : Prop :=
  forall e s, rtc owner_step (fst s) (fst (snd (listener e s))).

(** What happens to a connection: its owner calls it, the store answers, the socket
    is ready or failed, the timer fires. While an event is handled the listener may
    call the connection again. *)
Inductive conn_step `{Digests} : ntb_connection -> ntb_connection -> Prop :=
| step_owner c c' : owner_step c c' -> conn_step c c'
| step_load c hash blob c' :
    conn_load_cookie c = Some hash -> load_cb blob c = Ok c' -> conn_step c c'
| step_poll c {L} listener indet (l : L) now flag_in flag_out flag_error got wrote c' l' :
    owner_listener listener ->
    connection_poll_cb listener indet now flag_in flag_out flag_error got wrote (c, l) = Ok (c', l') ->
    conn_step c c'
| step_timer c {L} listener (l : L) now c' l' :
    owner_listener listener -> pong_check_cb listener now (c, l) = Ok (c', l') -> conn_step c c'.

Lemma owner_step_sound `{Digests} c c' : owner_step c c' -> queue_sound c -> queue_sound c'.
Proof.
  intros Hs [Hq Ha].
  destruct Hs as [c hash blob c' Hs|c c' Hs|c now nonce port agent c' Hs|c command hashes c' Hs
    |c addresses c' Hs].
  - by apply send_blob_ok in Hs.
  - unfold ntb_connection_send_verack in Hs. apply bind_Ok in Hs as (b & _ & Hs).
    apply update_poll_flags_inv in Hs as [E ?]. split; [by apply (queue_ok_queues _ _ E)|done].
  - unfold ntb_connection_send_version in Hs. apply bind_Ok in Hs as (b & _ & Hs).
    apply update_poll_flags_inv in Hs as [E ?]. split; [by apply (queue_ok_queues _ _ E)|done].
  - apply bind_Ok in Hs as (c1 & E1 & Hs). apply bind_Ok in Hs as (c2 & E2 & Hs).
    apply begin_list_queues in E1. apply end_list_inv in Hs as [E3 ?].
    apply add_all_queues in E2; [|apply add_hash_queues].
    split; [|done]. apply (queue_ok_queues c); [congruence|done].
  - apply bind_Ok in Hs as (c1 & E1 & Hs). apply bind_Ok in Hs as (c2 & E2 & Hs).
    apply begin_list_queues in E1. apply end_list_inv in Hs as [E3 ?].
    apply add_all_queues in E2; [|intros a; apply add_address_queues].
    split; [|done]. apply (queue_ok_queues c); [congruence|done].
Qed.

(** Events keep the invariants when the listener does. *)
Section events_sound.
Context `{Digests} {L : Type} (listener : ntb_connection_event -> ntb_connection * L ->
  bool * (ntb_connection * L)) (indet : Z).
Hypothesis listener_sound : forall e s, queue_sound (fst s) -> queue_sound (fst (snd (listener e s))).

Lemma queue_sound_ext c c' :
  queues c' = queues c -> conn_socket_source c' = conn_socket_source c ->
  buf_length (conn_out_buf c') = buf_length (conn_out_buf c) -> queue_sound c -> queue_sound c'.
Proof.
  intros Hq Hs Hb [Ho Ha]. split; [by apply (queue_ok_queues c)|].
  injection Hq as _ Hr _. unfold awake, connection_is_ready_to_write in *. by rewrite Hs, Hb, Hr.
Qed.

Lemma set_error_sound s : queue_ok (fst s) -> queue_sound (fst (set_error_state listener s)).
Proof. intros Hq. apply listener_sound. by split; [|intros ??]. Qed.

Definition sound_result (s : ntb_connection * L) (r : result unit (bool * (ntb_connection * L))) : Prop :=
  queue_sound (fst s) -> forall ok s', r = Ok (ok, s') -> queue_sound (fst s').

Lemma sound_fail s : sound_result s (fail_command listener s).
Proof. intros Hs ok s' [= _ <-]. by apply set_error_sound, Hs. Qed.

Lemma sound_emit e s : sound_result s (emit_event listener e s).
Proof. intros Hs ok s'. unfold emit_event. intros [= E]. apply (listener_sound e) in Hs. by rewrite E in Hs. Qed.

Lemma sound_bind {A} s (r : result unit A) k :
  (forall a, r = Ok a -> sound_result s (k a)) -> sound_result s (r ≫= k).
Proof. intros Hk Hs ok s' (a & E & E')%bind_Ok. by apply (Hk a E Hs ok). Qed.

Ltac sound_steps := repeat first
  [ apply sound_fail | apply sound_emit | apply sound_bind; intros
  | match goal with |- sound_result _ (match ?x with _ => _ end) => destruct x end ].

Lemma addr_loop_sound fuel n data len s : sound_result s (addr_loop listener fuel n data len s).
Proof.
  revert n data len s. induction fuel as [|fuel IH]; intros n data len s; cbn [addr_loop];
    (destruct (n =? 0); [by intros ??? [= _ <-]|]); [done|].
  apply sound_bind. intros r _. destruct r as [[[t [st [se [a u]]]] al]|]; [|apply sound_fail].
  intros Hs ok s' ([ok1 s1] & E1 & E2)%bind_Ok. apply sound_emit in E1; [|done].
  destruct ok1; [|by injection E2 as _ <-]. by apply (IH _ _ _ _ E1) in E2.
Qed.

Lemma ping_sound s data len : sound_result s (ping_command_handler s data len).
Proof.
  intros [Hq Ha] ok s' (c & E & [= _ <-])%bind_Ok. unfold send_pong in E.
  apply bind_Ok in E as (b & _ & E). apply update_poll_flags_inv in E as [E ?].
  split; [by apply (queue_ok_queues _ _ E)|done].
Qed.

Lemma command_handlers_sound :
  Forall (fun h => forall s data len, sound_result s (snd h s data len)) (command_handlers listener).
Proof.
  repeat apply Forall_cons_2; try apply Forall_nil_2; intros s data len; cbn [snd];
    try apply ping_sound; try apply sound_emit;
    unfold getpubkey_command_handler, pubkey_command_handler, broadcast_command_handler,
      versioned_command_handler, msg_command_handler, inv_command_handler, version_command_handler,
      addr_command_handler, getdata_command_handler;
    sound_steps; apply addr_loop_sound.
Qed.

Lemma process_command_sound s data len : sound_result s (process_command listener s data len).
Proof.
  unfold process_command. sound_steps. unfold dispatch.
  destruct (List.find _ _) as [[n f]|] eqn:E; [|by intros ??? [= _ <-]].
  apply find_some in E as [Hin _]. apply list_elem_of_In in Hin.
  exact (proj1 (Forall_forall _ _) command_handlers_sound _ Hin s _ _).
Qed.

Lemma process_commands_loop_sound fuel s data len r s' :
  process_commands_loop listener fuel s data len = Ok (r, s') -> queue_sound (fst s) ->
  queue_sound (fst s').
Proof.
  revert s data len. induction fuel as [|fuel IH]; intros s data len; cbn [process_commands_loop];
    (destruct (_ <? _); [by intros [= _ <-]|]); [done|].
  intros (l & _ & Hr)%bind_Ok Hs. destruct (_ <? _) in Hr.
  { injection Hr as _ <-. by apply set_error_sound, Hs. }
  destruct (_ <? _) in Hr; [by injection Hr as _ <-|].
  apply bind_Ok in Hr as ([ok s1] & E & Hr). apply process_command_sound in E; [|done].
  destruct ok; [by apply IH in Hr|by injection Hr as _ <-].
Qed.

Lemma handle_read_sound now got s s' :
  handle_read listener indet now got s = Ok s' -> queue_sound (fst s) -> queue_sound (fst s').
Proof.
  unfold handle_read. intros (b & _ & Hr)%bind_Ok Hs.
  assert (Hs1 : queue_sound (set_in_buf b (fst s))) by (by apply (queue_sound_ext (fst s))).
  destruct got as [l| | |]; [|injection Hr as <-; by apply set_error_sound, Hs1
    |by injection Hr as <-|injection Hr as <-; by apply set_error_sound, Hs1].
  apply bind_Ok in Hr as (b1 & _ & Hr). unfold process_commands in Hr.
  apply bind_Ok in Hr as ([r s1] & E & Hr). apply process_commands_loop_sound in E;
    [|by apply (queue_sound_ext (set_in_buf b (fst s)))].
  destruct r as [[data len]|]; [|by injection Hr as <-].
  apply bind_Ok in Hr as (l1 & _ & Hr). apply bind_Ok in Hr as (b2 & _ & [= <-]).
  by apply (queue_sound_ext (fst s1)).
Qed.

Lemma handle_write_sound now wrote s s' :
  handle_write listener now wrote s = Ok s' -> queue_sound (fst s) -> queue_sound (fst s').
Proof.
  unfold handle_write. intros (c1 & E1 & Hs)%bind_Ok [Hq Ha].
  apply add_ready_loop_ok in E1 as (Hq1 & Hsrc & Hrw); [|done..].
  destruct wrote as [n| |].
  - apply bind_Ok in Hs as (rest & _ & Hs). apply bind_Ok in Hs as (b & _ & Hs).
    apply bind_Ok in Hs as (c2 & E2 & [= <-]). apply update_poll_flags_inv in E2 as [E2 ?].
    split; [by apply (queue_ok_queues c1)|done].
  - injection Hs as <-. split; [done|]. unfold awake. cbn [fst]. rewrite Hsrc. auto.
  - injection Hs as <-. by apply set_error_sound.
Qed.

Lemma poll_sound now flag_in flag_out flag_error got wrote s s' :
  connection_poll_cb listener indet now flag_in flag_out flag_error got wrote s = Ok s' ->
  queue_sound (fst s) -> queue_sound (fst s').
Proof.
  unfold connection_poll_cb. intros Hr Hs.
  match type of Hr with context [if ?b then (set_connect_succeeded true ?c, ?l) else _] =>
    set (s1 := if b then (set_connect_succeeded true c, l) else s) in Hr;
    assert (Hs1 : queue_sound (fst s1))
      by (unfold s1; destruct b; [by apply (queue_sound_ext (fst s))|done])
  end.
  cbv zeta in Hr. destruct flag_error; [injection Hr as <-; by apply set_error_sound, Hs1|].
  destruct flag_in; [by apply handle_read_sound in Hr|].
  destruct flag_out; [by apply handle_write_sound in Hr|by injection Hr as <-].
Qed.

Lemma timer_sound now s s' :
  pong_check_cb listener now s = Ok s' -> queue_sound (fst s) -> queue_sound (fst s').
Proof.
  unfold pong_check_cb. cbv zeta. intros Hr Hs. destruct (_ <=? _).
  { injection Hr as <-. by apply set_error_sound, Hs. }
  destruct (_ && _); [|by injection Hr as <-]. apply bind_Ok in Hr as (c & E & [= <-]).
  assert (E' : ping_command_handler (L := L) s [] 0 = Ok (true, (c, snd s)))
    by (unfold ping_command_handler; by rewrite E).
  by apply (ping_sound s [] 0 Hs true).
Qed.
End events_sound.

Lemma owner_steps_sound `{Digests} c c' : rtc owner_step c c' -> queue_sound c -> queue_sound c'.
Proof. induction 1 as [|c1 c2 c3 Hs _ IH]; [done|]. intros Hc. by apply IH, (owner_step_sound c1). Qed.

Lemma conn_step_sound `{Digests} c c' : conn_step c c' -> queue_sound c -> queue_sound c'.
Proof.
  destruct 1 as [c c' Hs|c hash blob c' Hk Hs
    |c L listener indet l now fi fo fe got wrote c' l' Hl Hs|c L listener l now c' l' Hl Hs].
  - by apply owner_step_sound.
  - intros [Hq Ha]. by apply (load_cb_inv c hash blob).
  - intros Hc. apply (poll_sound listener indet) in Hs; [done| |done].
    intros e s. by apply owner_steps_sound.
  - intros Hc. apply (timer_sound listener) in Hs; [done| |done].
    intros e s. by apply owner_steps_sound.
Qed.

(** ** Properties *)

(** A listener that ignores every event. *)
Definition ignore (e : ntb_connection_event) (s : ntb_connection * unit) := (true, s).

#[global] Instance ignore_ok : ListenerOk ignore 0.
Proof.
  split; [done|]. intros e s s' n Hr [= <-]. split; [done|]. by rewrite Z.add_0_r in Hr.
Qed.

Definition example_conn : ntb_connection :=
  ntb_connection_new_for_socket (NetAddr (replicate 16 0) 8444) 0.

(** C1: whatever bytes a peer sends, in reads that leave at least one of the 1024
    bytes asked for free, handling them ends without an undefined access, for every listener that keeps to its
    contract and whatever the unwritten part of the input buffer holds. *)
Theorem connection_read_safe `{DigestLaws} {L} (listener : ntb_connection_event ->
    ntb_connection * L -> bool * (ntb_connection * L)) G `{!ListenerOk listener G} indet now l s :
  is_byte indet -> in_ok indet (conn_in_buf (fst s)) -> bytes l -> zlen l < 1024 ->
  buf_length (conn_in_buf (fst s)) <= 2 ^ 40 ->
  room (fst s) ((buf_length (conn_in_buf (fst s)) + zlen l) * (G + 33)) ->
  exists s', handle_read listener indet now (ReadBytes l) s = Ok s'.
Proof. intros. by apply (handle_read_ok listener G). Qed.

Lemma connection_read_safe_witness :
  exists s', handle_read (H := Digests_toy) ignore 7 0
    (ReadBytes (str_bytes "GET / HTTP/1.1")) (example_conn, tt) = Ok s'.
Proof.
  apply (connection_read_safe (H0 := DigestLaws_toy) ignore 0).
  - vm_compute. split; congruence.
  - apply (bool_decide_unpack _). vm_compute. exact I.
  - apply (bool_decide_unpack _). vm_compute. exact I.
  - vm_compute. reflexivity.
  - vm_compute. congruence.
  - split_and!; [by exists false|apply (bool_decide_unpack _); vm_compute; exact I|].
    vm_compute. congruence.
Defined.

(** C2: on a stream of complete commands followed by the beginning of another one,
    the framing loop accepts every header and checksum, hands each payload to the
    handler of its name, in order and exactly once, and leaves the incomplete rest. *)
Theorem connection_stream_framing `{DigestLaws} {L} (listener : ntb_connection_event ->
    ntb_connection * L -> bool * (ntb_connection * L)) cmds tail slack s fuel :
  Forall command_ok cmds -> incomplete tail slack -> (length cmds < fuel)%nat ->
  process_commands_loop listener fuel s (stream cmds ++ tail ++ slack)
    (zlen (stream cmds) + zlen tail) = deliver listener s cmds tail slack.
Proof. apply process_stream. Qed.

Definition example_commands : list (list Z * list Z) :=
  [(str_bytes "verack", []); (str_bytes "msg", [1; 2; 3]); (str_bytes "unknown", [9])].

Lemma connection_stream_framing_witness :
  process_commands_loop (H := Digests_toy) ignore 9 (example_conn, tt)
    (stream (H := Digests_toy) example_commands ++ [0xe9; 0xbe] ++ [])
    (zlen (stream (H := Digests_toy) example_commands) + 2)
  = deliver (H := Digests_toy) ignore (example_conn, tt) example_commands [0xe9; 0xbe] [].
Proof.
  apply (connection_stream_framing (H0 := DigestLaws_toy) ignore example_commands [0xe9; 0xbe] []).
  - apply (bool_decide_unpack _). vm_compute. exact I.
  - left. vm_compute. reflexivity.
  - vm_compute. lia.
Defined.

(** Announcing a list of object hashes appends to the output complete "inv"
    commands of at most 252 hashes each, and the peer that handles them is given
    exactly these hashes, in order. *)
Theorem connection_inv_roundtrip `{DigestLaws} {L} (listener : ntb_connection_event ->
    ntb_connection * L -> bool * (ntb_connection * L)) hashes c :
  Forall (fun h => zlen h = NTB_PROTO_HASH_LENGTH) hashes -> room c ((zlen hashes + 2) * 192) ->
  exists c' groups,
    (c ← ntb_connection_begin_inv c;
     c ← add_all ntb_connection_add_inv_hash hashes c;
     ntb_connection_end_inv c) = Ok c' /\
    buf_wf (conn_out_buf c') /\ concat groups = hashes /\ Forall (fun g => 1 <= zlen g <= 252) groups /\
    cells (conn_out_buf c') = cells (conn_out_buf c) ++
      (Some <$> concat (list_frame (str_bytes "inv") <$> groups)) /\
    forall g s q, g ∈ groups ->
      inv_command_handler listener s (enc_var_int (zlen g) ++ concat g ++ q)
        (zlen (enc_var_int (zlen g) ++ concat g))
      = Ok (listener (NTB_CONNECTION_EVENT_INV (zlen g) (concat g ++ q)) s).
Proof.
  intros Hh Hr. unfold NTB_PROTO_HASH_LENGTH in Hh.
  destruct (list_command_spec (str_bytes "inv") NTB_PROTO_HASH_LENGTH ltac:(vm_compute; congruence)
    ltac:(unfold NTB_PROTO_HASH_LENGTH; lia) ntb_connection_add_inv_hash
    (fun h b => ntb_buffer_append b h) (fun h => h) ltac:(reflexivity) (fun h => zlen h = 32)
    ltac:(intros a b Ha Hb; apply appends_append; by rewrite Ha; destruct Hb; split; [|lia])
    ltac:(done) hashes c Hh Hr)
    as (c' & E & _ & Hw & groups & Hg & Hgl & Hc).
  rewrite list_fmap_id in Hg. exists c', groups. split_and!; try done.
  intros g s q Hin. rewrite Forall_forall in Hgl. specialize (Hgl g Hin).
  assert (Hg32 : Forall (fun i => zlen i = 32) g).
  { rewrite Forall_forall in Hh |- *. intros i Hi. apply Hh. rewrite <- Hg.
    apply list_elem_of_In, in_concat. exists g. split; by apply list_elem_of_In. }
  rewrite enc_var_int_small by lia. unfold inv_command_handler. cbn [app].
  rewrite zlen_cons, (zlen_concat_items 32) by done.
  unfold ntb_proto_get_var_int. cbn [fst snd]. rewrite s32_small by lia.
  destruct (Z.ltb_spec (1 + 32 * zlen g) 0); [lia|]. cbn [deref]. rewrite bind_ret_l.
  destruct (Z.ltb_spec (zlen g) 253); [|lia]. destruct (Z.ltb_spec (1 + 32 * zlen g) 1); [lia|].
  unfold advance. cbn [parse fst snd]. rewrite bind_ret_l. rewrite u32_small by lia.
  unfold NTB_PROTO_HASH_LENGTH. rewrite u64_small by lia.
  by destruct (Z.ltb_spec (1 + 32 * zlen g - 1) (zlen g * 32)); [lia|].
Qed.

Lemma connection_inv_roundtrip_witness :
  exists c' groups,
    (c ← ntb_connection_begin_inv example_conn;
     c ← add_all (ntb_connection_add_inv_hash (H := Digests_toy)) [replicate 32 1; replicate 32 2] c;
     ntb_connection_end_inv (H := Digests_toy) c) = Ok c' /\
    buf_wf (conn_out_buf c') /\ concat groups = [replicate 32 1; replicate 32 2] /\
    Forall (fun g => 1 <= zlen g <= 252) groups /\
    cells (conn_out_buf c') = cells (conn_out_buf example_conn) ++
      (Some <$> concat (list_frame (H := Digests_toy) (str_bytes "inv") <$> groups)) /\
    forall g s q, g ∈ groups ->
      inv_command_handler ignore s (enc_var_int (zlen g) ++ concat g ++ q)
        (zlen (enc_var_int (zlen g) ++ concat g))
      = Ok (ignore (NTB_CONNECTION_EVENT_INV (zlen g) (concat g ++ q)) s).
Proof.
  apply (connection_inv_roundtrip (H0 := DigestLaws_toy) ignore).
  - apply (bool_decide_unpack _). vm_compute. exact I.
  - split_and!; [by exists false|apply (bool_decide_unpack _); vm_compute; exact I|].
    vm_compute. congruence.
Defined.

(** The length check of an "inv" command multiplies the announced count in 64
    bits: for any multiple of 2^59 the product is 0, and a command of nine bytes is
    passed on as one that carries that many hashes. *)
Theorem connection_inv_count_wraps {L} (listener : ntb_connection_event ->
    ntb_connection * L -> bool * (ntb_connection * L)) k s q :
  1 <= k < 32 ->
  inv_command_handler listener s (0xff :: be_split 8 (k * 2 ^ 59) ++ q) 9 =
  Ok (listener (NTB_CONNECTION_EVENT_INV (k * 2 ^ 59) q) s).
Proof.
  intros Hk. unfold inv_command_handler, ntb_proto_get_var_int. cbn [fst snd deref].
  rewrite bind_ret_l. change (s32 9) with 9. cbn [Z.ltb Z.eqb Z.compare Pos.compare Pos.compare_cont Pos.eqb].
  change (drop 1 (255 :: be_split 8 (k * 2 ^ 59) ++ q)) with (drop 0 (be_split 8 (k * 2 ^ 59) ++ q)).
  rewrite drop_0, get_64_split by lia. unfold advance. cbn [parse fst snd].
  change (drop (Z.to_nat 9) (255 :: be_split 8 (k * 2 ^ 59) ++ q)) with
    (drop 8 (be_split 8 (k * 2 ^ 59) ++ q)).
  rewrite drop_app_length' by (by rewrite length_be_split). cbn [parse mbind result_bind].
  change (u32 (9 - 9)) with 0. unfold NTB_PROTO_HASH_LENGTH.
  assert (u64 (k * 2 ^ 59 * 32) = 0) as ->; [|done].
  unfold u64. replace (k * 2 ^ 59 * 32) with (k * 2 ^ 64) by lia. apply Z.mod_mul. lia.
Qed.

Lemma connection_inv_count_wraps_witness :
  inv_command_handler ignore (example_conn, tt) (0xff :: be_split 8 (1 * 2 ^ 59) ++ []) 9 =
  Ok (ignore (NTB_CONNECTION_EVENT_INV (1 * 2 ^ 59) []) (example_conn, tt)).
Proof. apply connection_inv_count_wraps. lia. Defined.

(** C40: in every state a connection reaches by calls of its owner (objects on
    request, the handshake, lists of hashes and of addresses), by answers of the
    store, by reading, writing, errors and the timer, whatever the listener calls in
    between: a pending load is for the first waiting object, no object waits without
    a load or a write that will start one, and a polled socket is polled for writing
    when there is something to write. While the socket is polled, the blob that
    answers a pending load is queued behind the ready ones under the hash of that
    load, and the null pointer that stands for a failed load is followed. *)
Theorem connection_queue_invariant `{Digests} address now c :
  rtc conn_step (ntb_connection_new_for_socket address now) c ->
  queue_ok c /\ awake c /\
  forall hash out, conn_load_cookie c = Some hash -> conn_socket_source c = Some out ->
    (forall blob, exists rest c', conn_objects_to_load c = hash :: rest /\
      load_cb (Some blob) c = Ok c' /\
      queues c' = (None, conn_ready_objects c ++ [(hash, blob)], rest)) /\
    load_cb None c = UB.
Proof.
  intros Hr. assert (Hi : queue_sound c).
  { assert (H0 : queue_sound (ntb_connection_new_for_socket address now))
      by (split; [by left|by intros [=]]).
    revert H0. induction Hr as [c|c1 c2 c3 Hs _ IH]; [done|]. intros Hc.
    by apply IH, (conn_step_sound c1). }
  destruct Hi as [Hq Ha]. split_and!; [done..|]. intros hash out Hk Hs. split.
  - intros blob. by apply (load_cb_blob c hash blob out).
  - unfold load_cb. by destruct (conn_objects_to_load c).
Qed.

(** After a read of a "verack" command and a request for an object that has to be
    loaded. *)
Lemma connection_queue_invariant_witness :
  exists c, rtc (conn_step (H := Digests_toy)) example_conn c /\
    conn_load_cookie c = Some (replicate 32 5) /\ conn_socket_source c = Some false /\
    conn_n_bytes_received c = 24 /\ queue_ok c /\ awake c /\
    forall hash out, conn_load_cookie c = Some hash -> conn_socket_source c = Some out ->
      (forall blob, exists rest c', conn_objects_to_load c = hash :: rest /\
        load_cb (Some blob) c = Ok c' /\
        queues c' = (None, conn_ready_objects c ++ [(hash, blob)], rest)) /\
      load_cb None c = UB.
Proof.
  assert (E : exists c, connection_poll_cb (H := Digests_toy) ignore 0 9 true false false
    (ReadBytes (frame (H := Digests_toy) (str_bytes "verack") [])) WriteAgain (example_conn, tt)
      = Ok (c, tt) /\ conn_load_cookie c = None /\ conn_ready_objects c = [] /\
      conn_objects_to_load c = [] /\ conn_socket_source c = Some false /\
      conn_n_bytes_received c = 24)
    by (eexists; split_and!; [vm_compute; reflexivity..]).
  destruct E as (c & E & E1 & E2 & E3 & E4 & E5).
  assert (Hs : rtc (conn_step (H := Digests_toy)) example_conn
    (set_queues (Some (replicate 32 5)) [] [replicate 32 5] c)).
  { apply (rtc_l _ _ c).
    - eapply (step_poll (H := Digests_toy)); [|exact E]. by intros ??.
    - apply rtc_once, step_owner, (owner_send_blob _ (replicate 32 5) None).
      unfold ntb_connection_send_blob, maybe_queue_load. cbn. by rewrite E1, E2, E3. }
  exists (set_queues (Some (replicate 32 5)) [] [replicate 32 5] c).
  split; [exact Hs|]. split; [reflexivity|]. split; [exact E4|]. split; [exact E5|].
  exact (connection_queue_invariant (H := Digests_toy) _ _ _ Hs).
Defined.
