(* ===== verification/Network.v ===== *)
(** * Network: peers, known addresses and the object inventory (ntb-network.c)

    Known addresses, peers, listening sockets and delayed broadcasts are lists of
    objects with an identity ([Ident]). Inventory entries are objects in a map;
    the lists that own them (accepted, rejected, and the requests of each peer)
    hold identities, and so does the hash table. Freeing an object deletes it, so
    that a pointer dangles when its identity is not found, which is [UB].

    Clocks, random numbers and what system calls return are arguments. Calls into
    the store and the signal for new objects are recorded in [nw_effects]. The
    event sources of the main loop are kept as far as the code looks at them:
    whether there is one, and which of the two kinds connects to peers. *)

From S2P Require Import Prelude Ident Endian Buffer NetAddress OpenSSL Proto NetText Pow HashTable Connection.

Definition NTB_NETWORK_NUM_OUTGOING_PEERS : Z := 8.
Definition NTB_NETWORK_INV_CACHE_AGE : Z := 10 * 60.
Definition NTB_NETWORK_INV_FUTURE_AGE : Z := 30 * 60.
Definition NTB_NETWORK_MAX_STUB_INVENTORY_AGE : Z := 5 * 60.
Definition NTB_NETWORK_MAX_ADDR_AGE : Z := 2 * 60 * 60.
Definition NTB_NETWORK_MIN_RECONNECT_TIME : Z := 60.
Definition NTB_NETWORK_MAX_INCOMING_PEERS : Z := 8.
Definition NTB_NETWORK_MAX_REJECTED_INVENTORIES : Z := 16384.
Definition RAND_MAX : Z := 2147483647.

Inductive ntb_network_peer_state :=
| NTB_NETWORK_PEER_STATE_AWAITING_VERACK_OUT
| NTB_NETWORK_PEER_STATE_AWAITING_VERSION_OUT
| NTB_NETWORK_PEER_STATE_AWAITING_VERSION_IN
| NTB_NETWORK_PEER_STATE_AWAITING_VERACK_IN
| NTB_NETWORK_PEER_STATE_CONNECTED.

Inductive ntb_network_direction := NTB_NETWORK_OUTGOING | NTB_NETWORK_INCOMING.

Inductive ntb_network_addr_type :=
| NTB_NETWORK_ADDR_DEFAULT
| NTB_NETWORK_ADDR_EXPLICITLY_ADDED
| NTB_NETWORK_ADDR_DISCOVERED.

#[global] Instance peer_state_eq_dec : EqDecision ntb_network_peer_state.
Proof. solve_decision. Defined.
#[global] Instance direction_eq_dec : EqDecision ntb_network_direction.
Proof. solve_decision. Defined.
#[global] Instance addr_type_eq_dec : EqDecision ntb_network_addr_type.
Proof. solve_decision. Defined.

Record ntb_network_addr := NwAddr {
  ad_address : ntb_netaddress;
  ad_advertise_time : Z;
  ad_stream : Z;
  ad_services : Z;
  ad_last_connect_time : Z;
  ad_connected : bool;
  ad_type : ntb_network_addr_type
}.

(** [peer->addr] and the elements of [requested_inventories] are identities. *)
Record ntb_network_peer := NwPeer {
  pe_connection : ntb_connection;
  pe_addr : option nat;
  pe_requested : list nat;
  pe_state : ntb_network_peer_state;
  pe_direction : ntb_network_direction
}.

(** The state decides which member of the union is in use: a stub has no
    timestamp and no blob, and the type is only set for accepted entries. *)
Inductive ntb_network_inv_state :=
| NTB_NETWORK_INV_STATE_STUB (last_request_time : Z)
| NTB_NETWORK_INV_STATE_REJECTED (timestamp : Z)
| NTB_NETWORK_INV_STATE_ACCEPTED (type : ntb_proto_inv_type) (timestamp : Z)
    (blob : option ntb_blob).

Record ntb_network_inventory := NwInv { in_hash : list Z; in_state : ntb_network_inv_state }.

(** The address of an inventory entry with the hash it holds, which is written
    once when the entry is allocated: what the hash table stores. *)
Record inv_ptr := InvPtr { inv_id : nat; inv_hash : list Z }.

#[global] Instance inv_ptr_eq_dec : EqDecision inv_ptr.
Proof. solve_decision. Defined.

(** The counters are signed integers that count objects in memory. *)
Record ntb_network_stats := Stats {
  n_outgoing_peers : Z;
  n_incoming_peers : Z;
  n_unconnected_addrs : Z
}.

(** [ls_source]: the socket is polled for connections. *)
Record ntb_network_listen_socket := ListenSocket {
  ls_address : ntb_netaddress;
  ls_source : bool
}.

(** The entries, the table that finds them and the lists of [struct ntb_network]
    that own them. *)
Record inventory := Inventory {
  iv_hash : ntb_hash_table (V := inv_ptr);
  iv_objects : gmap nat ntb_network_inventory;
  iv_accepted : list nat;
  iv_rejected : list nat;
  iv_n_rejected : Z
}.

Record ntb_store_addr := StoreAddr {
  sa_timestamp : Z;
  sa_stream : Z;
  sa_services : Z;
  sa_address : ntb_netaddress
}.

(** Calls into other components. *)
Inductive effect :=
| StoreSaveBlob (hash : list Z) (blob : ntb_blob)
| StoreDeleteObject (hash : list Z)
| StoreSaveAddrList (addrs : list ntb_store_addr)
| NewObject (blob : ntb_blob).

(** [connect_queue_source] is [Some] of [connect_queue_source_is_idle]; [nw_next]
    is an identity no object had so far. *)
Record ntb_network := Network {
  nw_stats : ntb_network_stats;
  nw_nonce : Z;
  nw_only_use_explicit_addresses : bool;
  nw_connect_queue_source : option bool;
  nw_save_addr_list_source : bool;
  nw_listen_sockets : list (nat * ntb_network_listen_socket);
  nw_addrs : list (nat * ntb_network_addr);
  nw_peers : list (nat * ntb_network_peer);
  nw_inventory : inventory;
  nw_delayed_broadcasts : list (nat * list Z);
  nw_next : nat;
  nw_effects : list effect
}.

(** ** Field updates *)

Definition nw_set_stats (v : ntb_network_stats) (nw : ntb_network) :
    ntb_network :=
  Network v (nw_nonce nw) (nw_only_use_explicit_addresses nw) (nw_connect_queue_source nw)
    (nw_save_addr_list_source nw) (nw_listen_sockets nw) (nw_addrs nw) (nw_peers nw)
    (nw_inventory nw) (nw_delayed_broadcasts nw) (nw_next nw) (nw_effects nw).
Definition nw_set_explicit (v : bool) (nw : ntb_network) :
    ntb_network :=
  Network (nw_stats nw) (nw_nonce nw) v (nw_connect_queue_source nw) (nw_save_addr_list_source
    nw) (nw_listen_sockets nw) (nw_addrs nw) (nw_peers nw) (nw_inventory nw)
    (nw_delayed_broadcasts nw) (nw_next nw) (nw_effects nw).
Definition nw_set_connect_queue (v : option bool) (nw : ntb_network) :
    ntb_network :=
  Network (nw_stats nw) (nw_nonce nw) (nw_only_use_explicit_addresses nw) v
    (nw_save_addr_list_source nw) (nw_listen_sockets nw) (nw_addrs nw) (nw_peers nw)
    (nw_inventory nw) (nw_delayed_broadcasts nw) (nw_next nw) (nw_effects nw).
Definition nw_set_save_source (v : bool) (nw : ntb_network) :
    ntb_network :=
  Network (nw_stats nw) (nw_nonce nw) (nw_only_use_explicit_addresses nw)
    (nw_connect_queue_source nw) v (nw_listen_sockets nw) (nw_addrs nw) (nw_peers nw)
    (nw_inventory nw) (nw_delayed_broadcasts nw) (nw_next nw) (nw_effects nw).
Definition nw_set_listen (v : list (nat * ntb_network_listen_socket)) (nw : ntb_network) :
    ntb_network :=
  Network (nw_stats nw) (nw_nonce nw) (nw_only_use_explicit_addresses nw)
    (nw_connect_queue_source nw) (nw_save_addr_list_source nw) v (nw_addrs nw) (nw_peers nw)
    (nw_inventory nw) (nw_delayed_broadcasts nw) (nw_next nw) (nw_effects nw).
Definition nw_set_addrs (v : list (nat * ntb_network_addr)) (nw : ntb_network) :
    ntb_network :=
  Network (nw_stats nw) (nw_nonce nw) (nw_only_use_explicit_addresses nw)
    (nw_connect_queue_source nw) (nw_save_addr_list_source nw) (nw_listen_sockets nw) v
    (nw_peers nw) (nw_inventory nw) (nw_delayed_broadcasts nw) (nw_next nw) (nw_effects nw).
Definition nw_set_peers (v : list (nat * ntb_network_peer)) (nw : ntb_network) :
    ntb_network :=
  Network (nw_stats nw) (nw_nonce nw) (nw_only_use_explicit_addresses nw)
    (nw_connect_queue_source nw) (nw_save_addr_list_source nw) (nw_listen_sockets nw)
    (nw_addrs nw) v (nw_inventory nw) (nw_delayed_broadcasts nw) (nw_next nw) (nw_effects nw).
Definition nw_set_inventory (v : inventory) (nw : ntb_network) :
    ntb_network :=
  Network (nw_stats nw) (nw_nonce nw) (nw_only_use_explicit_addresses nw)
    (nw_connect_queue_source nw) (nw_save_addr_list_source nw) (nw_listen_sockets nw)
    (nw_addrs nw) (nw_peers nw) v (nw_delayed_broadcasts nw) (nw_next nw) (nw_effects nw).
Definition nw_set_delayed (v : list (nat * list Z)) (nw : ntb_network) :
    ntb_network :=
  Network (nw_stats nw) (nw_nonce nw) (nw_only_use_explicit_addresses nw)
    (nw_connect_queue_source nw) (nw_save_addr_list_source nw) (nw_listen_sockets nw)
    (nw_addrs nw) (nw_peers nw) (nw_inventory nw) v (nw_next nw) (nw_effects nw).
Definition nw_set_next (v : nat) (nw : ntb_network) :
    ntb_network :=
  Network (nw_stats nw) (nw_nonce nw) (nw_only_use_explicit_addresses nw)
    (nw_connect_queue_source nw) (nw_save_addr_list_source nw) (nw_listen_sockets nw)
    (nw_addrs nw) (nw_peers nw) (nw_inventory nw) (nw_delayed_broadcasts nw) v (nw_effects nw).
Definition nw_set_effects (v : list effect) (nw : ntb_network) :
    ntb_network :=
  Network (nw_stats nw) (nw_nonce nw) (nw_only_use_explicit_addresses nw)
    (nw_connect_queue_source nw) (nw_save_addr_list_source nw) (nw_listen_sockets nw)
    (nw_addrs nw) (nw_peers nw) (nw_inventory nw) (nw_delayed_broadcasts nw) (nw_next nw) v.

Definition nw_emit (e : effect) (nw : ntb_network) : ntb_network :=
  nw_set_effects (nw_effects nw ++ [e]) nw.
Definition nw_count (f : ntb_network_stats -> ntb_network_stats) (nw : ntb_network) : ntb_network :=
  nw_set_stats (f (nw_stats nw)) nw.

Definition add_outgoing (k : Z) (s : ntb_network_stats) : ntb_network_stats :=
  Stats (n_outgoing_peers s + k) (n_incoming_peers s) (n_unconnected_addrs s).
Definition add_incoming (k : Z) (s : ntb_network_stats) : ntb_network_stats :=
  Stats (n_outgoing_peers s) (n_incoming_peers s + k) (n_unconnected_addrs s).
Definition add_unconnected (k : Z) (s : ntb_network_stats) : ntb_network_stats :=
  Stats (n_outgoing_peers s) (n_incoming_peers s) (n_unconnected_addrs s + k).

Definition ad_set_connected (v : bool) (a : ntb_network_addr) : ntb_network_addr :=
  NwAddr (ad_address a) (ad_advertise_time a) (ad_stream a) (ad_services a)
    (ad_last_connect_time a) v (ad_type a).
Definition ad_set_advertise_time (v : Z) (a : ntb_network_addr) : ntb_network_addr :=
  NwAddr (ad_address a) v (ad_stream a) (ad_services a)
    (ad_last_connect_time a) (ad_connected a) (ad_type a).
Definition ad_set_last_connect_time (v : Z) (a : ntb_network_addr) : ntb_network_addr :=
  NwAddr (ad_address a) (ad_advertise_time a) (ad_stream a) (ad_services a)
    v (ad_connected a) (ad_type a).
Definition ad_set_type (v : ntb_network_addr_type) (a : ntb_network_addr) : ntb_network_addr :=
  NwAddr (ad_address a) (ad_advertise_time a) (ad_stream a) (ad_services a)
    (ad_last_connect_time a) (ad_connected a) v.

Definition pe_set_connection (v : ntb_connection) (p : ntb_network_peer) : ntb_network_peer :=
  NwPeer v (pe_addr p) (pe_requested p) (pe_state p) (pe_direction p).
Definition pe_set_addr (v : option nat) (p : ntb_network_peer) : ntb_network_peer :=
  NwPeer (pe_connection p) v (pe_requested p) (pe_state p) (pe_direction p).
Definition pe_set_requested (v : list nat) (p : ntb_network_peer) : ntb_network_peer :=
  NwPeer (pe_connection p) (pe_addr p) v (pe_state p) (pe_direction p).
Definition pe_set_state (v : ntb_network_peer_state) (p : ntb_network_peer) : ntb_network_peer :=
  NwPeer (pe_connection p) (pe_addr p) (pe_requested p) v (pe_direction p).

(** ** Pointers *)

Definition the_addr (i : nat) (nw : ntb_network) : result unit ntb_network_addr :=
  match lookup_id i (nw_addrs nw) with Some a => Ok a | None => UB end.
Definition the_peer (i : nat) (nw : ntb_network) : result unit ntb_network_peer :=
  match lookup_id i (nw_peers nw) with Some p => Ok p | None => UB end.
Definition the_inv (i : nat) (iv : inventory) : result unit ntb_network_inventory :=
  match iv_objects iv !! i with Some inv => Ok inv | None => UB end.

Definition update_addr (i : nat) (f : ntb_network_addr -> ntb_network_addr) (nw : ntb_network) :
    ntb_network :=
  nw_set_addrs (update_id i f (nw_addrs nw)) nw.
Definition update_peer (i : nat) (f : ntb_network_peer -> ntb_network_peer) (nw : ntb_network) :
    ntb_network :=
  nw_set_peers (update_id i f (nw_peers nw)) nw.

(** A call with [peer->connection]. *)
Definition on_connection (i : nat) (f : ntb_connection -> result unit ntb_connection)
    (nw : ntb_network) : result unit ntb_network :=
  peer ← the_peer i nw;
  c ← f (pe_connection peer);
  Ok (update_peer i (pe_set_connection c) nw).

(** A call with the connection of every peer in a state. *)
Fixpoint connections_loop (f : ntb_connection -> result unit ntb_connection)
    (state : ntb_network_peer_state) (l : list (nat * ntb_network_peer)) :
    result unit (list (nat * ntb_network_peer)) :=
  match l with
  | [] => Ok []
  | (i, peer) :: l =>
      peer ← (if bool_decide (pe_state peer = state) then
                c ← f (pe_connection peer); Ok (pe_set_connection c peer)
              else Ok peer);
      l ← connections_loop f state l;
      Ok ((i, peer) :: l)
  end.

(** ** Event sources *)

Definition update_listen_socket_source (n_incoming : Z) (s : ntb_network_listen_socket) :
    ntb_network_listen_socket :=
  if NTB_NETWORK_MAX_INCOMING_PEERS <=? n_incoming then ListenSocket (ls_address s) false
  else ListenSocket (ls_address s) true.

Definition update_all_listen_socket_sources (nw : ntb_network) : ntb_network :=
  nw_set_listen
    (map_id (update_listen_socket_source (n_incoming_peers (nw_stats nw))) (nw_listen_sockets nw)) nw.

Definition remove_connect_queue_source (nw : ntb_network) : ntb_network :=
  nw_set_connect_queue None nw.

Definition maybe_queue_connect (use_idle : bool) (nw : ntb_network) : ntb_network :=
  if NTB_NETWORK_NUM_OUTGOING_PEERS <=? n_outgoing_peers (nw_stats nw) then nw
  else if n_unconnected_addrs (nw_stats nw) <=? 0 then nw
  else match nw_connect_queue_source nw with
       | Some is_idle =>
           if Bool.eqb is_idle use_idle then nw
           else nw_set_connect_queue (Some use_idle) nw
       | None => nw_set_connect_queue (Some use_idle) nw
       end.

Definition queue_save_addr_list (nw : ntb_network) : ntb_network :=
  if nw_save_addr_list_source nw then nw else nw_set_save_source true nw.

(** The difference of two times, a signed 64-bit integer. *)
Definition age_at (now timestamp : Z) : Z := s64 (now - timestamp).

(** The buffer the loop fills holds the records that are not too old. *)
Definition save_addr_list_cb (now : Z) (nw : ntb_network) : ntb_network :=
  let store_addrs :=
    (fun p => let a := snd p in
              StoreAddr (ad_advertise_time a) (ad_stream a) (ad_services a) (ad_address a))
      <$> List.filter (fun p => negb (NTB_NETWORK_MAX_ADDR_AGE <? age_at now (ad_advertise_time (snd p))))
            (nw_addrs nw) in
  nw_set_save_source false (nw_emit (StoreSaveAddrList store_addrs) nw).

(** ** Removing objects *)

(** [free_inventory], and taking the entry out of the table before. *)
Definition free_inventory (i : nat) (iv : inventory) : inventory :=
  Inventory (iv_hash iv) (delete i (iv_objects iv)) (iv_accepted iv) (iv_rejected iv) (iv_n_rejected iv).

Definition remove_inventory (i : nat) (iv : inventory) : result unit inventory :=
  inv ← the_inv i iv;
  let '(_, table) := ntb_hash_table_remove inv_hash (iv_hash iv) (InvPtr i (in_hash inv)) in
  Ok (free_inventory i (Inventory table (iv_objects iv) (iv_accepted iv) (iv_rejected iv)
                          (iv_n_rejected iv))).

Fixpoint remove_inventories (l : list nat) (iv : inventory) : result unit inventory :=
  match l with
  | [] => Ok iv
  | i :: l => iv ← remove_inventory i iv; remove_inventories l iv
  end.

Definition remove_peer (i : nat) (nw : ntb_network) : result unit ntb_network :=
  peer ← the_peer i nw;
  iv ← remove_inventories (pe_requested peer) (nw_inventory nw);
  let nw := nw_set_inventory iv nw in
  nw ← match pe_addr peer with
       | Some a =>
           _ ← the_addr a nw;
           Ok (update_addr a (ad_set_connected false) (nw_count (add_unconnected 1) nw))
       | None => Ok nw
       end;
  let nw := match pe_direction peer with
            | NTB_NETWORK_OUTGOING => nw_count (add_outgoing (-1)) nw
            | NTB_NETWORK_INCOMING => nw_count (add_incoming (-1)) nw
            end in
  let nw := nw_set_peers (remove_id i (nw_peers nw)) nw in
  Ok (update_all_listen_socket_sources (maybe_queue_connect true nw)).

Definition remove_addr (i : nat) (nw : ntb_network) : result unit ntb_network :=
  addr ← the_addr i nw;
  _ ← c_assert (negb (ad_connected addr));
  Ok (nw_count (add_unconnected (-1)) (nw_set_addrs (remove_id i (nw_addrs nw)) nw)).

(** ** Connecting *)

(** [now] is the monotonic clock in microseconds. *)
Definition can_connect_to_addr (now : Z) (only_explicit : bool) (addr : ntb_network_addr) : bool :=
  negb (ad_connected addr) &&
  negb (u64 (now - ad_last_connect_time addr) <? NTB_NETWORK_MIN_RECONNECT_TIME * 1000000) &&
  negb (only_explicit && negb (bool_decide (ad_type addr = NTB_NETWORK_ADDR_EXPLICITLY_ADDED))).

Section network.
Context `{Digests} `{Inet}.

(** The user agent the program sends. *)
Context (agent : list Z).

Definition send_version_to_peer (wall : Z) (i : nat) (nw : ntb_network) : result unit ntb_network :=
  let local_port := match nw_listen_sockets nw with
                    | [] => NTB_PROTO_DEFAULT_PORT
                    | (_, s) :: _ => na_port (ls_address s)
                    end in
  on_connection i (fun c => ntb_connection_send_version c wall (nw_nonce nw) local_port agent) nw.

(** The callers write [direction] right after the call, and nothing reads it
    before. *)
Definition add_peer (conn : ntb_connection) (direction : ntb_network_direction) (nw : ntb_network) :
    nat * ntb_network :=
  let peer := NwPeer conn None [] NTB_NETWORK_PEER_STATE_AWAITING_VERACK_OUT direction in
  let nw' := nw_set_next (S (nw_next nw)) (nw_set_peers ((nw_next nw, peer) :: nw_peers nw) nw) in
  (nw_next nw, update_all_listen_socket_sources nw').

(** [connected]: the system calls of [ntb_connection_connect] succeeded. *)
Definition connect_to_addr (wall mono : Z) (connected : bool) (i : nat) (nw : ntb_network) :
    result unit (bool * ntb_network) :=
  addr ← the_addr i nw;
  let nw := update_addr i (ad_set_last_connect_time mono) nw in
  if connected then
    let '(p, nw) := add_peer (ntb_connection_new_for_socket (ad_address addr) mono)
                      NTB_NETWORK_OUTGOING nw in
    let nw := update_peer p (pe_set_addr (Some i)) nw in
    let nw := nw_count (add_outgoing 1) nw in
    nw ← send_version_to_peer wall p nw;
    Ok (true, nw)
  else Ok (false, nw).

(** The second loop of [connect_queue_cb]; [None] when it reaches the end of the
    list, where [addr] would point at the head. *)
Fixpoint pick_addr (can : ntb_network_addr -> bool) (addr_num : Z) (l : list (nat * ntb_network_addr)) :
    option nat :=
  match l with
  | [] => None
  | (i, addr) :: l =>
      if can addr then
        if addr_num <=? 0 then Some i else pick_addr can (addr_num - 1) l
      else pick_addr can addr_num l
  end.

(** [random] is what [rand] returns. *)
Definition connect_queue_cb (wall mono random : Z) (connected : bool) (nw : ntb_network) :
    result unit ntb_network :=
  if (NTB_NETWORK_NUM_OUTGOING_PEERS <=? n_outgoing_peers (nw_stats nw)) ||
     (n_unconnected_addrs (nw_stats nw) <=? 0)
  then Ok (remove_connect_queue_source nw)
  else
    let can := can_connect_to_addr mono (nw_only_use_explicit_addresses nw) in
    let n_addrs := count can (nw_addrs nw) in
    if n_addrs <=? 0 then Ok (maybe_queue_connect false nw)
    else
      let addr_num := s32 (u64 (random * n_addrs) / RAND_MAX) in
      match pick_addr can addr_num (nw_addrs nw) with
      | None => UB
      | Some i =>
          '(ok, nw) ← connect_to_addr wall mono connected i nw;
          if (ok : bool) then
            Ok (nw_count (add_unconnected (-1)) (update_addr i (ad_set_connected true) nw))
          else Ok nw
      end.

(** ** Known addresses *)

(** The callers write the fields that are arguments here right after the call. *)
Definition new_addr (address : ntb_netaddress) (advertise_time stream services : Z)
    (nw : ntb_network) : nat * ntb_network :=
  let addr := NwAddr address advertise_time stream services 0 false NTB_NETWORK_ADDR_DISCOVERED in
  (nw_next nw,
   nw_count (add_unconnected 1)
     (nw_set_next (S (nw_next nw)) (nw_set_addrs ((nw_next nw, addr) :: nw_addrs nw) nw))).

Definition broadcast_addr (addr : ntb_network_addr) (nw : ntb_network) : result unit ntb_network :=
  peers ← connections_loop
    (fun c => c ← ntb_connection_begin_addr c;
              c ← ntb_connection_add_addr_address (ad_advertise_time addr) (ad_stream addr)
                    (ad_services addr) (ad_address addr) c;
              ntb_connection_end_addr c)
    NTB_NETWORK_PEER_STATE_CONNECTED (nw_peers nw);
  Ok (nw_set_peers peers nw).

Definition find_address (address : ntb_netaddress) (nw : ntb_network) : option nat :=
  fst <$> List.find (fun p => bytes_eqb (na_host (ad_address (snd p))) (na_host address) &&
                              (na_port (ad_address (snd p)) =? na_port address)) (nw_addrs nw).

Definition add_addr (now timestamp stream services : Z) (address : ntb_netaddress)
    (nw : ntb_network) : result unit (option nat * ntb_network) :=
  if NTB_NETWORK_MAX_ADDR_AGE <=? age_at now timestamp then Ok (None, nw)
  else
    let timestamp := if now <? timestamp then now else timestamp in
    match find_address address nw with
    | Some i =>
        addr ← the_addr i nw;
        if ad_advertise_time addr <? timestamp then
          let nw := queue_save_addr_list (update_addr i (ad_set_advertise_time timestamp) nw) in
          nw ← broadcast_addr (ad_set_advertise_time timestamp addr) nw;
          Ok (Some i, nw)
        else Ok (Some i, nw)
    | None =>
        let '(i, nw) := new_addr address timestamp stream services nw in
        let nw := queue_save_addr_list nw in
        addr ← the_addr i nw;
        nw ← broadcast_addr addr nw;
        Ok (Some i, maybe_queue_connect true nw)
    end.

(** ** A peer whose handshake is complete *)

Fixpoint send_addr_loop (now : Z) (l : list (nat * ntb_network_addr)) (c : ntb_connection) :
    result unit ntb_connection :=
  match l with
  | [] => Ok c
  | (_, addr) :: l =>
      if NTB_NETWORK_MAX_ADDR_AGE <? age_at now (ad_advertise_time addr) then send_addr_loop now l c
      else
        c ← ntb_connection_add_addr_address (ad_advertise_time addr) (ad_stream addr)
              (ad_services addr) (ad_address addr) c;
        send_addr_loop now l c
  end.

Definition send_addresses (now : Z) (i : nat) (nw : ntb_network) : result unit ntb_network :=
  on_connection i (fun c =>
    c ← ntb_connection_begin_addr c;
    c ← send_addr_loop now (nw_addrs nw) c;
    ntb_connection_end_addr c) nw.

(** The entries of the list are accepted: only then their type is set. *)
Fixpoint send_inv_loop (now : Z) (iv : inventory) (l : list nat) (c : ntb_connection) :
    result unit ntb_connection :=
  match l with
  | [] => Ok c
  | i :: l =>
      inv ← the_inv i iv;
      match in_state inv with
      | NTB_NETWORK_INV_STATE_ACCEPTED type timestamp _ =>
          if ntb_proto_get_max_age_for_type type <=? age_at now timestamp then send_inv_loop now iv l c
          else c ← ntb_connection_add_inv_hash (in_hash inv) c; send_inv_loop now iv l c
      | NTB_NETWORK_INV_STATE_STUB _ | NTB_NETWORK_INV_STATE_REJECTED _ => UB
      end
  end.

Definition send_inventory (now : Z) (i : nat) (nw : ntb_network) : result unit ntb_network :=
  on_connection i (fun c =>
    c ← ntb_connection_begin_inv c;
    c ← send_inv_loop now (nw_inventory nw) (iv_accepted (nw_inventory nw)) c;
    ntb_connection_end_inv c) nw.

Definition connection_established (now : Z) (i : nat) (nw : ntb_network) : result unit ntb_network :=
  let nw := update_peer i (pe_set_state NTB_NETWORK_PEER_STATE_CONNECTED) nw in
  nw ← send_addresses now i nw;
  send_inventory now i nw.

(** The user agent as it is logged, in an array of 64 characters. *)
Definition user_agent_buf (user_agent : ntb_proto_var_str) : result unit (list Z) :=
  l ← read_bytes (Z.to_nat (Z.min (vs_length user_agent) 63)) (vs_data user_agent);
  Ok (List.map (fun b => if (b <? 32) || (0x7f <? b) then 63 else b) l).

Definition handle_version (wall : Z) (i : nat) (event : ntb_connection_version_event)
    (nw : ntb_network) : result unit (bool * ntb_network) :=
  peer ← the_peer i nw;
  _ ← user_agent_buf (ve_user_agent event);
  if ve_nonce event =? nw_nonce nw then
    nw ← remove_peer i nw; Ok (false, nw)
  else if negb (ve_version event =? NTB_PROTO_VERSION) then
    nw ← remove_peer i nw; Ok (false, nw)
  else
    stream ←
      (if 1 <=? vil_n_ints (ve_stream_numbers event) then
         r ← parse (ntb_proto_get_var_int (vil_values (ve_stream_numbers event), 16));
         Ok (match r with Some (stream, _) => stream | None => 1 end)
       else Ok 1);
    let remote_address := NetAddr (na_host (conn_remote_address (pe_connection peer)))
                            (na_port (ve_addr_from event)) in
    '(addr, nw) ← add_addr wall (ve_timestamp event) (u32 stream) (ve_services event)
                    remote_address nw;
    nw ← match addr with
         | Some a =>
             addr ← the_addr a nw;
             if bool_decide (pe_addr peer = None) && negb (ad_connected addr) then
               Ok (nw_count (add_unconnected (-1))
                     (update_addr a (ad_set_connected true) (update_peer i (pe_set_addr (Some a)) nw)))
             else Ok nw
         | None => Ok nw
         end;
    nw ← on_connection i ntb_connection_send_verack nw;
    nw ← match pe_state peer with
         | NTB_NETWORK_PEER_STATE_AWAITING_VERACK_OUT
         | NTB_NETWORK_PEER_STATE_AWAITING_VERACK_IN
         | NTB_NETWORK_PEER_STATE_CONNECTED => Ok nw
         | NTB_NETWORK_PEER_STATE_AWAITING_VERSION_OUT => connection_established wall i nw
         | NTB_NETWORK_PEER_STATE_AWAITING_VERSION_IN =>
             nw ← send_version_to_peer wall i nw;
             Ok (update_peer i (pe_set_state NTB_NETWORK_PEER_STATE_AWAITING_VERACK_IN) nw)
         end;
    Ok (true, nw).

Definition handle_verack (wall : Z) (i : nat) (nw : ntb_network) : result unit (bool * ntb_network) :=
  peer ← the_peer i nw;
  match pe_state peer with
  | NTB_NETWORK_PEER_STATE_AWAITING_VERACK_OUT =>
      Ok (true, update_peer i (pe_set_state NTB_NETWORK_PEER_STATE_AWAITING_VERSION_OUT) nw)
  | NTB_NETWORK_PEER_STATE_AWAITING_VERACK_IN =>
      nw ← connection_established wall i nw; Ok (true, nw)
  | NTB_NETWORK_PEER_STATE_AWAITING_VERSION_OUT
  | NTB_NETWORK_PEER_STATE_AWAITING_VERSION_IN
  | NTB_NETWORK_PEER_STATE_CONNECTED => Ok (true, nw)
  end.

(** ** The inventory *)

(** Allocating an entry and entering it into the table. *)
Definition new_inventory (hash : list Z) (state : ntb_network_inv_state) (nw : ntb_network) :
    nat * ntb_network :=
  let i := nw_next nw in
  let iv := nw_inventory nw in
  let '(_, table) := ntb_hash_table_set inv_hash (iv_hash iv) (InvPtr i hash) in
  (i, nw_set_next (S i)
        (nw_set_inventory (Inventory table (<[i := NwInv hash state]> (iv_objects iv))
                             (iv_accepted iv) (iv_rejected iv) (iv_n_rejected iv)) nw)).

Definition request_inventory (mono : Z) (p : nat) (hash : list Z) (nw : ntb_network) :
    result unit ntb_network :=
  let '(i, nw) := new_inventory hash (NTB_NETWORK_INV_STATE_STUB mono) nw in
  peer ← the_peer p nw;
  let nw := update_peer p (pe_set_requested (i :: pe_requested peer)) nw in
  on_connection p (ntb_connection_add_getdata_hash hash) nw.

(** A round reads the next hash or leaves the command, so the bytes bound the
    rounds. *)
Fixpoint inv_loop (fuel : nat) (mono : Z) (p : nat) (n_inventories : Z) (inventories : ptr)
    (nw : ntb_network) : result unit ntb_network :=
  if n_inventories =? 0 then Ok nw
  else match fuel with
       | O => OutOfFuel
       | S fuel =>
           hash ← read_bytes (Z.to_nat NTB_PROTO_HASH_LENGTH) inventories;
           nw ← match ntb_hash_table_get inv_hash (iv_hash (nw_inventory nw)) hash with
                | None => request_inventory mono p hash nw
                | Some _ => Ok nw
                end;
           inv_loop fuel mono p (n_inventories - 1)
             (drop (Z.to_nat NTB_PROTO_HASH_LENGTH) inventories) nw
       end.

Definition handle_inv (mono : Z) (p : nat) (n_inventories : Z) (inventories : ptr) (nw : ntb_network) :
    result unit (bool * ntb_network) :=
  nw ← on_connection p ntb_connection_begin_getdata nw;
  nw ← inv_loop (S (length inventories)) mono p n_inventories inventories nw;
  nw ← on_connection p ntb_connection_end_getdata nw;
  Ok (true, nw).

Definition should_reject (type : ntb_proto_inv_type) (payload : ptr) (payload_length age : Z) :
    result unit bool :=
  if age <=? - NTB_NETWORK_INV_FUTURE_AGE then Ok true
  else if ntb_proto_get_max_age_for_type type <=? age then Ok true
  else
    ok ← ntb_pow_check payload payload_length NTB_PROTO_MIN_EXTRA_BYTES
           NTB_PROTO_MIN_NONCE_TRIALS_PER_BYTE;
    Ok (negb ok).

Definition handle_addr (wall : Z) (event : ntb_connection_addr_event) (nw : ntb_network) :
    result unit (bool * ntb_network) :=
  if ntb_netaddress_is_allowed (ae_address event) then
    '(_, nw) ← add_addr wall (ae_timestamp event) (ae_stream event) (ae_services event)
                 (ae_address event) nw;
    Ok (true, nw)
  else Ok (true, nw).

(** For a stub the code passes on a pointer that was never written. *)
Fixpoint getdata_loop (fuel : nat) (p : nat) (n_hashes : Z) (hashes : ptr) (nw : ntb_network) :
    result unit ntb_network :=
  if n_hashes =? 0 then Ok nw
  else match fuel with
       | O => OutOfFuel
       | S fuel =>
           hash ← read_bytes (Z.to_nat NTB_PROTO_HASH_LENGTH) hashes;
           nw ← match ntb_hash_table_get inv_hash (iv_hash (nw_inventory nw)) hash with
                | None => Ok nw
                | Some ptr =>
                    inv ← the_inv (inv_id ptr) (nw_inventory nw);
                    match in_state inv with
                    | NTB_NETWORK_INV_STATE_REJECTED _ => Ok nw
                    | NTB_NETWORK_INV_STATE_STUB _ => UB
                    | NTB_NETWORK_INV_STATE_ACCEPTED _ _ blob =>
                        on_connection p (fun c => ntb_connection_send_blob c (in_hash inv) blob) nw
                    end
                end;
           getdata_loop fuel p (n_hashes - 1) (drop (Z.to_nat NTB_PROTO_HASH_LENGTH) hashes) nw
       end.

Definition handle_getdata (p : nat) (n_hashes : Z) (hashes : ptr) (nw : ntb_network) :
    result unit (bool * ntb_network) :=
  nw ← getdata_loop (S (length hashes)) p n_hashes hashes nw;
  Ok (true, nw).

Definition broadcast_inv (hash : list Z) (nw : ntb_network) : result unit ntb_network :=
  peers ← connections_loop
    (fun c => c ← ntb_connection_begin_inv c;
              c ← ntb_connection_add_inv_hash hash c;
              ntb_connection_end_inv c)
    NTB_NETWORK_PEER_STATE_CONNECTED (nw_peers nw);
  Ok (nw_set_peers peers nw).

Definition broadcast_delayed_inv_cb (i : nat) (nw : ntb_network) : result unit ntb_network :=
  match lookup_id i (nw_delayed_broadcasts nw) with
  | None => UB
  | Some hash =>
      nw ← broadcast_inv hash nw;
      Ok (nw_set_delayed (remove_id i (nw_delayed_broadcasts nw)) nw)
  end.

(** The delay of the timer is a random number of minutes. *)
Definition broadcast_delayed_inv (hash : list Z) (nw : ntb_network) : ntb_network :=
  nw_set_next (S (nw_next nw))
    (nw_set_delayed ((nw_next nw, hash) :: nw_delayed_broadcasts nw) nw).

(** Moving an entry into the rejected state and to the front of its list. *)
Definition set_rejected (i : nat) (timestamp : Z) (iv : inventory) : result unit inventory :=
  inv ← the_inv i iv;
  Ok (Inventory (iv_hash iv)
        (<[i := NwInv (in_hash inv) (NTB_NETWORK_INV_STATE_REJECTED timestamp)]> (iv_objects iv))
        (iv_accepted iv) (iv_rejected iv) (iv_n_rejected iv)).

(** The call that should take the oldest entry out of the table passes the address
    of its hash instead of the entry's own. No entry of the table is at that
    address, so the table does not change, and then the entry is freed. *)
Definition reject_inventory (i : nat) (timestamp : Z) (iv : inventory) : result unit inventory :=
  iv ← set_rejected i timestamp iv;
  if NTB_NETWORK_MAX_REJECTED_INVENTORIES <=? iv_n_rejected iv then
    match last (iv_rejected iv) with
    | None => UB
    | Some old =>
        _ ← the_inv old iv;
        let iv := free_inventory old iv in
        Ok (Inventory (iv_hash iv) (iv_objects iv) (iv_accepted iv)
              (i :: removelast (iv_rejected iv)) (iv_n_rejected iv))
    end
  else Ok (Inventory (iv_hash iv) (iv_objects iv) (iv_accepted iv) (i :: iv_rejected iv)
             (iv_n_rejected iv + 1)).

(** [ntb_list_remove(&inv->link)] for a stub, which is in the list of some peer. *)
Definition unlink_request (i : nat) (nw : ntb_network) : ntb_network :=
  nw_set_peers
    (map_id (fun p => pe_set_requested (List.filter (fun j => negb (Nat.eqb j i)) (pe_requested p)) p)
       (nw_peers nw)) nw.

(** An entry for the object that is in no list: a new one or a stub. [None] when
    the object is known. The state of a new entry is written before it is read. *)
Definition claim_inventory (hash : list Z) (nw : ntb_network) : result unit (option nat * ntb_network) :=
  match ntb_hash_table_get inv_hash (iv_hash (nw_inventory nw)) hash with
  | None =>
      let '(i, nw) := new_inventory hash (NTB_NETWORK_INV_STATE_STUB 0) nw in Ok (Some i, nw)
  | Some ptr =>
      inv ← the_inv (inv_id ptr) (nw_inventory nw);
      match in_state inv with
      | NTB_NETWORK_INV_STATE_STUB _ => Ok (Some (inv_id ptr), unlink_request (inv_id ptr) nw)
      | NTB_NETWORK_INV_STATE_REJECTED _ | NTB_NETWORK_INV_STATE_ACCEPTED _ _ _ => Ok (None, nw)
      end
  end.

(** The accepted entry at the front of its list. *)
Definition accept_inventory (i : nat) (type : ntb_proto_inv_type) (timestamp : Z)
    (blob : option ntb_blob) (iv : inventory) : result unit inventory :=
  inv ← the_inv i iv;
  Ok (Inventory (iv_hash iv)
        (<[i := NwInv (in_hash inv) (NTB_NETWORK_INV_STATE_ACCEPTED type timestamp blob)]> (iv_objects iv))
        (i :: iv_accepted iv) (iv_rejected iv) (iv_n_rejected iv)).

(** [inv->blob = NULL] *)
Definition drop_blob (i : nat) (iv : inventory) : result unit inventory :=
  inv ← the_inv i iv;
  match in_state inv with
  | NTB_NETWORK_INV_STATE_ACCEPTED type timestamp _ =>
      Ok (Inventory (iv_hash iv)
            (<[i := NwInv (in_hash inv) (NTB_NETWORK_INV_STATE_ACCEPTED type timestamp None)]>
               (iv_objects iv))
            (iv_accepted iv) (iv_rejected iv) (iv_n_rejected iv))
  | NTB_NETWORK_INV_STATE_STUB _ | NTB_NETWORK_INV_STATE_REJECTED _ => UB
  end.

Definition object_header : list ntb_proto_argument :=
  [NTB_PROTO_ARGUMENT_64; NTB_PROTO_ARGUMENT_TIMESTAMP].

(** [skip_validation] and [delay] are the two flags. *)
Definition add_object (wall : Z) (type : ntb_proto_inv_type) (object_data : ptr)
    (object_data_length : Z) (blob : option ntb_blob) (skip_validation delay : bool)
    (nw : ntb_network) : result unit ntb_network :=
  r ← parse (ntb_proto_get_command object_header object_data (u32 object_data_length));
  match r with
  | None => Ok nw
  | Some ((_, (timestamp, _)), _) =>
      data ← read_bytes (Z.to_nat object_data_length) object_data;
      let hash := ntb_proto_double_hash data in
      '(claimed, nw) ← claim_inventory hash nw;
      match claimed with
      | None => Ok nw
      | Some i =>
          let age := age_at wall timestamp in
          reject ← (if skip_validation then Ok false
                    else should_reject type object_data object_data_length age);
          if (reject : bool) then
            iv ← reject_inventory i timestamp (nw_inventory nw);
            Ok (nw_set_inventory iv nw)
          else
            let blob := match blob with Some blob => blob | None => Blob type data end in
            let nw := nw_emit (StoreSaveBlob hash blob) nw in
            iv ← accept_inventory i type timestamp (Some blob) (nw_inventory nw);
            let nw := nw_set_inventory iv nw in
            nw ← (if delay then Ok (broadcast_delayed_inv hash nw) else broadcast_inv hash nw);
            let nw := nw_emit (NewObject blob) nw in
            if NTB_NETWORK_INV_CACHE_AGE <=? age then
              iv ← drop_blob i (nw_inventory nw);
              Ok (nw_set_inventory iv nw)
            else Ok nw
      end
  end.

Definition handle_object (wall : Z) (event : ntb_connection_object_event) (nw : ntb_network) :
    result unit (bool * ntb_network) :=
  nw ← add_object wall (oe_type event) (oe_object_data event) (oe_object_data_length event) None
         false false nw;
  Ok (true, nw).

Definition connection_event_cb (wall mono : Z) (i : nat) (event : ntb_connection_event)
    (nw : ntb_network) : result unit (bool * ntb_network) :=
  match event with
  | NTB_CONNECTION_EVENT_ERROR | NTB_CONNECTION_EVENT_CONNECT_FAILED =>
      nw ← remove_peer i nw; Ok (false, nw)
  | NTB_CONNECTION_EVENT_VERSION e => handle_version wall i e nw
  | NTB_CONNECTION_EVENT_VERACK => handle_verack wall i nw
  | NTB_CONNECTION_EVENT_INV n inventories => handle_inv mono i n inventories nw
  | NTB_CONNECTION_EVENT_ADDR e => handle_addr wall e nw
  | NTB_CONNECTION_EVENT_GETDATA n hashes => handle_getdata i n hashes nw
  | NTB_CONNECTION_EVENT_OBJECT e => handle_object wall e nw
  end.

(** ** Garbage collection *)

(** The requests of a peer that are left, and the inventory without the others. *)
Fixpoint gc_requests_loop (mono : Z) (l : list nat) (iv : inventory) :
    result unit (list nat * inventory) :=
  match l with
  | [] => Ok ([], iv)
  | i :: l =>
      inv ← the_inv i iv;
      match in_state inv with
      | NTB_NETWORK_INV_STATE_STUB last_request_time =>
          if NTB_NETWORK_MAX_STUB_INVENTORY_AGE * 1000000 <=? u64 (mono - last_request_time) then
            iv ← remove_inventory i iv;
            gc_requests_loop mono l iv
          else '(l, iv) ← gc_requests_loop mono l iv; Ok (i :: l, iv)
      | NTB_NETWORK_INV_STATE_REJECTED _ | NTB_NETWORK_INV_STATE_ACCEPTED _ _ _ => UB
      end
  end.

Definition gc_requested_inventories (mono : Z) (peer : ntb_network_peer) (iv : inventory) :
    result unit (ntb_network_peer * inventory) :=
  '(l, iv) ← gc_requests_loop mono (pe_requested peer) iv;
  Ok (pe_set_requested l peer, iv).

Fixpoint gc_peers_loop (mono : Z) (l : list (nat * ntb_network_peer)) (iv : inventory) :
    result unit (list (nat * ntb_network_peer) * inventory) :=
  match l with
  | [] => Ok ([], iv)
  | (i, peer) :: l =>
      '(peer, iv) ← gc_requested_inventories mono peer iv;
      '(l, iv) ← gc_peers_loop mono l iv;
      Ok ((i, peer) :: l, iv)
  end.

Definition inv_expired (type : ntb_proto_inv_type) (age : Z) : bool :=
  (age <=? - NTB_NETWORK_INV_FUTURE_AGE) ||
  (ntb_proto_get_max_age_for_type type + NTB_PROTO_EXTRA_AGE <=? age).

(** The loop over one of the two lists: what is left of it, the inventory and the
    objects the store is told to delete. *)
Fixpoint gc_inventories (wall : Z) (l : list nat) (iv : inventory) :
    result unit (list nat * inventory * list effect) :=
  match l with
  | [] => Ok ([], iv, [])
  | i :: l =>
      inv ← the_inv i iv;
      match in_state inv with
      | NTB_NETWORK_INV_STATE_STUB _ => UB
      | NTB_NETWORK_INV_STATE_REJECTED timestamp =>
          if inv_expired NTB_PROTO_INV_TYPE_MSG (age_at wall timestamp) then
            iv ← remove_inventory i
                   (Inventory (iv_hash iv) (iv_objects iv) (iv_accepted iv) (iv_rejected iv)
                      (iv_n_rejected iv - 1));
            gc_inventories wall l iv
          else '(l, iv, es) ← gc_inventories wall l iv; Ok (i :: l, iv, es)
      | NTB_NETWORK_INV_STATE_ACCEPTED type timestamp blob =>
          let age := age_at wall timestamp in
          if inv_expired type age then
            iv ← remove_inventory i iv;
            '(l, iv, es) ← gc_inventories wall l iv;
            Ok (l, iv, StoreDeleteObject (in_hash inv) :: es)
          else
            iv ← (if NTB_NETWORK_INV_CACHE_AGE <=? age then drop_blob i iv else Ok iv);
            '(l, iv, es) ← gc_inventories wall l iv;
            Ok (i :: l, iv, es)
      end
  end.

Fixpoint gc_addrs_loop (wall : Z) (l : list (nat * ntb_network_addr)) (nw : ntb_network) :
    result unit ntb_network :=
  match l with
  | [] => Ok nw
  | (i, addr) :: l =>
      nw ← (if (NTB_NETWORK_MAX_ADDR_AGE <=? age_at wall (ad_advertise_time addr)) &&
               bool_decide (ad_type addr = NTB_NETWORK_ADDR_DISCOVERED) && negb (ad_connected addr)
            then remove_addr i nw else Ok nw);
      gc_addrs_loop wall l nw
  end.

Definition gc_addrs (wall : Z) (nw : ntb_network) : result unit ntb_network :=
  gc_addrs_loop wall (nw_addrs nw) nw.

Definition gc_timeout_cb (wall mono : Z) (nw : ntb_network) : result unit ntb_network :=
  '(peers, iv) ← gc_peers_loop mono (nw_peers nw) (nw_inventory nw);
  '(accepted, iv, deleted) ← gc_inventories wall (iv_accepted iv) iv;
  '(rejected, iv, deleted') ← gc_inventories wall (iv_rejected iv) iv;
  let iv := Inventory (iv_hash iv) (iv_objects iv) accepted rejected (iv_n_rejected iv) in
  gc_addrs wall (nw_set_effects (nw_effects nw ++ deleted ++ deleted')
                   (nw_set_inventory iv (nw_set_peers peers nw))).

(** ** Loading the store *)

Definition store_for_each_blob_cb (type : ntb_proto_inv_type) (hash : list Z) (timestamp : Z)
    (nw : ntb_network) : result unit ntb_network :=
  match ntb_hash_table_get inv_hash (iv_hash (nw_inventory nw)) hash with
  | Some _ => Ok nw
  | None =>
      let '(i, nw) := new_inventory hash (NTB_NETWORK_INV_STATE_STUB 0) nw in
      iv ← accept_inventory i type timestamp None (nw_inventory nw);
      Ok (nw_set_inventory iv nw)
  end.

Definition store_for_each_addr_cb (wall : Z) (addr : ntb_store_addr) (nw : ntb_network) :
    result unit ntb_network :=
  '(_, nw) ← add_addr wall (sa_timestamp addr) (sa_stream addr) (sa_services addr) (sa_address addr) nw;
  Ok nw.

Definition dns_bootstrap_cb (net_address : ntb_netaddress) (nw : ntb_network) : ntb_network :=
  if negb (ntb_netaddress_is_allowed net_address) ||
     bool_decide (is_Some (find_address net_address nw)) then nw
  else
    let '(i, nw) := new_addr net_address 0 1 NTB_PROTO_SERVICES nw in
    update_addr i (ad_set_type NTB_NETWORK_ADDR_DEFAULT) nw.

(** The objects and addresses the store reports and the addresses the name servers
    return. *)
Definition ntb_network_load_store (wall : Z) (blobs : list (ntb_proto_inv_type * list Z * Z))
    (addrs : list ntb_store_addr) (bootstrap : list ntb_netaddress) (nw : ntb_network) :
    result unit ntb_network :=
  nw ← for_each (fun '(type, hash, timestamp) => store_for_each_blob_cb type hash timestamp) blobs nw;
  nw ← for_each (store_for_each_addr_cb wall) addrs nw;
  nw ← for_each (fun a nw => Ok (dns_bootstrap_cb a nw)) bootstrap nw;
  Ok (maybe_queue_connect true nw).

(** ** Listening *)

Definition remove_listen_socket (i : nat) (nw : ntb_network) : ntb_network :=
  nw_set_listen (remove_id i (nw_listen_sockets nw)) nw.

(** What [ntb_connection_accept] returns. *)
Inductive accept_result := AcceptOk (address : ntb_netaddress) | AcceptAgain | AcceptError.

Definition listen_socket_source_cb (mono : Z) (i : nat) (r : accept_result) (nw : ntb_network) :
    result unit ntb_network :=
  match lookup_id i (nw_listen_sockets nw) with
  | None => UB
  | Some _ =>
      match r with
      | AcceptAgain => Ok nw
      | AcceptError => Ok (remove_listen_socket i nw)
      | AcceptOk address =>
          let conn := set_connect_succeeded true (ntb_connection_new_for_socket address mono) in
          let '(p, nw) := add_peer conn NTB_NETWORK_INCOMING nw in
          let nw := update_peer p (pe_set_state NTB_NETWORK_PEER_STATE_AWAITING_VERSION_IN) nw in
          Ok (nw_count (add_incoming 1) nw)
      end
  end.

(** [opened]: the socket could be created, bound and made to listen. *)
Definition ntb_network_add_listen_address (address : ptr) (opened : bool) (nw : ntb_network) :
    result unit (bool * ntb_network) :=
  r ← parse (ntb_netaddress_from_string address);
  match r with
  | None => Ok (false, nw)
  | Some netaddress =>
      let native_address := ntb_netaddress_to_native host netaddress in
      if opened then
        let s := ListenSocket (ntb_netaddress_from_native host native_address) false in
        let s := update_listen_socket_source (n_incoming_peers (nw_stats nw)) s in
        Ok (true, nw_set_next (S (nw_next nw))
                    (nw_set_listen ((nw_next nw, s) :: nw_listen_sockets nw) nw))
      else Ok (false, nw)
  end.

(** ** Creation and settings *)

(** The address is parsed into the new entry; on failure its fields are not read
    before it is removed. *)
Definition add_addr_string (address : ptr) (nw : ntb_network) : result unit (option nat * ntb_network) :=
  r ← parse (ntb_netaddress_from_string address);
  let '(i, nw) := new_addr (default (NetAddr (replicate 16 0) 0) r) 0 1 NTB_PROTO_SERVICES nw in
  match r with
  | None => nw ← remove_addr i nw; Ok (None, nw)
  | Some _ => Ok (Some i, nw)
  end.

Definition default_addrs : list (list Z) :=
  str_bytes <$>
  ["176.31.246.114:8444"; "109.229.197.133:8444"; "174.3.101.111:8444"; "90.188.238.79:7829";
   "184.75.69.2:8444"; "60.225.209.243:8444"; "5.145.140.218:8444"; "5.19.255.216:8444";
   "193.159.162.189:8444"; "86.26.15.171:8444"]%string.

Definition add_default_addr (address : list Z) (nw : ntb_network) : result unit ntb_network :=
  '(addr, nw) ← add_addr_string (address ++ [0]) nw;
  match addr with
  | None => UB
  | Some i => Ok (update_addr i (ad_set_type NTB_NETWORK_ADDR_DEFAULT) nw)
  end.

Definition empty_network (nonce : Z) : ntb_network :=
  Network (Stats 0 0 0) nonce false None false [] [] [] (Inventory ntb_hash_table_new ∅ [] [] 0) [] 0 [].

(** [nonce] is the random number of this process. *)
Definition ntb_network_new (nonce : Z) : result unit ntb_network :=
  nw ← for_each add_default_addr default_addrs (empty_network nonce);
  Ok (maybe_queue_connect true nw).

Definition ntb_network_add_peer_address (address : ptr) (nw : ntb_network) :
    result unit (bool * ntb_network) :=
  '(addr, nw) ← add_addr_string address nw;
  match addr with
  | None => Ok (false, nw)
  | Some i => Ok (true, update_addr i (ad_set_type NTB_NETWORK_ADDR_EXPLICITLY_ADDED) nw)
  end.

Definition ntb_network_set_only_use_explicit_addresses (value : bool) (nw : ntb_network) : ntb_network :=
  maybe_queue_connect true (nw_set_explicit value nw).

Definition ntb_network_add_blob (wall : Z) (blob : ntb_blob) (skip_validation delay : bool)
    (nw : ntb_network) : result unit ntb_network :=
  add_object wall (blob_type blob) (blob_data blob) (zlen (blob_data blob)) (Some blob)
    skip_validation delay nw.

Definition ntb_network_add_object_from_data (wall : Z) (type : ntb_proto_inv_type)
    (object_data : ptr) (object_data_length : Z) (skip_validation delay : bool) (nw : ntb_network) :
    result unit ntb_network :=
  add_object wall type object_data object_data_length None skip_validation delay nw.

Inductive ntb_network_object_location :=
| NTB_NETWORK_OBJECT_LOCATION_NOWHERE
| NTB_NETWORK_OBJECT_LOCATION_STORE
| NTB_NETWORK_OBJECT_LOCATION_MEMORY (blob : ntb_blob).

Definition ntb_network_get_object (hash : list Z) (nw : ntb_network) :
    result unit ntb_network_object_location :=
  match ntb_hash_table_get inv_hash (iv_hash (nw_inventory nw)) hash with
  | None => Ok NTB_NETWORK_OBJECT_LOCATION_NOWHERE
  | Some ptr =>
      inv ← the_inv (inv_id ptr) (nw_inventory nw);
      match in_state inv with
      | NTB_NETWORK_INV_STATE_ACCEPTED _ _ (Some blob) =>
          Ok (NTB_NETWORK_OBJECT_LOCATION_MEMORY blob)
      | NTB_NETWORK_INV_STATE_ACCEPTED _ _ None => Ok NTB_NETWORK_OBJECT_LOCATION_STORE
      | NTB_NETWORK_INV_STATE_STUB _ | NTB_NETWORK_INV_STATE_REJECTED _ =>
          Ok NTB_NETWORK_OBJECT_LOCATION_NOWHERE
      end
  end.

(** ** Shutting down *)

Definition free_peers (nw : ntb_network) : result unit ntb_network :=
  for_each remove_peer (nw_peers nw).*1 nw.
Definition free_addrs (nw : ntb_network) : result unit ntb_network :=
  for_each remove_addr (nw_addrs nw).*1 nw.

Fixpoint free_inventories_in_list (l : list nat) (iv : inventory) : result unit inventory :=
  match l with
  | [] => Ok iv
  | i :: l => _ ← the_inv i iv; free_inventories_in_list l (free_inventory i iv)
  end.

(** The state at the point where the structure itself is freed. *)
Definition ntb_network_free (wall : Z) (nw : ntb_network) : result unit ntb_network :=
  let nw := if nw_save_addr_list_source nw then save_addr_list_cb wall nw else nw in
  _ ← c_assert (negb (nw_save_addr_list_source nw));
  nw ← free_peers nw;
  nw ← free_addrs nw;
  let nw := nw_set_listen [] nw in
  iv ← free_inventories_in_list (iv_accepted (nw_inventory nw)) (nw_inventory nw);
  iv ← free_inventories_in_list (iv_rejected iv) iv;
  let nw := nw_set_delayed [] (nw_set_inventory iv nw) in
  let nw := remove_connect_queue_source nw in
  _ ← c_assert (n_outgoing_peers (nw_stats nw) =? 0);
  _ ← c_assert (n_incoming_peers (nw_stats nw) =? 0);
  _ ← c_assert (n_unconnected_addrs (nw_stats nw) =? 0);
  Ok nw.
End network.
