(* ===== verification/AddressBook.v ===== *)
(** * AddressBook: what the network promises about addresses and peers

    The abstract machine behind ntb-network.c: known addresses that are connected
    or not, peers of either direction that may be linked to an address, the three
    counters of [struct ntb_network_stats] and whether some socket is polled for
    connections. Its steps are what the handlers do to this part of the state; its
    invariant says that the counters count and that links and flags agree. *)

From S2P Require Import Prelude Ident Endian Buffer NetAddress OpenSSL Proto Connection Network.

Record book := Book {
  bk_stats : ntb_network_stats;
  bk_addrs : list (nat * bool);
  bk_peers : list (nat * (option nat * ntb_network_direction));
  bk_polled : bool;
  bk_next : nat
}.

Definition is_direction (d : ntb_network_direction) (p : option nat * ntb_network_direction) : bool :=
  match snd p, d with
  | NTB_NETWORK_OUTGOING, NTB_NETWORK_OUTGOING | NTB_NETWORK_INCOMING, NTB_NETWORK_INCOMING => true
  | _, _ => false
  end.

(** The counter of a direction. *)
Definition add_direction (d : ntb_network_direction) (k : Z) : ntb_network_stats -> ntb_network_stats :=
  match d with NTB_NETWORK_OUTGOING => add_outgoing k | NTB_NETWORK_INCOMING => add_incoming k end.

(** ** Steps *)

Inductive book_step : book -> book -> Prop :=
(** an object of another kind takes an identity *)
| bk_alloc st av pv pl n :
    book_step (Book st av pv pl n) (Book st av pv pl (S n))
(** a socket is polled only below the limit *)
| bk_poll st av pv pl pl' n :
    (pl' = true -> pl = true \/ n_incoming_peers st < NTB_NETWORK_MAX_INCOMING_PEERS) ->
    book_step (Book st av pv pl n) (Book st av pv pl' n)
| bk_new_addr st av pv pl n :
    book_step (Book st av pv pl n) (Book (add_unconnected 1 st) ((n, false) :: av) pv pl (S n))
| bk_remove_addr st av pv pl n a :
    lookup_id a av = Some false ->
    book_step (Book st av pv pl n) (Book (add_unconnected (-1) st) (remove_id a av) pv pl n)
(** connecting to an address that is not connected *)
| bk_connect st av pv pl pl' n a :
    lookup_id a av = Some false ->
    n_outgoing_peers st < NTB_NETWORK_NUM_OUTGOING_PEERS ->
    (pl' = true -> pl = true \/ n_incoming_peers st < NTB_NETWORK_MAX_INCOMING_PEERS) ->
    book_step (Book st av pv pl n)
      (Book (add_unconnected (-1) (add_outgoing 1 st)) (update_id a (fun _ => true) av)
         ((n, (Some a, NTB_NETWORK_OUTGOING)) :: pv) pl' (S n))
(** accepting a connection from a socket that is polled *)
| bk_accept st av pv pl' n :
    (pl' = true -> n_incoming_peers st < NTB_NETWORK_MAX_INCOMING_PEERS) ->
    book_step (Book st av pv true n)
      (Book (add_incoming 1 st) av ((n, (None, NTB_NETWORK_INCOMING)) :: pv) pl' (S n))
(** a peer tells its address *)
| bk_link st av pv pl n p d a :
    lookup_id p pv = Some (None, d) -> lookup_id a av = Some false ->
    book_step (Book st av pv pl n)
      (Book (add_unconnected (-1) st) (update_id a (fun _ => true) av)
         (update_id p (fun q => (Some a, snd q)) pv) pl n)
| bk_remove_peer st av pv pl pl' n p oa d :
    lookup_id p pv = Some (oa, d) ->
    let st' := add_direction d (-1) (match oa with Some _ => add_unconnected 1 st | None => st end) in
    (pl' = true -> n_incoming_peers st' < NTB_NETWORK_MAX_INCOMING_PEERS) ->
    book_step (Book st av pv pl n)
      (Book st' (match oa with Some a => update_id a (fun _ => false) av | None => av end)
         (remove_id p pv) pl' n).

(** ** Invariant *)

Record book_ok (b : book) : Prop := {
  ok_addr_ids : NoDup (bk_addrs b).*1;
  ok_peer_ids : NoDup (bk_peers b).*1;
  ok_addr_next : forall a, a ∈ (bk_addrs b).*1 -> (a < bk_next b)%nat;
  ok_peer_next : forall p, p ∈ (bk_peers b).*1 -> (p < bk_next b)%nat;
  (** the counters count *)
  ok_outgoing : n_outgoing_peers (bk_stats b) = count (is_direction NTB_NETWORK_OUTGOING) (bk_peers b);
  ok_incoming : n_incoming_peers (bk_stats b) = count (is_direction NTB_NETWORK_INCOMING) (bk_peers b);
  ok_unconnected : n_unconnected_addrs (bk_stats b) = count negb (bk_addrs b);
  (** an address is marked exactly when one peer is linked to it *)
  ok_link : forall p a d, lookup_id p (bk_peers b) = Some (Some a, d) -> lookup_id a (bk_addrs b) = Some true;
  ok_linked : forall a, lookup_id a (bk_addrs b) = Some true ->
    exists p d, lookup_id p (bk_peers b) = Some (Some a, d);
  ok_unique : forall p q a d e, lookup_id p (bk_peers b) = Some (Some a, d) ->
    lookup_id q (bk_peers b) = Some (Some a, e) -> p = q;
  (** the limits on connections; the second one is passed by one *)
  ok_max_outgoing : n_outgoing_peers (bk_stats b) <= NTB_NETWORK_NUM_OUTGOING_PEERS;
  ok_max_polled : bk_polled b = true -> n_incoming_peers (bk_stats b) <= NTB_NETWORK_MAX_INCOMING_PEERS;
  ok_max_incoming : n_incoming_peers (bk_stats b) <= NTB_NETWORK_MAX_INCOMING_PEERS + 1
}.

Lemma fresh_addr b : book_ok b -> bk_next b ∉ (bk_addrs b).*1.
Proof. intros Hb Hin. pose proof (ok_addr_next b Hb _ Hin). lia. Qed.
Lemma fresh_peer b : book_ok b -> bk_next b ∉ (bk_peers b).*1.
Proof. intros Hb Hin. pose proof (ok_peer_next b Hb _ Hin). lia. Qed.

Ltac book_cbn :=
  cbn [bk_stats bk_addrs bk_peers bk_polled bk_next n_outgoing_peers n_incoming_peers
       n_unconnected_addrs add_outgoing add_incoming add_unconnected add_direction one] in *.

(** The conclusions that follow from unchanged parts. *)
Ltac book_same Hb :=
  let H := fresh in
  first
    [ exact (ok_addr_ids _ Hb) | exact (ok_peer_ids _ Hb) | exact (ok_outgoing _ Hb)
    | exact (ok_incoming _ Hb) | exact (ok_unconnected _ Hb) | exact (ok_link _ Hb)
    | exact (ok_linked _ Hb) | exact (ok_unique _ Hb) | exact (ok_max_outgoing _ Hb)
    | exact (ok_max_polled _ Hb) | exact (ok_max_incoming _ Hb)
    | (intros ? H; pose proof (ok_addr_next _ Hb _ H); book_cbn; lia)
    | (intros ? H; pose proof (ok_peer_next _ Hb _ H); book_cbn; lia) ].

Lemma alloc_ok st av pv pl n : book_ok (Book st av pv pl n) -> book_ok (Book st av pv pl (S n)).
Proof. intros Hb. split; book_cbn; book_same Hb. Qed.

Lemma poll_ok st av pv pl pl' n :
  (pl' = true -> pl = true \/ n_incoming_peers st < NTB_NETWORK_MAX_INCOMING_PEERS) ->
  book_ok (Book st av pv pl n) -> book_ok (Book st av pv pl' n).
Proof.
  intros Hp Hb. split; book_cbn; try book_same Hb.
  intros Ht. destruct (Hp Ht) as [Hpl|]; [|lia]. exact (ok_max_polled _ Hb Hpl).
Qed.

Lemma new_addr_ok st av pv pl n :
  book_ok (Book st av pv pl n) -> book_ok (Book (add_unconnected 1 st) ((n, false) :: av) pv pl (S n)).
Proof.
  intros Hb. pose proof (fresh_addr _ Hb) as Hf. book_cbn. split; book_cbn; try book_same Hb.
  - rewrite fmap_cons, NoDup_cons. split; [exact Hf|book_same Hb].
  - intros a. rewrite fmap_cons, elem_of_cons. cbn [fst]. intros [->|Hin]; [lia|].
    pose proof (ok_addr_next _ Hb a Hin). book_cbn. lia.
  - rewrite count_cons. pose proof (ok_unconnected _ Hb). cbn [negb one]. book_cbn. lia.
  - intros p a d Hp. rewrite lookup_id_cons. pose proof (ok_link _ Hb p a d Hp) as Hl. book_cbn.
    destruct (Nat.eqb_spec n a) as [->|]; [|done]. by apply lookup_id_key in Hl.
  - intros a. rewrite lookup_id_cons. destruct (Nat.eqb n a); [done|]. apply (ok_linked _ Hb).
Qed.

Lemma remove_addr_ok st av pv pl n a :
  lookup_id a av = Some false -> book_ok (Book st av pv pl n) ->
  book_ok (Book (add_unconnected (-1) st) (remove_id a av) pv pl n).
Proof.
  intros Ha Hb. split; book_cbn; try book_same Hb.
  - apply remove_id_NoDup. book_same Hb.
  - intros b Hin. apply remove_id_keys in Hin as [Hin _]. exact (ok_addr_next _ Hb b Hin).
  - rewrite (count_remove _ _ _ false) by (book_same Hb || done).
    pose proof (ok_unconnected _ Hb). cbn [negb one]. book_cbn. lia.
  - intros p b d Hp. pose proof (ok_link _ Hb p b d Hp) as Hl. book_cbn. rewrite lookup_remove_id.
    destruct (Nat.eqb_spec b a) as [->|]; [congruence|done].
  - intros b. rewrite lookup_remove_id. destruct (Nat.eqb b a); [done|]. apply (ok_linked _ Hb).
Qed.

(** Setting the flag of an address. *)
Lemma count_set_flag a (v w : bool) av :
  NoDup av.*1 -> lookup_id a av = Some v ->
  count negb (update_id a (fun _ => w) av) = count negb av - one (negb v) + one (negb w).
Proof. intros Hn Ha. by rewrite (count_update _ _ _ _ v). Qed.

Lemma connect_ok st av pv pl pl' n a :
  lookup_id a av = Some false -> n_outgoing_peers st < NTB_NETWORK_NUM_OUTGOING_PEERS ->
  (pl' = true -> pl = true \/ n_incoming_peers st < NTB_NETWORK_MAX_INCOMING_PEERS) ->
  book_ok (Book st av pv pl n) ->
  book_ok (Book (add_unconnected (-1) (add_outgoing 1 st)) (update_id a (fun _ => true) av)
             ((n, (Some a, NTB_NETWORK_OUTGOING)) :: pv) pl' (S n)).
Proof.
  intros Ha Hlt Hp Hb. pose proof (fresh_peer _ Hb) as Hf. book_cbn. split; book_cbn.
  - rewrite update_id_keys. book_same Hb.
  - rewrite fmap_cons, NoDup_cons. split; [exact Hf|book_same Hb].
  - intros b. rewrite update_id_keys. revert b. book_same Hb.
  - intros p. rewrite fmap_cons, elem_of_cons. cbn [fst]. intros [->|Hin]; [lia|].
    pose proof (ok_peer_next _ Hb p Hin). book_cbn. lia.
  - rewrite count_cons. pose proof (ok_outgoing _ Hb). book_cbn. change (is_direction _ _) with true. cbn [one]. lia.
  - rewrite count_cons. pose proof (ok_incoming _ Hb). book_cbn. change (is_direction _ _) with false. cbn [one]. lia.
  - rewrite (count_set_flag a false) by (book_same Hb || done).
    pose proof (ok_unconnected _ Hb). cbn [negb one]. book_cbn. lia.
  - intros p b d. rewrite lookup_id_cons, lookup_update_id. destruct (Nat.eqb n p).
    + intros [= <- <-]. by rewrite Nat.eqb_refl, Ha.
    + intros Hl. pose proof (ok_link _ Hb p b d Hl) as E. book_cbn. rewrite E. by destruct (Nat.eqb b a).
  - intros b. rewrite lookup_update_id. destruct (Nat.eqb_spec b a) as [->|].
    + intros _. exists n, NTB_NETWORK_OUTGOING. by rewrite lookup_id_cons, Nat.eqb_refl.
    + rewrite option_fmap_id. intros Hl. destruct (ok_linked _ Hb b Hl) as (p & d & Hpd). book_cbn.
      exists p, d. rewrite lookup_id_cons. destruct (Nat.eqb_spec n p) as [->|]; [|done].
      by apply lookup_id_key in Hpd.
  - intros p q b d e. rewrite !lookup_id_cons.
    assert (Hno : forall q e, lookup_id q pv <> Some (Some a, e)).
    { intros q0 e0 Hq. pose proof (ok_link _ Hb q0 a e0 Hq) as E. book_cbn. congruence. }
    destruct (Nat.eqb_spec n p), (Nat.eqb_spec n q); try congruence.
    + intros [= <- <-] Hq. by destruct (Hno q e).
    + intros Hq [= <- <-]. by destruct (Hno p d).
    + intros H1 H2. exact (ok_unique _ Hb p q b d e H1 H2).
  - lia.
  - intros Ht. destruct (Hp Ht) as [->|]; [exact (ok_max_polled _ Hb eq_refl)|lia].
  - exact (ok_max_incoming _ Hb).
Qed.

Lemma accept_ok st av pv pl' n :
  (pl' = true -> n_incoming_peers st < NTB_NETWORK_MAX_INCOMING_PEERS) ->
  book_ok (Book st av pv true n) ->
  book_ok (Book (add_incoming 1 st) av ((n, (None, NTB_NETWORK_INCOMING)) :: pv) pl' (S n)).
Proof.
  intros Hp Hb. pose proof (fresh_peer _ Hb) as Hf. book_cbn. split; book_cbn; try book_same Hb.
  - rewrite fmap_cons, NoDup_cons. split; [exact Hf|book_same Hb].
  - intros p. rewrite fmap_cons, elem_of_cons. cbn [fst]. intros [->|Hin]; [lia|].
    pose proof (ok_peer_next _ Hb p Hin). book_cbn. lia.
  - rewrite count_cons. pose proof (ok_incoming _ Hb). book_cbn. change (is_direction _ _) with true. cbn [one]. lia.
  - intros p b d. rewrite lookup_id_cons. destruct (Nat.eqb n p); [done|]. apply (ok_link _ Hb).
  - intros b Hl. destruct (ok_linked _ Hb b Hl) as (p & d & Hpd). book_cbn.
    exists p, d. rewrite lookup_id_cons. destruct (Nat.eqb_spec n p) as [->|]; [|done].
    by apply lookup_id_key in Hpd.
  - intros p q b d e. rewrite !lookup_id_cons. destruct (Nat.eqb n p), (Nat.eqb n q); try done.
    apply (ok_unique _ Hb).
  - intros Ht. specialize (Hp Ht). lia.
  - pose proof (ok_max_polled _ Hb eq_refl). book_cbn. lia.
Qed.

Lemma link_ok st av pv pl n p d a :
  lookup_id p pv = Some (None, d) -> lookup_id a av = Some false ->
  book_ok (Book st av pv pl n) ->
  book_ok (Book (add_unconnected (-1) st) (update_id a (fun _ => true) av)
             (update_id p (fun q => (Some a, snd q)) pv) pl n).
Proof.
  intros Hp Ha Hb.
  assert (Hno : forall q e, lookup_id q pv <> Some (Some a, e)).
  { intros q0 e0 Hq. pose proof (ok_link _ Hb q0 a e0 Hq) as E. book_cbn. congruence. }
  assert (Hlk : forall q b e, lookup_id q (update_id p (fun r => (Some a, snd r)) pv) = Some (Some b, e) ->
    (q = p /\ b = a) \/ (q <> p /\ lookup_id q pv = Some (Some b, e))).
  { intros q b e. rewrite lookup_update_id. destruct (Nat.eqb_spec q p) as [->|].
    - rewrite Hp. cbn. intros [= -> _]. by left.
    - rewrite option_fmap_id. by right. }
  split; book_cbn; try book_same Hb.
  - rewrite update_id_keys. book_same Hb.
  - rewrite update_id_keys. book_same Hb.
  - intros b. rewrite update_id_keys. revert b. book_same Hb.
  - intros b. rewrite update_id_keys. revert b. book_same Hb.
  - rewrite (count_update _ _ _ _ (None, d)) by (book_same Hb || done).
    pose proof (ok_outgoing _ Hb). book_cbn. unfold is_direction in *. cbn [snd]. lia.
  - rewrite (count_update _ _ _ _ (None, d)) by (book_same Hb || done).
    pose proof (ok_incoming _ Hb). book_cbn. unfold is_direction in *. cbn [snd]. lia.
  - rewrite (count_set_flag a false) by (book_same Hb || done).
    pose proof (ok_unconnected _ Hb). cbn [negb one]. book_cbn. lia.
  - intros q b e Hq. rewrite lookup_update_id. destruct (Hlk q b e Hq) as [[-> ->]|[_ Hl]].
    + by rewrite Nat.eqb_refl, Ha.
    + pose proof (ok_link _ Hb q b e Hl) as E. book_cbn. rewrite E. by destruct (Nat.eqb b a).
  - intros b. rewrite lookup_update_id. destruct (Nat.eqb_spec b a) as [->|].
    + intros _. exists p, d. by rewrite lookup_update_id, Nat.eqb_refl, Hp.
    + rewrite option_fmap_id. intros Hl. destruct (ok_linked _ Hb b Hl) as (q & e & Hq). book_cbn.
      exists q, e. rewrite lookup_update_id. destruct (Nat.eqb_spec q p) as [->|]; [congruence|].
      by rewrite option_fmap_id.
  - intros q r b e f Hq Hr. destruct (Hlk q b e Hq) as [[-> E]|[? Hq']], (Hlk r b f Hr) as [[-> E']|[? Hr']].
    + done.
    + subst. by destruct (Hno r f).
    + subst. by destruct (Hno q e).
    + exact (ok_unique _ Hb q r b e f Hq' Hr').
Qed.

Lemma remove_peer_ok st av pv pl pl' n p oa d :
  lookup_id p pv = Some (oa, d) ->
  let st' := add_direction d (-1) (match oa with Some _ => add_unconnected 1 st | None => st end) in
  (pl' = true -> n_incoming_peers st' < NTB_NETWORK_MAX_INCOMING_PEERS) ->
  book_ok (Book st av pv pl n) ->
  book_ok (Book st' (match oa with Some a => update_id a (fun _ => false) av | None => av end)
             (remove_id p pv) pl' n).
Proof.
  intros Hp st' Hpl Hb.
  assert (Hids : NoDup pv.*1) by (book_same Hb). assert (Haids : NoDup av.*1) by (book_same Hb).
  assert (Hpo : forall a, oa = Some a -> lookup_id a av = Some true).
  { intros a ->. exact (ok_link _ Hb p a d Hp). }
  assert (Hlk : forall q b e, lookup_id q (remove_id p pv) = Some (Some b, e) ->
    q <> p /\ lookup_id q pv = Some (Some b, e)).
  { intros q b e. rewrite lookup_remove_id. by destruct (Nat.eqb_spec q p). }
  assert (Hst : n_outgoing_peers st' = n_outgoing_peers st - one (is_direction NTB_NETWORK_OUTGOING (oa, d)) /\
                n_incoming_peers st' = n_incoming_peers st - one (is_direction NTB_NETWORK_INCOMING (oa, d)) /\
                n_unconnected_addrs st' = n_unconnected_addrs st + match oa with Some _ => 1 | None => 0 end).
  { unfold st'. destruct d, oa; split_and!; cbn; lia. }
  destruct Hst as (Hso & Hsi & Hsu).
  assert (0 <= one (is_direction NTB_NETWORK_OUTGOING (oa, d)) /\
          0 <= one (is_direction NTB_NETWORK_INCOMING (oa, d))) by (unfold one; destruct d; cbn; lia).
  split; book_cbn.
  - destruct oa; [by rewrite update_id_keys|done].
  - by apply remove_id_NoDup.
  - intros b Hin. apply (ok_addr_next _ Hb). destruct oa; [by rewrite update_id_keys in Hin|done].
  - intros b [Hin _]%remove_id_keys. by apply (ok_peer_next _ Hb).
  - rewrite (count_remove _ _ _ _ Hids Hp), Hso. pose proof (ok_outgoing _ Hb). book_cbn. lia.
  - rewrite (count_remove _ _ _ _ Hids Hp), Hsi. pose proof (ok_incoming _ Hb). book_cbn. lia.
  - pose proof (ok_unconnected _ Hb). book_cbn. rewrite Hsu. destruct oa as [a|]; [|cbn; lia].
    rewrite (count_set_flag a true) by auto. cbn. lia.
  - intros q b e Hq. destruct (Hlk q b e Hq) as [Hne Hl]. pose proof (ok_link _ Hb q b e Hl) as E. book_cbn.
    destruct oa as [a|]; [|done]. rewrite lookup_update_id, E. destruct (Nat.eqb_spec b a) as [Eb|]; [|done].
    subst b. by destruct (Hne (ok_unique _ Hb q p a e d Hl Hp)).
  - intros b Hl. assert (Hl' : lookup_id b av = Some true /\ oa <> Some b).
    { destruct oa as [a|]; [|done]. rewrite lookup_update_id in Hl.
      destruct (Nat.eqb_spec b a) as [Eb|]; [by rewrite Eb, (Hpo a eq_refl) in Hl|].
      rewrite option_fmap_id in Hl. split; [done|congruence]. }
    destruct Hl' as [Hl' Hne]. destruct (ok_linked _ Hb b Hl') as (q & e & Hq). book_cbn.
    exists q, e. rewrite lookup_remove_id. destruct (Nat.eqb_spec q p) as [->|]; [congruence|done].
  - intros q r b e f Hq Hr. destruct (Hlk q b e Hq) as [_ Hq'], (Hlk r b f Hr) as [_ Hr'].
    exact (ok_unique _ Hb q r b e f Hq' Hr').
  - rewrite Hso. pose proof (ok_max_outgoing _ Hb). book_cbn. lia.
  - intros Ht. specialize (Hpl Ht). lia.
  - rewrite Hsi. pose proof (ok_max_incoming _ Hb). book_cbn. lia.
Qed.

Lemma book_step_ok b b' : book_step b b' -> book_ok b -> book_ok b'.
Proof.
  destruct 1; [apply alloc_ok|by eapply poll_ok|apply new_addr_ok|by apply remove_addr_ok
    |by eapply connect_ok|by apply accept_ok|by eapply link_ok|by eapply remove_peer_ok].
Qed.

Lemma book_steps_ok b b' : rtc book_step b b' -> book_ok b -> book_ok b'.
Proof. induction 1; [done|]. intros. eauto using book_step_ok. Qed.
