(* ===== verification/NetworkSpec.v ===== *)
(** * NetworkSpec: properties of the network

    The step relation of the component and the refinement of the address book by
    it, with what follows for the counters, the limits and shutting down. *)

From S2P Require Import Prelude Ident Endian Buffer NetAddress OpenSSL Proto NetText Pow HashTable Connection Network AddressBook.

(** ** Steps of the network

    One step is one callback of the main loop or one call from another component.
    What a connection does on its own (reading, writing, answers of the store) is
    a change of that connection only. *)

Inductive nw_call `{Digests} `{Inet} (agent : list Z) : ntb_network -> ntb_network -> Prop :=
| step_connection_io i f nw nw' :
    on_connection i f nw = Ok nw' -> nw_call agent nw nw'
| step_connect wall mono random connected nw nw' :
    is_Some (nw_connect_queue_source nw) ->
    connect_queue_cb agent wall mono random connected nw = Ok nw' -> nw_call agent nw nw'
| step_save wall nw :
    nw_save_addr_list_source nw = true -> nw_call agent nw (save_addr_list_cb wall nw)
| step_gc wall mono nw nw' :
    gc_timeout_cb wall mono nw = Ok nw' -> nw_call agent nw nw'
| step_delayed i nw nw' :
    broadcast_delayed_inv_cb i nw = Ok nw' -> nw_call agent nw nw'
| step_accept mono i address polled r nw nw' :
    lookup_id i (nw_listen_sockets nw) = Some (ListenSocket address polled) -> polled = true ->
    listen_socket_source_cb mono i r nw = Ok nw' -> nw_call agent nw nw'
| step_listen address opened ok nw nw' :
    ntb_network_add_listen_address address opened nw = Ok (ok, nw') -> nw_call agent nw nw'
| step_peer_address address ok nw nw' :
    ntb_network_add_peer_address address nw = Ok (ok, nw') -> nw_call agent nw nw'
| step_explicit value nw :
    nw_call agent nw (ntb_network_set_only_use_explicit_addresses value nw)
| step_blob wall blob skip delay nw nw' :
    ntb_network_add_blob wall blob skip delay nw = Ok nw' -> nw_call agent nw nw'
| step_object wall type data len skip delay nw nw' :
    ntb_network_add_object_from_data wall type data len skip delay nw = Ok nw' -> nw_call agent nw nw'
| step_load wall blobs addrs bootstrap nw nw' :
    ntb_network_load_store wall blobs addrs bootstrap nw = Ok nw' -> nw_call agent nw nw'.

(** ... or an event of a connection. *)
Inductive nw_step `{Digests} `{Inet} (agent : list Z) : ntb_network -> ntb_network -> Prop :=
| step_connection wall mono i e ok nw nw' :
    connection_event_cb agent wall mono i e nw = Ok (ok, nw') -> nw_step agent nw nw'
| step_call nw nw' : nw_call agent nw nw' -> nw_step agent nw nw'.

(** Compute through the updates of the state. *)
Ltac nw_cbn :=
  cbn [nw_stats nw_nonce nw_only_use_explicit_addresses nw_connect_queue_source
       nw_save_addr_list_source nw_listen_sockets nw_addrs nw_peers nw_inventory
       nw_delayed_broadcasts nw_next nw_effects nw_set_stats nw_set_explicit nw_set_connect_queue
       nw_set_save_source nw_set_listen nw_set_addrs nw_set_peers nw_set_inventory nw_set_delayed
       nw_set_next nw_set_effects nw_count nw_emit update_addr update_peer
       update_all_listen_socket_sources fst snd] in *.

(** ** The address book of a network *)

Definition polled (nw : ntb_network) : bool :=
  existsb (fun s => ls_source (snd s)) (nw_listen_sockets nw).

Definition peer_part (p : ntb_network_peer) : option nat * ntb_network_direction :=
  (pe_addr p, pe_direction p).

Definition book_of (nw : ntb_network) : book :=
  Book (nw_stats nw) (map_id ad_connected (nw_addrs nw)) (map_id peer_part (nw_peers nw))
    (polled nw) (nw_next nw).

(** The steps of the book some calls make. *)
Definition books (nw nw' : ntb_network) : Prop :=
  book_ok (book_of nw) -> rtc book_step (book_of nw) (book_of nw').

Lemma books_refl nw : books nw nw.
Proof. intros _. constructor. Qed.
Lemma books_same nw nw' : book_of nw' = book_of nw -> books nw nw'.
Proof. intros E _. rewrite E. constructor. Qed.
Lemma books_trans nw1 nw2 nw3 : books nw1 nw2 -> books nw2 nw3 -> books nw1 nw3.
Proof.
  intros H1 H2 Hok. specialize (H1 Hok). etrans; [exact H1|]. apply H2. by eapply book_steps_ok.
Qed.
Lemma books_step nw nw' : book_step (book_of nw) (book_of nw') -> books nw nw'.
Proof. intros Hs _. by apply rtc_once. Qed.

Lemma the_addr_Ok i nw a : the_addr i nw = Ok a -> lookup_id i (nw_addrs nw) = Some a.
Proof. unfold the_addr. destruct (lookup_id i _); [by intros [= ->]|done]. Qed.
Lemma the_peer_Ok i nw p : the_peer i nw = Ok p -> lookup_id i (nw_peers nw) = Some p.
Proof. unfold the_peer. destruct (lookup_id i _); [by intros [= ->]|done]. Qed.

Section refinement.
Context `{Digests} `{Inet} (agent : list Z).

(** ** Calls that leave the book alone *)

Lemma on_connection_book i f nw nw' : on_connection i f nw = Ok nw' -> book_of nw' = book_of nw.
Proof.
  unfold on_connection. intros Hc. bind_inv. unfold book_of, polled, update_peer. cbn.
  f_equal. by apply map_update_id_same.
Qed.

Lemma connections_loop_part f st l l' :
  connections_loop f st l = Ok l' -> map_id peer_part l' = map_id peer_part l.
Proof.
  revert l'. induction l as [|[i p] l IH]; intros l' Hl; cbn [connections_loop] in Hl; bind_inv; [done|].
  rewrite !map_id_cons, (IH _ ltac:(eassumption)). f_equal. f_equal.
  case_bool_decide; bind_inv; done.
Qed.

Lemma broadcast_addr_book a nw nw' : broadcast_addr a nw = Ok nw' -> book_of nw' = book_of nw.
Proof.
  unfold broadcast_addr. intros Hb. bind_inv. unfold book_of, polled. cbn. f_equal.
  by eapply connections_loop_part.
Qed.

Lemma broadcast_inv_book h nw nw' : broadcast_inv h nw = Ok nw' -> book_of nw' = book_of nw.
Proof.
  unfold broadcast_inv. intros Hb. bind_inv. unfold book_of, polled. cbn. f_equal.
  by eapply connections_loop_part.
Qed.

Lemma maybe_queue_connect_book b nw : book_of (maybe_queue_connect b nw) = book_of nw.
Proof.
  unfold maybe_queue_connect. destruct (_ <=? _); [done|]. destruct (_ <=? _); [done|].
  destruct (nw_connect_queue_source nw) as [x|]; [|done]. by destruct (Bool.eqb x b).
Qed.

Lemma queue_save_book nw : book_of (queue_save_addr_list nw) = book_of nw.
Proof. unfold queue_save_addr_list. by destruct (nw_save_addr_list_source nw). Qed.

Lemma set_state_book i st nw : book_of (update_peer i (pe_set_state st) nw) = book_of nw.
Proof. unfold book_of, polled, update_peer. cbn. f_equal. by apply map_update_id_same. Qed.

Lemma set_requested_book i l nw : book_of (update_peer i (pe_set_requested l) nw) = book_of nw.
Proof. unfold book_of, polled, update_peer. cbn. f_equal. by apply map_update_id_same. Qed.

(** An address changes in another field than its flag. *)
Lemma update_addr_book i f nw :
  (forall a, ad_connected (f a) = ad_connected a) -> book_of (update_addr i f nw) = book_of nw.
Proof. intros Hf. unfold book_of, polled, update_addr. cbn. f_equal. by apply map_update_id_same. Qed.

Lemma set_inventory_book iv nw : book_of (nw_set_inventory iv nw) = book_of nw.
Proof. reflexivity. Qed.
Lemma emit_book e nw : book_of (nw_emit e nw) = book_of nw.
Proof. reflexivity. Qed.

Lemma alloc_books nw nw' :
  book_of nw' = Book (nw_stats nw) (map_id ad_connected (nw_addrs nw)) (map_id peer_part (nw_peers nw))
                  (polled nw) (S (nw_next nw)) -> books nw nw'.
Proof. intros E. apply books_step. rewrite E. constructor. Qed.

(** Polling after an update of the sources. *)
Lemma polled_map n l :
  existsb (fun s => ls_source (snd s)) (map_id (update_listen_socket_source n) l) = true ->
  n < NTB_NETWORK_MAX_INCOMING_PEERS.
Proof.
  intros Hp. apply existsb_exists in Hp as ([i s] & Hin & Hs).
  apply list_elem_of_In, list_elem_of_fmap in Hin as ([j t] & [= -> ->] & _).
  unfold update_listen_socket_source in Hs. cbn [fst snd] in Hs.
  destruct (Z.leb_spec NTB_NETWORK_MAX_INCOMING_PEERS n); [done|lia].
Qed.

Lemma polled_update nw :
  polled (update_all_listen_socket_sources nw) = true ->
  n_incoming_peers (nw_stats nw) < NTB_NETWORK_MAX_INCOMING_PEERS.
Proof. apply polled_map. Qed.

(** ** Handlers of known addresses *)

Lemma new_addr_books address t st sv nw i nw' :
  new_addr address t st sv nw = (i, nw') -> books nw nw' /\ i = nw_next nw.
Proof.
  unfold new_addr. intros [= <- <-]. split; [|done]. apply books_step.
  apply (bk_new_addr (nw_stats nw) (map_id ad_connected (nw_addrs nw))).
Qed.

Lemma add_addr_books now t st sv address nw r nw' :
  add_addr now t st sv address nw = Ok (r, nw') -> books nw nw'.
Proof.
  unfold add_addr. destruct (_ <=? _); [intros [= _ <-]; apply books_refl|].
  destruct (find_address address nw) as [i|]; intros Ha.
  - apply bind_Ok in Ha as (a & Ha & Hr). destruct (_ <? _); bind_inv; [|apply books_refl].
    apply books_same. erewrite broadcast_addr_book by eassumption.
    rewrite queue_save_book. by apply update_addr_book.
  - destruct (new_addr _ _ _ _ nw) as [i nw1] eqn:E. apply new_addr_books in E as [E _].
    bind_inv. eapply books_trans; [exact E|]. apply books_same.
    rewrite maybe_queue_connect_book. erewrite broadcast_addr_book by eassumption. apply queue_save_book.
Qed.

Lemma remove_addr_books i nw nw' : remove_addr i nw = Ok nw' -> books nw nw'.
Proof.
  unfold remove_addr. intros Hr. apply bind_Ok in Hr as (a & Ha%the_addr_Ok & Hr).
  unfold c_assert in Hr. destruct (ad_connected a) eqn:Ec; [done|]. cbn in Hr. injection Hr as <-.
  apply books_step. unfold book_of at 2, polled. nw_cbn. rewrite remove_map_id.
  apply bk_remove_addr. by rewrite lookup_map_id, Ha, <- Ec.
Qed.

(** ** Handlers of peers *)

(** The identities of the objects are those of the book. *)
Lemma ok_nodup_addrs nw : book_ok (book_of nw) -> NoDup (nw_addrs nw).*1.
Proof. intros Hok. rewrite <- (map_id_keys ad_connected). exact (ok_addr_ids _ Hok). Qed.
Lemma ok_nodup_peers nw : book_ok (book_of nw) -> NoDup (nw_peers nw).*1.
Proof. intros Hok. rewrite <- (map_id_keys peer_part). exact (ok_peer_ids _ Hok). Qed.
Lemma ok_fresh_peers nw : book_ok (book_of nw) -> nw_next nw ∉ (nw_peers nw).*1.
Proof. intros Hok. rewrite <- (map_id_keys peer_part). exact (fresh_peer _ Hok). Qed.

Lemma set_connected_part i v nw :
  NoDup (nw_addrs nw).*1 ->
  map_id ad_connected (update_id i (ad_set_connected v) (nw_addrs nw)) =
  update_id i (fun _ => v) (map_id ad_connected (nw_addrs nw)).
Proof. intros Hn. by apply map_update_id. Qed.

(** The last two calls of [remove_peer]. *)
Lemma requeue_book nw :
  let b := book_of nw in
  exists pl, (pl = true -> n_incoming_peers (bk_stats b) < NTB_NETWORK_MAX_INCOMING_PEERS) /\
    book_of (update_all_listen_socket_sources (maybe_queue_connect true nw)) =
    Book (bk_stats b) (bk_addrs b) (bk_peers b) pl (bk_next b).
Proof.
  pose proof (maybe_queue_connect_book true nw) as E. injection E as Est Eav Epv _ Enx. cbn.
  exists (polled (update_all_listen_socket_sources (maybe_queue_connect true nw))). split.
  - intros Hp%polled_update. by rewrite Est in Hp.
  - unfold book_of. by rewrite <- Est, <- Eav, <- Epv, <- Enx.
Qed.

(** What [remove_peer] does to the book before. *)
Lemma unlink_peer_book p i nw nw1 :
  book_ok (book_of nw) ->
  match pe_addr p with
  | Some a => _ ← the_addr a nw;
              Ok (update_addr a (ad_set_connected false) (nw_count (add_unconnected 1) nw))
  | None => Ok nw
  end = Ok nw1 ->
  let nw2 := match pe_direction p with
             | NTB_NETWORK_OUTGOING => nw_count (add_outgoing (-1)) nw1
             | NTB_NETWORK_INCOMING => nw_count (add_incoming (-1)) nw1
             end in
  let nw3 := nw_set_peers (remove_id i (nw_peers nw2)) nw2 in
  book_of nw3 =
  Book (add_direction (pe_direction p) (-1)
          (match pe_addr p with Some _ => add_unconnected 1 (nw_stats nw) | None => nw_stats nw end))
    (match pe_addr p with Some a => update_id a (fun _ => false) (map_id ad_connected (nw_addrs nw))
     | None => map_id ad_connected (nw_addrs nw) end)
    (remove_id i (map_id peer_part (nw_peers nw))) (polled nw) (nw_next nw).
Proof.
  intros Hok H1. cbn zeta. rewrite <- remove_map_id.
  destruct (pe_addr p) as [a|]; bind_inv; destruct (pe_direction p); try reflexivity;
    unfold book_of, polled; nw_cbn; f_equal; apply set_connected_part; by apply ok_nodup_addrs.
Qed.

Lemma remove_peer_books i nw nw' : remove_peer i nw = Ok nw' -> books nw nw'.
Proof.
  intros Hr Hok. apply rtc_once. unfold remove_peer in Hr.
  apply bind_Ok in Hr as (p & Hp%the_peer_Ok & Hr). apply bind_Ok in Hr as (iv & _ & Hr).
  apply bind_Ok in Hr as (nw1 & H1 & Hr). injection Hr as <-.
  pose proof (unlink_peer_book p i (nw_set_inventory iv nw) nw1 Hok H1) as E. cbn zeta in E.
  match goal with |- context [maybe_queue_connect true ?n] => destruct (requeue_book n) as (pl & Hpl & ->) end.
  rewrite E in Hpl |- *. cbn [bk_stats bk_addrs bk_peers bk_next] in *.
  apply (bk_remove_peer (nw_stats nw)); [|exact Hpl]. nw_cbn. by rewrite lookup_map_id, Hp.
Qed.

Lemma pick_addr_Some can k l i :
  pick_addr can k l = Some i -> exists a, (i, a) ∈ l /\ can a = true.
Proof.
  revert k. induction l as [|[j a] l IH]; intros k; [done|]. cbn [pick_addr].
  assert (Hl : forall k, pick_addr can k l = Some i -> exists b, (i, b) ∈ (j, a) :: l /\ can b = true).
  { intros k' (b & Hin & Hb)%IH. exists b. split; [by right|done]. }
  destruct (can a) eqn:Ec; [|apply Hl]. destruct (k <=? 0); [|apply Hl].
  intros [= <-]. exists a. split; [left|done].
Qed.

Lemma add_peer_parts conn d nw p nw' :
  add_peer conn d nw = (p, nw') ->
  p = nw_next nw /\ nw_stats nw' = nw_stats nw /\ nw_addrs nw' = nw_addrs nw /\
  nw_peers nw' = (p, NwPeer conn None [] NTB_NETWORK_PEER_STATE_AWAITING_VERACK_OUT d) :: nw_peers nw /\
  nw_next nw' = S (nw_next nw) /\
  (polled nw' = true -> n_incoming_peers (nw_stats nw) < NTB_NETWORK_MAX_INCOMING_PEERS).
Proof. unfold add_peer. intros [= <- <-]. split_and!; try reflexivity. apply polled_map. Qed.

(** The new peer, before the caller marks the address. *)
Lemma connect_to_addr_book wall mono connected i nw ok nw' :
  connect_to_addr agent wall mono connected i nw = Ok (ok, nw') -> book_ok (book_of nw) ->
  map_id ad_connected (nw_addrs nw') = map_id ad_connected (nw_addrs nw) /\
  NoDup (nw_addrs nw').*1 /\
  if ok then
    book_of nw' = Book (add_outgoing 1 (nw_stats nw)) (map_id ad_connected (nw_addrs nw))
      ((nw_next nw, (Some i, NTB_NETWORK_OUTGOING)) :: map_id peer_part (nw_peers nw))
      (polled nw') (S (nw_next nw)) /\
    (polled nw' = true -> n_incoming_peers (nw_stats nw) < NTB_NETWORK_MAX_INCOMING_PEERS)
  else book_of nw' = book_of nw.
Proof.
  unfold connect_to_addr. intros Hc Hok. apply bind_Ok in Hc as (a & _ & Hc).
  assert (Hn : NoDup (nw_addrs nw').*1 <-> NoDup (map_id ad_connected (nw_addrs nw')).*1).
  { by rewrite map_id_keys. }
  assert (Hid : NoDup (map_id ad_connected (nw_addrs nw)).*1) by (exact (ok_addr_ids _ Hok)).
  destruct connected; [|bind_inv].
  2: { assert (E : map_id ad_connected (update_id i (ad_set_last_connect_time mono) (nw_addrs nw)) =
                   map_id ad_connected (nw_addrs nw)) by (by apply map_update_id_same).
       nw_cbn. rewrite Hn, E. split_and!; [done|done|]. unfold book_of, polled. nw_cbn. by rewrite E. }
  destruct (add_peer _ _ _) as [q nw0] eqn:Ep. apply add_peer_parts in Ep as (-> & E1 & E2 & E3 & E4 & E5).
  apply bind_Ok in Hc as (nw1 & Hs & [= <- <-]).
  pose proof (on_connection_book _ _ _ _ Hs) as E. clear Hs Hn.
  unfold book_of at 2 in E. nw_cbn. rewrite E1, E2, E3, E4 in E.
  rewrite update_id_head in E by (by apply ok_fresh_peers). rewrite map_id_cons in E.
  rewrite map_update_id_same in E by done. injection E as Est Eav Epv Epl Enx.
  rewrite <- (map_id_keys ad_connected (nw_addrs nw1)), Eav. split_and!; [done|done| |].
  - unfold book_of. by rewrite Est, Eav, Epv, Enx.
  - rewrite Epl. apply E5.
Qed.

Lemma connect_queue_books wall mono random connected nw nw' :
  connect_queue_cb agent wall mono random connected nw = Ok nw' -> books nw nw'.
Proof.
  unfold connect_queue_cb. destruct (_ || _) eqn:Elim; [intros [= <-]; by apply books_same|].
  apply orb_false_elim in Elim as [Hout%Z.leb_gt _].
  destruct (_ <=? 0); [intros [= <-]; apply books_same, maybe_queue_connect_book|].
  destruct (pick_addr _ _ _) as [i|] eqn:Epick; [|done].
  apply pick_addr_Some in Epick as (a & Hin & Hcan). intros Hc Hok.
  apply bind_Ok in Hc as ([ok nw1] & Hc & Hr).
  destruct (connect_to_addr_book _ _ _ _ _ _ _ Hc Hok) as (Eav & Hn & Hbook).
  destruct ok; injection Hr as <-; [|rewrite Hbook; constructor].
  destruct Hbook as [Hbook Hpl]. apply rtc_once. injection Hbook as Est _ Epv Enx.
  unfold book_of at 2. nw_cbn. change (polled _) with (polled nw1).
  rewrite set_connected_part, Est, Eav, Epv, Enx by done.
  apply bk_connect; [|done|by right; apply Hpl].
  rewrite lookup_map_id. rewrite (proj2 (lookup_id_Some i _ a (ok_nodup_addrs nw Hok)) Hin).
  cbn. unfold can_connect_to_addr in Hcan. by destruct (ad_connected a).
Qed.

Lemma accept_books mono i address r nw nw' :
  lookup_id i (nw_listen_sockets nw) = Some (ListenSocket address true) ->
  listen_socket_source_cb mono i r nw = Ok nw' -> books nw nw'.
Proof.
  unfold listen_socket_source_cb. intros Hl. rewrite Hl. intros Hr Hok. apply rtc_once.
  assert (Hpl : polled nw = true).
  { apply existsb_exists. exists (i, ListenSocket address true). split; [|done].
    by apply list_elem_of_In, lookup_id_elem. }
  destruct r as [remote| |]; injection Hr as <-.
  - unfold book_of, add_peer. rewrite Hpl. nw_cbn. rewrite update_id_head by (by apply ok_fresh_peers).
    rewrite map_id_cons. apply bk_accept. apply polled_map.
  - unfold book_of at 2. apply bk_poll. by left.
  - unfold book_of at 2, remove_listen_socket. nw_cbn. apply bk_poll. by left.
Qed.

Lemma add_addr_peers now t st sv address nw r nw' :
  add_addr now t st sv address nw = Ok (r, nw') ->
  map_id peer_part (nw_peers nw') = map_id peer_part (nw_peers nw).
Proof.
  unfold add_addr. destruct (_ <=? _); [by intros [= _ <-]|].
  destruct (find_address address nw) as [i|]; intros Ha.
  - apply bind_Ok in Ha as (a & Ha & Hr). destruct (_ <? _); bind_inv; [|done].
    match goal with E : broadcast_addr _ _ = Ok _ |- _ => apply broadcast_addr_book in E end.
    rewrite queue_save_book in *. match goal with E : book_of _ = _ |- _ => by injection E end.
  - destruct (new_addr _ _ _ _ nw) as [i nw1] eqn:E. injection E as _ <-. bind_inv.
    match goal with E : broadcast_addr _ _ = Ok _ |- _ => apply broadcast_addr_book in E end.
    rewrite queue_save_book in *.
    match goal with E : book_of ?x = _ |- context [maybe_queue_connect true ?x] =>
      pose proof (maybe_queue_connect_book true x) as E'; injection E; injection E' end.
    intros; congruence.
Qed.

Lemma connection_established_book now i nw nw' :
  connection_established now i nw = Ok nw' -> book_of nw' = book_of nw.
Proof.
  unfold connection_established. intros Hc. apply bind_Ok in Hc as (nw1 & H1%on_connection_book & H2%on_connection_book).
  rewrite H2, H1. apply set_state_book.
Qed.

Lemma send_version_book wall i nw nw' :
  send_version_to_peer agent wall i nw = Ok nw' -> book_of nw' = book_of nw.
Proof. apply on_connection_book. Qed.

(** Marking the address of a peer that had none. *)
Lemma link_books i a nw p addr :
  lookup_id i (map_id peer_part (nw_peers nw)) = Some (None, p) ->
  lookup_id a (nw_addrs nw) = Some addr -> ad_connected addr = false ->
  books nw (nw_count (add_unconnected (-1))
              (update_addr a (ad_set_connected true) (update_peer i (pe_set_addr (Some a)) nw))).
Proof.
  intros Hp Ha Hc Hok. apply rtc_once. unfold book_of at 2, polled. nw_cbn.
  rewrite set_connected_part by (by apply ok_nodup_addrs).
  rewrite (map_update_id peer_part i (pe_set_addr (Some a)) (fun q => (Some a, snd q)))
    by (done || by apply ok_nodup_peers).
  eapply bk_link; [exact Hp|]. by rewrite lookup_map_id, Ha, <- Hc.
Qed.

Lemma handle_version_books wall i e nw ok nw' :
  handle_version agent wall i e nw = Ok (ok, nw') -> books nw nw'.
Proof.
  unfold handle_version. intros Hv. apply bind_Ok in Hv as (p & Hp%the_peer_Ok & Hv).
  apply bind_Ok in Hv as (_ & _ & Hv).
  destruct (_ =? _); [bind_inv; by eapply remove_peer_books|].
  destruct (negb _); [bind_inv; by eapply remove_peer_books|].
  apply bind_Ok in Hv as (stream & _ & Hv). apply bind_Ok in Hv as ([oa nw1] & Ha & Hv).
  apply bind_Ok in Hv as (nw2 & Hl & Hv). apply bind_Ok in Hv as (nw3 & Hs%on_connection_book & Hv).
  apply bind_Ok in Hv as (nw4 & Hst & [= _ <-]).
  eapply books_trans; [by eapply add_addr_books|]. eapply books_trans with nw2.
  - destruct oa as [a|]; [|bind_inv; apply books_refl].
    apply bind_Ok in Hl as (addr & Haddr%the_addr_Ok & Hl).
    case_bool_decide as Hnone; cbn [andb] in Hl; [|bind_inv; apply books_refl].
    destruct (ad_connected addr) eqn:Hc; cbn [negb] in Hl; bind_inv; [apply books_refl|].
    eapply link_books; [|done|done]. rewrite (add_addr_peers _ _ _ _ _ _ _ _ Ha), lookup_map_id, Hp.
    cbn. unfold peer_part. by rewrite Hnone.
  - apply books_same. rewrite <- Hs. destruct (pe_state p); bind_inv; try done.
    + by eapply connection_established_book.
    + rewrite set_state_book. by eapply send_version_book.
Qed.

Lemma handle_verack_books wall i nw ok nw' :
  handle_verack wall i nw = Ok (ok, nw') -> books nw nw'.
Proof.
  unfold handle_verack. intros Hv. apply bind_Ok in Hv as (p & _ & Hv). apply books_same.
  destruct (pe_state p); bind_inv; try done; [apply set_state_book|by eapply connection_established_book].
Qed.

(** ** Handlers of the inventory *)

Lemma new_inventory_books h st nw i nw' : new_inventory h st nw = (i, nw') -> books nw nw'.
Proof.
  unfold new_inventory. destruct (ntb_hash_table_set _ _ _) as [o t]. intros [= _ <-].
  by apply alloc_books.
Qed.

Lemma request_books mono p h nw nw' : request_inventory mono p h nw = Ok nw' -> books nw nw'.
Proof.
  unfold request_inventory. destruct (new_inventory _ _ _) as [i nw1] eqn:E. intros Hr.
  apply bind_Ok in Hr as (peer & _ & Hr%on_connection_book).
  eapply books_trans; [by eapply new_inventory_books|]. apply books_same. rewrite Hr. apply set_requested_book.
Qed.

Lemma inv_loop_books fuel mono p n hs nw nw' : inv_loop fuel mono p n hs nw = Ok nw' -> books nw nw'.
Proof.
  revert n hs nw. induction fuel as [|fuel IH]; intros n hs nw; cbn [inv_loop];
    (destruct (n =? 0); [intros [= <-]; apply books_refl|]); [done|].
  intros Hl. apply bind_Ok in Hl as (h & _ & Hl). apply bind_Ok in Hl as (nw1 & H1 & Hl).
  eapply books_trans; [|by eapply IH].
  destruct (ntb_hash_table_get _ _ _); [injection H1 as <-; apply books_refl|by eapply request_books].
Qed.

Lemma handle_inv_books mono p n hs nw ok nw' : handle_inv mono p n hs nw = Ok (ok, nw') -> books nw nw'.
Proof.
  unfold handle_inv. intros Hi. apply bind_Ok in Hi as (nw1 & H1%on_connection_book & Hi).
  apply bind_Ok in Hi as (nw2 & H2 & Hi). apply bind_Ok in Hi as (nw3 & H3%on_connection_book & [= _ <-]).
  eapply books_trans; [apply books_same, H1|]. eapply books_trans; [by eapply inv_loop_books|].
  by apply books_same.
Qed.

Lemma getdata_loop_book fuel p n hs nw nw' : getdata_loop fuel p n hs nw = Ok nw' -> book_of nw' = book_of nw.
Proof.
  revert n hs nw. induction fuel as [|fuel IH]; intros n hs nw; cbn [getdata_loop];
    (destruct (n =? 0); [by intros [= <-]|]); [done|].
  intros Hl. apply bind_Ok in Hl as (h & _ & Hl). apply bind_Ok in Hl as (nw1 & H1 & Hl).
  rewrite (IH _ _ _ Hl). destruct (ntb_hash_table_get _ _ _); [|by injection H1 as <-].
  apply bind_Ok in H1 as (inv & _ & H1). destruct (in_state inv); [done|by injection H1 as <-|].
  by eapply on_connection_book.
Qed.

Lemma unlink_request_book i nw : book_of (unlink_request i nw) = book_of nw.
Proof. unfold unlink_request, book_of, polled. nw_cbn. by rewrite map_map_id. Qed.

Lemma claim_books h nw o nw' : claim_inventory h nw = Ok (o, nw') -> books nw nw'.
Proof.
  unfold claim_inventory. destruct (ntb_hash_table_get _ _ _) as [q|].
  - intros Hc. apply bind_Ok in Hc as (inv & _ & Hc).
    destruct (in_state inv); injection Hc as <- <-; [apply books_same, unlink_request_book| |]; apply books_refl.
  - destruct (new_inventory _ _ _) as [i nw1] eqn:E. intros [= _ <-]. by eapply new_inventory_books.
Qed.

Lemma add_object_books wall type data len blob skip delay nw nw' :
  add_object wall type data len blob skip delay nw = Ok nw' -> books nw nw'.
Proof.
  unfold add_object. intros Ha. apply bind_Ok in Ha as (r & _ & Ha).
  destruct r as [[(nonce & timestamp & []) n]|]; [|injection Ha as <-; apply books_refl].
  apply bind_Ok in Ha as (l & _ & Ha). apply bind_Ok in Ha as ([o nw1] & H1%claim_books & Ha).
  eapply books_trans; [exact H1|]. destruct o as [i|]; [|injection Ha as <-; apply books_refl].
  apply bind_Ok in Ha as (reject & _ & Ha).
  destruct reject; [bind_inv; by apply books_same|].
  apply bind_Ok in Ha as (iv & _ & Ha). apply bind_Ok in Ha as (nw2 & H2 & Ha).
  eapply books_trans with nw2.
  - destruct delay; [injection H2 as <-; by apply alloc_books|].
    apply books_same. by rewrite (broadcast_inv_book _ _ _ H2).
  - apply books_same. destruct (_ <=? _); bind_inv; done.
Qed.

Lemma connection_event_books wall mono i e nw ok nw' :
  connection_event_cb agent wall mono i e nw = Ok (ok, nw') -> books nw nw'.
Proof.
  destruct e; cbn [connection_event_cb]; intros He.
  1, 2: bind_inv; by eapply remove_peer_books.
  - by eapply handle_version_books.
  - by eapply handle_inv_books.
  - unfold handle_addr in He. destruct (ntb_netaddress_is_allowed _); bind_inv; [|apply books_refl].
    destruct x. bind_inv. by eapply add_addr_books.
  - unfold handle_object in He. bind_inv. by eapply add_object_books.
  - unfold handle_getdata in He. bind_inv. apply books_same. by eapply getdata_loop_book.
  - by eapply handle_verack_books.
Qed.

(** ** Timers and calls from outside *)

Lemma gc_peers_part mono l iv l' iv' :
  gc_peers_loop mono l iv = Ok (l', iv') -> map_id peer_part l' = map_id peer_part l.
Proof.
  revert iv l' iv'. induction l as [|[i p] l IH]; intros iv l' iv' Hl; cbn [gc_peers_loop] in Hl.
  { by injection Hl as <- <-. }
  apply bind_Ok in Hl as ([p1 iv1] & H1 & Hl). apply bind_Ok in Hl as ([l2 iv2] & H2 & [= <- <-]).
  rewrite !map_id_cons, (IH _ _ _ H2). f_equal. unfold gc_requested_inventories in H1.
  apply bind_Ok in H1 as ([rs iv3] & _ & [= <- _]). done.
Qed.

Lemma gc_addrs_books wall l nw nw' : gc_addrs_loop wall l nw = Ok nw' -> books nw nw'.
Proof.
  revert nw. induction l as [|[i a] l IH]; intros nw Hl; cbn [gc_addrs_loop] in Hl.
  { injection Hl as <-. apply books_refl. }
  apply bind_Ok in Hl as (nw1 & H1 & Hl). eapply books_trans; [|by eapply IH].
  destruct (_ && _); [by eapply remove_addr_books|injection H1 as <-; apply books_refl].
Qed.

Lemma gc_timeout_books wall mono nw nw' : gc_timeout_cb wall mono nw = Ok nw' -> books nw nw'.
Proof.
  unfold gc_timeout_cb. intros Hg. apply bind_Ok in Hg as ([peers iv] & Hp%gc_peers_part & Hg).
  apply bind_Ok in Hg as ([[acc iv1] d1] & _ & Hg). apply bind_Ok in Hg as ([[rej iv2] d2] & _ & Hg).
  eapply books_trans; [|by eapply gc_addrs_books]. apply books_same. unfold book_of, polled. nw_cbn. by rewrite Hp.
Qed.

Lemma each_books {A} (f : A -> ntb_network -> result unit ntb_network) l nw nw' :
  (forall x nw1 nw2, f x nw1 = Ok nw2 -> books nw1 nw2) -> for_each f l nw = Ok nw' -> books nw nw'.
Proof. intros Hf. apply for_each_trans; [split; [intros x; apply books_refl|intros x y z; apply books_trans]|exact Hf]. Qed.

Lemma store_blob_books type h t nw nw' : store_for_each_blob_cb type h t nw = Ok nw' -> books nw nw'.
Proof.
  unfold store_for_each_blob_cb. destruct (ntb_hash_table_get _ _ _); [intros [= <-]; apply books_refl|].
  destruct (new_inventory _ _ _) as [i nw1] eqn:E. intros Hs. bind_inv.
  eapply books_trans; [by eapply new_inventory_books|]. by apply books_same.
Qed.

Lemma set_type_book i t nw : book_of (update_addr i (ad_set_type t) nw) = book_of nw.
Proof. by apply update_addr_book. Qed.

Lemma dns_bootstrap_books a nw : books nw (dns_bootstrap_cb a nw).
Proof.
  unfold dns_bootstrap_cb. destruct (_ || _); [apply books_refl|].
  destruct (new_addr _ _ _ _ _) as [i nw1] eqn:E. apply new_addr_books in E as [E _].
  eapply books_trans; [exact E|]. apply books_same, set_type_book.
Qed.

Lemma add_addr_string_books s nw o nw' : add_addr_string s nw = Ok (o, nw') -> books nw nw'.
Proof.
  unfold add_addr_string. intros Ha. apply bind_Ok in Ha as (r & _ & Ha).
  destruct (new_addr _ _ _ _ _) as [i nw1] eqn:E. apply new_addr_books in E as [E _].
  eapply books_trans; [exact E|]. destruct r; [injection Ha as _ <-; apply books_refl|].
  bind_inv. by eapply remove_addr_books.
Qed.

Lemma load_store_books wall blobs addrs bootstrap nw nw' :
  ntb_network_load_store wall blobs addrs bootstrap nw = Ok nw' -> books nw nw'.
Proof.
  unfold ntb_network_load_store. intros Hl. apply bind_Ok in Hl as (nw1 & H1 & Hl).
  apply bind_Ok in Hl as (nw2 & H2 & Hl). apply bind_Ok in Hl as (nw3 & H3 & [= <-]).
  eapply books_trans; [|eapply books_trans; [|eapply books_trans]].
  - eapply each_books; [|exact H1]. intros [[type h] t] n1 n2. apply store_blob_books.
  - eapply each_books; [|exact H2]. intros a n1 n2 Ha. unfold store_for_each_addr_cb in Ha. bind_inv.
    destruct x. bind_inv. by eapply add_addr_books.
  - eapply each_books; [|exact H3]. intros a n1 n2 [= <-]. apply dns_bootstrap_books.
  - apply books_same, maybe_queue_connect_book.
Qed.

Lemma listen_books address opened nw ok nw' :
  ntb_network_add_listen_address address opened nw = Ok (ok, nw') -> books nw nw'.
Proof.
  unfold ntb_network_add_listen_address. intros Hl. apply bind_Ok in Hl as (r & _ & Hl).
  destruct r as [a|]; [|injection Hl as _ <-; apply books_refl].
  destruct opened; injection Hl as _ <-; [|apply books_refl].
  set (s := update_listen_socket_source _ _). intros _.
  eapply rtc_l; [apply (bk_poll (nw_stats nw) _ _ _ (ls_source s || polled nw))|].
  - unfold s, update_listen_socket_source.
    destruct (Z.leb_spec NTB_NETWORK_MAX_INCOMING_PEERS (n_incoming_peers (nw_stats nw))); cbn; auto.
  - apply rtc_once. constructor.
Qed.

Lemma nw_step_books nw nw' : nw_step agent nw nw' -> books nw nw'.
Proof.
  intros [? ? ? ? ? ? ? He|? ? Hc]; [by eapply connection_event_books|]. destruct Hc.
  - apply books_same. by eapply on_connection_book.
  - by eapply connect_queue_books.
  - by apply books_same.
  - by eapply gc_timeout_books.
  - unfold broadcast_delayed_inv_cb in *. destruct (lookup_id _ _); [|done]. bind_inv.
    apply books_same. match goal with E : broadcast_inv _ _ = Ok _ |- _ => exact (broadcast_inv_book _ _ _ E) end.
  - subst. by eapply accept_books.
  - by eapply listen_books.
  - unfold ntb_network_add_peer_address in *. bind_inv. destruct x as [[j|] nw1]; bind_inv.
    + eapply books_trans; [by eapply add_addr_string_books|]. apply books_same, set_type_book.
    + by eapply add_addr_string_books.
  - apply books_same. unfold ntb_network_set_only_use_explicit_addresses. by rewrite maybe_queue_connect_book.
  - by eapply add_object_books.
  - by eapply add_object_books.
  - by eapply load_store_books.
Qed.

Lemma nw_steps_books nw nw' : rtc (nw_step agent) nw nw' -> books nw nw'.
Proof.
  induction 1 as [|nw1 nw2 nw3 Hs _ IH]; [apply books_refl|].
  eapply books_trans; [by apply nw_step_books|exact IH].
Qed.
End refinement.
