(* ===== verification/InventorySpec.v ===== *)
(** * InventorySpec: the hash table and the lists of inventory entries agree

    Every entry is in the table under its hash, nothing else is, and it is in the
    one list of its state: accepted, rejected, or the requests of a peer. *)

From S2P Require Import Prelude Ident Endian Buffer NetAddress OpenSSL Proto NetText Pow HashTable Connection Network.

Inductive inv_kind := Stub | Rejected | Accepted.

#[global] Instance inv_kind_eq_dec : EqDecision inv_kind.
Proof. solve_decision. Defined.

Definition kind_of (st : ntb_network_inv_state) : inv_kind :=
  match st with
  | NTB_NETWORK_INV_STATE_STUB _ => Stub
  | NTB_NETWORK_INV_STATE_REJECTED _ => Rejected
  | NTB_NETWORK_INV_STATE_ACCEPTED _ _ _ => Accepted
  end.

(** The list of each state. *)
Definition lists (accepted rejected stubs : list nat) (k : inv_kind) : list nat :=
  match k with Stub => stubs | Rejected => rejected | Accepted => accepted end.

(** ** Invariant *)

Record inv_ok (iv : inventory) (owned : inv_kind -> list nat) (next : nat) : Prop := {
  io_wf : ht_wf inv_hash (iv_hash iv);
  io_table h i h' :
    ht_map inv_hash (iv_hash iv) !! h = Some (InvPtr i h') <->
    h' = h /\ exists st, iv_objects iv !! i = Some (NwInv h st);
  io_owned k i :
    i ∈ owned k <-> exists inv, iv_objects iv !! i = Some inv /\ kind_of (in_state inv) = k;
  io_nodup k : NoDup (owned k);
  io_next i inv : iv_objects iv !! i = Some inv -> (i < next)%nat
}.

(** The lists matter up to their order. *)
Lemma inv_ok_lists iv owned owned' n :
  inv_ok iv owned n -> (forall k, owned' k ≡ₚ owned k) -> inv_ok iv owned' n.
Proof.
  intros [Hw Ht Ho Hn Hx] Hp. split; try done; [intros k i|intros k]; rewrite (Hp k); [apply Ho|apply Hn].
Qed.

Lemma inv_ok_next iv owned n m : inv_ok iv owned n -> (n <= m)%nat -> inv_ok iv owned m.
Proof. intros [Hw Ht Ho Hn Hx] Hm. split; try done. intros i inv Hi. specialize (Hx i inv Hi). lia. Qed.

(** Only the table and the objects of the record matter. *)
Lemma inv_ok_same iv iv' owned n :
  inv_ok iv owned n -> iv_hash iv' = iv_hash iv -> iv_objects iv' = iv_objects iv -> inv_ok iv' owned n.
Proof. intros [Hw Ht Ho Hn Hx] E1 E2. split; rewrite ?E1, ?E2; done. Qed.

Lemma get_None iv owned n h :
  inv_ok iv owned n -> ntb_hash_table_get inv_hash (iv_hash iv) h = None ->
  forall i st, iv_objects iv !! i <> Some (NwInv h st).
Proof.
  intros Hok Hg i st Hi. rewrite get_spec in Hg by apply Hok.
  assert (Hm : ht_map inv_hash (iv_hash iv) !! h = Some (InvPtr i h)).
  { apply (io_table _ _ _ Hok). split; [done|]. by exists st. }
  congruence.
Qed.

Lemma get_Some iv owned n h q :
  inv_ok iv owned n -> ntb_hash_table_get inv_hash (iv_hash iv) h = Some q ->
  exists st, iv_objects iv !! inv_id q = Some (NwInv h st) /\ inv_hash q = h.
Proof.
  intros Hok Hg. rewrite get_spec in Hg by apply Hok. destruct q as [i h'].
  apply (io_table _ _ _ Hok) in Hg as [-> [st Hst]]. by exists st.
Qed.

(** ** The table never has more entries than identities *)

Lemma nat_pigeon (l : list nat) n : NoDup l -> (forall i, i ∈ l -> (i < n)%nat) -> (length l <= n)%nat.
Proof.
  intros Hn Hl. rewrite <- (length_seq n 0). apply submseteq_length, NoDup_submseteq; [done|].
  intros i Hi. apply elem_of_seq. specialize (Hl i Hi). lia.
Qed.

Lemma n_entries_bound iv owned n : inv_ok iv owned n -> ht_n_entries (iv_hash iv) <= Z.of_nat n.
Proof.
  intros Hok. pose proof (io_wf _ _ _ Hok) as Hw. rewrite (wf_count _ _ Hw). unfold zlen.
  assert (Hc : forall q, q ∈ contents (iv_hash iv) ->
    exists st, iv_objects iv !! inv_id q = Some (NwInv (inv_hash q) st)).
  { intros [i h] Hq. apply (io_table _ _ _ Hok h i h). apply ht_map_lookup; [apply Hw|done]. }
  rewrite <- (length_fmap inv_id). enough (length (inv_id <$> contents (iv_hash iv)) <= n)%nat by lia.
  apply nat_pigeon.
  - apply NoDup_fmap_2_strong; [|apply (NoDup_fmap_1 inv_hash), Hw].
    intros [i h] [j h'] Hq Hr E. cbn in E. subst j. f_equal.
    destruct (Hc _ Hq) as [st E1], (Hc _ Hr) as [st' E2]. cbn in *. congruence.
  - intros i Hi. apply list_elem_of_fmap in Hi as (q & -> & Hq). destruct (Hc q Hq) as [st Hst].
    by apply (io_next _ _ _ Hok) in Hst.
Qed.

(** ** Operations *)

Lemma new_ok iv owned n h st owned' :
  inv_ok iv owned n -> Z.of_nat n < 2 ^ 60 ->
  ntb_hash_table_get inv_hash (iv_hash iv) h = None ->
  (forall k, owned' k ≡ₚ if decide (k = kind_of st) then n :: owned k else owned k) ->
  forall acc rej nr,
  inv_ok (Inventory (ntb_hash_table_set inv_hash (iv_hash iv) (InvPtr n h)).2
            (<[n := NwInv h st]> (iv_objects iv)) acc rej nr) owned' (S n).
Proof.
  intros Hok Hb Hg Hp acc rej nr.
  destruct (set_spec inv_hash (iv_hash iv) (InvPtr n h) (io_wf _ _ _ Hok)) as (_ & Hw & Hm).
  { pose proof (n_entries_bound _ _ _ Hok). lia. }
  assert (Hf : iv_objects iv !! n = None).
  { destruct (iv_objects iv !! n) eqn:E; [|done]. apply (io_next _ _ _ Hok) in E. lia. }
  assert (Hnl : forall k, n ∉ owned k).
  { intros k (inv & E & _)%(io_owned _ _ _ Hok). congruence. }
  split; cbn [iv_hash iv_objects].
  - exact Hw.
  - intros h1 i h2. rewrite Hm. cbn [inv_hash]. destruct (decide (h1 = h)) as [->|Hne].
    + rewrite lookup_insert_eq. split.
      * intros [= <- <-]. split; [done|]. exists st. by rewrite lookup_insert_eq.
      * intros [-> [st' E]]. destruct (decide (i = n)) as [->|Hi]; [done|].
        rewrite lookup_insert_ne in E by done. by apply (get_None _ _ _ _ Hok Hg) in E.
    + rewrite lookup_insert_ne by done. rewrite (io_table _ _ _ Hok).
      destruct (decide (i = n)) as [->|Hi].
      * rewrite Hf, lookup_insert_eq. split; [by intros [_ [? ?]]|]. intros [_ [st' [= E _]]]. congruence.
      * by rewrite lookup_insert_ne by done.
  - intros k i. rewrite Hp. destruct (decide (i = n)) as [->|Hi].
    + rewrite lookup_insert_eq. destruct (decide (k = kind_of st)) as [->|Hk].
      * split; [intros _; by eexists|intros _; left].
      * split; [by intros ?%Hnl|]. intros (inv & [= <-] & E). by destruct Hk.
    + rewrite lookup_insert_ne, <- (io_owned _ _ _ Hok) by done.
      destruct (decide (k = kind_of st)); [|done]. rewrite elem_of_cons. naive_solver.
  - intros k. rewrite Hp. destruct (decide (k = kind_of st)); [|apply Hok].
    apply NoDup_cons. split; [apply Hnl|apply Hok].
  - intros i inv. destruct (decide (i = n)) as [->|Hi]; [lia|].
    rewrite lookup_insert_ne by done. intros E%(io_next _ _ _ Hok). lia.
Qed.

Lemma remove_ok iv owned n i inv owned' :
  inv_ok iv owned n -> iv_objects iv !! i = Some inv ->
  (forall k, owned k ≡ₚ if decide (k = kind_of (in_state inv)) then i :: owned' k else owned' k) ->
  exists iv', remove_inventory i iv = Ok iv' /\ inv_ok iv' owned' n /\
    iv_accepted iv' = iv_accepted iv /\ iv_rejected iv' = iv_rejected iv /\
    iv_n_rejected iv' = iv_n_rejected iv /\ iv_objects iv' = delete i (iv_objects iv).
Proof.
  intros Hok Hi Hp. unfold remove_inventory, the_inv. rewrite Hi, bind_ret_l.
  pose proof (remove_spec inv_hash (iv_hash iv) (InvPtr i (in_hash inv)) (io_wf _ _ _ Hok)) as Hr.
  assert (Hin : ht_map inv_hash (iv_hash iv) !! in_hash inv = Some (InvPtr i (in_hash inv))).
  { apply (io_table _ _ _ Hok). split; [done|]. exists (in_state inv). rewrite Hi. by destruct inv. }
  cbn zeta in Hr. cbn [inv_hash] in Hr. rewrite decide_True in Hr by done. destruct Hr as (_ & Hw & Hm).
  destruct (ntb_hash_table_remove _ _ _) as [b t]. cbn [snd] in *. eexists. split; [reflexivity|].
  split; [|done].
  assert (Hnd : forall k, NoDup (owned' k)).
  { intros k. pose proof (io_nodup _ _ _ Hok k) as Hn. rewrite Hp in Hn.
    destruct (decide _); [by apply NoDup_cons in Hn as [_ ?]|done]. }
  assert (Hmem : forall k j, j ∈ owned' k <-> j ∈ owned k /\ j <> i).
  { intros k j. pose proof (io_nodup _ _ _ Hok k) as Hn. rewrite Hp in Hn |- *.
    destruct (decide (k = kind_of (in_state inv))) as [->|Hk].
    - apply NoDup_cons in Hn as [Hni _]. rewrite elem_of_cons. naive_solver.
    - split; [|naive_solver]. intros Hj. split; [done|]. intros ->. apply Hk.
      assert (Hj' : i ∈ owned k) by (rewrite Hp, decide_False; done).
      apply (io_owned _ _ _ Hok) in Hj' as (inv' & E & <-). congruence. }
  split; cbn [free_inventory iv_hash iv_objects].
  - exact Hw.
  - intros h j h'. rewrite Hm. destruct (decide (h = in_hash inv)) as [->|Hne].
    + rewrite lookup_delete_eq. split; [done|]. intros [-> [st E]].
      apply lookup_delete_Some in E as [Hne E].
      assert (E' : ht_map inv_hash (iv_hash iv) !! in_hash inv = Some (InvPtr j (in_hash inv))).
      { apply (io_table _ _ _ Hok). split; [done|]. by exists st. }
      congruence.
    + rewrite lookup_delete_ne, (io_table _ _ _ Hok) by done. split; intros [-> [st E]]; (split; [done|]); exists st.
      * rewrite lookup_delete_ne; [done|]. intros <-. rewrite Hi in E. injection E as ->. by destruct Hne.
      * by apply lookup_delete_Some in E as [_ E].
  - intros k j. rewrite Hmem, (io_owned _ _ _ Hok). split.
    + intros [(inv' & E & <-) Hne]. exists inv'. by rewrite lookup_delete_ne.
    + intros (inv' & E & <-). apply lookup_delete_Some in E as [Hne E]. split; [by exists inv'|done].
  - apply Hnd.
  - intros j inv' E. apply lookup_delete_Some in E as [_ E]. by apply (io_next _ _ _ Hok) in E.
Qed.

(** An entry changes its state and its list. *)
Lemma set_state_ok iv owned n i inv st owned' :
  inv_ok iv owned n -> iv_objects iv !! i = Some inv ->
  (forall k, NoDup (owned' k)) ->
  (forall k j, j ∈ owned' k <-> (j <> i /\ j ∈ owned k) \/ (j = i /\ k = kind_of st)) ->
  forall acc rej nr,
  inv_ok (Inventory (iv_hash iv) (<[i := NwInv (in_hash inv) st]> (iv_objects iv)) acc rej nr) owned' n.
Proof.
  intros Hok Hi Hn Hmem acc rej nr. split; cbn [iv_hash iv_objects].
  - apply Hok.
  - intros h j h'. rewrite (io_table _ _ _ Hok). apply and_iff_compat_l.
    destruct (decide (j = i)) as [->|Hne]; [|by rewrite lookup_insert_ne].
    rewrite Hi, lookup_insert_eq. destruct inv as [h0 st0]. cbn [in_hash]. naive_solver.
  - intros k j. rewrite Hmem. destruct (decide (j = i)) as [->|Hne].
    + rewrite lookup_insert_eq. cbn [in_state]. naive_solver.
    + rewrite lookup_insert_ne, <- (io_owned _ _ _ Hok) by done. naive_solver.
  - apply Hn.
  - intros j inv'. destruct (decide (j = i)) as [->|Hne].
    + intros _. by apply (io_next _ _ _ Hok i inv).
    + rewrite lookup_insert_ne by done. apply (io_next _ _ _ Hok).
Qed.

Definition same_lists (iv iv' : inventory) : Prop :=
  iv_accepted iv' = iv_accepted iv /\ iv_rejected iv' = iv_rejected iv /\
  iv_n_rejected iv' = iv_n_rejected iv.

Lemma remove_all_ok l : forall iv owned n rest,
  inv_ok iv owned n -> owned Stub ≡ₚ l ++ rest ->
  exists iv', remove_inventories l iv = Ok iv' /\ same_lists iv iv' /\
    inv_ok iv' (lists (owned Accepted) (owned Rejected) rest) n.
Proof.
  induction l as [|i l IH]; intros iv owned n rest Hok Hp; cbn [remove_inventories].
  { exists iv. split_and!; try done. eapply inv_ok_lists; [exact Hok|]. intros []; cbn; [by rewrite Hp|done|done]. }
  assert (Hi : i ∈ owned Stub) by (rewrite Hp; left).
  apply (io_owned _ _ _ Hok) in Hi as (inv & Hi & Hk).
  destruct (remove_ok iv owned n i inv (lists (owned Accepted) (owned Rejected) (l ++ rest)) Hok Hi)
    as (iv1 & E1 & Hok1 & Ha & Hr & Hn & _).
  { rewrite Hk. intros []; cbn; [exact Hp|done|done]. }
  rewrite E1, bind_ret_l. destruct (IH iv1 _ n rest Hok1) as (iv2 & E2 & Hs & Hok2); [done|].
  exists iv2. split_and!; [done| |exact Hok2]. destruct Hs as (? & ? & ?). split_and!; congruence.
Qed.

(** Dropping the data of an accepted entry. *)
Lemma drop_blob_ok iv owned n i iv' :
  inv_ok iv owned n -> drop_blob i iv = Ok iv' -> inv_ok iv' owned n /\ same_lists iv iv'.
Proof.
  intros Hok Hd. unfold drop_blob, the_inv in Hd. destruct (iv_objects iv !! i) as [inv|] eqn:Hi; [|done].
  rewrite bind_ret_l in Hd. destruct (in_state inv) eqn:Hs; try done. injection Hd as <-. split; [|done].
  apply (set_state_ok iv owned n i inv); [done|done|apply Hok|].
  intros k j. destruct (decide (j = i)) as [->|]; [|naive_solver].
  rewrite (io_owned _ _ _ Hok). cbn. rewrite Hi. split.
  - intros (inv' & [= <-] & <-). right. by rewrite Hs.
  - intros [[? _]|[_ ->]]; [done|]. exists inv. by rewrite Hs.
Qed.

(** ** Garbage collection of a list *)

Lemma gc_requests_ok mono l : forall iv owned n rest,
  inv_ok iv owned n -> owned Stub ≡ₚ l ++ rest ->
  exists l' iv', gc_requests_loop mono l iv = Ok (l', iv') /\ same_lists iv iv' /\
    inv_ok iv' (lists (owned Accepted) (owned Rejected) (l' ++ rest)) n.
Proof.
  induction l as [|i l IH]; intros iv owned n rest Hok Hp; cbn [gc_requests_loop].
  { exists [], iv. split_and!; try done. eapply inv_ok_lists; [exact Hok|]. intros []; cbn; [by rewrite Hp|done|done]. }
  assert (Hi : i ∈ owned Stub) by (rewrite Hp; left).
  apply (io_owned _ _ _ Hok) in Hi as (inv & Hi & Hk). unfold the_inv. rewrite Hi, bind_ret_l.
  destruct (in_state inv) as [t| |] eqn:Hst; try discriminate Hk. destruct (_ <=? _).
  - destruct (remove_ok iv owned n i inv (lists (owned Accepted) (owned Rejected) (l ++ rest)) Hok Hi)
      as (iv1 & E1 & Hok1 & Ha & Hr & Hn & _).
    { rewrite Hst. intros []; cbn; [exact Hp|done|done]. }
    rewrite E1, bind_ret_l. destruct (IH iv1 _ n rest Hok1) as (l' & iv2 & E2 & Hs & Hok2); [done|].
    exists l', iv2. split_and!; [done| |exact Hok2]. destruct Hs as (? & ? & ?). split_and!; congruence.
  - destruct (IH iv owned n (i :: rest) Hok) as (l' & iv2 & E2 & Hs & Hok2).
    { by rewrite Hp, <- Permutation_middle. }
    rewrite E2, bind_ret_l. exists (i :: l'), iv2. split_and!; [done|done|].
    eapply inv_ok_lists; [exact Hok2|]. intros []; cbn; [by rewrite Permutation_middle|done|done].
Qed.

(** [k] is the list that is collected; the other two do not change. *)
Definition with_list (owned : inv_kind -> list nat) (k : inv_kind) (l : list nat) (k' : inv_kind) :
    list nat :=
  if decide (k' = k) then l else owned k'.

Lemma gc_inventories_ok wall k l : forall iv owned n rest,
  inv_ok iv owned n -> k <> Stub -> owned k ≡ₚ l ++ rest ->
  exists l' iv' es, gc_inventories wall l iv = Ok (l', iv', es) /\
    inv_ok iv' (with_list owned k (l' ++ rest)) n /\
    iv_accepted iv' = iv_accepted iv /\ iv_rejected iv' = iv_rejected iv /\
    iv_n_rejected iv' =
      iv_n_rejected iv - (if decide (k = Rejected) then zlen l - zlen l' else 0).
Proof.
  induction l as [|i l IH]; intros iv owned n rest Hok Hk Hp; cbn [gc_inventories].
  { exists [], iv, []. split_and!; try done.
    - eapply inv_ok_lists; [exact Hok|]. intros k'. unfold with_list. destruct (decide (k' = k)) as [->|]; [|done].
      by rewrite Hp.
    - destruct (decide _); lia. }
  assert (Hi : i ∈ owned k) by (rewrite Hp; left).
  apply (io_owned _ _ _ Hok) in Hi as (inv & Hi & Hki). unfold the_inv. rewrite Hi, bind_ret_l.
  assert (Hrest : forall nr, exists iv1, remove_inventory i (Inventory (iv_hash iv) (iv_objects iv)
      (iv_accepted iv) (iv_rejected iv) nr) = Ok iv1 /\
    inv_ok iv1 (with_list owned k (l ++ rest)) n /\ iv_accepted iv1 = iv_accepted iv /\
    iv_rejected iv1 = iv_rejected iv /\ iv_n_rejected iv1 = nr).
  { intros nr. destruct (remove_ok (Inventory (iv_hash iv) (iv_objects iv) (iv_accepted iv) (iv_rejected iv) nr)
      owned n i inv (with_list owned k (l ++ rest))) as (iv1 & E1 & Hok1 & Ha & Hr & Hn & _); [by eapply inv_ok_same|done| |by exists iv1].
    intros k'. rewrite Hki. unfold with_list. destruct (decide (k' = k)) as [->|]; [exact Hp|done]. }
  assert (Hkeep : forall iv0, inv_ok iv0 owned n -> same_lists iv iv0 ->
    exists l' iv' es, gc_inventories wall l iv0 = Ok (l', iv', es) /\
    inv_ok iv' (with_list owned k ((i :: l') ++ rest)) n /\
    iv_accepted iv' = iv_accepted iv /\ iv_rejected iv' = iv_rejected iv /\
    iv_n_rejected iv' =
      iv_n_rejected iv - (if decide (k = Rejected) then zlen (i :: l) - zlen (i :: l') else 0)).
  { intros iv0 Hok0 (Ea & Er & En). destruct (IH iv0 owned n (i :: rest) Hok0 Hk) as (l' & iv2 & es & E2 & Hok2 & Ha & Hr & Hn).
    { by rewrite Hp, <- Permutation_middle. }
    exists l', iv2, es. split_and!; [done| |congruence|congruence|rewrite !zlen_cons, Hn, En; destruct (decide _); lia].
    eapply inv_ok_lists; [exact Hok2|]. intros k'. unfold with_list. destruct (decide (k' = k)); [|done].
    cbn [app]. by rewrite Permutation_middle. }
  destruct (in_state inv) as [|t|type t blob] eqn:Hst; cbn [kind_of] in Hki.
  - by destruct Hk.
  - destruct (inv_expired _ _).
    + destruct (Hrest (iv_n_rejected iv - 1)) as (iv1 & E1 & Hok1 & Ha & Hr & Hn). rewrite E1, bind_ret_l.
      destruct (IH iv1 _ n rest Hok1 Hk) as (l' & iv2 & es & E2 & Hok2 & Ha2 & Hr2 & Hn2).
      { unfold with_list. by rewrite decide_True. }
      exists l', iv2, es. split_and!; [done| |congruence|congruence|].
      * eapply inv_ok_lists; [exact Hok2|]. intros k'. unfold with_list. by destruct (decide (k' = k)).
      * rewrite Hn2, Hn, <- Hki, !decide_True, zlen_cons by done. lia.
    + destruct (Hkeep iv Hok ltac:(done)) as (l' & iv2 & es & E2 & Hok2 & Ha & Hr & Hn).
      rewrite E2, bind_ret_l. by exists (i :: l'), iv2, es.
  - destruct (inv_expired _ _).
    + destruct (Hrest (iv_n_rejected iv)) as (iv1 & E1 & Hok1 & Ha & Hr & Hn).
      replace (Inventory _ _ _ _ _) with iv in E1 by (by destruct iv). rewrite E1, bind_ret_l.
      destruct (IH iv1 _ n rest Hok1 Hk) as (l' & iv2 & es & E2 & Hok2 & Ha2 & Hr2 & Hn2).
      { unfold with_list. by rewrite decide_True. }
      rewrite E2, bind_ret_l. exists l', iv2, (StoreDeleteObject (in_hash inv) :: es). split_and!; [done| |congruence|congruence|].
      * eapply inv_ok_lists; [exact Hok2|]. intros k'. unfold with_list. by destruct (decide (k' = k)).
      * rewrite Hn2, Hn, <- Hki, !decide_False by done. done.
    + assert (Hd : exists iv0, (if NTB_NETWORK_INV_CACHE_AGE <=? age_at wall t then drop_blob i iv else Ok iv) = Ok iv0
                    /\ inv_ok iv0 owned n /\ same_lists iv iv0).
      { destruct (_ <=? _); [|by exists iv]. destruct (drop_blob i iv) as [iv0| | |] eqn:Ed.
        - exists iv0. split; [done|]. by apply (drop_blob_ok iv owned n i).
        - unfold drop_blob, the_inv in Ed. by rewrite Hi, bind_ret_l, Hst in Ed.
        - unfold drop_blob, the_inv in Ed. by rewrite Hi, bind_ret_l, Hst in Ed.
        - unfold drop_blob, the_inv in Ed. by rewrite Hi, bind_ret_l, Hst in Ed. }
      destruct Hd as (iv0 & -> & Hok0 & Hs0). rewrite bind_ret_l.
      destruct (Hkeep iv0 Hok0 Hs0) as (l' & iv2 & es & E2 & Hok2 & Ha & Hr & Hn).
      rewrite E2, bind_ret_l. by exists (i :: l'), iv2, es.
Qed.
