(* ===== verification/NetworkInv.v ===== *)
(** * NetworkInv: the inventory of a running network, and shutting it down

    The invariant of the inventory together with that of the address book holds in
    every state the network reaches, as long as the list of rejected entries has
    not been full; in such a state [ntb_network_free] passes its assertions. *)

From S2P Require Import Prelude Ident Endian Buffer NetAddress OpenSSL Proto NetText Pow HashTable Connection Network AddressBook NetworkSpec InventorySpec.

(** The requests of all peers. *)
Definition reqs (nw : ntb_network) : list nat := concat ((fun p => pe_requested (snd p)) <$> nw_peers nw).

(** [loose] are entries that are in no list while a handler works on them. *)
Definition net_inv (loose : list nat) (nw : ntb_network) : Prop :=
  let iv := nw_inventory nw in
  inv_ok iv (lists (iv_accepted iv) (iv_rejected iv) (loose ++ reqs nw)) (nw_next nw) /\
  iv_n_rejected iv = zlen (iv_rejected iv).

Definition good (nw : ntb_network) : Prop := book_ok (book_of nw) /\ net_inv [] nw.

(** Fewer identities have been used than the table has room for. *)
Definition small (nw : ntb_network) : Prop := Z.of_nat (nw_next nw) <= 2 ^ 60.

Definition keeps (nw nw' : ntb_network) : Prop :=
  (nw_next nw <= nw_next nw')%nat /\ (small nw' -> good nw -> good nw').

Lemma keeps_trans nw1 nw2 nw3 : keeps nw1 nw2 -> keeps nw2 nw3 -> keeps nw1 nw3.
Proof.
  intros [L1 K1] [L2 K2]. split; [lia|]. intros Hs Hg. apply K2; [done|]. apply K1; [|done].
  unfold small in *. lia.
Qed.
Lemma keeps_refl nw : keeps nw nw.
Proof. by split. Qed.

Lemma keeps_intro nw nw' :
  books nw nw' -> (nw_next nw <= nw_next nw')%nat -> (small nw' -> good nw -> net_inv [] nw') -> keeps nw nw'.
Proof.
  intros Hb Hl Hi. split; [done|]. intros Hs Hg. split; [|by apply Hi].
  eapply book_steps_ok; [apply Hb|]; apply Hg.
Qed.

(** ** Calls that leave the inventory alone *)

Definition quiet (nw nw' : ntb_network) : Prop :=
  nw_inventory nw' = nw_inventory nw /\ reqs nw' = reqs nw /\ (nw_next nw <= nw_next nw')%nat.

Lemma quiet_refl nw : quiet nw nw.
Proof. done. Qed.
Lemma quiet_trans nw1 nw2 nw3 : quiet nw1 nw2 -> quiet nw2 nw3 -> quiet nw1 nw3.
Proof. intros (? & ? & ?) (? & ? & ?). split_and!; [congruence|congruence|lia]. Qed.

Lemma quiet_inv loose nw nw' : quiet nw nw' -> net_inv loose nw -> net_inv loose nw'.
Proof.
  intros (E1 & E2 & E3) [Hok Hn]. unfold net_inv. rewrite E1, E2. split; [|done].
  by eapply inv_ok_next.
Qed.

Lemma quiet_keeps nw nw' : books nw nw' -> quiet nw nw' -> keeps nw nw'.
Proof. intros Hb Hq. apply keeps_intro; [done|apply Hq|]. intros _ [_ Hi]. by eapply quiet_inv. Qed.

Lemma reqs_update i f l :
  (forall p, pe_requested (f p) = pe_requested p) ->
  (fun p => pe_requested (snd p)) <$> update_id i f l = (fun p => pe_requested (snd p)) <$> l.
Proof.
  intros Hf. unfold update_id. rewrite <- list_fmap_compose. apply list_fmap_ext.
  intros k [j p] _. cbn. by destruct (Nat.eqb j i); rewrite ?Hf.
Qed.

Lemma update_peer_quiet i f nw :
  (forall p, pe_requested (f p) = pe_requested p) -> quiet nw (update_peer i f nw).
Proof. intros Hf. split_and!; try done. unfold reqs. nw_cbn. by rewrite reqs_update. Qed.

Section quiet.
Context `{Digests} `{Inet} (agent : list Z).

Lemma on_connection_quiet i f nw nw' : on_connection i f nw = Ok nw' -> quiet nw nw'.
Proof. unfold on_connection. intros Hc. bind_inv. by apply update_peer_quiet. Qed.

Lemma connections_loop_reqs f st l l' :
  connections_loop f st l = Ok l' ->
  (fun p => pe_requested (snd p)) <$> l' = (fun p => pe_requested (snd p)) <$> l.
Proof.
  revert l'. induction l as [|[i p] l IH]; intros l' Hl; cbn [connections_loop] in Hl; bind_inv; [done|].
  rewrite !fmap_cons, (IH _ ltac:(eassumption)). f_equal. case_bool_decide; bind_inv; done.
Qed.

Lemma broadcast_addr_quiet a nw nw' : broadcast_addr a nw = Ok nw' -> quiet nw nw'.
Proof.
  unfold broadcast_addr. intros Hb. apply bind_Ok in Hb as (l & Hl & [= <-]). split_and!; try done.
  unfold reqs. nw_cbn. by rewrite (connections_loop_reqs _ _ _ _ Hl).
Qed.
Lemma broadcast_inv_quiet h nw nw' : broadcast_inv h nw = Ok nw' -> quiet nw nw'.
Proof.
  unfold broadcast_inv. intros Hb. apply bind_Ok in Hb as (l & Hl & [= <-]). split_and!; try done.
  unfold reqs. nw_cbn. by rewrite (connections_loop_reqs _ _ _ _ Hl).
Qed.

Lemma maybe_queue_connect_quiet b nw : quiet nw (maybe_queue_connect b nw).
Proof.
  unfold maybe_queue_connect. destruct (_ <=? _); [done|]. destruct (_ <=? _); [done|].
  destruct (nw_connect_queue_source nw) as [x|]; [|done]. by destruct (Bool.eqb x b).
Qed.
Lemma queue_save_quiet nw : quiet nw (queue_save_addr_list nw).
Proof. unfold queue_save_addr_list. by destruct (nw_save_addr_list_source nw). Qed.
Lemma update_addr_quiet i f nw : quiet nw (update_addr i f nw).
Proof. done. Qed.
Lemma count_quiet f nw : quiet nw (nw_count f nw).
Proof. done. Qed.
Lemma new_addr_quiet address t st sv nw i nw' : new_addr address t st sv nw = (i, nw') -> quiet nw nw'.
Proof. unfold new_addr. intros [= _ <-]. split_and!; try done. nw_cbn. lia. Qed.

Lemma add_addr_quiet now t st sv address nw r nw' :
  add_addr now t st sv address nw = Ok (r, nw') -> quiet nw nw'.
Proof.
  unfold add_addr. destruct (_ <=? _); [by intros [= _ <-]|].
  destruct (find_address address nw) as [i|]; intros Ha.
  - apply bind_Ok in Ha as (a & Ha & Hr). destruct (_ <? _); [|by bind_inv].
    apply bind_Ok in Hr as (nw1 & H1%broadcast_addr_quiet & [= _ <-]).
    eapply quiet_trans; [|exact H1]. eapply quiet_trans; [|apply queue_save_quiet]. apply update_addr_quiet.
  - destruct (new_addr _ _ _ _ nw) as [i nw1] eqn:E. apply new_addr_quiet in E.
    apply bind_Ok in Ha as (a & _ & Ha). apply bind_Ok in Ha as (nw2 & H2%broadcast_addr_quiet & [= _ <-]).
    eapply quiet_trans; [exact E|]. eapply quiet_trans; [apply queue_save_quiet|].
    eapply quiet_trans; [exact H2|]. apply maybe_queue_connect_quiet.
Qed.

Lemma remove_addr_quiet i nw nw' : remove_addr i nw = Ok nw' -> quiet nw nw'.
Proof. unfold remove_addr. intros Hr. by bind_inv. Qed.

Lemma add_peer_quiet conn d nw p nw' : add_peer conn d nw = (p, nw') -> quiet nw nw'.
Proof. unfold add_peer. intros [= _ <-]. split_and!; try done. nw_cbn. lia. Qed.

Lemma connection_established_quiet now i nw nw' : connection_established now i nw = Ok nw' -> quiet nw nw'.
Proof.
  unfold connection_established. intros Hc.
  apply bind_Ok in Hc as (nw1 & H1%on_connection_quiet & H2%on_connection_quiet).
  eapply quiet_trans; [|exact H2]. eapply quiet_trans; [|exact H1]. by apply update_peer_quiet.
Qed.

Lemma connect_queue_quiet wall mono random connected nw nw' :
  connect_queue_cb agent wall mono random connected nw = Ok nw' -> quiet nw nw'.
Proof.
  unfold connect_queue_cb. destruct (_ || _); [by intros [= <-]|].
  destruct (_ <=? 0); [intros [= <-]; apply maybe_queue_connect_quiet|].
  destruct (pick_addr _ _ _) as [i|]; [|done]. intros Hc. apply bind_Ok in Hc as ([ok nw1] & Hc & Hr).
  eapply quiet_trans with nw1; [|by destruct ok; injection Hr as <-]. clear Hr. unfold connect_to_addr in Hc.
  apply bind_Ok in Hc as (a & _ & Hc). destruct connected; [|by injection Hc as _ <-].
  destruct (add_peer _ _ _) as [q nw2] eqn:Ep. apply add_peer_quiet in Ep.
  apply bind_Ok in Hc as (nw3 & Hs%on_connection_quiet & [= _ <-]).
  eapply quiet_trans; [|exact Hs]. eapply quiet_trans; [exact Ep|]. by apply update_peer_quiet.
Qed.

Lemma accept_quiet mono i r nw nw' : listen_socket_source_cb mono i r nw = Ok nw' -> quiet nw nw'.
Proof.
  unfold listen_socket_source_cb. destruct (lookup_id i _); [|done]. destruct r; [|by intros [= <-]..].
  destruct (add_peer _ _ _) as [q nw1] eqn:Ep. apply add_peer_quiet in Ep. intros [= <-].
  eapply quiet_trans; [exact Ep|]. by apply (update_peer_quiet q).
Qed.

Lemma add_addr_string_quiet s nw o nw' : add_addr_string s nw = Ok (o, nw') -> quiet nw nw'.
Proof.
  unfold add_addr_string. intros Ha. apply bind_Ok in Ha as (r & _ & Ha).
  destruct (new_addr _ _ _ _ _) as [i nw1] eqn:E. apply new_addr_quiet in E.
  eapply quiet_trans; [exact E|]. destruct r; [by injection Ha as _ <-|].
  bind_inv. by eapply remove_addr_quiet.
Qed.

Lemma each_quiet {A} (f : A -> ntb_network -> result unit ntb_network) l nw nw' :
  (forall x nw1 nw2, f x nw1 = Ok nw2 -> quiet nw1 nw2) -> for_each f l nw = Ok nw' -> quiet nw nw'.
Proof. intros Hf. apply for_each_trans; [split; [intros x; done|intros x y z; apply quiet_trans]|exact Hf]. Qed.

Lemma dns_bootstrap_quiet a nw : quiet nw (dns_bootstrap_cb a nw).
Proof.
  unfold dns_bootstrap_cb. destruct (_ || _); [done|].
  destruct (new_addr _ _ _ _ _) as [i nw1] eqn:E. by apply new_addr_quiet in E.
Qed.

Lemma gc_addrs_quiet wall l nw nw' : gc_addrs_loop wall l nw = Ok nw' -> quiet nw nw'.
Proof.
  revert nw. induction l as [|[i a] l IH]; intros nw Hl; cbn [gc_addrs_loop] in Hl; [by injection Hl as <-|].
  apply bind_Ok in Hl as (nw1 & H1 & Hl). eapply quiet_trans; [|by eapply IH].
  destruct (_ && _); [by eapply remove_addr_quiet|by injection H1 as <-].
Qed.

Lemma getdata_loop_quiet fuel p n hs nw nw' : getdata_loop fuel p n hs nw = Ok nw' -> quiet nw nw'.
Proof.
  revert n hs nw. induction fuel as [|fuel IH]; intros n hs nw; cbn [getdata_loop];
    (destruct (n =? 0); [by intros [= <-]|]); [done|].
  intros Hl. apply bind_Ok in Hl as (h & _ & Hl). apply bind_Ok in Hl as (nw1 & H1 & Hl).
  eapply quiet_trans; [|by eapply IH]. destruct (ntb_hash_table_get _ _ _); [|by injection H1 as <-].
  apply bind_Ok in H1 as (inv & _ & H1). destruct (in_state inv); [done|by injection H1 as <-|].
  by eapply on_connection_quiet.
Qed.
End quiet.

(** ** Removing a peer *)

Definition reqs_of (l : list (nat * ntb_network_peer)) : list nat :=
  concat ((fun p => pe_requested (snd p)) <$> l).

Lemma reqs_cons i p l : reqs_of ((i, p) :: l) = pe_requested p ++ reqs_of l.
Proof. reflexivity. Qed.

Lemma reqs_remove i p l :
  NoDup l.*1 -> lookup_id i l = Some p -> reqs_of l ≡ₚ pe_requested p ++ reqs_of (remove_id i l).
Proof.
  intros Hn. induction l as [|[j q] l IH]; [done|]. rewrite fmap_cons, NoDup_cons in Hn.
  destruct Hn as [Hj Hn]. rewrite lookup_id_cons. unfold reqs_of, remove_id in *.
  rewrite fmap_cons. cbn [List.filter fst snd concat]. destruct (Nat.eqb_spec j i) as [->|]; cbn [negb].
  - intros [= ->]. fold (remove_id i l). by rewrite remove_id_fresh.
  - intros Hl. rewrite fmap_cons. cbn [snd concat]. rewrite (IH Hn Hl), !app_assoc.
    f_equiv. apply Permutation_app_comm.
Qed.

(** The peer list with another one in the place of a peer. *)
Lemma reqs_set i p rs l :
  NoDup l.*1 -> lookup_id i l = Some p ->
  reqs_of (update_id i (pe_set_requested (rs ++ pe_requested p)) l) ≡ₚ rs ++ reqs_of l.
Proof.
  intros Hn. induction l as [|[j q] l IH]; [done|]. rewrite fmap_cons, NoDup_cons in Hn.
  destruct Hn as [Hj Hn]. rewrite lookup_id_cons. unfold reqs_of, update_id in *.
  rewrite !fmap_cons. cbn [fst snd concat]. destruct (Nat.eqb_spec j i) as [->|].
  - intros [= ->]. fold (update_id i (pe_set_requested (rs ++ pe_requested p)) l).
    rewrite update_id_fresh by done. cbn [pe_requested pe_set_requested]. by rewrite app_assoc.
  - intros Hl. rewrite (IH Hn Hl), !app_assoc. f_equiv. apply Permutation_app_comm.
Qed.

Lemma remove_peer_total i p nw :
  good nw -> lookup_id i (nw_peers nw) = Some p ->
  exists nw', remove_peer i nw = Ok nw' /\ good nw' /\ nw_peers nw' = remove_id i (nw_peers nw) /\
    (nw_addrs nw').*1 = (nw_addrs nw).*1 /\ nw_next nw' = nw_next nw /\
    nw_save_addr_list_source nw' = nw_save_addr_list_source nw.
Proof.
  intros Hg Hp. pose proof Hg as [Hb [Hi Hn]].
  assert (Hpe : reqs nw ≡ₚ pe_requested p ++ reqs_of (remove_id i (nw_peers nw))).
  { apply reqs_remove; [by apply ok_nodup_peers|done]. }
  destruct (remove_all_ok (pe_requested p) _ _ _ _ Hi Hpe) as (iv & E & (Ea & Er & En) & Hok).
  assert (Hrun : exists nw', remove_peer i nw = Ok nw' /\ nw_peers nw' = remove_id i (nw_peers nw) /\
    nw_inventory nw' = iv /\ (nw_addrs nw').*1 = (nw_addrs nw).*1 /\ nw_next nw' = nw_next nw /\
    nw_save_addr_list_source nw' = nw_save_addr_list_source nw).
  { unfold remove_peer, the_peer. rewrite Hp, bind_ret_l, E, bind_ret_l.
    assert (Hm : forall n0, let n1 := maybe_queue_connect true n0 in
      nw_peers n1 = nw_peers n0 /\ nw_inventory n1 = nw_inventory n0 /\ nw_addrs n1 = nw_addrs n0 /\
      nw_next n1 = nw_next n0 /\ nw_save_addr_list_source n1 = nw_save_addr_list_source n0).
    { intros n0. cbn zeta. unfold maybe_queue_connect. destruct (_ <=? _); [done|]. destruct (_ <=? _); [done|].
      destruct (nw_connect_queue_source n0) as [x|]; [|done]. by destruct (Bool.eqb x true). }
    destruct (pe_addr p) as [a|] eqn:Epa.
    - assert (Ha : exists addr, lookup_id a (nw_addrs nw) = Some addr).
      { assert (Hl : lookup_id i (bk_peers (book_of nw)) = Some (Some a, pe_direction p)).
        { cbn [book_of bk_peers]. rewrite lookup_map_id, Hp. cbn. unfold peer_part. by rewrite Epa. }
        apply (ok_link _ Hb) in Hl. cbn [book_of bk_addrs] in Hl. rewrite lookup_map_id in Hl.
        destruct (lookup_id a (nw_addrs nw)) as [addr|]; [by exists addr|done]. }
      destruct Ha as [addr Ha]. unfold the_addr. nw_cbn. rewrite Ha, bind_ret_l, bind_ret_l.
      eexists. split; [reflexivity|]. nw_cbn.
      match goal with |- context [maybe_queue_connect true ?m] => destruct (Hm m) as (-> & -> & -> & -> & ->) end.
      destruct (pe_direction p); nw_cbn; rewrite ?update_id_keys; done.
    - rewrite bind_ret_l. eexists. split; [reflexivity|]. nw_cbn.
      match goal with |- context [maybe_queue_connect true ?m] => destruct (Hm m) as (-> & -> & -> & -> & ->) end.
      destruct (pe_direction p); done. }
  destruct Hrun as (nw' & Er' & Hpeers & Hinv & Hkeys & Hnext & Hsave). exists nw'. split_and!; try done. split.
  - eapply book_steps_ok; [|exact Hb]. by apply (remove_peer_books i nw nw' Er').
  - unfold net_inv. rewrite Hinv, Ea, Er, En. unfold reqs. rewrite Hpeers, Hnext. split; [|done].
    eapply inv_ok_lists; [exact Hok|]. by intros [].
Qed.

Lemma remove_peer_keeps i nw nw' : remove_peer i nw = Ok nw' -> keeps nw nw'.
Proof.
  intros Hr. destruct (lookup_id i (nw_peers nw)) as [p|] eqn:Hp.
  2: { unfold remove_peer, the_peer in Hr. by rewrite Hp in Hr. }
  split.
  - unfold remove_peer in Hr. apply bind_Ok in Hr as (q & _ & Hr). apply bind_Ok in Hr as (iv & _ & Hr).
    apply bind_Ok in Hr as (nw1 & H1 & [= <-]). nw_cbn.
    match goal with |- context [maybe_queue_connect true ?m] =>
      pose proof (maybe_queue_connect_quiet true m) as (_ & _ & Hle) end.
    destruct (pe_addr q); bind_inv; destruct (pe_direction q); nw_cbn; lia.
  - intros _ Hg. destruct (remove_peer_total i p nw Hg Hp) as (nw2 & E & Hg2 & _). congruence.
Qed.

(** ** New entries *)

Lemma new_inventory_inv h t nw i nw' loose :
  new_inventory h (NTB_NETWORK_INV_STATE_STUB t) nw = (i, nw') ->
  ntb_hash_table_get inv_hash (iv_hash (nw_inventory nw)) h = None -> small nw' ->
  net_inv loose nw -> net_inv (i :: loose) nw'.
Proof.
  unfold new_inventory. intros Hnew Hg Hs [Hok Hn].
  pose proof (new_ok (nw_inventory nw) _ (nw_next nw) h (NTB_NETWORK_INV_STATE_STUB t)
    (lists (iv_accepted (nw_inventory nw)) (iv_rejected (nw_inventory nw)) (nw_next nw :: loose ++ reqs nw)) Hok) as Hx.
  destruct (ntb_hash_table_set _ _ _) as [o tb]. injection Hnew as <- <-. unfold small in Hs. nw_cbn.
  split; [|done]. nw_cbn. apply Hx; [lia|done|]. by intros [].
Qed.

Lemma new_inventory_parts h st nw i nw' :
  new_inventory h st nw = (i, nw') ->
  i = nw_next nw /\ nw_peers nw' = nw_peers nw /\ nw_next nw' = S (nw_next nw) /\
  iv_objects (nw_inventory nw') = <[i := NwInv h st]> (iv_objects (nw_inventory nw)).
Proof.
  unfold new_inventory. destruct (ntb_hash_table_set _ _ _) as [o tb]. by intros [= <- <-].
Qed.

Section inventory.
Context `{Digests} `{Inet} (agent : list Z).

Lemma request_keeps mono p h nw nw' :
  ntb_hash_table_get inv_hash (iv_hash (nw_inventory nw)) h = None ->
  request_inventory mono p h nw = Ok nw' -> keeps nw nw'.
Proof.
  intros Hg Hr. pose proof (request_books _ _ _ _ _ Hr) as Hbk. revert Hr. unfold request_inventory.
  destruct (new_inventory _ _ _) as [i nw1] eqn:E. intros Hr.
  apply bind_Ok in Hr as (peer & Hp%the_peer_Ok & Hr%on_connection_quiet).
  pose proof (new_inventory_parts _ _ _ _ _ E) as (_ & Epeers & Enext & _).
  pose proof Hr as (_ & _ & Hle). nw_cbn. apply keeps_intro; [done|lia|]. intros Hs [Hb Hi].
  eapply quiet_inv; [exact Hr|].
  assert (Hs1 : small nw1) by (unfold small in *; lia).
  destruct (new_inventory_inv _ _ _ _ _ _ E Hg Hs1 Hi) as [Hok Hn]. split; nw_cbn; [|done].
  eapply inv_ok_lists; [exact Hok|]. intros []; cbn; try done. unfold reqs. nw_cbn.
  apply (reqs_set p peer [i]); [|done]. rewrite Epeers. by apply ok_nodup_peers.
Qed.

Lemma inv_loop_keeps fuel mono p n hs nw nw' : inv_loop fuel mono p n hs nw = Ok nw' -> keeps nw nw'.
Proof.
  revert n hs nw. induction fuel as [|fuel IH]; intros n hs nw; cbn [inv_loop];
    (destruct (n =? 0); [intros [= <-]; apply keeps_refl|]); [done|].
  intros Hl. apply bind_Ok in Hl as (h & _ & Hl). apply bind_Ok in Hl as (nw1 & H1 & Hl).
  eapply keeps_trans; [|by eapply IH].
  destruct (ntb_hash_table_get _ _ _) eqn:Hg; [injection H1 as <-; apply keeps_refl|by eapply request_keeps].
Qed.

Lemma filter_ne_nodup (i : nat) l :
  NoDup l -> i ∈ l -> i :: List.filter (fun j => negb (Nat.eqb j i)) l ≡ₚ l.
Proof.
  induction l as [|j l IH]; [by intros _ ?%elem_of_nil|]. intros [Hj Hn]%NoDup_cons Hin. cbn [List.filter].
  destruct (Nat.eqb_spec j i) as [->|Hne]; cbn [negb].
  - f_equiv. enough (List.filter (fun j => negb (Nat.eqb j i)) l = l) as -> by done.
    clear IH Hn Hin. induction l as [|k l IH]; [done|]. apply not_elem_of_cons in Hj as [? ?]. cbn [List.filter].
    destruct (Nat.eqb_spec k i); [by subst|]. cbn [negb]. f_equal. by apply IH.
  - apply elem_of_cons in Hin as [?|Hin]; [by subst|]. rewrite Permutation_swap. f_equiv. by apply IH.
Qed.

Lemma reqs_unlink i nw : reqs (unlink_request i nw) = List.filter (fun j => negb (Nat.eqb j i)) (reqs nw).
Proof.
  unfold reqs, unlink_request. nw_cbn. induction (nw_peers nw) as [|[j p] l IH]; [done|].
  rewrite map_id_cons, !fmap_cons. cbn [snd concat pe_requested pe_set_requested]. by rewrite List.filter_app, IH.
Qed.

(** After claiming an entry it is in no list. *)
Lemma claim_inv h nw o nw' :
  claim_inventory h nw = Ok (o, nw') -> small nw' -> good nw ->
  match o with
  | Some i => net_inv [i] nw' /\ exists st, iv_objects (nw_inventory nw') !! i = Some (NwInv h st)
  | None => nw' = nw
  end.
Proof.
  intros Hc Hs [Hb Hi]. unfold claim_inventory in Hc.
  destruct (ntb_hash_table_get _ _ _) as [q|] eqn:Hg.
  - destruct (get_Some _ _ _ _ _ (proj1 Hi) Hg) as (st & Hst & _).
    unfold the_inv in Hc. rewrite Hst, bind_ret_l in Hc. cbn [in_state] in Hc.
    destruct st as [t| |]; injection Hc as <- <-; try done. destruct Hi as [Hok Hn]. split; [|by eexists].
    unfold net_inv. rewrite reqs_unlink. split; [|done].
    apply (inv_ok_lists (nw_inventory nw) _ _ _ Hok). intros []; cbn; try done. apply filter_ne_nodup.
    + apply (io_nodup _ _ _ Hok Stub).
    + apply (io_owned _ _ _ Hok Stub). by eexists.
  - destruct (new_inventory _ _ _) as [i nw1] eqn:E. injection Hc as <- <-.
    split; [by eapply new_inventory_inv|]. apply new_inventory_parts in E as (-> & _ & _ & ->).
    eexists. apply lookup_insert_eq.
Qed.

Lemma claim_next h nw o nw' : claim_inventory h nw = Ok (o, nw') -> (nw_next nw <= nw_next nw')%nat.
Proof.
  unfold claim_inventory. destruct (ntb_hash_table_get _ _ _) as [q|].
  - intros Hc. apply bind_Ok in Hc as (inv & _ & Hc). by destruct (in_state inv); injection Hc as <- <-.
  - destruct (new_inventory _ _ _) as [i nw1] eqn:E. intros [= _ <-].
    apply new_inventory_parts in E as (_ & _ & -> & _). lia.
Qed.

(** Moving a loose entry into a list. *)
Lemma settle_inv i h st0 st acc rej nr nw :
  net_inv [i] nw -> iv_objects (nw_inventory nw) !! i = Some (NwInv h st0) -> kind_of st <> Stub ->
  acc = match kind_of st with Accepted => i :: iv_accepted (nw_inventory nw) | _ => iv_accepted (nw_inventory nw) end ->
  rej = match kind_of st with Rejected => i :: iv_rejected (nw_inventory nw) | _ => iv_rejected (nw_inventory nw) end ->
  nr = zlen rej ->
  net_inv [] (nw_set_inventory
    (Inventory (iv_hash (nw_inventory nw)) (<[i := NwInv h st]> (iv_objects (nw_inventory nw))) acc rej nr) nw).
Proof.
  intros [Hok Hn] Hi Hk Ha Hr Hnr. split; [|done]. nw_cbn. cbn [app].
  assert (Hst : kind_of st0 = Stub).
  { assert (Hin : i ∈ [i] ++ reqs nw) by left. apply (io_owned _ _ _ Hok Stub) in Hin as (inv & E & <-).
    rewrite Hi in E. by injection E as <-. }
  assert (Hni : forall k, k <> Stub -> i ∉ lists (iv_accepted (nw_inventory nw)) (iv_rejected (nw_inventory nw)) ([i] ++ reqs nw) k).
  { intros k Hne Hin. apply (io_owned _ _ _ Hok) in Hin as (inv & E & Ek). rewrite Hi in E.
    injection E as <-. cbn in Ek. congruence. }
  pose proof (io_nodup _ _ _ Hok) as Hnd. pose proof (Hnd Stub) as Hns. cbn in Hns. apply NoDup_cons in Hns as [Hin Hns].
  pose proof (Hnd Rejected) as HnR. pose proof (Hnd Accepted) as HnA. cbn [lists] in HnR, HnA.
  pose proof (Hni Rejected ltac:(done)) as HR. pose proof (Hni Accepted ltac:(done)) as HA. cbn [lists] in HR, HA.
  refine (set_state_ok (nw_inventory nw) _ _ i (NwInv h st0) st _ Hok Hi _ _ _ _ _);
    (destruct st as [|t|ty t b]; [by destruct Hk| |]); cbn [kind_of] in Ha, Hr; subst acc rej;
    cbn [iv_accepted iv_rejected].
  1, 2: intros []; cbn [lists]; try done; apply NoDup_cons; done.
  - intros [] j; cbn [lists kind_of]; rewrite ?elem_of_app, ?list_elem_of_singleton, ?elem_of_cons;
      destruct (decide (j = i)) as [->|]; intuition congruence.
  - intros [] j; cbn [lists kind_of]; rewrite ?elem_of_app, ?list_elem_of_singleton, ?elem_of_cons;
      destruct (decide (j = i)) as [->|]; intuition congruence.
Qed.

Definition healthy (nw : ntb_network) : Prop :=
  iv_n_rejected (nw_inventory nw) < NTB_NETWORK_MAX_REJECTED_INVENTORIES.

Lemma claim_n_rejected h nw o nw' :
  claim_inventory h nw = Ok (o, nw') ->
  iv_n_rejected (nw_inventory nw') = iv_n_rejected (nw_inventory nw).
Proof.
  unfold claim_inventory. destruct (ntb_hash_table_get _ _ _) as [q|].
  - intros Hc. apply bind_Ok in Hc as (inv & _ & Hc). by destruct (in_state inv); injection Hc as <- <-.
  - unfold new_inventory. destruct (ntb_hash_table_set _ _ _) as [o' tb]. by intros [= _ <-].
Qed.

Lemma reject_inv i h st t nw iv' :
  net_inv [i] nw -> iv_objects (nw_inventory nw) !! i = Some (NwInv h st) ->
  reject_inventory i t (nw_inventory nw) = Ok iv' ->
  iv_n_rejected iv' < NTB_NETWORK_MAX_REJECTED_INVENTORIES ->
  net_inv [] (nw_set_inventory iv' nw).
Proof.
  intros Hinv Hi Hr Hlt. unfold reject_inventory, set_rejected, the_inv in Hr.
  rewrite Hi, bind_ret_l, bind_ret_l in Hr. cbn [iv_hash iv_objects iv_accepted iv_rejected iv_n_rejected in_hash] in Hr.
  destruct (Z.leb_spec NTB_NETWORK_MAX_REJECTED_INVENTORIES (iv_n_rejected (nw_inventory nw))) as [Hle|_].
  - destruct (last _) as [old|]; [|done]. apply bind_Ok in Hr as (inv & _ & [= <-]).
    cbn [iv_n_rejected free_inventory] in Hlt. lia.
  - injection Hr as <-. apply (settle_inv i h st); try done. rewrite zlen_cons. destruct Hinv as [_ ->]. lia.
Qed.

Lemma accept_inv i h st type t blob nw iv' :
  net_inv [i] nw -> iv_objects (nw_inventory nw) !! i = Some (NwInv h st) ->
  accept_inventory i type t blob (nw_inventory nw) = Ok iv' ->
  net_inv [] (nw_set_inventory iv' nw).
Proof.
  intros Hinv Hi Ha. unfold accept_inventory, the_inv in Ha. rewrite Hi, bind_ret_l in Ha.
  injection Ha as <-. apply (settle_inv i h st); try done. apply Hinv.
Qed.

Lemma drop_blob_inv i nw iv' :
  net_inv [] nw -> drop_blob i (nw_inventory nw) = Ok iv' -> net_inv [] (nw_set_inventory iv' nw).
Proof.
  intros [Hok Hn] Hd. destruct (drop_blob_ok _ _ _ _ _ Hok Hd) as [Hok' (Ea & Er & En)].
  split; nw_cbn; [by rewrite Ea, Er|congruence].
Qed.

Lemma add_object_keeps wall type data len blob skip delay nw nw' :
  add_object wall type data len blob skip delay nw = Ok nw' -> healthy nw' -> keeps nw nw'.
Proof.
  intros Hadd Hh. pose proof (add_object_books _ _ _ _ _ _ _ _ _ Hadd) as Hbk. revert Hadd.
  unfold add_object. intros Ha. apply bind_Ok in Ha as (r & _ & Ha).
  destruct r as [[(nonce & timestamp & []) n]|]; [|injection Ha as <-; apply keeps_refl].
  apply bind_Ok in Ha as (l & _ & Ha). apply bind_Ok in Ha as ([o nw1] & Hc & Ha).
  pose proof (claim_next _ _ _ _ Hc) as Hle.
  destruct o as [i|]; [|injection Ha as <-; apply keeps_intro; [done|done|]; intros Hs Hg;
                        rewrite (claim_inv _ _ _ _ Hc Hs Hg); apply Hg].
  apply bind_Ok in Ha as (reject & _ & Ha).
  destruct reject.
  - apply bind_Ok in Ha as (iv & Hr & [= <-]). apply keeps_intro; [done|done|]. intros Hs Hg.
    destruct (claim_inv _ _ _ _ Hc Hs Hg) as [Hinv [st Hst]]. by eapply reject_inv.
  - apply bind_Ok in Ha as (iv & Hacc & Ha). apply bind_Ok in Ha as (nw2 & H2 & Ha).
    assert (Hq : quiet (nw_set_inventory iv (nw_emit (StoreSaveBlob (ntb_proto_double_hash l)
      match blob with Some b => b | None => Blob type l end) nw1)) nw2).
    { destruct delay; [injection H2 as <-|by eapply broadcast_inv_quiet].
      split_and!; try done. unfold broadcast_delayed_inv. nw_cbn. lia. }
    assert (Hle2 : (nw_next nw1 <= nw_next nw2)%nat) by (by destruct Hq as (_ & _ & ?)).
    assert (Hfin : (nw_next nw2 <= nw_next nw')%nat) by (destruct (_ <=? _); bind_inv; done).
    apply keeps_intro; [done|lia|]. intros Hs Hg.
    assert (Hs1 : small nw1) by (unfold small in *; lia).
    destruct (claim_inv _ _ _ _ Hc Hs1 Hg) as [Hinv [st Hst]].
    assert (Hinv2 : net_inv [] nw2).
    { eapply quiet_inv; [exact Hq|]. by eapply (accept_inv i _ st _ _ _ (nw_emit _ nw1)). }
    destruct (_ <=? _); [|by injection Ha as <-]. apply bind_Ok in Ha as (iv' & Hd & [= <-]).
    by apply (drop_blob_inv i (nw_emit _ nw2)).
Qed.

Lemma store_blob_keeps type h t nw nw' : store_for_each_blob_cb type h t nw = Ok nw' -> keeps nw nw'.
Proof.
  intros Hst. pose proof (store_blob_books _ _ _ _ _ Hst) as Hbk. revert Hst. unfold store_for_each_blob_cb.
  destruct (ntb_hash_table_get _ _ _) eqn:Hg; [intros [= <-]; apply keeps_refl|].
  destruct (new_inventory _ _ _) as [i nw1] eqn:E. intros Hs.
  apply bind_Ok in Hs as (iv & Ha & [= <-]). pose proof (new_inventory_parts _ _ _ _ _ E) as (_ & _ & Hn & Ho).
  apply keeps_intro; [done|nw_cbn; lia|]. intros Hsm [_ Hi].
  eapply accept_inv; [|rewrite Ho; apply lookup_insert_eq|exact Ha].
  by eapply new_inventory_inv.
Qed.

Lemma each_keeps {A} (f : A -> ntb_network -> result unit ntb_network) l nw nw' :
  (forall x nw1 nw2, f x nw1 = Ok nw2 -> keeps nw1 nw2) -> for_each f l nw = Ok nw' -> keeps nw nw'.
Proof. intros Hf. apply for_each_trans; [split; [intros x; apply keeps_refl|intros x y z; apply keeps_trans]|exact Hf]. Qed.

(** ** Garbage collection *)

Lemma gc_peers_ok mono l : forall iv acc rej rest n,
  inv_ok iv (lists acc rej (reqs_of l ++ rest)) n ->
  exists l' iv', gc_peers_loop mono l iv = Ok (l', iv') /\ same_lists iv iv' /\
    inv_ok iv' (lists acc rej (reqs_of l' ++ rest)) n.
Proof.
  induction l as [|[i p] l IH]; intros iv acc rej rest n Hok; cbn [gc_peers_loop].
  { by exists [], iv. }
  rewrite reqs_cons in Hok.
  destruct (gc_requests_ok mono (pe_requested p) iv _ n (reqs_of l ++ rest) Hok) as (rs & iv1 & E1 & Hs1 & Hok1).
  { cbn [lists]. by rewrite app_assoc. }
  unfold gc_requested_inventories. rewrite E1, !bind_ret_l. cbn [lists] in Hok1.
  destruct (IH iv1 acc rej (rs ++ rest) n) as (l2 & iv2 & E2 & Hs2 & Hok2).
  { eapply inv_ok_lists; [exact Hok1|]. intros []; cbn [lists]; try done.
    rewrite !app_assoc. f_equiv. apply Permutation_app_comm. }
  rewrite E2, bind_ret_l. exists ((i, pe_set_requested rs p) :: l2), iv2. split_and!; [done| |].
  - destruct Hs1 as (? & ? & ?), Hs2 as (? & ? & ?). split_and!; congruence.
  - eapply inv_ok_lists; [exact Hok2|]. intros []; cbn [lists]; try done.
    rewrite reqs_cons. cbn [pe_requested pe_set_requested]. rewrite !app_assoc. f_equiv. apply Permutation_app_comm.
Qed.

Lemma gc_inventory_total wall mono nw :
  net_inv [] nw ->
  exists nw1, gc_timeout_cb wall mono nw = gc_addrs wall nw1 /\ net_inv [] nw1 /\
    nw_next nw1 = nw_next nw /\ nw_addrs nw1 = nw_addrs nw.
Proof.
  intros [Hok Hn]. unfold gc_timeout_cb.
  destruct (gc_peers_ok mono (nw_peers nw) _ _ _ [] _ ltac:(rewrite app_nil_r; exact Hok))
    as (peers & iv1 & -> & (Ea & Er & En) & Hok1). rewrite bind_ret_l, app_nil_r in *.
  destruct (gc_inventories_ok wall Accepted (iv_accepted iv1) iv1 _ _ [] Hok1 ltac:(done))
    as (acc & iv2 & d1 & -> & Hok2 & Ea2 & Er2 & En2).
  { cbn. by rewrite app_nil_r, Ea. }
  rewrite bind_ret_l.
  destruct (gc_inventories_ok wall Rejected (iv_rejected iv2) iv2 _ _ [] Hok2 ltac:(done))
    as (rej & iv3 & d2 & -> & Hok3 & Ea3 & Er3 & En3).
  { unfold with_list. rewrite decide_False by done. cbn [lists]. by rewrite app_nil_r, Er2, Er. }
  rewrite bind_ret_l. eexists. split; [reflexivity|]. split_and!; try done. split; nw_cbn.
  - cbn [iv_accepted iv_rejected]. apply (inv_ok_same iv3); [|reflexivity|reflexivity].
    eapply inv_ok_lists; [exact Hok3|]. unfold with_list, reqs. nw_cbn.
    intros []; cbn [lists app]; repeat case_decide; rewrite ?app_nil_r; done.
  - cbn [iv_n_rejected iv_rejected]. rewrite En3, En2, En, Hn, Er2, Er.
    repeat case_decide; try done. lia.
Qed.

Lemma gc_timeout_keeps wall mono nw nw' : gc_timeout_cb wall mono nw = Ok nw' -> keeps nw nw'.
Proof.
  intros Hg. pose proof (gc_timeout_books _ _ _ _ Hg) as Hbk. apply keeps_intro; [done| |].
  - unfold gc_timeout_cb in Hg. apply bind_Ok in Hg as ([peers iv] & _ & Hg).
    apply bind_Ok in Hg as ([[acc iv1] d1] & _ & Hg). apply bind_Ok in Hg as ([[rej iv2] d2] & _ & Hg).
    by apply gc_addrs_quiet in Hg as (_ & _ & ?).
  - intros _ [_ Hi]. destruct (gc_inventory_total wall mono nw Hi) as (nw1 & E & Hi1 & _).
    rewrite E in Hg. eapply quiet_inv; [|exact Hi1]. by eapply gc_addrs_quiet.
Qed.

(** ** Every step *)

Lemma handle_version_keeps wall i e nw ok nw' :
  handle_version agent wall i e nw = Ok (ok, nw') -> keeps nw nw'.
Proof.
  intros Hver. pose proof (handle_version_books _ _ _ _ _ _ _ Hver) as Hbk. revert Hver.
  unfold handle_version. intros Hv. apply bind_Ok in Hv as (p & _ & Hv).
  apply bind_Ok in Hv as (_ & _ & Hv).
  destruct (_ =? _); [bind_inv; by eapply remove_peer_keeps|].
  destruct (negb _); [bind_inv; by eapply remove_peer_keeps|].
  apply bind_Ok in Hv as (stream & _ & Hv). apply bind_Ok in Hv as ([oa nw1] & Ha%add_addr_quiet & Hv).
  apply bind_Ok in Hv as (nw2 & Hl & Hv). apply bind_Ok in Hv as (nw3 & Hs%on_connection_quiet & Hv).
  apply bind_Ok in Hv as (nw4 & Hst & [= _ <-]). apply quiet_keeps; [done|].
  eapply quiet_trans; [exact Ha|]. eapply quiet_trans with nw2.
  - destruct oa as [a|]; [|by bind_inv]. apply bind_Ok in Hl as (addr & _ & Hl).
    destruct (_ && _); injection Hl as <-; [|done]. by apply (update_peer_quiet i (pe_set_addr (Some a))).
  - eapply quiet_trans; [exact Hs|]. destruct (pe_state p); bind_inv; try done.
    + by eapply connection_established_quiet.
    + eapply quiet_trans; [by eapply on_connection_quiet|]. by apply update_peer_quiet.
Qed.

Lemma handle_verack_keeps wall i nw ok nw' : handle_verack wall i nw = Ok (ok, nw') -> keeps nw nw'.
Proof.
  intros Hver. pose proof (handle_verack_books _ _ _ _ _ Hver) as Hbk. revert Hver.
  unfold handle_verack. intros Hv. apply bind_Ok in Hv as (p & _ & Hv). apply quiet_keeps; [done|].
  destruct (pe_state p); bind_inv; try done; [by apply update_peer_quiet|by eapply connection_established_quiet].
Qed.

Lemma connection_event_keeps wall mono i e nw ok nw' :
  connection_event_cb agent wall mono i e nw = Ok (ok, nw') -> healthy nw' -> keeps nw nw'.
Proof.
  intros Hev Hh. pose proof (connection_event_books _ _ _ _ _ _ _ _ Hev) as Hbk. revert Hev Hh Hbk.
  destruct e; cbn [connection_event_cb]; intros He Hh Hbk.
  1, 2: bind_inv; by eapply remove_peer_keeps.
  - by eapply handle_version_keeps.
  - unfold handle_inv in He. apply bind_Ok in He as (nw1 & H1 & He).
    apply bind_Ok in He as (nw2 & H2%inv_loop_keeps & He). apply bind_Ok in He as (nw3 & H3 & [= _ <-]).
    eapply keeps_trans; [|eapply keeps_trans; [exact H2|]]; (apply quiet_keeps;
      [apply books_same; by eapply on_connection_book|by eapply on_connection_quiet]).
  - apply quiet_keeps; [done|]. unfold handle_addr in He. destruct (ntb_netaddress_is_allowed _); bind_inv; [|done].
    destruct x. bind_inv. by eapply add_addr_quiet.
  - unfold handle_object in He. bind_inv. by eapply add_object_keeps.
  - apply quiet_keeps; [done|]. unfold handle_getdata in He. bind_inv. by eapply getdata_loop_quiet.
  - by eapply handle_verack_keeps.
Qed.

Lemma load_store_keeps wall blobs addrs bootstrap nw nw' :
  ntb_network_load_store wall blobs addrs bootstrap nw = Ok nw' -> keeps nw nw'.
Proof.
  unfold ntb_network_load_store. intros Hl. apply bind_Ok in Hl as (nw1 & H1 & Hl).
  apply bind_Ok in Hl as (nw2 & H2 & Hl). apply bind_Ok in Hl as (nw3 & H3 & [= <-]).
  eapply keeps_trans; [|eapply keeps_trans; [|eapply keeps_trans]].
  - eapply each_keeps; [|exact H1]. intros [[type h] t] n1 n2. apply store_blob_keeps.
  - eapply each_keeps; [|exact H2]. intros a n1 n2 Ha. unfold store_for_each_addr_cb in Ha. bind_inv.
    destruct x. bind_inv. apply quiet_keeps; [by eapply add_addr_books|by eapply add_addr_quiet].
  - eapply each_keeps; [|exact H3]. intros a n1 n2 [= <-].
    apply quiet_keeps; [apply dns_bootstrap_books|apply dns_bootstrap_quiet].
  - apply quiet_keeps; [apply books_same, maybe_queue_connect_book|apply maybe_queue_connect_quiet].
Qed.

Lemma nw_step_keeps nw nw' : nw_step agent nw nw' -> healthy nw' -> keeps nw nw'.
Proof.
  intros Hs Hh. pose proof (nw_step_books _ _ _ Hs) as Hbk.
  destruct Hs as [? ? ? ? ? ? ? He|? ? Hc]; [by eapply connection_event_keeps|]. destruct Hc.
  - apply quiet_keeps; [done|]. by eapply on_connection_quiet.
  - apply quiet_keeps; [done|]. by eapply connect_queue_quiet.
  - by apply quiet_keeps.
  - by eapply gc_timeout_keeps.
  - apply quiet_keeps; [done|]. unfold broadcast_delayed_inv_cb in *. destruct (lookup_id _ _); [|done]. bind_inv.
    match goal with E : broadcast_inv _ _ = Ok _ |- _ => exact (broadcast_inv_quiet _ _ _ E) end.
  - apply quiet_keeps; [done|]. by eapply accept_quiet.
  - apply quiet_keeps; [done|]. unfold ntb_network_add_listen_address in *. bind_inv.
    destruct x; [destruct opened|]; bind_inv; split_and!; try done. nw_cbn. lia.
  - apply quiet_keeps; [done|]. unfold ntb_network_add_peer_address in *. bind_inv.
    destruct x as [[j|] nw1]; bind_inv; [|by eapply add_addr_string_quiet].
    eapply quiet_trans; [by eapply add_addr_string_quiet|apply update_addr_quiet].
  - apply quiet_keeps; [done|]. eapply quiet_trans; [|apply maybe_queue_connect_quiet]. done.
  - by eapply add_object_keeps.
  - by eapply add_object_keeps.
  - by eapply load_store_keeps.
Qed.

(** States reached without the list of rejected entries getting full. *)
Definition healthy_step (nw nw' : ntb_network) : Prop := nw_step agent nw nw' /\ healthy nw'.

Lemma healthy_steps_keep nw nw' : rtc healthy_step nw nw' -> keeps nw nw'.
Proof.
  induction 1 as [|nw1 nw2 nw3 [Hs Hh] _ IH]; [apply keeps_refl|].
  eapply keeps_trans; [by apply nw_step_keeps|exact IH].
Qed.

(** ** A new network *)

Lemma empty_good nonce : good (empty_network nonce).
Proof.
  split.
  - split; cbn; try done; try constructor; try (intros ? ?%elem_of_nil; done).
  - destruct (new_wf inv_hash) as [Hw Hm]. split; [|done]. split; cbn [nw_inventory empty_network iv_hash iv_objects].
    + exact Hw.
    + intros h i h'. rewrite Hm, lookup_empty. split; [done|]. intros [_ [st E]]. by rewrite lookup_empty in E.
    + intros k i. split; [destruct k; by intros ?%elem_of_nil|]. intros (inv & E & _). by rewrite lookup_empty in E.
    + intros []; constructor.
    + intros i inv E. by rewrite lookup_empty in E.
Qed.

(** The addresses the hard-coded texts stand for. *)
Definition default_netaddrs : list ntb_netaddress :=
  (fun '(a, b, c, d, port) => NetAddr (ipv4_magic ++ [a; b; c; d]) port) <$>
  [(176, 31, 246, 114, 8444); (109, 229, 197, 133, 8444); (174, 3, 101, 111, 8444);
   (90, 188, 238, 79, 7829); (184, 75, 69, 2, 8444); (60, 225, 209, 243, 8444);
   (5, 145, 140, 218, 8444); (5, 19, 255, 216, 8444); (193, 159, 162, 189, 8444);
   (86, 26, 15, 171, 8444)].

Lemma default_addrs_text `{!InetLaws} :
  default_addrs = ntb_netaddress_to_string <$> default_netaddrs.
Proof.
  unfold default_netaddrs. rewrite !fmap_cons, fmap_nil.
  rewrite !to_string_v4 by (lia || by apply (bool_decide_unpack _)). vm_compute. reflexivity.
Qed.

Lemma default_addr_run `{!InetLaws} a nw :
  na_wf a -> exists nw', add_default_addr (ntb_netaddress_to_string a) nw = Ok nw' /\ keeps nw nw'.
Proof.
  intros Ha. assert (Hrun : exists nw', add_default_addr (ntb_netaddress_to_string a) nw = Ok nw').
  { unfold add_default_addr, add_addr_string. rewrite (from_to_string a []) by done.
    cbn [parse]. rewrite bind_ret_l. unfold new_addr. cbn [default from_option].
    rewrite bind_ret_l. by eexists. }
  destruct Hrun as [nw' Hrun]. exists nw'. split; [done|]. unfold add_default_addr in Hrun.
  apply bind_Ok in Hrun as ([o nw1] & Hs & Hr). destruct o as [i|]; [|done]. injection Hr as <-.
  apply quiet_keeps.
  - eapply books_trans; [by eapply add_addr_string_books|]. apply books_same, set_type_book.
  - by eapply quiet_trans; [by eapply add_addr_string_quiet|apply update_addr_quiet].
Qed.

Lemma default_addrs_run `{!InetLaws} l : Forall na_wf l -> forall nw,
  exists nw', for_each add_default_addr (ntb_netaddress_to_string <$> l) nw = Ok nw' /\ keeps nw nw'.
Proof.
  induction 1 as [|a l Ha _ IH]; intros nw; [by exists nw|]. rewrite fmap_cons. cbn [for_each].
  destruct (default_addr_run a nw Ha) as (nw1 & -> & K1). rewrite bind_ret_l.
  destruct (IH nw1) as (nw2 & E2 & K2). exists nw2. split; [done|]. by eapply keeps_trans.
Qed.

Lemma network_new_run `{!InetLaws} nonce :
  exists nw, ntb_network_new nonce = Ok nw /\ keeps (empty_network nonce) nw.
Proof.
  unfold ntb_network_new. rewrite default_addrs_text.
  destruct (default_addrs_run default_netaddrs) with (empty_network nonce) as (nw & E & K).
  { apply (bool_decide_unpack _). vm_compute. exact I. }
  rewrite E, bind_ret_l. eexists. split; [reflexivity|]. eapply keeps_trans; [exact K|].
  apply quiet_keeps; [apply books_same, maybe_queue_connect_book|apply maybe_queue_connect_quiet].
Qed.

(** ** Shutting down *)

Lemma remove_head_keys {A} i x (l : list (nat * A)) :
  NoDup ((i, x) :: l).*1 -> remove_id i ((i, x) :: l) = l.
Proof.
  rewrite fmap_cons, NoDup_cons. intros [Hi _]. unfold remove_id. cbn [List.filter fst].
  rewrite Nat.eqb_refl. cbn [negb]. by apply remove_id_fresh.
Qed.

Lemma free_peers_run l : forall nw,
  good nw -> (nw_peers nw).*1 = l ->
  exists nw', for_each remove_peer l nw = Ok nw' /\ good nw' /\ nw_peers nw' = [].
Proof.
  induction l as [|i l IH]; intros nw Hg Hl; cbn [for_each].
  { exists nw. split_and!; try done. by apply fmap_nil_inv in Hl. }
  destruct (nw_peers nw) as [|[j p] ps] eqn:Ep; [done|]. rewrite fmap_cons in Hl. injection Hl as -> Hl.
  assert (Hn : NoDup ((i, p) :: ps).*1) by (rewrite <- Ep; apply ok_nodup_peers, Hg).
  destruct (remove_peer_total i p nw Hg) as (nw1 & -> & Hg1 & Ep1 & _).
  { by rewrite Ep, lookup_id_cons, Nat.eqb_refl. }
  rewrite bind_ret_l. apply IH; [done|]. by rewrite Ep1, Ep, remove_head_keys.
Qed.

Lemma remove_addr_total i a nw :
  good nw -> nw_peers nw = [] -> lookup_id i (nw_addrs nw) = Some a ->
  exists nw', remove_addr i nw = Ok nw' /\ good nw' /\ nw_addrs nw' = remove_id i (nw_addrs nw) /\
    nw_peers nw' = nw_peers nw.
Proof.
  intros Hg Hp Ha. assert (Hc : ad_connected a = false).
  { destruct (ad_connected a) eqn:Hc; [|done]. destruct Hg as [Hb _].
    destruct (ok_linked _ Hb i) as (p & d & Hl).
    - cbn [book_of bk_addrs]. rewrite lookup_map_id, Ha. cbn. by rewrite Hc.
    - cbn [book_of bk_peers] in Hl. by rewrite Hp in Hl. }
  assert (Hrun : exists nw', remove_addr i nw = Ok nw' /\ nw_addrs nw' = remove_id i (nw_addrs nw) /\
    nw_peers nw' = nw_peers nw).
  { unfold remove_addr, the_addr. rewrite Ha, bind_ret_l, Hc. by eexists. }
  destruct Hrun as (nw' & E & E1 & E2). exists nw'. split_and!; try done.
  destruct Hg as [Hb Hi]. split.
  - eapply book_steps_ok; [|exact Hb]. by apply (remove_addr_books i nw nw' E).
  - by eapply quiet_inv; [eapply remove_addr_quiet|].
Qed.

Lemma free_addrs_run l : forall nw,
  good nw -> nw_peers nw = [] -> (nw_addrs nw).*1 = l ->
  exists nw', for_each remove_addr l nw = Ok nw' /\ good nw' /\ nw_peers nw' = [] /\ nw_addrs nw' = [].
Proof.
  induction l as [|i l IH]; intros nw Hg Hp Hl; cbn [for_each].
  { exists nw. split_and!; try done. by apply fmap_nil_inv in Hl. }
  destruct (nw_addrs nw) as [|[j a] ps] eqn:Ea; [done|]. rewrite fmap_cons in Hl. injection Hl as -> Hl.
  assert (Hn : NoDup ((i, a) :: ps).*1) by (rewrite <- Ea; apply ok_nodup_addrs, Hg).
  destruct (remove_addr_total i a nw Hg Hp) as (nw1 & -> & Hg1 & Ea1 & Ep1).
  { by rewrite Ea, lookup_id_cons, Nat.eqb_refl. }
  rewrite bind_ret_l. apply IH; [done|congruence|]. by rewrite Ea1, Ea, remove_head_keys.
Qed.

Lemma free_list_run l : forall iv,
  NoDup l -> (forall i, i ∈ l -> is_Some (iv_objects iv !! i)) ->
  exists iv', free_inventories_in_list l iv = Ok iv' /\ iv_rejected iv' = iv_rejected iv /\
    forall j, iv_objects iv' !! j = if decide (j ∈ l) then None else iv_objects iv !! j.
Proof.
  induction l as [|i l IH]; intros iv Hn Hl; cbn [free_inventories_in_list].
  { exists iv. split_and!; try done. }
  apply NoDup_cons in Hn as [Hi Hn]. destruct (Hl i) as [inv E]; [left|]. unfold the_inv. rewrite E, bind_ret_l.
  destruct (IH (free_inventory i iv) Hn) as (iv' & -> & Er & Ho).
  { intros j Hj. cbn. rewrite lookup_delete_ne by (intros ->; done). apply Hl. by right. }
  exists iv'. split_and!; [done|done|]. intros j. rewrite Ho. cbn [free_inventory iv_objects].
  destruct (decide (j ∈ l)); [rewrite decide_True by (by right); done|].
  destruct (decide (j = i)) as [->|]; [rewrite lookup_delete_eq, decide_True by left; done|].
  rewrite lookup_delete_ne, decide_False by (rewrite ?elem_of_cons; naive_solver). done.
Qed.

Lemma network_free_run wall nw :
  good nw ->
  exists nw', ntb_network_free wall nw = Ok nw' /\ nw_peers nw' = [] /\ nw_addrs nw' = [] /\
    iv_objects (nw_inventory nw') = ∅.
Proof.
  intros Hg. unfold ntb_network_free.
  set (nw0 := if nw_save_addr_list_source nw then _ else nw).
  assert (Hsave : good nw0 /\ nw_save_addr_list_source nw0 = false).
  { unfold nw0. destruct (nw_save_addr_list_source nw) eqn:E; [|done]. by split. }
  destruct Hsave as [Hg0 ->]. cbn [negb c_assert]. rewrite bind_ret_l.
  destruct (free_peers_run _ nw0 Hg0 eq_refl) as (nw1 & E1 & Hg1 & Hp1). unfold free_peers.
  rewrite E1, bind_ret_l.
  destruct (free_addrs_run _ nw1 Hg1 Hp1 eq_refl) as (nw2 & E2 & Hg2 & Hp2 & Ha2). unfold free_addrs.
  rewrite E2, bind_ret_l. destruct Hg2 as [Hb2 [Hok2 _]]. nw_cbn.
  assert (Hr2 : reqs nw2 = []) by (unfold reqs; by rewrite Hp2). rewrite Hr2 in Hok2. cbn [app] in Hok2.
  assert (Hsome : forall k i, i ∈ lists (iv_accepted (nw_inventory nw2)) (iv_rejected (nw_inventory nw2)) [] k ->
    exists inv, iv_objects (nw_inventory nw2) !! i = Some inv /\ kind_of (in_state inv) = k).
  { intros k i. apply (io_owned _ _ _ Hok2). }
  destruct (free_list_run (iv_accepted (nw_inventory nw2)) (nw_inventory nw2)) as (iv3 & E3 & Er3 & Ho3).
  { apply (io_nodup _ _ _ Hok2 Accepted). }
  { intros i Hi. destruct (Hsome Accepted i Hi) as (inv & -> & _). by eexists. }
  rewrite E3, bind_ret_l, Er3.
  destruct (free_list_run (iv_rejected (nw_inventory nw2)) iv3) as (iv4 & E4 & _ & Ho4).
  { apply (io_nodup _ _ _ Hok2 Rejected). }
  { intros i Hi. destruct (Hsome Rejected i Hi) as (inv & E & Ek). rewrite Ho3, decide_False; [by eexists|].
    intros Hi2. destruct (Hsome Accepted i Hi2) as (inv' & E' & Ek'). congruence. }
  rewrite E4, bind_ret_l.
  assert (Hst : n_outgoing_peers (nw_stats nw2) = 0 /\ n_incoming_peers (nw_stats nw2) = 0 /\
                n_unconnected_addrs (nw_stats nw2) = 0).
  { pose proof (ok_outgoing _ Hb2) as Ho. pose proof (ok_incoming _ Hb2) as Hi. pose proof (ok_unconnected _ Hb2) as Hu.
    cbn [book_of bk_stats bk_peers bk_addrs] in *. rewrite Hp2 in Ho, Hi. rewrite Ha2 in Hu. done. }
  unfold remove_connect_queue_source. nw_cbn. destruct Hst as (-> & -> & ->). eexists. split; [reflexivity|]. nw_cbn. split_and!; [done|done|].
  apply map_eq. intros i. rewrite Ho4, Ho3, lookup_empty.
  destruct (iv_objects (nw_inventory nw2) !! i) as [inv|] eqn:E; [|by repeat case_decide].
  assert (Hin : i ∈ lists (iv_accepted (nw_inventory nw2)) (iv_rejected (nw_inventory nw2)) [] (kind_of (in_state inv))).
  { apply (io_owned _ _ _ Hok2). by exists inv. }
  destruct (kind_of (in_state inv)); cbn in Hin; [by apply elem_of_nil in Hin| |]; by repeat case_decide.
Qed.

Lemma network_new_books nonce nw : ntb_network_new nonce = Ok nw -> books (empty_network nonce) nw.
Proof.
  unfold ntb_network_new. intros Hn. apply bind_Ok in Hn as (nw1 & H1 & [= <-]).
  eapply books_trans; [|apply books_same, maybe_queue_connect_book]. eapply each_books; [|exact H1].
  intros a n1 n2 Ha. unfold add_default_addr in Ha. apply bind_Ok in Ha as ([o n3] & Hs & Ha).
  destruct o; [|done]. injection Ha as <-.
  eapply books_trans; [by eapply add_addr_string_books|]. apply books_same, set_type_book.
Qed.

Lemma reachable_good `{!InetLaws} nonce nw0 nw :
  ntb_network_new nonce = Ok nw0 -> rtc healthy_step nw0 nw -> small nw -> good nw.
Proof.
  intros Hn Hs Hsm. destruct (network_new_run nonce) as (nw1 & E & K). rewrite Hn in E. injection E as <-.
  pose proof (healthy_steps_keep _ _ Hs) as [Hle Hk]. apply Hk; [done|]. apply K; [|apply empty_good].
  unfold small in *. lia.
Qed.
End inventory.

(** ** Properties *)

(** C21: the network implements the address book. Creating it and every sequence of
    callbacks and calls, in any order, is a sequence of steps of the book; so in
    every state the counters are the numbers of outgoing peers, incoming peers and
    unconnected addresses, an address is marked as connected exactly when one peer
    is linked to it, no address is used twice, and there are at most 8 outgoing and
    9 incoming peers. *)
Theorem network_refines_address_book `{Digests} `{Inet} agent nonce nw0 nw :
  ntb_network_new nonce = Ok nw0 -> rtc (nw_step agent) nw0 nw ->
  rtc book_step (book_of (empty_network nonce)) (book_of nw) /\ book_ok (book_of nw).
Proof.
  intros Hn Hs. pose proof (proj1 (empty_good nonce)) as Hok.
  pose proof (books_trans _ _ _ (network_new_books _ _ Hn) (nw_steps_books _ _ _ Hs) Hok) as Hb.
  split; [done|]. by eapply book_steps_ok.
Qed.

(** C29: a network that was run without the list of rejected entries getting full
    can be freed at any time: no assertion fails, no freed object is used, and
    nothing is left of the peers, the addresses and the inventory. *)
Theorem network_free_ok `{Digests} `{InetLaws} agent nonce nw0 nw wall :
  ntb_network_new nonce = Ok nw0 -> rtc (healthy_step agent) nw0 nw -> small nw ->
  exists nw', ntb_network_free wall nw = Ok nw' /\ nw_peers nw' = [] /\ nw_addrs nw' = [] /\
    iv_objects (nw_inventory nw') = ∅.
Proof. intros Hn Hs Hsm. apply network_free_run. by eapply reachable_good. Qed.

(** C22: in every such state the inventory is consistent: the table finds exactly
    the entries that exist, by their hash; every entry is in the one list of its
    state, stubs with the peer that was asked; so looking up an object never follows
    a dangling pointer. *)
Theorem network_inventory_ok `{Digests} `{InetLaws} agent nonce nw0 nw :
  ntb_network_new nonce = Ok nw0 -> rtc (healthy_step agent) nw0 nw -> small nw ->
  net_inv [] nw /\ forall hash, exists location, ntb_network_get_object hash nw = Ok location.
Proof.
  intros Hn Hs Hsm. destruct (reachable_good _ _ _ _ Hn Hs Hsm) as [_ Hi]. split; [done|]. intros hash.
  unfold ntb_network_get_object. destruct (ntb_hash_table_get _ _ _) as [q|] eqn:Hg; [|by eexists].
  destruct (get_Some _ _ _ _ _ (proj1 Hi) Hg) as (st & Hst & _). unfold the_inv. rewrite Hst, bind_ret_l.
  cbn [in_state]. destruct st as [| |? ? [b|]]; by eexists.
Qed.

(** Rejecting an object while the list of rejected entries is full frees the
    oldest one but leaves it in the table, so that the next lookup of its hash
    follows a dangling pointer. *)
Theorem network_rejected_entry_dangles iv owned next i old st inv t iv' :
  inv_ok iv owned next -> NTB_NETWORK_MAX_REJECTED_INVENTORIES <= iv_n_rejected iv ->
  last (iv_rejected iv) = Some old -> i <> old ->
  iv_objects iv !! i = Some inv -> iv_objects iv !! old = Some st ->
  reject_inventory i t iv = Ok iv' ->
  exists q, ntb_hash_table_get inv_hash (iv_hash iv') (in_hash st) = Some q /\ the_inv (inv_id q) iv' = UB.
Proof.
  intros Hok Hmax Hl Hne Hi Hold Hr. unfold reject_inventory, set_rejected, the_inv in Hr.
  rewrite Hi, bind_ret_l, bind_ret_l in Hr.
  cbn [iv_hash iv_objects iv_accepted iv_rejected iv_n_rejected] in Hr.
  rewrite (proj2 (Z.leb_le _ _) Hmax), Hl, lookup_insert_ne, Hold, bind_ret_l in Hr by done.
  injection Hr as <-. exists (InvPtr old (in_hash st)). cbn [iv_hash free_inventory inv_id iv_objects]. split.
  - rewrite get_spec by apply Hok. apply (io_table _ _ _ Hok). split; [done|]. exists (in_state st).
    rewrite Hold. by destruct st.
  - unfold the_inv. cbn [iv_objects]. by rewrite lookup_delete_eq.
Qed.

Lemma getdata_stub p h q t nw :
  zlen h = NTB_PROTO_HASH_LENGTH ->
  ntb_hash_table_get inv_hash (iv_hash (nw_inventory nw)) h = Some q ->
  iv_objects (nw_inventory nw) !! inv_id q = Some (NwInv h (NTB_NETWORK_INV_STATE_STUB t)) ->
  handle_getdata p 1 h nw = UB.
Proof.
  intros Hh Hg Ho. unfold handle_getdata. cbn [getdata_loop Z.eqb].
  rewrite read_bytes_Ok, bind_ret_l by (unfold zlen in Hh; lia).
  rewrite take_ge by (unfold zlen in Hh; lia). unfold the_inv. by rewrite Hg, Ho, bind_ret_l.
Qed.

(** Asking a peer for an object leaves a stub that the table finds. *)
Lemma request_stub `{Digests} mono p h nw nw' :
  net_inv [] nw -> small nw' -> ntb_hash_table_get inv_hash (iv_hash (nw_inventory nw)) h = None ->
  request_inventory mono p h nw = Ok nw' ->
  exists q, ntb_hash_table_get inv_hash (iv_hash (nw_inventory nw')) h = Some q /\
    iv_objects (nw_inventory nw') !! inv_id q = Some (NwInv h (NTB_NETWORK_INV_STATE_STUB mono)).
Proof.
  intros Hi Hs Hg. unfold request_inventory. destruct (new_inventory _ _ _) as [i nw1] eqn:E. intros Hr.
  apply bind_Ok in Hr as (peer & _ & (Eiv & _ & Hle)%on_connection_quiet). nw_cbn. rewrite Eiv.
  assert (Hs1 : small nw1) by (unfold small in *; lia).
  pose proof (new_inventory_inv _ _ _ _ _ _ E Hg Hs1 Hi) as [Hok _].
  pose proof (new_inventory_parts _ _ _ _ _ E) as (_ & _ & _ & Ho).
  exists (InvPtr i h). cbn [inv_id]. rewrite Ho, lookup_insert_eq. split; [|done].
  rewrite get_spec by apply Hok. apply (io_table _ _ _ Hok). split; [done|]. rewrite Ho, lookup_insert_eq. by eexists.
Qed.

(** A peer that announces an object nobody has and then asks for it makes the
    network use the data pointer of the stub it just made for the request, which was
    never written. *)
Theorem network_getdata_of_stub `{Digests} `{Inet} agent wall mono p h nw nw' ok :
  good nw -> small nw' -> zlen h = NTB_PROTO_HASH_LENGTH ->
  ntb_hash_table_get inv_hash (iv_hash (nw_inventory nw)) h = None ->
  connection_event_cb agent wall mono p (NTB_CONNECTION_EVENT_INV 1 h) nw = Ok (ok, nw') ->
  connection_event_cb agent wall mono p (NTB_CONNECTION_EVENT_GETDATA 1 h) nw' = UB.
Proof.
  intros [_ Hi] Hs Hh Hg He. cbn [connection_event_cb] in *. unfold handle_inv in He.
  apply bind_Ok in He as (nw1 & H1%on_connection_quiet & He).
  apply bind_Ok in He as (nw2 & H2 & He). apply bind_Ok in He as (nw3 & (E3 & _ & Hle)%on_connection_quiet & [= _ <-]).
  cbn [inv_loop Z.eqb] in H2. rewrite read_bytes_Ok, bind_ret_l in H2 by (unfold zlen in Hh; lia).
  rewrite take_ge in H2 by (unfold zlen in Hh; lia).
  pose proof H1 as (E1 & _). rewrite E1, Hg in H2. apply bind_Ok in H2 as (nw4 & Hr & Hn).
  assert (nw4 = nw2) as -> by (destruct (length h); cbn [inv_loop Z.sub Z.eqb] in Hn; by injection Hn).
  destruct (request_stub mono p h nw1 nw2) as (q & Hq & Ho); [by eapply quiet_inv| |by rewrite E1|done|].
  { unfold small in *. lia. }
  eapply getdata_stub; [done|by rewrite E3|by rewrite E3].
Qed.

(** ** Choosing an address *)

Lemma pick_addr_total can l : forall k,
  0 <= k < count can l -> exists i, pick_addr can k l = Some i.
Proof.
  induction l as [|[i a] l IH]; intros k Hk; [rewrite count_nil in Hk; lia|rewrite count_cons in Hk].
  cbn [pick_addr]. destruct (can a); cbn [one] in Hk; [|apply IH; lia].
  destruct (Z.leb_spec k 0); [by eexists|apply IH; lia].
Qed.

Lemma pick_addr_past can l : forall k, count can l <= k -> pick_addr can k l = None.
Proof.
  induction l as [|[i a] l IH]; intros k Hk; [done|]. rewrite count_cons in Hk. cbn [pick_addr].
  pose proof (count_nonneg can l). destruct (can a); cbn [one] in Hk; [|apply IH; lia].
  destruct (Z.leb_spec k 0); [lia|apply IH; lia].
Qed.

(** When the timer for connecting fires below the limit and some address can be
    connected to, every value of [rand] but the largest selects one of these
    addresses; for the largest value the search runs past the end of the list. *)
Theorem network_connect_choice `{Digests} agent wall mono random connected nw :
  let can := can_connect_to_addr mono (nw_only_use_explicit_addresses nw) in
  n_outgoing_peers (nw_stats nw) < NTB_NETWORK_NUM_OUTGOING_PEERS ->
  0 < n_unconnected_addrs (nw_stats nw) ->
  0 < count can (nw_addrs nw) < 2 ^ 31 -> 0 <= random <= RAND_MAX ->
  if random =? RAND_MAX then
    connect_queue_cb agent wall mono random connected nw = UB
  else
    exists i addr, (i, addr) ∈ nw_addrs nw /\ can addr = true /\
      connect_queue_cb agent wall mono random connected nw =
      '(ok, nw') ← connect_to_addr agent wall mono connected i nw;
      if (ok : bool) then Ok (nw_count (add_unconnected (-1)) (update_addr i (ad_set_connected true) nw'))
      else Ok nw'.
Proof.
  intros can Hout Hun Hcan Hr. unfold connect_queue_cb. fold can.
  rewrite (proj2 (Z.leb_gt _ _) Hout), (proj2 (Z.leb_gt _ _) Hun). cbn [orb].
  rewrite (proj2 (Z.leb_gt _ _) (proj1 Hcan)). unfold RAND_MAX in *.
  rewrite u64_small by nia. destruct (Z.eqb_spec random 2147483647) as [->|Hne].
  - rewrite Z.mul_comm, Z.div_mul, s32_small, pick_addr_past by lia. done.
  - assert (Hd : 0 <= random * count can (nw_addrs nw) / 2147483647 < count can (nw_addrs nw)).
    { split; [apply Z.div_pos; nia|]. apply Z.div_lt_upper_bound; nia. }
    rewrite s32_small by lia.
    destruct (pick_addr_total can (nw_addrs nw) _ Hd) as [i Hi]. rewrite Hi.
    apply pick_addr_Some in Hi as (a & Hin & Ha). by exists i, a.
Qed.

(** ** Examples: the hypotheses hold in a network that accepts connections *)

#[local] Existing Instances Digests_toy DigestLaws_toy Inet_toy InetLaws_toy.

Definition ok_or {A} (d : A) (r : result unit A) : A := match r with Ok a => a | _ => d end.

Definition example_nw : ntb_network := ok_or (empty_network 7) (ntb_network_new 7).
Definition example_listen_text : list Z := str_bytes "5.19.255.216:8444" ++ [0].
Definition example_listening : ntb_network :=
  snd (ok_or (false, example_nw) (ntb_network_add_listen_address example_listen_text true example_nw)).
Definition example_accept (nw : ntb_network) : ntb_network :=
  ok_or nw (listen_socket_source_cb 0 10 (AcceptOk example_address) nw).
Fixpoint example_accepted (n : nat) : ntb_network :=
  match n with O => example_listening | S n => example_accept (example_accepted n) end.

Lemma example_new : ntb_network_new 7 = Ok example_nw.
Proof. vm_compute. reflexivity. Qed.

Lemma example_listen_step agent : healthy_step agent example_nw example_listening.
Proof.
  split; [|vm_compute; reflexivity]. apply step_call, (step_listen agent example_listen_text true true).
  vm_compute. reflexivity.
Qed.

Lemma example_accept_step agent n :
  (n < 9)%nat -> healthy_step agent (example_accepted n) (example_accepted (S n)).
Proof.
  intros Hn. split; [|do 9 (destruct n as [|n]; [vm_compute; reflexivity|]); lia].
  apply step_call. eapply (step_accept agent 0 10 _ true (AcceptOk example_address));
    (do 9 (destruct n as [|n]; [vm_compute; reflexivity|]); lia).
Qed.

Lemma example_steps agent n : (n <= 9)%nat -> rtc (healthy_step agent) example_nw (example_accepted n).
Proof.
  induction n as [|n IH]; intros Hn; [apply rtc_once, example_listen_step|].
  eapply rtc_r; [apply IH; lia|]. apply example_accept_step. lia.
Qed.

Lemma healthy_steps_steps agent nw nw' : rtc (healthy_step agent) nw nw' -> rtc (nw_step agent) nw nw'.
Proof. induction 1 as [|? ? ? [? _]]; [constructor|by eapply rtc_l]. Qed.

Lemma network_refines_address_book_witness :
  rtc book_step (book_of (empty_network 7)) (book_of (example_accepted 3)) /\
  book_ok (book_of (example_accepted 3)).
Proof.
  apply (network_refines_address_book [] 7 example_nw).
  - apply example_new.
  - apply healthy_steps_steps, example_steps. lia.
Defined.

Lemma network_free_ok_witness :
  exists nw', ntb_network_free 0 (example_accepted 3) = Ok nw' /\ nw_peers nw' = [] /\ nw_addrs nw' = [] /\
    iv_objects (nw_inventory nw') = ∅.
Proof.
  apply (network_free_ok [] 7 example_nw).
  - apply example_new.
  - apply example_steps. lia.
  - vm_compute. congruence.
Defined.

Lemma network_inventory_ok_witness :
  net_inv [] (example_accepted 3) /\
  forall hash, exists location, ntb_network_get_object hash (example_accepted 3) = Ok location.
Proof.
  apply (network_inventory_ok [] 7 example_nw).
  - apply example_new.
  - apply example_steps. lia.
  - vm_compute. congruence.
Defined.

(** The limit on incoming peers is passed by one: accepting a connection updates
    the sources of the sockets before it counts the new peer, so a ninth connection
    is accepted. *)
Theorem network_incoming_limit_exceeded agent :
  exists nw, rtc (nw_step agent) example_nw nw /\
    n_incoming_peers (nw_stats nw) = NTB_NETWORK_MAX_INCOMING_PEERS + 1.
Proof.
  exists (example_accepted 9). split; [|vm_compute; reflexivity].
  apply healthy_steps_steps, example_steps. lia.
Qed.

(** An inventory with one rejected entry and one stub. *)
Definition example_entry (i : nat) : inv_ptr := InvPtr i (replicate 32 (Z.of_nat i)).
Definition example_inventory : inventory :=
  Inventory
    (ntb_hash_table_set inv_hash (ntb_hash_table_set inv_hash ntb_hash_table_new (example_entry 0)).2
       (example_entry 1)).2
    (<[1%nat := NwInv (replicate 32 1) (NTB_NETWORK_INV_STATE_STUB 0)]>
       (<[0%nat := NwInv (replicate 32 0) (NTB_NETWORK_INV_STATE_REJECTED 0)]> ∅))
    [] [0%nat] NTB_NETWORK_MAX_REJECTED_INVENTORIES.

Lemma example_inventory_ok : inv_ok example_inventory (lists [] [0%nat] [1%nat]) 2.
Proof.
  pose proof (proj1 (proj2 (empty_good 0))) as Hok. cbn [nw_inventory empty_network] in Hok.
  pose proof (new_ok _ _ _ (replicate 32 0) (NTB_NETWORK_INV_STATE_REJECTED 0) (lists [] [0%nat] []) Hok
    ltac:(vm_compute; congruence) ltac:(vm_compute; reflexivity) ltac:(by intros []) [] [] 0) as Hok1.
  exact (new_ok _ _ _ (replicate 32 1) (NTB_NETWORK_INV_STATE_STUB 0) (lists [] [0%nat] [1%nat]) Hok1
    ltac:(vm_compute; congruence) ltac:(vm_compute; reflexivity) ltac:(by intros []) _ _ _).
Qed.

Lemma network_rejected_entry_dangles_witness :
  exists q, ntb_hash_table_get inv_hash (iv_hash (ok_or example_inventory (reject_inventory 1 5 example_inventory)))
              (replicate 32 0) = Some q /\
    the_inv (inv_id q) (ok_or example_inventory (reject_inventory 1 5 example_inventory)) = UB.
Proof.
  apply (network_rejected_entry_dangles example_inventory (lists [] [0%nat] [1%nat]) 2 1 0
    (NwInv (replicate 32 0) (NTB_NETWORK_INV_STATE_REJECTED 0))
    (NwInv (replicate 32 1) (NTB_NETWORK_INV_STATE_STUB 0)) 5).
  - exact example_inventory_ok.
  - vm_compute. congruence.
  - reflexivity.
  - lia.
  - reflexivity.
  - reflexivity.
  - vm_compute. reflexivity.
Defined.

Lemma network_getdata_of_stub_witness :
  connection_event_cb [] 0 0 11 (NTB_CONNECTION_EVENT_GETDATA 1 (replicate 32 1))
    (snd (ok_or (false, example_accepted 1)
       (connection_event_cb [] 0 0 11 (NTB_CONNECTION_EVENT_INV 1 (replicate 32 1)) (example_accepted 1)))) = UB.
Proof.
  apply (network_getdata_of_stub [] 0 0 11 (replicate 32 1) (example_accepted 1) _ true).
  - apply (reachable_good [] 7 example_nw); [apply example_new|apply example_steps; lia|vm_compute; congruence].
  - vm_compute. congruence.
  - reflexivity.
  - vm_compute. reflexivity.
  - vm_compute. reflexivity.
Defined.

Lemma network_connect_choice_witness :
  exists i addr, (i, addr) ∈ nw_addrs example_nw /\
    can_connect_to_addr 100000000 (nw_only_use_explicit_addresses example_nw) addr = true /\
    connect_queue_cb [] 0 100000000 5 true example_nw =
    '(ok, nw') ← connect_to_addr [] 0 100000000 true i example_nw;
    if (ok : bool) then Ok (nw_count (add_unconnected (-1)) (update_addr i (ad_set_connected true) nw'))
    else Ok nw'.
Proof.
  apply (network_connect_choice [] 0 100000000 5 true example_nw);
    vm_compute; try reflexivity; split; congruence.
Defined.
