(* ===== verification/Handshake.v ===== *)
(** * Handshake: when a peer counts as connected

    The state of a peer is a function of the direction of the connection and of
    the "version" and "verack" commands it has sent so far, whatever else happens
    in the network; it is connected exactly when these came in the order the
    direction demands. *)

From S2P Require Import Prelude Ident Endian Buffer NetAddress OpenSSL Proto NetText Pow HashTable Connection Network AddressBook NetworkSpec InventorySpec NetworkInv.

(** ** The state machine of one peer *)

Inductive hs_event := HsVersion | HsVerack.

#[global] Instance hs_event_eq_dec : EqDecision hs_event.
Proof. solve_decision. Defined.

Definition hs_initial (d : ntb_network_direction) : ntb_network_peer_state :=
  match d with
  | NTB_NETWORK_OUTGOING => NTB_NETWORK_PEER_STATE_AWAITING_VERACK_OUT
  | NTB_NETWORK_INCOMING => NTB_NETWORK_PEER_STATE_AWAITING_VERSION_IN
  end.

Definition hs_next (s : ntb_network_peer_state) (e : hs_event) : ntb_network_peer_state :=
  match s, e with
  | NTB_NETWORK_PEER_STATE_AWAITING_VERACK_OUT, HsVerack => NTB_NETWORK_PEER_STATE_AWAITING_VERSION_OUT
  | NTB_NETWORK_PEER_STATE_AWAITING_VERSION_OUT, HsVersion => NTB_NETWORK_PEER_STATE_CONNECTED
  | NTB_NETWORK_PEER_STATE_AWAITING_VERSION_IN, HsVersion => NTB_NETWORK_PEER_STATE_AWAITING_VERACK_IN
  | NTB_NETWORK_PEER_STATE_AWAITING_VERACK_IN, HsVerack => NTB_NETWORK_PEER_STATE_CONNECTED
  | s, _ => s
  end.

Definition hs_run (d : ntb_network_direction) (es : list hs_event) : ntb_network_peer_state :=
  fold_left hs_next es (hs_initial d).

(** The commands that complete the handshake, in their order. *)
Definition hs_order (d : ntb_network_direction) : list hs_event :=
  match d with
  | NTB_NETWORK_OUTGOING => [HsVerack; HsVersion]
  | NTB_NETWORK_INCOMING => [HsVersion; HsVerack]
  end.

Lemma hs_run_connected es :
  fold_left hs_next es NTB_NETWORK_PEER_STATE_CONNECTED = NTB_NETWORK_PEER_STATE_CONNECTED.
Proof. induction es as [|[] es IH]; done. Qed.

(** One command is missing. *)
Lemma hs_wait e s es :
  hs_next s e = NTB_NETWORK_PEER_STATE_CONNECTED -> (forall f, f <> e -> hs_next s f = s) ->
  s <> NTB_NETWORK_PEER_STATE_CONNECTED ->
  fold_left hs_next es s = NTB_NETWORK_PEER_STATE_CONNECTED <-> e ∈ es.
Proof.
  intros Hc Hs Hn. induction es as [|f es IH]; [split; [done|by intros ?%elem_of_nil]|]. cbn [fold_left].
  rewrite elem_of_cons. destruct (decide (f = e)) as [->|Hf].
  - rewrite Hc, hs_run_connected. split; [by left|done].
  - rewrite (Hs f Hf), IH. split; [by right|]. by intros [?|?].
Qed.

Lemma hs_two e1 e2 s1 s2 es :
  hs_next s1 e1 = s2 -> (forall f, f <> e1 -> hs_next s1 f = s1) ->
  hs_next s2 e2 = NTB_NETWORK_PEER_STATE_CONNECTED -> (forall f, f <> e2 -> hs_next s2 f = s2) ->
  s1 <> NTB_NETWORK_PEER_STATE_CONNECTED -> s2 <> NTB_NETWORK_PEER_STATE_CONNECTED ->
  fold_left hs_next es s1 = NTB_NETWORK_PEER_STATE_CONNECTED <-> [e1; e2] `sublist_of` es.
Proof.
  intros H1 Hs1 H2 Hs2 Hn1 Hn2. induction es as [|f es IH]; [split; [done|by intros ?%sublist_nil_r]|].
  cbn [fold_left]. rewrite sublist_cons_r. destruct (decide (f = e1)) as [->|Hf].
  - rewrite H1, (hs_wait e2) by done. split.
    + intros Hin. right. exists [e2]. split; [done|]. by apply singleton_sublist_l.
    + intros [Hs|(l & [= <-] & Hs)]; apply singleton_sublist_l; [|done].
      etrans; [|exact Hs]. apply sublist_cons. done.
  - rewrite (Hs1 f Hf), IH. split; [by left|]. intros [Hs|(l & [= ? _] & _)]; [done|by subst].
Qed.

Lemma hs_run_order d es :
  hs_run d es = NTB_NETWORK_PEER_STATE_CONNECTED <-> hs_order d `sublist_of` es.
Proof. unfold hs_run. destruct d; cbn [hs_initial hs_order]; (eapply hs_two; [reflexivity|by intros []|reflexivity|by intros []|done|done]). Qed.

(** ** The peers of a network *)

Definition hs_part (p : ntb_network_peer) : ntb_network_peer_state * ntb_network_direction :=
  (pe_state p, pe_direction p).
Definition hs_view (nw : ntb_network) := map_id hs_part (nw_peers nw).

(** Peers keep their state, or are new. *)
Definition evolve (nw nw' : ntb_network) : Prop :=
  (nw_next nw <= nw_next nw')%nat /\
  forall i v, lookup_id i (hs_view nw') = Some v ->
    lookup_id i (hs_view nw) = Some v \/ (nw_next nw <= i)%nat /\ fst v = hs_initial (snd v).

Lemma evolve_refl nw : evolve nw nw.
Proof. split; [done|]. by left. Qed.
Lemma evolve_trans nw1 nw2 nw3 : evolve nw1 nw2 -> evolve nw2 nw3 -> evolve nw1 nw3.
Proof.
  intros [L1 E1] [L2 E2]. split; [lia|]. intros i v Hv.
  destruct (E2 i v Hv) as [Hv'|[? ?]]; [by apply E1|]. right. split; [lia|done].
Qed.
Lemma evolve_same nw nw' :
  hs_view nw' = hs_view nw -> (nw_next nw <= nw_next nw')%nat -> evolve nw nw'.
Proof. intros E Hle. split; [done|]. rewrite E. by left. Qed.

(** Same peers and at least as many identities. *)
Definition steady (nw nw' : ntb_network) : Prop :=
  hs_view nw' = hs_view nw /\ (nw_next nw <= nw_next nw')%nat.

Lemma steady_evolve nw nw' : steady nw nw' -> evolve nw nw'.
Proof. intros [? ?]. by apply evolve_same. Qed.
Lemma steady_trans nw1 nw2 nw3 : steady nw1 nw2 -> steady nw2 nw3 -> steady nw1 nw3.
Proof. intros [? ?] [? ?]. split; [congruence|lia]. Qed.

Lemma update_peer_steady i f nw :
  (forall p, hs_part (f p) = hs_part p) -> steady nw (update_peer i f nw).
Proof. intros Hf. split; [|done]. unfold hs_view. nw_cbn. by apply map_update_id_same. Qed.

Section steady.
Context `{Digests} `{Inet} (agent : list Z).

Lemma on_connection_steady i f nw nw' : on_connection i f nw = Ok nw' -> steady nw nw'.
Proof. unfold on_connection. intros Hc. bind_inv. by apply update_peer_steady. Qed.

Lemma connections_loop_hs f st l l' :
  connections_loop f st l = Ok l' -> map_id hs_part l' = map_id hs_part l.
Proof.
  revert l'. induction l as [|[i p] l IH]; intros l' Hl; cbn [connections_loop] in Hl; bind_inv; [done|].
  rewrite !map_id_cons, (IH _ ltac:(eassumption)). f_equal. f_equal. case_bool_decide; bind_inv; done.
Qed.

Lemma broadcast_inv_steady h nw nw' : broadcast_inv h nw = Ok nw' -> steady nw nw'.
Proof. unfold broadcast_inv. intros Hb. bind_inv. split; [|done]. by eapply connections_loop_hs. Qed.
Lemma broadcast_addr_steady a nw nw' : broadcast_addr a nw = Ok nw' -> steady nw nw'.
Proof. unfold broadcast_addr. intros Hb. bind_inv. split; [|done]. by eapply connections_loop_hs. Qed.

Lemma maybe_queue_connect_steady b nw : steady nw (maybe_queue_connect b nw).
Proof.
  unfold maybe_queue_connect. destruct (_ <=? _); [done|]. destruct (_ <=? _); [done|].
  destruct (nw_connect_queue_source nw) as [x|]; [|done]. by destruct (Bool.eqb x b).
Qed.
Lemma queue_save_steady nw : steady nw (queue_save_addr_list nw).
Proof. unfold queue_save_addr_list. by destruct (nw_save_addr_list_source nw). Qed.
Lemma new_addr_steady address t st sv nw i nw' : new_addr address t st sv nw = (i, nw') -> steady nw nw'.
Proof. unfold new_addr. intros [= _ <-]. split; [done|]. nw_cbn. lia. Qed.

Lemma add_addr_steady now t st sv address nw r nw' :
  add_addr now t st sv address nw = Ok (r, nw') -> steady nw nw'.
Proof.
  unfold add_addr. destruct (_ <=? _); [by intros [= _ <-]|].
  destruct (find_address address nw) as [i|]; intros Ha.
  - apply bind_Ok in Ha as (a & Ha & Hr). destruct (_ <? _); [|by bind_inv].
    apply bind_Ok in Hr as (nw1 & H1%broadcast_addr_steady & [= _ <-]).
    eapply steady_trans; [|exact H1]. eapply steady_trans; [|apply queue_save_steady]. done.
  - destruct (new_addr _ _ _ _ nw) as [i nw1] eqn:E. apply new_addr_steady in E.
    apply bind_Ok in Ha as (a & _ & Ha). apply bind_Ok in Ha as (nw2 & H2%broadcast_addr_steady & [= _ <-]).
    eapply steady_trans; [exact E|]. eapply steady_trans; [apply queue_save_steady|].
    eapply steady_trans; [exact H2|]. apply maybe_queue_connect_steady.
Qed.

Lemma remove_addr_steady i nw nw' : remove_addr i nw = Ok nw' -> steady nw nw'.
Proof. unfold remove_addr. intros Hr. by bind_inv. Qed.

Lemma add_addr_string_steady s nw o nw' : add_addr_string s nw = Ok (o, nw') -> steady nw nw'.
Proof.
  unfold add_addr_string. intros Ha. apply bind_Ok in Ha as (r & _ & Ha).
  destruct (new_addr _ _ _ _ _) as [i nw1] eqn:E. apply new_addr_steady in E.
  eapply steady_trans; [exact E|]. destruct r; [by injection Ha as _ <-|].
  bind_inv. by eapply remove_addr_steady.
Qed.

Lemma new_inventory_steady h st nw i nw' : new_inventory h st nw = (i, nw') -> steady nw nw'.
Proof.
  intros (_ & Ep & En & _)%new_inventory_parts. split; [by unfold hs_view; rewrite Ep|lia].
Qed.

Lemma request_steady mono p h nw nw' : request_inventory mono p h nw = Ok nw' -> steady nw nw'.
Proof.
  unfold request_inventory. destruct (new_inventory _ _ _) as [i nw1] eqn:E. apply new_inventory_steady in E.
  intros Hr. apply bind_Ok in Hr as (peer & _ & Hr%on_connection_steady).
  eapply steady_trans; [exact E|]. eapply steady_trans; [|exact Hr]. by apply update_peer_steady.
Qed.

Lemma inv_loop_steady fuel mono p n hs nw nw' : inv_loop fuel mono p n hs nw = Ok nw' -> steady nw nw'.
Proof.
  revert n hs nw. induction fuel as [|fuel IH]; intros n hs nw; cbn [inv_loop];
    (destruct (n =? 0); [by intros [= <-]|]); [done|].
  intros Hl. apply bind_Ok in Hl as (h & _ & Hl). apply bind_Ok in Hl as (nw1 & H1 & Hl).
  eapply steady_trans; [|by eapply IH].
  destruct (ntb_hash_table_get _ _ _); [by injection H1 as <-|by eapply request_steady].
Qed.

Lemma getdata_loop_steady fuel p n hs nw nw' : getdata_loop fuel p n hs nw = Ok nw' -> steady nw nw'.
Proof.
  revert n hs nw. induction fuel as [|fuel IH]; intros n hs nw; cbn [getdata_loop];
    (destruct (n =? 0); [by intros [= <-]|]); [done|].
  intros Hl. apply bind_Ok in Hl as (h & _ & Hl). apply bind_Ok in Hl as (nw1 & H1 & Hl).
  eapply steady_trans; [|by eapply IH]. destruct (ntb_hash_table_get _ _ _); [|by injection H1 as <-].
  apply bind_Ok in H1 as (inv & _ & H1). destruct (in_state inv); [done|by injection H1 as <-|].
  by eapply on_connection_steady.
Qed.

Lemma claim_steady h nw o nw' : claim_inventory h nw = Ok (o, nw') -> steady nw nw'.
Proof.
  unfold claim_inventory. destruct (ntb_hash_table_get _ _ _) as [q|].
  - intros Hc. apply bind_Ok in Hc as (inv & _ & Hc).
    destruct (in_state inv); injection Hc as <- <-; try done. split; [|done].
    unfold unlink_request, hs_view. nw_cbn. by rewrite map_map_id.
  - destruct (new_inventory _ _ _) as [i nw1] eqn:E. intros [= _ <-]. by eapply new_inventory_steady.
Qed.

Lemma add_object_steady wall type data len blob skip delay nw nw' :
  add_object wall type data len blob skip delay nw = Ok nw' -> steady nw nw'.
Proof.
  unfold add_object. intros Ha. apply bind_Ok in Ha as (r & _ & Ha).
  destruct r as [[(nonce & timestamp & []) n]|]; [|by injection Ha as <-].
  apply bind_Ok in Ha as (l & _ & Ha). apply bind_Ok in Ha as ([o nw1] & H1%claim_steady & Ha).
  eapply steady_trans; [exact H1|]. destruct o as [i|]; [|by injection Ha as <-].
  apply bind_Ok in Ha as (reject & _ & Ha). destruct reject; [by bind_inv|].
  apply bind_Ok in Ha as (iv & _ & Ha). apply bind_Ok in Ha as (nw2 & H2 & Ha).
  eapply steady_trans with nw2; [|by destruct (_ <=? _); bind_inv].
  destruct delay; [injection H2 as <-; split; [done|]; unfold broadcast_delayed_inv; nw_cbn; lia|].
  by apply broadcast_inv_steady in H2.
Qed.

Lemma gc_addrs_steady wall l nw nw' : gc_addrs_loop wall l nw = Ok nw' -> steady nw nw'.
Proof.
  revert nw. induction l as [|[i a] l IH]; intros nw Hl; cbn [gc_addrs_loop] in Hl; [by injection Hl as <-|].
  apply bind_Ok in Hl as (nw1 & H1 & Hl). eapply steady_trans; [|by eapply IH].
  destruct (_ && _); [by eapply remove_addr_steady|by injection H1 as <-].
Qed.

Lemma gc_peers_hs mono l iv l' iv' :
  gc_peers_loop mono l iv = Ok (l', iv') -> map_id hs_part l' = map_id hs_part l.
Proof.
  revert iv l' iv'. induction l as [|[i p] l IH]; intros iv l' iv' Hl; cbn [gc_peers_loop] in Hl.
  { by injection Hl as <- <-. }
  apply bind_Ok in Hl as ([p1 iv1] & H1 & Hl). apply bind_Ok in Hl as ([l2 iv2] & H2 & [= <- <-]).
  rewrite !map_id_cons, (IH _ _ _ H2). f_equal. unfold gc_requested_inventories in H1.
  apply bind_Ok in H1 as ([rs iv3] & _ & [= <- _]). done.
Qed.

Lemma each_steady {A} (f : A -> ntb_network -> result unit ntb_network) l nw nw' :
  (forall x nw1 nw2, f x nw1 = Ok nw2 -> steady nw1 nw2) -> for_each f l nw = Ok nw' -> steady nw nw'.
Proof. intros Hf. apply for_each_trans; [split; [intros x; done|intros x y z; apply steady_trans]|exact Hf]. Qed.
End steady.

(** ** Peers come and go *)

Section evolve.
Context `{Digests} `{Inet} (agent : list Z).

Lemma remove_peer_evolve i nw nw' : remove_peer i nw = Ok nw' -> evolve nw nw'.
Proof.
  intros Hr. pose proof (remove_peer_keeps _ _ _ Hr) as [Hle _]. split; [done|].
  unfold remove_peer in Hr. apply bind_Ok in Hr as (q & _ & Hr). apply bind_Ok in Hr as (iv & _ & Hr).
  apply bind_Ok in Hr as (nw1 & H1 & [= <-]). intros j v Hj. left. revert Hj.
  assert (E1 : nw_peers nw1 = nw_peers nw) by (destruct (pe_addr q); by bind_inv).
  unfold hs_view. nw_cbn. intros Hj.
  match type of Hj with context [maybe_queue_connect true ?m] =>
    pose proof (maybe_queue_connect_steady true m) as [E _]; unfold hs_view in E; rewrite E in Hj; clear E end.
  assert (Hv : lookup_id j (map_id hs_part (remove_id i (nw_peers nw))) = Some v).
  { rewrite <- E1. by destruct (pe_direction q). }
  rewrite remove_map_id, lookup_remove_id in Hv. by destruct (Nat.eqb j i).
Qed.

(** A new peer at the head of the list. *)
Lemma new_peer_evolve nw nw' s d :
  hs_view nw' = (nw_next nw, (s, d)) :: hs_view nw -> s = hs_initial d ->
  nw_next nw' = S (nw_next nw) -> evolve nw nw'.
Proof.
  intros E -> En. split; [lia|]. rewrite E. intros i v. rewrite lookup_id_cons.
  destruct (Nat.eqb_spec (nw_next nw) i) as [<-|]; [|by left]. intros [= <-]. by right.
Qed.

Lemma connect_queue_evolve wall mono random connected nw nw' :
  book_ok (book_of nw) -> connect_queue_cb agent wall mono random connected nw = Ok nw' -> evolve nw nw'.
Proof.
  intros Hok. unfold connect_queue_cb. destruct (_ || _); [intros [= <-]; by apply evolve_same|].
  destruct (_ <=? 0); [intros [= <-]; apply steady_evolve, maybe_queue_connect_steady|].
  destruct (pick_addr _ _ _) as [i|]; [|done]. intros Hc. apply bind_Ok in Hc as ([ok nw1] & Hc & Hr).
  eapply evolve_trans with nw1; [|by destruct ok; injection Hr as <-; apply evolve_same]. clear Hr.
  unfold connect_to_addr in Hc. apply bind_Ok in Hc as (a & _ & Hc).
  destruct connected; [|injection Hc as _ <-; by apply evolve_same].
  destruct (add_peer _ _ _) as [q nw2] eqn:Ep. apply add_peer_parts in Ep as (-> & _ & _ & E3 & E4 & _).
  apply bind_Ok in Hc as (nw3 & Hs%on_connection_steady & [= _ <-]).
  eapply evolve_trans; [|by apply steady_evolve]. nw_cbn.
  eapply (new_peer_evolve nw _ _ NTB_NETWORK_OUTGOING); [|reflexivity|done].
  unfold hs_view. nw_cbn. rewrite E3, update_id_head by (by apply ok_fresh_peers). done.
Qed.

Lemma accept_evolve mono i r nw nw' :
  book_ok (book_of nw) -> listen_socket_source_cb mono i r nw = Ok nw' -> evolve nw nw'.
Proof.
  intros Hok. unfold listen_socket_source_cb. destruct (lookup_id i _); [|done].
  destruct r; [|intros [= <-]; by apply evolve_same..].
  destruct (add_peer _ _ _) as [q nw1] eqn:Ep. apply add_peer_parts in Ep as (-> & _ & _ & E3 & E4 & _).
  intros [= <-]. eapply (new_peer_evolve nw _ _ NTB_NETWORK_INCOMING); [|reflexivity|done].
  unfold hs_view. nw_cbn. rewrite E3, update_id_head by (by apply ok_fresh_peers). done.
Qed.

Lemma load_store_steady wall blobs addrs bootstrap nw nw' :
  ntb_network_load_store wall blobs addrs bootstrap nw = Ok nw' -> steady nw nw'.
Proof.
  unfold ntb_network_load_store. intros Hl. apply bind_Ok in Hl as (nw1 & H1 & Hl).
  apply bind_Ok in Hl as (nw2 & H2 & Hl). apply bind_Ok in Hl as (nw3 & H3 & [= <-]).
  eapply steady_trans; [|eapply steady_trans; [|eapply steady_trans]].
  - eapply each_steady; [|exact H1]. intros [[type h] t] n1 n2. unfold store_for_each_blob_cb.
    destruct (ntb_hash_table_get _ _ _); [by intros [= <-]|].
    destruct (new_inventory _ _ _) as [i n3] eqn:E. apply new_inventory_steady in E. intros Hb. by bind_inv.
  - eapply each_steady; [|exact H2]. intros a n1 n2 Ha. unfold store_for_each_addr_cb in Ha. bind_inv.
    destruct x. bind_inv. by eapply add_addr_steady.
  - eapply each_steady; [|exact H3]. intros a n1 n2 [= <-]. unfold dns_bootstrap_cb.
    destruct (_ || _); [done|]. destruct (new_addr _ _ _ _ _) as [i n3] eqn:E. by apply new_addr_steady in E.
  - apply maybe_queue_connect_steady.
Qed.

Lemma gc_timeout_steady wall mono nw nw' : gc_timeout_cb wall mono nw = Ok nw' -> steady nw nw'.
Proof.
  unfold gc_timeout_cb. intros Hg. apply bind_Ok in Hg as ([peers iv] & Hp%gc_peers_hs & Hg).
  apply bind_Ok in Hg as ([[acc iv1] d1] & _ & Hg). apply bind_Ok in Hg as ([[rej iv2] d2] & _ & Hg).
  apply gc_addrs_steady in Hg. eapply steady_trans; [|exact Hg]. split; [|done]. exact Hp.
Qed.

Lemma nw_call_evolve nw nw' : book_ok (book_of nw) -> nw_call agent nw nw' -> evolve nw nw'.
Proof.
  intros Hok Hc. destruct Hc.
  - apply steady_evolve. by eapply on_connection_steady.
  - by eapply connect_queue_evolve.
  - by apply evolve_same.
  - apply steady_evolve. by eapply gc_timeout_steady.
  - unfold broadcast_delayed_inv_cb in *. destruct (lookup_id _ _); [|done]. bind_inv. apply steady_evolve.
    match goal with E : broadcast_inv _ _ = Ok _ |- _ => exact (broadcast_inv_steady _ _ _ E) end.
  - by eapply accept_evolve.
  - unfold ntb_network_add_listen_address in *. bind_inv.
    destruct x; [destruct opened|]; bind_inv; apply evolve_same; try done. nw_cbn. lia.
  - unfold ntb_network_add_peer_address in *. bind_inv. apply steady_evolve.
    destruct x as [[j|] nw1]; bind_inv; [|by eapply add_addr_string_steady].
    eapply steady_trans; [by eapply add_addr_string_steady|done].
  - apply steady_evolve. eapply steady_trans; [|apply maybe_queue_connect_steady]. done.
  - apply steady_evolve. by eapply add_object_steady.
  - apply steady_evolve. by eapply add_object_steady.
  - apply steady_evolve. by eapply load_store_steady.
Qed.

(** ** Events of a connection *)

Definition hs_label (i : nat) (e : ntb_connection_event) : list (nat * hs_event) :=
  match e with
  | NTB_CONNECTION_EVENT_VERSION _ => [(i, HsVersion)]
  | NTB_CONNECTION_EVENT_VERACK => [(i, HsVerack)]
  | _ => []
  end.

(** The commands of one peer in the history of all. *)
Definition hs_history (i : nat) (tr : list (nat * hs_event)) : list hs_event :=
  (List.filter (fun p => Nat.eqb (fst p) i) tr).*2.

(** The peer [i] makes a transition, the others evolve. *)
Definition hs_moves (i : nat) (e : hs_event) (nw nw' : ntb_network) : Prop :=
  i ∈ (nw_peers nw).*1 /\ (nw_next nw <= nw_next nw')%nat /\
  forall j v, lookup_id j (hs_view nw') = Some v ->
    if Nat.eqb j i then exists s, lookup_id j (hs_view nw) = Some (s, snd v) /\ fst v = hs_next s e
    else lookup_id j (hs_view nw) = Some v.

Lemma steady_moves i p e nw nw' :
  lookup_id i (nw_peers nw) = Some p -> hs_next (pe_state p) e = pe_state p ->
  steady nw nw' -> hs_moves i e nw nw'.
Proof.
  intros Hp Hn [E Hle]. split_and!; [by eapply lookup_id_key|done|]. rewrite E. intros j v Hv.
  destruct (Nat.eqb_spec j i) as [->|]; [|done]. unfold hs_view in Hv. rewrite lookup_map_id, Hp in Hv.
  injection Hv as <-. exists (pe_state p). cbn [fst snd hs_part]. unfold hs_view.
  rewrite lookup_map_id, Hp. by rewrite Hn.
Qed.

(** The state is written after some calls that leave all states alone, and before
    others. *)
Lemma set_state_moves i p s e nw nw1 nw' :
  lookup_id i (nw_peers nw) = Some p -> s = hs_next (pe_state p) e ->
  steady nw nw1 -> steady (update_peer i (pe_set_state s) nw1) nw' -> NoDup (nw_peers nw1).*1 ->
  hs_moves i e nw nw'.
Proof.
  intros Hp -> [E1 L1] [E2 L2] Hnd. nw_cbn. split_and!; [by eapply lookup_id_key|lia|]. rewrite E2.
  unfold hs_view in *. nw_cbn.
  rewrite (map_update_id hs_part i _ (fun v => (hs_next (pe_state p) e, snd v))), E1 by done.
  intros j v. rewrite lookup_update_id, lookup_map_id. destruct (Nat.eqb_spec j i) as [->|]; [|by rewrite option_fmap_id].
  rewrite Hp. cbn. intros [= <-]. by exists (pe_state p).
Qed.

(** A removed peer. *)
Lemma remove_moves i e nw nw' :
  i ∈ (nw_peers nw).*1 -> book_ok (book_of nw) -> remove_peer i nw = Ok nw' -> hs_moves i e nw nw'.
Proof.
  intros Hi Hok Hr. pose proof (remove_peer_evolve _ _ _ Hr) as [Hle He]. split_and!; [done|done|].
  assert (Hgone : lookup_id i (hs_view nw') = None).
  { unfold remove_peer in Hr. apply bind_Ok in Hr as (q & _ & Hr). apply bind_Ok in Hr as (iv & _ & Hr).
    apply bind_Ok in Hr as (nw1 & H1 & [= <-]). unfold hs_view. nw_cbn.
    match goal with |- context [maybe_queue_connect true ?m] =>
      pose proof (maybe_queue_connect_steady true m) as [E _]; unfold hs_view in E; rewrite E; clear E end.
    assert (E1 : nw_peers nw1 = nw_peers nw) by (destruct (pe_addr q); by bind_inv).
    destruct (pe_direction q); nw_cbn; rewrite remove_map_id, lookup_remove_id, Nat.eqb_refl; done. }
  assert (Hold : forall j v, lookup_id j (hs_view nw') = Some v -> lookup_id j (hs_view nw) = Some v).
  { intros j v Hv. destruct (He j v Hv) as [?|[Hn _]]; [done|]. exfalso.
    apply lookup_id_key in Hv. unfold hs_view in Hv. rewrite map_id_keys in Hv.
    pose proof (remove_peer_books _ _ _ Hr Hok) as Hb.
    assert (Hlt : (j < nw_next nw')%nat).
    { eapply (ok_peer_next (book_of nw')); [by eapply book_steps_ok|]. cbn [book_of bk_peers]. by rewrite map_id_keys. }
    assert (Hnx : nw_next nw' = nw_next nw).
    { unfold remove_peer in Hr. apply bind_Ok in Hr as (q & _ & Hr). apply bind_Ok in Hr as (iv & _ & Hr).
      apply bind_Ok in Hr as (nw1 & H1 & [= <-]). nw_cbn.
      match goal with |- context [maybe_queue_connect true ?m] =>
        pose proof (maybe_queue_connect_book true m) as E; injection E as _ _ _ _ -> end.
      destruct (pe_addr q); bind_inv; by destruct (pe_direction q). }
    lia. }
  intros j v Hv. destruct (Nat.eqb_spec j i) as [->|]; [congruence|by apply Hold].
Qed.

Lemma steady_keys nw nw' : steady nw nw' -> (nw_peers nw').*1 = (nw_peers nw).*1.
Proof. intros [E _]. rewrite <- (map_id_keys hs_part (nw_peers nw)), <- (map_id_keys hs_part (nw_peers nw')). by f_equal. Qed.

Lemma established_steady now i nw nw' :
  connection_established now i nw = Ok nw' ->
  steady (update_peer i (pe_set_state NTB_NETWORK_PEER_STATE_CONNECTED) nw) nw'.
Proof.
  unfold connection_established. intros Hc.
  apply bind_Ok in Hc as (nw1 & H1%on_connection_steady & H2%on_connection_steady).
  by eapply steady_trans.
Qed.

Lemma version_moves wall i e nw ok nw' :
  book_ok (book_of nw) -> handle_version agent wall i e nw = Ok (ok, nw') -> hs_moves i HsVersion nw nw'.
Proof.
  intros Hok Hv. unfold handle_version in Hv. apply bind_Ok in Hv as (p & Hp%the_peer_Ok & Hv).
  apply bind_Ok in Hv as (_ & _ & Hv).
  destruct (_ =? _); [bind_inv; eapply remove_moves; [by eapply lookup_id_key|done|done]|].
  destruct (negb _); [bind_inv; eapply remove_moves; [by eapply lookup_id_key|done|done]|].
  apply bind_Ok in Hv as (stream & _ & Hv). apply bind_Ok in Hv as ([oa nw1] & Ha%add_addr_steady & Hv).
  apply bind_Ok in Hv as (nw2 & Hl & Hv). apply bind_Ok in Hv as (nw3 & Hs%on_connection_steady & Hv).
  apply bind_Ok in Hv as (nw4 & Hst & [= _ <-]).
  assert (H3 : steady nw nw3).
  { eapply steady_trans; [exact Ha|]. eapply steady_trans; [|exact Hs].
    destruct oa as [a|]; [|by bind_inv]. apply bind_Ok in Hl as (addr & _ & Hl).
    destruct (_ && _); injection Hl as <-; [|done]. by apply (update_peer_steady i (pe_set_addr (Some a))). }
  assert (Hnd : forall nw5, steady nw nw5 -> NoDup (nw_peers nw5).*1).
  { intros nw5 Hs5. rewrite (steady_keys _ _ Hs5). by apply ok_nodup_peers. }
  destruct (pe_state p) eqn:Est; bind_inv.
  - by eapply steady_moves; [done|rewrite Est|].
  - eapply (set_state_moves i p _ HsVersion nw nw3); [done|by rewrite Est|done|by eapply established_steady|by apply Hnd].
  - match goal with E : send_version_to_peer _ _ _ _ = Ok _ |- _ => apply on_connection_steady in E end.
    assert (H4 : steady nw x) by (by eapply steady_trans).
    eapply (set_state_moves i p _ HsVersion nw x); [done|by rewrite Est|done|done|by apply Hnd].
  - by eapply steady_moves; [done|rewrite Est|].
  - by eapply steady_moves; [done|rewrite Est|].
Qed.

Lemma verack_moves wall i nw ok nw' :
  book_ok (book_of nw) -> handle_verack wall i nw = Ok (ok, nw') -> hs_moves i HsVerack nw nw'.
Proof.
  intros Hok Hv. unfold handle_verack in Hv. apply bind_Ok in Hv as (p & Hp%the_peer_Ok & Hv).
  pose proof (ok_nodup_peers _ Hok) as Hnd.
  destruct (pe_state p) eqn:Est; bind_inv.
  - eapply (set_state_moves i p _ HsVerack nw nw); [done|by rewrite Est|done|done|done].
  - by eapply steady_moves; [done|rewrite Est|].
  - by eapply steady_moves; [done|rewrite Est|].
  - eapply (set_state_moves i p _ HsVerack nw nw); [done|by rewrite Est|done|by eapply established_steady|done].
  - by eapply steady_moves; [done|rewrite Est|].
Qed.

(** What the other events do. *)
Lemma other_event_evolve wall mono i e nw ok nw' :
  hs_label i e = [] -> connection_event_cb agent wall mono i e nw = Ok (ok, nw') -> evolve nw nw'.
Proof.
  destruct e; cbn [connection_event_cb hs_label]; intros Hlab He; try discriminate Hlab.
  1, 2: bind_inv; by eapply remove_peer_evolve.
  all: apply steady_evolve.
  - unfold handle_inv in He. apply bind_Ok in He as (nw1 & H1%on_connection_steady & He).
    apply bind_Ok in He as (nw2 & H2%inv_loop_steady & He). apply bind_Ok in He as (nw3 & H3%on_connection_steady & [= _ <-]).
    eapply steady_trans; [exact H1|]. by eapply steady_trans.
  - unfold handle_addr in He. destruct (ntb_netaddress_is_allowed _); bind_inv; [|done].
    destruct x. bind_inv. by eapply add_addr_steady.
  - unfold handle_object in He. bind_inv. by eapply add_object_steady.
  - unfold handle_getdata in He. bind_inv. by eapply getdata_loop_steady.
Qed.

(** ** Runs with the history of handshake commands *)

Inductive nw_run (nonce : Z) : list (nat * hs_event) -> ntb_network -> Prop :=
| run_new nw : ntb_network_new nonce = Ok nw -> nw_run nonce [] nw
| run_event tr nw wall mono i e ok nw' :
    nw_run nonce tr nw -> connection_event_cb agent wall mono i e nw = Ok (ok, nw') ->
    nw_run nonce (tr ++ hs_label i e) nw'
| run_call tr nw nw' : nw_run nonce tr nw -> nw_call agent nw nw' -> nw_run nonce tr nw'.

Record run_ok (tr : list (nat * hs_event)) (nw : ntb_network) : Prop := {
  ro_book : book_ok (book_of nw);
  ro_state : forall i s d, lookup_id i (hs_view nw) = Some (s, d) -> s = hs_run d (hs_history i tr);
  ro_fresh : forall i, (nw_next nw <= i)%nat -> hs_history i tr = []
}.

Lemma history_app i tr tr' : hs_history i (tr ++ tr') = hs_history i tr ++ hs_history i tr'.
Proof. unfold hs_history. by rewrite List.filter_app, fmap_app. Qed.

Lemma evolve_run_ok tr nw nw' :
  run_ok tr nw -> book_ok (book_of nw') -> evolve nw nw' -> run_ok tr nw'.
Proof.
  intros [Hb Hs Hf] Hb' [Hle He]. split; [done| |].
  - intros i s d Hi. destruct (He i (s, d) Hi) as [Hv|[Hn Hv]]; [by apply Hs|].
    rewrite (Hf i Hn). exact Hv.
  - intros i Hi. apply Hf. lia.
Qed.

Lemma moves_run_ok tr i e nw nw' :
  run_ok tr nw -> book_ok (book_of nw') -> hs_moves i e nw nw' -> run_ok (tr ++ [(i, e)]) nw'.
Proof.
  intros [Hb Hs Hf] Hb' (Hin & Hle & Hm). split; [done| |].
  - intros j s d Hj. specialize (Hm j (s, d) Hj). rewrite history_app. unfold hs_history at 2.
    cbn [List.filter fst]. rewrite Nat.eqb_sym. destruct (Nat.eqb_spec j i) as [->|].
    + destruct Hm as (s0 & Hv & E). cbn [fst snd] in *. rewrite E, (Hs i s0 d Hv). unfold hs_run.
      by rewrite fold_left_app.
    + cbn. rewrite app_nil_r. by apply Hs.
  - intros j Hj. rewrite history_app, (Hf j) by lia. unfold hs_history. cbn [List.filter fst].
    destruct (Nat.eqb_spec i j) as [->|]; [|done]. exfalso.
    assert (Hin' : j ∈ (bk_peers (book_of nw)).*1) by (cbn [book_of bk_peers]; by rewrite map_id_keys).
    apply (ok_peer_next _ Hb) in Hin'. cbn in Hin'. lia.
Qed.

Lemma nw_run_ok nonce tr nw : nw_run nonce tr nw -> run_ok tr nw.
Proof.
  induction 1 as [nw Hn|tr nw wall mono i e ok nw' _ IH He|tr nw nw' _ IH Hc].
  - split.
    + eapply book_steps_ok; [|apply (empty_good nonce)]. by apply (network_new_books nonce nw Hn), (empty_good nonce).
    + assert (Hp : hs_view nw = []).
      { unfold ntb_network_new in Hn. apply bind_Ok in Hn as (nw1 & H1 & [= <-]).
        destruct (maybe_queue_connect_steady true nw1) as [-> _].
        apply each_steady in H1 as [-> _]; [done|]. intros a n1 n2 Ha. unfold add_default_addr in Ha.
        apply bind_Ok in Ha as ([o n3] & Hs%add_addr_string_steady & Ha). destruct o; [|done]. by injection Ha as <-. }
      rewrite Hp. done.
    + done.
  - assert (Hb' : book_ok (book_of nw')).
    { eapply book_steps_ok; [|apply IH]. eapply (connection_event_books _ _ _ _ _ _ _ _ He), IH. }
    destruct (hs_label i e) as [|? ?] eqn:El.
    + rewrite app_nil_r. eapply evolve_run_ok; [exact IH|done|]. by eapply other_event_evolve.
    + destruct e; try discriminate El; injection El as <- <-; (eapply moves_run_ok; [exact IH|done|]).
      * eapply version_moves; [apply IH|exact He].
      * eapply verack_moves; [apply IH|exact He].
  - eapply evolve_run_ok; [exact IH| |by eapply nw_call_evolve; [apply IH|]].
    eapply book_steps_ok; [|apply IH]. eapply nw_step_books; [by apply step_call|apply IH].
Qed.
End evolve.

(** C28: in every run of the network, whatever the other peers, the timers and the
    user do in between, a peer is connected, and so is sent addresses and objects,
    exactly when it has sent "verack" and later "version" on a connection this node
    made, or "version" and later "verack" on one it accepted. *)
Theorem network_handshake `{Digests} `{Inet} agent nonce tr nw i peer :
  nw_run agent nonce tr nw -> lookup_id i (nw_peers nw) = Some peer ->
  pe_state peer = hs_run (pe_direction peer) (hs_history i tr) /\
  (pe_state peer = NTB_NETWORK_PEER_STATE_CONNECTED <->
   hs_order (pe_direction peer) `sublist_of` hs_history i tr).
Proof.
  intros Hr Hp. pose proof (nw_run_ok _ _ _ _ Hr) as Hok.
  assert (Hs : pe_state peer = hs_run (pe_direction peer) (hs_history i tr)).
  { apply (ro_state _ _ Hok). unfold hs_view. by rewrite lookup_map_id, Hp. }
  split; [done|]. rewrite Hs. apply hs_run_order.
Qed.

#[local] Existing Instances Digests_toy DigestLaws_toy Inet_toy InetLaws_toy.

Definition example_version : ntb_connection_event :=
  NTB_CONNECTION_EVENT_VERSION
    (VersionEvent NTB_PROTO_VERSION 1 0 example_address example_address 99 (VarStr 0 []) (VarIntList 0 [])).
Definition example_greeted : ntb_network :=
  snd (ok_or (false, example_nw) (connection_event_cb [] 0 0 11 example_version (example_accepted 1))).
Definition example_connected : ntb_network :=
  snd (ok_or (false, example_nw) (connection_event_cb [] 0 0 11 NTB_CONNECTION_EVENT_VERACK example_greeted)).

Lemma example_run : nw_run [] 7 [(11%nat, HsVersion); (11%nat, HsVerack)] example_connected.
Proof.
  apply (run_event [] 7 [(11%nat, HsVersion)] example_greeted 0 0 11 NTB_CONNECTION_EVENT_VERACK true);
    [|vm_compute; reflexivity].
  apply (run_event [] 7 [] (example_accepted 1) 0 0 11 example_version true); [|vm_compute; reflexivity].
  eapply run_call; [eapply run_call; [apply run_new, example_new|]|].
  - apply (step_listen [] example_listen_text true true). vm_compute. reflexivity.
  - eapply (step_accept [] 0 10 _ true (AcceptOk example_address)); vm_compute; reflexivity.
Qed.

Lemma network_handshake_witness :
  exists peer, lookup_id 11 (nw_peers example_connected) = Some peer /\
    pe_state peer = hs_run (pe_direction peer) (hs_history 11 [(11%nat, HsVersion); (11%nat, HsVerack)]) /\
    (pe_state peer = NTB_NETWORK_PEER_STATE_CONNECTED <->
     hs_order (pe_direction peer) `sublist_of` hs_history 11 [(11%nat, HsVersion); (11%nat, HsVerack)]).
Proof.
  destruct (lookup_id 11 (nw_peers example_connected)) as [peer|] eqn:E; [|vm_compute in E; discriminate E].
  exists peer. split; [reflexivity|].
  apply (network_handshake [] 7 [(11%nat, HsVersion); (11%nat, HsVerack)] example_connected 11 peer).
  - exact example_run.
  - exact E.
Defined.
