(* ===== verification/NetworkObjects.v ===== *)
(** * NetworkObjects: what the network does with objects and announcements

    An object that arrives is known, rejected or accepted; an accepted one is saved,
    announced to every peer whose handshake is complete and passed on. Announced
    hashes that are not known yet are requested from the peer that announced them. *)

From S2P Require Import Prelude Ident Endian Buffer NetAddress OpenSSL Proto ProtoSpec NetText Pow HashTable Connection ConnectionSpec Network AddressBook NetworkSpec InventorySpec NetworkInv Handshake.

(** ** List commands of the network *)

(** The connection after complete commands [frames] were appended to its output. *)
Definition sent (frames : list Z) (c c' : ntb_connection) : Prop :=
  is_Some (conn_socket_source c') /\ buf_wf (conn_out_buf c') /\
  cells (conn_out_buf c') = cells (conn_out_buf c) ++ (Some <$> frames).

Lemma sent_room frames c c' n : sent frames c c' -> room c (n + zlen frames) -> room c' n.
Proof.
  intros (Hs & Hw & Hc) (_ & Hwc & Hl). split_and!; try done.
  rewrite <- (zlen_cells _ Hw), Hc, zlen_app, zlen_fmap, (zlen_cells _ Hwc). lia.
Qed.

(** Some frames of at most 252 items that carry [items] in this order. *)
Definition list_frames `{Digests} (command : list Z) (items : list (list Z)) (frames : list Z) : Prop :=
  exists groups, concat groups = items /\ Forall (fun g => 1 <= zlen g <= 252) groups /\
    frames = concat (list_frame command <$> groups).

Section frames.
Context `{DigestLaws}.

Lemma list_frames_one command i frames :
  list_frames command [i] frames -> frames = list_frame command [i].
Proof.
  intros (groups & Hg & Hf & ->). destruct groups as [|g groups]; [done|].
  apply Forall_cons in Hf as [Hg1 Hf]. destruct g as [|j g]; [rewrite zlen_nil in Hg1; lia|].
  cbn [concat app] in Hg. injection Hg as -> Hg. apply app_eq_nil in Hg as [-> Hg].
  destruct groups as [|g groups]; [cbn; by rewrite app_nil_r|].
  apply Forall_cons in Hf as [Hg2 _]. cbn [concat] in Hg. apply app_eq_nil in Hg as [-> _].
  rewrite zlen_nil in Hg2. lia.
Qed.

Lemma list_frames_bound command item_size items frames :
  zlen command <= 11 -> 1 <= item_size <= 64 -> Forall (fun i => zlen i = item_size) items ->
  list_frames command items frames -> zlen frames <= zlen items * 89.
Proof.
  intros Hc Hi Hl (groups & <- & Hf & ->). induction Hf as [|g groups Hg Hf IH]; [done|].
  cbn [concat] in *. apply Forall_app in Hl as [Hlg Hl]. rewrite fmap_cons. cbn [concat].
  rewrite !zlen_app, (zlen_list_frame command item_size) by (done || lia).
  specialize (IH Hl). nia.
Qed.

(** A list of hashes, all in one go. *)
Lemma hash_list_sent command hashes c :
  zlen command <= 11 ->
  Forall (fun h => zlen h = NTB_PROTO_HASH_LENGTH) hashes -> room c ((zlen hashes + 2) * 192) ->
  exists c' frames,
    (c ← begin_hash_command command c; c ← add_all (add_hash_for_command command) hashes c;
     end_hash_command c) = Ok c' /\ sent frames c c' /\ list_frames command hashes frames.
Proof.
  intros Hn Hh Hr. unfold NTB_PROTO_HASH_LENGTH in Hh.
  destruct (list_command_spec command NTB_PROTO_HASH_LENGTH Hn
    ltac:(unfold NTB_PROTO_HASH_LENGTH; lia) (add_hash_for_command command)
    (fun h b => ntb_buffer_append b h) (fun h => h) ltac:(reflexivity) (fun h => zlen h = 32)
    ltac:(intros a b Ha Hb; apply appends_append; by rewrite Ha; destruct Hb; split; [|lia])
    ltac:(done) hashes c Hh Hr)
    as (c' & E & Hs & Hw & groups & Hg & Hgl & Hc).
  rewrite list_fmap_id in Hg. exists c', (concat (list_frame command <$> groups)).
  split_and!; try done. by exists groups.
Qed.
End frames.

(** ** Calls with the connections of all peers *)

(** What a call with the connections of all peers in state [st] means for one
    peer; the requests of the peer are not looked at. *)
Definition told (st : ntb_network_peer_state) (P : ntb_connection -> ntb_connection -> Prop)
    (p p' : ntb_network_peer) : Prop :=
  pe_state p' = pe_state p /\ peer_part p' = peer_part p /\
  if decide (pe_state p = st) then P (pe_connection p) (pe_connection p')
  else pe_connection p' = pe_connection p.

Definition all_told st P : list (nat * ntb_network_peer) -> list (nat * ntb_network_peer) -> Prop :=
  Forall2 (fun x y => fst y = fst x /\ told st P (snd x) (snd y)).

(** Every peer in a state satisfies [P]. *)
Definition peers_in (st : ntb_network_peer_state) (P : ntb_network_peer -> Prop) (nw : ntb_network) : Prop :=
  forall i p, (i, p) ∈ nw_peers nw -> pe_state p = st -> P p.

Lemma connections_loop_total f st P l :
  (forall i p, (i, p) ∈ l -> pe_state p = st -> exists c', f (pe_connection p) = Ok c' /\ P (pe_connection p) c') ->
  exists l', connections_loop f st l = Ok l' /\ all_told st P l l'.
Proof.
  induction l as [|[i p] l IH]; intros Hf; [by exists []; split; [|constructor]|].
  destruct IH as (l' & E & Hl). { intros j p' Hin. apply (Hf j p'). by right. }
  cbn [connections_loop]. case_bool_decide as Hst.
  - destruct (Hf i p ltac:(left) Hst) as (c' & Ec & HP). rewrite Ec, !bind_ret_l, E, bind_ret_l.
    eexists. split; [reflexivity|]. constructor; [|done]. split; [done|]. split; [done|]. split; [done|]. cbn [snd]. by rewrite decide_True.
  - rewrite bind_ret_l, E, bind_ret_l. eexists. split; [reflexivity|]. constructor; [|done].
    split; [done|]. split; [done|]. split; [done|]. cbn [snd]. by rewrite decide_False.
Qed.

Lemma all_told_keys st P l l' : all_told st P l l' -> l'.*1 = l.*1.
Proof. induction 1 as [|x y l l' [E _] _ IH]; [done|]. rewrite !fmap_cons. by f_equal. Qed.

Section announce.
Context `{DigestLaws}.

Lemma broadcast_inv_total h nw :
  zlen h = NTB_PROTO_HASH_LENGTH ->
  peers_in NTB_NETWORK_PEER_STATE_CONNECTED (fun p => room (pe_connection p) 576) nw ->
  exists peers, broadcast_inv h nw = Ok (nw_set_peers peers nw) /\
    all_told NTB_NETWORK_PEER_STATE_CONNECTED (sent (list_frame (str_bytes "inv") [h])) (nw_peers nw) peers.
Proof.
  intros Hh Hp. unfold broadcast_inv.
  destruct (connections_loop_total
    (fun c => c ← ntb_connection_begin_inv c; c ← ntb_connection_add_inv_hash h c; ntb_connection_end_inv c)
    NTB_NETWORK_PEER_STATE_CONNECTED (sent (list_frame (str_bytes "inv") [h])) (nw_peers nw))
    as (l' & -> & Hl); [|by exists l'].
  intros i p Hin Hst. specialize (Hp i p Hin Hst).
  destruct (hash_list_sent (str_bytes "inv") [h] (pe_connection p)) as (c' & frames & E & Hs & Hf);
    [vm_compute; congruence|by repeat constructor|exact Hp|].
  exists c'. rewrite (list_frames_one _ _ _ Hf) in Hs. split; [|done]. rewrite <- E.
  unfold ntb_connection_begin_inv, ntb_connection_end_inv. destruct (begin_hash_command _ _) as [c| | |]; [|done..].
  rewrite !bind_ret_l. cbn [add_all]. unfold ntb_connection_add_inv_hash.
  by destruct (add_hash_for_command _ _ _) as [c1| | |].
Qed.

(** ** The header of an object *)

(** Nonce and timestamp; no byte behind the object is read. *)
Lemma object_header_cases p len :
  bytes p -> 0 <= len <= zlen p -> len < 2 ^ 32 ->
  parse (ntb_proto_get_command object_header p len) = Ok None \/
  exists nonce t n, parse (ntb_proto_get_command object_header p len) = Ok (Some ((nonce, (t, tt)), n)) /\
    0 <= t < 2 ^ 32 /\ 12 <= len.
Proof.
  intros Hb Hl Hr. unfold ntb_proto_get_command, object_header. cbn [get_arguments get_argument].
  unfold get_fixed, ntb_proto_get_timestamp, advance. cbn [fst snd].
  destruct (Z.ltb_spec len 8); [by left|]. destruct (get_64_range p) as (nonce & -> & _); [lia|done|].
  rewrite !bind_ret_l. cbn [fst snd]. rewrite u32_small by lia.
  destruct (Z.ltb_spec (len - 8) 4); [by left|].
  change (Z.to_nat 8) with 8%nat. assert (Hb8 : bytes (drop 8 p)) by by apply bytes_drop.
  assert (Hz8 : zlen (drop 8 p) = zlen p - 8) by (rewrite zlen_drop; lia).
  destruct (get_32_range (drop 8 p)) as (v & -> & Hv); [lia|done|]. rewrite bind_ret_l.
  rewrite u32_small by lia. change (Z.to_nat 4) with 4%nat. destruct (v =? 0).
  - destruct (Z.ltb_spec (len - 8 - 4) 4); [by left|].
    destruct (get_32_range (drop 4 (drop 8 p))) as (w & -> & Hw); [zlia|by apply bytes_drop|].
    rewrite !bind_ret_l. right. do 3 eexists. split; [reflexivity|]. split; [done|lia].
  - rewrite !bind_ret_l. right. do 3 eexists. split; [reflexivity|]. split; [done|lia].
Qed.
End announce.

(** ** Objects that are known *)

(** What the table knows about an object. *)
Definition lookup_object (h : list Z) (nw : ntb_network) : option ntb_network_inv_state :=
  match ntb_hash_table_get inv_hash (iv_hash (nw_inventory nw)) h with
  | Some q => in_state <$> iv_objects (nw_inventory nw) !! inv_id q
  | None => None
  end.

Lemma lookup_object_iff loose h st nw :
  net_inv loose nw ->
  lookup_object h nw = Some st <-> exists i, iv_objects (nw_inventory nw) !! i = Some (NwInv h st).
Proof.
  intros [Hok _]. unfold lookup_object. destruct (ntb_hash_table_get _ _ _) as [q|] eqn:Hg.
  - destruct (get_Some _ _ _ _ _ Hok Hg) as (st' & Hst & _). rewrite Hst. cbn [fmap option_fmap option_map in_state].
    split; [intros [= ->]; by eexists|]. intros [i Hi]. f_equal.
    assert (E : InvPtr i h = q).
    { rewrite get_spec in Hg by apply Hok.
      assert (Hm : ht_map inv_hash (iv_hash (nw_inventory nw)) !! h = Some (InvPtr i h))
        by (apply (io_table _ _ _ Hok); eauto). congruence. }
    subst q. cbn in Hst. congruence.
  - split; [done|]. intros [i Hi]. by apply (get_None _ _ _ _ Hok Hg) in Hi.
Qed.

(** An entry is looked up like any other once it is in the map of entries. *)
Lemma lookup_object_insert loose i h st nw nw' loose' :
  net_inv loose nw -> net_inv loose' nw' ->
  (forall st', iv_objects (nw_inventory nw) !! i = Some st' -> in_hash st' = h) ->
  iv_objects (nw_inventory nw') = <[i := NwInv h st]> (iv_objects (nw_inventory nw)) ->
  lookup_object h nw' = Some st /\ forall h', h' <> h -> lookup_object h' nw' = lookup_object h' nw.
Proof.
  intros Hi Hi' Hh E. split.
  - apply (lookup_object_iff _ _ _ _ Hi'). exists i. by rewrite E, lookup_insert_eq.
  - intros h' Hne. apply option_eq. intros st'.
    rewrite (lookup_object_iff _ _ _ _ Hi), (lookup_object_iff _ _ _ _ Hi'), E.
    split; intros [j Hj]; exists j; destruct (decide (j = i)) as [->|Hji].
    + rewrite lookup_insert_eq in Hj. congruence.
    + by rewrite lookup_insert_ne in Hj.
    + apply Hh in Hj. by cbn in Hj.
    + by rewrite lookup_insert_ne.
Qed.

(** Everything but the inventory and the requests is as it was. *)
Definition aside (nw nw' : ntb_network) : Prop :=
  nw_effects nw' = nw_effects nw /\ nw_delayed_broadcasts nw' = nw_delayed_broadcasts nw /\
  Forall2 (fun x y => fst y = fst x /\ pe_state (snd y) = pe_state (snd x) /\
                      peer_part (snd y) = peer_part (snd x) /\
                      pe_connection (snd y) = pe_connection (snd x)) (nw_peers nw) (nw_peers nw').

Lemma aside_refl nw : aside nw nw.
Proof. split_and!; try done. by apply Forall_Forall2_diag, Forall_true. Qed.

Lemma unlink_aside i nw : aside nw (unlink_request i nw).
Proof.
  split_and!; try done. unfold unlink_request. nw_cbn. induction (nw_peers nw) as [|[j p] l IH]; [constructor|].
  rewrite map_id_cons. by constructor.
Qed.

Lemma all_told_aside st P nw nw' l :
  aside nw nw' -> all_told st P (nw_peers nw') l -> all_told st P (nw_peers nw) l.
Proof.
  intros (_ & _ & Ha). revert l. induction Ha as [|x y l1 l2 (E1 & E2 & E3 & E4) _ IH]; intros l Hl;
    [by inversion Hl; subst; constructor|].
  inversion Hl as [|? z ? l3 (E5 & E6 & E7 & E8) Hl2]; subst. constructor; [|by apply IH].
  split; [congruence|]. split; [congruence|]. split; [congruence|]. by rewrite <- E2, <- E4.
Qed.

Lemma aside_in st P nw nw' :
  aside nw nw' -> peers_in st (fun p => P (pe_connection p)) nw -> peers_in st (fun p => P (pe_connection p)) nw'.
Proof.
  intros (_ & _ & Ha) Hp i p Hin Hst. apply list_elem_of_lookup in Hin as [k Hk].
  destruct (Forall2_lookup_r _ _ _ _ _ Ha Hk) as ([j p'] & Hk' & E1 & E2 & E3 & E4). cbn in *.
  rewrite E4. apply (Hp j p'); [by eapply list_elem_of_lookup_2|congruence].
Qed.

(** Getting hold of the entry of an object that was not received before. *)
Lemma claim_total h nw :
  good nw -> Z.of_nat (nw_next nw) < 2 ^ 60 ->
  match lookup_object h nw with
  | Some (NTB_NETWORK_INV_STATE_REJECTED _) | Some (NTB_NETWORK_INV_STATE_ACCEPTED _ _ _) =>
      claim_inventory h nw = Ok (None, nw)
  | Some (NTB_NETWORK_INV_STATE_STUB _) | None =>
      exists i nw1 st0, claim_inventory h nw = Ok (Some i, nw1) /\ net_inv [i] nw1 /\ aside nw nw1 /\
        iv_n_rejected (nw_inventory nw1) = iv_n_rejected (nw_inventory nw) /\
        (nw_next nw1 <= S (nw_next nw))%nat /\
        iv_objects (nw_inventory nw1) = <[i := NwInv h st0]> (iv_objects (nw_inventory nw)) /\
        (forall st', iv_objects (nw_inventory nw) !! i = Some st' -> in_hash st' = h)
  end.
Proof.
  intros Hg Hb. assert (Hclaim : forall o nw1, claim_inventory h nw = Ok (o, nw1) -> small nw1 ->
    match o with
    | Some i => net_inv [i] nw1 /\ exists st, iv_objects (nw_inventory nw1) !! i = Some (NwInv h st)
    | None => nw1 = nw end) by (intros o nw1 Hc Hs; by eapply claim_inv).
  unfold lookup_object. unfold claim_inventory in *.
  destruct (ntb_hash_table_get _ _ _) as [q|] eqn:Hq.
  - destruct (get_Some _ _ _ _ _ (proj1 (proj2 Hg)) Hq) as (st & Hst & _).
    unfold the_inv in *. rewrite Hst in *. cbn [fmap option_fmap option_map in_state] in *.
    rewrite !bind_ret_l in *. cbn [in_state] in *. destruct st as [t|t|ty t b]; [|done..].
    eexists _, _, (NTB_NETWORK_INV_STATE_STUB t). split; [reflexivity|].
    destruct (Hclaim _ _ eq_refl) as [Hi _]; [by unfold small, unlink_request; nw_cbn; lia|].
    split_and!; [done|apply unlink_aside|done| | |].
    + unfold unlink_request. nw_cbn. lia.
    + unfold unlink_request. nw_cbn. by rewrite insert_id.
    + intros st' E. rewrite Hst in E. by injection E as <-.
  - destruct (new_inventory _ _ nw) as [i nw1] eqn:E.
    pose proof (new_inventory_parts _ _ _ _ _ E) as (Ei & Ep & En & Eo).
    eexists i, nw1, _. split; [reflexivity|].
    destruct (Hclaim _ _ eq_refl) as [Hi _]; [unfold small; lia|].
    split_and!; [done| | |lia|exact Eo|].
    + unfold new_inventory in E. destruct (ntb_hash_table_set _ _ _) as [o tb]. injection E as <- <-. exact (aside_refl nw).
    + unfold new_inventory in E. destruct (ntb_hash_table_set _ _ _) as [o tb]. by injection E as <- <-.
    + subst i. intros st' E'. apply (io_next _ _ _ (proj1 (proj2 Hg))) in E'. lia.
Qed.

(** ** What is accepted *)

Section objects.
Context `{DigestLaws}.

(** The number the proof of work is about. *)
Definition object_value (data : list Z) : Z :=
  be_combine (take 8 (SHA512 (SHA512 (take 8 data ++ SHA512 (drop 8 data))))).

Definition worthy (wall : Z) (type : ntb_proto_inv_type) (data : list Z) (timestamp : Z) : bool :=
  let age := age_at wall timestamp in
  (- NTB_NETWORK_INV_FUTURE_AGE <? age) && (age <? ntb_proto_get_max_age_for_type type) &&
  (object_value data <=?
   2 ^ 64 / ((zlen data + NTB_PROTO_MIN_EXTRA_BYTES) * NTB_PROTO_MIN_NONCE_TRIALS_PER_BYTE)).

Lemma should_reject_worthy wall type data q t :
  8 <= zlen data < 2 ^ 31 ->
  should_reject type (data ++ q) (zlen data) (age_at wall t) = Ok (negb (worthy wall type data t)).
Proof.
  intros Hl. unfold should_reject, worthy.
  destruct (Z.leb_spec (age_at wall t) (- NTB_NETWORK_INV_FUTURE_AGE)), (Z.ltb_spec (- NTB_NETWORK_INV_FUTURE_AGE) (age_at wall t));
    try lia; [done|].
  destruct (Z.leb_spec (ntb_proto_get_max_age_for_type type) (age_at wall t)),
    (Z.ltb_spec (age_at wall t) (ntb_proto_get_max_age_for_type type)); try lia; [done|].
  rewrite pow_check_run by zlia. unfold NTB_PROTO_MIN_EXTRA_BYTES, NTB_PROTO_MIN_NONCE_TRIALS_PER_BYTE.
  rewrite calculate_target_spec, !bind_ret_l by lia. cbn [andb]. do 3 f_equal. unfold object_value. do 5 f_equal.
  - apply take_app_le. unfold zlen in Hl. lia.
  - f_equal. rewrite drop_app_le by (unfold zlen in Hl; lia). rewrite take_app_le.
    + apply firstn_all2. rewrite length_drop. unfold zlen. lia.
    + rewrite length_drop. unfold zlen. lia.
Qed.

Lemma double_hash_length data : zlen (ntb_proto_double_hash data) = NTB_PROTO_HASH_LENGTH.
Proof.
  unfold ntb_proto_double_hash. unfold zlen. rewrite length_take, SHA512_length. done.
Qed.

(** Rejecting keeps the entry but announces nothing. *)
Lemma reject_total i h st t nw :
  net_inv [i] nw -> iv_objects (nw_inventory nw) !! i = Some (NwInv h st) ->
  iv_n_rejected (nw_inventory nw) + 1 < NTB_NETWORK_MAX_REJECTED_INVENTORIES ->
  exists iv, reject_inventory i t (nw_inventory nw) = Ok iv /\ net_inv [] (nw_set_inventory iv nw) /\
    iv_objects iv = <[i := NwInv h (NTB_NETWORK_INV_STATE_REJECTED t)]> (iv_objects (nw_inventory nw)).
Proof.
  intros Hi Ho Hn.
  assert (E : exists iv, reject_inventory i t (nw_inventory nw) = Ok iv /\
    iv_n_rejected iv = iv_n_rejected (nw_inventory nw) + 1 /\
    iv_objects iv = <[i := NwInv h (NTB_NETWORK_INV_STATE_REJECTED t)]> (iv_objects (nw_inventory nw))).
  { unfold reject_inventory, set_rejected, the_inv. rewrite Ho, !bind_ret_l. cbn [iv_n_rejected in_hash].
    destruct (Z.leb_spec NTB_NETWORK_MAX_REJECTED_INVENTORIES (iv_n_rejected (nw_inventory nw))); [lia|].
    by eexists. }
  destruct E as (iv & E & En & Eo). exists iv. split_and!; [done| |done].
  eapply reject_inv; [done|done|exact E|lia].
Qed.

Lemma accept_total i h st type t blob nw :
  net_inv [i] nw -> iv_objects (nw_inventory nw) !! i = Some (NwInv h st) ->
  exists iv, accept_inventory i type t blob (nw_inventory nw) = Ok iv /\ net_inv [] (nw_set_inventory iv nw) /\
    iv_objects iv = <[i := NwInv h (NTB_NETWORK_INV_STATE_ACCEPTED type t blob)]> (iv_objects (nw_inventory nw)).
Proof.
  intros Hi Ho.
  assert (E : exists iv, accept_inventory i type t blob (nw_inventory nw) = Ok iv /\
    iv_objects iv = <[i := NwInv h (NTB_NETWORK_INV_STATE_ACCEPTED type t blob)]> (iv_objects (nw_inventory nw))).
  { unfold accept_inventory, the_inv. rewrite Ho, bind_ret_l. by eexists. }
  destruct E as (iv & E & Eo). exists iv. split_and!; [done| |done]. by eapply accept_inv.
Qed.

(** The rest of the call once the entry is in hand: [announce] is the broadcast. *)
Definition settle (announce : ntb_network -> result unit ntb_network) (hash : list Z)
    (i : nat) (type : ntb_proto_inv_type) (t : Z) (old : bool) (blob : ntb_blob) (nw : ntb_network) :
    result unit ntb_network :=
  let nw := nw_emit (StoreSaveBlob hash blob) nw in
  iv ← accept_inventory i type t (Some blob) (nw_inventory nw);
  nw ← announce (nw_set_inventory iv nw);
  let nw := nw_emit (NewObject blob) nw in
  if old then iv ← drop_blob i (nw_inventory nw); Ok (nw_set_inventory iv nw) else Ok nw.

Lemma settle_total announce h i st0 type t old blob nw :
  net_inv [i] nw -> iv_objects (nw_inventory nw) !! i = Some (NwInv h st0) ->
  (forall iv, let nw1 := nw_set_inventory iv (nw_emit (StoreSaveBlob h blob) nw) in
    exists nw2, announce nw1 = Ok nw2 /\ quiet nw1 nw2 /\ nw_effects nw2 = nw_effects nw1) ->
  exists nw', settle announce h i type t old blob nw = Ok nw' /\ net_inv [] nw' /\
    (exists iv nw2, announce (nw_set_inventory iv (nw_emit (StoreSaveBlob h blob) nw)) = Ok nw2 /\
       nw_peers nw' = nw_peers nw2 /\ nw_delayed_broadcasts nw' = nw_delayed_broadcasts nw2) /\
    nw_effects nw' = nw_effects nw ++ [StoreSaveBlob h blob; NewObject blob] /\
    iv_objects (nw_inventory nw') =
      <[i := NwInv h (NTB_NETWORK_INV_STATE_ACCEPTED type t (if old then None else Some blob))]>
        (iv_objects (nw_inventory nw)).
Proof.
  intros Hi Ho Ha. unfold settle.
  destruct (accept_total i h st0 type t (Some blob) (nw_emit (StoreSaveBlob h blob) nw)) as (iv & -> & Hiv & Eo);
    [exact Hi|exact Ho|]. rewrite bind_ret_l.
  destruct (Ha iv) as (nw2 & E2 & Hq & Ee). rewrite E2, bind_ret_l.
  pose proof (quiet_inv [] _ _ Hq Hiv) as Hi2. destruct Hq as (Ei & _ & _). nw_cbn.
  assert (Eff : nw_effects nw2 ++ [NewObject blob] = nw_effects nw ++ [StoreSaveBlob h blob; NewObject blob])
    by (rewrite Ee, <- app_assoc; done).
  destruct old.
  - assert (Hd : exists iv', drop_blob i (nw_inventory nw2) = Ok iv' /\
      iv_objects iv' = <[i := NwInv h (NTB_NETWORK_INV_STATE_ACCEPTED type t None)]> (iv_objects (nw_inventory nw))).
    { unfold drop_blob, the_inv. rewrite Ei, Eo, lookup_insert_eq, bind_ret_l. cbn [in_state in_hash].
      eexists. split; [reflexivity|]. cbn [iv_objects]. by rewrite insert_insert_eq. }
    destruct Hd as (iv' & Hd & Ed). rewrite Hd, bind_ret_l. eexists. split; [reflexivity|].
    split_and!; [by apply (drop_blob_inv i (nw_emit (NewObject blob) nw2))|by exists iv, nw2|exact Eff|exact Ed].
  - eexists. split; [reflexivity|]. split_and!; [exact Hi2|by exists iv, nw2|exact Eff|by rewrite <- Eo, <- Ei].
Qed.

Lemma announce_total (delay : bool) h nw :
  zlen h = NTB_PROTO_HASH_LENGTH ->
  peers_in NTB_NETWORK_PEER_STATE_CONNECTED (fun p => room (pe_connection p) 576) nw ->
  exists nw', (if delay then Ok (broadcast_delayed_inv h nw) else broadcast_inv h nw) = Ok nw' /\
    quiet nw nw' /\ nw_effects nw' = nw_effects nw /\
    if delay then nw_peers nw' = nw_peers nw /\ (nw_delayed_broadcasts nw').*2 = h :: (nw_delayed_broadcasts nw).*2
    else all_told NTB_NETWORK_PEER_STATE_CONNECTED (sent (list_frame (str_bytes "inv") [h])) (nw_peers nw) (nw_peers nw') /\
         nw_delayed_broadcasts nw' = nw_delayed_broadcasts nw.
Proof.
  intros Hh Hp. destruct delay.
  - eexists. split; [reflexivity|]. split_and!; try done. split_and!; try done. cbn. lia.
  - destruct (broadcast_inv_total h nw Hh Hp) as (peers & E & Hl). rewrite E. eexists. split; [reflexivity|].
    split; [by eapply broadcast_inv_quiet|]. done.
Qed.
End objects.

(** What becomes of the object with bytes [data] and timestamp [t] that arrives at
    [nw]: a state [nw'] as the specification demands it. *)
Definition object_handled `{Digests} (wall : Z) (type : ntb_proto_inv_type) (data : list Z) (t : Z)
    (skip_validation delay : bool) (nw nw' : ntb_network) : Prop :=
  let hash := ntb_proto_double_hash data in
  let blob := Blob type data in
  match lookup_object hash nw with
  | Some (NTB_NETWORK_INV_STATE_REJECTED _) | Some (NTB_NETWORK_INV_STATE_ACCEPTED _ _ _) => nw' = nw
  | Some (NTB_NETWORK_INV_STATE_STUB _) | None =>
      (forall h, h <> hash -> lookup_object h nw' = lookup_object h nw) /\
      if skip_validation || worthy wall type data t then
        lookup_object hash nw' = Some (NTB_NETWORK_INV_STATE_ACCEPTED type t
          (if NTB_NETWORK_INV_CACHE_AGE <=? age_at wall t then None else Some blob)) /\
        nw_effects nw' = nw_effects nw ++ [StoreSaveBlob hash blob; NewObject blob] /\
        all_told NTB_NETWORK_PEER_STATE_CONNECTED
          (sent (if delay then [] else list_frame (str_bytes "inv") [hash])) (nw_peers nw) (nw_peers nw') /\
        (nw_delayed_broadcasts nw').*2 =
          (if delay then [hash] else []) ++ (nw_delayed_broadcasts nw).*2
      else
        lookup_object hash nw' = Some (NTB_NETWORK_INV_STATE_REJECTED t) /\ aside nw nw'
  end.

Lemma sent_nothing c n : room c n -> sent [] c c.
Proof. intros (? & ? & _). split_and!; try done. by rewrite app_nil_r. Qed.

Lemma all_told_same st nw nw' P :
  aside nw nw' -> peers_in st (fun p => P (pe_connection p) (pe_connection p)) nw ->
  all_told st P (nw_peers nw) (nw_peers nw').
Proof.
  intros (_ & _ & Ha) Hp. unfold peers_in in Hp.
  induction Ha as [|x y l l' (E1 & E2 & E3 & E4) _ IH]; [constructor|].
  constructor; [|apply IH; intros i p Hin; apply (Hp i); by right].
  split; [done|]. split; [done|]. split; [done|]. rewrite E4. destruct (decide _); [|done].
  apply (Hp (fst x)); [|done]. destruct x; left.
Qed.

Section total.
Context `{DigestLaws}.

(** The two ways to go on with the entry [i] of the object in the state [nw1]. *)
Definition claimed (nw : ntb_network) (i : nat) (hash : list Z) (nw1 : ntb_network) : Prop :=
  net_inv [i] nw1 /\ aside nw nw1 /\
  iv_n_rejected (nw_inventory nw1) = iv_n_rejected (nw_inventory nw) /\
  (exists st0, iv_objects (nw_inventory nw1) = <[i := NwInv hash st0]> (iv_objects (nw_inventory nw))) /\
  (forall st', iv_objects (nw_inventory nw) !! i = Some st' -> in_hash st' = hash).

Lemma reject_object i hash t nw nw1 :
  good nw -> claimed nw i hash nw1 ->
  iv_n_rejected (nw_inventory nw) + 1 < NTB_NETWORK_MAX_REJECTED_INVENTORIES ->
  exists iv, reject_inventory i t (nw_inventory nw1) = Ok iv /\ net_inv [] (nw_set_inventory iv nw1) /\
    (forall h, h <> hash -> lookup_object h (nw_set_inventory iv nw1) = lookup_object h nw) /\
    lookup_object hash (nw_set_inventory iv nw1) = Some (NTB_NETWORK_INV_STATE_REJECTED t) /\
    aside nw (nw_set_inventory iv nw1).
Proof.
  intros Hg (Hi & Has & Enr & (st0 & Eo) & Hh) Hr.
  destruct (reject_total i hash st0 t nw1 Hi) as (iv & E & Hiv & Eio); [by rewrite Eo, lookup_insert_eq|lia|].
  rewrite Eo, insert_insert_eq in Eio. exists iv.
  by destruct (lookup_object_insert [] i hash _ nw (nw_set_inventory iv nw1) [] (proj2 Hg) Hiv Hh Eio) as [Hlk Hot].
Qed.

Lemma accept_object (delay : bool) i hash type t old blob nw nw1 :
  good nw -> claimed nw i hash nw1 -> zlen hash = NTB_PROTO_HASH_LENGTH ->
  peers_in NTB_NETWORK_PEER_STATE_CONNECTED (fun p => room (pe_connection p) 576) nw ->
  exists nw', settle (fun nw => if delay then Ok (broadcast_delayed_inv hash nw) else broadcast_inv hash nw)
      hash i type t old blob nw1 = Ok nw' /\ net_inv [] nw' /\
    (forall h, h <> hash -> lookup_object h nw' = lookup_object h nw) /\
    lookup_object hash nw' = Some (NTB_NETWORK_INV_STATE_ACCEPTED type t (if old then None else Some blob)) /\
    nw_effects nw' = nw_effects nw ++ [StoreSaveBlob hash blob; NewObject blob] /\
    all_told NTB_NETWORK_PEER_STATE_CONNECTED
      (sent (if delay then [] else list_frame (str_bytes "inv") [hash])) (nw_peers nw) (nw_peers nw') /\
    (nw_delayed_broadcasts nw').*2 = (if delay then [hash] else []) ++ (nw_delayed_broadcasts nw).*2.
Proof.
  intros Hg (Hi & Has & Enr & (st0 & Eo) & Hh) Hz Hp.
  pose proof (aside_in _ (fun c => room c 576) _ _ Has Hp) as Hp1.
  assert (Hann := fun iv => announce_total delay hash (nw_set_inventory iv (nw_emit (StoreSaveBlob hash blob) nw1)) Hz Hp1).
  destruct (settle_total (fun nw => if delay then Ok (broadcast_delayed_inv hash nw) else broadcast_inv hash nw)
    hash i st0 type t old blob nw1 Hi) as (nw' & E & Hi' & (iv & nw2 & E2 & Ep & Ed) & Ee & Eio).
  { by rewrite Eo, lookup_insert_eq. }
  { intros iv. destruct (Hann iv) as (nw2 & ? & ? & ? & _). by exists nw2. }
  exists nw'. rewrite Eo, insert_insert_eq in Eio.
  destruct (lookup_object_insert [] i hash _ nw nw' [] (proj2 Hg) Hi' Hh Eio) as [Hlk Hot].
  destruct (Hann iv) as (nw3 & E3 & _ & _ & Htold). rewrite E2 in E3. injection E3 as <-. nw_cbn.
  split; [exact E|]. split; [exact Hi'|]. split; [exact Hot|]. split; [exact Hlk|].
  split; [by rewrite Ee, (proj1 Has)|]. rewrite Ep, Ed.
  destruct delay; destruct Htold as [Ht ->]; rewrite ?(proj1 (proj2 Has)); (split; [|done]); [|by eapply all_told_aside].
  rewrite Ht. apply all_told_same; [done|]. intros j p Hin Hst. eapply sent_nothing, Hp; eassumption.
Qed.

Lemma add_object_total wall type data q blob skip delay nw :
  good nw -> Z.of_nat (nw_next nw) + 2 <= 2 ^ 60 ->
  iv_n_rejected (nw_inventory nw) + 1 < NTB_NETWORK_MAX_REJECTED_INVENTORIES ->
  peers_in NTB_NETWORK_PEER_STATE_CONNECTED (fun p => room (pe_connection p) 576) nw ->
  bytes (data ++ q) -> zlen data < 2 ^ 31 -> (blob = None \/ blob = Some (Blob type data)) ->
  exists nw', add_object wall type (data ++ q) (zlen data) blob skip delay nw = Ok nw' /\ net_inv [] nw' /\
    match parse (ntb_proto_get_command object_header (data ++ q) (zlen data)) with
    | Ok (Some ((_, (t, _)), _)) => object_handled wall type data t skip delay nw nw'
    | _ => nw' = nw
    end.
Proof.
  intros Hg Hn Hr Hp Hb Hl Hblob. zlen_pose. unfold add_object. rewrite u32_small by lia.
  destruct (object_header_cases (data ++ q) (zlen data)) as [E|(nonce & t & n & E & Ht & H12)];
    [done|zlia|lia| |]; rewrite E, bind_ret_l; [exists nw; by split_and!; [|apply Hg|]|].
  rewrite read_bytes_Ok, bind_ret_l by (rewrite length_app; unfold zlen; lia).
  replace (take (Z.to_nat (zlen data)) (data ++ q)) with data
    by (unfold zlen; rewrite Nat2Z.id; symmetry; by apply take_app_length).
  unfold object_handled. set (hash := ntb_proto_double_hash data).
  pose proof (claim_total hash nw Hg ltac:(lia)) as Hc.
  assert (Hnew : (exists i nw1, claim_inventory hash nw = Ok (Some i, nw1) /\ claimed nw i hash nw1) \/
    claim_inventory hash nw = Ok (None, nw)).
  { destruct (lookup_object hash nw) as [[| |]|]; [|by right..|];
      destruct Hc as (i & nw1 & st0 & -> & Hi & Has & Enr & _ & Eo & Hh); left; exists i, nw1; split; [done| |done|];
      split_and!; try done; by eexists. }
  destruct (lookup_object hash nw) as [[t0|t0|ty t0 b0]|];
    try (rewrite Hc, bind_ret_l; exists nw; by split_and!; [|apply Hg|]).
  all: destruct Hnew as [(i & nw1 & -> & Hcl)|E']; [|by destruct Hc as (? & ? & ? & Ec & _); rewrite E' in Ec].
  all: rewrite bind_ret_l.
  all: replace (if skip then Ok false else should_reject type (data ++ q) (zlen data) (age_at wall t))
    with (Ok (E := unit) (negb (skip || worthy wall type data t)))
    by (destruct skip; [done|]; by rewrite should_reject_worthy by lia).
  all: rewrite bind_ret_l; destruct (skip || worthy wall type data t); cbn [negb].
  all: try (destruct (reject_object i hash t nw nw1 Hg Hcl Hr) as (iv & -> & Hrej);
            rewrite bind_ret_l; eexists; split; [reflexivity|exact Hrej]).
  all: destruct (accept_object delay i hash type t (NTB_NETWORK_INV_CACHE_AGE <=? age_at wall t)
                   (Blob type data) nw nw1 Hg Hcl (double_hash_length data) Hp) as (nw' & E' & Hacc).
  all: exists nw'; split; [|exact Hacc]; rewrite <- E'; by destruct Hblob as [->| ->].
Qed.
End total.

(** C15: what the network does with an object, whoever sends it. An object that is
    malformed or was received before changes nothing. One that was not is kept under
    its hash: as rejected, and nothing else happens, when it is too old, from the
    future or lacks the proof of work; else as accepted, and then it is saved and
    passed on once, and the announcement of its hash, one complete "inv" command, is
    sent to every peer whose handshake is complete and to no other, or waits for its
    delay. The entries of other objects do not change, and the call never fails. *)
Theorem network_object_spec `{DigestLaws} wall type data q blob skip delay nw :
  good nw -> Z.of_nat (nw_next nw) + 2 <= 2 ^ 60 ->
  iv_n_rejected (nw_inventory nw) + 1 < NTB_NETWORK_MAX_REJECTED_INVENTORIES ->
  peers_in NTB_NETWORK_PEER_STATE_CONNECTED (fun p => room (pe_connection p) 576) nw ->
  bytes (data ++ q) -> zlen data < 2 ^ 31 -> (blob = None \/ blob = Some (Blob type data)) ->
  exists nw', add_object wall type (data ++ q) (zlen data) blob skip delay nw = Ok nw' /\ good nw' /\
    match parse (ntb_proto_get_command object_header (data ++ q) (zlen data)) with
    | Ok (Some ((_, (t, _)), _)) => object_handled wall type data t skip delay nw nw'
    | _ => nw' = nw
    end.
Proof.
  intros Hg Hn Hr Hp Hb Hl Hblob.
  destruct (add_object_total wall type data q blob skip delay nw) as (nw' & E & Hi & Hh); try done.
  exists nw'. split_and!; try done. split; [|done].
  eapply book_steps_ok; [|apply Hg]. apply (add_object_books _ _ _ _ _ _ _ _ _ E), Hg.
Qed.

#[local] Existing Instances Digests_toy DigestLaws_toy Inet_toy InetLaws_toy.

Definition example_object : list Z := replicate 8 7 ++ be_split 4 100 ++ replicate 10 1.

Lemma example_connected_good : good example_connected.
Proof.
  apply (reachable_good [] 7 example_nw); [apply example_new| |vm_compute; congruence].
  apply (rtc_r _ example_greeted); [apply (rtc_r _ (example_accepted 1)); [apply (example_steps [] 1); lia|]|].
  - split; [|vm_compute; reflexivity].
    apply (step_connection [] 0 0 11 example_version true). vm_compute. reflexivity.
  - split; [|vm_compute; reflexivity].
    apply (step_connection [] 0 0 11 NTB_CONNECTION_EVENT_VERACK true). vm_compute. reflexivity.
Qed.

Lemma network_object_spec_witness :
  exists nw', add_object 100 NTB_PROTO_INV_TYPE_MSG (example_object ++ [0]) (zlen example_object) None
      true false example_connected = Ok nw' /\ good nw' /\
    object_handled 100 NTB_PROTO_INV_TYPE_MSG example_object 100 true false example_connected nw'.
Proof.
  apply (network_object_spec 100 NTB_PROTO_INV_TYPE_MSG example_object [0] None true false example_connected).
  - exact example_connected_good.
  - vm_compute. congruence.
  - vm_compute. reflexivity.
  - intros i p Hin _. assert (Hl : Forall (fun x => room (pe_connection (snd x)) 576) (nw_peers example_connected)).
    { let l := eval vm_compute in (nw_peers example_connected) in
        replace (nw_peers example_connected) with l by (vm_compute; reflexivity).
      constructor; [|constructor]. split_and!; [by eexists|apply (bool_decide_unpack _); vm_compute; exact I|].
      vm_compute. congruence. }
    rewrite Forall_forall in Hl. exact (Hl _ Hin).
  - apply (bool_decide_unpack _). vm_compute. exact I.
  - vm_compute. reflexivity.
  - left. reflexivity.
Defined.
