(* ===== verification/StoreFiles.v ===== *)
(** * StoreFiles: the files of the object store (ntb-store.c)

    The file system is a map from names to contents. Every call that can fail does so
    when its caller says so ([faults]): a write that fails leaves any contents behind,
    like a [fclose] that fails to flush. The functions that run in the store's thread
    ([handle_*]) and the ones that read the directory at start-up are translated here;
    the queue between the two threads is in [Store]. The names are built in the
    buffers of [struct ntb_store], as the code does. *)

From S2P Require Import Prelude Ident Endian Buffer NetAddress OpenSSL Proto ProtoSpec NetText KeyValue Base58 Address Outgoings Ecc Keys HashTable Connection Network.

Abbreviation path := (list Z).
Abbreviation file_system := (gmap (list Z) (list Z)).

Record faults := Faults {
  f_open : bool;
  (** [Some c]: a write fails and the file holds [c] *)
  f_write : option (list Z);
  f_close : option (list Z);
  f_rename : bool;
  f_unlink : bool
}.
Definition no_faults : faults := Faults true None None true true.

Record ntb_store := StoreNames {
  st_filename_buf : ntb_buffer;
  st_tmp_buf : ntb_buffer;
  st_directory_len : Z;
  st_maildir_buf : ntb_buffer;
  st_maildir_len : Z;
  st_num_stored_messages : Z
}.

Definition st_set_filename (v : ntb_buffer) (st : ntb_store) : ntb_store :=
  StoreNames v (st_tmp_buf st) (st_directory_len st) (st_maildir_buf st) (st_maildir_len st) (st_num_stored_messages st).
Definition st_set_tmp (v : ntb_buffer) (st : ntb_store) : ntb_store :=
  StoreNames (st_filename_buf st) v (st_directory_len st) (st_maildir_buf st) (st_maildir_len st) (st_num_stored_messages st).

(** [buffer->length = n;] *)
Definition with_length (n : Z) (b : ntb_buffer) : ntb_buffer := Buf (buf_data b) n (buf_size b).

(** ** Names *)

Definition hex_char (d : Z) : Z := if d <? 10 then 48 + d else 87 + d.
(** [%02x] *)
Definition hex_byte (b : Z) : list Z := [hex_char (b / 16); hex_char (b mod 16)].

Fixpoint append_hash (b : ntb_buffer) (hash : list Z) : result unit ntb_buffer :=
  match hash with
  | [] => Ok b
  | x :: hash => b ← ntb_buffer_append_vprintf b (hex_byte x); append_hash b hash
  end.

(** [store->filename_buf.length = store->directory_len;] and appending a name *)
Definition set_filename (st : ntb_store) (name : list Z) : result unit ntb_store :=
  b ← ntb_buffer_append_string (with_length (st_directory_len st) (st_filename_buf st)) name;
  Ok (st_set_filename b st).

Definition set_hash_filename (st : ntb_store) (hash : list Z) : result unit ntb_store :=
  st ← set_filename st (str_bytes "objects/");
  b ← append_hash (st_filename_buf st) hash;
  Ok (st_set_filename b st).

(** [%016PRIx64] *)
Definition hex_16 (id : Z) : list Z := mjoin (hex_byte <$> be_split 8 id).

Definition set_message_content_filename (st : ntb_store) (content_id : Z) : result unit ntb_store :=
  b ← ntb_buffer_append_vprintf (with_length (st_directory_len st) (st_filename_buf st))
        (str_bytes "outgoing/" ++ hex_16 content_id);
  Ok (st_set_filename b st).

Definition append_tmp (st : ntb_store) : result unit ntb_store :=
  b ← ntb_buffer_append_string (st_filename_buf st) (str_bytes ".tmp");
  Ok (st_set_filename b st).

(** The C string in [filename_buf]. *)
Definition filename (st : ntb_store) : result unit path := cells_string (buf_data (st_filename_buf st)).

(** ** The file system *)

Definition fs_unlink (f : faults) (name : path) (fs : file_system) : file_system :=
  if f_unlink f then delete name fs else fs.
Definition fs_rename (old new : path) (fs : file_system) : file_system :=
  match fs !! old with Some c => <[new := c]> (delete old fs) | None => fs end.

Definition rename_tmp_file (f : faults) (st : ntb_store) (fs : file_system) : result unit (ntb_store * file_system) :=
  let n := u64 (buf_length (st_filename_buf st) - 4) in
  name ← buf_read (st_filename_buf st) 0 n;
  b ← ntb_buffer_append (with_length 0 (st_tmp_buf st)) name;
  b ← ntb_buffer_append_c b 0;
  old ← filename st;
  new ← cells_string (buf_data b);
  Ok (st_set_tmp b st, if f_rename f then fs_rename old new fs else fs_unlink f old fs).

(** A file that is written with [fwrite], each call being checked. *)
Definition save_checked (f : faults) (data : list Z) (st : ntb_store) (fs : file_system) :
    result unit (ntb_store * file_system) :=
  name ← filename st;
  if negb (f_open f) then Ok (st, fs)
  else match f_write f with
       | Some partial => Ok (st, fs_unlink f name (<[name := partial]> fs))
       | None =>
           match f_close f with
           | Some partial => Ok (st, fs_unlink f name (<[name := partial]> fs))
           | None => rename_tmp_file f st (<[name := data]> fs)
           end
       end.

(** A file that is written with [fprintf]; only [fclose] is checked. *)
Definition save_printed (f : faults) (text : list Z) (st : ntb_store) (fs : file_system) :
    result unit (ntb_store * file_system) :=
  name ← filename st;
  if negb (f_open f) then Ok (st, fs)
  else
    match f_close f with
    | Some partial => Ok (st, <[name := partial]> fs)
    | None => rename_tmp_file f st (<[name := default text (f_write f)]> fs)
    end.

(** ** Objects *)

(** A blob as it is on disk; the type is whatever the file says. *)
Record file_blob := FileBlob { fb_type : Z; fb_data : list Z }.

Definition handle_save_blob (f : faults) (hash : list Z) (blob : file_blob) (st : ntb_store) (fs : file_system) :
    result unit (ntb_store * file_system) :=
  st ← set_hash_filename st hash;
  st ← append_tmp st;
  let type := native_store host 4 (NTB_UINT32_TO_BE host (fb_type blob)) in
  save_checked f (type ++ fb_data blob) st fs.

Definition handle_delete_object (f : faults) (hash : list Z) (st : ntb_store) (fs : file_system) :
    result unit (ntb_store * file_system) :=
  st ← set_hash_filename st hash;
  name ← filename st;
  Ok (st, fs_unlink f name fs).

(** [None] is [NULL]. The file has the size that [fstat] reports, so the reads only
    fail with an error of the device, which is not modelled. *)
Definition load_blob_from_file (contents : list Z) : result unit (option file_blob) :=
  if zlen contents <? 4 then Ok None
  else
    type ← ntb_proto_get_32 contents;
    Ok (Some (FileBlob type (drop 4 contents))).

(** The part of [handle_load_blob] between the two accesses to the cookie. *)
Definition load_blob_file (f : faults) (hash : list Z) (st : ntb_store) (fs : file_system) :
    result unit (ntb_store * option file_blob) :=
  st ← set_hash_filename st hash;
  name ← filename st;
  match (if f_open f then fs !! name else None) with
  | None => Ok (st, None)
  | Some contents => blob ← load_blob_from_file contents; Ok (st, blob)
  end.

(** ** Message contents *)

Definition handle_save_message_content (f : faults) (id : Z) (data : list Z) (st : ntb_store) (fs : file_system) :
    result unit (ntb_store * file_system) :=
  st ← set_message_content_filename st id;
  st ← append_tmp st;
  save_checked f data st fs.

(** [NTB_PROTO_INV_TYPE_MSG] *)
Definition load_message_content_from_file (contents : list Z) : file_blob := FileBlob 2 contents.

Definition load_message_content_file (f : faults) (id : Z) (st : ntb_store) (fs : file_system) :
    result unit (ntb_store * option file_blob) :=
  st ← set_message_content_filename st id;
  name ← filename st;
  Ok (st, load_message_content_from_file <$> (if f_open f then fs !! name else None)).

Definition handle_delete_message_content (f : faults) (id : Z) (st : ntb_store) (fs : file_system) :
    result unit (ntb_store * file_system) :=
  st ← set_message_content_filename st id;
  name ← filename st;
  Ok (st, fs_unlink f name fs).

(** ** Lists of addresses, keys and outgoing messages *)

Section lists.
Context `{Inet}.

(** [%PRIi64,%PRIu32,%PRIu64,%s\n] *)
Definition addr_line (a : ntb_store_addr) : list Z :=
  dec_signed (sa_timestamp a) ++ 44 :: dec (sa_stream a) ++ 44 :: dec (sa_services a) ++ 44 ::
  ntb_netaddress_to_string (sa_address a) ++ [10].

Definition handle_save_addr_list (f : faults) (addrs : list ntb_store_addr) (st : ntb_store) (fs : file_system) :
    result unit (ntb_store * file_system) :=
  st ← set_filename st (str_bytes "addr-list.txt.tmp");
  save_printed f (mjoin (addr_line <$> addrs)) st fs.

(** [line] includes its terminator; [None] is an early return. *)
Definition process_addr_line (line : ptr) : result unit (option ntb_store_addr) :=
  '(timestamp, tail, _) ← strtoll line;
  c ← deref (drop tail line);
  if bool_decide (tail = 0%nat) || negb (c =? 44) then Ok None
  else
    let line := drop (tail + 1) line in
    '(stream, tail, _) ← strtoul line;
    c ← deref (drop tail line);
    if bool_decide (tail = 0%nat) || negb (c =? 44) then Ok None
    else
      let line := drop (tail + 1) line in
      '(services, tail, _) ← strtoul line;
      c ← deref (drop tail line);
      if bool_decide (tail = 0%nat) || negb (c =? 44) then Ok None
      else
        let line := drop (tail + 1) line in
        address_length ← strlen line;
        let line :=
          if bool_decide (0 < address_length)%nat && bool_decide (line !! (address_length - 1)%nat = Some 10)
          then <[(address_length - 1)%nat := 0]> line else line in
        match ntb_netaddress_from_string line with
        | Ok address => Ok (Some (StoreAddr timestamp (u32 stream) services address))
        | Err _ => Ok None
        | UB => UB
        | OutOfFuel => OutOfFuel
        end.

(** [fgets]: at most [n] bytes, up to and with the first end of line. *)
Fixpoint fgets (n : nat) (file : list Z) : list Z * list Z :=
  match n, file with
  | S n, c :: file => if c =? 10 then ([c], file) else let '(l, rest) := fgets n file in (c :: l, rest)
  | _, _ => ([], file)
  end.

(** [while (fgets(line, sizeof line, file)) process_addr_line(...)] *)
Fixpoint addr_lines {U} (fuel : nat) (func : ntb_store_addr -> U -> U) (file : list Z) (u : U) : result unit U :=
  match file with
  | [] => Ok u
  | _ =>
      match fuel with
      | O => OutOfFuel
      | S fuel =>
          let '(line, rest) := fgets 1023 file in
          addr ← process_addr_line (line ++ [0]);
          addr_lines fuel func rest (match addr with Some a => func a u | None => u end)
      end
  end.

Definition ntb_store_for_each_addr {U} (f : faults) (func : ntb_store_addr -> U -> U) (st : ntb_store) (fs : file_system) (u : U) :
    result unit (ntb_store * U) :=
  st ← set_filename st (str_bytes "addr-list.txt");
  name ← filename st;
  match (if f_open f then fs !! name else None) with
  | None => Ok (st, u)
  | Some contents => u ← addr_lines (length contents) func contents u; Ok (st, u)
  end.
End lists.

Section key_lists.
Context `{Digests} `{BigNum} `{!Elliptic} `{Symmetric} `{Digest256}.

Definition handle_save_keys (f : faults) (keys : list ntb_key) (st : ntb_store) (fs : file_system) :
    result unit (ntb_store * file_system) :=
  st ← set_filename st (str_bytes "keys.dat.tmp");
  text ← write_keys keys;
  save_printed f text st fs.

Definition handle_save_outgoings (f : faults) (outgoings : list ntb_store_outgoing) (st : ntb_store) (fs : file_system) :
    result unit (ntb_store * file_system) :=
  st ← set_filename st (str_bytes "outgoing-messages.dat.tmp");
  text ← write_outgoings outgoings;
  save_printed f text st fs.

(** [ps], [pe], [us], [ue]: as for [ntb_load_keys]. *)
Definition ntb_store_for_each_key {U} (f : faults) (func : ntb_key -> U -> U)
    (ps pe us ue : list Z) (ecc : ntb_ecc) (st : ntb_store) (fs : file_system) (u : U) : result unit (ntb_store * U) :=
  st ← set_filename st (str_bytes "keys.dat");
  name ← filename st;
  match (if f_open f then fs !! name else None) with
  | None => Ok (st, u)
  | Some contents => '(_, u) ← ntb_load_keys func contents ps pe us ue ecc u; Ok (st, u)
  end.
End key_lists.

(** ** Reading the objects at start-up *)

Definition hex_digit_value (ch : Z) : Z :=
  if 97 <=? ch then ch - 97 + 10 else if 65 <=? ch then ch - 65 + 10 else ch - 48.
Definition is_hex_digit (ch : Z) : bool :=
  ((97 <=? ch) && (ch <=? 102)) || ((65 <=? ch) && (ch <=? 70)) || ((48 <=? ch) && (ch <=? 57)).

(** The loop over the digits of a file name: [None] when it does not look like a hash,
    otherwise the hash and what follows it. *)
Fixpoint parse_hash (n : nat) (p : ptr) : result unit (option (list Z * ptr)) :=
  match n with
  | O => Ok (Some ([], p))
  | S n =>
      c0 ← deref p;
      if negb (is_hex_digit c0) then Ok None
      else
        c1 ← deref (drop 1 p);
        if negb (is_hex_digit c1) then Ok None
        else
          r ← parse_hash n (drop 2 p);
          Ok ('(hash, p) ← r; Some (u8 (Z.lor (Z.shiftl (hex_digit_value c0) 4) (hex_digit_value c1)) :: hash, p))
  end.

(** The values of the enumeration; any other fails the assertion of
    [ntb_proto_get_max_age_for_type]. *)
Definition inv_type_of (type : Z) : option ntb_proto_inv_type :=
  if type =? 0 then Some NTB_PROTO_INV_TYPE_GETPUBKEY
  else if type =? 1 then Some NTB_PROTO_INV_TYPE_PUBKEY
  else if type =? 2 then Some NTB_PROTO_INV_TYPE_MSG
  else if type =? 3 then Some NTB_PROTO_INV_TYPE_BROADCAST
  else None.

Section start_up.
(** The callback is given the type, the hash, the timestamp and the contents of the
    file. *)
Context {U : Type} (func : ntb_proto_inv_type -> list Z -> Z -> list Z -> U -> result unit U).

(** [name] is the whole name with its terminator. *)
Definition process_file (f : faults) (now : Z) (st : ntb_store) (name : ptr) (fs : file_system) (u : U) :
    result unit (file_system * U) :=
  r ← parse_hash (Z.to_nat NTB_PROTO_HASH_LENGTH) (drop (Z.to_nat (st_directory_len st + 8)) name);
  match r with
  | None => Ok (fs, u)
  | Some (hash, p) =>
      c ← deref p;
      if bytes_eqb (c_text p) (str_bytes ".tmp") then Ok (fs_unlink f (c_text name) fs, u)
      else if negb (c =? 0) then Ok (fs, u)
      else match (if f_open f then fs !! c_text name else None) with
           | None => Ok (fs, u)
           | Some contents =>
               if zlen contents <? 4 + 8 * 2 then Ok (fs, u)
               else
                 let buf := take 20 contents in
                 type ← ntb_proto_get_32 buf;
                 timestamp ← match ntb_proto_get_timestamp (drop 12 buf, 8) with
                             | Ok (timestamp, _) => Ok timestamp
                             | _ => UB
                             end;
                 type ← need (inv_type_of type);
                 if ntb_proto_get_max_age_for_type type + NTB_PROTO_EXTRA_AGE <=? now - timestamp
                 then Ok (fs_unlink f (c_text name) fs, u)
                 else u ← func type hash timestamp contents u; Ok (fs, u)
           end
  end.

(** [while ((dirent = readdir(dir)))] over the names the directory has. *)
Fixpoint process_files (f : faults) (now : Z) (entries : list (list Z)) (st : ntb_store) (fs : file_system) (u : U) :
    result unit (ntb_store * file_system * U) :=
  match entries with
  | [] => Ok (st, fs, u)
  | entry :: entries =>
      b ← ntb_buffer_append_string (with_length (st_directory_len st + 8) (st_filename_buf st)) entry;
      let st := st_set_filename b st in
      name ← filename st;
      '(fs, u) ← process_file f now st (name ++ [0]) fs u;
      process_files f now entries st fs u
  end.

(** [f_open f] also tells whether the directory can be read. *)
Definition for_each_blob_internal (f : faults) (now : Z) (entries : list (list Z)) (st : ntb_store) (fs : file_system) (u : U) :
    result unit (ntb_store * file_system * U) :=
  st ← set_filename st (str_bytes "objects");
  if negb (f_open f) then Ok (st, fs, u)
  else
    b ← ntb_buffer_append_c (st_filename_buf st) 47;
    process_files f now entries (st_set_filename b st) fs u.
End start_up.

Definition ntb_store_for_each_blob {U} (func : ntb_proto_inv_type -> list Z -> Z -> U -> result unit U) :=
  for_each_blob_internal (fun type hash timestamp _ u => func type hash timestamp u).

(** A pubkey file is read again from behind its type. *)
Definition for_each_pubkey_blob_cb {U} (func : list Z -> Z -> ntb_blob -> U -> result unit U)
    (type : ntb_proto_inv_type) (hash : list Z) (timestamp : Z) (contents : list Z) (u : U) : result unit U :=
  match type with
  | NTB_PROTO_INV_TYPE_PUBKEY => func hash timestamp (Blob NTB_PROTO_INV_TYPE_PUBKEY (drop 4 contents)) u
  | _ => Ok u
  end.

Definition ntb_store_for_each_pubkey_blob {U} (func : list Z -> Z -> ntb_blob -> U -> result unit U) :=
  for_each_blob_internal (for_each_pubkey_blob_cb func).

(** ** Outgoing messages at start-up *)

Fixpoint span_hex (acc : Z) (p : ptr) : result unit (Z * nat) :=
  match p with
  | [] => UB
  | c :: p => if is_hex_digit c then '(v, n) ← span_hex (acc * 16 + hex_digit_value c) p; Ok (v, S n) else Ok (acc, O)
  end.

(** [strtoll(p, &tail, 16)]: as [strtoll], with an optional [0x] before a digit. *)
Definition strtoll_16 (p : ptr) : result unit (Z * nat * bool) :=
  spaces ← span_spaces p;
  c ← deref (drop spaces p);
  let sign := if (c =? 43) || (c =? 45) then 1%nat else 0%nat in
  let start := (spaces + sign)%nat in
  let prefix :=
    match drop start p with
    | 48 :: x :: d :: _ => if ((x =? 120) || (x =? 88)) && is_hex_digit d then 2%nat else 0%nat
    | _ => 0%nat
    end in
  '(v, digits) ← span_hex 0 (drop (start + prefix) p);
  let v := if c =? 45 then - v else v in
  if bool_decide (digits = 0%nat) then Ok (0, 0%nat, false)
  else if v <? - 2 ^ 63 then Ok (- 2 ^ 63, (start + prefix + digits)%nat, true)
  else if 2 ^ 63 <=? v then Ok (2 ^ 63 - 1, (start + prefix + digits)%nat, true)
  else Ok (v, (start + prefix + digits)%nat, false).

(** [for (i = 0; i < n; i++) if (ids[i] == id) return;] *)
Fixpoint id_in_use (ids : ntb_buffer) (id : Z) (i : Z) (n : nat) : result unit bool :=
  match n with
  | O => Ok false
  | S n =>
      l ← buf_read ids (8 * i) 8;
      if native_load host l =? id then Ok true else id_in_use ids id (i + 1) n
  end.

(** Whether the file is deleted. [used] is the buffer the identifiers were appended to
    and [n] what is passed as their number. *)
Definition maybe_delete_outgoing (st : ntb_store) (name : ptr) (used : ntb_buffer) (n : Z) : result unit bool :=
  let bn := drop (Z.to_nat (st_directory_len st + 9)) name in
  '(content_id, tail, errno) ← strtoll_16 bn;
  if errno || bool_decide (tail = 0%nat) || (content_id <? 0) then Ok false
  else
    c ← deref (drop tail bn);
    if negb (c =? 0) then Ok (bytes_eqb (c_text (drop tail bn)) (str_bytes ".tmp"))
    else
      in_use ← id_in_use used content_id 0 (Z.to_nat n);
      Ok (negb in_use).

Fixpoint delete_unused (f : faults) (entries : list (list Z)) (used : ntb_buffer) (n : Z) (st : ntb_store) (fs : file_system) :
    result unit (ntb_store * file_system) :=
  match entries with
  | [] => Ok (st, fs)
  | entry :: entries =>
      b ← ntb_buffer_append_string (with_length (st_directory_len st + 9) (st_filename_buf st)) entry;
      let st := st_set_filename b st in
      name ← filename st;
      deleted ← maybe_delete_outgoing st (name ++ [0]) used n;
      delete_unused f entries used n st (if (deleted : bool) then fs_unlink f name fs else fs)
  end.

Definition delete_unused_outgoings (f : faults) (entries : list (list Z)) (used : ntb_buffer) (n : Z) (st : ntb_store)
    (fs : file_system) : result unit (ntb_store * file_system) :=
  st ← set_filename st (str_bytes "outgoing");
  if negb (f_open f) then Ok (st, fs)
  else
    b ← ntb_buffer_append_c (st_filename_buf st) 47;
    delete_unused f entries used n (st_set_filename b st) fs.

Definition for_each_outgoing_cb {U} (func : ntb_store_outgoing -> U -> U) (o : ntb_store_outgoing)
    (d : result unit (U * ntb_buffer)) : result unit (U * ntb_buffer) :=
  '(u, used) ← d;
  used ← ntb_buffer_append used (native_store host 8 (out_content_id o));
  Ok (func o u, used).

Section outgoing_files.
Context `{Digests} `{BigNum}.

(** The number of identifiers is computed from the size of the allocation. *)
Definition ntb_store_for_each_outgoing {U} (f : faults) (func : ntb_store_outgoing -> U -> U) (garbage : ntb_store_outgoing)
    (entries : list (list Z)) (st : ntb_store) (fs : file_system) (u : U) : result unit (ntb_store * file_system * U) :=
  st ← set_filename st (str_bytes "outgoing-messages.dat");
  name ← filename st;
  match (if f_open f then fs !! name else None) with
  | None => Ok (st, fs, u)
  | Some contents =>
      d ← ntb_load_outgoings (for_each_outgoing_cb func) contents garbage (Ok (u, ntb_buffer_init));
      '((u, used) : U * ntb_buffer) ← d;
      '(st, fs) ← delete_unused_outgoings f entries used (buf_size used / 8) st fs;
      Ok (st, fs, u)
  end.
End outgoing_files.
