(* ===== verification/StoreFilesSpec.v ===== *)
(** * StoreFilesSpec: what the files of the store hold (for [StoreFiles])

    The names the handlers build, the effect of saving under every failure, and the
    round trips between saving and reading at start-up. *)

From S2P Require Import Prelude Ident Endian Buffer NetAddress OpenSSL Proto ProtoSpec NetText KeyValue Base58 Address Outgoings Ecc Keys HashTable Connection Network StoreFiles.

(** ** Names in buffers *)

(** A buffer that holds [l] and a terminator behind it. *)
Definition named (b : ntb_buffer) (l : list Z) : Prop :=
  repr b l /\ take (S (length l)) (buf_data b) = Some <$> (l ++ [0]).

Lemma named_string b l : named b l -> 0 ∉ l -> cells_string (buf_data b) = Ok l.
Proof.
  intros [_ Ht] Hl. rewrite <- (take_drop (S (length l)) (buf_data b)), Ht, fmap_app, <- app_assoc. by apply cells_string_app.
Qed.

(** A shorter prefix of the data of a buffer. *)
Lemma take_data b l n :
  buf_wf b -> 0 <= n -> (Z.to_nat n <= length l)%nat -> take (length l) (buf_data b) = Some <$> l ->
  repr (with_length n b) (take (Z.to_nat n) l).
Proof.
  intros (Hd & Hl & Hs) Hn Hz Ht. assert (length l <= length (buf_data b))%nat.
  { apply (f_equal length) in Ht. rewrite length_take, length_fmap in Ht. lia. }
  split; [split_and!; cbn; unfold zlen in *; lia|]. unfold cells. cbn [buf_data buf_length with_length].
  rewrite fmap_take, <- Ht, take_take. f_equal. lia.
Qed.

Lemma append_string_named b l s :
  repr b l -> zlen l + zlen s + 1 <= 2 ^ 62 ->
  exists b', ntb_buffer_append_string (E := unit) b s = Ok b' /\ named b' (l ++ s).
Proof.
  intros Hr Hz. pose proof (repr_length _ _ Hr) as Hl. destruct Hr as [Hwf Hc]. zlen_pose.
  destruct (append_string_spec (E := unit) b s) as (b' & E & Hb' & Hl' & Hc'); [done|lia|]. exists b'. split; [done|].
  split; [split; [done|by rewrite Hc', Hc, fmap_app]|].
  unfold ntb_buffer_append_string in E.
  destruct (append_spec (E := unit) b (s ++ [0])) as (b1 & E1 & Hb1 & Hl1 & Hc1 & _); [done|rewrite zlen_app; zlia|].
  rewrite E1, bind_ret_l in E. injection E as <-. cbn [add_length buf_data].
  rewrite Hc in Hc1. rewrite <- app_assoc, fmap_app, <- Hc1. unfold cells. f_equal.
  rewrite Hl1, Hl, zlen_app. rewrite length_app. unfold zlen. cbn [length]. lia.
Qed.

Lemma vsnprintf_named b l out :
  repr b l -> zlen out < buf_size b - buf_length b ->
  exists b', vsnprintf (E := unit) b (buf_length b) (u64 (buf_size b - buf_length b)) out = Ok b' /\
    named (add_length b' (zlen out)) (l ++ out).
Proof.
  intros Hr Hlt. pose proof (repr_length _ _ Hr) as Hl. destruct Hr as [Hwf Hc]. zlen_pose. pose proof Hwf as (Hd & Hl0 & Hs).
  destruct (vsnprintf_spec (E := unit) b out) as (b' & E & _ & _ & _ & _ & Hok); [done|lia|].
  destruct (Hok Hlt) as (W & L & C). exists b'. split; [done|]. split; [split; [done|by rewrite C, Hc, fmap_app]|].
  unfold vsnprintf in E. rewrite u64_small in E by lia. destruct (Z.eqb_spec (buf_size b - buf_length b) 0); [lia|].
  rewrite take_ge in E by (unfold zlen in *; lia).
  destruct (buf_write_end (E := unit) b (out ++ [0])) as (b2 & E2 & _ & _ & L2 & _ & _ & C3); [done|rewrite zlen_app; zlia|].
  rewrite E2 in E. injection E as ->. cbn [add_length buf_data]. unfold cells in C3 at 1. cbn [add_length buf_data buf_length] in C3.
  rewrite Hc in C3. rewrite <- app_assoc, fmap_app, <- C3. f_equal.
  rewrite L2, Hl, u64_small, !zlen_app by (rewrite ?zlen_app; change (zlen [0]) with 1; lia). rewrite length_app. unfold zlen. cbn [length]. lia.
Qed.

Lemma append_vprintf_named b l out :
  repr b l -> zlen l + zlen out + 17 <= 2 ^ 62 ->
  exists b', ntb_buffer_append_vprintf (E := unit) b out = Ok b' /\ named b' (l ++ out).
Proof.
  intros Hr Hfit. pose proof (repr_length _ _ Hr) as Hl. pose proof Hr as [Hwf Hc]. zlen_pose.
  unfold ntb_buffer_append_vprintf. rewrite u64_small by lia.
  destruct (ensure_size_spec (E := unit) b (buf_length b + 16)) as (b1 & -> & Hwf1 & Hl1 & Hc1 & ? & ? & _); [done|lia|]. rewrite bind_ret_l.
  assert (Hr1 : repr b1 l) by (split; [done|by rewrite Hc1]).
  destruct (decide (zlen out < buf_size b1 - buf_length b1)) as [Hlt|Hge].
  - destruct (vsnprintf_spec (E := unit) b1 out) as (b2 & E2 & _ & L2 & S2 & _); [done|lia|].
    destruct (vsnprintf_named b1 l out Hr1 Hlt) as (b2' & E2' & Hn). rewrite E2 in E2'. injection E2' as <-.
    rewrite E2, bind_ret_l. rewrite (u64_small (buf_size b2 - _)) by (destruct Hwf1 as (? & ? & ?); lia).
    destruct (Z.leb_spec (buf_size b2 - buf_length b2) (zlen out)); [lia|]. rewrite bind_ret_l. eauto.
  - destruct (vsnprintf_spec (E := unit) b1 out) as (b2 & E2 & W2 & L2 & S2 & C2 & _); [done|lia|].
    rewrite E2, bind_ret_l. rewrite (u64_small (buf_size b2 - _)) by (destruct W2 as (? & ? & ?); lia).
    destruct (Z.leb_spec (buf_size b2 - buf_length b2) (zlen out)); [|lia]. rewrite (u64_small (_ + 1)) by lia.
    destruct (ensure_size_spec (E := unit) b2 (buf_length b2 + zlen out + 1)) as (b3 & -> & W3 & L3 & C3 & ? & ? & _); [done|lia|].
    rewrite bind_ret_l. destruct (vsnprintf_named b3 l out) as (b4 & -> & Hn); [split; [done|congruence]|lia|].
    rewrite bind_ret_l. eauto.
Qed.

(** ** Names of files *)

Definition hex (l : list Z) : list Z := mjoin (hex_byte <$> l).
Definition object_path (dir hash : list Z) : path := dir ++ str_bytes "objects/" ++ hex hash.
Definition content_path (dir : list Z) (id : Z) : path := dir ++ str_bytes "outgoing/" ++ hex_16 id.
Definition tmp_path (p : path) : path := p ++ str_bytes ".tmp".

(** The name of the mail directory, which starts its buffer. *)
Definition st_maildir (st : ntb_store) : list Z :=
  default [] (all_some (take (Z.to_nat (st_maildir_len st)) (buf_data (st_maildir_buf st)))).

Definition mail_ok (dir : list Z) (st : ntb_store) : Prop :=
  buf_wf (st_maildir_buf st) /\ st_maildir_len st = zlen (st_maildir st) /\ zlen (st_maildir st) <= 2 ^ 20 /\
  take (length (st_maildir st)) (buf_data (st_maildir_buf st)) = Some <$> st_maildir st /\ (0 ∉ st_maildir st) /\
  ~ dir `prefix_of` st_maildir st /\ ~ st_maildir st `prefix_of` dir /\ 0 <= st_num_stored_messages st.

#[global] Instance mail_ok_dec dir st : Decision (mail_ok dir st).
Proof. unfold mail_ok. apply _. Defined.

(** The store's buffers between two operations: the names of its two directories,
    neither of which is inside the other, start the buffers of file names. *)
Definition names_ok (dir : list Z) (st : ntb_store) : Prop :=
  (0 ∉ dir) /\ zlen dir <= 2 ^ 20 /\ st_directory_len st = zlen dir /\
  buf_wf (st_filename_buf st) /\ take (length dir) (buf_data (st_filename_buf st)) = Some <$> dir /\
  buf_wf (st_tmp_buf st) /\ mail_ok dir st.

#[global] Instance names_ok_dec dir st : Decision (names_ok dir st).
Proof. unfold names_ok. apply _. Defined.

(** The name [p] under the directory is in the buffer. *)
Definition at_name (dir p : list Z) (st : ntb_store) : Prop :=
  names_ok dir st /\ named (st_filename_buf st) (dir ++ p) /\ (0 ∉ p) /\ zlen p <= 2 ^ 20.

Lemma at_name_filename dir p st : at_name dir p st -> filename st = Ok (dir ++ p).
Proof. intros (Hok & Hn & Hp & _). apply named_string; [done|]. apply not_elem_of_app. split; [apply Hok|done]. Qed.

Lemma names_ok_base dir st : names_ok dir st -> repr (with_length (st_directory_len st) (st_filename_buf st)) dir.
Proof.
  intros (Hd & Hz & Hl & Hwf & Ht & _). rewrite Hl. pose proof (take_data _ dir (zlen dir) Hwf) as Hr.
  unfold zlen in Hr. rewrite Nat2Z.id, firstn_all in Hr. apply Hr; [lia|lia|done].
Qed.

Lemma named_at_name dir p b st :
  names_ok dir st -> named b (dir ++ p) -> 0 ∉ p -> zlen p <= 2 ^ 20 -> at_name dir p (st_set_filename b st).
Proof.
  intros (Hd & Hz & Hl & Hwf & Ht & Hwt & Hm) Hn Hp Hpz. split_and!; try done. split_and!; try done; [apply Hn|].
  destruct Hn as [_ Hn]. apply (f_equal (take (length dir))) in Hn. rewrite take_take in Hn.
  cbn [st_filename_buf st_set_filename]. rewrite length_app in Hn. replace (length dir `min` S (length dir + length p))%nat with (length dir) in Hn by lia.
  rewrite Hn, <- app_assoc, fmap_app. by rewrite take_app_length' by by rewrite length_fmap.
Qed.

Lemma set_filename_spec dir p st :
  names_ok dir st -> 0 ∉ p -> zlen p <= 2 ^ 20 -> exists st', set_filename st p = Ok st' /\ at_name dir p st'.
Proof.
  intros Hok Hp Hz. unfold set_filename.
  destruct (append_string_named _ dir p (names_ok_base _ _ Hok)) as (b & -> & Hn); [destruct Hok as (_ & ? & _); lia|].
  rewrite bind_ret_l. eexists. split; [reflexivity|]. by apply named_at_name.
Qed.

(** Names with more text behind them. *)
Lemma at_name_append dir p q b st :
  at_name dir p st -> named b ((dir ++ p) ++ q) -> 0 ∉ q -> zlen p + zlen q <= 2 ^ 20 -> at_name dir (p ++ q) (st_set_filename b st).
Proof.
  intros (Hok & _ & Hp & _) Hn Hq Hz. rewrite <- app_assoc in Hn. apply named_at_name; [done|done| |rewrite zlen_app; lia].
  apply not_elem_of_app. done.
Qed.

Lemma hex_char_range d : 0 <= d < 16 -> 48 <= hex_char d <= 102 /\ is_hex_digit (hex_char d) = true /\ hex_digit_value (hex_char d) = d.
Proof.
  intros Hd. assert (Hf : Forall (fun i => 48 <= hex_char (Z.of_nat i) <= 102 /\ is_hex_digit (hex_char (Z.of_nat i)) = true /\
    hex_digit_value (hex_char (Z.of_nat i)) = Z.of_nat i) (seq 0 16)).
  { apply (bool_decide_unpack _). vm_compute. exact I. }
  rewrite Forall_forall in Hf. replace d with (Z.of_nat (Z.to_nat d)) by lia. apply Hf, elem_of_seq. lia.
Qed.

Lemma hex_byte_chars b : is_byte b -> Forall (fun c => 48 <= c <= 102) (hex_byte b).
Proof.
  intros Hb. unfold is_byte in Hb. unfold hex_byte. pose proof (Z.mod_pos_bound b 16).
  apply Forall_cons. split; [|apply Forall_singleton]; apply hex_char_range; [|lia].
  split; [apply Z.div_pos; lia|apply Z.div_lt_upper_bound; lia].
Qed.

Lemma hex_cons b l : hex (b :: l) = hex_byte b ++ hex l.
Proof. done. Qed.
Lemma hex_chars l : bytes l -> Forall (fun c => 48 <= c <= 102) (hex l).
Proof.
  induction 1 as [|b l Hb _ IH]; [constructor|]. rewrite hex_cons. apply Forall_app.
  split; [by apply hex_byte_chars|exact IH].
Qed.
Lemma hex_length l : length (hex l) = (2 * length l)%nat.
Proof. induction l as [|b l IH]; [done|]. rewrite hex_cons, length_app, IH. cbn [length hex_byte]. lia. Qed.
Lemma hex_no_nul l : bytes l -> 0 ∉ hex l.
Proof. intros Hb. eapply not_in_Forall; [by apply hex_chars|]. cbn. lia. Qed.

Lemma append_hash_spec hash : forall b l,
  bytes hash -> named b l -> zlen l + 2 * zlen hash + 17 <= 2 ^ 62 ->
  exists b', append_hash b hash = Ok b' /\ named b' (l ++ hex hash).
Proof.
  induction hash as [|x hash IH]; intros b l Hb Hn Hz; cbn [append_hash].
  - exists b. split; [done|]. by rewrite app_nil_r.
  - apply bytes_cons in Hb as [Hx Hb]. rewrite zlen_cons in Hz. zlen_pose.
    destruct (append_vprintf_named b l (hex_byte x)) as (b1 & -> & Hn1); [apply Hn|change (zlen (hex_byte x)) with 2; lia|].
    rewrite bind_ret_l. destruct (IH b1 (l ++ hex_byte x)) as (b' & E & Hn'); [done|done|rewrite zlen_app; change (zlen (hex_byte x)) with 2; lia|].
    exists b'. split; [done|]. by rewrite hex_cons, app_assoc.
Qed.

Lemma objects_no_nul : 0 ∉ str_bytes "objects/".
Proof. apply (bool_decide_unpack _). vm_compute. exact I. Qed.
Lemma tmp_no_nul : 0 ∉ str_bytes ".tmp".
Proof. apply (bool_decide_unpack _). vm_compute. exact I. Qed.

Lemma set_hash_filename_spec dir hash st :
  names_ok dir st -> bytes hash -> zlen hash <= 64 ->
  exists st', set_hash_filename st hash = Ok st' /\ at_name dir (str_bytes "objects/" ++ hex hash) st'.
Proof.
  intros Hok Hb Hz. unfold set_hash_filename.
  destruct (set_filename_spec dir (str_bytes "objects/") st Hok objects_no_nul ltac:(done)) as (st1 & -> & Hst1). rewrite bind_ret_l.
  pose proof Hst1 as ((_ & Hdz & _) & Hn & _). zlen_pose.
  destruct (append_hash_spec hash _ _ Hb Hn) as (b & -> & Hn'); [rewrite zlen_app; change (zlen (str_bytes "objects/")) with 8; lia|].
  rewrite bind_ret_l. eexists. split; [reflexivity|]. apply at_name_append; [done|done|by apply hex_no_nul|].
  change (zlen (str_bytes "objects/")) with 8. unfold zlen in *. rewrite hex_length. lia.
Qed.

Lemma set_content_filename_spec dir id st :
  names_ok dir st ->
  exists st', set_message_content_filename st id = Ok st' /\ at_name dir (str_bytes "outgoing/" ++ hex_16 id) st'.
Proof.
  intros Hok. unfold set_message_content_filename.
  assert (Hl : length (hex_16 id) = 16%nat) by (change (hex_16 id) with (hex (be_split 8 id)); by rewrite hex_length, length_be_split).
  assert (Hz : zlen (str_bytes "outgoing/" ++ hex_16 id) = 25) by (rewrite zlen_app; unfold zlen at 2; by rewrite Hl).
  destruct (append_vprintf_named _ dir (str_bytes "outgoing/" ++ hex_16 id) (names_ok_base _ _ Hok)) as (b & -> & Hn);
    [destruct Hok as (_ & ? & _); lia|]. rewrite bind_ret_l. eexists. split; [reflexivity|].
  apply named_at_name; [done|done| |lia]. apply not_elem_of_app. split; [apply (bool_decide_unpack _); vm_compute; exact I|].
  apply (hex_no_nul (be_split 8 id)), bytes_be_split.
Qed.

Lemma append_tmp_spec dir p st :
  at_name dir p st -> zlen p <= 1000 -> exists st', append_tmp st = Ok st' /\ at_name dir (tmp_path p) st'.
Proof.
  intros Hst Hz. unfold append_tmp. pose proof Hst as ((_ & Hdz & _) & Hn & _).
  destruct (append_string_named _ _ (str_bytes ".tmp") (proj1 Hn)) as (b & -> & Hn'); [rewrite zlen_app; change (zlen (str_bytes ".tmp")) with 4; lia|].
  rewrite bind_ret_l. eexists. split; [reflexivity|]. apply at_name_append; [done|done|apply tmp_no_nul|].
  change (zlen (str_bytes ".tmp")) with 4. lia.
Qed.

(** ** Saving *)

(** The file system after saving [data] under [p]. *)
Definition renamed (f : faults) (p : path) (data : list Z) (fs : file_system) : file_system :=
  if f_rename f then <[p := data]> (delete (tmp_path p) fs) else fs_unlink f (tmp_path p) (<[tmp_path p := data]> fs).
Definition checked (f : faults) (p : path) (data : list Z) (fs : file_system) : file_system :=
  if negb (f_open f) then fs
  else match f_write f, f_close f with
       | Some c, _ | None, Some c => fs_unlink f (tmp_path p) (<[tmp_path p := c]> fs)
       | None, None => renamed f p data fs
       end.
Definition printed (f : faults) (p : path) (text : list Z) (fs : file_system) : file_system :=
  if negb (f_open f) then fs
  else match f_close f with
       | Some c => <[tmp_path p := c]> fs
       | None => renamed f p (default text (f_write f)) fs
       end.

Lemma tmp_path_neq p : tmp_path p <> p.
Proof. intros E. apply (f_equal length) in E. unfold tmp_path in E. rewrite length_app in E. cbn in E. lia. Qed.

Lemma rename_tmp_spec f dir p st fs data :
  at_name dir (tmp_path p) st -> fs !! (dir ++ tmp_path p) = Some data ->
  exists st', rename_tmp_file f st fs =
    Ok (st', if f_rename f then <[dir ++ p := data]> (delete (dir ++ tmp_path p) fs) else fs_unlink f (dir ++ tmp_path p) fs) /\
    names_ok dir st'.
Proof.
  intros Hst Hf. pose proof Hst as ((Hd & Hdz & Hdl & Hwf & Ht & Hwt & Hm) & [Hr Hn] & Hp & Hpz). zlen_pose.
  pose proof (zlen_nonneg p).
  assert (Hp0 : 0 ∉ dir ++ p).
  { apply not_elem_of_app. split; [done|]. unfold tmp_path in Hp. by apply not_elem_of_app in Hp as [? _]. }
  pose proof (repr_length _ _ Hr) as Hl. unfold tmp_path in Hl, Hpz. rewrite app_assoc, zlen_app in Hl. rewrite zlen_app in Hpz.
  change (zlen (str_bytes ".tmp")) with 4 in *. unfold rename_tmp_file. rewrite Hl, u64_small by (rewrite zlen_app; lia).
  replace (zlen (dir ++ p) + 4 - 4) with (zlen (dir ++ p)) by lia.
  rewrite (buf_read_mid _ [] (dir ++ p) ((Some <$> str_bytes ".tmp") ++ drop (Z.to_nat (buf_length (st_filename_buf st))) (buf_data (st_filename_buf st))));
    [|rewrite <- (take_drop (Z.to_nat (buf_length (st_filename_buf st))) (buf_data (st_filename_buf st))) at 1;
      fold (cells (st_filename_buf st)); rewrite (proj2 Hr); unfold tmp_path; by rewrite app_assoc, fmap_app, <- app_assoc|done].
  rewrite bind_ret_l.
  assert (Hr0 : repr (with_length 0 (st_tmp_buf st)) []) by by apply repr_empty.
  pose proof (repr_length _ _ Hr0) as L0. destruct Hr0 as [W0 C0]. change (zlen []) with 0 in L0. rewrite zlen_app in Hl.
  destruct (append_spec (E := unit) (with_length 0 (st_tmp_buf st)) (dir ++ p)) as (b1 & -> & W1 & L1 & C1 & _); [done|rewrite zlen_app; lia|].
  rewrite bind_ret_l, zlen_app in *.
  destruct (append_c_spec (E := unit) b1 0) as (b2 & -> & W2 & L2 & C2); [done|lia|unfold is_byte; lia|].
  rewrite bind_ret_l, (at_name_filename _ _ _ Hst), bind_ret_l.
  assert (E2 : cells_string (buf_data b2) = Ok (dir ++ p)).
  { rewrite <- (take_drop (Z.to_nat (buf_length b2)) (buf_data b2)). fold (cells b2). rewrite C2, C1, C0, <- !app_assoc.
    by apply cells_string_app. }
  rewrite E2, bind_ret_l. exists (st_set_tmp b2 st). unfold fs_rename. rewrite Hf. by split_and!.
Qed.

Lemma app_tmp_path dir p : dir ++ tmp_path p = tmp_path (dir ++ p).
Proof. unfold tmp_path. by rewrite app_assoc. Qed.

Lemma save_checked_spec f dir p st fs data :
  at_name dir (tmp_path p) st ->
  exists st', save_checked f data st fs = Ok (st', checked f (dir ++ p) data fs) /\ names_ok dir st'.
Proof.
  intros Hst. unfold save_checked, checked. rewrite (at_name_filename _ _ _ Hst), bind_ret_l, app_tmp_path.
  destruct (f_open f); cbn [negb]; [|exists st; split; [done|apply Hst]].
  destruct (f_write f) as [c|]; [exists st; split; [done|apply Hst]|].
  destruct (f_close f) as [c|]; [exists st; split; [done|apply Hst]|].
  rewrite <- app_tmp_path. destruct (rename_tmp_spec f dir p st (<[dir ++ tmp_path p := data]> fs) data Hst) as (st' & -> & Hok);
    [apply lookup_insert_eq|]. exists st'. split; [|done]. unfold renamed. rewrite <- app_tmp_path.
  by rewrite delete_insert_eq.
Qed.

Lemma save_printed_spec f dir p st fs text :
  at_name dir (tmp_path p) st ->
  exists st', save_printed f text st fs = Ok (st', printed f (dir ++ p) text fs) /\ names_ok dir st'.
Proof.
  intros Hst. unfold save_printed, printed. rewrite (at_name_filename _ _ _ Hst), bind_ret_l, app_tmp_path.
  destruct (f_open f); cbn [negb]; [|exists st; split; [done|apply Hst]].
  destruct (f_close f) as [c|]; [exists st; split; [done|apply Hst]|].
  rewrite <- app_tmp_path. edestruct (rename_tmp_spec f dir p st) as (st' & -> & Hok); [exact Hst|apply lookup_insert_eq|].
  exists st'. split; [|done]. unfold renamed. rewrite <- app_tmp_path. by rewrite delete_insert_eq.
Qed.

(** ** Objects *)

Definition blob_ok (blob : file_blob) : Prop := 0 <= fb_type blob < 2 ^ 32.
(** The contents of the file of a blob: its type and its data. *)
Definition blob_text (blob : file_blob) : list Z := be_split 4 (fb_type blob) ++ fb_data blob.
Definition hash_ok (hash : list Z) : Prop := zlen hash = NTB_PROTO_HASH_LENGTH /\ bytes hash.
#[global] Instance hash_ok_dec hash : Decision (hash_ok hash).
Proof. unfold hash_ok. apply _. Defined.

Lemma hash_path_short hash : hash_ok hash -> zlen (str_bytes "objects/" ++ hex hash) = 72.
Proof.
  intros [Hz _]. rewrite zlen_app. change (zlen (str_bytes "objects/")) with 8. unfold zlen in *. rewrite hex_length.
  unfold NTB_PROTO_HASH_LENGTH in Hz. lia.
Qed.

Lemma hash_filename dir hash st :
  names_ok dir st -> hash_ok hash ->
  exists st', set_hash_filename st hash = Ok st' /\ at_name dir (str_bytes "objects/" ++ hex hash) st'.
Proof. intros Hok [Hz Hb]. apply set_hash_filename_spec; [done|done|]. rewrite Hz. done. Qed.

Lemma save_blob_spec f dir hash blob st fs :
  names_ok dir st -> hash_ok hash -> blob_ok blob ->
  exists st', handle_save_blob f hash blob st fs = Ok (st', checked f (object_path dir hash) (blob_text blob) fs) /\
    names_ok dir st'.
Proof.
  intros Hok Hh Hb. unfold handle_save_blob. destruct (hash_filename dir hash st Hok Hh) as (st1 & -> & H1). rewrite bind_ret_l.
  destruct (append_tmp_spec _ _ _ H1) as (st2 & -> & H2); [rewrite hash_path_short by done; lia|]. rewrite bind_ret_l.
  rewrite uint32_store_to_be by done. by apply save_checked_spec.
Qed.

Definition loaded_blob (contents : list Z) : option file_blob :=
  if zlen contents <? 4 then None else Some (FileBlob (be_combine (take 4 contents)) (drop 4 contents)).

Lemma load_from_file_spec contents : bytes contents -> load_blob_from_file contents = Ok (loaded_blob contents).
Proof.
  intros Hb. unfold load_blob_from_file, loaded_blob. destruct (Z.ltb_spec (zlen contents) 4) as [|Hz]; [done|].
  unfold ntb_proto_get_32. rewrite read_bytes_Ok by (unfold zlen in Hz; lia). rewrite bind_ret_l.
  rewrite uint32_from_be_load; [done|rewrite length_take; unfold zlen in Hz; lia|by apply bytes_take].
Qed.

Lemma load_blob_text blob : blob_ok blob -> loaded_blob (blob_text blob) = Some blob.
Proof.
  intros Hb. unfold loaded_blob, blob_text. rewrite zlen_app, zlen_be_split. zlen_pose. rewrite (proj2 (Z.ltb_ge _ 4)) by lia.
  rewrite take_app_length', drop_app_length' by by rewrite length_be_split. rewrite be_combine_split. destruct blob as [t d].
  unfold blob_ok in Hb. cbn [fb_type fb_data] in *. change (256 ^ Z.of_nat 4) with (2 ^ 32). by rewrite Z.mod_small.
Qed.

(** Every file of the store holds bytes. *)
Definition fs_ok (fs : file_system) : Prop := map_Forall (fun _ c => bytes c) fs.

Lemma load_blob_spec f dir hash st fs :
  names_ok dir st -> hash_ok hash -> fs_ok fs ->
  exists st', load_blob_file f hash st fs =
    Ok (st', if f_open f then fs !! object_path dir hash ≫= loaded_blob else None) /\ names_ok dir st'.
Proof.
  intros Hok Hh Hfs. unfold load_blob_file. destruct (hash_filename dir hash st Hok Hh) as (st1 & -> & H1).
  rewrite bind_ret_l, (at_name_filename _ _ _ H1), bind_ret_l. exists st1. split; [|apply H1].
  fold (object_path dir hash). destruct (f_open f); [|done].
  destruct (fs !! object_path dir hash) as [c|] eqn:E; [|done]. rewrite load_from_file_spec; [done|]. by apply (Hfs (object_path dir hash)).
Qed.

Lemma delete_object_spec f dir hash st fs :
  names_ok dir st -> hash_ok hash ->
  exists st', handle_delete_object f hash st fs = Ok (st', fs_unlink f (object_path dir hash) fs) /\ names_ok dir st'.
Proof.
  intros Hok Hh. unfold handle_delete_object. destruct (hash_filename dir hash st Hok Hh) as (st1 & -> & H1).
  rewrite bind_ret_l, (at_name_filename _ _ _ H1), bind_ret_l. exists st1. split; [done|apply H1].
Qed.

(** ** Message contents *)

Lemma content_path_short id : zlen (str_bytes "outgoing/" ++ hex_16 id) = 25.
Proof.
  rewrite zlen_app. change (zlen (str_bytes "outgoing/")) with 9. change (hex_16 id) with (hex (be_split 8 id)).
  unfold zlen. by rewrite hex_length, length_be_split.
Qed.

Lemma save_content_spec f dir id data st fs :
  names_ok dir st ->
  exists st', handle_save_message_content f id data st fs = Ok (st', checked f (content_path dir id) data fs) /\ names_ok dir st'.
Proof.
  intros Hok. unfold handle_save_message_content. destruct (set_content_filename_spec dir id st Hok) as (st1 & -> & H1). rewrite bind_ret_l.
  destruct (append_tmp_spec _ _ _ H1) as (st2 & -> & H2); [rewrite content_path_short; lia|]. rewrite bind_ret_l. by apply save_checked_spec.
Qed.
Lemma load_content_spec f dir id st fs :
  names_ok dir st ->
  exists st', load_message_content_file f id st fs =
    Ok (st', FileBlob 2 <$> (if f_open f then fs !! content_path dir id else None)) /\ names_ok dir st'.
Proof.
  intros Hok. unfold load_message_content_file. destruct (set_content_filename_spec dir id st Hok) as (st1 & -> & H1).
  rewrite bind_ret_l, (at_name_filename _ _ _ H1), bind_ret_l. exists st1. split; [done|apply H1].
Qed.
Lemma delete_content_spec f dir id st fs :
  names_ok dir st ->
  exists st', handle_delete_message_content f id st fs = Ok (st', fs_unlink f (content_path dir id) fs) /\ names_ok dir st'.
Proof.
  intros Hok. unfold handle_delete_message_content. destruct (set_content_filename_spec dir id st Hok) as (st1 & -> & H1).
  rewrite bind_ret_l, (at_name_filename _ _ _ H1), bind_ret_l. exists st1. split; [done|apply H1].
Qed.

(** ** Lists *)

Lemma save_named_list f dir p text st fs :
  names_ok dir st -> 0 ∉ p -> zlen p <= 1000 ->
  exists st', (st ← set_filename st (tmp_path p); save_printed f text st fs) = Ok (st', printed f (dir ++ p) text fs) /\ names_ok dir st'.
Proof.
  intros Hok Hp Hz. destruct (set_filename_spec dir (tmp_path p) st) as (st1 & -> & H1); [done| |unfold tmp_path; rewrite zlen_app; change (zlen (str_bytes ".tmp")) with 4; lia|].
  { apply not_elem_of_app. split; [done|apply tmp_no_nul]. }
  rewrite bind_ret_l. by apply save_printed_spec.
Qed.

Definition addr_list_name : list Z := str_bytes "addr-list.txt".

Section addr_list.
Context `{InetLaws}.

Definition store_addr_ok (a : ntb_store_addr) : Prop :=
  - 2 ^ 63 <= sa_timestamp a < 2 ^ 63 /\ 0 <= sa_stream a < 2 ^ 32 /\ 0 <= sa_services a < 2 ^ 64 /\ na_wf (sa_address a).
#[global] Instance store_addr_ok_dec a : Decision (store_addr_ok a).
Proof. unfold store_addr_ok. apply _. Defined.

Lemma save_addr_list_spec f dir addrs st fs :
  names_ok dir st ->
  exists st', handle_save_addr_list f addrs st fs =
    Ok (st', printed f (dir ++ addr_list_name) (mjoin (addr_line <$> addrs)) fs) /\ names_ok dir st'.
Proof.
  intros Hok. apply (save_named_list f dir addr_list_name); [done|apply (bool_decide_unpack _); vm_compute; exact I|done].
Qed.

(** The text of an address is one word. *)
Lemma address_word a : na_wf a -> Forall (fun c => 32 < c < 128) (ntb_netaddress_to_string a) /\ zlen (ntb_netaddress_to_string a) <= 64.
Proof.
  intros (Hl & Hb & Hp). unfold ntb_netaddress_to_string. set (text := if bytes_eqb _ _ then _ else _).
  assert (Ht : Forall (fun c => 32 < c < 128) text /\ (length text <= 64)%nat).
  { unfold text. destruct (bytes_eqb (take 12 (na_host a)) ipv4_magic).
    - assert (Hl4 : length (drop 12 (na_host a)) = 4%nat) by (rewrite length_drop; lia).
      assert (Hb4 : bytes (drop 12 (na_host a))) by (by apply bytes_drop).
      split; [|pose proof (inet_ntop4_size _ Hl4 Hb4); lia]. eapply Forall_impl; [by apply inet_ntop4_chars|].
      cbn. intros c [Hc| ->]; [unfold NetText.is_digit in Hc; lia|lia].
    - pose proof (inet_ntop6_size _ Hl Hb) as Hs. unfold INET6_ADDRSTRLEN, zlen in Hs. split.
      + constructor; [lia|]. apply Forall_app. split; [|by repeat constructor].
        eapply Forall_impl; [by apply inet_ntop6_chars|]. cbn. unfold inet6_char. lia.
      + cbn [length]. rewrite length_app. cbn [length]. lia. }
  destruct Ht as [Ht Htl]. split.
  - apply Forall_app. split; [done|]. apply Forall_take. constructor; [lia|].
    eapply Forall_impl; [apply dec_chars; lia|]. cbn. unfold NetText.is_digit. lia.
  - unfold zlen. rewrite length_app, length_take. lia.
Qed.

Lemma strlen_app s q : 0 ∉ s -> strlen (s ++ 0 :: q) = Ok (length s).
Proof.
  induction s as [|c s IH]; [done|]. intros [Hc Hs]%not_elem_of_cons. cbn [app strlen].
  rewrite (proj2 (Z.eqb_neq c 0)) by done. by rewrite IH, bind_ret_l.
Qed.

Lemma parse_addr_line a : store_addr_ok a -> process_addr_line (addr_line a ++ [0]) = Ok (Some a).
Proof.
  intros (Ht & Hs & Hv & Ha). destruct (address_word _ Ha) as [Hc Hz]. unfold process_addr_line, addr_line.
  set (t := ntb_netaddress_to_string (sa_address a)) in *.
  replace ((dec_signed (sa_timestamp a) ++ 44 :: dec (sa_stream a) ++ 44 :: dec (sa_services a) ++ 44 :: t ++ [10]) ++ [0])
    with (dec_signed (sa_timestamp a) ++ 44 :: dec (sa_stream a) ++ 44 :: dec (sa_services a) ++ 44 :: t ++ [10; 0])
    by (rewrite <- !app_assoc; cbn [app]; rewrite <- !app_assoc; cbn [app]; rewrite <- !app_assoc; cbn [app]; by rewrite <- !app_assoc).
  rewrite strtoll_dec, bind_ret_l, drop_app_length by done. cbn [deref]. rewrite bind_ret_l.
  rewrite bool_decide_eq_false_2 by (unfold dec_signed; destruct (_ <? 0); [done|]; by destruct (dec_nonempty (sa_timestamp a)) as (? & ? & ->)).
  cbn [orb negb Z.eqb Pos.eqb]. rewrite <- drop_drop, drop_app_length. cbn [drop]. rewrite drop_0.
  rewrite strtoul_dec, bind_ret_l, drop_app_length by (done || lia). cbn [deref]. rewrite bind_ret_l.
  rewrite bool_decide_eq_false_2 by (by destruct (dec_nonempty (sa_stream a)) as (? & ? & ->)).
  cbn [orb negb Z.eqb Pos.eqb]. rewrite <- drop_drop, drop_app_length. cbn [drop]. rewrite drop_0.
  rewrite strtoul_dec, bind_ret_l, drop_app_length by (done || lia). cbn [deref]. rewrite bind_ret_l.
  rewrite bool_decide_eq_false_2 by (by destruct (dec_nonempty (sa_services a)) as (? & ? & ->)).
  cbn [orb negb Z.eqb Pos.eqb]. rewrite <- drop_drop, drop_app_length. cbn [drop]. rewrite drop_0.
  change (t ++ [10; 0]) with (t ++ [10] ++ 0 :: []). rewrite app_assoc.
  assert (Hn0 : 0 ∉ t ++ [10]) by (apply not_elem_of_app; split; [eapply not_in_Forall; [exact Hc|cbn; lia]|by intros [[=]|?%elem_of_nil]%elem_of_cons]).
  rewrite strlen_app, bind_ret_l by done. rewrite length_app. cbn [length]. rewrite bool_decide_eq_true_2 by lia.
  replace (length t + 1 - 1)%nat with (length t) by lia. rewrite <- app_assoc. cbn [app andb].
  rewrite lookup_app_r, Nat.sub_diag by lia. cbn [lookup list_lookup]. rewrite bool_decide_eq_true_2 by done.
  rewrite insert_app_r_alt, Nat.sub_diag by lia. cbn [insert list_insert].
  unfold t. rewrite from_to_string by done. rewrite u32_small by done. by destruct a.
Qed.

Lemma fgets_line n l rest :
  Forall (fun c => c <> 10) l -> (length l < n)%nat -> fgets n (l ++ 10 :: rest) = (l ++ [10], rest).
Proof.
  revert n. induction l as [|c l IH]; intros n Hl Hn; (destruct n as [|n]; [cbn in Hn; lia|]); [done|].
  apply Forall_cons in Hl as [Hc Hl]. cbn [app fgets]. rewrite (proj2 (Z.eqb_neq c 10)) by done.
  cbn in Hn. by rewrite IH by (done || lia).
Qed.

Lemma addr_line_shape a :
  store_addr_ok a -> exists l, addr_line a = l ++ [10] /\ Forall (fun c => c <> 10) l /\ (length l < 1023)%nat.
Proof.
  intros (Ht & Hs & Hv & Ha). destruct (address_word _ Ha) as [Hc Hz].
  pose proof (zlen_dec_signed _ Ht) as Z1. pose proof (zlen_dec (sa_stream a)) as Z2. pose proof (zlen_dec (sa_services a)) as Z3.
  exists (dec_signed (sa_timestamp a) ++ 44 :: dec (sa_stream a) ++ 44 :: dec (sa_services a) ++ 44 :: ntb_netaddress_to_string (sa_address a)).
  split_and!.
  - unfold addr_line. rewrite <- !app_assoc. cbn [app]. rewrite <- !app_assoc. cbn [app]. rewrite <- !app_assoc. done.
  - assert (Hd : forall n, 0 <= n -> Forall (fun c => c <> 10) (dec n)).
    { intros n Hn. eapply Forall_impl; [by apply dec_chars|]. cbn. unfold NetText.is_digit. lia. }
    apply Forall_app. split; [eapply Forall_impl; [apply plain_dec_signed|]; cbn; lia|]. constructor; [lia|].
    apply Forall_app. split; [apply Hd; lia|]. constructor; [lia|]. apply Forall_app. split; [apply Hd; lia|]. constructor; [lia|].
    eapply Forall_impl; [exact Hc|]. cbn. lia.
  - enough (Hq : zlen (dec_signed (sa_timestamp a) ++ 44 :: dec (sa_stream a) ++ 44 :: dec (sa_services a) ++ 44 :: ntb_netaddress_to_string (sa_address a)) < 1023)
      by (unfold zlen in Hq; lia).
    rewrite zlen_app, zlen_cons, zlen_app, zlen_cons, zlen_app, zlen_cons. lia.
Qed.

Lemma addr_lines_spec {U} (func : ntb_store_addr -> U -> U) addrs : forall fuel u,
  Forall store_addr_ok addrs -> (length (mjoin (addr_line <$> addrs)) <= fuel)%nat ->
  addr_lines fuel func (mjoin (addr_line <$> addrs)) u = Ok (fold_left (fun u a => func a u) addrs u).
Proof.
  induction addrs as [|a addrs IH]; intros fuel u Ha Hf.
  { by destruct fuel. }
  apply Forall_cons in Ha as [Ha Has]. destruct (addr_line_shape a Ha) as (l & El & Hl & Hz).
  rewrite fmap_cons in *. change (mjoin (addr_line a :: (addr_line <$> addrs))) with (addr_line a ++ mjoin (addr_line <$> addrs)) in *.
  rewrite El in *. rewrite <- app_assoc in *. cbn [app] in *. rewrite length_app in Hf. cbn [length] in Hf.
  destruct fuel as [|fuel]; [lia|].
  replace (addr_lines (S fuel) func (l ++ 10 :: mjoin (addr_line <$> addrs)) u)
    with (let '(line, rest) := fgets 1023 (l ++ 10 :: mjoin (addr_line <$> addrs)) in
          addr ← process_addr_line (line ++ [0]);
          addr_lines fuel func rest (match addr with Some a => func a u | None => u end)) by by destruct l.
  rewrite fgets_line by done. rewrite <- El, parse_addr_line, bind_ret_l by done. cbn [fold_left]. apply IH; [done|lia].
Qed.

Lemma for_each_addr_spec {U} dir (func : ntb_store_addr -> U -> U) addrs st fs u :
  names_ok dir st -> Forall store_addr_ok addrs ->
  fs !! (dir ++ addr_list_name) = Some (mjoin (addr_line <$> addrs)) ->
  exists st', ntb_store_for_each_addr no_faults func st fs u = Ok (st', fold_left (fun u a => func a u) addrs u) /\ names_ok dir st'.
Proof.
  intros Hok Ha Hf. unfold ntb_store_for_each_addr.
  destruct (set_filename_spec dir addr_list_name st) as (st1 & E & H1); [done|apply (bool_decide_unpack _); vm_compute; exact I|done|].
  fold addr_list_name. rewrite E, bind_ret_l, (at_name_filename _ _ _ H1), bind_ret_l. cbn [f_open no_faults]. rewrite Hf.
  rewrite addr_lines_spec, bind_ret_l by done. exists st1. split; [done|apply H1].
Qed.
End addr_list.

(** ** Reading the objects at start-up *)

Lemma hex_byte_value b :
  is_byte b -> u8 (Z.lor (Z.shiftl (hex_digit_value (hex_char (b / 16))) 4) (hex_digit_value (hex_char (b mod 16)))) = b.
Proof.
  intros Hb.
  set (v := fun b => u8 (Z.lor (Z.shiftl (hex_digit_value (hex_char (b / 16))) 4) (hex_digit_value (hex_char (b mod 16))))).
  apply Z.eqb_eq. apply (byte_forallb_spec (fun b => v b =? b)); [vm_compute; reflexivity|done].
Qed.

Lemma parse_hash_hex hash q :
  bytes hash -> parse_hash (length hash) (hex hash ++ q) = Ok (Some (hash, q)).
Proof.
  induction 1 as [|b hash Hb Hbs IH]; [done|]. rewrite hex_cons, <- app_assoc. cbn [length parse_hash hex_byte app deref].
  unfold is_byte in Hb. pose proof (Z.mod_pos_bound b 16).
  destruct (hex_char_range (b / 16)) as (_ & E0 & _); [split; [apply Z.div_pos; lia|apply Z.div_lt_upper_bound; lia]|].
  destruct (hex_char_range (b mod 16)) as (_ & E1 & _); [lia|].
  rewrite bind_ret_l, E0. cbn [negb drop deref]. rewrite bind_ret_l, E1. cbn [negb]. rewrite drop_0, IH, bind_ret_l.
  cbn [mbind option_bind]. by rewrite hex_byte_value.
Qed.

Lemma hex_inj h1 h2 : bytes h1 -> bytes h2 -> hex h1 = hex h2 -> h1 = h2.
Proof.
  intros Hb1 Hb2 E. assert (El : length h1 = length h2).
  { apply (f_equal length) in E. rewrite !hex_length in E. lia. }
  pose proof (parse_hash_hex h1 [] Hb1) as P1. pose proof (parse_hash_hex h2 [] Hb2) as P2. rewrite E, El, P2 in P1. congruence.
Qed.

Lemma object_path_inj dir h1 h2 : bytes h1 -> bytes h2 -> object_path dir h1 = object_path dir h2 -> h1 = h2.
Proof. unfold object_path. intros Hb1 Hb2 E. simplify_list_eq. by apply hex_inj. Qed.

(** A file of the directory: the hash in its name, and its contents. *)
Record object := Object { ob_hash : list Z; ob_contents : list Z }.

Definition ob_type (o : object) : option ntb_proto_inv_type := inv_type_of (be_combine (take 4 (ob_contents o))).
(** The timestamp behind the nonce: 32 bits, or 64 when these are zero. *)
Definition ob_timestamp (o : object) : Z :=
  let p := drop 12 (ob_contents o) in
  if be_combine (take 4 p) =? 0 then be_combine (take 4 (drop 4 p)) else be_combine (take 4 p).
Definition object_ok (o : object) : Prop :=
  hash_ok (ob_hash o) /\ bytes (ob_contents o) /\ 20 <= zlen (ob_contents o) /\ is_Some (ob_type o).
#[global] Instance object_ok_dec o : Decision (object_ok o).
Proof. unfold object_ok. apply _. Defined.

Definition expired (now : Z) (type : ntb_proto_inv_type) (timestamp : Z) : bool :=
  ntb_proto_get_max_age_for_type type + NTB_PROTO_EXTRA_AGE <=? now - timestamp.

Lemma get_32_take p : 4 <= zlen p -> bytes p -> ntb_proto_get_32 p = Ok (be_combine (take 4 p)).
Proof.
  intros Hz Hb. unfold ntb_proto_get_32. rewrite read_bytes_Ok by (unfold zlen in Hz; lia). rewrite bind_ret_l.
  rewrite uint32_from_be_load; [done|rewrite length_take; unfold zlen in Hz; lia|by apply bytes_take].
Qed.

Section start_up.
Context {U : Type} (g : ntb_proto_inv_type -> list Z -> Z -> list Z -> U -> U).

(** What happens for one object. *)
Definition visit (now : Z) (o : object) (u : U) : U :=
  match ob_type o with
  | Some type => if expired now type (ob_timestamp o) then u else g type (ob_hash o) (ob_timestamp o) (ob_contents o) u
  | None => u
  end.
Definition purge (dir : list Z) (now : Z) (o : object) (fs : file_system) : file_system :=
  match ob_type o with
  | Some type => if expired now type (ob_timestamp o) then delete (object_path dir (ob_hash o)) fs else fs
  | None => fs
  end.

Lemma process_object dir now o st fs u :
  names_ok dir st -> object_ok o -> fs !! object_path dir (ob_hash o) = Some (ob_contents o) ->
  process_file (fun type hash timestamp contents u => Ok (g type hash timestamp contents u)) no_faults now st
    (object_path dir (ob_hash o) ++ [0]) fs u = Ok (purge dir now o fs, visit now o u).
Proof.
  intros (Hd & _ & Hdl & _) ([Hhz Hhb] & Hcb & Hcz & [type Ht]) Hf. unfold process_file, visit, purge. rewrite Ht. rewrite Hdl.
  assert (Hp : 0 ∉ object_path dir (ob_hash o)).
  { unfold object_path. rewrite !not_elem_of_app. split_and!; [done|apply objects_no_nul|by apply hex_no_nul]. }
  assert (Ed : drop (Z.to_nat (zlen dir + 8)) (object_path dir (ob_hash o) ++ [0]) = hex (ob_hash o) ++ [0]).
  { unfold object_path. rewrite !app_assoc, <- (app_assoc (dir ++ _)). apply drop_app_length'. rewrite length_app. unfold zlen. cbn. lia. }
  rewrite Ed. replace (Z.to_nat NTB_PROTO_HASH_LENGTH) with (length (ob_hash o)) by (unfold zlen in Hhz; lia).
  rewrite parse_hash_hex, bind_ret_l by done. cbn [deref]. rewrite bind_ret_l.
  change (bytes_eqb (c_text [0]) (str_bytes ".tmp")) with false. cbn iota. cbn [negb Z.eqb f_open no_faults].
  assert (Ec : c_text (object_path dir (ob_hash o) ++ [0]) = object_path dir (ob_hash o)).
  { clear -Hp. induction (object_path dir (ob_hash o)) as [|c l IH]; [done|]. apply not_elem_of_cons in Hp as [Hc Hp].
    cbn [app c_text]. rewrite (proj2 (Z.eqb_neq c 0)) by done. by rewrite IH. }
  rewrite Ec, Hf. rewrite (proj2 (Z.ltb_ge _ (4 + 8 * 2))) by lia.
  assert (Htk : zlen (take 20 (ob_contents o)) = 20) by (rewrite zlen_take; lia).
  rewrite get_32_take, bind_ret_l by (lia || by apply bytes_take). rewrite take_take. change (4 `min` 20)%nat with 4%nat.
  assert (Ets : ntb_proto_get_timestamp (drop 12 (take 20 (ob_contents o)), 8) =
    Ok (ob_timestamp o, if be_combine (take 4 (drop 12 (ob_contents o))) =? 0 then (drop 4 (drop 4 (drop 12 (take 20 (ob_contents o)))), 0)
                        else (drop 4 (drop 12 (take 20 (ob_contents o))), 4))).
  { assert (Hb12 : bytes (drop 12 (take 20 (ob_contents o)))) by by apply bytes_drop, bytes_take.
    unfold ntb_proto_get_timestamp, ob_timestamp. cbn [fst snd]. change (8 <? 4) with false. cbn iota.
    assert (Hz12 : zlen (drop 12 (take 20 (ob_contents o))) = 8) by (rewrite zlen_drop, Htk; done).
    rewrite (get_32_take (drop 12 (take 20 (ob_contents o)))), bind_ret_l by (done || lia).
    replace (take 4 (drop 12 (take 20 (ob_contents o)))) with (take 4 (drop 12 (ob_contents o)))
      by (rewrite skipn_firstn_comm, take_take; done).
    destruct (be_combine (take 4 (drop 12 (ob_contents o))) =? 0); [|done].
    unfold advance. cbn [fst snd]. change (u32 (8 - 4) <? 4) with false. cbn iota. change (Z.to_nat 4) with 4%nat.
    rewrite get_32_take, bind_ret_l; [|rewrite zlen_drop, Hz12; done|by apply bytes_drop].
    replace (take 4 (drop 4 (drop 12 (take 20 (ob_contents o))))) with (take 4 (drop 4 (drop 12 (ob_contents o))))
      by (rewrite !drop_drop, skipn_firstn_comm, take_take; done). done. }
  rewrite Ets, bind_ret_l. unfold ob_type in Ht. rewrite Ht. cbn [need]. rewrite bind_ret_l.
  unfold expired. destruct (_ <=? _); done.
Qed.

Lemma purge_lookup dir now o o' fs :
  object_ok o -> object_ok o' -> ob_hash o <> ob_hash o' ->
  purge dir now o fs !! object_path dir (ob_hash o') = fs !! object_path dir (ob_hash o').
Proof.
  intros ([_ Hb] & _) ([_ Hb'] & _) Hne. unfold purge. repeat case_match; try done. apply lookup_delete_ne.
  intros E. by apply Hne, (object_path_inj dir).
Qed.

Lemma process_objects dir now os : forall st fs u,
  names_ok dir st -> take (length dir + 8) (buf_data (st_filename_buf st)) = Some <$> (dir ++ str_bytes "objects/") ->
  Forall object_ok os -> NoDup (ob_hash <$> os) ->
  Forall (fun o => fs !! object_path dir (ob_hash o) = Some (ob_contents o)) os ->
  exists st', process_files (fun type hash timestamp contents u => Ok (g type hash timestamp contents u)) no_faults now
      ((fun o => hex (ob_hash o)) <$> os) st fs u =
    Ok (st', fold_left (fun fs o => purge dir now o fs) os fs, fold_left (fun u o => visit now o u) os u) /\ names_ok dir st'.
Proof.
  induction os as [|o os IH]; intros st fs u Hok Hpre Hos Hnd Hfs; [by exists st|].
  apply Forall_cons in Hos as [Ho Hos], Hfs as [Hf Hfs]. rewrite fmap_cons in Hnd. apply NoDup_cons in Hnd as [Hni Hnd].
  pose proof Ho as ([Hhz Hhb] & _). pose proof Hok as (_ & Hdz & Hdl & Hwf & _). zlen_pose.
  assert (Hhx : zlen (hex (ob_hash o)) = 64) by (unfold zlen in *; rewrite hex_length; unfold NTB_PROTO_HASH_LENGTH in Hhz; lia).
  assert (Hr : repr (with_length (zlen dir + 8) (st_filename_buf st)) (dir ++ str_bytes "objects/")).
  { rewrite <- (firstn_all (dir ++ str_bytes "objects/")) at 1.
    replace (length (dir ++ str_bytes "objects/")) with (Z.to_nat (zlen dir + 8)) by (rewrite length_app; unfold zlen; cbn; lia).
    apply take_data; [done|lia|rewrite length_app; unfold zlen; cbn; lia|]. rewrite length_app. exact Hpre. }
  rewrite fmap_cons. cbn [process_files]. rewrite Hdl.
  destruct (append_string_named _ _ (hex (ob_hash o)) Hr) as (b & -> & Hn); [rewrite zlen_app; change (zlen (str_bytes "objects/")) with 8; lia|].
  rewrite bind_ret_l, <- app_assoc in *.
  assert (Hst : at_name dir (str_bytes "objects/" ++ hex (ob_hash o)) (st_set_filename b st)).
  { apply named_at_name; [done|done| |rewrite zlen_app; change (zlen (str_bytes "objects/")) with 8; lia].
    apply not_elem_of_app. split; [apply objects_no_nul|by apply hex_no_nul]. }
  rewrite (at_name_filename _ _ _ Hst), bind_ret_l. fold (object_path dir (ob_hash o)).
  rewrite process_object, bind_ret_l by (done || apply Hst). cbn [fold_left]. apply IH; [apply Hst| |done|done|].
  - destruct Hn as [_ Hn]. cbn [st_filename_buf st_set_filename]. rewrite !app_assoc in Hn. rewrite <- (app_assoc (dir ++ _)) in Hn.
    apply (f_equal (take (length dir + 8))) in Hn. rewrite take_take in Hn.
    replace ((length dir + 8) `min` _)%nat with (length dir + 8)%nat in Hn by (rewrite !length_app; cbn; lia).
    rewrite Hn, fmap_app. apply take_app_length'. rewrite length_fmap, length_app. done.
  - apply Forall_forall. intros o' Ho'. rewrite Forall_forall in Hfs, Hos.
    rewrite purge_lookup by (done || by apply Hos || (intros E; apply Hni; rewrite E; by apply list_elem_of_fmap_2)). by apply Hfs.
Qed.

Lemma for_each_blob_spec dir now os st fs u :
  names_ok dir st -> Forall object_ok os -> NoDup (ob_hash <$> os) ->
  Forall (fun o => fs !! object_path dir (ob_hash o) = Some (ob_contents o)) os ->
  exists st', for_each_blob_internal (fun type hash timestamp contents u => Ok (g type hash timestamp contents u)) no_faults now
      ((fun o => hex (ob_hash o)) <$> os) st fs u =
    Ok (st', fold_left (fun fs o => purge dir now o fs) os fs, fold_left (fun u o => visit now o u) os u) /\ names_ok dir st'.
Proof.
  intros Hok Hos Hnd Hfs. unfold for_each_blob_internal.
  destruct (set_filename_spec dir (str_bytes "objects") st) as (st1 & -> & H1); [done|apply (bool_decide_unpack _); vm_compute; exact I|done|].
  rewrite bind_ret_l. cbn [f_open no_faults negb]. pose proof H1 as ((Hd & Hdz & Hdl & Hwf & Ht & Hwt & Hm) & [Hr _] & _). zlen_pose.
  destruct (repr_append_c _ _ 47 Hr) as (b & -> & Hr'); [unfold is_byte; lia|rewrite zlen_app; change (zlen (str_bytes "objects")) with 7; lia|].
  rewrite bind_ret_l. rewrite <- app_assoc in Hr'. change (str_bytes "objects" ++ [47]) with (str_bytes "objects/") in Hr'.
  pose proof (repr_length _ _ Hr') as Hl. destruct Hr' as [Hwf' Hc'].
  assert (Hpre : take (length dir + 8) (buf_data b) = Some <$> (dir ++ str_bytes "objects/")).
  { rewrite <- Hc'. unfold cells. f_equal. rewrite Hl, zlen_app. change (zlen (str_bytes "objects/")) with 8. unfold zlen. lia. }
  apply process_objects; try done. split_and!; try done. cbn [st_filename_buf st_set_filename].
  apply (f_equal (take (length dir))) in Hpre. rewrite take_take, fmap_app, take_app_length' in Hpre by by rewrite length_fmap.
  rewrite <- Hpre. f_equal. lia.
Qed.
End start_up.

(** ** Properties *)

Lemma checked_lookup f p data fs :
  (checked f p data fs !! p = Some data \/ checked f p data fs !! p = fs !! p) /\
  (forall q, q <> p -> q <> tmp_path p -> checked f p data fs !! q = fs !! q).
Proof.
  pose proof (tmp_path_neq p) as Hne. unfold checked, renamed, fs_unlink. split.
  - destruct (f_open f); [|by right]. cbn [negb].
    destruct (f_write f), (f_close f), (f_rename f), (f_unlink f); try (left; by rewrite lookup_insert_eq); right;
      rewrite ?lookup_delete_ne, ?lookup_insert_ne by done; done.
  - intros q Hq Ht. destruct (f_open f); [|done]. cbn [negb].
    destruct (f_write f), (f_close f), (f_rename f), (f_unlink f);
      rewrite ?lookup_delete_ne, ?lookup_insert_ne, ?lookup_delete_ne by done; done.
Qed.

(** C39: saving an object is atomic whatever fails: afterwards its file holds either
    the whole new contents or what it held before, and no file other than it and its
    temporary file is touched. When nothing fails it holds the new contents, no
    temporary file is left and loading it gives the object back. *)
Theorem save_blob_atomic f dir hash blob st fs :
  names_ok dir st -> hash_ok hash -> blob_ok blob -> bytes (fb_data blob) -> fs_ok fs ->
  let p := object_path dir hash in
  exists st' fs', handle_save_blob f hash blob st fs = Ok (st', fs') /\ names_ok dir st' /\
    (fs' !! p = Some (blob_text blob) \/ fs' !! p = fs !! p) /\
    (forall q, q <> p -> q <> tmp_path p -> fs' !! q = fs !! q) /\
    (f = no_faults -> fs' !! tmp_path p = None /\
       exists st'', load_blob_file no_faults hash st' fs' = Ok (st'', Some blob)).
Proof.
  intros Hok Hh Hb Hdb Hfs p. destruct (save_blob_spec f dir hash blob st fs Hok Hh Hb) as (st' & E & Hok').
  exists st', (checked f p (blob_text blob) fs). split_and!; [done|done|apply checked_lookup|apply checked_lookup|].
  intros ->. unfold checked, renamed. cbn [no_faults f_open f_write f_close f_rename negb].
  rewrite lookup_insert_ne by (intros Ep; by apply (tmp_path_neq p)). split; [apply lookup_delete_eq|].
  destruct (load_blob_spec no_faults dir hash st' (<[p:=blob_text blob]> (delete (tmp_path p) fs)) Hok' Hh) as (st2 & -> & _).
  - apply map_Forall_insert_2; [apply bytes_app; split; [apply bytes_be_split|done]|]. by apply map_Forall_delete.
  - exists st2. cbn [no_faults f_open]. fold p. rewrite lookup_insert_eq. cbn [mbind option_bind]. by rewrite load_blob_text.
Qed.

Definition example_dir : list Z := str_bytes "/s/".
Definition example_store : ntb_store :=
  StoreNames (Buf (Some <$> example_dir) 3 3) ntb_buffer_init 3 (Buf (Some <$> str_bytes "/m/") 3 3) 3 0.

Lemma save_blob_atomic_witness :
  exists st' fs', handle_save_blob no_faults (replicate 32 9) (FileBlob 2 [1; 2]) example_store ∅ = Ok (st', fs') /\
    names_ok example_dir st' /\
    (fs' !! object_path example_dir (replicate 32 9) = Some (blob_text (FileBlob 2 [1; 2])) \/
     fs' !! object_path example_dir (replicate 32 9) = (∅ : file_system) !! object_path example_dir (replicate 32 9)) /\
    (forall q, q <> object_path example_dir (replicate 32 9) -> q <> tmp_path (object_path example_dir (replicate 32 9)) -> fs' !! q = (∅ : file_system) !! q) /\
    (no_faults = no_faults -> fs' !! tmp_path (object_path example_dir (replicate 32 9)) = None /\
       exists st'', load_blob_file no_faults (replicate 32 9) st' fs' = Ok (st'', Some (FileBlob 2 [1; 2]))).
Proof.
  apply (save_blob_atomic no_faults example_dir (replicate 32 9) (FileBlob 2 [1; 2]) example_store ∅).
  - apply (bool_decide_unpack _). vm_compute. exact I.
  - apply (bool_decide_unpack _). vm_compute. exact I.
  - vm_compute. split; congruence.
  - apply (bool_decide_unpack _). vm_compute. exact I.
  - apply map_Forall_empty.
Defined.

(** The addresses that are saved are reported again at start-up, all of them
    and in order, with the same time, stream and services. *)
Theorem addr_list_roundtrip `{InetLaws} {U} (func : ntb_store_addr -> U -> U) dir addrs st fs u :
  names_ok dir st -> Forall store_addr_ok addrs ->
  exists st1 fs1 st2, handle_save_addr_list no_faults addrs st fs = Ok (st1, fs1) /\
    ntb_store_for_each_addr no_faults func st1 fs1 u = Ok (st2, fold_left (fun u a => func a u) addrs u).
Proof.
  intros Hok Ha. destruct (save_addr_list_spec no_faults dir addrs st fs Hok) as (st1 & E & Hok1).
  edestruct (for_each_addr_spec dir func addrs st1) as (st2 & E2 & _); [done|done| |by eexists _, _, st2].
  unfold printed, renamed. cbn [no_faults f_open f_close f_write f_rename negb default]. apply lookup_insert_eq.
Qed.

#[local] Existing Instances Inet_toy InetLaws_toy.

Definition example_addr : ntb_store_addr := StoreAddr 1400000000 1 1 NetText.example_address.

Lemma addr_list_roundtrip_witness :
  exists st1 fs1 st2, handle_save_addr_list no_faults [example_addr] example_store ∅ = Ok (st1, fs1) /\
    ntb_store_for_each_addr no_faults (fun a u => u ++ [a]) st1 fs1 [] = Ok (st2, [example_addr]).
Proof.
  apply (addr_list_roundtrip (fun a u => u ++ [a]) example_dir [example_addr] example_store ∅ []);
    apply (bool_decide_unpack _); vm_compute; exact I.
Defined.

(** At start-up the objects in the store's directory are visited in the order in
    which the directory lists them: each one that is younger than the maximum age of its
    type is reported with the hash in its name, its type, its timestamp and its
    contents, each one that is older is deleted, and nothing else changes. *)
Theorem for_each_blob_visits {U} (g : ntb_proto_inv_type -> list Z -> Z -> list Z -> U -> U) dir now os st fs u :
  names_ok dir st -> Forall object_ok os -> NoDup (ob_hash <$> os) ->
  Forall (fun o => fs !! object_path dir (ob_hash o) = Some (ob_contents o)) os ->
  exists st', for_each_blob_internal (fun type hash timestamp contents u => Ok (g type hash timestamp contents u)) no_faults now
      ((fun o => hex (ob_hash o)) <$> os) st fs u =
    Ok (st', fold_left (fun fs o => purge dir now o fs) os fs, fold_left (fun u o => visit g now o u) os u) /\ names_ok dir st'.
Proof. apply for_each_blob_spec. Qed.

Definition example_object (h ts : Z) : object :=
  Object (replicate 32 h) (be_split 4 2 ++ replicate 8 0 ++ be_split 4 ts ++ replicate 10 7).

Lemma for_each_blob_visits_witness :
  let os := [example_object 1 1400000000; example_object 2 5] in
  let fs := foldr (fun o => <[object_path example_dir (ob_hash o) := ob_contents o]>) ∅ os in
  exists st', for_each_blob_internal (fun type hash timestamp contents u => Ok (u ++ [(hash, timestamp)])) no_faults 1400000100
      ((fun o => hex (ob_hash o)) <$> os) example_store fs [] =
    Ok (st', fold_left (fun fs o => purge example_dir 1400000100 o fs) os fs, [(replicate 32 1, 1400000000)]) /\ names_ok example_dir st'.
Proof.
  apply (for_each_blob_visits (fun type hash timestamp contents u => u ++ [(hash, timestamp)]) example_dir 1400000100
           [example_object 1 1400000000; example_object 2 5] example_store).
  all: apply (bool_decide_unpack _); vm_compute; exact I.
Defined.

(** The list of addresses is not saved atomically: when a write fails and
    [fclose] does not report it, the file is replaced by what was written. *)
Theorem save_addr_list_truncates `{Inet} dir addrs partial st fs :
  names_ok dir st ->
  exists st' fs', handle_save_addr_list (Faults true (Some partial) None true true) addrs st fs = Ok (st', fs') /\
    fs' !! (dir ++ addr_list_name) = Some partial.
Proof.
  intros Hok. destruct (save_addr_list_spec (Faults true (Some partial) None true true) dir addrs st fs Hok) as (st1 & E & Hok1).
  eexists _, _. split; [exact E|]. unfold printed, renamed. cbn [f_open f_close f_write f_rename negb default]. apply lookup_insert_eq.
Qed.

Lemma save_addr_list_truncates_witness :
  exists st' fs', handle_save_addr_list (Faults true (Some []) None true true) [example_addr] example_store ∅ = Ok (st', fs') /\
    fs' !! (example_dir ++ addr_list_name) = Some [].
Proof.
  apply (save_addr_list_truncates example_dir [example_addr] [] example_store ∅). apply (bool_decide_unpack _). vm_compute. exact I.
Defined.
