(* ===== verification/SaveMessage.v ===== *)
(** * SaveMessage: received messages as mail (ntb-save-message.c)

    The file that is written is a list of bytes. The local time is a parameter. *)

From S2P Require Import Prelude Ident Endian Buffer NetAddress OpenSSL Proto ProtoSpec NetText KeyValue Base58 Address Outgoings Ecc Keys Base64 StoreFiles.

(** [struct tm], as far as it is used. *)
Record tm := Tm {
  tm_wday : Z; tm_mday : Z; tm_mon : Z; tm_year : Z;
  tm_hour : Z; tm_min : Z; tm_sec : Z; tm_gmtoff : Z
}.

(** [localtime_r] *)
Class Clock := { localtime : Z -> tm }.

Class ClockLaws `{Clock} : Prop := {
  localtime_wday t : 0 <= tm_wday (localtime t) < 7;
  localtime_mon t : 0 <= tm_mon (localtime t) < 12
}.

Inductive label_classification := LABEL_NONE | LABEL_RAW | LABEL_QUOTES | LABEL_ENCODE.

#[global] Instance label_classification_eq_dec : EqDecision label_classification.
Proof. solve_decision. Defined.

(** The loop that looks for [=?]. *)
Fixpoint has_word_start (subject : list Z) : bool :=
  match subject with
  | c :: (d :: _) as rest => ((c =? 61) && (d =? 63)) || has_word_start rest
  | _ => false
  end.

Definition need_encoded_words (subject : list Z) : bool :=
  (76 - 9 <? zlen subject) || existsb (fun c => (128 <=? c) || (c <? 32)) subject || has_word_start subject.

Definition max_encoded_length : Z := 76 - 9 - 10 - 2.
Definition max_chunk_length : Z := max_encoded_length / 4 * 3.

(** One encoded word is written for each chunk. The assertion comes after the encoder
    has written into [buf], so it stands for the room there too. *)
Fixpoint write_encoded_words (fuel : nat) (subject : list Z) : result unit (list Z) :=
  match fuel with
  | O => OutOfFuel
  | S fuel =>
      let chunk_size := Z.to_nat (Z.min max_chunk_length (zlen subject)) in
      let buf := ntb_base64_encode (take chunk_size subject) in
      _ ← c_assert (zlen buf <=? (max_chunk_length * 4 + 2) / 3);
      let word := str_bytes "=?UTF-8?B?" ++ buf ++ str_bytes "?=" in
      let subject := drop chunk_size subject in
      if zlen subject <=? 0 then Ok word
      else rest ← write_encoded_words fuel subject; Ok (word ++ 10 :: 32 :: rest)
  end.

Definition write_subject (subject : list Z) : result unit (list Z) :=
  if need_encoded_words subject then write_encoded_words (S (length subject)) subject else Ok subject.

(** [ch] is a [char] that is not 0. *)
Definition is_atom_char (ch : Z) : bool :=
  bool_decide (ch ∈ str_bytes "!#$%&'*+-/=?^_`{|}~") || ((97 <=? ch) && (ch <=? 122)) || ((65 <=? ch) && (ch <=? 90)) ||
  ((48 <=? ch) && (ch <=? 57)).

Fixpoint classify_loop (classification : label_classification) (p : list Z) : label_classification :=
  match p with
  | [] => classification
  | c :: p =>
      let c := s8 c in
      if (c <? 32) || (127 <? c) || (c =? 34) || (c =? 92) then LABEL_ENCODE
      else if is_atom_char c then
        classify_loop (match classification with LABEL_NONE => LABEL_RAW | _ => classification end) p
      else classify_loop LABEL_QUOTES p
  end.

(** [%02i] *)
Definition pad2 (n : Z) : list Z := let t := dec_signed n in if zlen t <? 2 then 48 :: t else t.

Definition day_names : list (list Z) := str_bytes <$> ["Sun"; "Mon"; "Tue"; "Wed"; "Thu"; "Fri"; "Sat"].
Definition month_names : list (list Z) :=
  str_bytes <$> ["Jan"; "Feb"; "Mar"; "Apr"; "May"; "Jun"; "Jul"; "Aug"; "Sep"; "Oct"; "Nov"; "Dec"].

(** [memchr(p, c, n)] as an index. *)
Fixpoint memchr (c : Z) (p : list Z) : option nat :=
  match p with [] => None | d :: p => if d =? c then Some O else S <$> memchr c p end.

Section save_message.
Context `{Digests} `{BigNum} `{!Elliptic} `{Symmetric} `{Digest256} `{Clock}.

Definition classify_label (key : option ntb_key) : label_classification :=
  match key with None => LABEL_NONE | Some key => classify_loop LABEL_NONE (key_label key) end.

(** [key->label] is only read when there is a key. *)
Definition write_address (key : option ntb_key) (address : list Z) : result unit (list Z) :=
  let label := match key with Some key => key_label key | None => [] end in
  match classify_label key with
  | LABEL_NONE => Ok (address ++ str_bytes "@bitmessage")
  | LABEL_RAW => Ok (label ++ str_bytes " <" ++ address ++ str_bytes "@bitmessage>")
  | LABEL_QUOTES => Ok (34 :: label ++ 34 :: str_bytes " <" ++ address ++ str_bytes "@bitmessage>")
  | LABEL_ENCODE =>
      words ← write_encoded_words (S (length label)) label;
      Ok (words ++ str_bytes " <" ++ address ++ str_bytes "@bitmessage>")
  end.

Definition write_date (tm : tm) : result unit (list Z) :=
  day ← need (day_names !! Z.to_nat (tm_wday tm));
  month ← need (month_names !! Z.to_nat (tm_mon tm));
  Ok (str_bytes "Date: " ++ day ++ str_bytes ", " ++ dec_signed (tm_mday tm) ++ 32 :: month ++ 32 :: dec_signed (tm_year tm + 1900) ++
      32 :: pad2 (tm_hour tm) ++ 58 :: pad2 (tm_min tm) ++ 58 :: pad2 (tm_sec tm) ++ 32 ::
      (if tm_gmtoff tm <? 0 then 45 else 43) :: pad2 (Z.abs (tm_gmtoff tm) / 3600) ++ pad2 (Z.abs (tm_gmtoff tm) mod 3600 / 60)).

(** The result of [ntb_proto_get_decrypted_msg] is not looked at: [msg] is then not
    set. *)
Definition ntb_save_message (timestamp : Z) (from_key : option ntb_key) (from_address : list Z) (to_key : ntb_key) (blob : file_blob) :
    result unit (list Z) :=
  to_address ← ntb_address_encode (key_address to_key);
  from ← write_address from_key from_address;
  to ← write_address (Some to_key) to_address;
  date ← write_date (localtime timestamp);
  msg ← match ntb_proto_get_decrypted_msg (fb_data blob) (zlen (fb_data blob)) with
        | Ok msg => Ok msg | OutOfFuel => OutOfFuel | _ => UB
        end;
  message ← zread (dm_message_length msg) (dm_message msg);
  let head := str_bytes "From: " ++ from ++ 10 :: str_bytes "To: " ++ to ++ 10 :: date ++
    10 :: str_bytes "Content-Type: text/plain; charset=UTF-8" ++ 10 :: str_bytes "Content-Transfer-Encoding: 8bit" ++ [10] in
  if (dm_encoding msg =? 2) && (9 <=? dm_message_length msg) && bytes_eqb (take 8 message) (str_bytes "Subject:") then
    match memchr 10 message with
    | Some eol =>
        subject ← write_subject (drop 8 (take eol message));
        let message := drop (S eol) message in
        let message := if (5 <=? zlen message) && bytes_eqb (take 5 message) (str_bytes "Body:") then drop 5 message else message in
        Ok (head ++ str_bytes "Subject: " ++ subject ++ 10 :: 10 :: message)
    | None => Ok (head ++ 10 :: message)
    end
  else Ok (head ++ 10 :: message).
End save_message.

(** ** Reading mail *)

Definition starts_with (c : Z) (t : list Z) : bool := match t with d :: _ => d =? c | [] => false end.

(** The headers, with folded lines put together, and the body. *)
Fixpoint read_mail (line t : list Z) : list (list Z) * list Z :=
  match t with
  | [] => ([line], [])
  | c :: t =>
      if c =? 10 then
        match line with
        | [] => ([], t)
        | _ => if starts_with 32 t then read_mail line t
               else let '(headers, body) := read_mail [] t in (line :: headers, body)
        end
      else read_mail (line ++ [c]) t
  end.

Lemma read_chars l : forall line t, 10 ∉ l -> read_mail line (l ++ t) = read_mail (line ++ l) t.
Proof.
  induction l as [|c l IH]; intros line t Hl; [by rewrite app_nil_r|]. apply not_elem_of_cons in Hl as [Hc Hl].
  cbn [app read_mail]. destruct (Z.eqb_spec c 10) as [->|_]; [done|]. rewrite IH by done. by rewrite <- app_assoc.
Qed.

Lemma read_fold line t : line <> [] -> read_mail line (10 :: 32 :: t) = read_mail (line ++ [32]) t.
Proof. intros Hl. cbn [read_mail]. by destruct line. Qed.

(** A header ends where the next line does not start with a space. *)
Lemma read_end line c t :
  line <> [] -> c <> 32 -> read_mail line (10 :: c :: t) = (line :: fst (read_mail [] (c :: t)), snd (read_mail [] (c :: t))).
Proof.
  intros Hl Hc. destruct line as [|x line]; [done|]. change (read_mail (x :: line) (10 :: c :: t)) with
    (if c =? 32 then read_mail (x :: line) (c :: t) else let '(headers, body) := read_mail [] (c :: t) in ((x :: line) :: headers, body)).
  destruct (Z.eqb_spec c 32) as [->|_]; [done|]. by destruct (read_mail [] (c :: t)).
Qed.

(** The words of a text that is longer than a word can hold. *)
Fixpoint chunks (fuel : nat) (s : list Z) : list (list Z) :=
  match fuel with
  | O => []
  | S fuel => take 39 s :: (if zlen (drop 39 s) <=? 0 then [] else chunks fuel (drop 39 s))
  end.
Definition encoded_word (chunk : list Z) : list Z := str_bytes "=?UTF-8?B?" ++ ntb_base64_encode chunk ++ str_bytes "?=".
Fixpoint joined (sep : list Z) (ws : list (list Z)) : list Z :=
  match ws with [] => [] | [w] => w | w :: ws => w ++ sep ++ joined sep ws end.

Lemma encode_chars l : bytes l -> Forall (fun c => 32 < c < 128) (ntb_base64_encode l).
Proof.
  assert (Ha : forall v, 0 <= v < 64 -> 32 < to_alphabet_value v < 128).
  { intros v Hv. unfold to_alphabet_value, c_plus, c_slash. repeat case_bool; lia. }
  induction l as [|a|a b|a b c l IH] using bytes_ind3; intros Hb; repeat (apply bytes_cons in Hb as [? Hb]); unfold is_byte in *.
  - constructor.
  - rewrite encode_single by done. cbn. repeat constructor; try apply Ha; try (unfold c_eq; lia); dlia.
  - rewrite encode_pair by done. cbn. repeat constructor; try apply Ha; try (unfold c_eq; lia); dlia.
  - rewrite encode_triple by done. cbn. repeat constructor; try apply Ha; try dlia. by apply IH.
Qed.

Lemma encode_length l : zlen (ntb_base64_encode l) = (zlen l + 2) / 3 * 4.
Proof.
  induction l as [|a|a b|a b c l IH] using bytes_ind3; [done..|]. cbn [ntb_base64_encode]. rewrite !zlen_cons, IH.
  replace (1 + (1 + (1 + zlen l)) + 2) with (1 * 3 + (zlen l + 2)) by lia. rewrite Z.div_add_l by lia. lia.
Qed.

Lemma chunk_take (s : list Z) : take (Z.to_nat (Z.min max_chunk_length (zlen s))) s = take 39 s.
Proof.
  change max_chunk_length with 39. destruct (decide (39 <= zlen s)) as [Hl|Hl]; [by rewrite Z.min_l by lia|].
  rewrite Z.min_r by lia. unfold zlen in *. rewrite Nat2Z.id, (take_ge s (length s)), (take_ge s 39) by lia. done.
Qed.
Lemma chunk_drop (s : list Z) : drop (Z.to_nat (Z.min max_chunk_length (zlen s))) s = drop 39 s.
Proof.
  change max_chunk_length with 39. destruct (decide (39 <= zlen s)) as [Hl|Hl]; [by rewrite Z.min_l by lia|].
  rewrite Z.min_r by lia. unfold zlen in *. rewrite Nat2Z.id, (drop_ge s (length s)), (drop_ge s 39) by lia. done.
Qed.

Lemma write_words_spec fuel : forall s, (length s < fuel)%nat ->
  write_encoded_words fuel s = Ok (joined [10; 32] (encoded_word <$> chunks fuel s)).
Proof.
  induction fuel as [|fuel IH]; intros s Hf; [lia|]. cbn [write_encoded_words chunks]. rewrite chunk_take, chunk_drop.
  assert (Hz : zlen (take 39 s) <= 39) by (rewrite zlen_take; lia).
  assert (He : (zlen (ntb_base64_encode (take 39 s)) <=? (max_chunk_length * 4 + 2) / 3) = true).
  { rewrite encode_length. apply Z.leb_le. change ((max_chunk_length * 4 + 2) / 3) with 52. pose proof (zlen_nonneg (take 39 s)). dlia. }
  rewrite He. cbn [c_assert]. rewrite bind_ret_l. destruct (Z.leb_spec (zlen (drop 39 s)) 0) as [Hd|Hd]; [done|].
  assert (Hl : (39 < length s)%nat) by (unfold zlen in Hd; rewrite length_drop in Hd; lia).
  rewrite IH, bind_ret_l by (rewrite length_drop; lia). destruct fuel as [|fuel]; [lia|]. done.
Qed.

Lemma chunks_join fuel : forall s, (length s < fuel)%nat -> mjoin (chunks fuel s) = s.
Proof.
  induction fuel as [|fuel IH]; intros s Hf; [lia|]. cbn [chunks]. destruct (Z.leb_spec (zlen (drop 39 s)) 0) as [Hd|Hd].
  - cbn. rewrite app_nil_r. unfold zlen in Hd. rewrite length_drop in Hd. apply take_ge. lia.
  - assert (Hl : (39 < length s)%nat) by (unfold zlen in Hd; rewrite length_drop in Hd; lia).
    cbn [mjoin list_join]. fold (mjoin (M:=list) (A:=Z)). rewrite IH by (rewrite length_drop; lia). apply take_drop.
Qed.

Lemma word_chars s : bytes s -> 10 ∉ encoded_word s.
Proof.
  intros Hs. unfold encoded_word. rewrite !elem_of_app. intros [Hi|[Hi|Hi]].
  - revert Hi. apply (bool_decide_unpack _). vm_compute. exact I.
  - pose proof (proj1 (Forall_forall _ _) (encode_chars s Hs) 10 Hi). cbn in *. lia.
  - revert Hi. apply (bool_decide_unpack _). vm_compute. exact I.
Qed.

Lemma read_joined ws : forall line t, line <> [] -> Forall (fun w => 10 ∉ w) ws ->
  read_mail line (joined [10; 32] ws ++ t) = read_mail (line ++ joined [32] ws) t.
Proof.
  induction ws as [|w ws IH]; intros line t Hl Hw; [by rewrite app_nil_r|]. apply Forall_cons in Hw as [Hw Hws].
  destruct ws as [|w' ws]; [by apply read_chars|]. cbn [joined]. rewrite <- app_assoc, read_chars by done. cbn [app].
  rewrite read_fold by (destruct line; done). rewrite IH; [|by destruct line|done]. by rewrite <- !app_assoc.
Qed.

(** ** Headers *)

Definition words_value (s : list Z) : list Z := joined [32] (encoded_word <$> chunks (S (length s)) s).
Definition subject_value (s : list Z) : list Z := if need_encoded_words s then words_value s else s.

Lemma bytes_chunks fuel : forall s, bytes s -> Forall bytes (chunks fuel s).
Proof.
  induction fuel as [|fuel IH]; intros s Hs; [constructor|]. cbn [chunks]. constructor; [by apply bytes_take|].
  case_match; [constructor|]. by apply IH, bytes_drop.
Qed.

Lemma read_words s line t : bytes s -> line <> [] ->
  read_mail line (joined [10; 32] (encoded_word <$> chunks (S (length s)) s) ++ t) = read_mail (line ++ words_value s) t.
Proof.
  intros Hs Hl. apply read_joined; [done|]. apply Forall_fmap. eapply Forall_impl; [by apply bytes_chunks|]. intros w. apply word_chars.
Qed.

(** A subject that is written as it is has no control characters. *)
Lemma raw_subject s : need_encoded_words s = false -> 10 ∉ s.
Proof.
  unfold need_encoded_words. rewrite !orb_false_iff. intros [[_ He] _] Hi. apply not_true_iff_false in He. apply He, existsb_exists.
  exists 10. by rewrite <- list_elem_of_In.
Qed.

Lemma read_subject s line t : bytes s -> line <> [] ->
  exists w, write_subject s = Ok w /\ read_mail line (w ++ t) = read_mail (line ++ subject_value s) t.
Proof.
  intros Hs Hl. unfold write_subject, subject_value. destruct (need_encoded_words s) eqn:En.
  - rewrite write_words_spec by lia. eexists. split; [done|]. by apply read_words.
  - eexists. split; [done|]. by apply read_chars, raw_subject.
Qed.

(** A label that is not encoded has neither control characters nor quotes. *)
Lemma classify_plain p : forall c, bytes p -> classify_loop c p <> LABEL_ENCODE -> Forall (fun x => 32 <= x < 128 /\ x <> 34) p.
Proof.
  induction p as [|x p IH]; intros c Hb Hc; [constructor|]. apply bytes_cons in Hb as [Hx Hb]. cbn [classify_loop] in Hc.
  destruct ((s8 x <? 32) || (127 <? s8 x) || (s8 x =? 34) || (s8 x =? 92)) eqn:E; [done|].
  rewrite !orb_false_iff, !Z.eqb_neq, !Z.ltb_ge in E. destruct E as (((H1 & H2) & H3) & H4).
  constructor; [|destruct (is_atom_char _) in Hc; by eapply IH].
  unfold s8, is_byte in *. assert (x < 128) by (destruct (decide (x < 128)); [done|exfalso; clear -H1 n Hx; dlia]).
  rewrite Z.mod_small in * by lia. lia.
Qed.

(** Text without a line break. *)
Lemma no_newline (s : list Z) : bool_decide (10 ∉ s) = true -> 10 ∉ s.
Proof. by rewrite bool_decide_eq_true. Qed.
Lemma line_app (s t : list Z) : 10 ∉ s -> 10 ∉ t -> 10 ∉ s ++ t.
Proof. rewrite elem_of_app. tauto. Qed.
Lemma line_cons (c : Z) (t : list Z) : c <> 10 -> 10 ∉ t -> 10 ∉ c :: t.
Proof. rewrite elem_of_cons. intros Hc Ht [E|E]; [by symmetry in E|done]. Qed.
Lemma dec_signed_line n : 10 ∉ dec_signed n.
Proof. intros Hi. pose proof (proj1 (Forall_forall _ _) (dec_signed_chars n) 10 Hi) as [Hd|Hd]; [by vm_compute in Hd|done]. Qed.
Lemma pad2_line n : 10 ∉ pad2 n.
Proof. unfold pad2. case_match; [apply line_cons; [done|]|]; apply dec_signed_line. Qed.

Ltac line :=
  repeat first [assumption | apply no_newline; reflexivity | apply line_app | apply dec_signed_line | apply pad2_line
    | apply line_cons; [first [done | by case_match]|]].

Section headers.
Context `{DigestLaws} `{BigNumLaws} `{!Elliptic} `{Symmetric} `{Digest256} `{ClockLaws}.

(** The value of a [From] or [To] header. *)
Definition address_value (key : option ntb_key) (address : list Z) : list Z :=
  let label := match key with Some key => key_label key | None => [] end in
  match classify_label key with
  | LABEL_NONE => address ++ str_bytes "@bitmessage"
  | LABEL_RAW => label ++ str_bytes " <" ++ address ++ str_bytes "@bitmessage>"
  | LABEL_QUOTES => 34 :: label ++ 34 :: str_bytes " <" ++ address ++ str_bytes "@bitmessage>"
  | LABEL_ENCODE => words_value label ++ str_bytes " <" ++ address ++ str_bytes "@bitmessage>"
  end.

Definition label_ok (key : option ntb_key) : Prop := match key with Some key => bytes (key_label key) | None => True end.

Lemma plain_label key : label_ok key -> classify_label key <> LABEL_ENCODE -> 10 ∉ match key with Some key => key_label key | None => [] end.
Proof.
  intros Hk Hc. destruct key as [key|]; [|apply not_elem_of_nil]. intros Hi.
  pose proof (proj1 (Forall_forall _ _) (classify_plain (key_label key) LABEL_NONE Hk Hc) 10 Hi). cbn in *. lia.
Qed.

Lemma read_address key address line t : label_ok key -> 10 ∉ address -> line <> [] ->
  exists w, write_address key address = Ok w /\ read_mail line (w ++ t) = read_mail (line ++ address_value key address) t.
Proof.
  intros Hk Ha Hl. unfold write_address, address_value. pose proof (plain_label key Hk) as Hp.
  destruct (classify_label key) eqn:Ec; try specialize (Hp ltac:(done)).
  4: { unfold label_ok in Hk. destruct key as [key|]; [|done]. rewrite write_words_spec, bind_ret_l by lia. eexists. split; [done|].
       rewrite <- app_assoc, read_words, read_chars; [by rewrite <- app_assoc|line|done..]. }
  all: eexists; split; [done|]; apply read_chars; line.
Qed.

Lemma write_date_line t : exists d, write_date (localtime t) = Ok (str_bytes "Date: " ++ d) /\ 10 ∉ d.
Proof.
  unfold write_date. destruct (localtime_wday t) as [Hw1 Hw2]. destruct (localtime_mon t) as [Hm1 Hm2].
  destruct (lookup_lt_is_Some_2 day_names (Z.to_nat (tm_wday (localtime t)))) as [day Hd]; [cbn; lia|].
  destruct (lookup_lt_is_Some_2 month_names (Z.to_nat (tm_mon (localtime t)))) as [month Hm]; [cbn; lia|].
  rewrite Hd, Hm. cbn [need]. rewrite !bind_ret_l. eexists. split; [done|].
  assert (Hds : Forall (fun d => 10 ∉ d) day_names /\ Forall (fun d => 10 ∉ d) month_names)
    by (apply (bool_decide_unpack _); vm_compute; exact I).
  pose proof (Forall_lookup_1 _ _ _ _ (proj1 Hds) Hd) as Hday. pose proof (Forall_lookup_1 _ _ _ _ (proj2 Hds) Hm) as Hmonth.
  cbn in Hday, Hmonth. line.
Qed.

(** What is taken for the subject, and what remains. *)
Definition mail_parts (encoding : Z) (message : list Z) : option (list Z) * list Z :=
  if (encoding =? 2) && (9 <=? zlen message) && bytes_eqb (take 8 message) (str_bytes "Subject:") then
    match memchr 10 message with
    | Some eol =>
        let rest := drop (S eol) message in
        (Some (drop 8 (take eol message)),
         if bytes_eqb (take 5 rest) (str_bytes "Body:") then drop 5 rest else rest)
    | None => (None, message)
    end
  else (None, message).

Lemma memchr_before c p n : memchr c p = Some n -> c ∉ take n p.
Proof.
  revert n. induction p as [|d p IH]; intros n E; [done|]. cbn in E. destruct (Z.eqb_spec d c) as [->|Hne].
  - injection E as <-. apply not_elem_of_nil.
  - destruct (memchr c p) as [k|]; [|done]. injection E as <-. cbn. apply not_elem_of_cons. split; [done|by apply IH].
Qed.

Definition content_type : list Z := str_bytes "Content-Type: text/plain; charset=UTF-8".
Definition content_encoding : list Z := str_bytes "Content-Transfer-Encoding: 8bit".

(** [w] is the text of one header, [h] without its folds. *)
Definition is_header (w h : list Z) : Prop :=
  (exists c t, w = c :: t /\ c <> 10 /\ c <> 32) /\
  (forall c t, c <> 32 -> read_mail [] (w ++ 10 :: c :: t) = (h :: fst (read_mail [] (c :: t)), snd (read_mail [] (c :: t)))).

Lemma line_header w c t : w = c :: t -> 10 ∉ w -> c <> 32 -> is_header w w.
Proof.
  intros Ew Hl Hc. split; [exists c, t; split_and!; [done| |done]; intros ->; apply Hl; rewrite Ew; by left|].
  intros c' t' Hc'. rewrite read_chars by done. cbn [app]. apply read_end; [by rewrite Ew|done].
Qed.

(** A header whose value is written by [read_address] or [read_subject]. *)
Lemma value_header name c n w v :
  name = c :: n -> c <> 32 -> 10 ∉ name ->
  (forall line t, line <> [] -> read_mail line (w ++ t) = read_mail (line ++ v) t) -> is_header (name ++ w) (name ++ v).
Proof.
  intros En Hc Hl Hw. split.
  - exists c, (n ++ w). rewrite En. split_and!; [done| |done]. intros ->. apply Hl. rewrite En. by left.
  - intros c' t Hc'. rewrite <- app_assoc, read_chars by done. cbn [app]. rewrite Hw by by rewrite En. apply read_end; [by rewrite En|done].
Qed.

Lemma read_headers ws hs body : Forall2 is_header ws hs -> read_mail [] (mjoin ((fun w => w ++ [10]) <$> ws) ++ 10 :: body) = (hs, body).
Proof.
  induction 1 as [|w h ws hs Hw Hws IH]; [done|].
  change (mjoin ((fun w => w ++ [10]) <$> w :: ws)) with ((w ++ [10]) ++ mjoin ((fun w => w ++ [10]) <$> ws)). rewrite <- !app_assoc.
  assert (Hn : exists c t, mjoin ((fun w => w ++ [10]) <$> ws) ++ 10 :: body = c :: t /\ c <> 32).
  { destruct Hws as [|w' h' ws hs [(c & t & -> & _ & Hc) _] _]; [by exists 10, body|]. cbn. eauto. }
  destruct Hn as (c & t & En & Hc). rewrite En in *. cbn [app]. rewrite (proj2 Hw) by done. by rewrite IH.
Qed.

(** What the key ring gives: a message that was parsed. *)
Definition message_ok (blob : file_blob) (msg : ntb_proto_decrypted_msg) : Prop :=
  ntb_proto_get_decrypted_msg (fb_data blob) (zlen (fb_data blob)) = Ok msg /\
  0 <= dm_message_length msg <= zlen (dm_message msg) /\ bytes (dm_message msg).

Lemma write_address_total key address : label_ok key -> 10 ∉ address ->
  exists w, write_address key address = Ok w /\ forall line t, line <> [] -> read_mail line (w ++ t) = read_mail (line ++ address_value key address) t.
Proof.
  intros Hk Ha. destruct (read_address key address [0] [] Hk Ha ltac:(done)) as (w & Ew & _). exists w. split; [done|].
  intros line t Hl. destruct (read_address key address line t Hk Ha Hl) as (w' & Ew' & Hw). rewrite Ew in Ew'. by injection Ew' as <-.
Qed.

Lemma write_subject_total s : bytes s ->
  exists w, write_subject s = Ok w /\ forall line t, line <> [] -> read_mail line (w ++ t) = read_mail (line ++ subject_value s) t.
Proof.
  intros Hs. destruct (read_subject s [0] [] Hs ltac:(done)) as (w & Ew & _). exists w. split; [done|].
  intros line t Hl. destruct (read_subject s line t Hs Hl) as (w' & Ew' & Hw). rewrite Ew in Ew'. by injection Ew' as <-.
Qed.

Lemma head_join (f wf t wt d ct ce : list Z) :
  f ++ wf ++ 10 :: t ++ wt ++ 10 :: d ++ 10 :: ct ++ 10 :: ce ++ [10] = mjoin ((fun w => w ++ [10]) <$> [f ++ wf; t ++ wt; d; ct; ce]).
Proof. cbn. by rewrite <- !app_assoc. Qed.
Lemma join_snoc (ws : list (list Z)) w :
  mjoin ((fun w => w ++ [10]) <$> ws ++ [w]) = mjoin ((fun w => w ++ [10]) <$> ws) ++ w ++ [10].
Proof. rewrite fmap_app, join_app. cbn. by rewrite app_nil_r. Qed.

Lemma save_message_spec timestamp from_key from_address to_key blob msg :
  message_ok blob msg -> address_wf (key_address to_key) -> addr_version (key_address to_key) <> 0 ->
  10 ∉ from_address -> label_ok from_key -> label_ok (Some to_key) ->
  exists text to_address date,
    ntb_save_message timestamp from_key from_address to_key blob = Ok text /\
    ntb_address_encode (key_address to_key) = Ok to_address /\ write_date (localtime timestamp) = Ok date /\
    let '(subject, body) := mail_parts (dm_encoding msg) (take (Z.to_nat (dm_message_length msg)) (dm_message msg)) in
    read_mail [] text =
      ([str_bytes "From: " ++ address_value from_key from_address; str_bytes "To: " ++ address_value (Some to_key) to_address; date;
        content_type; content_encoding] ++ match subject with Some s => [str_bytes "Subject: " ++ subject_value s] | None => [] end, body).
Proof.
  intros (Em & Hm & Hb) Haw Hav Hfa Hfl Htl. destruct (address_text _ Haw Hav) as (to_address & Ea & _ & Pa & _).
  assert (Hta : 10 ∉ to_address) by (intros Hi; pose proof (proj1 (Forall_forall _ _) Pa 10 Hi); cbn in *; lia).
  set (message := take (Z.to_nat (dm_message_length msg)) (dm_message msg)).
  assert (Hz : zlen message = dm_message_length msg) by (unfold message; rewrite zlen_take; lia).
  assert (Hbm : bytes message) by by apply bytes_take.
  assert (Er : zread (dm_message_length msg) (dm_message msg) = Ok message) by (unfold zread; case_bool; [done|lia]).
  destruct (write_address_total from_key from_address Hfl Hfa) as (wf & Ewf & Hwf).
  destruct (write_address_total (Some to_key) to_address Htl Hta) as (wt & Ewt & Hwt).
  destruct (write_date_line timestamp) as (d & Ed & Hd).
  unfold ntb_save_message. rewrite Ea, bind_ret_l, Ewf, bind_ret_l, Ewt, bind_ret_l, Ed, bind_ret_l, Em, bind_ret_l, Er, bind_ret_l.
  cbv zeta. fold content_type content_encoding.
  set (ws := [str_bytes "From: " ++ wf; str_bytes "To: " ++ wt; str_bytes "Date: " ++ d; content_type; content_encoding]).
  set (head := str_bytes "From: " ++ wf ++ _).
  assert (Eh : head = mjoin ((fun w => w ++ [10]) <$> ws)) by apply head_join.
  assert (Hws : Forall2 is_header ws [str_bytes "From: " ++ address_value from_key from_address; str_bytes "To: " ++ address_value (Some to_key) to_address;
      str_bytes "Date: " ++ d; content_type; content_encoding]).
  { unfold ws. constructor; [apply (value_header _ 70 (str_bytes "rom: ")); [reflexivity|lia|line|exact Hwf]|].
    constructor; [apply (value_header _ 84 (str_bytes "o: ")); [reflexivity|lia|line|exact Hwt]|].
    constructor; [apply (line_header _ 68 (str_bytes "ate: " ++ d)); [reflexivity|line|lia]|].
    constructor; [apply (line_header _ 67 (tail content_type)); [reflexivity|line|lia]|].
    constructor; [apply (line_header _ 67 (tail content_encoding)); [reflexivity|line|lia]|]. constructor. }
  unfold mail_parts. fold message. rewrite Hz.
  destruct ((dm_encoding msg =? 2) && (9 <=? dm_message_length msg) && bytes_eqb (take 8 message) (str_bytes "Subject:")).
  2: { eexists _, _, _. split_and!; [done..|]. rewrite app_nil_r, Eh. by apply read_headers. }
  destruct (memchr 10 message) as [eol|] eqn:Eol.
  2: { eexists _, _, _. split_and!; [done..|]. rewrite app_nil_r, Eh. by apply read_headers. }
  destruct (write_subject_total (drop 8 (take eol message))) as (w & Ew & Hw); [by apply bytes_drop, bytes_take|]. rewrite Ew, bind_ret_l.
  eexists _, _, _. split_and!; [done..|]. cbv zeta.
  assert (E5 : forall r : list Z, (5 <=? zlen r) && bytes_eqb (take 5 r) (str_bytes "Body:") = bytes_eqb (take 5 r) (str_bytes "Body:")).
  { intros r. destruct (Z.leb_spec 5 (zlen r)); [done|]. symmetry. apply not_true_iff_false. intros E%bytes_eqb_true%(f_equal zlen).
    rewrite zlen_take in E. vm_compute (zlen (str_bytes "Body:")) in E. lia. }
  rewrite E5. set (body := if bytes_eqb _ _ then _ else _).
  rewrite <- (read_headers (ws ++ [str_bytes "Subject: " ++ w]) _ body).
  - rewrite Eh. by rewrite join_snoc, <- !app_assoc.
  - apply Forall2_app; [done|]. constructor; [|constructor].
    apply (value_header _ 83 (str_bytes "ubject: ")); [reflexivity|lia|line|exact Hw].
Qed.

Lemma decode_encoded c : bytes c -> decode_pieces ntb_base64_decode_start [ntb_base64_encode c] = Ok c.
Proof.
  intros Hc. pose proof (run_encode 0 c Hc) as Hr. rewrite run_unfold in Hr. rewrite decode_pieces_concat by done. cbn [concat].
  by rewrite app_nil_r, decode_unpadded.
Qed.

(** The words of a value stand for the text that they were made of. *)
Definition words_of (value s : list Z) : Prop :=
  exists cs, value = joined [32] (encoded_word <$> cs) /\ mjoin cs = s /\
    Forall (fun c => zlen (encoded_word c) <= 64 /\ decode_pieces ntb_base64_decode_start [ntb_base64_encode c] = Ok c) cs.

Lemma words_value_of s : bytes s -> words_of (words_value s) s.
Proof.
  intros Hs. exists (chunks (S (length s)) s). split_and!; [done|apply chunks_join; lia|]. generalize (S (length s)).
  intros fuel. revert s Hs. induction fuel as [|fuel IH]; intros s Hs; [constructor|]. cbn [chunks]. constructor.
  - split; [|by apply decode_encoded, bytes_take]. unfold encoded_word. rewrite !zlen_app, encode_length.
    change (zlen (str_bytes "=?UTF-8?B?")) with 10. change (zlen (str_bytes "?=")) with 2. rewrite zlen_take.
    assert ((Z.min (Z.of_nat 39) (zlen s) + 2) / 3 < 14) by (apply Z.div_lt_upper_bound; lia). lia.
  - case_match; [constructor|]. by apply IH, bytes_drop.
Qed.

(** C17: whatever a stranger puts into a message and however the keys are labelled, the
    file that is saved reads as a mail with exactly the headers the program means to
    write and the text of the message as its body: no line break of a subject or a label
    gets into the headers. A subject that cannot be written as it is, is written in
    words of at most 64 characters that decode to it. *)
Theorem save_message_headers timestamp from_key from_address to_key blob msg :
  message_ok blob msg -> address_wf (key_address to_key) -> addr_version (key_address to_key) <> 0 ->
  10 ∉ from_address -> label_ok from_key -> label_ok (Some to_key) ->
  exists text to_address date,
    ntb_save_message timestamp from_key from_address to_key blob = Ok text /\
    ntb_address_encode (key_address to_key) = Ok to_address /\ write_date (localtime timestamp) = Ok date /\
    let '(subject, body) := mail_parts (dm_encoding msg) (take (Z.to_nat (dm_message_length msg)) (dm_message msg)) in
    read_mail [] text =
      ([str_bytes "From: " ++ address_value from_key from_address; str_bytes "To: " ++ address_value (Some to_key) to_address; date;
        content_type; content_encoding] ++ match subject with Some s => [str_bytes "Subject: " ++ subject_value s] | None => [] end, body) /\
    forall s, subject = Some s -> if need_encoded_words s then words_of (subject_value s) s else subject_value s = s.
Proof.
  intros Hm Haw Hav Hfa Hfl Htl. destruct (save_message_spec timestamp _ _ _ _ _ Hm Haw Hav Hfa Hfl Htl) as (text & to & date & Es & Et & Ed & Hr).
  exists text, to, date. split_and!; [done..|]. destruct Hm as (_ & _ & Hb).
  destruct (mail_parts _ _) as [subject body] eqn:Ep. split; [exact Hr|]. intros s ->. unfold subject_value.
  destruct (need_encoded_words s); [|done]. apply words_value_of. unfold mail_parts in Ep. repeat case_match; try discriminate Ep;
    injection Ep as <- _; by apply bytes_drop, bytes_take, bytes_take.
Qed.
End headers.

(** ** Example *)

#[local] Instance Clock_toy : Clock := {| localtime t := Tm 4 1 0 (70 + t / 31556952) 0 0 0 3600 |}.
#[local] Instance ClockLaws_toy : ClockLaws (H := Clock_toy).
Proof. constructor; intros t; cbn; lia. Qed.

Section examples.
#[local] Existing Instances Digests_toy DigestLaws_toy BigNum_N BigNumLaws_N Elliptic_toy Symmetric_toy Digest256_toy.

Definition example_text : list Z := str_bytes "Subject:" ++ [195; 164; 13] ++ 10 :: str_bytes "Body:From: me".
Definition example_msg : list Z :=
  [1; 4; 1; 0; 0; 0; 1] ++ replicate 128 7 ++ [1; 1] ++ replicate 20 9 ++ [2; zlen example_text] ++ example_text ++ [0; 1; 77].
Definition example_decrypted : ntb_proto_decrypted_msg :=
  match ntb_proto_get_decrypted_msg example_msg (zlen example_msg) with Ok m => m | _ => DecryptedMsg [] [] 0 0 0 0 0 0 [] 0 [] [] [] 0 0 0 0 end.

Lemma save_message_headers_witness :
  exists text to_address date,
    ntb_save_message 1400000000 None (str_bytes "BM-a") (example_key None) (FileBlob 2 example_msg) = Ok text /\
    ntb_address_encode (key_address (example_key None)) = Ok to_address /\ write_date (localtime 1400000000) = Ok date /\
    let '(subject, body) := (Some [195; 164; 13], str_bytes "From: me") in
    read_mail [] text =
      ([str_bytes "From: " ++ address_value None (str_bytes "BM-a"); str_bytes "To: " ++ address_value (Some (example_key None)) to_address; date;
        content_type; content_encoding] ++ match subject with Some s => [str_bytes "Subject: " ++ subject_value s] | None => [] end, body) /\
    forall s, subject = Some s -> if need_encoded_words s then words_of (subject_value s) s else subject_value s = s.
Proof.
  apply (save_message_headers 1400000000 None (str_bytes "BM-a") (example_key None) (FileBlob 2 example_msg) example_decrypted).
  - split_and!; [vm_compute; reflexivity|vm_compute; congruence|vm_compute; congruence|apply (bool_decide_unpack _); vm_compute; exact I].
  - apply (bool_decide_unpack _). vm_compute. exact I.
  - vm_compute. congruence.
  - apply no_newline. reflexivity.
  - exact I.
  - apply (bool_decide_unpack _). vm_compute. exact I.
Defined.
End examples.
