(* ===== verification/Maildir.v ===== *)
(** * Maildir: the directories of the store and received messages (ntb-store.c)

    Finding the directory of the store and of the mail when the store is created, and
    saving a received message as mail. The environment variables, the working
    directory, the name of the host and the time of day are parameters, as is which
    directories can be made. *)

From S2P Require Import Prelude Ident Endian Buffer NetAddress OpenSSL Proto ProtoSpec NetText KeyValue Base58 Address Outgoings Ecc Keys HashTable Connection Network Base64 StoreFiles StoreFilesSpec SaveMessage.

Class Host := {
  getenv : list Z -> option (list Z);
  (** [None]: an error other than [ERANGE] *)
  cwd : option (list Z);
  hostname : list Z;
  (** the time at the given call *)
  gettimeofday : Z -> Z * Z;
  mkdir_ok : list Z -> bool
}.

Definition st_set_maildir (v : ntb_buffer) (st : ntb_store) : ntb_store :=
  StoreNames (st_filename_buf st) (st_tmp_buf st) (st_directory_len st) v (st_maildir_len st) (st_num_stored_messages st).
Definition st_set_num_stored (v : Z) (st : ntb_store) : ntb_store :=
  StoreNames (st_filename_buf st) (st_tmp_buf st) (st_directory_len st) (st_maildir_buf st) (st_maildir_len st) v.

(** ** Creating the store *)

Inductive ntb_store_error := NTB_STORE_ERROR_INVALID_STORE_DIRECTORY | NTB_STORE_ERROR_INVALID_MAILDIR | NTB_STORE_ERROR_MKDIR (** the error of [ntb_mkdir] *).

(** [while (buffer->length > 1 && buffer->data[buffer->length - 1] == '/')] *)
Fixpoint strip_trailing_slashes (fuel : nat) (b : ntb_buffer) : result unit ntb_buffer :=
  match fuel with
  | O => OutOfFuel
  | S fuel =>
      if buf_length b <=? 1 then Ok b
      else
        c ← buf_read b (buf_length b - 1) 1;
        if bytes_eqb c [47] then strip_trailing_slashes fuel (with_length (buf_length b - 1) b) else Ok b
  end.
Definition strip (b : ntb_buffer) : result unit ntb_buffer := strip_trailing_slashes (S (Z.to_nat (buf_length b))) b.

Section host.
Context `{Host}.

(** The result tells whether [getcwd] succeeded. *)
Fixpoint append_cwd (fuel : nat) (try_size : Z) (b : ntb_buffer) : result unit (bool * ntb_buffer) :=
  match fuel with
  | O => OutOfFuel
  | S fuel =>
      b ← ntb_buffer_ensure_size b (u64 (buf_length b + try_size));
      match cwd with
      | None => Ok (false, b)
      | Some dir =>
          if zlen dir + 1 <=? u64 (buf_size b - buf_length b) then
            b ← buf_write b (buf_length b) (dir ++ [0]);
            Ok (true, add_length b (zlen dir))
          else append_cwd fuel (u64 (try_size * 2)) b
      end
  end.

(** [path[0] != '/'] on a C string *)
Definition relative (path : list Z) : bool := match path with c :: _ => negb (c =? 47) | [] => true end.

Definition append_absolute_path (b : ntb_buffer) (path : list Z) : result unit ntb_buffer :=
  b ← (if relative path then
         '(ok, b) ← append_cwd 64 32 b;
         if (ok : bool) then ntb_buffer_append_c b 47 else Ok b
       else Ok b);
  b ← ntb_buffer_append_string b path;
  strip b.

(** Operations on buffers do not fail with an error. *)
Definition infallible {A} (r : result unit A) : result ntb_store_error A :=
  match r with Ok a => Ok a | OutOfFuel => OutOfFuel | _ => UB end.

(** An error when [ntb_mkdir] or [ntb_mkdir_hierarchy] fails *)
Definition make_directory (b : ntb_buffer) : result ntb_store_error unit :=
  match cells_string (buf_data b) with
  | Ok name => guard_err (mkdir_ok name) NTB_STORE_ERROR_MKDIR
  | _ => UB
  end.

(** The name of a directory below one that the environment names. *)
Definition append_below (b : ntb_buffer) (base rest : list Z) : result unit ntb_buffer :=
  b ← ntb_buffer_append_string b base;
  b ← strip b;
  ntb_buffer_append_string b rest.

Definition init_store_directory (store_directory : option (list Z)) (st : ntb_store) : result ntb_store_error ntb_store :=
  b ← match store_directory with
      | Some store_directory =>
          infallible (b ← append_absolute_path (st_filename_buf st) store_directory; ntb_buffer_append_string b (str_bytes "/"))
      | None =>
          match getenv (str_bytes "XDG_DATA_HOME"), getenv (str_bytes "HOME") with
          | Some data_home, _ =>
              if relative data_home then Err NTB_STORE_ERROR_INVALID_STORE_DIRECTORY
              else infallible (append_below (st_filename_buf st) data_home (str_bytes "/notbit/"))
          | None, Some home =>
              if relative home then Err NTB_STORE_ERROR_INVALID_STORE_DIRECTORY
              else infallible (append_below (st_filename_buf st) home (str_bytes "/.local/share/notbit/"))
          | None, None => Err NTB_STORE_ERROR_INVALID_STORE_DIRECTORY
          end
      end;
  let directory_len := buf_length b in
  b ← infallible (ntb_buffer_append_string b (str_bytes "objects"));
  _ ← make_directory b;
  b ← infallible (ntb_buffer_append_string (with_length directory_len b) (str_bytes "outgoing"));
  _ ← make_directory b;
  Ok (StoreNames b (st_tmp_buf st) directory_len (st_maildir_buf st) (st_maildir_len st) (st_num_stored_messages st)).

Definition init_maildir (maildir : option (list Z)) (st : ntb_store) : result ntb_store_error ntb_store :=
  b ← match maildir with
      | Some maildir => infallible (b ← append_absolute_path (st_maildir_buf st) maildir; ntb_buffer_append_c b 47)
      | None =>
          match getenv (str_bytes "HOME") with
          | Some home =>
              if relative home then Err NTB_STORE_ERROR_INVALID_MAILDIR
              else infallible (append_below (st_maildir_buf st) home (str_bytes "/.maildir/"))
          | None => Err NTB_STORE_ERROR_INVALID_MAILDIR
          end
      end;
  let maildir_len := buf_length b in
  b ← infallible (ntb_buffer_append_string b (str_bytes "new"));
  _ ← make_directory b;
  b ← infallible (ntb_buffer_set_length b (u64 (buf_length b - 3)));
  b ← infallible (ntb_buffer_append_string b (str_bytes "tmp"));
  _ ← make_directory b;
  b ← infallible (ntb_buffer_set_length b (u64 (buf_length b - 3)));
  b ← infallible (ntb_buffer_append_string b (str_bytes "cur"));
  _ ← make_directory b;
  Ok (StoreNames (st_filename_buf st) (st_tmp_buf st) (st_directory_len st) b maildir_len (st_num_stored_messages st)).

(** The names of a new store. Memory that is not set yet is [0] here: [directory_len]
    and [maildir_len] are set by the functions above before they are used. *)
Definition ntb_store_new_names (store_directory maildir : option (list Z)) : result ntb_store_error ntb_store :=
  st ← init_store_directory store_directory (StoreNames ntb_buffer_init ntb_buffer_init 0 ntb_buffer_init 0 0);
  st ← init_maildir maildir st;
  Ok (st_set_tmp ntb_buffer_init st).

(** ** Saving a message *)

(** [gethostname] with room for [n] bytes: the name and its terminator, or
    [ENAMETOOLONG]. *)
Fixpoint hostname_loop (fuel : nat) (b : ntb_buffer) (hostname_length : Z) : result unit ntb_buffer :=
  match fuel with
  | O => OutOfFuel
  | S fuel =>
      b ← ntb_buffer_ensure_size b (u64 (buf_length b + hostname_length));
      if zlen hostname + 1 <=? hostname_length then buf_write b (buf_length b) (hostname ++ [0])
      else hostname_loop fuel b (s32 (hostname_length * 2))
  end.

(** The loop that runs over the name of the host. A slash is replaced by ['\057'] and a
    colon by ['\072'], which are a slash and a colon. *)
Fixpoint escape_loop (fuel : nat) (b : ntb_buffer) : result unit ntb_buffer :=
  match fuel with
  | O => OutOfFuel
  | S fuel =>
      c ← buf_read b (buf_length b) 1;
      if bytes_eqb c [0] then Ok b
      else
        b ← (if bytes_eqb c [47] then buf_write b (buf_length b) [47]
             else if bytes_eqb c [58] then buf_write b (buf_length b) [58] else Ok b);
        escape_loop fuel (add_length b 1)
  end.

(** [%li.M%liQ%u.] The buffer and the number of messages. *)
Definition generate_maildir_name (num_stored_messages : Z) (b : ntb_buffer) : result unit (ntb_buffer * Z) :=
  let tv := gettimeofday num_stored_messages in
  b ← ntb_buffer_append_vprintf b (dec_signed (fst tv) ++ str_bytes ".M" ++ dec_signed (snd tv) ++ 81 :: dec num_stored_messages ++ [46]);
  b ← hostname_loop 32 b 2;
  b ← escape_loop (S (length hostname)) b;
  Ok (b, u32 (num_stored_messages + 1)).

Context `{Digests} `{BigNum} `{!Elliptic} `{Symmetric} `{Digest256} `{Clock}.

(** The part of [handle_save_message] behind [fclose]. *)
Definition rename_new (f : faults) (st : ntb_store) (fs : file_system) : result unit (ntb_store * file_system) :=
  let b := st_maildir_buf st in
  let len := st_maildir_len st in
  d ← buf_read b 0 len;
  t ← ntb_buffer_append (with_length 0 (st_tmp_buf st)) d;
  t ← ntb_buffer_append_string t (str_bytes "new");
  d ← buf_read b (len + 3) (u64 (buf_length b - len - 3 + 1));
  t ← ntb_buffer_append t d;
  old ← cells_string (buf_data b);
  new ← cells_string (buf_data t);
  Ok (st_set_tmp t st, if f_rename f then fs_rename old new fs else fs).

Definition handle_save_message (f : faults) (timestamp : Z) (from_key : option ntb_key) (from_address : list Z) (to_key : ntb_key)
    (blob : file_blob) (st : ntb_store) (fs : file_system) : result unit (ntb_store * file_system) :=
  b ← ntb_buffer_append_string (with_length (st_maildir_len st) (st_maildir_buf st)) (str_bytes "tmp/");
  '(b, n) ← generate_maildir_name (st_num_stored_messages st) b;
  let st := st_set_num_stored n (st_set_maildir b st) in
  name ← cells_string (buf_data b);
  if negb (f_open f) then Ok (st, fs)
  else
    text ← ntb_save_message timestamp from_key from_address to_key blob;
    match f_close f with
    | Some partial => Ok (st, <[name := partial]> fs)
    | None => rename_new f st (<[name := default text (f_write f)]> fs)
    end.
End host.

(** ** Buffers with text behind their end *)

(** [t] follows the contents [l]. *)
Definition behind (b : ntb_buffer) (l t : list Z) : Prop :=
  repr b l /\ take (length (l ++ t)) (buf_data b) = Some <$> (l ++ t).

Lemma behind_named b l : behind b l [0] <-> named b l.
Proof. unfold behind, named. rewrite length_app. cbn [length]. by rewrite Nat.add_1_r. Qed.

Lemma behind_data b l t : behind b l t -> exists r, buf_data b = (Some <$> l) ++ (Some <$> t) ++ r.
Proof.
  intros [_ Ht]. exists (drop (length (l ++ t)) (buf_data b)). by rewrite app_assoc, <- fmap_app, <- Ht, take_drop.
Qed.

Lemma behind_read b l c t : behind b l (c :: t) -> buf_read (E := unit) b (buf_length b) 1 = Ok [c].
Proof.
  intros Hb. destruct (behind_data _ _ _ Hb) as [r Er]. rewrite (repr_length _ _ (proj1 Hb)).
  apply (buf_read_mid b (Some <$> l) [c] ((Some <$> t) ++ r)); [by rewrite Er|by rewrite zlen_fmap].
Qed.

Lemma behind_write b l c t : behind b l (c :: t) -> buf_write (E := unit) b (buf_length b) [c] = Ok b.
Proof.
  intros Hb. destruct (behind_data _ _ _ Hb) as [r Er]. rewrite (repr_length _ _ (proj1 Hb)). unfold buf_write, write_cells.
  rewrite Er. zlen_simpl. zlen_pose. destruct (Z.leb_spec 0 (zlen l)); [|lia]. cbn [andb].
  destruct (Z.leb_spec (zlen l + (1 + 0)) (zlen l + (1 + zlen t + zlen r))); [|lia]. rewrite bind_ret_l. destruct b as [d n s]. cbn in Er. subst d.
  do 2 f_equal. unfold zlen. rewrite Nat2Z.id. rewrite take_app_length' by by rewrite length_fmap. f_equal.
  replace (Z.to_nat (Z.of_nat (length l) + (1 + 0))) with (length (Some <$> l) + 1)%nat by (rewrite length_fmap; lia).
  rewrite <- drop_drop, drop_app_length. done.
Qed.

Lemma behind_advance b l c t : behind b l (c :: t) -> zlen l < 2 ^ 62 -> behind (add_length b 1) (l ++ [c]) t.
Proof.
  intros Hb Hz. pose proof (repr_length _ _ (proj1 Hb)) as Hl. destruct Hb as [[(Hd & Hl0 & Hs) Hc] Ht].
  assert (Hlen : (length (l ++ c :: t) <= length (buf_data b))%nat).
  { apply (f_equal length) in Ht. rewrite length_take, length_fmap in Ht. lia. }
  assert (Ht' : take (length (l ++ c :: t)) (buf_data b) = Some <$> ((l ++ [c]) ++ t)) by by rewrite <- app_assoc.
  zlen_pose. rewrite length_app in Hlen. cbn [length] in Hlen. unfold zlen in *.
  split; [split; [split_and!; cbn; rewrite ?u64_small; unfold zlen in *; lia|]|].
  - unfold cells. cbn [add_length buf_data buf_length]. rewrite u64_small by lia. rewrite Hl.
    replace (Z.to_nat (Z.of_nat (length l) + 1)) with (length (l ++ [c])) by (rewrite length_app; cbn; lia).
    apply (f_equal (take (length (l ++ [c])))) in Ht'. rewrite take_take, fmap_app, take_app_length' in Ht' by by rewrite length_fmap.
    rewrite <- Ht'. f_equal. rewrite !length_app. cbn. lia.
  - cbn [add_length buf_data]. rewrite <- Ht'. f_equal. rewrite !length_app. cbn. lia.
Qed.

Lemma escape_loop_spec t : forall fuel b l, behind b l (t ++ [0]) -> 0 ∉ t -> zlen l + zlen t < 2 ^ 62 -> (length t < fuel)%nat ->
  exists b', escape_loop fuel b = Ok b' /\ named b' (l ++ t).
Proof.
  induction t as [|c t IH]; intros fuel b l Hb Ht Hz Hf; (destruct fuel as [|fuel]; [cbn in Hf; lia|]); cbn [escape_loop].
  - rewrite (behind_read _ _ _ _ Hb), bind_ret_l. cbn. rewrite app_nil_r. exists b. split; [done|by apply behind_named].
  - apply not_elem_of_cons in Ht as [Hc Ht]. rewrite zlen_cons in Hz. zlen_pose. cbn [app] in Hb.
    rewrite (behind_read _ _ _ _ Hb), bind_ret_l. destruct (bytes_eqb [c] [0]) eqn:E0; [apply bytes_eqb_true in E0; congruence|].
    assert (Ew : (if bytes_eqb [c] [47] then buf_write (E := unit) b (buf_length b) [47] else if bytes_eqb [c] [58] then buf_write (E := unit) b (buf_length b) [58] else Ok b)
                 = Ok b).
    { destruct (bytes_eqb [c] [47]) eqn:E1; [apply bytes_eqb_true in E1 as [= ->]; by eapply behind_write|].
      destruct (bytes_eqb [c] [58]) eqn:E2; [apply bytes_eqb_true in E2 as [= ->]; by eapply behind_write|done]. }
    rewrite Ew, bind_ret_l. destruct (IH fuel (add_length b 1) (l ++ [c])) as (b' & E & Hn).
    + apply behind_advance; [done|lia].
    + done.
    + rewrite zlen_app. change (zlen [c]) with 1. lia.
    + cbn in Hf. lia.
    + exists b'. split; [done|]. by rewrite <- app_assoc in Hn.
Qed.

Class HostLaws `{Host} : Prop := {
  hostname_no_nul : 0 ∉ hostname;
  hostname_short : zlen hostname <= 255;
  cwd_ok d : cwd = Some d -> (0 ∉ d) /\ zlen d <= 2 ^ 16 /\ exists r, d = 47 :: r;
  getenv_ok v s : getenv v = Some s -> (0 ∉ s) /\ zlen s <= 2 ^ 16
}.

Section host_laws.
Context `{HostLaws}.

Lemma hostname_loop_spec fuel : forall b l n,
  repr b l -> zlen l < 2 ^ 40 -> 0 < n <= 1024 -> zlen hostname + 1 <= n * 2 ^ (Z.of_nat fuel) ->
  exists b', hostname_loop (S fuel) b n = Ok b' /\ behind b' l (hostname ++ [0]).
Proof.
  induction fuel as [|fuel IH]; intros b l n Hr Hz Hn Hf; cbn [hostname_loop]; zlen_pose; pose proof (repr_length _ _ Hr) as Hl;
    (rewrite u64_small by lia); pose proof Hr as [Hwf Hc];
    (destruct (ensure_size_spec (E := unit) b (buf_length b + n)) as (b1 & -> & Hwf1 & Hl1 & Hc1 & ? & ? & _); [done|lia|]); rewrite bind_ret_l.
  all: destruct (Z.leb_spec (zlen hostname + 1) n) as [Hle|Hgt].
  all: try (destruct (buf_write_end (E := unit) b1 (hostname ++ [0])) as (b2 & -> & W2 & W2' & L2 & _ & C2 & C2'); [done|rewrite zlen_app; change (zlen [0]) with 1; lia|];
    exists b2; split; [done|]; split; [split; [done|congruence]|]; rewrite fmap_app, <- Hc, <- Hc1, <- C2'; unfold cells; cbn [add_length buf_data buf_length];
    f_equal; rewrite L2, u64_small, length_app, zlen_app; change (zlen [0]) with 1; unfold zlen in *; rewrite ?length_app; cbn [length]; lia).
  - rewrite Z.mul_1_r in Hf. lia.
  - pose proof hostname_short. rewrite s32_small by lia. apply IH; [split; [done|congruence]|done|lia|].
    rewrite Nat2Z.inj_succ, Z.pow_succ_r in Hf by lia. lia.
Qed.

(** The names of files in a mail directory. *)
Definition mail_name (n : Z) : list Z :=
  (dec_signed (fst (gettimeofday n)) ++ str_bytes ".M" ++ dec_signed (snd (gettimeofday n)) ++ 81 :: dec n ++ [46]) ++ hostname.

Lemma dec_digits_short f : forall n, (length (dec_digits f n) <= f)%nat.
Proof.
  induction f as [|f IH]; intros n; [done|]. cbn [dec_digits]. case_match; [cbn; lia|]. rewrite length_app. cbn [length]. pose proof (IH (n / 10)). lia.
Qed.
Lemma dec_signed_short n : zlen (dec_signed n) <= 21.
Proof.
  unfold dec_signed. pose proof (dec_digits_short 20 n). pose proof (dec_digits_short 20 (- n)). unfold dec, zlen in *. case_match; cbn [length]; lia.
Qed.
Lemma dec_signed_no_nul n : 0 ∉ dec_signed n.
Proof. eapply not_in_Forall; [apply plain_dec_signed|]. cbn. lia. Qed.

Lemma mail_name_ok n : 0 <= n -> (0 ∉ mail_name n) /\ zlen (mail_name n) <= 400.
Proof.
  intros Hn. unfold mail_name. pose proof hostname_short. pose proof (dec_signed_short (fst (gettimeofday n))).
  pose proof (dec_signed_short (snd (gettimeofday n))). pose proof (dec_digits_short 20 n). fold (dec n) in *. split.
  - rewrite !not_elem_of_app, not_elem_of_cons, not_elem_of_app. pose proof hostname_no_nul.
    assert (0 ∉ dec n). { eapply not_in_Forall; [by apply dec_chars|]. done. }
    split_and!; try apply dec_signed_no_nul; try done; apply (bool_decide_unpack _); vm_compute; exact I.
  - rewrite !zlen_app, zlen_cons, zlen_app. change (zlen (str_bytes ".M")) with 2. change (zlen [46]) with 1. unfold zlen in *. lia.
Qed.

Lemma generate_maildir_name_spec n b l :
  repr b l -> zlen l < 2 ^ 30 -> 0 <= n ->
  exists b', generate_maildir_name n b = Ok (b', u32 (n + 1)) /\ named b' (l ++ mail_name n).
Proof.
  intros Hr Hz Hn. unfold generate_maildir_name, mail_name. set (t := dec_signed _ ++ _).
  pose proof (proj2 (mail_name_ok n Hn)) as Hm. unfold mail_name in Hm. fold t in Hm. rewrite zlen_app in Hm. pose proof hostname_short. zlen_pose.
  destruct (append_vprintf_named b l t Hr) as (b1 & -> & [Hr1 _]); [lia|]. rewrite bind_ret_l.
  destruct (hostname_loop_spec 31 b1 (l ++ t) 2 Hr1) as (b2 & -> & Hb2); [rewrite zlen_app; lia|lia|lia|]. rewrite bind_ret_l.
  destruct (escape_loop_spec hostname (S (length hostname)) b2 (l ++ t) Hb2) as (b3 & -> & Hb3);
    [apply hostname_no_nul|rewrite zlen_app; lia|lia|]. rewrite bind_ret_l. exists b3. split; [done|]. by rewrite <- app_assoc in Hb3.
Qed.

Context `{DigestLaws} `{BigNumLaws} `{!Elliptic} `{Symmetric} `{Digest256} `{ClockLaws}.

Definition new_path (st : ntb_store) : path := st_maildir st ++ str_bytes "new/" ++ mail_name (st_num_stored_messages st).
Definition tmp_mail_path (st : ntb_store) : path := st_maildir st ++ str_bytes "tmp/" ++ mail_name (st_num_stored_messages st).

(** The file system after [text] is saved as mail. *)
Definition delivered (f : faults) (st : ntb_store) (text : list Z) (fs : file_system) : file_system :=
  if negb (f_open f) then fs
  else match f_close f with
       | Some c => <[tmp_mail_path st := c]> fs
       | None =>
           let text := default text (f_write f) in
           if f_rename f then <[new_path st := text]> (delete (tmp_mail_path st) fs) else <[tmp_mail_path st := text]> fs
       end.

Lemma mail_ok_named dir st b p :
  mail_ok dir st -> named b (st_maildir st ++ p) -> forall n, 0 <= n ->
  let st' := st_set_num_stored n (st_set_maildir b st) in mail_ok dir st' /\ st_maildir st' = st_maildir st.
Proof.
  intros (Hwf & Hl & Hz & Ht & Hnul & Ha1 & Ha2 & _) [[Hwf' _] Hn] n Hn0 st'.
  assert (Hd : take (length (st_maildir st)) (buf_data b) = Some <$> st_maildir st).
  { apply (f_equal (take (length (st_maildir st)))) in Hn. rewrite take_take, <- app_assoc, fmap_app in Hn.
    rewrite take_app_length' in Hn by by rewrite length_fmap. rewrite <- Hn. f_equal. rewrite length_app. lia. }
  assert (Em : st_maildir st' = st_maildir st).
  { unfold st_maildir at 1. cbn [st' st_set_num_stored st_set_maildir st_maildir_len st_maildir_buf]. rewrite Hl. unfold zlen.
    rewrite Nat2Z.id, Hd, all_some_fmap. done. }
  split; [|done]. unfold mail_ok. rewrite Em. by split_and!.
Qed.

Lemma rename_new_spec f dir st fs text :
  names_ok dir st -> forall n, 0 <= n -> named (st_maildir_buf st) (st_maildir st ++ str_bytes "tmp/" ++ mail_name n) ->
  fs !! (st_maildir st ++ str_bytes "tmp/" ++ mail_name n) = Some text ->
  exists st', rename_new f st fs =
    Ok (st', if f_rename f then <[st_maildir st ++ str_bytes "new/" ++ mail_name n := text]> (delete (st_maildir st ++ str_bytes "tmp/" ++ mail_name n) fs) else fs) /\
    names_ok dir st'.
Proof.
  intros Hok n Hn Hb Hf. pose proof Hok as (Hd & Hdz & Hdl & Hwf & Ht & Hwt & Hm). pose proof Hm as (Hmw & Hml & Hmz & Hmt & Hm0 & _).
  destruct (mail_name_ok n Hn) as [Hn0 Hnz]. set (m := st_maildir st) in *. zlen_pose. pose proof (zlen_nonneg m).
  pose proof (repr_length _ _ (proj1 Hb)) as Hl. destruct (behind_data _ _ _ (proj2 (behind_named _ _) Hb)) as [r Er].
  assert (Hstr : forall s, 0 ∉ str_bytes s -> 0 ∉ m ++ str_bytes s ++ mail_name n) by (intros s Hs; rewrite !not_elem_of_app; done).
  unfold rename_new. rewrite Hml.
  rewrite (buf_read_mid _ [] m ((Some <$> str_bytes "tmp/" ++ mail_name n) ++ (Some <$> [0]) ++ r)); [|by rewrite Er, fmap_app, <- app_assoc|done].
  rewrite bind_ret_l. assert (Hr0 : repr (with_length 0 (st_tmp_buf st)) []) by by apply repr_empty.
  destruct (repr_append _ _ m Hr0) as (t1 & -> & Hr1); [change (zlen []) with 0; lia|]. rewrite bind_ret_l. cbn [app] in Hr1.
  destruct (append_string_named _ _ (str_bytes "new") Hr1) as (t2 & -> & [Hr2 _]); [change (zlen (str_bytes "new")) with 3; lia|]. rewrite bind_ret_l.
  rewrite Hl, !zlen_app. change (zlen (str_bytes "tmp/")) with 4. rewrite u64_small by lia.
  replace (zlen m + (4 + zlen (mail_name n)) - zlen m - 3 + 1) with (zlen (47 :: mail_name n ++ [0])) by (rewrite zlen_cons, zlen_app; change (zlen [0]) with 1; lia).
  rewrite (buf_read_mid _ (Some <$> m ++ str_bytes "tmp") (47 :: mail_name n ++ [0]) r);
    [|rewrite Er; change (str_bytes "tmp/") with (str_bytes "tmp" ++ [47]); rewrite !fmap_app, <- !app_assoc; cbn; rewrite fmap_app, <- app_assoc; done
     |rewrite zlen_fmap, zlen_app; done].
  rewrite bind_ret_l. destruct (repr_append _ _ (47 :: mail_name n ++ [0]) Hr2) as (t3 & -> & Hr3).
  { rewrite zlen_app, zlen_cons, zlen_app. change (zlen (str_bytes "new")) with 3. change (zlen [0]) with 1. lia. }
  rewrite bind_ret_l, (named_string _ _ Hb), bind_ret_l.
  2: { apply Hstr. apply (bool_decide_unpack _). vm_compute. exact I. }
  assert (E3 : cells_string (buf_data t3) = Ok (m ++ str_bytes "new/" ++ mail_name n)).
  { rewrite <- (take_drop (Z.to_nat (buf_length t3)) (buf_data t3)). fold (cells t3). rewrite (proj2 Hr3).
    replace ((m ++ str_bytes "new") ++ 47 :: mail_name n ++ [0]) with ((m ++ str_bytes "new/" ++ mail_name n) ++ [0])
      by (change (str_bytes "new/") with (str_bytes "new" ++ [47]); by rewrite <- !app_assoc).
    rewrite fmap_app, <- app_assoc. apply cells_string_app, Hstr. apply (bool_decide_unpack _). vm_compute. exact I. }
  rewrite E3, bind_ret_l. exists (st_set_tmp t3 st). unfold fs_rename. rewrite Hf. split; [done|]. split_and!; try done. apply Hr3.
Qed.

Lemma save_message_file f dir timestamp from_key from_address to_key blob text st fs :
  names_ok dir st -> ntb_save_message timestamp from_key from_address to_key blob = Ok text ->
  exists st', handle_save_message f timestamp from_key from_address to_key blob st fs = Ok (st', delivered f st text fs) /\ names_ok dir st'.
Proof.
  intros Hok Et. pose proof Hok as (Hd & Hdz & Hdl & Hwf & Ht & Hwt & Hm). pose proof Hm as (Hmw & Hml & Hmz & Hmt & Hm0 & _ & _ & Hn).
  set (m := st_maildir st) in *. unfold handle_save_message. zlen_pose.
  assert (Hr : repr (with_length (st_maildir_len st) (st_maildir_buf st)) m).
  { rewrite Hml. pose proof (take_data _ m (zlen m) Hmw) as Hr. unfold zlen in Hr. rewrite Nat2Z.id, firstn_all in Hr. apply Hr; [lia|lia|done]. }
  destruct (append_string_named _ _ (str_bytes "tmp/") Hr) as (b1 & -> & [Hr1 _]); [change (zlen (str_bytes "tmp/")) with 4; lia|]. rewrite bind_ret_l.
  destruct (generate_maildir_name_spec (st_num_stored_messages st) b1 _ Hr1) as (b2 & -> & Hb2);
    [rewrite zlen_app; change (zlen (str_bytes "tmp/")) with 4; lia|done|]. rewrite bind_ret_l. rewrite <- app_assoc in Hb2.
  destruct (mail_ok_named dir st b2 _ Hm Hb2 (u32 (st_num_stored_messages st + 1))) as [Hm' Em]; [apply u32_range|].
  set (st1 := st_set_num_stored _ _) in *.
  assert (Hok1 : names_ok dir st1) by by split_and!.
  rewrite (named_string _ _ Hb2), bind_ret_l.
  2: { rewrite !not_elem_of_app. split_and!; [done|apply (bool_decide_unpack _); vm_compute; exact I|by apply mail_name_ok]. }
  fold (tmp_mail_path st). unfold delivered. destruct (f_open f); cbn [negb]; [|by exists st1]. rewrite Et, bind_ret_l.
  destruct (f_close f) as [c|]; [by exists st1|].
  destruct (rename_new_spec f dir st1 (<[tmp_mail_path st := default text (f_write f)]> fs) (default text (f_write f)) Hok1 (st_num_stored_messages st) Hn)
    as (st' & E & Hok'); [by rewrite Em|rewrite Em; apply lookup_insert_eq|]. rewrite Em in E. fold (tmp_mail_path st) (new_path st) in E.
  exists st'. split; [|done]. unfold m. fold (tmp_mail_path st). rewrite E. by rewrite delete_insert_eq.
Qed.

Lemma apart_paths dir st p q : mail_ok dir st -> dir ++ p <> st_maildir st ++ q.
Proof.
  intros (_ & _ & _ & _ & _ & Ha1 & Ha2 & _) E.
  destruct (prefix_weak_total dir (st_maildir st) (dir ++ p)) as [Hp|Hp]; [by exists p|by exists q|done|done].
Qed.

(** Messages are not saved in the directory of the store. *)
Lemma delivered_elsewhere f dir st text fs p : names_ok dir st -> delivered f st text fs !! (dir ++ p) = fs !! (dir ++ p).
Proof.
  intros Hok. assert (Ha : forall q, st_maildir st ++ q <> dir ++ p) by (intros q E; by apply (apart_paths dir st p q), eq_sym; [apply Hok|]).
  unfold delivered, new_path, tmp_mail_path. repeat case_match; rewrite ?lookup_insert_ne, ?lookup_delete_ne by apply Ha; done.
Qed.
End host_laws.

(** ** The directories of a new store *)

Fixpoint strip_rev (r : list Z) : list Z :=
  match r with
  | c :: (_ :: _) as r' => if c =? 47 then strip_rev r' else r
  | _ => r
  end.
Definition strip_slashes (l : list Z) : list Z := rev (strip_rev (rev l)).

Lemma strip_rev_suffix r : exists k, r = k ++ strip_rev r.
Proof.
  induction r as [|c r [k IH]]; [by exists []|]. cbn [strip_rev]. destruct r as [|d r]; [by exists []|].
  destruct (c =? 47); [|by exists []]. exists (c :: k). cbn [app]. by rewrite <- IH.
Qed.
Lemma strip_prefix l : exists k, l = strip_slashes l ++ k.
Proof.
  destruct (strip_rev_suffix (rev l)) as [k E]. exists (rev k). unfold strip_slashes. rewrite <- rev_app_distr, <- E. by rewrite rev_involutive.
Qed.

Lemma repr_shorten b l k : repr b (l ++ k) -> repr (with_length (zlen l) b) l.
Proof.
  intros Hr. destruct (repr_data _ _ Hr) as [r Er]. destruct Hr as [Hwf _].
  assert (Ht : take (length l) (buf_data b) = Some <$> l) by (rewrite Er, fmap_app, <- app_assoc; apply take_app_length'; by rewrite length_fmap).
  pose proof (take_data b l (zlen l) Hwf) as H. unfold zlen in H |- *. rewrite Nat2Z.id, firstn_all in H. apply H; [lia|lia|done].
Qed.

Lemma strip_spec fuel : forall b l, repr b l -> (length l < fuel)%nat ->
  exists b', strip_trailing_slashes fuel b = Ok b' /\ repr b' (strip_slashes l).
Proof.
  induction fuel as [|fuel IH]; intros b l Hr Hf; [lia|]. cbn [strip_trailing_slashes]. rewrite (repr_length _ _ Hr).
  unfold strip_slashes. destruct l as [|c l _] using rev_ind; [by exists b|]. rewrite rev_app_distr. cbn [rev app].
  rewrite zlen_app in *. change (zlen [c]) with 1 in *. zlen_pose.
  destruct (Z.leb_spec (zlen l + 1) 1) as [Hle|Hgt].
  { assert (zlen l = 0) as ->%zlen_zero by lia. by exists b. }
  destruct (repr_data _ _ Hr) as [r Er]. replace (zlen l + 1 - 1) with (zlen l) by lia.
  rewrite (buf_read_mid b (Some <$> l) [c] r), bind_ret_l; [|by rewrite Er, fmap_app, <- app_assoc|by rewrite zlen_fmap].
  destruct l as [|d l _] using rev_ind; [done|]. rewrite rev_app_distr. cbn [rev app strip_rev].
  destruct (Z.eqb_spec c 47) as [->|Hne].
  - change (bytes_eqb [47] [47]) with true. cbn [negb].
    destruct (IH (with_length (zlen (l ++ [d])) b) (l ++ [d])) as (b' & E & Hr'); [by eapply repr_shorten|rewrite !length_app in *; cbn in *; lia|].
    exists b'. split; [done|]. unfold strip_slashes in Hr'. by rewrite rev_app_distr in Hr'.
  - destruct (bytes_eqb [c] [47]) eqn:E; [apply bytes_eqb_true in E; congruence|]. exists b. split; [done|].
    change (rev (c :: d :: rev l)) with ((rev (rev l) ++ [d]) ++ [c]). by rewrite rev_involutive.
Qed.

Lemma strip_ok b l : repr b l -> exists b', strip b = Ok b' /\ repr b' (strip_slashes l).
Proof. intros Hr. apply strip_spec; [done|]. rewrite (repr_length _ _ Hr). unfold zlen. lia. Qed.

Lemma strip_length l : zlen (strip_slashes l) <= zlen l.
Proof. destruct (strip_prefix l) as [k E]. rewrite E at 2. rewrite zlen_app. zlen_pose. lia. Qed.
Lemma strip_no_nul l : 0 ∉ l -> 0 ∉ strip_slashes l.
Proof. destruct (strip_prefix l) as [k E]. rewrite E at 1. rewrite not_elem_of_app. tauto. Qed.

Section new_store.
Context `{HostLaws}.

Lemma append_cwd_S fuel n b :
  append_cwd (S fuel) n b =
  (b ← ntb_buffer_ensure_size b (u64 (buf_length b + n));
   match cwd with
   | None => Ok (false, b)
   | Some dir =>
       if zlen dir + 1 <=? u64 (buf_size b - buf_length b) then
         b ← buf_write b (buf_length b) (dir ++ [0]); Ok (true, add_length b (zlen dir))
       else append_cwd fuel (u64 (n * 2)) b
   end).
Proof. done. Qed.

Lemma append_cwd_spec fuel : forall b l n, repr b l -> zlen l <= 2 ^ 20 -> 0 < n <= 2 ^ 20 -> 2 ^ 17 <= n * 2 ^ Z.of_nat fuel ->
  exists ok b', append_cwd (S fuel) n b = Ok (ok, b') /\ repr b' (l ++ if (ok : bool) then default [] cwd else []).
Proof.
  induction fuel as [|fuel IH]; intros b l n Hr Hz Hn Hf; rewrite append_cwd_S; zlen_pose; pose proof (repr_length _ _ Hr) as Hl;
    (rewrite (u64_small (buf_length b + n)) by lia); pose proof Hr as [Hwf Hc];
    (destruct (ensure_size_spec (E := unit) b (buf_length b + n)) as (b1 & -> & Hwf1 & Hl1 & Hc1 & ? & ? & Hsz); [done|lia|]); rewrite bind_ret_l.
  all: destruct cwd as [d|] eqn:Ed; [|exists false, b1; split; [done|]; rewrite app_nil_r; by split; [|rewrite Hc1]].
  all: destruct (cwd_ok d Ed) as (_ & Hdz & _); rewrite (u64_small (buf_size b1 - _)) by (destruct Hwf1 as (? & ? & ?); lia).
  all: destruct (Z.leb_spec (zlen d + 1) (buf_size b1 - buf_length b1)) as [Hle|Hgt].
  1, 3: destruct (buf_write_end (E := unit) b1 (d ++ [0])) as (b2 & -> & W2 & W2' & L2 & S2 & C2 & C2'); [done|rewrite zlen_app; change (zlen [0]) with 1; lia|];
    rewrite bind_ret_l; exists true, (add_length b2 (zlen d)); split; [done|];
    assert (Hr2 : repr (add_length b2 (zlen (d ++ [0]))) ((l ++ d) ++ [0])) by (split; [done|by rewrite C2', Hc1, Hc, <- app_assoc, !fmap_app]);
    apply repr_shorten in Hr2; unfold add_length, with_length in *; cbn [buf_data buf_size default] in *;
    pose proof (zlen_nonneg d); rewrite (u64_small (buf_length b2 + zlen d)), L2, Hl1, Hl by (rewrite ?L2, ?Hl1; lia); by rewrite zlen_app in Hr2.
  - rewrite Z.mul_1_r in Hf. lia.
  - rewrite (u64_small (n * 2)) by lia. apply IH; [by split; [|rewrite Hc1]|done|lia|]. rewrite Nat2Z.inj_succ, Z.pow_succ_r in Hf by lia. lia.
Qed.

Lemma absolute_path_spec b p : repr b [] -> 0 ∉ p -> zlen p <= 2 ^ 16 ->
  exists b' l, append_absolute_path b p = Ok b' /\ repr b' l /\ (0 ∉ l) /\ zlen l <= 2 ^ 18.
Proof.
  intros Hr Hp Hz. unfold append_absolute_path. zlen_pose.
  assert (Hpre : exists b1 l1, (if relative p then '(ok, b) ← append_cwd 64 32 b; if (ok : bool) then ntb_buffer_append_c b 47 else Ok b else Ok b) = Ok b1 /\
    repr b1 l1 /\ (0 ∉ l1) /\ zlen l1 <= 2 ^ 17).
  { destruct (relative p); [|exists b, []; split_and!; [done|done|apply not_elem_of_nil|done]].
    destruct (append_cwd_spec 63 b [] 32 Hr) as (ok & b1 & -> & Hr1); [done|lia|lia|]. rewrite bind_ret_l. cbn [app] in Hr1.
    destruct ok; [|exists b1, []; split_and!; [done|done|apply not_elem_of_nil|done]].
    assert (Hd : (0 ∉ default [] cwd) /\ zlen (default [] cwd) <= 2 ^ 16).
    { destruct cwd as [d|] eqn:Ed; [|split; [apply not_elem_of_nil|done]]. destruct (cwd_ok d Ed) as (? & ? & _). done. }
    destruct (repr_append_c b1 _ 47 Hr1) as (b2 & -> & Hr2); [unfold is_byte; lia|lia|]. exists b2, (default [] cwd ++ [47]).
    split_and!; [done|done| |rewrite zlen_app; change (zlen [47]) with 1; lia]. apply not_elem_of_app. split; [apply Hd|]. apply not_elem_of_cons. split; [done|apply not_elem_of_nil]. }
  destruct Hpre as (b1 & l1 & -> & Hr1 & Hn1 & Hz1). rewrite bind_ret_l. zlen_pose.
  destruct (append_string_named b1 l1 p Hr1) as (b2 & -> & [Hr2 _]); [lia|]. rewrite bind_ret_l.
  destruct (strip_ok b2 _ Hr2) as (b3 & -> & Hr3). exists b3, (strip_slashes (l1 ++ p)). split_and!; [done|done| |].
  - apply strip_no_nul, not_elem_of_app. done.
  - pose proof (strip_length (l1 ++ p)) as Hs. rewrite zlen_app in Hs. lia.
Qed.

Lemma append_below_spec b p q : repr b [] -> 0 ∉ p -> zlen p <= 2 ^ 16 -> 0 ∉ q -> zlen q <= 100 ->
  exists b' l, append_below b p q = Ok b' /\ repr b' l /\ (0 ∉ l) /\ zlen l <= 2 ^ 19.
Proof.
  intros Hr Hp Hz Hq Hqz. unfold append_below. zlen_pose.
  destruct (append_string_named b [] p Hr) as (b1 & -> & [Hr1 _]); [change (zlen []) with 0; lia|]. rewrite bind_ret_l.
  destruct (strip_ok b1 _ Hr1) as (b2 & -> & Hr2). rewrite bind_ret_l. pose proof (strip_length ([] ++ p)) as Hs. cbn [app] in *.
  destruct (append_string_named b2 _ q Hr2) as (b3 & -> & [Hr3 _]); [lia|]. exists b3, (strip_slashes p ++ q).
  split_and!; [done|done| |rewrite zlen_app; lia]. apply not_elem_of_app. split; [by apply strip_no_nul|done].
Qed.

Lemma infallible_Ok {A} (r : result unit A) a : r = Ok a -> infallible r = Ok a.
Proof. by intros ->. Qed.

Lemma make_directory_spec b l : named b l -> 0 ∉ l -> make_directory b = guard_err (mkdir_ok l) NTB_STORE_ERROR_MKDIR.
Proof. intros Hb Hl. unfold make_directory. by rewrite (named_string _ _ Hb). Qed.

(** The directory that is found for the store or the mail is in the buffer. *)
Definition found (r : result ntb_store_error ntb_buffer) : Prop :=
  match r with
  | Ok b => exists l, repr b l /\ (0 ∉ l) /\ zlen l <= 2 ^ 20
  | Err _ => True
  | _ => False
  end.

Lemma found_below b p q : repr b [] -> 0 ∉ p -> zlen p <= 2 ^ 16 -> 0 ∉ q -> zlen q <= 100 -> found (infallible (append_below b p q)).
Proof.
  intros Hr Hp Hz Hq Hqz. destruct (append_below_spec b p q Hr Hp Hz Hq Hqz) as (b' & l & -> & Hr' & Hl & Hlz). exists l.
  split_and!; [done|done|lia].
Qed.

Definition argument_ok (o : option (list Z)) : Prop := forall p, o = Some p -> (0 ∉ p) /\ zlen p <= 2 ^ 16.

Lemma init_store_directory_spec sd st :
  repr (st_filename_buf st) [] -> argument_ok sd ->
  match init_store_directory sd st with
  | Ok st' => exists dir, (0 ∉ dir) /\ zlen dir <= 2 ^ 20 /\ st_directory_len st' = zlen dir /\ buf_wf (st_filename_buf st') /\
      take (length dir) (buf_data (st_filename_buf st')) = Some <$> dir /\ st_tmp_buf st' = st_tmp_buf st /\
      st_maildir_buf st' = st_maildir_buf st /\ st_num_stored_messages st' = st_num_stored_messages st /\
      mkdir_ok (dir ++ str_bytes "objects") = true /\ mkdir_ok (dir ++ str_bytes "outgoing") = true
  | Err _ => True
  | _ => False
  end.
Proof.
  intros Hr Ha. unfold init_store_directory. set (r := match sd with Some _ => _ | None => _ end).
  assert (Hf : found r).
  { unfold r. destruct sd as [p|].
    - destruct (Ha p eq_refl) as [Hp Hz]. destruct (absolute_path_spec _ p Hr Hp Hz) as (b1 & l & -> & Hr1 & Hl & Hlz). rewrite bind_ret_l.
      destruct (append_string_named b1 l (str_bytes "/") Hr1) as (b2 & -> & [Hr2 _]); [change (zlen (str_bytes "/")) with 1; lia|]. exists (l ++ str_bytes "/").
      split_and!; [done| |rewrite zlen_app; change (zlen (str_bytes "/")) with 1; lia]. apply not_elem_of_app. split; [done|].
      apply (bool_decide_unpack _). vm_compute. exact I.
    - destruct (getenv (str_bytes "XDG_DATA_HOME")) as [p|] eqn:E1; [|destruct (getenv (str_bytes "HOME")) as [p|] eqn:E2; [|done]].
      all: destruct (relative p); [done|]; first [destruct (getenv_ok _ _ E1)|destruct (getenv_ok _ _ E2)]; apply found_below; try done;
        apply (bool_decide_unpack _); vm_compute; exact I. }
  destruct r as [b1| | |]; try done. rewrite bind_ret_l. destruct Hf as (dir & Hr1 & Hd & Hz). zlen_pose.
  destruct (append_string_named b1 dir (str_bytes "objects") Hr1) as (b2 & E2 & Hb2); [change (zlen (str_bytes "objects")) with 7; lia|].
  rewrite (infallible_Ok _ _ E2), bind_ret_l.
  assert (Hs : forall t, 0 ∉ t -> 0 ∉ dir ++ t) by (intros t Ht; by apply not_elem_of_app).
  rewrite (make_directory_spec b2 _ Hb2) by (apply Hs, (bool_decide_unpack _); vm_compute; exact I).
  unfold guard_err at 1. destruct (mkdir_ok (dir ++ str_bytes "objects")) eqn:Em1; [rewrite bind_ret_l|done].
  pose proof (repr_length _ _ Hr1) as Hl1. rewrite Hl1.
  destruct (append_string_named (with_length (zlen dir) b2) dir (str_bytes "outgoing")) as (b3 & E3 & Hb3);
    [by eapply repr_shorten, Hb2|change (zlen (str_bytes "outgoing")) with 8; lia|]. rewrite (infallible_Ok _ _ E3), bind_ret_l.
  rewrite (make_directory_spec b3 _ Hb3) by (apply Hs, (bool_decide_unpack _); vm_compute; exact I).
  unfold guard_err. destruct (mkdir_ok (dir ++ str_bytes "outgoing")) eqn:Em2; [rewrite bind_ret_l|done].
  exists dir. cbn [st_directory_len st_filename_buf st_tmp_buf st_maildir_buf st_num_stored_messages]. split_and!; try done; [apply Hb3|].
  destruct (repr_data _ _ (proj1 Hb3)) as [x ->]. rewrite fmap_app, <- app_assoc. apply take_app_length'. by rewrite length_fmap.
Qed.

(** One of the three directories of the mail. *)
Lemma replace_last b l s t :
  named b (l ++ s) -> zlen s = 3 -> zlen l <= 2 ^ 20 -> zlen t = 3 ->
  exists b1 b2, infallible (ntb_buffer_set_length b (u64 (buf_length b - 3))) = Ok b1 /\
    infallible (ntb_buffer_append_string b1 t) = Ok b2 /\ named b2 (l ++ t).
Proof.
  intros Hb Hs Hl Ht. pose proof (repr_length _ _ (proj1 Hb)) as Hz. rewrite zlen_app in Hz. zlen_pose. rewrite u64_small by lia.
  unfold ntb_buffer_set_length. pose proof Hb as [[Hwf Hc] _].
  destruct (ensure_size_spec (E := unit) b (buf_length b - 3)) as (b1 & -> & Hwf1 & Hl1 & Hc1 & _); [done|lia|]. rewrite bind_ret_l.
  assert (Hr1 : repr b1 (l ++ s)) by by split; [|rewrite Hc1]. apply repr_shorten in Hr1. rewrite Hz.
  replace (zlen l + zlen s - 3) with (zlen l) by lia.
  destruct (append_string_named _ l t Hr1) as (b2 & E2 & Hb2); [lia|]. eexists _, b2. split_and!; [done|by apply infallible_Ok|done].
Qed.

Lemma init_maildir_spec md st :
  repr (st_maildir_buf st) [] -> argument_ok md ->
  match init_maildir md st with
  | Ok st' => st_filename_buf st' = st_filename_buf st /\ st_directory_len st' = st_directory_len st /\ st_tmp_buf st' = st_tmp_buf st /\
      st_num_stored_messages st' = st_num_stored_messages st /\ buf_wf (st_maildir_buf st') /\ st_maildir_len st' = zlen (st_maildir st') /\
      zlen (st_maildir st') <= 2 ^ 20 /\ take (length (st_maildir st')) (buf_data (st_maildir_buf st')) = Some <$> st_maildir st' /\ (0 ∉ st_maildir st')
  | Err _ => True
  | _ => False
  end.
Proof.
  intros Hr Ha. unfold init_maildir. set (r := match md with Some _ => _ | None => _ end).
  assert (Hf : found r).
  { unfold r. destruct md as [p|].
    - destruct (Ha p eq_refl) as [Hp Hz]. destruct (absolute_path_spec _ p Hr Hp Hz) as (b1 & l & -> & Hr1 & Hl & Hlz). rewrite bind_ret_l.
      destruct (repr_append_c b1 l 47 Hr1) as (b2 & -> & Hr2); [unfold is_byte; lia|lia|]. exists (l ++ [47]).
      split_and!; [done| |rewrite zlen_app; change (zlen [47]) with 1; lia]. apply not_elem_of_app. split; [done|].
      apply (bool_decide_unpack _). vm_compute. exact I.
    - destruct (getenv (str_bytes "HOME")) as [p|] eqn:E2; [|done]. destruct (relative p); [done|]. destruct (getenv_ok _ _ E2).
      apply found_below; try done. apply (bool_decide_unpack _). vm_compute. exact I. }
  destruct r as [b1| | |]; try done. rewrite bind_ret_l. destruct Hf as (m & Hr1 & Hm & Hz). zlen_pose.
  assert (Hs : forall t, 0 ∉ t -> 0 ∉ m ++ t) by (intros t Ht; by apply not_elem_of_app).
  destruct (append_string_named b1 m (str_bytes "new") Hr1) as (b2 & E2 & Hb2); [change (zlen (str_bytes "new")) with 3; lia|].
  rewrite (infallible_Ok _ _ E2), bind_ret_l.
  rewrite (make_directory_spec b2 _ Hb2) by (apply Hs, (bool_decide_unpack _); vm_compute; exact I).
  unfold guard_err at 1. destruct (mkdir_ok _); [rewrite bind_ret_l|done].
  destruct (replace_last b2 m _ (str_bytes "tmp") Hb2) as (b3 & b4 & -> & E4 & Hb4); [done|lia|done|]. rewrite bind_ret_l, E4, bind_ret_l.
  rewrite (make_directory_spec b4 _ Hb4) by (apply Hs, (bool_decide_unpack _); vm_compute; exact I).
  unfold guard_err at 1. destruct (mkdir_ok _); [rewrite bind_ret_l|done].
  destruct (replace_last b4 m _ (str_bytes "cur") Hb4) as (b5 & b6 & -> & E6 & Hb6); [done|lia|done|]. rewrite bind_ret_l, E6, bind_ret_l.
  rewrite (make_directory_spec b6 _ Hb6) by (apply Hs, (bool_decide_unpack _); vm_compute; exact I).
  unfold guard_err. destruct (mkdir_ok _); [rewrite bind_ret_l|done].
  set (st' := StoreNames _ _ _ _ _ _). destruct (repr_data _ _ (proj1 Hb6)) as [x Ex].
  assert (Ht : take (length m) (buf_data b6) = Some <$> m) by (rewrite Ex, fmap_app, <- app_assoc; apply take_app_length'; by rewrite length_fmap).
  assert (Em : st_maildir st' = m).
  { unfold st_maildir. cbn [st' st_maildir_len st_maildir_buf]. rewrite (repr_length _ _ Hr1). unfold zlen. by rewrite Nat2Z.id, Ht, all_some_fmap. }
  rewrite Em. cbn [st' st_filename_buf st_directory_len st_tmp_buf st_num_stored_messages st_maildir_buf st_maildir_len].
  split_and!; try done; [apply Hb6|by apply repr_length].
Qed.

(** Creating a store succeeds or fails with an error, and its names are then what every
    operation of the store relies on, when neither directory is inside the other. *)
Lemma store_new_names_ok sd md :
  argument_ok sd -> argument_ok md ->
  match ntb_store_new_names sd md with
  | Ok st => exists dir, mkdir_ok (dir ++ str_bytes "objects") = true /\ mkdir_ok (dir ++ str_bytes "outgoing") = true /\
      (~ dir `prefix_of` st_maildir st -> ~ st_maildir st `prefix_of` dir -> names_ok dir st)
  | Err _ => True
  | _ => False
  end.
Proof.
  intros Hs Hm. unfold ntb_store_new_names. assert (Hr0 : repr ntb_buffer_init []) by by apply (repr_empty ntb_buffer_init).
  set (st0 := StoreNames _ _ _ _ _ _). pose proof (init_store_directory_spec sd st0 Hr0 Hs) as H1.
  destruct (init_store_directory sd st0) as [st1| | |]; try done. rewrite bind_ret_l.
  destruct H1 as (dir & Hd & Hz & Hl & Hw & Ht & Et & Emb & En & Em1 & Em2).
  pose proof (init_maildir_spec md st1) as H2. destruct (init_maildir md st1) as [st2| | |]; try (by apply H2; [rewrite Emb|]).
  rewrite bind_ret_l. destruct H2 as (Ef & El & _ & En2 & Hmw & Hml & Hmz & Hmt & Hm0); [by rewrite Emb|done|].
  exists dir. split_and!; [done..|]. intros Ha1 Ha2. unfold names_ok, mail_ok. cbn [st_set_tmp st_directory_len st_filename_buf st_tmp_buf].
  rewrite Ef, El. split_and!; try done. cbn [st_num_stored_messages st_set_tmp]. rewrite En2, En. done.
Qed.
End new_store.


(** A host for examples. *)
#[local] Instance Host_toy : Host := {|
  getenv v := if bytes_eqb v (str_bytes "HOME") then Some (str_bytes "/h/") else None;
  cwd := Some (str_bytes "/w"); hostname := str_bytes "host"; gettimeofday n := (1400000000 + n, 7); mkdir_ok _ := true
|}.
#[local] Instance HostLaws_toy : HostLaws (H := Host_toy).
Proof.
  constructor; cbn [hostname cwd getenv Host_toy].
  - apply (bool_decide_unpack _). vm_compute. exact I.
  - done.
  - intros d [= <-]. split_and!; [apply (bool_decide_unpack _); vm_compute; exact I|done|by exists (str_bytes "w")].
  - intros v s E. case_match; [|done]. injection E as <-. split; [apply (bool_decide_unpack _); vm_compute; exact I|done].
Qed.
