(* ===== verification/Store.v ===== *)
(** * Store: the store's queue, its thread and the cookies of its loads (ntb-store.c)

    Tasks are slices: [store_slots] is their memory, which keeps its contents when a
    task is freed, and [store_magazine] is the list of free ones, from which the next
    task is taken. A cookie points to its task and the task to its cookie. The main
    thread calls the [ntb_store_*] functions, each of which holds the mutex throughout,
    and runs the idle callback; the store's thread is a step function that stops where
    the mutex is released or taken and blocks on the condition variable until it is
    signalled. *)

From S2P Require Import Prelude Ident Endian Buffer NetAddress OpenSSL Proto ProtoSpec NetText KeyValue Base58 Address Outgoings Ecc Keys HashTable Connection Network StoreFiles StoreFilesSpec SaveMessage Maildir.

Section store.
Context `{Inet} `{Digests} `{BigNum} `{!Elliptic} `{Symmetric} `{Digest256} `{Host} `{Clock}.

Inductive ntb_store_task :=
| NTB_STORE_TASK_TYPE_SAVE_BLOB (hash : list Z) (blob : file_blob)
| NTB_STORE_TASK_TYPE_LOAD_BLOB (hash : list Z) (cookie : option nat)
| NTB_STORE_TASK_TYPE_SAVE_ADDR_LIST (addrs : list ntb_store_addr)
| NTB_STORE_TASK_TYPE_SAVE_KEYS (keys : list ntb_key)
| NTB_STORE_TASK_TYPE_SAVE_OUTGOINGS (outgoings : list ntb_store_outgoing)
| NTB_STORE_TASK_TYPE_SAVE_MESSAGE (timestamp : Z) (from_key : option ntb_key) (from_address : list Z)
    (to_key : ntb_key) (blob : file_blob)
| NTB_STORE_TASK_TYPE_SAVE_MESSAGE_CONTENT (id : Z) (blob : file_blob)
| NTB_STORE_TASK_TYPE_LOAD_MESSAGE_CONTENT (id : Z) (cookie : option nat)
| NTB_STORE_TASK_TYPE_DELETE_MESSAGE_CONTENT (id : Z)
| NTB_STORE_TASK_TYPE_DELETE_OBJECT (hash : list Z).

(** The cookie of a load, or nothing for the other tasks. *)
Definition task_cookie (t : ntb_store_task) : option (option nat) :=
  match t with
  | NTB_STORE_TASK_TYPE_LOAD_BLOB _ c | NTB_STORE_TASK_TYPE_LOAD_MESSAGE_CONTENT _ c => Some c
  | _ => None
  end.

Record ntb_store_cookie := Cookie {
  ck_blob : option file_blob;
  ck_task : nat;
  (** [idle_source] is not [NULL] *)
  ck_idle : bool
}.

(** Where the store's thread is: at the head of its loop with the lock taken, blocked
    in [pthread_cond_wait], at a task, which has left the queue, or returned. *)
Inductive store_thread :=
| ThreadReady
| ThreadWaiting
| ThreadWorking (task : nat)
| ThreadWorked (task : nat)
| ThreadLoading (task : nat)
| ThreadLoaded (task : nat) (blob : option file_blob)
| ThreadExited.

Record store := Store {
  store_names : ntb_store;
  store_fs : file_system;
  store_slots : gmap nat ntb_store_task;
  store_magazine : list nat;
  store_n_slots : nat;
  store_queue : list nat;
  store_cookies : gmap nat ntb_store_cookie;
  store_n_cookies : nat;
  store_worker : store_thread;
  store_quit : bool
}.

Definition set_disk (n : ntb_store) (fs : file_system) (s : store) : store :=
  Store n fs (store_slots s) (store_magazine s) (store_n_slots s) (store_queue s) (store_cookies s) (store_n_cookies s) (store_worker s) (store_quit s).
Definition set_slots (v : gmap nat ntb_store_task) (s : store) : store :=
  Store (store_names s) (store_fs s) v (store_magazine s) (store_n_slots s) (store_queue s) (store_cookies s) (store_n_cookies s) (store_worker s) (store_quit s).
Definition set_magazine (v : list nat) (n : nat) (s : store) : store :=
  Store (store_names s) (store_fs s) (store_slots s) v n (store_queue s) (store_cookies s) (store_n_cookies s) (store_worker s) (store_quit s).
Definition set_queue (v : list nat) (s : store) : store :=
  Store (store_names s) (store_fs s) (store_slots s) (store_magazine s) (store_n_slots s) v (store_cookies s) (store_n_cookies s) (store_worker s) (store_quit s).
Definition set_cookies (v : gmap nat ntb_store_cookie) (n : nat) (s : store) : store :=
  Store (store_names s) (store_fs s) (store_slots s) (store_magazine s) (store_n_slots s) (store_queue s) v n (store_worker s) (store_quit s).
Definition set_worker (v : store_thread) (s : store) : store :=
  Store (store_names s) (store_fs s) (store_slots s) (store_magazine s) (store_n_slots s) (store_queue s) (store_cookies s) (store_n_cookies s) v (store_quit s).
Definition set_quit (v : bool) (s : store) : store :=
  Store (store_names s) (store_fs s) (store_slots s) (store_magazine s) (store_n_slots s) (store_queue s) (store_cookies s) (store_n_cookies s) (store_worker s) v.

Definition ntb_store_new (names : ntb_store) (fs : file_system) : store :=
  Store names fs ∅ [] 0 [] ∅ 0 ThreadReady false.

(** ** Allocating tasks (ntb-slice.c) *)

Definition ntb_slice_alloc (s : store) : nat * store :=
  match store_magazine s with
  | l :: magazine => (l, set_magazine magazine (store_n_slots s) s)
  | [] => (store_n_slots s, set_magazine [] (S (store_n_slots s)) s)
  end.

Definition ntb_slice_free (l : nat) (s : store) : store :=
  set_magazine (l :: store_magazine s) (store_n_slots s) s.

(** What the task refers to is released by its own reference counts. *)
Definition free_task (l : nat) (s : store) : store := ntb_slice_free l s.

(** ** The condition variable *)

(** [pthread_cond_signal], and also a wake-up without a signal: the thread takes the
    lock again and tests its condition. The thread is the only one that waits. *)
Definition thread_woken (w : store_thread) : store_thread :=
  match w with ThreadWaiting => ThreadReady | w => w end.
Definition store_signal (s : store) : store := set_worker (thread_woken (store_worker s)) s.

(** ** The main thread *)

Definition new_task (t : ntb_store_task) (s : store) : nat * store :=
  let '(l, s) := ntb_slice_alloc s in
  (l, store_signal (set_queue (store_queue s ++ [l]) (set_slots (<[l := t]> (store_slots s)) s))).

Definition ntb_store_save_blob (hash : list Z) (blob : file_blob) (s : store) : store :=
  snd (new_task (NTB_STORE_TASK_TYPE_SAVE_BLOB hash blob) s).
Definition ntb_store_delete_object (hash : list Z) (s : store) : store :=
  snd (new_task (NTB_STORE_TASK_TYPE_DELETE_OBJECT hash) s).
(** [strcpy] of the address into an array of [NTB_ADDRESS_MAX_LENGTH + 1]. *)
Definition ntb_store_save_message (timestamp : Z) (from_key : option ntb_key) (from_address : list Z)
    (to_key : ntb_key) (blob : file_blob) (s : store) : result unit store :=
  if NTB_ADDRESS_MAX_LENGTH <? zlen from_address then UB
  else Ok (snd (new_task (NTB_STORE_TASK_TYPE_SAVE_MESSAGE timestamp from_key from_address to_key blob) s)).
Definition ntb_store_save_message_content (id : Z) (blob : file_blob) (s : store) : store :=
  snd (new_task (NTB_STORE_TASK_TYPE_SAVE_MESSAGE_CONTENT id blob) s).
Definition ntb_store_delete_message_content (id : Z) (s : store) : store :=
  snd (new_task (NTB_STORE_TASK_TYPE_DELETE_MESSAGE_CONTENT id) s).
Definition ntb_store_save_addr_list (addrs : list ntb_store_addr) (s : store) : store :=
  snd (new_task (NTB_STORE_TASK_TYPE_SAVE_ADDR_LIST addrs) s).
Definition ntb_store_save_keys (keys : list ntb_key) (s : store) : store :=
  snd (new_task (NTB_STORE_TASK_TYPE_SAVE_KEYS keys) s).
Definition ntb_store_save_outgoings (outgoings : list ntb_store_outgoing) (s : store) : store :=
  snd (new_task (NTB_STORE_TASK_TYPE_SAVE_OUTGOINGS outgoings) s).

(** The cookie's function and data are its identity here. *)
Definition new_load (t : nat -> ntb_store_task) (s : store) : nat * store :=
  let c := store_n_cookies s in
  let '(l, s) := new_task (t c) s in
  (c, set_cookies (<[c := Cookie None l false]> (store_cookies s)) (S c) s).
Definition ntb_store_load_blob (hash : list Z) (s : store) : nat * store :=
  new_load (fun c => NTB_STORE_TASK_TYPE_LOAD_BLOB hash (Some c)) s.
Definition ntb_store_load_message_content (id : Z) (s : store) : nat * store :=
  new_load (fun c => NTB_STORE_TASK_TYPE_LOAD_MESSAGE_CONTENT id (Some c)) s.

(** [UB]: a cookie that was freed, or the assertion that the task is a load. *)
Definition ntb_store_cancel_task (c : nat) (s : store) : result unit store :=
  match store_cookies s !! c with
  | None => UB
  | Some cookie =>
      let l := ck_task cookie in
      s ← match store_slots s !! l with
          | Some (NTB_STORE_TASK_TYPE_LOAD_BLOB hash _) =>
              Ok (set_slots (<[l := NTB_STORE_TASK_TYPE_LOAD_BLOB hash None]> (store_slots s)) s)
          | Some (NTB_STORE_TASK_TYPE_LOAD_MESSAGE_CONTENT id _) =>
              Ok (set_slots (<[l := NTB_STORE_TASK_TYPE_LOAD_MESSAGE_CONTENT id None]> (store_slots s)) s)
          | _ => UB
          end;
      Ok (set_cookies (delete c (store_cookies s)) (store_n_cookies s) s)
  end.

(** The main loop calls this for a cookie with an idle source. The result is what the
    cookie's function is called with. *)
Definition load_data_idle_cb (c : nat) (s : store) : result unit (option file_blob * store) :=
  match store_cookies s !! c with
  | Some (Cookie blob _ true) => Ok (blob, set_cookies (delete c (store_cookies s)) (store_n_cookies s) s)
  | _ => UB
  end.

(** ** The store's thread *)

(** The tasks that run without the lock. *)
Definition handle_task (f : faults) (t : ntb_store_task) (n : ntb_store) (fs : file_system) : result unit (ntb_store * file_system) :=
  match t with
  | NTB_STORE_TASK_TYPE_SAVE_BLOB hash blob => handle_save_blob f hash blob n fs
  | NTB_STORE_TASK_TYPE_DELETE_OBJECT hash => handle_delete_object f hash n fs
  | NTB_STORE_TASK_TYPE_SAVE_ADDR_LIST addrs => handle_save_addr_list f addrs n fs
  | NTB_STORE_TASK_TYPE_SAVE_KEYS keys => handle_save_keys f keys n fs
  | NTB_STORE_TASK_TYPE_SAVE_OUTGOINGS outgoings => handle_save_outgoings f outgoings n fs
  | NTB_STORE_TASK_TYPE_SAVE_MESSAGE timestamp from_key from_address to_key blob =>
      handle_save_message f timestamp from_key from_address to_key blob n fs
  | NTB_STORE_TASK_TYPE_SAVE_MESSAGE_CONTENT id blob => handle_save_message_content f id (fb_data blob) n fs
  | NTB_STORE_TASK_TYPE_DELETE_MESSAGE_CONTENT id => handle_delete_message_content f id n fs
  | NTB_STORE_TASK_TYPE_LOAD_BLOB _ _ | NTB_STORE_TASK_TYPE_LOAD_MESSAGE_CONTENT _ _ => UB
  end.

(** The part of the two loads that reads the file. *)
Definition load_file (f : faults) (t : ntb_store_task) (n : ntb_store) (fs : file_system) : result unit (ntb_store * option file_blob) :=
  match t with
  | NTB_STORE_TASK_TYPE_LOAD_BLOB hash _ => load_blob_file f hash n fs
  | NTB_STORE_TASK_TYPE_LOAD_MESSAGE_CONTENT id _ => load_message_content_file f id n fs
  | _ => UB
  end.

(** The end of a load, with the lock: the blob goes to the cookie and an idle source
    is installed, unless the task was cancelled. *)
Definition finish_load (l : nat) (blob : option file_blob) (s : store) : result unit store :=
  match store_slots s !! l ≫= task_cookie with
  | Some None => Ok s
  | Some (Some c) =>
      match store_cookies s !! c with
      | Some cookie => Ok (set_cookies (<[c := Cookie blob (ck_task cookie) true]> (store_cookies s)) (store_n_cookies s) s)
      | None => UB
      end
  | None => UB
  end.

(** One step of [store_thread_func], with the failures of the files it accesses;
    [None] when the thread is blocked until it is woken or has returned. *)
Definition store_thread_step (f : faults) (s : store) : result unit (option store) :=
  match store_worker s with
  | ThreadExited | ThreadWaiting => Ok None
  | ThreadReady =>
      match store_queue s with
      | [] => Ok (Some (set_worker (if store_quit s then ThreadExited else ThreadWaiting) s))
      | l :: queue =>
          let s := set_queue queue s in
          match store_slots s !! l with
          | None => UB
          | Some t =>
              match task_cookie t with
              | Some None => Ok (Some (free_task l s))
              | Some (Some _) => Ok (Some (set_worker (ThreadLoading l) s))
              | None => Ok (Some (set_worker (ThreadWorking l) s))
              end
          end
      end
  | ThreadWorking l =>
      match store_slots s !! l with
      | None => UB
      | Some t => '(n, fs) ← handle_task f t (store_names s) (store_fs s); Ok (Some (set_worker (ThreadWorked l) (set_disk n fs s)))
      end
  | ThreadWorked l => Ok (Some (set_worker ThreadReady (free_task l s)))
  | ThreadLoading l =>
      match store_slots s !! l with
      | None => UB
      | Some t => '(n, blob) ← load_file f t (store_names s) (store_fs s);
                  Ok (Some (set_worker (ThreadLoaded l blob) (set_disk n (store_fs s) s)))
      end
  | ThreadLoaded l blob =>
      s ← finish_load l blob s;
      Ok (Some (set_worker ThreadReady (free_task l s)))
  end.

(** The thread runs until it blocks or returns; [fs] are the failures of its steps. *)
Fixpoint store_thread_run (fs : list faults) (s : store) : result unit store :=
  match fs with
  | [] => Ok s
  | f :: fs =>
      r ← store_thread_step f s;
      match r with Some s => store_thread_run fs s | None => Ok s end
  end.

(** The part of [ntb_store_free] before the thread is joined. *)
Definition ntb_store_free_begin (s : store) : store := store_signal (set_quit true s).
End store.
