(* ===== verification/StoreSpec.v ===== *)
(** * StoreSpec: the store as a sequence of operations (for [Store])

    The abstract store is a map from hashes to objects and one from identifiers to
    message contents, on which every operation takes effect at once, in the order of
    the calls. The store with its thread refines it: what a load reports is what the
    abstract store held when the load was requested. *)

From S2P Require Import Prelude Ident Endian Buffer NetAddress OpenSSL Proto ProtoSpec NetText KeyValue Base58 Address Outgoings Ecc Keys HashTable Connection Network StoreFiles StoreFilesSpec SaveMessage Maildir Store.

(** ** The abstract store *)

Record disk := Disk { d_objects : gmap (list Z) file_blob; d_contents : gmap Z (list Z) }.

(** The files that hold it. *)
Definition disk_rel (dir : list Z) (d : disk) (fs : file_system) : Prop :=
  fs_ok fs /\
  (forall h, hash_ok h -> fs !! object_path dir h ≫= loaded_blob = d_objects d !! h) /\
  (forall id, 0 <= id < 2 ^ 64 -> fs !! content_path dir id = d_contents d !! id).

(** ** Names that differ *)

Lemma object_content_ne dir h id : object_path dir h <> content_path dir id.
Proof. unfold object_path, content_path. intros E%app_inv_head. discriminate E. Qed.
Lemma object_tmp_ne dir h h' : hash_ok h -> hash_ok h' -> object_path dir h <> tmp_path (object_path dir h').
Proof.
  intros [Hz _] [Hz' _] E%(f_equal length). unfold tmp_path, object_path in E. rewrite !length_app, !hex_length in E.
  unfold zlen in *. cbn in E. lia.
Qed.
Lemma content_tmp_ne dir id h : content_path dir id <> tmp_path (object_path dir h).
Proof. unfold content_path, object_path. rewrite <- app_tmp_path. intros E%app_inv_head. discriminate E. Qed.
Lemma object_content_tmp_ne dir h id : object_path dir h <> tmp_path (content_path dir id).
Proof. unfold object_path, content_path. rewrite <- app_tmp_path. intros E%app_inv_head. discriminate E. Qed.
Lemma content_content_tmp_ne dir id id' : content_path dir id <> tmp_path (content_path dir id').
Proof.
  intros E%(f_equal length). unfold tmp_path, content_path in E.
  pose proof (content_path_short id) as L. pose proof (content_path_short id') as L'. unfold zlen in *.
  rewrite !length_app in *. cbn in *. lia.
Qed.

Lemma hex_16_inj id id' : 0 <= id < 2 ^ 64 -> 0 <= id' < 2 ^ 64 -> hex_16 id = hex_16 id' -> id = id'.
Proof.
  intros Hi Hi' E. apply (hex_inj (be_split 8 id) (be_split 8 id')) in E; [|apply bytes_be_split..].
  apply (f_equal be_combine) in E. rewrite !be_combine_split in E. change (256 ^ Z.of_nat 8) with (2 ^ 64) in E.
  by rewrite !Z.mod_small in E.
Qed.
Lemma content_path_inj dir id id' :
  0 <= id < 2 ^ 64 -> 0 <= id' < 2 ^ 64 -> content_path dir id = content_path dir id' -> id = id'.
Proof. intros Hi Hi' E. unfold content_path in E. apply app_inv_head, app_inv_head in E. by apply hex_16_inj. Qed.

(** ** The effect of the handlers on the abstract store *)

Lemma checked_no_faults p data fs : checked no_faults p data fs = <[p := data]> (delete (tmp_path p) fs).
Proof. done. Qed.
Lemma printed_no_faults p data fs : printed no_faults p data fs = <[p := data]> (delete (tmp_path p) fs).
Proof. done. Qed.

Lemma fs_ok_saved p data fs : fs_ok fs -> bytes data -> fs_ok (<[p := data]> (delete (tmp_path p) fs)).
Proof. intros Hf Hb. apply map_Forall_insert_2; [done|]. by apply map_Forall_delete. Qed.

Lemma rel_save_blob dir d fs hash blob :
  disk_rel dir d fs -> hash_ok hash -> blob_ok blob -> bytes (fb_data blob) ->
  disk_rel dir (Disk (<[hash := blob]> (d_objects d)) (d_contents d)) (checked no_faults (object_path dir hash) (blob_text blob) fs).
Proof.
  intros (Hf & Ho & Hc) Hh Hb Hbd. rewrite checked_no_faults. split_and!.
  - apply fs_ok_saved; [done|]. apply bytes_app. split; [apply bytes_be_split|done].
  - intros h Hok. cbn [d_objects]. destruct (decide (h = hash)) as [->|Hne].
    + rewrite !lookup_insert_eq. cbn [mbind option_bind]. by apply load_blob_text.
    + rewrite (lookup_insert_ne _ (object_path dir hash)) by (intros E; apply Hne; symmetry; by apply (object_path_inj dir); [apply Hh|apply Hok|]).
      rewrite lookup_delete_ne, lookup_insert_ne by (done || (intros E; by apply (object_tmp_ne dir h hash))). by apply Ho.
  - intros id Hi. cbn [d_contents]. rewrite lookup_insert_ne by (intros E; by apply (object_content_ne dir hash id)).
    rewrite lookup_delete_ne by (intros E; by apply (content_tmp_ne dir id hash)). by apply Hc.
Qed.

Lemma rel_delete_object dir d fs hash :
  disk_rel dir d fs -> hash_ok hash ->
  disk_rel dir (Disk (delete hash (d_objects d)) (d_contents d)) (delete (object_path dir hash) fs).
Proof.
  intros (Hf & Ho & Hc) Hh. split_and!; [by apply map_Forall_delete| |].
  - intros h Hok. cbn [d_objects]. destruct (decide (h = hash)) as [->|Hne].
    + by rewrite !lookup_delete_eq.
    + rewrite !lookup_delete_ne by (done || (intros E; apply Hne; symmetry; by apply (object_path_inj dir); [apply Hh|apply Hok|])).
      by apply Ho.
  - intros id Hi. cbn [d_contents]. rewrite lookup_delete_ne by (intros E; by apply (object_content_ne dir hash id)). by apply Hc.
Qed.

Lemma rel_save_content dir d fs id data :
  disk_rel dir d fs -> 0 <= id < 2 ^ 64 -> bytes data ->
  disk_rel dir (Disk (d_objects d) (<[id := data]> (d_contents d))) (checked no_faults (content_path dir id) data fs).
Proof.
  intros (Hf & Ho & Hc) Hi Hb. rewrite checked_no_faults. split_and!; [by apply fs_ok_saved| |].
  - intros h Hok. rewrite lookup_insert_ne by (intros E; symmetry in E; by apply (object_content_ne dir h id)).
    rewrite lookup_delete_ne by (intros E; symmetry in E; by apply (object_content_tmp_ne dir h id)). by apply Ho.
  - intros id' Hi'. cbn [d_contents]. destruct (decide (id' = id)) as [->|Hne]; [by rewrite !lookup_insert_eq|].
    rewrite !lookup_insert_ne by (done || (intros E; apply Hne; symmetry; by apply (content_path_inj dir))).
    rewrite lookup_delete_ne by (intros E; symmetry in E; by apply (content_content_tmp_ne dir id' id)). by apply Hc.
Qed.

Lemma rel_delete_content dir d fs id :
  disk_rel dir d fs -> 0 <= id < 2 ^ 64 ->
  disk_rel dir (Disk (d_objects d) (delete id (d_contents d))) (delete (content_path dir id) fs).
Proof.
  intros (Hf & Ho & Hc) Hi. split_and!; [by apply map_Forall_delete| |].
  - intros h Hok. rewrite lookup_delete_ne by (intros E; symmetry in E; by apply (object_content_ne dir h id)). by apply Ho.
  - intros id' Hi'. cbn [d_contents]. destruct (decide (id' = id)) as [->|Hne]; [by rewrite !lookup_delete_eq|].
    rewrite !lookup_delete_ne by (done || (intros E; apply Hne; symmetry; by apply (content_path_inj dir))). by apply Hc.
Qed.

(** Files of the directory that hold neither objects nor contents. *)
Lemma rel_frame dir d fs fs' :
  disk_rel dir d fs -> fs_ok fs' ->
  (forall h, hash_ok h -> fs' !! object_path dir h = fs !! object_path dir h) ->
  (forall id, fs' !! content_path dir id = fs !! content_path dir id) -> disk_rel dir d fs'.
Proof.
  intros (Hf & Ho & Hc) Hf' Eo Ec. split_and!; [done| |].
  - intros h Hok. rewrite Eo by done. by apply Ho.
  - intros id Hi. rewrite Ec. by apply Hc.
Qed.

(** The lists of the store: their names are not those of an object or of a content. *)
Definition list_name (p : list Z) : Prop :=
  p ∈ [addr_list_name; str_bytes "keys.dat"; str_bytes "outgoing-messages.dat"].

Lemma rel_save_list dir d fs p text :
  disk_rel dir d fs -> list_name p -> bytes text -> disk_rel dir d (printed no_faults (dir ++ p) text fs).
Proof.
  intros Hr Hp Hb. rewrite printed_no_faults, <- app_tmp_path. apply (rel_frame dir d fs); [done| | |].
  - pose proof (fs_ok_saved (dir ++ p) text fs (proj1 Hr) Hb) as Hf. by rewrite <- app_tmp_path in Hf.
  - intros h _. unfold list_name in Hp. unfold object_path. rewrite lookup_insert_ne, lookup_delete_ne; [done|..]; intros E%app_inv_head;
      repeat (apply elem_of_cons in Hp as [->|Hp]; [discriminate E|]); by apply elem_of_nil in Hp.
  - intros id. unfold list_name in Hp. unfold content_path. rewrite lookup_insert_ne, lookup_delete_ne; [done|..]; intros E%app_inv_head;
      repeat (apply elem_of_cons in Hp as [->|Hp]; [discriminate E|]); by apply elem_of_nil in Hp.
Qed.

Section refinement.
Context `{Inet} `{DigestLaws} `{BigNumLaws} `{!Elliptic} `{Symmetric} `{Digest256} `{HostLaws} `{ClockLaws}.
Variable dir : list Z.

Implicit Types (t : ntb_store_task) (s : store) (d : disk).

(** Arguments that the callers pass. *)
Definition task_ok t : Prop :=
  match t with
  | NTB_STORE_TASK_TYPE_SAVE_BLOB hash blob => hash_ok hash /\ blob_ok blob /\ bytes (fb_data blob)
  | NTB_STORE_TASK_TYPE_LOAD_BLOB hash _ | NTB_STORE_TASK_TYPE_DELETE_OBJECT hash => hash_ok hash
  | NTB_STORE_TASK_TYPE_SAVE_ADDR_LIST addrs => bytes (mjoin (addr_line <$> addrs))
  | NTB_STORE_TASK_TYPE_SAVE_KEYS keys => exists text, write_keys keys = Ok text /\ bytes text
  | NTB_STORE_TASK_TYPE_SAVE_OUTGOINGS outgoings => exists text, write_outgoings outgoings = Ok text /\ bytes text
  | NTB_STORE_TASK_TYPE_SAVE_MESSAGE timestamp from_key from_address to_key blob =>
      exists text, ntb_save_message timestamp from_key from_address to_key blob = Ok text /\ bytes text
  | NTB_STORE_TASK_TYPE_SAVE_MESSAGE_CONTENT id blob => 0 <= id < 2 ^ 64 /\ bytes (fb_data blob)
  | NTB_STORE_TASK_TYPE_LOAD_MESSAGE_CONTENT id _ | NTB_STORE_TASK_TYPE_DELETE_MESSAGE_CONTENT id => 0 <= id < 2 ^ 64
  end.

Definition apply_task t d : disk :=
  match t with
  | NTB_STORE_TASK_TYPE_SAVE_BLOB hash blob => Disk (<[hash := blob]> (d_objects d)) (d_contents d)
  | NTB_STORE_TASK_TYPE_DELETE_OBJECT hash => Disk (delete hash (d_objects d)) (d_contents d)
  | NTB_STORE_TASK_TYPE_SAVE_MESSAGE_CONTENT id blob => Disk (d_objects d) (<[id := fb_data blob]> (d_contents d))
  | NTB_STORE_TASK_TYPE_DELETE_MESSAGE_CONTENT id => Disk (d_objects d) (delete id (d_contents d))
  | _ => d
  end.

Definition answer t d : option file_blob :=
  match t with
  | NTB_STORE_TASK_TYPE_LOAD_BLOB hash _ => d_objects d !! hash
  | NTB_STORE_TASK_TYPE_LOAD_MESSAGE_CONTENT id _ => FileBlob 2 <$> d_contents d !! id
  | _ => None
  end.

Lemma handle_task_spec t n fs d :
  names_ok dir n -> task_ok t -> task_cookie t = None -> disk_rel dir d fs ->
  exists n' fs', handle_task no_faults t n fs = Ok (n', fs') /\ names_ok dir n' /\ disk_rel dir (apply_task t d) fs'.
Proof.
  intros Hn Ht Hc Hr.
  destruct t as [hash blob|hash c|addrs|keys|outgoings|timestamp from_key from_address to_key blob|id blob|id c|id|hash];
    cbn [handle_task apply_task task_ok task_cookie] in *; try discriminate Hc.
  - destruct Ht as (Hh & Hb & Hbb). destruct (save_blob_spec no_faults dir hash blob n fs Hn Hh Hb) as (n' & E & Hn').
    eexists _, _. split_and!; [exact E|done|by apply rel_save_blob].
  - destruct (save_addr_list_spec no_faults dir addrs n fs Hn) as (n' & E & Hn'). eexists _, _. split_and!; [exact E|done|].
    apply rel_save_list; [done|by left|done].
  - destruct Ht as (text & Et & Hb). unfold handle_save_keys.
    destruct (save_named_list no_faults dir (str_bytes "keys.dat") text n fs) as (n' & E & Hn'); [done|apply (bool_decide_unpack _); vm_compute; exact I|done|].
    eexists _, _. split_and!; [|exact Hn'|apply (rel_save_list dir d fs (str_bytes "keys.dat") text); [done|by right; left|done]].
    rewrite Et. destruct (set_filename n _) as [st| | |] eqn:E1; [|discriminate E..]. cbn [mbind result_bind] in *. exact E.
  - destruct Ht as (text & Et & Hb). unfold handle_save_outgoings.
    destruct (save_named_list no_faults dir (str_bytes "outgoing-messages.dat") text n fs) as (n' & E & Hn'); [done|apply (bool_decide_unpack _); vm_compute; exact I|done|].
    eexists _, _. split_and!; [|exact Hn'|apply (rel_save_list dir d fs (str_bytes "outgoing-messages.dat") text); [done|by right; right; left|done]].
    rewrite Et. destruct (set_filename n _) as [st| | |] eqn:E1; [|discriminate E..]. cbn [mbind result_bind] in *. exact E.
  - destruct Ht as (text & Et & Hb). destruct (save_message_file no_faults dir timestamp from_key from_address to_key blob text n fs Hn Et) as (n' & E & Hn').
    exists n', (delivered no_faults n text fs). split_and!; [done|done|].
    apply (rel_frame dir d fs); [done| |intros h _; by apply delivered_elsewhere|intros id; by apply delivered_elsewhere].
    unfold delivered. cbn. apply map_Forall_insert_2; [done|]. by apply map_Forall_delete, Hr.
  - destruct Ht as [Hi Hb]. destruct (save_content_spec no_faults dir id (fb_data blob) n fs Hn) as (n' & E & Hn').
    eexists _, _. split_and!; [exact E|done|by apply rel_save_content].
  - destruct (delete_content_spec no_faults dir id n fs Hn) as (n' & E & Hn'). eexists _, _. split_and!; [exact E|done|].
    by apply rel_delete_content.
  - destruct (delete_object_spec no_faults dir hash n fs Hn Ht) as (n' & E & Hn'). eexists _, _. split_and!; [exact E|done|].
    by apply rel_delete_object.
Qed.

Lemma load_file_spec t n fs d c :
  names_ok dir n -> task_ok t -> task_cookie t = Some c -> disk_rel dir d fs ->
  exists n', load_file no_faults t n fs = Ok (n', answer t d) /\ names_ok dir n'.
Proof.
  intros Hn Ht Hc (Hf & Ho & Hco). destruct t; try discriminate Hc; cbn [load_file answer task_ok] in *.
  - destruct (load_blob_spec no_faults dir hash n fs Hn Ht Hf) as (n' & -> & Hn'). exists n'. split; [|done]. cbn [no_faults f_open].
    by rewrite Ho.
  - destruct (load_content_spec no_faults dir id n fs Hn) as (n' & -> & Hn'). exists n'. split; [|done]. cbn [no_faults f_open].
    by rewrite Hco.
Qed.

(** ** The invariant *)

(** Tasks that are yet to take effect, and the one whose effect is done. *)
Definition pending s : list nat :=
  match store_worker s with ThreadWorking l | ThreadLoading l => l :: store_queue s | _ => store_queue s end.
Definition done_with s : list nat :=
  match store_worker s with ThreadWorked l | ThreadLoaded l _ => [l] | _ => [] end.
Definition busy s : list nat := done_with s ++ pending s.

(** Playing [ts] on [d0] leads to [d], and every load in it that was not cancelled
    meets what its requester expects. *)
Fixpoint plays (d0 : disk) (ts : list ntb_store_task) (d : disk) (ex : gmap nat (option file_blob)) : Prop :=
  match ts with
  | [] => d0 = d
  | t :: ts =>
      (forall c, task_cookie t = Some (Some c) -> ex !! c = Some (answer t d0)) /\ plays (apply_task t d0) ts d ex
  end.

Definition slot_cookie s (l : nat) : option (option nat) := store_slots s !! l ≫= task_cookie.

(** A cookie and its load point to each other until the load is done; then the cookie
    holds what is expected. *)
Definition cookie_ok s (ex : gmap nat (option file_blob)) (c : nat) (ck : ntb_store_cookie) : Prop :=
  (c < store_n_cookies s)%nat /\
  if ck_idle ck then ex !! c = Some (ck_blob ck) else ck_task ck ∈ busy s /\ slot_cookie s (ck_task ck) = Some (Some c).

Record store_inv s d (ex : gmap nat (option file_blob)) : Prop := StoreInv {
  si_names : names_ok dir (store_names s);
  si_disk : exists ts d0, Forall2 (fun l t => store_slots s !! l = Some t) (pending s) ts /\ Forall task_ok ts /\
    disk_rel dir d0 (store_fs s) /\ plays d0 ts d ex;
  si_worker : match store_worker s with
    | ThreadWorking l | ThreadWorked l => slot_cookie s l = None
    | ThreadLoading l => is_Some (slot_cookie s l)
    | ThreadLoaded l b => is_Some (slot_cookie s l) /\ (forall c, slot_cookie s l = Some (Some c) -> ex !! c = Some b)
    | _ => True
    end;
  si_nodup : NoDup (store_magazine s ++ busy s);
  si_bound : Forall (fun l => (l < store_n_slots s)%nat) (store_magazine s ++ busy s);
  si_cookies : map_Forall (cookie_ok s ex) (store_cookies s);
  si_slots : forall l c, l ∈ busy s -> slot_cookie s l = Some (Some c) ->
    exists ck, store_cookies s !! c = Some ck /\ ck_task ck = l /\ ck_idle ck = false;
  si_expected : forall c, (store_n_cookies s <= c)%nat -> ex !! c = None
}.

Lemma store_inv_new n fs d : names_ok dir n -> disk_rel dir d fs -> store_inv (ntb_store_new n fs) d ∅.
Proof.
  intros Hn Hr. split; [done|exists [], d; by split_and!|done|constructor|constructor|apply map_Forall_empty| |done].
  intros l c Hl. by apply elem_of_nil in Hl.
Qed.

Lemma plays_snoc ts : forall d0 d t ex,
  plays d0 ts d ex -> (forall c, task_cookie t = Some (Some c) -> ex !! c = Some (answer t d)) ->
  plays d0 (ts ++ [t]) (apply_task t d) ex.
Proof.
  induction ts as [|t' ts IH]; intros d0 d t ex Hp Ht; cbn [app plays] in *; [by subst|].
  destruct Hp as [Hc Hp]. split; [done|]. by apply IH.
Qed.

Lemma plays_weaken ts : forall d0 d ex ex', ex ⊆ ex' -> plays d0 ts d ex -> plays d0 ts d ex'.
Proof.
  induction ts as [|t ts IH]; intros d0 d ex ex' Hs Hp; cbn [plays] in *; [done|]. destruct Hp as [Hc Hp]. split; [|by eapply IH].
  intros c Ec. eapply lookup_weaken; [by apply Hc|done].
Qed.

(** Allocating a slot that no one uses. *)
Lemma alloc_spec s d ex :
  store_inv s d ex -> exists l s', ntb_slice_alloc s = (l, s') /\ (l ∉ busy s) /\ NoDup (store_magazine s' ++ busy s ++ [l]) /\
    Forall (fun l => (l < store_n_slots s')%nat) (store_magazine s' ++ busy s ++ [l]) /\
    s' = set_magazine (store_magazine s') (store_n_slots s') s.
Proof.
  intros [_ _ _ Hnd Hb _ _ _]. unfold ntb_slice_alloc. destruct (store_magazine s) as [|l m] eqn:Em.
  - eexists _, _. split; [reflexivity|]. cbn [app store_magazine store_n_slots set_magazine] in *.
    assert (Hl : store_n_slots s ∉ busy s) by (intros Hin; rewrite Forall_forall in Hb; specialize (Hb _ Hin); lia).
    split_and!; [done| | |done].
    + apply NoDup_app. split_and!; [done| |apply NoDup_singleton]. by intros x Hx ->%list_elem_of_singleton.
    + apply Forall_app. split; [|constructor; [lia|constructor]]. eapply Forall_impl; [exact Hb|]. cbn. lia.
  - eexists _, _. split; [reflexivity|]. cbn [app store_magazine store_n_slots set_magazine] in *.
    apply NoDup_cons in Hnd as [Hl Hnd]. apply Forall_cons in Hb as [Hlb Hb]. apply not_elem_of_app in Hl as [Hlm Hlb'].
    split_and!; [done| | |done].
    + rewrite app_assoc. apply NoDup_app. split_and!; [done| |apply NoDup_singleton]. intros x Hx ->%list_elem_of_singleton.
      apply elem_of_app in Hx as [?|?]; done.
    + rewrite app_assoc. apply Forall_app. split; [done|constructor; [done|constructor]].
Qed.

Lemma busy_signal s : busy (store_signal s) = busy s.
Proof. unfold busy, pending, done_with, store_signal. cbn. by destruct (store_worker s). Qed.
Lemma pending_signal s : pending (store_signal s) = pending s.
Proof. unfold pending, store_signal. cbn. by destruct (store_worker s). Qed.
Lemma busy_queue s q : busy (store_signal (set_queue (store_queue s ++ q) s)) = busy s ++ q.
Proof. rewrite busy_signal. unfold busy, pending, done_with. cbn. destruct (store_worker s); rewrite ?app_assoc; done. Qed.
Lemma pending_queue s q : pending (store_signal (set_queue (store_queue s ++ q) s)) = pending s ++ q.
Proof. rewrite pending_signal. unfold pending. cbn. by destruct (store_worker s). Qed.

(** Slots in use are not touched by a write to another one. *)
Lemma slots_frame s l t :
  l ∉ busy s -> (forall x, x ∈ busy s -> <[l := t]> (store_slots s) !! x = store_slots s !! x).
Proof. intros Hl x Hx. apply lookup_insert_ne. by intros ->. Qed.

Lemma tasks_frame (m m' : gmap nat ntb_store_task) ls ts :
  (forall x, x ∈ ls -> m' !! x = m !! x) -> Forall2 (fun l t => m !! l = Some t) ls ts -> Forall2 (fun l t => m' !! l = Some t) ls ts.
Proof.
  intros Hf Hl. induction Hl as [|l t ls ts Ht _ IH]; [constructor|]. constructor.
  - rewrite Hf; [done|by left].
  - apply IH. intros x Hx. apply Hf. by right.
Qed.

(** A call that adds the task [t]: for a load, its cookie is allocated too. *)
Definition submit t s : store :=
  let '(l, s) := new_task t s in
  match task_cookie t with
  | Some (Some c) => set_cookies (<[c := Cookie None l false]> (store_cookies s)) (S c) s
  | _ => s
  end.
Definition expect t d (ex : gmap nat (option file_blob)) : gmap nat (option file_blob) :=
  match task_cookie t with Some (Some c) => <[c := answer t d]> ex | _ => ex end.

(** The cookie of a load is a new one. *)
Definition new_cookie t s : Prop :=
  match task_cookie t with Some (Some c) => c = store_n_cookies s | Some None => False | None => True end.

Lemma submit_inv t s d ex :
  store_inv s d ex -> task_ok t -> new_cookie t s -> store_inv (submit t s) (apply_task t d) (expect t d ex).
Proof.
  intros Hi Ht Hnc. destruct (alloc_spec s d ex Hi) as (l & s1 & E & Hl & Hnd & Hb & Es).
  unfold submit, new_task. rewrite E, Es. set (m := store_magazine s1) in *. set (k := store_n_slots s1) in *. clearbody m k. clear E Es s1.
  destruct Hi as [Hn (ts & d0 & Hts & Htok & Hd0 & Hp) Hw _ _ Hc Hs He].
  set (s2 := match task_cookie t with Some (Some _) => _ | _ => _ end).
  assert (Eb : busy s2 = busy s ++ [l]) by (unfold s2; destruct (task_cookie t) as [[c|]|]; exact (busy_queue s [l])).
  assert (Ep : pending s2 = pending s ++ [l]) by (unfold s2; destruct (task_cookie t) as [[c|]|]; exact (pending_queue s [l])).
  assert (Esl : store_slots s2 = <[l := t]> (store_slots s)) by (unfold s2; by destruct (task_cookie t) as [[c|]|]).
  assert (Em : store_magazine s2 = m /\ store_n_slots s2 = k /\ store_worker s2 = thread_woken (store_worker s) /\ store_names s2 = store_names s /\ store_fs s2 = store_fs s)
    by (unfold s2; by destruct (task_cookie t) as [[c|]|]). destruct Em as (Em & Ek & Ew & En & Ef).
  assert (Hsub : ex ⊆ expect t d ex).
  { unfold expect, new_cookie in *. destruct (task_cookie t) as [[c|]|]; [|done|done]. apply insert_subseteq, He. lia. }
  assert (Hframe : forall x, x ∈ busy s -> store_slots s2 !! x = store_slots s !! x) by (intros x Hx; by rewrite Esl, slots_frame).
  assert (Hsl : forall x, x ∈ busy s -> slot_cookie s2 x = slot_cookie s x) by (intros x Hx; unfold slot_cookie; by rewrite Hframe).
  assert (Hnew : slot_cookie s2 l = task_cookie t) by (unfold slot_cookie; by rewrite Esl, lookup_insert_eq).
  split; rewrite ?Em, ?Ek, ?En, ?Ef, ?Ew, ?Eb; [done| | |exact Hnd|exact Hb| | |].
  - exists (ts ++ [t]), d0. rewrite Ep. split_and!; [|by apply Forall_app; split; [|constructor]|done|].
    + apply Forall2_app; [|constructor; [by rewrite Esl, lookup_insert_eq|constructor]].
      eapply tasks_frame; [|exact Hts]. intros x Hx. apply Hframe, elem_of_app. by right.
    + apply plays_snoc; [by eapply plays_weaken|]. intros c Ec. unfold expect. rewrite Ec. apply lookup_insert_eq.
  - assert (Hin : forall x, x ∈ done_with s ++ pending s -> slot_cookie s2 x = slot_cookie s x) by done. unfold done_with, pending in Hin.
    destruct (store_worker s) as [| |x|x|x|x b|]; cbn [thread_woken]; try done.
    + rewrite Hin; [done|by left].
    + rewrite Hin; [done|by left].
    + rewrite Hin; [done|by left].
    + destruct Hw as [Hw1 Hw2]. rewrite Hin by by left. split; [done|]. intros c Ec. eapply lookup_weaken; [by apply Hw2|done].
  - assert (Hold : forall c ck, cookie_ok s ex c ck -> (store_n_cookies s <= store_n_cookies s2)%nat -> cookie_ok s2 (expect t d ex) c ck).
    { intros c ck [Hc1 Hc2] Hle. split; [lia|]. destruct (ck_idle ck); [by eapply lookup_weaken|]. destruct Hc2 as [Hc2 Hc3].
      rewrite Eb, Hsl by done. split; [apply elem_of_app; by left|done]. }
    unfold new_cookie in Hnc. unfold s2 at 2. destruct (task_cookie t) as [[c|]|] eqn:Et; [|done|].
    + subst c. cbn [store_cookies set_cookies]. apply map_Forall_insert_2.
      * split; [unfold s2; cbn; lia|]. cbn [ck_idle ck_task]. rewrite Eb, Hnew. split; [apply elem_of_app; right; by left|done].
      * intros c ck Eck. apply Hold; [by apply Hc|unfold s2; cbn; lia].
    + intros c ck Eck. apply Hold; [by apply Hc|unfold s2; cbn; lia].
  - intros x c [Hx|Hx]%elem_of_app Ex.
    + rewrite Hsl in Ex by done. destruct (Hs x c Hx Ex) as (ck & Eck & Hck). exists ck. split; [|done].
      unfold s2, new_cookie in *. destruct (task_cookie t) as [[c'|]|]; [|done|done]. subst c'. cbn [store_cookies set_cookies].
      rewrite lookup_insert_ne; [done|]. apply Hc in Eck as [Hlt _]. lia.
    + apply list_elem_of_singleton in Hx as ->. rewrite Hnew in Ex. unfold s2. rewrite Ex. cbn [store_cookies set_cookies].
      rewrite lookup_insert_eq. eauto.
  - intros c Hcn. unfold expect, s2, new_cookie in *. destruct (task_cookie t) as [[c'|]|]; [|done|by apply He].
    subst c'. cbn [store_n_cookies set_cookies] in Hcn. rewrite lookup_insert_ne by lia. apply He. lia.
Qed.

(** ** Cancelling and reporting *)

Definition cancelled t : ntb_store_task :=
  match t with
  | NTB_STORE_TASK_TYPE_LOAD_BLOB hash _ => NTB_STORE_TASK_TYPE_LOAD_BLOB hash None
  | NTB_STORE_TASK_TYPE_LOAD_MESSAGE_CONTENT id _ => NTB_STORE_TASK_TYPE_LOAD_MESSAGE_CONTENT id None
  | _ => t
  end.

Lemma cancelled_spec t : task_ok t -> task_ok (cancelled t) /\ (forall d, apply_task (cancelled t) d = apply_task t d) /\
  (is_Some (task_cookie t) -> task_cookie (cancelled t) = Some None).
Proof. intros Ht. destruct t; (split_and!; [exact Ht|done|]); first [done|intros [? [=]]]. Qed.

(** The slot of a task in the list. *)
Lemma plays_cancel (m : gmap nat ntb_store_task) l t ls : forall ts d0 d ex,
  Forall2 (fun l t => m !! l = Some t) ls ts -> Forall task_ok ts -> plays d0 ts d ex -> NoDup ls -> m !! l = Some t -> is_Some (task_cookie t) ->
  exists ts', Forall2 (fun x t' => <[l := cancelled t]> m !! x = Some t') ls ts' /\ Forall task_ok ts' /\ plays d0 ts' d ex.
Proof.
  induction ls as [|x ls IH]; intros ts d0 d ex Hl Ht Hp Hnd Em Hc.
  { apply Forall2_nil_inv_l in Hl as ->. by exists []. }
  apply Forall2_cons_inv_l in Hl as (t' & ts' & Et & Hl & ->). apply Forall_cons in Ht as [Ht Hts]. destruct Hp as [Hp1 Hp2].
  apply NoDup_cons in Hnd as [Hni Hnd]. destruct (IH _ _ _ _ Hl Hts Hp2 Hnd Em Hc) as (us & Hu1 & Hu2 & Hu3).
  destruct (decide (x = l)) as [->|Hne].
  - rewrite Em in Et. injection Et as <-. destruct (cancelled_spec t Ht) as (Ho & Ha & Hk). exists (cancelled t :: us). split_and!.
    + constructor; [by rewrite lookup_insert_eq|done].
    + by constructor.
    + cbn [plays]. rewrite Ha. split; [|done]. intros c Ec. rewrite Hk in Ec by done. discriminate Ec.
  - exists (t' :: us). split_and!; [|by constructor|by split]. constructor; [by rewrite lookup_insert_ne|done].
Qed.

Lemma pending_nodup s d ex : store_inv s d ex -> NoDup (busy s) /\ NoDup (pending s).
Proof.
  intros Hi. pose proof (si_nodup _ _ _ Hi) as Hnd. apply NoDup_app in Hnd as (_ & _ & Hnd). split; [done|].
  unfold busy in Hnd. by apply NoDup_app in Hnd as (_ & _ & ?).
Qed.

(** The task of a cookie that is still waited for. *)
Lemma cookie_task s d ex c ck :
  store_inv s d ex -> store_cookies s !! c = Some ck -> ck_idle ck = false ->
  exists t, store_slots s !! ck_task ck = Some t /\ task_cookie t = Some (Some c) /\ ck_task ck ∈ busy s.
Proof.
  intros Hi Ec Hk. pose proof (si_cookies _ _ _ Hi c ck Ec) as [_ Hc]. rewrite Hk in Hc. destruct Hc as [Hb Hs].
  unfold slot_cookie in Hs. destruct (store_slots s !! ck_task ck) as [t|]; [|done]. by exists t.
Qed.

Lemma cancel_inv s d ex c ck :
  store_inv s d ex -> store_cookies s !! c = Some ck -> ck_idle ck = false ->
  exists s', ntb_store_cancel_task c s = Ok s' /\ store_inv s' d ex.
Proof.
  intros Hi Ec Hk. destruct (cookie_task s d ex c ck Hi Ec Hk) as (t & Et & Htc & Hbl). set (l := ck_task ck) in *.
  set (s' := set_cookies (delete c (store_cookies s)) (store_n_cookies s) (set_slots (<[l := cancelled t]> (store_slots s)) s)).
  exists s'. split.
  { unfold ntb_store_cancel_task. rewrite Ec. fold l. rewrite Et. destruct t; try discriminate Htc; done. }
  destruct (pending_nodup s d ex Hi) as [_ Hpn]. destruct Hi as [Hn (ts & d0 & Hts & Htok & Hd0 & Hp) Hw Hnd Hb Hc Hs He].
  assert (Hsl : forall x, x <> l -> slot_cookie s' x = slot_cookie s x) by (intros x Hx; unfold slot_cookie; cbn; by rewrite lookup_insert_ne).
  assert (Hlc : slot_cookie s l = Some (Some c)) by (unfold slot_cookie; by rewrite Et).
  assert (Hnl : slot_cookie s' l = Some None).
  { unfold slot_cookie. cbn. rewrite lookup_insert_eq. cbn. destruct t; try discriminate Htc; done. }
  split; [done| | |exact Hnd|exact Hb| | |exact He].
  - destruct (plays_cancel (store_slots s) l t (pending s) ts d0 d ex) as (ts' & Ht1 & Ht2 & Ht3); [done|done|done|done|done|by rewrite Htc|].
    by exists ts', d0.
  - cbn [s' store_worker set_cookies set_slots]. assert (Hne : forall x, slot_cookie s x = None -> slot_cookie s' x = None).
    { intros x Hx. rewrite Hsl; [done|]. intros ->. by rewrite Hlc in Hx. }
    destruct (store_worker s) as [| |x|x|x|x b|]; try done; try by apply Hne.
    + destruct (decide (x = l)) as [->|Hx]; [by rewrite Hnl|by rewrite Hsl].
    + destruct Hw as [Hw1 Hw2]. destruct (decide (x = l)) as [->|Hx]; [rewrite Hnl; split; [done|by intros ? [=]]|by rewrite Hsl].
  - intros c' ck' Ec'. cbn [s' store_cookies set_cookies set_slots] in Ec'. apply lookup_delete_Some in Ec' as [Hne Ec'].
    destruct (Hc c' ck' Ec') as [Hlt Hck]. split; [done|]. destruct (ck_idle ck'); [done|]. destruct Hck as [Hin Hsc]. split; [done|].
    rewrite Hsl; [done|]. intros El. rewrite El, Hlc in Hsc. congruence.
  - intros x c' Hx Ex. destruct (decide (x = l)) as [->|Hxl]; [by rewrite Hnl in Ex|]. rewrite Hsl in Ex by done.
    destruct (Hs x c' Hx Ex) as (ck' & Ec' & Hck1 & Hck2). exists ck'. split; [|done]. cbn. rewrite lookup_delete_ne; [done|].
    intros <-. apply Hxl. rewrite Ec in Ec'. injection Ec' as <-. done.
Qed.

Lemma report_inv s d ex c b l :
  store_inv s d ex -> store_cookies s !! c = Some (Cookie b l true) ->
  exists s', load_data_idle_cb c s = Ok (b, s') /\ store_inv s' d ex /\ ex !! c = Some b.
Proof.
  intros Hi Ec. unfold load_data_idle_cb. rewrite Ec. eexists. split; [reflexivity|].
  destruct Hi as [Hn Hd Hw Hnd Hb Hc Hs He]. destruct (Hc c _ Ec) as [_ Hex]. split; [|exact Hex].
  split; try done.
  - intros c' ck' Ec'. cbn [store_cookies set_cookies] in Ec'. apply lookup_delete_Some in Ec' as [Hne Ec']. by apply Hc.
  - intros x c' Hx Ex. destruct (Hs x c' Hx Ex) as (ck' & Ec' & Hck1 & Hck2). exists ck'. split; [|done]. cbn.
    rewrite lookup_delete_ne; [done|]. intros <-. rewrite Ec in Ec'. injection Ec' as <-. discriminate Hck2.
Qed.

(** ** The thread *)

(** Freeing the slot of a task that no cookie waits for, which the thread or the queue
    gives up: [s'] has the same slots and cookies. *)
Lemma free_slot_inv s s' d ex l ts d0 :
  store_inv s d ex -> busy s ≡ₚ l :: busy s' -> (forall c, slot_cookie s l <> Some (Some c)) ->
  store_slots s' = store_slots s -> store_cookies s' = store_cookies s -> store_n_cookies s' = store_n_cookies s ->
  store_magazine s' = l :: store_magazine s -> store_n_slots s' = store_n_slots s -> store_names s' = store_names s ->
  store_worker s' = ThreadReady -> Forall2 (fun l t => store_slots s' !! l = Some t) (store_queue s') ts -> Forall task_ok ts ->
  disk_rel dir d0 (store_fs s') -> plays d0 ts d ex -> store_inv s' d ex.
Proof.
  intros [Hn _ Hw Hnd Hb Hc Hs He] Hp Hl Esl Eck Enc Em Ens En Ew Hts Htok Hd0 Hpl.
  assert (Esc : forall x, slot_cookie s' x = slot_cookie s x) by (intros x; unfold slot_cookie; by rewrite Esl).
  assert (Eq : store_magazine s' ++ busy s' ≡ₚ store_magazine s ++ busy s) by (rewrite Em, Hp; cbn [app]; by rewrite Permutation_middle).
  split; rewrite ?Ew, ?Enc, ?Eck, ?En; try done.
  - exists ts, d0. unfold pending. rewrite Ew. by split_and!.
  - by rewrite Eq.
  - rewrite Ens. by rewrite Eq.
  - intros c ck Ec. destruct (Hc c ck Ec) as [Hlt Hck]. split; [by rewrite Enc|]. destruct (ck_idle ck); [done|]. destruct Hck as [Hin Hsc].
    rewrite Esc. split; [|done]. rewrite Hp in Hin. apply elem_of_cons in Hin as [Hin|Hin]; [|done]. rewrite Hin in Hsc. by apply Hl in Hsc.
  - intros x c Hx Ex. rewrite Esc in Ex. apply Hs; [|done]. rewrite Hp. by right.
Qed.

(** A step that keeps the slots, the cookies and the tasks in use. *)
Lemma move_inv s s' d ex ts d0 :
  store_inv s d ex -> busy s' = busy s ->
  store_slots s' = store_slots s -> store_cookies s' = store_cookies s -> store_n_cookies s' = store_n_cookies s ->
  store_magazine s' = store_magazine s -> store_n_slots s' = store_n_slots s -> names_ok dir (store_names s') ->
  match store_worker s' with
  | ThreadWorking l | ThreadWorked l => slot_cookie s l = None
  | ThreadLoading l => is_Some (slot_cookie s l)
  | ThreadLoaded l b => is_Some (slot_cookie s l) /\ (forall c, slot_cookie s l = Some (Some c) -> ex !! c = Some b)
  | _ => True
  end ->
  Forall2 (fun l t => store_slots s' !! l = Some t) (pending s') ts -> Forall task_ok ts ->
  disk_rel dir d0 (store_fs s') -> plays d0 ts d ex -> store_inv s' d ex.
Proof.
  intros [Hn _ _ Hnd Hb Hc Hs He] Ebs Esl Eck Enc Em Ens En Hw Hts Htok Hd0 Hpl.
  assert (Esc : forall x, slot_cookie s' x = slot_cookie s x) by (intros x; unfold slot_cookie; by rewrite Esl).
  split; rewrite ?Enc, ?Eck, ?Em, ?Ens, ?Ebs; try done.
  - by exists ts, d0.
  - destruct (store_worker s'); rewrite ?Esc; done.
  - intros c ck Ec. destruct (Hc c ck Ec) as [Hlt Hck]. split; [by rewrite Enc|]. destruct (ck_idle ck); [done|]. by rewrite Ebs, Esc.
  - intros x c Hx Ex. rewrite Esc in Ex. by apply Hs.
Qed.

Lemma load_applies t d c : task_cookie t = Some c -> apply_task t d = d.
Proof. by destruct t. Qed.

(** The thread is blocked, has returned or makes a step; every step keeps the
    invariant. *)
Definition step_spec s d ex : Prop :=
  exists r, store_thread_step no_faults s = Ok r /\
    match r with
    | Some s' => store_inv s' d ex
    | None => store_worker s = ThreadExited \/ store_worker s = ThreadWaiting
    end.

Lemma step_take s d ex l q :
  store_inv s d ex -> store_worker s = ThreadReady -> store_queue s = l :: q -> step_spec s d ex.
Proof.
  intros Hi Ew Eq. pose proof Hi as [Hn (ts & d0 & Hts & Htok & Hd0 & Hp) _ _ _ _ _ _].
  assert (Epd : pending s = l :: q) by (unfold pending; by rewrite Ew).
  rewrite Epd in Hts. apply Forall2_cons_inv_l in Hts as (t & ts' & Et & Hts & ->). pose proof Htok as [Ht Htok']%Forall_cons.
  unfold step_spec, store_thread_step. rewrite Ew, Eq. cbn [store_slots set_queue]. rewrite Et.
  assert (Hsc : slot_cookie s l = task_cookie t) by (unfold slot_cookie; by rewrite Et).
  destruct (task_cookie t) as [[c|]|] eqn:Etc; (eexists; split; [reflexivity|]).
  - eapply (move_inv s); [exact Hi|unfold busy, done_with, pending; cbn; by rewrite Ew, Eq|done..| | | | |].
    + cbn. by rewrite Hsc.
    + cbn. constructor; [exact Et|exact Hts].
    + done.
    + exact Hd0.
    + exact Hp.
  - destruct Hp as [_ Hp]. rewrite (load_applies t d0 None) in Hp by done.
    apply (free_slot_inv s _ d ex l ts' d0); try done.
    + unfold busy, done_with, pending. cbn. by rewrite Ew, Eq.
    + intros c. by rewrite Hsc.
  - eapply (move_inv s); [exact Hi|unfold busy, done_with, pending; cbn; by rewrite Ew, Eq|done..| | | | |].
    + exact Hsc.
    + cbn. constructor; [exact Et|exact Hts].
    + done.
    + exact Hd0.
    + exact Hp.
Qed.

Lemma step_work s d ex l : store_inv s d ex -> store_worker s = ThreadWorking l -> step_spec s d ex.
Proof.
  intros Hi Ew. pose proof Hi as [Hn (ts & d0 & Hts & Htok & Hd0 & Hp) Hw _ _ _ _ _]. rewrite Ew in Hw.
  assert (Epd : pending s = l :: store_queue s) by (unfold pending; by rewrite Ew).
  rewrite Epd in Hts. apply Forall2_cons_inv_l in Hts as (t & ts' & Et & Hts & ->). apply Forall_cons in Htok as [Ht Htok].
  assert (Hsc : slot_cookie s l = task_cookie t) by (unfold slot_cookie; by rewrite Et). destruct Hp as [_ Hp].
  destruct (handle_task_spec t (store_names s) (store_fs s) d0 Hn Ht ltac:(congruence) Hd0) as (n' & fs' & Eh & Hn' & Hd').
  unfold step_spec, store_thread_step. rewrite Ew, Et, Eh, bind_ret_l. eexists. split; [reflexivity|].
  eapply (move_inv s); [exact Hi|unfold busy, done_with, pending; cbn; by rewrite Ew|done..|exact Hn'|exact Hw|exact Hts|done|exact Hd'|exact Hp].
Qed.

Lemma step_worked s d ex l : store_inv s d ex -> store_worker s = ThreadWorked l -> step_spec s d ex.
Proof.
  intros Hi Ew. pose proof Hi as [Hn (ts & d0 & Hts & Htok & Hd0 & Hp) Hw _ _ _ _ _]. rewrite Ew in Hw.
  assert (Epd : pending s = store_queue s) by (unfold pending; by rewrite Ew). rewrite Epd in Hts.
  unfold step_spec, store_thread_step. rewrite Ew. eexists. split; [reflexivity|].
  apply (free_slot_inv s _ d ex l ts d0); try done.
  - unfold busy, done_with, pending. cbn. by rewrite Ew.
  - intros c. by rewrite Hw.
Qed.

Lemma step_load s d ex l : store_inv s d ex -> store_worker s = ThreadLoading l -> step_spec s d ex.
Proof.
  intros Hi Ew. pose proof Hi as [Hn (ts & d0 & Hts & Htok & Hd0 & Hp) Hw _ _ _ _ _]. rewrite Ew in Hw.
  assert (Epd : pending s = l :: store_queue s) by (unfold pending; by rewrite Ew).
  rewrite Epd in Hts. apply Forall2_cons_inv_l in Hts as (t & ts' & Et & Hts & ->). apply Forall_cons in Htok as [Ht Htok].
  assert (Hsc : slot_cookie s l = task_cookie t) by (unfold slot_cookie; by rewrite Et). destruct Hp as [Hc Hp].
  rewrite Hsc in Hw. destruct (task_cookie t) as [c|] eqn:Etc; [|by destruct Hw].
  destruct (load_file_spec t (store_names s) (store_fs s) d0 c Hn Ht Etc Hd0) as (n' & El & Hn').
  unfold step_spec, store_thread_step. rewrite Ew, Et, El, bind_ret_l. eexists. split; [reflexivity|].
  rewrite (load_applies t d0 c) in Hp by done.
  eapply (move_inv s); [exact Hi|unfold busy, done_with, pending; cbn; by rewrite Ew|done..|exact Hn'| |exact Hts|done|exact Hd0|exact Hp].
  cbn. rewrite Hsc. split; [done|]. intros c' [= ->]. by apply Hc.
Qed.

Lemma finish_load_inv s d ex l b :
  store_inv s d ex -> store_worker s = ThreadLoaded l b ->
  exists s', finish_load l b s = Ok s' /\ store_inv (set_worker ThreadReady (free_task l s')) d ex.
Proof.
  intros Hi Ew. pose proof Hi as [Hn (ts & d0 & Hts & Htok & Hd0 & Hp) Hw Hnd Hb Hc Hs He]. rewrite Ew in Hw.
  assert (Epd : pending s = store_queue s) by (unfold pending; by rewrite Ew). rewrite Epd in Hts.
  assert (Ebs : busy s = l :: store_queue s) by (unfold busy, done_with, pending; by rewrite Ew).
  unfold finish_load. fold (slot_cookie s l). destruct Hw as [[oc Hoc] Hex]. rewrite Hoc in *. destruct oc as [c|].
  - destruct (Hs l c) as (ck & Eck & Htk & Hid); [rewrite Ebs; by left|done|]. rewrite Eck. eexists. split; [reflexivity|].
    pose proof (proj1 (pending_nodup s d ex Hi)) as Hbn. rewrite Ebs in Hbn. apply NoDup_cons in Hbn as [Hlq _].
    assert (Eq : (l :: store_magazine s) ++ store_queue s ≡ₚ store_magazine s ++ busy s).
    { rewrite Ebs. cbn [app]. by rewrite Permutation_middle. }
    rewrite <- Eq in Hnd, Hb. split; try done.
    + by exists ts, d0.
    + intros c' ck' Ec'. cbn in Ec'. apply lookup_insert_Some in Ec' as [[<- <-]|[Hne Ec']].
      { split; [by destruct (Hc c ck Eck)|]. by apply Hex. }
      destruct (Hc c' ck' Ec') as [Hlt Hck]. split; [done|]. destruct (ck_idle ck'); [done|]. destruct Hck as [Hin Hsc]. split; [|done].
      rewrite Ebs in Hin. apply elem_of_cons in Hin as [Hin|Hin]; [|done]. rewrite Hin, Hoc in Hsc. congruence.
    + intros x c' Hx Ex. destruct (Hs x c') as (ck' & Ec' & Htk' & Hid'); [rewrite Ebs; by right|done|]. exists ck'. split; [|done].
      cbn. rewrite lookup_insert_ne; [done|]. intros <-. rewrite Eck in Ec'. injection Ec' as <-. rewrite <- Htk', Htk in Hx. done.
  - eexists. split; [reflexivity|]. apply (free_slot_inv s _ d ex l ts d0); try done.
    + by rewrite Ebs.
    + intros c. by rewrite Hoc.
Qed.

Lemma step_loaded s d ex l b : store_inv s d ex -> store_worker s = ThreadLoaded l b -> step_spec s d ex.
Proof.
  intros Hi Ew. destruct (finish_load_inv s d ex l b Hi Ew) as (s' & E & Hi'). unfold step_spec, store_thread_step. rewrite Ew, E, bind_ret_l.
  eexists. split; [reflexivity|done].
Qed.

Lemma thread_step_spec s d ex : store_inv s d ex -> step_spec s d ex.
Proof.
  intros Hi. destruct (store_worker s) as [| |l|l|l|l b|] eqn:Ew;
    [| |by eapply step_work|by eapply step_worked|by eapply step_load|by eapply step_loaded|].
  - destruct (store_queue s) as [|l q] eqn:Eq; [|by eapply step_take]. unfold step_spec, store_thread_step. rewrite Ew, Eq.
    eexists; split; [reflexivity|].
    pose proof Hi as [Hn (ts & d0 & Hts & Htok & Hd0 & Hp) _ _ _ _ _ _]. unfold pending in Hts. rewrite Ew in Hts.
    eapply (move_inv s); [exact Hi|unfold busy, done_with, pending; cbn; by destruct (store_quit s); rewrite Ew|done..|exact Hn
      |cbn; by destruct (store_quit s)| |done|exact Hd0|exact Hp].
    unfold pending. cbn. by destruct (store_quit s).
  - unfold step_spec, store_thread_step. rewrite Ew. eexists. split; [reflexivity|]. by right.
  - unfold step_spec, store_thread_step. rewrite Ew. eexists. split; [reflexivity|]. by left.
Qed.

Lemma signal_inv s d ex : store_inv s d ex -> store_inv (store_signal s) d ex.
Proof.
  intros Hi. pose proof Hi as [Hn (ts & d0 & Hts & Htok & Hd0 & Hp) Hw _ _ _ _ _].
  eapply (move_inv s); [exact Hi|apply busy_signal|done..|exact Hn| | |exact Htok|exact Hd0|exact Hp].
  - cbn. by destruct (store_worker s).
  - rewrite pending_signal. exact Hts.
Qed.

(** ** Executions *)

(** The call of the interface that queues [t]. *)
Definition call t s : result unit store :=
  match t with
  | NTB_STORE_TASK_TYPE_SAVE_BLOB hash blob => Ok (ntb_store_save_blob hash blob s)
  | NTB_STORE_TASK_TYPE_DELETE_OBJECT hash => Ok (ntb_store_delete_object hash s)
  | NTB_STORE_TASK_TYPE_SAVE_ADDR_LIST addrs => Ok (ntb_store_save_addr_list addrs s)
  | NTB_STORE_TASK_TYPE_SAVE_KEYS keys => Ok (ntb_store_save_keys keys s)
  | NTB_STORE_TASK_TYPE_SAVE_OUTGOINGS outgoings => Ok (ntb_store_save_outgoings outgoings s)
  | NTB_STORE_TASK_TYPE_SAVE_MESSAGE timestamp from_key from_address to_key blob =>
      ntb_store_save_message timestamp from_key from_address to_key blob s
  | NTB_STORE_TASK_TYPE_SAVE_MESSAGE_CONTENT id blob => Ok (ntb_store_save_message_content id blob s)
  | NTB_STORE_TASK_TYPE_DELETE_MESSAGE_CONTENT id => Ok (ntb_store_delete_message_content id s)
  | NTB_STORE_TASK_TYPE_LOAD_BLOB hash _ => Ok (snd (ntb_store_load_blob hash s))
  | NTB_STORE_TASK_TYPE_LOAD_MESSAGE_CONTENT id _ => Ok (snd (ntb_store_load_message_content id s))
  end.

Lemma call_submit t s s' : new_cookie t s -> call t s = Ok s' -> s' = submit t s.
Proof.
  intros Hn E. destruct t; unfold new_cookie in Hn; cbn [task_cookie] in Hn; cbn [call] in E.
  all: try (injection E as <-; unfold submit; by destruct (new_task _ s) as [l s1] eqn:E1; cbn [task_cookie]; rewrite E1).
  all: try (injection E as <-; unfold submit, ntb_store_save_blob, ntb_store_delete_object, ntb_store_save_addr_list, ntb_store_save_keys,
    ntb_store_save_outgoings, ntb_store_save_message_content, ntb_store_delete_message_content; by destruct (new_task _ s)).
  - destruct cookie as [c|]; [|done]. subst c. injection E as <-. unfold submit, ntb_store_load_blob, new_load. by destruct (new_task _ s).
  - unfold ntb_store_save_message in E. destruct (_ <? _); [done|]. injection E as <-. unfold submit. by destruct (new_task _ s).
  - destruct cookie as [c|]; [|done]. subst c. injection E as <-. unfold submit, ntb_store_load_message_content, new_load. by destruct (new_task _ s).
Qed.

Inductive event :=
| ECall (t : ntb_store_task)
| ECancel (c : nat)
| EReport (c : nat) (blob : option file_blob)
| EThread
| EWake
| EQuit.

(** Steps of the two threads. The main thread cancels a load only while it is not
    done. A blocked thread may wake up without a signal. *)
Inductive step : event -> store -> store -> Prop :=
| step_call t s s' : task_ok t -> new_cookie t s -> call t s = Ok s' -> step (ECall t) s s'
| step_cancel c ck s s' :
    store_cookies s !! c = Some ck -> ck_idle ck = false -> ntb_store_cancel_task c s = Ok s' -> step (ECancel c) s s'
| step_report c blob s s' : load_data_idle_cb c s = Ok (blob, s') -> step (EReport c blob) s s'
| step_thread s s' : store_thread_step no_faults s = Ok (Some s') -> step EThread s s'
| step_wake s : step EWake s (store_signal s)
| step_quit s : step EQuit s (ntb_store_free_begin s).

Inductive exec : store -> list event -> store -> Prop :=
| exec_nil s : exec s [] s
| exec_snoc s es s1 e s2 : exec s es s1 -> step e s1 s2 -> exec s (es ++ [e]) s2.

(** The same calls on the abstract store: its contents, and the answers of the loads
    at the time they were requested. *)
Definition sequential (d : disk) (es : list event) : disk * gmap nat (option file_blob) :=
  fold_left (fun de e => match e with ECall t => (apply_task t de.1, expect t de.1 de.2) | _ => de end) es (d, ∅).

Lemma sequential_snoc d es e :
  sequential d (es ++ [e]) =
  match e with ECall t => (apply_task t (sequential d es).1, expect t (sequential d es).1 (sequential d es).2) | _ => sequential d es end.
Proof. unfold sequential. by rewrite fold_left_app. Qed.

Lemma quit_inv s d ex : store_inv s d ex -> store_inv (ntb_store_free_begin s) d ex.
Proof. intros Hi. apply signal_inv. by destruct Hi. Qed.

Lemma exec_inv n fs d es s :
  names_ok dir n -> disk_rel dir d fs -> exec (ntb_store_new n fs) es s -> store_inv s (sequential d es).1 (sequential d es).2.
Proof.
  intros Hn Hr. remember (ntb_store_new n fs) as s0 eqn:E0. induction 1 as [s|s es s1 e s2 Hx IH Hs]; subst.
  { by apply store_inv_new. }
  specialize (IH eq_refl). rewrite sequential_snoc. destruct Hs as [t s s' Ht Hc E|c ck s s' Ec Hk E|c blob s s' E|s s' E|s|s].
  - rewrite (call_submit t s s' Hc E). by apply submit_inv.
  - destruct (cancel_inv _ _ _ c ck IH Ec Hk) as (s2 & E2 & Hi). rewrite E in E2. by injection E2 as ->.
  - pose proof E as E'. unfold load_data_idle_cb in E'. destruct (store_cookies s !! c) as [[b l []]|] eqn:Ec; [|done..].
    destruct (report_inv _ _ _ c b l IH Ec) as (s2 & E2 & Hi & _). rewrite E in E2. by injection E2 as -> ->.
  - destruct (thread_step_spec _ _ _ IH) as (r & E2 & Hr2). rewrite E in E2. by injection E2 as <-.
  - by apply signal_inv.
  - by apply quit_inv.
Qed.

(** ** The thread empties the queue *)

Definition resting s : Prop :=
  store_queue s = [] /\ (if store_quit s then store_worker s = ThreadExited else store_worker s = ThreadWaiting).

Definition work s : nat :=
  (4 * length (store_queue s) +
   match store_worker s with
   | ThreadExited | ThreadWaiting => 0 | ThreadReady => 1
   | ThreadWorking _ | ThreadLoading _ => 3 | ThreadWorked _ | ThreadLoaded _ _ => 2
   end)%nat.

(** The thread returns only when it was told to and nothing is left, and it blocks
    only while nothing is left and it was not told to return: no wake-up is lost. *)
Definition alive s : Prop :=
  match store_worker s with
  | ThreadExited => store_queue s = [] /\ store_quit s = true
  | ThreadWaiting => store_queue s = [] /\ store_quit s = false
  | _ => True
  end.

Lemma alive_signal s : (store_worker s <> ThreadExited) -> alive (store_signal s).
Proof. unfold alive. cbn. by destruct (store_worker s). Qed.

Lemma finish_load_same l b s s' :
  finish_load l b s = Ok s' ->
  store_queue s' = store_queue s /\ store_quit s' = store_quit s /\ (forall c, is_Some (store_cookies s !! c) -> is_Some (store_cookies s' !! c)).
Proof.
  unfold finish_load. repeat case_match; try done; intros [= <-]; [|by split_and!]. split_and!; [done..|].
  intros c Hc. cbn. by apply lookup_insert_is_Some'; right.
Qed.

Lemma step_progress s s' :
  store_thread_step no_faults s = Ok (Some s') -> (work s' < work s)%nat /\ store_quit s' = store_quit s /\ alive s'.
Proof.
  intros E. unfold store_thread_step in E. unfold work, alive. destruct (store_worker s) as [| |l|l|l|l b|] eqn:Ew; [|done|..|done].
  - destruct (store_queue s) as [|l q] eqn:Eq.
    { injection E as <-. cbn. rewrite Eq. destruct (store_quit s); cbn; split_and!; (lia || done). }
    cbn [store_slots set_queue] in E. destruct (store_slots s !! l) as [t|]; [|done].
    destruct (task_cookie t) as [[c|]|]; injection E as <-; cbn; rewrite ?Ew; split_and!; (lia || done || congruence).
  - destruct (store_slots s !! l) as [t|]; [|done]. destruct (handle_task _ _ _ _) as [[n' fs']| | |]; [|done..].
    injection E as <-. cbn. split_and!; [lia|done|done].
  - injection E as <-. cbn. split_and!; [lia|done|done].
  - destruct (store_slots s !! l) as [t|]; [|done]. destruct (load_file _ _ _ _) as [[n' b]| | |]; [|done..].
    injection E as <-. cbn. split_and!; [lia|done|done].
  - destruct (finish_load l b s) as [s1| | |] eqn:Ef; [|done..]. injection E as <-. apply finish_load_same in Ef as (Eq & Equ & _).
    cbn. rewrite Eq, Equ. split_and!; [lia|done|done].
Qed.

(** No step of the thread frees a cookie. *)
Lemma step_cookies s s' c :
  store_thread_step no_faults s = Ok (Some s') -> is_Some (store_cookies s !! c) -> is_Some (store_cookies s' !! c).
Proof.
  intros E Hc. unfold store_thread_step in E. destruct (store_worker s) as [| |l|l|l|l b|] eqn:Ew; [|done|..|done].
  - destruct (store_queue s) as [|l q]; [by injection E as <-|].
    cbn [store_slots set_queue] in E. destruct (store_slots s !! l) as [t|]; [|done].
    destruct (task_cookie t) as [[c'|]|]; by injection E as <-.
  - destruct (store_slots s !! l) as [t|]; [|done]. destruct (handle_task _ _ _ _) as [[n' fs']| | |]; [|done..]. by injection E as <-.
  - by injection E as <-.
  - destruct (store_slots s !! l) as [t|]; [|done]. destruct (load_file _ _ _ _) as [[n' b]| | |]; [|done..]. by injection E as <-.
  - destruct (finish_load l b s) as [s1| | |] eqn:Ef; [|done..]. injection E as <-. apply finish_load_same in Ef as (_ & _ & Ef). by apply Ef.
Qed.

Lemma run_spec k : forall s d ex,
  store_inv s d ex -> alive s -> (work s <= k)%nat ->
  exists s', store_thread_run (replicate k no_faults) s = Ok s' /\ store_inv s' d ex /\ resting s' /\ store_quit s' = store_quit s /\
    (forall c, is_Some (store_cookies s !! c) -> is_Some (store_cookies s' !! c)).
Proof.
  induction k as [|k IH]; intros s d ex Hi Ha Hk.
  - exists s. split_and!; [done|done| |done|done]. unfold resting, work, alive in *.
    destruct (store_worker s); try lia; by destruct Ha as [-> ->].
  - cbn [replicate store_thread_run]. destruct (thread_step_spec s d ex Hi) as (r & E & Hr). rewrite E, bind_ret_l.
    destruct r as [s'|].
    + destruct (step_progress s s' E) as (Hw & Hq & Ha'). destruct (IH s' d ex Hr Ha' ltac:(lia)) as (s2 & E2 & Hi2 & Hr2 & Hq2 & Hc2).
      exists s2. split_and!; [done|done|done|congruence|]. intros c Hc. by apply Hc2, (step_cookies s s').
    + exists s. split_and!; [done|done| |done|done]. unfold resting, alive in *.
      destruct Hr as [Hr|Hr]; rewrite Hr in *; by destruct Ha as [-> ->].
Qed.

Lemma step_alive e s s' : step e s s' -> e <> EQuit -> alive s -> store_quit s = false -> alive s' /\ store_quit s' = false.
Proof.
  intros Hs He Ha Hq.
  assert (Hw : store_worker s <> ThreadExited) by (intros Ew; unfold alive in Ha; rewrite Ew in Ha; by destruct Ha; congruence).
  destruct Hs as [t s s' Ht Hc E|c ck s s' Ec Hk E|c blob s s' E|s s' E|s|s]; [| | | |by split; [apply alive_signal|]|done].
  - rewrite (call_submit t s s' Hc E).
    assert (Es : exists s0, store_worker s0 <> ThreadExited /\ store_quit s0 = false /\
      store_worker (submit t s) = store_worker (store_signal s0) /\ store_quit (submit t s) = store_quit s0).
    { exists s. unfold submit, new_task, ntb_slice_alloc. by repeat case_match; simplify_eq. }
    destruct Es as (s0 & Hw0 & Hq0 & Ew & Eq). split; [|congruence]. unfold alive. rewrite Ew. cbn. by destruct (store_worker s0).
  - unfold ntb_store_cancel_task in E. rewrite Ec in E. destruct (store_slots s !! ck_task ck) as [[]|]; try done; by injection E as <-.
  - unfold load_data_idle_cb in E. by repeat case_match; simplify_eq.
  - apply step_progress in E as (_ & -> & ?). done.
Qed.

Lemma exec_alive n fs es s : exec (ntb_store_new n fs) es s -> EQuit ∉ es -> alive s /\ store_quit s = false.
Proof.
  remember (ntb_store_new n fs) as s0 eqn:E0. induction 1 as [s|s es s1 e s2 Hx IH Hs]; subst; [done|].
  intros Hq. rewrite elem_of_app, list_elem_of_singleton in Hq. destruct IH as [Ha Hf]; [done|by intros ?; apply Hq; left|].
  eapply step_alive; [exact Hs| |done|done]. intros ->. apply Hq. by right.
Qed.

(** A load that was requested, not cancelled and not reported. *)
Definition waits (es : list event) (c : nat) : Prop :=
  (exists t, (ECall t) ∈ es /\ task_cookie t = Some (Some c)) /\ (ECancel c) ∉ es /\ (forall b, (EReport c b) ∉ es).

Lemma step_waits e s s' c :
  step e s s' -> e <> ECancel c -> (forall b, e <> EReport c b) ->
  is_Some (store_cookies s !! c) \/ (exists t, e = ECall t /\ task_cookie t = Some (Some c)) -> is_Some (store_cookies s' !! c).
Proof.
  intros Hs Hc Hr Hin. destruct Hs as [t s s' Ht Hn E|c' ck s s' Ec Hk E|c' blob s s' E|s s' E|s|s].
  - rewrite (call_submit t s s' Hn E). unfold submit. destruct (new_task t s) as [l s1] eqn:En.
    assert (Ecs : store_cookies s1 = store_cookies s) by (unfold new_task, ntb_slice_alloc in En; repeat case_match; by simplify_eq).
    destruct Hin as [Hin|(t' & [= <-] & Et)].
    + destruct (task_cookie t) as [[c'|]|]; cbn; rewrite ?lookup_insert_is_Some', Ecs; auto.
    + rewrite Et. cbn. rewrite lookup_insert_is_Some'. by left.
  - destruct Hin as [Hin|(t' & [=] & _)]. unfold ntb_store_cancel_task in E. rewrite Ec in E.
    destruct (store_slots s !! ck_task ck) as [[]|]; try done; injection E as <-; cbn; rewrite lookup_delete_ne by congruence; done.
  - destruct Hin as [Hin|(t' & [=] & _)]. unfold load_data_idle_cb in E. destruct (store_cookies s !! c') as [[b l []]|]; [|done..].
    injection E as <- <-. cbn. rewrite lookup_delete_ne; [done|]. intros ->. by apply (Hr b).
  - destruct Hin as [Hin|(t' & [=] & _)]. by eapply step_cookies.
  - by destruct Hin as [Hin|(t' & [=] & _)].
  - by destruct Hin as [Hin|(t' & [=] & _)].
Qed.

Lemma exec_waits s0 es s c : exec s0 es s -> waits es c -> is_Some (store_cookies s !! c).
Proof.
  induction 1 as [s|s es s1 e s2 Hx IH Hs]; intros ((t & Hin & Ht) & Hc & Hr); [by apply elem_of_nil in Hin|].
  setoid_rewrite elem_of_app in Hr. setoid_rewrite list_elem_of_singleton in Hr. rewrite elem_of_app, list_elem_of_singleton in Hin, Hc.
  eapply step_waits; [exact Hs|by intros ->; apply Hc; right|by intros b ->; apply (Hr b); right|].
  destruct Hin as [Hin|<-]; [left|by right; exists t]. apply IH. split_and!; [by exists t|by intros ?; apply Hc; left|by intros b ?; apply (Hr b); left].
Qed.

Lemma idle_quiet s d ex : store_inv s d ex -> store_queue s = [] -> store_worker s ∈ [ThreadReady; ThreadWaiting; ThreadExited] ->
  disk_rel dir d (store_fs s) /\ (forall c ck, store_cookies s !! c = Some ck -> ck_idle ck = true /\ ex !! c = Some (ck_blob ck)).
Proof.
  intros Hi Eq Ew. assert (Hp : pending s = [] /\ busy s = []) 
    by (unfold busy, done_with, pending; rewrite !elem_of_cons in Ew;
      destruct Ew as [->|[->|[->|[]%elem_of_nil]]]; by rewrite Eq).
  destruct Hp as [Hp Hb]. destruct Hi as [_ (ts & d0 & Hts & _ & Hd0 & Hpl) _ _ _ Hc _ _]. rewrite Hp in Hts.
  apply Forall2_nil_inv_l in Hts as ->. cbn in Hpl. subst d0. split; [done|]. intros c ck Eck. destruct (Hc c ck Eck) as [_ Hck].
  destruct (ck_idle ck); [done|]. rewrite Hb in Hck. by destruct Hck as [?%elem_of_nil _].
Qed.

(** C3: the store, with its thread running behind the main thread in any interleaving
    of calls, cancellations of loads that are not yet done, reports, wake-ups and steps
    of the thread in which no access to a file fails, is linearizable: what an idle
    callback reports is what the abstract store held when the load was called, the
    thread never runs into undefined behaviour, and whenever it has nothing left to do
    the files hold what the calls, taken one after another, leave. (Cancelling a load
    that is done but not yet reported is [cancel_after_completion].) *)
Theorem store_linearizable n fs d es s :
  names_ok dir n -> disk_rel dir d fs -> exec (ntb_store_new n fs) es s ->
  (forall c b s', load_data_idle_cb c s = Ok (b, s') -> (sequential d es).2 !! c = Some b) /\
  (exists r, store_thread_step no_faults s = Ok r) /\
  (store_queue s = [] -> store_worker s ∈ [ThreadReady; ThreadWaiting; ThreadExited] -> disk_rel dir (sequential d es).1 (store_fs s)).
Proof.
  intros Hn Hr Hx. pose proof (exec_inv n fs d es s Hn Hr Hx) as Hi. split_and!.
  - intros c b s' E. unfold load_data_idle_cb in E. destruct (store_cookies s !! c) as [[b' l []]|] eqn:Ec; [|done..]. injection E as -> _.
    by destruct (report_inv _ _ _ c b l Hi Ec) as (_ & _ & _ & ?).
  - destruct (thread_step_spec _ _ _ Hi) as (r & E & _). eauto.
  - intros Hq Hw. by apply (idle_quiet s _ _ Hi).
Qed.

(** C4: the thread always catches up. After any execution as in the theorem above
    that ends before or with [ntb_store_free]: the thread is blocked on its condition
    variable only while its queue is empty, so no signal is lost, and [work] steps of
    the thread (at most four per task of the queue and three more) empty the queue; then
    the files hold what the calls leave, every load that was requested and neither
    cancelled nor reported has its idle callback installed with its answer, and the
    thread is blocked, or has returned when [ntb_store_free] has asked it to. *)
Theorem store_drains n fs d es s (quit : bool) k :
  names_ok dir n -> disk_rel dir d fs -> exec (ntb_store_new n fs) es s -> EQuit ∉ es ->
  let s0 := if quit then ntb_store_free_begin s else s in
  (work s0 <= k)%nat ->
  (store_worker s0 = ThreadWaiting -> store_queue s0 = [] /\ quit = false) /\
  exists s',
    store_thread_run (replicate k no_faults) s0 = Ok s' /\
    store_queue s' = [] /\ store_worker s' = (if quit then ThreadExited else ThreadWaiting) /\
    disk_rel dir (sequential d es).1 (store_fs s') /\
    (forall c, waits es c ->
      exists b, (sequential d es).2 !! c = Some b /\ fst <$> load_data_idle_cb c s' = Ok b).
Proof.
  intros Hn Hr Hx Hq s0 Hk. destruct (exec_alive _ _ _ _ Hx Hq) as [Ha Hf]. pose proof (exec_inv n fs d es s Hn Hr Hx) as Hi.
  assert (Hs0 : store_inv s0 (sequential d es).1 (sequential d es).2 /\ alive s0 /\ store_quit s0 = quit /\ store_cookies s0 = store_cookies s).
  { unfold s0. destruct quit; [|done]. split_and!; [by apply quit_inv| |done..]. apply alive_signal. cbn.
    intros Ew. unfold alive in Ha. rewrite Ew in Ha. destruct Ha. congruence. }
  destruct Hs0 as (Hi0 & Ha0 & Hq0 & Hc0). split.
  { intros Ew. unfold alive in Ha0. rewrite Ew in Ha0. destruct Ha0. split; [done|congruence]. }
  destruct (run_spec k s0 _ _ Hi0 Ha0 Hk) as (s' & E & Hi' & (Hr1 & Hr2) & Hq' & Hc'). rewrite Hq', Hq0 in Hr2.
  assert (Hw' : store_worker s' = (if quit then ThreadExited else ThreadWaiting)) by by destruct quit.
  destruct (idle_quiet s' _ _ Hi' Hr1) as [Hd Hck]; [rewrite Hw'; destruct quit; set_solver|].
  exists s'. split_and!; [done..|]. intros c Hwt. destruct (Hc' c) as [ck Ec].
  { rewrite Hc0. by eapply exec_waits. }
  destruct (Hck c ck Ec) as [Hid Hex]. exists (ck_blob ck). split; [done|]. unfold load_data_idle_cb. rewrite Ec. destruct ck as [b l i]. cbn in Hid |- *. by rewrite Hid.
Qed.

Lemma run_cons f fs s s' :
  store_thread_step f s = Ok (Some s') ->
  store_thread_run (f :: fs) s = store_thread_run fs s'.
Proof. intros E. cbn [store_thread_run]. by rewrite E, bind_ret_l. Qed.

(** The thread handles the only load of the queue and blocks. *)
Lemma run_load s l c ck h n' b :
  store_worker s = ThreadReady -> store_quit s = false -> store_queue s = [l] -> store_slots s !! l = Some (NTB_STORE_TASK_TYPE_LOAD_BLOB h (Some c)) ->
  store_cookies s !! c = Some ck -> load_file no_faults (NTB_STORE_TASK_TYPE_LOAD_BLOB h (Some c)) (store_names s) (store_fs s) = Ok (n', b) ->
  store_thread_run (replicate 4 no_faults) s =
  Ok (Store n' (store_fs s) (store_slots s) (l :: store_magazine s) (store_n_slots s) []
        (<[c := Cookie b (ck_task ck) true]> (store_cookies s)) (store_n_cookies s) ThreadWaiting false).
Proof.
  intros Ew Equ Eq Et Ec El. cbn [replicate].
  rewrite (run_cons _ _ _ (set_worker (ThreadLoading l) (set_queue [] s))).
  2: { unfold store_thread_step. rewrite Ew, Eq. cbn [store_slots set_queue]. by rewrite Et. }
  rewrite (run_cons _ _ _ (set_worker (ThreadLoaded l b) (set_disk n' (store_fs s) (set_queue [] s)))).
  2: { unfold store_thread_step. cbn [store_worker store_slots set_worker set_queue]. rewrite Et.
       cbn [store_names store_fs set_worker set_queue]. by rewrite El, bind_ret_l. }
  set (s1 := Store n' (store_fs s) (store_slots s) (l :: store_magazine s) (store_n_slots s) []
    (<[c := Cookie b (ck_task ck) true]> (store_cookies s)) (store_n_cookies s) ThreadReady false).
  rewrite (run_cons _ _ _ s1); [by rewrite (run_cons _ _ _ (set_worker ThreadWaiting s1))|].
  unfold store_thread_step, finish_load.
  cbn [store_worker store_slots store_cookies set_worker set_queue set_disk]. rewrite Et. cbn [mbind option_bind task_cookie].
  rewrite Ec, bind_ret_l. unfold s1. by rewrite <- Equ.
Qed.

(** The thread drops the only task of the queue, a cancelled load, and blocks. *)
Lemma run_cancelled s l t :
  store_worker s = ThreadReady -> store_quit s = false -> store_queue s = [l] -> store_slots s !! l = Some t ->
  task_cookie t = Some None ->
  store_thread_run (replicate 2 no_faults) s = Ok (set_worker ThreadWaiting (free_task l (set_queue [] s))).
Proof.
  intros Ew Equ Eq Et Ec. cbn [replicate]. rewrite (run_cons _ _ _ (free_task l (set_queue [] s))).
  - rewrite (run_cons _ _ _ (set_worker ThreadWaiting (free_task l (set_queue [] s)))); [done|].
    unfold store_thread_step. cbn. by rewrite Ew, Equ.
  - unfold store_thread_step. rewrite Ew, Eq. cbn [store_slots set_queue]. by rewrite Et, Ec.
Qed.

(** A cookie keeps the pointer to its task after the task has been freed. When
    the main thread cancels a load that is done but not yet reported, and the slice of
    its task has been taken by the next load, it is that load which is cancelled: its
    requester is never called. When the slice has been taken by any other task, an
    assertion fails. *)
Theorem cancel_after_completion n fs d h1 h2 :
  names_ok dir n -> disk_rel dir d fs -> hash_ok h1 -> hash_ok h2 ->
  exists s1 s2 s3,
    store_thread_run (replicate 4 no_faults) (snd (ntb_store_load_blob h1 (ntb_store_new n fs))) = Ok s1 /\
    ck_idle <$> store_cookies s1 !! 0%nat = Some true /\
    ntb_store_cancel_task 0 (snd (ntb_store_load_blob h2 s1)) = Ok s2 /\
    store_thread_run (replicate 2 no_faults) s2 = Ok s3 /\
    store_worker s3 = ThreadWaiting /\ store_queue s3 = [] /\
    ck_idle <$> store_cookies s3 !! 1%nat = Some false /\
    ntb_store_cancel_task 0 (ntb_store_delete_object h2 s1) = UB.
Proof.
  intros Hn Hr Hh1 _. destruct (load_file_spec (NTB_STORE_TASK_TYPE_LOAD_BLOB h1 (Some 0%nat)) n fs d (Some 0%nat) Hn Hh1 eq_refl Hr) as (n' & E & _).
  eexists _, _, _. split_and!.
  - eapply (run_load _ 0 0 (Cookie None 0 false)); [done|done|done|apply lookup_insert_eq|apply lookup_insert_eq|exact E].
  - reflexivity.
  - reflexivity.
  - by eapply (run_cancelled _ 0 (NTB_STORE_TASK_TYPE_LOAD_BLOB h2 None)).
  - reflexivity.
  - reflexivity.
  - reflexivity.
  - reflexivity.
Qed.
End refinement.

(** ** Examples *)

Section examples.
#[local] Existing Instances Inet_toy InetLaws_toy Digests_toy DigestLaws_toy BigNum_N BigNumLaws_N Elliptic_toy EllipticLaws_toy Symmetric_toy
  SymmetricLaws_toy Digest256_toy Digest256Laws_toy Host_toy HostLaws_toy Clock_toy ClockLaws_toy.

Lemma disk_rel_empty dir : disk_rel dir (Disk ∅ ∅) ∅.
Proof. split_and!; [apply map_Forall_empty|intros h _; by rewrite !lookup_empty|intros id _; by rewrite !lookup_empty]. Qed.

Definition example_hash : list Z := replicate 32 9.
(** The thread blocks before the first call, which wakes it. *)
Definition example_calls : list event :=
  [EThread; ECall (NTB_STORE_TASK_TYPE_SAVE_BLOB example_hash (FileBlob 2 [1; 2])); ECall (NTB_STORE_TASK_TYPE_LOAD_BLOB example_hash (Some 0%nat))].
Definition example_blocked : store := set_worker ThreadWaiting (ntb_store_new example_store ∅).
Definition example_state : store :=
  snd (ntb_store_load_blob example_hash (ntb_store_save_blob example_hash (FileBlob 2 [1; 2]) example_blocked)).

Lemma example_exec : exec (ntb_store_new example_store ∅) example_calls example_state.
Proof.
  apply (exec_snoc _ [_; _] (ntb_store_save_blob example_hash (FileBlob 2 [1; 2]) example_blocked));
    [apply (exec_snoc _ [_] example_blocked); [apply (exec_snoc _ [] (ntb_store_new example_store ∅)); [apply exec_nil|]|]|].
  - by apply step_thread.
  - apply step_call; [|done|reflexivity]. split_and!; [apply (bool_decide_unpack _); vm_compute; exact I|vm_compute; split; congruence|].
    apply (bool_decide_unpack _). vm_compute. exact I.
  - apply step_call; [apply (bool_decide_unpack _); vm_compute; exact I|reflexivity|reflexivity].
Qed.

Lemma store_linearizable_witness :
  (forall c b s', load_data_idle_cb c example_state = Ok (b, s') -> (sequential (Disk ∅ ∅) example_calls).2 !! c = Some b) /\
  (exists r, store_thread_step no_faults example_state = Ok r) /\
  (store_queue example_state = [] -> store_worker example_state ∈ [ThreadReady; ThreadWaiting; ThreadExited] ->
    disk_rel example_dir (sequential (Disk ∅ ∅) example_calls).1 (store_fs example_state)).
Proof.
  apply (store_linearizable example_dir example_store ∅ (Disk ∅ ∅) example_calls example_state).
  - apply (bool_decide_unpack _). vm_compute. exact I.
  - apply disk_rel_empty.
  - apply example_exec.
Defined.

Lemma store_drains_witness :
  (store_worker (ntb_store_free_begin example_state) = ThreadWaiting ->
    store_queue (ntb_store_free_begin example_state) = [] /\ true = false) /\
  exists s', store_thread_run (replicate 9 no_faults) (ntb_store_free_begin example_state) = Ok s' /\
    store_queue s' = [] /\ store_worker s' = ThreadExited /\
    disk_rel example_dir (sequential (Disk ∅ ∅) example_calls).1 (store_fs s') /\
    (forall c, waits example_calls c ->
      exists b, (sequential (Disk ∅ ∅) example_calls).2 !! c = Some b /\ fst <$> load_data_idle_cb c s' = Ok b).
Proof.
  apply (store_drains example_dir example_store ∅ (Disk ∅ ∅) example_calls example_state true 9).
  - apply (bool_decide_unpack _). vm_compute. exact I.
  - apply disk_rel_empty.
  - apply example_exec.
  - intros Hin. repeat (apply elem_of_cons in Hin as [Hin|Hin]; [discriminate Hin|]). by apply elem_of_nil in Hin.
  - vm_compute. lia.
Defined.

Lemma cancel_after_completion_witness :
  exists s1 s2 s3,
    store_thread_run (replicate 4 no_faults) (snd (ntb_store_load_blob example_hash (ntb_store_new example_store ∅))) = Ok s1 /\
    ck_idle <$> store_cookies s1 !! 0%nat = Some true /\
    ntb_store_cancel_task 0 (snd (ntb_store_load_blob (replicate 32 8) s1)) = Ok s2 /\
    store_thread_run (replicate 2 no_faults) s2 = Ok s3 /\
    store_worker s3 = ThreadWaiting /\ store_queue s3 = [] /\
    ck_idle <$> store_cookies s3 !! 1%nat = Some false /\
    ntb_store_cancel_task 0 (ntb_store_delete_object (replicate 32 8) s1) = UB.
Proof.
  apply (cancel_after_completion example_dir example_store ∅ (Disk ∅ ∅)).
  - apply (bool_decide_unpack _). vm_compute. exact I.
  - apply disk_rel_empty.
  - apply (bool_decide_unpack _). vm_compute. exact I.
  - apply (bool_decide_unpack _). vm_compute. exact I.
Defined.
End examples.
