(* ===== verification/Keyring.v ===== *)
(** * Keyring: the keys and the messages on their way (ntb-keyring.c)

    The state has the memory of the objects that are pointed to (messages, tasks, the
    objects of public keys, the cookies of new keys), the lists that own them, and the
    requests that the other components work on: the cookie of a request is its
    identity, and cancelling a cookie that is not outstanding or following a pointer to
    an object that was freed is undefined. The callbacks are functions of the result.
    The network is behind the interface [ObjectNetwork], since it calls the key ring
    back while it adds an object. *)

From S2P Require Import Prelude Endian Buffer NetAddress OpenSSL Proto ProtoSpec NetText KeyValue Pow Base58 Address Outgoings Ecc Keys HashTable Connection Crypto Network.

(** ** The network, as the key ring uses it *)

(** [network_add_object] is [add_object] of the network up to the emission of its
    signal, if it is emitted: the object and what is left to do behind the signal. *)
Class ObjectNetwork := {
  network : Type;
  network_rest : Type;
  network_get_object : list Z -> network -> result unit ntb_network_object_location;
  network_add_object : Z -> ntb_proto_inv_type -> ptr -> Z -> option ntb_blob -> bool -> bool -> network ->
    result unit (network * option (ntb_blob * network_rest));
  network_finish : network_rest -> network -> result unit network
}.

Section keyring.
Context `{Digests} `{BigNum} `{!Elliptic} `{Symmetric} `{Digest256} `{!Ecdsa} `{!ObjectNetwork}.

(** ** Data *)

Inductive ntb_keyring_message_state :=
| NTB_KEYRING_MESSAGE_STATE_GENERATING_ACKDATA
| NTB_KEYRING_MESSAGE_STATE_LOADING_PUBKEY_FROM_STORE
| NTB_KEYRING_MESSAGE_STATE_TRYING_BLOB
| NTB_KEYRING_MESSAGE_STATE_CALCULATING_GETPUBKEY_POW
| NTB_KEYRING_MESSAGE_STATE_AWAITING_PUBKEY
| NTB_KEYRING_MESSAGE_STATE_LOADING_CONTENT
| NTB_KEYRING_MESSAGE_STATE_CALCULATING_ACKDATA_POW
| NTB_KEYRING_MESSAGE_STATE_CREATE_MSG_BLOB
| NTB_KEYRING_MESSAGE_STATE_CALCULATING_MSG_POW
| NTB_KEYRING_MESSAGE_STATE_AWAITING_ACKNOWLEDGEMENT.

#[global] Instance message_state_eq_dec : EqDecision ntb_keyring_message_state.
Proof. solve_decision. Defined.

(** The state and the data of the acknowledgement are [None] while they were not set. *)
Record ntb_keyring_message := Message {
  ms_state : option ntb_keyring_message_state;
  ms_from_key : ntb_key;
  ms_to_address : ntb_address;
  ms_ripe_or_tag : list Z;
  ms_to_key : option ntb_key;
  ms_content_id : Z;
  ms_content_encoding : Z;
  ms_ackdata : option (list Z);
  ms_crypto_cookie : option nat;
  ms_pow_cookie : option nat;
  ms_store_cookie : option nat;
  ms_blob : option dyn_blob;
  ms_blob_ackdata_offset : Z;
  ms_blob_ackdata_length : Z;
  ms_last_getpubkey_send_time : Z;
  ms_last_msg_send_time : Z;
  ms_trying_pubkey_blob : option nat
}.

(** The timestamp is set for the messages that are decrypted. *)
Record ntb_keyring_task := Task {
  tk_crypto_cookie : option nat;
  tk_pow_cookie : option nat;
  tk_blob : option dyn_blob;
  tk_timestamp : Z
}.

Record ntb_keyring_pubkey_blob := PubkeyBlob {
  pb_timestamp : Z;
  pb_ripe_or_tag : list Z;
  pb_hash : list Z;
  pb_ref_count : Z;
  pb_in_list : bool
}.

(** [kc_func] is the identity of the function and its data, if there is one. *)
Record ntb_keyring_cookie := KeyringCookie { kc_func : option nat; kc_crypto_cookie : nat }.

(** ** Requests *)

(** What the thread of [ntb-crypto.c] is asked for, with the object that is given to
    the callback. *)
Inductive crypto_task :=
| CRYPTO_CREATE_KEY (params : ntb_key_params) (leading_zeroes : Z) (cookie : nat)
| CRYPTO_CREATE_PUBKEY_BLOB (key : ntb_key) (task : nat)
| CRYPTO_CHECK_PUBKEY (address : ntb_address) (blob : ntb_blob) (message : nat)
| CRYPTO_CREATE_MSG_BLOB (timestamp : Z) (from_key to_key : ntb_key) (content : dyn_blob) (message : nat)
| CRYPTO_CREATE_PUBLIC_KEY (params : ntb_key_params) (task : nat)
| CRYPTO_DECRYPT_MSG (blob : ntb_blob) (keys : list ntb_key) (task : nat)
| CRYPTO_GENERATE_ACKDATA (message : nat).

Inductive pow_callback :=
| CREATE_PUBKEY_POW_CB (task : nat)
| GETPUBKEY_POW_CB (message : nat)
| ACKDATA_POW_CB (message : nat)
| MSG_POW_CB (message : nat).

Record pow_task := PowTask { pt_payload : list Z; pt_extra_bytes : Z; pt_nonce_trials : Z; pt_callback : pow_callback }.

Inductive store_load :=
| LOAD_MESSAGE_CONTENT (content_id : Z) (message : nat)
| LOAD_BLOB (hash : list Z) (message : nat).

(** Calls that are not answered. *)
Inductive keyring_effect :=
| KeyringSaveKeys (keys : list ntb_key)
| KeyringSaveOutgoings (outgoings : list ntb_store_outgoing)
| KeyringSaveMessageContent (content_id : Z) (content : ntb_blob)
| KeyringDeleteMessageContent (content_id : Z)
| KeyringSaveMessage (timestamp : Z) (from_key : option ntb_key) (from_address : list Z) (to_key : ntb_key) (blob : dyn_blob)
| KeyringKeyCreated (func : nat) (key : ntb_key).

(** [kr_tasks] and [kr_messages] are the lists, [kr_task] and [kr_message] the memory;
    [kr_next] is an identity that no object had so far. [kr_random] is what [rand] will
    return, 0 when it ends. *)
Record ntb_keyring := Keyring {
  kr_nw : network;
  kr_started : bool;
  kr_keys : list ntb_key;
  kr_tasks : list nat;
  kr_task : gmap nat ntb_keyring_task;
  kr_cookie : gmap nat ntb_keyring_cookie;
  kr_pubkey_blob_list : list nat;
  kr_pubkey_blob_table : gmap (list Z) nat;
  kr_pubkey_blob : gmap nat ntb_keyring_pubkey_blob;
  kr_messages : list nat;
  kr_message : gmap nat ntb_keyring_message;
  kr_next_message_content_id : Z;
  kr_crypto : gmap nat crypto_task;
  kr_pow : gmap nat pow_task;
  kr_loads : gmap nat store_load;
  kr_next : nat;
  kr_random : list Z;
  kr_effects : list keyring_effect
}.

(** ** Field updates *)

Definition ms_set_state (v : option ntb_keyring_message_state) (r : ntb_keyring_message) : ntb_keyring_message :=
  Message v (ms_from_key r) (ms_to_address r) (ms_ripe_or_tag r) (ms_to_key r) (ms_content_id r) (ms_content_encoding r) (ms_ackdata r)
    (ms_crypto_cookie r) (ms_pow_cookie r) (ms_store_cookie r) (ms_blob r) (ms_blob_ackdata_offset r) (ms_blob_ackdata_length r)
    (ms_last_getpubkey_send_time r) (ms_last_msg_send_time r) (ms_trying_pubkey_blob r).
Definition ms_set_to_key (v : option ntb_key) (r : ntb_keyring_message) : ntb_keyring_message :=
  Message (ms_state r) (ms_from_key r) (ms_to_address r) (ms_ripe_or_tag r) v (ms_content_id r) (ms_content_encoding r) (ms_ackdata r)
    (ms_crypto_cookie r) (ms_pow_cookie r) (ms_store_cookie r) (ms_blob r) (ms_blob_ackdata_offset r) (ms_blob_ackdata_length r)
    (ms_last_getpubkey_send_time r) (ms_last_msg_send_time r) (ms_trying_pubkey_blob r).
Definition ms_set_ackdata (v : option (list Z)) (r : ntb_keyring_message) : ntb_keyring_message :=
  Message (ms_state r) (ms_from_key r) (ms_to_address r) (ms_ripe_or_tag r) (ms_to_key r) (ms_content_id r) (ms_content_encoding r) v
    (ms_crypto_cookie r) (ms_pow_cookie r) (ms_store_cookie r) (ms_blob r) (ms_blob_ackdata_offset r) (ms_blob_ackdata_length r)
    (ms_last_getpubkey_send_time r) (ms_last_msg_send_time r) (ms_trying_pubkey_blob r).
Definition ms_set_crypto_cookie (v : option nat) (r : ntb_keyring_message) : ntb_keyring_message :=
  Message (ms_state r) (ms_from_key r) (ms_to_address r) (ms_ripe_or_tag r) (ms_to_key r) (ms_content_id r) (ms_content_encoding r) (ms_ackdata r) v
    (ms_pow_cookie r) (ms_store_cookie r) (ms_blob r) (ms_blob_ackdata_offset r) (ms_blob_ackdata_length r) (ms_last_getpubkey_send_time r)
    (ms_last_msg_send_time r) (ms_trying_pubkey_blob r).
Definition ms_set_pow_cookie (v : option nat) (r : ntb_keyring_message) : ntb_keyring_message :=
  Message (ms_state r) (ms_from_key r) (ms_to_address r) (ms_ripe_or_tag r) (ms_to_key r) (ms_content_id r) (ms_content_encoding r) (ms_ackdata r)
    (ms_crypto_cookie r) v (ms_store_cookie r) (ms_blob r) (ms_blob_ackdata_offset r) (ms_blob_ackdata_length r) (ms_last_getpubkey_send_time r)
    (ms_last_msg_send_time r) (ms_trying_pubkey_blob r).
Definition ms_set_store_cookie (v : option nat) (r : ntb_keyring_message) : ntb_keyring_message :=
  Message (ms_state r) (ms_from_key r) (ms_to_address r) (ms_ripe_or_tag r) (ms_to_key r) (ms_content_id r) (ms_content_encoding r) (ms_ackdata r)
    (ms_crypto_cookie r) (ms_pow_cookie r) v (ms_blob r) (ms_blob_ackdata_offset r) (ms_blob_ackdata_length r) (ms_last_getpubkey_send_time r)
    (ms_last_msg_send_time r) (ms_trying_pubkey_blob r).
Definition ms_set_blob (v : option dyn_blob) (r : ntb_keyring_message) : ntb_keyring_message :=
  Message (ms_state r) (ms_from_key r) (ms_to_address r) (ms_ripe_or_tag r) (ms_to_key r) (ms_content_id r) (ms_content_encoding r) (ms_ackdata r)
    (ms_crypto_cookie r) (ms_pow_cookie r) (ms_store_cookie r) v (ms_blob_ackdata_offset r) (ms_blob_ackdata_length r)
    (ms_last_getpubkey_send_time r) (ms_last_msg_send_time r) (ms_trying_pubkey_blob r).
Definition ms_set_blob_ackdata_offset (v : Z) (r : ntb_keyring_message) : ntb_keyring_message :=
  Message (ms_state r) (ms_from_key r) (ms_to_address r) (ms_ripe_or_tag r) (ms_to_key r) (ms_content_id r) (ms_content_encoding r) (ms_ackdata r)
    (ms_crypto_cookie r) (ms_pow_cookie r) (ms_store_cookie r) (ms_blob r) v (ms_blob_ackdata_length r) (ms_last_getpubkey_send_time r)
    (ms_last_msg_send_time r) (ms_trying_pubkey_blob r).
Definition ms_set_blob_ackdata_length (v : Z) (r : ntb_keyring_message) : ntb_keyring_message :=
  Message (ms_state r) (ms_from_key r) (ms_to_address r) (ms_ripe_or_tag r) (ms_to_key r) (ms_content_id r) (ms_content_encoding r) (ms_ackdata r)
    (ms_crypto_cookie r) (ms_pow_cookie r) (ms_store_cookie r) (ms_blob r) (ms_blob_ackdata_offset r) v (ms_last_getpubkey_send_time r)
    (ms_last_msg_send_time r) (ms_trying_pubkey_blob r).
Definition ms_set_last_getpubkey_send_time (v : Z) (r : ntb_keyring_message) : ntb_keyring_message :=
  Message (ms_state r) (ms_from_key r) (ms_to_address r) (ms_ripe_or_tag r) (ms_to_key r) (ms_content_id r) (ms_content_encoding r) (ms_ackdata r)
    (ms_crypto_cookie r) (ms_pow_cookie r) (ms_store_cookie r) (ms_blob r) (ms_blob_ackdata_offset r) (ms_blob_ackdata_length r) v
    (ms_last_msg_send_time r) (ms_trying_pubkey_blob r).
Definition ms_set_last_msg_send_time (v : Z) (r : ntb_keyring_message) : ntb_keyring_message :=
  Message (ms_state r) (ms_from_key r) (ms_to_address r) (ms_ripe_or_tag r) (ms_to_key r) (ms_content_id r) (ms_content_encoding r) (ms_ackdata r)
    (ms_crypto_cookie r) (ms_pow_cookie r) (ms_store_cookie r) (ms_blob r) (ms_blob_ackdata_offset r) (ms_blob_ackdata_length r)
    (ms_last_getpubkey_send_time r) v (ms_trying_pubkey_blob r).
Definition ms_set_trying_pubkey_blob (v : option nat) (r : ntb_keyring_message) : ntb_keyring_message :=
  Message (ms_state r) (ms_from_key r) (ms_to_address r) (ms_ripe_or_tag r) (ms_to_key r) (ms_content_id r) (ms_content_encoding r) (ms_ackdata r)
    (ms_crypto_cookie r) (ms_pow_cookie r) (ms_store_cookie r) (ms_blob r) (ms_blob_ackdata_offset r) (ms_blob_ackdata_length r)
    (ms_last_getpubkey_send_time r) (ms_last_msg_send_time r) v.
Definition tk_set_crypto_cookie (v : option nat) (r : ntb_keyring_task) : ntb_keyring_task :=
  Task v (tk_pow_cookie r) (tk_blob r) (tk_timestamp r).
Definition tk_set_pow_cookie (v : option nat) (r : ntb_keyring_task) : ntb_keyring_task :=
  Task (tk_crypto_cookie r) v (tk_blob r) (tk_timestamp r).
Definition tk_set_blob (v : option dyn_blob) (r : ntb_keyring_task) : ntb_keyring_task :=
  Task (tk_crypto_cookie r) (tk_pow_cookie r) v (tk_timestamp r).
Definition tk_set_timestamp (v : Z) (r : ntb_keyring_task) : ntb_keyring_task :=
  Task (tk_crypto_cookie r) (tk_pow_cookie r) (tk_blob r) v.
Definition kr_set_nw (v : network) (r : ntb_keyring) : ntb_keyring :=
  Keyring v (kr_started r) (kr_keys r) (kr_tasks r) (kr_task r) (kr_cookie r) (kr_pubkey_blob_list r) (kr_pubkey_blob_table r) (kr_pubkey_blob r)
    (kr_messages r) (kr_message r) (kr_next_message_content_id r) (kr_crypto r) (kr_pow r) (kr_loads r) (kr_next r) (kr_random r) (kr_effects r).
Definition kr_set_started (v : bool) (r : ntb_keyring) : ntb_keyring :=
  Keyring (kr_nw r) v (kr_keys r) (kr_tasks r) (kr_task r) (kr_cookie r) (kr_pubkey_blob_list r) (kr_pubkey_blob_table r) (kr_pubkey_blob r)
    (kr_messages r) (kr_message r) (kr_next_message_content_id r) (kr_crypto r) (kr_pow r) (kr_loads r) (kr_next r) (kr_random r) (kr_effects r).
Definition kr_set_keys (v : list ntb_key) (r : ntb_keyring) : ntb_keyring :=
  Keyring (kr_nw r) (kr_started r) v (kr_tasks r) (kr_task r) (kr_cookie r) (kr_pubkey_blob_list r) (kr_pubkey_blob_table r) (kr_pubkey_blob r)
    (kr_messages r) (kr_message r) (kr_next_message_content_id r) (kr_crypto r) (kr_pow r) (kr_loads r) (kr_next r) (kr_random r) (kr_effects r).
Definition kr_set_tasks (v : list nat) (r : ntb_keyring) : ntb_keyring :=
  Keyring (kr_nw r) (kr_started r) (kr_keys r) v (kr_task r) (kr_cookie r) (kr_pubkey_blob_list r) (kr_pubkey_blob_table r) (kr_pubkey_blob r)
    (kr_messages r) (kr_message r) (kr_next_message_content_id r) (kr_crypto r) (kr_pow r) (kr_loads r) (kr_next r) (kr_random r) (kr_effects r).
Definition kr_set_task (v : gmap nat ntb_keyring_task) (r : ntb_keyring) : ntb_keyring :=
  Keyring (kr_nw r) (kr_started r) (kr_keys r) (kr_tasks r) v (kr_cookie r) (kr_pubkey_blob_list r) (kr_pubkey_blob_table r) (kr_pubkey_blob r)
    (kr_messages r) (kr_message r) (kr_next_message_content_id r) (kr_crypto r) (kr_pow r) (kr_loads r) (kr_next r) (kr_random r) (kr_effects r).
Definition kr_set_cookie (v : gmap nat ntb_keyring_cookie) (r : ntb_keyring) : ntb_keyring :=
  Keyring (kr_nw r) (kr_started r) (kr_keys r) (kr_tasks r) (kr_task r) v (kr_pubkey_blob_list r) (kr_pubkey_blob_table r) (kr_pubkey_blob r)
    (kr_messages r) (kr_message r) (kr_next_message_content_id r) (kr_crypto r) (kr_pow r) (kr_loads r) (kr_next r) (kr_random r) (kr_effects r).
Definition kr_set_pubkey_blob_list (v : list nat) (r : ntb_keyring) : ntb_keyring :=
  Keyring (kr_nw r) (kr_started r) (kr_keys r) (kr_tasks r) (kr_task r) (kr_cookie r) v (kr_pubkey_blob_table r) (kr_pubkey_blob r) (kr_messages r)
    (kr_message r) (kr_next_message_content_id r) (kr_crypto r) (kr_pow r) (kr_loads r) (kr_next r) (kr_random r) (kr_effects r).
Definition kr_set_pubkey_blob_table (v : gmap (list Z) nat) (r : ntb_keyring) : ntb_keyring :=
  Keyring (kr_nw r) (kr_started r) (kr_keys r) (kr_tasks r) (kr_task r) (kr_cookie r) (kr_pubkey_blob_list r) v (kr_pubkey_blob r) (kr_messages r)
    (kr_message r) (kr_next_message_content_id r) (kr_crypto r) (kr_pow r) (kr_loads r) (kr_next r) (kr_random r) (kr_effects r).
Definition kr_set_pubkey_blob (v : gmap nat ntb_keyring_pubkey_blob) (r : ntb_keyring) : ntb_keyring :=
  Keyring (kr_nw r) (kr_started r) (kr_keys r) (kr_tasks r) (kr_task r) (kr_cookie r) (kr_pubkey_blob_list r) (kr_pubkey_blob_table r) v
    (kr_messages r) (kr_message r) (kr_next_message_content_id r) (kr_crypto r) (kr_pow r) (kr_loads r) (kr_next r) (kr_random r) (kr_effects r).
Definition kr_set_messages (v : list nat) (r : ntb_keyring) : ntb_keyring :=
  Keyring (kr_nw r) (kr_started r) (kr_keys r) (kr_tasks r) (kr_task r) (kr_cookie r) (kr_pubkey_blob_list r) (kr_pubkey_blob_table r)
    (kr_pubkey_blob r) v (kr_message r) (kr_next_message_content_id r) (kr_crypto r) (kr_pow r) (kr_loads r) (kr_next r) (kr_random r) (kr_effects r).
Definition kr_set_message (v : gmap nat ntb_keyring_message) (r : ntb_keyring) : ntb_keyring :=
  Keyring (kr_nw r) (kr_started r) (kr_keys r) (kr_tasks r) (kr_task r) (kr_cookie r) (kr_pubkey_blob_list r) (kr_pubkey_blob_table r)
    (kr_pubkey_blob r) (kr_messages r) v (kr_next_message_content_id r) (kr_crypto r) (kr_pow r) (kr_loads r) (kr_next r) (kr_random r)
    (kr_effects r).
Definition kr_set_next_message_content_id (v : Z) (r : ntb_keyring) : ntb_keyring :=
  Keyring (kr_nw r) (kr_started r) (kr_keys r) (kr_tasks r) (kr_task r) (kr_cookie r) (kr_pubkey_blob_list r) (kr_pubkey_blob_table r)
    (kr_pubkey_blob r) (kr_messages r) (kr_message r) v (kr_crypto r) (kr_pow r) (kr_loads r) (kr_next r) (kr_random r) (kr_effects r).
Definition kr_set_crypto (v : gmap nat crypto_task) (r : ntb_keyring) : ntb_keyring :=
  Keyring (kr_nw r) (kr_started r) (kr_keys r) (kr_tasks r) (kr_task r) (kr_cookie r) (kr_pubkey_blob_list r) (kr_pubkey_blob_table r)
    (kr_pubkey_blob r) (kr_messages r) (kr_message r) (kr_next_message_content_id r) v (kr_pow r) (kr_loads r) (kr_next r) (kr_random r)
    (kr_effects r).
Definition kr_set_pow (v : gmap nat pow_task) (r : ntb_keyring) : ntb_keyring :=
  Keyring (kr_nw r) (kr_started r) (kr_keys r) (kr_tasks r) (kr_task r) (kr_cookie r) (kr_pubkey_blob_list r) (kr_pubkey_blob_table r)
    (kr_pubkey_blob r) (kr_messages r) (kr_message r) (kr_next_message_content_id r) (kr_crypto r) v (kr_loads r) (kr_next r) (kr_random r)
    (kr_effects r).
Definition kr_set_loads (v : gmap nat store_load) (r : ntb_keyring) : ntb_keyring :=
  Keyring (kr_nw r) (kr_started r) (kr_keys r) (kr_tasks r) (kr_task r) (kr_cookie r) (kr_pubkey_blob_list r) (kr_pubkey_blob_table r)
    (kr_pubkey_blob r) (kr_messages r) (kr_message r) (kr_next_message_content_id r) (kr_crypto r) (kr_pow r) v (kr_next r) (kr_random r)
    (kr_effects r).
Definition kr_set_next (v : nat) (r : ntb_keyring) : ntb_keyring :=
  Keyring (kr_nw r) (kr_started r) (kr_keys r) (kr_tasks r) (kr_task r) (kr_cookie r) (kr_pubkey_blob_list r) (kr_pubkey_blob_table r)
    (kr_pubkey_blob r) (kr_messages r) (kr_message r) (kr_next_message_content_id r) (kr_crypto r) (kr_pow r) (kr_loads r) v (kr_random r)
    (kr_effects r).
Definition kr_set_random (v : list Z) (r : ntb_keyring) : ntb_keyring :=
  Keyring (kr_nw r) (kr_started r) (kr_keys r) (kr_tasks r) (kr_task r) (kr_cookie r) (kr_pubkey_blob_list r) (kr_pubkey_blob_table r)
    (kr_pubkey_blob r) (kr_messages r) (kr_message r) (kr_next_message_content_id r) (kr_crypto r) (kr_pow r) (kr_loads r) (kr_next r) v
    (kr_effects r).
Definition kr_set_effects (v : list keyring_effect) (r : ntb_keyring) : ntb_keyring :=
  Keyring (kr_nw r) (kr_started r) (kr_keys r) (kr_tasks r) (kr_task r) (kr_cookie r) (kr_pubkey_blob_list r) (kr_pubkey_blob_table r)
    (kr_pubkey_blob r) (kr_messages r) (kr_message r) (kr_next_message_content_id r) (kr_crypto r) (kr_pow r) (kr_loads r) (kr_next r) (kr_random r)
    v.

Definition pb_add_ref (n : Z) (b : ntb_keyring_pubkey_blob) : ntb_keyring_pubkey_blob :=
  PubkeyBlob (pb_timestamp b) (pb_ripe_or_tag b) (pb_hash b) (pb_ref_count b + n) (pb_in_list b).
Definition pb_set_in_list (v : bool) (b : ntb_keyring_pubkey_blob) : ntb_keyring_pubkey_blob :=
  PubkeyBlob (pb_timestamp b) (pb_ripe_or_tag b) (pb_hash b) (pb_ref_count b) v.

Definition kr_emit (e : keyring_effect) (kr : ntb_keyring) : ntb_keyring := kr_set_effects (kr_effects kr ++ [e]) kr.

(** ** Memory *)

Definition the_message (i : nat) (kr : ntb_keyring) : result unit ntb_keyring_message := need (kr_message kr !! i).
Definition the_task (i : nat) (kr : ntb_keyring) : result unit ntb_keyring_task := need (kr_task kr !! i).
Definition the_pubkey_blob (p : nat) (kr : ntb_keyring) : result unit ntb_keyring_pubkey_blob := need (kr_pubkey_blob kr !! p).

Definition put_message (i : nat) (m : ntb_keyring_message) (kr : ntb_keyring) : ntb_keyring :=
  kr_set_message (<[i := m]> (kr_message kr)) kr.
Definition put_task (i : nat) (t : ntb_keyring_task) (kr : ntb_keyring) : ntb_keyring := kr_set_task (<[i := t]> (kr_task kr)) kr.
Definition put_pubkey_blob (p : nat) (b : ntb_keyring_pubkey_blob) (kr : ntb_keyring) : ntb_keyring :=
  kr_set_pubkey_blob (<[p := b]> (kr_pubkey_blob kr)) kr.

Definition update_message (i : nat) (f : ntb_keyring_message -> ntb_keyring_message) (kr : ntb_keyring) : result unit ntb_keyring :=
  m ← the_message i kr; Ok (put_message i (f m) kr).
Definition update_task (i : nat) (f : ntb_keyring_task -> ntb_keyring_task) (kr : ntb_keyring) : result unit ntb_keyring :=
  t ← the_task i kr; Ok (put_task i (f t) kr).

Definition fresh (kr : ntb_keyring) : nat * ntb_keyring := (kr_next kr, kr_set_next (S (kr_next kr)) kr).

(** [rand() % 600 - 300] *)
Definition random_offset (kr : ntb_keyring) : Z * ntb_keyring :=
  (Z.rem (hd 0 (kr_random kr)) 600 - 300, kr_set_random (tl (kr_random kr)) kr).

(** Memory of a blob that is built. *)
Definition blob_write (off : Z) (l : list Z) (blob : dyn_blob) : result unit dyn_blob :=
  cells ← write_cells off l (db_cells blob); Ok (DynBlob (db_type blob) cells).
Definition blob_read (off n : Z) (blob : dyn_blob) : result unit (list Z) :=
  if (0 <=? off) && (0 <=? n) && (off + n <=? zlen (db_cells blob))
  then need (all_some (take (Z.to_nat n) (drop (Z.to_nat off) (db_cells blob)))) else UB.

(** ** The other components *)

(** Before [ntb_keyring_start] the two pointers are [NULL]. *)
Definition ntb_crypto_queue (t : crypto_task) (kr : ntb_keyring) : result unit (nat * ntb_keyring) :=
  if kr_started kr then
    let '(c, kr) := fresh kr in Ok (c, kr_set_crypto (<[c := t]> (kr_crypto kr)) kr)
  else UB.
Definition ntb_crypto_cancel_task (c : nat) (kr : ntb_keyring) : result unit ntb_keyring :=
  _ ← need (kr_crypto kr !! c); Ok (kr_set_crypto (delete c (kr_crypto kr)) kr).

(** The target is computed and the payload is hashed when the search is queued. *)
Definition ntb_pow_calculate (payload : list Z) (extra_bytes nonce_trials : Z) (cb : pow_callback) (kr : ntb_keyring) :
    result unit (nat * ntb_keyring) :=
  if kr_started kr then
    _ ← calculate_target (u64 (zlen payload + 8)) extra_bytes nonce_trials;
    let '(c, kr) := fresh kr in Ok (c, kr_set_pow (<[c := PowTask payload extra_bytes nonce_trials cb]> (kr_pow kr)) kr)
  else UB.
Definition ntb_pow_cancel (c : nat) (kr : ntb_keyring) : result unit ntb_keyring :=
  _ ← need (kr_pow kr !! c); Ok (kr_set_pow (delete c (kr_pow kr)) kr).

Definition ntb_store_load (l : store_load) (kr : ntb_keyring) : nat * ntb_keyring :=
  let '(c, kr) := fresh kr in (c, kr_set_loads (<[c := l]> (kr_loads kr)) kr).
Definition ntb_store_cancel_task (c : nat) (kr : ntb_keyring) : result unit ntb_keyring :=
  _ ← need (kr_loads kr !! c); Ok (kr_set_loads (delete c (kr_loads kr)) kr).

Definition ntb_network_get_object (hash : list Z) (kr : ntb_keyring) : result unit ntb_network_object_location :=
  network_get_object hash (kr_nw kr).

(** ** Messages and tasks *)

Definition unref_pubkey_blob (p : nat) (kr : ntb_keyring) : result unit ntb_keyring :=
  b ← the_pubkey_blob p kr;
  let b := pb_add_ref (-1) b in
  Ok (if pb_ref_count b <=? 0 then kr_set_pubkey_blob (delete p (kr_pubkey_blob kr)) kr else put_pubkey_blob p b kr).

Definition cancel_message_tasks (i : nat) (kr : ntb_keyring) : result unit ntb_keyring :=
  m ← the_message i kr;
  kr ← (match ms_crypto_cookie m with
        | Some c => kr ← ntb_crypto_cancel_task c kr; update_message i (ms_set_crypto_cookie None) kr
        | None => Ok kr
        end);
  kr ← (match ms_pow_cookie m with
        | Some c => kr ← ntb_pow_cancel c kr; update_message i (ms_set_pow_cookie None) kr
        | None => Ok kr
        end);
  kr ← (match ms_store_cookie m with
        | Some c => kr ← ntb_store_cancel_task c kr; update_message i (ms_set_store_cookie None) kr
        | None => Ok kr
        end);
  kr ← update_message i (ms_set_blob None) kr;
  match ms_trying_pubkey_blob m with
  | Some p => kr ← unref_pubkey_blob p kr; update_message i (ms_set_trying_pubkey_blob None) kr
  | None => Ok kr
  end.

Definition free_message (i : nat) (kr : ntb_keyring) : result unit ntb_keyring :=
  kr ← cancel_message_tasks i kr;
  Ok (kr_set_message (delete i (kr_message kr)) (kr_set_messages (filter (.≠ i) (kr_messages kr)) kr)).

(** Whether a message of the list has the content. *)
Fixpoint content_used (l : list nat) (content_id : Z) (kr : ntb_keyring) : result unit bool :=
  match l with
  | [] => Ok false
  | i :: l => m ← the_message i kr; if ms_content_id m =? content_id then Ok true else content_used l content_id kr
  end.
Definition maybe_delete_message_content (content_id : Z) (kr : ntb_keyring) : result unit ntb_keyring :=
  used ← content_used (kr_messages kr) content_id kr;
  Ok (if used : bool then kr else kr_emit (KeyringDeleteMessageContent content_id) kr).

Definition save_keyring (kr : ntb_keyring) : ntb_keyring := kr_emit (KeyringSaveKeys (kr_keys kr)) kr.

Definition add_outgoing (m : ntb_keyring_message) : result unit ntb_store_outgoing :=
  ackdata ← need (ms_ackdata m);
  state ← need (ms_state m);
  let outgoing := fun last_getpubkey_send_time last_msg_send_time =>
    StoreOutgoing (key_address (ms_from_key m)) (ms_to_address m) ackdata (ms_content_id m) (ms_content_encoding m)
      last_getpubkey_send_time last_msg_send_time in
  Ok (match state with
      | NTB_KEYRING_MESSAGE_STATE_CALCULATING_GETPUBKEY_POW => outgoing 0 (ms_last_msg_send_time m)
      | NTB_KEYRING_MESSAGE_STATE_CALCULATING_ACKDATA_POW
      | NTB_KEYRING_MESSAGE_STATE_CALCULATING_MSG_POW => outgoing (ms_last_getpubkey_send_time m) 0
      | _ => outgoing (ms_last_getpubkey_send_time m) (ms_last_msg_send_time m)
      end).

Fixpoint outgoings_of (l : list nat) (kr : ntb_keyring) : result unit (list ntb_store_outgoing) :=
  match l with
  | [] => Ok []
  | i :: l =>
      m ← the_message i kr;
      state ← need (ms_state m);
      if decide (state = NTB_KEYRING_MESSAGE_STATE_GENERATING_ACKDATA) then outgoings_of l kr
      else outgoing ← add_outgoing m; outgoings ← outgoings_of l kr; Ok (outgoing :: outgoings)
  end.
Definition save_messages (kr : ntb_keyring) : result unit ntb_keyring :=
  outgoings ← outgoings_of (kr_messages kr) kr; Ok (kr_emit (KeyringSaveOutgoings outgoings) kr).

Definition add_key (key : ntb_key) (kr : ntb_keyring) : ntb_keyring := kr_set_keys (kr_keys kr ++ [key]) kr.

Definition for_each_key_cb (key : ntb_key) (kr : ntb_keyring) : ntb_keyring := add_key key kr.

Definition add_task (kr : ntb_keyring) : nat * ntb_keyring :=
  let '(i, kr) := fresh kr in (i, put_task i (Task None None None 0) (kr_set_tasks (i :: kr_tasks kr) kr)).

Definition free_task (i : nat) (kr : ntb_keyring) : result unit ntb_keyring :=
  t ← the_task i kr;
  kr ← (match tk_crypto_cookie t with Some c => ntb_crypto_cancel_task c kr | None => Ok kr end);
  kr ← (match tk_pow_cookie t with Some c => ntb_pow_cancel c kr | None => Ok kr end);
  Ok (kr_set_task (delete i (kr_task kr)) (kr_set_tasks (filter (.≠ i) (kr_tasks kr)) kr)).

(** ** Answering requests for public keys *)

(** The first access is to the nonce. *)
Definition create_pubkey_blob_cb (blob : dyn_blob) (i : nat) (kr : ntb_keyring) : result unit ntb_keyring :=
  kr ← update_task i (tk_set_crypto_cookie None) kr;
  payload ← blob_read 8 (zlen (db_cells blob) - 8) blob;
  '(c, kr) ← ntb_pow_calculate payload NTB_PROTO_MIN_EXTRA_BYTES NTB_PROTO_MIN_NONCE_TRIALS_PER_BYTE (CREATE_PUBKEY_POW_CB i) kr;
  update_task i (fun t => tk_set_blob (Some blob) (tk_set_pow_cookie (Some c) t)) kr.

Definition key_set_last_pubkey_send_time (v : Z) (key : ntb_key) : ntb_key :=
  Key (key_address key) (key_tag key) (key_tag_private_key key) (key_label key) (key_nonce_trials_per_byte key)
    (key_payload_length_extra_bytes key) v (key_signing_key key) (key_encryption_key key) (key_enabled key) (key_decoy key).

Definition maybe_post_key (wall : Z) (key_index : nat) (kr : ntb_keyring) : result unit ntb_keyring :=
  key ← need (kr_keys kr !! key_index);
  let last_send_age := age_at wall (key_last_pubkey_send_time key) in
  if last_send_age <? ntb_proto_get_max_age_for_type NTB_PROTO_INV_TYPE_PUBKEY then Ok kr
  else
    let '(offset, kr) := random_offset kr in
    let tmp_key := key_set_last_pubkey_send_time (wall + offset) key in
    let kr := save_keyring (kr_set_keys (<[key_index := tmp_key]> (kr_keys kr)) kr) in
    let '(i, kr) := add_task kr in
    '(c, kr) ← ntb_crypto_queue (CRYPTO_CREATE_PUBKEY_BLOB tmp_key i) kr;
    update_task i (tk_set_crypto_cookie (Some c)) kr.

(** The loop over the keys behind the first [index] ones. *)
Fixpoint post_matching_key (wall address_version stream_number : Z) (matches : ntb_key -> bool) (keys : list ntb_key) (index : nat)
    (kr : ntb_keyring) : result unit ntb_keyring :=
  match keys with
  | [] => Ok kr
  | key :: keys =>
      if ntb_key_has_private key && matches key then
        if negb (addr_version (key_address key) =? address_version) || negb (addr_stream (key_address key) =? stream_number)
        then Ok kr else maybe_post_key wall index kr
      else post_matching_key wall address_version stream_number matches keys (S index) kr
  end.

Definition handle_getpubkey_with_ripe (wall address_version stream_number : Z) (ripe : ptr) (kr : ntb_keyring) : result unit ntb_keyring :=
  ripe ← read_bytes RIPEMD160_DIGEST_LENGTH ripe;
  post_matching_key wall address_version stream_number (fun key => bytes_eqb (addr_ripe (key_address key)) ripe) (kr_keys kr) 0 kr.

Definition handle_getpubkey_with_tag (wall address_version stream_number : Z) (tag : ptr) (kr : ntb_keyring) : result unit ntb_keyring :=
  tag ← read_bytes NTB_ADDRESS_TAG_SIZE tag;
  post_matching_key wall address_version stream_number (fun key => bytes_eqb (key_tag key) tag) (kr_keys kr) 0 kr.

Definition getpubkey_header : list ntb_proto_argument :=
  [NTB_PROTO_ARGUMENT_64; NTB_PROTO_ARGUMENT_TIMESTAMP; NTB_PROTO_ARGUMENT_VAR_INT; NTB_PROTO_ARGUMENT_VAR_INT].

Definition handle_getpubkey (wall : Z) (blob : ntb_blob) (kr : ntb_keyring) : result unit ntb_keyring :=
  let size := zlen (blob_data blob) in
  header ← parse (ntb_proto_get_command getpubkey_header (blob_data blob) size);
  match header with
  | None => Ok kr
  | Some ((_, (_, (address_version, (stream_number, _)))), header_length) =>
      if (address_version <? 2) || (4 <? address_version) then Ok kr
      else
        let ripe_or_tag := drop (Z.to_nat header_length) (blob_data blob) in
        if address_version <? 4 then
          if size - header_length <? Z.of_nat RIPEMD160_DIGEST_LENGTH then Ok kr
          else handle_getpubkey_with_ripe wall address_version stream_number ripe_or_tag kr
        else if size - header_length <? Z.of_nat NTB_ADDRESS_TAG_SIZE then Ok kr
        else handle_getpubkey_with_tag wall address_version stream_number ripe_or_tag kr
  end.

(** ** Looking for the public key of a message *)

Definition getpubkey_target (address : ntb_address) (b : ntb_buffer) : result unit ntb_buffer :=
  if addr_version address <? 4 then ntb_buffer_append b (addr_ripe address)
  else
    b' ← ntb_buffer_set_length b (u64 (buf_length b + Z.of_nat NTB_ADDRESS_TAG_SIZE));
    '(tag, _) ← ntb_address_get_tag address;
    buf_write b' (buf_length b' - Z.of_nat NTB_ADDRESS_TAG_SIZE) tag.

Definition build_getpubkey (last_getpubkey_send_time : Z) (to_address : ntb_address) : result unit dyn_blob :=
  b ← ntb_blob_dynamic_init;
  b ← ntb_buffer_set_length b (u64 (buf_length b + 8));
  b ← ntb_proto_add_64 b (u64 last_getpubkey_send_time);
  b ← ntb_proto_add_var_int b (addr_version to_address);
  b ← ntb_proto_add_var_int b (addr_stream to_address);
  b ← getpubkey_target to_address b;
  Ok (ntb_blob_dynamic_end NTB_PROTO_INV_TYPE_GETPUBKEY b).

Definition send_getpubkey_request (wall : Z) (i : nat) (kr : ntb_keyring) : result unit ntb_keyring :=
  m ← the_message i kr;
  if age_at wall (ms_last_getpubkey_send_time m) <? ntb_proto_get_max_age_for_type NTB_PROTO_INV_TYPE_GETPUBKEY
  then Ok (put_message i (ms_set_state (Some NTB_KEYRING_MESSAGE_STATE_AWAITING_PUBKEY) m) kr)
  else
    let '(offset, kr) := random_offset kr in
    let m := ms_set_last_getpubkey_send_time (wall + offset) m in
    blob ← build_getpubkey (ms_last_getpubkey_send_time m) (ms_to_address m);
    let m := ms_set_state (Some NTB_KEYRING_MESSAGE_STATE_CALCULATING_GETPUBKEY_POW) (ms_set_blob (Some blob) m) in
    payload ← blob_read 8 (zlen (db_cells blob) - 8) blob;
    '(c, kr) ← ntb_pow_calculate payload NTB_PROTO_MIN_EXTRA_BYTES NTB_PROTO_MIN_NONCE_TRIALS_PER_BYTE (GETPUBKEY_POW_CB i) kr;
    Ok (put_message i (ms_set_pow_cookie (Some c) m) kr).

Definition post_message (wall : Z) (i : nat) (kr : ntb_keyring) : result unit ntb_keyring :=
  m ← the_message i kr;
  if age_at wall (ms_last_msg_send_time m) <? ntb_proto_get_max_age_for_type NTB_PROTO_INV_TYPE_MSG
  then Ok (put_message i (ms_set_state (Some NTB_KEYRING_MESSAGE_STATE_AWAITING_ACKNOWLEDGEMENT) m) kr)
  else
    let '(c, kr) := ntb_store_load (LOAD_MESSAGE_CONTENT (ms_content_id m) i) kr in
    Ok (put_message i (ms_set_store_cookie (Some c) (ms_set_state (Some NTB_KEYRING_MESSAGE_STATE_LOADING_CONTENT) m)) kr).

Definition try_blob_for_message (i : nat) (blob : ntb_blob) (kr : ntb_keyring) : result unit ntb_keyring :=
  kr ← update_message i (ms_set_state (Some NTB_KEYRING_MESSAGE_STATE_TRYING_BLOB)) kr;
  m ← the_message i kr;
  '(c, kr) ← ntb_crypto_queue (CRYPTO_CHECK_PUBKEY (ms_to_address m) blob i) kr;
  update_message i (ms_set_crypto_cookie (Some c)) kr.

Definition load_pubkey_from_store (i : nat) (hash : list Z) (kr : ntb_keyring) : result unit ntb_keyring :=
  let '(c, kr) := ntb_store_load (LOAD_BLOB hash i) kr in
  update_message i (fun m => ms_set_state (Some NTB_KEYRING_MESSAGE_STATE_LOADING_PUBKEY_FROM_STORE) (ms_set_store_cookie (Some c) m)) kr.

(** The counter is increased behind the release of the previous object. *)
Definition try_pubkey_blob_for_message (i p : nat) (kr : ntb_keyring) : result unit (bool * ntb_keyring) :=
  m ← the_message i kr;
  kr ← (match ms_trying_pubkey_blob m with Some q => unref_pubkey_blob q kr | None => Ok kr end);
  kr ← update_message i (ms_set_trying_pubkey_blob (Some p)) kr;
  b ← the_pubkey_blob p kr;
  let kr := put_pubkey_blob p (pb_add_ref 1 b) kr in
  location ← ntb_network_get_object (pb_hash b) kr;
  match location with
  | NTB_NETWORK_OBJECT_LOCATION_NOWHERE => Ok (false, kr)
  | NTB_NETWORK_OBJECT_LOCATION_STORE => kr ← load_pubkey_from_store i (pb_hash b) kr; Ok (true, kr)
  | NTB_NETWORK_OBJECT_LOCATION_MEMORY blob => kr ← try_blob_for_message i blob kr; Ok (true, kr)
  end.

(** The elements of a list from the one that is given. *)
Fixpoint list_from (p : nat) (l : list nat) : list nat :=
  match l with [] => [] | q :: l' => if Nat.eqb p q then l else list_from p l' end.

(** The loop; [true] when one of the objects is tried. *)
Fixpoint try_pubkey_blobs (i : nat) (l : list nat) (kr : ntb_keyring) : result unit (bool * ntb_keyring) :=
  match l with
  | [] => Ok (false, kr)
  | p :: l =>
      b ← the_pubkey_blob p kr;
      m ← the_message i kr;
      if negb (bytes_eqb (pb_ripe_or_tag b) (ms_ripe_or_tag m)) then Ok (false, kr)
      else
        '(tried, kr) ← try_pubkey_blob_for_message i p kr;
        if tried : bool then Ok (true, kr) else try_pubkey_blobs i l kr
  end.

Definition load_public_key_for_message (wall : Z) (i : nat) (kr : ntb_keyring) : result unit ntb_keyring :=
  m ← the_message i kr;
  match kr_pubkey_blob_table kr !! ms_ripe_or_tag m with
  | None => send_getpubkey_request wall i kr
  | Some pubkey_blob_start =>
      '(tried, kr) ← try_pubkey_blobs i (list_from pubkey_blob_start (kr_pubkey_blob_list kr)) kr;
      if tried : bool then Ok kr else send_getpubkey_request wall i kr
  end.

(** ** Objects of public keys *)

Fixpoint check_pubkey_blob_with_messages (l : list nat) (p : nat) (kr : ntb_keyring) : result unit ntb_keyring :=
  match l with
  | [] => Ok kr
  | i :: l =>
      m ← the_message i kr;
      state ← need (ms_state m);
      b ← the_pubkey_blob p kr;
      kr ← (if bool_decide (state = NTB_KEYRING_MESSAGE_STATE_CALCULATING_GETPUBKEY_POW \/
                            state = NTB_KEYRING_MESSAGE_STATE_AWAITING_PUBKEY) &&
               bytes_eqb (ms_ripe_or_tag m) (pb_ripe_or_tag b)
            then
              kr ← cancel_message_tasks i kr;
              '(_, kr) ← try_pubkey_blob_for_message i p kr;
              Ok kr
            else Ok kr);
      check_pubkey_blob_with_messages l p kr
  end.

(** [memset] of the rest of the [NTB_PROTO_HASH_LENGTH] bytes. *)
Definition pad_hash (l : list Z) : list Z := l ++ replicate (Z.to_nat NTB_PROTO_HASH_LENGTH - length l) 0.

(** The version that is given to [ntb_address_from_network_keys] is a member that
    nothing sets, 0. *)
Definition pubkey_ripe_or_tag (pubkey : ntb_proto_pubkey) : result unit (list Z) :=
  match pk_tag pubkey with
  | Some tag => tag ← read_bytes (Z.to_nat NTB_PROTO_HASH_LENGTH) tag; Ok (pad_hash (take NTB_ADDRESS_TAG_SIZE tag))
  | None =>
      signing_key ← non_null (pk_public_signing_key pubkey);
      encryption_key ← non_null (pk_public_encryption_key pubkey);
      address ← ntb_address_from_network_keys 0 (pk_stream pubkey) signing_key encryption_key;
      Ok (pad_hash (addr_ripe address))
  end.

(** [ntb_list_insert] behind an element. *)
Fixpoint list_insert_after (p q : nat) (l : list nat) : list nat :=
  match l with [] => [] | x :: l => if Nat.eqb p x then x :: q :: l else x :: list_insert_after p q l end.

Definition insert_pubkey_blob (p : nat) (ripe_or_tag : list Z) (kr : ntb_keyring) : ntb_keyring :=
  match kr_pubkey_blob_table kr !! ripe_or_tag with
  | None =>
      kr_set_pubkey_blob_table (<[ripe_or_tag := p]> (kr_pubkey_blob_table kr)) (kr_set_pubkey_blob_list (p :: kr_pubkey_blob_list kr) kr)
  | Some insert_pos => kr_set_pubkey_blob_list (list_insert_after insert_pos p (kr_pubkey_blob_list kr)) kr
  end.

Definition handle_pubkey (blob : ntb_blob) (kr : ntb_keyring) : result unit ntb_keyring :=
  pubkey ← parse (ntb_proto_get_pubkey false (blob_data blob) (zlen (blob_data blob)));
  match pubkey with
  | None => Ok kr
  | Some pubkey =>
      let '(p, kr) := fresh kr in
      ripe_or_tag ← pubkey_ripe_or_tag pubkey;
      let kr := put_pubkey_blob p (PubkeyBlob (pk_timestamp pubkey) ripe_or_tag (ntb_proto_double_hash (blob_data blob)) 1 true) kr in
      let kr := insert_pubkey_blob p ripe_or_tag kr in
      check_pubkey_blob_with_messages (kr_messages kr) p kr
  end.

(** [ntb_hash_table_remove] compares the addresses of the values. *)
Definition table_remove (key : list Z) (p : nat) (table : gmap (list Z) nat) : gmap (list Z) nat :=
  if decide (table !! key = Some p) then delete key table else table.

(** The element before and the one behind; [None] is the head of the list. *)
Fixpoint list_neighbours (prev : option nat) (p : nat) (l : list nat) : option (option nat * option nat) :=
  match l with
  | [] => None
  | q :: l => if Nat.eqb p q then Some (prev, head l) else list_neighbours (Some q) p l
  end.

(** Whether the neighbour has the same ripe or tag. *)
Definition same_group (neighbour : option nat) (ripe_or_tag : list Z) (kr : ntb_keyring) : result unit bool :=
  match neighbour with
  | None => Ok false
  | Some q => b ← the_pubkey_blob q kr; Ok (bytes_eqb (pb_ripe_or_tag b) ripe_or_tag)
  end.

Definition remove_pubkey_blob (p : nat) (kr : ntb_keyring) : result unit ntb_keyring :=
  b ← the_pubkey_blob p kr;
  if negb (pb_in_list b) then Ok kr
  else
    '(prev, next) ← need (list_neighbours None p (kr_pubkey_blob_list kr));
    let kr := kr_set_pubkey_blob_list (filter (.≠ p) (kr_pubkey_blob_list kr)) kr in
    same_prev ← same_group prev (pb_ripe_or_tag b) kr;
    kr ← (if same_prev : bool then Ok kr
          else
            same_next ← same_group next (pb_ripe_or_tag b) kr;
            match next with
            | Some next =>
                if same_next : bool
                then Ok (kr_set_pubkey_blob_table (<[pb_ripe_or_tag b := next]> (kr_pubkey_blob_table kr)) kr)
                else Ok (kr_set_pubkey_blob_table (table_remove (pb_ripe_or_tag b) p (kr_pubkey_blob_table kr)) kr)
            | None => Ok (kr_set_pubkey_blob_table (table_remove (pb_ripe_or_tag b) p (kr_pubkey_blob_table kr)) kr)
            end);
    unref_pubkey_blob p (put_pubkey_blob p (pb_set_in_list false b) kr).

Definition handle_broadcast (blob : ntb_blob) (kr : ntb_keyring) : result unit ntb_keyring := Ok kr.

(** ** Acknowledgements and messages that arrive *)

(** The address is only logged. *)
Definition message_acknowledged (i : nat) (kr : ntb_keyring) : result unit ntb_keyring :=
  m ← the_message i kr;
  to_address_string ← ntb_address_encode (ms_to_address m);
  if NTB_ADDRESS_MAX_LENGTH <? zlen to_address_string then UB
  else
    let content_id := ms_content_id m in
    kr ← free_message i kr;
    kr ← maybe_delete_message_content content_id kr;
    save_messages kr.

(** The loop over the messages. *)
Fixpoint find_acknowledged (l : list nat) (content : list Z) (kr : ntb_keyring) : result unit (bool * ntb_keyring) :=
  match l with
  | [] => Ok (false, kr)
  | i :: l =>
      m ← the_message i kr;
      state ← need (ms_state m);
      if decide (state = NTB_KEYRING_MESSAGE_STATE_GENERATING_ACKDATA) then find_acknowledged l content kr
      else
        ackdata ← need (ms_ackdata m);
        if bytes_eqb ackdata content then kr ← message_acknowledged i kr; Ok (true, kr)
        else find_acknowledged l content kr
  end.

Definition check_msg_acknowledgement (content : ptr) (content_length : Z) (kr : ntb_keyring) : result unit (bool * ntb_keyring) :=
  if negb (content_length =? Z.of_nat NTB_PROTO_ACKDATA_SIZE) then Ok (false, kr)
  else content ← read_bytes NTB_PROTO_ACKDATA_SIZE content; find_acknowledged (kr_messages kr) content kr.

Definition msg_header : list ntb_proto_argument := [NTB_PROTO_ARGUMENT_64; NTB_PROTO_ARGUMENT_TIMESTAMP; NTB_PROTO_ARGUMENT_VAR_INT].

Definition handle_msg (blob : ntb_blob) (kr : ntb_keyring) : result unit ntb_keyring :=
  let size := zlen (blob_data blob) in
  header ← parse (ntb_proto_get_command msg_header (blob_data blob) size);
  match header with
  | None => Ok kr
  | Some ((_, (timestamp, _)), header_length) =>
      '(acknowledged, kr) ← check_msg_acknowledgement (drop (Z.to_nat header_length) (blob_data blob)) (size - header_length) kr;
      if acknowledged : bool then Ok kr
      else
        let '(i, kr) := add_task kr in
        '(c, kr) ← ntb_crypto_queue (CRYPTO_DECRYPT_MSG blob (kr_keys kr) i) kr;
        update_task i (fun t => tk_set_timestamp timestamp (tk_set_crypto_cookie (Some c) t)) kr
  end.

Definition new_object_cb (wall : Z) (blob : ntb_blob) (kr : ntb_keyring) : result unit ntb_keyring :=
  match blob_type blob with
  | NTB_PROTO_INV_TYPE_GETPUBKEY => handle_getpubkey wall blob kr
  | NTB_PROTO_INV_TYPE_PUBKEY => handle_pubkey blob kr
  | NTB_PROTO_INV_TYPE_MSG => handle_msg blob kr
  | NTB_PROTO_INV_TYPE_BROADCAST => handle_broadcast blob kr
  end.

(** The network's function, with the call of [new_object_cb] in it. *)
Definition add_network_object (wall : Z) (type : ntb_proto_inv_type) (data : ptr) (length : Z) (blob : option ntb_blob)
    (skip_validation delay : bool) (kr : ntb_keyring) : result unit ntb_keyring :=
  '(nw, signal) ← network_add_object wall type data length blob skip_validation delay (kr_nw kr);
  let kr := kr_set_nw nw kr in
  match signal with
  | None => Ok kr
  | Some (blob, rest) =>
      kr ← new_object_cb wall blob kr;
      nw ← network_finish rest (kr_nw kr);
      Ok (kr_set_nw nw kr)
  end.
Definition ntb_network_add_blob (wall : Z) (blob : dyn_blob) (skip_validation delay : bool) (kr : ntb_keyring) : result unit ntb_keyring :=
  data ← blob_bytes blob;
  add_network_object wall (db_type blob) data (zlen data) (Some (Blob (db_type blob) data)) skip_validation delay kr.

Definition create_pubkey_pow_cb (wall nonce : Z) (i : nat) (kr : ntb_keyring) : result unit ntb_keyring :=
  t ← the_task i kr;
  blob ← need (tk_blob t);
  blob ← blob_write 0 (be_split 8 nonce) blob;
  let kr := put_task i (tk_set_blob (Some blob) t) kr in
  kr ← ntb_network_add_blob wall blob true true kr;
  kr ← update_task i (tk_set_pow_cookie None) kr;
  free_task i kr.

Definition inv_types : list ntb_proto_inv_type :=
  [NTB_PROTO_INV_TYPE_GETPUBKEY; NTB_PROTO_INV_TYPE_PUBKEY; NTB_PROTO_INV_TYPE_MSG; NTB_PROTO_INV_TYPE_BROADCAST].

(** The last line prints the payload up to its first zero. *)
Definition send_acknowledgement (wall : Z) (ack : ptr) (ack_length : Z) (kr : ntb_keyring) : result unit ntb_keyring :=
  if ack_length =? 0 then Ok kr
  else if ack_length <? NTB_PROTO_HEADER_SIZE then Ok kr
  else
    valid ← ntb_proto_check_command_string (drop 4 ack);
    if negb valid then Ok kr
    else
      n ← strlen (drop 4 ack);
      let command_name := take n (drop 4 ack) in
      let ack := drop (Z.to_nat NTB_PROTO_HEADER_SIZE) ack in
      match List.find (fun type => bytes_eqb (str_bytes (ntb_proto_get_command_name_for_type type)) command_name) inv_types with
      | Some type => add_network_object wall type ack (ack_length - NTB_PROTO_HEADER_SIZE) None false true kr
      | None => _ ← strlen (drop 4 ack); Ok kr
      end.

Definition key_for_address (private : bool) (address : ntb_address) (kr : ntb_keyring) : option ntb_key :=
  List.find (fun key => (negb private || ntb_key_has_private key) && ntb_address_equal (key_address key) address) (kr_keys kr).
Definition get_private_key_for_address (address : ntb_address) (kr : ntb_keyring) : option ntb_key := key_for_address true address kr.
Definition get_any_key_for_address (address : ntb_address) (kr : ntb_keyring) : option ntb_key := key_for_address false address kr.

Definition add_public_key (public_key : ntb_key) (kr : ntb_keyring) : ntb_keyring :=
  if existsb (fun key => ntb_address_equal (key_address public_key) (key_address key)) (kr_keys kr) then kr
  else save_keyring (add_key public_key kr).

Definition create_public_key_cb (public_key : ntb_key) (i : nat) (kr : ntb_keyring) : result unit ntb_keyring :=
  kr ← update_task i (tk_set_crypto_cookie None) kr;
  kr ← free_task i kr;
  Ok (add_public_key public_key kr).

(** The copies have [NTB_ECC_PUBLIC_KEY_SIZE] bytes behind the prefix. *)
Definition add_public_key_from_network_keys (address : ntb_address) (public_signing_key public_encryption_key : ptr)
    (nonce_trials_per_byte extra_bytes : Z) (kr : ntb_keyring) : result unit (option ntb_key * ntb_keyring) :=
  match get_any_key_for_address address kr with
  | Some key => Ok (Some key, kr)
  | None =>
      full_public_signing_key ← full_public_key public_signing_key NTB_ECC_PUBLIC_KEY_SIZE;
      full_public_encryption_key ← full_public_key public_encryption_key NTB_ECC_PUBLIC_KEY_SIZE;
      let flags := Z.lor (Z.lor (Z.lor NTB_KEY_PARAM_PUBLIC_KEYS NTB_KEY_PARAM_VERSION) NTB_KEY_PARAM_STREAM) NTB_KEY_PARAM_POW_DIFFICULTY in
      let params := KeyParams flags [] (addr_version address) (addr_stream address) [] [] full_public_signing_key
        full_public_encryption_key (s32 nonce_trials_per_byte) (s32 extra_bytes) [] 0 false false in
      let '(i, kr) := add_task kr in
      '(c, kr) ← ntb_crypto_queue (CRYPTO_CREATE_PUBLIC_KEY params i) kr;
      kr ← update_task i (tk_set_crypto_cookie (Some c)) kr;
      Ok (None, kr)
  end.

(** The key that was used and the message; [None] when no key fits. The header of the
    decrypted object is [uint8_t]. *)
Definition decrypt_msg_cb (wall : Z) (decrypted : option (ntb_key * dyn_blob)) (i : nat) (kr : ntb_keyring) : result unit ntb_keyring :=
  t ← the_task i kr;
  let timestamp := tk_timestamp t in
  kr ← free_task i (put_task i (tk_set_crypto_cookie None t) kr);
  match decrypted with
  | None => Ok kr
  | Some (key, blob) =>
      data ← blob_bytes blob;
      msg ← parse (ntb_proto_get_decrypted_msg data (zlen data));
      match msg with
      | None => Ok kr
      | Some msg =>
          if (255 <? dm_sender_stream_number msg) || (255 <? dm_sender_address_version msg) then Ok kr
          else
            destination_ripe ← read_bytes RIPEMD160_DIGEST_LENGTH (dm_destination_ripe msg);
            if negb (bytes_eqb (addr_ripe (key_address key)) destination_ripe) then Ok kr
            else
              sender_address ← ntb_address_from_network_keys (dm_sender_address_version msg) (dm_sender_stream_number msg)
                (dm_sender_signing_key msg) (dm_sender_encryption_key msg);
              sender_address_string ← ntb_address_encode sender_address;
              if NTB_ADDRESS_MAX_LENGTH <? zlen sender_address_string then UB
              else
                '(sender_key, kr) ← add_public_key_from_network_keys sender_address (dm_sender_signing_key msg)
                  (dm_sender_encryption_key msg) (dm_nonce_trials_per_byte msg) (dm_extra_bytes msg) kr;
                kr ← send_acknowledgement wall (dm_ack msg) (dm_ack_length msg) kr;
                Ok (kr_emit (KeyringSaveMessage timestamp sender_key sender_address_string key blob) kr)
      end
  end.

(** ** Timers *)

Fixpoint gc_pubkey_blobs (wall : Z) (l : list nat) (kr : ntb_keyring) : result unit ntb_keyring :=
  match l with
  | [] => Ok kr
  | p :: l =>
      b ← the_pubkey_blob p kr;
      kr ← (if ntb_proto_get_max_age_for_type NTB_PROTO_INV_TYPE_PUBKEY <=? age_at wall (pb_timestamp b) then remove_pubkey_blob p kr else Ok kr);
      gc_pubkey_blobs wall l kr
  end.
Definition keyring_gc_timeout_cb (wall : Z) (kr : ntb_keyring) : result unit ntb_keyring := gc_pubkey_blobs wall (kr_pubkey_blob_list kr) kr.

Fixpoint resend_messages (wall : Z) (l : list nat) (kr : ntb_keyring) : result unit ntb_keyring :=
  match l with
  | [] => Ok kr
  | i :: l =>
      m ← the_message i kr;
      state ← need (ms_state m);
      kr ← match state with
           | NTB_KEYRING_MESSAGE_STATE_AWAITING_PUBKEY => send_getpubkey_request wall i kr
           | NTB_KEYRING_MESSAGE_STATE_AWAITING_ACKNOWLEDGEMENT => post_message wall i kr
           | _ => Ok kr
           end;
      resend_messages wall l kr
  end.
Definition resend_timeout_cb (wall : Z) (kr : ntb_keyring) : result unit ntb_keyring := resend_messages wall (kr_messages kr) kr.

(** ** Messages on their way *)

Definition msg_pow_cb (wall nonce : Z) (i : nat) (kr : ntb_keyring) : result unit ntb_keyring :=
  m ← the_message i kr;
  blob ← need (ms_blob m);
  blob ← blob_write 0 (be_split 8 nonce) blob;
  kr ← ntb_network_add_blob wall blob true false (put_message i (ms_set_blob (Some blob) (ms_set_pow_cookie None m)) kr);
  kr ← update_message i (fun m => ms_set_state (Some NTB_KEYRING_MESSAGE_STATE_AWAITING_ACKNOWLEDGEMENT) (ms_set_blob None m)) kr;
  save_messages kr.

Definition create_msg_blob_cb (blob : dyn_blob) (i : nat) (kr : ntb_keyring) : result unit ntb_keyring :=
  m ← the_message i kr;
  _ ← need (ms_blob m);
  let m := ms_set_state (Some NTB_KEYRING_MESSAGE_STATE_CALCULATING_MSG_POW) (ms_set_blob (Some blob) (ms_set_crypto_cookie None m)) in
  to_key ← need (ms_to_key m);
  let payload_length_extra_bytes := Z.max (key_payload_length_extra_bytes to_key) NTB_PROTO_MIN_EXTRA_BYTES in
  let nonce_trials_per_byte := Z.max (key_nonce_trials_per_byte to_key) NTB_PROTO_MIN_NONCE_TRIALS_PER_BYTE in
  payload ← blob_read 8 (zlen (db_cells blob) - 8) blob;
  '(c, kr) ← ntb_pow_calculate payload payload_length_extra_bytes nonce_trials_per_byte (MSG_POW_CB i) kr;
  Ok (put_message i (ms_set_pow_cookie (Some c) m) kr).

Definition ackdata_pow_cb (wall nonce : Z) (i : nat) (kr : ntb_keyring) : result unit ntb_keyring :=
  m ← the_message i kr;
  blob ← need (ms_blob m);
  let offset := ms_blob_ackdata_offset m in
  blob ← blob_write (offset + NTB_PROTO_HEADER_SIZE) (be_split 8 nonce) blob;
  object ← blob_read (offset + NTB_PROTO_HEADER_SIZE) (ms_blob_ackdata_length m - NTB_PROTO_HEADER_SIZE) blob;
  blob ← blob_write (offset + 20) (take 4 (SHA512 object)) blob;
  let '(random, kr) := random_offset kr in
  let m := ms_set_last_msg_send_time (wall + random) (ms_set_blob (Some blob) (ms_set_pow_cookie None m)) in
  let m := ms_set_state (Some NTB_KEYRING_MESSAGE_STATE_CREATE_MSG_BLOB) m in
  to_key ← need (ms_to_key m);
  '(c, kr) ← ntb_crypto_queue (CRYPTO_CREATE_MSG_BLOB (ms_last_msg_send_time m) (ms_from_key m) to_key blob i) kr;
  Ok (put_message i (ms_set_crypto_cookie (Some c) m) kr).

Definition ack_command : list Z := str_bytes "msg" ++ replicate 9 0.

(** The buffer, the offset of the acknowledgement in it and its length. *)
Definition add_ackdata_to_message (timestamp : Z) (m : ntb_keyring_message) (b : ntb_buffer) : result unit (ntb_buffer * Z * Z) :=
  b ← ntb_buffer_set_length b (u64 (buf_length b + 1));
  let ack_offset := buf_length b in
  b ← ntb_buffer_append b ntb_proto_magic;
  b ← ntb_buffer_append b ack_command;
  b ← ntb_buffer_set_length b (u64 (buf_length b + 4 + 4 + 8));
  b ← ntb_proto_add_64 b (u64 timestamp);
  b ← ntb_proto_add_var_int b (addr_stream (key_address (ms_from_key m)));
  ackdata ← need (ms_ackdata m);
  b ← ntb_buffer_append b ackdata;
  let msg_length := u32 (buf_length b - ack_offset) in
  _ ← c_assert (msg_length <? 0xfd);
  b ← buf_write b (ack_offset - 1) [u8 msg_length];
  let payload_length := u32 (msg_length - NTB_PROTO_HEADER_SIZE) in
  b ← buf_write b (ack_offset + 16) (be_split 4 payload_length);
  Ok (b, ack_offset, msg_length).

(** The unencrypted message, the offset of the acknowledgement in it and its length. *)
Definition build_message (timestamp : Z) (m : ntb_keyring_message) (content : list Z) : result unit (dyn_blob * Z * Z) :=
  let from_key := ms_from_key m in
  b ← ntb_blob_dynamic_init;
  let message_offset := buf_length b in
  b ← ntb_proto_add_var_int b 1;
  b ← ntb_proto_add_var_int b (addr_version (key_address from_key));
  b ← ntb_proto_add_var_int b (addr_stream (key_address from_key));
  b ← ntb_proto_add_32 b NTB_PROTO_PUBKEY_BEHAVIORS;
  b ← ntb_proto_add_public_key b (public_octets (key_signing_key from_key));
  b ← ntb_proto_add_public_key b (public_octets (key_encryption_key from_key));
  b ← (if 3 <=? addr_version (key_address from_key) then
         b ← ntb_proto_add_var_int b (u64 (key_nonce_trials_per_byte from_key));
         ntb_proto_add_var_int b (u64 (key_payload_length_extra_bytes from_key))
       else Ok b);
  b ← ntb_buffer_append b (addr_ripe (ms_to_address m));
  b ← ntb_proto_add_var_int b (u64 (ms_content_encoding m));
  b ← ntb_proto_add_var_int b (zlen content);
  b ← ntb_buffer_append b content;
  '(b, ack_offset, msg_length) ← add_ackdata_to_message timestamp m b;
  Ok (ntb_blob_dynamic_end NTB_PROTO_INV_TYPE_MSG b, ack_offset - message_offset, msg_length).

Definition load_message_content_cb (wall : Z) (content_blob : option ntb_blob) (i : nat) (kr : ntb_keyring) : result unit ntb_keyring :=
  m ← the_message i kr;
  let m := ms_set_store_cookie None m in
  match content_blob with
  | None => kr ← free_message i (put_message i m kr); save_messages kr
  | Some content_blob =>
      let '(random, kr) := random_offset kr in
      '(blob, offset, length) ← build_message (wall + random) m (blob_data content_blob);
      let m := ms_set_blob (Some blob) (ms_set_blob_ackdata_offset offset (ms_set_blob_ackdata_length length m)) in
      let m := ms_set_state (Some NTB_KEYRING_MESSAGE_STATE_CALCULATING_ACKDATA_POW) m in
      payload ← blob_read (offset + NTB_PROTO_HEADER_SIZE + 8) (length - NTB_PROTO_HEADER_SIZE - 8) blob;
      '(c, kr) ← ntb_pow_calculate payload NTB_PROTO_MIN_EXTRA_BYTES NTB_PROTO_MIN_NONCE_TRIALS_PER_BYTE (ACKDATA_POW_CB i) kr;
      Ok (put_message i (ms_set_pow_cookie (Some c) m) kr)
  end.

Definition getpubkey_pow_cb (wall nonce : Z) (i : nat) (kr : ntb_keyring) : result unit ntb_keyring :=
  m ← the_message i kr;
  blob ← need (ms_blob m);
  blob ← blob_write 0 (be_split 8 nonce) blob;
  kr ← ntb_network_add_blob wall blob true false (put_message i (ms_set_blob (Some blob) (ms_set_pow_cookie None m)) kr);
  kr ← update_message i (fun m => ms_set_state (Some NTB_KEYRING_MESSAGE_STATE_AWAITING_PUBKEY) (ms_set_blob None m)) kr;
  save_messages kr.

Definition check_pubkey_cb (wall : Z) (key : option ntb_key) (i : nat) (kr : ntb_keyring) : result unit ntb_keyring :=
  m ← the_message i kr;
  let kr := put_message i (ms_set_crypto_cookie None m) kr in
  match key with
  | None =>
      p ← need (ms_trying_pubkey_blob m);
      kr ← remove_pubkey_blob p kr;
      load_public_key_for_message wall i kr
  | Some key =>
      kr ← update_message i (ms_set_to_key (Some key)) (add_public_key key kr);
      post_message wall i kr
  end.

Definition load_pubkey_from_store_cb (wall : Z) (blob : option ntb_blob) (i : nat) (kr : ntb_keyring) : result unit ntb_keyring :=
  m ← the_message i kr;
  let kr := put_message i (ms_set_store_cookie None m) kr in
  match blob with
  | None =>
      p ← need (ms_trying_pubkey_blob m);
      kr ← remove_pubkey_blob p kr;
      load_public_key_for_message wall i kr
  | Some blob => try_blob_for_message i blob kr
  end.

Definition generate_ackdata_cb (wall : Z) (ackdata : list Z) (i : nat) (kr : ntb_keyring) : result unit ntb_keyring :=
  m ← the_message i kr;
  ackdata ← read_bytes NTB_PROTO_ACKDATA_SIZE ackdata;
  let kr := put_message i (ms_set_crypto_cookie None (ms_set_ackdata (Some ackdata) m)) kr in
  kr ← (match ms_to_key m with None => load_public_key_for_message wall i kr | Some _ => post_message wall i kr end);
  save_messages kr.

Definition create_message (from_key : ntb_key) (to_address : ntb_address) (content_encoding content_id : Z) (kr : ntb_keyring) :
    result unit (nat * ntb_keyring) :=
  let '(i, kr) := fresh kr in
  ripe_or_tag ← (if addr_version to_address <? 4 then Ok (addr_ripe to_address)
                 else '(tag, _) ← ntb_address_get_tag to_address; Ok tag);
  let m := Message None from_key to_address (pad_hash ripe_or_tag) (get_any_key_for_address to_address kr) content_id content_encoding
    None None None None None 0 0 0 0 None in
  Ok (i, put_message i m (kr_set_messages (kr_messages kr ++ [i]) kr)).

(** ** The functions of the component *)

Definition ntb_keyring_new (nw : network) (keys : list ntb_key) (random : list Z) : ntb_keyring :=
  foldl (fun kr key => for_each_key_cb key kr) (Keyring nw false [] [] ∅ ∅ [] ∅ ∅ [] ∅ 0 ∅ ∅ ∅ 0 random []) keys.

Definition ntb_keyring_start (kr : ntb_keyring) : ntb_keyring := kr_set_started true kr.

Definition for_each_pubkey_blob_cb (blob : ntb_blob) (kr : ntb_keyring) : result unit ntb_keyring := handle_pubkey blob kr.

(** The address of a key that is gone is only logged. *)
Definition for_each_outgoing_cb (wall : Z) (outgoing : ntb_store_outgoing) (kr : ntb_keyring) : result unit ntb_keyring :=
  let kr := if kr_next_message_content_id kr <=? out_content_id outgoing
            then kr_set_next_message_content_id (u64 (out_content_id outgoing + 1)) kr else kr in
  match get_private_key_for_address (out_from_address outgoing) kr with
  | None =>
      from_address_string ← ntb_address_encode (out_from_address outgoing);
      if NTB_ADDRESS_MAX_LENGTH <? zlen from_address_string then UB else Ok kr
  | Some from_key =>
      '(i, kr) ← create_message from_key (out_to_address outgoing) (out_content_encoding outgoing) (out_content_id outgoing) kr;
      kr ← update_message i (fun m => ms_set_ackdata (Some (out_ackdata outgoing))
             (ms_set_last_msg_send_time (out_last_msg_send_time outgoing)
               (ms_set_last_getpubkey_send_time (out_last_getpubkey_send_time outgoing) m))) kr;
      m ← the_message i kr;
      match ms_to_key m with None => load_public_key_for_message wall i kr | Some _ => post_message wall i kr end
  end.

(** What the store has. *)
Definition ntb_keyring_load_store (wall : Z) (pubkey_blobs : list ntb_blob) (outgoings : list ntb_store_outgoing) (kr : ntb_keyring) :
    result unit ntb_keyring :=
  kr ← for_each for_each_pubkey_blob_cb pubkey_blobs kr;
  for_each (for_each_outgoing_cb wall) outgoings kr.

Definition create_key_cb (key : ntb_key) (c : nat) (kr : ntb_keyring) : result unit ntb_keyring :=
  cookie ← need (kr_cookie kr !! c);
  let kr := save_keyring (add_key key kr) in
  let kr := match kc_func cookie with Some func => kr_emit (KeyringKeyCreated func key) kr | None => kr end in
  Ok (kr_set_cookie (delete c (kr_cookie kr)) kr).

(** [false] is the error [NTB_KEYRING_ERROR_UNKNOWN_FROM_ADDRESS]. *)
Definition ntb_keyring_send_message (from_address : ntb_address) (to_addresses : list ntb_address) (content_encoding : Z)
    (content : ntb_blob) (kr : ntb_keyring) : result unit (bool * ntb_keyring) :=
  match to_addresses with
  | [] => Ok (false, kr)
  | _ =>
      match get_private_key_for_address from_address kr with
      | None => Ok (false, kr)
      | Some from_key =>
          let content_id := kr_next_message_content_id kr in
          let kr := kr_emit (KeyringSaveMessageContent content_id content) (kr_set_next_message_content_id (u64 (content_id + 1)) kr) in
          kr ← for_each (fun to_address kr =>
                 '(i, kr) ← create_message from_key to_address content_encoding content_id kr;
                 kr ← update_message i (ms_set_state (Some NTB_KEYRING_MESSAGE_STATE_GENERATING_ACKDATA)) kr;
                 '(c, kr) ← ntb_crypto_queue (CRYPTO_GENERATE_ACKDATA i) kr;
                 update_message i (ms_set_crypto_cookie (Some c)) kr) to_addresses kr;
          Ok (true, kr)
      end
  end.

Definition ntb_keyring_create_key (params : ntb_key_params) (leading_zeroes : Z) (func : option nat) (kr : ntb_keyring) :
    result unit (nat * ntb_keyring) :=
  let '(cookie, kr) := fresh kr in
  _ ← c_assert (Z.land (kp_flags params) (Z.lor (Z.lor NTB_KEY_PARAM_PRIVATE_KEYS NTB_KEY_PARAM_PUBLIC_KEYS) NTB_KEY_PARAM_RIPE) =? 0);
  '(c, kr) ← ntb_crypto_queue (CRYPTO_CREATE_KEY params leading_zeroes cookie) kr;
  Ok (cookie, kr_set_cookie (<[cookie := KeyringCookie func c]> (kr_cookie kr)) kr).

Definition ntb_keyring_cancel_task (c : nat) (kr : ntb_keyring) : result unit ntb_keyring :=
  cookie ← need (kr_cookie kr !! c);
  kr ← ntb_crypto_cancel_task (kc_crypto_cookie cookie) kr;
  Ok (kr_set_cookie (delete c (kr_cookie kr)) kr).

(** ** Shutting down *)

Definition cancel_tasks (kr : ntb_keyring) : result unit ntb_keyring := for_each free_task (kr_tasks kr) kr.
Definition free_messages (kr : ntb_keyring) : result unit ntb_keyring := for_each free_message (kr_messages kr) kr.
Definition free_pubkey_blobs (kr : ntb_keyring) : result unit ntb_keyring :=
  kr ← for_each (fun p kr => _ ← the_pubkey_blob p kr; Ok (kr_set_pubkey_blob (delete p (kr_pubkey_blob kr)) kr)) (kr_pubkey_blob_list kr) kr;
  Ok (kr_set_pubkey_blob_table ∅ (kr_set_pubkey_blob_list [] kr)).

(** The state at the point where the two threads are ended. *)
Definition ntb_keyring_free (kr : ntb_keyring) : result unit ntb_keyring :=
  kr ← save_messages kr;
  let kr := save_keyring kr in
  kr ← free_messages kr;
  kr ← free_pubkey_blobs kr;
  kr ← cancel_tasks kr;
  Ok (kr_set_keys [] kr).
End keyring.
