(* ===== verification/KeyringMessage.v ===== *)
(** * KeyringMessage: the messages and requests that the key ring builds (for [Keyring])

    The content of a message with the acknowledgement that is embedded in it, and the
    objects that ask for public keys. *)

From S2P Require Import Prelude Endian Buffer NetAddress OpenSSL Proto ProtoSpec NetText KeyValue Pow Base58 Address Outgoings Ecc Keys HashTable Connection Crypto CryptoSpec Network Keyring.

(** ** Blobs with cells that are not set *)

Lemma blob_write_spec type A B C l off :
  off = zlen A -> zlen l = zlen B ->
  blob_write off l (DynBlob type (A ++ B ++ C)) = Ok (DynBlob type (A ++ (Some <$> l) ++ C)).
Proof.
  intros -> Hl. unfold blob_write, write_cells. cbn [db_cells db_type].
  rewrite !zlen_app. zlen_pose. rewrite (proj2 (Z.leb_le _ _)), (proj2 (Z.leb_le _ _)) by lia. cbn [andb]. rewrite bind_ret_l. do 3 f_equal.
  - apply take_app_length'. unfold zlen. lia.
  - f_equal. rewrite app_assoc. apply drop_app_length'. rewrite length_app. unfold zlen in *. lia.
Qed.

Lemma blob_read_spec type A l C off n :
  off = zlen A -> n = zlen l -> blob_read off n (DynBlob type (A ++ (Some <$> l) ++ C)) = Ok l.
Proof.
  intros -> ->. unfold blob_read. cbn [db_cells]. rewrite !zlen_app, zlen_fmap. zlen_pose.
  rewrite !(proj2 (Z.leb_le _ _)) by lia. cbn [andb].
  rewrite (drop_app_length' A) by (unfold zlen; lia). rewrite (take_app_length' (Some <$> l)) by (rewrite length_fmap; unfold zlen; lia).
  by rewrite all_some_fmap.
Qed.

(** ** The content of a message *)

Section message.
Context `{DigestLaws} `{BigNumLaws} `{!Elliptic} `{!EllipticLaws}.

Definition message_text (m : ntb_keyring_message) (content ack : list Z) : msg_text :=
  let key := ms_from_key m in
  MsgText 1 (addr_version (key_address key)) (addr_stream (key_address key)) NTB_PROTO_PUBKEY_BEHAVIORS
    (network_key (key_signing_key key)) (network_key (key_encryption_key key)) (u64 (key_nonce_trials_per_byte key))
    (u64 (key_payload_length_extra_bytes key)) (addr_ripe (ms_to_address m)) (u64 (ms_content_encoding m)) content ack.

(** What precedes the acknowledgement. *)
Definition unacked_text (m : msg_text) : list Z :=
  head_text m ++ (mt_signing_key m ++ mt_encryption_key m) ++ difficulty_text m ++ mt_ripe m ++ body_text m ++ mt_message m.

Lemma signed_text_split m : signed_text m = unacked_text m ++ enc_var_int (zlen (mt_ack m)) ++ mt_ack m.
Proof. unfold signed_text, unacked_text. by rewrite <- !app_assoc. Qed.

Definition message_ok (m : ntb_keyring_message) : Prop :=
  key_ok (ms_from_key m) /\ address_wf (ms_to_address m).

(** The object of the acknowledgement behind its nonce. *)
Definition ack_object (timestamp : Z) (m : ntb_keyring_message) (ackdata : list Z) : list Z :=
  be_split 8 (u64 timestamp) ++ enc_var_int (addr_stream (key_address (ms_from_key m))) ++ ackdata.

Lemma zlen_difficulty_text m : zlen (difficulty_text m) <= 18.
Proof.
  unfold difficulty_text. case_match; [|done]. cbn [enc_arguments enc_argument two_ints fst snd]. rewrite app_nil_r, zlen_app.
  pose proof (zlen_enc_var_int (mt_nonce_trials m)). pose proof (zlen_enc_var_int (mt_extra_bytes m)). lia.
Qed.

Lemma appends_difficulty key b m content ack :
  ms_from_key m = key -> fits b 64 ->
  appends b (if 3 <=? addr_version (key_address key) then
               b ← ntb_proto_add_var_int b (u64 (key_nonce_trials_per_byte key));
               ntb_proto_add_var_int b (u64 (key_payload_length_extra_bytes key))
             else Ok b) (difficulty_text (message_text m content ack)).
Proof.
  intros <- [Hwf Hf]. unfold difficulty_text. cbn [message_text mt_address_version mt_nonce_trials mt_extra_bytes].
  case_match; [|exists b; split_and!; [done|done|rewrite zlen_nil; lia|by rewrite app_nil_r]].
  cbn [enc_arguments enc_argument two_ints fst snd]. rewrite app_nil_r.
  pose proof (zlen_enc_var_int (u64 (key_nonce_trials_per_byte (ms_from_key m)))).
  pose proof (zlen_enc_var_int (u64 (key_payload_length_extra_bytes (ms_from_key m)))). zlen_pose.
  eapply appends_bind; [apply appends_add_var_int; [apply u64_range|split; [done|lia]]|]. intros b1 _ W1 L1.
  apply appends_add_var_int; [apply u64_range|split; [done|lia]].
Qed.

(** The part of [build_message] in front of the acknowledgement. *)
Definition build_unacked (m : ntb_keyring_message) (content : list Z) (b : ntb_buffer) : result unit ntb_buffer :=
  let from_key := ms_from_key m in
  b ← ntb_proto_add_var_int b 1;
  b ← ntb_proto_add_var_int b (addr_version (key_address from_key));
  b ← ntb_proto_add_var_int b (addr_stream (key_address from_key));
  b ← ntb_proto_add_32 b NTB_PROTO_PUBKEY_BEHAVIORS;
  b ← ntb_proto_add_public_key b (public_octets (key_signing_key from_key));
  b ← ntb_proto_add_public_key b (public_octets (key_encryption_key from_key));
  b ← (if 3 <=? addr_version (key_address from_key) then
         b ← ntb_proto_add_var_int b (u64 (key_nonce_trials_per_byte from_key));
         ntb_proto_add_var_int b (u64 (key_payload_length_extra_bytes from_key))
       else Ok b);
  b ← ntb_buffer_append b (addr_ripe (ms_to_address m));
  b ← ntb_proto_add_var_int b (u64 (ms_content_encoding m));
  b ← ntb_proto_add_var_int b (zlen content);
  ntb_buffer_append b content.

Lemma build_message_unfold timestamp m content :
  build_message timestamp m content =
  b ← ntb_blob_dynamic_init;
  let message_offset := buf_length b in
  b ← build_unacked m content b;
  '(b, ack_offset, msg_length) ← add_ackdata_to_message timestamp m b;
  Ok (ntb_blob_dynamic_end NTB_PROTO_INV_TYPE_MSG b, ack_offset - message_offset, msg_length).
Proof.
  unfold build_message, build_unacked. destruct ntb_blob_dynamic_init as [b| | |]; [|done..]. rewrite !bind_ret_l.
  repeat match goal with |- (x ← ?r; _) = (_ ← (y ← ?r; _); _) => destruct r as [?| | |]; [rewrite !bind_ret_l|done..] end.
  reflexivity.
Qed.

Lemma build_unacked_spec m content ack b :
  message_ok m -> zlen content < 2 ^ 28 -> fits b (2 ^ 30) ->
  appends b (build_unacked m content b) (unacked_text (message_text m content ack)).
Proof.
  intros ((Hwf & (ds & Hs) & (de & He)) & Hto) Hz [Wb Lb]. destruct Hwf as ((Hv & Hv') & (Hst & Hst') & _). destruct Hto as (_ & _ & Hr & _).
  destruct (network_key_spec _ _ Hs) as (Hsz & _), (network_key_spec _ _ He) as (Hez & _). unfold build_unacked, unacked_text.
  pose proof (zlen_difficulty_text (message_text m content ack)) as Hdz.
  set (t := message_text m content ack) in *. set (key := ms_from_key m) in *.
  assert (Hh : head_text t = enc_var_int 1 ++ enc_var_int (addr_version (key_address key)) ++ enc_var_int (addr_stream (key_address key)) ++
    be_split 4 NTB_PROTO_PUBKEY_BEHAVIORS).
  { unfold head_text. cbn [enc_arguments enc_argument head_args fst snd]. by rewrite app_nil_r. }
  assert (Hb : body_text t = enc_var_int (u64 (ms_content_encoding m)) ++ enc_var_int (zlen content)).
  { unfold body_text. cbn [enc_arguments enc_argument two_ints fst snd]. by rewrite app_nil_r. }
  rewrite Hh, Hb, <- !app_assoc. cbn [mt_signing_key mt_encryption_key mt_ripe mt_message t message_text].
  fold key. pose proof (zlen_enc_var_int 1). pose proof (zlen_enc_var_int (addr_version (key_address key))).
  pose proof (zlen_enc_var_int (addr_stream (key_address key))). pose proof (zlen_enc_var_int (u64 (ms_content_encoding m))).
  pose proof (zlen_enc_var_int (zlen content)). zlen_pose. pose proof (zlen_nonneg (addr_ripe (ms_to_address m))).
  assert (Hrz : zlen (addr_ripe (ms_to_address m)) = 20) by (unfold zlen; rewrite Hr; done).
  eapply appends_bind; [apply appends_add_var_int; [lia|split; [done|lia]]|]. intros b1 _ W1 L1.
  eapply appends_bind; [apply appends_add_var_int; [lia|split; [done|lia]]|]. intros b2 _ W2 L2.
  eapply appends_bind; [apply appends_add_var_int; [lia|split; [done|lia]]|]. intros b3 _ W3 L3.
  eapply appends_bind; [apply appends_add_32; [split; [done|lia]|unfold NTB_PROTO_PUBKEY_BEHAVIORS; lia]|]. intros b4 _ W4 L4. rewrite zlen_be_split in L4.
  eapply appends_bind; [apply appends_public_key; [by eapply public_octets_length|split; [done|lia]]|]. intros b5 _ W5 L5. fold (network_key (key_signing_key key)) in L5.
  eapply appends_bind; [apply appends_public_key; [by eapply public_octets_length|split; [done|lia]]|]. intros b6 _ W6 L6. fold (network_key (key_encryption_key key)) in L6.
  eapply appends_bind; [apply (appends_difficulty key b6 m content ack); [done|split; [done|lia]]|]. intros b7 _ W7 L7. fold t in L7.
  eapply appends_bind; [apply appends_append; split; [done|lia]|]. intros b8 _ W8 L8.
  eapply appends_bind; [apply appends_add_var_int; [apply u64_range|split; [done|lia]]|]. intros b9 _ W9 L9.
  eapply appends_bind; [apply appends_add_var_int; [lia|split; [done|lia]]|]. intros b10 _ W10 L10.
  apply appends_append. split; [done|lia].
Qed.

(** ** The acknowledgement *)

(** The packet without its checksum and the nonce. *)
Definition ack_cells (junk : list (option Z)) (object : list Z) : list (option Z) :=
  (Some <$> ntb_proto_magic ++ padded_command (str_bytes "msg") ++ be_split 4 (8 + zlen object)) ++ junk ++ (Some <$> object).

Lemma add_ackdata_spec timestamp m ackdata b :
  0 <= addr_stream (key_address (ms_from_key m)) < 256 -> ms_ackdata m = Some ackdata -> length ackdata = NTB_PROTO_ACKDATA_SIZE -> fits b 1024 ->
  let object := ack_object timestamp m ackdata in
  exists b' junk, add_ackdata_to_message timestamp m b = Ok (b', buf_length b + 1, 32 + zlen object) /\ zlen junk = 12 /\
    40 <= zlen object < 50 /\ grows b b' ([Some (32 + zlen object)] ++ ack_cells junk object).
Proof.
  intros Hst Ea Hla [Wb Lb] object. pose proof (zlen_cells b Wb) as Hzc. pose proof (zlen_enc_var_int (addr_stream (key_address (ms_from_key m)))) as Hv.
  assert (Hoz : zlen object = 8 + (zlen (enc_var_int (addr_stream (key_address (ms_from_key m)))) + 32)).
  { unfold object, ack_object. rewrite !zlen_app, zlen_be_split. unfold zlen at 2. by rewrite Hla. }
  zlen_pose. unfold add_ackdata_to_message.
  destruct (room_spec b 1) as (b1 & j1 & -> & G1 & Hj1); [split; [done|lia]|lia|]. rewrite bind_ret_l. pose proof G1 as (W1 & L1 & _). rewrite Hj1 in L1.
  destruct (grow_step b1 (fun b => ntb_buffer_append b ntb_proto_magic) _ _ (appends_append b1 ntb_proto_magic)) as (b2 & -> & G2 & W2 & L2);
    [done|change (zlen ntb_proto_magic) with 4; lia|]. rewrite bind_ret_l. change (zlen ntb_proto_magic) with 4 in L2.
  destruct (grow_step b2 (fun b => ntb_buffer_append b ack_command) _ _ (appends_append b2 ack_command)) as (b3 & -> & G3 & W3 & L3);
    [done|change (zlen ack_command) with 12; lia|]. rewrite bind_ret_l. change (zlen ack_command) with 12 in L3.
  replace (buf_length b3 + 4 + 4 + 8) with (buf_length b3 + 16) by lia.
  destruct (room_spec b3 16) as (b4 & j4 & -> & G4 & Hj4); [split; [done|lia]|lia|]. rewrite bind_ret_l. pose proof G4 as (W4 & L4 & _). rewrite Hj4 in L4.
  destruct (grow_step b4 (fun b => ntb_proto_add_64 b (u64 timestamp)) _ 8 (fun Hf => appends_add_64 b4 _ Hf (u64_range _))) as (b5 & -> & G5 & W5 & L5);
    [done|lia|]. rewrite bind_ret_l. rewrite zlen_be_split in L5.
  destruct (grow_step b5 (fun b => ntb_proto_add_var_int b (addr_stream (key_address (ms_from_key m)))) _ 9
    (appends_add_var_int b5 (addr_stream (key_address (ms_from_key m))) ltac:(lia))) as (b6 & -> & G6 & W6 & L6); [done|lia|]. rewrite bind_ret_l.
  rewrite Ea. cbn [need]. rewrite bind_ret_l. assert (Hza : zlen ackdata = 32) by (unfold zlen; by rewrite Hla).
  destruct (grow_step b6 (fun b => ntb_buffer_append b ackdata) _ _ (appends_append b6 ackdata)) as (b7 & -> & G7 & W7 & L7); [done|lia|]. rewrite bind_ret_l.
  assert (Hml : u32 (buf_length b7 - buf_length b1) = 32 + zlen object) by (rewrite u32_small; lia).
  rewrite Hml. unfold c_assert. rewrite (proj2 (Z.ltb_lt _ _)) by lia. rewrite bind_ret_l.
  destruct (split_room j4 4) as (jl & jk & -> & Hjl); [lia..|]. rewrite zlen_app in Hj4.
  assert (G : grows b b7 (j1 ++ (Some <$> ntb_proto_magic ++ ack_command) ++ jl ++ jk ++ (Some <$> object))).
  { pose proof (grows_trans _ _ _ _ _ G1 (grows_trans _ _ _ _ _ G2 (grows_trans _ _ _ _ _ G3 (grows_trans _ _ _ _ _ G4
      (grows_trans _ _ _ _ _ G5 (grows_trans _ _ _ _ _ G6 G7)))))) as G. unfold object, ack_object. rewrite !fmap_app. by rewrite <- !app_assoc in G |- *. }
  destruct G as (_ & L & C). rewrite u8_small by lia.
  destruct (buf_write_cells b7 (cells b) j1 ((Some <$> ntb_proto_magic ++ ack_command) ++ jl ++ jk ++ (Some <$> object)) [32 + zlen object] (buf_length b1 - 1))
    as (b8 & -> & W8 & L8 & C8); [done|done|lia|done|]. rewrite bind_ret_l.
  destruct (buf_write_cells b8 (cells b ++ (Some <$> [32 + zlen object]) ++ (Some <$> ntb_proto_magic ++ ack_command)) jl (jk ++ (Some <$> object))
    (be_split 4 (u32 (32 + zlen object - NTB_PROTO_HEADER_SIZE))) (buf_length b1 + 16)) as (b9 & -> & W9 & L9 & C9); [done| | | |].
  { rewrite C8. by rewrite <- !app_assoc. }
  { rewrite !zlen_app, !zlen_fmap. change (zlen [32 + zlen object]) with 1. change (zlen (ntb_proto_magic ++ ack_command)) with 16. lia. }
  { by rewrite zlen_be_split. }
  rewrite bind_ret_l. exists b9, jk. split; [by rewrite L1|]. split; [lia|]. split; [lia|].
  assert (Hm : u32 (32 + zlen object - NTB_PROTO_HEADER_SIZE) = 8 + zlen object) by (unfold NTB_PROTO_HEADER_SIZE; rewrite u32_small; lia).
  split_and!; [done| |].
  - rewrite L9, L8, L. unfold ack_cells. rewrite !zlen_app, !zlen_fmap, !zlen_app, zlen_be_split. change (zlen (padded_command _)) with 12.
    change (zlen ack_command) with 12. change (zlen [Some (32 + zlen object)]) with 1. lia.
  - rewrite C9, Hm. unfold ack_cells. change ack_command with (padded_command (str_bytes "msg")). rewrite !fmap_app, <- !app_assoc. done.
Qed.

Lemma unacked_any m content ack1 ack2 : unacked_text (message_text m content ack1) = unacked_text (message_text m content ack2).
Proof. reflexivity. Qed.

Lemma zlen_unacked m content ack : message_ok m -> zlen content <= zlen (unacked_text (message_text m content ack)) <= zlen content + 256.
Proof.
  intros ((Hwf & (ds & Hs) & (de & He)) & Hto). destruct Hto as (_ & _ & Hr & _).
  destruct (network_key_spec _ _ Hs) as (Hsz & _), (network_key_spec _ _ He) as (Hez & _).
  pose proof (zlen_difficulty_text (message_text m content ack)). unfold unacked_text, head_text, body_text.
  cbn [enc_arguments enc_argument head_args two_ints fst snd message_text mt_signing_key mt_encryption_key mt_ripe mt_message mt_encoding
       mt_message_version mt_address_version mt_stream mt_behaviors].
  pose proof (zlen_enc_var_int 1). pose proof (zlen_enc_var_int (addr_version (key_address (ms_from_key m)))).
  pose proof (zlen_enc_var_int (addr_stream (key_address (ms_from_key m)))). pose proof (zlen_enc_var_int (u64 (ms_content_encoding m))).
  pose proof (zlen_enc_var_int (zlen content)). rewrite !zlen_app, !zlen_nil, zlen_be_split.
  assert (zlen (addr_ripe (ms_to_address m)) = 20) by (unfold zlen; rewrite Hr; done). zlen_pose. lia.
Qed.

Lemma build_message_spec timestamp m content ackdata :
  message_ok m -> ms_ackdata m = Some ackdata -> length ackdata = NTB_PROTO_ACKDATA_SIZE -> zlen content < 2 ^ 28 ->
  let object := ack_object timestamp m ackdata in
  let text := unacked_text (message_text m content []) in
  exists junk, zlen junk = 12 /\ 40 <= zlen object < 50 /\
    build_message timestamp m content = Ok (DynBlob NTB_PROTO_INV_TYPE_MSG ((Some <$> text ++ [32 + zlen object]) ++ ack_cells junk object),
      zlen text + 1, 32 + zlen object).
Proof.
  intros Hm Ea Hla Hz object text. rewrite build_message_unfold, dynamic_init_spec, bind_ret_l. cbn [buf_length].
  destruct (build_unacked_spec m content [] (Buf (replicate 16 None) 16 16)) as (b1 & -> & W1 & L1 & C1); [done|done|apply (bool_decide_unpack _); vm_compute; exact I|].
  fold text in L1, C1. rewrite bind_ret_l. cbn [buf_length] in L1. pose proof (zlen_unacked m content [] Hm) as Hu. fold text in Hu.
  destruct (add_ackdata_spec timestamp m ackdata b1) as (b2 & junk & -> & Hj & Ho & W2 & L2 & C2); [|done|done|split; [done|lia]|].
  { destruct Hm as [[[_ [Hs _]] _] _]. exact Hs. }
  fold object in Ho, C2 |- *. rewrite bind_ret_l. exists junk. split; [done|]. split; [done|]. rewrite L1.
  unfold ntb_blob_dynamic_end. rewrite C2, C1. change (cells (Buf (replicate 16 None) 16 16)) with (replicate 16 (@None Z)).
  change (Z.to_nat blob_data_offset) with (length (replicate 16 (@None Z))). rewrite <- !app_assoc, drop_app_length, fmap_app, <- app_assoc.
  do 3 f_equal. lia.
Qed.

Lemma ack_filled type A junk object nonce offset :
  zlen junk = 12 -> zlen nonce = 8 -> offset = zlen A ->
  exists blob1, blob_write (offset + NTB_PROTO_HEADER_SIZE) nonce (DynBlob type (A ++ ack_cells junk object)) = Ok blob1 /\
    blob_read (offset + NTB_PROTO_HEADER_SIZE) (32 + zlen object - NTB_PROTO_HEADER_SIZE) blob1 = Ok (nonce ++ object) /\
    blob_write (offset + 20) (take 4 (SHA512 (nonce ++ object))) blob1 = Ok (DynBlob type (A ++ (Some <$> frame (str_bytes "msg") (nonce ++ object)))).
Proof.
  intros Hj Hn ->. unfold ack_cells, NTB_PROTO_HEADER_SIZE. destruct (split_room junk 4) as (jc & jn & -> & Hjc); [lia..|]. rewrite zlen_app in Hj.
  set (h := ntb_proto_magic ++ padded_command (str_bytes "msg") ++ be_split 4 (8 + zlen object)).
  assert (Hh : zlen h = 20) by (unfold h; rewrite !zlen_app, zlen_be_split; change (zlen (padded_command _)) with 12; change (zlen ntb_proto_magic) with 4; lia).
  exists (DynBlob type ((A ++ (Some <$> h) ++ jc) ++ (Some <$> nonce) ++ (Some <$> object))). split_and!.
  - rewrite <- (blob_write_spec type _ jn) with (off := zlen A + (4 + 12 + 4 + 4)); [|rewrite !zlen_app, zlen_fmap; lia|lia]. by rewrite <- !app_assoc.
  - rewrite <- fmap_app, <- (app_nil_r (Some <$> nonce ++ object)). apply blob_read_spec; rewrite ?zlen_app, ?zlen_fmap; lia.
  - replace ((A ++ (Some <$> h) ++ jc) ++ (Some <$> nonce) ++ (Some <$> object)) with ((A ++ (Some <$> h)) ++ jc ++ (Some <$> nonce ++ object))
      by (rewrite fmap_app, <- !app_assoc; done).
    rewrite blob_write_spec; [|rewrite zlen_app, zlen_fmap; lia|by rewrite zlen_checksum].
    unfold frame. rewrite zlen_app, Hn. fold h. do 2 f_equal. unfold h. rewrite !fmap_app, <- !app_assoc. done.
Qed.

(** The text that the sender signs, with the acknowledgement in it. *)
Lemma signed_text_ack m content object nonce :
  zlen nonce = 8 -> zlen object < 64 ->
  let ack := frame (str_bytes "msg") (nonce ++ object) in
  zlen ack = 32 + zlen object /\ signed_text (message_text m content ack) = unacked_text (message_text m content []) ++ [32 + zlen object] ++ ack.
Proof.
  intros Hn Ho ack. assert (Hz : zlen ack = 32 + zlen object).
  { unfold ack, frame. rewrite !zlen_app, zlen_be_split, zlen_checksum, Hn. change (zlen (padded_command _)) with 12. change (zlen ntb_proto_magic) with 4. lia. }
  split; [done|]. rewrite signed_text_split. cbn [message_text mt_ack]. rewrite Hz. zlen_pose.
  unfold enc_var_int. rewrite (proj2 (Z.ltb_lt _ _)) by lia. by rewrite (unacked_any m content ack []).
Qed.

(** ** Asking for public keys *)

(** What names the key: its ripe, or its tag from version 4 on. *)
Definition getpubkey_name (address : ntb_address) (name : list Z) : Prop :=
  if addr_version address <? 4 then name = addr_ripe address
  else exists tag_private_key, ntb_address_get_tag address = Ok (name, tag_private_key).
Definition getpubkey_text (time : Z) (address : ntb_address) (name : list Z) : list Z :=
  be_split 8 (u64 time) ++ enc_var_int (addr_version address) ++ enc_var_int (addr_stream address) ++ name.

Lemma getpubkey_target_spec address b : address_wf address -> fits b 64 ->
  exists name, getpubkey_name address name /\ bytes name /\ zlen name = (if addr_version address <? 4 then 20 else 32) /\
    appends b (getpubkey_target address b) name.
Proof.
  intros Hwf [Wb Lb]. unfold getpubkey_target, getpubkey_name. pose proof Hwf as (_ & _ & Hr & Hrb). destruct (addr_version address <? 4).
  - exists (addr_ripe address). assert (Hz : zlen (addr_ripe address) = 20) by (unfold zlen; by rewrite Hr).
    split_and!; [done|done|done|]. apply appends_append. split; [done|lia].
  - destruct (address_get_tag_spec _ Hwf) as (tag & key & Et & Hl & _ & Ekt). exists tag. assert (Hz : zlen tag = 32) by (unfold zlen; by rewrite Hl).
    assert (Hb : bytes tag) by (eapply proj2, bytes_app; rewrite Ekt; apply SHA512_bytes).
    split_and!; [by exists key|done|done|]. rewrite Et. change (Z.of_nat NTB_ADDRESS_TAG_SIZE) with 32.
    destruct (appends_room b 32 tag) as (b1 & E & W1 & L1 & C1); [done|lia|done|]. exists b1. split_and!; [|done|done|done].
    destruct (room_spec b 32) as (b2 & junk & E2 & (W2 & L2 & _) & Hj); [split; [done|lia]|lia|]. rewrite E2, bind_ret_l in E. rewrite E2, !bind_ret_l.
    replace (buf_length b2 - 32) with (buf_length b) by lia. exact E.
Qed.

Lemma build_getpubkey_spec time address : address_wf address ->
  exists name room, getpubkey_name address name /\ bytes name /\ zlen name <= 32 /\ zlen room = 8 /\
    build_getpubkey time address = Ok (DynBlob NTB_PROTO_INV_TYPE_GETPUBKEY (room ++ (Some <$> getpubkey_text time address name))).
Proof.
  intros Hwf. pose proof Hwf as ((Hv & Hv') & (Hst & Hst') & _). unfold build_getpubkey. rewrite dynamic_init_spec, bind_ret_l. cbn [buf_length].
  rewrite nonce_room_spec, bind_ret_l. pose proof nonce_room_fits as [W0 L0].
  pose proof (zlen_enc_var_int (addr_version address)). pose proof (zlen_enc_var_int (addr_stream address)). zlen_pose.
  destruct (appends_add_64 nonce_room (u64 time)) as (b1 & -> & X1); [split; [done|lia]|apply u64_range|]. rewrite bind_ret_l.
  pose proof X1 as (W1 & L1 & _). rewrite zlen_be_split in L1.
  destruct (appends_add_var_int b1 (addr_version address)) as (b2 & -> & X2); [lia|split; [done|lia]|]. rewrite bind_ret_l. pose proof X2 as (W2 & L2 & _).
  destruct (appends_add_var_int b2 (addr_stream address)) as (b3 & -> & X3); [lia|split; [done|lia]|]. rewrite bind_ret_l. pose proof X3 as (W3 & L3 & _).
  destruct (getpubkey_target_spec address b3 Hwf) as (name & Hn & Hb & Hz & (b4 & -> & X4)); [split; [done|lia]|]. rewrite bind_ret_l.
  exists name, (replicate 8 None). split_and!; [done|done|case_match; lia|done|].
  rewrite (dynamic_end_extends _ b4 _ (extends_trans _ _ _ _ _ X1 (extends_trans _ _ _ _ _ X2 (extends_trans _ _ _ _ _ X3 X4)))). done.
Qed.

Lemma getpubkey_header_spec nonce time address name :
  length nonce = 8%nat -> bytes nonce -> address_wf address -> 0 <= time < 2 ^ 32 -> zlen name < 2 ^ 30 ->
  let data := nonce ++ getpubkey_text time address name in
  exists nonce' time', ntb_proto_get_command getpubkey_header data (zlen data) =
    Ok ((nonce', (time', (addr_version address, (addr_stream address, tt)))), zlen data - zlen name).
Proof.
  intros Hn Hb ((Hv & Hv') & (Hst & Hst') & _) Ht Hr data.
  pose proof (be_combine_range nonce Hb) as Hnr. unfold zlen in Hnr. rewrite Hn in Hnr. change (256 ^ Z.of_nat 8) with (2 ^ 64) in Hnr.
  assert (En : nonce = be_split 8 (be_combine nonce)) by (rewrite <- Hn; symmetry; by apply be_split_combine).
  pose proof (zlen_enc_var_int (addr_version address)). pose proof (zlen_enc_var_int (addr_stream address)).
  pose proof (command_roundtrip time getpubkey_header (be_combine nonce, (tt, (addr_version address, (addr_stream address, tt)))) name (zlen data)) as Hc.
  unfold getpubkey_header, data, getpubkey_text in *. rewrite u64_small in * by lia.
  cbn [enc_arguments enc_argument fst snd args_ok arg_ok] in Hc. rewrite <- En in Hc. rewrite app_nil_r, <- !app_assoc in Hc.
  eexists _, _. rewrite Hc; [|split_and!; done || lia|].
  - do 3 f_equal. rewrite !zlen_app. lia.
  - rewrite !zlen_app in *. zlen_pose. assert (zlen nonce = 8) by (unfold zlen; lia). rewrite zlen_be_split. lia.
Qed.
End message.
