(* ===== verification/KeyringPubkeys.v ===== *)
(** * KeyringPubkeys: the list and the table of the objects of public keys (for [Keyring])

    The objects with the same ripe or tag are neighbours in one list and the table has
    the first of them: together they are a map from tags to lists. *)

From S2P Require Import Prelude Endian Buffer NetAddress OpenSSL Proto NetText KeyValue Base58 Address Outgoings Ecc Keys HashTable Connection Crypto Network Keyring.

(** The groups of the list, and the table. [tag] is the ripe or tag of an object. *)
Definition group_tags (gs : list (list Z * list nat)) : list (list Z) := gs.*1.
Definition group_list (gs : list (list Z * list nat)) : list nat := concat gs.*2.
Definition group_heads (gs : list (list Z * list nat)) : list (list Z * nat) := (fun g => (g.1, hd 0%nat g.2)) <$> gs.

Definition group_ok (tag : nat -> option (list Z)) (g : list Z * list nat) : Prop :=
  g.2 <> [] /\ Forall (fun p => tag p = Some g.1) g.2.

Definition grouped_as (tag : nat -> option (list Z)) (gs : list (list Z * list nat)) (l : list nat) (table : gmap (list Z) nat) : Prop :=
  l = group_list gs /\ NoDup (group_tags gs) /\ NoDup l /\ Forall (group_ok tag) gs /\ table = list_to_map (group_heads gs).

Definition grouped (tag : nat -> option (list Z)) (l : list nat) (table : gmap (list Z) nat) : Prop :=
  exists gs, grouped_as tag gs l table.

(** The objects with a tag, in order. *)
Definition with_tag (tag : nat -> option (list Z)) (k : list Z) (l : list nat) : list nat := filter (fun p => tag p = Some k) l.

Lemma grouped_empty tag : grouped tag [] ∅.
Proof. exists []. split_and!; try done; constructor. Qed.

Lemma elem_of_group_list p gs : p ∈ group_list gs <-> exists g, g ∈ gs /\ p ∈ g.2.
Proof.
  unfold group_list. rewrite list_elem_of_In, in_concat. split.
  - intros (l & Hl & Hp). apply list_elem_of_In in Hl, Hp. apply list_elem_of_fmap in Hl as (g & -> & Hg). by exists g.
  - intros (g & Hg & Hp). exists g.2. split; apply list_elem_of_In; [|done]. apply list_elem_of_fmap. by exists g.
Qed.

Lemma group_tag tag gs p : Forall (group_ok tag) gs -> p ∈ group_list gs -> exists g, g ∈ gs /\ p ∈ g.2 /\ tag p = Some g.1.
Proof.
  intros Hok (g & Hg & Hp)%elem_of_group_list. exists g. split_and!; [done..|]. rewrite Forall_forall in Hok. destruct (Hok g Hg) as [_ Hf].
  rewrite Forall_forall in Hf. by apply Hf.
Qed.

Lemma grouped_ext tag tag' l table : (forall p, p ∈ l -> tag' p = tag p) -> grouped tag l table -> grouped tag' l table.
Proof.
  intros He (gs & -> & Ht & Hn & Hok & ->). exists gs. split_and!; try done. rewrite Forall_forall in *. intros g Hg. destruct (Hok g Hg) as [Hne Hf].
  split; [done|]. rewrite Forall_forall in *. intros p Hp. rewrite He; [by apply Hf|]. apply elem_of_group_list. by exists g.
Qed.

Lemma heads_lookup gs k q :
  NoDup (group_tags gs) -> (list_to_map (group_heads gs) : gmap (list Z) nat) !! k = Some q ->
  exists gs1 g gs2, gs = gs1 ++ (k, g) :: gs2 /\ q = hd 0%nat g.
Proof.
  intros Hn Hq. apply elem_of_list_to_map_2 in Hq. unfold group_heads in Hq. apply list_elem_of_fmap in Hq as ([k' g] & [= -> ->] & Hg).
  apply list_elem_of_split in Hg as (gs1 & gs2 & ->). by exists gs1, g, gs2.
Qed.

Lemma heads_none gs k : (list_to_map (group_heads gs) : gmap (list Z) nat) !! k = None <-> k ∉ group_tags gs.
Proof. rewrite <- not_elem_of_list_to_map. unfold group_heads, group_tags. rewrite <- list_fmap_compose. done. Qed.

Lemma group_heads_app gs1 gs2 : group_heads (gs1 ++ gs2) = group_heads gs1 ++ group_heads gs2.
Proof. apply fmap_app. Qed.
Lemma group_tags_app gs1 gs2 : group_tags (gs1 ++ gs2) = group_tags gs1 ++ group_tags gs2.
Proof. apply fmap_app. Qed.
Lemma group_list_app gs1 gs2 : group_list (gs1 ++ gs2) = group_list gs1 ++ group_list gs2.
Proof. unfold group_list. by rewrite fmap_app, concat_app. Qed.

Lemma heads_middle gs1 g gs2 :
  NoDup (group_tags (gs1 ++ g :: gs2)) ->
  (list_to_map (group_heads (gs1 ++ g :: gs2)) : gmap (list Z) nat) = <[g.1 := hd 0%nat g.2]> (list_to_map (group_heads (gs1 ++ gs2))).
Proof.
  intros Hn. change (<[g.1 := hd 0%nat g.2]> (list_to_map (group_heads (gs1 ++ gs2)) : gmap (list Z) nat)) with
    (list_to_map ((g.1, hd 0%nat g.2) :: group_heads (gs1 ++ gs2)) : gmap (list Z) nat).
  apply list_to_map_proper.
  - unfold group_heads. rewrite <- list_fmap_compose. exact Hn.
  - rewrite !group_heads_app. cbn. by rewrite Permutation_middle.
Qed.

(** ** Looking up a group *)

Lemma list_from_app q a l : q ∉ a -> list_from q (a ++ q :: l) = q :: l.
Proof.
  induction a as [|x a IH]; cbn [list_from app]; intros Hq; [by rewrite Nat.eqb_refl|].
  apply not_elem_of_cons in Hq as [Hx Hq]. rewrite (proj2 (Nat.eqb_neq q x)) by done. by apply IH.
Qed.

Lemma filter_none {A} (P : A -> Prop) `{forall x, Decision (P x)} l : Forall (fun x => ~ P x) l -> filter P l = [].
Proof. induction 1 as [|x l Hx _ IH]; [done|]. by rewrite filter_cons_False. Qed.
Lemma filter_all {A} (P : A -> Prop) `{forall x, Decision (P x)} l : Forall P l -> filter P l = l.
Proof. induction 1 as [|x l Hx _ IH]; [done|]. by rewrite filter_cons_True, IH. Qed.

Lemma with_tag_groups tag k g gs1 gs2 :
  NoDup (group_tags (gs1 ++ (k, g) :: gs2)) -> Forall (group_ok tag) (gs1 ++ (k, g) :: gs2) ->
  with_tag tag k (group_list (gs1 ++ (k, g) :: gs2)) = g /\ Forall (fun p => tag p <> Some k) (group_list gs1) /\
  Forall (fun p => tag p <> Some k) (group_list gs2).
Proof.
  intros Hn Hok. rewrite group_tags_app in Hn. apply NoDup_app in Hn as (_ & Hn1 & Hn2). cbn in Hn2. apply NoDup_cons in Hn2 as [Hn2 _].
  apply Forall_app in Hok as [Ho1 Ho2]. apply Forall_cons in Ho2 as [[_ Hg] Ho2].
  assert (H1 : Forall (fun p => tag p <> Some k) (group_list gs1)).
  { rewrite Forall_forall. intros p (g' & Hg' & _ & Ht)%(group_tag tag); [|done]. rewrite Ht. intros [= E].
    apply (Hn1 k); [|by left]. rewrite <- E. by apply list_elem_of_fmap_2. }
  assert (H2 : Forall (fun p => tag p <> Some k) (group_list gs2)).
  { rewrite Forall_forall. intros p (g' & Hg' & _ & Ht)%(group_tag tag); [|done]. rewrite Ht. intros [= E].
    apply Hn2. rewrite <- E. by apply list_elem_of_fmap_2. }
  split_and!; [|done|done]. rewrite group_list_app. unfold with_tag. rewrite filter_app, (filter_none _ (group_list gs1)) by done.
  change (group_list ((k, g) :: gs2)) with (g ++ group_list gs2). by rewrite filter_app, (filter_all _ g), (filter_none _ (group_list gs2)), app_nil_r.
Qed.

(** What the loop over a group sees: the objects with the tag, then the end of the list
    or an object with another one. *)
Lemma grouped_lookup tag l table k :
  grouped tag l table ->
  table !! k = head (with_tag tag k l) /\
  forall q, table !! k = Some q -> exists rest, list_from q l = with_tag tag k l ++ rest /\
    match rest with [] => True | p :: _ => tag p <> Some k end.
Proof.
  intros (gs & -> & Ht & Hn & Hok & ->). set (table := list_to_map _). assert (Hq : forall q, table !! k = Some q ->
    head (with_tag tag k (group_list gs)) = Some q /\ exists rest, list_from q (group_list gs) = with_tag tag k (group_list gs) ++ rest /\
      match rest with [] => True | p :: _ => tag p <> Some k end).
  { intros q Hq. destruct (heads_lookup gs k q Ht Hq) as (gs1 & g & gs2 & -> & ->). destruct (with_tag_groups tag k g gs1 gs2 Ht Hok) as (Ew & H1 & H2).
    rewrite Ew. rewrite group_list_app in *. change (group_list ((k, g) :: gs2)) with (g ++ group_list gs2) in *.
    apply Forall_app in Hok as [_ Ho]. apply Forall_cons in Ho as [[Hne _] _]. destruct g as [|q g]; [done|]. cbn [hd head].
    split; [done|]. exists (group_list gs2). split.
    - apply NoDup_app in Hn as (_ & Hn & _). rewrite <- app_comm_cons. apply list_from_app. intros Hx. apply (Hn q Hx). by left.
    - destruct (group_list gs2); [done|]. by apply Forall_cons in H2 as [? _]. }
  split; [|intros q E; by apply Hq]. destruct (table !! k) as [q|] eqn:E; [by destruct (Hq q eq_refl) as [-> _]|].
  unfold table in E. apply heads_none in E. unfold with_tag. rewrite filter_none; [done|]. rewrite Forall_forall.
  intros p (g & Hg & _ & Htp)%(group_tag tag); [|done]. rewrite Htp. intros [= <-]. apply E. by apply list_elem_of_fmap_2.
Qed.

(** ** Inserting and removing *)

Lemma list_insert_after_app q p a l : q ∉ a -> list_insert_after q p (a ++ q :: l) = a ++ q :: p :: l.
Proof.
  induction a as [|x a IH]; cbn [list_insert_after app]; intros Hq; [by rewrite Nat.eqb_refl|].
  apply not_elem_of_cons in Hq as [Hx Hq]. rewrite (proj2 (Nat.eqb_neq q x)) by done. by rewrite IH.
Qed.

Lemma grouped_insert tag l table p k :
  grouped tag l table -> p ∉ l -> tag p = Some k ->
  grouped tag (match table !! k with None => p :: l | Some q => list_insert_after q p l end)
    (match table !! k with None => <[k := p]> table | Some _ => table end).
Proof.
  intros (gs & -> & Ht & Hn & Hok & ->) Hp Hk. destruct (list_to_map (group_heads gs) !! k) as [q|] eqn:E.
  - destruct (heads_lookup gs k q Ht E) as (gs1 & g & gs2 & -> & ->). apply Forall_app in Hok as [Ho1 Ho2]. apply Forall_cons in Ho2 as [[Hne Hg] Ho2].
    destruct g as [|q g]; [done|]. cbn [hd]. rewrite group_list_app in *. change (group_list ((k, q :: g) :: gs2)) with (q :: g ++ group_list gs2) in *.
    assert (Hq : q ∉ group_list gs1) by (apply NoDup_app in Hn as (_ & Hn & _); intros Hx; apply (Hn q Hx); by left).
    rewrite list_insert_after_app by done. exists (gs1 ++ (k, q :: p :: g) :: gs2). split_and!.
    + by rewrite group_list_app.
    + rewrite group_tags_app in *. exact Ht.
    + rewrite (Permutation_swap p q). rewrite <- Permutation_middle. by apply NoDup_cons.
    + apply Forall_app. split; [done|]. constructor; [|done]. split; [done|]. apply Forall_cons in Hg as [Hq' Hg]. by repeat constructor.
    + rewrite !group_heads_app. reflexivity.
  - apply heads_none in E. exists ((k, [p]) :: gs). split_and!; [done| |by constructor| |done].
    + cbn. by constructor.
    + constructor; [|done]. split; [done|]. by constructor.
Qed.

Lemma list_neighbours_app p a l prev : p ∉ a -> list_neighbours prev p (a ++ p :: l) = Some (match last a with Some q => Some q | None => prev end, head l).
Proof.
  revert prev. induction a as [|x a IH]; intros prev Hp; cbn [list_neighbours app]; [by rewrite Nat.eqb_refl|].
  apply not_elem_of_cons in Hp as [Hx Hp]. rewrite (proj2 (Nat.eqb_neq p x)) by done. rewrite IH by done. rewrite last_cons. by destruct (last a).
Qed.

Lemma filter_remove p (a l : list nat) : NoDup (a ++ p :: l) -> filter (.≠ p) (a ++ p :: l) = a ++ l.
Proof.
  intros Hn. rewrite <- Permutation_middle in Hn. apply NoDup_cons in Hn as [Hp _]. rewrite not_elem_of_app in Hp. destruct Hp as [Ha Hl].
  rewrite filter_app, filter_cons_False by naive_solver. by rewrite !filter_all by (rewrite Forall_forall; naive_solver).
Qed.

(** The table when the object [p] of the tag [k] is unlinked between two others. *)
Definition table_without (tag : nat -> option (list Z)) (k : list Z) (p : nat) (prev next : option nat) (table : gmap (list Z) nat) : gmap (list Z) nat :=
  if decide (prev ≫= tag = Some k) then table
  else match next with
       | Some q => if decide (tag q = Some k) then <[k := q]> table else table_remove k p table
       | None => table_remove k p table
       end.

Lemma grouped_remove tag l table p k :
  grouped tag l table -> p ∈ l -> tag p = Some k ->
  exists prev next, list_neighbours None p l = Some (prev, next) /\
    (forall q, prev = Some q \/ next = Some q -> q ∈ l /\ q <> p) /\
    grouped tag (filter (.≠ p) l) (table_without tag k p prev next table).
Proof.
  intros (gs & -> & Ht & Hn & Hok & ->) Hp Hk. destruct (group_tag tag gs p Hok Hp) as ([k' g] & Hin & Hpg & Hk'). cbn [fst snd] in *.
  rewrite Hk in Hk'. injection Hk' as <-. apply list_elem_of_split in Hin as (gs1 & gs2 & ->). apply list_elem_of_split in Hpg as (g1 & g2 & ->).
  destruct (with_tag_groups tag k _ gs1 gs2 Ht Hok) as (_ & Ht1 & Ht2).
  pose proof Hok as Hok'. apply Forall_app in Hok' as [Ho1 Ho2]. apply Forall_cons in Ho2 as [[_ Hg] Ho2]. apply Forall_app in Hg as [Hg1 Hg2].
  apply Forall_cons in Hg2 as [_ Hg2]. cbn [snd fst] in *.
  assert (El : group_list (gs1 ++ (k, g1 ++ p :: g2) :: gs2) = (group_list gs1 ++ g1) ++ p :: (g2 ++ group_list gs2)).
  { rewrite group_list_app. change (group_list ((k, g1 ++ p :: g2) :: gs2)) with ((g1 ++ p :: g2) ++ group_list gs2). by rewrite <- !app_assoc. }
  rewrite El in *. clear El. assert (Hpa : p ∉ group_list gs1 ++ g1) by (apply NoDup_app in Hn as (_ & Hn & _); intros Hx; apply (Hn p Hx); by left).
  rewrite list_neighbours_app by done. rewrite filter_remove by done. eexists _, _. split; [reflexivity|].
  assert (Hn' : NoDup ((group_list gs1 ++ g1) ++ g2 ++ group_list gs2)) by (rewrite <- Permutation_middle in Hn; by apply NoDup_cons in Hn as [_ Hn]).
  assert (Hp2 : p ∉ g2 ++ group_list gs2) by (apply NoDup_app in Hn as (_ & _ & Hn); by apply NoDup_cons in Hn as [? _]).
  split.
  { intros q [Hq|Hq].
    - destruct (last (group_list gs1 ++ g1)) as [q'|] eqn:E; [|done]. injection Hq as <-. apply last_Some_elem_of in E.
      split; [apply elem_of_app; by left|]. by intros ->.
    - apply head_Some_elem_of in Hq. split; [apply elem_of_app; right; by right|]. by intros ->. }
  destruct (decide (g1 ++ g2 = [])) as [E|Hne].
  - apply app_nil in E as [-> ->]. rewrite app_nil_r, app_nil_l in *. cbn [app] in *. exists (gs1 ++ gs2). split_and!.
    + by rewrite group_list_app.
    + rewrite group_tags_app in *. cbn in Ht. rewrite <- Permutation_middle in Ht. by apply NoDup_cons in Ht as [_ ?].
    + done.
    + by apply Forall_app.
    + unfold table_without. rewrite decide_False.
      * assert (Ed : table_remove k p (list_to_map (group_heads (gs1 ++ (k, [p]) :: gs2))) = list_to_map (group_heads (gs1 ++ gs2))).
        { rewrite heads_middle by done. cbn [fst snd hd]. unfold table_remove. rewrite lookup_insert_eq, decide_True, delete_insert_id; [done| |done].
          apply heads_none. rewrite group_tags_app in *. cbn in Ht. rewrite <- Permutation_middle in Ht. by apply NoDup_cons in Ht as [? _]. }
        destruct (group_list gs2) as [|q l] eqn:E; cbn [head]; [done|]. apply Forall_cons in Ht2 as [Hq _]. by rewrite decide_False.
      * destruct (last (group_list gs1)) as [q|] eqn:E; cbn; [|done]. apply last_Some_elem_of in E. rewrite Forall_forall in Ht1. by apply Ht1.
  - exists (gs1 ++ (k, g1 ++ g2) :: gs2). split_and!.
    + rewrite group_list_app. change (group_list ((k, g1 ++ g2) :: gs2)) with ((g1 ++ g2) ++ group_list gs2). by rewrite <- !app_assoc.
    + rewrite group_tags_app in *. exact Ht.
    + done.
    + apply Forall_app. split; [done|]. constructor; [|done]. split; [done|]. by apply Forall_app.
    + assert (Ht' : NoDup (group_tags (gs1 ++ (k, g1 ++ g2) :: gs2))) by (rewrite group_tags_app in *; exact Ht).
      rewrite !heads_middle by done. cbn [fst snd]. unfold table_without. destruct g1 as [|x g1].
      * cbn [app hd] in *. rewrite app_nil_r. rewrite decide_False.
        -- destruct g2 as [|q g2]; [done|]. cbn [app head hd]. apply Forall_cons in Hg2 as [Hq _]. rewrite decide_True by done. by rewrite insert_insert_eq.
        -- destruct (last (group_list gs1)) as [q|] eqn:E; cbn; [|done]. apply last_Some_elem_of in E. rewrite Forall_forall in Ht1. by apply Ht1.
      * rewrite decide_True; [done|]. rewrite last_app. destruct (last (x :: g1)) as [q|] eqn:E.
        -- cbn. apply last_Some_elem_of in E. rewrite Forall_forall in Hg1. by apply Hg1.
        -- by apply last_None in E.
Qed.

(** ** The map that the list and the table are *)

(** A new object goes behind the first one with its tag. *)
Definition insert_second (p : nat) (l : list nat) : list nat := match l with [] => [p] | q :: l => q :: p :: l end.

Lemma with_tag_insert tag l table p k k' :
  grouped tag l table -> p ∉ l -> tag p = Some k ->
  with_tag tag k' (match table !! k with None => p :: l | Some q => list_insert_after q p l end) =
  (if decide (k' = k) then insert_second p (with_tag tag k l) else with_tag tag k' l).
Proof.
  intros Hg Hp Hk. destruct (grouped_lookup tag l table k Hg) as [Eh _]. destruct (table !! k) as [q|] eqn:Et.
  - assert (Hq : q ∈ l) by (symmetry in Eh; apply head_Some_elem_of in Eh; unfold with_tag in Eh; by apply list_elem_of_filter in Eh as [_ ?]).
    apply list_elem_of_split_l in Hq as (a & b & -> & Ha). rewrite list_insert_after_app by done. unfold with_tag in *. rewrite filter_app in Eh.
    assert (Hfa : filter (fun p0 => tag p0 = Some k) a = []).
    { destruct (filter _ a) as [|x fa] eqn:Ef; [done|]. cbn in Eh. injection Eh as <-. destruct Ha. assert (Hx : q ∈ filter (fun p0 => tag p0 = Some k) a) by (rewrite Ef; by left).
      by apply list_elem_of_filter in Hx as [_ ?]. }
    rewrite Hfa in Eh. cbn [app] in Eh. destruct (decide (tag q = Some k)) as [Htq|Htq].
    2: { rewrite filter_cons_False in Eh by done. symmetry in Eh. apply head_Some_elem_of in Eh. apply list_elem_of_filter in Eh as [Hx Hq]. done. }
    rewrite !filter_app, !filter_cons. destruct (decide (k' = k)) as [->|Hne].
    + rewrite Hfa, !decide_True by done. done.
    + by rewrite !decide_False by congruence.
  - destruct (with_tag tag k l) as [|x w] eqn:Ew; [|done]. unfold with_tag in *. rewrite filter_cons. destruct (decide (k' = k)) as [->|Hne].
    + rewrite decide_True by done. by rewrite Ew.
    + by rewrite decide_False by congruence.
Qed.
