(* ===== verification/KeyringInv.v ===== *)
(** * KeyringInv: the invariant of the key ring (for [Keyring])

    Every message is in a state that waits for exactly one request that is outstanding,
    or for nothing but the network, and every outstanding request belongs to an object
    that is there; the objects of public keys are counted and grouped. *)

From S2P Require Import Prelude Endian Buffer NetAddress OpenSSL Proto ProtoSpec NetText KeyValue Pow Base58 Address Outgoings Ecc Keys HashTable Connection Crypto CryptoSpec Network Keyring KeyringMessage KeyringPubkeys.

Ltac kr_cbn :=
  cbn [kr_nw kr_started kr_keys kr_tasks kr_task kr_cookie kr_pubkey_blob_list kr_pubkey_blob_table kr_pubkey_blob kr_messages kr_message
       kr_next_message_content_id kr_crypto kr_pow kr_loads kr_next kr_random kr_effects kr_set_nw kr_set_started kr_set_keys kr_set_tasks
       kr_set_task kr_set_cookie kr_set_pubkey_blob_list kr_set_pubkey_blob_table kr_set_pubkey_blob kr_set_messages kr_set_message
       kr_set_next_message_content_id kr_set_crypto kr_set_pow kr_set_loads kr_set_next kr_set_random kr_set_effects kr_emit put_message put_task
       put_pubkey_blob save_keyring add_key] in *.

Ltac ms_cbn :=
  cbn [ms_state ms_from_key ms_to_address ms_ripe_or_tag ms_to_key ms_content_id ms_content_encoding ms_ackdata ms_crypto_cookie ms_pow_cookie
       ms_store_cookie ms_blob ms_blob_ackdata_offset ms_blob_ackdata_length ms_last_getpubkey_send_time ms_last_msg_send_time ms_trying_pubkey_blob
       ms_set_state ms_set_to_key ms_set_ackdata ms_set_crypto_cookie ms_set_pow_cookie ms_set_store_cookie ms_set_blob ms_set_blob_ackdata_offset
       ms_set_blob_ackdata_length ms_set_last_getpubkey_send_time ms_set_last_msg_send_time ms_set_trying_pubkey_blob
       tk_crypto_cookie tk_pow_cookie tk_blob tk_timestamp tk_set_crypto_cookie tk_set_pow_cookie tk_set_blob tk_set_timestamp
       pb_timestamp pb_ripe_or_tag pb_hash pb_ref_count pb_in_list pb_add_ref pb_set_in_list kc_func kc_crypto_cookie
       pt_payload pt_extra_bytes pt_nonce_trials pt_callback] in *.

Ltac open_all := repeat match goal with Hx : _ /\ _ |- _ => destruct Hx | Hx : exists _, _ |- _ => destruct Hx end.

(** Who a request is made for. *)
Inductive request_owner := OwnMessage (i : nat) | OwnTask (i : nat) | OwnCookie (i : nat).

Section keyring_inv.
Context `{DigestLaws} `{BigNumLaws} `{!Elliptic} `{!EllipticLaws} `{SymmetricLaws} `{Digest256} `{!Ecdsa} `{!ObjectNetwork}.

(** ** Requests *)

Definition crypto_owner (t : crypto_task) : request_owner :=
  match t with
  | CRYPTO_CREATE_KEY _ _ c => OwnCookie c
  | CRYPTO_CREATE_PUBKEY_BLOB _ i | CRYPTO_CREATE_PUBLIC_KEY _ i | CRYPTO_DECRYPT_MSG _ _ i => OwnTask i
  | CRYPTO_CHECK_PUBKEY _ _ i | CRYPTO_CREATE_MSG_BLOB _ _ _ _ i | CRYPTO_GENERATE_ACKDATA i => OwnMessage i
  end.
Definition pow_owner (t : pow_task) : request_owner :=
  match pt_callback t with
  | CREATE_PUBKEY_POW_CB i => OwnTask i
  | GETPUBKEY_POW_CB i | ACKDATA_POW_CB i | MSG_POW_CB i => OwnMessage i
  end.
Definition load_owner (l : store_load) : nat := match l with LOAD_MESSAGE_CONTENT _ i | LOAD_BLOB _ i => i end.

(** The cookie that the owner has. *)
Definition crypto_held (kr : ntb_keyring) (o : request_owner) : option nat :=
  match o with
  | OwnMessage i => kr_message kr !! i ≫= ms_crypto_cookie
  | OwnTask i => kr_task kr !! i ≫= tk_crypto_cookie
  | OwnCookie i => kc_crypto_cookie <$> kr_cookie kr !! i
  end.
(** A request for a key stays with the main loop after the thread has called its
    callback, which has freed the cookie. *)
Definition crypto_belongs (kr : ntb_keyring) (c : nat) (o : request_owner) : Prop :=
  match o with
  | OwnCookie i => crypto_held kr o = Some c \/ (kr_cookie kr !! i = None /\ (i < kr_next kr)%nat)
  | _ => crypto_held kr o = Some c
  end.
Definition pow_held (kr : ntb_keyring) (o : request_owner) : option nat :=
  match o with
  | OwnMessage i => kr_message kr !! i ≫= ms_pow_cookie
  | OwnTask i => kr_task kr !! i ≫= tk_pow_cookie
  | OwnCookie _ => None
  end.

(** ** Messages *)

Definition key_wf (key : ntb_key) : Prop :=
  address_wf (key_address key) /\ (ntb_key_has_private key = true -> key_ok key) /\
  - 2 ^ 31 <= key_nonce_trials_per_byte key < 2 ^ 31 /\ - 2 ^ 31 <= key_payload_length_extra_bytes key < 2 ^ 31.

Definition static_ok (m : ntb_keyring_message) : Prop :=
  message_ok m /\ addr_version (ms_to_address m) <> 0 /\ (forall key, ms_to_key m = Some key -> key_wf key) /\
  forall ackdata, ms_ackdata m = Some ackdata -> length ackdata = NTB_PROTO_ACKDATA_SIZE /\ bytes ackdata.

Definition waits_nothing (m : ntb_keyring_message) : Prop :=
  ms_crypto_cookie m = None /\ ms_pow_cookie m = None /\ ms_store_cookie m = None.
Definition waits_crypto (cs : gmap nat crypto_task) (m : ntb_keyring_message) (Q : crypto_task -> Prop) : Prop :=
  exists c t, ms_crypto_cookie m = Some c /\ ms_pow_cookie m = None /\ ms_store_cookie m = None /\ cs !! c = Some t /\ Q t.
Definition waits_pow (ps : gmap nat pow_task) (m : ntb_keyring_message) (Q : pow_task -> Prop) : Prop :=
  exists c t, ms_crypto_cookie m = None /\ ms_pow_cookie m = Some c /\ ms_store_cookie m = None /\ ps !! c = Some t /\ Q t.
Definition waits_load (ls : gmap nat store_load) (m : ntb_keyring_message) (Q : store_load -> Prop) : Prop :=
  exists c l, ms_crypto_cookie m = None /\ ms_pow_cookie m = None /\ ms_store_cookie m = Some c /\ ls !! c = Some l /\ Q l.

(** An object whose nonce is not set yet. *)
Definition nonce_blob (type : ntb_proto_inv_type) (blob : dyn_blob) (payload : list Z) : Prop :=
  (exists room, zlen room = 8 /\ blob = DynBlob type (room ++ (Some <$> payload))) /\ bytes payload /\ zlen payload < 2 ^ 29.

(** A message object whose content cannot be taken for the data of an acknowledgement. *)
Definition msg_payload_ok (payload : list Z) : Prop :=
  forall nonce, length nonce = 8%nat -> bytes nonce -> exists vs n,
    ntb_proto_get_command msg_header (nonce ++ payload) (zlen (nonce ++ payload)) = Ok (vs, n) /\
    n + Z.of_nat NTB_PROTO_ACKDATA_SIZE < zlen (nonce ++ payload).
Definition getpubkey_payload_ok (payload : list Z) : Prop :=
  forall nonce, length nonce = 8%nat -> bytes nonce -> exists vs n,
    ntb_proto_get_command getpubkey_header (nonce ++ payload) (zlen (nonce ++ payload)) = Ok (vs, n) /\ 0 <= n.

(** An object of a public key that has a tag, or none. *)
Definition pubkey_ok (data : list Z) : Prop :=
  match ntb_proto_get_pubkey false data (zlen data) with
  | Ok pubkey => exists tag, pk_tag pubkey = Some tag /\ NTB_PROTO_HASH_LENGTH <= zlen tag
  | Err _ => True
  | UB | OutOfFuel => False
  end.
Definition pubkey_payload_ok (payload : list Z) : Prop :=
  forall nonce, length nonce = 8%nat -> bytes nonce -> pubkey_ok (nonce ++ payload).

(** Times of the clock, as the formats have them. *)
Definition sent_time (time : Z) : Prop := 0 <= time < 2 ^ 32.

(** The unencrypted message, without and with the nonce of its acknowledgement. *)
Definition unacked_blob (m : ntb_keyring_message) (payload : list Z) : Prop :=
  exists content timestamp ackdata junk,
    let object := ack_object timestamp m ackdata in
    let text := unacked_text (message_text m content []) in
    ms_ackdata m = Some ackdata /\ zlen junk = 12 /\ zlen object < 64 /\ payload = object /\ zlen content < 2 ^ 27 /\ bytes content /\
    ms_blob m = Some (DynBlob NTB_PROTO_INV_TYPE_MSG ((Some <$> text ++ [32 + zlen object]) ++ ack_cells junk object)) /\
    ms_blob_ackdata_offset m = zlen text + 1 /\ ms_blob_ackdata_length m = 32 + zlen object /\ sent_time timestamp.
Definition acked_blob (m : ntb_keyring_message) (blob : dyn_blob) : Prop :=
  exists content timestamp ackdata nonce,
    ms_ackdata m = Some ackdata /\ (zlen nonce = 8 /\ bytes nonce) /\ ms_blob m = Some blob /\ zlen content < 2 ^ 27 /\ bytes content /\
    sent_time timestamp /\ sent_time (ms_last_msg_send_time m) /\ blob = DynBlob NTB_PROTO_INV_TYPE_MSG
      (Some <$> signed_text (message_text m content (frame (str_bytes "msg") (nonce ++ ack_object timestamp m ackdata)))).

Definition msg_state_ok (cs : gmap nat crypto_task) (ps : gmap nat pow_task) (ls : gmap nat store_load) (i : nat)
    (m : ntb_keyring_message) : Prop :=
  match ms_state m with
  | None => False
  | Some state =>
      (state <> NTB_KEYRING_MESSAGE_STATE_GENERATING_ACKDATA -> is_Some (ms_ackdata m)) /\
      match state with
      | NTB_KEYRING_MESSAGE_STATE_GENERATING_ACKDATA =>
          waits_crypto cs m (fun t => t = CRYPTO_GENERATE_ACKDATA i) /\ ms_blob m = None /\ ms_ackdata m = None
      | NTB_KEYRING_MESSAGE_STATE_LOADING_PUBKEY_FROM_STORE =>
          waits_load ls m (fun l => exists hash, l = LOAD_BLOB hash i) /\ ms_blob m = None /\ is_Some (ms_trying_pubkey_blob m)
      | NTB_KEYRING_MESSAGE_STATE_TRYING_BLOB =>
          waits_crypto cs m (fun t => exists blob, t = CRYPTO_CHECK_PUBKEY (ms_to_address m) blob i) /\ ms_blob m = None /\
          is_Some (ms_trying_pubkey_blob m)
      | NTB_KEYRING_MESSAGE_STATE_CALCULATING_GETPUBKEY_POW =>
          waits_pow ps m (fun t => pt_callback t = GETPUBKEY_POW_CB i /\ getpubkey_payload_ok (pt_payload t) /\
            exists blob, ms_blob m = Some blob /\ nonce_blob NTB_PROTO_INV_TYPE_GETPUBKEY blob (pt_payload t))
      | NTB_KEYRING_MESSAGE_STATE_AWAITING_PUBKEY => waits_nothing m /\ ms_blob m = None
      | NTB_KEYRING_MESSAGE_STATE_LOADING_CONTENT =>
          waits_load ls m (fun l => l = LOAD_MESSAGE_CONTENT (ms_content_id m) i) /\ ms_blob m = None /\ is_Some (ms_to_key m)
      | NTB_KEYRING_MESSAGE_STATE_CALCULATING_ACKDATA_POW =>
          waits_pow ps m (fun t => pt_callback t = ACKDATA_POW_CB i /\ unacked_blob m (pt_payload t)) /\ is_Some (ms_to_key m)
      | NTB_KEYRING_MESSAGE_STATE_CREATE_MSG_BLOB =>
          waits_crypto cs m (fun t => exists to_key blob, ms_to_key m = Some to_key /\ acked_blob m blob /\
            t = CRYPTO_CREATE_MSG_BLOB (ms_last_msg_send_time m) (ms_from_key m) to_key blob i)
      | NTB_KEYRING_MESSAGE_STATE_CALCULATING_MSG_POW =>
          waits_pow ps m (fun t => pt_callback t = MSG_POW_CB i /\ msg_payload_ok (pt_payload t) /\
            exists blob, ms_blob m = Some blob /\ nonce_blob NTB_PROTO_INV_TYPE_MSG blob (pt_payload t)) /\ is_Some (ms_to_key m)
      | NTB_KEYRING_MESSAGE_STATE_AWAITING_ACKNOWLEDGEMENT => waits_nothing m /\ ms_blob m = None /\ is_Some (ms_to_key m)
      end
  end.

(** ** Tasks *)

Definition task_ok (cs : gmap nat crypto_task) (ps : gmap nat pow_task) (i : nat) (t : ntb_keyring_task) : Prop :=
  (exists c ct, tk_crypto_cookie t = Some c /\ tk_pow_cookie t = None /\ cs !! c = Some ct /\ crypto_owner ct = OwnTask i) \/
  (exists c pt blob, tk_crypto_cookie t = None /\ tk_pow_cookie t = Some c /\ ps !! c = Some pt /\ pt_callback pt = CREATE_PUBKEY_POW_CB i /\
     tk_blob t = Some blob /\ nonce_blob NTB_PROTO_INV_TYPE_PUBKEY blob (pt_payload pt) /\ pubkey_payload_ok (pt_payload pt)).

(** ** Objects of public keys *)

Definition tries (p : nat) (m : ntb_keyring_message) : Z := if decide (ms_trying_pubkey_blob m = Some p) then 1 else 0.
Definition trying_count (ms : gmap nat ntb_keyring_message) (p : nat) : Z :=
  Z.of_nat (size (filter (fun im => ms_trying_pubkey_blob im.2 = Some p) ms)).
Definition pubkey_tag (bs : gmap nat ntb_keyring_pubkey_blob) (p : nat) : option (list Z) := pb_ripe_or_tag <$> bs !! p.

Record pubkeys_inv (ms : gmap nat ntb_keyring_message) (bs : gmap nat ntb_keyring_pubkey_blob) (l : list nat) (table : gmap (list Z) nat) : Prop := {
  pk_listed p : p ∈ l <-> exists b, bs !! p = Some b /\ pb_in_list b = true;
  pk_counted p b : bs !! p = Some b -> pb_ref_count b = (if pb_in_list b then 1 else 0) + trying_count ms p /\ 0 < pb_ref_count b;
  pk_tried i m p : ms !! i = Some m -> ms_trying_pubkey_blob m = Some p -> is_Some (bs !! p);
  pk_hashed p b : bs !! p = Some b -> length (pb_hash b) = 32%nat;
  pk_grouped : grouped (pubkey_tag bs) l table
}.

(** ** The invariant *)

Definition bounded {A} (m : gmap nat A) (next : nat) : Prop := forall k, is_Some (m !! k) -> (k < next)%nat.

(** The network answers. *)
Definition network_reads (nw : network) : Prop :=
  forall hash, length hash = 32%nat -> exists location, network_get_object hash nw = Ok location.

(** [d] is a message and [dt] a task that a callback works on: it waits for nothing. *)
Record kr_inv (d dt : option nat) (kr : ntb_keyring) : Prop := {
  inv_started : kr_started kr = true;
  inv_network : network_reads (kr_nw kr);
  inv_keys : Forall key_wf (kr_keys kr);
  inv_message_list : NoDup (kr_messages kr) /\ forall i, i ∈ kr_messages kr <-> is_Some (kr_message kr !! i);
  inv_messages i m : kr_message kr !! i = Some m ->
    static_ok m /\ if decide (d = Some i) then waits_nothing m else msg_state_ok (kr_crypto kr) (kr_pow kr) (kr_loads kr) i m;
  inv_task_list : NoDup (kr_tasks kr) /\ forall i, i ∈ kr_tasks kr <-> is_Some (kr_task kr !! i);
  inv_tasks i t : kr_task kr !! i = Some t ->
    if decide (dt = Some i) then tk_crypto_cookie t = None /\ (forall c, tk_pow_cookie t = Some c -> kr_pow kr !! c = None /\ (c < kr_next kr)%nat)
    else task_ok (kr_crypto kr) (kr_pow kr) i t;
  inv_cookies i k : kr_cookie kr !! i = Some k -> exists params z, kr_crypto kr !! kc_crypto_cookie k = Some (CRYPTO_CREATE_KEY params z i);
  inv_crypto c t : kr_crypto kr !! c = Some t -> crypto_belongs kr c (crypto_owner t);
  inv_pow c t : kr_pow kr !! c = Some t -> pow_held kr (pow_owner t) = Some c;
  inv_loads c l : kr_loads kr !! c = Some l -> kr_message kr !! load_owner l ≫= ms_store_cookie = Some c;
  inv_pubkeys : pubkeys_inv (kr_message kr) (kr_pubkey_blob kr) (kr_pubkey_blob_list kr) (kr_pubkey_blob_table kr);
  inv_bounded : bounded (kr_message kr) (kr_next kr) /\ bounded (kr_task kr) (kr_next kr) /\ bounded (kr_cookie kr) (kr_next kr) /\
    bounded (kr_pubkey_blob kr) (kr_next kr) /\ bounded (kr_crypto kr) (kr_next kr) /\ bounded (kr_pow kr) (kr_next kr) /\
    bounded (kr_loads kr) (kr_next kr)
}.

(** ** Requests that change hands *)

(** The requests of one owner are dropped or made anew; the others stay. *)
Definition reowned {A} (owned : A -> Prop) (held : option nat) (next next' : nat) (m m' : gmap nat A) : Prop :=
  (forall c t, m !! c = Some t -> ~ owned t -> m' !! c = Some t) /\
  (forall c t, m' !! c = Some t -> (owned t /\ held = Some c /\ (next <= c < next')%nat) \/ (m !! c = Some t /\ ~ owned t)).

Definition drop_request {A} (o : option nat) (m : gmap nat A) : gmap nat A := match o with Some c => delete c m | None => m end.

Lemma reowned_drop {A} (owned : A -> Prop) held held' next next' m :
  (forall c t, m !! c = Some t -> owned t -> held = Some c) -> (forall c t, held = Some c -> m !! c = Some t -> owned t) ->
  reowned owned held' next next' m (drop_request held m).
Proof.
  intros Ho Hh. split.
  - intros c t Hc Hn. destruct held as [c0|]; [|done]. cbn [drop_request]. rewrite lookup_delete_ne; [done|]. intros ->. apply Hn. by apply (Hh c).
  - intros c t Hc. right. destruct held as [c0|]; cbn [drop_request] in Hc.
    + apply lookup_delete_Some in Hc as [Hne Hc]. split; [done|]. intros Hw. specialize (Ho c t Hc Hw). congruence.
    + split; [done|]. intros Hw. by specialize (Ho c t Hc Hw).
Qed.
Lemma reowned_same {A} (owned : A -> Prop) held next next' m :
  (forall c t, m !! c = Some t -> ~ owned t) -> reowned owned held next next' m m.
Proof. intros Ho. split; [done|]. intros c t Hc. right. split; [done|]. by eapply Ho. Qed.
Lemma reowned_new {A} (owned : A -> Prop) c t next next' m :
  (forall c t, m !! c = Some t -> ~ owned t) -> owned t -> (next <= c < next')%nat -> bounded m next ->
  reowned owned (Some c) next next' m (<[c := t]> m).
Proof.
  intros Ho Ht Hc Hb. split.
  - intros c' t' Hc' _. rewrite lookup_insert_ne; [done|]. intros ->. specialize (Hb c' (mk_is_Some _ _ Hc')). lia.
  - intros c' t' [[<- <-]|[Hne Hc']]%lookup_insert_Some; [by left|right]. split; [done|]. by eapply Ho.
Qed.
Lemma reowned_bounded {A} (owned : A -> Prop) held next next' (m m' : gmap nat A) :
  reowned owned held next next' m m' -> bounded m next -> (next <= next')%nat -> bounded m' next'.
Proof.
  intros [_ Hr] Hb Hn c [t Ht]. destruct (Hr c t Ht) as [(_ & _ & ?)|[Hm _]]; [lia|]. specialize (Hb c (mk_is_Some _ _ Hm)). lia.
Qed.
Lemma bounded_le {A} (m : gmap nat A) n n' : bounded m n -> (n <= n')%nat -> bounded m n'.
Proof. intros Hb Hn c Hc. specialize (Hb c Hc). lia. Qed.
Lemma bounded_insert {A} (m : gmap nat A) c x n : bounded m n -> (c < n)%nat -> bounded (<[c := x]> m) n.
Proof. intros Hb Hc c' [y [[<- _]|[_ Hy]]%lookup_insert_Some]; [done|]. apply Hb. by exists y. Qed.
Lemma bounded_delete {A} (m : gmap nat A) c n : bounded m n -> bounded (delete c m) n.
Proof. intros Hb c' [y [_ Hy]%lookup_delete_Some]. apply Hb. by exists y. Qed.
Lemma bounded_fresh {A} (m : gmap nat A) n : bounded m n -> m !! n = None.
Proof. intros Hb. destruct (m !! n) eqn:E; [|done]. specialize (Hb n (mk_is_Some _ _ E)). lia. Qed.

(** ** States and their requests *)

Lemma msg_state_ok_mono cs ps ls cs' ps' ls' i m :
  msg_state_ok cs ps ls i m ->
  (forall c t, ms_crypto_cookie m = Some c -> cs !! c = Some t -> crypto_owner t = OwnMessage i -> cs' !! c = Some t) ->
  (forall c t, ms_pow_cookie m = Some c -> ps !! c = Some t -> pow_owner t = OwnMessage i -> ps' !! c = Some t) ->
  (forall c l, ms_store_cookie m = Some c -> ls !! c = Some l -> load_owner l = i -> ls' !! c = Some l) ->
  msg_state_ok cs' ps' ls' i m.
Proof.
  unfold msg_state_ok. intros Hm Hc Hp Hl. destruct (ms_state m) as [st|]; [|done]. destruct Hm as [Ha Hm]. split; [done|].
  assert (Wc : forall Q, waits_crypto cs m Q -> (forall t, Q t -> crypto_owner t = OwnMessage i) -> waits_crypto cs' m Q).
  { intros Q (c & t & E1 & E2 & E3 & E4 & E5) HQ. exists c, t. split_and!; try done. apply Hc; [done..|by apply HQ]. }
  assert (Wp : forall Q, waits_pow ps m Q -> (forall t, Q t -> pow_owner t = OwnMessage i) -> waits_pow ps' m Q).
  { intros Q (c & t & E1 & E2 & E3 & E4 & E5) HQ. exists c, t. split_and!; try done. apply Hp; [done..|by apply HQ]. }
  assert (Wl : forall Q, waits_load ls m Q -> (forall t, Q t -> load_owner t = i) -> waits_load ls' m Q).
  { intros Q (c & t & E1 & E2 & E3 & E4 & E5) HQ. exists c, t. split_and!; try done. apply Hl; [done..|by apply HQ]. }
  unfold pow_owner in Wp. destruct st; try done;
    repeat match goal with Hx : _ /\ _ |- _ => destruct Hx end; repeat split; try done;
    first [apply Wc; [done|] | apply Wp; [done|] | apply Wl; [done|]].
  - by intros t ->.
  - by intros l [? ->].
  - by intros t [? ->].
  - by intros t [-> _].
  - by intros l ->.
  - by intros t [-> _].
  - by intros t (? & ? & _ & _ & ->).
  - by intros t [-> _].
Qed.

(** The requests that a message waits for are outstanding and are its own. *)
Lemma msg_state_owner cs ps ls i m : msg_state_ok cs ps ls i m ->
  (forall c, ms_crypto_cookie m = Some c -> exists t, cs !! c = Some t /\ crypto_owner t = OwnMessage i) /\
  (forall c, ms_pow_cookie m = Some c -> exists t, ps !! c = Some t /\ pow_owner t = OwnMessage i) /\
  (forall c, ms_store_cookie m = Some c -> exists l, ls !! c = Some l /\ load_owner l = i).
Proof.
  unfold msg_state_ok. destruct (ms_state m) as [st|]; [|done]. intros [_ Hm]. unfold waits_crypto, waits_pow, waits_load, waits_nothing in Hm.
  destruct st; open_all; subst; split_and!; intros c' E; simplify_eq/=; try congruence;
    (eexists; split; [eassumption|]); unfold pow_owner; try done;
    repeat match goal with Hq : pt_callback _ = _ |- _ => rewrite Hq end; try done.
Qed.

(** ** Counting the messages that try an object *)

Lemma trying_count_insert ms i m p : trying_count (<[i := m]> ms) p = trying_count (delete i ms) p + tries p m.
Proof.
  unfold trying_count, tries. rewrite <- insert_delete_eq. destruct (decide _) as [Ht|Hn].
  - rewrite map_filter_insert_True by done. rewrite map_size_insert_None; [lia|]. apply map_lookup_filter_None. left. apply lookup_delete_eq.
  - rewrite map_filter_insert_False by done. rewrite delete_delete_eq. lia.
Qed.
Lemma trying_count_lookup ms i m p : ms !! i = Some m -> trying_count ms p = trying_count (delete i ms) p + tries p m.
Proof. intros Hm. rewrite <- (insert_id ms i m) at 1 by done. apply trying_count_insert. Qed.
Lemma trying_count_nonneg ms p : 0 <= trying_count ms p.
Proof. unfold trying_count. lia. Qed.
Lemma tries_range p m : 0 <= tries p m <= 1.
Proof. unfold tries. case_decide; lia. Qed.

Lemma pubkeys_inv_ext ms ms' bs l table :
  (forall p, trying_count ms' p = trying_count ms p) ->
  (forall i m p, ms' !! i = Some m -> ms_trying_pubkey_blob m = Some p -> is_Some (bs !! p)) ->
  pubkeys_inv ms bs l table -> pubkeys_inv ms' bs l table.
Proof.
  intros Hc Ht [Hl Hn Htr Hh Hg]. split; try done. intros p b Hb. rewrite Hc. by apply Hn.
Qed.
Lemma pubkeys_inv_put ms i m m' bs l table :
  ms !! i = Some m -> ms_trying_pubkey_blob m' = ms_trying_pubkey_blob m -> pubkeys_inv ms bs l table -> pubkeys_inv (<[i := m']> ms) bs l table.
Proof.
  intros Hm Et Hi. eapply pubkeys_inv_ext; [| |exact Hi].
  - intros p. rewrite trying_count_insert, (trying_count_lookup ms i m) by done. f_equal. unfold tries. by rewrite Et.
  - intros j mj p [[<- <-]|[Hne Hj]]%lookup_insert_Some Hp; [rewrite Et in Hp|]; by eapply (pk_tried _ _ _ _ Hi).
Qed.
Lemma pubkeys_inv_new ms i m bs l table :
  ms !! i = None -> ms_trying_pubkey_blob m = None -> pubkeys_inv ms bs l table -> pubkeys_inv (<[i := m]> ms) bs l table.
Proof.
  intros Hm Et Hi. eapply pubkeys_inv_ext; [| |exact Hi].
  - intros p. rewrite trying_count_insert, delete_id by done. unfold tries. rewrite Et, decide_False by done. lia.
  - intros j mj p [[<- <-]|[Hne Hj]]%lookup_insert_Some Hp; [congruence|]; by eapply (pk_tried _ _ _ _ Hi).
Qed.
Lemma pubkeys_inv_delete ms i m bs l table :
  ms !! i = Some m -> ms_trying_pubkey_blob m = None -> pubkeys_inv ms bs l table -> pubkeys_inv (delete i ms) bs l table.
Proof.
  intros Hm Et Hi. eapply pubkeys_inv_ext; [| |exact Hi].
  - intros p. rewrite (trying_count_lookup ms i m) by done. unfold tries. rewrite Et, decide_False by done. lia.
  - intros j mj p [Hne Hj]%lookup_delete_Some Hp. by eapply (pk_tried _ _ _ _ Hi).
Qed.

(** Releasing the object that a message tries, and taking another one. *)
Lemma pubkeys_inv_release ms i m m' p b bs l table :
  ms !! i = Some m -> ms_trying_pubkey_blob m = Some p -> ms_trying_pubkey_blob m' = None -> bs !! p = Some b ->
  pubkeys_inv ms bs l table ->
  pubkeys_inv (<[i := m']> ms) (if pb_ref_count (pb_add_ref (-1) b) <=? 0 then delete p bs else <[p := pb_add_ref (-1) b]> bs) l table.
Proof.
  intros Hm Et Et' Hb Hi. pose proof (pk_counted _ _ _ _ Hi p b Hb) as [Hc Hpos]. ms_cbn.
  assert (Hcount : forall q, trying_count (<[i := m']> ms) q = trying_count ms q - (if decide (q = p) then 1 else 0)).
  { intros q. rewrite trying_count_insert, (trying_count_lookup ms i m q) by done. unfold tries. rewrite Et, Et', (decide_False (P := None = Some q)) by done.
    repeat case_decide; simplify_eq; lia. }
  pose proof (trying_count_nonneg (<[i := m']> ms) p) as Hn. rewrite Hcount, decide_True in Hn by done.
  destruct (Z.leb_spec (pb_ref_count b + -1) 0) as [Hz|Hz].
  - destruct (pb_in_list b) eqn:El; [lia|]. split.
    + intros q. rewrite (pk_listed _ _ _ _ Hi q). split; intros (b' & Hb' & Hl'); exists b'; (split; [|done]).
      * rewrite lookup_delete_ne; [done|]. intros <-. congruence.
      * by apply lookup_delete_Some in Hb' as [_ ?].
    + intros q b' [Hne Hb']%lookup_delete_Some. rewrite Hcount, decide_False by done. rewrite Z.sub_0_r. by apply (pk_counted _ _ _ _ Hi).
    + intros j mj q [[<- <-]|[Hne Hj]]%lookup_insert_Some Hq; [congruence|]. destruct (decide (q = p)) as [->|Hqp].
      * pose proof (trying_count_lookup ms i m p Hm) as Ec1.
        pose proof (trying_count_lookup (delete i ms) j mj p ltac:(by rewrite lookup_delete_ne)) as Ec2.
        pose proof (trying_count_nonneg (delete j (delete i ms)) p). unfold tries in Ec1, Ec2. rewrite decide_True in Ec1 by done. rewrite decide_True in Ec2 by done. lia.
      * rewrite lookup_delete_ne by done. by eapply (pk_tried _ _ _ _ Hi).
    + intros q b' [Hne Hb']%lookup_delete_Some. by eapply (pk_hashed _ _ _ _ Hi).
    + eapply grouped_ext; [|exact (pk_grouped _ _ _ _ Hi)]. intros q Hq. unfold pubkey_tag. rewrite lookup_delete_ne; [done|].
      intros <-. apply (pk_listed _ _ _ _ Hi) in Hq as (b' & Hb' & Hl'). congruence.
  - assert (Hlk : forall q b', <[p := pb_add_ref (-1) b]> bs !! q = Some b' -> exists b0, bs !! q = Some b0 /\ pb_in_list b' = pb_in_list b0 /\
      pb_ripe_or_tag b' = pb_ripe_or_tag b0 /\ pb_hash b' = pb_hash b0 /\ pb_ref_count b' = pb_ref_count b0 - (if decide (q = p) then 1 else 0)).
    { intros q b' [[<- <-]|[Hne Hb']]%lookup_insert_Some.
      - exists b. rewrite decide_True by done. by split_and!.
      - exists b'. rewrite decide_False by done. split_and!; try done. lia. }
    split.
    + intros q. rewrite (pk_listed _ _ _ _ Hi q). destruct (decide (q = p)) as [->|Hqp].
      * rewrite lookup_insert_eq. split; [intros (b' & Hb' & Hl'); simplify_eq; by eexists|intros (b' & [= <-] & Hl'); by exists b].
      * by rewrite lookup_insert_ne.
    + intros q b' (b0 & Hb0 & E1 & _ & _ & E2)%Hlk. rewrite Hcount, E1, E2. destruct (pk_counted _ _ _ _ Hi q b0 Hb0) as [-> Hq].
      split; [lia|]. case_decide; [subst; simplify_eq; lia|lia].
    + intros j mj q [[<- <-]|[Hne Hj]]%lookup_insert_Some Hq; [congruence|]. apply lookup_insert_is_Some'. right. by eapply (pk_tried _ _ _ _ Hi).
    + intros q b' (b0 & Hb0 & _ & _ & E & _)%Hlk. rewrite E. by eapply (pk_hashed _ _ _ _ Hi).
    + eapply grouped_ext; [|exact (pk_grouped _ _ _ _ Hi)]. intros q Hq. unfold pubkey_tag. destruct (decide (q = p)) as [->|Hqp].
      * by rewrite lookup_insert_eq, Hb.
      * by rewrite lookup_insert_ne.
Qed.
Lemma pubkeys_inv_take ms i m m' p b bs l table :
  ms !! i = Some m -> ms_trying_pubkey_blob m = None -> ms_trying_pubkey_blob m' = Some p -> bs !! p = Some b ->
  pubkeys_inv ms bs l table -> pubkeys_inv (<[i := m']> ms) (<[p := pb_add_ref 1 b]> bs) l table.
Proof.
  intros Hm Et Et' Hb Hi.
  assert (Hcount : forall q, trying_count (<[i := m']> ms) q = trying_count ms q + (if decide (q = p) then 1 else 0)).
  { intros q. rewrite trying_count_insert, (trying_count_lookup ms i m q) by done. unfold tries. rewrite Et, Et', (decide_False (P := None = Some q)) by done.
    repeat case_decide; simplify_eq; lia. }
  assert (Hlk : forall q b', <[p := pb_add_ref 1 b]> bs !! q = Some b' -> exists b0, bs !! q = Some b0 /\ pb_in_list b' = pb_in_list b0 /\
    pb_hash b' = pb_hash b0 /\ pb_ref_count b' = pb_ref_count b0 + (if decide (q = p) then 1 else 0)).
  { intros q b' [[<- <-]|[Hne Hb']]%lookup_insert_Some.
    - exists b. rewrite decide_True by done. by split_and!.
    - exists b'. rewrite decide_False by done. split_and!; try done. lia. }
  split.
  - intros q. rewrite (pk_listed _ _ _ _ Hi q). destruct (decide (q = p)) as [->|Hqp].
    + rewrite lookup_insert_eq. split; [intros (b' & Hb' & Hl'); simplify_eq; by eexists|intros (b' & [= <-] & Hl'); by exists b].
    + by rewrite lookup_insert_ne.
  - intros q b' (b0 & Hb0 & E1 & _ & E2)%Hlk. rewrite Hcount, E1, E2. destruct (pk_counted _ _ _ _ Hi q b0 Hb0) as [-> Hq].
    split; [lia|]. case_decide; lia.
  - intros j mj q [[<- <-]|[Hne Hj]]%lookup_insert_Some Hq; apply lookup_insert_is_Some'; [left; congruence|right; by eapply (pk_tried _ _ _ _ Hi)].
  - intros q b' (b0 & Hb0 & _ & E & _)%Hlk. rewrite E. by eapply (pk_hashed _ _ _ _ Hi).
  - eapply grouped_ext; [|exact (pk_grouped _ _ _ _ Hi)]. intros q Hq. unfold pubkey_tag. destruct (decide (q = p)) as [->|Hqp].
    + by rewrite lookup_insert_eq, Hb.
    + by rewrite lookup_insert_ne.
Qed.

(** ** Changing one message, or one task *)

Lemma inv_change_message d d' dt i kr kr' :
  kr_inv d dt kr -> (d = None \/ d = Some i) -> (d' = None \/ d' = Some i) ->
  kr_started kr' = true -> network_reads (kr_nw kr') -> Forall key_wf (kr_keys kr') ->
  kr_tasks kr' = kr_tasks kr -> kr_task kr' = kr_task kr -> kr_cookie kr' = kr_cookie kr ->
  (forall j, j <> i -> kr_message kr' !! j = kr_message kr !! j) ->
  (NoDup (kr_messages kr') /\ forall j, j ∈ kr_messages kr' <-> is_Some (kr_message kr' !! j)) ->
  (forall m, kr_message kr' !! i = Some m -> static_ok m /\
     if decide (d' = Some i) then waits_nothing m else msg_state_ok (kr_crypto kr') (kr_pow kr') (kr_loads kr') i m) ->
  (kr_next kr <= kr_next kr')%nat -> bounded (kr_message kr') (kr_next kr') ->
  reowned (fun t => crypto_owner t = OwnMessage i) (kr_message kr' !! i ≫= ms_crypto_cookie) (kr_next kr) (kr_next kr') (kr_crypto kr) (kr_crypto kr') ->
  reowned (fun t => pow_owner t = OwnMessage i) (kr_message kr' !! i ≫= ms_pow_cookie) (kr_next kr) (kr_next kr') (kr_pow kr) (kr_pow kr') ->
  reowned (fun l => load_owner l = i) (kr_message kr' !! i ≫= ms_store_cookie) (kr_next kr) (kr_next kr') (kr_loads kr) (kr_loads kr') ->
  pubkeys_inv (kr_message kr') (kr_pubkey_blob kr') (kr_pubkey_blob_list kr') (kr_pubkey_blob_table kr') ->
  bounded (kr_pubkey_blob kr') (kr_next kr') -> kr_inv d' dt kr'.
Proof.
  intros Hi Hd Hd' Hst Hnw Hk Etl Et Ec Hm Hl Hmi Hn Hbm Rc Rp Rl Hpk Hbb.
  destruct (inv_bounded _ _ _ Hi) as (_ & Bt & Bk & _ & Bc & Bp & Bl).
  split; try done.
  - intros j m Hj. destruct (decide (j = i)) as [->|Hne]; [by apply Hmi|]. rewrite Hm in Hj by done.
    destruct (inv_messages _ _ _ Hi j m Hj) as [Hs Hw]. split; [done|].
    rewrite decide_False in Hw by (destruct Hd as [->| ->]; congruence). rewrite decide_False by (destruct Hd' as [->| ->]; congruence).
    eapply msg_state_ok_mono; [exact Hw|..]; intros c t _ Hc Ho; [apply (proj1 Rc)|apply (proj1 Rp)|apply (proj1 Rl)]; congruence.
  - rewrite Etl, Et. by apply (inv_task_list _ _ _ Hi).
  - intros j t. rewrite Et. intros Hj. pose proof (inv_tasks _ _ _ Hi j t Hj) as Hw. case_decide.
    + destruct Hw as [Hw1 Hw2]. split; [done|]. intros c Hc. destruct (Hw2 c Hc) as [Hn2 Hlt]. split; [|lia].
      destruct (kr_pow kr' !! c) as [pt|] eqn:E; [|done]. destruct (proj2 Rp c pt E) as [(_ & _ & ?)|[? _]]; [lia|congruence].
    + destruct Hw as [(c & ct & E1 & E2 & E3 & E4)|(c & pt & blob & E1 & E2 & E3 & E4 & E5 & E6)]; [left|right].
      * exists c, ct. split_and!; try done. apply (proj1 Rc); [done|congruence].
      * exists c, pt, blob. split_and!; try done; [|apply E6..]. apply (proj1 Rp); [done|]. unfold pow_owner. by rewrite E4.
  - intros j k. rewrite Ec. intros Hj. destruct (inv_cookies _ _ _ Hi j k Hj) as (ps & z & E). exists ps, z. by apply (proj1 Rc).
  - intros c t E. destruct (proj2 Rc c t E) as [(Ho & Hh & _)|[Eo Ho]]; [by rewrite Ho|].
    pose proof (inv_crypto _ _ _ Hi c t Eo) as Hb. destruct (crypto_owner t) as [j|j|j]; cbn [crypto_belongs crypto_held] in *.
    + rewrite Hm; [done|congruence].
    + by rewrite Et.
    + rewrite Ec. destruct Hb as [Hb|[Hb Hlt]]; [by left|]. right. split; [done|lia].
  - intros c t E. destruct (proj2 Rp c t E) as [(Ho & Hh & _)|[Eo Ho]]; [by rewrite Ho|].
    rewrite <- (inv_pow _ _ _ Hi c t Eo). destruct (pow_owner t) as [j|j|j]; cbn [pow_held]; [|by rewrite Et|done].
    rewrite Hm; [done|congruence].
  - intros c t E. destruct (proj2 Rl c t E) as [(Ho & Hh & _)|[Eo Ho]]; [by rewrite Ho|].
    rewrite <- (inv_loads _ _ _ Hi c t Eo). by rewrite Hm.
  - rewrite Et, Ec. split_and!; try done; eauto using bounded_le, reowned_bounded.
Qed.

Lemma inv_change_task d dt dt' i kr kr' :
  kr_inv d dt kr -> (dt = None \/ dt = Some i) -> (dt' = None \/ dt' = Some i) ->
  kr_started kr' = true -> network_reads (kr_nw kr') -> Forall key_wf (kr_keys kr') ->
  kr_messages kr' = kr_messages kr -> kr_message kr' = kr_message kr -> kr_cookie kr' = kr_cookie kr ->
  kr_loads kr' = kr_loads kr -> kr_pubkey_blob kr' = kr_pubkey_blob kr -> kr_pubkey_blob_list kr' = kr_pubkey_blob_list kr ->
  kr_pubkey_blob_table kr' = kr_pubkey_blob_table kr ->
  (forall j, j <> i -> kr_task kr' !! j = kr_task kr !! j) ->
  (NoDup (kr_tasks kr') /\ forall j, j ∈ kr_tasks kr' <-> is_Some (kr_task kr' !! j)) ->
  (forall t, kr_task kr' !! i = Some t ->
     if decide (dt' = Some i) then tk_crypto_cookie t = None /\ (forall c, tk_pow_cookie t = Some c -> kr_pow kr' !! c = None /\ (c < kr_next kr')%nat)
     else task_ok (kr_crypto kr') (kr_pow kr') i t) ->
  (kr_next kr <= kr_next kr')%nat -> bounded (kr_task kr') (kr_next kr') ->
  reowned (fun t => crypto_owner t = OwnTask i) (kr_task kr' !! i ≫= tk_crypto_cookie) (kr_next kr) (kr_next kr') (kr_crypto kr) (kr_crypto kr') ->
  reowned (fun t => pow_owner t = OwnTask i) (kr_task kr' !! i ≫= tk_pow_cookie) (kr_next kr) (kr_next kr') (kr_pow kr) (kr_pow kr') ->
  kr_inv d dt' kr'.
Proof.
  intros Hi Hd Hd' Hst Hnw Hk Eml Em Ec El Eb Ebl Ebt Ht Htl Hti Hn Hbt Rc Rp.
  destruct (inv_bounded _ _ _ Hi) as (Bm & Bt & Bk & Bb & Bc & Bp & Bl).
  split; try done.
  - rewrite Eml, Em. by apply (inv_message_list _ _ _ Hi).
  - intros j m. rewrite Em, El. intros Hj. destruct (inv_messages _ _ _ Hi j m Hj) as [Hs Hw]. split; [done|]. case_decide; [done|].
    eapply msg_state_ok_mono; [exact Hw|..]; intros c t _ Hc Ho; [apply (proj1 Rc)|apply (proj1 Rp)|done]; congruence.
  - intros j t Hj. destruct (decide (j = i)) as [->|Hne]; [by apply Hti|]. rewrite Ht in Hj by done.
    pose proof (inv_tasks _ _ _ Hi j t Hj) as Hw.
    rewrite decide_False in Hw by (destruct Hd as [->| ->]; congruence). rewrite decide_False by (destruct Hd' as [->| ->]; congruence).
    destruct Hw as [(c & ct & E1 & E2 & E3 & E4)|(c & pt & blob & E1 & E2 & E3 & E4 & E5 & E6)]; [left|right].
    + exists c, ct. split_and!; try done. apply (proj1 Rc); [done|congruence].
    + exists c, pt, blob. split_and!; try done; [|apply E6..]. apply (proj1 Rp); [done|]. unfold pow_owner. rewrite E4. congruence.
  - intros j k. rewrite Ec. intros Hj. destruct (inv_cookies _ _ _ Hi j k Hj) as (ps & z & E). exists ps, z. by apply (proj1 Rc).
  - intros c t E. destruct (proj2 Rc c t E) as [(Ho & Hh & _)|[Eo Ho]]; [by rewrite Ho|].
    pose proof (inv_crypto _ _ _ Hi c t Eo) as Hb. destruct (crypto_owner t) as [j|j|j]; cbn [crypto_belongs crypto_held] in *.
    + by rewrite Em.
    + rewrite Ht; [done|congruence].
    + rewrite Ec. destruct Hb as [Hb|[Hb Hlt]]; [by left|]. right. split; [done|lia].
  - intros c t E. destruct (proj2 Rp c t E) as [(Ho & Hh & _)|[Eo Ho]]; [by rewrite Ho|].
    rewrite <- (inv_pow _ _ _ Hi c t Eo). destruct (pow_owner t) as [j|j|j]; cbn [pow_held]; [by rewrite Em| |done].
    rewrite Ht; [done|congruence].
  - intros c t. rewrite El, Em. by apply (inv_loads _ _ _ Hi).
  - rewrite Em, Eb, Ebl, Ebt. by apply (inv_pubkeys _ _ _ Hi).
  - rewrite Em, Ec, Eb, El. split_and!; eauto using bounded_le, reowned_bounded.
Qed.

(** Nothing that the invariant speaks of changes but the keys, the random numbers, the
    effects and the counter of the contents. *)
Lemma inv_change_rest d dt kr keys random effects content_id :
  kr_inv d dt kr -> Forall key_wf keys ->
  kr_inv d dt (kr_set_keys keys (kr_set_random random (kr_set_effects effects (kr_set_next_message_content_id content_id kr)))).
Proof. intros [] Hk. by split. Qed.
End keyring_inv.

(** Which state the message is in follows from the request. *)
Ltac state_of Hw :=
  unfold msg_state_ok, waits_crypto, waits_pow, waits_load, waits_nothing in Hw;
  match type of Hw with match ms_state ?m with _ => _ end =>
    let st := fresh "st" in let Est := fresh "Est" in destruct (ms_state m) as [st|] eqn:Est; [|done]; destruct st end;
  open_all; simplify_eq/=.
