(* ===== verification/KeyringSteps.v ===== *)
(** * KeyringSteps: the functions of the key ring keep its invariant (for [Keyring])

    One lemma for each function: from a state that satisfies the invariant it returns,
    and the state that it returns satisfies it. A callback detaches its message or task
    from the request that was answered, and what it calls attaches it to the next one. *)

From S2P Require Import Prelude Endian Buffer NetAddress OpenSSL Proto ProtoSpec NetText KeyValue Pow Base58 Address Outgoings Ecc Keys HashTable Connection Crypto CryptoSpec Network Keyring KeyringMessage KeyringPubkeys KeyringInv.

Section keyring_steps.
Context `{DigestLaws} `{BigNumLaws} `{!Elliptic} `{!EllipticLaws} `{SymmetricLaws} `{Digest256} `{!Ecdsa} `{!ObjectNetwork}.

(** ** Detaching and attaching *)

Definition clear_cookies (m : ntb_keyring_message) : ntb_keyring_message :=
  ms_set_crypto_cookie None (ms_set_pow_cookie None (ms_set_store_cookie None m)).
Definition detach (i : nat) (m : ntb_keyring_message) (kr : ntb_keyring) : ntb_keyring :=
  put_message i (clear_cookies m) (kr_set_crypto (drop_request (ms_crypto_cookie m) (kr_crypto kr))
    (kr_set_pow (drop_request (ms_pow_cookie m) (kr_pow kr)) (kr_set_loads (drop_request (ms_store_cookie m) (kr_loads kr)) kr))).

Lemma put_message_id i m kr : kr_message kr !! i = Some m -> put_message i m kr = kr.
Proof. intros Hm. destruct kr. unfold put_message. kr_cbn. by rewrite insert_id. Qed.
Lemma put_put i m m' kr : put_message i m (put_message i m' kr) = put_message i m kr.
Proof. destruct kr. unfold put_message. kr_cbn. by rewrite insert_insert_eq. Qed.
Lemma the_message_put i m kr : the_message i (put_message i m kr) = Ok m.
Proof. unfold the_message. kr_cbn. by rewrite lookup_insert_eq. Qed.
Lemma update_put i f m kr : update_message i f (put_message i m kr) = Ok (put_message i (f m) kr).
Proof. unfold update_message. by rewrite the_message_put, bind_ret_l, put_put. Qed.
Lemma the_message_Some i m kr : kr_message kr !! i = Some m -> the_message i kr = Ok m.
Proof. unfold the_message. by intros ->. Qed.
Lemma update_message_Some i f m kr : kr_message kr !! i = Some m -> update_message i f kr = Ok (put_message i (f m) kr).
Proof. unfold update_message. intros Hm. by rewrite (the_message_Some i m), bind_ret_l. Qed.

Lemma clear_waits m : waits_nothing (clear_cookies m).
Proof. by split_and!. Qed.
Lemma clear_static m : static_ok m -> static_ok (clear_cookies m).
Proof. done. Qed.
Lemma clear_id m : waits_nothing m -> clear_cookies m = m.
Proof. destruct m. unfold waits_nothing, clear_cookies. ms_cbn. by intros (-> & -> & ->). Qed.

(** A list of messages in which one is put. *)
Lemma message_list_put d dt i m m' kr : kr_inv d dt kr -> kr_message kr !! i = Some m ->
  NoDup (kr_messages kr) /\ forall j, j ∈ kr_messages kr <-> is_Some (<[i := m']> (kr_message kr) !! j).
Proof.
  intros Hi Hm. destruct (inv_message_list _ _ _ Hi) as [Hn Hl]. split; [done|]. intros j. rewrite Hl. destruct (decide (j = i)) as [->|Hne].
  - rewrite lookup_insert_eq, Hm. by split; eexists.
  - by rewrite lookup_insert_ne.
Qed.
Lemma message_bounded d dt i m kr : kr_inv d dt kr -> kr_message kr !! i = Some m -> (i < kr_next kr)%nat.
Proof. intros Hi Hm. apply (proj1 (inv_bounded _ _ _ Hi)). by exists m. Qed.

(** A message that waits for nothing has no requests. *)
Lemma detached_owns_nothing d dt i m kr : kr_inv d dt kr -> kr_message kr !! i = Some m -> waits_nothing m ->
  (forall c t, kr_crypto kr !! c = Some t -> crypto_owner t <> OwnMessage i) /\
  (forall c t, kr_pow kr !! c = Some t -> pow_owner t <> OwnMessage i) /\
  (forall c l, kr_loads kr !! c = Some l -> load_owner l <> i).
Proof.
  intros Hi Hm (Wc & Wp & Wl). split_and!; intros c t Hc Ho.
  - pose proof (inv_crypto _ _ _ Hi c t Hc) as Hh. rewrite Ho in Hh. cbn in Hh. rewrite Hm in Hh. cbn in Hh. congruence.
  - pose proof (inv_pow _ _ _ Hi c t Hc) as Hh. rewrite Ho in Hh. cbn in Hh. rewrite Hm in Hh. cbn in Hh. congruence.
  - pose proof (inv_loads _ _ _ Hi c t Hc) as Hh. rewrite Ho in Hh. cbn in Hh. rewrite Hm in Hh. cbn in Hh. congruence.
Qed.

Lemma detach_inv dt i m kr : kr_inv None dt kr -> kr_message kr !! i = Some m -> kr_inv (Some i) dt (detach i m kr).
Proof.
  intros Hi Hm. destruct (inv_messages _ _ _ Hi i m Hm) as [Hs Hw]. cbn in Hw. destruct (msg_state_owner _ _ _ _ _ Hw) as (Oc & Op & Ol).
  apply (inv_change_message None (Some i) dt i kr); try done; unfold detach; kr_cbn; try (by apply Hi); try (by left); try (by right).
  - intros j Hj. by rewrite lookup_insert_ne.
  - by eapply message_list_put.
  - intros m'. rewrite lookup_insert_eq. intros [= <-]. rewrite decide_True by done. split; [done|apply clear_waits].
  - apply bounded_insert; [apply Hi|by eapply message_bounded].
  - apply reowned_drop.
    + intros c t Hc Ho. pose proof (inv_crypto _ _ _ Hi c t Hc) as Hh. rewrite Ho in Hh. cbn in Hh. by rewrite Hm in Hh.
    + intros c t Hc Ht. destruct (Oc c Hc) as (t' & Ht' & Ho). by simplify_eq.
  - apply reowned_drop.
    + intros c t Hc Ho. pose proof (inv_pow _ _ _ Hi c t Hc) as Hh. rewrite Ho in Hh. cbn in Hh. by rewrite Hm in Hh.
    + intros c t Hc Ht. destruct (Op c Hc) as (t' & Ht' & Ho). by simplify_eq.
  - apply reowned_drop.
    + intros c t Hc Ho. pose proof (inv_loads _ _ _ Hi c t Hc) as Hh. rewrite Ho in Hh. by rewrite Hm in Hh.
    + intros c t Hc Ht. destruct (Ol c Hc) as (t' & Ht' & Ho). by simplify_eq.
  - eapply pubkeys_inv_put; [exact Hm|done|apply Hi].
Qed.

(** A message that waits for nothing can be worked on. *)
Lemma detach_idle dt i m kr : kr_inv None dt kr -> kr_message kr !! i = Some m -> waits_nothing m -> kr_inv (Some i) dt kr.
Proof.
  intros Hi Hm Hw. pose proof (detach_inv dt i m kr Hi Hm) as Hd. pose proof Hw as (W1 & W2 & W3). unfold detach in Hd.
  rewrite clear_id in Hd by done. rewrite W1, W2, W3 in Hd. cbn [drop_request] in Hd.
  replace (put_message i m _) with kr in Hd; [done|]. destruct kr. unfold put_message. kr_cbn. by rewrite insert_id.
Qed.

(** What changes a detached message, and the state behind it. *)
Lemma change_detached dt i m m' d' kr kr' :
  kr_inv (Some i) dt kr -> kr_message kr !! i = Some m -> (d' = None \/ d' = Some i) ->
  kr_started kr' = kr_started kr -> kr_nw kr' = kr_nw kr -> kr_keys kr' = kr_keys kr -> kr_tasks kr' = kr_tasks kr ->
  kr_task kr' = kr_task kr -> kr_cookie kr' = kr_cookie kr -> kr_messages kr' = kr_messages kr ->
  kr_pubkey_blob kr' = kr_pubkey_blob kr -> kr_pubkey_blob_list kr' = kr_pubkey_blob_list kr -> kr_pubkey_blob_table kr' = kr_pubkey_blob_table kr ->
  kr_message kr' = <[i := m']> (kr_message kr) -> (kr_next kr <= kr_next kr')%nat ->
  static_ok m' -> ms_trying_pubkey_blob m' = ms_trying_pubkey_blob m ->
  (if decide (d' = Some i) then waits_nothing m' else msg_state_ok (kr_crypto kr') (kr_pow kr') (kr_loads kr') i m') ->
  reowned (fun t => crypto_owner t = OwnMessage i) (ms_crypto_cookie m') (kr_next kr) (kr_next kr') (kr_crypto kr) (kr_crypto kr') ->
  reowned (fun t => pow_owner t = OwnMessage i) (ms_pow_cookie m') (kr_next kr) (kr_next kr') (kr_pow kr) (kr_pow kr') ->
  reowned (fun l => load_owner l = i) (ms_store_cookie m') (kr_next kr) (kr_next kr') (kr_loads kr) (kr_loads kr') ->
  kr_inv d' dt kr'.
Proof.
  intros Hi Hm Hd' Es En Ek Etl Et Ec Eml Eb Ebl Ebt Em Hn Hs Htr Hw Rc Rp Rl.
  apply (inv_change_message (Some i) d' dt i kr); try done; rewrite ?Es, ?En, ?Ek, ?Em, ?Eml, ?Eb, ?Ebl, ?Ebt, ?lookup_insert_eq; try (by apply Hi); try (by right).
  - intros j Hj. by rewrite lookup_insert_ne.
  - by eapply message_list_put.
  - by intros ? [= <-].
  - apply bounded_insert; [eapply bounded_le; [apply Hi|done]|]. pose proof (message_bounded _ _ _ _ _ Hi Hm). lia.
  - exact Rc.
  - exact Rp.
  - exact Rl.
  - eapply pubkeys_inv_put; [exact Hm|done|apply Hi].
  - eapply bounded_le; [apply Hi|done].
Qed.

Lemma detached_waits dt i m kr : kr_inv (Some i) dt kr -> kr_message kr !! i = Some m -> static_ok m /\ waits_nothing m.
Proof. intros Hi Hm. destruct (inv_messages _ _ _ Hi i m Hm) as [Hs Hw]. by rewrite decide_True in Hw. Qed.

Lemma put_detached dt i m m' kr :
  kr_inv (Some i) dt kr -> kr_message kr !! i = Some m -> waits_nothing m' -> static_ok m' ->
  ms_trying_pubkey_blob m' = ms_trying_pubkey_blob m -> kr_inv (Some i) dt (put_message i m' kr).
Proof.
  intros Hi Hm Hw Hs Ht. destruct (detached_waits _ _ _ _ Hi Hm) as [_ Hwm]. destruct (detached_owns_nothing _ _ _ _ _ Hi Hm Hwm) as (Oc & Op & Ol).
  apply (change_detached dt i m m' (Some i) kr); try done; kr_cbn; solve [by right|lia|by rewrite decide_True|by apply reowned_same].
Qed.

(** The message goes on to a state that waits for nothing. *)
Lemma settle dt i m m' kr :
  kr_inv (Some i) dt kr -> kr_message kr !! i = Some m -> static_ok m' -> ms_trying_pubkey_blob m' = ms_trying_pubkey_blob m ->
  msg_state_ok (kr_crypto kr) (kr_pow kr) (kr_loads kr) i m' -> kr_inv None dt (put_message i m' kr).
Proof.
  intros Hi Hm Hs Ht Hw. destruct (detached_waits _ _ _ _ Hi Hm) as [_ Hwm]. destruct (detached_owns_nothing _ _ _ _ _ Hi Hm Hwm) as (Oc & Op & Ol).
  apply (change_detached dt i m m' None kr); try done; kr_cbn; solve [by left|lia|by apply reowned_same].
Qed.
Lemma attach_crypto dt i m m' t kr :
  kr_inv (Some i) dt kr -> kr_message kr !! i = Some m -> static_ok m' -> ms_trying_pubkey_blob m' = ms_trying_pubkey_blob m ->
  ms_crypto_cookie m' = Some (kr_next kr) -> crypto_owner t = OwnMessage i ->
  msg_state_ok (<[kr_next kr := t]> (kr_crypto kr)) (kr_pow kr) (kr_loads kr) i m' ->
  kr_inv None dt (put_message i m' (kr_set_crypto (<[kr_next kr := t]> (kr_crypto kr)) (kr_set_next (S (kr_next kr)) kr))).
Proof.
  intros Hi Hm Hs Ht Ec Ho Hw. destruct (detached_waits _ _ _ _ Hi Hm) as [_ Hwm]. destruct (detached_owns_nothing _ _ _ _ _ Hi Hm Hwm) as (Oc & Op & Ol).
  apply (change_detached dt i m m' None kr); try done; kr_cbn; try solve [by left|lia|by apply reowned_same].
  rewrite Ec. apply reowned_new; [done|done|lia|apply Hi].
Qed.
Lemma attach_pow dt i m m' t kr :
  kr_inv (Some i) dt kr -> kr_message kr !! i = Some m -> static_ok m' -> ms_trying_pubkey_blob m' = ms_trying_pubkey_blob m ->
  ms_pow_cookie m' = Some (kr_next kr) -> pow_owner t = OwnMessage i ->
  msg_state_ok (kr_crypto kr) (<[kr_next kr := t]> (kr_pow kr)) (kr_loads kr) i m' ->
  kr_inv None dt (put_message i m' (kr_set_pow (<[kr_next kr := t]> (kr_pow kr)) (kr_set_next (S (kr_next kr)) kr))).
Proof.
  intros Hi Hm Hs Ht Ec Ho Hw. destruct (detached_waits _ _ _ _ Hi Hm) as [_ Hwm]. destruct (detached_owns_nothing _ _ _ _ _ Hi Hm Hwm) as (Oc & Op & Ol).
  apply (change_detached dt i m m' None kr); try done; kr_cbn; try solve [by left|lia|by apply reowned_same].
  rewrite Ec. apply reowned_new; [done|done|lia|apply Hi].
Qed.
Lemma attach_load dt i m m' l kr :
  kr_inv (Some i) dt kr -> kr_message kr !! i = Some m -> static_ok m' -> ms_trying_pubkey_blob m' = ms_trying_pubkey_blob m ->
  ms_store_cookie m' = Some (kr_next kr) -> load_owner l = i ->
  msg_state_ok (kr_crypto kr) (kr_pow kr) (<[kr_next kr := l]> (kr_loads kr)) i m' ->
  kr_inv None dt (put_message i m' (kr_set_loads (<[kr_next kr := l]> (kr_loads kr)) (kr_set_next (S (kr_next kr)) kr))).
Proof.
  intros Hi Hm Hs Ht Ec Ho Hw. destruct (detached_waits _ _ _ _ Hi Hm) as [_ Hwm]. destruct (detached_owns_nothing _ _ _ _ _ Hi Hm Hwm) as (Oc & Op & Ol).
  apply (change_detached dt i m m' None kr); try done; kr_cbn; try solve [by left|lia|by apply reowned_same].
  rewrite Ec. apply reowned_new; [done|done|lia|apply Hi].
Qed.

(** What never changes in a message, but for the data of its acknowledgement that is
    generated. *)
Definition msg_identity (m : ntb_keyring_message) : ntb_key * ntb_address * list Z * Z * Z * option (list Z) :=
  (ms_from_key m, ms_to_address m, ms_ripe_or_tag m, ms_content_id m, ms_content_encoding m, ms_ackdata m).

(** What the functions for one message leave alone. *)
Definition frame_message (i : nat) (kr kr' : ntb_keyring) : Prop :=
  kr_nw kr' = kr_nw kr /\ kr_keys kr' = kr_keys kr /\ kr_task kr' = kr_task kr /\ kr_messages kr' = kr_messages kr /\ kr_pubkey_blob_list kr' = kr_pubkey_blob_list kr /\
  (forall j, j <> i -> kr_message kr' !! j = kr_message kr !! j) /\ msg_identity <$> kr_message kr' !! i = msg_identity <$> kr_message kr !! i /\
  (forall p b, p ∈ kr_pubkey_blob_list kr -> kr_pubkey_blob kr !! p = Some b ->
     exists b', kr_pubkey_blob kr' !! p = Some b' /\ pb_hash b' = pb_hash b).

Lemma frame_trans i kr1 kr2 kr3 : frame_message i kr1 kr2 -> frame_message i kr2 kr3 -> frame_message i kr1 kr3.
Proof.
  intros (A1 & AK & A0 & A2 & A3 & A4 & A5 & A6) (B1 & BK & B0 & B2 & B3 & B4 & B5 & B6). split_and!; try congruence; try done.
  - intros j Hj. by rewrite B4, A4.
  - intros p b Hp Hb. destruct (A6 p b Hp Hb) as (b' & Hb' & E). rewrite <- A3 in Hp. destruct (B6 p b' Hp Hb') as (b2 & Hb2 & E2).
    exists b2. split; [done|congruence].
Qed.
(** For the updates that keep the objects of public keys. *)
Lemma frame_same i m m' kr kr' :
  kr_message kr' = <[i := m']> (kr_message kr) -> kr_message kr !! i = Some m -> msg_identity m' = msg_identity m ->
  kr_nw kr' = kr_nw kr -> kr_keys kr' = kr_keys kr -> kr_task kr' = kr_task kr -> kr_messages kr' = kr_messages kr -> kr_pubkey_blob_list kr' = kr_pubkey_blob_list kr ->
  kr_pubkey_blob kr' = kr_pubkey_blob kr -> frame_message i kr kr'.
Proof.
  intros A5 Hm Hid A1 AK A0 A2 A3 A4. split_and!; try done; rewrite ?A5.
  - intros j Hj. by rewrite lookup_insert_ne.
  - rewrite lookup_insert_eq, Hm. cbn. by rewrite Hid.
  - intros p b _ Hb. rewrite A4. by exists b.
Qed.
Lemma frame_put i m m' kr : kr_message kr !! i = Some m -> msg_identity m' = msg_identity m -> frame_message i kr (put_message i m' kr).
Proof. intros Hm Hid. by apply (frame_same i m m'). Qed.
Lemma frame_refl i m kr : kr_message kr !! i = Some m -> frame_message i kr kr.
Proof. intros Hm. rewrite <- (put_message_id i m kr Hm) at 2. by apply (frame_put i m). Qed.

(** ** Objects of public keys that are tried *)

Lemma release_spec dt i m p kr :
  kr_inv (Some i) dt kr -> kr_message kr !! i = Some m -> ms_trying_pubkey_blob m = Some p ->
  exists kr', unref_pubkey_blob p kr = Ok kr' /\ kr_message kr' = kr_message kr /\
    let kr'' := put_message i (ms_set_trying_pubkey_blob None m) kr' in
    kr_inv (Some i) dt kr'' /\ frame_message i kr kr''.
Proof.
  intros Hi Hm Ht. destruct (pk_tried _ _ _ _ (inv_pubkeys _ _ _ Hi) i m p Hm Ht) as [b Hb].
  unfold unref_pubkey_blob, the_pubkey_blob. rewrite Hb. cbn [need]. rewrite bind_ret_l. cbn zeta.
  destruct (detached_waits _ _ _ _ Hi Hm) as [Hs Hwm]. destruct (detached_owns_nothing _ _ _ _ _ Hi Hm Hwm) as (Oc & Op & Ol).
  pose proof (pubkeys_inv_release (kr_message kr) i m (ms_set_trying_pubkey_blob None m) p b _ _ _ Hm Ht eq_refl Hb (inv_pubkeys _ _ _ Hi)) as Hpk.
  set (bs := if pb_ref_count (pb_add_ref (-1) b) <=? 0 then _ else _) in Hpk.
  assert (E : (if pb_ref_count (pb_add_ref (-1) b) <=? 0 then kr_set_pubkey_blob (delete p (kr_pubkey_blob kr)) kr
               else put_pubkey_blob p (pb_add_ref (-1) b) kr) = kr_set_pubkey_blob bs kr) by (unfold bs; by case_match).
  rewrite E. exists (kr_set_pubkey_blob bs kr). split; [done|]. split; [done|].
  assert (Hbb : bounded bs (kr_next kr)).
  { unfold bs. case_match; [apply bounded_delete, Hi|]. apply bounded_insert; [apply Hi|]. destruct (inv_bounded _ _ _ Hi) as (_ & _ & _ & Bb & _).
    apply Bb. by exists b. }
  split.
  - apply (inv_change_message (Some i) (Some i) dt i kr); try done; kr_cbn; rewrite ?lookup_insert_eq; try (by apply Hi); try (by right).
    + intros j Hj. by rewrite lookup_insert_ne.
    + by eapply message_list_put.
    + intros ? [= <-]. by rewrite decide_True.
    + apply bounded_insert; [apply Hi|]. by eapply message_bounded.
    + by apply reowned_same.
    + by apply reowned_same.
    + by apply reowned_same.
  - split_and!; kr_cbn; try done.
    + intros j Hj. by rewrite lookup_insert_ne.
    + by rewrite lookup_insert_eq, Hm.
    + intros q b' Hq Hb'. apply (pk_listed _ _ _ _ (inv_pubkeys _ _ _ Hi)) in Hq as (b0 & Hb0 & El). simplify_eq. unfold bs.
      destruct (decide (q = p)) as [->|Hne].
      * assert (b0 = b) as -> by congruence. destruct (pk_counted _ _ _ _ (inv_pubkeys _ _ _ Hi) p b Hb) as [Ec _]. rewrite El in Ec.
        pose proof (trying_count_lookup (kr_message kr) i m p Hm) as Et. unfold tries in Et. rewrite decide_True in Et by done.
        pose proof (trying_count_nonneg (delete i (kr_message kr)) p). ms_cbn. rewrite (proj2 (Z.leb_gt _ _)) by lia. rewrite lookup_insert_eq. by eexists.
      * exists b0. split; [|done]. case_match; [by rewrite lookup_delete_ne|by rewrite lookup_insert_ne].
Qed.

(** ** Cancelling *)

Lemma cancel_crypto_opt i m kr :
  (forall c, ms_crypto_cookie m = Some c -> is_Some (kr_crypto kr !! c)) ->
  (match ms_crypto_cookie m with
   | Some c => kr ← ntb_crypto_cancel_task c (put_message i m kr); update_message i (ms_set_crypto_cookie None) kr
   | None => Ok (put_message i m kr)
   end) = Ok (put_message i (ms_set_crypto_cookie None m) (kr_set_crypto (drop_request (ms_crypto_cookie m) (kr_crypto kr)) kr)).
Proof.
  intros Hc. destruct (ms_crypto_cookie m) as [c|] eqn:E.
  - destruct (Hc c eq_refl) as [t Ht]. unfold ntb_crypto_cancel_task. kr_cbn. rewrite Ht. cbn [need]. rewrite !bind_ret_l.
    exact (update_put i (ms_set_crypto_cookie None) m (kr_set_crypto (delete c (kr_crypto kr)) kr)).
  - cbn [drop_request]. f_equal. destruct m, kr. ms_cbn. by subst.
Qed.
Lemma cancel_pow_opt i m kr :
  (forall c, ms_pow_cookie m = Some c -> is_Some (kr_pow kr !! c)) ->
  (match ms_pow_cookie m with
   | Some c => kr ← ntb_pow_cancel c (put_message i m kr); update_message i (ms_set_pow_cookie None) kr
   | None => Ok (put_message i m kr)
   end) = Ok (put_message i (ms_set_pow_cookie None m) (kr_set_pow (drop_request (ms_pow_cookie m) (kr_pow kr)) kr)).
Proof.
  intros Hc. destruct (ms_pow_cookie m) as [c|] eqn:E.
  - destruct (Hc c eq_refl) as [t Ht]. unfold ntb_pow_cancel. kr_cbn. rewrite Ht. cbn [need]. rewrite !bind_ret_l.
    exact (update_put i (ms_set_pow_cookie None) m (kr_set_pow (delete c (kr_pow kr)) kr)).
  - cbn [drop_request]. f_equal. destruct m, kr. ms_cbn. by subst.
Qed.
Lemma cancel_load_opt i m kr :
  (forall c, ms_store_cookie m = Some c -> is_Some (kr_loads kr !! c)) ->
  (match ms_store_cookie m with
   | Some c => kr ← ntb_store_cancel_task c (put_message i m kr); update_message i (ms_set_store_cookie None) kr
   | None => Ok (put_message i m kr)
   end) = Ok (put_message i (ms_set_store_cookie None m) (kr_set_loads (drop_request (ms_store_cookie m) (kr_loads kr)) kr)).
Proof.
  intros Hc. destruct (ms_store_cookie m) as [c|] eqn:E.
  - destruct (Hc c eq_refl) as [t Ht]. unfold ntb_store_cancel_task. kr_cbn. rewrite Ht. cbn [need]. rewrite !bind_ret_l.
    exact (update_put i (ms_set_store_cookie None) m (kr_set_loads (delete c (kr_loads kr)) kr)).
  - cbn [drop_request]. f_equal. destruct m, kr. ms_cbn. by subst.
Qed.

Lemma detach_any d dt i m kr : kr_inv d dt kr -> (d = None \/ d = Some i) -> kr_message kr !! i = Some m -> kr_inv (Some i) dt (detach i m kr).
Proof.
  intros Hi [->| ->] Hm; [by apply detach_inv|]. destruct (detached_waits _ _ _ _ Hi Hm) as [_ Hw]. pose proof Hw as (W1 & W2 & W3).
  unfold detach. rewrite clear_id, W1, W2, W3 by done. cbn [drop_request]. replace (put_message i m _) with kr; [done|].
  destruct kr. unfold put_message. kr_cbn. by rewrite insert_id.
Qed.

Lemma message_owner d dt i m kr : kr_inv d dt kr -> kr_message kr !! i = Some m ->
  (forall c, ms_crypto_cookie m = Some c -> is_Some (kr_crypto kr !! c)) /\
  (forall c, ms_pow_cookie m = Some c -> is_Some (kr_pow kr !! c)) /\
  (forall c, ms_store_cookie m = Some c -> is_Some (kr_loads kr !! c)).
Proof.
  intros Hi Hm. destruct (inv_messages _ _ _ Hi i m Hm) as [_ Hw]. case_decide.
  - destruct Hw as (W1 & W2 & W3). split_and!; intros c E; congruence.
  - destruct (msg_state_owner _ _ _ _ _ Hw) as (Oc & Op & Ol).
    split_and!; intros c E; [destruct (Oc c E) as (t & Et & _)|destruct (Op c E) as (t & Et & _)|destruct (Ol c E) as (t & Et & _)]; by exists t.
Qed.

Definition cancelled (m : ntb_keyring_message) : ntb_keyring_message := ms_set_trying_pubkey_blob None (ms_set_blob None (clear_cookies m)).

Lemma cancel_requests_spec d dt i m kr :
  kr_inv d dt kr -> (d = None \/ d = Some i) -> kr_message kr !! i = Some m ->
  exists kr', cancel_message_tasks i kr = Ok kr' /\ kr_inv (Some i) dt kr' /\ kr_message kr' !! i = Some (cancelled m) /\ frame_message i kr kr'.
Proof.
  intros Hi Hd Hm. destruct (message_owner _ _ _ _ _ Hi Hm) as (Oc & Op & Ol). pose proof (detach_any _ _ _ _ _ Hi Hd Hm) as Hdet.
  unfold cancel_message_tasks. rewrite (the_message_Some i m), bind_ret_l by done.
  pose proof (cancel_crypto_opt i m kr Oc) as Ec. rewrite (put_message_id i m kr Hm) in Ec. rewrite Ec, bind_ret_l. clear Ec.
  pose proof (cancel_pow_opt i (ms_set_crypto_cookie None m) (kr_set_crypto (drop_request (ms_crypto_cookie m) (kr_crypto kr)) kr)) as Ep.
  ms_cbn. rewrite Ep, bind_ret_l by done. clear Ep.
  match goal with |- context [put_message i (ms_set_pow_cookie None ?m1) ?kr1] =>
    pose proof (cancel_load_opt i (ms_set_pow_cookie None m1) kr1) as El end.
  ms_cbn. rewrite El, bind_ret_l by done. clear El.
  match goal with |- context [put_message i (ms_set_store_cookie None ?m1) ?kr1] =>
    replace (put_message i (ms_set_store_cookie None m1) kr1) with (detach i m kr) by (destruct m, kr; reflexivity) end.
  assert (Hm1 : kr_message (detach i m kr) !! i = Some (clear_cookies m)) by (unfold detach; kr_cbn; apply lookup_insert_eq).
  rewrite (update_message_Some i _ (clear_cookies m)), bind_ret_l by done.
  set (kr2 := put_message i (ms_set_blob None (clear_cookies m)) (detach i m kr)).
  assert (Hi2 : kr_inv (Some i) dt kr2) by (eapply put_detached; [done|exact Hm1|apply clear_waits|apply clear_static; by apply (inv_messages _ _ _ Hi i m)|done]).
  assert (Hm2 : kr_message kr2 !! i = Some (ms_set_blob None (clear_cookies m))) by (unfold kr2; kr_cbn; apply lookup_insert_eq).
  assert (F2 : frame_message i kr kr2).
  { apply (frame_same i m (ms_set_blob None (clear_cookies m))); try done. unfold kr2, detach. kr_cbn. by rewrite insert_insert_eq. }
  destruct (ms_trying_pubkey_blob m) as [p|] eqn:Et.
  - destruct (release_spec dt i _ p kr2 Hi2 Hm2 Et) as (kr3 & -> & Em3 & Hi3 & F3). rewrite bind_ret_l.
    rewrite (update_message_Some i _ (ms_set_blob None (clear_cookies m))) by (by rewrite Em3). eexists. split; [reflexivity|].
    split; [done|]. split; [kr_cbn; apply lookup_insert_eq|]. by eapply frame_trans.
  - exists kr2. split; [done|]. split; [done|]. split; [|done]. rewrite Hm2. unfold cancelled. f_equal. destruct m. ms_cbn. by subst.
Qed.

Lemma free_message_spec d dt i m kr :
  kr_inv d dt kr -> (d = None \/ d = Some i) -> kr_message kr !! i = Some m ->
  exists kr', free_message i kr = Ok kr' /\ kr_inv None dt kr' /\ kr_nw kr' = kr_nw kr /\
    kr_messages kr' = filter (.≠ i) (kr_messages kr) /\ kr_message kr' !! i = None /\ (forall j, j <> i -> kr_message kr' !! j = kr_message kr !! j).
Proof.
  intros Hi Hd Hm. unfold free_message. destruct (cancel_requests_spec _ _ _ _ _ Hi Hd Hm) as (kr1 & -> & Hi1 & Hm1 & (F1 & _ & _ & F2 & F3 & F4 & _ & _)). rewrite bind_ret_l.
  eexists. split; [reflexivity|]. destruct (detached_waits _ _ _ _ Hi1 Hm1) as [_ Hwm].
  destruct (detached_owns_nothing _ _ _ _ _ Hi1 Hm1 Hwm) as (Oc & Op & Ol). split.
  - apply (inv_change_message (Some i) None dt i kr1); try done; kr_cbn; rewrite ?lookup_delete_eq; try (by apply Hi1); try (by left); try (by right); try (by intros ? [=]).
    + intros j Hj. by rewrite lookup_delete_ne.
    + destruct (inv_message_list _ _ _ Hi1) as [Hn Hl]. split; [by apply NoDup_filter|]. intros j. rewrite list_elem_of_filter, Hl.
      destruct (decide (j = i)) as [->|Hj]; [rewrite lookup_delete_eq|rewrite lookup_delete_ne by done].
      * split; [by intros [? _]|by intros [? [=]]].
      * split; [by intros [_ ?]|by split].
    + apply bounded_delete, Hi1.
    + by apply reowned_same.
    + by apply reowned_same.
    + by apply reowned_same.
    + eapply pubkeys_inv_delete; [exact Hm1|done|apply Hi1].
  - kr_cbn. split_and!; [done|by rewrite F2|apply lookup_delete_eq|]. intros j Hj. by rewrite lookup_delete_ne, F4.
Qed.

(** ** Requests *)

(** The clock does not leave the times that a header can have. *)
Definition clock_ok (wall : Z) : Prop := 1000 <= wall < 2 ^ 32 - 1000.

Lemma random_range r : - 900 <= Z.rem r 600 - 300 <= 300.
Proof. pose proof (Z.rem_bound_abs r 600 ltac:(lia)). lia. Qed.

Lemma pow_calculate_spec payload extra trials cb kr :
  kr_started kr = true -> zlen payload < 2 ^ 29 -> NTB_PROTO_MIN_EXTRA_BYTES <= extra < 2 ^ 31 -> NTB_PROTO_MIN_NONCE_TRIALS_PER_BYTE <= trials < 2 ^ 31 ->
  ntb_pow_calculate payload extra trials cb kr =
  Ok (kr_next kr, kr_set_pow (<[kr_next kr := PowTask payload extra trials cb]> (kr_pow kr)) (kr_set_next (S (kr_next kr)) kr)).
Proof.
  unfold NTB_PROTO_MIN_EXTRA_BYTES, NTB_PROTO_MIN_NONCE_TRIALS_PER_BYTE. intros Hs Hz He Ht. zlen_pose. unfold ntb_pow_calculate. rewrite Hs, u64_small by lia.
  rewrite calculate_target_spec, bind_ret_l; [done|lia|lia|lia|nia].
Qed.
Lemma pow_minimum payload cb kr :
  kr_started kr = true -> zlen payload < 2 ^ 29 ->
  ntb_pow_calculate payload NTB_PROTO_MIN_EXTRA_BYTES NTB_PROTO_MIN_NONCE_TRIALS_PER_BYTE cb kr =
  Ok (kr_next kr, kr_set_pow (<[kr_next kr := PowTask payload NTB_PROTO_MIN_EXTRA_BYTES NTB_PROTO_MIN_NONCE_TRIALS_PER_BYTE cb]> (kr_pow kr))
        (kr_set_next (S (kr_next kr)) kr)).
Proof. intros Hs Hz. apply pow_calculate_spec; [done..|vm_compute; split; congruence|vm_compute; split; congruence]. Qed.
Lemma crypto_queue_spec t kr :
  kr_started kr = true ->
  ntb_crypto_queue t kr = Ok (kr_next kr, kr_set_crypto (<[kr_next kr := t]> (kr_crypto kr)) (kr_set_next (S (kr_next kr)) kr)).
Proof. unfold ntb_crypto_queue. by intros ->. Qed.

Lemma inv_set_random d dt r kr : kr_inv d dt kr -> kr_inv d dt (kr_set_random r kr).
Proof. intros []. by split. Qed.
Lemma inv_set_effects d dt e kr : kr_inv d dt kr -> kr_inv d dt (kr_set_effects e kr).
Proof. intros []. by split. Qed.
Lemma inv_set_keys d dt ks kr : kr_inv d dt kr -> Forall key_wf ks -> kr_inv d dt (kr_set_keys ks kr).
Proof. intros [] ?. by split. Qed.

(** Reading the memory of a blob whose nonce is not set. *)
Lemma nonce_blob_read type blob payload : nonce_blob type blob payload -> blob_read 8 (zlen (db_cells blob) - 8) blob = Ok payload.
Proof.
  intros ((room & Hr & ->) & _). cbn [db_cells]. rewrite <- (app_nil_r (Some <$> payload)) at 2. apply blob_read_spec; [done|].
  rewrite zlen_app, zlen_fmap. lia.
Qed.
Lemma nonce_blob_write type blob payload nonce : nonce_blob type blob payload -> zlen nonce = 8 ->
  blob_write 0 nonce blob = Ok (DynBlob type (Some <$> nonce ++ payload)).
Proof.
  intros ((room & Hr & ->) & _) Hn. pose proof (blob_write_spec type [] room (Some <$> payload) nonce 0 eq_refl ltac:(lia)) as E.
  cbn [app] in E. by rewrite E, fmap_app.
Qed.

(** ** Asking for the public key, and posting *)

Lemma send_getpubkey_request_spec dt i m wall kr :
  kr_inv (Some i) dt kr -> kr_message kr !! i = Some m -> clock_ok wall -> ms_blob m = None -> is_Some (ms_ackdata m) ->
  exists kr', send_getpubkey_request wall i kr = Ok kr' /\ kr_inv None dt kr' /\ frame_message i kr kr'.
Proof.
  intros Hi Hm Hw Hb Ha. destruct (detached_waits _ _ _ _ Hi Hm) as [Hs Hwm]. unfold send_getpubkey_request.
  rewrite (the_message_Some i m), bind_ret_l by done. case_match.
  { eexists. split; [reflexivity|]. split; [|eapply frame_put; [exact Hm|done]]. eapply settle; [exact Hi|exact Hm|done|done|]. unfold msg_state_ok. ms_cbn. by split_and!. }
  unfold random_offset. pose proof (random_range (hd 0 (kr_random kr))) as Hr. set (off := Z.rem _ _ - 300) in *. cbn iota zeta.
  destruct (build_getpubkey_spec (wall + off) (ms_to_address m)) as (name & room & Hn & Hnb & Hnz & Hrz & E); [by destruct Hs as [[_ ?] _]|].
  ms_cbn. rewrite E, bind_ret_l. set (payload := getpubkey_text _ _ _) in *. unfold clock_ok in Hw.
  assert (Hto : address_wf (ms_to_address m)) by (by destruct Hs as [[_ ?] _]).
  assert (Hnonce : nonce_blob NTB_PROTO_INV_TYPE_GETPUBKEY (DynBlob NTB_PROTO_INV_TYPE_GETPUBKEY (room ++ (Some <$> payload))) payload).
  { split; [by exists room|]. pose proof (zlen_enc_var_int (addr_version (ms_to_address m))). pose proof (zlen_enc_var_int (addr_stream (ms_to_address m))).
    destruct Hto as ((Hv & Hv') & (Hst & Hst') & _). unfold payload, getpubkey_text. split.
    - rewrite !bytes_app. split_and!; [apply bytes_be_split|apply bytes_enc_var_int; lia|apply bytes_enc_var_int; lia|done].
    - rewrite !zlen_app, zlen_be_split. lia. }
  rewrite (nonce_blob_read _ _ _ Hnonce), bind_ret_l. destruct Hnonce as (Hex & Hpb & Hpz).
  rewrite pow_minimum, bind_ret_l by (done || apply Hi). eexists. split; [reflexivity|].
  split; [|eapply frame_same; [reflexivity|exact Hm|done..]].
  apply (attach_pow dt i m _ _ (kr_set_random (tl (kr_random kr)) kr)); [by apply inv_set_random|exact Hm|exact Hs|reflexivity|reflexivity|reflexivity|]. unfold msg_state_ok. ms_cbn. split; [done|].
  eexists _, _. split_and!; [apply Hwm|done|apply Hwm|apply lookup_insert_eq|done| |].
  - intros nonce Hl Hnb'. destruct (getpubkey_header_spec nonce (wall + off) (ms_to_address m) name Hl Hnb' Hto) as (n & t & En); [lia|lia|].
    eexists _, _. split; [exact En|]. zlen_pose. cbn [pt_payload]. unfold getpubkey_text. rewrite !zlen_app. zlen_pose. lia.
  - eexists. split; [done|]. split; [done|]. done.
Qed.

Lemma post_message_spec dt i m wall kr :
  kr_inv (Some i) dt kr -> kr_message kr !! i = Some m -> ms_blob m = None -> is_Some (ms_ackdata m) -> is_Some (ms_to_key m) ->
  exists kr', post_message wall i kr = Ok kr' /\ kr_inv None dt kr' /\ frame_message i kr kr'.
Proof.
  intros Hi Hm Hb Ha Hk. destruct (detached_waits _ _ _ _ Hi Hm) as [Hs Hwm]. unfold post_message. rewrite (the_message_Some i m), bind_ret_l by done. case_match.
  { eexists. split; [reflexivity|]. split; [|eapply frame_put; [exact Hm|done]]. eapply settle; [exact Hi|exact Hm|done|done|]. unfold msg_state_ok. ms_cbn. by split_and!. }
  unfold ntb_store_load, fresh. cbn iota zeta. eexists. split; [reflexivity|]. split; [|eapply frame_same; [reflexivity|exact Hm|done..]].
  apply (attach_load dt i m _ _ kr); [exact Hi|exact Hm|exact Hs|reflexivity|reflexivity|reflexivity|]. unfold msg_state_ok. ms_cbn. split; [done|]. split_and!; [|done|done].
  eexists _, _. split_and!; [apply Hwm|apply Hwm|done|apply lookup_insert_eq|done].
Qed.

(** ** Trying the objects of public keys *)

Lemma take_blob_spec dt i m p b kr :
  kr_inv (Some i) dt kr -> kr_message kr !! i = Some m -> ms_trying_pubkey_blob m = None -> kr_pubkey_blob kr !! p = Some b ->
  let kr' := put_pubkey_blob p (pb_add_ref 1 b) (put_message i (ms_set_trying_pubkey_blob (Some p) m) kr) in
  kr_inv (Some i) dt kr' /\ frame_message i kr kr'.
Proof.
  intros Hi Hm Ht Hb kr'. destruct (detached_waits _ _ _ _ Hi Hm) as [Hs Hwm]. destruct (detached_owns_nothing _ _ _ _ _ Hi Hm Hwm) as (Oc & Op & Ol). split.
  - apply (inv_change_message (Some i) (Some i) dt i kr); try done; unfold kr'; kr_cbn; rewrite ?lookup_insert_eq; try (by apply Hi); try (by right).
    + intros j Hj. by rewrite lookup_insert_ne.
    + by eapply message_list_put.
    + intros ? [= <-]. by rewrite decide_True.
    + apply bounded_insert; [apply Hi|]. by eapply message_bounded.
    + by apply reowned_same.
    + by apply reowned_same.
    + by apply reowned_same.
    + by eapply pubkeys_inv_take; [..|apply Hi].
    + destruct (inv_bounded _ _ _ Hi) as (_ & _ & _ & Bb & _). apply bounded_insert; [done|]. apply Bb. by exists b.
  - unfold kr'. split_and!; kr_cbn; try done.
    + intros j Hj. by rewrite lookup_insert_ne.
    + by rewrite lookup_insert_eq, Hm.
    + intros q b' Hq Hb'. destruct (decide (q = p)) as [->|Hne]; [rewrite lookup_insert_eq|rewrite lookup_insert_ne by done]; [|by exists b'].
      eexists. split; [reflexivity|]. ms_cbn. congruence.
Qed.

Lemma try_blob_spec dt i m blob kr :
  kr_inv (Some i) dt kr -> kr_message kr !! i = Some m -> ms_blob m = None -> is_Some (ms_ackdata m) -> is_Some (ms_trying_pubkey_blob m) ->
  exists kr', try_blob_for_message i blob kr = Ok kr' /\ kr_inv None dt kr' /\ frame_message i kr kr'.
Proof.
  intros Hi Hm Hb Ha Ht. destruct (detached_waits _ _ _ _ Hi Hm) as [Hs Hwm]. unfold try_blob_for_message.
  rewrite (update_message_Some i _ m), bind_ret_l by done. rewrite the_message_put, bind_ret_l. rewrite crypto_queue_spec, bind_ret_l by apply Hi.
  rewrite (update_message_Some i _ (ms_set_state (Some NTB_KEYRING_MESSAGE_STATE_TRYING_BLOB) m)) by (kr_cbn; apply lookup_insert_eq).
  eexists. split; [reflexivity|]. set (t := CRYPTO_CHECK_PUBKEY _ _ _). set (m' := ms_set_crypto_cookie _ _).
  match goal with |- kr_inv _ _ ?k /\ _ => replace k with (put_message i m' (kr_set_crypto (<[kr_next kr := t]> (kr_crypto kr)) (kr_set_next (S (kr_next kr)) kr)))
    by (destruct kr; unfold put_message; kr_cbn; by rewrite insert_insert_eq) end.
  split; [|eapply frame_same; [reflexivity|exact Hm|done..]].
  apply (attach_crypto dt i m _ _ kr); [exact Hi|exact Hm|exact Hs|reflexivity|reflexivity|reflexivity|].
  unfold msg_state_ok, m'. ms_cbn. split; [done|]. split_and!; [|done|done].
  eexists _, _. split_and!; [done|apply Hwm|apply Hwm|apply lookup_insert_eq|by eexists].
Qed.

Lemma load_pubkey_spec dt i m hash kr :
  kr_inv (Some i) dt kr -> kr_message kr !! i = Some m -> ms_blob m = None -> is_Some (ms_ackdata m) -> is_Some (ms_trying_pubkey_blob m) ->
  exists kr', load_pubkey_from_store i hash kr = Ok kr' /\ kr_inv None dt kr' /\ frame_message i kr kr'.
Proof.
  intros Hi Hm Hb Ha Ht. destruct (detached_waits _ _ _ _ Hi Hm) as [Hs Hwm]. unfold load_pubkey_from_store, ntb_store_load, fresh. cbn iota zeta.
  rewrite (update_message_Some i _ m) by done. eexists. split; [reflexivity|]. split; [|eapply frame_same; [reflexivity|exact Hm|done..]].
  apply (attach_load dt i m _ _ kr); [exact Hi|exact Hm|exact Hs|reflexivity|reflexivity|reflexivity|].
  unfold msg_state_ok. ms_cbn. split; [done|]. split_and!; [|done|done].
  eexists _, _. split_and!; [apply Hwm|apply Hwm|done|apply lookup_insert_eq|by eexists].
Qed.

(** Whether an object can be tried. *)
Definition located (hash : list Z) (nw : network) : Prop := network_get_object hash nw <> Ok NTB_NETWORK_OBJECT_LOCATION_NOWHERE.

Lemma try_pubkey_blob_spec dt i m p b kr :
  kr_inv (Some i) dt kr -> kr_message kr !! i = Some m -> ms_blob m = None -> is_Some (ms_ackdata m) ->
  p ∈ kr_pubkey_blob_list kr -> kr_pubkey_blob kr !! p = Some b ->
  exists tried kr', try_pubkey_blob_for_message i p kr = Ok (tried, kr') /\ frame_message i kr kr' /\
    (if tried then kr_inv None dt kr'
     else kr_inv (Some i) dt kr' /\ kr_message kr' !! i = Some (ms_set_trying_pubkey_blob (Some p) m) /\ ~ located (pb_hash b) (kr_nw kr)).
Proof.
  intros Hi Hm Hb Ha Hp Hbp. unfold try_pubkey_blob_for_message. rewrite (the_message_Some i m), bind_ret_l by done.
  assert (Hrel : exists kr1, (match ms_trying_pubkey_blob m with Some q => unref_pubkey_blob q kr | None => Ok kr end) = Ok kr1 /\
    kr_message kr1 = kr_message kr /\ kr_inv (Some i) dt (put_message i (ms_set_trying_pubkey_blob None m) kr1) /\
    frame_message i kr (put_message i (ms_set_trying_pubkey_blob None m) kr1)).
  { destruct (ms_trying_pubkey_blob m) as [q|] eqn:Et.
    - destruct (release_spec dt i m q kr Hi Hm Et) as (kr1 & E & Em & Hi1 & F1). by exists kr1.
    - exists kr. split; [done|]. split; [done|]. replace (ms_set_trying_pubkey_blob None m) with m by (destruct m; ms_cbn; by subst).
      split; [by rewrite put_message_id|by apply (frame_put i m)]. }
  destruct Hrel as (kr1 & -> & Em1 & Hi1 & F1). rewrite bind_ret_l. rewrite (update_message_Some i _ m), bind_ret_l by (by rewrite Em1).
  set (kr2 := put_message i (ms_set_trying_pubkey_blob None m) kr1) in *.
  destruct F1 as (N1 & NK & N0 & N2 & N3 & N4 & N5 & N6). destruct (N6 p b Hp Hbp) as (b1 & Hb1 & Eh).
  destruct (take_blob_spec dt i (ms_set_trying_pubkey_blob None m) p b1 kr2 Hi1) as [Hi3 F3]; [unfold kr2; kr_cbn; apply lookup_insert_eq|done|done|].
  ms_cbn. replace (ms_set_trying_pubkey_blob (Some p) (ms_set_trying_pubkey_blob None m)) with (ms_set_trying_pubkey_blob (Some p) m) in Hi3, F3 by (by destruct m).
  unfold the_pubkey_blob. change (kr_pubkey_blob (put_message i ?m' kr1)) with (kr_pubkey_blob kr2). rewrite Hb1. cbn [need]. rewrite bind_ret_l. cbn zeta.
  unfold kr2 in Hi3, F3. rewrite put_put in Hi3, F3. set (kr3 := put_pubkey_blob p (pb_add_ref 1 b1) (put_message i (ms_set_trying_pubkey_blob (Some p) m) kr1)) in *.
  assert (F : frame_message i kr kr3) by (eapply frame_trans; [|exact F3]; by split_and!).
  assert (Hm3 : kr_message kr3 !! i = Some (ms_set_trying_pubkey_blob (Some p) m)) by (unfold kr3; kr_cbn; apply lookup_insert_eq).
  assert (En : kr_nw kr3 = kr_nw kr) by apply F.
  assert (Hh : length (pb_hash b1) = 32%nat) by (rewrite Eh; by eapply (pk_hashed _ _ _ _ (inv_pubkeys _ _ _ Hi))).
  unfold ntb_network_get_object. rewrite En. destruct (inv_network _ _ _ Hi (pb_hash b1) Hh) as [location El]. rewrite El, bind_ret_l.
  destruct location as [| |blob].
  - exists false, kr3. split; [done|]. split; [done|]. split; [done|]. split; [done|]. unfold located. rewrite <- Eh, El. by intros Hx.
  - destruct (load_pubkey_spec dt i _ (pb_hash b1) kr3 Hi3 Hm3) as (kr4 & -> & Hi4 & F4); [done|done|by eexists|]. rewrite bind_ret_l.
    exists true, kr4. split; [done|]. split; [by eapply frame_trans|done].
  - destruct (try_blob_spec dt i _ blob kr3 Hi3 Hm3) as (kr4 & -> & Hi4 & F4); [done|done|by eexists|]. rewrite bind_ret_l.
    exists true, kr4. split; [done|]. split; [by eapply frame_trans|done].
Qed.

Lemma try_pubkey_blobs_spec dt i l : forall m kr,
  kr_inv (Some i) dt kr -> kr_message kr !! i = Some m -> ms_blob m = None -> is_Some (ms_ackdata m) ->
  (forall p, p ∈ l -> p ∈ kr_pubkey_blob_list kr) ->
  exists tried kr', try_pubkey_blobs i l kr = Ok (tried, kr') /\ frame_message i kr kr' /\
    (if tried then kr_inv None dt kr'
     else kr_inv (Some i) dt kr' /\ exists t, kr_message kr' !! i = Some (ms_set_trying_pubkey_blob t m)).
Proof.
  induction l as [|p l IH]; intros m kr Hi Hm Hb Ha Hl; cbn [try_pubkey_blobs].
  - exists false, kr. split; [done|]. split; [|split; [done|]].
    + by apply (frame_refl i m).
    + exists (ms_trying_pubkey_blob m). rewrite Hm. by destruct m.
  - assert (Hp : p ∈ kr_pubkey_blob_list kr) by (apply Hl; by left).
    destruct (proj1 (pk_listed _ _ _ _ (inv_pubkeys _ _ _ Hi) p) Hp) as (b & Hbp & _).
    unfold the_pubkey_blob. rewrite Hbp. cbn [need]. rewrite bind_ret_l, (the_message_Some i m), bind_ret_l by done. case_match.
    + exists false, kr. split; [done|]. split; [|split; [done|]].
      * by apply (frame_refl i m).
      * exists (ms_trying_pubkey_blob m). rewrite Hm. by destruct m.
    + destruct (try_pubkey_blob_spec dt i m p b kr Hi Hm Hb Ha Hp Hbp) as (tried & kr1 & -> & F1 & Hr). rewrite bind_ret_l. destruct tried.
      { exists true, kr1. by split_and!. }
      destruct Hr as (Hi1 & Hm1 & _).
      destruct (IH _ kr1 Hi1 Hm1 Hb Ha) as (tried & kr2 & -> & F2 & Hr).
      { intros q Hq. destruct F1 as (_ & _ & _ & _ & -> & _). apply Hl. by right. }
      exists tried, kr2. split; [done|]. split; [by eapply frame_trans|]. destruct tried; [done|]. destruct Hr as [Hi2 [t Hm2]].
      split; [done|]. exists t. rewrite Hm2. by destruct m.
Qed.

Lemma load_public_key_spec dt i m wall kr :
  kr_inv (Some i) dt kr -> kr_message kr !! i = Some m -> clock_ok wall -> ms_blob m = None -> is_Some (ms_ackdata m) ->
  exists kr', load_public_key_for_message wall i kr = Ok kr' /\ kr_inv None dt kr' /\ frame_message i kr kr'.
Proof.
  intros Hi Hm Hw Hb Ha. unfold load_public_key_for_message. rewrite (the_message_Some i m), bind_ret_l by done.
  destruct (kr_pubkey_blob_table kr !! ms_ripe_or_tag m) as [q|] eqn:Eq; [|by eapply send_getpubkey_request_spec].
  destruct (grouped_lookup _ _ _ (ms_ripe_or_tag m) (pk_grouped _ _ _ _ (inv_pubkeys _ _ _ Hi))) as [_ Hg].
  assert (Hsub : forall p, p ∈ list_from q (kr_pubkey_blob_list kr) -> p ∈ kr_pubkey_blob_list kr).
  { clear. induction (kr_pubkey_blob_list kr) as [|x l IH]; intros p; cbn [list_from]; [done|]. case_match; [done|]. intros Hp. right. by apply IH. }
  destruct (try_pubkey_blobs_spec dt i _ m kr Hi Hm Hb Ha Hsub) as (tried & kr1 & -> & F1 & Hr). rewrite bind_ret_l. destruct tried.
  - by exists kr1.
  - destruct Hr as [Hi1 [t Hm1]]. destruct (send_getpubkey_request_spec dt i _ wall kr1 Hi1 Hm1 Hw Hb Ha) as (kr2 & -> & Hi2 & F2).
    exists kr2. split; [done|]. split; [done|]. by eapply frame_trans.
Qed.

(** ** Objects of public keys that arrive *)

(** The messages may change, but not the memory that owns them. *)
Definition frame_messages (kr kr' : ntb_keyring) : Prop :=
  kr_nw kr' = kr_nw kr /\ kr_keys kr' = kr_keys kr /\ kr_task kr' = kr_task kr /\ kr_messages kr' = kr_messages kr /\ kr_pubkey_blob_list kr' = kr_pubkey_blob_list kr /\
  (forall p b, p ∈ kr_pubkey_blob_list kr -> kr_pubkey_blob kr !! p = Some b -> exists b', kr_pubkey_blob kr' !! p = Some b' /\ pb_hash b' = pb_hash b).

Lemma waiting_for_pubkey_facts d dt i m kr st :
  kr_inv d dt kr -> d <> Some i -> kr_message kr !! i = Some m -> ms_state m = Some st ->
  st = NTB_KEYRING_MESSAGE_STATE_CALCULATING_GETPUBKEY_POW \/ st = NTB_KEYRING_MESSAGE_STATE_AWAITING_PUBKEY -> is_Some (ms_ackdata m).
Proof.
  intros Hi Hd Hm Hs Hst. destruct (inv_messages _ _ _ Hi i m Hm) as [_ Hw]. rewrite decide_False in Hw by done. unfold msg_state_ok in Hw.
  rewrite Hs in Hw. destruct Hw as [Ha _]. apply Ha. by destruct Hst as [->| ->].
Qed.

Lemma message_state d dt i m kr : kr_inv d dt kr -> d <> Some i -> kr_message kr !! i = Some m -> exists st, ms_state m = Some st.
Proof.
  intros Hi Hd Hm. destruct (inv_messages _ _ _ Hi i m Hm) as [_ Hw]. rewrite decide_False in Hw by done. unfold msg_state_ok in Hw.
  destruct (ms_state m) as [st|]; [by exists st|done].
Qed.

Lemma check_pubkey_blob_spec dt p l : forall b kr,
  kr_inv None dt kr -> p ∈ kr_pubkey_blob_list kr -> kr_pubkey_blob kr !! p = Some b -> located (pb_hash b) (kr_nw kr) ->
  (forall i, i ∈ l -> i ∈ kr_messages kr) ->
  exists kr', check_pubkey_blob_with_messages l p kr = Ok kr' /\ kr_inv None dt kr' /\ frame_messages kr kr'.
Proof.
  induction l as [|i l IH]; intros b kr Hi Hp Hb Hloc Hl; cbn [check_pubkey_blob_with_messages].
  - exists kr. split; [done|]. split; [done|]. split_and!; try done. intros q b' _ Hq. by exists b'.
  - assert (Him : i ∈ kr_messages kr) by (apply Hl; by left). apply (proj2 (inv_message_list _ _ _ Hi)) in Him as [m Hm].
    destruct (message_state _ _ _ _ _ Hi ltac:(done) Hm) as [st Hst].
    rewrite (the_message_Some i m), bind_ret_l by done. rewrite Hst. cbn [need]. rewrite bind_ret_l. unfold the_pubkey_blob. rewrite Hb. cbn [need]. rewrite bind_ret_l.
    destruct (bool_decide _ && _) eqn:Ec; [|rewrite bind_ret_l; apply (IH b kr); try done; intros j Hj; apply Hl; by right].
    apply andb_true_iff in Ec as [Ec%bool_decide_eq_true _]. pose proof (waiting_for_pubkey_facts _ _ _ _ _ _ Hi ltac:(done) Hm Hst Ec) as Ha.
    destruct (cancel_requests_spec _ _ _ _ _ Hi (or_introl eq_refl) Hm) as (kr1 & -> & Hi1 & Hm1 & F1). rewrite bind_ret_l.
    pose proof F1 as (N1 & NK & N0 & N2 & N3 & N4 & _ & N6). destruct (N6 p b Hp Hb) as (b1 & Hb1 & Eh). rewrite <- N3 in Hp.
    destruct (try_pubkey_blob_spec dt i _ p b1 kr1 Hi1 Hm1 eq_refl Ha Hp Hb1) as (tried & kr2 & -> & F2 & Hr). rewrite bind_ret_l, bind_ret_l.
    destruct tried; [|destruct Hr as (_ & _ & Hr); rewrite Eh, N1 in Hr; done].
    pose proof (frame_trans _ _ _ _ F1 F2) as (M1 & MK & M0 & M2 & M3 & M4 & _ & M6). rewrite N3 in Hp. destruct (M6 p b Hp Hb) as (b2 & Hb2 & Eh2).
    destruct (IH b2 kr2 Hr) as (kr3 & -> & Hi3 & (P1 & PK & P0 & P2 & P3 & P4)); [by rewrite M3|done|by rewrite Eh2, M1|intros j Hj; rewrite M2; apply Hl; by right|].
    exists kr3. split; [done|]. split; [done|]. split_and!; try congruence. intros q b' Hq Hb'. destruct (M6 q b' Hq Hb') as (b3 & Hb3 & E3).
    rewrite <- M3 in Hq. destruct (P4 q b3 Hq Hb3) as (b4 & Hb4 & E4). exists b4. split; [done|congruence].
Qed.
End keyring_steps.
