(* ===== verification/KeyringHandlers.v ===== *)
(** * KeyringHandlers: objects, timers and callbacks keep the invariant (for [Keyring]) *)

From S2P Require Import Prelude Endian Buffer NetAddress OpenSSL Proto ProtoSpec NetText KeyValue Pow Base58 Address Outgoings Ecc Keys HashTable Connection Crypto CryptoSpec Network Keyring KeyringMessage KeyringPubkeys KeyringInv KeyringSteps.

Section keyring_handlers.
Context `{DigestLaws} `{BigNumLaws} `{!Elliptic} `{!EllipticLaws} `{SymmetricLaws} `{Digest256} `{!Ecdsa} `{!ObjectNetwork}.

(** ** Inserting and removing objects of public keys *)

Lemma list_insert_after_elem q p x l : q ∈ l -> x ∈ list_insert_after q p l <-> x = p \/ x ∈ l.
Proof.
  intros Hq. apply list_elem_of_split_l in Hq as (a & b & -> & Ha). rewrite list_insert_after_app by done.
  rewrite !elem_of_app, !elem_of_cons. tauto.
Qed.

Lemma trying_count_zero ms p : (forall i m, ms !! i = Some m -> ms_trying_pubkey_blob m <> Some p) -> trying_count ms p = 0.
Proof.
  intros Hn. unfold trying_count. assert (E : filter (fun im : nat * ntb_keyring_message => ms_trying_pubkey_blob im.2 = Some p) ms = ∅).
  { apply map_eq. intros i. rewrite lookup_empty. apply map_lookup_filter_None. right. intros m Hm. by apply (Hn i m). }
  by rewrite E, map_size_empty.
Qed.

Lemma pubkeys_inv_insert ms p b bs l table k :
  pubkeys_inv ms bs l table -> bs !! p = None -> pb_ripe_or_tag b = k -> pb_in_list b = true -> pb_ref_count b = 1 -> length (pb_hash b) = 32%nat ->
  pubkeys_inv ms (<[p := b]> bs) (match table !! k with None => p :: l | Some q => list_insert_after q p l end)
    (match table !! k with None => <[k := p]> table | Some _ => table end).
Proof.
  intros Hi Hp Hk Hl Hr Hh. assert (Hpl : p ∉ l) by (intros (b' & Hb' & _)%(pk_listed _ _ _ _ Hi); congruence).
  assert (Hel : forall x, x ∈ (match table !! k with None => p :: l | Some q => list_insert_after q p l end) <-> x = p \/ x ∈ l).
  { intros x. destruct (table !! k) as [q|] eqn:E; [|by rewrite elem_of_cons]. apply list_insert_after_elem.
    destruct (grouped_lookup _ _ _ k (pk_grouped _ _ _ _ Hi)) as [Eh _]. rewrite E in Eh. symmetry in Eh. apply head_Some_elem_of in Eh.
    unfold with_tag in Eh. by apply list_elem_of_filter in Eh as [_ ?]. }
  split.
  - intros x. rewrite Hel. destruct (decide (x = p)) as [->|Hne].
    + rewrite lookup_insert_eq. split; [intros _; by exists b|by left].
    + rewrite lookup_insert_ne by done. rewrite <- (pk_listed _ _ _ _ Hi x). naive_solver.
  - intros x b' [[<- <-]|[Hne Hb']]%lookup_insert_Some; [|by apply (pk_counted _ _ _ _ Hi)].
    rewrite Hl, Hr, trying_count_zero; [lia|]. intros i m Hm Ht. destruct (pk_tried _ _ _ _ Hi i m p Hm Ht) as [? ?]. congruence.
  - intros i m x Hm Hx. apply lookup_insert_is_Some'. right. by eapply (pk_tried _ _ _ _ Hi).
  - intros x b' [[<- <-]|[Hne Hb']]%lookup_insert_Some; [done|by eapply (pk_hashed _ _ _ _ Hi)].
  - apply grouped_insert; [|done|].
    + eapply grouped_ext; [|exact (pk_grouped _ _ _ _ Hi)]. intros x Hx. unfold pubkey_tag. rewrite lookup_insert_ne; [done|]. by intros ->.
    + unfold pubkey_tag. rewrite lookup_insert_eq. cbn. by rewrite Hk.
Qed.

Lemma pubkeys_inv_remove ms p b bs l table prev next :
  pubkeys_inv ms bs l table -> bs !! p = Some b -> pb_in_list b = true ->
  grouped (pubkey_tag bs) (filter (.≠ p) l) (table_without (pubkey_tag bs) (pb_ripe_or_tag b) p prev next table) ->
  let b' := pb_add_ref (-1) (pb_set_in_list false b) in
  pubkeys_inv ms (if pb_ref_count b' <=? 0 then delete p bs else <[p := b']> bs) (filter (.≠ p) l)
    (table_without (pubkey_tag bs) (pb_ripe_or_tag b) p prev next table).
Proof.
  intros Hi Hb Hl Hg b'. destruct (pk_counted _ _ _ _ Hi p b Hb) as [Hc _]. rewrite Hl in Hc. pose proof (trying_count_nonneg ms p).
  assert (Hlk : forall q, q <> p -> (if pb_ref_count b' <=? 0 then delete p bs else <[p := b']> bs) !! q = bs !! q)
    by (intros q Hq; case_match; [by rewrite lookup_delete_ne|by rewrite lookup_insert_ne]).
  assert (Hp : forall bp, (if pb_ref_count b' <=? 0 then delete p bs else <[p := b']> bs) !! p = Some bp -> bp = b' /\ 0 < pb_ref_count b').
  { intros bp. destruct (Z.leb_spec (pb_ref_count b') 0); [by rewrite lookup_delete_eq|]. rewrite lookup_insert_eq. by intros [= <-]. }
  split.
  - intros q. rewrite list_elem_of_filter. destruct (decide (q = p)) as [->|Hq].
    + split; [by intros [? _]|]. intros (bp & Hbp & Hlp). apply Hp in Hbp as [-> _]. done.
    + rewrite Hlk, <- (pk_listed _ _ _ _ Hi q) by done. tauto.
  - intros q bq Hq. destruct (decide (q = p)) as [->|Hne]; [|rewrite Hlk in Hq by done; by apply (pk_counted _ _ _ _ Hi)].
    apply Hp in Hq as [-> Hpos]. split; [unfold b'; ms_cbn; lia|done].
  - intros i m q Hm Ht. destruct (decide (q = p)) as [->|Hne]; [|rewrite Hlk by done; by eapply (pk_tried _ _ _ _ Hi)].
    assert (1 <= trying_count ms p).
    { rewrite (trying_count_lookup ms i m) by done. unfold tries. rewrite decide_True by done. pose proof (trying_count_nonneg (delete i ms) p). lia. }
    rewrite (proj2 (Z.leb_gt _ _)) by (unfold b'; ms_cbn; lia). rewrite lookup_insert_eq. by eexists.
  - intros q bq Hq. destruct (decide (q = p)) as [->|Hne]; [|rewrite Hlk in Hq by done; by eapply (pk_hashed _ _ _ _ Hi)].
    apply Hp in Hq as [-> _]. by eapply (pk_hashed _ _ _ _ Hi p b).
  - eapply grouped_ext; [|exact Hg]. intros q [Hne _]%list_elem_of_filter. unfold pubkey_tag. by rewrite Hlk.
Qed.

(** A change of the objects of public keys only. *)
Lemma inv_change_pubkeys d dt kr bs l table :
  kr_inv d dt kr -> pubkeys_inv (kr_message kr) bs l table -> bounded bs (kr_next kr) ->
  kr_inv d dt (kr_set_pubkey_blob bs (kr_set_pubkey_blob_list l (kr_set_pubkey_blob_table table kr))).
Proof. intros [] Hp Hb. split; try done. kr_cbn. by destruct_and!. Qed.

Lemma inv_set_next d dt kr n : kr_inv d dt kr -> (kr_next kr <= n)%nat -> kr_inv d dt (kr_set_next n kr).
Proof.
  intros [] Hn. split; try done; kr_cbn.
  - intros i t Ht. specialize (inv_tasks i t Ht). case_decide; [|done]. destruct inv_tasks as [Hc Hp]. split; [done|]. intros c Ec.
    destruct (Hp c Ec) as [? ?]. split; [done|lia].
  - intros c t Ht. specialize (inv_crypto c t Ht). destruct (crypto_owner t) as [j|j|j]; [done..|]. destruct inv_crypto as [?|[? Hlt]]; [by left|]. right. split; [done|]. cbn. lia.
  - destruct_and!. split_and!; by eapply bounded_le.
Qed.

Lemma same_group_spec o k kr (l : list nat) :
  (forall q, o = Some q -> q ∈ l) -> (forall q, q ∈ l -> is_Some (kr_pubkey_blob kr !! q)) ->
  same_group o k kr = Ok (bool_decide (o ≫= pubkey_tag (kr_pubkey_blob kr) = Some k)).
Proof.
  intros Ho Hl. unfold same_group. destruct o as [q|]; [|done]. destruct (Hl q (Ho q eq_refl)) as [b Hb].
  unfold the_pubkey_blob, pubkey_tag. cbn. rewrite Hb. cbn. f_equal. unfold bytes_eqb. apply bool_decide_ext. split; [by intros ->|by intros [= ->]].
Qed.

Lemma remove_pubkey_blob_spec d dt p b kr :
  kr_inv d dt kr -> kr_pubkey_blob kr !! p = Some b ->
  exists kr', remove_pubkey_blob p kr = Ok kr' /\ kr_inv d dt kr' /\ kr_nw kr' = kr_nw kr /\ kr_messages kr' = kr_messages kr /\
    kr_message kr' = kr_message kr /\ kr_keys kr' = kr_keys kr /\
    kr_pubkey_blob_list kr' = filter (.≠ p) (kr_pubkey_blob_list kr) /\ (forall q, q <> p -> kr_pubkey_blob kr' !! q = kr_pubkey_blob kr !! q).
Proof.
  intros Hi Hb. unfold remove_pubkey_blob, the_pubkey_blob. rewrite Hb. cbn [need]. rewrite bind_ret_l.
  destruct (pb_in_list b) eqn:El; cbn [negb].
  2: { exists kr. split_and!; try done. symmetry. apply filter_all, Forall_forall. intros q Hq ->. apply (pk_listed _ _ _ _ (inv_pubkeys _ _ _ Hi)) in Hq as (b' & Hb' & ?). congruence. }
  pose proof (inv_pubkeys _ _ _ Hi) as Hpk. assert (Hp : p ∈ kr_pubkey_blob_list kr) by (apply (pk_listed _ _ _ _ Hpk); by exists b).
  destruct (grouped_remove _ _ _ p (pb_ripe_or_tag b) (pk_grouped _ _ _ _ Hpk) Hp) as (prev & next & -> & Hmem & Hg); [unfold pubkey_tag; by rewrite Hb|].
  cbn [need]. rewrite bind_ret_l. cbn iota.
  assert (Hpres : forall q, q ∈ kr_pubkey_blob_list kr -> is_Some (kr_pubkey_blob kr !! q)) by (intros q (bq & Hq & _)%(pk_listed _ _ _ _ Hpk); by exists bq).
  set (kr1 := kr_set_pubkey_blob_list _ kr).
  rewrite (same_group_spec prev _ kr1 (kr_pubkey_blob_list kr)), bind_ret_l; [|intros q ->; by apply Hmem; left|done].
  rewrite (same_group_spec next _ kr1 (kr_pubkey_blob_list kr)), bind_ret_l; [|intros q ->; by apply Hmem; right|done].
  change (kr_pubkey_blob kr1) with (kr_pubkey_blob kr). change (kr_pubkey_blob_table kr1) with (kr_pubkey_blob_table kr).
  set (table := table_without (pubkey_tag (kr_pubkey_blob kr)) (pb_ripe_or_tag b) p prev next (kr_pubkey_blob_table kr)).
  match goal with |- context [x ← ?r; unref_pubkey_blob _ _] => assert (Et : r = Ok (kr_set_pubkey_blob_table table kr1)) end.
  { unfold table, table_without. rewrite bool_decide_decide. destruct (decide (prev ≫= _ = _)); [by destruct kr|].
    destruct next as [q|]; [|done]. cbn. rewrite bool_decide_decide. by case_decide. }
  rewrite Et, bind_ret_l. unfold unref_pubkey_blob, the_pubkey_blob. kr_cbn. rewrite lookup_insert_eq. cbn [need]. rewrite bind_ret_l. cbn zeta.
  set (b' := pb_add_ref (-1) (pb_set_in_list false b)). pose proof (pubkeys_inv_remove _ _ _ _ _ _ prev next Hpk Hb El Hg) as Hpk'. cbn zeta in Hpk'. fold b' table in Hpk'.
  set (bs := if pb_ref_count b' <=? 0 then _ else _) in Hpk'.
  match goal with |- exists kr', Ok ?k = Ok kr' /\ _ => replace k with (kr_set_pubkey_blob bs (kr_set_pubkey_blob_list (filter (.≠ p) (kr_pubkey_blob_list kr)) (kr_set_pubkey_blob_table table kr))) end.
  - eexists. split; [reflexivity|]. split; [|split_and!; try done; intros q Hne; kr_cbn; unfold bs; destruct (pb_ref_count b' <=? 0); [by rewrite lookup_delete_ne|by rewrite lookup_insert_ne]].
    apply inv_change_pubkeys; [done|done|]. destruct (inv_bounded _ _ _ Hi) as (_ & _ & _ & Bb & _). unfold bs. destruct (pb_ref_count b' <=? 0); [by apply bounded_delete|].
    apply bounded_insert; [done|]. apply Bb. by exists b.
  - unfold bs, kr1, put_pubkey_blob. destruct kr. kr_cbn. by destruct (pb_ref_count b' <=? 0); rewrite ?delete_insert_eq, ?insert_insert_eq.
Qed.

(** ** Headers *)

(** The header of an object can be read: no byte behind the object is needed. *)
Definition header_defined (l : list ntb_proto_argument) (data : list Z) : Prop :=
  match ntb_proto_get_command l data (zlen data) with UB | OutOfFuel => False | _ => True end.

Definition suffix_of (c c' : cursor) : Prop := exists k, fst c' = drop k (fst c).

Lemma suffix_trans c1 c2 c3 : suffix_of c1 c2 -> suffix_of c2 c3 -> suffix_of c1 c3.
Proof. unfold suffix_of. intros [k E1] [j E2]. exists (k + j)%nat. by rewrite E2, E1, drop_drop. Qed.
Lemma suffix_advance c n : suffix_of c (advance c n).
Proof. by eexists. Qed.
Lemma suffix_fixed {A} n (get : ptr -> result unit A) c v c' : get_fixed n get c = Ok (v, c') -> suffix_of c c'.
Proof. unfold get_fixed. destruct (_ <? _); [done|]. intros E. bind_inv. apply suffix_advance. Qed.
Lemma suffix_var_int c v c' : ntb_proto_get_var_int c = Ok (v, c') -> suffix_of c c'.
Proof.
  unfold ntb_proto_get_var_int. destruct (_ <? _); [done|]. intros (b & _ & E)%bind_Ok.
  repeat (match type of E with context [if ?x then _ else _] => destruct x; try done end); bind_inv; apply suffix_advance.
Qed.
Lemma suffix_skip fuel : forall n c c', skip_var_ints fuel n c = Ok c' -> suffix_of c c'.
Proof.
  induction fuel as [|fuel IH]; intros n c c'; cbn [skip_var_ints]; (destruct (n <=? 0); [intros [= <-]; by exists 0%nat|]); [done|].
  intros ([v c1] & E1%suffix_var_int & E2%IH)%bind_Ok. by eapply suffix_trans.
Qed.
Lemma suffix_argument a c v c' : get_argument a c = Ok (v, c') -> suffix_of c c'.
Proof.
  destruct a; cbn [get_argument]; try apply suffix_fixed; try apply suffix_var_int.
  - unfold ntb_proto_get_timestamp. destruct (_ <? _); [done|]. intros (w & _ & E)%bind_Ok. destruct (w =? 0); [|bind_inv; apply suffix_advance].
    destruct (_ <? _); [done|]. bind_inv. eapply suffix_trans; apply suffix_advance.
  - intros ([n c1] & E1%suffix_var_int & E2)%bind_Ok. cbn beta iota in E2. destruct (_ <? _); [done|]. bind_inv. eapply suffix_trans; [exact E1|apply suffix_advance].
  - intros ([n c1] & E1%suffix_var_int & E2)%bind_Ok. cbn beta iota in E2. apply bind_Ok in E2 as (c2 & E2%suffix_skip & [= _ <-]). by eapply suffix_trans.
Qed.
Lemma suffix_arguments l : forall c vs c', get_arguments l c = Ok (vs, c') -> suffix_of c c'.
Proof.
  induction l as [|a l IH]; intros c vs c'; cbn [get_arguments]; [intros [= _ <-]; by exists 0%nat|].
  intros ([v c1] & E1%suffix_argument & ([ws c2] & E2%IH & [= _ <-])%bind_Ok)%bind_Ok. by eapply suffix_trans.
Qed.
Lemma get_command_bound l p len vs n : ntb_proto_get_command l p len = Ok (vs, n) -> 0 <= n <= zlen p.
Proof.
  unfold ntb_proto_get_command. intros ([ws c] & [k E]%suffix_arguments & [= _ <-])%bind_Ok. cbn [fst] in *. rewrite E, zlen_drop. zlen_pose. lia.
Qed.

Lemma header_cases l data : header_defined l data ->
  parse (ntb_proto_get_command l data (zlen data)) = Ok None \/
  exists vs n, parse (ntb_proto_get_command l data (zlen data)) = Ok (Some (vs, n)) /\ 0 <= n <= zlen data.
Proof.
  unfold header_defined. destruct (ntb_proto_get_command l data (zlen data)) as [[vs n]|[]| |] eqn:E; try done; [|by left].
  intros _. right. exists vs, n. split; [done|]. by eapply get_command_bound.
Qed.

(** ** Objects of public keys that arrive and that are too old *)

(** What a handler leaves alone. *)
Definition frame_handler (kr kr' : ntb_keyring) : Prop := kr_nw kr' = kr_nw kr /\ kr_messages kr' = kr_messages kr /\ kr_message kr' = kr_message kr.

Lemma handle_pubkey_spec dt blob kr :
  kr_inv None dt kr -> pubkey_ok (blob_data blob) -> kr_messages kr = [] \/ located (ntb_proto_double_hash (blob_data blob)) (kr_nw kr) ->
  exists kr', handle_pubkey blob kr = Ok kr' /\ kr_inv None dt kr' /\ kr_nw kr' = kr_nw kr /\ kr_messages kr' = kr_messages kr /\ kr_task kr' = kr_task kr /\ kr_keys kr' = kr_keys kr.
Proof.
  intros Hi Hp Hl. unfold handle_pubkey, pubkey_ok in *. destruct (ntb_proto_get_pubkey _ _ _) as [pubkey|[]| |]; try done; cbn [parse]; rewrite bind_ret_l;
    [|by exists kr].
  destruct Hp as (tag & Et & Ht). unfold fresh, pubkey_ripe_or_tag. rewrite Et, read_bytes_Ok by (unfold zlen, NTB_PROTO_HASH_LENGTH in *; lia).
  rewrite !bind_ret_l. cbn zeta. set (k := pad_hash _). set (p := kr_next kr).
  set (b := PubkeyBlob _ k _ 1 true).
  assert (Hh : length (pb_hash b) = 32%nat) by (unfold b, ntb_proto_double_hash; ms_cbn; rewrite length_take, SHA512_length; done).
  destruct (inv_bounded _ _ _ Hi) as (_ & _ & _ & Bb & _).
  pose proof (pubkeys_inv_insert _ p b _ _ _ k (inv_pubkeys _ _ _ Hi) (bounded_fresh _ _ Bb) eq_refl eq_refl eq_refl Hh) as Hpk.
  set (bs := <[p := b]> _) in Hpk. set (l := match kr_pubkey_blob_table kr !! k with None => _ | _ => _ end) in Hpk.
  set (table := match kr_pubkey_blob_table kr !! k with None => _ | _ => _ end) in Hpk.
  set (kr1 := kr_set_pubkey_blob bs (kr_set_pubkey_blob_list l (kr_set_pubkey_blob_table table (kr_set_next (S p) kr)))).
  assert (E : insert_pubkey_blob p k (put_pubkey_blob p b (kr_set_next (S p) kr)) = kr1).
  { unfold insert_pubkey_blob, kr1, bs, l, table. kr_cbn. destruct (kr_pubkey_blob_table kr !! k); by destruct kr. }
  rewrite E. assert (Hi1 : kr_inv None dt kr1).
  { apply inv_change_pubkeys; [apply inv_set_next; [done|unfold p; lia]|done|]. kr_cbn. apply bounded_insert; [eapply bounded_le; [exact Bb|]|]; unfold p; lia. }
  change (kr_messages kr1) with (kr_messages kr). destruct Hl as [Hl|Hl].
  - rewrite Hl. by exists kr1.
  - assert (Hb1 : kr_pubkey_blob kr1 !! p = Some b) by (unfold kr1, bs; kr_cbn; apply lookup_insert_eq).
    assert (Hp1 : p ∈ kr_pubkey_blob_list kr1) by (apply (pk_listed _ _ _ _ (inv_pubkeys _ _ _ Hi1)); by exists b).
    destruct (check_pubkey_blob_spec dt p (kr_messages kr) b kr1 Hi1 Hp1 Hb1 Hl) as (kr2 & -> & Hi2 & F1 & FK & F0 & F2 & _); [done|].
    exists kr2. by split_and!.
Qed.

Lemma gc_spec d dt wall l : forall kr, kr_inv d dt kr -> NoDup l -> (forall p, p ∈ l -> p ∈ kr_pubkey_blob_list kr) ->
  exists kr', gc_pubkey_blobs wall l kr = Ok kr' /\ kr_inv d dt kr' /\ frame_handler kr kr'.
Proof.
  induction l as [|p l IH]; intros kr Hi Hn Hl; cbn [gc_pubkey_blobs]; [by exists kr|].
  apply NoDup_cons in Hn as [Hp Hn]. destruct (proj1 (pk_listed _ _ _ _ (inv_pubkeys _ _ _ Hi) p) (Hl p ltac:(by left))) as (b & Hb & _).
  unfold the_pubkey_blob. rewrite Hb. cbn [need]. rewrite bind_ret_l. destruct (_ <=? _).
  - destruct (remove_pubkey_blob_spec _ _ _ _ _ Hi Hb) as (kr1 & -> & Hi1 & F1 & F2 & F3 & _ & F4 & _). rewrite bind_ret_l.
    destruct (IH kr1 Hi1 Hn) as (kr2 & -> & Hi2 & G1 & G2 & G3).
    { intros q Hq. rewrite F4. apply list_elem_of_filter. split; [by intros ->|apply Hl; by right]. }
    exists kr2. unfold frame_handler. split_and!; [done|done|congruence..].
  - rewrite bind_ret_l. apply IH; [done|done|]. intros q Hq. apply Hl. by right.
Qed.

(** ** Tasks *)

Lemma add_task_spec d t ts kr :
  kr_inv d None kr -> crypto_owner t = OwnTask (kr_next kr) ->
  let i := kr_next kr in let c := S i in
  let kr' := put_task i (Task (Some c) None None ts) (kr_set_crypto (<[c := t]> (kr_crypto kr)) (kr_set_next (S c) (kr_set_tasks (i :: kr_tasks kr) kr))) in
  kr_inv d None kr'.
Proof.
  intros Hi Ho i c kr'. destruct (inv_bounded _ _ _ Hi) as (Bm & Bt & Bk & Bb & Bc & Bp & Bl). pose proof (bounded_fresh _ _ Bt) as Hf.
  assert (Hct : forall c t, kr_crypto kr !! c = Some t -> crypto_owner t <> OwnTask i).
  { intros c' t' Hc' Ho'. pose proof (inv_crypto _ _ _ Hi c' t' Hc') as Hh. rewrite Ho' in Hh. cbn in Hh. unfold i in Hh. by rewrite Hf in Hh. }
  apply (inv_change_task d None None i kr); try done; unfold kr'; kr_cbn; rewrite ?lookup_insert_eq; try (by apply Hi); try (by left); try lia.
  - intros j Hj. by rewrite lookup_insert_ne.
  - destruct (inv_task_list _ _ _ Hi) as [Hn Hl]. split.
    + apply NoDup_cons. split; [|done]. rewrite Hl. unfold i. rewrite Hf. by intros [? ?].
    + intros j. rewrite elem_of_cons, Hl. destruct (decide (j = i)) as [->|Hj]; [rewrite lookup_insert_eq|rewrite lookup_insert_ne by done; naive_solver].
      split; [by eexists|by left].
  - intros t' [= <-]. rewrite decide_False by done. left. exists c, t. by rewrite lookup_insert_eq.
  - apply bounded_insert; [eapply bounded_le; [exact Bt|lia]|lia].
  - cbn. apply reowned_new; [done|done|lia|done].
  - apply reowned_same. intros c' t' Hc' Ho'. pose proof (inv_pow _ _ _ Hi c' t' Hc') as Hh. rewrite Ho' in Hh. cbn in Hh. unfold i in Hh. by rewrite Hf in Hh.
Qed.

(** The object of a task, its request and the rest of the task. *)
Lemma start_task_spec d (t : nat -> crypto_task) (f : nat -> ntb_keyring_task -> ntb_keyring_task) ts kr :
  kr_inv d None kr -> (forall i, crypto_owner (t i) = OwnTask i) -> (forall c, f c (Task None None None 0) = Task (Some c) None None ts) ->
  exists kr', ('(i, kr) ← Ok (add_task kr); '(c, kr) ← ntb_crypto_queue (t i) kr; update_task i (f c) kr) = Ok kr' /\ kr_inv d None kr' /\
    frame_handler kr kr' /\ kr_keys kr' = kr_keys kr.
Proof.
  intros Hi Ht Hf. rewrite bind_ret_l. unfold add_task, fresh. cbn iota zeta. rewrite crypto_queue_spec, bind_ret_l by apply Hi. kr_cbn.
  unfold update_task, the_task. kr_cbn. rewrite lookup_insert_eq. cbn [need]. rewrite bind_ret_l, Hf. eexists. split; [reflexivity|].
  pose proof (add_task_spec d (t (kr_next kr)) ts kr Hi (Ht _)) as Hn. cbn zeta in Hn.
  match type of Hn with kr_inv _ _ ?k => match goal with |- kr_inv _ _ ?k' /\ _ => replace k' with k end end.
  - split; [exact Hn|]. by split_and!.
  - destruct kr. unfold put_task. kr_cbn. by rewrite insert_insert_eq.
Qed.

(** ** Requests for public keys *)

Lemma keys_put d dt kr n key key' : kr_inv d dt kr -> kr_keys kr !! n = Some key -> key_wf key' -> Forall key_wf (<[n := key']> (kr_keys kr)).
Proof. intros Hi Hk Hw. apply Forall_insert; [apply (inv_keys _ _ _ Hi)|done]. Qed.

Lemma maybe_post_key_spec d wall n kr : kr_inv d None kr -> is_Some (kr_keys kr !! n) ->
  exists kr', maybe_post_key wall n kr = Ok kr' /\ kr_inv d None kr' /\ frame_handler kr kr'.
Proof.
  intros Hi [key Hk]. unfold maybe_post_key. rewrite Hk. cbn [need]. rewrite bind_ret_l. destruct (_ <? _); [by exists kr|].
  unfold random_offset. set (off := Z.rem _ _ - 300). cbn iota zeta. set (tmp_key := key_set_last_pubkey_send_time _ _).
  assert (Hw : key_wf tmp_key) by (pose proof (inv_keys _ _ _ Hi) as Hf; rewrite Forall_forall in Hf; exact (Hf key (list_elem_of_lookup_2 _ _ _ Hk))).
  set (kr1 := save_keyring _).
  assert (Hi1 : kr_inv d None kr1).
  { unfold kr1, save_keyring, kr_emit. kr_cbn. apply inv_set_effects. apply inv_set_keys; [by apply inv_set_random|]. by eapply keys_put. }
  destruct (start_task_spec d (CRYPTO_CREATE_PUBKEY_BLOB tmp_key) (fun c => tk_set_crypto_cookie (Some c)) 0 kr1 Hi1) as (kr2 & E & Hi2 & F & _); [done|done|].
  rewrite bind_ret_l in E. exists kr2. by split_and!.
Qed.

Lemma post_matching_key_spec d wall version stream matches keys : forall n kr, kr_inv d None kr -> keys = drop n (kr_keys kr) ->
  exists kr', post_matching_key wall version stream matches keys n kr = Ok kr' /\ kr_inv d None kr' /\ frame_handler kr kr'.
Proof.
  induction keys as [|key keys IH]; intros n kr Hi Hk; cbn [post_matching_key]; [by exists kr|].
  assert (Hn : kr_keys kr !! n = Some key) by (rewrite <- (Nat.add_0_r n), <- lookup_drop, <- Hk; done).
  destruct (_ && _); [destruct (_ || _); [by exists kr|]|].
  - apply maybe_post_key_spec; [done|by eexists].
  - apply IH; [done|]. rewrite (drop_S _ key n Hn) in Hk. by simplify_eq.
Qed.

Lemma handle_getpubkey_spec d wall blob kr : kr_inv d None kr -> header_defined getpubkey_header (blob_data blob) ->
  exists kr', handle_getpubkey wall blob kr = Ok kr' /\ kr_inv d None kr' /\ frame_handler kr kr'.
Proof.
  intros Hi Hh. unfold handle_getpubkey. destruct (header_cases _ _ Hh) as [->|((nonce & t & version & stream & []) & n & -> & Hn)]; rewrite bind_ret_l; [by exists kr|].
  cbn iota. destruct (_ || _); [by exists kr|]. assert (Hz : zlen (drop (Z.to_nat n) (blob_data blob)) = zlen (blob_data blob) - n) by (rewrite zlen_drop; lia).
  destruct (version <? 4).
  - destruct (Z.ltb_spec (zlen (blob_data blob) - n) (Z.of_nat RIPEMD160_DIGEST_LENGTH)); [by exists kr|]. unfold handle_getpubkey_with_ripe.
    rewrite read_bytes_Ok, bind_ret_l by (unfold zlen in *; lia). by apply post_matching_key_spec.
  - destruct (Z.ltb_spec (zlen (blob_data blob) - n) (Z.of_nat NTB_ADDRESS_TAG_SIZE)); [by exists kr|]. unfold handle_getpubkey_with_tag.
    rewrite read_bytes_Ok, bind_ret_l by (unfold zlen in *; lia). by apply post_matching_key_spec.
Qed.

(** ** Saving the messages *)

Lemma outgoings_spec dt l kr : kr_inv None dt kr -> (forall i, i ∈ l -> i ∈ kr_messages kr) -> exists outgoings, outgoings_of l kr = Ok outgoings.
Proof.
  intros Hi. induction l as [|i l IH]; intros Hl; cbn [outgoings_of]; [by eexists|].
  destruct (proj1 (proj2 (inv_message_list _ _ _ Hi) i) (Hl i ltac:(by left))) as [m Hm].
  destruct (inv_messages _ _ _ Hi i m Hm) as [_ Hw]. rewrite decide_False in Hw by done. unfold msg_state_ok in Hw.
  rewrite (the_message_Some i m), bind_ret_l by done. destruct (ms_state m) as [st|] eqn:Es; [|done]. cbn [need]. rewrite bind_ret_l.
  destruct IH as [outgoings Eo]; [intros j Hj; apply Hl; by right|]. destruct (decide _) as [|Hne]; [by eexists|].
  destruct Hw as [Ha _]. destruct (Ha Hne) as [ackdata Ea]. unfold add_outgoing. rewrite Ea, Es. cbn [need]. rewrite !bind_ret_l, Eo, bind_ret_l. by eexists.
Qed.
Lemma save_messages_spec dt kr : kr_inv None dt kr ->
  exists outgoings, save_messages kr = Ok (kr_emit (KeyringSaveOutgoings outgoings) kr) /\ kr_inv None dt (kr_emit (KeyringSaveOutgoings outgoings) kr).
Proof.
  intros Hi. unfold save_messages. destruct (outgoings_spec dt (kr_messages kr) kr Hi) as [outgoings ->]; [done|]. rewrite bind_ret_l.
  exists outgoings. split; [done|]. by apply inv_set_effects.
Qed.

(** ** Acknowledgements and messages *)

Lemma content_used_spec l content_id kr : (forall i, i ∈ l -> is_Some (kr_message kr !! i)) -> exists used, content_used l content_id kr = Ok used.
Proof.
  induction l as [|i l IH]; intros Hl; cbn [content_used]; [by eexists|]. destruct (Hl i ltac:(by left)) as [m Hm].
  rewrite (the_message_Some i m), bind_ret_l by done. destruct (_ =? _); [by eexists|]. apply IH. intros j Hj. apply Hl. by right.
Qed.

Lemma maybe_delete_spec dt content_id kr : kr_inv None dt kr ->
  exists effects, maybe_delete_message_content content_id kr = Ok (kr_set_effects effects kr) /\ kr_inv None dt (kr_set_effects effects kr).
Proof.
  intros Hi. unfold maybe_delete_message_content. destruct (content_used_spec (kr_messages kr) content_id kr) as [used ->].
  { intros i. by apply (inv_message_list _ _ _ Hi). }
  rewrite bind_ret_l. destruct used.
  - exists (kr_effects kr). split; [by destruct kr|by apply inv_set_effects].
  - eexists. split; [reflexivity|by apply inv_set_effects].
Qed.

Lemma acknowledged_spec dt i m kr : kr_inv None dt kr -> kr_message kr !! i = Some m ->
  exists kr', message_acknowledged i kr = Ok kr' /\ kr_inv None dt kr' /\ kr_nw kr' = kr_nw kr /\
    kr_messages kr' = filter (.≠ i) (kr_messages kr) /\ kr_message kr' !! i = None /\ (forall j, j <> i -> kr_message kr' !! j = kr_message kr !! j).
Proof.
  intros Hi Hm. unfold message_acknowledged. rewrite (the_message_Some i m), bind_ret_l by done.
  destruct (inv_messages _ _ _ Hi i m Hm) as [((_ & Ht) & Hv & _) _]. destruct (address_roundtrip_core (ms_to_address m) Ht Hv) as (text & -> & _ & Hz).
  rewrite bind_ret_l, (proj2 (Z.ltb_ge _ _)) by done.
  destruct (free_message_spec _ _ _ _ _ Hi (or_introl eq_refl) Hm) as (kr1 & -> & Hi1 & F1 & F2 & F3 & F4). rewrite bind_ret_l.
  destruct (maybe_delete_spec _ (ms_content_id m) _ Hi1) as (effects & -> & Hi2). rewrite bind_ret_l.
  destruct (save_messages_spec _ _ Hi2) as (outgoings & -> & Hi3). eexists. by split_and!.
Qed.

Lemma find_acknowledged_spec dt l content kr : kr_inv None dt kr -> (forall i, i ∈ l -> i ∈ kr_messages kr) ->
  exists found kr', find_acknowledged l content kr = Ok (found, kr') /\ kr_inv None dt kr' /\ kr_nw kr' = kr_nw kr.
Proof.
  intros Hi. induction l as [|i l IH]; intros Hl; cbn [find_acknowledged]; [by exists false, kr|].
  destruct (proj1 (proj2 (inv_message_list _ _ _ Hi) i) (Hl i ltac:(by left))) as [m Hm].
  destruct (inv_messages _ _ _ Hi i m Hm) as [_ Hw]. rewrite decide_False in Hw by done. unfold msg_state_ok in Hw.
  rewrite (the_message_Some i m), bind_ret_l by done. destruct (ms_state m) as [st|] eqn:Es; [|done]. cbn [need]. rewrite bind_ret_l.
  destruct (decide _) as [|Hne]; [apply IH; intros j Hj; apply Hl; by right|]. destruct Hw as [Ha _]. destruct (Ha Hne) as [ackdata ->]. cbn [need]. rewrite bind_ret_l.
  destruct (bytes_eqb _ _); [|apply IH; intros j Hj; apply Hl; by right].
  destruct (acknowledged_spec _ _ _ _ Hi Hm) as (kr1 & -> & Hi1 & F1 & _). rewrite bind_ret_l. by exists true, kr1.
Qed.

(** The content of an object is not the data of an acknowledgement. *)
Definition not_ackdata (data : list Z) : Prop :=
  forall vs n, ntb_proto_get_command msg_header data (zlen data) = Ok (vs, n) -> zlen data - n <> Z.of_nat NTB_PROTO_ACKDATA_SIZE.

Lemma handle_msg_spec d blob kr : kr_inv d None kr -> header_defined msg_header (blob_data blob) -> d = None \/ not_ackdata (blob_data blob) ->
  exists kr', handle_msg blob kr = Ok kr' /\ kr_inv d None kr' /\ kr_nw kr' = kr_nw kr /\
    (forall i, d = Some i -> kr_messages kr' = kr_messages kr /\ kr_message kr' = kr_message kr).
Proof.
  intros Hi Hh Hd. unfold handle_msg. destruct (header_cases _ _ Hh) as [->|((nonce & t & version & []) & n & E & Hn)]; [rewrite bind_ret_l; by exists kr|].
  rewrite E, bind_ret_l. cbn iota.
  assert (Hc : exists found kr1, check_msg_acknowledgement (drop (Z.to_nat n) (blob_data blob)) (zlen (blob_data blob) - n) kr = Ok (found, kr1) /\
    kr_inv d None kr1 /\ kr_nw kr1 = kr_nw kr /\ (forall i, d = Some i -> kr_messages kr1 = kr_messages kr /\ kr_message kr1 = kr_message kr)).
  { unfold check_msg_acknowledgement. destruct (Z.eqb_spec (zlen (blob_data blob) - n) (Z.of_nat NTB_PROTO_ACKDATA_SIZE)) as [Ez|]; [|by exists false, kr].
    destruct Hd as [->|Hd].
    - cbn [negb]. rewrite read_bytes_Ok, bind_ret_l by (rewrite length_drop; unfold zlen in *; lia).
      destruct (find_acknowledged_spec None (kr_messages kr) (take NTB_PROTO_ACKDATA_SIZE (drop (Z.to_nat n) (blob_data blob))) kr Hi) as (found & kr1 & -> & Hi1 & F); [done|].
      by exists found, kr1.
    - destruct (ntb_proto_get_command msg_header (blob_data blob) (zlen (blob_data blob))) as [[vs n']|[]| |] eqn:E'; try done. injection E as -> ->.
      by destruct (Hd _ _ E'). }
  destruct Hc as (found & kr1 & -> & Hi1 & F1 & F2). rewrite bind_ret_l. destruct found; [by exists kr1|].
  destruct (start_task_spec d (CRYPTO_DECRYPT_MSG blob (kr_keys kr1)) (fun c t' => tk_set_timestamp t (tk_set_crypto_cookie (Some c) t')) t kr1 Hi1)
    as (kr2 & E2 & Hi2 & (G1 & G2 & G3) & _); [done|done|].
  rewrite bind_ret_l in E2. exists kr2. split; [exact E2|]. split; [done|]. split; [congruence|]. intros i Hdi. destruct (F2 i Hdi). split; congruence.
Qed.

(** ** The callback for new objects *)

(** What the callback can handle; [d] and [dt] are worked on. *)
Definition object_ok (d dt : option nat) (type : ntb_proto_inv_type) (data : list Z) : Prop :=
  match type with
  | NTB_PROTO_INV_TYPE_GETPUBKEY => dt = None /\ header_defined getpubkey_header data
  | NTB_PROTO_INV_TYPE_PUBKEY => d = None /\ pubkey_ok data
  | NTB_PROTO_INV_TYPE_MSG => dt = None /\ header_defined msg_header data /\ (d = None \/ not_ackdata data)
  | NTB_PROTO_INV_TYPE_BROADCAST => True
  end.

Lemma new_object_spec d dt wall blob kr :
  kr_inv d dt kr -> object_ok d dt (blob_type blob) (blob_data blob) -> located (ntb_proto_double_hash (blob_data blob)) (kr_nw kr) ->
  exists kr', new_object_cb wall blob kr = Ok kr' /\ kr_inv d dt kr' /\ kr_nw kr' = kr_nw kr /\
    (forall i, d = Some i -> kr_messages kr' = kr_messages kr /\ kr_message kr' = kr_message kr) /\ (forall i, dt = Some i -> kr_task kr' = kr_task kr).
Proof.
  intros Hi Ho Hl. unfold new_object_cb, object_ok in *. destruct (blob_type blob).
  - destruct Ho as [-> Hh]. destruct (handle_getpubkey_spec d wall blob kr Hi Hh) as (kr1 & -> & Hi1 & F1 & F2 & F3). by exists kr1.
  - destruct Ho as (-> & Hp). destruct (handle_pubkey_spec dt blob kr Hi Hp (or_intror Hl)) as (kr1 & -> & Hi1 & F1 & F2 & F3 & _). exists kr1. by split_and!.
  - destruct Ho as (-> & Hh & Hd). destruct (handle_msg_spec d blob kr Hi Hh Hd) as (kr1 & -> & Hi1 & F1 & F2). exists kr1. by split_and!.
  - by exists kr.
Qed.

End keyring_handlers.
