(* ===== verification/KeyringCallbacks.v ===== *)
(** * KeyringCallbacks: answers, timers and calls keep the invariant (for [Keyring])

    The lemmas of [KeyringHandlers] continued: what happens when a request is answered,
    when a timer fires and when the IPC calls. *)

From S2P Require Import Prelude Endian Buffer NetAddress OpenSSL Proto ProtoSpec NetText KeyValue Pow Base58 Address Outgoings Ecc Keys HashTable Connection Crypto CryptoSpec Network Keyring KeyringMessage KeyringPubkeys KeyringInv KeyringSteps KeyringHandlers.

(** What the key ring needs of the network: from a good state with room for an object,
    the object is added, it is where its hash says while the signal is emitted, and
    what is left can be done. *)
Class ObjectNetworkLaws `{Digests} `{ObjectNetwork} := {
  network_good : network -> Prop;
  network_room : network -> Prop;
  network_good_reads nw : network_good nw -> network_reads nw;
  network_add_object_ok wall type data q blob skip_validation delay nw :
    network_good nw -> network_room nw -> bytes (data ++ q) -> zlen data < 2 ^ 31 -> blob = None \/ blob = Some (Blob type data) ->
    exists nw' signal, network_add_object wall type (data ++ q) (zlen data) blob skip_validation delay nw = Ok (nw', signal) /\
      match signal with
      | None => network_good nw'
      | Some (blob', rest) =>
          blob' = Blob type data /\ network_reads nw' /\ located (ntb_proto_double_hash data) nw' /\
          exists nw'', network_finish rest nw' = Ok nw'' /\ network_good nw''
      end
}.

Section keyring_callbacks.
Context `{DigestLaws} `{BigNumLaws} `{!Elliptic} `{!EllipticLaws} `{SymmetricLaws} `{Digest256} `{!Ecdsa} `{ONW : ObjectNetwork} `{!ObjectNetworkLaws}.

(** ** Adding an object *)

Lemma inv_set_nw d dt nw kr : kr_inv d dt kr -> network_reads nw -> kr_inv d dt (kr_set_nw nw kr).
Proof. intros [] ?. by split. Qed.

(** What stays when an object is added while [d] and [dt] are worked on. *)
Definition frame_object (d dt : option nat) (kr kr' : ntb_keyring) : Prop :=
  (forall i, d = Some i -> kr_messages kr' = kr_messages kr /\ kr_message kr' = kr_message kr) /\ (forall i, dt = Some i -> kr_task kr' = kr_task kr).

Lemma add_network_object_spec d dt wall type data q blob skip_validation delay kr :
  kr_inv d dt kr -> network_good (kr_nw kr) -> network_room (kr_nw kr) -> bytes (data ++ q) -> zlen data < 2 ^ 31 ->
  blob = None \/ blob = Some (Blob type data) -> object_ok d dt type data ->
  exists kr', add_network_object wall type (data ++ q) (zlen data) blob skip_validation delay kr = Ok kr' /\ kr_inv d dt kr' /\
    network_good (kr_nw kr') /\ frame_object d dt kr kr'.
Proof.
  intros Hi Hg Hr Hb Hz Hblob Ho. unfold add_network_object.
  destruct (network_add_object_ok wall type data q blob skip_validation delay _ Hg Hr Hb Hz Hblob) as (nw & signal & -> & Hs). rewrite bind_ret_l.
  destruct signal as [[blob' rest]|].
  - destruct Hs as (-> & Hn & Hl & nw' & Hf & Hg'). pose proof (inv_set_nw d dt nw kr Hi Hn) as Hi1.
    destruct (new_object_spec d dt wall (Blob type data) _ Hi1 Ho Hl) as (kr1 & -> & Hi2 & En & F1 & F2). rewrite bind_ret_l, En. kr_cbn. rewrite Hf, bind_ret_l.
    eexists. split; [reflexivity|]. split; [apply inv_set_nw; [done|by apply network_good_reads]|]. by split_and!.
  - eexists. split; [reflexivity|]. split; [apply inv_set_nw; [done|by apply network_good_reads]|]. by split_and!.
Qed.

Lemma add_blob_spec d dt wall type data skip_validation delay kr :
  kr_inv d dt kr -> network_good (kr_nw kr) -> network_room (kr_nw kr) -> bytes data -> zlen data < 2 ^ 31 -> object_ok d dt type data ->
  exists kr', ntb_network_add_blob wall (DynBlob type (Some <$> data)) skip_validation delay kr = Ok kr' /\ kr_inv d dt kr' /\
    network_good (kr_nw kr') /\ frame_object d dt kr kr'.
Proof.
  intros Hi Hg Hr Hb Hz Ho. unfold ntb_network_add_blob, blob_bytes. cbn [db_cells db_type]. rewrite all_some_fmap. cbn [need]. rewrite bind_ret_l.
  pose proof (add_network_object_spec d dt wall type data [] (Some (Blob type data)) skip_validation delay kr) as Hs. rewrite app_nil_r in Hs.
  apply Hs; try done. by right.
Qed.

(** ** Requests that are answered *)

Definition take_crypto (c : nat) (kr : ntb_keyring) : ntb_keyring := kr_set_crypto (delete c (kr_crypto kr)) kr.
Definition take_pow (c : nat) (kr : ntb_keyring) : ntb_keyring := kr_set_pow (delete c (kr_pow kr)) kr.
Definition take_load (c : nat) (kr : ntb_keyring) : ntb_keyring := kr_set_loads (delete c (kr_loads kr)) kr.

Lemma crypto_taken i c m kr : ms_crypto_cookie m = Some c -> ms_pow_cookie m = None -> ms_store_cookie m = None ->
  detach i m kr = put_message i (clear_cookies m) (take_crypto c kr).
Proof. intros E1 E2 E3. unfold detach, take_crypto. rewrite E1, E2, E3. by destruct kr. Qed.
Lemma pow_taken i c m kr : ms_crypto_cookie m = None -> ms_pow_cookie m = Some c -> ms_store_cookie m = None ->
  detach i m kr = put_message i (clear_cookies m) (take_pow c kr).
Proof. intros E1 E2 E3. unfold detach, take_pow. rewrite E1, E2, E3. by destruct kr. Qed.
Lemma load_taken i c m kr : ms_crypto_cookie m = None -> ms_pow_cookie m = None -> ms_store_cookie m = Some c ->
  detach i m kr = put_message i (clear_cookies m) (take_load c kr).
Proof. intros E1 E2 E3. unfold detach, take_load. rewrite E1, E2, E3. by destruct kr. Qed.

Lemma crypto_message dt c t i kr : kr_inv None dt kr -> kr_crypto kr !! c = Some t -> crypto_owner t = OwnMessage i ->
  exists m, kr_message kr !! i = Some m /\ ms_crypto_cookie m = Some c /\ static_ok m /\ msg_state_ok (kr_crypto kr) (kr_pow kr) (kr_loads kr) i m.
Proof.
  intros Hi Hc Ho. pose proof (inv_crypto _ _ _ Hi c t Hc) as Hh. rewrite Ho in Hh. cbn in Hh. destruct (kr_message kr !! i) as [m|] eqn:Hm; [|done].
  exists m. split; [done|]. split; [done|]. by apply (inv_messages _ _ _ Hi i m Hm).
Qed.
Lemma pow_message dt c t i kr : kr_inv None dt kr -> kr_pow kr !! c = Some t -> pow_owner t = OwnMessage i ->
  exists m, kr_message kr !! i = Some m /\ ms_pow_cookie m = Some c /\ static_ok m /\ msg_state_ok (kr_crypto kr) (kr_pow kr) (kr_loads kr) i m.
Proof.
  intros Hi Hc Ho. pose proof (inv_pow _ _ _ Hi c t Hc) as Hh. rewrite Ho in Hh. cbn in Hh. destruct (kr_message kr !! i) as [m|] eqn:Hm; [|done].
  exists m. split; [done|]. split; [done|]. by apply (inv_messages _ _ _ Hi i m Hm).
Qed.
Lemma load_message dt c l i kr : kr_inv None dt kr -> kr_loads kr !! c = Some l -> load_owner l = i ->
  exists m, kr_message kr !! i = Some m /\ ms_store_cookie m = Some c /\ static_ok m /\ msg_state_ok (kr_crypto kr) (kr_pow kr) (kr_loads kr) i m.
Proof.
  intros Hi Hc <-. pose proof (inv_loads _ _ _ Hi c l Hc) as Hh. destruct (kr_message kr !! load_owner l) as [m|] eqn:Hm; [|done].
  exists m. split; [done|]. split; [done|]. by apply (inv_messages _ _ _ Hi _ m Hm).
Qed.

Lemma generate_ackdata_spec dt wall c ackdata i kr :
  kr_inv None dt kr -> kr_crypto kr !! c = Some (CRYPTO_GENERATE_ACKDATA i) -> length ackdata = NTB_PROTO_ACKDATA_SIZE /\ bytes ackdata -> clock_ok wall ->
  exists kr', generate_ackdata_cb wall ackdata i (take_crypto c kr) = Ok kr' /\ kr_inv None dt kr' /\ kr_nw kr' = kr_nw kr.
Proof.
  intros Hi Hc [Hl Hb] Hwall. destruct (crypto_message _ _ _ i _ Hi Hc eq_refl) as (m & Hm & Ec & Hs & Hw). state_of Hw.
  pose proof (detach_inv dt i m kr Hi Hm) as Hd. rewrite (crypto_taken i c) in Hd by done.
  unfold generate_ackdata_cb. rewrite (the_message_Some i m), bind_ret_l by done. rewrite read_bytes_Ok, bind_ret_l by lia.
  rewrite take_ge by lia. cbn zeta. set (m1 := ms_set_ackdata (Some ackdata) (clear_cookies m)).
  assert (Hm1 : kr_message (put_message i (clear_cookies m) (take_crypto c kr)) !! i = Some (clear_cookies m)) by (kr_cbn; apply lookup_insert_eq).
  assert (Hi1 : kr_inv (Some i) dt (put_message i m1 (take_crypto c kr))).
  { rewrite <- (put_put i m1 (clear_cookies m)). eapply put_detached; [exact Hd|exact Hm1|apply clear_waits| |done].
    destruct Hs as (S1 & S2 & S3 & S4). split_and!; try done. by intros ? [= <-]. }
  assert (E : put_message i (ms_set_crypto_cookie None (ms_set_ackdata (Some ackdata) m)) (take_crypto c kr) = put_message i m1 (take_crypto c kr)).
  { f_equal. unfold m1. destruct m; ms_cbn. by subst. }
  rewrite E. assert (Hm2 : kr_message (put_message i m1 (take_crypto c kr)) !! i = Some m1) by (kr_cbn; apply lookup_insert_eq).
  destruct (ms_to_key m) as [key|] eqn:Ek.
  - destruct (post_message_spec dt i m1 wall _ Hi1 Hm2) as (kr2 & -> & Hi2 & F & _); [done|by eexists|unfold m1; ms_cbn; by eexists|]. rewrite bind_ret_l.
    destruct (save_messages_spec _ _ Hi2) as (outgoings & -> & Hi3). eexists. by split_and!.
  - destruct (load_public_key_spec dt i m1 wall _ Hi1 Hm2) as (kr2 & -> & Hi2 & F & _); [done|done|by eexists|]. rewrite bind_ret_l.
    destruct (save_messages_spec _ _ Hi2) as (outgoings & -> & Hi3). eexists. by split_and!.
Qed.

(** The object that was tried cannot be used: the next one is tried. *)
Lemma next_pubkey_spec dt wall i m p kr :
  kr_inv (Some i) dt kr -> kr_message kr !! i = Some m -> ms_trying_pubkey_blob m = Some p -> clock_ok wall -> ms_blob m = None -> is_Some (ms_ackdata m) ->
  exists kr', (kr ← remove_pubkey_blob p kr; load_public_key_for_message wall i kr) = Ok kr' /\ kr_inv None dt kr' /\ kr_nw kr' = kr_nw kr.
Proof.
  intros Hi Hm Ht Hw Hb Ha. destruct (pk_tried _ _ _ _ (inv_pubkeys _ _ _ Hi) i m p Hm Ht) as [b Hbp].
  destruct (remove_pubkey_blob_spec _ _ _ _ _ Hi Hbp) as (kr1 & -> & Hi1 & F1 & F2 & F3 & _). rewrite bind_ret_l. rewrite <- F3 in Hm.
  destruct (load_public_key_spec dt i m wall kr1 Hi1 Hm Hw Hb Ha) as (kr2 & -> & Hi2 & G1 & _). exists kr2. split_and!; [done|done|congruence].
Qed.

Lemma add_public_key_inv d dt key kr : kr_inv d dt kr -> key_wf key -> kr_inv d dt (add_public_key key kr).
Proof.
  intros Hi Hk. unfold add_public_key. destruct (existsb _ _); [done|]. unfold save_keyring, kr_emit. apply inv_set_effects. apply inv_set_keys; [done|].
  apply Forall_app. split; [apply (inv_keys _ _ _ Hi)|by constructor].
Qed.
Lemma add_public_key_rest key kr : kr_nw (add_public_key key kr) = kr_nw kr /\ kr_message (add_public_key key kr) = kr_message kr /\
  kr_task (add_public_key key kr) = kr_task kr.
Proof. unfold add_public_key. by destruct (existsb _ _). Qed.

Lemma check_pubkey_spec dt wall c address blob key i kr :
  kr_inv None dt kr -> kr_crypto kr !! c = Some (CRYPTO_CHECK_PUBKEY address blob i) -> (forall k, key = Some k -> key_wf k) -> clock_ok wall ->
  exists kr', check_pubkey_cb wall key i (take_crypto c kr) = Ok kr' /\ kr_inv None dt kr' /\ kr_nw kr' = kr_nw kr.
Proof.
  intros Hi Hc Hk Hwall. destruct (crypto_message _ _ _ i _ Hi Hc eq_refl) as (m & Hm & Ec & Hs & Hw). state_of Hw.
  pose proof (detach_inv dt i m kr Hi Hm) as Hd. rewrite (crypto_taken i c) in Hd by done.
  unfold check_pubkey_cb. rewrite (the_message_Some i m), bind_ret_l by done. cbn zeta.
  assert (E : ms_set_crypto_cookie None m = clear_cookies m) by (destruct m; ms_cbn; by subst). rewrite E.
  assert (Hm1 : kr_message (put_message i (clear_cookies m) (take_crypto c kr)) !! i = Some (clear_cookies m)) by (kr_cbn; apply lookup_insert_eq).
  assert (Ha : is_Some (ms_ackdata m)) by auto. destruct key as [key|].
  - pose proof (add_public_key_inv _ _ key _ Hd (Hk key eq_refl)) as Hi1. destruct (add_public_key_rest key (put_message i (clear_cookies m) (take_crypto c kr))) as (En & Em & _).
    set (kr1 := add_public_key key _) in *. rewrite <- Em in Hm1. rewrite (update_message_Some i _ _ _ Hm1), bind_ret_l.
    assert (Hi2 : kr_inv (Some i) dt (put_message i (ms_set_to_key (Some key) (clear_cookies m)) kr1)).
    { eapply put_detached; [exact Hi1|exact Hm1|done| |done]. destruct Hs as (S1 & S2 & S3 & S4). split_and!; try done; intros k [= <-]; by apply Hk. }
    destruct (post_message_spec dt i (ms_set_to_key (Some key) (clear_cookies m)) wall _ Hi2) as (kr2 & -> & Hi3 & G1 & _);
      [kr_cbn; apply lookup_insert_eq|done|done|by eexists|]. exists kr2. split_and!; [done|done|]. by rewrite G1.
  - match goal with Hx : is_Some (ms_trying_pubkey_blob m) |- _ => destruct Hx as [p Ep] end. rewrite Ep. cbn [need]. rewrite bind_ret_l.
    destruct (next_pubkey_spec dt wall i (clear_cookies m) p _ Hd Hm1 Ep Hwall) as (kr2 & E2 & Hi2 & F); [done|done|]. by exists kr2.
Qed.

Lemma load_pubkey_cb_spec dt wall c hash blob i kr :
  kr_inv None dt kr -> kr_loads kr !! c = Some (LOAD_BLOB hash i) -> clock_ok wall ->
  exists kr', load_pubkey_from_store_cb wall blob i (take_load c kr) = Ok kr' /\ kr_inv None dt kr' /\ kr_nw kr' = kr_nw kr.
Proof.
  intros Hi Hc Hwall. destruct (load_message _ _ _ i _ Hi Hc eq_refl) as (m & Hm & Ec & Hs & Hw). state_of Hw.
  pose proof (detach_inv dt i m kr Hi Hm) as Hd. rewrite (load_taken i c) in Hd by done.
  unfold load_pubkey_from_store_cb. rewrite (the_message_Some i m), bind_ret_l by done. cbn zeta.
  assert (E : ms_set_store_cookie None m = clear_cookies m) by (destruct m; ms_cbn; by subst). rewrite E.
  assert (Hm1 : kr_message (put_message i (clear_cookies m) (take_load c kr)) !! i = Some (clear_cookies m)) by (kr_cbn; apply lookup_insert_eq).
  assert (Ha : is_Some (ms_ackdata m)) by auto. match goal with Hx : is_Some (ms_trying_pubkey_blob m) |- _ => destruct Hx as [p Ep] end.
  destruct blob as [blob|].
  - destruct (try_blob_spec dt i (clear_cookies m) blob _ Hd Hm1) as (kr2 & -> & Hi2 & F & _); [done|done|by exists p|]. exists kr2. by split_and!.
  - rewrite Ep. cbn [need]. rewrite bind_ret_l.
    destruct (next_pubkey_spec dt wall i (clear_cookies m) p _ Hd Hm1 Ep Hwall) as (kr2 & E2 & Hi2 & F); [done|done|]. by exists kr2.
Qed.

(** The content of the message was loaded. *)
Lemma message_content_spec dt wall c id content i kr :
  clock_ok wall -> kr_inv None dt kr -> kr_loads kr !! c = Some (LOAD_MESSAGE_CONTENT id i) -> (forall blob, content = Some blob -> zlen (blob_data blob) < 2 ^ 27 /\ bytes (blob_data blob)) ->
  exists kr', load_message_content_cb wall content i (take_load c kr) = Ok kr' /\ kr_inv None dt kr' /\ kr_nw kr' = kr_nw kr.
Proof.
  intros Hwall Hi Hc Hz. destruct (load_message _ _ _ i _ Hi Hc eq_refl) as (m & Hm & Ec & Hs & Hw). state_of Hw.
  pose proof (detach_inv dt i m kr Hi Hm) as Hd. rewrite (load_taken i c) in Hd by done.
  unfold load_message_content_cb. rewrite (the_message_Some i m), bind_ret_l by done. cbn zeta.
  assert (E : ms_set_store_cookie None m = clear_cookies m) by (destruct m; ms_cbn; by subst). rewrite E.
  assert (Hm1 : kr_message (put_message i (clear_cookies m) (take_load c kr)) !! i = Some (clear_cookies m)) by (kr_cbn; apply lookup_insert_eq).
  assert (Ha : is_Some (ms_ackdata m)) by auto. destruct content as [blob|].
  - destruct (Hz blob eq_refl) as [Hz' Hbc]. unfold random_offset. match goal with |- context [Z.rem ?r 600] => pose proof (random_range r) as Hrand end. set (time := wall + _).
    assert (Htime : sent_time time) by (unfold sent_time, time, clock_ok in *; lia). cbn iota zeta. destruct Ha as [ackdata Ea].
    destruct Hs as (Hok & Hv & Hk & Hack). destruct (Hack ackdata Ea) as [Hla _].
    destruct (build_message_spec time (clear_cookies m) (blob_data blob) ackdata Hok Ea Hla ltac:(lia)) as (junk & Hj & Ho & ->). rewrite bind_ret_l. cbn iota zeta.
    set (object := ack_object time (clear_cookies m) ackdata) in *. set (text := unacked_text _).
    assert (Er : blob_read (zlen text + 1 + NTB_PROTO_HEADER_SIZE + 8) (32 + zlen object - NTB_PROTO_HEADER_SIZE - 8)
                   (DynBlob NTB_PROTO_INV_TYPE_MSG ((Some <$> text ++ [32 + zlen object]) ++ ack_cells junk object)) = Ok object).
    { unfold ack_cells. rewrite !app_assoc, <- (app_nil_r (Some <$> object)). rewrite app_assoc. rewrite <- app_assoc. apply blob_read_spec.
      - rewrite !zlen_app, !zlen_fmap, !zlen_app, zlen_be_split. change (zlen (padded_command _)) with 12. change (zlen ntb_proto_magic) with 4.
        change (zlen [_]) with 1. unfold NTB_PROTO_HEADER_SIZE. lia.
      - unfold NTB_PROTO_HEADER_SIZE. lia. }
    rewrite Er, bind_ret_l. rewrite pow_minimum, bind_ret_l; [|exact (inv_started _ _ _ Hi)|lia].
    eexists. split; [reflexivity|]. split; [|done].
    match goal with |- kr_inv None dt (put_message i ?m2 ?k) =>
      replace (put_message i m2 k) with (put_message i m2 (kr_set_pow (<[kr_next kr := PowTask object NTB_PROTO_MIN_EXTRA_BYTES NTB_PROTO_MIN_NONCE_TRIALS_PER_BYTE (ACKDATA_POW_CB i)]>
        (kr_pow (put_message i (clear_cookies m) (take_load c kr)))) (kr_set_next (S (kr_next kr)) (kr_set_random (tl (kr_random kr)) (put_message i (clear_cookies m) (take_load c kr))))))
    end.
    2: { unfold put_message, take_load. destruct kr. kr_cbn. by rewrite insert_insert_eq. }
    apply (attach_pow dt i (clear_cookies m) _ _ (kr_set_random (tl (kr_random kr)) (put_message i (clear_cookies m) (take_load c kr))));
      [by apply inv_set_random|exact Hm1|done|reflexivity|reflexivity|reflexivity|].
    unfold msg_state_ok. ms_cbn. split; [by eexists|]. split; [|done]. eexists _, _.
    split_and!; [done|done|done|apply lookup_insert_eq|done|]. exists (blob_data blob), time, ackdata, junk. cbv zeta. split_and!; try done. change (zlen object < 64). lia.
  - destruct (free_message_spec _ _ _ _ _ Hd (or_intror eq_refl) Hm1) as (kr1 & -> & Hi1 & F & _). rewrite bind_ret_l.
    destruct (save_messages_spec _ _ Hi1) as (outgoings & -> & Hi2). eexists. by split_and!.
Qed.

(** An object of a message whose nonce was found is given to the network. *)
Lemma send_object_spec wall nonce c i m type blob payload st kr :
  kr_inv None None kr -> network_good (kr_nw kr) -> network_room (kr_nw kr) -> kr_message kr !! i = Some m ->
  ms_crypto_cookie m = None -> ms_pow_cookie m = Some c -> ms_store_cookie m = None -> nonce_blob type blob payload ->
  object_ok (Some i) None type (be_split 8 nonce ++ payload) ->
  (forall kr, msg_state_ok (kr_crypto kr) (kr_pow kr) (kr_loads kr) i (ms_set_state (Some st) (ms_set_blob None (clear_cookies m)))) ->
  exists kr', (blob ← blob_write 0 (be_split 8 nonce) blob;
    kr ← ntb_network_add_blob wall blob true false (put_message i (ms_set_blob (Some blob) (ms_set_pow_cookie None m)) (take_pow c kr));
    kr ← update_message i (fun m => ms_set_state (Some st) (ms_set_blob None m)) kr;
    save_messages kr) = Ok kr' /\ kr_inv None None kr' /\ network_good (kr_nw kr').
Proof.
  intros Hi Hg Hr Hm E1 E2 E3 Hb Ho Hst. pose proof (detach_inv None i m kr Hi Hm) as Hd. rewrite (pow_taken i c) in Hd by done.
  rewrite (nonce_blob_write type _ payload) by (done || apply zlen_be_split). rewrite bind_ret_l. set (blob' := DynBlob type _).
  assert (E : ms_set_blob (Some blob') (ms_set_pow_cookie None m) = ms_set_blob (Some blob') (clear_cookies m)) by (destruct m; ms_cbn; by subst).
  rewrite E. set (m1 := ms_set_blob (Some blob') (clear_cookies m)).
  assert (Hm1 : kr_message (put_message i (clear_cookies m) (take_pow c kr)) !! i = Some (clear_cookies m)) by (kr_cbn; apply lookup_insert_eq).
  assert (Hs : static_ok m) by apply (inv_messages _ _ _ Hi i m Hm).
  assert (Hi1 : kr_inv (Some i) None (put_message i m1 (take_pow c kr))) by (rewrite <- (put_put i m1 (clear_cookies m)); by eapply put_detached).
  assert (Hm2 : kr_message (put_message i m1 (take_pow c kr)) !! i = Some m1) by (kr_cbn; apply lookup_insert_eq).
  destruct Hb as (_ & Hpb & Hpz). destruct (add_blob_spec (Some i) None wall type (be_split 8 nonce ++ payload) true false _ Hi1 Hg Hr) as (kr2 & E4 & Hi2 & Hg2 & Hf & _);
    [rewrite bytes_app; split; [apply bytes_be_split|done]|rewrite zlen_app, zlen_be_split; lia|done|].
  fold blob' in E4. rewrite E4, bind_ret_l. destruct (Hf i eq_refl) as [_ Em]. assert (Hm3 : kr_message kr2 !! i = Some m1) by (by rewrite Em).
  rewrite (update_message_Some i _ m1), bind_ret_l by done.
  assert (Hi3 : kr_inv None None (put_message i (ms_set_state (Some st) (ms_set_blob None m1)) kr2)) by (eapply settle; [exact Hi2|exact Hm3|done|done|apply (Hst kr2)]).
  destruct (save_messages_spec _ _ Hi3) as (outgoings & -> & Hi4). eexists. by split_and!.
Qed.

Lemma be_split_nonce n : length (be_split 8 n) = 8%nat /\ bytes (be_split 8 n).
Proof. split; [|apply bytes_be_split]. pose proof (zlen_be_split 8 n). unfold zlen in *. lia. Qed.

Lemma getpubkey_pow_spec wall nonce c t i kr :
  kr_inv None None kr -> network_good (kr_nw kr) -> network_room (kr_nw kr) -> kr_pow kr !! c = Some t -> pt_callback t = GETPUBKEY_POW_CB i ->
  exists kr', getpubkey_pow_cb wall nonce i (take_pow c kr) = Ok kr' /\ kr_inv None None kr' /\ network_good (kr_nw kr').
Proof.
  intros Hi Hg Hr Hc Ht. destruct (pow_message _ _ _ i _ Hi Hc) as (m & Hm & Ec & Hs & Hw); [unfold pow_owner; by rewrite Ht|]. state_of Hw; try congruence.
  match goal with Hx : ms_blob m = Some ?b |- _ => rename Hx into Eb; rename b into blob end.
  match goal with Hx : nonce_blob _ _ _ |- _ => rename Hx into Hn end. match goal with Hx : getpubkey_payload_ok _ |- _ => rename Hx into Hp end.
  unfold getpubkey_pow_cb. rewrite (the_message_Some i m), bind_ret_l by done. rewrite Eb. cbn [need]. rewrite bind_ret_l.
  destruct (be_split_nonce nonce) as [Hl Hb]. destruct (Hp _ Hl Hb) as (vs & n & En & Hn0).
  apply (send_object_spec wall nonce c i m NTB_PROTO_INV_TYPE_GETPUBKEY blob (pt_payload t)); try done.
  - split; [done|]. unfold header_defined. by rewrite En.
  - intros kr'. unfold msg_state_ok. ms_cbn. by split_and!; auto.
Qed.

Lemma msg_pow_spec wall nonce c t i kr :
  kr_inv None None kr -> network_good (kr_nw kr) -> network_room (kr_nw kr) -> kr_pow kr !! c = Some t -> pt_callback t = MSG_POW_CB i ->
  exists kr', msg_pow_cb wall nonce i (take_pow c kr) = Ok kr' /\ kr_inv None None kr' /\ network_good (kr_nw kr').
Proof.
  intros Hi Hg Hr Hc Ht. destruct (pow_message _ _ _ i _ Hi Hc) as (m & Hm & Ec & Hs & Hw); [unfold pow_owner; by rewrite Ht|]. state_of Hw; try congruence.
  match goal with Hx : ms_blob m = Some ?b |- _ => rename Hx into Eb; rename b into blob end.
  match goal with Hx : nonce_blob _ _ _ |- _ => rename Hx into Hn end. match goal with Hx : msg_payload_ok _ |- _ => rename Hx into Hp end.
  unfold msg_pow_cb. rewrite (the_message_Some i m), bind_ret_l by done. rewrite Eb. cbn [need]. rewrite bind_ret_l.
  destruct (be_split_nonce nonce) as [Hl Hb]. destruct (Hp _ Hl Hb) as (vs & n & En & Hn0).
  apply (send_object_spec wall nonce c i m NTB_PROTO_INV_TYPE_MSG blob (pt_payload t)); try done.
  - split; [done|]. split; [unfold header_defined; by rewrite En|]. right. intros vs' n'. rewrite En. intros [= <- <-]. lia.
  - intros kr'. unfold msg_state_ok. ms_cbn. by split_and!; auto.
Qed.

(** The nonce of the acknowledgement was found. *)
Lemma ackdata_pow_spec dt wall nonce c t i kr :
  clock_ok wall -> kr_inv None dt kr -> kr_pow kr !! c = Some t -> pt_callback t = ACKDATA_POW_CB i ->
  exists kr', ackdata_pow_cb wall nonce i (take_pow c kr) = Ok kr' /\ kr_inv None dt kr' /\ kr_nw kr' = kr_nw kr.
Proof.
  intros Hwall Hi Hc Ht. destruct (pow_message _ _ _ i _ Hi Hc) as (m & Hm & Ec & Hs & Hw); [unfold pow_owner; by rewrite Ht|]. state_of Hw; try congruence.
  pose proof (detach_inv dt i m kr Hi Hm) as Hd. rewrite (pow_taken i c) in Hd by done.
  match goal with Hx : unacked_blob _ _ |- _ => destruct Hx as (content & timestamp & ackdata & junk & Hu) end. cbv zeta in Hu.
  destruct Hu as (Ea & Hj & Ho & _ & Hcz & Hcb & Eb & Eoff & Elen & Htime). match goal with Hx : is_Some (ms_to_key m) |- _ => destruct Hx as [to_key Ek] end.
  unfold ackdata_pow_cb. rewrite (the_message_Some i m), bind_ret_l by done. rewrite Eb. cbn [need]. rewrite bind_ret_l. cbn zeta. rewrite Eoff, Elen.
  set (object := ack_object timestamp m ackdata) in *. set (text := unacked_text _) in *. pose proof (zlen_be_split 8 nonce) as Hzn. change (Z.of_nat 8) with 8 in Hzn.
  destruct (ack_filled NTB_PROTO_INV_TYPE_MSG (Some <$> text ++ [32 + zlen object]) junk object (be_split 8 nonce) (zlen text + 1)) as (blob1 & E1 & E2 & E3);
    [done|done|rewrite zlen_fmap, zlen_app; done|].
  rewrite E1, bind_ret_l, E2, bind_ret_l, E3, bind_ret_l. unfold random_offset. match goal with |- context [Z.rem ?r 600] => pose proof (random_range r) as Hrand end. set (time := wall + _).
  assert (Htime' : sent_time time) by (unfold sent_time, time, clock_ok in *; lia). cbn iota zeta. ms_cbn. rewrite Ek. cbn [need]. rewrite bind_ret_l.
  rewrite crypto_queue_spec, bind_ret_l by exact (inv_started _ _ _ Hi). eexists. split; [reflexivity|]. split; [|done].
  set (blob2 := DynBlob NTB_PROTO_INV_TYPE_MSG _). set (m2 := ms_set_crypto_cookie _ _). set (t2 := CRYPTO_CREATE_MSG_BLOB _ _ _ _ _).
  assert (Hm1 : kr_message (put_message i (clear_cookies m) (take_pow c kr)) !! i = Some (clear_cookies m)) by (kr_cbn; apply lookup_insert_eq).
  set (kr1 := kr_set_random (tl (kr_random kr)) (put_message i (clear_cookies m) (take_pow c kr))).
  match goal with |- kr_inv None dt ?k => replace k with (put_message i m2 (kr_set_crypto (<[kr_next kr1 := t2]> (kr_crypto kr1)) (kr_set_next (S (kr_next kr1)) kr1))) end.
  2: { unfold kr1, put_message, take_pow. destruct kr. kr_cbn. by rewrite insert_insert_eq. }
  apply (attach_crypto dt i (clear_cookies m) m2 t2 kr1); [by apply inv_set_random|exact Hm1|exact Hs|reflexivity|reflexivity|reflexivity|].
  unfold msg_state_ok, m2. ms_cbn. split; [by eexists|]. eexists _, _. split_and!; [done|done|done|apply lookup_insert_eq|].
  exists to_key, blob2. split; [done|]. split; [|done]. exists content, timestamp, ackdata, (be_split 8 nonce). split; [done|]. split; [split; [done|apply bytes_be_split]|]. do 5 (split; [done|]).
  destruct (signed_text_ack m content object (be_split 8 nonce)) as [_ Et]; [done|done|]. unfold blob2. f_equal.
  change (message_text _ content) with (message_text m content). change (ack_object timestamp _ ackdata) with object. rewrite Et. rewrite !fmap_app, <- !app_assoc. done.
Qed.

(** The message was signed and encrypted. *)
Lemma create_msg_blob_spec dt c timestamp from_key to_key content blob payload i kr :
  kr_inv None dt kr -> kr_crypto kr !! c = Some (CRYPTO_CREATE_MSG_BLOB timestamp from_key to_key content i) ->
  nonce_blob NTB_PROTO_INV_TYPE_MSG blob payload -> msg_payload_ok payload ->
  exists kr', create_msg_blob_cb blob i (take_crypto c kr) = Ok kr' /\ kr_inv None dt kr' /\ kr_nw kr' = kr_nw kr.
Proof.
  intros Hi Hc Hb Hp. destruct (crypto_message _ _ _ i _ Hi Hc eq_refl) as (m & Hm & Ec & Hs & Hw). state_of Hw.
  pose proof (detach_inv dt i m kr Hi Hm) as Hd. rewrite (crypto_taken i c) in Hd by done.
  match goal with Hx : ms_to_key m = Some _ |- _ => rename Hx into Ek end. match goal with Hx : acked_blob _ _ |- _ => destruct Hx as (? & ? & ? & ? & _ & _ & Eb & _) end.
  unfold create_msg_blob_cb. rewrite (the_message_Some i m), bind_ret_l by done. rewrite Eb. cbn [need]. rewrite bind_ret_l. cbn zeta. ms_cbn. rewrite Ek. cbn [need].
  rewrite bind_ret_l. rewrite (nonce_blob_read _ _ _ Hb), bind_ret_l.
  destruct Hs as (S1 & S2 & S3 & S4). destruct (S3 _ Ek) as (_ & _ & K1 & K2). pose proof Hb as (_ & _ & Hz).
  rewrite pow_calculate_spec, bind_ret_l; [|exact (inv_started _ _ _ Hi)|done|unfold NTB_PROTO_MIN_EXTRA_BYTES; lia|unfold NTB_PROTO_MIN_NONCE_TRIALS_PER_BYTE; lia].
  eexists. split; [reflexivity|]. split; [|done].
  set (m2 := ms_set_pow_cookie _ _). set (t2 := PowTask _ _ _ _).
  assert (Hm1 : kr_message (put_message i (clear_cookies m) (take_crypto c kr)) !! i = Some (clear_cookies m)) by (kr_cbn; apply lookup_insert_eq).
  set (kr1 := put_message i (clear_cookies m) (take_crypto c kr)) in *.
  match goal with |- kr_inv None dt ?k => replace k with (put_message i m2 (kr_set_pow (<[kr_next kr1 := t2]> (kr_pow kr1)) (kr_set_next (S (kr_next kr1)) kr1))) end.
  2: { unfold kr1, put_message, take_crypto. destruct kr. kr_cbn. by rewrite insert_insert_eq. }
  apply (attach_pow dt i (clear_cookies m) m2 t2 kr1); [done|exact Hm1|done|reflexivity|reflexivity|reflexivity|].
  assert (Ha : is_Some (ms_ackdata m)) by auto. unfold msg_state_ok, m2. ms_cbn. split; [done|]. split; [|by eexists]. eexists _, _. split_and!; [done|done|done|apply lookup_insert_eq|done|done|].
  by exists blob.
Qed.

(** ** Tasks *)

(** A task that waits for nothing; the cookie of a search that ended may stay in it. *)
Definition task_idle (kr : ntb_keyring) (t : ntb_keyring_task) : Prop :=
  tk_crypto_cookie t = None /\ (forall c, tk_pow_cookie t = Some c -> kr_pow kr !! c = None /\ (c < kr_next kr)%nat).

Lemma idle_task d i t kr : kr_inv d (Some i) kr -> kr_task kr !! i = Some t -> task_idle kr t.
Proof. intros Hi Ht. pose proof (inv_tasks _ _ _ Hi i t Ht) as Hw. by rewrite decide_True in Hw. Qed.

Lemma idle_owns_nothing d dt i t kr : kr_inv d dt kr -> kr_task kr !! i = Some t -> task_idle kr t ->
  (forall c ct, kr_crypto kr !! c = Some ct -> crypto_owner ct <> OwnTask i) /\ (forall c pt, kr_pow kr !! c = Some pt -> pow_owner pt <> OwnTask i).
Proof.
  intros Hi Ht [Wc Wp]. split; intros c ct Hc Ho.
  - pose proof (inv_crypto _ _ _ Hi c ct Hc) as Hh. rewrite Ho in Hh. cbn in Hh. rewrite Ht in Hh. cbn in Hh. congruence.
  - pose proof (inv_pow _ _ _ Hi c ct Hc) as Hh. rewrite Ho in Hh. cbn in Hh. rewrite Ht in Hh. cbn in Hh. destruct (Wp c Hh). congruence.
Qed.

Lemma task_list_put d dt i t t' kr : kr_inv d dt kr -> kr_task kr !! i = Some t ->
  NoDup (kr_tasks kr) /\ forall j, j ∈ kr_tasks kr <-> is_Some (<[i := t']> (kr_task kr) !! j).
Proof.
  intros Hi Ht. destruct (inv_task_list _ _ _ Hi) as [Hn Hl]. split; [done|]. intros j. rewrite Hl. destruct (decide (j = i)) as [->|Hne].
  - rewrite lookup_insert_eq, Ht. by split; eexists.
  - by rewrite lookup_insert_ne.
Qed.
Lemma task_bounded d dt i t kr : kr_inv d dt kr -> kr_task kr !! i = Some t -> (i < kr_next kr)%nat.
Proof. intros Hi Ht. destruct (inv_bounded _ _ _ Hi) as (_ & Bt & _). apply Bt. by exists t. Qed.

(** The answer to the request of a task was taken: the task waits for nothing. *)
Lemma detach_task d i t t' kr :
  kr_inv d None kr -> kr_task kr !! i = Some t -> tk_crypto_cookie t' = None -> (forall c, tk_pow_cookie t' = Some c -> tk_pow_cookie t = Some c) ->
  kr_inv d (Some i) (put_task i t' (kr_set_crypto (drop_request (tk_crypto_cookie t) (kr_crypto kr)) (kr_set_pow (drop_request (tk_pow_cookie t) (kr_pow kr)) kr))).
Proof.
  intros Hi Ht Ec Ep. pose proof (inv_tasks _ _ _ Hi i t Ht) as Hw. rewrite decide_False in Hw by done.
  apply (inv_change_task d None (Some i) i kr); try done; kr_cbn; rewrite ?lookup_insert_eq; try (by apply Hi); try (by left); try (by right).
  - intros j Hj. by rewrite lookup_insert_ne.
  - by eapply task_list_put.
  - intros ? [= <-]. rewrite decide_True by done. split; [done|]. intros c Hc. specialize (Ep c Hc). rewrite Ep. cbn [drop_request]. rewrite lookup_delete_eq. split; [done|].
    destruct Hw as [(c' & ct & _ & E & _)|(c' & pt & blob & _ & E & E3 & _)]; [congruence|]. assert (c' = c) as -> by congruence.
    destruct (inv_bounded _ _ _ Hi) as (_ & _ & _ & _ & _ & Bp & _). apply Bp. by exists pt.
  - apply bounded_insert; [apply Hi|by eapply task_bounded].
  - apply reowned_drop.
    + intros c ct Hc Ho. pose proof (inv_crypto _ _ _ Hi c ct Hc) as Hh. rewrite Ho in Hh. cbn in Hh. by rewrite Ht in Hh.
    + intros c ct Hc Hct. destruct Hw as [(c' & ct' & E1 & _ & E3 & E4)|(c' & pt & blob & E1 & _)]; congruence.
  - apply reowned_drop.
    + intros c pt Hc Ho. pose proof (inv_pow _ _ _ Hi c pt Hc) as Hh. rewrite Ho in Hh. cbn in Hh. by rewrite Ht in Hh.
    + intros c pt Hc Hpt. destruct Hw as [(c' & ct' & _ & E2 & _)|(c' & pt' & blob & _ & E2 & E3 & E4 & _)]; [congruence|]. assert (pt' = pt) as <- by congruence. unfold pow_owner. by rewrite E4.
Qed.

Lemma put_idle_task d i t t' kr :
  kr_inv d (Some i) kr -> kr_task kr !! i = Some t -> task_idle kr t' -> kr_inv d (Some i) (put_task i t' kr).
Proof.
  intros Hi Ht Hw. destruct (idle_owns_nothing _ _ _ _ _ Hi Ht (idle_task _ _ _ _ Hi Ht)) as [Oc Op].
  apply (inv_change_task d (Some i) (Some i) i kr); try done; kr_cbn; rewrite ?lookup_insert_eq; try (by apply Hi); try (by right).
  - intros j Hj. by rewrite lookup_insert_ne.
  - by eapply task_list_put.
  - intros ? [= <-]. by rewrite decide_True.
  - apply bounded_insert; [apply Hi|by eapply task_bounded].
  - by apply reowned_same.
  - by apply reowned_same.
Qed.

Lemma drop_idle_task d i t kr : kr_inv d (Some i) kr -> kr_task kr !! i = Some t ->
  kr_inv d None (kr_set_task (delete i (kr_task kr)) (kr_set_tasks (filter (.≠ i) (kr_tasks kr)) kr)).
Proof.
  intros Hi Ht. destruct (idle_owns_nothing _ _ _ _ _ Hi Ht (idle_task _ _ _ _ Hi Ht)) as [Oc Op].
  apply (inv_change_task d (Some i) None i kr); try done; kr_cbn; rewrite ?lookup_delete_eq; try (by apply Hi); try (by left); try (by right); try (by intros ? [=]).
  - intros j Hj. by rewrite lookup_delete_ne.
  - destruct (inv_task_list _ _ _ Hi) as [Hn Hl]. split; [by apply NoDup_filter|]. intros j. rewrite list_elem_of_filter, Hl.
    destruct (decide (j = i)) as [->|Hj]; [rewrite lookup_delete_eq|rewrite lookup_delete_ne by done].
    + split; [by intros [? _]|by intros [? [=]]].
    + split; [by intros [_ ?]|by split].
  - apply bounded_delete, Hi.
  - by apply reowned_same.
  - by apply reowned_same.
Qed.

Lemma attach_task_pow d i t t' pt blob kr :
  kr_inv d (Some i) kr -> kr_task kr !! i = Some t -> tk_crypto_cookie t' = None -> tk_pow_cookie t' = Some (kr_next kr) -> tk_blob t' = Some blob ->
  pt_callback pt = CREATE_PUBKEY_POW_CB i -> nonce_blob NTB_PROTO_INV_TYPE_PUBKEY blob (pt_payload pt) -> pubkey_payload_ok (pt_payload pt) ->
  kr_inv d None (put_task i t' (kr_set_pow (<[kr_next kr := pt]> (kr_pow kr)) (kr_set_next (S (kr_next kr)) kr))).
Proof.
  intros Hi Ht Ec Ep Eb Ecb Hn Hp. destruct (idle_owns_nothing _ _ _ _ _ Hi Ht (idle_task _ _ _ _ Hi Ht)) as [Oc Op].
  apply (inv_change_task d (Some i) None i kr); try done; kr_cbn; rewrite ?lookup_insert_eq; try (by apply Hi); try (by left); try (by right); try lia.
  - intros j Hj. by rewrite lookup_insert_ne.
  - by eapply task_list_put.
  - intros ? [= <-]. rewrite decide_False by done. right. exists (kr_next kr), pt, blob. by rewrite lookup_insert_eq.
  - apply bounded_insert; [eapply bounded_le; [apply Hi|lia]|]. pose proof (task_bounded _ _ _ _ _ Hi Ht). lia.
  - by apply reowned_same.
  - cbn. rewrite Ep. apply reowned_new; [done|unfold pow_owner; by rewrite Ecb|lia|apply Hi].
Qed.

(** The task that a request belongs to. *)
Lemma crypto_task_owner d c ct i kr : kr_inv d None kr -> kr_crypto kr !! c = Some ct -> crypto_owner ct = OwnTask i ->
  exists t, kr_task kr !! i = Some t /\ tk_crypto_cookie t = Some c /\ tk_pow_cookie t = None.
Proof.
  intros Hi Hc Ho. pose proof (inv_crypto _ _ _ Hi c ct Hc) as Hh. rewrite Ho in Hh. cbn in Hh. destruct (kr_task kr !! i) as [t|] eqn:Ht; [|done].
  exists t. split; [done|]. split; [done|]. pose proof (inv_tasks _ _ _ Hi i t Ht) as Hw. rewrite decide_False in Hw by done.
  destruct Hw as [(? & ? & _ & ? & _)|(? & ? & ? & E & _)]; [done|]. cbn in Hh. congruence.
Qed.
Lemma pow_task_owner d c pt i kr : kr_inv d None kr -> kr_pow kr !! c = Some pt -> pt_callback pt = CREATE_PUBKEY_POW_CB i ->
  exists t blob, kr_task kr !! i = Some t /\ tk_crypto_cookie t = None /\ tk_pow_cookie t = Some c /\ tk_blob t = Some blob /\
    nonce_blob NTB_PROTO_INV_TYPE_PUBKEY blob (pt_payload pt) /\ pubkey_payload_ok (pt_payload pt).
Proof.
  intros Hi Hc Ho. pose proof (inv_pow _ _ _ Hi c pt Hc) as Hh. unfold pow_owner in Hh. rewrite Ho in Hh. cbn in Hh. destruct (kr_task kr !! i) as [t|] eqn:Ht; [|done].
  pose proof (inv_tasks _ _ _ Hi i t Ht) as Hw. rewrite decide_False in Hw by done. cbn in Hh.
  destruct Hw as [(? & ? & _ & ? & _)|(c' & pt' & blob & E1 & E2 & E3 & E4 & E5 & E6 & E7)]; [congruence|]. assert (c' = c) as -> by congruence.
  assert (pt' = pt) as -> by congruence. by exists t, blob.
Qed.

Lemma the_task_Some i t kr : kr_task kr !! i = Some t -> the_task i kr = Ok t.
Proof. unfold the_task. by intros ->. Qed.
Lemma update_task_Some i f t kr : kr_task kr !! i = Some t -> update_task i f kr = Ok (put_task i (f t) kr).
Proof. unfold update_task. intros Ht. by rewrite (the_task_Some i t), bind_ret_l. Qed.
Lemma put_task_put i t t' kr : put_task i t (put_task i t' kr) = put_task i t kr.
Proof. destruct kr. unfold put_task. kr_cbn. by rewrite insert_insert_eq. Qed.

Lemma free_idle_task_spec d i t kr : kr_inv d (Some i) kr -> kr_task kr !! i = Some t -> tk_crypto_cookie t = None -> tk_pow_cookie t = None ->
  exists kr', free_task i kr = Ok kr' /\ kr_inv d None kr' /\ frame_handler kr kr' /\ kr_keys kr' = kr_keys kr.
Proof.
  intros Hi Ht Ec Ep. unfold free_task. rewrite (the_task_Some i t), bind_ret_l, Ec, Ep, !bind_ret_l by done. eexists. split; [reflexivity|].
  split; [by eapply drop_idle_task|]. by split_and!.
Qed.
Lemma free_task_spec d i t kr : kr_inv d None kr -> kr_task kr !! i = Some t ->
  exists kr', free_task i kr = Ok kr' /\ kr_inv d None kr' /\ frame_handler kr kr' /\ kr_keys kr' = kr_keys kr.
Proof.
  intros Hi Ht. pose proof (detach_task d i t (Task None None (tk_blob t) (tk_timestamp t)) kr Hi Ht eq_refl ltac:(done)) as Hd.
  assert (Ht1 : kr_task (put_task i (Task None None (tk_blob t) (tk_timestamp t)) kr) !! i = Some (Task None None (tk_blob t) (tk_timestamp t))) by (kr_cbn; apply lookup_insert_eq).
  pose proof (drop_idle_task _ _ _ _ Hd Ht1) as Hn.
  pose proof (inv_tasks _ _ _ Hi i t Ht) as Hw. rewrite decide_False in Hw by done. unfold free_task. rewrite (the_task_Some i t), bind_ret_l by done.
  unfold ntb_crypto_cancel_task, ntb_pow_cancel.
  destruct Hw as [(c & ct & E1 & E2 & E3 & E4)|(c & pt & blob & E1 & E2 & E3 & _)]; rewrite E1, E2 in *; cbn [drop_request] in Hn.
  all: rewrite ?bind_ret_l, E3; cbn [need]; rewrite !bind_ret_l; eexists; split; [reflexivity|]; split; [|by split_and!].
  all: match type of Hn with kr_inv _ _ ?k => match goal with |- kr_inv _ _ ?k' => replace k' with k end end; [exact Hn|].
  all: destruct kr; unfold put_task; kr_cbn; by rewrite delete_insert_eq.
Qed.

Lemma create_pubkey_blob_cb_spec d c key blob payload i kr :
  kr_inv d None kr -> kr_crypto kr !! c = Some (CRYPTO_CREATE_PUBKEY_BLOB key i) -> nonce_blob NTB_PROTO_INV_TYPE_PUBKEY blob payload -> pubkey_payload_ok payload ->
  exists kr', create_pubkey_blob_cb blob i (take_crypto c kr) = Ok kr' /\ kr_inv d None kr' /\ kr_nw kr' = kr_nw kr.
Proof.
  intros Hi Hc Hb Hp. destruct (crypto_task_owner _ _ _ i _ Hi Hc eq_refl) as (t & Ht & Ec & Ep).
  pose proof (detach_task d i t (tk_set_crypto_cookie None t) kr Hi Ht eq_refl ltac:(done)) as Hd. rewrite Ec, Ep in Hd. cbn [drop_request] in Hd.
  unfold create_pubkey_blob_cb. rewrite (update_task_Some i _ t), bind_ret_l by done. rewrite (nonce_blob_read _ _ _ Hb), bind_ret_l. pose proof Hb as (_ & _ & Hz).
  rewrite pow_minimum, bind_ret_l by (done || exact (inv_started _ _ _ Hi)).
  rewrite (update_task_Some i _ (tk_set_crypto_cookie None t)) by (kr_cbn; apply lookup_insert_eq). eexists. split; [reflexivity|]. split; [|done].
  set (t' := tk_set_blob _ _). set (pt := PowTask _ _ _ _). set (kr1 := put_task i (tk_set_crypto_cookie None t) (take_crypto c kr)).
  match goal with |- kr_inv _ _ ?k => replace k with (put_task i t' (kr_set_pow (<[kr_next kr1 := pt]> (kr_pow kr1)) (kr_set_next (S (kr_next kr1)) kr1))) by done end.
  apply (attach_task_pow d i (tk_set_crypto_cookie None t) t' pt blob kr1); [|unfold kr1; kr_cbn; apply lookup_insert_eq|reflexivity|reflexivity|reflexivity|reflexivity|exact Hb|exact Hp].
  unfold kr1, take_crypto. replace (kr_set_crypto _ kr) with (kr_set_crypto (delete c (kr_crypto kr)) (kr_set_pow (kr_pow kr) kr)); [exact Hd|by destruct kr].
Qed.

Lemma create_pubkey_pow_spec wall nonce c pt i kr :
  kr_inv None None kr -> network_good (kr_nw kr) -> network_room (kr_nw kr) -> kr_pow kr !! c = Some pt -> pt_callback pt = CREATE_PUBKEY_POW_CB i ->
  exists kr', create_pubkey_pow_cb wall nonce i (take_pow c kr) = Ok kr' /\ kr_inv None None kr' /\ network_good (kr_nw kr').
Proof.
  intros Hi Hg Hr Hc Ecb. destruct (pow_task_owner _ _ _ i _ Hi Hc Ecb) as (t & blob & Ht & Ec & Ep & Eb & Hb & Hp).
  unfold create_pubkey_pow_cb. rewrite (the_task_Some i t), bind_ret_l by done. rewrite Eb. cbn [need]. rewrite bind_ret_l.
  rewrite (nonce_blob_write NTB_PROTO_INV_TYPE_PUBKEY _ (pt_payload pt)), bind_ret_l by (done || apply zlen_be_split). cbn zeta. set (data := be_split 8 nonce ++ pt_payload pt).
  set (t1 := tk_set_blob _ t). pose proof (detach_task None i t t1 kr Hi Ht Ec ltac:(done)) as Hd. rewrite Ec, Ep in Hd. cbn [drop_request] in Hd.
  set (kr1 := put_task i t1 (take_pow c kr)). replace (put_task i t1 _) with kr1 in Hd by (by destruct kr).
  destruct (be_split_nonce nonce) as [Hl Hbn]. destruct Hb as (_ & Hpb & Hpz).
  destruct (add_blob_spec None (Some i) wall NTB_PROTO_INV_TYPE_PUBKEY data true true kr1 Hd Hg Hr) as (kr2 & E & Hi2 & Hg2 & _ & Hf).
  { unfold data. by rewrite bytes_app. }
  { unfold data. rewrite zlen_app, zlen_be_split. lia. }
  { split; [done|]. by apply Hp. }
  fold data in E |- *. rewrite E, bind_ret_l. specialize (Hf i eq_refl). assert (Ht2 : kr_task kr2 !! i = Some t1) by (rewrite Hf; unfold kr1; kr_cbn; apply lookup_insert_eq).
  rewrite (update_task_Some i _ t1), bind_ret_l by done.
  assert (Hi3 : kr_inv None (Some i) (put_task i (tk_set_pow_cookie None t1) kr2)) by (eapply put_idle_task; [done|done|by split]).
  destruct (free_idle_task_spec None i (tk_set_pow_cookie None t1) _ Hi3) as (kr3 & -> & Hi4 & F & _); [kr_cbn; apply lookup_insert_eq|done|done|].
  exists kr3. split_and!; [done|done|]. destruct F as [-> _]. done.
Qed.

(** The answer to a request of a task that ends. *)
Lemma end_task_spec d c ct i kr : kr_inv d None kr -> kr_crypto kr !! c = Some ct -> crypto_owner ct = OwnTask i ->
  exists t kr', kr_task kr !! i = Some t /\ free_task i (put_task i (tk_set_crypto_cookie None t) (take_crypto c kr)) = Ok kr' /\
    kr_inv d None kr' /\ frame_handler kr kr' /\ kr_keys kr' = kr_keys kr.
Proof.
  intros Hi Hc Ho. destruct (crypto_task_owner _ _ _ i _ Hi Hc Ho) as (t & Ht & Ec & Ep).
  pose proof (detach_task d i t (tk_set_crypto_cookie None t) kr Hi Ht eq_refl ltac:(done)) as Hd. rewrite Ec, Ep in Hd. cbn [drop_request] in Hd.
  replace (put_task i _ _) with (put_task i (tk_set_crypto_cookie None t) (take_crypto c kr)) in Hd by (by destruct kr).
  destruct (free_idle_task_spec d i (tk_set_crypto_cookie None t) _ Hd) as (kr1 & E & Hi1 & F); [kr_cbn; apply lookup_insert_eq|done|done|].
  exists t, kr1. by split_and!; try apply F.
Qed.

Lemma create_public_key_cb_spec d c params key i kr :
  kr_inv d None kr -> kr_crypto kr !! c = Some (CRYPTO_CREATE_PUBLIC_KEY params i) -> key_wf key ->
  exists kr', create_public_key_cb key i (take_crypto c kr) = Ok kr' /\ kr_inv d None kr' /\ kr_nw kr' = kr_nw kr.
Proof.
  intros Hi Hc Hk. destruct (end_task_spec d c _ i kr Hi Hc eq_refl) as (t & kr1 & Ht & E & Hi1 & (F1 & _) & _).
  unfold create_public_key_cb. rewrite (update_task_Some i _ t), bind_ret_l by done. rewrite E, bind_ret_l. eexists. split; [reflexivity|].
  split; [by apply add_public_key_inv|]. by rewrite (proj1 (add_public_key_rest _ _)).
Qed.

(** The answers with which [decrypt_msg_cb] returns before it computes the sender's
    address: nothing was decrypted, or something that is no message, has numbers that are
    too large or was written for another recipient. *)
Definition message_refused (decrypted : option (ntb_key * dyn_blob)) : Prop :=
  match decrypted with
  | None => True
  | Some (key, blob) =>
      exists data, blob_bytes blob = Ok data /\
        match ntb_proto_get_decrypted_msg data (zlen data) with
        | Ok msg => 255 < dm_sender_stream_number msg \/ 255 < dm_sender_address_version msg \/
            (exists ripe, read_bytes (E := unit) RIPEMD160_DIGEST_LENGTH (dm_destination_ripe msg) = Ok ripe /\ addr_ripe (key_address key) <> ripe)
        | Err _ => True
        | UB | OutOfFuel => False
        end
  end.

Lemma decrypt_refused_spec d wall c blob keys i decrypted kr :
  kr_inv d None kr -> kr_crypto kr !! c = Some (CRYPTO_DECRYPT_MSG blob keys i) -> message_refused decrypted ->
  exists kr', decrypt_msg_cb wall decrypted i (take_crypto c kr) = Ok kr' /\ kr_inv d None kr' /\ kr_nw kr' = kr_nw kr.
Proof.
  intros Hi Hc Hm. destruct (end_task_spec d c _ i kr Hi Hc eq_refl) as (t & kr1 & Ht & E & Hi1 & (F1 & _) & _).
  unfold decrypt_msg_cb. rewrite (the_task_Some i t), bind_ret_l by done. cbn zeta. rewrite E, bind_ret_l. exists kr1.
  destruct decrypted as [[key text]|]; [|done]. destruct Hm as (data & Ed & Hm). rewrite Ed, bind_ret_l.
  destruct (ntb_proto_get_decrypted_msg data (zlen data)) as [msg|e| |]; cbn [parse]; rewrite ?bind_ret_l; try done.
  destruct Hm as [Hm|[Hm|(ripe & Er & Hne)]].
  - rewrite (proj2 (Z.ltb_lt _ _) Hm). done.
  - rewrite (proj2 (Z.ltb_lt _ _) Hm), orb_true_r. done.
  - destruct (_ || _); [done|]. rewrite Er, bind_ret_l. unfold bytes_eqb. rewrite bool_decide_eq_false_2 by done. done.
Qed.

(** ** New keys *)

Lemma inv_change_cookie d dt i kr kr' :
  kr_inv d dt kr -> kr_started kr' = true -> network_reads (kr_nw kr') -> Forall key_wf (kr_keys kr') ->
  kr_tasks kr' = kr_tasks kr -> kr_task kr' = kr_task kr -> kr_messages kr' = kr_messages kr -> kr_message kr' = kr_message kr ->
  kr_pubkey_blob_list kr' = kr_pubkey_blob_list kr -> kr_pubkey_blob_table kr' = kr_pubkey_blob_table kr -> kr_pubkey_blob kr' = kr_pubkey_blob kr ->
  kr_pow kr' = kr_pow kr -> kr_loads kr' = kr_loads kr ->
  (forall j, j <> i -> kr_cookie kr' !! j = kr_cookie kr !! j) ->
  (forall k, kr_cookie kr' !! i = Some k -> exists params z, kr_crypto kr' !! kc_crypto_cookie k = Some (CRYPTO_CREATE_KEY params z i)) ->
  (kr_next kr <= kr_next kr')%nat -> bounded (kr_cookie kr') (kr_next kr') ->
  reowned (fun t => crypto_owner t = OwnCookie i) (kc_crypto_cookie <$> kr_cookie kr' !! i) (kr_next kr) (kr_next kr') (kr_crypto kr) (kr_crypto kr') ->
  kr_inv d dt kr'.
Proof.
  intros Hi Hst Hnw Hk Etl Et Eml Em Ebl Ebt Eb Ep El Hc Hci Hn Hbc Rc. destruct (inv_bounded _ _ _ Hi) as (Bm & Bt & Bk & Bb & Bc & Bp & Bl). split; try done.
  - rewrite Eml, Em. by apply (inv_message_list _ _ _ Hi).
  - intros j m. rewrite Em, Ep, El. intros Hj. destruct (inv_messages _ _ _ Hi j m Hj) as [Hs Hw]. split; [done|]. case_decide; [done|].
    eapply msg_state_ok_mono; [exact Hw|..]; intros c t _ Hct Ho; [apply (proj1 Rc)|done|done]; congruence.
  - rewrite Etl, Et. by apply (inv_task_list _ _ _ Hi).
  - intros j t. rewrite Et, Ep. intros Hj. pose proof (inv_tasks _ _ _ Hi j t Hj) as Hw. case_decide.
    + destruct Hw as [Hw1 Hw2]. split; [done|]. intros c Ec. destruct (Hw2 c Ec). split; [done|lia].
    + destruct Hw as [(c & ct & E1 & E2 & E3 & E4)|Hw]; [left|by right]. exists c, ct. split_and!; try done. apply (proj1 Rc); [done|congruence].
  - intros j k Hj. destruct (decide (j = i)) as [->|Hne]; [by apply Hci|]. rewrite Hc in Hj by done.
    destruct (inv_cookies _ _ _ Hi j k Hj) as (ps & z & E). exists ps, z. apply (proj1 Rc); [done|]. cbn. congruence.
  - intros c t E. destruct (proj2 Rc c t E) as [(Ho & Hh & _)|[Eo Ho]]; [rewrite Ho; by left|].
    pose proof (inv_crypto _ _ _ Hi c t Eo) as Hb. destruct (crypto_owner t) as [j|j|j]; cbn [crypto_belongs crypto_held] in *; [by rewrite Em|by rewrite Et|].
    rewrite Hc by congruence. destruct Hb as [Hb|[Hb Hlt]]; [by left|]. right. split; [done|lia].
  - intros c t. rewrite Ep. intros E. rewrite <- (inv_pow _ _ _ Hi c t E). destruct (pow_owner t) as [j|j|j]; cbn [pow_held]; [by rewrite Em|by rewrite Et|done].
  - intros c t. rewrite El, Em. by apply (inv_loads _ _ _ Hi).
  - rewrite Em, Eb, Ebl, Ebt. by apply (inv_pubkeys _ _ _ Hi).
  - rewrite Em, Et, Eb, Ep, El. split_and!; eauto using bounded_le, reowned_bounded.
Qed.

(** The cookie of a request for a key is there, or the callback has been called. *)
Lemma cookie_owner d dt c params z i kr : kr_inv d dt kr -> kr_crypto kr !! c = Some (CRYPTO_CREATE_KEY params z i) ->
  (exists k, kr_cookie kr !! i = Some k /\ kc_crypto_cookie k = c) \/ (kr_cookie kr !! i = None /\ (i < kr_next kr)%nat).
Proof.
  intros Hi Hc. pose proof (inv_crypto _ _ _ Hi c _ Hc) as Hh. cbn in Hh. destruct (kr_cookie kr !! i) as [k|]; [left|by right; destruct Hh].
  exists k. split; [done|]. destruct Hh as [Hh|[? _]]; [by injection Hh|done].
Qed.

(** The request of a cookie is dropped and the cookie is freed. *)
Lemma drop_cookie d dt i k kr keys effects : kr_inv d dt kr -> kr_cookie kr !! i = Some k -> Forall key_wf keys ->
  kr_inv d dt (kr_set_cookie (delete i (kr_cookie kr)) (kr_set_keys keys (kr_set_effects effects (take_crypto (kc_crypto_cookie k) kr)))).
Proof.
  intros Hi Hk Hf. destruct (inv_cookies _ _ _ Hi i k Hk) as (params & z & Hc).
  apply (inv_change_cookie d dt i kr); try done; unfold take_crypto; kr_cbn; rewrite ?lookup_delete_eq; try (by apply Hi).
  - intros j Hj. by rewrite lookup_delete_ne.
  - by intros k0 [=].
  - apply bounded_delete, Hi.
  - apply (reowned_drop (fun t => crypto_owner t = OwnCookie i) (Some (kc_crypto_cookie k))).
    + intros c t Hct Ho. pose proof (inv_crypto _ _ _ Hi c t Hct) as Hh. rewrite Ho in Hh. cbn in Hh. rewrite Hk in Hh. by destruct Hh as [Hh|[? _]].
    + intros c t [= <-] Hct. by assert (t = CRYPTO_CREATE_KEY params z i) as -> by congruence.
Qed.

(** The thread calls the callback: the key is added and the cookie is freed, but the
    request is still there. *)
Lemma create_key_cb_spec d dt c params z key i k kr :
  kr_inv d dt kr -> kr_crypto kr !! c = Some (CRYPTO_CREATE_KEY params z i) -> kr_cookie kr !! i = Some k -> key_wf key ->
  exists kr', create_key_cb key i kr = Ok kr' /\ kr_inv d dt kr' /\ kr_nw kr' = kr_nw kr /\ kr_crypto kr' = kr_crypto kr /\
    kr_cookie kr' = delete i (kr_cookie kr).
Proof.
  intros Hi Hc Hk Hw. unfold create_key_cb. rewrite Hk. cbn [need]. rewrite bind_ret_l.
  assert (Hf : Forall key_wf (kr_keys kr ++ [key])) by (apply Forall_app; split; [apply (inv_keys _ _ _ Hi)|by constructor]).
  eexists. split; [reflexivity|]. split; [|by destruct (kc_func k)]. set (kr1 := kr_set_cookie _ _).
  assert (E : exists effects, kr1 = kr_set_cookie (delete i (kr_cookie kr)) (kr_set_keys (kr_keys kr ++ [key]) (kr_set_effects effects kr)))
    by (unfold kr1; destruct (kc_func k); eexists; reflexivity).
  destruct E as [effects ->]. destruct (inv_bounded _ _ _ Hi) as (Bm & Bt & Bk & Bb & Bc & Bp & Bl).
  assert (Hlt : (i < kr_next kr)%nat) by (apply Bk; by eexists).
  destruct Hi. split; try done; kr_cbn.
  - intros j kj [Hne Hj]%lookup_delete_Some. by apply (inv_cookies j kj).
  - intros c' t Ht. specialize (inv_crypto c' t Ht). destruct (crypto_owner t) as [j|j|j]; [done..|]. cbn [crypto_belongs crypto_held] in *. kr_cbn.
    destruct (decide (j = i)) as [->|Hne]; [right; split; [apply lookup_delete_eq|done]|]. by rewrite lookup_delete_ne.
  - split_and!; try done. by apply bounded_delete.
Qed.

(** When the main loop calls it again, the cookie is freed memory. *)
Lemma create_key_cb_again c key i kr : kr_cookie kr !! i = None -> create_key_cb key i (take_crypto c kr) = UB.
Proof. intros Hk. unfold create_key_cb, take_crypto. kr_cbn. by rewrite Hk. Qed.

Lemma cancel_task_spec d dt i k kr : kr_inv d dt kr -> kr_cookie kr !! i = Some k ->
  exists kr', ntb_keyring_cancel_task i kr = Ok kr' /\ kr_inv d dt kr' /\ kr_nw kr' = kr_nw kr.
Proof.
  intros Hi Hk. destruct (inv_cookies _ _ _ Hi i k Hk) as (params & z & Hc). unfold ntb_keyring_cancel_task, ntb_crypto_cancel_task. rewrite Hk. cbn [need].
  rewrite bind_ret_l, Hc. cbn [need]. rewrite !bind_ret_l. eexists. split; [reflexivity|]. split; [|done].
  pose proof (drop_cookie d dt i k kr (kr_keys kr) (kr_effects kr) Hi Hk (inv_keys _ _ _ Hi)) as Hd. unfold take_crypto in Hd.
  match type of Hd with kr_inv _ _ ?k1 => match goal with |- kr_inv _ _ ?k2 => replace k2 with k1 by (by destruct kr) end end. exact Hd.
Qed.

Definition create_key_params_ok (params : ntb_key_params) : Prop :=
  Z.land (kp_flags params) (Z.lor (Z.lor NTB_KEY_PARAM_PRIVATE_KEYS NTB_KEY_PARAM_PUBLIC_KEYS) NTB_KEY_PARAM_RIPE) = 0.

Lemma keyring_create_key_spec d dt params z func kr : kr_inv d dt kr -> create_key_params_ok params ->
  exists i kr', ntb_keyring_create_key params z func kr = Ok (i, kr') /\ kr_inv d dt kr' /\ kr_nw kr' = kr_nw kr /\ is_Some (kr_cookie kr' !! i).
Proof.
  intros Hi Hp. unfold ntb_keyring_create_key, fresh. cbn iota zeta. unfold create_key_params_ok in Hp. rewrite Hp. cbn [c_assert Z.eqb]. rewrite bind_ret_l.
  rewrite crypto_queue_spec, bind_ret_l by exact (inv_started _ _ _ Hi). kr_cbn. eexists _, _. split; [reflexivity|].
  destruct (inv_bounded _ _ _ Hi) as (Bm & Bt & Bk & Bb & Bc & Bp & Bl). pose proof (bounded_fresh _ _ Bk) as Hn.
  split; [|split; [done|]; kr_cbn; rewrite lookup_insert_eq; by eexists].
  apply (inv_change_cookie d dt (kr_next kr) kr); try done; kr_cbn; rewrite ?lookup_insert_eq; try (by apply Hi); try lia.
  - intros j Hj. by rewrite lookup_insert_ne.
  - intros k [= <-]. exists params, z. cbn [kc_crypto_cookie]. apply lookup_insert_eq.
  - apply bounded_insert; [eapply bounded_le; [exact Bk|lia]|lia].
  - cbn. apply reowned_new; [|done|lia|done]. intros c t Hc Ho. pose proof (inv_crypto _ _ _ Hi c t Hc) as Hh. rewrite Ho in Hh. cbn in Hh. rewrite Hn in Hh. destruct Hh as [?|[_ ?]]; [done|lia].
Qed.
End keyring_callbacks.
