(* ===== verification/KeyringNetwork.v ===== *)
(** * KeyringNetwork: the network as the key ring sees it (for [Keyring])

    [Network.add_object] in two parts, with the signal between them, is an instance of
    the interface [ObjectNetwork], and it satisfies the laws. *)

From S2P Require Import Prelude Ident Endian Buffer NetAddress OpenSSL Proto ProtoSpec NetText Pow HashTable Connection ConnectionSpec Network AddressBook NetworkSpec InventorySpec NetworkInv NetworkObjects Keyring KeyringInv KeyringSteps KeyringCallbacks.

Section keyring_network.
Context `{DigestLaws}.

(** [add_object] up to the signal, which is recorded; and the entry whose blob is
    dropped behind it. *)
Definition object_begin (wall : Z) (type : ntb_proto_inv_type) (object_data : ptr) (object_data_length : Z) (blob : option ntb_blob)
    (skip_validation delay : bool) (nw : ntb_network) : result unit (ntb_network * option (ntb_blob * option nat)) :=
  r ← parse (ntb_proto_get_command object_header object_data (u32 object_data_length));
  match r with
  | None => Ok (nw, None)
  | Some ((_, (timestamp, _)), _) =>
      data ← read_bytes (Z.to_nat object_data_length) object_data;
      let hash := ntb_proto_double_hash data in
      '(claimed, nw) ← claim_inventory hash nw;
      match claimed with
      | None => Ok (nw, None)
      | Some i =>
          let age := age_at wall timestamp in
          reject ← (if skip_validation then Ok false else should_reject type object_data object_data_length age);
          if (reject : bool) then
            iv ← reject_inventory i timestamp (nw_inventory nw);
            Ok (nw_set_inventory iv nw, None)
          else
            let blob := match blob with Some blob => blob | None => Blob type data end in
            let nw := nw_emit (StoreSaveBlob hash blob) nw in
            iv ← accept_inventory i type timestamp (Some blob) (nw_inventory nw);
            let nw := nw_set_inventory iv nw in
            nw ← (if delay then Ok (broadcast_delayed_inv hash nw) else broadcast_inv hash nw);
            Ok (nw_emit (NewObject blob) nw, Some (blob, if NTB_NETWORK_INV_CACHE_AGE <=? age then Some i else None))
      end
  end.
Definition object_finish (rest : option nat) (nw : ntb_network) : result unit ntb_network :=
  match rest with
  | Some i => iv ← drop_blob i (nw_inventory nw); Ok (nw_set_inventory iv nw)
  | None => Ok nw
  end.

Lemma add_object_split wall type data len blob skip delay nw :
  add_object wall type data len blob skip delay nw =
  ('(nw, signal) ← object_begin wall type data len blob skip delay nw;
   match signal with None => Ok nw | Some (_, rest) => object_finish rest nw end).
Proof.
  unfold add_object, object_begin. destruct (parse _) as [[[[nonce [timestamp []]] n]|]|[]| |]; cbn [mbind result_bind]; try done.
  destruct (read_bytes _ _) as [bs|[]| |]; cbn [mbind result_bind]; try done.
  destruct (claim_inventory _ _) as [[[i|] nw1]|[]| |]; cbn [mbind result_bind]; try done.
  destruct (if skip then _ else _) as [[]|[]| |]; cbn [mbind result_bind]; try done.
  - destruct (reject_inventory _ _ _) as [iv|[]| |]; done.
  - cbn zeta. destruct (accept_inventory _ _ _ _ _) as [iv|[]| |]; cbn [mbind result_bind]; try done.
    destruct (if delay then _ else _) as [nw2|[]| |]; cbn [mbind result_bind]; try done. by destruct (_ <=? _).
Qed.

(** ** Where objects are *)

Definition location_of (st : option ntb_network_inv_state) : ntb_network_object_location :=
  match st with
  | Some (NTB_NETWORK_INV_STATE_ACCEPTED _ _ (Some blob)) => NTB_NETWORK_OBJECT_LOCATION_MEMORY blob
  | Some (NTB_NETWORK_INV_STATE_ACCEPTED _ _ None) => NTB_NETWORK_OBJECT_LOCATION_STORE
  | _ => NTB_NETWORK_OBJECT_LOCATION_NOWHERE
  end.

Lemma get_object_spec loose nw hash : net_inv loose nw -> Network.ntb_network_get_object hash nw = Ok (location_of (lookup_object hash nw)).
Proof.
  intros [Hok _]. unfold Network.ntb_network_get_object, lookup_object. destruct (ntb_hash_table_get _ _ _) as [q|] eqn:Hg; [|done].
  destruct (get_Some _ _ _ _ _ Hok Hg) as (st & Hst & _). unfold the_inv. rewrite Hst. cbn. destruct st as [| |? ? [blob|]]; done.
Qed.

(** Dropping a blob moves an object to the store. *)
Lemma drop_blob_location i iv nw hash location :
  drop_blob i (nw_inventory nw) = Ok iv -> Network.ntb_network_get_object hash (nw_set_inventory iv nw) = Ok location ->
  exists location', Network.ntb_network_get_object hash nw = Ok location' /\
    (location <> NTB_NETWORK_OBJECT_LOCATION_NOWHERE -> location' <> NTB_NETWORK_OBJECT_LOCATION_NOWHERE).
Proof.
  unfold drop_blob. intros (inv & E & Hd)%bind_Ok. unfold the_inv in E. destruct (iv_objects (nw_inventory nw) !! i) as [inv'|] eqn:Eo; [|done]. injection E as ->.
  destruct (in_state inv) as [| |type timestamp blob] eqn:Es; try done. injection Hd as <-. unfold Network.ntb_network_get_object. cbn [nw_inventory nw_set_inventory iv_hash].
  destruct (ntb_hash_table_get _ _ _) as [q|]; [|intros [= <-]; by eexists]. unfold the_inv. cbn [iv_objects nw_inventory nw_set_inventory].
  destruct (decide (inv_id q = i)) as [->|Hne].
  - rewrite lookup_insert_eq, Eo, !bind_ret_l, Es. cbn [in_state]. intros [= <-]. destruct blob; by eexists.
  - rewrite lookup_insert_ne by done. intros Hl. exists location. by split.
Qed.

Definition object_room (nw : ntb_network) : Prop :=
  Z.of_nat (nw_next nw) + 2 <= 2 ^ 60 /\ iv_n_rejected (nw_inventory nw) + 1 < NTB_NETWORK_MAX_REJECTED_INVENTORIES /\
  peers_in NTB_NETWORK_PEER_STATE_CONNECTED (fun p => room (pe_connection p) 576) nw.

Lemma good_add wall type data len blob skip delay nw nw' :
  good nw -> add_object wall type data len blob skip delay nw = Ok nw' -> net_inv [] nw' -> good nw'.
Proof. intros Hg E Hi. split; [|done]. eapply book_steps_ok; [|apply Hg]. apply (add_object_books _ _ _ _ _ _ _ _ _ E), Hg. Qed.

Lemma object_begin_spec wall type data q blob skip delay nw :
  good nw -> object_room nw -> bytes (data ++ q) -> zlen data < 2 ^ 31 -> (blob = None \/ blob = Some (Blob type data)) ->
  exists nw1 signal, object_begin wall type (data ++ q) (zlen data) blob skip delay nw = Ok (nw1, signal) /\
    match signal with
    | None => good nw1
    | Some (blob', rest) => blob' = Blob type data /\ exists nw', object_finish rest nw1 = Ok nw' /\ good nw' /\
        location_of (lookup_object (ntb_proto_double_hash data) nw') <> NTB_NETWORK_OBJECT_LOCATION_NOWHERE
    end.
Proof.
  intros Hg (Hn & Hr & Hp) Hb Hl Hblob. destruct (add_object_total wall type data q blob skip delay nw Hg Hn Hr Hp Hb Hl Hblob) as (nw' & E & Hi & Hh).
  pose proof (good_add _ _ _ _ _ _ _ _ _ Hg E Hi) as Hg'. pose proof E as Es. rewrite add_object_split in Es.
  apply bind_Ok in Es as ([nw1 signal] & Eb & Ef). exists nw1, signal. split; [done|]. destruct signal as [[blob' rest]|]; [|by injection Ef as ->].
  unfold object_begin in Eb. zlen_pose. rewrite u32_small in Eb by lia.
  destruct (object_header_cases (data ++ q) (zlen data)) as [Ep|(nonce & t & n & Ep & Ht & H12)]; [done|zlia|lia| |]; rewrite Ep, bind_ret_l in Eb; [done|].
  rewrite Ep in Hh. rewrite read_bytes_Ok, bind_ret_l in Eb by (rewrite length_app; unfold zlen; lia).
  replace (take (Z.to_nat (zlen data)) (data ++ q)) with data in Eb by (unfold zlen; rewrite Nat2Z.id; symmetry; by apply take_app_length).
  cbn zeta in Eb. apply bind_Ok in Eb as ([claimed nwc] & Ec & Eb). destruct claimed as [i|]; [|done]. apply bind_Ok in Eb as (reject & Er & Eb).
  destruct reject; [by apply bind_Ok in Eb as (? & _ & ?)|]. apply bind_Ok in Eb as (iv & Ea & (nw2 & Ebr & [= <- <- <-])%bind_Ok).
  split; [by destruct Hblob as [->| ->]|]. exists nw'. split_and!; [done|done|]. unfold object_handled in Hh.
  assert (Hrej : skip || worthy wall type data t = true).
  { destruct skip; [done|]. rewrite (should_reject_worthy wall type data q t) in Er by lia. cbn. by destruct (worthy _ _ _ _). }
  rewrite Hrej in Hh. pose proof (claim_total (ntb_proto_double_hash data) nw Hg ltac:(lia)) as Hc.
  destruct (lookup_object (ntb_proto_double_hash data) nw) as [[| |]|]; [destruct Hh as (_ & -> & _)|rewrite Hc in Ec; done|rewrite Hc in Ec; done|destruct Hh as (_ & -> & _)]; by destruct (_ <=? _).
Qed.

(** ** The instance *)

#[global] Instance Network_objects : ObjectNetwork := {|
  network := ntb_network;
  network_rest := option nat;
  network_get_object := Network.ntb_network_get_object;
  network_add_object := object_begin;
  network_finish := object_finish
|}.

Lemma begin_located rest nw nw' : object_finish rest nw = Ok nw' -> good nw' ->
  network_reads nw /\ forall hash, location_of (lookup_object hash nw') <> NTB_NETWORK_OBJECT_LOCATION_NOWHERE -> located hash nw.
Proof.
  intros Hf [_ Hi]. destruct rest as [i|]; cbn [object_finish] in Hf.
  - apply bind_Ok in Hf as (iv & Hd & [= <-]).
    assert (Hx : forall hash, exists location', Network.ntb_network_get_object hash nw = Ok location' /\
      (location_of (lookup_object hash (nw_set_inventory iv nw)) <> NTB_NETWORK_OBJECT_LOCATION_NOWHERE -> location' <> NTB_NETWORK_OBJECT_LOCATION_NOWHERE)).
    { intros hash. eapply drop_blob_location; [exact Hd|]. by eapply get_object_spec. }
    split; [intros hash _; destruct (Hx hash) as (l & E & _); by exists l|]. intros hash Hl. destruct (Hx hash) as (l & E & Hn). unfold located. cbn. rewrite E. intros [= ->]. by apply Hn.
  - injection Hf as ->. split; [intros hash _; eexists; by eapply get_object_spec|]. intros hash Hl. unfold located. cbn. rewrite (get_object_spec [] nw' hash Hi). by intros [= Hx].
Qed.

#[global, refine] Instance Network_laws : ObjectNetworkLaws := {| network_good := good; network_room := object_room |}.
Proof.
  - intros nw [_ Hi] hash _. eexists. by eapply get_object_spec.
  - intros wall type data q blob skip delay nw Hg Hr Hb Hz Hblob.
    destruct (object_begin_spec wall type data q blob skip delay nw Hg Hr Hb Hz Hblob) as (nw1 & signal & E & Hs). exists nw1, signal. split; [exact E|].
    destruct signal as [[blob' rest]|]; [|done]. destruct Hs as (-> & nw' & Ef & Hg' & Hl). destruct (begin_located _ _ _ Ef Hg') as [Hrd Hloc].
    split_and!; [done|done|by apply Hloc|]. by exists nw'.
Defined.
End keyring_network.
