(* ===== verification/KeyringCalls.v ===== *)
(** * KeyringCalls: timers, calls, starting and shutting down (for [Keyring])

    The lemmas of [KeyringCallbacks] continued. *)

From S2P Require Import Prelude Endian Buffer NetAddress OpenSSL Proto ProtoSpec NetText KeyValue Pow Base58 Address Outgoings Ecc Keys HashTable Connection Crypto CryptoSpec Network Keyring KeyringMessage KeyringPubkeys KeyringInv KeyringSteps KeyringHandlers KeyringCallbacks.

Section keyring_calls.
Context `{DigestLaws} `{BigNumLaws} `{!Elliptic} `{!EllipticLaws} `{SymmetricLaws} `{Digest256} `{!Ecdsa} `{ONW : ObjectNetwork}.

(** ** Timers *)

Lemma gc_timeout_spec d dt wall kr : kr_inv d dt kr -> exists kr', keyring_gc_timeout_cb wall kr = Ok kr' /\ kr_inv d dt kr' /\ kr_nw kr' = kr_nw kr.
Proof.
  intros Hi. unfold keyring_gc_timeout_cb. destruct (gc_spec d dt wall (kr_pubkey_blob_list kr) kr Hi) as (kr1 & -> & Hi1 & F & _); [|done|by exists kr1].
  destruct (pk_grouped _ _ _ _ (inv_pubkeys _ _ _ Hi)) as (gs & -> & _ & Hn & _). done.
Qed.

Lemma resend_spec dt wall l : forall kr, kr_inv None dt kr -> clock_ok wall -> (forall i, i ∈ l -> i ∈ kr_messages kr) ->
  exists kr', resend_messages wall l kr = Ok kr' /\ kr_inv None dt kr' /\ kr_nw kr' = kr_nw kr.
Proof.
  induction l as [|i l IH]; intros kr Hi Hwall Hl; cbn [resend_messages]; [by exists kr|].
  destruct (proj1 (proj2 (inv_message_list _ _ _ Hi) i) (Hl i ltac:(by left))) as [m Hm]. destruct (message_state _ _ _ _ _ Hi ltac:(done) Hm) as [st Hst].
  destruct (inv_messages _ _ _ Hi i m Hm) as [_ Hw]. rewrite decide_False in Hw by done. unfold msg_state_ok in Hw. rewrite Hst in Hw.
  rewrite (the_message_Some i m), bind_ret_l by done. rewrite Hst. cbn [need]. rewrite bind_ret_l.
  assert (Hstep : exists kr1, (match st with NTB_KEYRING_MESSAGE_STATE_AWAITING_PUBKEY => send_getpubkey_request wall i kr
      | NTB_KEYRING_MESSAGE_STATE_AWAITING_ACKNOWLEDGEMENT => post_message wall i kr | _ => Ok kr end) = Ok kr1 /\
    kr_inv None dt kr1 /\ kr_nw kr1 = kr_nw kr /\ kr_messages kr1 = kr_messages kr).
  { destruct Hw as [Ha Hw]. destruct st; try (by exists kr).
    - destruct Hw as [Hn Hb]. destruct (send_getpubkey_request_spec dt i m wall kr (detach_idle _ _ _ _ Hi Hm Hn) Hm Hwall Hb) as (kr1 & -> & Hi1 & F1 & _ & _ & F2 & _); [auto|].
      by exists kr1.
    - destruct Hw as (Hn & Hb & Hk). destruct (post_message_spec dt i m wall kr (detach_idle _ _ _ _ Hi Hm Hn) Hm Hb) as (kr1 & -> & Hi1 & F1 & _ & _ & F2 & _); [auto|done|].
      by exists kr1. }
  destruct Hstep as (kr1 & -> & Hi1 & F1 & F2). rewrite bind_ret_l. destruct (IH kr1 Hi1 Hwall) as (kr2 & -> & Hi2 & G1); [intros j Hj; rewrite F2; apply Hl; by right|].
  exists kr2. split_and!; [done|done|congruence].
Qed.
Lemma resend_timeout_spec dt wall kr : kr_inv None dt kr -> clock_ok wall ->
  exists kr', resend_timeout_cb wall kr = Ok kr' /\ kr_inv None dt kr' /\ kr_nw kr' = kr_nw kr.
Proof. intros Hi Hw. by apply resend_spec. Qed.

(** ** New messages *)

(** Addresses that messages can be sent to. *)
Definition destination_ok (address : ntb_address) : Prop := address_wf address /\ addr_version address <> 0.

Lemma new_message_inv dt m kr : kr_inv None dt kr -> static_ok m -> waits_nothing m -> ms_trying_pubkey_blob m = None ->
  kr_inv (Some (kr_next kr)) dt (put_message (kr_next kr) m (kr_set_messages (kr_messages kr ++ [kr_next kr]) (kr_set_next (S (kr_next kr)) kr))).
Proof.
  intros Hi Hs Hw Ht. set (i := kr_next kr). destruct (inv_bounded _ _ _ Hi) as (Bm & Bt & Bk & Bb & Bc & Bp & Bl). pose proof (bounded_fresh _ _ Bm) as Hn. fold i in Hn.
  apply (inv_change_message None (Some i) dt i kr); try done; kr_cbn; rewrite ?lookup_insert_eq; try (by apply Hi); try (by left); try (by right); try lia.
  - intros j Hj. by rewrite lookup_insert_ne.
  - destruct (inv_message_list _ _ _ Hi) as [Hnd Hl]. split.
    + apply NoDup_app. split_and!; [done| |apply NoDup_singleton]. intros x Hx ->%list_elem_of_singleton. apply Hl in Hx. rewrite Hn in Hx. by destruct Hx.
    + intros j. rewrite elem_of_app, list_elem_of_singleton, Hl. destruct (decide (j = i)) as [->|Hj]; [rewrite lookup_insert_eq|rewrite lookup_insert_ne by done; naive_solver].
      split; [by eexists|by right].
  - intros ? [= <-]. by rewrite decide_True.
  - apply bounded_insert; [eapply bounded_le; [exact Bm|lia]|lia].
  - apply reowned_same. intros c t Hc Ho. pose proof (inv_crypto _ _ _ Hi c t Hc) as Hh. rewrite Ho in Hh. cbn in Hh. by rewrite Hn in Hh.
  - apply reowned_same. intros c t Hc Ho. pose proof (inv_pow _ _ _ Hi c t Hc) as Hh. rewrite Ho in Hh. cbn in Hh. by rewrite Hn in Hh.
  - apply reowned_same. intros c t Hc Ho. pose proof (inv_loads _ _ _ Hi c t Hc) as Hh. rewrite Ho in Hh. by rewrite Hn in Hh.
  - apply pubkeys_inv_new; [done|done|apply Hi].
  - eapply bounded_le; [exact Bb|lia].
Qed.

Lemma key_for_address_wf private address kr key d dt :
  kr_inv d dt kr -> key_for_address private address kr = Some key -> key_wf key /\ (private = true -> key_ok key).
Proof.
  intros Hi Hf. apply find_some in Hf as [Hin Hp]. pose proof (inv_keys _ _ _ Hi) as Hk. rewrite Forall_forall in Hk.
  assert (Hw : key_wf key) by (apply Hk, list_elem_of_In, Hin). split; [done|]. intros ->. apply andb_true_iff in Hp as [Hp _]. cbn in Hp. by apply Hw.
Qed.

Lemma create_message_spec dt from_address from_key to_address encoding content_id kr :
  kr_inv None dt kr -> get_private_key_for_address from_address kr = Some from_key -> destination_ok to_address ->
  exists m kr', create_message from_key to_address encoding content_id kr = Ok (kr_next kr, kr') /\ kr_inv (Some (kr_next kr)) dt kr' /\
    kr_message kr' !! kr_next kr = Some m /\ ms_state m = None /\ ms_blob m = None /\ ms_ackdata m = None /\ ms_trying_pubkey_blob m = None /\
    kr_nw kr' = kr_nw kr /\ kr_keys kr' = kr_keys kr /\
    ms_from_key m = from_key /\ ms_to_address m = to_address /\ ms_content_id m = content_id /\ ms_content_encoding m = encoding /\
    kr_messages kr' = kr_messages kr ++ [kr_next kr] /\ (forall j, j <> kr_next kr -> kr_message kr' !! j = kr_message kr !! j).
Proof.
  intros Hi Hf [Ht Hv]. destruct (key_for_address_wf _ _ _ _ _ _ Hi Hf) as [Hfw Hfk]. unfold create_message, fresh. cbn iota zeta.
  assert (Htag : exists ripe_or_tag, (if addr_version to_address <? 4 then Ok (addr_ripe to_address) else '(tag, _) ← ntb_address_get_tag to_address; Ok tag) = Ok ripe_or_tag (E := unit)).
  { destruct (_ <? 4); [by eexists|]. destruct (address_get_tag_spec to_address Ht) as (tag & key & -> & _). rewrite bind_ret_l. by eexists. }
  destruct Htag as [ripe_or_tag ->]. rewrite bind_ret_l. eexists _, _. split; [reflexivity|].
  set (m := Message _ _ _ _ _ _ _ _ _ _ _ _ _ _ _ _ _). split; [|split_and!; [kr_cbn; apply lookup_insert_eq|done..|intros j Hj; kr_cbn; by rewrite lookup_insert_ne]].
  apply (new_message_inv dt m kr); [done| |by split_and!|done]. split; [split; [by apply Hfk|done]|]. split; [done|]. split; [|done].
  intros key Hk. unfold m in Hk. ms_cbn. apply (key_for_address_wf false to_address kr key None dt Hi Hk).
Qed.

Lemma send_one_spec dt from_address from_key to_address encoding content_id kr :
  kr_inv None dt kr -> get_private_key_for_address from_address kr = Some from_key -> destination_ok to_address ->
  exists kr', ('(i, kr) ← create_message from_key to_address encoding content_id kr;
    kr ← update_message i (ms_set_state (Some NTB_KEYRING_MESSAGE_STATE_GENERATING_ACKDATA)) kr;
    '(c, kr) ← ntb_crypto_queue (CRYPTO_GENERATE_ACKDATA i) kr;
    update_message i (ms_set_crypto_cookie (Some c)) kr) = Ok kr' /\ kr_inv None dt kr' /\ kr_nw kr' = kr_nw kr /\ kr_keys kr' = kr_keys kr.
Proof.
  intros Hi Hf Ht. destruct (create_message_spec dt _ _ _ encoding content_id _ Hi Hf Ht) as (m & kr1 & -> & Hi1 & Hm & Es & Eb & Ea & Etr & En & Ek & _).
  rewrite bind_ret_l. set (i := kr_next kr) in *. rewrite (update_message_Some i _ m), bind_ret_l by done. rewrite crypto_queue_spec, bind_ret_l by exact (inv_started _ _ _ Hi1).
  rewrite (update_message_Some i _ (ms_set_state (Some NTB_KEYRING_MESSAGE_STATE_GENERATING_ACKDATA) m)) by (kr_cbn; apply lookup_insert_eq).
  eexists. split; [reflexivity|]. split; [|done]. destruct (detached_waits _ _ _ _ Hi1 Hm) as [Hs Hw].
  set (t := CRYPTO_GENERATE_ACKDATA i). set (m' := ms_set_crypto_cookie _ _).
  match goal with |- kr_inv _ _ ?k => replace k with (put_message i m' (kr_set_crypto (<[kr_next kr1 := t]> (kr_crypto kr1)) (kr_set_next (S (kr_next kr1)) kr1)))
    by (destruct kr1; unfold put_message; kr_cbn; by rewrite insert_insert_eq) end.
  apply (attach_crypto dt i m m' t kr1); [done|done|exact Hs|done|done|done|]. unfold msg_state_ok, m'. ms_cbn. split; [done|]. split; [|done].
  eexists _, _. split_and!; [done|apply Hw|apply Hw|apply lookup_insert_eq|done].
Qed.

Lemma send_message_spec dt from_address to_addresses encoding content kr :
  kr_inv None dt kr -> Forall destination_ok to_addresses ->
  exists sent kr', ntb_keyring_send_message from_address to_addresses encoding content kr = Ok (sent, kr') /\ kr_inv None dt kr' /\ kr_nw kr' = kr_nw kr.
Proof.
  intros Hi Ht. unfold ntb_keyring_send_message. destruct to_addresses as [|a l]; [by exists false, kr|].
  destruct (get_private_key_for_address from_address kr) as [from_key|] eqn:Ef; [|by exists false, kr]. set (id := kr_next_message_content_id kr). cbn zeta.
  match goal with |- context [for_each ?f (a :: l) ?k] => destruct (for_each_spec (fun kr' => kr_inv None dt kr' /\ kr_nw kr' = kr_nw kr /\ kr_keys kr' = kr_keys kr) f (a :: l)) with (s := k)
    as (kr1 & -> & Hi1 & En & _) end.
  - intros x k Hx (Hik & Enk & Ekk). rewrite Forall_forall in Ht.
    destruct (send_one_spec dt from_address from_key x encoding id k Hik) as (k' & E & Hik' & En' & Ek'); [|by apply Ht|].
    { unfold get_private_key_for_address, key_for_address in *. by rewrite Ekk. }
    exists k'. split; [exact E|]. split_and!; [done|congruence|congruence].
  - split; [|done]. pose proof (inv_change_rest None dt kr (kr_keys kr) (kr_random kr) (kr_effects kr ++ [KeyringSaveMessageContent id content]) (u64 (id + 1)) Hi (inv_keys _ _ _ Hi)) as Hn.
    match type of Hn with kr_inv _ _ ?k1 => match goal with |- kr_inv _ _ ?k2 => replace k2 with k1 by (by destruct kr) end end. exact Hn.
  - rewrite bind_ret_l. by exists true, kr1.
Qed.

(** ** What the store has *)

Definition outgoing_ok (outgoing : ntb_store_outgoing) : Prop :=
  destination_ok (out_to_address outgoing) /\ address_wf (out_from_address outgoing) /\ addr_version (out_from_address outgoing) <> 0 /\
  length (out_ackdata outgoing) = NTB_PROTO_ACKDATA_SIZE /\ bytes (out_ackdata outgoing).

Lemma outgoing_cb_spec dt wall outgoing kr : kr_inv None dt kr -> clock_ok wall -> outgoing_ok outgoing ->
  exists kr', for_each_outgoing_cb wall outgoing kr = Ok kr' /\ kr_inv None dt kr' /\ kr_nw kr' = kr_nw kr.
Proof.
  intros Hi Hwall (Ht & Hf & Hfv & Ha). unfold for_each_outgoing_cb. set (kr0 := if _ <=? _ then _ else kr). assert (Hi0 : kr_inv None dt kr0 /\ kr_nw kr0 = kr_nw kr).
  { unfold kr0. destruct (_ <=? _); [|done]. split; [|done].
    pose proof (inv_change_rest None dt kr (kr_keys kr) (kr_random kr) (kr_effects kr) (u64 (out_content_id outgoing + 1)) Hi (inv_keys _ _ _ Hi)) as Hn.
    match type of Hn with kr_inv _ _ ?k1 => match goal with |- kr_inv _ _ ?k2 => replace k2 with k1 by (by destruct kr) end end. exact Hn. }
  destruct Hi0 as [Hi0 En0]. destruct (get_private_key_for_address _ kr0) as [from_key|] eqn:Ef.
  - destruct (create_message_spec dt _ _ _ (out_content_encoding outgoing) (out_content_id outgoing) _ Hi0 Ef Ht) as (m & kr1 & -> & Hi1 & Hm & Es & Eb & Ea & Etr & En & Ek & _).
    rewrite bind_ret_l. set (i := kr_next kr0) in *. rewrite (update_message_Some i _ m), bind_ret_l by done. rewrite the_message_put, bind_ret_l.
    set (m1 := ms_set_ackdata _ _). destruct (detached_waits _ _ _ _ Hi1 Hm) as [Hs Hw].
    assert (Hi2 : kr_inv (Some i) dt (put_message i m1 kr1)).
    { eapply put_detached; [done|done|done| |done]. destruct Hs as (S1 & S2 & S3 & S4). split; [done|]. split; [done|]. split; [done|]. unfold m1. ms_cbn. by intros ? [= <-]. }
    assert (Hm1 : kr_message (put_message i m1 kr1) !! i = Some m1) by (kr_cbn; apply lookup_insert_eq).
    destruct (ms_to_key m1) as [key|] eqn:Ek1.
    + destruct (post_message_spec dt i m1 wall _ Hi2 Hm1) as (kr2 & -> & Hi3 & F & _); [done|by eexists|by eexists|]. exists kr2. split_and!; [done|done|]. rewrite F. kr_cbn. congruence.
    + destruct (load_public_key_spec dt i m1 wall _ Hi2 Hm1) as (kr2 & -> & Hi3 & F & _); [done|done|by eexists|]. exists kr2. split_and!; [done|done|]. rewrite F. kr_cbn. congruence.
  - destruct (address_roundtrip_core (out_from_address outgoing) Hf Hfv) as (text & -> & _ & Hz). rewrite bind_ret_l, (proj2 (Z.ltb_ge _ _)) by done. by exists kr0.
Qed.

Lemma load_pubkeys_spec wall_blobs : forall kr, kr_inv None None kr -> kr_messages kr = [] -> Forall (fun blob => pubkey_ok (blob_data blob)) wall_blobs ->
  exists kr', for_each for_each_pubkey_blob_cb wall_blobs kr = Ok kr' /\ kr_inv None None kr' /\ kr_nw kr' = kr_nw kr /\ kr_messages kr' = [] /\ kr_keys kr' = kr_keys kr.
Proof.
  induction wall_blobs as [|blob l IH]; intros kr Hi Hm Hf; cbn [for_each]; [by exists kr|]. inversion Hf as [|? ? Hp Hf']; subst.
  destruct (handle_pubkey_spec None blob kr Hi Hp (or_introl Hm)) as (kr1 & E & Hi1 & F1 & F2 & _ & F3). change (for_each_pubkey_blob_cb blob kr) with (handle_pubkey blob kr). rewrite E, bind_ret_l.
  destruct (IH kr1 Hi1) as (kr2 & -> & Hi2 & G1 & G2 & G3); [congruence|done|]. exists kr2. split_and!; [done|done|congruence|done|congruence].
Qed.

Lemma load_store_spec wall pubkey_blobs outgoings kr :
  kr_inv None None kr -> kr_messages kr = [] -> clock_ok wall -> Forall (fun blob => pubkey_ok (blob_data blob)) pubkey_blobs -> Forall outgoing_ok outgoings ->
  exists kr', ntb_keyring_load_store wall pubkey_blobs outgoings kr = Ok kr' /\ kr_inv None None kr' /\ kr_nw kr' = kr_nw kr.
Proof.
  intros Hi Hm Hwall Hp Ho. unfold ntb_keyring_load_store. destruct (load_pubkeys_spec pubkey_blobs kr Hi Hm Hp) as (kr1 & -> & Hi1 & F1 & F2 & _). rewrite bind_ret_l.
  destruct (for_each_spec (fun kr' => kr_inv None None kr' /\ kr_nw kr' = kr_nw kr) (for_each_outgoing_cb wall) outgoings) with (s := kr1) as (kr2 & -> & Hi2 & En); [|done|by exists kr2].
  intros x k Hx [Hik Enk]. rewrite Forall_forall in Ho. destruct (outgoing_cb_spec None wall x k Hik Hwall (Ho x Hx)) as (k' & -> & Hik' & En'). exists k'. split_and!; [done|done|congruence].
Qed.

(** ** Starting *)

Lemma add_keys_spec keys : forall kr, foldl (fun kr key => for_each_key_cb key kr) kr keys = kr_set_keys (kr_keys kr ++ keys) kr.
Proof.
  induction keys as [|key keys IH]; intros kr; cbn [foldl]; [rewrite app_nil_r; by destruct kr|]. rewrite IH. unfold for_each_key_cb. kr_cbn. rewrite <- app_assoc. done.
Qed.
Lemma keyring_new_spec nw keys random :
  ntb_keyring_new nw keys random = Keyring nw false keys [] ∅ ∅ [] ∅ ∅ [] ∅ 0 ∅ ∅ ∅ 0 random [].
Proof. apply add_keys_spec. Qed.

Lemma bounded_empty {A} n : bounded (∅ : gmap nat A) n.
Proof. intros k [x Hx]. by rewrite lookup_empty in Hx. Qed.

Lemma keyring_start_spec nw keys random : network_reads nw -> Forall key_wf keys -> kr_inv None None (ntb_keyring_start (ntb_keyring_new nw keys random)).
Proof.
  intros Hn Hk. rewrite keyring_new_spec. unfold ntb_keyring_start. kr_cbn. split; kr_cbn; try done; try (by intros i x Hx; rewrite lookup_empty in Hx).
  - split; [constructor|]. intros i. rewrite lookup_empty. split; [intros Hx; inversion Hx|by intros [? ?]].
  - split; [constructor|]. intros i. rewrite lookup_empty. split; [intros Hx; inversion Hx|by intros [? ?]].
  - split; try (by intros i x Hx; rewrite lookup_empty in Hx).
    + intros p. split; [intros Hx; inversion Hx|intros (b & Hb & _); by rewrite lookup_empty in Hb].
    + intros i m p Hx. by rewrite lookup_empty in Hx.
    + apply grouped_empty.
  - split_and!; apply bounded_empty.
Qed.

(** ** Shutting down *)

Lemma filter_head_out (i : nat) l : NoDup (i :: l) -> filter (.≠ i) (i :: l) = l.
Proof.
  intros [Hi Hn]%NoDup_cons. rewrite filter_cons_False by naive_solver. induction l as [|x l IH]; [done|]. apply NoDup_cons in Hn as [Hx Hn].
  rewrite elem_of_cons in Hi. rewrite filter_cons_True by naive_solver. f_equal. apply IH; [naive_solver|done].
Qed.

Lemma free_messages_spec dt l : forall kr, kr_inv None dt kr -> kr_messages kr = l ->
  exists kr', for_each free_message l kr = Ok kr' /\ kr_inv None dt kr' /\ kr_messages kr' = [].
Proof.
  induction l as [|i l IH]; intros kr Hi Hl; cbn [for_each]; [by exists kr|]. destruct (inv_message_list _ _ _ Hi) as [Hn Hm]. rewrite Hl in Hn.
  destruct (proj1 (Hm i)) as [m Hmi]; [rewrite Hl; by left|].
  destruct (free_message_spec _ _ _ _ _ Hi (or_introl eq_refl) Hmi) as (kr1 & -> & Hi1 & _ & F & _). rewrite bind_ret_l. apply IH; [done|]. rewrite F, Hl. by apply filter_head_out.
Qed.

Lemma free_tasks_spec d l : forall kr, kr_inv d None kr -> kr_tasks kr = l ->
  exists kr', for_each free_task l kr = Ok kr' /\ kr_inv d None kr' /\ kr_tasks kr' = [] /\ frame_handler kr kr' /\
    kr_pubkey_blob kr' = kr_pubkey_blob kr /\ kr_pubkey_blob_list kr' = kr_pubkey_blob_list kr /\ kr_pubkey_blob_table kr' = kr_pubkey_blob_table kr.
Proof.
  induction l as [|i l IH]; intros kr Hi Hl; cbn [for_each]; [exists kr; by split_and!|]. destruct (inv_task_list _ _ _ Hi) as [Hn Hm]. rewrite Hl in Hn.
  destruct (proj1 (Hm i)) as [t Ht]; [rewrite Hl; by left|].
  destruct (free_task_spec _ _ _ _ Hi Ht) as (kr1 & E & Hi1 & (F1 & F2 & F3) & _). pose proof E as E'. rewrite E', bind_ret_l.
  assert (Hrest : kr_tasks kr1 = l /\ kr_pubkey_blob kr1 = kr_pubkey_blob kr /\ kr_pubkey_blob_list kr1 = kr_pubkey_blob_list kr /\ kr_pubkey_blob_table kr1 = kr_pubkey_blob_table kr).
  { unfold free_task in E. rewrite (the_task_Some i t), bind_ret_l in E by done. apply bind_Ok in E as (k1 & E1 & (k2 & E2 & [= <-])%bind_Ok). kr_cbn.
    assert (K1 : kr_tasks k1 = kr_tasks kr /\ kr_pubkey_blob k1 = kr_pubkey_blob kr /\ kr_pubkey_blob_list k1 = kr_pubkey_blob_list kr /\ kr_pubkey_blob_table k1 = kr_pubkey_blob_table kr)
      by (destruct (tk_crypto_cookie t); [unfold ntb_crypto_cancel_task in E1; bind_inv; done|by injection E1 as <-]).
    assert (K2 : kr_tasks k2 = kr_tasks k1 /\ kr_pubkey_blob k2 = kr_pubkey_blob k1 /\ kr_pubkey_blob_list k2 = kr_pubkey_blob_list k1 /\ kr_pubkey_blob_table k2 = kr_pubkey_blob_table k1)
      by (destruct (tk_pow_cookie t); [unfold ntb_pow_cancel in E2; bind_inv; done|by injection E2 as <-]).
    destruct K1 as (K11 & K12 & K13 & K14), K2 as (K21 & K22 & K23 & K24). split_and!; try congruence. rewrite K21, K11, Hl. by apply filter_head_out. }
  destruct Hrest as (R1 & R2 & R3 & R4). destruct (IH kr1 Hi1 R1) as (kr2 & -> & Hi2 & G1 & (G2 & G3 & G4) & G5 & G6 & G7).
  exists kr2. unfold frame_handler. split_and!; try done; congruence.
Qed.

Lemma no_messages d dt kr : kr_inv d dt kr -> kr_messages kr = [] -> kr_message kr = ∅.
Proof.
  intros Hi Hl. apply map_eq. intros i. rewrite lookup_empty. destruct (kr_message kr !! i) as [m|] eqn:Hm; [|done].
  assert (Hin : i ∈ kr_messages kr) by (apply (inv_message_list _ _ _ Hi); by eexists). rewrite Hl in Hin. inversion Hin.
Qed.
Lemma no_tasks d dt kr : kr_inv d dt kr -> kr_tasks kr = [] -> kr_task kr = ∅.
Proof.
  intros Hi Hl. apply map_eq. intros i. rewrite lookup_empty. destruct (kr_task kr !! i) as [m|] eqn:Hm; [|done].
  assert (Hin : i ∈ kr_tasks kr) by (apply (inv_task_list _ _ _ Hi); by eexists). rewrite Hl in Hin. inversion Hin.
Qed.

Lemma delete_blobs_spec l : forall kr, NoDup l -> (forall p, p ∈ l <-> is_Some (kr_pubkey_blob kr !! p)) ->
  for_each (fun p kr => _ ← the_pubkey_blob p kr; Ok (kr_set_pubkey_blob (delete p (kr_pubkey_blob kr)) kr)) l kr = Ok (kr_set_pubkey_blob ∅ kr).
Proof.
  induction l as [|p l IH]; intros kr Hn Hl; cbn [for_each].
  - assert (E : kr_pubkey_blob kr = ∅); [|destruct kr; kr_cbn; by subst].
    apply map_eq. intros p. rewrite lookup_empty. destruct (kr_pubkey_blob kr !! p) eqn:E; [|done]. assert (Hin : p ∈ []) by (apply Hl; by eexists). inversion Hin.
  - apply NoDup_cons in Hn as [Hp Hn]. destruct (proj1 (Hl p) ltac:(by left)) as [b Hb]. unfold the_pubkey_blob. rewrite Hb. cbn [need]. rewrite !bind_ret_l.
    rewrite IH; [by destruct kr|done|]. intros q. kr_cbn. destruct (decide (q = p)) as [->|Hq].
    + rewrite lookup_delete_eq. split; [done|by intros [? ?]].
    + rewrite lookup_delete_ne, <- Hl, elem_of_cons by done. naive_solver.
Qed.

Lemma all_listed d dt kr p : kr_inv d dt kr -> kr_message kr = ∅ -> p ∈ kr_pubkey_blob_list kr <-> is_Some (kr_pubkey_blob kr !! p).
Proof.
  intros Hi Hm. pose proof (inv_pubkeys _ _ _ Hi) as Hpk. rewrite (pk_listed _ _ _ _ Hpk). split; [intros (b & Hb & _); by exists b|].
  intros [b Hb]. exists b. split; [done|]. destruct (pk_counted _ _ _ _ Hpk p b Hb) as [Hc Hpos]. rewrite trying_count_zero in Hc; [destruct (pb_in_list b); [done|lia]|].
  intros i m. by rewrite Hm, lookup_empty.
Qed.

(** What is left when the key ring is freed: nothing but the requests of keys that the
    caller has to cancel, and those that the thread has called back for. *)
Definition released (kr : ntb_keyring) : Prop :=
  kr_keys kr = [] /\ kr_messages kr = [] /\ kr_message kr = ∅ /\ kr_tasks kr = [] /\ kr_task kr = ∅ /\
  kr_pubkey_blob_list kr = [] /\ kr_pubkey_blob_table kr = ∅ /\ kr_pubkey_blob kr = ∅ /\ kr_pow kr = ∅ /\ kr_loads kr = ∅ /\
  forall c t, kr_crypto kr !! c = Some t -> exists params z i, t = CRYPTO_CREATE_KEY params z i /\
    ((exists k, kr_cookie kr !! i = Some k /\ kc_crypto_cookie k = c) \/ kr_cookie kr !! i = None).

Lemma keyring_free_spec kr : kr_inv None None kr -> exists kr', ntb_keyring_free kr = Ok kr' /\ released kr'.
Proof.
  intros Hi. unfold ntb_keyring_free. destruct (save_messages_spec _ _ Hi) as (outgoings & -> & Hi1). rewrite bind_ret_l. cbn zeta.
  set (kr1 := save_keyring _). assert (Hi2 : kr_inv None None kr1) by (by apply inv_set_effects). unfold free_messages.
  destruct (free_messages_spec None (kr_messages kr1) kr1 Hi2 eq_refl) as (kr2 & -> & Hi3 & Em). rewrite bind_ret_l. pose proof (no_messages _ _ _ Hi3 Em) as Emm.
  unfold free_pubkey_blobs. rewrite delete_blobs_spec; [|by destruct (pk_grouped _ _ _ _ (inv_pubkeys _ _ _ Hi3)) as (gs & -> & _ & ? & _)|intros p; by eapply all_listed].
  rewrite !bind_ret_l. set (kr3 := kr_set_pubkey_blob_table _ _).
  assert (Hi4 : kr_inv None None kr3).
  { unfold kr3. kr_cbn. change (kr_inv None None (kr_set_pubkey_blob ∅ (kr_set_pubkey_blob_list [] (kr_set_pubkey_blob_table ∅ kr2)))). apply inv_change_pubkeys; [done| |apply bounded_empty].
    rewrite Emm. split; try (by intros i x Hx; rewrite lookup_empty in Hx).
    - intros p. split; [intros Hx; inversion Hx|intros (b & Hb & _); by rewrite lookup_empty in Hb].
    - intros i m p Hx. by rewrite lookup_empty in Hx.
    - apply grouped_empty. }
  unfold cancel_tasks. destruct (free_tasks_spec None (kr_tasks kr3) kr3 Hi4 eq_refl) as (kr4 & -> & Hi5 & Et & (F1 & F2 & F3) & F4 & F5 & F6). rewrite bind_ret_l.
  eexists. split; [reflexivity|]. unfold released. kr_cbn. pose proof (no_tasks _ _ _ Hi5 Et) as Ett. rewrite F2, F3, F4, F5, F6. unfold kr3. kr_cbn.
  split_and!; try done.
  - apply map_eq. intros c. rewrite lookup_empty. destruct (kr_pow kr4 !! c) as [t|] eqn:E; [|done]. pose proof (inv_pow _ _ _ Hi5 c t E) as Hh.
    assert (Emm4 : kr_message kr4 = ∅) by (rewrite F3; done). destruct (pow_owner t); cbn in Hh; rewrite ?Emm4, ?Ett, ?lookup_empty in Hh; done.
  - apply map_eq. intros c. rewrite lookup_empty. destruct (kr_loads kr4 !! c) as [t|] eqn:E; [|done]. pose proof (inv_loads _ _ _ Hi5 c t E) as Hh.
    assert (Emm4 : kr_message kr4 = ∅) by (rewrite F3; done). rewrite Emm4, lookup_empty in Hh. done.
  - intros c t E. pose proof (inv_crypto _ _ _ Hi5 c t E) as Hh. assert (Emm4 : kr_message kr4 = ∅) by (rewrite F3; done).
    destruct t; cbn in Hh; rewrite ?Emm4, ?Ett, ?lookup_empty in Hh; try done. exists params, leading_zeroes, cookie. split; [done|].
    destruct Hh as [Hh|[? _]]; [left|by right]. destruct (kr_cookie kr4 !! cookie) as [k|] eqn:Ek; [|done]. exists k. split; [done|]. by injection Hh.
Qed.
End keyring_calls.
