(* ===== verification/KeyringSpec.v ===== *)
(** * KeyringSpec: what the key ring does (for [Keyring])

    The events that reach the key ring and the states that they lead to. *)

From S2P Require Import Prelude Endian Buffer NetAddress OpenSSL Proto ProtoSpec NetText KeyValue Pow Base58 Address Outgoings Ecc Keys HashTable Connection ConnectionSpec StoreFilesSpec Crypto CryptoSpec CryptoQueue Network Keyring KeyringMessage KeyringPubkeys KeyringInv KeyringSteps KeyringHandlers KeyringCallbacks KeyringCalls.

(** ** Events *)

Section events.
Context `{DigestLaws} `{BigNumLaws} `{!Elliptic} `{!EllipticLaws} `{SymmetricLaws} `{Digest256} `{!Ecdsa} `{ONW : ObjectNetwork} `{!ObjectNetworkLaws}.

Inductive keyring_event :=
| EventCrypto (c : nat) (answer : crypto_answer)
| EventKeyMade (c : nat) (key : ntb_key)
| EventPow (c : nat) (nonce : Z)
| EventLoad (c : nat) (blob : option ntb_blob)
| EventObject (type : ntb_proto_inv_type) (data rest : list Z)
| EventNetwork (nw : network)
| EventGc
| EventResend
| EventSend (from_address : ntb_address) (to_addresses : list ntb_address) (content_encoding : Z) (content : ntb_blob)
| EventCreateKey (params : ntb_key_params) (leading_zeroes : Z) (func : option nat)
| EventCancel (cookie : nat).

(** [EventCrypto] is a callback of the main loop: the request is gone with it. The
    answers that do not fit the request are not answers that [ntb-crypto.c] gives.
    [EventKeyMade] is the call that [handle_create_key] makes in the thread, between two
    callbacks of the main loop here; the request stays, and [idle_cb] calls the same
    callback again. *)
Definition handle_event (wall : Z) (e : keyring_event) (kr : ntb_keyring) : result unit ntb_keyring :=
  match e with
  | EventCrypto c answer =>
      t ← need (kr_crypto kr !! c);
      match t, answer with
      | CRYPTO_CREATE_KEY _ _ i, AnswerKey key => create_key_cb key i (take_crypto c kr)
      | CRYPTO_CREATE_PUBKEY_BLOB _ i, AnswerBlob blob => create_pubkey_blob_cb blob i (take_crypto c kr)
      | CRYPTO_CREATE_PUBLIC_KEY _ i, AnswerKey key => create_public_key_cb key i (take_crypto c kr)
      | CRYPTO_DECRYPT_MSG _ _ i, AnswerDecrypt decrypted => decrypt_msg_cb wall decrypted i (take_crypto c kr)
      | CRYPTO_CHECK_PUBKEY _ _ i, AnswerCheck key => check_pubkey_cb wall key i (take_crypto c kr)
      | CRYPTO_CREATE_MSG_BLOB _ _ _ _ i, AnswerBlob blob => create_msg_blob_cb blob i (take_crypto c kr)
      | CRYPTO_GENERATE_ACKDATA i, AnswerAckdata ackdata => generate_ackdata_cb wall ackdata i (take_crypto c kr)
      | _, _ => UB
      end
  | EventKeyMade c key =>
      t ← need (kr_crypto kr !! c);
      match t with CRYPTO_CREATE_KEY _ _ i => create_key_cb key i kr | _ => UB end
  | EventPow c nonce =>
      t ← need (kr_pow kr !! c);
      match pt_callback t with
      | CREATE_PUBKEY_POW_CB i => create_pubkey_pow_cb wall nonce i (take_pow c kr)
      | GETPUBKEY_POW_CB i => getpubkey_pow_cb wall nonce i (take_pow c kr)
      | ACKDATA_POW_CB i => ackdata_pow_cb wall nonce i (take_pow c kr)
      | MSG_POW_CB i => msg_pow_cb wall nonce i (take_pow c kr)
      end
  | EventLoad c blob =>
      l ← need (kr_loads kr !! c);
      match l with
      | LOAD_MESSAGE_CONTENT _ i => load_message_content_cb wall blob i (take_load c kr)
      | LOAD_BLOB _ i => load_pubkey_from_store_cb wall blob i (take_load c kr)
      end
  | EventObject type data rest => add_network_object wall type (data ++ rest) (zlen data) None false false kr
  | EventNetwork nw => Ok (kr_set_nw nw kr)
  | EventGc => keyring_gc_timeout_cb wall kr
  | EventResend => resend_timeout_cb wall kr
  | EventSend from_address to_addresses content_encoding content =>
      '(_, kr) ← ntb_keyring_send_message from_address to_addresses content_encoding content kr; Ok kr
  | EventCreateKey params leading_zeroes func => '(_, kr) ← ntb_keyring_create_key params leading_zeroes func kr; Ok kr
  | EventCancel c => ntb_keyring_cancel_task c kr
  end.

(** What the answers are like, and what the network and the caller may do. Left out are
    three events that are undefined behaviour: a message that was decrypted for its
    recipient and a public key without a tag, which overflow an array (see
    [decrypt_msg_overflows]), and the second call of the callback of a new key (see
    [created_key_called_again]). A key is
    made for a request that was neither cancelled nor called back for before. *)
Definition event_ok (wall : Z) (e : keyring_event) (kr : ntb_keyring) : Prop :=
  clock_ok wall /\
  match e with
  | EventCrypto c answer =>
      match kr_crypto kr !! c, answer with
      | Some (CRYPTO_CREATE_PUBLIC_KEY _ _), AnswerKey key => key_wf key
      | Some (CRYPTO_CREATE_PUBKEY_BLOB _ _), AnswerBlob blob =>
          exists payload, nonce_blob NTB_PROTO_INV_TYPE_PUBKEY blob payload /\ pubkey_payload_ok payload
      | Some (CRYPTO_CREATE_MSG_BLOB _ _ _ _ _), AnswerBlob blob =>
          exists payload, nonce_blob NTB_PROTO_INV_TYPE_MSG blob payload /\ msg_payload_ok payload
      | Some (CRYPTO_CHECK_PUBKEY _ _ _), AnswerCheck key => forall k, key = Some k -> key_wf k
      | Some (CRYPTO_DECRYPT_MSG _ _ _), AnswerDecrypt decrypted => message_refused decrypted
      | Some (CRYPTO_GENERATE_ACKDATA _), AnswerAckdata ackdata => length ackdata = NTB_PROTO_ACKDATA_SIZE /\ bytes ackdata
      | _, _ => False
      end
  | EventKeyMade c key =>
      exists params leading_zeroes i, kr_crypto kr !! c = Some (CRYPTO_CREATE_KEY params leading_zeroes i) /\ is_Some (kr_cookie kr !! i) /\ key_wf key
  | EventPow c _ =>
      match pt_callback <$> kr_pow kr !! c with
      | Some (ACKDATA_POW_CB _) => True
      | Some _ => network_room (kr_nw kr)
      | None => False
      end
  | EventLoad c blob => is_Some (kr_loads kr !! c) /\ forall b, blob = Some b -> zlen (blob_data b) < 2 ^ 27 /\ bytes (blob_data b)
  | EventObject type data rest => network_room (kr_nw kr) /\ bytes (data ++ rest) /\ zlen data < 2 ^ 31 /\ object_ok None None type data
  | EventNetwork nw => network_good nw
  | EventGc | EventResend => True
  | EventSend _ to_addresses _ _ => Forall destination_ok to_addresses
  | EventCreateKey params _ _ => create_key_params_ok params
  | EventCancel c => is_Some (kr_cookie kr !! c)
  end.

Definition keyring_ok (kr : ntb_keyring) : Prop := kr_inv None None kr /\ network_good (kr_nw kr).

Lemma same_network kr kr' : network_good (kr_nw kr) -> kr_inv None None kr' -> kr_nw kr' = kr_nw kr -> keyring_ok kr'.
Proof. intros Hg Hi E. split; [done|]. by rewrite E. Qed.

Lemma event_total wall e kr : keyring_ok kr -> event_ok wall e kr -> exists kr', handle_event wall e kr = Ok kr' /\ keyring_ok kr'.
Proof.
  intros [Hi Hg] [Hwall He]. destruct e; cbn [handle_event].
  - destruct (kr_crypto kr !! c) as [t|] eqn:Hc; [|done]. cbn [need]. rewrite bind_ret_l. destruct t, answer; try done.
    + destruct He as (payload & Hb & Hp). destruct (create_pubkey_blob_cb_spec _ _ _ _ _ _ _ Hi Hc Hb Hp) as (kr' & -> & Hi' & E). eauto using same_network.
    + destruct (check_pubkey_spec _ wall _ _ _ _ _ _ Hi Hc He Hwall) as (kr' & -> & Hi' & E). eauto using same_network.
    + destruct He as (payload & Hb & Hp). destruct (create_msg_blob_spec _ _ _ _ _ _ _ _ _ _ Hi Hc Hb Hp) as (kr' & -> & Hi' & E). eauto using same_network.
    + destruct (create_public_key_cb_spec _ _ _ _ _ _ Hi Hc He) as (kr' & -> & Hi' & E). eauto using same_network.
    + destruct (decrypt_refused_spec _ wall _ _ _ _ _ _ Hi Hc He) as (kr' & -> & Hi' & E). eauto using same_network.
    + destruct (generate_ackdata_spec _ wall _ _ _ _ Hi Hc He Hwall) as (kr' & -> & Hi' & E). eauto using same_network.
  - destruct He as (params & z & i & Hc & [k Hk] & Hw). rewrite Hc. cbn [need]. rewrite bind_ret_l.
    destruct (create_key_cb_spec _ _ _ _ _ _ _ _ _ Hi Hc Hk Hw) as (kr' & -> & Hi' & E & _). eauto using same_network.
  - destruct (kr_pow kr !! c) as [t|] eqn:Hc; [|done]. cbn [need fmap option_fmap option_map] in *. rewrite bind_ret_l. destruct (pt_callback t) eqn:Ht.
    + destruct (create_pubkey_pow_spec wall nonce _ _ _ _ Hi Hg He Hc Ht) as (kr' & -> & Hi' & Hg'). by exists kr'.
    + destruct (getpubkey_pow_spec wall nonce _ _ _ _ Hi Hg He Hc Ht) as (kr' & -> & Hi' & Hg'). by exists kr'.
    + destruct (ackdata_pow_spec _ wall nonce _ _ _ _ Hwall Hi Hc Ht) as (kr' & -> & Hi' & E). eauto using same_network.
    + destruct (msg_pow_spec wall nonce _ _ _ _ Hi Hg He Hc Ht) as (kr' & -> & Hi' & Hg'). by exists kr'.
  - destruct He as [[l Hc] Hz]. rewrite Hc. cbn [need]. rewrite bind_ret_l. destruct l.
    + destruct (message_content_spec _ wall _ _ _ _ _ Hwall Hi Hc Hz) as (kr' & -> & Hi' & E). eauto using same_network.
    + destruct (load_pubkey_cb_spec _ wall _ _ blob _ _ Hi Hc Hwall) as (kr' & -> & Hi' & E). eauto using same_network.
  - destruct He as (Hr & Hb & Hz & Ho). destruct (add_network_object_spec None None wall type data rest None false false kr Hi Hg Hr Hb Hz (or_introl eq_refl) Ho) as (kr' & -> & Hi' & Hg' & _).
    by exists kr'.
  - eexists. split; [reflexivity|]. split; [apply inv_set_nw; [done|by apply network_good_reads]|done].
  - destruct (gc_timeout_spec _ _ wall _ Hi) as (kr' & -> & Hi' & E). eauto using same_network.
  - destruct (resend_timeout_spec _ _ _ Hi Hwall) as (kr' & -> & Hi' & E). eauto using same_network.
  - destruct (send_message_spec _ from_address to_addresses content_encoding content _ Hi He) as (sent & kr' & -> & Hi' & E). rewrite bind_ret_l. eauto using same_network.
  - destruct (keyring_create_key_spec _ _ params leading_zeroes func _ Hi He) as (i & kr' & -> & Hi' & E & _). rewrite bind_ret_l. eauto using same_network.
  - destruct He as [k Hk]. destruct (cancel_task_spec _ _ _ _ _ Hi Hk) as (kr' & -> & Hi' & E). eauto using same_network.
Qed.

(** ** The states that are reached *)

(** What the files have when the program starts. *)
Record stored_ok (keys : list ntb_key) (pubkey_blobs : list ntb_blob) (outgoings : list ntb_store_outgoing) : Prop := {
  so_keys : Forall key_wf keys;
  so_pubkeys : Forall (fun blob => pubkey_ok (blob_data blob)) pubkey_blobs;
  so_outgoings : Forall outgoing_ok outgoings
}.

Definition keyring_started (wall : Z) (nw : network) (keys : list ntb_key) (random : list Z) (pubkey_blobs : list ntb_blob)
    (outgoings : list ntb_store_outgoing) : result unit ntb_keyring :=
  ntb_keyring_load_store wall pubkey_blobs outgoings (ntb_keyring_start (ntb_keyring_new nw keys random)).

Inductive keyring_reachable : ntb_keyring -> Prop :=
| reachable_start wall nw keys random pubkey_blobs outgoings kr :
    clock_ok wall -> network_good nw -> stored_ok keys pubkey_blobs outgoings ->
    keyring_started wall nw keys random pubkey_blobs outgoings = Ok kr -> keyring_reachable kr
| reachable_event wall e kr kr' :
    keyring_reachable kr -> event_ok wall e kr -> handle_event wall e kr = Ok kr' -> keyring_reachable kr'.

Lemma started_total wall nw keys random pubkey_blobs outgoings :
  clock_ok wall -> network_good nw -> stored_ok keys pubkey_blobs outgoings ->
  exists kr, keyring_started wall nw keys random pubkey_blobs outgoings = Ok kr /\ keyring_ok kr.
Proof.
  intros Hwall Hg [Hk Hp Ho]. pose proof (keyring_start_spec nw keys random (network_good_reads nw Hg) Hk) as Hi. unfold keyring_started.
  destruct (load_store_spec wall pubkey_blobs outgoings _ Hi) as (kr & -> & Hi' & E); [by rewrite keyring_new_spec|done..|].
  exists kr. split; [done|]. split; [done|]. rewrite E. by rewrite keyring_new_spec.
Qed.

Lemma reachable_ok kr : keyring_reachable kr -> keyring_ok kr.
Proof.
  induction 1 as [wall nw keys random pubkey_blobs outgoings kr Hwall Hg Hs E|wall e kr kr' _ IH He E].
  - destruct (started_total wall nw keys random pubkey_blobs outgoings Hwall Hg Hs) as (kr' & E' & Hok). rewrite E in E'. by injection E' as ->.
  - destruct (event_total wall e kr IH He) as (kr2 & E2 & Hok). rewrite E in E2. by injection E2 as ->.
Qed.

(** ** Messages and their requests *)

Inductive keyring_request :=
| CryptoRequest (c : nat) (t : crypto_task)
| PowRequest (c : nat) (t : pow_task)
| LoadRequest (c : nat) (l : store_load).

Definition outstanding (kr : ntb_keyring) (r : keyring_request) : Prop :=
  match r with
  | CryptoRequest c t => kr_crypto kr !! c = Some t
  | PowRequest c t => kr_pow kr !! c = Some t
  | LoadRequest c l => kr_loads kr !! c = Some l
  end.
Definition request_for (r : keyring_request) : request_owner :=
  match r with
  | CryptoRequest _ t => crypto_owner t
  | PowRequest _ t => pow_owner t
  | LoadRequest _ l => OwnMessage (load_owner l)
  end.

(** The states that end when something arrives or when it is sent again. *)
Definition awaits_network (st : ntb_keyring_message_state) : Prop :=
  st = NTB_KEYRING_MESSAGE_STATE_AWAITING_PUBKEY \/ st = NTB_KEYRING_MESSAGE_STATE_AWAITING_ACKNOWLEDGEMENT.

Definition one_request (kr : ntb_keyring) (i : nat) : Prop :=
  exists r, outstanding kr r /\ request_for r = OwnMessage i /\ forall r', outstanding kr r' -> request_for r' = OwnMessage i -> r' = r.
Definition no_request (kr : ntb_keyring) (i : nat) : Prop := forall r, outstanding kr r -> request_for r <> OwnMessage i.

(** The cookie that a message has for a request of its own. *)
Definition request_cookie (m : ntb_keyring_message) (r : keyring_request) : Prop :=
  match r with
  | CryptoRequest c _ => ms_crypto_cookie m = Some c
  | PowRequest c _ => ms_pow_cookie m = Some c
  | LoadRequest c _ => ms_store_cookie m = Some c
  end.
Lemma outstanding_cookie kr i m r : kr_inv None None kr -> kr_message kr !! i = Some m -> outstanding kr r -> request_for r = OwnMessage i -> request_cookie m r.
Proof.
  intros Hi Hm Hr Ho. destruct r as [c t|c t|c l]; cbn in *.
  - pose proof (inv_crypto _ _ _ Hi c t Hr) as Hh. rewrite Ho in Hh. cbn in Hh. by rewrite Hm in Hh.
  - pose proof (inv_pow _ _ _ Hi c t Hr) as Hh. rewrite Ho in Hh. cbn in Hh. by rewrite Hm in Hh.
  - injection Ho as Ho. pose proof (inv_loads _ _ _ Hi c l Hr) as Hh. rewrite Ho, Hm in Hh. done.
Qed.

Lemma message_requests kr i m : kr_inv None None kr -> kr_message kr !! i = Some m ->
  exists st, ms_state m = Some st /\ (awaits_network st -> no_request kr i) /\ (~ awaits_network st -> one_request kr i).
Proof.
  intros Hi Hm. destruct (message_state _ _ _ _ _ Hi ltac:(done) Hm) as [st Hst]. exists st. split; [done|].
  destruct (inv_messages _ _ _ Hi i m Hm) as [_ Hw]. rewrite decide_False in Hw by done.
  assert (Hno : waits_nothing m -> no_request kr i).
  { intros (W1 & W2 & W3) r Hr Ho. pose proof (outstanding_cookie _ _ _ _ Hi Hm Hr Ho) as Hc. destruct r; cbn in Hc; congruence. }
  assert (Hone : forall r, outstanding kr r -> request_for r = OwnMessage i ->
    (match r with CryptoRequest _ _ => ms_pow_cookie m = None /\ ms_store_cookie m = None
     | PowRequest _ _ => ms_crypto_cookie m = None /\ ms_store_cookie m = None | LoadRequest _ _ => ms_crypto_cookie m = None /\ ms_pow_cookie m = None end) ->
    one_request kr i).
  { intros r Hr Ho Hx. exists r. split; [done|]. split; [done|]. intros r' Hr' Ho'. pose proof (outstanding_cookie _ _ _ _ Hi Hm Hr Ho) as Hc.
    pose proof (outstanding_cookie _ _ _ _ Hi Hm Hr' Ho') as Hc'. destruct r, r'; cbn in *; destruct Hx; try congruence. }
  unfold msg_state_ok in Hw. rewrite Hst in Hw. destruct Hw as [_ Hw]. unfold awaits_network.
  destruct st; (split; [intros [Hx|Hx]; try discriminate Hx; apply Hno; by destruct_and?|]); intros Hn; try (exfalso; apply Hn; tauto);
    unfold waits_crypto, waits_pow, waits_load in Hw; open_all; subst;
    first [eapply (Hone (CryptoRequest _ _)); [cbn; eassumption|by cbn|done] | eapply (Hone (PowRequest _ _)); [cbn; eassumption|cbn; unfold pow_owner; by match goal with Hq : pt_callback _ = _ |- _ => rewrite Hq end|done]
      | eapply (Hone (LoadRequest _ _)); [cbn; eassumption|by cbn|done]].
Qed.

(** ** Acknowledgements *)

(** Neither calls that are not answered nor changes of the keys. *)
Definition silent (r : result unit ntb_keyring) (kr : ntb_keyring) : Prop :=
  forall kr', r = Ok kr' -> kr_effects kr' = kr_effects kr /\ kr_keys kr' = kr_keys kr.
Lemma silent_bind r f kr : silent r kr -> (forall kr1, silent (f kr1) kr1) -> silent (r ≫= f) kr.
Proof. intros Hr Hf kr' (kr1 & E1 & E2)%bind_Ok. destruct (Hr _ E1), (Hf _ _ E2). split; congruence. Qed.
Lemma silent_update i f kr : silent (update_message i f kr) kr.
Proof. unfold update_message. intros kr' (m & _ & [= <-])%bind_Ok. done. Qed.
Lemma silent_cancel i kr : silent (cancel_message_tasks i kr) kr.
Proof.
  unfold cancel_message_tasks. intros kr' (m & _ & E)%bind_Ok. revert kr' E. change (silent (
    kr1 ← (match ms_crypto_cookie m with Some c => kr ← ntb_crypto_cancel_task c kr; update_message i (ms_set_crypto_cookie None) kr | None => Ok kr end);
    kr2 ← (match ms_pow_cookie m with Some c => kr ← ntb_pow_cancel c kr1; update_message i (ms_set_pow_cookie None) kr | None => Ok kr1 end);
    kr3 ← (match ms_store_cookie m with Some c => kr ← ntb_store_cancel_task c kr2; update_message i (ms_set_store_cookie None) kr | None => Ok kr2 end);
    kr4 ← update_message i (ms_set_blob None) kr3;
    match ms_trying_pubkey_blob m with Some p => kr ← unref_pubkey_blob p kr4; update_message i (ms_set_trying_pubkey_blob None) kr | None => Ok kr4 end) kr).
  repeat (apply silent_bind; [|intros ?]); try apply silent_update.
  - destruct (ms_crypto_cookie m); [|by intros ? [= <-]]. apply silent_bind; [|intros ?; apply silent_update]. intros kr' (? & _ & [= <-])%bind_Ok. done.
  - destruct (ms_pow_cookie m); [|by intros ? [= <-]]. apply silent_bind; [|intros ?; apply silent_update]. intros kr' (? & _ & [= <-])%bind_Ok. done.
  - destruct (ms_store_cookie m); [|by intros ? [= <-]]. apply silent_bind; [|intros ?; apply silent_update]. intros kr' (? & _ & [= <-])%bind_Ok. done.
  - destruct (ms_trying_pubkey_blob m); [|by intros ? [= <-]]. apply silent_bind; [|intros ?; apply silent_update]. intros kr' (b & _ & E)%bind_Ok. cbn zeta in E.
    destruct (_ <=? _); by injection E as <-.
Qed.
Lemma silent_free i kr : silent (free_message i kr) kr.
Proof. unfold free_message. apply silent_bind; [apply silent_cancel|]. by intros kr1 kr' [= <-]. Qed.

Lemma existsb_ext_in {A} (f g : A -> bool) l : (forall x, x ∈ l -> f x = g x) -> existsb f l = existsb g l.
Proof. induction l as [|x l IH]; intros Hl; cbn; [done|]. rewrite (Hl x), IH; [done| |by left]. intros y Hy. apply Hl. by right. Qed.

Definition uses_content (kr : ntb_keyring) (content_id : Z) (i : nat) : bool :=
  match kr_message kr !! i with Some m => ms_content_id m =? content_id | None => false end.
Lemma content_used_existsb l content_id kr : (forall i, i ∈ l -> is_Some (kr_message kr !! i)) -> content_used l content_id kr = Ok (existsb (uses_content kr content_id) l).
Proof.
  induction l as [|i l IH]; intros Hl; cbn [content_used existsb]; [done|]. destruct (Hl i ltac:(by left)) as [m Hm].
  rewrite (the_message_Some i m), bind_ret_l by done. unfold uses_content at 1. rewrite Hm. destruct (_ =? _); [done|]. apply IH. intros j Hj. apply Hl. by right.
Qed.

(** Whether the data of an acknowledgement is the message's. *)
Definition acknowledges (kr : ntb_keyring) (ackdata : list Z) (i : nat) : Prop :=
  exists m, kr_message kr !! i = Some m /\ ms_state m <> Some NTB_KEYRING_MESSAGE_STATE_GENERATING_ACKDATA /\ ms_ackdata m = Some ackdata.

(** The state behind the acknowledgement of the message [i]. *)
Definition acknowledged (i : nat) (kr kr' : ntb_keyring) : Prop :=
  kr_messages kr' = filter (.≠ i) (kr_messages kr) /\ kr_message kr' !! i = None /\ (forall j, j <> i -> kr_message kr' !! j = kr_message kr !! j) /\
  kr_nw kr' = kr_nw kr /\ kr_keys kr' = kr_keys kr /\
  exists m outgoings, kr_message kr !! i = Some m /\ outgoings_of (kr_messages kr') kr' = Ok outgoings /\
    kr_effects kr' = kr_effects kr ++
      (if existsb (uses_content kr (ms_content_id m)) (kr_messages kr') then [] else [KeyringDeleteMessageContent (ms_content_id m)]) ++
      [KeyringSaveOutgoings outgoings].

Lemma outgoings_effects l kr effects : outgoings_of l (kr_set_effects effects kr) = outgoings_of l kr.
Proof.
  induction l as [|i l IH]; cbn [outgoings_of]; [done|]. unfold the_message. change (kr_message (kr_set_effects effects kr)) with (kr_message kr).
  destruct (kr_message kr !! i) as [m|]; [|done]. cbn [need mbind result_bind]. destruct (ms_state m); [|done]. cbn [need mbind result_bind].
  rewrite IH. by destruct (decide _).
Qed.

Lemma message_acknowledged_spec i m kr : kr_inv None None kr -> kr_message kr !! i = Some m ->
  exists kr', message_acknowledged i kr = Ok kr' /\ kr_inv None None kr' /\ acknowledged i kr kr'.
Proof.
  intros Hi Hm. unfold message_acknowledged. rewrite (the_message_Some i m), bind_ret_l by done.
  destruct (inv_messages _ _ _ Hi i m Hm) as [((_ & Ht) & Hv & _) _]. destruct (address_roundtrip_core (ms_to_address m) Ht Hv) as (text & -> & _ & Hz).
  rewrite bind_ret_l, (proj2 (Z.ltb_ge _ _)) by done.
  destruct (free_message_spec _ _ _ _ _ Hi (or_introl eq_refl) Hm) as (kr1 & E1 & Hi1 & F1 & F2 & F3 & F4). rewrite E1, bind_ret_l.
  destruct (silent_free i kr kr1 E1) as [Ee Ek]. unfold maybe_delete_message_content.
  assert (Hin : forall j, j ∈ kr_messages kr1 -> is_Some (kr_message kr1 !! j)) by (intros j; by apply (inv_message_list _ _ _ Hi1)).
  rewrite content_used_existsb, bind_ret_l by done. cbv beta iota zeta. set (used := existsb _ _).
  assert (Hused : used = existsb (uses_content kr (ms_content_id m)) (kr_messages kr1)).
  { unfold used. apply existsb_ext_in. intros j Hj. unfold uses_content. rewrite F4; [done|]. intros ->. destruct (Hin i Hj). congruence. }
  rewrite bind_ret_l. set (kr2 := if used then kr1 else _).
  assert (Hkr2 : kr2 = kr_set_effects (kr_effects kr1 ++ (if used then [] else [KeyringDeleteMessageContent (ms_content_id m)])) kr1).
  { unfold kr2. destruct used; [rewrite app_nil_r; by destruct kr1|done]. }
  rewrite Hkr2. destruct (save_messages_spec None _ (inv_set_effects None None (kr_effects kr1 ++ (if used then [] else [KeyringDeleteMessageContent (ms_content_id m)])) kr1 Hi1)) as (outgoings & E3 & Hi3).
  rewrite E3. eexists. split; [reflexivity|]. split; [done|]. unfold acknowledged, kr_emit. kr_cbn. split_and!; try done.
  exists m, outgoings. split; [done|]. split.
  - rewrite !outgoings_effects. unfold save_messages in E3. kr_cbn. apply bind_Ok in E3 as (o & E3 & E4). rewrite outgoings_effects in E3. rewrite E3. f_equal.
    unfold kr_emit in E4. kr_cbn. injection E4 as E4. apply app_inv_head in E4. by injection E4.
  - rewrite Ee, Hused. by rewrite <- app_assoc.
Qed.

(** An object with the data of an acknowledgement in place of an encrypted message. *)
Definition ackdata_object (nonce : list Z) (time stream : Z) (ackdata : list Z) : list Z := nonce ++ be_split 8 time ++ enc_var_int stream ++ ackdata.

Lemma ack_header_spec nonce time stream ackdata :
  length nonce = 8%nat -> bytes nonce -> 0 <= time < 2 ^ 32 -> 0 <= stream < 2 ^ 64 -> length ackdata = NTB_PROTO_ACKDATA_SIZE ->
  let data := ackdata_object nonce time stream ackdata in
  exists nonce' time' stream', ntb_proto_get_command msg_header data (zlen data) = Ok ((nonce', (time', (stream', tt))), zlen data - Z.of_nat NTB_PROTO_ACKDATA_SIZE) /\
    drop (Z.to_nat (zlen data - Z.of_nat NTB_PROTO_ACKDATA_SIZE)) data = ackdata.
Proof.
  intros Hn Hb Ht Hst Ha data.
  pose proof (be_combine_range nonce Hb) as Hnr. unfold zlen in Hnr. rewrite Hn in Hnr. change (256 ^ Z.of_nat 8) with (2 ^ 64) in Hnr.
  assert (En : nonce = be_split 8 (be_combine nonce)) by (rewrite <- Hn; symmetry; by apply be_split_combine).
  assert (Hza : zlen ackdata = 32) by (unfold zlen; rewrite Ha; done). assert (Hzn : zlen nonce = 8) by (unfold zlen; lia).
  pose proof (zlen_enc_var_int stream).
  pose proof (command_roundtrip time msg_header (be_combine nonce, (tt, (stream, tt))) ackdata (zlen data)) as Hc.
  unfold msg_header, data, ackdata_object in *.
  cbn [enc_arguments enc_argument fst snd args_ok arg_ok] in Hc. rewrite <- En in Hc. rewrite app_nil_r, <- !app_assoc in Hc. change (Z.of_nat NTB_PROTO_ACKDATA_SIZE) with 32.
  eexists _, _, _. split.
  - rewrite Hc; [|split_and!; done || lia|].
    + do 3 f_equal. rewrite !zlen_app. lia.
    + rewrite !zlen_app, zlen_be_split. lia.
  - rewrite !app_assoc. apply drop_app_length'. rewrite !length_app, <- !app_assoc. unfold zlen in *. rewrite !length_app. lia.
Qed.

Lemma find_acknowledged_first kr ackdata l1 i l2 :
  kr_inv None None kr -> (forall j, j ∈ l1 -> j ∈ kr_messages kr) -> (forall j, j ∈ l1 -> ~ acknowledges kr ackdata j) -> acknowledges kr ackdata i ->
  find_acknowledged (l1 ++ i :: l2) ackdata kr = (kr' ← message_acknowledged i kr; Ok (true, kr')).
Proof.
  intros Hi Hl Hn (m & Hm & Hs & Ha). induction l1 as [|j l1 IH]; cbn [app find_acknowledged].
  - destruct (message_state _ _ _ _ _ Hi ltac:(done) Hm) as [st Hst]. rewrite (the_message_Some i m), bind_ret_l, Hst by done. cbn [need]. rewrite bind_ret_l.
    rewrite decide_False by congruence. rewrite Ha. cbn [need]. rewrite bind_ret_l. unfold bytes_eqb. by rewrite bool_decide_eq_true_2.
  - destruct (proj1 (proj2 (inv_message_list _ _ _ Hi) j) (Hl j ltac:(by left))) as [mj Hmj]. destruct (message_state _ _ _ _ _ Hi ltac:(done) Hmj) as [st Hst].
    rewrite (the_message_Some j mj), bind_ret_l, Hst by done. cbn [need]. rewrite bind_ret_l.
    assert (Hrest : find_acknowledged (l1 ++ i :: l2) ackdata kr = (kr' ← message_acknowledged i kr; Ok (true, kr'))) by (apply IH; intros x Hx; [apply Hl|apply Hn]; by right).
    destruct (decide _) as [|Hne]; [done|]. destruct (inv_messages _ _ _ Hi j mj Hmj) as [_ Hw]. rewrite decide_False in Hw by done. unfold msg_state_ok in Hw. rewrite Hst in Hw.
    destruct Hw as [Hw _]. destruct (Hw Hne) as [a Ea]. rewrite Ea. cbn [need]. rewrite bind_ret_l. unfold bytes_eqb. rewrite bool_decide_eq_false_2; [done|].
    intros ->. apply (Hn j ltac:(by left)). exists mj. split_and!; [done|congruence|done].
Qed.

(** The data of an acknowledgement of the first message that has it. *)
Lemma handle_ack_spec nonce time stream ackdata kr l1 i l2 :
  kr_inv None None kr -> length nonce = 8%nat -> bytes nonce -> 0 <= time < 2 ^ 32 -> 0 <= stream < 2 ^ 64 -> length ackdata = NTB_PROTO_ACKDATA_SIZE ->
  kr_messages kr = l1 ++ i :: l2 -> acknowledges kr ackdata i -> (forall j, j ∈ l1 -> ~ acknowledges kr ackdata j) ->
  exists kr', handle_msg (Blob NTB_PROTO_INV_TYPE_MSG (ackdata_object nonce time stream ackdata)) kr = Ok kr' /\ kr_inv None None kr' /\ acknowledged i kr kr'.
Proof.
  intros Hi Hln Hbn Ht Hst Hla Hl Hack Hn. destruct (ack_header_spec nonce time stream ackdata Hln Hbn Ht Hst Hla) as (nonce' & time' & stream' & Eh & Ed).
  unfold handle_msg. cbn [blob_data]. rewrite Eh. cbn [parse]. rewrite bind_ret_l. cbv iota.
  rewrite Ed. replace (zlen _ - (zlen _ - _)) with (Z.of_nat NTB_PROTO_ACKDATA_SIZE) by lia. unfold check_msg_acknowledgement. rewrite Z.eqb_refl. cbn [negb].
  rewrite read_bytes_Ok, take_ge, bind_ret_l by (rewrite Hla; lia). rewrite Hl.
  rewrite (find_acknowledged_first kr ackdata l1 i l2 Hi); [|intros j Hj; rewrite Hl, elem_of_app; by left|done|done].
  destruct Hack as (m & Hm & _). destruct (message_acknowledged_spec i m kr Hi Hm) as (kr' & -> & Hi' & Hack). rewrite !bind_ret_l. by exists kr'.
Qed.

Lemma find_acknowledged_none kr ackdata l : kr_inv None None kr -> (forall j, j ∈ l -> j ∈ kr_messages kr) -> (forall j, j ∈ l -> ~ acknowledges kr ackdata j) ->
  find_acknowledged l ackdata kr = Ok (false, kr).
Proof.
  intros Hi. induction l as [|j l IH]; intros Hl Hn; cbn [find_acknowledged]; [done|].
  destruct (proj1 (proj2 (inv_message_list _ _ _ Hi) j) (Hl j ltac:(by left))) as [mj Hmj]. destruct (message_state _ _ _ _ _ Hi ltac:(done) Hmj) as [st Hst].
  assert (Hrest : find_acknowledged l ackdata kr = Ok (false, kr)) by (apply IH; intros x Hx; [apply Hl|apply Hn]; by right).
  rewrite (the_message_Some j mj), bind_ret_l, Hst by done. cbn [need]. rewrite bind_ret_l.
  destruct (decide _) as [|Hne]; [done|]. destruct (inv_messages _ _ _ Hi j mj Hmj) as [_ Hw]. rewrite decide_False in Hw by done. unfold msg_state_ok in Hw. rewrite Hst in Hw.
  destruct Hw as [Hw _]. destruct (Hw Hne) as [a Ea]. rewrite Ea. cbn [need]. rewrite bind_ret_l. unfold bytes_eqb. rewrite bool_decide_eq_false_2; [done|].
  intros ->. apply (Hn j ltac:(by left)). exists mj. split_and!; [done|congruence|done].
Qed.

(** The thread is asked to decrypt an object with all of the keys; nothing else changes. *)
Definition decryption_asked (object : list Z) (kr kr' : ntb_keyring) : Prop :=
  kr_messages kr' = kr_messages kr /\ kr_message kr' = kr_message kr /\ kr_effects kr' = kr_effects kr /\ kr_keys kr' = kr_keys kr /\ kr_nw kr' = kr_nw kr /\
  exists i c, kr_task kr !! i = None /\ kr_crypto kr !! c = None /\ kr_tasks kr' = i :: kr_tasks kr /\
    kr_crypto kr' = <[c := CRYPTO_DECRYPT_MSG (Blob NTB_PROTO_INV_TYPE_MSG object) (kr_keys kr) i]> (kr_crypto kr).

Lemma handle_other_ack_spec nonce time stream ackdata kr :
  kr_inv None None kr -> length nonce = 8%nat -> bytes nonce -> 0 <= time < 2 ^ 32 -> 0 <= stream < 2 ^ 64 -> length ackdata = NTB_PROTO_ACKDATA_SIZE ->
  (forall i, ~ acknowledges kr ackdata i) ->
  exists kr', handle_msg (Blob NTB_PROTO_INV_TYPE_MSG (ackdata_object nonce time stream ackdata)) kr = Ok kr' /\ kr_inv None None kr' /\
    decryption_asked (ackdata_object nonce time stream ackdata) kr kr'.
Proof.
  intros Hi Hln Hbn Ht Hst Hla Hn. destruct (ack_header_spec nonce time stream ackdata Hln Hbn Ht Hst Hla) as (nonce' & time' & stream' & Eh & Ed).
  unfold handle_msg. cbn [blob_data]. rewrite Eh. cbn [parse]. rewrite bind_ret_l. cbv iota.
  rewrite Ed. replace (zlen _ - (zlen _ - _)) with (Z.of_nat NTB_PROTO_ACKDATA_SIZE) by lia. unfold check_msg_acknowledgement. rewrite Z.eqb_refl. cbn [negb].
  rewrite read_bytes_Ok, take_ge, bind_ret_l by (rewrite Hla; lia). rewrite (find_acknowledged_none kr ackdata) by done. rewrite bind_ret_l.
  destruct (inv_bounded _ _ _ Hi) as (Bm & Bt & Bk & Bb & Bc & Bp & Bl). pose proof (bounded_fresh _ _ Bt) as Hft. pose proof (bounded_fresh _ _ (bounded_le _ _ (S (kr_next kr)) Bc ltac:(lia))) as Hfc.
  unfold add_task, fresh. cbn iota zeta. rewrite crypto_queue_spec, bind_ret_l by apply Hi. kr_cbn.
  unfold update_task, the_task. kr_cbn. rewrite lookup_insert_eq. cbn [need]. rewrite bind_ret_l. eexists. split; [reflexivity|].
  pose proof (add_task_spec None (CRYPTO_DECRYPT_MSG (Blob NTB_PROTO_INV_TYPE_MSG (ackdata_object nonce time stream ackdata)) (kr_keys kr) (kr_next kr)) time' kr Hi eq_refl) as Hk. cbn zeta in Hk.
  match type of Hk with kr_inv _ _ ?k => match goal with |- kr_inv _ _ ?k' /\ _ => replace k' with k end end.
  - split; [exact Hk|]. unfold decryption_asked. kr_cbn. do 5 (split; [done|]). exists (kr_next kr), (S (kr_next kr)). by split_and!.
  - destruct kr. unfold put_task. kr_cbn. by rewrite insert_insert_eq.
Qed.

(** ** Objects of public keys *)

(** The objects that are known for a ripe or tag, in the order in which they are tried. *)
Definition pubkeys_for (kr : ntb_keyring) (k : list Z) : list nat := with_tag (pubkey_tag (kr_pubkey_blob kr)) k (kr_pubkey_blob_list kr).

Lemma filter_ext_in {A} (P1 P2 : A -> Prop) `{forall x, Decision (P1 x), forall x, Decision (P2 x)} (l : list A) :
  (forall x, x ∈ l -> P1 x <-> P2 x) -> filter P1 l = filter P2 l.
Proof.
  induction l as [|x l IH]; intros Hl; [done|]. rewrite !filter_cons, IH by (intros y Hy; apply Hl; by right). pose proof (Hl x ltac:(by left)).
  repeat case_decide; tauto.
Qed.

Lemma pubkeys_for_insert kr p b k : kr_inv None None kr -> kr_pubkey_blob kr !! p = None -> pb_ripe_or_tag b = k ->
  pubkeys_for (insert_pubkey_blob p (pb_ripe_or_tag b) (put_pubkey_blob p b kr)) k = insert_second p (pubkeys_for kr k) /\
  forall k', k' <> k -> pubkeys_for (insert_pubkey_blob p (pb_ripe_or_tag b) (put_pubkey_blob p b kr)) k' = pubkeys_for kr k'.
Proof.
  intros Hi Hp <-. pose proof (inv_pubkeys _ _ _ Hi) as Hpk.
  assert (Hpl : p ∉ kr_pubkey_blob_list kr) by (intros (b' & Hb' & _)%(pk_listed _ _ _ _ Hpk); congruence).
  set (tag := pubkey_tag (<[p := b]> (kr_pubkey_blob kr))). assert (Htag : forall q, q ∈ kr_pubkey_blob_list kr -> tag q = pubkey_tag (kr_pubkey_blob kr) q).
  { intros q Hq. unfold tag, pubkey_tag. rewrite lookup_insert_ne; [done|]. by intros ->. }
  assert (Hwt : forall k', with_tag tag k' (kr_pubkey_blob_list kr) = pubkeys_for kr k').
  { intros k'. unfold pubkeys_for, with_tag. apply filter_ext_in. intros q Hq. by rewrite Htag. }
  assert (Hk : tag p = Some (pb_ripe_or_tag b)) by (unfold tag, pubkey_tag; by rewrite lookup_insert_eq).
  assert (Hall : forall k', pubkeys_for (insert_pubkey_blob p (pb_ripe_or_tag b) (put_pubkey_blob p b kr)) k' =
    if decide (k' = pb_ripe_or_tag b) then insert_second p (pubkeys_for kr (pb_ripe_or_tag b)) else pubkeys_for kr k').
  { intros k'. rewrite <- !Hwt. rewrite <- (with_tag_insert tag _ (kr_pubkey_blob_table kr) p _ k'); [|eapply grouped_ext; [exact Htag|apply Hpk]|done|done].
    unfold insert_pubkey_blob, pubkeys_for. kr_cbn. by destruct (kr_pubkey_blob_table kr !! pb_ripe_or_tag b). }
  split; [rewrite Hall; by rewrite decide_True|]. intros k' Hne. rewrite Hall. by rewrite decide_False.
Qed.

Lemma pubkeys_for_remove kr p : kr_inv None None kr -> is_Some (kr_pubkey_blob kr !! p) ->
  exists kr', remove_pubkey_blob p kr = Ok kr' /\ kr_inv None None kr' /\ forall k, pubkeys_for kr' k = filter (.≠ p) (pubkeys_for kr k).
Proof.
  intros Hi [b Hb]. destruct (remove_pubkey_blob_spec _ _ _ _ _ Hi Hb) as (kr' & E & Hi' & _ & _ & _ & _ & El & Eb). exists kr'. split; [done|]. split; [done|].
  intros k. unfold pubkeys_for, with_tag. rewrite El. rewrite !list_filter_filter. apply filter_ext_in. intros q _. unfold pubkey_tag.
  destruct (decide (q = p)) as [->|Hne]; [naive_solver|]. rewrite Eb by done. naive_solver.
Qed.

(** ** Requests for public keys *)

(** Whether a request for the key with this name is for the key. *)
Definition asked_for (version : Z) (name : list Z) (key : ntb_key) : bool :=
  ntb_key_has_private key && (if version <? 4 then bytes_eqb (addr_ripe (key_address key)) name else bytes_eqb (key_tag key) name).

Lemma post_matching_skip wall version stream matches keys1 keys2 n kr :
  (forall key, key ∈ keys1 -> ntb_key_has_private key && matches key = false) ->
  post_matching_key wall version stream matches (keys1 ++ keys2) n kr = post_matching_key wall version stream matches keys2 (n + length keys1) kr.
Proof.
  revert n. induction keys1 as [|key keys1 IH]; intros n Hk; cbn [app post_matching_key length]; [by rewrite Nat.add_0_r|].
  rewrite (Hk key) by left. rewrite IH by (intros k Hin; apply Hk; by right). f_equal. lia.
Qed.

(** What is done for the key. *)
Definition key_posted (wall : Z) (n : nat) (key : ntb_key) (kr kr' : ntb_keyring) : Prop :=
  exists i c,
    let key' := key_set_last_pubkey_send_time (wall + (Z.rem (hd 0 (kr_random kr)) 600 - 300)) key in
    kr_keys kr' = <[n := key']> (kr_keys kr) /\ kr_tasks kr' = i :: kr_tasks kr /\ i ∉ kr_tasks kr /\
    kr_crypto kr' = <[c := CRYPTO_CREATE_PUBKEY_BLOB key' i]> (kr_crypto kr) /\ kr_crypto kr !! c = None /\
    kr_effects kr' = kr_effects kr ++ [KeyringSaveKeys (kr_keys kr')] /\ kr_messages kr' = kr_messages kr /\ kr_message kr' = kr_message kr.

Lemma maybe_post_key_result d wall n key kr : kr_inv d None kr -> kr_keys kr !! n = Some key ->
  exists kr', maybe_post_key wall n kr = Ok kr' /\ kr_inv d None kr' /\
    if age_at wall (key_last_pubkey_send_time key) <? ntb_proto_get_max_age_for_type NTB_PROTO_INV_TYPE_PUBKEY then kr' = kr else key_posted wall n key kr kr'.
Proof.
  intros Hi Hk. destruct (maybe_post_key_spec d wall n kr Hi ltac:(by eexists)) as (kr' & E & Hi' & _). exists kr'. split; [done|]. split; [done|].
  revert E. unfold maybe_post_key. rewrite Hk. cbn [need]. rewrite bind_ret_l. destruct (_ <? _); [by intros [= <-]|].
  unfold random_offset. cbn iota zeta. unfold add_task, fresh. cbn iota zeta.
  rewrite crypto_queue_spec, bind_ret_l by exact (inv_started _ _ _ Hi). unfold update_task, the_task. kr_cbn. rewrite lookup_insert_eq. cbn [need]. rewrite bind_ret_l. intros [= <-].
  destruct (inv_bounded _ _ _ Hi) as (_ & Bt & _ & _ & Bc & _). exists (kr_next kr), (S (kr_next kr)). unfold save_keyring, kr_emit. kr_cbn. split_and!; try done.
  - rewrite (proj2 (inv_task_list _ _ _ Hi)), (bounded_fresh _ _ Bt). by intros [? ?].
  - apply bounded_fresh. eapply bounded_le; [exact Bc|lia].
Qed.

Lemma getpubkey_answered wall nonce time address name n key kr :
  kr_inv None None kr -> length nonce = 8%nat -> bytes nonce -> 0 <= time < 2 ^ 32 -> address_wf address -> 2 <= addr_version address <= 4 ->
  zlen name = (if addr_version address <? 4 then 20 else 32) ->
  kr_keys kr !! n = Some key -> asked_for (addr_version address) name key = true ->
  (forall k, k ∈ take n (kr_keys kr) -> asked_for (addr_version address) name k = false) ->
  addr_version (key_address key) = addr_version address -> addr_stream (key_address key) = addr_stream address ->
  handle_getpubkey wall (Blob NTB_PROTO_INV_TYPE_GETPUBKEY (nonce ++ getpubkey_text time address name)) kr = maybe_post_key wall n kr.
Proof.
  intros Hi Hn Hb Ht Ha Hv Hz Hk Hask Hbefore Ev Es. unfold handle_getpubkey. cbn [blob_data].
  assert (Hzn : 0 <= zlen name < 2 ^ 30) by (destruct (addr_version address <? 4); lia).
  destruct (getpubkey_header_spec nonce time address name Hn Hb Ha Ht) as (nonce' & time' & ->); [lia|]. set (data := nonce ++ _). cbn [parse]. rewrite bind_ret_l. cbv iota.
  rewrite (proj2 (Z.ltb_ge _ _)), (proj2 (Z.ltb_ge _ _)) by lia. cbn [orb].
  assert (Ed : drop (Z.to_nat (zlen data - zlen name)) data = name).
  { unfold data, getpubkey_text. rewrite !app_assoc. apply drop_app_length'. rewrite zlen_app. unfold zlen. lia. }
  rewrite Ed. replace (zlen data - (zlen data - zlen name)) with (zlen name) by lia.
  assert (Hpost : forall matches, (forall k, ntb_key_has_private k && matches k = asked_for (addr_version address) name k) ->
    post_matching_key wall (addr_version address) (addr_stream address) matches (kr_keys kr) 0 kr = maybe_post_key wall n kr).
  { intros matches Hmatch. rewrite <- (take_drop n (kr_keys kr)), (drop_S _ key n Hk). rewrite post_matching_skip by (intros k Hin; rewrite Hmatch; by apply Hbefore).
    cbn [post_matching_key]. rewrite Hmatch, Hask, Ev, Es, !Z.eqb_refl. cbn [negb orb]. f_equal. rewrite length_take.
    pose proof (lookup_lt_Some _ _ _ Hk). lia. }
  destruct (addr_version address <? 4) eqn:E4.
  - rewrite (proj2 (Z.ltb_ge _ _)) by (rewrite Hz; unfold RIPEMD160_DIGEST_LENGTH; lia). unfold handle_getpubkey_with_ripe.
    rewrite read_bytes_Ok, bind_ret_l by (unfold zlen, RIPEMD160_DIGEST_LENGTH in *; lia). rewrite take_ge by (unfold zlen, RIPEMD160_DIGEST_LENGTH in *; lia).
    apply Hpost. intros k. unfold asked_for. by rewrite E4.
  - rewrite (proj2 (Z.ltb_ge _ _)) by (rewrite Hz; unfold NTB_ADDRESS_TAG_SIZE; lia). unfold handle_getpubkey_with_tag.
    rewrite read_bytes_Ok, bind_ret_l by (unfold zlen, NTB_ADDRESS_TAG_SIZE in *; lia). rewrite take_ge by (unfold zlen, NTB_ADDRESS_TAG_SIZE in *; lia).
    apply Hpost. intros k. unfold asked_for. by rewrite E4.
Qed.

(** ** Messages that are saved and restored *)

(** What identifies a message, in the file and in memory. *)
Definition outgoing_identity (o : ntb_store_outgoing) : ntb_address * ntb_address * list Z * Z * Z :=
  (out_from_address o, out_to_address o, out_ackdata o, out_content_id o, out_content_encoding o).
Definition saved_identity (m : ntb_keyring_message) : option (ntb_address * ntb_address * list Z * Z * Z) :=
  ackdata ← ms_ackdata m; Some (key_address (ms_from_key m), ms_to_address m, ackdata, ms_content_id m, ms_content_encoding m).

Lemma saved_identity_same m m' : msg_identity m' = msg_identity m -> saved_identity m' = saved_identity m.
Proof. unfold msg_identity, saved_identity. intros [= -> -> _ -> -> ->]. done. Qed.

Lemma add_outgoing_identity m o : add_outgoing m = Ok o -> saved_identity m = Some (outgoing_identity o).
Proof.
  unfold add_outgoing, saved_identity. destruct (ms_ackdata m) as [ackdata|]; [|done]. cbn [need mbind option_bind result_bind].
  destruct (ms_state m) as [st|]; [|done]. cbn [need mbind result_bind]. destruct st; by intros [= <-].
Qed.

Lemma outgoings_identities kr l outgoings : outgoings_of l kr = Ok outgoings ->
  outgoing_identity <$> outgoings =
  omap (fun i => m ← kr_message kr !! i; if decide (ms_state m = Some NTB_KEYRING_MESSAGE_STATE_GENERATING_ACKDATA) then None else saved_identity m) l.
Proof.
  revert outgoings. induction l as [|i l IH]; intros outgoings; cbn [outgoings_of omap list_omap]; [by intros [= <-]|].
  intros (m & E1 & (st & E2 & E)%bind_Ok)%bind_Ok. unfold the_message in E1. destruct (kr_message kr !! i) as [m'|]; [|done]. injection E1 as ->. cbn [mbind option_bind].
  destruct (ms_state m) as [st'|]; [|done]. injection E2 as ->. destruct (decide (st = _)) as [->|Hne].
  - rewrite decide_True by done. by apply IH.
  - rewrite decide_False by congruence. apply bind_Ok in E as (o & Eo & (os & Eos & [= <-])%bind_Ok). rewrite (add_outgoing_identity _ _ Eo). cbn. f_equal. by apply IH.
Qed.

Lemma address_equal_eq a b : ntb_address_equal a b = true -> a = b.
Proof.
  unfold ntb_address_equal, bytes_eqb. rewrite !andb_true_iff, !Z.eqb_eq, bool_decide_eq_true. destruct a, b. cbn. by intros [[-> ->] ->].
Qed.
Lemma key_for_address_eq private address kr key : key_for_address private address kr = Some key -> key_address key = address.
Proof. intros [_ [_ He]%andb_true_iff]%find_some. by apply address_equal_eq. Qed.

(** A message that is in the file, in memory again. *)
Definition restored (kr : ntb_keyring) (i : nat) (o : ntb_store_outgoing) : Prop :=
  exists m, kr_message kr !! i = Some m /\ saved_identity m = Some (outgoing_identity o).

Lemma restore_one wall o kr key :
  kr_inv None None kr -> clock_ok wall -> outgoing_ok o -> get_private_key_for_address (out_from_address o) kr = Some key ->
  exists i kr', for_each_outgoing_cb wall o kr = Ok kr' /\ kr_inv None None kr' /\ kr_keys kr' = kr_keys kr /\
    kr_messages kr' = kr_messages kr ++ [i] /\ restored kr' i o /\ (forall j, j ∈ kr_messages kr -> kr_message kr' !! j = kr_message kr !! j).
Proof.
  intros Hi Hwall (Ht & Hf & Hfv & Ha) Hk. unfold for_each_outgoing_cb. set (kr0 := if _ <=? _ then _ else kr).
  assert (Hkr0 : exists id, kr0 = kr_set_next_message_content_id id kr)
    by (unfold kr0; destruct (_ <=? _); [by eexists|exists (kr_next_message_content_id kr); by destruct kr]).
  destruct Hkr0 as [id ->]. assert (Hi0 : kr_inv None None (kr_set_next_message_content_id id kr)).
  { pose proof (inv_change_rest None None kr (kr_keys kr) (kr_random kr) (kr_effects kr) id Hi (inv_keys _ _ _ Hi)) as Hn.
    match type of Hn with kr_inv _ _ ?k1 => match goal with |- kr_inv _ _ ?k2 => replace k2 with k1 by (by destruct kr) end end. exact Hn. }
  set (kr1 := kr_set_next_message_content_id id kr) in *. change (get_private_key_for_address (out_from_address o) kr1) with (get_private_key_for_address (out_from_address o) kr).
  rewrite Hk. destruct (create_message_spec None _ _ _ (out_content_encoding o) (out_content_id o) kr1 Hi0 Hk Ht) as
    (m & kr2 & -> & Hi1 & Hm & Es & Eb & Ea & Etr & En & Ek & I1 & I2 & I3 & I4 & Eml & Eo).
  rewrite bind_ret_l. set (i := kr_next kr1) in *. rewrite (update_message_Some i _ m), bind_ret_l by done. rewrite the_message_put, bind_ret_l.
  set (m1 := ms_set_ackdata _ _). destruct (detached_waits _ _ _ _ Hi1 Hm) as [Hs Hw].
  assert (Hi2 : kr_inv (Some i) None (put_message i m1 kr2)).
  { eapply put_detached; [done|done|done| |done]. destruct Hs as (S1 & S2 & S3 & S4). split; [done|]. split; [done|]. split; [done|]. unfold m1. ms_cbn. by intros ? [= <-]. }
  assert (Hm1 : kr_message (put_message i m1 kr2) !! i = Some m1) by (kr_cbn; apply lookup_insert_eq).
  assert (Hid : saved_identity m1 = Some (outgoing_identity o)).
  { unfold saved_identity, m1, outgoing_identity. ms_cbn. rewrite I1, I2, I3, I4. cbn [mbind option_bind]. by rewrite (key_for_address_eq true _ kr key Hk). }
  assert (Hfin : forall kr3, kr_inv None None kr3 -> frame_message i (put_message i m1 kr2) kr3 ->
    kr_keys kr3 = kr_keys kr /\ kr_messages kr3 = kr_messages kr ++ [i] /\ restored kr3 i o /\ (forall j, j ∈ kr_messages kr -> kr_message kr3 !! j = kr_message kr !! j)).
  { intros kr3 _ (_ & K & _ & F2 & _ & F4 & F5 & _). split; [by rewrite K|]. split; [by rewrite F2|]. split.
    - rewrite Hm1 in F5. apply fmap_Some in F5 as (m3 & E3 & F5). exists m3. split; [done|]. by rewrite (saved_identity_same m1 m3).
    - intros j Hj. assert (Hne : j <> i).
      { intros ->. apply (inv_message_list _ _ _ Hi) in Hj. destruct (inv_bounded _ _ _ Hi) as [Bm _]. specialize (Bm i Hj). unfold i, kr1 in Bm. kr_cbn. lia. }
      rewrite F4 by done. kr_cbn. rewrite lookup_insert_ne by done. by rewrite Eo. }
  destruct (ms_to_key m1) as [to_key|] eqn:Ek1.
  - destruct (post_message_spec None i m1 wall _ Hi2 Hm1) as (kr3 & -> & Hi3 & F); [done|by eexists|by eexists|]. exists i, kr3. split; [done|]. split; [done|]. by apply Hfin.
  - destruct (load_public_key_spec None i m1 wall _ Hi2 Hm1) as (kr3 & -> & Hi3 & F); [done|done|by eexists|]. exists i, kr3. split; [done|]. split; [done|]. by apply Hfin.
Qed.

(** The sender of the message is among the keys: it is restored. *)
Definition sender_known (keys : list ntb_key) (o : ntb_store_outgoing) : Prop :=
  is_Some (List.find (fun key => ntb_key_has_private key && ntb_address_equal (key_address key) (out_from_address o)) keys).
#[global] Instance sender_known_dec keys o : Decision (sender_known keys o).
Proof. unfold sender_known. apply _. Defined.

Lemma skip_one wall o kr :
  kr_inv None None kr -> outgoing_ok o -> get_private_key_for_address (out_from_address o) kr = None ->
  exists kr', for_each_outgoing_cb wall o kr = Ok kr' /\ kr_inv None None kr' /\ kr_keys kr' = kr_keys kr /\
    kr_messages kr' = kr_messages kr /\ kr_message kr' = kr_message kr.
Proof.
  intros Hi (Ht & Hf & Hfv & Ha) Hk. unfold for_each_outgoing_cb. set (kr0 := if _ <=? _ then _ else kr).
  assert (Hkr0 : exists id, kr0 = kr_set_next_message_content_id id kr)
    by (unfold kr0; destruct (_ <=? _); [by eexists|exists (kr_next_message_content_id kr); by destruct kr]).
  destruct Hkr0 as [id ->]. assert (Hi0 : kr_inv None None (kr_set_next_message_content_id id kr)).
  { pose proof (inv_change_rest None None kr (kr_keys kr) (kr_random kr) (kr_effects kr) id Hi (inv_keys _ _ _ Hi)) as Hn.
    match type of Hn with kr_inv _ _ ?k1 => match goal with |- kr_inv _ _ ?k2 => replace k2 with k1 by (by destruct kr) end end. exact Hn. }
  change (get_private_key_for_address (out_from_address o) (kr_set_next_message_content_id id kr)) with (get_private_key_for_address (out_from_address o) kr).
  rewrite Hk. destruct (address_roundtrip_core (out_from_address o) Hf Hfv) as (text & -> & _ & Hz).
  rewrite bind_ret_l, (proj2 (Z.ltb_ge _ _)) by done. eexists. split; [reflexivity|]. by split_and!.
Qed.

Lemma restore_all wall keys outgoings : forall kr, kr_inv None None kr -> clock_ok wall -> Forall outgoing_ok outgoings -> kr_keys kr = keys ->
  exists l kr', for_each (for_each_outgoing_cb wall) outgoings kr = Ok kr' /\ kr_inv None None kr' /\ kr_messages kr' = kr_messages kr ++ l /\
    Forall2 (restored kr') l (filter (sender_known keys) outgoings) /\ (forall j, j ∈ kr_messages kr -> kr_message kr' !! j = kr_message kr !! j).
Proof.
  induction outgoings as [|o outgoings IH]; intros kr Hi Hwall Ho Hk; cbn [for_each].
  - exists [], kr. rewrite app_nil_r. split_and!; done || constructor.
  - apply Forall_cons in Ho as [Ho1 Ho2].
    assert (Hg : get_private_key_for_address (out_from_address o) kr =
      List.find (fun key => ntb_key_has_private key && ntb_address_equal (key_address key) (out_from_address o)) keys)
      by (unfold get_private_key_for_address, key_for_address; by rewrite Hk).
    destruct (get_private_key_for_address (out_from_address o) kr) as [key|] eqn:Hk1.
    + destruct (restore_one wall o kr key Hi Hwall Ho1 Hk1) as (i & kr1 & -> & Hi1 & Ek & Em & Hr & Hf). rewrite bind_ret_l.
      destruct (IH kr1 Hi1 Hwall Ho2) as (l & kr2 & -> & Hi2 & Em2 & Hr2 & Hf2); [congruence|].
      exists (i :: l), kr2. split; [done|]. split; [done|]. split; [by rewrite Em2, Em, <- app_assoc|]. split.
      * rewrite filter_cons_True by (unfold sender_known; rewrite <- Hg; by eexists).
        constructor; [|done]. destruct Hr as (m & Hm & Hid). exists m. split; [|done]. rewrite Hf2; [done|]. rewrite Em. apply elem_of_app. right. by left.
      * intros j Hj. rewrite Hf2 by (rewrite Em; apply elem_of_app; by left). by apply Hf.
    + destruct (skip_one wall o kr Hi Ho1 Hk1) as (kr1 & -> & Hi1 & Ek & Em & Eg). rewrite bind_ret_l.
      destruct (IH kr1 Hi1 Hwall Ho2) as (l & kr2 & -> & Hi2 & Em2 & Hr2 & Hf2); [congruence|].
      exists l, kr2. split; [done|]. split; [done|]. split; [by rewrite Em2, Em|]. split.
      * rewrite filter_cons_False; [done|]. unfold sender_known. rewrite <- Hg. by intros [? ?].
      * intros j Hj. rewrite Hf2 by (by rewrite Em). by rewrite Eg.
Qed.

(** The messages of a list that are not waiting for the data of their acknowledgement. *)
Lemma restored_identities kr l outgoings : kr_inv None None kr -> Forall2 (restored kr) l outgoings ->
  omap (fun i => m ← kr_message kr !! i; if decide (ms_state m = Some NTB_KEYRING_MESSAGE_STATE_GENERATING_ACKDATA) then None else saved_identity m) l = outgoing_identity <$> outgoings.
Proof.
  intros Hi. induction 1 as [|i o l outgoings (m & Hm & Hid) _ IH]; [done|]. cbn [omap list_omap fmap list_fmap]. rewrite Hm. cbn [mbind option_bind].
  assert (Hst : ms_state m <> Some NTB_KEYRING_MESSAGE_STATE_GENERATING_ACKDATA).
  { intros Es. destruct (inv_messages _ _ _ Hi i m Hm) as [_ Hw]. rewrite decide_False in Hw by done. unfold msg_state_ok in Hw. rewrite Es in Hw.
    destruct Hw as (_ & _ & _ & Ea). unfold saved_identity in Hid. by rewrite Ea in Hid. }
  rewrite decide_False by done. rewrite Hid. f_equal. exact IH.
Qed.

Lemma restart_spec wall nw keys random pubkey_blobs outgoings :
  clock_ok wall -> network_good nw -> stored_ok keys pubkey_blobs outgoings ->
  exists kr outgoings', keyring_started wall nw keys random pubkey_blobs outgoings = Ok kr /\ keyring_reachable kr /\
    outgoings_of (kr_messages kr) kr = Ok outgoings' /\ outgoing_identity <$> outgoings' = outgoing_identity <$> filter (sender_known keys) outgoings.
Proof.
  intros Hwall Hg Hs. destruct (started_total wall nw keys random pubkey_blobs outgoings Hwall Hg Hs) as (kr & E & [Hi _]).
  pose proof (reachable_start wall nw keys random pubkey_blobs outgoings kr Hwall Hg Hs E) as Hreach.
  destruct (outgoings_spec None (kr_messages kr) kr Hi) as [outgoings' Eo]; [done|]. exists kr, outgoings'. split_and!; [done|done|done|].
  rewrite (outgoings_identities _ _ _ Eo). destruct Hs as [Hkw Hp Ho]. unfold keyring_started, ntb_keyring_load_store in E.
  pose proof (keyring_start_spec nw keys random (network_good_reads nw Hg) Hkw) as Hi0. set (kr0 := ntb_keyring_start _) in *.
  assert (Em0 : kr_messages kr0 = []) by (unfold kr0; by rewrite keyring_new_spec).
  assert (Ek0 : kr_keys kr0 = keys) by (unfold kr0; by rewrite keyring_new_spec).
  destruct (load_pubkeys_spec pubkey_blobs kr0 Hi0 Em0 Hp) as (kr1 & E1 & Hi1 & _ & Em1 & Ek1). rewrite E1, bind_ret_l in E.
  destruct (restore_all wall keys outgoings kr1 Hi1 Hwall Ho) as (l & kr2 & E2 & Hi2 & Em2 & Hr2 & _); [congruence|].
  assert (kr2 = kr) as -> by congruence. rewrite Em2, Em1. cbn [app]. by apply restored_identities.
Qed.

(** The callback on every entry of the file, as [ntb_load_outgoings] makes it. *)
Definition restore_outgoing (wall : Z) (o : ntb_store_outgoing) (kr : result unit ntb_keyring) : result unit ntb_keyring :=
  kr ← kr; for_each_outgoing_cb wall o kr.
Lemma restore_outgoings wall os : forall kr, fold_left (fun u o => restore_outgoing wall o u) os kr = (kr ← kr; for_each (for_each_outgoing_cb wall) os kr).
Proof.
  induction os as [|o os IH]; intros kr; cbn [fold_left for_each]; [by destruct kr|]. rewrite IH. unfold restore_outgoing. by destruct kr.
Qed.

(** ** What the reader gets *)

Lemma create_msg_blob_point en timestamp from to to' content ecc :
  addr_stream (key_address to) = addr_stream (key_address to') -> EC_KEY_get0_public_key (key_encryption_key to) = EC_KEY_get0_public_key (key_encryption_key to') ->
  handle_create_msg_blob en timestamp from to content ecc = handle_create_msg_blob en timestamp from to' content ecc.
Proof. intros Es Ep. unfold handle_create_msg_blob. by rewrite Es, Ep. Qed.

Lemma bytes_signed_text m content ack : message_ok m -> bytes content -> bytes ack -> zlen content < 2 ^ 27 -> zlen ack < 2 ^ 20 ->
  msg_text_ok (message_text m content ack) /\ bytes (signed_text (message_text m content ack)) /\ zlen (signed_text (message_text m content ack)) < 2 ^ 28.
Proof.
  intros Hok Hc Ha Hz Hza. pose proof (zlen_unacked m content ack Hok) as Hu. destruct Hok as ((((Hv & Hv') & (Hst & Hst') & _) & (ds & Hs) & (de & He)) & (_ & _ & Hr & Hrb)).
  destruct (network_key_spec _ _ Hs) as (Hsz & Hsb & _), (network_key_spec _ _ He) as (Hez & Heb & _).
  pose proof (u64_range (ms_content_encoding m)) as Henc. pose proof (u64_range (key_nonce_trials_per_byte (ms_from_key m))) as Hnt.
  pose proof (u64_range (key_payload_length_extra_bytes (ms_from_key m))) as Hpe. pose proof (zlen_enc_var_int (zlen ack)) as Hvz. zlen_pose. unfold is_byte in *.
  split; [|split].
  - unfold msg_text_ok, message_text. cbn [mt_message_version mt_address_version mt_stream mt_behaviors mt_signing_key mt_encryption_key mt_nonce_trials mt_extra_bytes mt_ripe mt_encoding].
    assert (zlen (addr_ripe (ms_to_address m)) = 20) by (unfold zlen; by rewrite Hr). unfold NTB_PROTO_PUBKEY_BEHAVIORS. by split_and!; try lia.
  - unfold signed_text, head_text, difficulty_text, body_text, message_text.
    cbn [mt_message_version mt_address_version mt_stream mt_behaviors mt_signing_key mt_encryption_key mt_nonce_trials mt_extra_bytes mt_ripe mt_encoding mt_message mt_ack
         enc_arguments enc_argument head_args two_ints fst snd]. rewrite !bytes_app. split_and!; try done; try (apply bytes_enc_var_int; lia); try apply bytes_be_split; try done.
    all: try apply bytes_nil. case_match; [|apply bytes_nil]. rewrite !bytes_app. split_and!; try apply bytes_nil; apply bytes_enc_var_int; lia.
  - rewrite signed_text_split. rewrite !zlen_app. cbn [message_text mt_ack]. lia.
Qed.

Lemma content_state kr c timestamp from_key to_key blob i :
  kr_inv None None kr -> kr_crypto kr !! c = Some (CRYPTO_CREATE_MSG_BLOB timestamp from_key to_key blob i) ->
  exists m, kr_message kr !! i = Some m /\ static_ok m /\ ms_state m = Some NTB_KEYRING_MESSAGE_STATE_CREATE_MSG_BLOB /\ ms_from_key m = from_key /\
    ms_to_key m = Some to_key /\ ms_last_msg_send_time m = timestamp /\ acked_blob m blob.
Proof.
  intros Hi Hc. destruct (crypto_message _ _ _ i _ Hi Hc eq_refl) as (m & Hm & Ec & Hs & Hw). state_of Hw. by exists m.
Qed.

(** The request of the signed and encrypted message. *)
Lemma content_request kr c timestamp from_key to_key blob i :
  kr_inv None None kr -> kr_crypto kr !! c = Some (CRYPTO_CREATE_MSG_BLOB timestamp from_key to_key blob i) ->
  exists m content time ackdata nonce, kr_message kr !! i = Some m /\ static_ok m /\ ms_from_key m = from_key /\ ms_to_key m = Some to_key /\ ms_ackdata m = Some ackdata /\
    length ackdata = NTB_PROTO_ACKDATA_SIZE /\ bytes ackdata /\ length nonce = 8%nat /\ bytes nonce /\ bytes content /\ zlen content < 2 ^ 27 /\
    sent_time time /\ sent_time timestamp /\
    blob = DynBlob NTB_PROTO_INV_TYPE_MSG (Some <$> signed_text (message_text m content (frame (str_bytes "msg") (nonce ++ ack_object time m ackdata)))).
Proof.
  intros Hi Hc. destruct (content_state _ _ _ _ _ _ _ Hi Hc) as (m & Hm & Hs & Est & Ef & Et & El & content & time & ackdata & nonce & Ea & [Hn Hnb] & Eb & Hcz & Hcb & Htime & Hlast & Ebl).
  pose proof Hs as (_ & _ & _ & Hack). destruct (Hack ackdata Ea) as [Hla Hlb]. exists m, content, time, ackdata, nonce. split_and!; try done; [unfold zlen in Hn; lia|by rewrite <- El].
Qed.

(** What reaches the reader of a message: the content and the acknowledgement. *)
Definition delivered (content ack : list Z) (encoding : Z) (text : list Z) : Prop :=
  exists msg, ntb_proto_get_decrypted_msg text (zlen text) = Ok msg /\ (exists rest, dm_message msg = content ++ rest) /\ dm_message_length msg = zlen content /\
    (exists rest, dm_ack msg = ack ++ rest) /\ dm_ack_length msg = zlen ack /\ dm_encoding msg = encoding.

Lemma ack_frame_size time m ackdata nonce : message_ok m -> length ackdata = NTB_PROTO_ACKDATA_SIZE -> bytes ackdata -> length nonce = 8%nat -> bytes nonce ->
  let object := nonce ++ ack_object time m ackdata in
  bytes object /\ zlen object < 2 ^ 10 /\ bytes (frame (str_bytes "msg") object) /\ zlen (frame (str_bytes "msg") object) < 2 ^ 20.
Proof.
  intros [[(_ & (Hst & Hst') & _) _] _] Hl Hb Hn Hnb object. pose proof (zlen_enc_var_int (addr_stream (key_address (ms_from_key m)))) as Hvz.
  assert (Hob : bytes object) by (unfold object, ack_object; rewrite !bytes_app; split_and!; [done|apply bytes_be_split|apply bytes_enc_var_int; lia|done]).
  assert (Hoz : zlen object < 2 ^ 10).
  { unfold object, ack_object. rewrite !zlen_app, zlen_be_split. unfold zlen at 1 3. rewrite Hl, Hn. unfold NTB_PROTO_ACKDATA_SIZE. lia. }
  split_and!; [done|done| |].
  - unfold frame. rewrite !bytes_app. split_and!; [apply (bool_decide_unpack _); vm_compute; exact I|apply (bool_decide_unpack _); vm_compute; exact I|apply bytes_be_split|apply bytes_take, SHA512_bytes|done].
  - unfold frame. rewrite !zlen_app, zlen_be_split, zlen_checksum. change (zlen (padded_command _)) with 12. change (zlen ntb_proto_magic) with 4. lia.
Qed.

(** The object of an acknowledgement of a message. *)
Definition acknowledgement (m : ntb_keyring_message) (object : list Z) : Prop :=
  exists nonce time ackdata, object = nonce ++ ack_object time m ackdata /\ ms_ackdata m = Some ackdata /\ length nonce = 8%nat /\ bytes nonce /\ sent_time time.

(** What the object of the message has in front of its encrypted part. *)
Definition object_header (timestamp : Z) (key : ntb_key) : list Z := be_split 8 timestamp ++ enc_var_int (addr_stream (key_address key)).

Context `{!EcdsaLaws}.

Lemma msg_delivered_core kr c timestamp from_key to_key blob i en to ecc :
  kr_inv None None kr -> kr_crypto kr !! c = Some (CRYPTO_CREATE_MSG_BLOB timestamp from_key to_key blob i) ->
  entropy_ok en -> key_wf to -> ntb_key_has_private to = true ->
  addr_stream (key_address to_key) = addr_stream (key_address to) -> EC_KEY_get0_public_key (key_encryption_key to_key) = EC_KEY_get0_public_key (key_encryption_key to) ->
  exists m content object text ecc1 cipher,
    kr_message kr !! i = Some m /\ ms_from_key m = from_key /\ acknowledgement m object /\ blob = DynBlob NTB_PROTO_INV_TYPE_MSG (Some <$> text) /\
    handle_create_msg_blob en timestamp from_key to_key text ecc =
      Ok (ecc1, DynBlob NTB_PROTO_INV_TYPE_MSG (replicate 8 None ++ (Some <$> object_header timestamp to ++ cipher))) /\
    forall nonce keys1 keys2 ecc2, length nonce = 8%nat -> bytes nonce -> Forall (fails_on cipher) keys1 ->
      exists ecc3 text', handle_decrypt_msg (keys1 ++ to :: keys2) (nonce ++ object_header timestamp to ++ cipher) ecc2 =
        Ok (ecc3, Some (to, DynBlob NTB_PROTO_INV_TYPE_MSG (Some <$> text'))) /\
        delivered content (frame (str_bytes "msg") object) (u64 (ms_content_encoding m)) text'.
Proof.
  intros Hi Hc He (_ & Hto & _) Hp Est Epoint. destruct (Hto Hp) as ((_ & Hst & _) & _ & (de & Hde)).
  destruct (content_request _ _ _ _ _ _ _ Hi Hc) as (m & content & time & ackdata & nonce & Hm & Hs & Ef & Et & Ea & Hla & Hlb & Hn & Hnb & Hcb & Hcz & Htime & Hsent & Eb).
  set (object := nonce ++ ack_object time m ackdata) in *. destruct Hs as (Hok & _). destruct (ack_frame_size time m ackdata nonce Hok Hla Hlb Hn Hnb) as (_ & _ & Hfb & Hfz). fold object in Hfb, Hfz.
  destruct (bytes_signed_text m content (frame (str_bytes "msg") object) Hok Hcb Hfb Hcz Hfz) as (Htext & Hbt & Hzt).
  pose proof Hok as ((_ & (ds & Hds) & _) & _). rewrite Ef in Hds.
  destruct (msg_roundtrip_core en timestamp from_key to ds de (message_text m content (frame (str_bytes "msg") object)) ecc He Hsent) as (ecc1 & cipher & sig & Hsig & E1 & E2);
    [unfold is_byte in Hst; lia|done|done|done|done|by rewrite <- Ef|done|done|].
  exists m, content, object, (signed_text (message_text m content (frame (str_bytes "msg") object))), ecc1, cipher. do 2 (split; [done|]).
  split; [by exists nonce, time, ackdata|]. split; [done|]. unfold object_header. rewrite <- !app_assoc.
  split; [by rewrite (create_msg_blob_point _ _ _ _ to)|]. intros nonce' keys1 keys2 ecc2 Hn' Hb' Hk. destruct (E2 nonce' keys1 keys2 ecc2 Hn' Hb' Hk) as (ecc3 & E3).
  eexists ecc3, _. split; [exact E3|]. destruct (decrypted_msg_text (message_text m content (frame (str_bytes "msg") object)) sig Htext) as
    (msg & E4 & _ & _ & _ & _ & _ & _ & E5 & E6 & E7 & E8 & E9 & _); [lia|]. exists msg. by split_and!.
Qed.

(** The acknowledgement in a message is such an object. *)
Lemma acknowledgement_data kr i m object : kr_inv None None kr -> kr_message kr !! i = Some m -> acknowledgement m object ->
  exists nonce time ackdata, object = ackdata_object nonce time (addr_stream (key_address (ms_from_key m))) ackdata /\ ms_ackdata m = Some ackdata /\
    length nonce = 8%nat /\ bytes nonce /\ 0 <= time < 2 ^ 32 /\ 0 <= addr_stream (key_address (ms_from_key m)) < 2 ^ 64 /\ length ackdata = NTB_PROTO_ACKDATA_SIZE.
Proof.
  intros Hi Hm (nonce & time & ackdata & -> & Ea & Hn & Hnb & Ht). unfold sent_time in Ht.
  destruct (inv_messages _ _ _ Hi i m Hm) as [(Hok & _ & _ & Hla) _]. destruct (Hla ackdata Ea) as [Hl1 _]. destruct Hok as [[(_ & (Hst & Hst') & _) _] _].
  exists nonce, time, ackdata. unfold ack_object, ackdata_object. rewrite u64_small by lia. unfold is_byte in *. split_and!; try done; lia.
Qed.

(** The table leads to the first object of each group, and the group follows it in the list. *)
Lemma pubkeys_map_core kr k : kr_inv None None kr ->
  kr_pubkey_blob_table kr !! k = head (pubkeys_for kr k) /\ NoDup (pubkeys_for kr k) /\
  (forall p, p ∈ pubkeys_for kr k <-> p ∈ kr_pubkey_blob_list kr /\ exists b, kr_pubkey_blob kr !! p = Some b /\ pb_ripe_or_tag b = k) /\
  forall q, kr_pubkey_blob_table kr !! k = Some q -> exists rest, list_from q (kr_pubkey_blob_list kr) = pubkeys_for kr k ++ rest /\
    match rest with [] => True | p :: _ => pubkey_tag (kr_pubkey_blob kr) p <> Some k end.
Proof.
  intros Hi. pose proof (inv_pubkeys _ _ _ Hi) as Hp. pose proof (pk_grouped _ _ _ _ Hp) as Hg. destruct (grouped_lookup _ _ _ k Hg) as [E1 E2].
  split; [done|]. split; [|split; [|done]].
  - apply NoDup_filter. by destruct Hg as (gs & -> & _ & ? & _).
  - intros p. unfold pubkeys_for, with_tag. rewrite list_elem_of_filter. unfold pubkey_tag.
    split; [intros [Et Hin]; split; [done|]|intros [Hin (b & Eb & <-)]; by rewrite Eb].
    destruct (kr_pubkey_blob kr !! p) as [b|]; [|done]. exists b. by injection Et as ->.
Qed.
End events.
