(* ===== verification/KeyringTheorems.v ===== *)
(** * KeyringTheorems: the properties of the key ring (for [Keyring])

    What [KeyringSpec] shows of the states that the key ring reaches. *)

From S2P Require Import Prelude Endian Buffer NetAddress OpenSSL Proto ProtoSpec NetText KeyValue Pow Base58 Address Outgoings Ecc Keys HashTable Connection ConnectionSpec StoreFilesSpec Crypto CryptoSpec CryptoQueue Network Handshake NetworkObjects Keyring KeyringMessage KeyringPubkeys KeyringInv KeyringSteps KeyringHandlers KeyringCallbacks KeyringNetwork KeyringCalls KeyringSpec.

Section keyring_theorems.
Context `{DigestLaws} `{BigNumLaws} `{!Elliptic} `{!EllipticLaws} `{SymmetricLaws} `{Digest256} `{!Ecdsa} `{ONW : ObjectNetwork} `{!ObjectNetworkLaws}.

(** C5: in every state that the key ring reaches from its files, whatever objects
    arrive, in whatever order requests are answered, timers run and commands are given,
    every reference between messages, tasks, requests and objects leads to what it is
    for, and every event that [event_ok] admits is handled without reading or writing
    outside of an object or failing an assertion. Within the sizes it states, it leaves
    out three events, of which [decrypt_msg_overflows] and [created_key_called_again]
    show that they are undefined behaviour: a decrypted message that is not refused, a
    public key without a tag, and the callbacks for a new key but the thread's for a
    request that was not cancelled. *)
Theorem keyring_safe kr : keyring_reachable kr ->
  keyring_ok kr /\ forall wall e, event_ok wall e kr -> exists kr', handle_event wall e kr = Ok kr' /\ keyring_reachable kr'.
Proof.
  intros Hr. pose proof (reachable_ok kr Hr) as Hok. split; [done|]. intros wall e He. destruct (event_total wall e kr Hok He) as (kr' & E & _).
  exists kr'. split; [done|]. by eapply reachable_event.
Qed.

(** C30: from every state that is reached, freeing the key ring cancels every request
    of a message or a task and frees every message, task, object and reference to a
    key; only requests for new keys of callers are left, which their cookies own until
    the thread has called back. *)
Theorem keyring_free_releases kr : keyring_reachable kr -> exists kr', ntb_keyring_free kr = Ok kr' /\ released kr'.
Proof. intros [Hi _]%reachable_ok. by apply keyring_free_spec. Qed.

(** A message that waits for the network has no request, and one in any other
    state has exactly one, in all of the requests for cryptography, proofs of work and
    blobs of the store. *)
Theorem keyring_one_request kr i m : keyring_reachable kr -> kr_message kr !! i = Some m ->
  exists st, ms_state m = Some st /\ (awaits_network st -> no_request kr i) /\ (~ awaits_network st -> one_request kr i).
Proof. intros [Hi _]%reachable_ok. by apply message_requests. Qed.

(** C7: an acknowledgement finds its way back. An object with the data of an
    acknowledgement in place of an encrypted message, which the network reports, removes
    the first message that has this data; the others stay, its content is deleted unless
    another message has it, and the file is saved. If no message has the data, the object
    is tried with all keys like any message. What a message carries for its reader to
    send back is such an object, with the data of that message. *)
Theorem keyring_acknowledgement wall kr nonce time stream ackdata :
  keyring_reachable kr -> length nonce = 8%nat -> bytes nonce -> 0 <= time < 2 ^ 32 -> 0 <= stream < 2 ^ 64 -> length ackdata = NTB_PROTO_ACKDATA_SIZE ->
  let object := ackdata_object nonce time stream ackdata in
  (forall l1 i l2, kr_messages kr = l1 ++ i :: l2 -> acknowledges kr ackdata i -> (forall j, j ∈ l1 -> ~ acknowledges kr ackdata j) ->
     exists kr', new_object_cb wall (Blob NTB_PROTO_INV_TYPE_MSG object) kr = Ok kr' /\ kr_inv None None kr' /\ acknowledged i kr kr') /\
  ((forall i, ~ acknowledges kr ackdata i) ->
     exists kr', new_object_cb wall (Blob NTB_PROTO_INV_TYPE_MSG object) kr = Ok kr' /\ kr_inv None None kr' /\ decryption_asked object kr kr') /\
  (forall i m carried, kr_message kr !! i = Some m -> acknowledgement m carried ->
     exists nonce' time' ackdata', carried = ackdata_object nonce' time' (addr_stream (key_address (ms_from_key m))) ackdata' /\
       ms_ackdata m = Some ackdata' /\ length ackdata' = NTB_PROTO_ACKDATA_SIZE).
Proof.
  intros [Hi _]%reachable_ok Hn Hb Ht Hst Ha object. split_and!.
  - intros l1 i l2 Hl Hack Hf. by apply (handle_ack_spec nonce time stream ackdata kr l1 i l2).
  - intros Hno. by apply handle_other_ack_spec.
  - intros i m carried Hm Hc. destruct (acknowledgement_data kr i m carried Hi Hm Hc) as (nonce' & time' & ackdata' & E & Ea & _ & _ & _ & _ & Hl). by exists nonce', time', ackdata'.
Qed.

(** C6: the message that the key ring asks to be signed and encrypted reaches its
    reader: for every such request in a reachable state, the thread makes an object that
    the owner of the recipient's key decrypts, whatever nonce is found for it and
    whatever other keys are tried before, to the content of the message with its
    encoding, followed by an acknowledgement of it. *)
Theorem keyring_msg_delivered `{!EcdsaLaws} kr c timestamp from_key to_key blob i en to ecc :
  keyring_reachable kr -> kr_crypto kr !! c = Some (CRYPTO_CREATE_MSG_BLOB timestamp from_key to_key blob i) ->
  entropy_ok en -> key_wf to -> ntb_key_has_private to = true ->
  addr_stream (key_address to_key) = addr_stream (key_address to) -> EC_KEY_get0_public_key (key_encryption_key to_key) = EC_KEY_get0_public_key (key_encryption_key to) ->
  exists m content object text ecc1 cipher,
    kr_message kr !! i = Some m /\ ms_from_key m = from_key /\ acknowledgement m object /\ blob = DynBlob NTB_PROTO_INV_TYPE_MSG (Some <$> text) /\
    handle_create_msg_blob en timestamp from_key to_key text ecc =
      Ok (ecc1, DynBlob NTB_PROTO_INV_TYPE_MSG (replicate 8 None ++ (Some <$> object_header timestamp to ++ cipher))) /\
    forall nonce keys1 keys2 ecc2, length nonce = 8%nat -> bytes nonce -> Forall (fails_on cipher) keys1 ->
      exists ecc3 text', handle_decrypt_msg (keys1 ++ to :: keys2) (nonce ++ object_header timestamp to ++ cipher) ecc2 =
        Ok (ecc3, Some (to, DynBlob NTB_PROTO_INV_TYPE_MSG (Some <$> text'))) /\
        delivered content (frame (str_bytes "msg") object) (u64 (ms_content_encoding m)) text'.
Proof. intros [Hi _]%reachable_ok. by apply msg_delivered_core. Qed.

(** C23: the list of objects with public keys and the table beside it are a map from
    ripes and tags to sequences of objects: the table leads to the first of a ripe or
    tag, from which the others follow without a gap; a new object becomes the second of
    its sequence, and removing one takes it from its sequence only. *)
Theorem keyring_pubkeys_map kr k : keyring_reachable kr ->
  (kr_pubkey_blob_table kr !! k = head (pubkeys_for kr k) /\ NoDup (pubkeys_for kr k) /\
   (forall p, p ∈ pubkeys_for kr k <-> p ∈ kr_pubkey_blob_list kr /\ exists b, kr_pubkey_blob kr !! p = Some b /\ pb_ripe_or_tag b = k) /\
   forall q, kr_pubkey_blob_table kr !! k = Some q -> exists rest, list_from q (kr_pubkey_blob_list kr) = pubkeys_for kr k ++ rest /\
     match rest with [] => True | p :: _ => pubkey_tag (kr_pubkey_blob kr) p <> Some k end) /\
  (forall p b, kr_pubkey_blob kr !! p = None -> pb_ripe_or_tag b = k ->
     let kr' := insert_pubkey_blob p k (put_pubkey_blob p b kr) in
     pubkeys_for kr' k = insert_second p (pubkeys_for kr k) /\ forall k', k' <> k -> pubkeys_for kr' k' = pubkeys_for kr k') /\
  (forall p, is_Some (kr_pubkey_blob kr !! p) ->
     exists kr', remove_pubkey_blob p kr = Ok kr' /\ pubkeys_for kr' k = filter (.≠ p) (pubkeys_for kr k)).
Proof.
  intros [Hi _]%reachable_ok. split; [by apply pubkeys_map_core|]. split.
  - intros p b Hp <-. by apply pubkeys_for_insert.
  - intros p Hp. destruct (pubkeys_for_remove kr p Hi Hp) as (kr' & E & _ & Ek). by exists kr'.
Qed.

(** C31: a request for a public key of ours is answered: the first private key with
    the ripe or the tag that is asked for, if its version and stream are the ones asked
    for, is posted unless that was less than the life of an object ago: its time is set
    to now with a random offset, the keys are saved and a task asks for the object. *)
Theorem keyring_getpubkey_answered wall nonce time address name n key kr :
  keyring_reachable kr -> length nonce = 8%nat -> bytes nonce -> 0 <= time < 2 ^ 32 -> address_wf address -> 2 <= addr_version address <= 4 ->
  zlen name = (if addr_version address <? 4 then 20 else 32) ->
  kr_keys kr !! n = Some key -> asked_for (addr_version address) name key = true ->
  (forall k, k ∈ take n (kr_keys kr) -> asked_for (addr_version address) name k = false) ->
  addr_version (key_address key) = addr_version address -> addr_stream (key_address key) = addr_stream address ->
  exists kr', new_object_cb wall (Blob NTB_PROTO_INV_TYPE_GETPUBKEY (nonce ++ getpubkey_text time address name)) kr = Ok kr' /\ kr_inv None None kr' /\
    if age_at wall (key_last_pubkey_send_time key) <? ntb_proto_get_max_age_for_type NTB_PROTO_INV_TYPE_PUBKEY then kr' = kr else key_posted wall n key kr kr'.
Proof.
  intros [Hi _]%reachable_ok Hn Hb Ht Ha Hv Hz Hk Hask Hbefore Ev Es. unfold new_object_cb. cbn [blob_type].
  rewrite (getpubkey_answered wall nonce time address name n key kr) by done. by apply maybe_post_key_result.
Qed.

(** C24: restarting loses no message whose sender's key is still there. From the file
    that the store writes for a list of outgoing messages, the key ring that starts
    restores those whose sender's private key is among its keys, and would save them
    again: in the same order, with the same addresses, acknowledgements, contents and
    encodings. The others are dropped. The messages have what the loader can read, that
    is, identifiers of contents up to [INT_MAX] and addresses of a version other than 0. *)
Theorem keyring_restart wall nw keys random pubkey_blobs outgoings garbage :
  clock_ok wall -> network_good nw -> stored_ok keys pubkey_blobs outgoings -> Forall Outgoings.outgoing_ok outgoings -> zlen outgoings <= 2 ^ 22 ->
  exists file kr outgoings', write_outgoings outgoings = Ok file /\
    ntb_load_outgoings (restore_outgoing wall) file garbage
      (for_each for_each_pubkey_blob_cb pubkey_blobs (ntb_keyring_start (ntb_keyring_new nw keys random))) = Ok (Ok kr) /\
    keyring_reachable kr /\ outgoings_of (kr_messages kr) kr = Ok outgoings' /\
    outgoing_identity <$> outgoings' = outgoing_identity <$> filter (sender_known keys) outgoings.
Proof.
  intros Hwall Hg Hs Ho Hz. destruct (restart_spec wall nw keys random pubkey_blobs outgoings Hwall Hg Hs) as (kr & outgoings' & E & Hr & Eo & Ei).
  destruct (outgoings_roundtrip_core (restore_outgoing wall) outgoings garbage
    (for_each for_each_pubkey_blob_cb pubkey_blobs (ntb_keyring_start (ntb_keyring_new nw keys random))) Ho Hz) as (file & Ew & El).
  exists file, kr, outgoings'. split_and!; [done| |done..]. rewrite El, restore_outgoings. f_equal. exact E.
Qed.

(** The callback of a new key is called by the thread, which adds the key and frees the
    cookie, and again by the main loop: the second call reads the freed cookie. This is
    why [event_ok] has the first call only, which may happen in every reachable state
    that has such a request. *)
Theorem created_key_called_again wall kr c params leading_zeroes i k key :
  keyring_reachable kr -> kr_crypto kr !! c = Some (CRYPTO_CREATE_KEY params leading_zeroes i) -> kr_cookie kr !! i = Some k -> key_wf key -> clock_ok wall ->
  exists kr', handle_event wall (EventKeyMade c key) kr = Ok kr' /\ keyring_reachable kr' /\ kr_keys kr' = kr_keys kr ++ [key] /\
    handle_event wall (EventCrypto c (AnswerKey key)) kr' = UB.
Proof.
  intros Hr Hc Hk Hw Hwall. pose proof (reachable_ok kr Hr) as [Hi _]. cbn [handle_event]. rewrite Hc. cbn [need]. rewrite bind_ret_l.
  destruct (create_key_cb_spec _ _ _ _ _ _ _ _ _ Hi Hc Hk Hw) as (kr' & E & Hi' & _ & Ec & Ek). exists kr'. split; [done|]. split; [|split].
  - apply (reachable_event wall (EventKeyMade c key) kr); [done| |cbn [handle_event]; rewrite Hc; cbn [need]; by rewrite bind_ret_l].
    split; [done|]. exists params, leading_zeroes, i. split; [done|]. split; [by eexists|done].
  - revert E. unfold create_key_cb. rewrite Hk. cbn [need]. rewrite bind_ret_l. intros [= <-]. by destruct (kc_func k).
  - rewrite Ec, Hc. cbn [need]. rewrite bind_ret_l. apply create_key_cb_again. by rewrite Ek, lookup_delete_eq.
Qed.

(** Every message of this program's format that is decrypted for its recipient overflows
    an array: the sender's address is computed from its keys (see [Address]). This is
    why [event_ok] has no such event. *)
Theorem decrypt_msg_overflows wall kr c object keys i key text sig :
  keyring_reachable kr -> kr_crypto kr !! c = Some (CRYPTO_DECRYPT_MSG object keys i) ->
  msg_text_ok text -> zlen (signed_text text) + 9 + zlen sig < 2 ^ 31 -> mt_stream text < 256 -> mt_address_version text < 256 ->
  mt_ripe text = addr_ripe (key_address key) ->
  handle_event wall (EventCrypto c (AnswerDecrypt (Some (key, DynBlob NTB_PROTO_INV_TYPE_MSG (Some <$> signed_text text ++ enc_var_int (zlen sig) ++ sig))))) kr = UB.
Proof.
  intros [Hi _]%reachable_ok Hc Htext Hz Hst Hav Hr. unfold handle_event. rewrite Hc. cbn [need]. rewrite bind_ret_l.
  destruct (end_task_spec None c _ i kr Hi Hc eq_refl) as (t & kr1 & Ht & E & _). unfold decrypt_msg_cb. rewrite (the_task_Some i t), bind_ret_l by done. cbn zeta. rewrite E, bind_ret_l.
  unfold blob_bytes. cbn [db_cells]. rewrite all_some_fmap. cbn [need]. rewrite bind_ret_l.
  destruct (decrypted_msg_text text sig Htext Hz) as (msg & E1 & (r1 & E2) & (r2 & E3) & E4 & E5 & _ & (r3 & E6) & _). rewrite E1. cbn [parse]. rewrite bind_ret_l.
  rewrite E4, E5, (proj2 (Z.ltb_ge _ _)), (proj2 (Z.ltb_ge _ _)) by lia. cbn [orb]. destruct Htext as (_ & _ & _ & _ & Hsk & Hek & _ & _ & Hrz & _).
  rewrite read_bytes_Ok, bind_ret_l by (rewrite E6, length_app; unfold zlen, RIPEMD160_DIGEST_LENGTH in *; lia).
  replace (take _ (dm_destination_ripe msg)) with (mt_ripe text) by (rewrite E6; symmetry; apply take_app_length'; unfold zlen, RIPEMD160_DIGEST_LENGTH in *; lia).
  rewrite Hr. unfold bytes_eqb. rewrite bool_decide_eq_true_2 by done. cbn [negb]. rewrite address_from_network_keys_overflows; [done| |].
  - rewrite E2, zlen_app. zlen_pose. lia.
  - rewrite E3, zlen_app. zlen_pose. lia.
Qed.
End keyring_theorems.

(** ** The hypotheses can hold *)

Section keyring_witness.
#[local] Existing Instances Digests_toy DigestLaws_toy BigNum_N BigNumLaws_N Elliptic_toy EllipticLaws_toy Symmetric_toy SymmetricLaws_toy Digest256_toy Ecdsa_toy EcdsaLaws_toy Inet_toy InetLaws_toy.

Definition demo_ring_key (version n : Z) : ntb_key :=
  Key (Address version 1 (replicate 20 n)) (replicate 32 n) (replicate 32 n) [] 1000 1000 0 (demo_crypto_key n) (demo_crypto_key (n + 1)) true false.
(** From the first key to the second, and to an address whose key is not known. *)
Definition demo_keys : list ntb_key := [demo_ring_key 3 5; demo_ring_key 4 7].
Definition demo_outgoing (to : ntb_address) : ntb_store_outgoing := StoreOutgoing (Address 3 1 (replicate 20 5)) to (replicate 32 9) 1 2 0 0.
Definition demo_outgoings : list ntb_store_outgoing := [demo_outgoing (Address 4 1 (replicate 20 7)); demo_outgoing (Address 4 1 (replicate 20 8))].
(** Objects of version 4, two of them with the same tag. *)
Definition demo_pubkey (tag n : Z) : ntb_blob := Blob NTB_PROTO_INV_TYPE_PUBKEY (replicate 8 n ++ be_split 8 1000 ++ [4; 1] ++ replicate 32 tag ++ replicate 20 n).
Definition demo_pubkeys : list ntb_blob := [demo_pubkey 9 1; demo_pubkey 10 2; demo_pubkey 9 3].

Definition demo_start : result unit ntb_keyring := keyring_started 1000000 example_connected demo_keys [] demo_pubkeys demo_outgoings.
(** The first message is loaded, and the nonce of its acknowledgement found. *)
Definition demo_load : keyring_event := EventLoad 4 (Some (Blob NTB_PROTO_INV_TYPE_MSG [104; 105])).
Definition demo_pow : keyring_event := EventPow 7 77.
Definition demo_kr : ntb_keyring := match demo_start with Ok kr => kr | _ => ntb_keyring_new example_connected [] [] end.
Definition demo_loaded : ntb_keyring := match handle_event 1000000 demo_load demo_kr with Ok kr => kr | _ => demo_kr end.
Definition demo_acked : ntb_keyring := match handle_event 1000000 demo_pow demo_loaded with Ok kr => kr | _ => demo_kr end.

Lemma demo_key_wf version n : version = 3 \/ version = 4 -> n = 5 \/ n = 7 -> key_wf (demo_ring_key version n).
Proof.
  assert (Hp : forall n, n = 5 \/ n = 6 \/ n = 7 \/ n = 8 -> key_pair (BN_bin2bn [n]) (demo_crypto_key n)).
  { intros k Hk. split; [|destruct Hk as [->|[->|[->| ->]]]; vm_compute; done]. destruct Hk as [->|[->|[->| ->]]]; reflexivity. }
  intros Hv Hn. unfold key_wf, key_ok. assert (Ha : address_wf (key_address (demo_ring_key version n))).
  { destruct Hv as [->| ->], Hn as [->| ->]; apply (bool_decide_unpack _); vm_compute; exact I. }
  split_and!; try done; [intros _; split; [done|]; split; eexists; apply Hp; lia|..]; cbn; lia.
Qed.
Lemma demo_stored : stored_ok demo_keys demo_pubkeys demo_outgoings.
Proof.
  split; [| |].
  { apply Forall_cons. split; [apply demo_key_wf; tauto|]. apply Forall_cons. split; [apply demo_key_wf; tauto|constructor]. }
  { unfold demo_pubkeys, pubkey_ok. repeat (apply Forall_cons; split); try apply Forall_nil_2; vm_compute; eexists; (split; [reflexivity|]); vm_compute; congruence. }
  assert (Hone : forall n, n = 7 \/ n = 8 -> outgoing_ok (demo_outgoing (Address 4 1 (replicate 20 n)))).
  { intros n Hn. unfold outgoing_ok, destination_ok. split_and!; try done; destruct Hn as [->| ->]; apply (bool_decide_unpack _); vm_compute; exact I. }
  unfold demo_outgoings. apply Forall_cons. split; [apply Hone; tauto|]. apply Forall_cons. split; [apply Hone; tauto|constructor].
Qed.
Lemma demo_reachable : demo_start = Ok demo_kr /\ keyring_reachable demo_kr.
Proof.
  destruct (started_total (ONW := Network_objects) 1000000 example_connected demo_keys [] demo_pubkeys demo_outgoings) as (kr & E & _);
    [unfold clock_ok; lia|exact example_connected_good|exact demo_stored|].
  assert (Ek : demo_kr = kr) by (unfold demo_kr, demo_start; by rewrite E). rewrite Ek. split; [exact E|].
  eapply (reachable_start (ONW := Network_objects)); [|exact example_connected_good|exact demo_stored|exact E]. unfold clock_ok. lia.
Qed.
Lemma demo_step e kr : keyring_reachable kr -> event_ok 1000000 e kr ->
  keyring_reachable (match handle_event 1000000 e kr with Ok kr' => kr' | _ => demo_kr end).
Proof.
  intros Hr He. destruct (event_total _ _ _ (reachable_ok _ Hr) He) as (kr' & E & _). rewrite E. by eapply reachable_event.
Qed.
Lemma demo_load_ok : event_ok 1000000 demo_load demo_kr.
Proof.
  split; [unfold clock_ok; lia|]. split; [apply (bool_decide_unpack _); vm_compute; exact I|].
  intros b [= <-]. split; [vm_compute; reflexivity|apply (bool_decide_unpack _); vm_compute; exact I].
Qed.
Lemma demo_loaded_reachable : keyring_reachable demo_loaded.
Proof. apply demo_step; [apply demo_reachable|exact demo_load_ok]. Qed.
Lemma demo_acked_reachable : keyring_reachable demo_acked.
Proof.
  apply demo_step; [exact demo_loaded_reachable|]. split; [unfold clock_ok; lia|]. unfold demo_pow.
  assert (E : match pt_callback <$> kr_pow demo_loaded !! 7%nat with Some (ACKDATA_POW_CB _) => true | _ => false end = true) by (vm_compute; reflexivity).
  destruct (pt_callback <$> kr_pow demo_loaded !! 7%nat) as [[]|]; try discriminate E. exact I.
Qed.

Definition demo_message : ntb_keyring_message := match kr_message demo_kr !! 3%nat with Some m => m | None => Message None (demo_ring_key 3 5) (Address 4 1 []) [] None 0 0 None None None None None 0 0 0 0 None end.
Definition demo_ack : list Z := replicate 8 1 ++ ack_object 1000 demo_message (replicate 32 9).
Definition demo_request : list Z := replicate 8 1 ++ getpubkey_text 1000 (Address 4 1 (replicate 20 7)) (replicate 32 7).

Lemma demo_message_there : kr_message demo_kr !! 3%nat = Some demo_message.
Proof.
  assert (E : match kr_message demo_kr !! 3%nat with Some _ => true | None => false end = true) by (vm_compute; reflexivity).
  unfold demo_message. destruct (kr_message demo_kr !! 3%nat); [reflexivity|discriminate E].
Qed.

Lemma demo_kr_keys : kr_keys demo_kr = demo_keys.
Proof. vm_cast_no_check (eq_refl demo_keys). Qed.

Lemma keyring_safe_witness : keyring_ok demo_kr /\ exists kr', handle_event 1000000 demo_load demo_kr = Ok kr' /\ keyring_reachable kr'.
Proof.
  destruct (keyring_safe (ONW := Network_objects) demo_kr (proj2 demo_reachable)) as [Hok Hev]. split; [exact Hok|]. apply Hev. exact demo_load_ok.
Defined.

Lemma keyring_free_releases_witness : exists kr', ntb_keyring_free demo_acked = Ok kr' /\ released kr'.
Proof. apply (keyring_free_releases (ONW := Network_objects) demo_acked). exact demo_acked_reachable. Defined.

Lemma keyring_one_request_witness : kr_message demo_kr !! 3%nat = Some demo_message /\ one_request demo_kr 3.
Proof.
  split; [exact demo_message_there|].
  destruct (keyring_one_request (ONW := Network_objects) demo_kr 3 demo_message (proj2 demo_reachable) demo_message_there) as (st & Est & _ & Hone). apply Hone.
  assert (Es : ms_state demo_message = Some NTB_KEYRING_MESSAGE_STATE_LOADING_CONTENT) by (vm_compute; reflexivity).
  rewrite Es in Est. injection Est as <-. intros [Hx|Hx]; discriminate Hx.
Defined.

Lemma all_messages (f : nat * ntb_keyring_message -> bool) (ms : gmap nat ntb_keyring_message) i m :
  forallb f (map_to_list ms) = true -> ms !! i = Some m -> f (i, m) = true.
Proof. rewrite forallb_forall. intros Hall Hm. apply Hall. by apply list_elem_of_In, elem_of_map_to_list. Qed.

Lemma keyring_acknowledgement_witness :
  (exists kr', new_object_cb 1000 (Blob NTB_PROTO_INV_TYPE_MSG (ackdata_object (replicate 8 1) 1000 1 (replicate 32 9))) demo_kr = Ok kr' /\ kr_inv None None kr' /\ acknowledged 3 demo_kr kr') /\
  exists kr', new_object_cb 1000 (Blob NTB_PROTO_INV_TYPE_MSG (ackdata_object (replicate 8 1) 1000 1 (replicate 32 8))) demo_kr = Ok kr' /\ kr_inv None None kr' /\
    decryption_asked (ackdata_object (replicate 8 1) 1000 1 (replicate 32 8)) demo_kr kr'.
Proof.
  assert (Hb : bytes (replicate 8 1)) by (apply (bool_decide_unpack _); vm_compute; exact I).
  destruct (keyring_acknowledgement (ONW := Network_objects) 1000 demo_kr (replicate 8 1) 1000 1 (replicate 32 9) (proj2 demo_reachable) eq_refl Hb) as (Hone & _); [lia|lia|reflexivity|].
  destruct (keyring_acknowledgement (ONW := Network_objects) 1000 demo_kr (replicate 8 1) 1000 1 (replicate 32 8) (proj2 demo_reachable) eq_refl Hb) as (_ & Hnone & _); [lia|lia|reflexivity|].
  split; [apply (Hone [] 3%nat [5%nat])|apply Hnone].
  - vm_compute. reflexivity.
  - exists demo_message. split; [exact demo_message_there|]. split; [vm_compute; discriminate|vm_compute; reflexivity].
  - intros j Hj. apply not_elem_of_nil in Hj. destruct Hj.
  - intros i (m & Hm & _ & Ha).
    assert (Hall : forallb (fun p => bool_decide (ms_ackdata p.2 <> Some (replicate 32 8))) (map_to_list (kr_message demo_kr)) = true) by (vm_compute; reflexivity).
    pose proof (all_messages _ _ i m Hall Hm) as Hne. apply bool_decide_eq_true in Hne. exact (Hne Ha).
Defined.

(** A key is asked for, made and called back for by the thread. *)
Definition demo_create : keyring_event := EventCreateKey (KeyParams NTB_KEY_PARAM_LABEL [104; 105] 4 1 [] [] [] [] 1000 1000 [] 0 false false) 0 None.
Definition demo_created : ntb_keyring := match handle_event 1000000 demo_create demo_kr with Ok kr => kr | _ => demo_kr end.
Lemma created_key_called_again_witness :
  exists c kr', handle_event 1000000 (EventKeyMade c (demo_ring_key 4 7)) demo_created = Ok kr' /\ keyring_reachable kr' /\
    handle_event 1000000 (EventCrypto c (AnswerKey (demo_ring_key 4 7))) kr' = UB.
Proof.
  assert (Hr : keyring_reachable demo_created) by (apply demo_step; [apply demo_reachable|split; [unfold clock_ok; lia|reflexivity]]).
  assert (E : match kr_cookie demo_created !! kr_next demo_kr with
    | Some k => match kr_crypto demo_created !! kc_crypto_cookie k with Some (CRYPTO_CREATE_KEY _ _ i) => bool_decide (i = kr_next demo_kr) | _ => false end | None => false end = true) by (vm_compute; reflexivity).
  destruct (kr_cookie demo_created !! kr_next demo_kr) as [k|] eqn:Ek; [|discriminate E].
  destruct (kr_crypto demo_created !! kc_crypto_cookie k) as [[params z i| | | | | |]|] eqn:Ec; try discriminate E. apply bool_decide_eq_true in E. subst i.
  destruct (created_key_called_again (ONW := Network_objects) 1000000 demo_created (kc_crypto_cookie k) params z (kr_next demo_kr) k (demo_ring_key 4 7) Hr Ec Ek) as (kr' & E1 & E2 & _ & E3).
  - apply demo_key_wf; tauto.
  - unfold clock_ok. lia.
  - exists (kc_crypto_cookie k), kr'. split; [exact E1|]. split; [exact E2|exact E3].
Defined.

Lemma keyring_msg_delivered_witness :
  exists m content object text ecc1 cipher, kr_message demo_acked !! 3%nat = Some m /\ acknowledgement m object /\
    handle_create_msg_blob demo_entropy (ms_last_msg_send_time m) (demo_ring_key 3 5) (demo_ring_key 4 7) text ntb_ecc_new =
      Ok (ecc1, DynBlob NTB_PROTO_INV_TYPE_MSG (replicate 8 None ++ (Some <$> object_header (ms_last_msg_send_time m) (demo_ring_key 4 7) ++ cipher))) /\
    exists ecc3 text', handle_decrypt_msg [demo_ring_key 4 7] (replicate 8 1 ++ object_header (ms_last_msg_send_time m) (demo_ring_key 4 7) ++ cipher) ntb_ecc_new =
      Ok (ecc3, Some (demo_ring_key 4 7, DynBlob NTB_PROTO_INV_TYPE_MSG (Some <$> text'))) /\
      delivered content (frame (str_bytes "msg") object) (u64 (ms_content_encoding m)) text'.
Proof.
  assert (E : match kr_crypto demo_acked !! 8%nat with
    | Some (CRYPTO_CREATE_MSG_BLOB time from to _ 3) => (time =? match kr_message demo_acked !! 3%nat with Some m => ms_last_msg_send_time m | None => 0 end) | _ => false end = true)
    by (vm_compute; reflexivity).
  assert (Ek : match kr_crypto demo_acked !! 8%nat with Some (CRYPTO_CREATE_MSG_BLOB _ from to _ _) => Some (from, to) | _ => None end = Some (demo_ring_key 3 5, demo_ring_key 4 7))
    by (vm_cast_no_check (eq_refl (Some (demo_ring_key 3 5, demo_ring_key 4 7)))).
  destruct (kr_crypto demo_acked !! 8%nat) as [[| | |time from to blob i| | |]|] eqn:Ec; try discriminate E.
  injection Ek as -> ->. destruct i as [|[|[|[|i]]]]; try discriminate E.
  destruct (keyring_msg_delivered (ONW := Network_objects) demo_acked 8 time (demo_ring_key 3 5) (demo_ring_key 4 7) blob 3 demo_entropy (demo_ring_key 4 7) ntb_ecc_new)
    as (m & content & object & text & ecc1 & cipher & Em & _ & Ha & _ & E1 & E2).
  - exact demo_acked_reachable.
  - exact Ec.
  - unfold entropy_ok, private_ok. split_and!; [done|apply (bool_decide_unpack _); vm_compute; exact I|vm_compute; done|vm_compute; done|done|apply (bool_decide_unpack _); vm_compute; exact I].
  - apply demo_key_wf; tauto.
  - reflexivity.
  - reflexivity.
  - reflexivity.
  - rewrite Em in E. apply Z.eqb_eq in E. subst time. exists m, content, object, text, ecc1, cipher. split; [exact Em|]. split; [exact Ha|]. split; [exact E1|].
    apply (E2 (replicate 8 1) [] [] ntb_ecc_new); [reflexivity|apply (bool_decide_unpack _); vm_compute; exact I|constructor].
Defined.

Lemma keyring_pubkeys_map_witness :
  pubkeys_for demo_kr (replicate 32 9) = [0%nat; 2%nat] /\ kr_pubkey_blob_table demo_kr !! replicate 32 9 = Some 0%nat /\
  exists kr', remove_pubkey_blob 0 demo_kr = Ok kr' /\ pubkeys_for kr' (replicate 32 9) = [2%nat].
Proof.
  assert (E : pubkeys_for demo_kr (replicate 32 9) = [0%nat; 2%nat]) by (vm_compute; reflexivity).
  destruct (keyring_pubkeys_map (ONW := Network_objects) demo_kr (replicate 32 9) (proj2 demo_reachable)) as ((Et & _) & _ & Hr). split; [exact E|]. split; [by rewrite Et, E|].
  destruct (Hr 0%nat) as (kr' & E1 & E2); [apply (bool_decide_unpack _); vm_compute; exact I|]. exists kr'. split; [exact E1|]. rewrite E2, E. reflexivity.
Defined.

Lemma keyring_getpubkey_answered_witness :
  exists kr', new_object_cb 3000000 (Blob NTB_PROTO_INV_TYPE_GETPUBKEY demo_request) demo_kr = Ok kr' /\ kr_inv None None kr' /\ key_posted 3000000 1 (demo_ring_key 4 7) demo_kr kr'.
Proof.
  apply (keyring_getpubkey_answered (ONW := Network_objects) 3000000 (replicate 8 1) 1000 (Address 4 1 (replicate 20 7)) (replicate 32 7) 1 (demo_ring_key 4 7) demo_kr).
  - exact (proj2 demo_reachable).
  - reflexivity.
  - apply (bool_decide_unpack _). vm_compute. exact I.
  - lia.
  - apply (bool_decide_unpack _). vm_compute. exact I.
  - cbn. lia.
  - reflexivity.
  - rewrite demo_kr_keys. reflexivity.
  - vm_compute. reflexivity.
  - rewrite demo_kr_keys. change (take 1 demo_keys) with [demo_ring_key 3 5]. intros k ->%list_elem_of_singleton. vm_compute. reflexivity.
  - reflexivity.
  - reflexivity.
Defined.

(** The key of the third message's sender is not there. *)
Definition demo_dropped : ntb_store_outgoing := StoreOutgoing (Address 3 1 (replicate 20 6)) (Address 4 1 (replicate 20 7)) (replicate 32 9) 3 2 0 0.
Lemma keyring_restart_witness :
  exists file kr outgoings', write_outgoings (demo_outgoings ++ [demo_dropped]) = Ok file /\
    ntb_load_outgoings (restore_outgoing 1000000) file demo_dropped
      (for_each for_each_pubkey_blob_cb demo_pubkeys (ntb_keyring_start (ntb_keyring_new example_connected demo_keys []))) = Ok (Ok kr) /\
    outgoings_of (kr_messages kr) kr = Ok outgoings' /\ outgoing_identity <$> outgoings' = outgoing_identity <$> demo_outgoings.
Proof.
  assert (Ef : filter (sender_known demo_keys) (demo_outgoings ++ [demo_dropped]) = demo_outgoings) by (vm_cast_no_check (eq_refl demo_outgoings)).
  destruct (keyring_restart (ONW := Network_objects) 1000000 example_connected demo_keys [] demo_pubkeys (demo_outgoings ++ [demo_dropped]) demo_dropped) as (file & kr & os & E1 & E2 & _ & E3 & E4).
  - unfold clock_ok. lia.
  - exact example_connected_good.
  - destruct demo_stored as [S1 S2 S3]. split; [exact S1|exact S2|]. apply Forall_app. split; [exact S3|]. apply Forall_singleton.
    unfold KeyringCalls.outgoing_ok, destination_ok. split_and!; try done; apply (bool_decide_unpack _); vm_compute; exact I.
  - apply (bool_decide_unpack _). vm_compute. exact I.
  - vm_compute. discriminate.
  - exists file, kr, os. rewrite Ef in E4. split; [exact E1|]. split; [exact E2|]. split; [exact E3|exact E4].
Defined.
End keyring_witness.
