(* ===== verification/IpcProto.v ===== *)
(** * IpcProto: commands of the local socket and its client (ntb-ipc-proto.c, ntb-ipc-client.c, ntb-keygen.c)

    A command has a header of 20 bytes: its name, padded to 12, the request that it
    belongs to and its length. The client sends one command and reads responses until
    the daemon closes the socket; what [read] returns is an argument. *)

From S2P Require Import Prelude Endian Buffer NetAddress OpenSSL Proto ProtoSpec Connection.

Inductive ntb_ipc_proto_status :=
| NTB_IPC_PROTO_STATUS_SUCCESS
| NTB_IPC_PROTO_STATUS_GENERIC_ERROR
| NTB_IPC_PROTO_STATUS_INVALID_COMMAND
| NTB_IPC_PROTO_STATUS_FD_ERROR
| NTB_IPC_PROTO_STATUS_INVALID_EMAIL
| NTB_IPC_PROTO_STATUS_UNKNOWN_FROM_ADDRESS
| NTB_IPC_PROTO_STATUS_UNSUPPORTED.

Definition status_number (status : ntb_ipc_proto_status) : Z :=
  match status with
  | NTB_IPC_PROTO_STATUS_SUCCESS => 0
  | NTB_IPC_PROTO_STATUS_GENERIC_ERROR => 1
  | NTB_IPC_PROTO_STATUS_INVALID_COMMAND => 2
  | NTB_IPC_PROTO_STATUS_FD_ERROR => 3
  | NTB_IPC_PROTO_STATUS_INVALID_EMAIL => 4
  | NTB_IPC_PROTO_STATUS_UNKNOWN_FROM_ADDRESS => 5
  | NTB_IPC_PROTO_STATUS_UNSUPPORTED => 6
  end.

(** ** Building a command *)

(** [for (i = name_length; i < 12; i++)] *)
Fixpoint pad_name (n : nat) (b : ntb_buffer) : result unit ntb_buffer :=
  match n with O => Ok b | S n => b ← ntb_buffer_append_c b 0; pad_name n b end.

Definition ntb_ipc_proto_begin_command (b : ntb_buffer) (name : list Z) (request_id : Z) : result unit ntb_buffer :=
  b ← ntb_buffer_append b name;
  b ← pad_name (12 - length name) b;
  b ← ntb_buffer_append b (native_store host 4 (NTB_UINT32_TO_BE host (u32 request_id)));
  ntb_buffer_set_length b (u64 (buf_length b + 4)).

Definition ntb_ipc_proto_end_command (b : ntb_buffer) (command_start : Z) : result unit ntb_buffer :=
  let command_length := u32 (buf_length b - command_start - 20) in
  buf_write b (command_start + 16) (native_store host 4 (NTB_UINT32_TO_BE host command_length)).

(** ** The client *)

Inductive ntb_ipc_client_error :=
| NTB_IPC_CLIENT_ERROR_COMMAND_FAILED (text : list Z)
| NTB_IPC_CLIENT_ERROR_INVALID_DATA
| NTB_IPC_CLIENT_ERROR_INVALID_RESPONSE
| NTB_IPC_CLIENT_ERROR_NO_RESPONSE
(** an error of the domain [ntb_file_error] *)
| ClientFileError.

Record response_state := ResponseState {
  rs_buf : ntb_buffer;
  rs_response_buf : ntb_buffer;
  rs_error : option ntb_ipc_client_error;
  rs_request_id : Z;
  rs_had_response : bool
}.

Definition rs_set_buf (v : ntb_buffer) (s : response_state) : response_state :=
  ResponseState v (rs_response_buf s) (rs_error s) (rs_request_id s) (rs_had_response s).
Definition rs_set_error (e : ntb_ipc_client_error) (s : response_state) : response_state :=
  ResponseState (rs_buf s) (rs_response_buf s) (Some e) (rs_request_id s) (rs_had_response s).
Definition rs_set_response (b : ntb_buffer) (s : response_state) : response_state :=
  ResponseState (rs_buf s) b (rs_error s) (rs_request_id s) true.

Definition init_response_state (response_buf : ntb_buffer) (request_id : Z) : response_state :=
  ResponseState ntb_buffer_init response_buf None request_id false.

(** [handle_response] of ntb-ipc-client.c. *)
Definition client_handle_response (s : response_state) (data : ptr) (data_length : Z) : result unit (bool * response_state) :=
  if (data_length <? 4) || rs_had_response s then Ok (false, rs_set_error NTB_IPC_CLIENT_ERROR_INVALID_RESPONSE s)
  else
    status ← ntb_proto_get_32 data;
    text ← read_bytes (Z.to_nat (data_length - 4)) (drop 4 data);
    let s := if status =? 0 then s else rs_set_error (NTB_IPC_CLIENT_ERROR_COMMAND_FAILED text) s in
    b ← ntb_buffer_append (rs_response_buf s) text;
    Ok (true, rs_set_response b s).

Section client.
(** What an allocated byte holds that was never written. *)
Context (indet : Z).

(** [while (true)] of [process_commands] of ntb-ipc-client.c: [None] when it returned
    [false], else what is left. The sums with 20 are in [uint32_t]. *)
Fixpoint client_commands_loop (fuel : nat) (s : response_state) (data : ptr) (data_length : Z) : result unit (option (ptr * Z) * response_state) :=
  if data_length <? 20 then Ok (Some (data, data_length), s)
  else
    match fuel with
    | O => OutOfFuel
    | S fuel =>
        command_length ← ntb_proto_get_32 (drop 16 data);
        let size := u32 (command_length + 20) in
        if data_length <? size then Ok (Some (data, data_length), s)
        else
          valid ← ntb_proto_check_command_string data;
          if negb valid then Ok (None, rs_set_error NTB_IPC_CLIENT_ERROR_INVALID_DATA s)
          else
            request_id ← ntb_proto_get_32 (drop 12 data);
            name ← c_string data;
            '(ok, s) ← (if bytes_eqb name (str_bytes "response") && (request_id =? rs_request_id s)
                        then client_handle_response s (drop 20 data) command_length else Ok (true, s));
            if (ok : bool) then client_commands_loop fuel s (drop (Z.to_nat size) data) (data_length - size) else Ok (None, s)
    end.

Definition client_process_commands (s : response_state) : result unit (bool * response_state) :=
  '(rest, s) ← client_commands_loop (Z.to_nat (buf_length (rs_buf s))) s (readable indet (rs_buf s)) (buf_length (rs_buf s));
  match rest with
  | None => Ok (false, s)
  | Some (data, data_length) =>
      l ← read_bytes (Z.to_nat data_length) data;
      b ← buf_write (rs_buf s) 0 l;
      Ok (true, rs_set_buf (Buf (buf_data b) data_length (buf_size b)) s)
  end.

(** [reads] is what the calls of [read] return, up to the one that ends the loop. *)
Fixpoint read_commands_loop (reads : list read_result) (s : response_state) : result unit response_state :=
  match reads with
  | [] => OutOfFuel
  | got :: reads =>
      b ← ntb_buffer_ensure_size (rs_buf s) (u64 (buf_length (rs_buf s) + 512));
      let s := rs_set_buf b s in
      match got with
      | ReadAgain | ReadError => Ok (rs_set_error ClientFileError s)
      | ReadEnd => Ok (if 0 <? buf_length b then rs_set_error ClientFileError s else s)
      | ReadBytes l =>
          b ← buf_write b (buf_length b) l;
          '(ok, s) ← client_process_commands (rs_set_buf (add_length b (zlen l)) s);
          if (ok : bool) then read_commands_loop reads s else Ok s
      end
  end.

Definition read_commands (reads : list read_result) (s : response_state) : result unit response_state :=
  s ← read_commands_loop reads s;
  Ok (match rs_error s with
      | None => if rs_had_response s then s else rs_set_error NTB_IPC_CLIENT_ERROR_NO_RESPONSE s
      | Some _ => s
      end).

Definition ntb_ipc_client_get_response (reads : list read_result) (response_buf : ntb_buffer) (request_id : Z) :
    result unit (option ntb_ipc_client_error * ntb_buffer) :=
  s ← read_commands reads (init_response_state response_buf request_id);
  Ok (rs_error s, rs_response_buf s).
End client.

(** ** notbit-keygen *)

(** The options; the numbers are [int]. *)
Record keygen_options := KeygenOptions {
  option_version : Z;
  option_stream : Z;
  option_zeroes : Z;
  option_nonce_trials_per_byte : Z;
  option_payload_length_extra_bytes : Z;
  option_label : list Z
}.

(** What is sent. *)
Definition send_keygen_command (o : keygen_options) : result unit ntb_buffer :=
  b ← ntb_ipc_proto_begin_command ntb_buffer_init (str_bytes "keygen") 0;
  b ← ntb_proto_add_var_int b (u64 (option_version o));
  b ← ntb_proto_add_var_int b (u64 (option_stream o));
  b ← ntb_proto_add_var_int b (u64 (option_nonce_trials_per_byte o));
  b ← ntb_proto_add_var_int b (u64 (option_payload_length_extra_bytes o));
  b ← ntb_proto_add_8 b (option_zeroes o);
  b ← ntb_proto_add_var_str b (option_label o);
  ntb_ipc_proto_end_command b 0.

(** [handle_response] of ntb-keygen.c; the result is what is printed, [None] when the
    response is invalid. The length is a [uint32_t]. *)
Definition keygen_handle_response (data : ptr) (data_length : Z) : result unit (option (list Z)) :=
  r ← parse (ntb_proto_get_command [NTB_PROTO_ARGUMENT_VAR_INT; NTB_PROTO_ARGUMENT_VAR_INT] data (u32 data_length));
  match r with
  | None => Ok None
  | Some (_, header_size) =>
      if u32 data_length <? header_size + 20 then Ok None
      else
        r ← parse (ntb_proto_get_var_str (advance (data, u32 data_length) (header_size + 20)));
        match r with
        | None => Ok None
        | Some (address_str, _) =>
            address ← read_bytes (Z.to_nat (vs_length address_str)) (vs_data address_str);
            Ok (Some (address ++ [10]))
        end
  end.

(** [ntb_keygen] after the command was sent: [None] is [EXIT_FAILURE]. *)
Definition ntb_keygen (indet : Z) (reads : list read_result) : result unit (option (list Z)) :=
  '(error, response_buf) ← ntb_ipc_client_get_response indet reads ntb_buffer_init 0;
  match error with
  | Some _ => Ok None
  | None => keygen_handle_response (readable indet response_buf) (buf_length response_buf)
  end.
