(* ===== verification/IpcProtoSpec.v ===== *)
(** * IpcProtoSpec: what the commands of the local socket are (for [IpcProto])

    A command on the wire, what the two functions that build it append, and what the
    client makes of the commands that it reads in pieces of any size. *)

From S2P Require Import Prelude Endian Buffer NetAddress OpenSSL Proto ProtoSpec NetText KeyValue Connection ConnectionSpec IpcProto.

(** ** Commands on the wire *)

Definition ipc_frame (name : list Z) (request_id : Z) (payload : list Z) : list Z :=
  padded_command name ++ be_split 4 request_id ++ be_split 4 (zlen payload) ++ payload.

Lemma zlen_ipc_frame name request_id payload : zlen name <= 12 -> zlen (ipc_frame name request_id payload) = 20 + zlen payload.
Proof. intros. unfold ipc_frame. rewrite !zlen_app, zlen_padded_command, !zlen_be_split by done. lia. Qed.

(** What [ntb_ipc_proto_begin_command] appends, with the cells of the length. *)
Definition open_command (name : list Z) (request_id : Z) (junk : list (option Z)) : list (option Z) :=
  (Some <$> (padded_command name ++ be_split 4 request_id)) ++ junk.

Lemma appends_pad_name n : forall b, fits b (Z.of_nat n) -> appends b (pad_name n b) (replicate n 0).
Proof.
  induction n as [|n IH]; intros b [Hwf Hf]; cbn [pad_name replicate].
  - exists b. split_and!; [done|done|rewrite zlen_nil; lia|by rewrite app_nil_r].
  - destruct (append_c_spec (E := unit) b 0) as (b1 & -> & W1 & L1 & C1); [done|lia|done|]. rewrite bind_ret_l.
    destruct (IH b1) as (b2 & -> & W2 & L2 & C2); [split; [done|lia]|]. exists b2. rewrite zlen_cons.
    split_and!; [done|done|lia|]. by rewrite C2, C1, <- app_assoc.
Qed.

Lemma ipc_begin_command_spec b name request_id : fits b 20 -> zlen name <= 12 -> 0 <= request_id < 2 ^ 32 ->
  exists b' junk, ntb_ipc_proto_begin_command b name request_id = Ok b' /\ grows b b' (open_command name request_id junk) /\ zlen junk = 4.
Proof.
  intros [Hwf Hf] Hn Hid. unfold ntb_ipc_proto_begin_command. zlen_pose.
  destruct (grow_step b (fun b => ntb_buffer_append b name) name 20) as (b1 & -> & G1 & W1 & L1);
    [intros [? ?]; apply appends_append; split; [done|lia]|done|done|]. rewrite bind_ret_l.
  assert (Hp : zlen (replicate (12 - length name) 0) = 12 - zlen name) by (unfold zlen in *; rewrite length_replicate; lia).
  destruct (appends_grows b1 _ _ (appends_pad_name (12 - length name) b1 ltac:(split; [done|unfold zlen in *; lia]))) as (b2 & -> & G2). rewrite bind_ret_l.
  pose proof G2 as (W2 & L2 & _). rewrite zlen_fmap, Hp in L2. rewrite u32_small, uint32_store_to_be by lia.
  destruct (appends_grows b2 _ _ (appends_append b2 (be_split 4 request_id) ltac:(split; [done|rewrite zlen_be_split; lia]))) as (b3 & -> & G3). rewrite bind_ret_l.
  pose proof G3 as (W3 & L3 & _). rewrite zlen_fmap, zlen_be_split in L3.
  destruct (room_spec b3 4) as (b4 & junk & E4 & G4 & Hj); [split; [done|lia]|lia|]. exists b4, junk. split; [exact E4|]. split; [|done].
  pose proof (grows_trans _ _ _ _ _ G1 (grows_trans _ _ _ _ _ G2 (grows_trans _ _ _ _ _ G3 G4))) as G.
  unfold open_command, padded_command. rewrite !fmap_app, <- !app_assoc.
  replace (Z.to_nat (12 - zlen name)) with (12 - length name)%nat by (unfold zlen in *; lia). exact G.
Qed.

Lemma ipc_end_command_spec b b' name request_id junk payload :
  buf_wf b -> zlen name <= 12 -> zlen junk = 4 -> grows b b' (open_command name request_id junk ++ (Some <$> payload)) -> zlen payload < 2 ^ 32 ->
  exists b'', ntb_ipc_proto_end_command b' (buf_length b) = Ok b'' /\ extends b b'' (ipc_frame name request_id payload).
Proof.
  intros Hwf Hn Hj (W & L & C) Hp. unfold ntb_ipc_proto_end_command. zlen_pose. pose proof (zlen_padded_command name Hn) as Hpn.
  assert (Hlen : buf_length b' = buf_length b + 20 + zlen payload).
  { rewrite L. unfold open_command. rewrite !zlen_app, !zlen_fmap, zlen_app, Hpn, zlen_be_split. lia. }
  rewrite Hlen. replace (buf_length b + 20 + zlen payload - buf_length b - 20) with (zlen payload) by lia.
  rewrite u32_small, uint32_store_to_be by lia.
  destruct (buf_write_cells b' (cells b ++ (Some <$> (padded_command name ++ be_split 4 request_id))) junk (Some <$> payload) (be_split 4 (zlen payload)) (buf_length b + 16))
    as (b2 & -> & W2 & L2 & C2); [done|by rewrite C; unfold open_command; rewrite <- !app_assoc| |by rewrite zlen_be_split|].
  { rewrite zlen_app, zlen_cells, zlen_fmap, zlen_app, Hpn, zlen_be_split by done. lia. }
  exists b2. split; [done|]. split_and!; [done|rewrite L2, zlen_ipc_frame by done; lia|].
  rewrite C2. unfold ipc_frame. rewrite !fmap_app. by rewrite <- !app_assoc.
Qed.

(** A whole command. *)
Lemma ipc_command_spec b name request_id f payload : fits b (zlen payload + 64) -> zlen name <= 12 -> 0 <= request_id < 2 ^ 32 -> zlen payload < 2 ^ 32 ->
  (forall b, fits b (zlen payload + 32) -> appends b (f b) payload) ->
  exists b', (b1 ← ntb_ipc_proto_begin_command b name request_id; b2 ← f b1; ntb_ipc_proto_end_command b2 (buf_length b)) = Ok b' /\
    extends b b' (ipc_frame name request_id payload).
Proof.
  intros [Hwf Hf] Hn Hid Hp Hw. zlen_pose. destruct (ipc_begin_command_spec b name request_id) as (b1 & junk & -> & G1 & Hj); [split; [done|lia]|done|done|]. rewrite bind_ret_l.
  pose proof G1 as (W1 & L1 & _). unfold open_command in L1. rewrite zlen_app, zlen_fmap, zlen_app, zlen_padded_command, zlen_be_split in L1 by done.
  destruct (appends_grows b1 _ _ (Hw b1 ltac:(split; [done|lia]))) as (b2 & -> & G2). rewrite bind_ret_l.
  apply (ipc_end_command_spec b b2 name request_id junk payload); [done|done|done|by eapply grows_trans|done].
Qed.

(** ** Reading commands *)

Definition ipc_command : Type := list Z * Z * list Z.

Definition ipc_command_ok (c : ipc_command) : Prop :=
  name_ok c.1.1 /\ 0 <= c.1.2 < 2 ^ 32 /\ bytes c.2 /\ zlen c.2 + 20 < 2 ^ 32.
#[global] Instance ipc_command_ok_dec c : Decision (ipc_command_ok c).
Proof. unfold ipc_command_ok, name_ok. apply _. Defined.

Definition ipc_bytes (c : ipc_command) : list Z := ipc_frame c.1.1 c.1.2 c.2.
Definition ipc_stream (cs : list ipc_command) : list Z := concat (ipc_bytes <$> cs).

Lemma bytes_padded_command name : bytes name -> bytes (padded_command name).
Proof. intros Hb. apply bytes_app. split; [done|]. by apply Forall_replicate. Qed.

(** The parts of a command behind its first bytes. *)
Lemma ipc_frame_parts name request_id payload q : zlen name <= 12 -> 0 <= request_id < 2 ^ 32 -> zlen payload < 2 ^ 32 ->
  ntb_proto_get_32 (drop 12 (ipc_frame name request_id payload ++ q)) = Ok request_id /\
  ntb_proto_get_32 (drop 16 (ipc_frame name request_id payload ++ q)) = Ok (zlen payload) /\
  drop 20 (ipc_frame name request_id payload ++ q) = payload ++ q.
Proof.
  intros Hn Hid Hp. pose proof (zlen_padded_command name Hn) as Hpn. unfold zlen in Hpn. pose proof (zlen_nonneg payload) as Hpos.
  pose proof (length_be_split 4 request_id) as Hl1. pose proof (length_be_split 4 (zlen payload)) as Hl2. unfold ipc_frame. rewrite <- !app_assoc.
  assert (E12 : drop 12 (padded_command name ++ be_split 4 request_id ++ be_split 4 (zlen payload) ++ payload ++ q) = be_split 4 request_id ++ be_split 4 (zlen payload) ++ payload ++ q)
    by (apply drop_app_length'; lia).
  assert (E16 : drop 16 (padded_command name ++ be_split 4 request_id ++ be_split 4 (zlen payload) ++ payload ++ q) = be_split 4 (zlen payload) ++ payload ++ q)
    by (change 16%nat with (12 + 4)%nat; rewrite <- drop_drop, E12; apply drop_app_length'; lia).
  split_and!.
  - rewrite E12. by apply get_32_split.
  - rewrite E16. by apply get_32_split.
  - change 20%nat with (16 + 4)%nat. rewrite <- drop_drop, E16. apply drop_app_length'. lia.
Qed.

Lemma ipc_frame_name name request_id payload q : name_ok name ->
  ntb_proto_check_command_string (ipc_frame name request_id payload ++ q) = Ok true /\ c_string (ipc_frame name request_id payload ++ q) = Ok name.
Proof.
  intros Hn. unfold ipc_frame. rewrite <- !app_assoc. split; [by apply check_padded_command|]. destruct Hn as [Hl Hz].
  rewrite padded_command_zeros, <- app_assoc by done. by apply c_string_name.
Qed.

(** The name of a command whose field was checked. *)
Lemma memchr_c_string n : forall p e, memchr_off 0 n p = Ok (Some e) -> exists name, c_string p = Ok name /\ zlen name < Z.of_nat n.
Proof.
  induction n as [|n IH]; intros p e; [done|]. cbn [memchr_off]. destruct p as [|b p]; [done|]. cbn [deref c_string]. rewrite bind_ret_l.
  destruct (b =? 0); [intros _; exists []; split; [done|rewrite zlen_nil; lia]|]. intros (r & E & [= Er])%bind_Ok. destruct r as [e'|]; [|done].
  destruct (IH _ _ E) as (name & En & Hl). change (drop 1 (b :: p)) with (drop 0 p) in En. rewrite drop_0 in En. rewrite En, bind_ret_l.
  exists (b :: name). split; [done|rewrite zlen_cons; lia].
Qed.

Lemma check_command_name p : (12 <= length p)%nat ->
  exists ok, ntb_proto_check_command_string p = Ok ok /\ (ok = true -> exists name, c_string p = Ok name /\ zlen name < 12).
Proof.
  intros Hp. unfold ntb_proto_check_command_string. destruct (memchr_off_total 12 p Hp) as (r & E & Hr). rewrite E, bind_ret_l. destruct r as [e|]; [|by exists false].
  rewrite read_bytes_Ok by (rewrite length_drop; lia). rewrite bind_ret_l. eexists. split; [done|]. intros _. by apply (memchr_c_string 12 p e).
Qed.

(** A prefix of a stream holds a whole command, or less than it. *)
Lemma stream_prefix l future c cs : l ++ future = ipc_stream (c :: cs) -> zlen (ipc_bytes c) <= zlen l ->
  exists l', l = ipc_bytes c ++ l' /\ l' ++ future = ipc_stream cs.
Proof.
  intros E Hl. change (ipc_stream (c :: cs)) with (ipc_bytes c ++ ipc_stream cs) in E. unfold zlen in Hl.
  exists (drop (length (ipc_bytes c)) l). assert (Ht : take (length (ipc_bytes c)) l = ipc_bytes c).
  { apply (f_equal (take (length (ipc_bytes c)))) in E. rewrite take_app_length, take_app_le in E by lia. done. }
  split; [by rewrite <- Ht at 1; rewrite take_drop|]. apply (f_equal (drop (length (ipc_bytes c)))) in E.
  by rewrite drop_app_length, drop_app_le in E by lia.
Qed.
Lemma stream_header l future c cs q : l ++ future = ipc_stream (c :: cs) -> 20 <= zlen l -> ipc_command_ok c ->
  ntb_proto_get_32 (drop 16 (l ++ q)) = Ok (zlen c.2).
Proof.
  intros E Hl ((Hn & _) & Hid & _ & Hp). unfold zlen in Hl. change (ipc_stream (c :: cs)) with (ipc_bytes c ++ ipc_stream cs) in E.
  destruct (ipc_frame_parts c.1.1 c.1.2 c.2 (ipc_stream cs) ltac:(lia) Hid ltac:(lia)) as (_ & E16 & _).
  change (ipc_frame c.1.1 c.1.2 c.2) with (ipc_bytes c) in E16. rewrite <- E, drop_app_le in E16 by lia.
  rewrite drop_app_le by lia. revert E16. unfold ntb_proto_get_32. rewrite !(read_bytes_Ok 4) by (rewrite length_app, length_drop; lia).
  by rewrite !take_app_le by (rewrite length_drop; lia).
Qed.

(** ** What the client reads *)

Definition is_response (request_id : Z) (c : ipc_command) : bool := bytes_eqb c.1.1 (str_bytes "response") && (c.1.2 =? request_id).

(** The response is that of the request. [had] says that it was seen, [error] and
    [text] are the outcome so far. *)
Fixpoint client_spec (request_id : Z) (had : bool) (error : option ntb_ipc_client_error) (text : list Z) (cs : list ipc_command) :
    option ntb_ipc_client_error * list Z :=
  match cs with
  | [] => (match error with None => if had then None else Some NTB_IPC_CLIENT_ERROR_NO_RESPONSE | Some _ => error end, text)
  | c :: cs =>
      if is_response request_id c then
        if (zlen c.2 <? 4) || had then (Some NTB_IPC_CLIENT_ERROR_INVALID_RESPONSE, text)
        else client_spec request_id true (if be_combine (take 4 c.2) =? 0 then error else Some (NTB_IPC_CLIENT_ERROR_COMMAND_FAILED (drop 4 c.2))) (text ++ drop 4 c.2) cs
      else client_spec request_id had error text cs
  end.

Section client_spec.
Context (indet : Z).

(** The outcome of the state when it has the commands [cs] ahead. *)
Definition outcome (s : response_state) (text : list Z) (cs : list ipc_command) : option ntb_ipc_client_error * list Z :=
  client_spec (rs_request_id s) (rs_had_response s) (rs_error s) text cs.

Definition stops_with (s : response_state) (final : option ntb_ipc_client_error * list Z) : Prop :=
  rs_error s = final.1 /\ rs_error s <> None /\ repr (rs_response_buf s) final.2.

Lemma client_response_spec s text c q : ipc_command_ok c -> repr (rs_response_buf s) text -> zlen text + zlen c.2 < 2 ^ 60 ->
  exists ok s', client_handle_response s (c.2 ++ q) (zlen c.2) = Ok (ok, s') /\
    (if ok then exists text', repr (rs_response_buf s') text' /\ text' = text ++ drop 4 c.2 /\ rs_buf s' = rs_buf s /\ rs_request_id s' = rs_request_id s /\ rs_had_response s' = true /\
       (zlen c.2 <? 4) || rs_had_response s = false /\
       rs_error s' = (if be_combine (take 4 c.2) =? 0 then rs_error s else Some (NTB_IPC_CLIENT_ERROR_COMMAND_FAILED (drop 4 c.2)))
     else (zlen c.2 <? 4) || rs_had_response s = true /\ rs_error s' = Some NTB_IPC_CLIENT_ERROR_INVALID_RESPONSE /\ rs_response_buf s' = rs_response_buf s).
Proof.
  intros (_ & _ & Hb & Hp) Hr Ht. unfold client_handle_response. destruct ((zlen c.2 <? 4) || rs_had_response s) eqn:E; [by eexists false, _|].
  apply orb_false_elim in E as [E _]. apply Z.ltb_ge in E. exists true.
  replace (c.2 ++ q) with (take 4 c.2 ++ drop 4 c.2 ++ q) by (by rewrite app_assoc, take_drop). rewrite get_32_spec, bind_ret_l; [|unfold zlen in E; rewrite length_take; lia|by apply bytes_take].
  rewrite (drop_app_length' (take 4 c.2)) by (unfold zlen in E; rewrite length_take; lia). rewrite read_bytes_app, bind_ret_l by (unfold zlen in *; rewrite length_drop; lia).
  set (s1 := if be_combine (take 4 c.2) =? 0 then s else _). assert (Hb1 : rs_response_buf s1 = rs_response_buf s) by (unfold s1; by destruct (_ =? 0)).
  rewrite Hb1. zlen_pose. destruct (repr_append (rs_response_buf s) text (drop 4 c.2) Hr) as (b & -> & Hr'); [rewrite zlen_drop; lia|]. rewrite bind_ret_l.
  eexists. split; [reflexivity|]. eexists. split; [exact Hr'|]. unfold s1. by destruct (_ =? 0).
Qed.

Definition waits_for (s : response_state) (text : list Z) (cs : list ipc_command) (l future : list Z) : Prop :=
  Forall ipc_command_ok cs /\ repr (rs_response_buf s) text /\ zlen text + zlen (ipc_stream cs) < 2 ^ 60 /\ l ++ future = ipc_stream cs.

Lemma zlen_ipc_stream_cons c cs : ipc_command_ok c -> zlen (ipc_stream (c :: cs)) = 20 + zlen c.2 + zlen (ipc_stream cs).
Proof. intros ((Hn & _) & _). change (ipc_stream (c :: cs)) with (ipc_bytes c ++ ipc_stream cs). rewrite zlen_app. unfold ipc_bytes. rewrite zlen_ipc_frame; lia. Qed.

Lemma waits_room s text cs l future : waits_for s text cs l future -> zlen l < 2 ^ 60.
Proof. intros (_ & _ & Hz & El). rewrite <- El, zlen_app in Hz. pose proof (zlen_nonneg future). pose proof (zlen_nonneg text). lia. Qed.

(** Less than the next command has arrived. *)
Definition starved (cs : list ipc_command) (l : list Z) : Prop := match cs with [] => l = [] | c :: _ => zlen l < zlen (ipc_bytes c) end.

Lemma client_loop_spec fuel : forall s text cs l future q, waits_for s text cs l future -> zlen l <= Z.of_nat fuel ->
  exists rest s', client_commands_loop fuel s (l ++ q) (zlen l) = Ok (rest, s') /\
    match rest with
    | None => stops_with s' (outcome s text cs)
    | Some (p, n) => exists l' text' cs', p = l' ++ q /\ n = zlen l' /\ waits_for s' text' cs' l' future /\ starved cs' l' /\
        outcome s' text' cs' = outcome s text cs /\ rs_buf s' = rs_buf s /\ zlen l' <= zlen l
    end.
Proof.
  induction fuel as [|fuel IH]; intros s text cs l future q Hw Hf; pose proof Hw as (Hok & Hr & Hz & El); cbn [client_commands_loop].
  all: destruct (Z.ltb_spec (zlen l) 20) as [Hs|Hl]; [|try (unfold zlen in *; lia)].
  1,2: exists (Some (l ++ q, zlen l)), s; split; [done|]; exists l, text, cs; split_and!; try done;
    destruct cs as [|c cs]; cbn; [by apply app_nil in El as [-> _]|]; apply Forall_cons in Hok as [((? & _) & _) _]; unfold ipc_bytes; rewrite zlen_ipc_frame by lia; pose proof (zlen_nonneg c.2); lia.
  destruct cs as [|c cs]; [apply app_nil in El as [-> _]; done|]. apply Forall_cons in Hok as [Hc Hok]. pose proof Hc as ((Hn & Hnz) & Hid & Hb & Hp).
  rewrite (stream_header l future c cs q El Hl Hc), bind_ret_l. cbn zeta. pose proof (zlen_nonneg c.2). rewrite u32_small by lia.
  assert (Hfr : zlen (ipc_bytes c) = 20 + zlen c.2) by (unfold ipc_bytes; apply zlen_ipc_frame; lia).
  destruct (Z.ltb_spec (zlen l) (zlen c.2 + 20)) as [Hs|Hl2].
  { exists (Some (l ++ q, zlen l)), s. split; [done|]. exists l, text, (c :: cs). split_and!; try done. cbn. lia. }
  destruct (stream_prefix l future c cs El ltac:(lia)) as (l' & -> & El'). rewrite <- app_assoc.
  destruct (ipc_frame_name c.1.1 c.1.2 c.2 (l' ++ q) ltac:(done)) as [Echeck Ename].
  destruct (ipc_frame_parts c.1.1 c.1.2 c.2 (l' ++ q) ltac:(lia) Hid ltac:(lia)) as (E12 & _ & E20).
  change (ipc_frame c.1.1 c.1.2 c.2) with (ipc_bytes c) in *. rewrite Echeck, bind_ret_l. cbn [negb]. rewrite E12, bind_ret_l, Ename, bind_ret_l.
  fold (is_response (rs_request_id s) c).
  replace (drop (Z.to_nat (zlen c.2 + 20)) (ipc_bytes c ++ l' ++ q)) with (l' ++ q) by (symmetry; apply drop_app_length'; unfold zlen in Hfr |- *; lia).
  rewrite zlen_app. replace (zlen (ipc_bytes c) + zlen l' - (zlen c.2 + 20)) with (zlen l') by lia. rewrite zlen_app in Hf. rewrite zlen_ipc_stream_cons in Hz by done.
  pose proof (zlen_nonneg text). pose proof (zlen_nonneg (ipc_stream cs)).
  assert (Hnext : forall s' text', repr (rs_response_buf s') text' -> zlen text' <= zlen text + zlen c.2 -> rs_buf s' = rs_buf s -> outcome s' text' cs = outcome s text (c :: cs) ->
    exists rest s2, client_commands_loop fuel s' (l' ++ q) (zlen l') = Ok (rest, s2) /\
    match rest with
    | None => stops_with s2 (outcome s text (c :: cs))
    | Some (p, n) => exists l2 text2 cs2, p = l2 ++ q /\ n = zlen l2 /\ waits_for s2 text2 cs2 l2 future /\ starved cs2 l2 /\
        outcome s2 text2 cs2 = outcome s text (c :: cs) /\ rs_buf s2 = rs_buf s /\ zlen l2 <= zlen (ipc_bytes c) + zlen l'
    end).
  { intros s' text' Hr' Ht' Hb' <-. destruct (IH s' text' cs l' future q) as (rest & s2 & E & Hrest); [split_and!; [done|done|lia|done]|lia|].
    exists rest, s2. split; [done|]. destruct rest as [[p n]|]; [|done]. destruct Hrest as (l2 & text2 & cs2 & R1 & R2 & R3 & R4 & R5 & R6 & R7).
    exists l2, text2, cs2. split_and!; try done; [congruence|lia]. }
  unfold outcome in Hnext. cbn [client_spec] in Hnext. unfold outcome. cbn [client_spec]. destruct (is_response (rs_request_id s) c).
  - rewrite E20. destruct (client_response_spec s text c (l' ++ q) Hc Hr ltac:(lia)) as (ok & s' & -> & Hs'). rewrite bind_ret_l. destruct ok.
    + destruct Hs' as (text' & Hr' & -> & Hb' & Hi' & Hh' & Hgood & He'). rewrite Hgood in *. apply (Hnext s' (text ++ drop 4 c.2)); [done|rewrite zlen_app, zlen_drop; lia|done|].
      by rewrite Hi', Hh', He'.
    + destruct Hs' as (Hbad & He' & Hb'). rewrite Hbad. exists None, s'. split; [done|]. split_and!; [done|by rewrite He'|by rewrite Hb'].
  - rewrite bind_ret_l. by apply (Hnext s text); [|lia|..].
Qed.

Lemma readable_repr b l : repr b l -> exists q, readable indet b = l ++ q.
Proof.
  intros Hr. destruct (repr_data b l Hr) as [r E]. exists (default indet <$> r). unfold readable. rewrite E, fmap_app. f_equal.
  rewrite <- list_fmap_compose. apply list_fmap_id.
Qed.

(** Moving what is left to the front. *)
Lemma shift_front b l l' : repr b l -> zlen l' <= zlen l ->
  exists b', buf_write (E := unit) b 0 l' = Ok b' /\ buf_length b' = buf_length b /\ repr (Buf (buf_data b') (zlen l') (buf_size b')) l'.
Proof.
  intros [Hwf Hc] Hl. pose proof (zlen_nonneg l').
  destruct (buf_write_cells b [] (Some <$> take (length l') l) (Some <$> drop (length l') l) l' 0) as (b' & E & W & L & C);
    [done|by rewrite Hc, <- fmap_app, take_drop|done|unfold zlen in *; rewrite length_fmap, length_take; lia|].
  exists b'. split; [exact E|]. split; [exact L|]. cbn [app] in C. assert (Hlen : buf_length b' = zlen l) by (rewrite L; apply repr_length; by split).
  destruct W as (W1 & W2 & W3). split; [split_and!; cbn; lia|]. unfold cells in *. cbn [buf_data buf_length].
  apply (f_equal (take (length l'))) in C. rewrite take_take, take_app_length' in C by (by rewrite length_fmap). rewrite <- C. f_equal. unfold zlen in *. lia.
Qed.

Lemma client_process_spec s text cs l future : waits_for s text cs l future -> repr (rs_buf s) l ->
  exists ok s', client_process_commands indet s = Ok (ok, s') /\
    if ok then exists l' text' cs', repr (rs_buf s') l' /\ waits_for s' text' cs' l' future /\ starved cs' l' /\ outcome s' text' cs' = outcome s text cs
    else stops_with s' (outcome s text cs).
Proof.
  intros Hw Hr. unfold client_process_commands. destruct (readable_repr _ _ Hr) as [q ->]. rewrite (repr_length _ _ Hr).
  destruct (client_loop_spec (Z.to_nat (zlen l)) s text cs l future q Hw ltac:(unfold zlen; lia)) as (rest & s' & -> & Hs'). rewrite bind_ret_l.
  destruct rest as [[p n]|]; [|by exists false, s']. destruct Hs' as (l' & text' & cs' & -> & -> & Hw' & Hst & Ho & Eb & Hl).
  rewrite read_bytes_app, bind_ret_l by (unfold zlen; lia). rewrite Eb. destruct (shift_front _ _ _ Hr Hl) as (b & -> & _ & Hrb). rewrite bind_ret_l.
  eexists true, _. split; [reflexivity|]. exists l', text', cs'. by split_and!.
Qed.

Definition final_error (s : response_state) : option ntb_ipc_client_error :=
  match rs_error s with None => if rs_had_response s then None else Some NTB_IPC_CLIENT_ERROR_NO_RESPONSE | Some e => Some e end.

Lemma client_reads_spec pieces more : forall s text cs l,
  waits_for s text cs l (concat pieces) -> repr (rs_buf s) l -> starved cs l -> Forall (fun l => zlen l <= 512) pieces ->
  exists s', read_commands_loop indet ((ReadBytes <$> pieces) ++ ReadEnd :: more) s = Ok s' /\
    final_error s' = (outcome s text cs).1 /\ repr (rs_response_buf s') (outcome s text cs).2.
Proof.
  induction pieces as [|piece pieces IH]; intros s text cs l Hw Hr Hst Hp; cbn [fmap list_fmap app read_commands_loop concat].
  all: pose proof Hw as (Hok & Hrt & Hz & El); pose proof (repr_length _ _ Hr) as Hlen; pose proof (zlen_nonneg l); pose proof (zlen_nonneg text).
  all: pose proof (waits_room _ _ _ _ _ Hw) as Hsmall.
  all: destruct (ensure_size_spec (E := unit) (rs_buf s) (u64 (buf_length (rs_buf s) + 512))) as (b & -> & W & L & C & _ & Hroom & _);
    [apply Hr|rewrite u64_small by lia; lia|]; rewrite bind_ret_l; rewrite u64_small in Hroom by lia.
  - cbn [concat] in El. rewrite app_nil_r in El. destruct cs as [|c cs].
    + cbn in Hst. subst l. replace (buf_length b) with 0 by (rewrite L; by rewrite Hlen). change (0 <? 0) with false. cbv iota. eexists. split; [reflexivity|]. split; [|done].
      unfold final_error, outcome. cbn [client_spec rs_set_buf rs_error rs_had_response fst]. destruct (rs_error s); done.
    + cbn in Hst. rewrite El in Hst. change (ipc_stream (c :: cs)) with (ipc_bytes c ++ ipc_stream cs) in Hst. rewrite zlen_app in Hst. pose proof (zlen_nonneg (ipc_stream cs)). lia.
  - apply Forall_cons in Hp as [Hpl Hp]. destruct (buf_write_end (E := unit) b piece W ltac:(lia)) as (b1 & -> & W1 & W2 & L1 & S1 & C1 & C2). rewrite bind_ret_l.
    set (s1 := rs_set_buf _ _).
    destruct (client_process_spec s1 text cs (l ++ piece) (concat pieces)) as (ok & s2 & -> & Hs2).
    { split_and!; [done|done|done|]. cbn [concat] in El. by rewrite <- app_assoc. }
    { split; [exact W2|]. unfold s1. cbn [rs_set_buf rs_buf]. destruct Hr as [_ Hc]. by rewrite C2, C, Hc, fmap_app. }
    rewrite bind_ret_l. change (outcome s1 text cs) with (outcome s text cs) in Hs2. destruct ok.
    + destruct Hs2 as (l' & text' & cs' & Hr' & Hw' & Hst' & <-). by apply (IH s2 text' cs' l').
    + destruct Hs2 as (He & Hne & Hrb). exists s2. split; [done|]. split; [|done]. unfold final_error. rewrite <- He. by destruct (rs_error s2).
Qed.

Lemma get_response_spec pieces more request_id response_buf cs :
  Forall ipc_command_ok cs -> repr response_buf [] -> zlen (ipc_stream cs) < 2 ^ 60 -> concat pieces = ipc_stream cs -> Forall (fun l => zlen l <= 512) pieces ->
  exists b, ntb_ipc_client_get_response indet ((ReadBytes <$> pieces) ++ ReadEnd :: more) response_buf request_id = Ok ((client_spec request_id false None [] cs).1, b) /\
    repr b (client_spec request_id false None [] cs).2.
Proof.
  intros Hok Hr Hz E Hp. unfold ntb_ipc_client_get_response, read_commands.
  assert (Hrb : repr (rs_buf (init_response_state response_buf request_id)) []) by (split; [by apply (bool_decide_unpack _)|done]).
  assert (Hst : cs = [] \/ exists c cs', cs = c :: cs') by (destruct cs; eauto).
  destruct (client_reads_spec pieces more (init_response_state response_buf request_id) [] cs []) as (s' & -> & He & Hb); [by split_and!|done| |done|].
  { destruct cs as [|c cs]; [done|]. apply Forall_cons in Hok as [((? & _) & _) _]. cbn. unfold ipc_bytes. rewrite zlen_ipc_frame, zlen_nil by lia. pose proof (zlen_nonneg c.2). lia. }
  rewrite !bind_ret_l. change (outcome (init_response_state response_buf request_id) [] cs) with (client_spec request_id false None [] cs) in *.
  exists (rs_response_buf s'). split; [|done]. rewrite <- He. unfold final_error. destruct (rs_error s') as [e|] eqn:Ee; [by rewrite Ee|]. destruct (rs_had_response s'); [by rewrite Ee|done].
Qed.
End client_spec.
