(* ===== verification/Ipc.v ===== *)
(** * Ipc: the local socket of the daemon (ntb-ipc.c)

    Clients connect, send commands with descriptors and read responses. An email is
    read from the descriptor that came with its command; a key is created by the key
    ring, which is known by the class [KeyringService]. What system calls return is an
    argument of the handlers. The connections, emails and tasks are in memories, so
    that an access to one that was freed is undefined. *)

From S2P Require Import Prelude Endian Buffer NetAddress OpenSSL Proto ProtoSpec NetText KeyValue Pow Base58 Address Base64 QuotedPrintable EncodedWords Outgoings Ecc Keys ParseContentType ParseAddresses MailParser Connection IpcProto.

(** What the key ring does for the socket: [false] is the error
    [NTB_KEYRING_ERROR_UNKNOWN_FROM_ADDRESS]; the callback of a key gets the number. *)
Class KeyringService (K : Type) := {
  ks_send_message : ntb_address -> list ntb_address -> Z -> ntb_blob -> K -> result unit (bool * K);
  ks_create_key : ntb_key_params -> Z -> nat -> K -> result unit (nat * K);
  ks_cancel_task : nat -> K -> result unit K
}.

(** ** Data *)

(** The parts of an email that its parser reports. The source address is not set at
    first; the content stands for the blob that it is collected in. *)
Record ipc_mail := IpcMail {
  im_from_address : option ntb_address;
  im_to_addresses : list ntb_address;
  im_content : list Z;
  im_content_encoding : Z
}.

Definition mail_parser_data_cb (event : ntb_mail_parser_event) (data : list Z) (m : ipc_mail) : result unit ipc_mail :=
  match event with
  | NTB_MAIL_PARSER_EVENT_SOURCE | NTB_MAIL_PARSER_EVENT_DESTINATION => UB
  | NTB_MAIL_PARSER_EVENT_SUBJECT =>
      Ok (IpcMail (im_from_address m) (im_to_addresses m) (im_content m ++ str_bytes "Subject:" ++ data ++ 10 :: str_bytes "Body:") 2)
  | NTB_MAIL_PARSER_EVENT_CONTENT => Ok (IpcMail (im_from_address m) (im_to_addresses m) (im_content m ++ data) (im_content_encoding m))
  end.
Definition mail_parser_address_cb (event : ntb_mail_parser_event) (address : ntb_address) (m : ipc_mail) : result unit ipc_mail :=
  match event with
  | NTB_MAIL_PARSER_EVENT_SOURCE => Ok (IpcMail (Some address) (im_to_addresses m) (im_content m) (im_content_encoding m))
  | NTB_MAIL_PARSER_EVENT_DESTINATION => Ok (IpcMail (im_from_address m) (im_to_addresses m ++ [address]) (im_content m) (im_content_encoding m))
  | NTB_MAIL_PARSER_EVENT_SUBJECT | NTB_MAIL_PARSER_EVENT_CONTENT => UB
  end.
#[export] Instance ipc_mail_client : MailClient ipc_mail unit := {| address_cb := mail_parser_address_cb; data_cb := mail_parser_data_cb |}.

Record ntb_ipc_email := Email {
  em_conn : nat;
  em_fd : Z;
  em_request_id : Z;
  em_parser : mail_parser ntb_buffer ipc_mail
}.
Record ntb_ipc_task := IpcTask { it_conn : nat; it_keyring_cookie : nat; it_request_id : Z }.

(** [ic_poll_in] and [ic_poll_out] are what the source polls for; the queue of
    descriptors is the list of its numbers. *)
Record ntb_ipc_connection := IpcConn {
  ic_sock : Z;
  ic_poll_in : bool;
  ic_poll_out : bool;
  ic_read_finished : bool;
  ic_write_finished : bool;
  ic_outbuf : ntb_buffer;
  ic_inbuf : ntb_buffer;
  ic_fd_queue : list Z;
  ic_emails : list nat;
  ic_tasks : list nat;
  ic_response_old_length : Z
}.

Definition ic_set_poll (i o : bool) (c : ntb_ipc_connection) : ntb_ipc_connection :=
  IpcConn (ic_sock c) i o (ic_read_finished c) (ic_write_finished c) (ic_outbuf c) (ic_inbuf c) (ic_fd_queue c) (ic_emails c) (ic_tasks c) (ic_response_old_length c).
Definition ic_set_finished (r w : bool) (c : ntb_ipc_connection) : ntb_ipc_connection :=
  IpcConn (ic_sock c) (ic_poll_in c) (ic_poll_out c) r w (ic_outbuf c) (ic_inbuf c) (ic_fd_queue c) (ic_emails c) (ic_tasks c) (ic_response_old_length c).
Definition ic_set_outbuf (b : ntb_buffer) (c : ntb_ipc_connection) : ntb_ipc_connection :=
  IpcConn (ic_sock c) (ic_poll_in c) (ic_poll_out c) (ic_read_finished c) (ic_write_finished c) b (ic_inbuf c) (ic_fd_queue c) (ic_emails c) (ic_tasks c) (ic_response_old_length c).
Definition ic_set_inbuf (b : ntb_buffer) (c : ntb_ipc_connection) : ntb_ipc_connection :=
  IpcConn (ic_sock c) (ic_poll_in c) (ic_poll_out c) (ic_read_finished c) (ic_write_finished c) (ic_outbuf c) b (ic_fd_queue c) (ic_emails c) (ic_tasks c) (ic_response_old_length c).
Definition ic_set_fd_queue (q : list Z) (c : ntb_ipc_connection) : ntb_ipc_connection :=
  IpcConn (ic_sock c) (ic_poll_in c) (ic_poll_out c) (ic_read_finished c) (ic_write_finished c) (ic_outbuf c) (ic_inbuf c) q (ic_emails c) (ic_tasks c) (ic_response_old_length c).
Definition ic_set_emails (l : list nat) (c : ntb_ipc_connection) : ntb_ipc_connection :=
  IpcConn (ic_sock c) (ic_poll_in c) (ic_poll_out c) (ic_read_finished c) (ic_write_finished c) (ic_outbuf c) (ic_inbuf c) (ic_fd_queue c) l (ic_tasks c) (ic_response_old_length c).
Definition ic_set_tasks (l : list nat) (c : ntb_ipc_connection) : ntb_ipc_connection :=
  IpcConn (ic_sock c) (ic_poll_in c) (ic_poll_out c) (ic_read_finished c) (ic_write_finished c) (ic_outbuf c) (ic_inbuf c) (ic_fd_queue c) (ic_emails c) l (ic_response_old_length c).
Definition ic_set_response_old_length (n : Z) (c : ntb_ipc_connection) : ntb_ipc_connection :=
  IpcConn (ic_sock c) (ic_poll_in c) (ic_poll_out c) (ic_read_finished c) (ic_write_finished c) (ic_outbuf c) (ic_inbuf c) (ic_fd_queue c) (ic_emails c) (ic_tasks c) n.

(** [ipc_connections] is the list, [ipc_connection], [ipc_email] and [ipc_task] the
    memory; [ipc_closed] are the descriptors that were closed. *)
Record ntb_ipc (K : Type) := Ipc {
  ipc_uid : Z;
  ipc_listening : bool;
  ipc_keyring : K;
  ipc_connections : list nat;
  ipc_connection : gmap nat ntb_ipc_connection;
  ipc_email : gmap nat ntb_ipc_email;
  ipc_task : gmap nat ntb_ipc_task;
  ipc_next : nat;
  ipc_closed : list Z
}.
Arguments Ipc {K}.
Arguments ipc_uid {K}.
Arguments ipc_listening {K}.
Arguments ipc_keyring {K}.
Arguments ipc_connections {K}.
Arguments ipc_connection {K}.
Arguments ipc_email {K}.
Arguments ipc_task {K}.
Arguments ipc_next {K}.
Arguments ipc_closed {K}.

Section setters.
Context {K : Type}.
Implicit Type s : ntb_ipc K.
Definition ipc_set_listening (v : bool) s : ntb_ipc K :=
  Ipc (ipc_uid s) v (ipc_keyring s) (ipc_connections s) (ipc_connection s) (ipc_email s) (ipc_task s) (ipc_next s) (ipc_closed s).
Definition ipc_set_keyring (v : K) s : ntb_ipc K :=
  Ipc (ipc_uid s) (ipc_listening s) v (ipc_connections s) (ipc_connection s) (ipc_email s) (ipc_task s) (ipc_next s) (ipc_closed s).
Definition ipc_set_connections (v : list nat) s : ntb_ipc K :=
  Ipc (ipc_uid s) (ipc_listening s) (ipc_keyring s) v (ipc_connection s) (ipc_email s) (ipc_task s) (ipc_next s) (ipc_closed s).
Definition ipc_set_connection (v : gmap nat ntb_ipc_connection) s : ntb_ipc K :=
  Ipc (ipc_uid s) (ipc_listening s) (ipc_keyring s) (ipc_connections s) v (ipc_email s) (ipc_task s) (ipc_next s) (ipc_closed s).
Definition ipc_set_email (v : gmap nat ntb_ipc_email) s : ntb_ipc K :=
  Ipc (ipc_uid s) (ipc_listening s) (ipc_keyring s) (ipc_connections s) (ipc_connection s) v (ipc_task s) (ipc_next s) (ipc_closed s).
Definition ipc_set_task (v : gmap nat ntb_ipc_task) s : ntb_ipc K :=
  Ipc (ipc_uid s) (ipc_listening s) (ipc_keyring s) (ipc_connections s) (ipc_connection s) (ipc_email s) v (ipc_next s) (ipc_closed s).
Definition ipc_set_next (v : nat) s : ntb_ipc K :=
  Ipc (ipc_uid s) (ipc_listening s) (ipc_keyring s) (ipc_connections s) (ipc_connection s) (ipc_email s) (ipc_task s) v (ipc_closed s).
Definition ipc_close (fds : list Z) s : ntb_ipc K :=
  Ipc (ipc_uid s) (ipc_listening s) (ipc_keyring s) (ipc_connections s) (ipc_connection s) (ipc_email s) (ipc_task s) (ipc_next s) (ipc_closed s ++ fds).

Definition update_connection (i : nat) (f : ntb_ipc_connection -> ntb_ipc_connection) s : result unit (ntb_ipc K) :=
  c ← need (ipc_connection s !! i); Ok (ipc_set_connection (<[i := f c]> (ipc_connection s)) s).
End setters.

Section ipc.
Context `{Digests} `{BigNum} `{!Elliptic} `{Symmetric} `{Digest256} {K : Type} `{!KeyringService K}.

(** What an allocated byte holds that was never written. *)
Context (indet : Z).
(** The error of [ntb_socket_set_nonblock], when [fcntl] fails. *)
Context (nonblock_error : Z -> option (list Z)).
(** The texts of error objects. *)
Context (mail_error_text : mail_error unit -> list Z) (unknown_from_text : list Z).
Implicit Type s : ntb_ipc K.

(** ** Ending things *)

Definition close_fd_queue (i : nat) s : result unit (ntb_ipc K) :=
  c ← need (ipc_connection s !! i);
  update_connection i (ic_set_fd_queue []) (ipc_close (ic_fd_queue c) s).

Definition remove_email (e : nat) s : result unit (ntb_ipc K) :=
  email ← need (ipc_email s !! e);
  s ← update_connection (em_conn email) (fun c => ic_set_emails (filter (.≠ e) (ic_emails c)) c) (ipc_close [em_fd email] s);
  Ok (ipc_set_email (delete e (ipc_email s)) s).

Definition remove_emails (i : nat) s : result unit (ntb_ipc K) :=
  c ← need (ipc_connection s !! i); for_each remove_email (ic_emails c) s.

Definition ipc_cancel_tasks (i : nat) s : result unit (ntb_ipc K) :=
  c ← need (ipc_connection s !! i);
  for_each (fun t s =>
    task ← need (ipc_task s !! t);
    k ← ks_cancel_task (it_keyring_cookie task) (ipc_keyring s);
    Ok (ipc_set_task (delete t (ipc_task s)) (ipc_set_keyring k s))) (ic_tasks c) s.

Definition remove_connection (i : nat) s : result unit (ntb_ipc K) :=
  s ← remove_emails i s;
  s ← ipc_cancel_tasks i s;
  s ← close_fd_queue i s;
  c ← need (ipc_connection s !! i);
  Ok (ipc_set_connection (delete i (ipc_connection s)) (ipc_set_connections (filter (.≠ i) (ipc_connections s)) (ipc_close [ic_sock c] s))).

(** ** Responses *)

(** [shutdown_fails] says that [shutdown] returns an error. The result is [false] when
    the connection is gone. *)
Definition update_poll (shutdown_fails : bool) (i : nat) s : result unit (bool * ntb_ipc K) :=
  c ← need (ipc_connection s !! i);
  let shut := negb (ic_write_finished c) && ic_read_finished c && (buf_length (ic_outbuf c) =? 0) &&
    bool_decide (ic_emails c = []) && bool_decide (ic_tasks c = []) in
  if shut && shutdown_fails then s ← remove_connection i s; Ok (false, s)
  else
    let write_finished := ic_write_finished c || shut in
    s ← update_connection i (ic_set_finished (ic_read_finished c) write_finished) s;
    if ic_read_finished c && write_finished then s ← remove_connection i s; Ok (false, s)
    else
      s ← update_connection i (ic_set_poll (negb (ic_read_finished c)) (negb write_finished && (0 <? buf_length (ic_outbuf c)))) s;
      Ok (true, s).

Definition begin_send_response (i : nat) (request_id : Z) (status : ntb_ipc_proto_status) s : result unit (ntb_ipc K) :=
  c ← need (ipc_connection s !! i);
  b ← ntb_ipc_proto_begin_command (ic_outbuf c) (str_bytes "response") request_id;
  b ← ntb_proto_add_32 b (status_number status);
  update_connection i (fun c => ic_set_outbuf b (ic_set_response_old_length (buf_length (ic_outbuf c)) c)) s.
Definition append_response (i : nat) (f : ntb_buffer -> result unit ntb_buffer) s : result unit (ntb_ipc K) :=
  c ← need (ipc_connection s !! i); b ← f (ic_outbuf c); update_connection i (ic_set_outbuf b) s.
Definition end_send_response (i : nat) s : result unit (bool * ntb_ipc K) :=
  c ← need (ipc_connection s !! i);
  s ← append_response i (fun b => ntb_ipc_proto_end_command b (ic_response_old_length c)) s;
  update_poll false i s.

(** [text] is what the format and its arguments print. Shutting down is not an issue:
    the buffer is not empty. *)
Definition send_response (i : nat) (request_id : Z) (status : ntb_ipc_proto_status) (text : list Z) s : result unit (bool * ntb_ipc K) :=
  s ← begin_send_response i request_id status s;
  s ← append_response i (fun b => ntb_buffer_append_vprintf b text) s;
  end_send_response i s.

(** ** Emails *)

(** Without a destination the call fails and sets no error, so that [error->domain] is
    not to be read. *)
Definition send_email (e : nat) (m : ipc_mail) s : result unit (ntb_ipc K) :=
  email ← need (ipc_email s !! e);
  from_address ← need (im_from_address m);
  _ ← c_assert (negb (bool_decide (im_to_addresses m = [])));
  '(res, k) ← ks_send_message from_address (im_to_addresses m) (im_content_encoding m) (Blob NTB_PROTO_INV_TYPE_MSG (im_content m)) (ipc_keyring s);
  let s := ipc_set_keyring k s in
  '(_, s) ← (if (res : bool)
             then s ← begin_send_response (em_conn email) (em_request_id email) NTB_IPC_PROTO_STATUS_SUCCESS s; end_send_response (em_conn email) s
             else send_response (em_conn email) (em_request_id email) NTB_IPC_PROTO_STATUS_UNKNOWN_FROM_ADDRESS unknown_from_text s);
  Ok s.

Definition email_poll_cb (e : nat) (got : read_result) s : result unit (ntb_ipc K) :=
  email ← need (ipc_email s !! e);
  let conn := em_conn email in
  match got with
  | ReadAgain | ReadError =>
      '(_, s) ← send_response conn (em_request_id email) NTB_IPC_PROTO_STATUS_FD_ERROR (str_bytes "Error reading from email file descriptor") s;
      remove_email e s
  | ReadEnd =>
      s ← (match ntb_mail_parser_end (em_parser email) with
           | Ok m => send_email e m s
           | Err error => '(_, s) ← send_response conn (em_request_id email) NTB_IPC_PROTO_STATUS_INVALID_EMAIL (mail_error_text error) s; Ok s
           | UB => UB
           | OutOfFuel => OutOfFuel
           end);
      remove_email e s
  | ReadBytes buf =>
      match ntb_mail_parser_parse (em_parser email) buf with
      | Ok p => Ok (ipc_set_email (<[e := Email conn (em_fd email) (em_request_id email) p]> (ipc_email s)) s)
      | Err error =>
          '(_, s) ← send_response conn (em_request_id email) NTB_IPC_PROTO_STATUS_INVALID_EMAIL (str_bytes "Error parsing email: " ++ mail_error_text error) s;
          remove_email e s
      | UB => UB
      | OutOfFuel => OutOfFuel
      end
  end.

(** The first descriptor of the queue. *)
Definition get_fd (i : nat) s : result unit (Z * ntb_ipc K) :=
  c ← need (ipc_connection s !! i);
  match ic_fd_queue c with
  | [] => UB
  | fd :: fds => s ← update_connection i (ic_set_fd_queue fds) s; Ok (fd, s)
  end.

Definition new_ipc_mail : ipc_mail := IpcMail None [] [] 1.

Definition handle_email_command (i : nat) (request_id : Z) (data : ptr) (command_length : Z) s : result unit (bool * ntb_ipc K) :=
  c ← need (ipc_connection s !! i);
  match ic_fd_queue c with
  | [] => send_response i request_id NTB_IPC_PROTO_STATUS_INVALID_COMMAND (str_bytes "email command was sent without a file descriptor argument") s
  | _ :: _ =>
      '(fd, s) ← get_fd i s;
      match nonblock_error fd with
      | Some text => '(res, s) ← send_response i request_id NTB_IPC_PROTO_STATUS_FD_ERROR text s; Ok (res, ipc_close [fd] s)
      | None =>
          let e := ipc_next s in
          let s := ipc_set_email (<[e := Email i fd request_id (ntb_mail_parser_new new_ipc_mail)]> (ipc_email s)) (ipc_set_next (S e) s) in
          s ← update_connection i (fun c => ic_set_emails (e :: ic_emails c) c) s;
          Ok (true, s)
      end
  end.

(** ** Keys *)

Definition ipc_create_key_cb (key : ntb_key) (t : nat) s : result unit (ntb_ipc K) :=
  task ← need (ipc_task s !! t);
  let i := it_conn task in
  s ← update_connection i (fun c => ic_set_tasks (filter (.≠ t) (ic_tasks c)) c) s;
  let s := ipc_set_task (delete t (ipc_task s)) s in
  address ← ntb_address_encode (key_address key);
  s ← begin_send_response i (it_request_id task) NTB_IPC_PROTO_STATUS_SUCCESS s;
  s ← append_response i (fun b =>
        b ← ntb_proto_add_var_int b (addr_version (key_address key));
        b ← ntb_proto_add_var_int b (addr_stream (key_address key));
        b ← ntb_buffer_append b (addr_ripe (key_address key));
        ntb_proto_add_var_str b address) s;
  '(_, s) ← end_send_response i s;
  Ok s.

(** [(label_str->data[i] & 0xff) < ' '] *)
Definition label_is_valid (label_str : ntb_proto_var_str) : result unit bool :=
  label ← read_bytes (Z.to_nat (vs_length label_str)) (vs_data label_str);
  Ok (forallb (fun ch => 32 <=? ch) label).

Definition keygen_arguments : list ntb_proto_argument :=
  [NTB_PROTO_ARGUMENT_VAR_INT; NTB_PROTO_ARGUMENT_VAR_INT; NTB_PROTO_ARGUMENT_VAR_INT; NTB_PROTO_ARGUMENT_VAR_INT; NTB_PROTO_ARGUMENT_8; NTB_PROTO_ARGUMENT_VAR_STR].

(** The members that the flags do not announce are left out. *)
Definition keygen_params (version stream nonce_trials_per_byte payload_extra_bytes : Z) (label : list Z) : ntb_key_params :=
  KeyParams (Z.lor (Z.lor (Z.lor NTB_KEY_PARAM_LABEL NTB_KEY_PARAM_VERSION) NTB_KEY_PARAM_STREAM) NTB_KEY_PARAM_POW_DIFFICULTY)
    label version stream [] [] [] [] (s32 nonce_trials_per_byte) (s32 payload_extra_bytes) [] 0 false false.

Definition handle_keygen_command (i : nat) (request_id : Z) (data : ptr) (command_length : Z) s : result unit (bool * ntb_ipc K) :=
  r ← parse (ntb_proto_get_command keygen_arguments data command_length);
  match r with
  | None => send_response i request_id NTB_IPC_PROTO_STATUS_INVALID_COMMAND (str_bytes "The keygen command is invalid") s
  | Some ((version, (stream, (nonce_trials_per_byte, (payload_extra_bytes, (zeroes, (label_str, _)))))), _) =>
      let unsupported := negb (version =? 0) && ((version <? 2) || (4 <? version)) in
      let version := if version =? 0 then 4 else version in
      if unsupported then send_response i request_id NTB_IPC_PROTO_STATUS_UNSUPPORTED (str_bytes "The requested key version is not supported") s
      else if negb (stream =? 1) then send_response i request_id NTB_IPC_PROTO_STATUS_UNSUPPORTED (str_bytes "The requested stream is not supported") s
      else
        let nonce_trials_per_byte := if nonce_trials_per_byte =? 0 then NTB_PROTO_MIN_NONCE_TRIALS_PER_BYTE * 2 else nonce_trials_per_byte in
        let payload_extra_bytes := if payload_extra_bytes =? 0 then NTB_PROTO_MIN_EXTRA_BYTES else payload_extra_bytes in
        if 2 <? zeroes then send_response i request_id NTB_IPC_PROTO_STATUS_UNSUPPORTED (str_bytes "The requested number of zeroes is not supported") s
        else
          valid ← label_is_valid label_str;
          if negb valid then send_response i request_id NTB_IPC_PROTO_STATUS_INVALID_COMMAND (str_bytes "The new key label contains invalid characters") s
          else
            label ← read_bytes (Z.to_nat (vs_length label_str)) (vs_data label_str);
            let t := ipc_next s in
            '(cookie, k) ← ks_create_key (keygen_params version stream nonce_trials_per_byte payload_extra_bytes label) zeroes t (ipc_keyring s);
            let s := ipc_set_task (<[t := IpcTask i cookie request_id]> (ipc_task s)) (ipc_set_next (S t) (ipc_set_keyring k s)) in
            s ← update_connection i (fun c => ic_set_tasks (t :: ic_tasks c) c) s;
            Ok (true, s)
  end.

(** ** Commands *)

Definition ipc_commands : list (list Z * (nat -> Z -> ptr -> Z -> ntb_ipc K -> result unit (bool * ntb_ipc K))) :=
  [(str_bytes "email", handle_email_command); (str_bytes "keygen", handle_keygen_command)].

(** The quotes in the text are two characters of three bytes each. *)
Definition unknown_command_text (name : list Z) : list Z :=
  str_bytes "Unknown command " ++ [226; 128; 156] ++ name ++ [226; 128; 157].

Definition ipc_process_command (i : nat) (data : ptr) (command_length : Z) s : result unit (bool * ntb_ipc K) :=
  request_id ← ntb_proto_get_32 (drop 12 data);
  name ← c_string data;
  match List.find (fun h => bytes_eqb name (fst h)) ipc_commands with
  | Some (_, func) => func i request_id (drop 20 data) command_length s
  | None => send_response i request_id NTB_IPC_PROTO_STATUS_INVALID_COMMAND (unknown_command_text name) s
  end.

(** [while (true)]: [None] when the function returned from inside of the loop. The
    sums with 20 are in [uint32_t]; a round takes at least one byte unless they wrap
    to 0. *)
Fixpoint ipc_commands_loop (fuel : nat) (i : nat) (data : ptr) (data_length : Z) s : result unit (bool * ntb_ipc K) :=
  if data_length <? 20 then Ok (true, s)
  else
    match fuel with
    | O => OutOfFuel
    | S fuel =>
        command_length ← ntb_proto_get_32 (drop 16 data);
        let size := u32 (command_length + 20) in
        if data_length <? size then Ok (true, s)
        else
          valid ← ntb_proto_check_command_string data;
          if negb valid then s ← remove_connection i s; Ok (false, s)
          else
            '(ok, s) ← ipc_process_command i data command_length s;
            if (ok : bool) then ipc_commands_loop fuel i (drop (Z.to_nat size) data) (data_length - size) s else Ok (false, s)
    end.

Definition ipc_process_commands (i : nat) s : result unit (ntb_ipc K) :=
  c ← need (ipc_connection s !! i);
  '(more, s) ← ipc_commands_loop (Z.to_nat (buf_length (ic_inbuf c))) i (readable indet (ic_inbuf c)) (buf_length (ic_inbuf c)) s;
  if (more : bool) then
    c ← need (ipc_connection s !! i);
    if buf_length (ic_inbuf c) =? 0 then close_fd_queue i s else Ok s
  else Ok s.

(** ** Sockets *)

(** What [recvmsg] returns, with the descriptors of its control data. *)
Inductive recv_result :=
| RecvBytes (l : list Z) (fds : list Z)
| RecvEnd (fds : list Z)
| RecvAgain
| RecvError.

Definition process_control_data (i : nat) (fds : list Z) s : result unit (ntb_ipc K) :=
  update_connection i (fun c => ic_set_fd_queue (ic_fd_queue c ++ fds) c) s.

Definition ipc_handle_read (shutdown_fails : bool) (i : nat) (got : recv_result) s : result unit (ntb_ipc K) :=
  c ← need (ipc_connection s !! i);
  b ← ntb_buffer_ensure_size (ic_inbuf c) (u64 (buf_length (ic_inbuf c) + 128));
  s ← update_connection i (ic_set_inbuf b) s;
  match got with
  | RecvAgain => Ok s
  | RecvError => remove_connection i s
  | RecvEnd fds =>
      s ← process_control_data i fds s;
      s ← update_connection i (fun c => ic_set_finished true (ic_write_finished c) c) s;
      '(_, s) ← update_poll shutdown_fails i s;
      Ok s
  | RecvBytes l fds =>
      s ← process_control_data i fds s;
      (* the system call stores into the free part of the buffer *)
      b ← buf_write b (buf_length b) l;
      s ← update_connection i (ic_set_inbuf (add_length b (zlen l))) s;
      ipc_process_commands i s
  end.

Definition ipc_handle_write (shutdown_fails : bool) (i : nat) (wrote : write_result) s : result unit (ntb_ipc K) :=
  c ← need (ipc_connection s !! i);
  match wrote with
  | WriteAgain => Ok s
  | WriteError => remove_connection i s
  | Wrote n =>
      let b := ic_outbuf c in
      rest ← buf_read b n (buf_length b - n);
      b ← buf_write b 0 rest;
      s ← update_connection i (ic_set_outbuf (Buf (buf_data b) (u64 (buf_length b - n)) (buf_size b))) s;
      '(_, s) ← update_poll shutdown_fails i s;
      Ok s
  end.

(** The flags that [poll] reports, with the result of the call that they lead to. *)
Inductive poll_event := PollError | PollIn (got : recv_result) | PollOut (wrote : write_result) | PollNone.

Definition connection_source_cb (shutdown_fails : bool) (i : nat) (flags : poll_event) s : result unit (ntb_ipc K) :=
  match flags with
  | PollError => remove_connection i s
  | PollIn got => ipc_handle_read shutdown_fails i got s
  | PollOut wrote => ipc_handle_write shutdown_fails i wrote s
  | PollNone => Ok s
  end.

(** [uid] is that of the peer, when it can be had. *)
Definition check_credentials (uid : option Z) s : bool :=
  match uid with None => false | Some uid => (uid =? 0) || (uid =? ipc_uid s) end.

(** What [accept] and the calls after it return. *)
Definition listen_source_cb (accepted : option (Z * option Z)) s : result unit (ntb_ipc K) :=
  match accepted with
  | None => Ok (ipc_set_listening false s)
  | Some (sock, uid) =>
      if bool_decide (is_Some (nonblock_error sock)) then Ok (ipc_close [sock] s)
      else if negb (check_credentials uid s) then Ok (ipc_close [sock] s)
      else
        let i := ipc_next s in
        let c := IpcConn sock true false false false ntb_buffer_init ntb_buffer_init [] [] [] 0 in
        Ok (ipc_set_connections (i :: ipc_connections s) (ipc_set_connection (<[i := c]> (ipc_connection s)) (ipc_set_next (S i) s)))
  end.

(** [ntb_ipc_new] once the socket listens, and [ntb_ipc_free] but for that socket. *)
Definition ntb_ipc_new (uid : Z) (keyring : K) : ntb_ipc K := Ipc uid true keyring [] ∅ ∅ ∅ 0 [].
Definition ntb_ipc_free s : result unit (ntb_ipc K) :=
  s ← for_each remove_connection (ipc_connections s) s; Ok (ipc_set_listening false s).
End ipc.
