(* ===== verification/IpcMail.v ===== *)
(** * IpcMail: the mails that the local socket reads (for [Ipc])

    What the parser has reported when a mail is accepted: a source, and at least one
    destination that messages can be sent to. *)

From S2P Require Import Prelude Endian Buffer NetAddress OpenSSL Proto ProtoSpec NetText KeyValue Pow Base58 Address Base64 QuotedPrintable EncodedWords Outgoings Ecc Keys ParseContentType ParseAddresses MailParser MailParserSpec Connection IpcProto Ipc KeyringCalls.

(** ** Addresses *)

Lemma be_split_head v b l : be_split (Z.to_nat (num_bytes v)) v = b :: l -> 0 <= v -> b <> 0.
Proof.
  intros E Hv ->. unfold num_bytes in E. destruct (Z.eqb_spec v 0) as [|Hv0]; [done|]. pose proof (Z.log2_nonneg v). set (n := Z.log2 v / 8) in *.
  assert (0 <= n) by (apply Z.div_pos; lia).
  assert (Hlog : 8 * n <= Z.log2 v < 8 * n + 8) by (unfold n; pose proof (Z.div_mod (Z.log2 v) 8); pose proof (Z.mod_pos_bound (Z.log2 v) 8); lia).
  assert (Hlo : 2 ^ (8 * n) <= v) by (apply Z.log2_le_pow2; lia). assert (Hhi : v < 2 ^ (8 * n + 8)) by (apply Z.log2_lt_pow2; lia).
  pose proof (f_equal be_combine E) as Ec. rewrite be_combine_split, Z2Nat.id in Ec by lia.
  assert (Hpow : forall k, 0 <= k -> 256 ^ k = 2 ^ (8 * k)) by (intros k Hk; change 256 with (2 ^ 8); by rewrite <- Z.pow_mul_r by lia).
  rewrite Hpow, Z.mod_small in Ec by (replace (8 * (n + 1)) with (8 * n + 8) by lia; lia).
  pose proof (bytes_be_split (Z.to_nat (n + 1)) v) as Hb. rewrite E in Hb. apply bytes_cons in Hb as [_ Hb].
  pose proof (be_combine_range l Hb) as Hr. pose proof (f_equal length E) as El. rewrite length_be_split in El. cbn [length] in El.
  rewrite be_combine_cons in Ec. rewrite Hpow in Hr by (unfold zlen; lia). replace (zlen l) with n in Hr by (unfold zlen; lia). lia.
Qed.

#[export] Instance ipc_mail_client_laws : MailClientLaws (U := ipc_mail) (C := unit).
Proof.
  split.
  - intros l u. by eexists.
  - intros u. cbn. rewrite app_nil_r. by destruct u.
  - intros a b u. cbn. by rewrite app_assoc.
Qed.

Section mail.
Context `{DigestLaws} `{BigNumLaws}.

Lemma decode_destination s a : bytes s -> ntb_address_decode s = Ok a -> destination_ok a.
Proof.
  intros Hs E. pose proof (address_decode_total s Hs) as Hw. rewrite E in Hw. split; [done|]. revert E. unfold ntb_address_decode.
  set (t := if bytes_eqb _ _ then _ else s). unfold ntb_base58_decode.
  destruct (decode_loop BN_init t) as [val| | |]; try done. rewrite bind_ret_l, bn_num_bytes_val, bn_bn2bin_val.
  destruct (_ <? num_bytes _); [done|]. destruct (_ && _); [done|]. rewrite bind_ret_l.
  destruct (be_split _ _) as [|v l] eqn:El; [done|]. destruct (_ <? 0); [done|]. cbn [deref]. rewrite bind_ret_l.
  intros (st & _ & Ea)%bind_Ok. destruct (negb _); [done|]. apply bind_Ok in Ea as (? & _ & [= <-]). cbn [addr_version].
  eapply be_split_head; [exact El|]. apply bn_val_nonneg.
Qed.

(** ** Lists of addresses *)

Section addresses.
Context {E U : Type} (invalid : E) (cb : ntb_address -> U -> result E U) (P Q : U -> Prop).
Context (Hcb : forall a u u', destination_ok a -> P u -> cb a u = Ok u' -> P u' /\ Q u').

Lemma mail_address_ok text u u' : bytes text -> P u -> mail_address invalid cb text u = Ok u' -> P u' /\ Q u'.
Proof.
  intros Hb Hp. unfold mail_address. destruct (split_when _ text) as [local domain] eqn:Es. destruct (bytes_eqb _ _); [|done].
  intros (a & Ea & Ec)%bind_Ok. apply (Hcb a u); [|done|done].
  assert (Ed : ntb_address_decode (split_when (fun c => c =? 0) local).1 = Ok a) by (unfold lift in Ea; destruct (ntb_address_decode _); cbn in Ea; congruence).
  assert (Hpre : forall p l, bytes l -> bytes (split_when p l).1).
  { intros p l. clear. induction l as [|c l IH]; [done|]. intros [Hc Hl]%bytes_cons. cbn. destruct (p c); [by apply bytes_nil|].
    destruct (split_when p l); cbn in *. apply bytes_cons. auto. }
  eapply decode_destination; [|exact Ed]. apply Hpre. pose proof (Hpre (fun c => c =? 64) text Hb) as Hl. by rewrite Es in Hl.
Qed.

Lemma addresses_ok t : forall m text had u u', bytes text -> bytes t -> P u -> (had = true -> m <> Brackets -> Q u) ->
  addresses_spec invalid cb m text had u t = Ok u' -> P u' /\ Q u'.
Proof.
  assert (Hsnoc : forall text c, bytes text -> is_byte c -> bytes (text ++ [c])) by (intros; apply bytes_app; split; [done|by apply bytes_singleton]).
  induction t as [|c t IH]; intros m text had u u' Ht Hb Hp Hq; cbn [addresses_spec].
  - destruct m; try done. destruct had; [intros [= <-]; auto|by apply mail_address_ok].
  - apply bytes_cons in Hb as [Hc Hb]. destruct m.
    + destruct (c =? 44).
      { intros (u1 & E1 & E2)%bind_Ok. destruct had.
        - injection E1 as <-. by eapply (IH Plain [] false u); try apply bytes_nil.
        - destruct (mail_address_ok _ _ _ Ht Hp E1). by eapply (IH Plain [] false u1); try apply bytes_nil. }
      destruct (c =? 34); [apply IH; auto; intros; apply Hq; auto; discriminate|].
      destruct (c =? 60); [destruct had; [done|]; apply IH; try apply bytes_nil; auto; done|]. destruct (c =? 32); apply IH; auto.
    + destruct (c =? 34); [|destruct (c =? 92)]; apply IH; auto; intros; apply Hq; auto; discriminate.
    + apply IH; auto.
    + destruct (c =? 62); [|apply IH; auto; done]. intros (u1 & E1 & E2)%bind_Ok. destruct (mail_address_ok _ _ _ Ht Hp E1).
      eapply (IH Plain [] had u1); try apply bytes_nil; auto.
Qed.
End addresses.

(** ** Mails *)

Implicit Type a : mail_parser (list Z) ipc_mail.

Definition has_destination (m : ipc_mail) : Prop := im_to_addresses m <> [].
Definition destinations_ok (m : ipc_mail) : Prop := Forall destination_ok (im_to_addresses m).

Definition headers_seen (f : mail_flags) (m : ipc_mail) : Prop :=
  (had_from f = true -> is_Some (im_from_address m)) /\ (had_to f || had_cc f || had_bcc f = true -> has_destination m) /\ destinations_ok m.

Definition mail_seen a : Prop :=
  headers_seen (mp_flags a) (mp_user_data a) /\
  (mp_state a = NTB_MAIL_PARSER_CONTENT -> had_from (mp_flags a) = true /\ had_to (mp_flags a) || had_cc (mp_flags a) || had_bcc (mp_flags a) = true) /\
  bytes (mp_buffer a).

(** The same headers, the addresses that were reported at least. *)
Definition more_mail (m m' : ipc_mail) : Prop :=
  (is_Some (im_from_address m) -> is_Some (im_from_address m')) /\ (has_destination m -> has_destination m') /\ (destinations_ok m -> destinations_ok m').

#[local] Instance more_mail_preorder : PreOrder more_mail.
Proof. unfold more_mail. split; [intros m; by split_and!|intros m1 m2 m3 (?&?&?) (?&?&?); split_and!; auto]. Qed.

Lemma call_data_more event l a a' : call_data (C := unit) event l a = Ok a' ->
  more_mail (mp_user_data a) (mp_user_data a') /\ mp_flags a' = mp_flags a /\ mp_state a' = mp_state a /\ mp_buffer a' = mp_buffer a.
Proof. unfold call_data. intros (m & E & [= <-])%bind_Ok. destruct event; cbn in E; try done; injection E as <-; by split_and!. Qed.

(** The flags, state and line of [a] with what [a'] has been told. *)
Definition told a a' : Prop :=
  mp_state a' = mp_state a /\ mp_buffer a' = mp_buffer a /\ more_mail (mp_user_data a) (mp_user_data a').

Lemma destination_cb_ok a0 x a a' : destination_ok x -> told a0 a /\ mp_flags a = mp_flags a0 -> destination_address_cb (C := unit) x a = Ok a' ->
  (told a0 a' /\ mp_flags a' = mp_flags a0) /\ has_destination (mp_user_data a').
Proof.
  intros Hx ((S & B & M) & F). unfold destination_address_cb, call_address. intros (m & E & [= <-])%bind_Ok. cbn in E. injection E as <-. split; [|unfold has_destination; cbn; by destruct (im_to_addresses _)].
  split; [|done]. split; [done|]. split; [done|]. transitivity (mp_user_data a); [done|]. cbn. split; [done|]. split; [unfold has_destination; cbn; by destruct (im_to_addresses _)|].
  unfold destinations_ok. cbn. intros Hd. apply Forall_app. split; [done|]. by apply Forall_singleton.
Qed.

Lemma from_cb_ok a0 x a a' : destination_ok x -> told a0 a /\ (had_to (mp_flags a) = had_to (mp_flags a0) /\ had_cc (mp_flags a) = had_cc (mp_flags a0) /\ had_bcc (mp_flags a) = had_bcc (mp_flags a0)) ->
  from_address_cb (C := unit) x a = Ok a' ->
  (told a0 a' /\ (had_to (mp_flags a') = had_to (mp_flags a0) /\ had_cc (mp_flags a') = had_cc (mp_flags a0) /\ had_bcc (mp_flags a') = had_bcc (mp_flags a0))) /\ is_Some (im_from_address (mp_user_data a')).
Proof.
  intros Hx ((S & B & M) & F). unfold from_address_cb. destruct (had_from _); [done|]. unfold call_address. intros (m & E & [= <-])%bind_Ok. cbn in E. injection E as <-.
  split; [|by eexists]. split; [|done]. split; [done|]. split; [done|]. transitivity (mp_user_data a); [done|]. cbn. by split_and!.
Qed.

Lemma destinations_seen had set line a a' : bytes line ->
  (forall f, had_from (set f) = had_from f) ->
  once (C := unit) had set (parse_addresses_spec Addresses_error destination_address_cb line) a = Ok a' ->
  headers_seen (mp_flags a) (mp_user_data a) -> headers_seen (mp_flags a') (mp_user_data a') /\ mp_state a' = mp_state a.
Proof.
  intros Hb Hset. unfold once. destruct (had _); [done|]. unfold parse_addresses_spec. set (a0 := mp_set_flags set a). intros E (Hf & Hd & Hall).
  destruct (addresses_ok Addresses_error destination_address_cb (fun a => told a0 a /\ mp_flags a = mp_flags a0) (fun a => has_destination (mp_user_data a))
    (fun x u u' Hx Hp => destination_cb_ok a0 x u u' Hx Hp) line Plain [] false a0 a' bytes_nil Hb) as [[(S & _ & M1 & M2 & M3) F] Hdest]; [by split_and!|done|exact E|].
  split; [|done]. rewrite F. cbn. split_and!; [rewrite Hset; auto|done|auto].
Qed.

Lemma header_seen h line a a' : bytes line -> spec_header (C := unit) h line a = Ok a' -> headers_seen (mp_flags a) (mp_user_data a) ->
  headers_seen (mp_flags a') (mp_user_data a') /\ mp_state a' = mp_state a.
Proof.
  intros Hb E Hs. destruct h; cbn [spec_header] in E.
  - by injection E as <-.
  - by apply (destinations_seen had_to set_had_to line a a' Hb).
  - by apply (destinations_seen had_cc set_had_cc line a a' Hb).
  - by apply (destinations_seen had_bcc set_had_bcc line a a' Hb).
  - destruct Hs as (Hf & Hd & Hall). unfold parse_addresses_spec in E.
    destruct (addresses_ok Addresses_error from_address_cb
      (fun u => told a u /\ (had_to (mp_flags u) = had_to (mp_flags a) /\ had_cc (mp_flags u) = had_cc (mp_flags a) /\ had_bcc (mp_flags u) = had_bcc (mp_flags a)))
      (fun u => is_Some (im_from_address (mp_user_data u))) (fun x u u' Hx Hp => from_cb_ok a x u u' Hx Hp) line Plain [] false a a' bytes_nil Hb)
      as [((S & _ & M1 & M2 & M3) & F1 & F2 & F3) Hfrom]; [by split_and!|done|exact E|].
    split; [|done]. split_and!; [done|rewrite F1, F2, F3; auto|auto].
  - unfold once in E. destruct (had_subject _); [done|]. apply bind_Ok in E as (subject & _ & Ec). apply call_data_more in Ec as ((M1 & M2 & M3) & F & S & _).
    destruct Hs as (Hf & Hd & Hall). rewrite S. split; [|done]. rewrite F. split_and!; auto.
  - unfold once in E. destruct (had_content_type _); [done|]. unfold content_type_answer in E. destruct (content_type_spec _ _ _ _) as [[|] [?|]]; try done; by injection E as <-.
  - unfold once in E. destruct (had_transfer_encoding _); [done|]. unfold choose_encoding in E. apply bind_Ok in E as ([|] & _ & E); [by injection E as <-|].
    apply bind_Ok in E as ([|] & _ & E); [by injection E as <-|]. apply bind_Ok in E as (raw & _ & (raw' & _ & E)%bind_Ok). destruct raw'; [by injection E as <-|done].
Qed.

(** Outside of the content only the flags, the reports and the line matter. *)
Lemma mail_seen_intro a a' : mail_seen a -> mp_flags a' = mp_flags a -> mp_user_data a' = mp_user_data a -> mp_state a' <> NTB_MAIL_PARSER_CONTENT -> bytes (mp_buffer a') -> mail_seen a'.
Proof. intros (Hs & _ & _) F D S B. unfold mail_seen. rewrite F, D. by split_and!; try apply Hs. Qed.

Lemma name_seen c a a' : is_byte c -> mp_state a = NTB_MAIL_PARSER_HEADER_NAME -> mail_seen a -> spec_name (C := unit) c a = Ok a' -> mail_seen a'.
Proof.
  intros Hc Hst Hm. pose proof Hm as (Hs & _ & Hb). unfold spec_name. destruct (c =? 10).
  { destruct (mp_buffer a) eqn:Eb; [|done]. unfold handle_headers_end. destruct (had_from _) eqn:Ef; [|done]. cbn [negb].
    destruct (negb _ && _ && _) eqn:Et; [done|]. intros [= <-]. unfold mail_seen. destruct (mp_encoding a); cbn; (split; [done|split; [|by rewrite Eb]]; intros _; split; [done|]);
      by destruct (had_to _), (had_cc _), (had_bcc _). }
  destruct (c =? 58); [intros (h & _ & [= <-])%bind_Ok|intros [= <-]]; apply (mail_seen_intro a); try done; cbn; [by rewrite Hst|apply bytes_app; split; [done|by apply bytes_singleton]].
Qed.

Lemma value_seen c a a' : is_byte c -> mp_state a = NTB_MAIL_PARSER_HEADER_VALUE -> mail_seen a -> spec_value (C := unit) c a = Ok a' -> mail_seen a'.
Proof.
  intros Hc Hst Hm. pose proof Hm as (_ & _ & Hb). assert (Hsnoc : forall x, is_byte x -> bytes (mp_buffer a ++ [x])) by (intros; apply bytes_app; split; [done|by apply bytes_singleton]).
  unfold spec_value. destruct (ascii_islwsp c); [intros [= <-]; case_decide; [done|]; apply (mail_seen_intro a); try done; [cbn; by rewrite Hst|by apply Hsnoc]|].
  destruct (c =? 0); [done|]. destruct (c =? 13); [|destruct (c =? 10)]; intros [= <-]; apply (mail_seen_intro a); try done; [cbn; by rewrite Hst|by apply Hsnoc].
Qed.

Lemma content_seen c a a' : mail_seen a -> spec_content (C := unit) c a = Ok a' -> mail_seen a'.
Proof.
  intros ((Hf & Hd & Hall) & Hst & Hb) E. assert (Hc : exists l a1, call_data (C := unit) NTB_MAIL_PARSER_EVENT_CONTENT l a1 = Ok a' /\ mp_flags a1 = mp_flags a /\ mp_state a1 = mp_state a /\
    mp_buffer a1 = mp_buffer a /\ mp_user_data a1 = mp_user_data a).
  { unfold spec_content in E. destruct (mp_encoding a); [by exists [c], a| |]; destruct (mp_decoder a); try done;
      apply bind_Ok in E as ([? got] & _ & E); eexists got, _; (split; [exact E|done]). }
  destruct Hc as (l & a1 & Ec & F & S & B & D). apply call_data_more in Ec as ((M1 & M2 & M3) & F' & S' & B').
  unfold mail_seen. rewrite S', S, F', F, B', B. rewrite D in *. split_and!; auto. split_and!; auto.
Qed.

Lemma step_seen c a a' : is_byte c -> mail_seen a -> spec_step (C := unit) c a = Ok a' -> mail_seen a'.
Proof.
  intros Hc Hm. pose proof Hm as (Hs & Hst & Hb). unfold spec_step. destruct (mp_state a) eqn:Es.
  - by apply name_seen.
  - destruct (ascii_islwsp c); [by intros [= <-]|]. apply value_seen; [done|done|]. apply (mail_seen_intro a); try done. apply bytes_nil.
  - by apply value_seen.
  - destruct (c =? 10); [|done]. intros [= <-]. by apply (mail_seen_intro a).
  - destruct (ascii_islwsp c); [apply value_seen; [done|done|]; by apply (mail_seen_intro a)|]. unfold spec_header_end.
    intros (a1 & E1 & E2)%bind_Ok. destruct (mp_current_header a) as [h|]; [|done].
    apply header_seen in E1 as [Hs1 S1]; [|unfold trim_space; case_decide; [by apply bytes_take|done]|done].
    revert E2. apply name_seen; [done|done|]. split; [exact Hs1|]. split; [done|apply bytes_nil].
  - by apply content_seen.
Qed.

Lemma steps_seen l : forall a a', bytes l -> mail_seen a -> spec_steps (C := unit) l a = Ok a' -> mail_seen a'.
Proof.
  induction l as [|c l IH]; intros a a' Hb Hm; cbn [spec_steps]; [by intros [= <-]|]. apply bytes_cons in Hb as [Hc Hb].
  intros (a1 & E1 & E2)%bind_Ok. eapply IH; [done| |done]. by eapply step_seen.
Qed.

(** A mail that is accepted. *)
Lemma accepted_mail l m : bytes l -> mail_spec (C := unit) l new_ipc_mail = Ok m -> is_Some (im_from_address m) /\ has_destination m /\ destinations_ok m.
Proof.
  intros Hb. unfold mail_spec. intros (a & E & Ee)%bind_Ok.
  assert (Hm : mail_seen a) by (eapply (steps_seen l (spec_new new_ipc_mail)); [done| |done]; split; [split_and!; [done|done|constructor]|split; [done|apply bytes_nil]]).
  destruct Hm as ((Hf & Hd & Hall) & Hst & _). unfold ntb_mail_parser_end in Ee. destruct (mp_state a); try done. destruct (Hst eq_refl) as [F1 F2]. specialize (Hf F1). specialize (Hd F2).
  destruct (mp_encoding a); [by injection Ee as <-| |]; destruct (mp_decoder a); try done; apply bind_Ok in Ee as (got & _ & Ee); [|by injection Ee as <-].
  apply bind_Ok in Ee as (? & _ & (a1 & Ec & [= <-])%bind_Ok). apply call_data_more in Ec as ((M1 & M2 & M3) & _). auto.
Qed.
End mail.
