(* ===== verification/IpcInv.v ===== *)
(** * IpcInv: the invariant of the local socket (for [Ipc])

    What the key ring promises, as a class; what a state satisfies between two events;
    ending an email, a task and a connection. *)

From S2P Require Import Prelude Endian Buffer NetAddress OpenSSL Proto ProtoSpec NetText KeyValue Pow Base58 Address Base64 QuotedPrintable EncodedWords Outgoings Ecc Keys ParseContentType ParseAddresses MailParser MailParserSpec Connection ConnectionSpec KeyringInv KeyringCallbacks KeyringCalls IpcProto IpcProtoSpec Ipc IpcMail.

(** [ks_pending] has the keys that are being created: the number of the request and
    what the callback gets. *)
Class KeyringServiceLaws `{KeyringService K} := {
  ks_ok : K -> Prop;
  ks_pending : K -> gmap nat nat;
  ks_send_spec from_address to_addresses content_encoding content k : ks_ok k -> Forall destination_ok to_addresses ->
    exists sent k', ks_send_message from_address to_addresses content_encoding content k = Ok (sent, k') /\ ks_ok k' /\ ks_pending k' = ks_pending k;
  ks_create_spec params leading_zeroes t k : ks_ok k -> create_key_params_ok params ->
    exists c k', ks_create_key params leading_zeroes t k = Ok (c, k') /\ ks_ok k' /\ ks_pending k !! c = None /\ ks_pending k' = <[c := t]> (ks_pending k);
  ks_cancel_spec c t k : ks_ok k -> ks_pending k !! c = Some t ->
    exists k', ks_cancel_task c k = Ok k' /\ ks_ok k' /\ ks_pending k' = delete c (ks_pending k)
}.

Section inv.
Context `{DigestLaws} `{BigNumLaws} `{KeyringServiceLaws K}.
Implicit Type s : ntb_ipc K.

(** The parser of an email that has been read up to [l]. *)
Definition mail_ok (l : list Z) (p : mail_parser ntb_buffer ipc_mail) : Prop :=
  bytes l /\ exists a, spec_steps (C := unit) l (spec_new new_ipc_mail) = Ok a /\ simulates (zlen l) p a.

(** The tasks of the connection [x], which is about to be freed, may be gone; no other
    connection has finished writing. *)
Record conn_ok (x : option nat) s (i : nat) (c : ntb_ipc_connection) : Prop := {
  co_write : x <> Some i -> ic_write_finished c = false;
  co_emails : NoDup (ic_emails c) /\ forall e, e ∈ ic_emails c -> exists em, ipc_email s !! e = Some em /\ em_conn em = i;
  co_tasks : NoDup (ic_tasks c) /\ (x <> Some i -> forall t, t ∈ ic_tasks c -> exists task, ipc_task s !! t = Some task /\ it_conn task = i);
  co_out : exists l, repr (ic_outbuf c) l;
  co_in : in_ok 0 (ic_inbuf c) /\ exists l, repr (ic_inbuf c) l
}.

(** [M] has what was read of the emails, when something was read. *)
Record ipc_inv (x : option nat) (M : gmap nat (list Z)) s : Prop := {
  in_list : NoDup (ipc_connections s) /\ forall i, i ∈ ipc_connections s <-> is_Some (ipc_connection s !! i);
  in_conns : forall i c, ipc_connection s !! i = Some c -> conn_ok x s i c;
  in_emails : forall e em, ipc_email s !! e = Some em -> 0 <= em_request_id em < 2 ^ 32 /\ mail_ok (default [] (M !! e)) (em_parser em) /\
    exists c, ipc_connection s !! em_conn em = Some c /\ e ∈ ic_emails c;
  in_tasks : forall t task, ipc_task s !! t = Some task -> 0 <= it_request_id task < 2 ^ 32 /\ ks_pending (ipc_keyring s) !! it_keyring_cookie task = Some t /\
    exists c, ipc_connection s !! it_conn task = Some c /\ t ∈ ic_tasks c;
  in_pending : forall c t, ks_pending (ipc_keyring s) !! c = Some t -> exists task, ipc_task s !! t = Some task /\ it_keyring_cookie task = c;
  in_next : bounded (ipc_connection s) (ipc_next s) /\ bounded (ipc_email s) (ipc_next s) /\ bounded (ipc_task s) (ipc_next s) /\ bounded M (ipc_next s);
  in_keyring : ks_ok (ipc_keyring s)
}.

Lemma update_connection_Some i f c s : ipc_connection s !! i = Some c -> update_connection i f s = Ok (ipc_set_connection (<[i := f c]> (ipc_connection s)) s).
Proof. intros E. unfold update_connection. by rewrite E. Qed.

(** ** Changing a connection *)

Lemma conn_ok_same x s s' i c : ipc_email s' = ipc_email s -> ipc_task s' = ipc_task s -> conn_ok x s i c -> conn_ok x s' i c.
Proof. intros E1 E2 []. split; rewrite ?E1, ?E2; auto. Qed.

Lemma bounded_put {A} (m : gmap nat A) n i x : bounded m n -> is_Some (m !! i) -> bounded (<[i := x]> m) n.
Proof. intros Hb Hi. apply bounded_insert; [done|]. by apply Hb. Qed.

Lemma put_conn x M i c c' s : ipc_inv x M s -> ipc_connection s !! i = Some c -> conn_ok x s i c' ->
  (forall e, e ∈ ic_emails c -> e ∈ ic_emails c') -> (forall t, t ∈ ic_tasks c -> t ∈ ic_tasks c') ->
  ipc_inv x M (ipc_set_connection (<[i := c']> (ipc_connection s)) s).
Proof.
  intros [] Hc Hok He Ht. split; cbn [ipc_set_connection ipc_connections ipc_connection ipc_email ipc_task ipc_keyring ipc_next]; try done.
  - split; [apply in_list0|]. intros j. rewrite (proj2 in_list0 j). destruct (decide (j = i)) as [->|Hj]; [rewrite lookup_insert_eq, Hc; split; by eexists|by rewrite lookup_insert_ne].
  - intros j cj. destruct (decide (j = i)) as [->|Hj].
    + rewrite lookup_insert_eq. intros [= <-]. by eapply conn_ok_same; [..|exact Hok].
    + rewrite lookup_insert_ne by done. intros Hcj. by eapply conn_ok_same; [..|apply in_conns0].
  - intros e em Hem. destruct (in_emails0 e em Hem) as (R & Hm & ce & Hce & Hin). split; [done|]. split; [done|]. destruct (decide (em_conn em = i)) as [Ei|Hj].
    + rewrite Ei in *. rewrite lookup_insert_eq. eexists. split; [done|]. apply He. congruence.
    + rewrite lookup_insert_ne by done. by exists ce.
  - intros t task Htask. destruct (in_tasks0 t task Htask) as (R & Hp & ct & Hct & Hin). split; [done|]. split; [done|]. destruct (decide (it_conn task = i)) as [Ei|Hj].
    + rewrite Ei in *. rewrite lookup_insert_eq. eexists. split; [done|]. apply Ht. congruence.
    + rewrite lookup_insert_ne by done. by exists ct.
  - split; [|apply in_next0]. apply bounded_put; [apply in_next0|by eexists].
Qed.

Lemma close_inv x M fds s : ipc_inv x M s -> ipc_inv x M (ipc_close fds s).
Proof. intros []. split; try done. intros i c Hc. by eapply conn_ok_same; [..|apply in_conns0]. Qed.

(** ** Ending an email *)

Lemma remove_email_spec x M e em s : ipc_inv x M s -> ipc_email s !! e = Some em ->
  exists c s', remove_email e s = Ok s' /\ ipc_connection s !! em_conn em = Some c /\ ipc_inv x M s' /\
    s' = ipc_set_email (delete e (ipc_email s)) (ipc_set_connection (<[em_conn em := ic_set_emails (filter (.≠ e) (ic_emails c)) c]> (ipc_connection s)) (ipc_close [em_fd em] s)).
Proof.
  intros Hi Hem. pose proof Hi as []. destruct (in_emails0 e em Hem) as (_ & _ & c & Hc & Hin). exists c. eexists. unfold remove_email. rewrite Hem. cbn [need]. rewrite bind_ret_l.
  rewrite (update_connection_Some _ _ c), bind_ret_l by done. split; [reflexivity|]. split; [done|]. split; [|done].
  pose proof (in_conns0 _ _ Hc) as [].
  assert (Hother : forall j cj, j <> em_conn em -> ipc_connection s !! j = Some cj -> e ∉ ic_emails cj).
  { intros j cj Hj Hcj Hin'. destruct (co_emails _ _ _ _ (in_conns0 j cj Hcj)) as [_ Hm]. destruct (Hm e Hin') as (em' & Hem' & <-). congruence. }
  split; cbn [ipc_set_email ipc_set_connection ipc_close ipc_connections ipc_connection ipc_email ipc_task ipc_keyring ipc_next]; try done.
  - split; [apply in_list0|]. intros j. rewrite (proj2 in_list0 j). destruct (decide (j = em_conn em)) as [->|Hj]; [rewrite lookup_insert_eq, Hc; split; by eexists|by rewrite lookup_insert_ne].
  - intros j cj. destruct (decide (j = em_conn em)) as [->|Hj].
    + rewrite lookup_insert_eq. intros [= <-]. split; cbn; try done. split; [apply NoDup_filter, co_emails0|]. intros e' [He' Hin']%list_elem_of_filter. rewrite lookup_delete_ne by done. by apply co_emails0.
    + rewrite lookup_insert_ne by done. intros Hcj. pose proof (in_conns0 j cj Hcj) as [? [? Hm] ? ? ?]. split; try done. split; [done|]. intros e' He'. cbn.
      rewrite lookup_delete_ne; [by apply Hm|]. intros <-. by apply (Hother j cj).
  - intros e' em' Hem'. apply lookup_delete_Some in Hem' as [Hne Hem']. destruct (in_emails0 e' em' Hem') as (R & Hm & ce & Hce & Hin'). split; [done|]. split; [done|].
    destruct (decide (em_conn em' = em_conn em)) as [Eq|Hj].
    + rewrite Eq, lookup_insert_eq. eexists. split; [done|]. cbn. apply list_elem_of_filter. split; [done|]. rewrite Eq in Hce. congruence.
    + rewrite lookup_insert_ne by done. by exists ce.
  - intros t task Htask. destruct (in_tasks0 t task Htask) as (R & Hp & ct & Hct & Hin'). split; [done|]. split; [done|]. destruct (decide (it_conn task = em_conn em)) as [Eq|Hj].
    + rewrite Eq, lookup_insert_eq. eexists. split; [done|]. cbn. rewrite Eq in Hct. congruence.
    + rewrite lookup_insert_ne by done. by exists ct.
  - destruct in_next0 as (? & ? & ? & ?). split_and!; [apply bounded_put; [done|by eexists]|by apply bounded_delete|done..].
Qed.

(** What ending the emails of the connection [i] keeps. *)
Definition frame_conn (i : nat) s s' : Prop :=
  ipc_connections s' = ipc_connections s /\ (forall j, j <> i -> ipc_connection s' !! j = ipc_connection s !! j) /\ ipc_task s' = ipc_task s /\
  ipc_keyring s' = ipc_keyring s /\ ipc_next s' = ipc_next s /\ ipc_uid s' = ipc_uid s /\ ipc_listening s' = ipc_listening s.
#[global] Instance frame_conn_preorder i : PreOrder (frame_conn i).
Proof.
  split; [by intros s|]. intros s1 s2 s3 (A1 & A2 & A3 & A4 & A5 & A6 & A7) (B1 & B2 & B3 & B4 & B5 & B6 & B7). unfold frame_conn. split_and!; try congruence.
  intros j Hj. by rewrite B2, A2.
Qed.

Lemma remove_emails_spec x M i l : forall c s, ipc_inv x M s -> ipc_connection s !! i = Some c -> ic_emails c = l ->
  exists c' s', for_each remove_email l s = Ok s' /\ ipc_inv x M s' /\ frame_conn i s s' /\ ipc_connection s' !! i = Some c' /\ ic_emails c' = [] /\ ic_tasks c' = ic_tasks c /\
    ic_sock c' = ic_sock c /\ ic_fd_queue c' = ic_fd_queue c.
Proof.
  induction l as [|e l IH]; intros c s Hi Hc El; cbn [for_each]; [exists c, s; by split_and!|].
  destruct (co_emails _ _ _ _ (in_conns _ _ _ Hi i c Hc)) as [Hn He]. rewrite El in Hn, He. destruct (He e ltac:(by left)) as (em & Hem & Ei).
  destruct (remove_email_spec x M e em s Hi Hem) as (c0 & s1 & -> & Hc0 & Hi1 & E1). rewrite bind_ret_l. rewrite Ei in *. assert (c0 = c) as -> by congruence.
  set (c1 := ic_set_emails (filter (.≠ e) (ic_emails c)) c) in *.
  destruct (IH c1 s1 Hi1) as (c' & s' & -> & Hi' & Hf & Hc' & R1 & R2 & R3 & R4); [rewrite E1; apply lookup_insert_eq|unfold c1; cbn; rewrite El; by apply filter_head_out|].
  exists c', s'. split_and!; try done. etransitivity; [|exact Hf]. rewrite E1. split_and!; try done. intros j Hj. cbn. by rewrite lookup_insert_ne.
Qed.

(** ** Ending tasks *)

Lemma inv_weaken x M s : ipc_inv None M s -> ipc_inv x M s.
Proof. intros []. split; try done. intros i c Hc. pose proof (in_conns0 i c Hc) as []. split; auto. split; [apply co_tasks0|]. intros _. by apply co_tasks0. Qed.

Lemma cancel_one M i t task s : ipc_inv (Some i) M s -> ipc_task s !! t = Some task -> it_conn task = i ->
  exists k, ks_cancel_task (it_keyring_cookie task) (ipc_keyring s) = Ok k /\ ipc_inv (Some i) M (ipc_set_task (delete t (ipc_task s)) (ipc_set_keyring k s)).
Proof.
  intros Hi Ht Ei. pose proof Hi as []. destruct (in_tasks0 t task Ht) as (_ & Hp & _). destruct (ks_cancel_spec _ _ _ in_keyring0 Hp) as (k & -> & Hk & Ek). exists k. split; [done|].
  split; cbn [ipc_set_task ipc_set_keyring ipc_connections ipc_connection ipc_email ipc_task ipc_keyring ipc_next]; try done.
  - intros j c Hc. pose proof (in_conns0 j c Hc) as []. split; try done. split; [apply co_tasks0|]. intros Hj t' Ht'. destruct (proj2 co_tasks0 Hj t' Ht') as (task' & Htask' & Ej).
    exists task'. split; [|done]. cbn. rewrite lookup_delete_ne; [done|]. intros <-. congruence.
  - intros t' task' Ht'. apply lookup_delete_Some in Ht' as [Hne Ht']. destruct (in_tasks0 t' task' Ht') as (R & Hp' & Hc'). split; [done|]. split; [|done].
    rewrite Ek, lookup_delete_ne; [done|]. intros Ec. rewrite Ec in Hp. congruence.
  - intros c t' Hc. rewrite Ek in Hc. apply lookup_delete_Some in Hc as [Hne Hc]. destruct (in_pending0 c t' Hc) as (task' & Ht' & Ec). exists task'. split; [|done].
    rewrite lookup_delete_ne; [done|]. intros <-. congruence.
  - destruct in_next0 as (? & ? & ? & ?). split_and!; [done..|by apply bounded_delete|done].
Qed.

(** What cancelling tasks keeps. *)
Definition frame_tasks s s' : Prop :=
  ipc_connections s' = ipc_connections s /\ ipc_connection s' = ipc_connection s /\ ipc_email s' = ipc_email s /\ ipc_next s' = ipc_next s /\ ipc_closed s' = ipc_closed s /\
  ipc_uid s' = ipc_uid s /\ ipc_listening s' = ipc_listening s.

Lemma cancel_tasks_spec M i l : forall s, ipc_inv (Some i) M s -> NoDup l -> (forall t, t ∈ l <-> exists task, ipc_task s !! t = Some task /\ it_conn task = i) ->
  exists s', for_each (fun t s => task ← need (ipc_task s !! t); k ← ks_cancel_task (it_keyring_cookie task) (ipc_keyring s); Ok (ipc_set_task (delete t (ipc_task s)) (ipc_set_keyring k s))) l s = Ok s' /\
    ipc_inv (Some i) M s' /\ frame_tasks s s' /\ forall t task, ipc_task s' !! t = Some task -> it_conn task <> i.
Proof.
  induction l as [|t l IH]; intros s Hi Hn Hl; cbn [for_each].
  - exists s. split_and!; try done. intros t task Ht Ei. assert (Hin : t ∈ []) by (apply Hl; by exists task). inversion Hin.
  - apply NoDup_cons in Hn as [Hnot Hn]. destruct (proj1 (Hl t) ltac:(by left)) as (task & Ht & Ei). rewrite Ht. cbn [need]. rewrite !bind_ret_l.
    destruct (cancel_one M i t task s Hi Ht Ei) as (k & -> & Hi1). rewrite !bind_ret_l. destruct (IH _ Hi1 Hn) as (s' & -> & Hi' & Hf & Ho).
    + intros t'. cbn. split.
      * intros Hin. destruct (proj1 (Hl t') ltac:(by right)) as (task' & Ht' & E'). exists task'. rewrite lookup_delete_ne; [done|]. by intros ->.
      * intros (task' & [Hne Ht']%lookup_delete_Some & E'). assert (Hin : t' ∈ t :: l) by (apply Hl; by exists task'). apply elem_of_cons in Hin as [->|]; done.
    + exists s'. by split_and!.
Qed.

(** ** Freeing a connection *)

Lemma remove_freed_connection M i c s : ipc_inv (Some i) M s -> ipc_connection s !! i = Some c ->
  (forall t, t ∈ ic_tasks c -> exists task, ipc_task s !! t = Some task /\ it_conn task = i) ->
  exists s', remove_connection i s = Ok s' /\ ipc_inv None M s' /\ ipc_connection s' !! i = None /\ (forall j, j <> i -> ipc_connection s' !! j = ipc_connection s !! j) /\
    ipc_connections s' = filter (.≠ i) (ipc_connections s).
Proof.
  intros Hi Hc Htasks. unfold remove_connection, remove_emails. rewrite Hc. cbn [need]. rewrite !bind_ret_l.
  destruct (remove_emails_spec (Some i) M i _ c s Hi Hc eq_refl) as (c1 & s1 & -> & Hi1 & (F1 & F2 & F3 & F4 & F5 & _) & Hc1 & Ee & Et & Es & Eq). rewrite bind_ret_l.
  unfold ipc_cancel_tasks. rewrite Hc1. cbn [need]. rewrite !bind_ret_l. pose proof (in_conns _ _ _ Hi1 i c1 Hc1) as Hok1.
  destruct (cancel_tasks_spec M i (ic_tasks c1) s1 Hi1) as (s2 & -> & Hi2 & (G1 & G2 & G3 & G4 & G5 & _) & Ho); [apply (co_tasks _ _ _ _ Hok1)| |].
  { intros t. split; [rewrite F3, Et; apply Htasks|]. intros (task & Ht & Ei). destruct (in_tasks _ _ _ Hi1 t task Ht) as (_ & _ & c' & Hc' & Hin). congruence. }
  rewrite bind_ret_l. assert (Hc2 : ipc_connection s2 !! i = Some c1) by congruence. unfold close_fd_queue. rewrite Hc2. cbn [need]. rewrite bind_ret_l.
  rewrite (update_connection_Some i _ c1), bind_ret_l by done. cbn [ipc_set_connection ipc_close ipc_connection]. rewrite lookup_insert_eq. cbn [need]. rewrite bind_ret_l.
  eexists. split; [reflexivity|]. cbn [ipc_set_connection ipc_close ipc_connection ipc_set_connections ipc_connections]. rewrite delete_insert_eq.
  split; [|split; [apply lookup_delete_eq|split; [intros j Hj; rewrite lookup_delete_ne by done; rewrite G2; by apply F2|by rewrite G1, F1]]].
  pose proof Hi2 as []. assert (Hnoem : forall e em, ipc_email s2 !! e = Some em -> em_conn em <> i).
  { intros e em Hem Ei. destruct (in_emails0 e em Hem) as (_ & _ & c' & Hc' & Hin). rewrite Ei in Hc'. assert (c' = c1) as -> by congruence. rewrite Ee in Hin. inversion Hin. }
  split; cbn [ipc_set_connection ipc_close ipc_set_connections ipc_connections ipc_connection ipc_email ipc_task ipc_keyring ipc_next]; try done.
  - split; [apply NoDup_filter, in_list0|]. intros j. rewrite list_elem_of_filter, (proj2 in_list0 j), lookup_delete_is_Some. split; intros [Hj Hs]; (split; [congruence|done]).
  - intros j cj Hcj. apply lookup_delete_Some in Hcj as [Hj Hcj]. pose proof (in_conns0 j cj Hcj) as []. assert (Hx : Some i <> Some j) by congruence. split; auto. split; [apply co_tasks0|]. intros _. by apply co_tasks0.
  - intros e em Hem. destruct (in_emails0 e em Hem) as (R & Hm & c' & Hc' & Hin). split; [done|]. split; [done|]. exists c'. rewrite lookup_delete_ne; [done|]. intros E. by apply (Hnoem e em).
  - intros t task Ht. destruct (in_tasks0 t task Ht) as (R & Hp & c' & Hc' & Hin). split; [done|]. split; [done|]. exists c'. rewrite lookup_delete_ne; [done|]. intros E. by apply (Ho t task).
  - destruct in_next0 as (? & ? & ? & ?). split_and!; [by apply bounded_delete|done..].
Qed.
Lemma remove_connection_spec M i c s : ipc_inv None M s -> ipc_connection s !! i = Some c ->
  exists s', remove_connection i s = Ok s' /\ ipc_inv None M s' /\ ipc_connection s' !! i = None /\ (forall j, j <> i -> ipc_connection s' !! j = ipc_connection s !! j) /\
    ipc_connections s' = filter (.≠ i) (ipc_connections s).
Proof. intros Hi Hc. apply (remove_freed_connection M i c); [by apply inv_weaken|done|]. by apply (co_tasks _ _ _ _ (in_conns _ _ _ Hi i c Hc)). Qed.
End inv.
