(* ===== verification/IpcHandlers.v ===== *)
(** * IpcHandlers: responses, emails and commands (for [Ipc])

    What the handlers of the local socket do to a state that satisfies [ipc_inv]. *)

From S2P Require Import Prelude Endian Buffer NetAddress OpenSSL Proto ProtoSpec NetText KeyValue Pow Base58 Address Base64 QuotedPrintable EncodedWords Outgoings Ecc Keys ParseContentType ParseAddresses MailParser MailParserSpec Connection ConnectionSpec KeyringInv KeyringCallbacks KeyringCalls IpcProto IpcProtoSpec Ipc IpcMail IpcInv.

Section handlers.
Context `{DigestLaws} `{BigNumLaws} `{!Elliptic} `{Symmetric} `{Digest256} `{KeyringServiceLaws K}.
Implicit Type s : ntb_ipc K.

(** ** Responses *)

Definition response (request_id : Z) (status : ntb_ipc_proto_status) (payload : list Z) : list Z :=
  ipc_frame (str_bytes "response") request_id (be_split 4 (status_number status) ++ payload).

Lemma zlen_response request_id status payload : zlen (response request_id status payload) = 24 + zlen payload.
Proof. unfold response. rewrite zlen_ipc_frame, zlen_app, zlen_be_split by done. lia. Qed.

(** The connection when [l] was added to what is to be written. *)
Definition answered (c : ntb_ipc_connection) (l : list Z) (c' : ntb_ipc_connection) : Prop :=
  ic_sock c' = ic_sock c /\ ic_read_finished c' = ic_read_finished c /\ ic_write_finished c' = ic_write_finished c /\ ic_inbuf c' = ic_inbuf c /\
  ic_fd_queue c' = ic_fd_queue c /\ ic_emails c' = ic_emails c /\ ic_tasks c' = ic_tasks c /\ exists out, repr (ic_outbuf c) out /\ repr (ic_outbuf c') (out ++ l).

Lemma answered_inv M i c l c' s : ipc_inv None M s -> ipc_connection s !! i = Some c -> answered c l c' -> ipc_inv None M (ipc_set_connection (<[i := c']> (ipc_connection s)) s).
Proof.
  intros Hi Hc (A1 & A2 & A3 & A4 & A5 & A6 & A7 & out & _ & Ho). pose proof (in_conns _ _ _ Hi i c Hc) as []. apply (put_conn None M i c); [done|done| |by rewrite A6|by rewrite A7].
  split; rewrite ?A3, ?A4, ?A6, ?A7; try done. by eexists.
Qed.

Lemma update_poll_open i c s : ipc_connection s !! i = Some c -> ic_write_finished c = false -> 0 < buf_length (ic_outbuf c) ->
  update_poll false i s = Ok (true, ipc_set_connection (<[i := ic_set_poll (negb (ic_read_finished c)) true c]> (ipc_connection s)) s).
Proof.
  intros Hc Hw Hl. unfold update_poll. rewrite Hc. cbn [need]. rewrite bind_ret_l, andb_false_r, Hw. cbn [negb andb orb].
  rewrite (proj2 (Z.eqb_neq _ _)), (proj2 (Z.ltb_lt _ _)) by lia. rewrite !andb_false_r. cbn [orb andb].
  rewrite (update_connection_Some _ _ c), bind_ret_l by done.
  rewrite (update_connection_Some _ _ (ic_set_finished (ic_read_finished c) false c)), bind_ret_l by (cbn; apply lookup_insert_eq).
  cbn [ipc_set_connection ipc_connection]. rewrite insert_insert_eq. by destruct c; cbn in *; subst.
Qed.

Lemma respond_spec M i c request_id status f payload s :
  ipc_inv None M s -> ipc_connection s !! i = Some c -> 0 <= request_id < 2 ^ 32 -> buf_length (ic_outbuf c) + zlen payload + 128 <= 2 ^ 62 -> zlen payload < 2 ^ 31 ->
  (forall b, fits b (zlen payload + 64) -> appends b (f b) payload) ->
  exists c', (s ← begin_send_response i request_id status s; s ← append_response i f s; end_send_response i s) =
      Ok (true, ipc_set_connection (<[i := c']> (ipc_connection s)) s) /\ answered c (response request_id status payload) c'.
Proof.
  intros Hi Hc Hid Hroom Hp Hf. pose proof (in_conns _ _ _ Hi i c Hc) as Hok. destruct (co_out _ _ _ _ Hok) as [out Hout]. pose proof (co_write _ _ _ _ Hok ltac:(done)) as Hwf. pose proof (repr_length _ _ Hout) as Hlen. pose proof Hout as [Hb Hcells].
  zlen_pose. unfold begin_send_response. rewrite Hc. cbn [need]. rewrite bind_ret_l.
  destruct (ipc_begin_command_spec (ic_outbuf c) (str_bytes "response") request_id) as (b1 & junk & -> & G1 & Hj); [split; [done|lia]|done|done|]. rewrite bind_ret_l.
  pose proof G1 as (W1 & L1 & _). unfold open_command in L1. rewrite zlen_app, zlen_fmap, zlen_app, zlen_padded_command, zlen_be_split in L1 by done.
  assert (Hst : 0 <= status_number status < 2 ^ 32) by (by destruct status).
  destruct (appends_grows b1 _ _ (appends_add_32 b1 (status_number status) ltac:(split; [done|lia]) Hst)) as (b2 & -> & G2). rewrite bind_ret_l.
  pose proof G2 as (W2 & L2 & _). rewrite zlen_fmap, zlen_be_split in L2.
  rewrite (update_connection_Some _ _ c), bind_ret_l by done. unfold append_response. cbn [ipc_set_connection ipc_connection]. rewrite lookup_insert_eq. cbn [need]. rewrite bind_ret_l.
  cbn [ic_set_outbuf ic_outbuf]. destruct (appends_grows b2 _ _ (Hf b2 ltac:(split; [done|lia]))) as (b3 & -> & G3). rewrite bind_ret_l.
  erewrite update_connection_Some by (cbn [ipc_set_connection ipc_connection]; apply lookup_insert_eq). rewrite bind_ret_l. cbn [ipc_set_connection ipc_connection]. rewrite insert_insert_eq.
  unfold end_send_response, append_response. cbn [ipc_set_connection ipc_connection]. rewrite lookup_insert_eq. cbn [need]. rewrite !bind_ret_l.
  cbn [ic_set_outbuf ic_set_response_old_length ic_outbuf ic_response_old_length].
  pose proof (grows_trans _ _ _ _ _ G1 (grows_trans _ _ _ _ _ G2 G3)) as G. rewrite <- fmap_app in G.
  destruct (ipc_end_command_spec (ic_outbuf c) b3 (str_bytes "response") request_id junk (be_split 4 (status_number status) ++ payload)) as (b4 & -> & W4 & L4 & C4);
    [done|done|done|exact G|rewrite zlen_app, zlen_be_split; lia|]. rewrite bind_ret_l.
  erewrite update_connection_Some by (cbn [ipc_set_connection ipc_connection]; apply lookup_insert_eq). rewrite bind_ret_l. cbn [ipc_set_connection ipc_connection]. rewrite insert_insert_eq.
  rewrite (update_poll_open _ (ic_set_outbuf b4 (ic_set_response_old_length (buf_length (ic_outbuf c)) c)));
    [|cbn [ipc_set_connection ipc_connection]; apply lookup_insert_eq|done|].
  2: { cbn [ic_set_outbuf ic_outbuf]. rewrite L4. rewrite (zlen_response request_id status payload : zlen (ipc_frame _ _ _) = _). lia. }
  cbn [ipc_set_connection ipc_connection]. rewrite insert_insert_eq. eexists. split; [reflexivity|]. split_and!; try done.
  exists out. split; [done|]. split; [done|]. cbn. rewrite C4, Hcells. by rewrite fmap_app.
Qed.

Lemma append_response_id i c s : ipc_connection s !! i = Some c -> append_response i Ok s = Ok s.
Proof.
  intros Hc. unfold append_response. rewrite Hc. cbn [need]. rewrite !bind_ret_l. rewrite (update_connection_Some _ _ c) by done.
  replace (ic_set_outbuf (ic_outbuf c) c) with c by (by destruct c). rewrite insert_id by done. by destruct s.
Qed.

Lemma appends_vprintf text b : fits b (zlen text + 64) -> appends b (ntb_buffer_append_vprintf b text) text.
Proof. intros [Hwf Hf]. destruct (append_vprintf_spec (E := unit) b text) as (b' & -> & W & L & C); [done|lia|]. by exists b'. Qed.

Lemma send_response_spec M i c request_id status text s :
  ipc_inv None M s -> ipc_connection s !! i = Some c -> 0 <= request_id < 2 ^ 32 -> buf_length (ic_outbuf c) + zlen text + 128 <= 2 ^ 62 -> zlen text < 2 ^ 31 ->
  exists c', send_response i request_id status text s = Ok (true, ipc_set_connection (<[i := c']> (ipc_connection s)) s) /\ answered c (response request_id status text) c'.
Proof. intros Hi Hc Hid Hroom Ht. apply (respond_spec M i c request_id status (fun b => ntb_buffer_append_vprintf b text)); try done. intros b. apply appends_vprintf. Qed.

Lemma send_success_spec M i c request_id s :
  ipc_inv None M s -> ipc_connection s !! i = Some c -> 0 <= request_id < 2 ^ 32 -> buf_length (ic_outbuf c) + 128 <= 2 ^ 62 ->
  exists c', (s ← begin_send_response i request_id NTB_IPC_PROTO_STATUS_SUCCESS s; end_send_response i s) = Ok (true, ipc_set_connection (<[i := c']> (ipc_connection s)) s) /\
    answered c (response request_id NTB_IPC_PROTO_STATUS_SUCCESS []) c'.
Proof.
  intros Hi Hc Hid Hroom. destruct (respond_spec M i c request_id NTB_IPC_PROTO_STATUS_SUCCESS Ok [] s) as (c' & E & Ha); try done; [rewrite zlen_nil; lia| |].
  { intros b [Hwf _]. exists b. rewrite fmap_nil, app_nil_r, zlen_nil. split_and!; [done|done|lia|done]. }
  exists c'. split; [|done]. rewrite <- E. destruct (begin_send_response _ _ _ s) as [s1| | |] eqn:Eb; try done. rewrite !bind_ret_l.
  assert (Hc1 : is_Some (ipc_connection s1 !! i)).
  { unfold begin_send_response in Eb. rewrite Hc in Eb. cbn [need] in Eb. rewrite bind_ret_l in Eb. apply bind_Ok in Eb as (b & _ & (b' & _ & Eu)%bind_Ok).
    rewrite (update_connection_Some _ _ c) in Eu by done. injection Eu as <-. cbn. rewrite lookup_insert_eq. by eexists. }
  destruct Hc1 as [c1 Hc1]. by rewrite (append_response_id i c1), bind_ret_l.
Qed.

(** ** Emails *)

Lemma set_keyring_inv x M k s : ipc_inv x M s -> ks_ok k -> ks_pending k = ks_pending (ipc_keyring s) -> ipc_inv x M (ipc_set_keyring k s).
Proof.
  intros [IL IC IE IT IP IN IK] Hk Ek. split; cbn [ipc_set_keyring ipc_keyring ipc_connections ipc_connection ipc_email ipc_task ipc_next]; rewrite ?Ek; try done.
  intros i c Hc. by eapply conn_ok_same; [..|apply IC].
Qed.

(** The texts that other parts of the program make. *)
Context (nonblock_error : Z -> option (list Z)) (mail_error_text : mail_error unit -> list Z) (unknown_from_text : list Z).

Definition texts_small : Prop :=
  (forall e, zlen (mail_error_text e) <= 2 ^ 20) /\ zlen unknown_from_text <= 2 ^ 20 /\ forall fd text, nonblock_error fd = Some text -> zlen text <= 2 ^ 20.

(** The email [e] of the connection [c] has ended and was answered. *)
Definition email_ended (e : nat) (em : ntb_ipc_email) (c : ntb_ipc_connection) (status : ntb_ipc_proto_status) (text : list Z) s s' : Prop :=
  ipc_email s' = delete e (ipc_email s) /\ ipc_closed s' = ipc_closed s ++ [em_fd em] /\ ipc_connections s' = ipc_connections s /\ ipc_task s' = ipc_task s /\ ipc_next s' = ipc_next s /\
  exists c1, answered c (response (em_request_id em) status text) c1 /\
    ipc_connection s' = <[em_conn em := ic_set_emails (filter (.≠ e) (ic_emails c)) c1]> (ipc_connection s).

Lemma end_email_spec M e em c c1 status text s :
  ipc_inv None M s -> ipc_email s !! e = Some em -> ipc_connection s !! em_conn em = Some c -> answered c (response (em_request_id em) status text) c1 ->
  exists s', remove_email e (ipc_set_connection (<[em_conn em := c1]> (ipc_connection s)) s) = Ok s' /\ ipc_inv None M s' /\ email_ended e em c status text s s' /\ ipc_keyring s' = ipc_keyring s.
Proof.
  intros Hi Hem Hc Ha. pose proof (answered_inv M _ c _ c1 s Hi Hc Ha) as Hi1.
  destruct (remove_email_spec None M e em _ Hi1 Hem) as (c2 & s' & -> & Hc2 & Hi' & Es'). cbn in Hc2. rewrite lookup_insert_eq in Hc2. injection Hc2 as <-.
  exists s'. split; [done|]. split; [done|]. rewrite Es'. split; [|done]. unfold email_ended. cbn [ipc_set_email ipc_set_connection ipc_close ipc_email ipc_closed ipc_connections ipc_connection ipc_task ipc_next].
  split_and!; try done. exists c1. split; [done|]. rewrite insert_insert_eq. by destruct Ha as (_ & _ & _ & _ & _ & <- & _).
Qed.

Lemma mail_ok_end l p : mail_ok l p -> ntb_mail_parser_end (C := unit) p = mail_spec l new_ipc_mail.
Proof. intros (_ & a & E & b & -> & _). unfold mail_spec. rewrite E, bind_ret_l. apply parser_end_with. Qed.

(** What was sent for the mail [l], with the answer to the client. *)
Definition mail_outcome (l : list Z) s s' (status : ntb_ipc_proto_status) (text : list Z) : Prop :=
  match mail_spec (C := unit) l new_ipc_mail with
  | Ok m => exists from_address sent, im_from_address m = Some from_address /\ im_to_addresses m <> [] /\
      ks_send_message from_address (im_to_addresses m) (im_content_encoding m) (Blob NTB_PROTO_INV_TYPE_MSG (im_content m)) (ipc_keyring s) = Ok (sent, ipc_keyring s') /\
      (status, text) = if (sent : bool) then (NTB_IPC_PROTO_STATUS_SUCCESS, []) else (NTB_IPC_PROTO_STATUS_UNKNOWN_FROM_ADDRESS, unknown_from_text)
  | Err error => ipc_keyring s' = ipc_keyring s /\ status = NTB_IPC_PROTO_STATUS_INVALID_EMAIL /\ text = mail_error_text error
  | UB | OutOfFuel => False
  end.

(** There is room for one more response. *)
Definition response_room : Z := 2 ^ 21.

Lemma email_end_spec M e em c s :
  texts_small -> ipc_inv None M s -> ipc_email s !! e = Some em -> ipc_connection s !! em_conn em = Some c -> buf_length (ic_outbuf c) + response_room <= 2 ^ 62 ->
  match mail_spec (C := unit) (default [] (M !! e)) new_ipc_mail with UB | OutOfFuel => False | _ => True end ->
  exists s' status text, email_poll_cb mail_error_text unknown_from_text e ReadEnd s = Ok s' /\ ipc_inv None M s' /\ email_ended e em c status text s s' /\
    mail_outcome (default [] (M !! e)) s s' status text.
Proof.
  intros (Tm & Tu & _) Hi Hem Hc Hroom Hsafe. unfold response_room in Hroom. pose proof (in_emails _ _ _ Hi e em Hem) as (Hid & Hmail & _). pose proof (proj1 Hmail) as Hbytes.
  unfold email_poll_cb. rewrite Hem. cbn [need]. rewrite bind_ret_l. cbv zeta. rewrite (mail_ok_end _ _ Hmail). unfold mail_outcome.
  destruct (mail_spec _ _) as [m|error| |] eqn:Em; try done.
  - destruct (accepted_mail _ _ Hbytes Em) as ([from_address Ef] & Hd & Hall). unfold send_email. rewrite Hem, Ef. cbn [need]. rewrite !bind_ret_l.
    rewrite bool_decide_false by done. cbn [negb c_assert]. rewrite bind_ret_l.
    destruct (ks_send_spec from_address (im_to_addresses m) (im_content_encoding m) (Blob NTB_PROTO_INV_TYPE_MSG (im_content m)) (ipc_keyring s) (in_keyring _ _ _ Hi) Hall)
      as (sent & k & Esend & Hk & Ek). rewrite Esend, bind_ret_l. pose proof (set_keyring_inv None M k s Hi Hk Ek) as Hi1.
    assert (Hans : exists c1, (if (sent : bool) then s ← begin_send_response (em_conn em) (em_request_id em) NTB_IPC_PROTO_STATUS_SUCCESS (ipc_set_keyring k s); end_send_response (em_conn em) s
        else send_response (em_conn em) (em_request_id em) NTB_IPC_PROTO_STATUS_UNKNOWN_FROM_ADDRESS unknown_from_text (ipc_set_keyring k s)) =
        Ok (true, ipc_set_connection (<[em_conn em := c1]> (ipc_connection s)) (ipc_set_keyring k s)) /\
      answered c (if sent then response (em_request_id em) NTB_IPC_PROTO_STATUS_SUCCESS [] else response (em_request_id em) NTB_IPC_PROTO_STATUS_UNKNOWN_FROM_ADDRESS unknown_from_text) c1).
    { destruct sent; [apply (send_success_spec M _ c _ _ Hi1 Hc Hid); lia|apply (send_response_spec M _ c _ _ _ _ Hi1 Hc Hid); lia]. }
    destruct Hans as (c1 & -> & Ha). rewrite !bind_ret_l.
    destruct (end_email_spec M e em c c1 (if sent then NTB_IPC_PROTO_STATUS_SUCCESS else NTB_IPC_PROTO_STATUS_UNKNOWN_FROM_ADDRESS) (if sent then [] else unknown_from_text) _ Hi1 Hem Hc)
      as (s' & E & Hi' & Hend & Ek'); [by destruct sent|]. cbn [ipc_set_keyring ipc_connection] in E. exists s'. eexists _, _. split; [exact E|]. split; [done|]. split; [exact Hend|].
    exists from_address, sent. rewrite Ek'. cbn [ipc_set_keyring ipc_keyring]. split_and!; try done. by destruct sent.
  - destruct (send_response_spec M _ c (em_request_id em) NTB_IPC_PROTO_STATUS_INVALID_EMAIL (mail_error_text error) s Hi Hc Hid) as (c1 & -> & Ha); [specialize (Tm error); lia..|].
    rewrite !bind_ret_l. destruct (end_email_spec M e em c c1 _ _ s Hi Hem Hc Ha) as (s' & E & Hi' & Hend & Ek'). exists s'. eexists _, _. split; [exact E|]. by split_and!.
Qed.

Lemma email_error_spec M e em c got s :
  got = ReadAgain \/ got = ReadError -> ipc_inv None M s -> ipc_email s !! e = Some em -> ipc_connection s !! em_conn em = Some c -> buf_length (ic_outbuf c) + response_room <= 2 ^ 62 ->
  exists s', email_poll_cb mail_error_text unknown_from_text e got s = Ok s' /\ ipc_inv None M s' /\
    email_ended e em c NTB_IPC_PROTO_STATUS_FD_ERROR (str_bytes "Error reading from email file descriptor") s s' /\ ipc_keyring s' = ipc_keyring s.
Proof.
  intros Hgot Hi Hem Hc Hroom. unfold response_room in Hroom. pose proof (in_emails _ _ _ Hi e em Hem) as (Hid & _).
  assert (Eq : email_poll_cb mail_error_text unknown_from_text e got s = email_poll_cb mail_error_text unknown_from_text e ReadAgain s) by (unfold email_poll_cb; by destruct Hgot as [->| ->]).
  rewrite Eq. unfold email_poll_cb. rewrite Hem. cbn [need]. rewrite bind_ret_l. cbv zeta. set (text := str_bytes "Error reading from email file descriptor").
  assert (Ht : zlen text = 40) by (vm_compute; reflexivity).
  destruct (send_response_spec M _ c (em_request_id em) NTB_IPC_PROTO_STATUS_FD_ERROR text s Hi Hc Hid) as (c1 & -> & Ha); [lia..|]. rewrite !bind_ret_l.
  apply (end_email_spec M e em c c1 _ _ s Hi Hem Hc Ha).
Qed.

(** More of a mail. *)
Definition put_mail (e : nat) (em : ntb_ipc_email) (p : mail_parser ntb_buffer ipc_mail) s : ntb_ipc K :=
  ipc_set_email (<[e := Email (em_conn em) (em_fd em) (em_request_id em) p]> (ipc_email s)) s.

Lemma put_mail_inv M e em l p s : ipc_inv None M s -> ipc_email s !! e = Some em -> mail_ok l p -> ipc_inv None (<[e := l]> M) (put_mail e em p s).
Proof.
  intros [IL IC IE IT IP IN IK] Hem Hok. split; cbn [put_mail ipc_set_email ipc_connections ipc_connection ipc_email ipc_task ipc_keyring ipc_next]; try done.
  - intros i c Hc. pose proof (IC i c Hc) as [? [Hn He] ? ? ?]. split; try done. split; [done|]. intros e' He'. cbn. destruct (He e' He') as (em' & Hem' & Ei).
    destruct (decide (e' = e)) as [->|Hne]; [rewrite lookup_insert_eq; eexists; split; [done|]; cbn; congruence|rewrite lookup_insert_ne by done; by exists em'].
  - intros e' em'. destruct (decide (e' = e)) as [->|Hne].
    + rewrite !lookup_insert_eq. intros [= <-]. destruct (IE e em Hem) as (R & _ & Hx). split; [exact R|]. split; [exact Hok|exact Hx].
    + rewrite !lookup_insert_ne by done. apply IE.
  - destruct IN as (? & B & ? & ?). assert (e < ipc_next s)%nat by (apply B; by eexists). split_and!; [done|by apply bounded_insert|done|by apply bounded_insert].
Qed.

Lemma email_data_spec M e em c buf s :
  texts_small -> ipc_inv None M s -> ipc_email s !! e = Some em -> ipc_connection s !! em_conn em = Some c -> buf_length (ic_outbuf c) + response_room <= 2 ^ 62 ->
  let l := default [] (M !! e) in
  bytes buf -> zlen buf <= 512 -> zlen (l ++ buf) <= 2 ^ 30 -> match spec_steps (C := unit) (l ++ buf) (spec_new new_ipc_mail) with UB | OutOfFuel => False | _ => True end ->
  exists s' M', email_poll_cb mail_error_text unknown_from_text e (ReadBytes buf) s = Ok s' /\ ipc_inv None M' s' /\
    match spec_steps (C := unit) (l ++ buf) (spec_new new_ipc_mail) with
    | Ok _ => M' = <[e := l ++ buf]> M /\ exists p, s' = put_mail e em p s
    | Err error => M' = M /\ email_ended e em c NTB_IPC_PROTO_STATUS_INVALID_EMAIL (str_bytes "Error parsing email: " ++ mail_error_text error) s s' /\ ipc_keyring s' = ipc_keyring s
    | _ => False
    end.
Proof.
  intros (Tm & _) Hi Hem Hc Hroom l Hb Hz Hz2 Hsafe. unfold response_room in Hroom. pose proof (in_emails _ _ _ Hi e em Hem) as (Hid & (Hlb & a & Ea & Hsim) & _). fold l in Hlb, Ea, Hsim.
  unfold email_poll_cb. rewrite Hem. cbn [need]. rewrite bind_ret_l. cbv zeta. rewrite zlen_app in Hz2.
  rewrite (spec_steps_app (C := unit)), Ea, bind_ret_l in *.
  pose proof (parse_spec (zlen l) (em_parser em) a buf Hsim Hb ltac:(lia) (zlen_nonneg l) Hz2) as Hp.
  destruct (spec_steps buf a) as [a1|error| |] eqn:E1; cbn [agrees] in Hp; try done.
  - destruct Hp as (p & -> & Hsim1). eexists _, _. split; [reflexivity|]. split; [|split; [reflexivity|by exists p]]. apply put_mail_inv; [done|done|].
    split; [by apply bytes_app|]. exists a1. rewrite zlen_app. split; [|done]. by rewrite (spec_steps_app (C := unit)), Ea, bind_ret_l.
  - rewrite Hp. set (text := str_bytes "Error parsing email: " ++ _). assert (Ht : zlen text <= 21 + 2 ^ 20) by (unfold text; rewrite zlen_app; specialize (Tm error); change (zlen (str_bytes "Error parsing email: ")) with 21; lia).
    destruct (send_response_spec M _ c (em_request_id em) NTB_IPC_PROTO_STATUS_INVALID_EMAIL text s Hi Hc Hid) as (c1 & -> & Ha); [lia..|]. rewrite !bind_ret_l.
    destruct (end_email_spec M e em c c1 _ _ s Hi Hem Hc Ha) as (s' & E & Hi' & Hend & Ek'). by exists s', M.
Qed.

(** ** Commands *)

(** The connection [i] is open, what it has read is the same and at most [n] bytes were
    added to what it writes. *)
Definition progress (i : nat) (n : Z) s s' : Prop :=
  exists c c', ipc_connection s !! i = Some c /\ ipc_connection s' !! i = Some c' /\ ic_inbuf c' = ic_inbuf c /\ ic_read_finished c' = ic_read_finished c /\
    buf_length (ic_outbuf c') <= buf_length (ic_outbuf c) + n /\ forall j, j <> i -> ipc_connection s' !! j = ipc_connection s !! j.

Lemma progress_trans i n m s1 s2 s3 : progress i n s1 s2 -> progress i m s2 s3 -> progress i (n + m) s1 s3.
Proof.
  intros (c1 & c2 & E1 & E2 & A1 & A2 & A3 & A4) (c2' & c3 & E2' & E3 & B1 & B2 & B3 & B4). assert (c2' = c2) as -> by congruence.
  exists c1, c3. split_and!; [done|done|congruence|congruence|lia|]. intros j Hj. by rewrite B4, A4.
Qed.
Lemma progress_put i c c' n s : ipc_connection s !! i = Some c -> ic_inbuf c' = ic_inbuf c -> ic_read_finished c' = ic_read_finished c -> buf_length (ic_outbuf c') <= buf_length (ic_outbuf c) + n ->
  progress i n s (ipc_set_connection (<[i := c']> (ipc_connection s)) s).
Proof. intros Hc A1 A2 A3. exists c, c'. split_and!; try done; [cbn; apply lookup_insert_eq|]. intros j Hj. cbn. by rewrite lookup_insert_ne. Qed.

(** A handler that answers. *)
Definition handles (M : gmap nat (list Z)) (i : nat) s (r : result unit (bool * ntb_ipc K)) : Prop :=
  exists s', r = Ok (true, s') /\ ipc_inv None M s' /\ progress i response_room s s'.

Lemma handles_response M i c request_id status text s :
  ipc_inv None M s -> ipc_connection s !! i = Some c -> 0 <= request_id < 2 ^ 32 -> buf_length (ic_outbuf c) + response_room <= 2 ^ 62 -> zlen text <= 2 ^ 20 + 100 ->
  handles M i s (send_response i request_id status text s).
Proof.
  unfold response_room. intros Hi Hc Hid Hroom Ht. destruct (send_response_spec M i c request_id status text s Hi Hc Hid) as (c1 & -> & Ha); [lia..|].
  eexists. split; [reflexivity|]. split; [by apply (answered_inv M i c _ c1 s Hi Hc Ha)|].
  pose proof Ha as (_ & A2 & _ & A4 & _ & _ & _ & out & O1 & O2). apply (progress_put i c); [done|done|done|]. rewrite (repr_length _ _ O1), (repr_length _ _ O2), zlen_app, zlen_response.
  unfold response_room. lia.
Qed.

Lemma set_fd_queue_inv M i c fds s : ipc_inv None M s -> ipc_connection s !! i = Some c -> ipc_inv None M (ipc_set_connection (<[i := ic_set_fd_queue fds c]> (ipc_connection s)) s).
Proof. intros Hi Hc. apply (put_conn None M i c); [done|done| |done|done]. by destruct (in_conns _ _ _ Hi i c Hc). Qed.

(** A new email. *)
Lemma new_email_inv M i c fd request_id s : ipc_inv None M s -> ipc_connection s !! i = Some c -> 0 <= request_id < 2 ^ 32 ->
  let e := ipc_next s in
  ipc_inv None M (ipc_set_connection (<[i := ic_set_emails (e :: ic_emails c) c]> (ipc_connection s))
    (ipc_set_email (<[e := Email i fd request_id (ntb_mail_parser_new new_ipc_mail)]> (ipc_email s)) (ipc_set_next (S e) s))).
Proof.
  intros Hi Hc Hid e. pose proof Hi as [IL IC IE IT IP (B1 & B2 & B3 & B4) IK]. pose proof (bounded_fresh _ _ B2) as Hfresh. fold e in Hfresh.
  assert (Hold : forall e' em, ipc_email s !! e' = Some em -> e' <> e) by (intros e' em Hem ->; congruence).
  split; cbn [ipc_set_connection ipc_set_email ipc_set_next ipc_connections ipc_connection ipc_email ipc_task ipc_keyring ipc_next]; try done.
  - split; [apply IL|]. intros j. rewrite (proj2 IL j). destruct (decide (j = i)) as [->|Hj]; [rewrite lookup_insert_eq, Hc; split; by eexists|by rewrite lookup_insert_ne].
  - intros j cj. destruct (decide (j = i)) as [->|Hj].
    + rewrite lookup_insert_eq. intros [= <-]. pose proof (IC i c Hc) as [? [Hn He] ? ? ?]. split; try done. cbn. split.
      * apply NoDup_cons. split; [|done]. intros Hin. destruct (He e Hin) as (em & Hem & _). congruence.
      * intros e' [->|Hin]%elem_of_cons; [rewrite lookup_insert_eq; by eexists|]. destruct (He e' Hin) as (em & Hem & Ei). exists em. by rewrite lookup_insert_ne by (intros Eq; by apply (Hold e' em)).
    + rewrite lookup_insert_ne by done. intros Hcj. pose proof (IC j cj Hcj) as [? [Hn He] ? ? ?]. split; try done. cbn. split; [done|]. intros e' Hin. destruct (He e' Hin) as (em & Hem & Ei).
      exists em. by rewrite lookup_insert_ne by (intros Eq; by apply (Hold e' em)).
  - intros e' em. destruct (decide (e' = e)) as [->|Hne].
    + rewrite lookup_insert_eq. intros [= <-]. cbn. split; [done|]. assert (HM : M !! e = None) by (by apply bounded_fresh). rewrite HM. split.
      * split; [apply bytes_nil|]. exists (spec_new new_ipc_mail). split; [done|]. apply simulates_new.
      * rewrite lookup_insert_eq. eexists. split; [done|]. by left.
    + rewrite lookup_insert_ne by done. intros Hem. destruct (IE e' em Hem) as (R & Hm & c' & Hc' & Hin). split; [done|]. split; [done|]. destruct (decide (em_conn em = i)) as [Ei|Hj].
      * rewrite Ei in *. rewrite lookup_insert_eq. eexists. split; [done|]. right. congruence.
      * rewrite lookup_insert_ne by done. by exists c'.
  - intros t task Ht. destruct (IT t task Ht) as (R & Hp & c' & Hc' & Hin). split; [done|]. split; [done|]. destruct (decide (it_conn task = i)) as [Ei|Hj].
    + rewrite Ei in *. rewrite lookup_insert_eq. eexists. split; [done|]. cbn. congruence.
    + rewrite lookup_insert_ne by done. by exists c'.
  - assert (Hle : (ipc_next s <= S e)%nat) by (unfold e; lia).
    split_and!; [apply bounded_put; [exact (bounded_le _ _ _ B1 Hle)|by eexists]|apply bounded_insert; [exact (bounded_le _ _ _ B2 Hle)|lia]|exact (bounded_le _ _ _ B3 Hle)|exact (bounded_le _ _ _ B4 Hle)].
Qed.

Lemma email_command_spec M i c request_id data len s :
  texts_small -> ipc_inv None M s -> ipc_connection s !! i = Some c -> 0 <= request_id < 2 ^ 32 -> buf_length (ic_outbuf c) + response_room <= 2 ^ 62 ->
  handles M i s (handle_email_command nonblock_error i request_id data len s).
Proof.
  intros (_ & _ & Tn) Hi Hc Hid Hroom. unfold handle_email_command. rewrite Hc. cbn [need]. rewrite bind_ret_l. destruct (ic_fd_queue c) as [|fd fds] eqn:Eq.
  { by apply (handles_response M i c). }
  unfold get_fd. rewrite Hc. cbn [need]. rewrite !bind_ret_l, Eq. rewrite (update_connection_Some _ _ c), !bind_ret_l by done.
  pose proof (set_fd_queue_inv M i c fds s Hi Hc) as Hi1. set (s1 := ipc_set_connection _ s) in *. assert (Hc1 : ipc_connection s1 !! i = Some (ic_set_fd_queue fds c)) by apply lookup_insert_eq.
  destruct (nonblock_error fd) as [text|] eqn:En.
  - destruct (handles_response M i _ request_id NTB_IPC_PROTO_STATUS_FD_ERROR text s1 Hi1 Hc1 Hid) as (s2 & -> & Hi2 & Hp); [done|specialize (Tn _ _ En); lia|]. rewrite bind_ret_l.
    eexists. split; [reflexivity|]. split; [by apply close_inv|]. destruct Hp as (c1 & c2 & E1 & E2 & A1 & A2 & A3 & A4). assert (c1 = ic_set_fd_queue fds c) as -> by congruence.
    exists c, c2. split_and!; try done. intros j Hj. cbn. rewrite A4 by done. cbn. by rewrite lookup_insert_ne.
  - cbv zeta. pose proof (new_email_inv M i _ fd request_id s1 Hi1 Hc1 Hid) as Hi2. cbn zeta in Hi2.
    rewrite (update_connection_Some i _ (ic_set_fd_queue fds c)), bind_ret_l by exact Hc1. eexists. split; [reflexivity|]. split; [exact Hi2|].
    exists c. eexists. split; [done|]. split; [cbn; apply lookup_insert_eq|]. split_and!; try done; [cbn; unfold response_room; lia|]. intros j Hj. cbn. by rewrite !lookup_insert_ne.
Qed.

(** A new task. *)
Lemma new_task_inv M i c cookie k request_id s : ipc_inv None M s -> ipc_connection s !! i = Some c -> 0 <= request_id < 2 ^ 32 ->
  let t := ipc_next s in
  ks_ok k -> ks_pending (ipc_keyring s) !! cookie = None -> ks_pending k = <[cookie := t]> (ks_pending (ipc_keyring s)) ->
  ipc_inv None M (ipc_set_connection (<[i := ic_set_tasks (t :: ic_tasks c) c]> (ipc_connection s))
    (ipc_set_task (<[t := IpcTask i cookie request_id]> (ipc_task s)) (ipc_set_next (S t) (ipc_set_keyring k s)))).
Proof.
  intros Hi Hc Hid t Hk Hnone Ek. pose proof Hi as [IL IC IE IT IP (B1 & B2 & B3 & B4) IK]. pose proof (bounded_fresh _ _ B3) as Hfresh. fold t in Hfresh.
  assert (Hold : forall t' task, ipc_task s !! t' = Some task -> t' <> t) by (intros t' task Ht ->; congruence).
  split; cbn [ipc_set_connection ipc_set_task ipc_set_next ipc_set_keyring ipc_connections ipc_connection ipc_email ipc_task ipc_keyring ipc_next]; try done.
  - split; [apply IL|]. intros j. rewrite (proj2 IL j). destruct (decide (j = i)) as [->|Hj]; [rewrite lookup_insert_eq, Hc; split; by eexists|by rewrite lookup_insert_ne].
  - intros j cj. destruct (decide (j = i)) as [->|Hj].
    + rewrite lookup_insert_eq. intros [= <-]. pose proof (IC i c Hc) as [? ? [Hn He] ? ?]. split; try done. cbn. split.
      * apply NoDup_cons. split; [|done]. intros Hin. destruct (He ltac:(done) t Hin) as (task & Ht & _). congruence.
      * intros _ t' [->|Hin]%elem_of_cons; [rewrite lookup_insert_eq; by eexists|]. destruct (He ltac:(done) t' Hin) as (task & Ht & Ei). exists task. by rewrite lookup_insert_ne by (intros Eq; by apply (Hold t' task)).
    + rewrite lookup_insert_ne by done. intros Hcj. pose proof (IC j cj Hcj) as [? ? [Hn He] ? ?]. split; try done. cbn. split; [done|]. intros _ t' Hin. destruct (He ltac:(done) t' Hin) as (task & Ht & Ei).
      exists task. by rewrite lookup_insert_ne by (intros Eq; by apply (Hold t' task)).
  - intros e em Hem. destruct (IE e em Hem) as (R & Hm & c' & Hc' & Hin). split; [done|]. split; [done|]. destruct (decide (em_conn em = i)) as [Ei|Hj].
    + rewrite Ei in *. rewrite lookup_insert_eq. eexists. split; [done|]. cbn. congruence.
    + rewrite lookup_insert_ne by done. by exists c'.
  - intros t' task. destruct (decide (t' = t)) as [->|Hne].
    + rewrite lookup_insert_eq. intros [= <-]. cbn. split; [done|]. rewrite Ek, !lookup_insert_eq. split; [done|]. eexists. split; [done|]. by left.
    + rewrite lookup_insert_ne by done. intros Ht. destruct (IT t' task Ht) as (R & Hp & c' & Hc' & Hin). split; [done|]. split; [rewrite Ek, lookup_insert_ne; [done|congruence]|]. destruct (decide (it_conn task = i)) as [Ei|Hj].
      * rewrite Ei in *. rewrite lookup_insert_eq. eexists. split; [done|]. right. congruence.
      * rewrite lookup_insert_ne by done. by exists c'.
  - intros ck t' Hp. rewrite Ek in Hp. apply lookup_insert_Some in Hp as [[<- <-]|[Hne Hp]]; [rewrite lookup_insert_eq; by eexists|].
    destruct (IP ck t' Hp) as (task & Ht & Ei). exists task. by rewrite lookup_insert_ne by (intros Eq; by apply (Hold t' task)).
  - assert (Hle : (ipc_next s <= S t)%nat) by (unfold t; lia).
    split_and!; [apply bounded_put; [exact (bounded_le _ _ _ B1 Hle)|by eexists]|exact (bounded_le _ _ _ B2 Hle)|apply bounded_insert; [exact (bounded_le _ _ _ B3 Hle)|lia]|exact (bounded_le _ _ _ B4 Hle)].
Qed.

Lemma keygen_params_ok version stream nonce_trials_per_byte payload_extra_bytes label : create_key_params_ok (keygen_params version stream nonce_trials_per_byte payload_extra_bytes label).
Proof. done. Qed.

(** A key is asked for. *)
Lemma ipc_create_key_spec M i c request_id params leading_zeroes s : ipc_inv None M s -> ipc_connection s !! i = Some c -> 0 <= request_id < 2 ^ 32 -> create_key_params_ok params ->
  exists cookie k, ks_create_key params leading_zeroes (ipc_next s) (ipc_keyring s) = Ok (cookie, k) /\
    let s1 := ipc_set_task (<[ipc_next s := IpcTask i cookie request_id]> (ipc_task s)) (ipc_set_next (S (ipc_next s)) (ipc_set_keyring k s)) in
    let s2 := ipc_set_connection (<[i := ic_set_tasks (ipc_next s :: ic_tasks c) c]> (ipc_connection s)) s1 in
    update_connection i (fun c => ic_set_tasks (ipc_next s :: ic_tasks c) c) s1 = Ok s2 /\ ipc_inv None M s2 /\ progress i response_room s s2.
Proof.
  intros Hi Hc Hid Hp. destruct (ks_create_spec params leading_zeroes (ipc_next s) (ipc_keyring s) (in_keyring _ _ _ Hi) Hp) as (cookie & k & E & Hk & Hn & Ek).
  exists cookie, k. split; [done|]. cbv zeta. split; [by rewrite (update_connection_Some i _ c) by exact Hc|]. split; [by apply (new_task_inv M i c cookie k request_id s Hi Hc Hid)|].
  exists c. eexists. split; [done|]. split; [cbn; apply lookup_insert_eq|]. split_and!; try done; [cbn; unfold response_room; lia|]. intros j Hj. cbn. by rewrite lookup_insert_ne.
Qed.

Lemma keygen_command_spec M i c request_id data len s :
  ipc_inv None M s -> ipc_connection s !! i = Some c -> 0 <= request_id < 2 ^ 32 -> buf_length (ic_outbuf c) + response_room <= 2 ^ 62 -> cur_ok (data, len) ->
  handles M i s (handle_keygen_command i request_id data len s).
Proof.
  intros Hi Hc Hid Hroom Hcur. assert (Hans : forall status text, zlen text <= 2 ^ 20 + 100 -> handles M i s (send_response i request_id status text s)) by (intros; by apply (handles_response M i c)).
  unfold handle_keygen_command. destruct (parse_command_cases keygen_arguments data len Hcur) as [->|(vs & n & -> & Hrange & _)]; rewrite bind_ret_l; [by apply Hans|].
  unfold keygen_arguments in vs, Hrange. destruct vs as (version & stream & nonce_trials & extra_bytes & zeroes & label_str & []). cbn in Hrange. destruct Hrange as (_ & _ & _ & _ & _ & Hstr & _).
  cbv zeta. destruct (negb (version =? 0) && _); [by apply Hans|]. destruct (negb (stream =? 1)); [by apply Hans|]. destruct (2 <? zeroes); [by apply Hans|].
  unfold label_is_valid. rewrite read_bytes_Ok, !bind_ret_l by (unfold zlen in Hstr; lia). destruct (forallb _ _); cbn [negb]; [|by apply Hans].
  destruct (ipc_create_key_spec M i c request_id (keygen_params (if version =? 0 then 4 else version) stream (if nonce_trials =? 0 then NTB_PROTO_MIN_NONCE_TRIALS_PER_BYTE * 2 else nonce_trials)
    (if extra_bytes =? 0 then NTB_PROTO_MIN_EXTRA_BYTES else extra_bytes) (take (Z.to_nat (vs_length label_str)) (vs_data label_str))) zeroes s Hi Hc Hid (keygen_params_ok _ _ _ _ _))
    as (cookie & k & -> & Hs2). rewrite bind_ret_l. cbv zeta in Hs2. destruct Hs2 as (-> & Hi2 & Hp). rewrite bind_ret_l. by eexists.
Qed.

(** ** The loop on the commands *)

Lemma process_command_spec M i c data len name s :
  texts_small -> ipc_inv None M s -> ipc_connection s !! i = Some c -> buf_length (ic_outbuf c) + response_room <= 2 ^ 62 -> bytes data -> 0 <= len < 2 ^ 32 -> 20 + len < zlen data ->
  c_string data = Ok name -> zlen name < 12 -> handles M i s (ipc_process_command nonblock_error i data len s).
Proof.
  intros Hx Hi Hc Hroom Hb Hlen Hz En Hname. unfold ipc_process_command. destruct (get_32_range (drop 12 data)) as (request_id & -> & Hid); [rewrite zlen_drop; lia|by apply bytes_drop|].
  rewrite bind_ret_l, En, bind_ret_l. assert (Hcur : cur_ok (drop 20 data, len)) by (split_and!; cbn; [lia|lia|rewrite zlen_drop; lia|by apply bytes_drop]).
  unfold ipc_commands. cbn [List.find fst]. destruct (bytes_eqb name (str_bytes "email")); [by apply (email_command_spec M i c)|].
  destruct (bytes_eqb name (str_bytes "keygen")); [by apply (keygen_command_spec M i c)|]. apply (handles_response M i c); [done..|].
  unfold unknown_command_text. rewrite !zlen_app. change (zlen (str_bytes "Unknown command ")) with 16. change (zlen [226; 128; 156]) with 3. change (zlen [226; 128; 157]) with 3. lia.
Qed.

(** No length of a command in [l] overflows when the header is added to it. *)
Fixpoint lengths_fit (fuel : nat) (l : list Z) : bool :=
  match fuel with
  | O => true
  | S fuel =>
      if zlen l <? 20 then true
      else
        let size := be_combine (take 4 (drop 16 l)) + 20 in
        (size <? 2 ^ 32) && (if zlen l <? size then true else lengths_fit fuel (drop (Z.to_nat size) l))
  end.

(** The connection is open and was answered, or it was freed. *)
Definition processed (i : nat) (n : Z) (ok : bool) s s' : Prop :=
  if ok then progress i n s s' else ipc_connection s' !! i = None /\ forall j, j <> i -> ipc_connection s' !! j = ipc_connection s !! j.

Lemma commands_loop_spec M i fuel : forall l q c s,
  texts_small -> ipc_inv None M s -> ipc_connection s !! i = Some c -> (length l <= fuel)%nat -> lengths_fit fuel l = true -> bytes (l ++ q) -> 0 < zlen q ->
  buf_length (ic_outbuf c) + zlen l * response_room <= 2 ^ 62 ->
  exists ok s', ipc_commands_loop nonblock_error fuel i (l ++ q) (zlen l) s = Ok (ok, s') /\ ipc_inv None M s' /\ processed i (zlen l * response_room) ok s s'.
Proof.
  induction fuel as [|fuel IH]; intros l q c s Hx Hi Hc Hf Hfit Hb Hq Hroom; cbn [ipc_commands_loop].
  all: assert (Hself : forall n, 0 <= n -> progress i n s s) by (intros n Hn; exists c, c; split_and!; try done; lia).
  all: pose proof (zlen_nonneg l); destruct (Z.ltb_spec (zlen l) 20) as [Hs|Hl]; [eexists true, s; split; [done|]; split; [done|]; apply Hself; unfold response_room; lia|].
  { unfold zlen in Hl. lia. }
  cbn [lengths_fit] in Hfit. rewrite (proj2 (Z.ltb_ge _ _)) in Hfit by done. cbv zeta in Hfit. apply andb_true_iff in Hfit as [Hsize Hfit]. apply Z.ltb_lt in Hsize.
  apply bytes_app in Hb as [Hbl Hbq]. assert (Hb16 : bytes (take 4 (drop 16 l))) by (by apply bytes_take, bytes_drop).
  assert (Hl16 : length (take 4 (drop 16 l)) = 4%nat) by (unfold zlen in Hl; rewrite length_take, length_drop; lia).
  set (n := be_combine (take 4 (drop 16 l))) in *. pose proof (be_combine_range _ Hb16) as Hn. fold n in Hn.
  assert (Eget : ntb_proto_get_32 (drop 16 (l ++ q)) = Ok n).
  { rewrite drop_app_le by (unfold zlen in Hl; lia). rewrite <- (take_drop 4 (drop 16 l)), <- app_assoc. by apply get_32_spec. }
  rewrite Eget, bind_ret_l. cbv zeta. rewrite u32_small by lia. destruct (Z.ltb_spec (zlen l) (n + 20)) as [Hshort|Hlong].
  { eexists true, s. split; [done|]. split; [done|]. apply Hself. unfold response_room; lia. }
  destruct (check_command_name (l ++ q)) as (valid & -> & Hvalid); [rewrite length_app; unfold zlen in Hl; lia|]. rewrite bind_ret_l.
  destruct valid; cbn [negb].
  2: { destruct (remove_connection_spec M i c s Hi Hc) as (s' & -> & Hi' & Hno & Ho & _). rewrite bind_ret_l. by exists false, s'. }
  destruct (Hvalid eq_refl) as (name & En & Hname).
  destruct (process_command_spec M i c (l ++ q) n name s Hx Hi Hc) as (s1 & -> & Hi1 & Hp1); [unfold response_room in *; lia|by apply bytes_app|lia|rewrite zlen_app; lia|done|done|]. rewrite bind_ret_l.
  replace (drop (Z.to_nat (n + 20)) (l ++ q)) with (drop (Z.to_nat (n + 20)) l ++ q) by (symmetry; apply drop_app_le; unfold zlen in Hlong; lia).
  replace (zlen l - (n + 20)) with (zlen (drop (Z.to_nat (n + 20)) l)) by (rewrite zlen_drop; lia).
  pose proof Hp1 as (c0 & c1 & E0 & E1 & _ & _ & Hgrow & Hother). assert (c0 = c) as -> by congruence.
  assert (Hlen : zlen (drop (Z.to_nat (n + 20)) l) + 20 <= zlen l) by (rewrite zlen_drop; lia).
  destruct (IH (drop (Z.to_nat (n + 20)) l) q c1 s1 Hx Hi1 E1) as (ok & s' & -> & Hi' & Hp'); [unfold zlen in *; lia|done|apply bytes_app; split; [by apply bytes_drop|done]|done|unfold response_room in *; lia|].
  exists ok, s'. split; [done|]. split; [done|]. unfold processed in *. destruct ok.
  - pose proof (progress_trans _ _ _ _ _ _ Hp1 Hp') as (c2 & c3 & A1 & A2 & A3 & A4 & A5 & A6). exists c2, c3. split_and!; try done. unfold response_room in *. lia.
  - destruct Hp' as [Hno Ho]. split; [done|]. intros j Hj. by rewrite Ho, Hother.
Qed.
End handlers.
