(* ===== verification/IpcSpec.v ===== *)
(** * IpcSpec: the events of the local socket (for [Ipc])

    What each event does to a state that satisfies [ipc_inv], and the states that are
    reached from the start. *)

From S2P Require Import Prelude Endian Buffer NetAddress OpenSSL Proto ProtoSpec NetText KeyValue Pow Base58 Address Base64 QuotedPrintable EncodedWords Outgoings Ecc Keys ParseContentType ParseAddresses MailParser MailParserSpec Connection ConnectionSpec KeyringInv KeyringCallbacks KeyringCalls IpcProto IpcProtoSpec Ipc IpcMail IpcInv IpcHandlers.

Section events.
Context `{DigestLaws} `{BigNumLaws} `{!Elliptic} `{Symmetric} `{Digest256} `{KeyringServiceLaws K}.
Context (indet : Z) (nonblock_error : Z -> option (list Z)) (mail_error_text : mail_error unit -> list Z) (unknown_from_text : list Z).
Implicit Type s : ntb_ipc K.

(** ** Closing *)

(** The client has closed its end, everything was written and nothing is left to do. *)
Definition finished (c : ntb_ipc_connection) : bool :=
  ic_read_finished c && (buf_length (ic_outbuf c) =? 0) && bool_decide (ic_emails c = []) && bool_decide (ic_tasks c = []).

Definition freed (i : nat) s s' : Prop := ipc_connection s' !! i = None /\ forall j, j <> i -> ipc_connection s' !! j = ipc_connection s !! j.

Lemma update_poll_spec M shutdown_fails i c s : ipc_inv None M s -> ipc_connection s !! i = Some c ->
  exists s', update_poll shutdown_fails i s = Ok (negb (finished c), s') /\ ipc_inv None M s' /\
    if finished c then freed i s s'
    else s' = ipc_set_connection (<[i := ic_set_poll (negb (ic_read_finished c)) (0 <? buf_length (ic_outbuf c)) c]> (ipc_connection s)) s.
Proof.
  intros Hi Hc. pose proof (in_conns _ _ _ Hi i c Hc) as Hok. pose proof (co_write _ _ _ _ Hok ltac:(done)) as Hw. unfold update_poll. rewrite Hc. cbn [need]. rewrite bind_ret_l. cbv zeta.
  rewrite Hw. cbn [negb andb orb]. fold (finished c). unfold freed. destruct (finished c) eqn:Ef; cbn [andb negb].
  - assert (Er : ic_read_finished c = true) by (unfold finished in Ef; by destruct (ic_read_finished c)). rewrite Er. destruct shutdown_fails.
    { destruct (remove_connection_spec M i c s Hi Hc) as (s' & -> & Hi' & Hno & Ho & _). rewrite bind_ret_l. by exists s'. }
    rewrite (update_connection_Some _ _ c), bind_ret_l by done. cbn [andb].
    set (c1 := ic_set_finished true true c). set (s1 := ipc_set_connection _ s).
    assert (Hc1 : ipc_connection s1 !! i = Some c1) by apply lookup_insert_eq.
    assert (Hi1 : ipc_inv (Some i) M s1).
    { apply (put_conn (Some i) M i c); [by apply inv_weaken|done| |done|done]. destruct Hok as [_ O2 O3 O4 O5]. split; auto; [by intros []|]. cbn. split; [apply O3|]. by intros []. }
    destruct (remove_freed_connection M i c1 s1 Hi1 Hc1) as (s' & -> & Hi' & Hno & Ho & _); [by apply (co_tasks _ _ _ _ Hok)|]. rewrite bind_ret_l.
    exists s'. split; [done|]. split; [done|]. split; [done|]. intros j Hj. rewrite Ho by done. unfold s1. cbn. by rewrite lookup_insert_ne.
  - rewrite (update_connection_Some _ _ c), bind_ret_l by done. rewrite andb_false_r.
    erewrite update_connection_Some by (cbn [ipc_set_connection ipc_connection]; apply lookup_insert_eq). rewrite bind_ret_l. cbn [ipc_set_connection ipc_connection]. rewrite insert_insert_eq.
    replace (ic_set_poll _ _ (ic_set_finished (ic_read_finished c) false c)) with (ic_set_poll (negb (ic_read_finished c)) (0 <? buf_length (ic_outbuf c)) c) by (by destruct c; cbn in *; subst).
    exists (ipc_set_connection (<[i := ic_set_poll (negb (ic_read_finished c)) (0 <? buf_length (ic_outbuf c)) c]> (ipc_connection s)) s). split; [reflexivity|]. split; [|done].
    apply (put_conn None M i c); [done|done| |done|done]. by destruct Hok.
Qed.

(** ** Reading *)

(** The bytes that a buffer holds. *)
Definition content (b : ntb_buffer) : list Z := omap (fun x => x) (cells b).
Lemma content_repr b l : repr b l -> content b = l.
Proof. intros [_ E]. unfold content. rewrite E. clear. induction l as [|c l IH]; [done|]. cbn. by f_equal. Qed.

Lemma in_ok_any (b : ntb_buffer) : is_byte indet -> in_ok 0 b -> in_ok indet b.
Proof.
  intros Hb [Hwf Hr]. split; [done|]. unfold readable, bytes in *. rewrite Forall_fmap in Hr. rewrite Forall_fmap. eapply Forall_impl; [exact Hr|]. intros [x|]; cbn; [done|]. done.
Qed.

(** The place for the next bytes. *)
Lemma read_room_spec b l : in_ok 0 b -> repr b l -> buf_length b <= 2 ^ 40 ->
  exists b', ntb_buffer_ensure_size (E := unit) b (u64 (buf_length b + 128)) = Ok b' /\ in_ok 0 b' /\ repr b' l /\ buf_length b + 128 <= buf_size b'.
Proof.
  intros Hin [Hwf Hc] Hl. pose proof (proj1 (proj2 Hwf)). rewrite u64_small by lia.
  destruct (ensure_size_in_ok 0 b (buf_length b + 128)) as (b' & E & Hin' & Hl' & Hs'); [by unfold is_byte|done|lia|]. exists b'. split; [done|]. split; [done|]. split; [|done].
  destruct (ensure_size_spec (E := unit) b (buf_length b + 128) Hwf ltac:(lia)) as (b2 & E2 & W2 & _ & C2 & _). rewrite E in E2. injection E2 as <-. split; [done|]. by rewrite C2.
Qed.

Lemma set_inbuf_inv M i c b l s : ipc_inv None M s -> ipc_connection s !! i = Some c -> in_ok 0 b -> repr b l ->
  ipc_inv None M (ipc_set_connection (<[i := ic_set_inbuf b c]> (ipc_connection s)) s).
Proof. intros Hi Hc Hin Hr. apply (put_conn None M i c); [done|done| |done|done]. destruct (in_conns _ _ _ Hi i c Hc) as []. split; auto. split; [done|by exists l]. Qed.

(** How much [recvmsg] may return: the last byte of the allocation has to stay free. *)
Definition recv_fits (b : ntb_buffer) (l : list Z) : Prop :=
  match ntb_buffer_ensure_size (E := unit) b (u64 (buf_length b + 128)) with Ok b' => buf_length b + zlen l < buf_size b' | _ => False end.

Lemma append_read (b' : ntb_buffer) l l' : in_ok 0 b' -> repr b' l -> bytes l' -> buf_length b' + zlen l' < buf_size b' ->
  exists b2, buf_write (E := unit) b' (buf_length b') l' = Ok b2 /\ in_ok 0 (add_length b2 (zlen l')) /\ repr (add_length b2 (zlen l')) (l ++ l') /\
    buf_length (add_length b2 (zlen l')) < buf_size (add_length b2 (zlen l')).
Proof.
  intros Hin [Hwf Hc] Hb Hz. pose proof (proj1 (proj2 Hwf)) as Hpos.
  destruct (write_in_ok 0 b' (buf_length b') l' Hin Hb ltac:(lia) ltac:(lia)) as (d & E & Hd & Hbd).
  destruct (buf_write_end (E := unit) b' l' Hwf ltac:(lia)) as (b2 & E2 & W2 & W3 & L2 & S2 & C2 & C3). rewrite E2 in E. injection E as ->.
  exists (Buf d (buf_length b') (buf_size b')). split; [done|]. split; [split; [done|exact Hbd]|]. split; [split; [done|]; by rewrite C3, Hc, fmap_app|].
  unfold add_length. cbn [buf_length buf_size]. destruct W3 as (_ & W4 & _). zlen_pose. rewrite u64_small; [lia|]. destruct Hwf as (_ & _ & ?). lia.
Qed.

Lemma process_commands_spec M i c l s :
  is_byte indet -> texts_small nonblock_error mail_error_text unknown_from_text -> ipc_inv None M s -> ipc_connection s !! i = Some c -> repr (ic_inbuf c) l ->
  buf_length (ic_inbuf c) < buf_size (ic_inbuf c) -> lengths_fit (length l) l = true -> buf_length (ic_outbuf c) + zlen l * response_room <= 2 ^ 62 ->
  exists ok s', ipc_process_commands indet nonblock_error i s = Ok s' /\ ipc_inv None M s' /\ processed i (zlen l * response_room) ok s s'.
Proof.
  intros Hb Hx Hi Hc Hr Hlt Hfit Hroom. pose proof (co_in _ _ _ _ (in_conns _ _ _ Hi i c Hc)) as [Hin _]. pose proof (repr_length _ _ Hr) as Hlen.
  destruct (in_ok_any _ Hb Hin) as [Hwf Hbytes]. unfold ipc_process_commands. rewrite Hc. cbn [need]. rewrite bind_ret_l.
  destruct (readable_repr indet _ _ Hr) as [q Eq]. rewrite Eq, Hlen in *. pose proof (zlen_readable indet (ic_inbuf c)) as Hz. rewrite Eq, zlen_app in Hz.
  destruct Hwf as (Hd & _).
  destruct (commands_loop_spec nonblock_error mail_error_text unknown_from_text M i (length l) l q c s Hx Hi Hc) as (ok & s1 & E & Hi1 & Hp); [done|done|done|lia|done|].
  replace (Z.to_nat (zlen l)) with (length l) by (unfold zlen; lia). rewrite E, bind_ret_l. exists ok. destruct ok.
  - destruct Hp as (c0 & c1 & E0 & E1 & A1 & A2 & A3 & A4). assert (c0 = c) as -> by congruence. rewrite E1. cbn [need]. rewrite bind_ret_l, A1, Hlen.
    destruct (Z.eqb_spec (zlen l) 0).
    + unfold close_fd_queue. rewrite E1. cbn [need]. rewrite bind_ret_l. rewrite (update_connection_Some i _ c1) by exact E1. eexists. split; [reflexivity|].
      split; [apply set_fd_queue_inv; [by apply close_inv|exact E1]|]. exists c. eexists. split; [done|]. split; [cbn; apply lookup_insert_eq|]. split_and!; try done. intros j Hj. cbn. rewrite lookup_insert_ne by done. by apply A4.
    + exists s1. split; [done|]. split; [done|]. exists c, c1. by split_and!.
  - exists s1. by split_and!.
Qed.

(** What the results of the system calls are like. *)
Definition recv_ok (c : ntb_ipc_connection) (got : recv_result) : Prop :=
  match got with
  | RecvBytes l _ => bytes l /\ recv_fits (ic_inbuf c) l /\ lengths_fit (length (content (ic_inbuf c) ++ l)) (content (ic_inbuf c) ++ l) = true /\
      buf_length (ic_outbuf c) + (buf_length (ic_inbuf c) + zlen l) * response_room <= 2 ^ 62
  | _ => True
  end.

(** The other connections are as they were. *)
Definition others (i : nat) s s' : Prop := forall j, j <> i -> ipc_connection s' !! j = ipc_connection s !! j.

(** The connection when the bytes [l] and the descriptors [fds] have arrived. *)
Definition received (c : ntb_ipc_connection) (l fds : list Z) (c' : ntb_ipc_connection) : Prop :=
  repr (ic_inbuf c') (content (ic_inbuf c) ++ l) /\ buf_length (ic_inbuf c') < buf_size (ic_inbuf c') /\ ic_fd_queue c' = ic_fd_queue c ++ fds /\ ic_outbuf c' = ic_outbuf c /\
  ic_emails c' = ic_emails c /\ ic_tasks c' = ic_tasks c /\ ic_read_finished c' = ic_read_finished c /\ ic_sock c' = ic_sock c.

Lemma receive_spec M shutdown_fails i c l fds s : ipc_inv None M s -> ipc_connection s !! i = Some c -> buf_length (ic_inbuf c) <= 2 ^ 40 -> bytes l -> recv_fits (ic_inbuf c) l ->
  exists c', let s' := ipc_set_connection (<[i := c']> (ipc_connection s)) s in
    ipc_handle_read indet nonblock_error shutdown_fails i (RecvBytes l fds) s = ipc_process_commands indet nonblock_error i s' /\ ipc_inv None M s' /\ received c l fds c'.
Proof.
  intros Hi Hc Hlen Hbl Hfits. destruct (co_in _ _ _ _ (in_conns _ _ _ Hi i c Hc)) as [Hin [l0 Hl0]]. destruct (read_room_spec _ _ Hin Hl0 Hlen) as (b & Eb & Hin1 & Hr1 & Hroom).
  unfold ipc_handle_read. rewrite Hc. cbn [need]. rewrite bind_ret_l, Eb, bind_ret_l. rewrite (update_connection_Some _ _ c), bind_ret_l by done.
  set (c1 := ic_set_inbuf b c) in *. set (s1 := ipc_set_connection _ s) in *. assert (Hc1 : ipc_connection s1 !! i = Some c1) by apply lookup_insert_eq.
  unfold process_control_data. rewrite (update_connection_Some i _ c1), bind_ret_l by done. unfold recv_fits in Hfits. rewrite Eb in Hfits.
  pose proof (repr_length _ _ Hl0) as L0. pose proof (repr_length _ _ Hr1) as L1.
  destruct (append_read b l0 l Hin1 Hr1 Hbl ltac:(lia)) as (b2 & -> & Hin2 & Hr2 & Hlt2). rewrite bind_ret_l.
  set (cq := ic_set_fd_queue (ic_fd_queue c1 ++ fds) c1) in *. set (s2 := ipc_set_connection _ s1) in *.
  assert (Hc2 : ipc_connection s2 !! i = Some cq) by apply lookup_insert_eq. rewrite (update_connection_Some i _ cq), bind_ret_l by done.
  set (c3 := ic_set_inbuf _ cq). assert (Es : ipc_set_connection (<[i := c3]> (ipc_connection s2)) s2 = ipc_set_connection (<[i := c3]> (ipc_connection s)) s).
  { unfold s2, s1. cbn [ipc_set_connection ipc_connection]. by rewrite !insert_insert_eq. }
  rewrite Es. exists c3. split; [done|]. split; [|rewrite <- (content_repr _ _ Hl0) in Hr2; by split_and!].
  apply (put_conn None M i c); [done|done| |done|done]. destruct (in_conns _ _ _ Hi i c Hc) as []. split; auto. split; [done|by eexists].
Qed.

Lemma handle_read_spec M shutdown_fails i c got s :
  is_byte indet -> texts_small nonblock_error mail_error_text unknown_from_text -> ipc_inv None M s -> ipc_connection s !! i = Some c -> buf_length (ic_inbuf c) <= 2 ^ 40 -> recv_ok c got ->
  exists s', ipc_handle_read indet nonblock_error shutdown_fails i got s = Ok s' /\ ipc_inv None M s' /\ others i s s'.
Proof.
  intros Hb Hx Hi Hc Hlen Hgot. assert (Hbytes : forall l fds, got = RecvBytes l fds -> exists s', ipc_handle_read indet nonblock_error shutdown_fails i got s = Ok s' /\ ipc_inv None M s' /\ others i s s').
  { intros l fds ->. destruct Hgot as (Hbl & Hfits & Hfit & Hout). destruct (receive_spec M shutdown_fails i c l fds s Hi Hc Hlen Hbl Hfits) as (c3 & -> & Hi3 & Hr & Hlt & Hq & Ho & _).
    set (s3 := ipc_set_connection _ s) in *. assert (Hc3 : ipc_connection s3 !! i = Some c3) by apply lookup_insert_eq.
    destruct (co_in _ _ _ _ (in_conns _ _ _ Hi i c Hc)) as [_ [l0 Hl0]]. pose proof (repr_length _ _ Hl0) as L0. rewrite (content_repr _ _ Hl0) in *.
    destruct (process_commands_spec M i c3 (l0 ++ l) s3 Hb Hx Hi3 Hc3 Hr Hlt Hfit) as (ok & s' & -> & Hi' & Hp); [rewrite Ho, zlen_app; by rewrite <- L0|].
    exists s'. split; [done|]. split; [done|]. assert (Ho3 : others i s3 s') by (destruct ok; [by destruct Hp as (? & ? & ? & ? & ? & ? & ? & Hoth)|by destruct Hp]).
    intros j Hj. rewrite Ho3 by done. cbn. by rewrite lookup_insert_ne. }
  destruct (co_in _ _ _ _ (in_conns _ _ _ Hi i c Hc)) as [Hin [l0 Hl0]]. destruct (read_room_spec _ _ Hin Hl0 Hlen) as (b & Eb & Hin1 & Hr1 & Hroom).
  destruct got as [l fds|fds| |]; [by eapply Hbytes| | |];
    unfold ipc_handle_read; rewrite Hc; cbn [need]; rewrite bind_ret_l, Eb, bind_ret_l; rewrite (update_connection_Some _ _ c), bind_ret_l by done;
    pose proof (set_inbuf_inv M i c b l0 s Hi Hc Hin1 Hr1) as Hi1; set (c1 := ic_set_inbuf b c) in *; set (s1 := ipc_set_connection _ s) in *;
    (assert (Hc1 : ipc_connection s1 !! i = Some c1) by apply lookup_insert_eq); (assert (Ho1 : others i s s1) by (intros j Hj; cbn; by rewrite lookup_insert_ne)).
  - unfold process_control_data. rewrite (update_connection_Some i _ c1), bind_ret_l by done.
    pose proof (set_fd_queue_inv M i c1 (ic_fd_queue c1 ++ fds) s1 Hi1 Hc1) as Hi2. set (cq := ic_set_fd_queue (ic_fd_queue c1 ++ fds) c1) in *. set (s2 := ipc_set_connection _ s1) in *.
    assert (Hc2 : ipc_connection s2 !! i = Some cq) by apply lookup_insert_eq. rewrite (update_connection_Some i _ cq), bind_ret_l by done.
    set (c3 := ic_set_finished true _ cq). set (s3 := ipc_set_connection _ s2). assert (Hc3 : ipc_connection s3 !! i = Some c3) by apply lookup_insert_eq.
    assert (Hi3 : ipc_inv None M s3) by (apply (put_conn None M i cq); [done|done| |done|done]; by destruct (in_conns _ _ _ Hi2 i cq Hc2)).
    destruct (update_poll_spec M shutdown_fails i c3 s3 Hi3 Hc3) as (s' & -> & Hi' & Hp). rewrite bind_ret_l. exists s'. split; [done|]. split; [done|].
    assert (Ho3 : others i s3 s') by (destruct (finished c3); [by destruct Hp|subst s'; intros j Hj; cbn; by rewrite !lookup_insert_ne]).
    intros j Hj. rewrite Ho3 by done. cbn. by rewrite !lookup_insert_ne.
  - by exists s1.
  - destruct (remove_connection_spec M i c1 s1 Hi1 Hc1) as (s' & -> & Hi' & Hno & Ho & _). exists s'. split; [done|]. split; [done|]. intros j Hj. rewrite Ho by done. by apply Ho1.
Qed.

(** ** Writing *)

Definition wrote_ok (c : ntb_ipc_connection) (wrote : write_result) : Prop :=
  match wrote with Wrote n => 0 <= n <= buf_length (ic_outbuf c) | _ => True end.

Lemma handle_write_spec M shutdown_fails i c wrote s : ipc_inv None M s -> ipc_connection s !! i = Some c -> wrote_ok c wrote ->
  exists s', ipc_handle_write shutdown_fails i wrote s = Ok s' /\ ipc_inv None M s' /\ others i s s' /\
    match wrote with
    | Wrote n => exists out b, repr (ic_outbuf c) out /\ repr b (drop (Z.to_nat n) out) /\
        if finished (ic_set_outbuf b c) then ipc_connection s' !! i = None
        else ipc_connection s' !! i = Some (ic_set_poll (negb (ic_read_finished c)) (0 <? buf_length b) (ic_set_outbuf b c))
    | WriteAgain => s' = s
    | WriteError => ipc_connection s' !! i = None
    end.
Proof.
  intros Hi Hc Hw. destruct (co_out _ _ _ _ (in_conns _ _ _ Hi i c Hc)) as [out Hout]. pose proof (repr_length _ _ Hout) as Hlen. unfold ipc_handle_write. rewrite Hc. cbn [need]. rewrite bind_ret_l. destruct wrote as [n| |].
  - cbn in Hw. destruct (repr_data _ _ Hout) as [r Er]. pose proof (zlen_nonneg out).
    assert (Hz1 : zlen (take (Z.to_nat n) out) = n) by (rewrite zlen_take; lia). assert (Hz2 : zlen (drop (Z.to_nat n) out) = buf_length (ic_outbuf c) - n) by (rewrite zlen_drop; lia).
    cbv zeta. rewrite <- Hz2. rewrite (buf_read_mid (ic_outbuf c) (Some <$> take (Z.to_nat n) out) (drop (Z.to_nat n) out) r);
      [|rewrite Er, app_assoc, <- fmap_app; by rewrite take_drop|by rewrite zlen_fmap]. rewrite bind_ret_l.
    destruct (shift_front (ic_outbuf c) out (drop (Z.to_nat n) out) Hout ltac:(lia)) as (b & -> & Lb & Hb). rewrite bind_ret_l, Lb, <- Hz2. rewrite (update_connection_Some _ _ c), bind_ret_l by done.
    pose proof Hb as ((_ & Hpos & _) & _). cbn [buf_length] in Hpos. pose proof (proj1 Hout) as (_ & Hle & Hmax).
    rewrite (u64_small (zlen _)) by lia. set (b' := Buf _ _ _). set (c1 := ic_set_outbuf b' c). set (s1 := ipc_set_connection _ s). assert (Hc1 : ipc_connection s1 !! i = Some c1) by apply lookup_insert_eq.
    assert (Hi1 : ipc_inv None M s1) by (apply (put_conn None M i c); [done|done| |done|done]; destruct (in_conns _ _ _ Hi i c Hc); split; auto; by eexists).
    destruct (update_poll_spec M shutdown_fails i c1 s1 Hi1 Hc1) as (s' & -> & Hi' & Hp). rewrite bind_ret_l. exists s'. split; [done|]. split; [done|]. split.
    + assert (Ho1 : others i s1 s') by (destruct (finished c1); [by destruct Hp|subst s'; intros j Hj; cbn; by rewrite !lookup_insert_ne]). intros j Hj. rewrite Ho1 by done. cbn. by rewrite lookup_insert_ne.
    + exists out, b'. split; [done|]. split; [done|]. fold c1. destruct (finished c1); [apply Hp|]. rewrite Hp. cbn. by rewrite lookup_insert_eq.
  - by exists s.
  - destruct (remove_connection_spec M i c s Hi Hc) as (s' & -> & Hi' & Hno & Ho & _). by exists s'.
Qed.

(** ** Keys *)

Lemma finish_task_inv M t task c k s : ipc_inv None M s -> ipc_task s !! t = Some task -> ipc_connection s !! it_conn task = Some c ->
  ks_ok k -> ks_pending k = delete (it_keyring_cookie task) (ks_pending (ipc_keyring s)) ->
  ipc_inv None M (ipc_set_task (delete t (ipc_task s)) (ipc_set_connection (<[it_conn task := ic_set_tasks (filter (.≠ t) (ic_tasks c)) c]> (ipc_connection s)) (ipc_set_keyring k s))).
Proof.
  intros Hi Ht Hc Hk Ek. set (i := it_conn task) in *. pose proof Hi as [IL IC IE IT IP (B1 & B2 & B3 & B4) IK]. pose proof (IT t task Ht) as (_ & Hp & _).
  split; cbn [ipc_set_connection ipc_set_task ipc_set_keyring ipc_connections ipc_connection ipc_email ipc_task ipc_keyring ipc_next]; try done.
  - split; [apply IL|]. intros j. rewrite (proj2 IL j). destruct (decide (j = i)) as [->|Hj]; [rewrite lookup_insert_eq, Hc; split; by eexists|by rewrite lookup_insert_ne].
  - intros j cj. destruct (decide (j = i)) as [->|Hj].
    + rewrite lookup_insert_eq. intros [= <-]. pose proof (IC i c Hc) as [? ? [Hn He] ? ?]. split; try done. cbn. split; [by apply NoDup_filter|].
      intros _ t' [Hne Hin]%list_elem_of_filter. destruct (He ltac:(done) t' Hin) as (task' & Ht' & Ei). exists task'. by rewrite lookup_delete_ne.
    + rewrite lookup_insert_ne by done. intros Hcj. pose proof (IC j cj Hcj) as [? ? [Hn He] ? ?]. split; try done. cbn. split; [done|]. intros _ t' Hin. destruct (He ltac:(done) t' Hin) as (task' & Ht' & Ei).
      exists task'. rewrite lookup_delete_ne; [done|]. intros <-. apply Hj. unfold i. congruence.
  - intros e em Hem. destruct (IE e em Hem) as (R & Hm & c' & Hc' & Hin). split; [done|]. split; [done|]. destruct (decide (em_conn em = i)) as [Ei|Hj].
    + rewrite Ei in *. rewrite lookup_insert_eq. eexists. split; [done|]. cbn. congruence.
    + rewrite lookup_insert_ne by done. by exists c'.
  - intros t' task' [Hne Ht']%lookup_delete_Some. destruct (IT t' task' Ht') as (R & Hp' & c' & Hc' & Hin). split; [done|]. split; [rewrite Ek, lookup_delete_ne; [done|congruence]|].
    destruct (decide (it_conn task' = i)) as [Ei|Hj].
    + rewrite Ei in *. rewrite lookup_insert_eq. eexists. split; [done|]. cbn. apply list_elem_of_filter. split; [done|]. congruence.
    + rewrite lookup_insert_ne by done. by exists c'.
  - intros ck t' Hpk. rewrite Ek in Hpk. apply lookup_delete_Some in Hpk as [Hne Hpk]. destruct (IP ck t' Hpk) as (task' & Ht' & Ei). exists task'. split; [|done].
    rewrite lookup_delete_ne; [done|]. intros <-. congruence.
  - split_and!; [apply bounded_put; [done|by eexists]|done|by apply bounded_delete|done].
Qed.

(** What the client is told about a key. *)
Definition key_payload (address : ntb_address) (text : list Z) : list Z :=
  enc_var_int (addr_version address) ++ enc_var_int (addr_stream address) ++ addr_ripe address ++ zlen text :: text.

Lemma appends_key_payload address text b : destination_ok address -> bytes text -> zlen text <= NTB_ADDRESS_MAX_LENGTH -> fits b (zlen (key_payload address text) + 64) ->
  appends b (b ← ntb_proto_add_var_int b (addr_version address); b ← ntb_proto_add_var_int b (addr_stream address); b ← ntb_buffer_append b (addr_ripe address); ntb_proto_add_var_str b text) (key_payload address text).
Proof.
  unfold NTB_ADDRESS_MAX_LENGTH, is_byte. intros [((Hv & Hv') & (Hst & Hst') & Hr & Hrb) _] Hb Hz [Hwf Hf]. unfold key_payload in *. rewrite !zlen_app, zlen_cons in Hf. zlen_pose.
  pose proof (zlen_enc_var_int (addr_version address)). pose proof (zlen_enc_var_int (addr_stream address)).
  apply appends_bind; [apply appends_add_var_int; [lia|split; [done|lia]]|]. intros b1 _ W1 L1. apply appends_bind; [apply appends_add_var_int; [lia|split; [done|lia]]|]. intros b2 _ W2 L2.
  apply appends_bind; [apply appends_append; split; [done|lia]|]. intros b3 _ W3 L3.
  apply (appends_add_argument 0 b3 NTB_PROTO_ARGUMENT_VAR_STR text); [split; [done|lia]|]. split; [done|]. cbn [enc_argument]. rewrite zlen_cons. lia.
Qed.

Lemma encoded_address address : destination_ok address -> exists text, ntb_address_encode address = Ok text /\ ntb_address_decode text = Ok address /\ zlen text <= NTB_ADDRESS_MAX_LENGTH /\ bytes text.
Proof. intros [Hwf Hv]. destruct (address_text address Hwf Hv) as (text & E & Ed & Hp & Hz). exists text. split_and!; try done. by apply plain_bytes. Qed.

(** The key ring has created the key of the task [t]. *)
Lemma key_created_spec M t task c key k text s : ipc_inv None M s -> ipc_task s !! t = Some task -> ipc_connection s !! it_conn task = Some c ->
  ks_ok k -> ks_pending k = delete (it_keyring_cookie task) (ks_pending (ipc_keyring s)) ->
  destination_ok (key_address key) -> ntb_address_encode (key_address key) = Ok text -> bytes text -> zlen text <= NTB_ADDRESS_MAX_LENGTH -> buf_length (ic_outbuf c) + response_room <= 2 ^ 62 ->
  exists c1 s', ipc_create_key_cb key t (ipc_set_keyring k s) = Ok s' /\ ipc_inv None M s' /\ ipc_keyring s' = k /\ ipc_task s' = delete t (ipc_task s) /\
    answered (ic_set_tasks (filter (.≠ t) (ic_tasks c)) c) (response (it_request_id task) NTB_IPC_PROTO_STATUS_SUCCESS (key_payload (key_address key) text)) c1 /\
    ipc_connection s' = <[it_conn task := c1]> (ipc_connection s).
Proof.
  intros Hi Ht Hc Hk Ek Ha Etext Hb Hz Hroom. pose proof (in_tasks _ _ _ Hi t task Ht) as (Hid & _). unfold ipc_create_key_cb. cbn [ipc_set_keyring ipc_task]. rewrite Ht. cbn [need]. rewrite bind_ret_l. cbv zeta.
  rewrite (update_connection_Some _ _ c), bind_ret_l by exact Hc. rewrite Etext, bind_ret_l.
  pose proof (finish_task_inv M t task c k s Hi Ht Hc Hk Ek) as Hi1. cbn [ipc_set_keyring ipc_set_connection ipc_connection ipc_task]. set (c0 := ic_set_tasks _ c) in *.
  match type of Hi1 with ipc_inv _ _ ?x => set (s1 := x) in * end.
  assert (Hc1 : ipc_connection s1 !! it_conn task = Some c0) by apply lookup_insert_eq.
  assert (Hp : zlen (key_payload (key_address key) text) <= 100).
  { destruct Ha as [(_ & _ & Hr & _) _]. unfold key_payload. rewrite !zlen_app, zlen_cons. pose proof (zlen_enc_var_int (addr_version (key_address key))). pose proof (zlen_enc_var_int (addr_stream (key_address key))).
    unfold zlen in *. rewrite Hr. unfold RIPEMD160_DIGEST_LENGTH, NTB_ADDRESS_MAX_LENGTH in *. lia. }
  unfold response_room in Hroom.
  destruct (respond_spec M (it_conn task) c0 (it_request_id task) NTB_IPC_PROTO_STATUS_SUCCESS
    (fun b => b ← ntb_proto_add_var_int b (addr_version (key_address key)); b ← ntb_proto_add_var_int b (addr_stream (key_address key)); b ← ntb_buffer_append b (addr_ripe (key_address key)); ntb_proto_add_var_str b text)
    (key_payload (key_address key) text) s1 Hi1 Hc1 Hid) as (c1 & E & Hans); [cbn; lia|lia|intros b; by apply appends_key_payload|].
  change (ipc_set_task _ _) with s1. revert E. destruct (begin_send_response _ _ _ s1) as [s2| | |]; try done. rewrite !bind_ret_l. destruct (append_response _ _ s2) as [s3| | |]; try done. rewrite !bind_ret_l. intros ->. rewrite bind_ret_l.
  exists c1. eexists. split; [reflexivity|]. split; [eapply answered_inv; [exact Hi1|exact Hc1|exact Hans]|]. split_and!; try done. cbn. by rewrite insert_insert_eq.
Qed.

(** ** Connections that are accepted, and the end *)

Lemma accept_spec M accepted s : ipc_inv None M s -> exists s', listen_source_cb nonblock_error accepted s = Ok s' /\ ipc_inv None M s' /\
  match accepted with
  | Some (sock, uid) =>
      if bool_decide (is_Some (nonblock_error sock)) || negb (check_credentials uid s) then s' = ipc_close [sock] s
      else exists c, ipc_connection s' = <[ipc_next s := c]> (ipc_connection s) /\ ic_sock c = sock /\ repr (ic_outbuf c) [] /\ repr (ic_inbuf c) [] /\ ic_fd_queue c = [] /\ ic_read_finished c = false
  | None => s' = ipc_set_listening false s
  end.
Proof.
  intros Hi. pose proof Hi as [IL IC IE IT IP (B1 & B2 & B3 & B4) IK]. unfold listen_source_cb. destruct accepted as [[sock uid]|].
  2: { eexists. split; [reflexivity|]. split; [|done]. split; try done. intros i c Hc. by eapply conn_ok_same; [..|apply IC]. }
  destruct (bool_decide _); cbn [orb]; [eexists; split; [reflexivity|]; split; [by apply close_inv|done]|].
  destruct (negb _); [eexists; split; [reflexivity|]; split; [by apply close_inv|done]|].
  eexists. split; [reflexivity|]. set (c := IpcConn _ _ _ _ _ _ _ _ _ _ _). pose proof (bounded_fresh _ _ B1) as Hfresh.
  assert (Hempty : repr ntb_buffer_init []) by (split; [by apply (bool_decide_unpack _)|done]).
  split; [|exists c; by split_and!].
  assert (Hold : forall j cj, ipc_connection s !! j = Some cj -> j <> ipc_next s) by (intros j cj Hj ->; congruence).
  split; cbn [ipc_set_connection ipc_set_connections ipc_set_next ipc_connections ipc_connection ipc_email ipc_task ipc_keyring ipc_next]; try done.
  - split.
    + apply NoDup_cons. split; [|apply IL]. intros Hin. apply IL in Hin as [? ?]. congruence.
    + intros j. rewrite elem_of_cons, (proj2 IL j). destruct (decide (j = ipc_next s)) as [->|Hj]; [rewrite lookup_insert_eq; split; [by eexists|by left]|].
      rewrite lookup_insert_ne by done. split; [by intros [|]|by right].
  - intros j cj. destruct (decide (j = ipc_next s)) as [->|Hj].
    + rewrite lookup_insert_eq. intros [= <-]. split; cbn; try done; [split; [constructor|]; intros e He; inversion He|split; [constructor|]; intros _ x Hx; inversion Hx|by eexists|].
      split; [by apply (bool_decide_unpack _)|by eexists].
    + rewrite lookup_insert_ne by done. intros Hcj. by eapply conn_ok_same; [..|apply IC].
  - intros e em Hem. destruct (IE e em Hem) as (R & Hm & c' & Hc' & Hin). split; [done|]. split; [done|]. exists c'. by rewrite lookup_insert_ne by (intros Eq; by eapply Hold).
  - intros x task Hx. destruct (IT x task Hx) as (R & Hp & c' & Hc' & Hin). split; [done|]. split; [done|]. exists c'. by rewrite lookup_insert_ne by (intros Eq; by eapply Hold).
  - assert (Hle : (ipc_next s <= S (ipc_next s))%nat) by lia.
    split_and!; [apply bounded_insert; [exact (bounded_le _ _ _ B1 Hle)|lia]|exact (bounded_le _ _ _ B2 Hle)|exact (bounded_le _ _ _ B3 Hle)|exact (bounded_le _ _ _ B4 Hle)].
Qed.

Lemma free_connections_spec M l : forall s, ipc_inv None M s -> ipc_connections s = l -> exists s', for_each remove_connection l s = Ok s' /\ ipc_inv None M s' /\ ipc_connections s' = [].
Proof.
  induction l as [|i l IH]; intros s Hi El; cbn [for_each]; [by exists s|]. destruct (in_list _ _ _ Hi) as [Hn Hl]. rewrite El in Hn. destruct (proj1 (Hl i)) as [c Hc]; [rewrite El; by left|].
  destruct (remove_connection_spec M i c s Hi Hc) as (s1 & -> & Hi1 & _ & _ & E1). rewrite bind_ret_l. apply IH; [done|]. rewrite E1, El. by apply filter_head_out.
Qed.

(** Nothing is left. *)
Definition nothing_left s : Prop :=
  ipc_connections s = [] /\ ipc_connection s = ∅ /\ ipc_email s = ∅ /\ ipc_task s = ∅ /\ ks_pending (ipc_keyring s) = ∅ /\ ipc_listening s = false.

Lemma ipc_free_spec M s : ipc_inv None M s -> exists s', ntb_ipc_free s = Ok s' /\ nothing_left s' /\ ks_ok (ipc_keyring s').
Proof.
  intros Hi. unfold ntb_ipc_free. destruct (free_connections_spec M _ s Hi eq_refl) as (s1 & -> & [IL IC IE IT IP IN IK] & E1). rewrite bind_ret_l. eexists. split; [reflexivity|]. split; [|exact IK].
  assert (Hc : ipc_connection s1 = ∅).
  { apply map_eq. intros i. rewrite lookup_empty. destruct (ipc_connection s1 !! i) eqn:Ec; [|done]. assert (Hin : i ∈ ipc_connections s1) by (apply IL; by eexists). rewrite E1 in Hin. inversion Hin. }
  assert (Ht : ipc_task s1 = ∅).
  { apply map_eq. intros i. rewrite lookup_empty. destruct (ipc_task s1 !! i) as [task|] eqn:Et; [|done]. destruct (IT i task Et) as (_ & _ & c & Hc' & _). by rewrite Hc, lookup_empty in Hc'. }
  split_and!; try done.
  - apply map_eq. intros i. rewrite lookup_empty. cbn. destruct (ipc_email s1 !! i) as [em|] eqn:Ee; [|done]. destruct (IE i em Ee) as (_ & _ & c & Hc' & _). by rewrite Hc, lookup_empty in Hc'.
  - apply map_eq. intros ck. rewrite lookup_empty. cbn. destruct (ks_pending (ipc_keyring s1) !! ck) as [x|] eqn:Ep; [|done]. destruct (IP ck x Ep) as (task & Hx & _). by rewrite Ht, lookup_empty in Hx.
Qed.

(** ** Events *)

(** The key ring has created the key of a request and is in the state [k] then; it may
    also change by itself. *)
Inductive ipc_event :=
| IpcAccept (accepted : option (Z * option Z))
| IpcPoll (shutdown_fails : bool) (i : nat) (flags : poll_event)
| IpcEmail (e : nat) (got : read_result)
| IpcKeyCreated (cookie : nat) (key : ntb_key) (k : K)
| IpcKeyring (k : K).

Definition handle_ipc_event (ev : ipc_event) s : result unit (ntb_ipc K) :=
  match ev with
  | IpcAccept accepted => listen_source_cb nonblock_error accepted s
  | IpcPoll shutdown_fails i flags => connection_source_cb indet nonblock_error shutdown_fails i flags s
  | IpcEmail e got => email_poll_cb mail_error_text unknown_from_text e got s
  | IpcKeyCreated cookie key k => t ← need (ks_pending (ipc_keyring s) !! cookie); ipc_create_key_cb key t (ipc_set_keyring k s)
  | IpcKeyring k => Ok (ipc_set_keyring k s)
  end.

Definition mail_of (M : gmap nat (list Z)) (e : nat) : list Z := default [] (M !! e).

(** The mails are those whose parsing is defined (see [find_header_zero_byte] and
    [base64_content_overflows] for others). *)
Definition ipc_event_ok (M : gmap nat (list Z)) (ev : ipc_event) s : Prop :=
  match ev with
  | IpcAccept _ => True
  | IpcPoll _ i flags => exists c, ipc_connection s !! i = Some c /\
      match flags with PollIn got => buf_length (ic_inbuf c) <= 2 ^ 40 /\ recv_ok c got | PollOut wrote => wrote_ok c wrote | PollError | PollNone => True end
  | IpcEmail e got => exists em c, ipc_email s !! e = Some em /\ ipc_connection s !! em_conn em = Some c /\ buf_length (ic_outbuf c) + response_room <= 2 ^ 62 /\
      match got with
      | ReadBytes l => bytes l /\ zlen l <= 512 /\ zlen (mail_of M e ++ l) <= 2 ^ 30 /\
          match spec_steps (C := unit) (mail_of M e ++ l) (spec_new new_ipc_mail) with UB | OutOfFuel => False | _ => True end
      | ReadEnd => match mail_spec (C := unit) (mail_of M e) new_ipc_mail with UB | OutOfFuel => False | _ => True end
      | ReadAgain | ReadError => True
      end
  | IpcKeyCreated cookie key k => exists t task c, ks_pending (ipc_keyring s) !! cookie = Some t /\ ipc_task s !! t = Some task /\ ipc_connection s !! it_conn task = Some c /\
      buf_length (ic_outbuf c) + response_room <= 2 ^ 62 /\ destination_ok (key_address key) /\ ks_ok k /\ ks_pending k = delete cookie (ks_pending (ipc_keyring s))
  | IpcKeyring k => ks_ok k /\ ks_pending k = ks_pending (ipc_keyring s)
  end.

Definition mails_after (M : gmap nat (list Z)) (ev : ipc_event) : gmap nat (list Z) :=
  match ev with
  | IpcEmail e (ReadBytes l) => match spec_steps (C := unit) (mail_of M e ++ l) (spec_new new_ipc_mail) with Ok _ => <[e := mail_of M e ++ l]> M | _ => M end
  | _ => M
  end.

Context (Hindet : is_byte indet) (Htexts : texts_small nonblock_error mail_error_text unknown_from_text).

Lemma ipc_event_total M ev s : ipc_inv None M s -> ipc_event_ok M ev s -> exists s', handle_ipc_event ev s = Ok s' /\ ipc_inv None (mails_after M ev) s'.
Proof.
  intros Hi Hev. destruct ev as [accepted|shutdown_fails i flags|e got|cookie key k|k]; cbn [handle_ipc_event ipc_event_ok mails_after] in *.
  - destruct (accept_spec M accepted s Hi) as (s' & -> & Hi' & _). by exists s'.
  - destruct Hev as (c & Hc & Hf). destruct flags as [|got|wrote|]; cbn [connection_source_cb].
    + destruct (remove_connection_spec M i c s Hi Hc) as (s' & -> & Hi' & _). by exists s'.
    + destruct Hf as [Hl Hg]. destruct (handle_read_spec M shutdown_fails i c got s Hindet Htexts Hi Hc Hl Hg) as (s' & -> & Hi' & _). by exists s'.
    + destruct (handle_write_spec M shutdown_fails i c wrote s Hi Hc Hf) as (s' & -> & Hi' & _). by exists s'.
    + by exists s.
  - destruct Hev as (em & c & Hem & Hc & Hroom & Hg). destruct got as [l| | |].
    + destruct Hg as (Hb & Hz & Hz2 & Hp). destruct (email_data_spec nonblock_error mail_error_text unknown_from_text M e em c l s Htexts Hi Hem Hc Hroom Hb Hz Hz2 Hp) as (s' & M' & -> & Hi' & Hm).
      exists s'. split; [done|]. unfold mail_of in *. destruct (spec_steps _ _); try done; destruct Hm as [-> _]; done.
    + destruct (email_end_spec nonblock_error mail_error_text unknown_from_text M e em c s Htexts Hi Hem Hc Hroom Hg) as (s' & status & text & -> & Hi' & _). by exists s'.
    + destruct (email_error_spec mail_error_text unknown_from_text M e em c ReadAgain s ltac:(by left) Hi Hem Hc Hroom) as (s' & -> & Hi' & _). by exists s'.
    + destruct (email_error_spec mail_error_text unknown_from_text M e em c ReadError s ltac:(by right) Hi Hem Hc Hroom) as (s' & -> & Hi' & _). by exists s'.
  - destruct Hev as (t & task & c & Hp & Ht & Hc & Hroom & Ha & Hk & Ek). rewrite Hp. cbn [need]. rewrite bind_ret_l. destruct (encoded_address _ Ha) as (text & Et & _ & Hz & Hb).
    destruct (in_pending _ _ _ Hi cookie t Hp) as (task' & Ht' & Eck). assert (task' = task) as -> by congruence. rewrite <- Eck in Ek.
    destruct (key_created_spec M t task c key k text s Hi Ht Hc Hk Ek Ha Et Hb Hz Hroom) as (c1 & s' & -> & Hi' & _). by exists s'.
  - destruct Hev as [Hk Ek]. eexists. split; [reflexivity|]. by apply set_keyring_inv.
Qed.

(** ** The states that are reached *)

Inductive ipc_reachable : gmap nat (list Z) -> ntb_ipc K -> Prop :=
| ipc_start uid k : ks_ok k -> ks_pending k = ∅ -> ipc_reachable ∅ (ntb_ipc_new uid k)
| ipc_next_event M s ev s' : ipc_reachable M s -> ipc_event_ok M ev s -> handle_ipc_event ev s = Ok s' -> ipc_reachable (mails_after M ev) s'.

Lemma ipc_reachable_inv M s : ipc_reachable M s -> ipc_inv None M s.
Proof.
  induction 1 as [uid k Hk Ep|M s ev s' _ IH Hev E].
  - split; cbn; try done; try (by intros i x Hx; rewrite lookup_empty in Hx).
    + split; [constructor|]. intros i. rewrite lookup_empty. split; [intros Hx; inversion Hx|by intros [? ?]].
    + intros c t Hx. by rewrite Ep, lookup_empty in Hx.
    + split_and!; apply bounded_empty.
  - destruct (ipc_event_total M ev s IH Hev) as (s2 & E2 & Hi). assert (s2 = s') as -> by congruence. done.
Qed.
End events.
