(* ===== verification/IpcKeygen.v ===== *)
(** * IpcKeygen: a key is asked for over the local socket (for [IpcProto] and [Ipc])

    The command of notbit-keygen and the response to it, at both ends. *)

From S2P Require Import Prelude Endian Buffer NetAddress OpenSSL Proto ProtoSpec NetText KeyValue Pow Base58 Address Base64 QuotedPrintable EncodedWords Outgoings Ecc Keys ParseContentType ParseAddresses MailParser MailParserSpec Connection CryptoSpec ConnectionSpec KeyringInv KeyringCallbacks KeyringCalls IpcProto IpcProtoSpec Ipc IpcMail IpcInv IpcHandlers IpcSpec.

(** ** The command *)

(** The numbers are [int]s and the label is short. *)
Definition keygen_options_ok (o : keygen_options) : Prop :=
  - 2 ^ 31 <= option_version o < 2 ^ 31 /\ - 2 ^ 31 <= option_stream o < 2 ^ 31 /\ - 2 ^ 31 <= option_nonce_trials_per_byte o < 2 ^ 31 /\
  - 2 ^ 31 <= option_payload_length_extra_bytes o < 2 ^ 31 /\ 0 <= option_zeroes o < 256 /\ bytes (option_label o) /\ zlen (option_label o) < 0xfd.
#[global] Instance keygen_options_ok_dec o : Decision (keygen_options_ok o).
Proof. unfold keygen_options_ok. apply _. Defined.

Definition keygen_values (o : keygen_options) : args_in_ty keygen_arguments :=
  (u64 (option_version o), (u64 (option_stream o), (u64 (option_nonce_trials_per_byte o), (u64 (option_payload_length_extra_bytes o), (option_zeroes o, (option_label o, tt)))))).
Definition keygen_payload (o : keygen_options) : list Z := enc_arguments 0 keygen_arguments (keygen_values o).

(** The bytes that are sent. *)
Definition keygen_sent (o : keygen_options) : list Z := ipc_frame (str_bytes "keygen") 0 (keygen_payload o).

Lemma keygen_values_ok o : keygen_options_ok o -> args_ok 0 keygen_arguments (keygen_values o).
Proof.
  intros (_ & _ & _ & _ & Hz & Hb & Hl). cbn. pose proof (u64_range (option_version o)). pose proof (u64_range (option_stream o)).
  pose proof (u64_range (option_nonce_trials_per_byte o)). pose proof (u64_range (option_payload_length_extra_bytes o)). split_and!; try done; lia.
Qed.

Lemma zlen_keygen_payload o : keygen_options_ok o -> zlen (keygen_payload o) <= 300.
Proof.
  intros (_ & _ & _ & _ & _ & _ & Hl). unfold keygen_payload. cbn [enc_arguments keygen_arguments keygen_values enc_argument fst snd].
  rewrite !zlen_app, !zlen_cons. pose proof (zlen_enc_var_int (u64 (option_version o))). pose proof (zlen_enc_var_int (u64 (option_stream o))).
  pose proof (zlen_enc_var_int (u64 (option_nonce_trials_per_byte o))). pose proof (zlen_enc_var_int (u64 (option_payload_length_extra_bytes o))).
  rewrite ?zlen_nil, ?zlen_app, ?zlen_be_split. rewrite ?zlen_nil. lia.
Qed.

Lemma send_keygen_spec o : keygen_options_ok o ->
  exists b, send_keygen_command o = Ok b /\ repr b (keygen_sent o).
Proof.
  intros Ho. pose proof (keygen_values_ok o Ho) as Hv. pose proof (zlen_keygen_payload o Ho) as Hz. zlen_pose.
  assert (Hwf : buf_wf ntb_buffer_init) by (apply (bool_decide_unpack _); exact I).
  destruct (ipc_command_spec ntb_buffer_init (str_bytes "keygen") 0 (fun b => add_arguments 0 b keygen_arguments (keygen_values o)) (keygen_payload o)) as (b & E & W & L & C);
    [split; [done|change (buf_length ntb_buffer_init) with 0; lia]|done|lia|pose proof (zlen_nonneg (keygen_payload o)); lia| |].
  { intros b [Hb Hf]. apply appends_add_arguments; [done|]. split; [done|]. fold (keygen_payload o). lia. }
  exists b. split; [|split; [done|exact C]]. rewrite <- E. unfold send_keygen_command. destruct (ntb_ipc_proto_begin_command _ _ _) as [b1| | |]; try done. rewrite !bind_ret_l.
  cbn [add_arguments keygen_arguments keygen_values add_argument fst snd]. rewrite !bind_assoc. destruct (ntb_proto_add_var_int b1 _) as [b2| | |]; try done. rewrite !bind_ret_l, !bind_assoc.
  destruct (ntb_proto_add_var_int b2 _) as [b3| | |]; try done. rewrite !bind_ret_l, !bind_assoc. destruct (ntb_proto_add_var_int b3 _) as [b4| | |]; try done. rewrite !bind_ret_l, !bind_assoc.
  destruct (ntb_proto_add_var_int b4 _) as [b5| | |]; try done. rewrite !bind_ret_l, !bind_assoc. destruct (ntb_proto_add_8 b5 _) as [b6| | |]; try done. rewrite !bind_ret_l, !bind_assoc.
  by destruct (ntb_proto_add_var_str b6 _).
Qed.

(** ** The daemon *)

(** What the daemon does not refuse. *)
Definition keygen_supported (o : keygen_options) : Prop :=
  (option_version o = 0 \/ 2 <= option_version o <= 4) /\ option_stream o = 1 /\ option_zeroes o <= 2 /\ Forall (fun ch => 32 <= ch) (option_label o).
#[global] Instance keygen_supported_dec o : Decision (keygen_supported o).
Proof. unfold keygen_supported. apply _. Defined.

(** What it answers to options that it refuses, in the order of its checks. *)
Definition keygen_refusal (o : keygen_options) : option (ntb_ipc_proto_status * list Z) :=
  if negb (option_version o =? 0) && ((option_version o <? 2) || (4 <? option_version o))
  then Some (NTB_IPC_PROTO_STATUS_UNSUPPORTED, str_bytes "The requested key version is not supported")
  else if negb (option_stream o =? 1) then Some (NTB_IPC_PROTO_STATUS_UNSUPPORTED, str_bytes "The requested stream is not supported")
  else if 2 <? option_zeroes o then Some (NTB_IPC_PROTO_STATUS_UNSUPPORTED, str_bytes "The requested number of zeroes is not supported")
  else if negb (forallb (fun ch => 32 <=? ch) (option_label o))
  then Some (NTB_IPC_PROTO_STATUS_INVALID_COMMAND, str_bytes "The new key label contains invalid characters")
  else None.

Lemma keygen_supported_refusal o : keygen_supported o <-> keygen_refusal o = None.
Proof.
  assert (El : Forall (fun ch => 32 <= ch) (option_label o) <-> forallb (fun ch => 32 <=? ch) (option_label o) = true).
  { rewrite forallb_forall, Forall_forall. split; intros Hl x Hx; [apply Z.leb_le, Hl; by apply list_elem_of_In|apply Z.leb_le, Hl; by apply list_elem_of_In]. }
  unfold keygen_supported, keygen_refusal. rewrite El. destruct (negb (option_version o =? 0) && _) eqn:E1; [split; [lia|done]|].
  destruct (Z.eqb_spec (option_stream o) 1); cbn [negb]; [|split; [lia|done]]. destruct (Z.ltb_spec 2 (option_zeroes o)); [split; [lia|done]|].
  destruct (forallb _ _); cbn [negb]; split; try done; [|naive_solver]. intros _. split_and!; [lia|done|done|done].
Qed.

(** The parameters of the key: a zero stands for the default. *)
Definition keygen_request (o : keygen_options) : ntb_key_params :=
  keygen_params (if option_version o =? 0 then 4 else option_version o) 1
    (if option_nonce_trials_per_byte o =? 0 then NTB_PROTO_MIN_NONCE_TRIALS_PER_BYTE * 2 else option_nonce_trials_per_byte o)
    (if option_payload_length_extra_bytes o =? 0 then NTB_PROTO_MIN_EXTRA_BYTES else option_payload_length_extra_bytes o) (option_label o).

Lemma u64_int z : - 2 ^ 31 <= z < 2 ^ 31 -> s32 (u64 z) = z /\ (u64 z =? 0) = (z =? 0).
Proof.
  intros Hz. destruct (Z.ltb_spec z 0).
  - assert (E : u64 z = z + 2 ^ 64) by (unfold u64; symmetry; apply (Z.mod_unique_pos _ _ (-1)); lia). rewrite E. split; [|lia].
    unfold s32. replace (z + 2 ^ 64 + 2 ^ 31) with (z + 2 ^ 31 + 2 ^ 32 * 2 ^ 32) by lia. rewrite Z.mod_add, Z.mod_small; lia.
  - rewrite u64_small by lia. split; [|done]. apply s32_small. lia.
Qed.

Lemma keygen_params_values o : keygen_options_ok o -> keygen_supported o ->
  keygen_params (if u64 (option_version o) =? 0 then 4 else u64 (option_version o)) (u64 (option_stream o))
    (if u64 (option_nonce_trials_per_byte o) =? 0 then NTB_PROTO_MIN_NONCE_TRIALS_PER_BYTE * 2 else u64 (option_nonce_trials_per_byte o))
    (if u64 (option_payload_length_extra_bytes o) =? 0 then NTB_PROTO_MIN_EXTRA_BYTES else u64 (option_payload_length_extra_bytes o)) (option_label o) = keygen_request o.
Proof.
  intros (_ & _ & Hn & He & _) (Hv & Hs & _). unfold keygen_request, keygen_params. rewrite Hs. rewrite (u64_small (option_version o)) by lia. rewrite (u64_small 1) by lia.
  destruct (u64_int _ Hn) as [En ->], (u64_int _ He) as [Ee ->]. f_equal.
  - destruct (Z.eqb_spec (option_nonce_trials_per_byte o) 0); [done|]. rewrite En. symmetry. by apply s32_small.
  - destruct (Z.eqb_spec (option_payload_length_extra_bytes o) 0); [done|]. rewrite Ee. symmetry. by apply s32_small.
Qed.

Section daemon.
Context `{DigestLaws} `{BigNumLaws} `{!Elliptic} `{Symmetric} `{Digest256} `{KeyringServiceLaws K}.
Context (indet : Z) (nonblock_error : Z -> option (list Z)) (mail_error_text : mail_error unit -> list Z) (unknown_from_text : list Z).
Implicit Type s : ntb_ipc K.

(** The key [params] was asked for on the connection [c]. *)
Definition key_requested (i : nat) (c : ntb_ipc_connection) (request_id : Z) (params : ntb_key_params) (leading_zeroes : Z) s s' : Prop :=
  exists cookie k, ks_create_key params leading_zeroes (ipc_next s) (ipc_keyring s) = Ok (cookie, k) /\
    s' = ipc_set_connection (<[i := ic_set_tasks (ipc_next s :: ic_tasks c) c]> (ipc_connection s))
      (ipc_set_task (<[ipc_next s := IpcTask i cookie request_id]> (ipc_task s)) (ipc_set_next (S (ipc_next s)) (ipc_set_keyring k s))).

(** The key is asked for, or the connection gets the answer of the refusal. *)
Definition keygen_result (i : nat) (c : ntb_ipc_connection) (request_id : Z) (o : keygen_options) s s' : Prop :=
  match keygen_refusal o with
  | None => key_requested i c request_id (keygen_request o) (option_zeroes o) s s'
  | Some (status, text) => exists c1, answered c (response request_id status text) c1 /\ s' = ipc_set_connection (<[i := c1]> (ipc_connection s)) s
  end.
Definition answer_room (o : keygen_options) (c : ntb_ipc_connection) : Prop := keygen_refusal o = None \/ buf_length (ic_outbuf c) + response_room <= 2 ^ 62.

Lemma u64_is z n : - 2 ^ 31 <= z < 2 ^ 31 -> 0 <= n < 2 ^ 31 -> (u64 z =? n) = (z =? n).
Proof.
  intros Hz Hn. destruct (Z.ltb_spec z 0); [|by rewrite u64_small by lia].
  assert (E : u64 z = z + 2 ^ 64) by (unfold u64; symmetry; apply (Z.mod_unique_pos _ _ (-1)); lia). rewrite E. lia.
Qed.

(** Refused, with the answer. *)
Lemma handle_keygen_refused M i c request_id o q status text s : ipc_inv None M s -> ipc_connection s !! i = Some c -> 0 <= request_id < 2 ^ 32 -> keygen_options_ok o ->
  keygen_refusal o = Some (status, text) -> buf_length (ic_outbuf c) + response_room <= 2 ^ 62 ->
  exists s', handle_keygen_command i request_id (keygen_payload o ++ q) (zlen (keygen_payload o)) s = Ok (true, s') /\ ipc_inv None M s' /\ keygen_result i c request_id o s s'.
Proof.
  intros Hi Hc Hid Ho Hs Hroom. pose proof (zlen_keygen_payload o Ho) as Hz. unfold keygen_result. rewrite Hs. unfold response_room in Hroom.
  assert (Ht : zlen text <= 100).
  { unfold keygen_refusal in Hs. repeat case_match; simplify_eq; vm_compute; congruence. }
  destruct (send_response_spec M i c request_id status text s Hi Hc Hid) as (c1 & E & Ha); [lia..|].
  exists (ipc_set_connection (<[i := c1]> (ipc_connection s)) s). split; [|split; [by apply (answered_inv M i c _ c1 s Hi Hc Ha)|by exists c1]]. rewrite <- E.
  unfold handle_keygen_command, keygen_payload. rewrite (command_roundtrip 0 keygen_arguments (keygen_values o) q); [|by apply keygen_values_ok|fold (keygen_payload o); lia].
  cbn [parse args_out arg_out keygen_arguments keygen_values fst snd]. rewrite bind_ret_l. cbn [vs_length vs_data].
  destruct Ho as (Hv & Hst & Hn & He & Hzr & Hb & Hl). unfold keygen_refusal in Hs.
  assert (E1 : negb (u64 (option_version o) =? 0) && ((u64 (option_version o) <? 2) || (4 <? u64 (option_version o))) =
    negb (option_version o =? 0) && ((option_version o <? 2) || (4 <? option_version o))).
  { destruct (Z.ltb_spec (option_version o) 0); [|by rewrite u64_small by lia].
    assert (Eu : u64 (option_version o) = option_version o + 2 ^ 64) by (unfold u64; symmetry; apply (Z.mod_unique_pos _ _ (-1)); lia). rewrite Eu. lia. }
  rewrite E1. destruct (negb (option_version o =? 0) && _); [by injection Hs as <- <-|]. rewrite u64_is by lia.
  destruct (negb (option_stream o =? 1)); [by injection Hs as <- <-|]. destruct (2 <? option_zeroes o); [by injection Hs as <- <-|].
  unfold label_is_valid. cbn [vs_length vs_data]. rewrite read_bytes_app, !bind_ret_l by (unfold zlen; lia). destruct (negb _); [|done]. by injection Hs as <- <-.
Qed.

Lemma handle_keygen_spec M i c request_id o q s : ipc_inv None M s -> ipc_connection s !! i = Some c -> 0 <= request_id < 2 ^ 32 -> keygen_options_ok o -> keygen_supported o ->
  exists s', handle_keygen_command i request_id (keygen_payload o ++ q) (zlen (keygen_payload o)) s = Ok (true, s') /\ ipc_inv None M s' /\ key_requested i c request_id (keygen_request o) (option_zeroes o) s s'.
Proof.
  intros Hi Hc Hid Ho Hs. pose proof (zlen_keygen_payload o Ho) as Hz. pose proof (keygen_params_values o Ho Hs) as Hparams. destruct Hs as (Hv & Hst & Hzero & Hl).
  unfold handle_keygen_command, keygen_payload. rewrite (command_roundtrip 0 keygen_arguments (keygen_values o) q); [|by apply keygen_values_ok|fold (keygen_payload o); lia].
  cbn [parse args_out arg_out keygen_arguments keygen_values fst snd]. rewrite bind_ret_l. cbn [vs_length vs_data].
  assert (E1 : negb (u64 (option_version o) =? 0) && ((u64 (option_version o) <? 2) || (4 <? u64 (option_version o))) = false) by (rewrite u64_small by lia; lia).
  rewrite E1. assert (E2 : (u64 (option_stream o) =? 1) = true) by (by rewrite Hst). rewrite E2. cbn [negb]. rewrite (proj2 (Z.ltb_ge 2 (option_zeroes o))) by done.
  unfold label_is_valid. cbn [vs_length vs_data]. rewrite read_bytes_app, !bind_ret_l by (unfold zlen; lia).
  assert (E3 : forallb (fun ch => 32 <=? ch) (option_label o) = true) by (apply forallb_forall; intros x Hx; rewrite Forall_forall in Hl; apply Z.leb_le, Hl; by apply list_elem_of_In).
  rewrite E3. cbn [negb]. rewrite Hparams.
  destruct (ipc_create_key_spec M i c request_id (keygen_request o) (option_zeroes o) s Hi Hc Hid (keygen_params_ok _ _ _ _ _)) as (cookie & k & E & Hs2). rewrite E, bind_ret_l.
  cbv zeta in Hs2. destruct Hs2 as (-> & Hi2 & _). rewrite bind_ret_l. eexists. split; [reflexivity|]. split; [exact Hi2|]. by exists cookie, k.
Qed.

Lemma handle_keygen_total M i c request_id o q s : ipc_inv None M s -> ipc_connection s !! i = Some c -> 0 <= request_id < 2 ^ 32 -> keygen_options_ok o -> answer_room o c ->
  exists s', handle_keygen_command i request_id (keygen_payload o ++ q) (zlen (keygen_payload o)) s = Ok (true, s') /\ ipc_inv None M s' /\ keygen_result i c request_id o s s'.
Proof.
  intros Hi Hc Hid Ho Hroom. destruct (keygen_refusal o) as [[status text]|] eqn:E.
  - destruct Hroom as [Hroom|Hroom]; [congruence|]. by eapply handle_keygen_refused.
  - unfold keygen_result. rewrite E. apply handle_keygen_spec; try done. by apply keygen_supported_refusal.
Qed.

(** The commands loop with one whole command. *)
Lemma one_command_loop fuel i name request_id payload rest q s s' : name_ok name -> 0 <= request_id < 2 ^ 32 -> zlen payload + 20 < 2 ^ 32 -> zlen rest < 20 ->
  ipc_process_command nonblock_error i (ipc_frame name request_id payload ++ rest ++ q) (zlen payload) s = Ok (true, s') ->
  ipc_commands_loop nonblock_error (S (S fuel)) i (ipc_frame name request_id payload ++ rest ++ q) (zlen (ipc_frame name request_id payload ++ rest)) s = Ok (true, s').
Proof.
  intros Hn Hid Hp Hrest E. pose proof Hn as [Hl _]. pose proof (zlen_nonneg payload). pose proof (zlen_nonneg rest). pose proof (zlen_ipc_frame name request_id payload ltac:(lia)) as Hz.
  destruct (ipc_frame_parts name request_id payload (rest ++ q) ltac:(lia) Hid ltac:(lia)) as (_ & E16 & _). destruct (ipc_frame_name name request_id payload (rest ++ q) Hn) as [Ec _].
  rewrite zlen_app, Hz. remember (S fuel) as fuel1 eqn:Ef. cbn [ipc_commands_loop]. rewrite (proj2 (Z.ltb_ge _ 20)) by lia. rewrite E16, bind_ret_l. cbv zeta. rewrite u32_small by lia.
  rewrite (proj2 (Z.ltb_ge _ (zlen payload + 20))) by lia. rewrite Ec, bind_ret_l. cbn [negb]. rewrite E, bind_ret_l. subst fuel1. cbn [ipc_commands_loop].
  by rewrite (proj2 (Z.ltb_lt _ 20)) by lia.
Qed.

(** The command arrives with the bytes [l] and at most a part of the next one. *)
Lemma keygen_arrives M shutdown_fails i c l fds o rest s : ipc_inv None M s -> ipc_connection s !! i = Some c -> buf_length (ic_inbuf c) <= 2 ^ 40 -> bytes l -> recv_fits (ic_inbuf c) l ->
  keygen_options_ok o -> answer_room o c -> content (ic_inbuf c) ++ l = keygen_sent o ++ rest -> zlen rest < 20 ->
  exists c' s', let s1 := ipc_set_connection (<[i := c']> (ipc_connection s)) s in
    ipc_handle_read indet nonblock_error shutdown_fails i (RecvBytes l fds) s = Ok s' /\ ipc_inv None M s' /\ received c l fds c' /\ keygen_result i c' 0 o s1 s'.
Proof.
  intros Hi Hc Hlen Hb Hfits Ho Hroom El Hrest. destruct (receive_spec indet nonblock_error M shutdown_fails i c l fds s Hi Hc Hlen Hb Hfits) as (c' & -> & Hi1 & Hr). pose proof Hr as (Hrep & Hlt & _).
  assert (Hroom' : answer_room o c') by (destruct Hr as (_ & _ & _ & Eo & _); unfold answer_room; by rewrite Eo).
  set (s1 := ipc_set_connection _ s) in *. assert (Hc1 : ipc_connection s1 !! i = Some c') by apply lookup_insert_eq. rewrite El in Hrep.
  unfold ipc_process_commands. rewrite Hc1. cbn [need]. rewrite bind_ret_l. destruct (readable_repr indet _ _ Hrep) as [q ->]. rewrite (repr_length _ _ Hrep), <- app_assoc.
  unfold keygen_sent in *. set (frame := ipc_frame (str_bytes "keygen") 0 (keygen_payload o)) in *. pose proof (zlen_keygen_payload o Ho) as Hp. pose proof (zlen_nonneg (keygen_payload o)). pose proof (zlen_nonneg rest).
  assert (Hz : zlen frame = 20 + zlen (keygen_payload o)) by (by apply zlen_ipc_frame).
  assert (Hname : name_ok (str_bytes "keygen")) by (apply (bool_decide_unpack _); exact I).
  destruct (handle_keygen_total M i c' 0 o (rest ++ q) s1 Hi1 Hc1 ltac:(lia) Ho Hroom') as (s' & E & Hi' & Hreq).
  assert (Ecmd : ipc_process_command nonblock_error i (frame ++ rest ++ q) (zlen (keygen_payload o)) s1 = Ok (true, s')).
  { unfold ipc_process_command. destruct (ipc_frame_parts (str_bytes "keygen") 0 (keygen_payload o) (rest ++ q) ltac:(done) ltac:(lia) ltac:(lia)) as (E12 & _ & E20).
    destruct (ipc_frame_name (str_bytes "keygen") 0 (keygen_payload o) (rest ++ q) Hname) as [_ En]. fold frame in E12, E20, En. rewrite E12, bind_ret_l, En, bind_ret_l, E20. exact E. }
  assert (Hfuel : exists n, Z.to_nat (zlen (frame ++ rest)) = S (S n)) by (exists (Z.to_nat (zlen (frame ++ rest)) - 2)%nat; rewrite zlen_app; lia). destruct Hfuel as [n ->].
  pose proof (one_command_loop n i (str_bytes "keygen") 0 (keygen_payload o) rest q s1 s' Hname ltac:(lia) ltac:(lia) Hrest Ecmd) as Eloop. fold frame in Eloop. rewrite Eloop, bind_ret_l.
  assert (Hc' : exists c2, ipc_connection s' !! i = Some c2 /\ ic_inbuf c2 = ic_inbuf c').
  { unfold keygen_result in Hreq. destruct (keygen_refusal o) as [[status text]|].
    - destruct Hreq as (c1 & (_ & _ & _ & A4 & _) & ->). exists c1. split; [apply lookup_insert_eq|done].
    - destruct Hreq as (cookie & k & _ & ->). eexists. split; [apply lookup_insert_eq|done]. }
  destruct Hc' as (c2 & Hc2 & Ein). rewrite Hc2. cbn [need]. rewrite bind_ret_l, Ein. rewrite (repr_length _ _ Hrep), zlen_app.
  rewrite (proj2 (Z.eqb_neq _ 0)) by lia. exists c', s'. rewrite <- El in Hrep. by split_and!.
Qed.
End daemon.

(** ** What notbit-keygen prints *)

Lemma key_response_printed address text q : destination_ok address -> bytes text -> zlen text <= NTB_ADDRESS_MAX_LENGTH ->
  keygen_handle_response (key_payload address text ++ q) (zlen (key_payload address text)) = Ok (Some (text ++ [10])).
Proof.
  unfold NTB_ADDRESS_MAX_LENGTH, is_byte. intros [((Hv & Hv') & (Hst & Hst') & Hr & Hrb) _] Hb Hz. set (l1 := enc_var_int (addr_version address)). set (l2 := enc_var_int (addr_stream address)).
  pose proof (zlen_enc_var_int (addr_version address) : zlen l1 <= 9). pose proof (zlen_enc_var_int (addr_stream address) : zlen l2 <= 9). pose proof (zlen_nonneg text). pose proof (zlen_nonneg l1). pose proof (zlen_nonneg l2).
  assert (Hzr : zlen (addr_ripe address) = 20) by (unfold zlen; by rewrite Hr).
  set (args := [NTB_PROTO_ARGUMENT_VAR_INT; NTB_PROTO_ARGUMENT_VAR_INT]).
  set (vs := (addr_version address, (addr_stream address, tt)) : args_in_ty args).
  assert (Ee : enc_arguments 0 args vs = l1 ++ l2) by (unfold args, vs; cbn [enc_arguments enc_argument fst snd]; by rewrite app_nil_r).
  assert (Ep : key_payload address text = (l1 ++ l2) ++ addr_ripe address ++ zlen text :: text) by (unfold key_payload; by rewrite <- app_assoc).
  assert (Hp : zlen (key_payload address text) = zlen (l1 ++ l2) + 21 + zlen text) by (rewrite Ep, !zlen_app, zlen_cons; lia). pose proof (zlen_app l1 l2).
  unfold keygen_handle_response. fold args. rewrite u32_small by lia.
  pose proof (command_roundtrip 0 args vs ((addr_ripe address ++ zlen text :: text) ++ q) (zlen (key_payload address text))) as Erd. rewrite Ee in Erd. cbn [args_ok arg_ok args vs fst snd] in Erd. fold args in Erd.
  rewrite Ep at 1. rewrite <- app_assoc, Erd by (split_and!; try done; lia). cbn [parse args_out arg_out args vs fst snd]. rewrite bind_ret_l.
  rewrite (proj2 (Z.ltb_ge _ (zlen (l1 ++ l2) + 20))) by lia.
  rewrite Ep at 1. replace ((((l1 ++ l2) ++ addr_ripe address ++ zlen text :: text) ++ q)) with (((l1 ++ l2) ++ addr_ripe address) ++ (zlen text :: text) ++ q) by (by rewrite <- !app_assoc).
  rewrite advance_app by (rewrite ?zlen_app; lia). rewrite Hp.
  pose proof (argument_roundtrip 0 NTB_PROTO_ARGUMENT_VAR_STR text q (zlen (l1 ++ l2) + 21 + zlen text - (zlen (l1 ++ l2) + 20))) as Estr.
  cbn [get_argument enc_argument arg_out arg_ok] in Estr. rewrite Estr; [|split; [done|lia]|rewrite zlen_cons; lia].
  cbn [parse]. rewrite bind_ret_l. cbn [vs_length vs_data]. by rewrite read_bytes_app, bind_ret_l by (unfold zlen; lia).
Qed.

(** The program prints the address that it is told. *)
Lemma keygen_prints indet pieces more address text : destination_ok address -> bytes text -> zlen text <= NTB_ADDRESS_MAX_LENGTH ->
  concat pieces = response 0 NTB_IPC_PROTO_STATUS_SUCCESS (key_payload address text) -> Forall (fun l => zlen l <= 512) pieces ->
  ntb_keygen indet ((ReadBytes <$> pieces) ++ ReadEnd :: more) = Ok (Some (text ++ [10])).
Proof.
  intros Ha Hb Hz E Hp. set (c := (str_bytes "response", 0, be_split 4 (status_number NTB_IPC_PROTO_STATUS_SUCCESS) ++ key_payload address text) : ipc_command).
  assert (Hkz : zlen (key_payload address text) <= 100).
  { destruct Ha as [(_ & _ & Hr & _) _]. unfold key_payload. rewrite !zlen_app, zlen_cons. pose proof (zlen_enc_var_int (addr_version address)). pose proof (zlen_enc_var_int (addr_stream address)).
    unfold zlen in *. rewrite Hr. unfold RIPEMD160_DIGEST_LENGTH, NTB_ADDRESS_MAX_LENGTH in *. lia. }
  assert (Hkb : bytes (key_payload address text)).
  { destruct Ha as [((? & ?) & (? & ?) & _ & Hrb) _]. unfold key_payload, is_byte in *. apply bytes_app; split; [apply bytes_enc_var_int; lia|]. apply bytes_app; split; [apply bytes_enc_var_int; lia|]. apply bytes_app; split; [done|].
    apply bytes_cons. split; [|done]. unfold is_byte, NTB_ADDRESS_MAX_LENGTH in *. pose proof (zlen_nonneg text). lia. }
  pose proof (zlen_nonneg (key_payload address text)).
  assert (Hc : ipc_command_ok c).
  { split; [apply (bool_decide_unpack _); exact I|]. split; [cbn; lia|]. split; [apply bytes_app; split; [by apply (bool_decide_unpack _)|done]|].
    cbn [c snd]. rewrite zlen_app. change (zlen (be_split 4 (status_number NTB_IPC_PROTO_STATUS_SUCCESS))) with 4. lia. }
  assert (Hempty : repr ntb_buffer_init []) by (split; [by apply (bool_decide_unpack _)|done]).
  destruct (get_response_spec indet pieces more 0 ntb_buffer_init [c]) as (b & Eb & Hrb); [by constructor|done| | |done|].
  { rewrite zlen_ipc_stream_cons by done. cbn [c snd]. rewrite zlen_app. change (zlen (be_split 4 (status_number NTB_IPC_PROTO_STATUS_SUCCESS))) with 4. change (zlen (ipc_stream [])) with 0. lia. }
  { rewrite E. unfold ipc_stream. cbn. by rewrite app_nil_r. }
  unfold ntb_keygen. rewrite Eb, bind_ret_l. cbn [client_spec] in *. replace (is_response 0 c) with true in * by reflexivity.
  assert (Hno : (zlen c.2 <? 4) || false = false) by (cbn [c snd]; rewrite zlen_app; change (zlen (be_split 4 (status_number NTB_IPC_PROTO_STATUS_SUCCESS))) with 4; lia).
  rewrite Hno in *. cbn [c snd] in *. rewrite take_app_length', drop_app_length' in * by done. change (be_combine (be_split 4 (status_number NTB_IPC_PROTO_STATUS_SUCCESS)) =? 0) with true in *. cbn [fst snd app] in *.
  destruct (readable_repr indet _ _ Hrb) as [q ->]. rewrite (repr_length _ _ Hrb). by apply key_response_printed.
Qed.
