(* ===== verification/IpcKeyring.v ===== *)
(** * IpcKeyring: the key ring behind the local socket (for [Ipc] and [Keyring])

    The key ring keeps what [KeyringServiceLaws] promises to the socket. Its own events
    do not touch the requests for keys, but for the one that answers such a request. *)

From S2P Require Import Prelude Endian Buffer NetAddress OpenSSL Proto ProtoSpec NetText KeyValue Pow Base58 Address Base64 QuotedPrintable EncodedWords Outgoings Ecc Keys HashTable ParseContentType ParseAddresses MailParser MailParserSpec Connection ConnectionSpec StoreFilesSpec Crypto CryptoSpec CryptoQueue Network Handshake NetworkObjects Keyring KeyringMessage KeyringPubkeys KeyringInv KeyringSteps KeyringHandlers KeyringCallbacks KeyringNetwork KeyringCalls KeyringSpec IpcProto IpcProtoSpec Ipc IpcMail IpcInv IpcHandlers IpcSpec IpcKeygen.

(** ** What keeps the requests for keys *)

(** [f] of the result is [m], if there is a result. *)
Definition keeps {A B} (f : A -> B) (m : B) (r : result unit A) : Prop := match r with Ok a => f a = m | _ => True end.

Lemma keeps_bind {A B C} (g : A -> B) (f : C -> B) m (r : result unit A) (k : A -> result unit C) :
  keeps g m r -> (forall a, g a = m -> keeps f m (k a)) -> keeps f m (r ≫= k).
Proof. destruct r; cbn; auto. Qed.
Lemma keeps_bind_any {A B C} (f : C -> B) m (r : result unit A) (k : A -> result unit C) : (forall a, keeps f m (k a)) -> keeps f m (r ≫= k).
Proof. destruct r; cbn; auto. Qed.
Lemma keeps_for_each {A B C} (f : C -> B) m (step : A -> C -> result unit C) l :
  (forall x s, f s = m -> keeps f m (step x s)) -> forall s, f s = m -> keeps f m (for_each step l s).
Proof. intros Hs. induction l as [|x l IH]; intros s E; cbn [for_each]; [done|]. apply (keeps_bind f); auto. Qed.

Create HintDb cookies.
(** The value that has a key ring in it. *)
Ltac keeps_step :=
  cbv zeta; cbn [fst snd];
  match goal with
  | |- forall _, _ => intro
  | |- keeps _ _ (Ok _) => unfold keeps; cbn [fst snd]; kr_cbn; try solve [congruence | eauto with cookies | repeat case_match; kr_cbn; congruence]
  | |- keeps _ _ UB => exact I
  | |- keeps _ _ OutOfFuel => exact I
  | |- keeps _ _ (@mbind _ _ ?A _ _ _) =>
      lazymatch A with
      | ntb_keyring => eapply (keeps_bind kr_cookie); [|intros ? ?]
      | (_ * ntb_keyring)%type => eapply (keeps_bind (fun p => kr_cookie (snd p))); [|intros [? ?] ?; cbn [snd] in *]
      | _ => apply keeps_bind_any; intros ?
      end
  | |- keeps _ _ (match ?x with _ => _ end) => destruct x
  | |- keeps _ _ (let '(_, _) := ?x in _) => destruct x
  | |- _ => solve [auto with cookies | eauto 3 with cookies; kr_cbn; congruence]
  end.
Ltac keeps_cookies := repeat keeps_step.

Section cookies.
Context `{Digests} `{BigNum} `{!Elliptic} `{Symmetric} `{Digest256} `{!Ecdsa} `{!ObjectNetwork}.
Implicit Types (kr : ntb_keyring) (m : gmap nat ntb_keyring_cookie).

Lemma keeps_update_message m i f kr : kr_cookie kr = m -> keeps kr_cookie m (update_message i f kr).
Proof. unfold update_message. keeps_cookies. Qed.
Lemma keeps_update_task m i f kr : kr_cookie kr = m -> keeps kr_cookie m (update_task i f kr).
Proof. unfold update_task. keeps_cookies. Qed.
Lemma keeps_crypto_queue m t kr : kr_cookie kr = m -> keeps (fun p => kr_cookie p.2) m (ntb_crypto_queue t kr).
Proof. unfold ntb_crypto_queue, fresh. keeps_cookies. Qed.
Lemma keeps_crypto_cancel m c kr : kr_cookie kr = m -> keeps kr_cookie m (ntb_crypto_cancel_task c kr).
Proof. unfold ntb_crypto_cancel_task. keeps_cookies. Qed.
Lemma keeps_pow_calculate m payload e n cb kr : kr_cookie kr = m -> keeps (fun p => kr_cookie p.2) m (ntb_pow_calculate payload e n cb kr).
Proof. unfold ntb_pow_calculate, fresh. keeps_cookies. Qed.
Lemma keeps_pow_cancel m c kr : kr_cookie kr = m -> keeps kr_cookie m (ntb_pow_cancel c kr).
Proof. unfold ntb_pow_cancel. keeps_cookies. Qed.
Lemma keeps_store_cancel m c kr : kr_cookie kr = m -> keeps kr_cookie m (ntb_store_cancel_task c kr).
Proof. unfold ntb_store_cancel_task. keeps_cookies. Qed.
#[local] Hint Resolve keeps_update_message keeps_update_task keeps_crypto_queue keeps_crypto_cancel keeps_pow_calculate keeps_pow_cancel keeps_store_cancel : cookies.

Lemma keeps_unref m p kr : kr_cookie kr = m -> keeps kr_cookie m (unref_pubkey_blob p kr).
Proof. unfold unref_pubkey_blob. intros E. apply keeps_bind_any. intros b. cbn. by destruct (_ <=? 0). Qed.
#[local] Hint Resolve keeps_unref : cookies.
Lemma keeps_cancel_message m i kr : kr_cookie kr = m -> keeps kr_cookie m (cancel_message_tasks i kr).
Proof. unfold cancel_message_tasks. keeps_cookies. Qed.
#[local] Hint Resolve keeps_cancel_message : cookies.
Lemma keeps_free_message m i kr : kr_cookie kr = m -> keeps kr_cookie m (free_message i kr).
Proof. unfold free_message. keeps_cookies. Qed.
Lemma keeps_free_task m i kr : kr_cookie kr = m -> keeps kr_cookie m (free_task i kr).
Proof. unfold free_task. keeps_cookies. Qed.
Lemma keeps_save_messages m kr : kr_cookie kr = m -> keeps kr_cookie m (save_messages kr).
Proof. unfold save_messages. keeps_cookies. Qed.
#[local] Hint Resolve keeps_free_message keeps_free_task keeps_save_messages : cookies.

(** ** The parts of the events *)

Lemma keeps_create_pubkey_blob m blob i kr : kr_cookie kr = m -> keeps kr_cookie m (create_pubkey_blob_cb blob i kr).
Proof. unfold create_pubkey_blob_cb. keeps_cookies. Qed.
#[local] Hint Resolve keeps_create_pubkey_blob : cookies.
Lemma keeps_maybe_post_key m wall n kr : kr_cookie kr = m -> keeps kr_cookie m (maybe_post_key wall n kr).
Proof. unfold maybe_post_key, random_offset, add_task, fresh. keeps_cookies. Qed.
#[local] Hint Resolve keeps_maybe_post_key : cookies.
Lemma keeps_post_matching m wall v st f keys index kr : kr_cookie kr = m -> keeps kr_cookie m (post_matching_key wall v st f keys index kr).
Proof. intros E. revert index. induction keys; intros index; cbn [post_matching_key]; keeps_cookies; eauto with cookies. Qed.
#[local] Hint Resolve keeps_post_matching : cookies.
Lemma keeps_getpubkey m wall blob kr : kr_cookie kr = m -> keeps kr_cookie m (handle_getpubkey wall blob kr).
Proof. unfold handle_getpubkey, handle_getpubkey_with_ripe, handle_getpubkey_with_tag. keeps_cookies. Qed.
#[local] Hint Resolve keeps_getpubkey : cookies.
Lemma keeps_send_getpubkey m wall i kr : kr_cookie kr = m -> keeps kr_cookie m (send_getpubkey_request wall i kr).
Proof. unfold send_getpubkey_request, random_offset. keeps_cookies. Qed.
#[local] Hint Resolve keeps_send_getpubkey : cookies.
Lemma keeps_post_message m wall i kr : kr_cookie kr = m -> keeps kr_cookie m (post_message wall i kr).
Proof. unfold post_message, ntb_store_load, fresh. keeps_cookies. Qed.
#[local] Hint Resolve keeps_post_message : cookies.
Lemma keeps_try_blob m i blob kr : kr_cookie kr = m -> keeps kr_cookie m (try_blob_for_message i blob kr).
Proof. unfold try_blob_for_message. keeps_cookies. Qed.
#[local] Hint Resolve keeps_try_blob : cookies.
Lemma keeps_load_pubkey m i hash kr : kr_cookie kr = m -> keeps kr_cookie m (load_pubkey_from_store i hash kr).
Proof. unfold load_pubkey_from_store, ntb_store_load, fresh. keeps_cookies. Qed.
#[local] Hint Resolve keeps_load_pubkey : cookies.
Lemma keeps_try_pubkey_blob m i p kr : kr_cookie kr = m -> keeps (fun p => kr_cookie p.2) m (try_pubkey_blob_for_message i p kr).
Proof. unfold try_pubkey_blob_for_message. keeps_cookies. Qed.
#[local] Hint Resolve keeps_try_pubkey_blob : cookies.
Lemma keeps_try_pubkey_blobs m i l kr : kr_cookie kr = m -> keeps (fun p => kr_cookie p.2) m (try_pubkey_blobs i l kr).
Proof. revert kr. induction l; intros kr E; cbn [try_pubkey_blobs]; keeps_cookies. Qed.
#[local] Hint Resolve keeps_try_pubkey_blobs : cookies.
Lemma keeps_load_public_key m wall i kr : kr_cookie kr = m -> keeps kr_cookie m (load_public_key_for_message wall i kr).
Proof. unfold load_public_key_for_message. keeps_cookies. Qed.
#[local] Hint Resolve keeps_load_public_key : cookies.
Lemma keeps_check_with_messages m l p kr : kr_cookie kr = m -> keeps kr_cookie m (check_pubkey_blob_with_messages l p kr).
Proof. revert kr. induction l; intros kr E; cbn [check_pubkey_blob_with_messages]; keeps_cookies. Qed.
#[local] Hint Resolve keeps_check_with_messages : cookies.
Lemma insert_pubkey_cookies p k kr : kr_cookie (insert_pubkey_blob p k kr) = kr_cookie kr.
Proof. unfold insert_pubkey_blob. by destruct (kr_pubkey_blob_table kr !! k). Qed.
Lemma keeps_handle_pubkey m blob kr : kr_cookie kr = m -> keeps kr_cookie m (handle_pubkey blob kr).
Proof. unfold handle_pubkey, fresh. intros E. apply keeps_bind_any. intros [pubkey|]; [|done]. apply keeps_bind_any. intros ripe. apply keeps_check_with_messages. by rewrite insert_pubkey_cookies. Qed.
#[local] Hint Resolve keeps_handle_pubkey : cookies.
Lemma keeps_remove_pubkey m p kr : kr_cookie kr = m -> keeps kr_cookie m (remove_pubkey_blob p kr).
Proof. unfold remove_pubkey_blob. keeps_cookies. Qed.
#[local] Hint Resolve keeps_remove_pubkey : cookies.
Lemma keeps_acknowledged m i kr : kr_cookie kr = m -> keeps kr_cookie m (message_acknowledged i kr).
Proof. unfold message_acknowledged, maybe_delete_message_content. keeps_cookies. Qed.
#[local] Hint Resolve keeps_acknowledged : cookies.
Lemma keeps_find_acknowledged m l content kr : kr_cookie kr = m -> keeps (fun p => kr_cookie p.2) m (find_acknowledged l content kr).
Proof. revert kr. induction l; intros kr E; cbn [find_acknowledged]; keeps_cookies. Qed.
#[local] Hint Resolve keeps_find_acknowledged : cookies.
Lemma keeps_check_acknowledgement m content n kr : kr_cookie kr = m -> keeps (fun p => kr_cookie p.2) m (check_msg_acknowledgement content n kr).
Proof. unfold check_msg_acknowledgement. keeps_cookies. Qed.
#[local] Hint Resolve keeps_check_acknowledgement : cookies.
Lemma keeps_handle_msg m blob kr : kr_cookie kr = m -> keeps kr_cookie m (handle_msg blob kr).
Proof. unfold handle_msg, add_task, fresh. keeps_cookies. Qed.
#[local] Hint Resolve keeps_handle_msg : cookies.
Lemma keeps_new_object m wall blob kr : kr_cookie kr = m -> keeps kr_cookie m (new_object_cb wall blob kr).
Proof. unfold new_object_cb, handle_broadcast. keeps_cookies. Qed.
#[local] Hint Resolve keeps_new_object : cookies.
Lemma keeps_add_object m wall type data len blob skip delay kr : kr_cookie kr = m -> keeps kr_cookie m (add_network_object wall type data len blob skip delay kr).
Proof. unfold add_network_object. keeps_cookies. Qed.
#[local] Hint Resolve keeps_add_object : cookies.
Lemma keeps_add_blob m wall blob skip delay kr : kr_cookie kr = m -> keeps kr_cookie m (ntb_network_add_blob wall blob skip delay kr).
Proof. unfold ntb_network_add_blob. keeps_cookies. Qed.
#[local] Hint Resolve keeps_add_blob : cookies.
Lemma keeps_send_acknowledgement m wall ack n kr : kr_cookie kr = m -> keeps kr_cookie m (send_acknowledgement wall ack n kr).
Proof. unfold send_acknowledgement. keeps_cookies. Qed.
#[local] Hint Resolve keeps_send_acknowledgement : cookies.
Lemma keeps_add_from_network m a k1 k2 n e kr : kr_cookie kr = m -> keeps (fun p => kr_cookie p.2) m (add_public_key_from_network_keys a k1 k2 n e kr).
Proof. unfold add_public_key_from_network_keys, add_task, fresh. keeps_cookies. Qed.
#[local] Hint Resolve keeps_add_from_network : cookies.
Lemma keeps_gc m wall l kr : kr_cookie kr = m -> keeps kr_cookie m (gc_pubkey_blobs wall l kr).
Proof. revert kr. induction l; intros kr E; cbn [gc_pubkey_blobs]; keeps_cookies. Qed.
#[local] Hint Resolve keeps_gc : cookies.
Lemma keeps_resend m wall l kr : kr_cookie kr = m -> keeps kr_cookie m (resend_messages wall l kr).
Proof. revert kr. induction l; intros kr E; cbn [resend_messages]; keeps_cookies. Qed.
#[local] Hint Resolve keeps_resend : cookies.
Lemma keeps_create_message m key a e n kr : kr_cookie kr = m -> keeps (fun p => kr_cookie p.2) m (create_message key a e n kr).
Proof. unfold create_message, fresh. keeps_cookies. Qed.
#[local] Hint Resolve keeps_create_message : cookies.
Lemma keeps_send_message m a l e blob kr : kr_cookie kr = m -> keeps (fun p => kr_cookie p.2) m (ntb_keyring_send_message a l e blob kr).
Proof. unfold ntb_keyring_send_message. intros E. destruct l; [done|]. destruct (get_private_key_for_address a kr); [|done]. cbv zeta.
  eapply (keeps_bind kr_cookie); [apply keeps_for_each; [|done]; intros x kr1 E1; keeps_cookies|by intros]. Qed.
#[local] Hint Resolve keeps_send_message : cookies.
Lemma keeps_outgoing m wall o kr : kr_cookie kr = m -> keeps kr_cookie m (for_each_outgoing_cb wall o kr).
Proof.
  unfold for_each_outgoing_cb. intros E. set (kr0 := if _ <=? _ then _ else kr). assert (E0 : kr_cookie kr0 = m) by (unfold kr0; by destruct (_ <=? _)). cbv zeta. keeps_cookies.
Qed.
#[local] Hint Resolve keeps_outgoing : cookies.

Lemma keeps_add_public m key kr : kr_cookie kr = m -> kr_cookie (add_public_key key kr) = m.
Proof. unfold add_public_key. by destruct (existsb _ _). Qed.
#[local] Hint Resolve keeps_add_public : cookies.

(** The calls of [create_key_cb], with the number of the key ring's cookie: the one of
    the thread and the one of the main loop. *)
Definition answered_request (e : keyring_event) kr : option (nat * ntb_key) :=
  match e with
  | EventKeyMade c key | EventCrypto c (AnswerKey key) => match kr_crypto kr !! c with Some (CRYPTO_CREATE_KEY _ _ i) => Some (i, key) | _ => None end
  | _ => None
  end.

(** The events of the key ring that are not calls of the socket. *)
Definition own_event (e : keyring_event) : bool := match e with EventSend _ _ _ _ | EventCreateKey _ _ _ | EventCancel _ => false | _ => true end.

Lemma event_cookies wall e kr kr' : own_event e = true -> handle_event wall e kr = Ok kr' ->
  kr_cookie kr' = match answered_request e kr with Some (i, _) => delete i (kr_cookie kr) | None => kr_cookie kr end.
Proof.
  intros Hown E. set (m := match answered_request e kr with Some (i, _) => _ | None => _ end). enough (Hk : keeps kr_cookie m (handle_event wall e kr)) by (by rewrite E in Hk). clear E kr'.
  destruct e; try discriminate Hown; cbn [answered_request handle_event] in *.
  - destruct (kr_crypto kr !! c) as [t|]; [|exact I]. cbn [need]. rewrite bind_ret_l. destruct t, answer; try exact I; unfold m, take_crypto.
    1: { unfold create_key_cb. kr_cbn. destruct (kr_cookie kr !! cookie) as [k|]; [|exact I]. cbn. by destruct (kc_func k). }
    all: unfold create_public_key_cb, decrypt_msg_cb, check_pubkey_cb, create_msg_blob_cb, generate_ackdata_cb; keeps_cookies.
  - destruct (kr_crypto kr !! c) as [t|]; [|exact I]. cbn [need]. rewrite bind_ret_l. destruct t; try exact I. unfold m.
    unfold create_key_cb. destruct (kr_cookie kr !! cookie) as [k|]; [|exact I]. cbn. by destruct (kc_func k).
  - unfold m. unfold take_pow. keeps_cookies; unfold create_pubkey_pow_cb, getpubkey_pow_cb, ackdata_pow_cb, msg_pow_cb, random_offset; keeps_cookies.
  - unfold m, take_load. keeps_cookies; unfold load_message_content_cb, load_pubkey_from_store_cb, random_offset; keeps_cookies.
  - unfold m. keeps_cookies.
  - done.
  - unfold m, keyring_gc_timeout_cb. keeps_cookies.
  - unfold m, resend_timeout_cb. keeps_cookies.
Qed.
End cookies.

(** ** The key ring as a service *)

Section service.
Context `{DigestLaws} `{BigNumLaws} `{!Elliptic} `{!EllipticLaws} `{SymmetricLaws} `{Digest256} `{!Ecdsa} `{ONW : ObjectNetwork} `{!ObjectNetworkLaws}.

(** The socket always gives a callback. *)
#[export] Instance keyring_service : KeyringService ntb_keyring := {|
  ks_send_message := ntb_keyring_send_message;
  ks_create_key params leading_zeroes t := ntb_keyring_create_key params leading_zeroes (Some t);
  ks_cancel_task := ntb_keyring_cancel_task
|}.

Definition key_requests (kr : ntb_keyring) : gmap nat nat := omap kc_func (kr_cookie kr).

Lemma reachable_next e kr kr' : keyring_reachable kr -> event_ok 1000 e kr -> handle_event 1000 e kr = Ok kr' -> keyring_reachable kr'.
Proof. apply reachable_event. Qed.

Lemma send_reachable from_address to_addresses encoding content kr : keyring_reachable kr -> Forall destination_ok to_addresses ->
  exists sent kr', ntb_keyring_send_message from_address to_addresses encoding content kr = Ok (sent, kr') /\ keyring_reachable kr' /\ key_requests kr' = key_requests kr.
Proof.
  intros Hr Hto. pose proof (reachable_ok kr Hr) as [Hi _]. destruct (send_message_spec None from_address to_addresses encoding content kr Hi Hto) as (sent & kr' & E & _).
  exists sent, kr'. split; [done|]. split.
  - apply (reachable_next (EventSend from_address to_addresses encoding content) kr); [done|split; [unfold clock_ok; lia|done]|]. cbn [handle_event]. by rewrite E.
  - pose proof (keeps_send_message _ from_address to_addresses encoding content kr eq_refl) as Hk. rewrite E in Hk. unfold key_requests. by rewrite Hk.
Qed.

Lemma create_reachable params leading_zeroes t kr : keyring_reachable kr -> create_key_params_ok params ->
  exists c kr', ntb_keyring_create_key params leading_zeroes (Some t) kr = Ok (c, kr') /\ keyring_reachable kr' /\ key_requests kr !! c = None /\ key_requests kr' = <[c := t]> (key_requests kr).
Proof.
  intros Hr Hp. pose proof (reachable_ok kr Hr) as [Hi _]. destruct (keyring_create_key_spec None None params leading_zeroes (Some t) kr Hi Hp) as (c & kr' & E & _).
  exists c, kr'. split; [done|]. split; [|].
  - apply (reachable_next (EventCreateKey params leading_zeroes (Some t)) kr); [done|split; [unfold clock_ok; lia|done]|]. cbn [handle_event]. by rewrite E.
  - revert E. unfold ntb_keyring_create_key, fresh. cbn iota zeta. unfold create_key_params_ok in Hp. rewrite Hp. cbn [c_assert Z.eqb]. rewrite bind_ret_l.
    rewrite crypto_queue_spec, bind_ret_l by exact (inv_started _ _ _ Hi). intros [= <- <-]. destruct (inv_bounded _ _ _ Hi) as (_ & _ & Bk & _).
    unfold key_requests. kr_cbn. rewrite lookup_omap, (bounded_fresh _ _ Bk). split; [done|]. by rewrite (omap_insert_Some kc_func _ _ _ t).
Qed.

Lemma cancel_reachable c t kr : keyring_reachable kr -> key_requests kr !! c = Some t ->
  exists kr', ntb_keyring_cancel_task c kr = Ok kr' /\ keyring_reachable kr' /\ key_requests kr' = delete c (key_requests kr).
Proof.
  intros Hr Hc. pose proof (reachable_ok kr Hr) as [Hi _]. unfold key_requests in Hc. rewrite lookup_omap in Hc. destruct (kr_cookie kr !! c) as [k|] eqn:Ek; [|done].
  destruct (cancel_task_spec None None c k kr Hi Ek) as (kr' & E & _). exists kr'. split; [done|]. split.
  - apply (reachable_next (EventCancel c) kr); [done|split; [unfold clock_ok; lia|by eexists]|]. cbn [handle_event]. done.
  - revert E. unfold ntb_keyring_cancel_task, ntb_crypto_cancel_task. rewrite Ek. cbn [need]. rewrite bind_ret_l. intros (kr1 & (x & _ & [= <-])%bind_Ok & [= <-])%bind_Ok.
    unfold key_requests. kr_cbn. by rewrite omap_delete.
Qed.

#[export] Instance keyring_service_laws : KeyringServiceLaws (K := ntb_keyring) := {|
  ks_ok := keyring_reachable;
  ks_pending := key_requests;
  ks_send_spec from_address to_addresses encoding content kr := send_reachable from_address to_addresses encoding content kr;
  ks_create_spec := create_reachable;
  ks_cancel_spec := cancel_reachable
|}.

(** ** The socket and its key ring *)

Context (indet : Z) (nonblock_error : Z -> option (list Z)) (mail_error_text : mail_error unit -> list Z) (unknown_from_text : list Z).
Implicit Type s : ntb_ipc ntb_keyring.

(** An event of the socket, and one of the key ring at a time. *)
Inductive socket_event :=
| SocketAccept (accepted : option (Z * option Z))
| SocketPoll (shutdown_fails : bool) (i : nat) (flags : poll_event)
| SocketEmail (e : nat) (got : read_result)
| SocketKeyring (wall : Z) (e : keyring_event).

(** [create_key_cb] calls the callback with what the request was made with. *)
Definition created_key (e : keyring_event) (kr : ntb_keyring) : option (nat * nat * ntb_key) :=
  '(c, key) ← answered_request e kr; t ← key_requests kr !! c; Some (c, t, key).

Definition ipc_part (ev : socket_event) : option (ipc_event (K := ntb_keyring)) :=
  match ev with
  | SocketAccept accepted => Some (IpcAccept accepted)
  | SocketPoll shutdown_fails i flags => Some (IpcPoll shutdown_fails i flags)
  | SocketEmail e got => Some (IpcEmail e got)
  | SocketKeyring _ _ => None
  end.

Definition handle_socket_event (ev : socket_event) s : result unit (ntb_ipc ntb_keyring) :=
  match ev with
  | SocketKeyring wall e =>
      kr ← handle_event wall e (ipc_keyring s);
      match created_key e (ipc_keyring s) with
      | Some (_, t, key) => ipc_create_key_cb key t (ipc_set_keyring kr s)
      | None => Ok (ipc_set_keyring kr s)
      end
  | SocketAccept accepted => handle_ipc_event indet nonblock_error mail_error_text unknown_from_text (IpcAccept accepted) s
  | SocketPoll shutdown_fails i flags => handle_ipc_event indet nonblock_error mail_error_text unknown_from_text (IpcPoll shutdown_fails i flags) s
  | SocketEmail e got => handle_ipc_event indet nonblock_error mail_error_text unknown_from_text (IpcEmail e got) s
  end.

(** The key that was created has an address of a good version, and the client has read
    most of what was sent. *)
Definition socket_event_ok (M : gmap nat (list Z)) (ev : socket_event) s : Prop :=
  match ev with
  | SocketKeyring wall e =>
      own_event e = true /\ event_ok wall e (ipc_keyring s) /\
      forall c t key task conn, created_key e (ipc_keyring s) = Some (c, t, key) -> ipc_task s !! t = Some task -> ipc_connection s !! it_conn task = Some conn ->
        destination_ok (key_address key) /\ buf_length (ic_outbuf conn) + response_room <= 2 ^ 62
  | _ => match ipc_part ev with Some ev => ipc_event_ok M ev s | None => True end
  end.

(** One event of both is one of the socket. *)
Definition as_ipc_event (ev : socket_event) s : ipc_event (K := ntb_keyring) :=
  match ev with
  | SocketKeyring wall e =>
      let kr := match handle_event wall e (ipc_keyring s) with Ok kr => kr | _ => ipc_keyring s end in
      match created_key e (ipc_keyring s) with Some (c, _, key) => IpcKeyCreated c key kr | None => IpcKeyring kr end
  | SocketAccept accepted => IpcAccept accepted
  | SocketPoll shutdown_fails i flags => IpcPoll shutdown_fails i flags
  | SocketEmail e got => IpcEmail e got
  end.

Lemma socket_is_ipc M ev s : ipc_inv None M s -> socket_event_ok M ev s ->
  ipc_event_ok M (as_ipc_event ev s) s /\ handle_socket_event ev s = handle_ipc_event indet nonblock_error mail_error_text unknown_from_text (as_ipc_event ev s) s.
Proof.
  intros Hi Hev. destruct ev as [accepted|shutdown_fails i flags|e got|wall e]; try done. destruct Hev as (Hown & He & Hkey). pose proof (in_keyring _ _ _ Hi) as Hr. cbn [ks_ok keyring_service_laws] in Hr.
  destruct (event_total wall e (ipc_keyring s) (reachable_ok _ Hr) He) as (kr & E & _). assert (Hr' : keyring_reachable kr) by (by eapply reachable_event).
  pose proof (event_cookies wall e _ _ Hown E) as Ec. cbn [as_ipc_event handle_socket_event]. rewrite E, bind_ret_l. unfold created_key in *.
  destruct (answered_request e (ipc_keyring s)) as [[c key]|] eqn:Ea; cbn [mbind option_bind] in *.
  - assert (Er : key_requests kr = delete c (key_requests (ipc_keyring s))) by (unfold key_requests; by rewrite Ec, omap_delete).
    destruct (key_requests (ipc_keyring s) !! c) as [t|] eqn:Et; cbn [mbind option_bind] in *.
    + destruct (in_pending _ _ _ Hi c t Et) as (task & Ht & Eck). destruct (in_tasks _ _ _ Hi t task Ht) as (_ & _ & conn & Hconn & _).
      destruct (Hkey c t key task conn eq_refl Ht Hconn) as [Ha Hroom]. cbn [handle_ipc_event ipc_event_ok ks_pending keyring_service_laws]. rewrite Et. split; [|done].
      exists t, task, conn. by split_and!.
    + cbn [handle_ipc_event ipc_event_ok]. split; [|done]. split; [done|]. cbn [ks_pending keyring_service_laws]. rewrite Er. by apply delete_id.
  - cbn [handle_ipc_event ipc_event_ok]. split; [|done]. split; [done|]. cbn [ks_pending keyring_service_laws]. unfold key_requests. by rewrite Ec.
Qed.

Inductive socket_reachable : gmap nat (list Z) -> ntb_ipc ntb_keyring -> Prop :=
| socket_start uid kr : keyring_reachable kr -> key_requests kr = ∅ -> socket_reachable ∅ (ntb_ipc_new uid kr)
| socket_next M s ev s' : socket_reachable M s -> socket_event_ok M ev s -> handle_socket_event ev s = Ok s' -> socket_reachable (mails_after M (as_ipc_event ev s)) s'.

Context (Hindet : is_byte indet) (Htexts : texts_small nonblock_error mail_error_text unknown_from_text).

Lemma socket_reachable_ipc M s : socket_reachable M s -> ipc_reachable indet nonblock_error mail_error_text unknown_from_text M s.
Proof.
  induction 1 as [uid kr Hr Ek|M s ev s' _ IH Hev E]; [by apply ipc_start|].
  pose proof (ipc_reachable_inv indet nonblock_error mail_error_text unknown_from_text Hindet Htexts M s IH) as Hi.
  destruct (socket_is_ipc M ev s Hi Hev) as [Hok Es]. rewrite E in Es. by eapply ipc_next_event.
Qed.

(** A key ring that has just been started waits for no key. *)
Lemma started_requests wall nw keys random pubkey_blobs outgoings kr : keyring_started wall nw keys random pubkey_blobs outgoings = Ok kr -> key_requests kr = ∅.
Proof.
  intros E. assert (E0 : kr_cookie (ntb_keyring_start (ntb_keyring_new nw keys random)) = ∅).
  { assert (Hf : forall k, kr_cookie k = ∅ -> kr_cookie (foldl (fun kr key => for_each_key_cb key kr) k keys) = ∅).
    { clear E. induction keys as [|key keys IH]; intros k Ek; cbn [foldl]; [exact Ek|]. by apply IH. }
    unfold ntb_keyring_start, ntb_keyring_new. kr_cbn. by apply Hf. }
  assert (Hk : keeps kr_cookie ∅ (keyring_started wall nw keys random pubkey_blobs outgoings)).
  { unfold keyring_started, ntb_keyring_load_store. eapply (keeps_bind kr_cookie).
    - apply keeps_for_each; [|exact E0]. intros blob k Ek. by apply keeps_handle_pubkey.
    - intros k Ek. apply keeps_for_each; [|exact Ek]. intros o k' Ek'. by apply keeps_outgoing. }
  rewrite E in Hk. unfold key_requests. by rewrite Hk.
Qed.
End service.
