(* ===== verification/IpcTheorems.v ===== *)
(** * IpcTheorems: the properties of the local socket (for [IpcProto] and [Ipc])

    What [IpcSpec], [IpcProtoSpec] and [IpcKeygen] show of the daemon and its client. *)

From S2P Require Import Prelude Endian Buffer NetAddress OpenSSL Proto ProtoSpec NetText KeyValue Pow Base58 Address Base64 QuotedPrintable EncodedWords Outgoings Ecc Keys HashTable ParseContentType ParseAddresses MailParser MailParserSpec Connection ConnectionSpec StoreFilesSpec Crypto CryptoSpec CryptoQueue Network Handshake NetworkObjects Keyring KeyringMessage KeyringPubkeys KeyringInv KeyringSteps KeyringHandlers KeyringCallbacks KeyringNetwork KeyringCalls KeyringSpec KeyringTheorems IpcProto IpcProtoSpec Ipc IpcMail IpcInv IpcHandlers IpcSpec IpcKeygen IpcKeyring.

Section ipc_theorems.
Context `{DigestLaws} `{BigNumLaws} `{!Elliptic} `{Symmetric} `{Digest256} `{KeyringServiceLaws K}.
Context (indet : Z) (nonblock_error : Z -> option (list Z)) (mail_error_text : mail_error unit -> list Z) (unknown_from_text : list Z).
Context (Hindet : is_byte indet) (Htexts : texts_small nonblock_error mail_error_text unknown_from_text).
Implicit Type s : ntb_ipc K.

Abbreviation reachable := (ipc_reachable indet nonblock_error mail_error_text unknown_from_text).
Abbreviation handle := (handle_ipc_event indet nonblock_error mail_error_text unknown_from_text).

(** In every state of the local socket, whatever clients send and pass, whatever
    calls return and whatever the key ring does, an event uses no connection, email or
    task that was freed, asserts nothing that is false and leads to such a state again;
    and freeing the socket then leaves no connection, email, task or request. *)
Theorem ipc_safe M s : reachable M s ->
  (forall ev, ipc_event_ok M ev s -> exists s', handle ev s = Ok s' /\ reachable (mails_after M ev) s') /\
  exists s', ntb_ipc_free s = Ok s' /\ nothing_left s' /\ ks_ok (ipc_keyring s').
Proof.
  intros Hr. pose proof (ipc_reachable_inv indet nonblock_error mail_error_text unknown_from_text Hindet Htexts M s Hr) as Hi. split; [|by apply (ipc_free_spec M)].
  intros ev Hev. destruct (ipc_event_total indet nonblock_error mail_error_text unknown_from_text Hindet Htexts M ev s Hi Hev) as (s' & E & _).
  exists s'. split; [done|]. by eapply ipc_next_event.
Qed.

(** C9: when the descriptor of an email ends, the bytes that were read from it in
    any pieces are one mail: if it is accepted, its sender, its destinations, its
    content and the encoding are given to the key ring, whose result is the status of
    the answer, else the answer is the error of the mail; the email is freed and its
    descriptor closed either way, and other emails and connections stay. *)
Theorem ipc_mail_sent M e em c s : reachable M s -> ipc_email s !! e = Some em -> ipc_connection s !! em_conn em = Some c -> buf_length (ic_outbuf c) + response_room <= 2 ^ 62 ->
  match mail_spec (C := unit) (mail_of M e) new_ipc_mail with UB | OutOfFuel => False | _ => True end ->
  exists s' status text, handle (IpcEmail e ReadEnd) s = Ok s' /\ email_ended e em c status text s s' /\ mail_outcome mail_error_text unknown_from_text (mail_of M e) s s' status text.
Proof.
  intros Hr Hem Hc Hroom Hmail. pose proof (ipc_reachable_inv indet nonblock_error mail_error_text unknown_from_text Hindet Htexts M s Hr) as Hi.
  destruct (email_end_spec nonblock_error mail_error_text unknown_from_text M e em c s Htexts Hi Hem Hc Hroom Hmail) as (s' & status & text & E & _ & He & Ho).
  by exists s', status, text.
Qed.

(** C20: in whatever pieces the commands of the daemon arrive, the client's result is
    that of reading them one after the other: the response of its request is found
    among other commands, must be there once and gives its text, as an error unless
    its status is 0. *)
Theorem ipc_client_reads pieces more request_id response_buf cs :
  Forall ipc_command_ok cs -> repr response_buf [] -> zlen (ipc_stream cs) < 2 ^ 60 -> concat pieces = ipc_stream cs -> Forall (fun l => zlen l <= 512) pieces ->
  exists b, ntb_ipc_client_get_response indet ((ReadBytes <$> pieces) ++ ReadEnd :: more) response_buf request_id = Ok ((client_spec request_id false None [] cs).1, b) /\
    repr b (client_spec request_id false None [] cs).2.
Proof. apply get_response_spec. Qed.


(** The first callback for a created key, of any key ring. *)
Lemma key_answered_core M s cookie key k t task c : ipc_inv None M s -> ks_pending (ipc_keyring s) !! cookie = Some t -> ipc_task s !! t = Some task ->
  ipc_connection s !! it_conn task = Some c -> buf_length (ic_outbuf c) + response_room <= 2 ^ 62 -> destination_ok (key_address key) -> ks_ok k ->
  ks_pending k = delete cookie (ks_pending (ipc_keyring s)) ->
  exists text c1 s', let answer := response (it_request_id task) NTB_IPC_PROTO_STATUS_SUCCESS (key_payload (key_address key) text) in
    ipc_create_key_cb key t (ipc_set_keyring k s) = Ok s' /\ ntb_address_decode text = Ok (key_address key) /\ zlen text <= NTB_ADDRESS_MAX_LENGTH /\
    ipc_keyring s' = k /\ ipc_task s' = delete t (ipc_task s) /\ ipc_connection s' = <[it_conn task := c1]> (ipc_connection s) /\
    answered (ic_set_tasks (filter (.≠ t) (ic_tasks c)) c) answer c1 /\
    forall pieces more, it_request_id task = 0 -> concat pieces = answer -> Forall (fun l => zlen l <= 512) pieces ->
      ntb_keygen indet ((ReadBytes <$> pieces) ++ ReadEnd :: more) = Ok (Some (text ++ [10])).
Proof.
  intros Hi Hp Ht Hc Hroom Ha Hk Ek.
  destruct (encoded_address _ Ha) as (text & Et & Ed & Hz & Hb). destruct (in_pending _ _ _ Hi cookie t Hp) as (task' & Ht' & Eck). rewrite Ht in Ht'. injection Ht' as <-.
  rewrite <- Eck in Ek. destruct (key_created_spec M t task c key k text s Hi Ht Hc Hk Ek Ha Et Hb Hz Hroom) as (c1 & s' & E & _ & A1 & A2 & A3 & A4).
  exists text, c1, s'. cbv zeta. split_and!; try done.
  intros pieces more E0 Epieces Hpieces. rewrite E0 in Epieces. by apply (keygen_prints indet pieces more (key_address key)).
Qed.

(** ** What the daemon does not do *)

(** A command that was handled stays in the buffer: with the next bytes, here less than
    a header, the same key is asked for once more. *)
Theorem keygen_handled_again M shutdown_fails i c l fds o s : reachable M s -> ipc_connection s !! i = Some c -> buf_length (ic_inbuf c) <= 2 ^ 40 -> bytes l -> recv_fits (ic_inbuf c) l ->
  keygen_options_ok o -> keygen_supported o -> content (ic_inbuf c) = keygen_sent o -> zlen l < 20 ->
  exists c' s', handle (IpcPoll shutdown_fails i (PollIn (RecvBytes l fds))) s = Ok s' /\
    key_requested i c' 0 (keygen_request o) (option_zeroes o) (ipc_set_connection (<[i := c']> (ipc_connection s)) s) s'.
Proof.
  intros Hr Hc Hlen Hl Hfits Ho Hs El Hrest. pose proof (ipc_reachable_inv indet nonblock_error mail_error_text unknown_from_text Hindet Htexts M s Hr) as Hi.
  destruct (keygen_arrives indet nonblock_error M shutdown_fails i c l fds o l s Hi Hc Hlen Hl Hfits Ho (or_introl (proj1 (keygen_supported_refusal o) Hs)) ltac:(by rewrite El) Hrest) as (c' & s' & E' & _ & _ & Hreq). exists c', s'. split; [exact E'|].
  unfold keygen_result in Hreq. by rewrite (proj1 (keygen_supported_refusal o) Hs) in Hreq.
Qed.

(** A command whose length is [2 ^ 32 - 20] is handled again and again, because adding
    the size of the header wraps to 0: any number of rounds is too few. *)
Theorem commands_loop_endless M i fuel : forall c s data n request_id name, ipc_inv None M s -> ipc_connection s !! i = Some c -> 20 <= n ->
  ntb_proto_get_32 (drop 12 data) = Ok request_id -> 0 <= request_id < 2 ^ 32 -> ntb_proto_get_32 (drop 16 data) = Ok (2 ^ 32 - 20) ->
  ntb_proto_check_command_string data = Ok true -> c_string data = Ok name -> zlen name < 12 -> name <> str_bytes "email" -> name <> str_bytes "keygen" ->
  buf_length (ic_outbuf c) + Z.of_nat fuel * response_room <= 2 ^ 62 ->
  ipc_commands_loop nonblock_error fuel i data n s = OutOfFuel.
Proof.
  induction fuel as [|fuel IH]; intros c s data n request_id name Hi Hc Hn Eid Hid Elen Echeck Ename Hname Hemail Hkeygen Hroom; cbn [ipc_commands_loop]; rewrite (proj2 (Z.ltb_ge n 20)) by lia; [done|].
  rewrite Elen, bind_ret_l. cbv zeta. change (u32 (2 ^ 32 - 20 + 20)) with 0. rewrite (proj2 (Z.ltb_ge n 0)) by lia. rewrite Echeck, bind_ret_l. cbn [negb].
  unfold ipc_process_command at 1. rewrite Eid, bind_ret_l, Ename, bind_ret_l. unfold ipc_commands. cbn [List.find fst]. unfold bytes_eqb. rewrite !bool_decide_false by done.
  destruct (handles_response M i c request_id NTB_IPC_PROTO_STATUS_INVALID_COMMAND (unknown_command_text name) s Hi Hc Hid) as (s1 & -> & Hi1 & c0 & c1 & E0 & E1 & _ & _ & Hgrow & _).
  { unfold response_room in *. lia. }
  { unfold unknown_command_text. rewrite !zlen_app. change (zlen (str_bytes "Unknown command ")) with 16. change (zlen [226; 128; 156]) with 3. change (zlen [226; 128; 157]) with 3. lia. }
  rewrite bind_ret_l. change (Z.to_nat 0) with 0%nat. rewrite drop_0, Z.sub_0_r. rewrite Hc in E0. injection E0 as <-.
  by apply (IH c1 s1 data n request_id name); [..|unfold response_room in *; lia].
Qed.
End ipc_theorems.

(** ** The daemon's socket and its key ring *)

Section socket_theorems.
Context `{DigestLaws} `{BigNumLaws} `{!Elliptic} `{!EllipticLaws} `{SymmetricLaws} `{Digest256} `{!Ecdsa} `{ONW : ObjectNetwork} `{!ObjectNetworkLaws}.
Context (indet : Z) (nonblock_error : Z -> option (list Z)) (mail_error_text : mail_error unit -> list Z) (unknown_from_text : list Z).
Context (Hindet : is_byte indet) (Htexts : texts_small nonblock_error mail_error_text unknown_from_text).


(** C19: when the thread has made the key of a request, it calls back, and the
    connection that asked gets one response with the key's address, and notbit-keygen,
    that reads it in any pieces, prints a text that is decoded to the address; the key is
    among those of the key ring, and the request's task and cookie are freed. The main
    loop then calls the same callback again, which reads the freed cookie. *)
Theorem ipc_key_answered wall M s c params leading_zeroes i k t key task conn :
  socket_reachable indet nonblock_error mail_error_text unknown_from_text M s ->
  kr_crypto (ipc_keyring s) !! c = Some (CRYPTO_CREATE_KEY params leading_zeroes i) -> kr_cookie (ipc_keyring s) !! i = Some k -> kc_func k = Some t ->
  ipc_task s !! t = Some task -> ipc_connection s !! it_conn task = Some conn -> buf_length (ic_outbuf conn) + response_room <= 2 ^ 62 ->
  key_wf key -> destination_ok (key_address key) -> clock_ok wall ->
  exists text conn1 s', let answer := response (it_request_id task) NTB_IPC_PROTO_STATUS_SUCCESS (key_payload (key_address key) text) in
    handle_socket_event indet nonblock_error mail_error_text unknown_from_text (SocketKeyring wall (EventKeyMade c key)) s = Ok s' /\
    ntb_address_decode text = Ok (key_address key) /\ zlen text <= NTB_ADDRESS_MAX_LENGTH /\
    kr_keys (ipc_keyring s') = kr_keys (ipc_keyring s) ++ [key] /\ kr_cookie (ipc_keyring s') !! i = None /\ ipc_task s' = delete t (ipc_task s) /\
    ipc_connection s' = <[it_conn task := conn1]> (ipc_connection s) /\ answered (ic_set_tasks (filter (.≠ t) (ic_tasks conn)) conn) answer conn1 /\
    (forall pieces more, it_request_id task = 0 -> concat pieces = answer -> Forall (fun l => zlen l <= 512) pieces ->
      ntb_keygen indet ((ReadBytes <$> pieces) ++ ReadEnd :: more) = Ok (Some (text ++ [10]))) /\
    handle_socket_event indet nonblock_error mail_error_text unknown_from_text (SocketKeyring wall (EventCrypto c (AnswerKey key))) s' = UB.
Proof.
  intros Hr Hc Hk Hf Ht Hconn Hroom Hw Ha Hwall. pose proof (socket_reachable_ipc indet nonblock_error mail_error_text unknown_from_text Hindet Htexts M s Hr) as Hr1.
  pose proof (ipc_reachable_inv indet nonblock_error mail_error_text unknown_from_text Hindet Htexts M s Hr1) as Hi.
  pose proof (in_keyring _ _ _ Hi) as Hkr. cbn [ks_ok keyring_service_laws] in Hkr. destruct (reachable_ok _ Hkr) as [Hki _].
  destruct (create_key_cb_spec _ _ _ _ _ _ _ _ _ Hki Hc Hk Hw) as (kr & E & _ & _ & Ecr & Eck).
  assert (Ekeys : kr_keys kr = kr_keys (ipc_keyring s) ++ [key]) by (revert E; unfold create_key_cb; rewrite Hk; cbn [need]; rewrite bind_ret_l; intros [= <-]; by destruct (kc_func k)).
  assert (Eh : handle_event wall (EventKeyMade c key) (ipc_keyring s) = Ok kr) by (cbn [handle_event]; rewrite Hc; cbn [need]; by rewrite bind_ret_l).
  assert (Hok : keyring_reachable kr) by (apply (reachable_event wall (EventKeyMade c key) (ipc_keyring s)); [done| |done]; split; [done|]; exists params, leading_zeroes, i; split; [done|]; split; [by eexists|done]).
  assert (Hp : key_requests (ipc_keyring s) !! i = Some t) by (unfold key_requests; by rewrite lookup_omap, Hk).
  assert (Ep : key_requests kr = delete i (key_requests (ipc_keyring s))) by (unfold key_requests; by rewrite Eck, omap_delete).
  destruct (key_answered_core indet M s i key kr t task conn Hi Hp Ht Hconn Hroom Ha Hok Ep) as (text & conn1 & s' & Ea & Ed & Hz & Ek' & A2 & A3 & A4 & A5).
  exists text, conn1, s'. cbv zeta. split; [|split; [exact Ed|split; [exact Hz|split; [by rewrite Ek'|split; [by rewrite Ek', Eck, lookup_delete_eq|split; [exact A2|split; [exact A3|split; [exact A4|split; [exact A5|]]]]]]]]].
  - cbn [handle_socket_event]. rewrite Eh, bind_ret_l. unfold created_key, answered_request. rewrite Hc. cbn [mbind option_bind]. rewrite Hp. cbn [mbind option_bind]. exact Ea.
  - cbn [handle_socket_event handle_event]. rewrite Ek', Ecr, Hc. cbn [need]. rewrite bind_ret_l, create_key_cb_again; [done|]. by rewrite Eck, lookup_delete_eq.
Qed.
End socket_theorems.

(** ** The hypotheses can hold *)

Section ipc_witness.
#[local] Existing Instances Digests_toy DigestLaws_toy BigNum_N BigNumLaws_N Elliptic_toy EllipticLaws_toy Symmetric_toy SymmetricLaws_toy Digest256_toy Ecdsa_toy EcdsaLaws_toy Inet_toy InetLaws_toy.

Definition demo_fails : Z -> option (list Z) := fun _ => None.
Definition demo_error_text : mail_error unit -> list Z := fun _ => str_bytes "invalid".
Definition demo_unknown : list Z := str_bytes "unknown".
Abbreviation demo_handle := (handle_ipc_event 0 demo_fails demo_error_text demo_unknown).
Abbreviation demo_ipc_reachable := (ipc_reachable 0 demo_fails demo_error_text demo_unknown).

Lemma demo_texts : texts_small demo_fails demo_error_text demo_unknown.
Proof. split_and!; [intros e; vm_compute; congruence|vm_compute; congruence|done]. Qed.
Lemma demo_byte : is_byte 0.
Proof. unfold is_byte. lia. Qed.

(** A key ring without keys. *)
Lemma demo_ring : exists kr, keyring_reachable kr /\ key_requests kr = ∅.
Proof.
  assert (Hs : stored_ok [] [] []) by (split; constructor).
  destruct (started_total (ONW := Network_objects) 1000000 example_connected [] [] [] []) as (kr & E & _); [unfold clock_ok; lia|exact example_connected_good|exact Hs|].
  exists kr. split; [|exact (started_requests (ONW := Network_objects) _ _ _ _ _ _ _ E)].
  eapply (reachable_start (ONW := Network_objects)); [|exact example_connected_good|exact Hs|exact E]. unfold clock_ok. lia.
Qed.

(** A client connects, and sends an email with the descriptor 7. *)
Definition demo_conn : ntb_ipc_connection := IpcConn 5 true false false false ntb_buffer_init ntb_buffer_init [] [] [] 0.
Definition demo_accepted kr : ntb_ipc (ntb_keyring) := Ipc 1000 true kr [0%nat] (<[0%nat := demo_conn]> ∅) ∅ ∅ 1 [].
Definition demo_email_command : list Z := ipc_frame (str_bytes "email") 3 [].

Lemma demo_accept kr : keyring_reachable kr -> key_requests kr = ∅ -> demo_ipc_reachable ∅ (demo_accepted kr).
Proof.
  intros Hr Hk. apply (ipc_next_event 0 demo_fails demo_error_text demo_unknown ∅ (ntb_ipc_new 1000 kr) (IpcAccept (Some (5, Some 1000)))); [by apply ipc_start|exact I|reflexivity].
Qed.

Lemma ipc_client_reads_witness : exists b,
  ntb_ipc_client_get_response 0 [ReadBytes (take 30 (ipc_stream [(str_bytes "other", 0, []); (str_bytes "response", 0, [0; 0; 0; 0; 104; 105])]));
    ReadBytes (drop 30 (ipc_stream [(str_bytes "other", 0, []); (str_bytes "response", 0, [0; 0; 0; 0; 104; 105])])); ReadEnd] ntb_buffer_init 0 = Ok (None, b) /\ repr b [104; 105].
Proof.
  set (cs := [(str_bytes "other", 0, []); (str_bytes "response", 0, [0; 0; 0; 0; 104; 105])] : list ipc_command).
  apply (ipc_client_reads 0 [take 30 (ipc_stream cs); drop 30 (ipc_stream cs)] [] 0 ntb_buffer_init cs).
  - apply (bool_decide_unpack _). vm_compute. exact I.
  - split; [by apply (bool_decide_unpack _)|done].
  - vm_compute. reflexivity.
  - cbn [concat]. by rewrite app_nil_r, take_drop.
  - apply (bool_decide_unpack _). vm_compute. exact I.
Defined.

Definition demo_options : keygen_options := KeygenOptions 0 1 1 0 0 (str_bytes "me").

Lemma demo_options_ok : keygen_options_ok demo_options /\ keygen_supported demo_options.
Proof. split; apply (bool_decide_unpack _); vm_compute; exact I. Qed.



(** The key of that request is made. *)
Definition demo_created_key : ntb_key := Key (Address 4 1 (replicate 20 7)) (replicate 32 7) (replicate 32 7) [] 1000 1000 0 (demo_crypto_key 7) (demo_crypto_key 8) true false.
Definition demo_asked : ipc_event (K := ntb_keyring) := IpcPoll false 0 (PollIn (RecvBytes (keygen_sent demo_options) [])).
Abbreviation demo_socket_reachable := (socket_reachable (ONW := Network_objects) 0 demo_fails demo_error_text demo_unknown).

Lemma demo_asked_ok kr : ipc_event_ok ∅ demo_asked (demo_accepted kr).
Proof.
  exists demo_conn. split; [reflexivity|]. split; [vm_compute; congruence|]. split; [apply (bool_decide_unpack _); vm_compute; exact I|]. split; [vm_compute; reflexivity|].
  split; [vm_compute; reflexivity|vm_compute; congruence].
Qed.
Lemma demo_created_key_wf : key_wf demo_created_key /\ destination_ok (key_address demo_created_key).
Proof. split; [|split; [apply (bool_decide_unpack _); vm_compute; exact I|done]]. exact (demo_key_wf 4 7 (or_intror eq_refl) (or_intror eq_refl)). Qed.

(** The client has asked for a key. *)
Lemma demo_asking kr : keyring_reachable kr -> key_requests kr = ∅ ->
  exists s c params leading_zeroes i k cookie conn, demo_socket_reachable ∅ s /\ kr_crypto (ipc_keyring s) !! c = Some (CRYPTO_CREATE_KEY params leading_zeroes i) /\
    kr_cookie (ipc_keyring s) !! i = Some k /\ kc_func k = Some 1%nat /\ ipc_task s !! 1%nat = Some (IpcTask 0 cookie 0) /\
    ipc_connection s !! 0%nat = Some conn /\ buf_length (ic_outbuf conn) = 0.
Proof.
  intros Hr Hk. pose proof (demo_accept kr Hr Hk) as Hacc.
  assert (Hsock : demo_socket_reachable ∅ (demo_accepted kr)) by (apply (socket_next (ONW := Network_objects) 0 demo_fails demo_error_text demo_unknown ∅ (ntb_ipc_new 1000 kr) (SocketAccept (Some (5, Some 1000)))); [by apply socket_start|exact I|reflexivity]).
  destruct (keygen_arrives 0 demo_fails ∅ false 0 demo_conn (keygen_sent demo_options) [] demo_options [] (demo_accepted kr)) as (c' & s' & E & Hi' & Hrec & Hres);
    [exact (ipc_reachable_inv 0 demo_fails demo_error_text demo_unknown demo_byte demo_texts _ _ Hacc)|reflexivity|vm_compute; congruence|apply (bool_decide_unpack _); vm_compute; exact I|vm_compute; reflexivity|apply demo_options_ok|by left|by rewrite app_nil_r|reflexivity|].
  destruct Hres as (cookie & k & Ec & Es). change (ipc_next (ipc_set_connection _ (demo_accepted kr))) with 1%nat in *. change (ipc_keyring (ipc_set_connection _ (demo_accepted kr))) with kr in *.
  pose proof (socket_next (ONW := Network_objects) 0 demo_fails demo_error_text demo_unknown ∅ _ (SocketPoll false 0 (PollIn (RecvBytes (keygen_sent demo_options) []))) s' Hsock (demo_asked_ok kr) E) as Hr1.
  destruct (create_reachable (ONW := Network_objects) (keygen_request demo_options) 1 1%nat kr Hr eq_refl) as (cookie2 & k2 & E2 & Hk2 & _ & Ep).
  change (ntb_keyring_create_key (keygen_request demo_options) 1 (Some 1%nat) kr = Ok (cookie, k)) in Ec. rewrite Ec in E2. injection E2 as <- <-.
  assert (Hp : key_requests k !! cookie = Some 1%nat) by (rewrite Ep; apply lookup_insert_eq). unfold key_requests in Hp. rewrite lookup_omap in Hp. destruct (kr_cookie k !! cookie) as [kc|] eqn:Ekc; [|discriminate Hp].
  destruct (inv_cookies _ _ _ (proj1 (reachable_ok _ Hk2)) cookie kc Ekc) as (params & z & Ecr). destruct Hrec as (_ & _ & _ & Eo & _).
  assert (Ekr : ipc_keyring s' = k) by (by rewrite Es). exists s', (kc_crypto_cookie kc), params, z, cookie, kc, cookie, (ic_set_tasks (1%nat :: ic_tasks c') c'). rewrite Ekr.
  split; [exact Hr1|]. split; [exact Ecr|]. split; [exact Ekc|]. split; [exact Hp|]. rewrite Es. cbn [ipc_set_connection ipc_set_task ipc_set_next ipc_set_keyring ipc_task ipc_connection]. rewrite !lookup_insert_eq.
  split; [reflexivity|]. split; [reflexivity|]. cbn. by rewrite Eo.
Qed.


Lemma ipc_key_answered_witness : exists s c s' text, demo_socket_reachable ∅ s /\
  handle_socket_event (ONW := Network_objects) 0 demo_fails demo_error_text demo_unknown (SocketKeyring 1000000 (EventKeyMade c demo_created_key)) s = Ok s' /\
  ntb_address_decode text = Ok (key_address demo_created_key) /\
  ntb_keygen 0 [ReadBytes (response 0 NTB_IPC_PROTO_STATUS_SUCCESS (key_payload (key_address demo_created_key) text)); ReadEnd] = Ok (Some (text ++ [10])) /\
  handle_socket_event (ONW := Network_objects) 0 demo_fails demo_error_text demo_unknown (SocketKeyring 1000000 (EventCrypto c (AnswerKey demo_created_key))) s' = UB.
Proof.
  destruct demo_ring as (kr & Hr & Hk). destruct (demo_asking kr Hr Hk) as (s & c & params & z & i & k & cookie & conn & Hs & Hc & Hck & Hf & Ht & Hconn & Hout).
  destruct (ipc_key_answered (ONW := Network_objects) 0 demo_fails demo_error_text demo_unknown demo_byte demo_texts 1000000 ∅ s c params z i k 1 demo_created_key (IpcTask 0 cookie 0) conn Hs Hc Hck Hf Ht Hconn)
    as (text & conn1 & s' & E & Ed & Hz & _ & _ & _ & _ & _ & Hprint & Eub);
    [rewrite Hout; vm_compute; congruence|apply demo_created_key_wf|apply demo_created_key_wf|unfold clock_ok; lia|].
  exists s, c, s', text. split; [exact Hs|]. split; [exact E|]. split; [exact Ed|]. split; [|exact Eub].
  apply (Hprint [response 0 NTB_IPC_PROTO_STATUS_SUCCESS (key_payload (key_address demo_created_key) text)] []); [reflexivity|apply app_nil_r|]. constructor; [|constructor].
  rewrite zlen_response. unfold key_payload, NTB_ADDRESS_MAX_LENGTH in *. rewrite !zlen_app, zlen_cons. pose proof (zlen_enc_var_int (addr_version (key_address demo_created_key))).
  pose proof (zlen_enc_var_int (addr_stream (key_address demo_created_key))). change (zlen (addr_ripe (key_address demo_created_key))) with 20. lia.
Defined.
(** The mail of [MailParserSpec] arrives. *)
Definition demo_command : ipc_event (K := ntb_keyring) := IpcPoll false 0 (PollIn (RecvBytes demo_email_command [7])).
Definition demo_data : ipc_event (K := ntb_keyring) := IpcEmail 1 (ReadBytes (concat example_mail)).
Definition demo_next (ev : ipc_event (K := ntb_keyring)) (s : ntb_ipc ntb_keyring) : ntb_ipc ntb_keyring := match demo_handle ev s with Ok s' => s' | _ => s end.
Definition demo_read (kr : ntb_keyring) : ntb_ipc ntb_keyring := demo_next demo_data (demo_next demo_command (demo_accepted kr)).
Definition demo_mails : gmap nat (list Z) := mails_after (mails_after ∅ demo_command) demo_data.

Lemma demo_next_reachable M ev s : demo_ipc_reachable M s -> ipc_event_ok M ev s -> demo_ipc_reachable (mails_after M ev) (demo_next ev s).
Proof.
  intros Hr Hev. unfold demo_next. destruct (ipc_event_total 0 demo_fails demo_error_text demo_unknown demo_byte demo_texts M ev s) as (s' & E & _);
    [exact (ipc_reachable_inv 0 demo_fails demo_error_text demo_unknown demo_byte demo_texts _ _ Hr)|exact Hev|]. rewrite E. by eapply ipc_next_event.
Qed.

Lemma demo_command_ok kr : ipc_event_ok ∅ demo_command (demo_accepted kr).
Proof.
  exists demo_conn. split; [reflexivity|]. split; [vm_compute; congruence|]. split; [apply (bool_decide_unpack _); vm_compute; exact I|]. split; [vm_compute; reflexivity|].
  split; [vm_compute; reflexivity|vm_compute; congruence].
Qed.

Lemma some_email {A B} (m : gmap nat A) (f : A -> nat) (n : gmap nat B) e (P : B -> bool) :
  match m !! e with Some a => match n !! f a with Some b => P b | None => false end | None => false end = true -> exists a b, m !! e = Some a /\ n !! f a = Some b /\ P b = true.
Proof. destruct (m !! e) as [a|]; [|done]. destruct (n !! f a) as [b|] eqn:E; [|done]. intros Hp. by exists a, b. Qed.

Lemma demo_data_ok kr : ipc_event_ok ∅ demo_data (demo_next demo_command (demo_accepted kr)).
Proof.
  destruct (some_email (ipc_email (demo_next demo_command (demo_accepted kr))) em_conn (ipc_connection (demo_next demo_command (demo_accepted kr))) 1 (fun c => buf_length (ic_outbuf c) =? 0))
    as (em & c & Hem & Hc & Hz); [vm_compute; reflexivity|]. apply Z.eqb_eq in Hz.
  exists em, c. split; [exact Hem|]. split; [exact Hc|]. split; [rewrite Hz; vm_compute; congruence|]. split; [apply (bool_decide_unpack _); vm_compute; exact I|].
  split; [vm_compute; congruence|]. split; [vm_compute; congruence|]. vm_compute. exact I.
Qed.

Lemma demo_read_reachable kr : keyring_reachable kr -> key_requests kr = ∅ -> demo_ipc_reachable demo_mails (demo_read kr).
Proof.
  intros Hr Hk. apply demo_next_reachable; [|exact (demo_data_ok kr)]. apply demo_next_reachable; [|exact (demo_command_ok kr)]. by apply demo_accept.
Qed.

Lemma ipc_mail_sent_witness : exists kr em c s' status text, demo_handle (IpcEmail 1 ReadEnd) (demo_read kr) = Ok s' /\
  email_ended 1 em c status text (demo_read kr) s' /\ mail_outcome demo_error_text demo_unknown (concat example_mail) (demo_read kr) s' status text.
Proof.
  destruct demo_ring as (kr & Hr & Hk). destruct (some_email (ipc_email (demo_read kr)) em_conn (ipc_connection (demo_read kr)) 1 (fun c => buf_length (ic_outbuf c) =? 0)) as (em & c & Hem & Hc & Hz);
    [vm_compute; reflexivity|]. apply Z.eqb_eq in Hz. assert (Em : mail_of demo_mails 1 = concat example_mail) by (vm_compute; reflexivity).
  destruct (ipc_mail_sent 0 demo_fails demo_error_text demo_unknown demo_byte demo_texts demo_mails 1 em c (demo_read kr) (demo_read_reachable kr Hr Hk) Hem Hc) as (s' & status & text & E & He & Ho);
    [rewrite Hz; vm_compute; congruence|vm_compute; exact I|]. rewrite Em in Ho. exists kr, em, c, s', status, text. split; [exact E|]. split; [exact He|exact Ho].
Defined.
End ipc_witness.
